(* ===== verification/_CoqProject ===== *)
-Q . S2P
Prelude.v
GoLib.v
JSON.v
Strconv.v
Model.v
StateStore.v
MemoryStore.v
DynamoDB.v
DynamoStore.v
DynamoPages.v
DynamoItems.v
DynamoRefine.v
DynamoReference.v
DynamoDemo.v
Tenant.v
MemoryQueue.v
World.v
TaskService.v
Artifacts.v
Engine.v
Worker.v
Ops.v
System.v
Interference.v
Router.v
Stream.v
Encoding.v
FileSystem.v
Workspace.v
WorkspaceRestore.v
WorkspaceSnapshot.v
FSTools.v
API.v
APISafety.v
SQSQueue.v
S3Store.v
Config.v
Commands.v
Logging.v
URL.v
OpenAI.v
OpenAIStream.v
LLMFactory.v
Scheduler.v
Metrics.v
Processes.v
