(* ===== verification/Prelude.v ===== *)
(** * AgentForge: a verification development (root file)

    AgentForge (src/) runs LLM agents as durable tasks.  A client creates a task through the
    HTTP API and the task service; the service stores a task and a run in a metadata store and
    puts a message on a queue.  A worker takes the message, claims the run, and the engine
    executes it: a loop of model calls, tool calls in a workspace, checkpoints in an artifact
    store, and events pushed to the connections of the task.  A tenant manager limits what each
    tenant may enqueue and run.  A run can be aborted, and resumed from the checkpoint of any of
    its steps; scheduled jobs recover stale runs and repair drift.  Store, queue and artifact
    store exist twice: in memory, and on DynamoDB, SQS and S3.

    ** Files and the code they model

    Foundations:
    - [Prelude] (this file): results, a state monad, record update, tactics, 64-bit integers.
    - [GoLib]: what the code uses of the Go library: errors with [errors.Is], float64 (IEEE
      binary64 of the Standard Library), time, strings and UTF-8, formatting, sorting.
    - [JSON], [Strconv], [Encoding]: encoding/json (scanner with its errors, writer, decoding
      into structs), strconv and time.ParseDuration, base64.
    - [URL]: net/url and net.ParseIP.
    - [Model]: the structs and enumerations of src/pkg/model.

    State and queues:
    - [StateStore]: the interface [state.Store] (src/pkg/state/store.go) as the class
      [StateStore], and [StateStoreLaws], what its clients rely on.
    - [MemoryStore]: every operation of src/pkg/state/memory_store.go on the record
      [MemoryStore] of maps; [MemoryStore_laws] discharges the interface.  A mutex protects
      each operation, so an execution is a sequence of operations ([exec_ops]).
    - [DynamoDB]: the service as an abstract state of tables with conditions, transactions,
      pages and failures.  [DynamoStore]: the operations of src/pkg/state/dynamo_store.go;
      [DynamoPages]: its paged listings; [DynamoItems], [DynamoReference], [DynamoRefine]: the
      reference semantics on the in-memory store and the simulation; [DynamoDemo]: examples.
    - [Tenant]: src/pkg/tenant/manager.go: admission, reservations, budgets and the circuit
      breaker, one definition per method.
    - [MemoryQueue]: src/pkg/queue/memory_queue.go: the methods, and the goroutines (ingress,
      workers, retry timers, callers) as the step relation [qstep]; its theorems are
      invariants of every interleaving, and [popEligibleLocked] refines an abstract ring of
      tenants.
    - [SQSQueue]: src/pkg/queue/sqs_queue.go: construction, Enqueue, and the consumer with
      batches, handler goroutines and heartbeats as a step relation.

    Services and execution:
    - [World]: the store, the queue, the clock, the random source and the environment the
      services use, the queue behind the class [MessageQueue].
    - [TaskService]: src/pkg/task/service.go and estimation.go, and
      src/internal/promptpolicy/policy.go, against the two interfaces.
    - [Artifacts]: src/pkg/artifact/memory_store.go, src/pkg/memory/snapshot.go and
      src/pkg/engine/workspace_snapshot.go, with an executable SHA-256.  [S3Store]:
      src/pkg/artifact/s3_store.go.
    - [Engine]: src/pkg/engine/engine.go with llm.go, tool.go, registry.go, pricing.go: the
      stages of the loop body of [Execute] and their composition.
    - [Worker]: src/pkg/engine/worker.go: [handleMessage] and [finalizeRun].
    - [Ops]: src/internal/ops: recovery of stale runs, consistency check and repair, event
      compaction, and one pass of the scheduler.
      [Scheduler]: the loop around such passes, and what a whole pass does.
    - [System]: the composition of service, message, worker and recovery.
    - [Interference]: the worker on a store that other clients use between its writes.

    Models and tools:
    - [Router]: src/pkg/engine/router.go: route plans and the fallback chain of a routed
      model client, which is an instance of the engine's [LLMClient].
    - [OpenAI], [OpenAIStream]: src/pkg/engine/openai_llm.go: requests, base URL, retries,
      answers and streams of events.  [LLMFactory]: llm_factory.go and mock_llm.go; its
      [AnyClient] is an instance of the router's [ProviderClient].
    - [FileSystem]: the operating system's files with symbolic links, where any call may fail.
      [Workspace], [WorkspaceRestore], [WorkspaceSnapshot]: src/pkg/workspace/local.go; a path is
      checked before the lock is taken, and an operation is one step from there on.
      [FSTools]: src/pkg/engine/fs_tools.go.

    Edges:
    - [Stream]: src/pkg/stream/chunker.go (step relation [cstep]) and aws_pusher.go.
    - [API]: src/pkg/api: requests to answers, with identities, bodies and status codes.
      [APISafety]: what any request can do and see.
    - [Config]: src/internal/config/runtime.go.  [Commands]: how the processes of src/cmd build
      their parts, the Lambda handlers, readiness, metrics.  [Metrics]: the counters under
      concurrency.  [Logging]: src/internal/util/log.go and src/internal/telemetry/otel.go.
    - [Processes]: the main functions: start-up with its fatal errors, and the goroutines of the
      Task API and the worker until the process ends.

    ** What the theorems show

    - Store: a run is claimed at most once between two resets, records are found under their
      own keys, an operation that fails has no effect (with one exception, which is stated),
      steps are written once, listings and paged event replay are exact.  On the operations of
      [op_ok] the DynamoDB store gives the results of the in-memory store as long as the service
      answers, and when calls fail an operation happened completely or not at all; its listings terminate and are complete however the service
      cuts its pages.  [op_ok] takes the changes of tasks, runs, steps and connections, but
      not AddRunUsage, PutEvent, CompactEvents, PutTask with an idempotency key, updates that
      expect no status, empty ids and task ids with a number sign.
    - Queue: no two waiting or running messages have the same key, messages of a tenant are
      dispatched in order, a tenant never runs more handlers than its policy allows, the
      scheduler is a fair ring; what an attempt's ending does, and which messages get lost.  On
      SQS a message is deleted only when it was handled or cannot be decoded.
    - Tenant: the limits hold after every sequence of calls and changes of policy, the token
      budget when estimates do not overflow and completions stay within their reservations; the
      breaker opens, lets one probe through, and closes; a cancelled admission is undone; the
      integer and floating-point limits of the accounting.
    - Service and API: tasks of other tenants and users cannot be changed and look like missing
      ones, connections stream only tasks of their tenant that belong to their user or to nobody,
      creation is idempotent up to a refusal of the queue, what creation and resumption store
      and enqueue, normalized configurations.
    - Artifacts, engine and worker: snapshots round-trip and are checked, the S3 store refines
      the in-memory one and reports a failing service as such, a run resumed from a checkpoint
      starts with the saved memory and files, executions end in a final status, their totals are
      those of the answers they got, and successful ones are within the caps and the step limit,
      events are numbered without
      gaps, an abort stops the run before the next model call, a handled message leaves run and
      task in matching final statuses and a duplicate delivery changes nothing.
    - System: a created task, and a task whose stale run was recovered, reaches a final
      status when its message is handled, SUCCEEDED, FAILED or ABORTED like its run; what a
      worker writes and how it leaves run and task whatever other clients do to the store
      meanwhile, if they leave the claimed run to it.
    - Models: plans without duplicates that respect the cost cap and for which every candidate has
      a client; attempts in the order of the plan, continued only after errors worth a fallback;
      at most three requests for an answer, the length of the pauses between them, and what the
      end of the context does to them; streaming changes nothing but the tokens.
    - Workspace and tools: nothing outside the root is changed but for the temporary archive
      of an export that cannot be removed, quotas hold, what is written is found at the place
      of its name, a restore that fails keeps the old tree unless only the final count failed,
      snapshots round-trip.
    - Stream: the chunker loses and strands nothing in any interleaving.
    - Ops: a recovery pass puts back exactly the stale active runs among those it lists, with
      their tasks and one message each; no pass touches anything but statuses, times, step
      indices and old events; the repair of a reported status or step drift settles it; the loop
      runs exactly one pass for a zero interval.
    - Configuration, logs and counters: what loads is well formed; one line for each log call; no
      request is lost from the counters.
    - Processes: all processes work on the same parts, when and how a process ends, and that the
      worker process drains its messages while the Task API does not.
    - Some theorems and examples state defects of the code as it is; their comments say so.

    ** Conventions

    An operation maps the state before to the state after and the Go result; an error is a
    value of [result].  A pointer that the code compares with nil is an [option]; a map is a
    [gmap], a slice a list.  Go's [int] and [int64] are [Z], with [add64] and [sub64] where the
    code can reach the bounds; step indices and list lengths stay far from them and are
    added in [Z].  Readings of the clock, of randomness and of the environment are arguments
    or come from an environment record indexed by a counter, so the theorems hold for all of
    them.  Loops are structural recursions, over the list they traverse or over the step
    limit ([engine_loop] takes [MaxSteps] as a [nat]).  The byte and file totals of the workspace
    are [Z] where the code has int64; the difference shows only near 2^63 bytes.  Where a recursion takes fuel, a lemma
    shows that the fuel given is enough: [pop_loop] gets the number of tenants and one more
    ([pop_spec]), the JSON scanner two units for each byte ([parse_fuel_enough]), the page loops
    of [DynamoPages] the number of items ([listings_complete]), the decimal printer of [GoLib] the
    number of bits ([dec_digits_fuel]).  The attempts of [OpenAI] count down from three.
    Outside code is a parameter, with what the code relies on as the laws of a class that a
    witness instantiates: DynamoDB, SQS, S3, API Gateway, Secrets Manager, the HTTP transport, the
    OpenTelemetry SDK, gzip and the attribute codec.  [regexp], the Unicode tables beyond ASCII
    and the wording of JSON type errors are parameters too (classes [TextLib], [Unicode],
    [JSONText]).

    ** What is not modelled

    The places where log lines, spans and counters are written, which do not influence
    results; the HTTP server itself (connections, timeouts, encoding of answers), of which
    [Processes] keeps the number of open requests and the effect of Shutdown; the text of the
    scheduler's log lines.  The file system has directories, files and symbolic links but no
    hard links, so a write through a hard link to a file outside the workspace cannot be
    expressed.  The handler of a message is one sequence of store operations;
    interleavings with other clients are the subject of [MemoryStore], [Interference], the
    queues and the chunker.  Recovery that resets a run which a slow worker still executes is
    outside the hypothesis of [Interference] and stated as a finding of [Ops]. *)

From Stdlib Require Export ZArith Lia.
From stdpp Require Export base gmap strings list sorting numbers.

#[global] Open Scope Z_scope.

(** ** Go results: a value or an error *)

Inductive result (E A : Type) : Type :=
| Ok (a : A)
| Err (e : E).
Arguments Ok {E A} a.
Arguments Err {E A} e.

Definition is_ok {E A} (r : result E A) : bool :=
  match r with Ok _ => true | Err _ => false end.

(** ** A state monad

    Handlers that read and change the state of several components are written
    in this monad.  Errors are ordinary results, as in Go. *)

Definition ST (W A : Type) : Type := W -> W * A.

#[global] Instance ST_ret W : MRet (ST W) := fun A a w => (w, a).

#[global] Instance ST_bind W : MBind (ST W) := fun A B k m w =>
  let '(w', a) := m w in k a w'.

Definition getW {W} : ST W W := fun w => (w, w).
Definition modifyW {W} (f : W -> W) : ST W unit := fun w => (f w, tt).

Lemma ST_bind_ret {W A B} (a : A) (k : A -> ST W B) :
  (mret a : ST W A) ≫= k = k a.
Proof. reflexivity. Qed.

Lemma ST_bind_run {W A B} (m : ST W A) (k : A -> ST W B) (w : W) :
  (m ≫= k) w = k (m w).2 (m w).1.
Proof. unfold mbind, ST_bind. by destruct (m w). Qed.

(** ** Record update

    [r <| f := v |>] is the record [r] with field [f] replaced.  A record type
    declares its eta expansion once; the update of a field is found from it. *)

Class Eta (R : Type) := eta : R -> R.
Class Upd {R T : Type} (proj : R -> T) := upd : (T -> T) -> R -> R.

Ltac solve_upd :=
  lazymatch goal with
  | |- @Upd ?R ?T ?proj =>
      let e := eval unfold eta in (@eta R _) in
      let h := (match goal with _ => eval red in e end) in
      let g := (eval pattern proj in h) in
      lazymatch g with
      | (fun _ => ?b) _ => fail "not a field of the record"
      | ?G _ => let t := eval cbv beta in (fun f : T -> T => G (fun r => f (proj r))) in exact t
      end
  end.

#[export] Hint Mode Upd + + + : typeclass_instances.
#[export] Hint Extern 1 (Upd _) => solve_upd : typeclass_instances.

Notation "r <| proj := v |>" := (@upd _ _ proj _ (fun _ => v) r)
  (at level 1, left associativity, format "r  <|  proj  :=  v  |>").
Notation "r <| proj ::= f |>" := (@upd _ _ proj _ f r)
  (at level 1, left associativity, format "r  <|  proj  ::=  f  |>").

(** ** Tactics of the development *)

(** Reduce record projections of updated records and case-split the boolean
    tests of the translated code. *)
Ltac upd_simpl := repeat (cbn [upd] in *; cbn in *).

(** Split the innermost [match] or [if] of the goal, remembering the equation. *)
Ltac split_match :=
  match goal with
  | |- context [match ?x with _ => _ end] =>
      lazymatch x with
      | context [match _ with _ => _ end] => fail
      | _ => destruct x eqn:?
      end
  end.

(** Split the outermost [if] of the goal. *)
Tactic Notation "case_if" "as" ident(H) :=
  match goal with |- context [if ?b then _ else _] => destruct b eqn:H end.
Tactic Notation "case_if" := let H := fresh "Hif" in case_if as H.

(** The same for a hypothesis. *)
Ltac split_match_in H :=
  match type of H with
  | context [match ?x with _ => _ end] =>
      lazymatch x with
      | context [match _ with _ => _ end] => fail
      | _ => destruct x eqn:?
      end
  end.

(** Turn boolean comparisons in the context into propositions. *)
Ltac bool_prop :=
  repeat match goal with
  | H : (_ && _)%bool = true |- _ => apply andb_true_iff in H; destruct H
  | H : (_ || _)%bool = false |- _ => apply orb_false_iff in H; destruct H
  | H : negb _ = true |- _ => apply negb_true_iff in H
  | H : negb _ = false |- _ => apply negb_false_iff in H
  | H : (_ <? _) = true |- _ => apply Z.ltb_lt in H
  | H : (_ <? _) = false |- _ => apply Z.ltb_ge in H
  | H : (_ <=? _) = true |- _ => apply Z.leb_le in H
  | H : (_ <=? _) = false |- _ => apply Z.leb_gt in H
  | H : (_ =? _) = true |- _ => apply Z.eqb_eq in H
  | H : (_ =? _) = false |- _ => apply Z.eqb_neq in H
  | H : bool_decide _ = true |- _ => apply bool_decide_eq_true in H
  | H : bool_decide _ = false |- _ => apply bool_decide_eq_false in H
  end.

(** ** Machine integers

    Go's [int] and [int64] are 64-bit two's complement on the supported
    platforms; every addition and subtraction of the model wraps around. *)

Definition two63 : Z := 9223372036854775808.
Definition two64 : Z := 18446744073709551616.
Definition max_int64 : Z := 9223372036854775807.
Definition min_int64 : Z := -9223372036854775808.

Definition wrap64 (z : Z) : Z := (z + two63) mod two64 - two63.
Definition add64 (a b : Z) : Z := wrap64 (a + b).
Definition sub64 (a b : Z) : Z := wrap64 (a - b).
Definition in_int64 (z : Z) : Prop := min_int64 <= z <= max_int64.

Lemma wrap64_id z : in_int64 z -> wrap64 z = z.
Proof.
  unfold in_int64, wrap64, min_int64, max_int64, two63, two64. intros H.
  rewrite Z.mod_small; lia.
Qed.

Lemma wrap64_range z : in_int64 (wrap64 z).
Proof.
  unfold in_int64, wrap64, min_int64, max_int64, two63, two64.
  pose proof (Z.mod_pos_bound (z + 9223372036854775808) 18446744073709551616). lia.
Qed.

Lemma wrap64_add_l a b : wrap64 (wrap64 a + b) = wrap64 (a + b).
Proof.
  unfold wrap64. f_equal.
  replace ((a + two63) mod two64 - two63 + b + two63)
    with ((a + two63) mod two64 + b) by lia.
  rewrite Zplus_mod_idemp_l. f_equal. lia.
Qed.

Lemma wrap64_add_r a b : wrap64 (a + wrap64 b) = wrap64 (a + b).
Proof. rewrite (Z.add_comm a (wrap64 b)), wrap64_add_l. f_equal. lia. Qed.

Lemma wrap64_sub_l a b : wrap64 (wrap64 a - b) = wrap64 (a - b).
Proof. rewrite <- !Z.add_opp_r. apply wrap64_add_l. Qed.

Lemma add64_id a b : in_int64 (a + b) -> add64 a b = a + b.
Proof. apply wrap64_id. Qed.

Lemma sub64_id a b : in_int64 (a - b) -> sub64 a b = a - b.
Proof. apply wrap64_id. Qed.

(** The sum of two non-negative numbers that does not fit is negative. *)
Lemma add64_overflow_neg a b :
  0 <= a <= max_int64 -> 0 <= b <= max_int64 -> max_int64 < a + b -> add64 a b < 0.
Proof.
  unfold add64, wrap64, max_int64, two63, two64. intros Ha Hb Hs.
  assert ((a + b + 9223372036854775808) mod 18446744073709551616
          = a + b + 9223372036854775808 - 18446744073709551616) as ->; [|lia].
  rewrite Z.mod_eq by lia.
  assert ((a + b + 9223372036854775808) / 18446744073709551616 = 1) as ->; [|lia].
  symmetry. apply (Z.div_unique_pos _ _ _ (a + b + 9223372036854775808 - 18446744073709551616)); lia.
Qed.

Ltac unfold_int64 := unfold in_int64, min_int64, max_int64 in *.

Create HintDb agentforge.
#[export] Hint Resolve wrap64_range wrap64_id : agentforge.
Create Rewrite HintDb agentforge.
#[export] Hint Rewrite wrap64_add_l wrap64_add_r wrap64_sub_l : agentforge.

(** ** Lists *)

Lemma Forall_elem {A} (P : A -> Prop) l x : Forall P l -> x ∈ l -> P x.
Proof. rewrite list.Forall_forall. auto. Qed.
