(* ===== verification/GoLib.v ===== *)
(** * GoLib: the fragment of Go's standard library the program uses

    Errors with their wrapping chain, [time], IEEE-754 [float64], UTF-8 strings
    ([strings], [unicode/utf8], [strconv]) and the verbs of [fmt] that occur in
    the sources.  Strings are byte strings; the functions that Go defines on
    runes decode UTF-8 the way [utf8.DecodeRuneInString] does. *)

From Stdlib Require Import SpecFloat Ascii.
From S2P Require Import Prelude.

(** ** Errors

    A Go error value is the chain of sentinel errors that [errors.Is] walks and
    the text that [Error()] returns. *)

Inductive sentinel : Type :=
| SNotFound | SConflict | SAlreadyExists            (* state/store.go *)
| SValidation                                       (* task/service.go *)
| SPolicyViolation                                  (* tenant/manager.go *)
| SPromptTooLong | SPromptDenied                    (* promptpolicy/policy.go *)
| SArtifactNotFound                                 (* artifact/store.go *)
| SSnapshotIntegrity | SWorkspaceSnapshotIntegrity  (* memory, engine *)
| SPathTraversal | SQuotaBytes | SQuotaFiles        (* workspace/local.go *)
| SConnectionGone                                   (* stream/aws_pusher.go *)
| SNotExist | SExist                                (* os *)
| SCanceled | SDeadlineExceeded.                    (* context *)

#[global] Instance sentinel_eq_dec : EqDecision sentinel.
Proof. solve_decision. Defined.

Record error : Type := mkErr { err_chain : list sentinel; Error : string }.

#[global] Instance error_eq_dec : EqDecision error.
Proof. solve_decision. Defined.

(** [errors.Is] against a sentinel. *)
Definition errors_Is (e : error) (s : sentinel) : bool := bool_decide (s ∈ err_chain e).

(** [errors.New] with no sentinel of the program, and [fmt.Errorf("<p>%w", e)]. *)
Definition errors_New (msg : string) : error := mkErr [] msg.
Definition wrapf (p : string) (e : error) : error := mkErr (err_chain e) (p +:+ Error e).

Definition context_Canceled : error := mkErr [SCanceled] "context canceled".

(** ** Time

    A [time.Time] is a number of nanoseconds since the Unix epoch; the location
    is always UTC in the sources.  A [time.Duration] is an [int64] number of
    nanoseconds. *)

Definition Time : Type := Z.
Definition Duration : Type := Z.

Definition Nanosecond : Duration := 1.
Definition Millisecond : Duration := 1000000.
Definition Second : Duration := 1000000000.
Definition Minute : Duration := 60000000000.
Definition Hour : Duration := 3600000000000.

(** The zero [time.Time], January 1 of year 1. *)
Definition zero_time : Time := -62135596800000000000.
Definition time_IsZero (t : Time) : bool := t =? zero_time.
Definition time_Unix (t : Time) : Z := t / Second.
(** [t.Sub(u)] saturates at the ends of the [Duration] range. *)
Definition time_Sub (t u : Time) : Duration := Z.max min_int64 (Z.min max_int64 (t - u)).
Definition time_Add (t : Time) (d : Duration) : Time := t + d.
Definition time_Before (t u : Time) : bool := t <? u.
Definition time_After (t u : Time) : bool := u <? t.
Definition time_Equal (t u : Time) : bool := t =? u.
Definition Duration_Milliseconds (d : Duration) : Z := Z.quot d Millisecond.

(** ** float64

    IEEE-754 binary64 with round to nearest even, as specified by the Standard
    Library's [SpecFloat]. *)

Definition float64 : Type := spec_float.
#[global] Instance float64_eq_dec : EqDecision float64.
Proof. solve_decision. Defined.

Definition f_zero : float64 := S754_zero false.
Definition f_of_Z (z : Z) : float64 := binary_normalize 53 1024 z 0 false.
Definition f_add (x y : float64) : float64 := SFadd 53 1024 x y.
Definition f_sub (x y : float64) : float64 := SFsub 53 1024 x y.
Definition f_mul (x y : float64) : float64 := SFmul 53 1024 x y.
Definition f_div (x y : float64) : float64 := SFdiv 53 1024 x y.
Definition f_ltb (x y : float64) : bool := SFltb x y.
Definition f_gtb (x y : float64) : bool := SFltb y x.
Definition f_leb (x y : float64) : bool := SFleb x y.
Definition f_geb (x y : float64) : bool := SFleb y x.

(** A decimal literal [n/d] of the source, rounded once to the nearest float. *)
Definition f_lit (n d : Z) : float64 := f_div (f_of_Z n) (f_of_Z d).

(** [int64(math.Ceil(x))] for a finite [x] in range. *)
Definition f_ceil_int (x : float64) : Z :=
  match x with
  | S754_finite s m e =>
      let z := cond_Zopp s (Z.pos m) in
      if 0 <=? e then z * 2 ^ e else - ((- z) / 2 ^ (- e))
  | _ => 0
  end.

(** [int(x)] for a finite [x] in range: truncation toward zero. *)
Definition f_trunc_int (x : float64) : Z :=
  match x with
  | S754_finite s m e =>
      let z := cond_Zopp s (Z.pos m) in
      if 0 <=? e then z * 2 ^ e else Z.quot z (2 ^ (- e))
  | _ => 0
  end.

(** ** Bytes and decimal numerals *)

Definition byte_val (c : ascii) : Z := Z.of_N (N_of_ascii c).
Definition byte_of (z : Z) : ascii := ascii_of_N (Z.to_N z).

Abbreviation bytes_of := String.list_ascii_of_string.
Abbreviation string_of := String.string_of_list_ascii.

Definition digit (z : Z) : ascii := byte_of (48 + z).
Definition is_digit (c : ascii) : bool := (48 <=? byte_val c) && (byte_val c <=? 57).

Fixpoint dec_go (fuel : nat) (n : Z) (acc : list ascii) : list ascii :=
  match fuel with
  | O => acc
  | S f =>
      let acc' := digit (n mod 10) :: acc in
      if n <? 10 then acc' else dec_go f (n / 10) acc'
  end.

(** The decimal digits of [n >= 0]. *)
Definition dec_digits (n : Z) : list ascii := dec_go (S (Z.to_nat (Z.log2 n))) n [].

(** [fmt]'s [%d], and [%0wd], which pads with zeros after the sign. *)
Definition fmt_d (z : Z) : string :=
  if z <? 0 then String "-" (string_of (dec_digits (- z))) else string_of (dec_digits z).

Definition pad0 (w : nat) (l : list ascii) : list ascii := replicate (w - length l) "0"%char ++ l.

Definition fmt_0d (w : nat) (z : Z) : string :=
  if z <? 0 then String "-" (string_of (pad0 (w - 1) (dec_digits (- z))))
  else string_of (pad0 w (dec_digits z)).

(** The value of a digit string, continuing from [a]. *)
Definition parse_digits (a : Z) (l : list ascii) : Z :=
  fold_left (fun v c => 10 * v + (byte_val c - 48)) l a.

(** [strconv.Atoi]: an optional sign, then at least one digit, in [int64]. *)
Definition parse_uint (l : list ascii) : option Z :=
  match l with
  | [] => None
  | _ => if forallb is_digit l then Some (parse_digits 0 l) else None
  end.
Definition check_int64 (z : Z) : option Z :=
  if (min_int64 <=? z) && (z <=? max_int64) then Some z else None.
Definition Atoi (s : string) : option Z :=
  match bytes_of s with
  | [] => None
  | c :: l =>
      if Ascii.eqb c "-" then parse_uint l ≫= (fun v => check_int64 (- v))
      else if Ascii.eqb c "+" then parse_uint l ≫= check_int64
      else parse_uint (c :: l) ≫= check_int64
  end.

(** [fmt]'s [%x] on bytes. *)
Definition hex_digit (z : Z) : ascii := if z <? 10 then digit z else byte_of (87 + z).
Definition hex_of (l : list ascii) : list ascii :=
  flat_map (fun c => [hex_digit (byte_val c / 16); hex_digit (byte_val c mod 16)]) l.
Definition fmt_x (s : string) : string := string_of (hex_of (bytes_of s)).

(** [fmt]'s [%.<p>f]: the exact binary value rounded half to even at [p] digits. *)
Definition fmt_f (p : nat) (x : float64) : string :=
  match x with
  | S754_nan => "NaN"
  | S754_infinity false => "+Inf"
  | S754_infinity true => "-Inf"
  | S754_zero s => (if s then "-" else "") +:+ "0." +:+ string_of (replicate p "0"%char)
  | S754_finite s m e =>
      let num := Z.pos m * 10 ^ Z.of_nat p * 2 ^ (Z.max 0 e) in
      let den := 2 ^ (Z.max 0 (- e)) in
      let q := num / den in
      let r := num mod den in
      let q' := if (den <? 2 * r) || ((2 * r =? den) && Z.odd q) then q + 1 else q in
      (if s then "-" else "") +:+ string_of (dec_digits (q' / 10 ^ Z.of_nat p)) +:+ "." +:+
      string_of (pad0 p (dec_digits (q' mod 10 ^ Z.of_nat p)))
  end.

(** ** UTF-8

    [decode_runes] is the sequence of runes of a byte string with the bytes each
    one takes; an invalid byte is the rune U+FFFD of width one. *)

Definition rune_error : Z := 65533.
Definition is_cont (c : ascii) : bool := (128 <=? byte_val c) && (byte_val c <=? 191).
Definition byte_in (lo hi : Z) (c : ascii) : bool := (lo <=? byte_val c) && (byte_val c <=? hi).

(** The bounds of the second byte after the first byte [b0]. *)
Definition second_ok (b0 b1 : ascii) : bool :=
  let v := byte_val b0 in
  if v =? 224 then byte_in 160 191 b1
  else if v =? 237 then byte_in 128 159 b1
  else if v =? 240 then byte_in 144 191 b1
  else if v =? 244 then byte_in 128 143 b1
  else is_cont b1.

Fixpoint decode_runes (l : list ascii) : list (Z * list ascii) :=
  match l with
  | [] => []
  | b0 :: l1 =>
      let v := byte_val b0 in
      if v <? 128 then (v, [b0]) :: decode_runes l1
      else if byte_in 194 223 b0 then
        match l1 with
        | b1 :: l2 =>
            if second_ok b0 b1
            then ((v - 192) * 64 + (byte_val b1 - 128), [b0; b1]) :: decode_runes l2
            else (rune_error, [b0]) :: decode_runes l1
        | _ => (rune_error, [b0]) :: decode_runes l1
        end
      else if byte_in 224 239 b0 then
        match l1 with
        | b1 :: b2 :: l3 =>
            if second_ok b0 b1 && is_cont b2
            then ((v - 224) * 4096 + (byte_val b1 - 128) * 64 + (byte_val b2 - 128), [b0; b1; b2])
                 :: decode_runes l3
            else (rune_error, [b0]) :: decode_runes l1
        | _ => (rune_error, [b0]) :: decode_runes l1
        end
      else if byte_in 240 244 b0 then
        match l1 with
        | b1 :: b2 :: b3 :: l4 =>
            if second_ok b0 b1 && is_cont b2 && is_cont b3
            then ((v - 240) * 262144 + (byte_val b1 - 128) * 4096
                  + (byte_val b2 - 128) * 64 + (byte_val b3 - 128), [b0; b1; b2; b3])
                 :: decode_runes l4
            else (rune_error, [b0]) :: decode_runes l1
        | _ => (rune_error, [b0]) :: decode_runes l1
        end
      else (rune_error, [b0]) :: decode_runes l1
  end.

(** [utf8.AppendRune]. *)
Definition encode_rune (r : Z) : list ascii :=
  let enc3 r := [byte_of (224 + r / 4096); byte_of (128 + (r / 64) mod 64); byte_of (128 + r mod 64)] in
  if (0 <=? r) && (r <? 128) then [byte_of r]
  else if (128 <=? r) && (r <? 2048) then [byte_of (192 + r / 64); byte_of (128 + r mod 64)]
  else if ((2048 <=? r) && (r <? 55296)) || ((57344 <=? r) && (r <? 65536)) then enc3 r
  else if (65536 <=? r) && (r <? 1114112)
  then [byte_of (240 + r / 262144); byte_of (128 + (r / 4096) mod 64);
        byte_of (128 + (r / 64) mod 64); byte_of (128 + r mod 64)]
  else enc3 rune_error.

Definition RuneCountInString (s : string) : Z := Z.of_nat (length (decode_runes (bytes_of s))).

(** [unicode.IsSpace]. *)
Definition unicode_IsSpace (r : Z) : bool :=
  ((9 <=? r) && (r <=? 13)) || (r =? 32) || (r =? 133) || (r =? 160) || (r =? 5760)
  || ((8192 <=? r) && (r <=? 8202)) || (r =? 8232) || (r =? 8233) || (r =? 8239)
  || (r =? 8287) || (r =? 12288).

(** The Unicode tables beyond ASCII are not part of the program: the lower-case
    mapping is a parameter of everything that calls [strings.ToLower], and
    [unicode.IsPrint] of everything that formats with [%q]. *)
Class Unicode := {
  unicode_ToLower : Z -> Z;
  unicode_IsPrint : Z -> bool;
}.

(** A concrete instance, for evaluation: no case mapping beyond ASCII. *)
Definition ascii_unicode : Unicode :=
  {| unicode_ToLower := fun r => r; unicode_IsPrint := fun r => 160 <? r |}.

(** ** package strings *)

Definition flatten_runes (l : list (Z * list ascii)) : string := string_of (concat (map snd l)).

Fixpoint drop_while {A} (f : A -> bool) (l : list A) : list A :=
  match l with
  | [] => []
  | x :: l' => if f x then drop_while f l' else l
  end.

Definition trim_runes (l : list (Z * list ascii)) : list (Z * list ascii) :=
  let sp := fun p : Z * list ascii => unicode_IsSpace p.1 in
  rev (drop_while sp (rev (drop_while sp l))).

Definition TrimSpace (s : string) : string := flatten_runes (trim_runes (decode_runes (bytes_of s))).

Definition is_blank (s : string) : bool := bool_decide (TrimSpace s = "").

Definition to_lower_rune `{Unicode} (r : Z) : Z :=
  if r <? 128 then (if (65 <=? r) && (r <=? 90) then r + 32 else r) else unicode_ToLower r.

Definition ToLower `{Unicode} (s : string) : string :=
  string_of (flat_map (fun p => encode_rune (to_lower_rune p.1)) (decode_runes (bytes_of s))).

Definition HasPrefix (s p : string) : bool := String.prefix p s.

Fixpoint Contains (s sub : string) : bool :=
  String.prefix sub s || match s with EmptyString => false | String _ s' => Contains s' sub end.

Definition HasSuffix (s suf : string) : bool :=
  bool_decide (String.length suf ≤ String.length s)%nat &&
  String.eqb (String.substring (String.length s - String.length suf) (String.length suf) s) suf.

(** [strings.Split(s, sep)] for a non-empty separator; [skip] counts the bytes of
    a matched separator still to be consumed. *)
Fixpoint split_go (sep s : string) (cur : list ascii) (skip : nat) : list string :=
  match s with
  | EmptyString => [string_of (rev cur)]
  | String c s' =>
      match skip with
      | S k => split_go sep s' cur k
      | O => if String.prefix sep s
             then string_of (rev cur) :: split_go sep s' [] (String.length sep - 1)
             else split_go sep s' (c :: cur) O
      end
  end.
Definition Split (s sep : string) : list string := split_go sep s [] O.

(** [strings.Fields]: the maximal runs of non-space runes. *)
Fixpoint fields_go (l : list (Z * list ascii)) (cur : list (Z * list ascii)) : list string :=
  match l with
  | [] => match cur with [] => [] | _ => [flatten_runes (rev cur)] end
  | p :: l' =>
      if unicode_IsSpace p.1
      then match cur with [] => fields_go l' [] | _ => flatten_runes (rev cur) :: fields_go l' [] end
      else fields_go l' (p :: cur)
  end.
Definition Fields (s : string) : list string := fields_go (decode_runes (bytes_of s)) [].

(** [strings.ReplaceAll(s, old, "")] for a one-byte [old]. *)
Definition remove_byte (c : ascii) (s : string) : string :=
  string_of (List.filter (fun d => negb (Ascii.eqb c d)) (bytes_of s)).

Fixpoint str_join (sep : string) (l : list string) : string :=
  match l with
  | [] => ""
  | [x] => x
  | x :: l' => x +:+ sep +:+ str_join sep l'
  end.

Definition len (s : string) : Z := Z.of_nat (String.length s).

(** ** strconv.Quote, the verb [%q] *)

Definition dquote : ascii := ascii_of_nat 34.
Definition backslash : ascii := ascii_of_nat 92.

Fixpoint hex_width (w : nat) (z : Z) : list ascii :=
  match w with
  | O => []
  | S w' => hex_width w' (z / 16) ++ [hex_digit (z mod 16)]
  end.

Definition quote_rune `{Unicode} (p : Z * list ascii) : list ascii :=
  let r := p.1 in
  let esc c := [backslash; c] in
  if (r =? rune_error) && Nat.eqb (length p.2) 1 then
    backslash :: "x"%char :: hex_width 2 (match p.2 with c :: _ => byte_val c | [] => 0 end)
  else if r =? 34 then esc dquote
  else if r =? 92 then esc backslash
  else if (r <? 128) && (32 <=? r) && (r <=? 126) then p.2
  else if (128 <=? r) && unicode_IsPrint r then p.2
  else if r =? 7 then esc "a"%char
  else if r =? 8 then esc "b"%char
  else if r =? 12 then esc "f"%char
  else if r =? 10 then esc "n"%char
  else if r =? 13 then esc "r"%char
  else if r =? 9 then esc "t"%char
  else if r =? 11 then esc "v"%char
  else if (r <? 32) || (r =? 127) then backslash :: "x"%char :: hex_width 2 r
  else if r <? 65536 then backslash :: "u"%char :: hex_width 4 r
  else backslash :: "U"%char :: hex_width 8 r.

Definition Quote `{Unicode} (s : string) : string :=
  string_of ([dquote] ++ flat_map quote_rune (decode_runes (bytes_of s)) ++ [dquote]).

(** ** Lemmas on numerals *)

Lemma byte_val_byte_of z : 0 <= z < 256 -> byte_val (byte_of z) = z.
Proof.
  intros H. unfold byte_val, byte_of.
  rewrite N_ascii_embedding by lia. lia.
Qed.

Lemma byte_val_digit d : 0 <= d <= 9 -> byte_val (digit d) = 48 + d.
Proof. intros H. unfold digit. apply byte_val_byte_of. lia. Qed.

Lemma is_digit_digit d : 0 <= d <= 9 -> is_digit (digit d) = true.
Proof. intros H. unfold is_digit. rewrite byte_val_digit by lia. lia. Qed.

Lemma parse_dec_go fuel n acc :
  0 <= n < 10 ^ Z.of_nat fuel -> parse_digits 0 (dec_go fuel n acc) = parse_digits n acc.
Proof.
  revert n acc. induction fuel as [|f IH]; intros n acc Hn.
  { change (10 ^ Z.of_nat 0) with 1 in Hn. replace n with 0 by lia. done. }
  rewrite Nat2Z.inj_succ, Z.pow_succ_r in Hn by lia.
  cbn [dec_go].
  pose proof (Z.mod_pos_bound n 10). pose proof (Z.div_mod n 10).
  destruct (n <? 10) eqn:E; bool_prop.
  - unfold parse_digits. simpl. rewrite byte_val_digit by lia.
    rewrite Z.mod_small by lia. f_equal. lia.
  - rewrite IH by (split; [apply Z.div_pos; lia | apply Z.div_lt_upper_bound; lia]).
    unfold parse_digits. simpl. rewrite byte_val_digit by lia. f_equal. lia.
Qed.

Lemma dec_go_digits fuel n acc :
  Forall (fun c => is_digit c = true) acc ->
  Forall (fun c => is_digit c = true) (dec_go fuel n acc).
Proof.
  revert n acc. induction fuel as [|f IH]; intros n acc Ha; [done|]. cbn [dec_go].
  pose proof (Z.mod_pos_bound n 10).
  assert (Forall (fun c => is_digit c = true) (digit (n mod 10) :: acc)).
  { constructor; [apply is_digit_digit; lia | done]. }
  destruct (n <? 10); auto.
Qed.

Lemma dec_digits_fuel n : 0 <= n -> 0 <= n < 10 ^ Z.of_nat (S (Z.to_nat (Z.log2 n))).
Proof.
  intros Hn. split; [done|]. rewrite Nat2Z.inj_succ, Z2Nat.id by apply Z.log2_nonneg.
  destruct (decide (n = 0)) as [->|Hne]; [reflexivity|].
  apply Z.lt_le_trans with (2 ^ Z.succ (Z.log2 n)); [apply Z.log2_spec; lia|].
  apply Z.pow_le_mono_l. lia.
Qed.

Lemma parse_dec_digits n : 0 <= n -> parse_digits 0 (dec_digits n) = n.
Proof. intros Hn. unfold dec_digits. by rewrite parse_dec_go by by apply dec_digits_fuel. Qed.

Lemma dec_digits_digits n : Forall (fun c => is_digit c = true) (dec_digits n).
Proof. by apply dec_go_digits. Qed.

Lemma dec_go_nonempty fuel n acc : acc <> [] -> dec_go fuel n acc <> [].
Proof.
  revert n acc. induction fuel as [|f IH]; intros n acc Ha; [done|]. cbn [dec_go].
  destruct (n <? 10); [done|]. by apply IH.
Qed.

Lemma dec_digits_nonempty n : dec_digits n <> [].
Proof.
  unfold dec_digits. cbn [dec_go]. destruct (n <? 10); [done|]. by apply dec_go_nonempty.
Qed.

Lemma parse_digits_zeros k l : parse_digits 0 (replicate k "0"%char ++ l) = parse_digits 0 l.
Proof. induction k; [done|]. simpl. done. Qed.

Lemma bytes_of_inj s1 s2 : bytes_of s1 = bytes_of s2 -> s1 = s2.
Proof.
  intros H. rewrite <- (String.string_of_list_ascii_of_string s1), H.
  apply String.string_of_list_ascii_of_string.
Qed.

Lemma bytes_of_string_of l : bytes_of (string_of l) = l.
Proof. induction l; cbn; congruence. Qed.

Lemma string_of_bytes_of s : string_of (bytes_of s) = s.
Proof. apply bytes_of_inj, bytes_of_string_of. Qed.

Lemma string_of_inj l1 l2 : string_of l1 = string_of l2 -> l1 = l2.
Proof.
  intros H. rewrite <- (String.list_ascii_of_string_of_list_ascii l1), H.
  apply String.list_ascii_of_string_of_list_ascii.
Qed.

Lemma bytes_of_app s1 s2 : bytes_of (s1 +:+ s2) = bytes_of s1 ++ bytes_of s2.
Proof. induction s1 as [|c s1 IH]; [done|]. simpl. by rewrite IH. Qed.

Lemma pad0_digits w l :
  Forall (fun c => is_digit c = true) l -> Forall (fun c => is_digit c = true) (pad0 w l).
Proof.
  intros H. unfold pad0. apply Forall_app. split; [|done].
  by apply Forall_replicate.
Qed.

Lemma parse_pad0 w n : 0 <= n -> parse_digits 0 (pad0 w (dec_digits n)) = n.
Proof. intros. unfold pad0. rewrite parse_digits_zeros. by apply parse_dec_digits. Qed.

(** The bytes of a decimal numeral are digits or a minus sign. *)
Lemma fmt_0d_bytes w z c :
  c ∈ bytes_of (fmt_0d w z) -> is_digit c = true \/ c = "-"%char.
Proof.
  unfold fmt_0d. destruct (z <? 0); simpl;
    rewrite ?String.list_ascii_of_string_of_list_ascii.
  - rewrite elem_of_cons. intros [->|H]; [by right|left].
    exact (Forall_elem _ _ _ (pad0_digits _ _ (dec_digits_digits _)) H).
  - intros H. left. exact (Forall_elem _ _ _ (pad0_digits _ _ (dec_digits_digits _)) H).
Qed.

Lemma fmt_0d_inj w z1 z2 : fmt_0d w z1 = fmt_0d w z2 -> z1 = z2.
Proof.
  assert (Hsign : forall l x, Forall (fun c => is_digit c = true) l ->
            string_of l = String "-" x -> False).
  { intros [|c l] x Hl Heq; [done|]. injection Heq as -> _.
    inversion Hl; subst. done. }
  assert (HD : forall w' n, Forall (fun c => is_digit c = true) (pad0 w' (dec_digits n))).
  { intros. apply pad0_digits, dec_digits_digits. }
  unfold fmt_0d. intros H.
  destruct (z1 <? 0) eqn:E1, (z2 <? 0) eqn:E2; bool_prop.
  - injection H as H. apply string_of_inj, (f_equal (parse_digits 0)) in H.
    rewrite !parse_pad0 in H by lia. lia.
  - symmetry in H. by apply Hsign in H.
  - by apply Hsign in H.
  - apply string_of_inj, (f_equal (parse_digits 0)) in H.
    rewrite !parse_pad0 in H by lia. lia.
Qed.

Lemma parse_uint_dec_digits n : 0 <= n -> parse_uint (dec_digits n) = Some n.
Proof.
  intros Hn. unfold parse_uint. rewrite parse_dec_digits by done.
  assert (forallb is_digit (dec_digits n) = true) as ->.
  { apply forallb_forall. intros c Hc. apply list_elem_of_In in Hc.
    exact (Forall_elem _ _ _ (dec_digits_digits _) Hc). }
  pose proof (dec_digits_nonempty n). by destruct (dec_digits n).
Qed.

Lemma check_int64_id z : in_int64 z -> check_int64 z = Some z.
Proof.
  intros [H1 H2]. unfold check_int64.
  by rewrite (proj2 (Z.leb_le _ _) H1), (proj2 (Z.leb_le _ _) H2).
Qed.

(** [strconv.Atoi] reads back what [%d] prints. *)
Lemma Atoi_fmt_d z : in_int64 z -> Atoi (fmt_d z) = Some z.
Proof.
  intros Hz. unfold Atoi, fmt_d. destruct (z <? 0) eqn:E; bool_prop.
  - cbn [bytes_of]. rewrite String.list_ascii_of_string_of_list_ascii.
    change (Ascii.eqb "-" "-") with true. cbv iota.
    rewrite parse_uint_dec_digits by lia. cbn [mbind option_bind].
    rewrite Z.opp_involutive. by apply check_int64_id.
  - rewrite String.list_ascii_of_string_of_list_ascii.
    pose proof (parse_uint_dec_digits z ltac:(lia)) as HP.
    pose proof (dec_digits_digits z) as HD.
    destruct (dec_digits z) as [|c l] eqn:El; [done|].
    assert (Hc : is_digit c = true) by (inversion HD; done).
    destruct (Ascii.eqb_spec c "-") as [->|_]; [done|].
    destruct (Ascii.eqb_spec c "+") as [->|_]; [done|].
    rewrite HP. by apply check_int64_id.
Qed.

(** ** Numbers inside texts *)

(** The characters of a printed number. *)
Definition num_char (c : ascii) : bool := is_digit c || Ascii.eqb c "-".

Lemma fmt_d_chars z : exists l, fmt_d z = string_of l /\ Forall (fun c => num_char c = true) l.
Proof.
  assert (Hd : forall n, Forall (fun c => num_char c = true) (dec_digits n)).
  { intros n. eapply Forall_impl; [|apply dec_digits_digits]. intros c Hc. unfold num_char. by rewrite Hc. }
  unfold fmt_d. case_if; [exists ("-"%char :: dec_digits (- z))|exists (dec_digits z)]; split; try done.
  by constructor.
Qed.

(** A visible ASCII character is one rune, and not a space. *)
Definition visible (c : ascii) : Prop := 33 <= byte_val c < 127.

Lemma num_char_visible c : num_char c = true -> visible c.
Proof.
  unfold num_char, visible, is_digit. intros H. apply orb_true_iff in H. destruct H as [H|H].
  - bool_prop. lia.
  - apply Ascii.eqb_eq in H. subst. done.
Qed.

Lemma decode_visible l : Forall visible l -> decode_runes l = map (fun c => (byte_val c, [c])) l.
Proof.
  induction 1 as [|c l Hc _ IH]; [done|]. cbn [decode_runes map].
  unfold visible in Hc. rewrite (proj2 (Z.ltb_lt _ _)) by lia. by rewrite IH.
Qed.

Lemma visible_no_space c : visible c -> unicode_IsSpace (byte_val c) = false.
Proof.
  unfold visible, unicode_IsSpace. intros Hc.
  repeat (apply orb_false_iff; split); try (apply andb_false_iff; lia); lia.
Qed.

Lemma drop_while_visible l : Forall visible l ->
  drop_while (fun p : Z * list ascii => unicode_IsSpace p.1) (map (fun c => (byte_val c, [c])) l)
    = map (fun c => (byte_val c, [c])) l.
Proof. destruct 1 as [|c l Hc]; [done|]. cbn. by rewrite visible_no_space. Qed.

Lemma TrimSpace_visible l : Forall visible l -> TrimSpace (string_of l) = string_of l.
Proof.
  intros H. unfold TrimSpace. rewrite String.list_ascii_of_string_of_list_ascii, decode_visible by done.
  unfold trim_runes. rewrite drop_while_visible by done. rewrite <- map_rev, drop_while_visible by by apply Forall_rev.
  rewrite <- map_rev, rev_involutive. unfold flatten_runes. f_equal. rewrite map_map. cbn.
  induction l as [|c l IH]; [done|]. cbn. f_equal. apply IH. by inversion H.
Qed.

(** Characters that cannot start the separator go to the current part. *)
Lemma split_go_skip c0 sep l : forall rest cur, c0 ∉ l ->
  split_go (String c0 sep) (string_of l +:+ rest) cur 0 = split_go (String c0 sep) rest (rev l ++ cur) 0.
Proof.
  induction l as [|c l IH]; intros rest cur Hn; [done|].
  apply not_elem_of_cons in Hn. destruct Hn as [Hc Hn].
  change (string_of (c :: l) +:+ rest) with (String c (string_of l +:+ rest)). cbn [split_go String.prefix].
  destruct (ascii_dec c0 c) as [E|_]; [by destruct Hc|]. rewrite IH by done. cbn [rev]. by rewrite <- app_assoc.
Qed.

Lemma num_chars_avoid c0 l : num_char c0 = false -> Forall (fun c => num_char c = true) l -> c0 ∉ l.
Proof. intros H0 Hl Hin. pose proof (Forall_elem _ _ _ Hl Hin). congruence. Qed.

(** ** Keys built with a separator *)

Lemma app_sep_inj_l {A} (c : A) l1 l2 r1 r2 :
  c ∉ l1 -> c ∉ l2 -> l1 ++ c :: r1 = l2 ++ c :: r2 -> l1 = l2 /\ r1 = r2.
Proof.
  revert l2. induction l1 as [|x l1 IH]; intros [|y l2] H1 H2 Heq; simpl in *;
    simplify_eq; [done| | |].
  - exfalso. apply H2. by constructor.
  - exfalso. apply H1. by constructor.
  - rewrite not_elem_of_cons in H1, H2.
    destruct (IH l2) as [-> ->]; tauto.
Qed.

Lemma app_sep_inj_r {A} (c : A) l1 l2 r1 r2 :
  c ∉ r1 -> c ∉ r2 -> l1 ++ c :: r1 = l2 ++ c :: r2 -> l1 = l2 /\ r1 = r2.
Proof.
  intros H1 H2 Heq. apply (f_equal (@rev A)) in Heq.
  rewrite !rev_app_distr in Heq. simpl in Heq. rewrite <- !app_assoc in Heq. simpl in Heq.
  apply app_sep_inj_l in Heq as [Hr Hl];
    [|by rewrite list_elem_of_In, <- in_rev, <- list_elem_of_In..].
  split; [rewrite <- (rev_involutive l1), Hl | rewrite <- (rev_involutive r1), Hr];
    apply rev_involutive.
Qed.

(** The identifiers that keep the "#"-joined keys of the stores apart. *)
Definition no_hash (s : string) : Prop := "#"%char ∉ bytes_of s.
#[global] Instance no_hash_dec s : Decision (no_hash s).
Proof. unfold no_hash. apply _. Defined.

Lemma hash_join_inj a b a' b' :
  no_hash a -> no_hash a' -> a +:+ "#" +:+ b = a' +:+ "#" +:+ b' -> a = a' /\ b = b'.
Proof.
  intros Ha Ha' H. apply (f_equal bytes_of) in H. rewrite !bytes_of_app in H. simpl in H.
  apply app_sep_inj_l in H as [H1 H2]; [|done..]. split; by apply bytes_of_inj.
Qed.

Lemma hash_join_inj_r a b a' b' :
  no_hash b -> no_hash b' -> a +:+ "#" +:+ b = a' +:+ "#" +:+ b' -> a = a' /\ b = b'.
Proof.
  intros Hb Hb' H. apply (f_equal bytes_of) in H. rewrite !bytes_of_app in H. simpl in H.
  apply app_sep_inj_r in H as [H1 H2]; [|done..]. split; by apply bytes_of_inj.
Qed.

Lemma no_hash_fmt_0d w z : no_hash (fmt_0d w z).
Proof. intros H. by destruct (fmt_0d_bytes _ _ _ H) as [H'|H']. Qed.

(** ** package sort *)

(** [sort.Slice] with the given [less]; the order of elements that compare equal
    is not specified by Go, and no caller depends on it. *)
Definition not_after {A} (less : A -> A -> bool) (x y : A) : Prop := less y x = false.
#[global] Instance not_after_dec {A} (less : A -> A -> bool) : RelDecision (not_after less).
Proof. intros x y. unfold not_after. apply _. Defined.

Definition sort_slice {A} (less : A -> A -> bool) (l : list A) : list A :=
  merge_sort (not_after less) l.

(** The order "by a number, then by a string" of the listing operations. *)
Definition less_num_str (z1 : Z) (s1 : string) (z2 : Z) (s2 : string) : bool :=
  if z1 =? z2 then String.ltb s1 s2 else z1 <? z2.

Lemma ascii_compare_spec c1 c2 : Ascii.compare c1 c2 = (N_of_ascii c1 ?= N_of_ascii c2)%N.
Proof. reflexivity. Qed.

Lemma string_lt_trans s1 s2 s3 :
  String.compare s1 s2 = Lt -> String.compare s2 s3 = Lt -> String.compare s1 s3 = Lt.
Proof.
  revert s2 s3. induction s1 as [|a s1 IH]; intros [|b s2] [|c s3]; simpl; try done.
  rewrite !ascii_compare_spec.
  destruct (N.compare_spec (N_of_ascii a) (N_of_ascii b)) as [Hab|Hab|Hab]; try done;
    destruct (N.compare_spec (N_of_ascii b) (N_of_ascii c)) as [Hbc|Hbc|Hbc]; try done;
    destruct (N.compare_spec (N_of_ascii a) (N_of_ascii c)) as [Hac|Hac|Hac]; try lia; eauto.
Qed.

Lemma string_compare_refl s : String.compare s s = Eq.
Proof. induction s as [|c s IH]; [done|]. simpl. rewrite ascii_compare_spec, N.compare_refl. done. Qed.

Lemma string_ltb_false s1 s2 :
  String.ltb s1 s2 = false <-> s1 = s2 \/ String.compare s2 s1 = Lt.
Proof.
  unfold String.ltb. rewrite (String.compare_antisym s2 s1).
  destruct (String.compare s1 s2) eqn:E; simpl.
  - apply String.compare_eq_iff in E. naive_solver.
  - split; [done|]. intros [->|?]; [|done]. by rewrite string_compare_refl in E.
  - naive_solver.
Qed.

Lemma less_num_str_false z1 s1 z2 s2 :
  less_num_str z1 s1 z2 s2 = false <->
  z2 < z1 \/ (z1 = z2 /\ (s1 = s2 \/ String.compare s2 s1 = Lt)).
Proof.
  unfold less_num_str. destruct (Z.eqb_spec z1 z2) as [->|Hne].
  - rewrite string_ltb_false. intuition lia.
  - rewrite Z.ltb_ge. intuition lia.
Qed.

Section by_num_str.
Context {A : Type} (kz : A -> Z) (ks : A -> string).

Definition less_by (a b : A) : bool := less_num_str (kz a) (ks a) (kz b) (ks b).

#[export] Instance less_by_total : Total (not_after less_by).
Proof.
  intros a b. unfold not_after, less_by. rewrite !less_num_str_false.
  destruct (Z.lt_trichotomy (kz a) (kz b)) as [|[|]]; [tauto| |tauto].
  destruct (String.compare (ks a) (ks b)) eqn:E.
  - apply String.compare_eq_iff in E. left. right. split; [lia|]. auto.
  - left. right. split; [lia|]. auto.
  - right. right. split; [lia|]. right. rewrite String.compare_antisym, E. done.
Qed.

#[export] Instance less_by_trans : Transitive (not_after less_by).
Proof.
  intros a b c. unfold not_after, less_by. rewrite !less_num_str_false.
  intros [H1|[H1 H1']] [H2|[H2 H2']]; try (left; lia).
  right. split; [lia|]. destruct H1' as [H1'|H1'], H2' as [H2'|H2'].
  - left. congruence.
  - right. by rewrite <- H1'.
  - right. by rewrite H2'.
  - right. by eapply string_lt_trans.
Qed.
End by_num_str.

Lemma sort_slice_perm {A} (less : A -> A -> bool) l : sort_slice less l ≡ₚ l.
Proof. apply merge_sort_Permutation. Qed.

Lemma sort_slice_sorted {A} (less : A -> A -> bool) l :
  Transitive (not_after less) -> Total (not_after less) ->
  StronglySorted (not_after less) (sort_slice less l).
Proof. intros. by apply StronglySorted_merge_sort. Qed.

(** A list sorted by a number key without duplicate keys is strictly sorted. *)
Lemma StronglySorted_strict {A} (R : A -> A -> Prop) (key : A -> Z) l :
  (forall a b, R a b -> key a <= key b) ->
  StronglySorted R l -> NoDup (map key l) -> StronglySorted (fun a b => key a < key b) l.
Proof.
  intros HR. induction 1 as [|a l Hl IH Ha]; intros Hnd; [constructor|].
  simpl in Hnd. apply list.NoDup_cons in Hnd as [Hnotin Hnd].
  constructor; [by apply IH|]. rewrite list.Forall_forall in *. intros b Hb.
  specialize (Ha b Hb). apply HR in Ha.
  assert (key a <> key b); [|lia].
  intros Heq. apply Hnotin. rewrite Heq. apply list_elem_of_In, in_map. by apply list_elem_of_In.
Qed.

Lemma StronglySorted_filter {A} (R : A -> A -> Prop) f l :
  StronglySorted R l -> StronglySorted R (List.filter f l).
Proof.
  induction 1 as [|a l Hl IH Ha]; simpl; [constructor|]. destruct (f a); [|done].
  constructor; [done|]. rewrite list.Forall_forall in *. intros b Hb.
  apply list_elem_of_In, filter_In in Hb as [Hb _]. apply Ha. by apply list_elem_of_In.
Qed.

Lemma StronglySorted_take {A} (R : A -> A -> Prop) n l :
  StronglySorted R l -> StronglySorted R (take n l).
Proof.
  intros H. revert n. induction H as [|a l Hl IH Ha]; intros [|n]; simpl; try constructor; auto.
  by apply Forall_take.
Qed.
