(* ===== verification/JSON.v ===== *)
(** * JSON: the texts of encoding/json

    What the code uses of the syntax of JSON: the scanner with its error messages, the decoding
    of strings, and the text that [json.Marshal] writes.  The texts of floating-point numbers
    stay outside: a number is kept as its literal.  [json_parse_render]: reading back what was
    written gives the same value. *)

From Stdlib Require Import Ascii.
From S2P Require Import Prelude GoLib.

Inductive JSON : Type :=
| JNull
| JBool (b : bool)
| JNum (literal : string)
| JStr (s : string)
| JArr (l : list JSON)
| JObj (members : list (string * JSON)).

(** ** Writing *)

(** The text of a string, as [json.Marshal] writes it. *)
Definition json_rune (p : Z * list ascii) : list ascii :=
  let r := p.1 in
  let esc c := [backslash; c] in
  let unicode := backslash :: "u"%char :: hex_width 4 r in
  if (r =? rune_error) && Nat.eqb (length p.2) 1 then bytes_of "\ufffd"
  else if (r =? 34) || (r =? 92) then esc (byte_of r)
  else if r =? 8 then esc "b"%char
  else if r =? 12 then esc "f"%char
  else if r =? 10 then esc "n"%char
  else if r =? 13 then esc "r"%char
  else if r =? 9 then esc "t"%char
  else if (r <? 32) || (r =? 60) || (r =? 62) || (r =? 38) || (r =? 8232) || (r =? 8233) then unicode
  else p.2.

Definition json_quote (s : string) : string :=
  string_of ([dquote] ++ flat_map json_rune (decode_runes (bytes_of s)) ++ [dquote]).

Definition json_bool (b : bool) : string := if b then "true" else "false".

Section lists.
Context (bytes_of_value : JSON -> list ascii).

Fixpoint elements_bytes (first : bool) (l : list JSON) : list ascii :=
  match l with
  | [] => ["]"%char]
  | x :: l' => (if first then [] else [","%char]) ++ bytes_of_value x ++ elements_bytes false l'
  end.

Fixpoint members_bytes (first : bool) (ms : list (string * JSON)) : list ascii :=
  match ms with
  | [] => ["}"%char]
  | (k, x) :: ms' =>
      (if first then [] else [","%char]) ++ bytes_of (json_quote k) ++ ":"%char :: bytes_of_value x ++ members_bytes false ms'
  end.
End lists.

(** [json.Marshal]: no spaces, the members in the order given. *)
Fixpoint json_bytes (v : JSON) : list ascii :=
  match v with
  | JNull => bytes_of "null"
  | JBool b => bytes_of (json_bool b)
  | JNum lit => bytes_of lit
  | JStr s => bytes_of (json_quote s)
  | JArr l => "["%char :: elements_bytes json_bytes true l
  | JObj ms => "{"%char :: members_bytes json_bytes true ms
  end.

Definition json_render (v : JSON) : string := string_of (json_bytes v).

(** ** Reading *)

(** [quoteChar]: a byte as it is quoted in messages, which show it as a rune. *)
Definition quote_char (c : ascii) : list ascii :=
  let v := byte_val c in
  let esc a := [backslash; a] in
  let body :=
    if v =? 39 then esc c
    else if v =? 34 then [c]
    else if v =? 92 then esc c
    else if v =? 7 then esc "a"%char
    else if v =? 8 then esc "b"%char
    else if v =? 12 then esc "f"%char
    else if v =? 10 then esc "n"%char
    else if v =? 13 then esc "r"%char
    else if v =? 9 then esc "t"%char
    else if v =? 11 then esc "v"%char
    else if (v <? 32) || (v =? 127) then backslash :: "x"%char :: hex_width 2 v
    else if ((127 <? v) && (v <? 161)) || (v =? 173) then backslash :: "u"%char :: hex_width 4 v
    else encode_rune v in
  ["'"%char] ++ body ++ ["'"%char].

Definition json_syntax (c : ascii) (context : string) : error :=
  errors_New ("invalid character " +:+ string_of (quote_char c) +:+ " " +:+ context).
Definition json_eof : error := errors_New "unexpected end of JSON input".

Definition json_space (c : ascii) : bool :=
  let v := byte_val c in (v =? 32) || (v =? 9) || (v =? 13) || (v =? 10).

Fixpoint skip_space (l : list ascii) : list ascii :=
  match l with
  | c :: l' => if json_space c then skip_space l' else l
  | [] => []
  end.

(** *** Literals and numbers *)

(** The rest of a literal; [seen] is its text so far. *)
Fixpoint parse_literal (name : string) (expect : list ascii) (l : list ascii) : result error (list ascii) :=
  match expect with
  | [] => Ok l
  | e :: expect' =>
      match l with
      | [] => Err json_eof
      | c :: l' =>
          if Ascii.eqb c e then parse_literal name expect' l'
          else Err (json_syntax c ("in literal " +:+ name +:+ " (expecting '" +:+ String e "')"))
      end
  end.

Definition json_digit (c : ascii) : bool := (48 <=? byte_val c) && (byte_val c <=? 57).

(** The longest run of digits. *)
Fixpoint span_digits (l : list ascii) : list ascii * list ascii :=
  match l with
  | c :: l' => if json_digit c then let '(d, r) := span_digits l' in (c :: d, r) else ([], l)
  | [] => ([], [])
  end.

(** At least one digit. *)
Definition some_digits (context : string) (l : list ascii) : result error (list ascii * list ascii) :=
  match l with
  | [] => Err json_eof
  | c :: _ => if json_digit c then Ok (span_digits l) else Err (json_syntax c context)
  end.

Definition parse_exponent (l : list ascii) : result error (list ascii * list ascii) :=
  match l with
  | c :: l' =>
      if Ascii.eqb c "e" || Ascii.eqb c "E" then
        let '(sign, l2) := match l' with
                           | s :: l2 => if Ascii.eqb s "+" || Ascii.eqb s "-" then ([s], l2) else ([], l')
                           | [] => ([], [])
                           end in
        match some_digits "in exponent of numeric literal" l2 with
        | Ok (d, r) => Ok (c :: sign ++ d, r)
        | Err e => Err e
        end
      else Ok ([], l)
  | [] => Ok ([], [])
  end.

Definition parse_fraction (l : list ascii) : result error (list ascii * list ascii) :=
  match l with
  | c :: l' =>
      if Ascii.eqb c "." then
        match some_digits "after decimal point in numeric literal" l' with
        | Ok (d, r) => match parse_exponent r with Ok (x, r) => Ok (c :: d ++ x, r) | Err e => Err e end
        | Err e => Err e
        end
      else parse_exponent l
  | [] => Ok ([], [])
  end.

(** A number that starts with the digit at the head of [l]; after a leading zero no digit follows. *)
Definition parse_unsigned (l : list ascii) : result error (list ascii * list ascii) :=
  match l with
  | [] => Err json_eof
  | c :: l' =>
      if Ascii.eqb c "0" then match parse_fraction l' with Ok (x, r) => Ok (c :: x, r) | Err e => Err e end
      else if json_digit c then
        let '(d, r) := span_digits l' in
        match parse_fraction r with Ok (x, r) => Ok (c :: d ++ x, r) | Err e => Err e end
      else Err (json_syntax c "in numeric literal")
  end.

Definition parse_number (l : list ascii) : result error (list ascii * list ascii) :=
  match l with
  | c :: l' =>
      if Ascii.eqb c "-" then match parse_unsigned l' with Ok (x, r) => Ok (c :: x, r) | Err e => Err e end
      else parse_unsigned l
  | [] => Err json_eof
  end.

(** *** Strings *)

Definition hex_value (c : ascii) : option Z :=
  let v := byte_val c in
  if (48 <=? v) && (v <=? 57) then Some (v - 48)
  else if (97 <=? v) && (v <=? 102) then Some (v - 87)
  else if (65 <=? v) && (v <=? 70) then Some (v - 55)
  else None.

Definition is_hex (c : ascii) : bool := bool_decide (is_Some (hex_value c)).

(** The letters after a backslash. *)
Definition escape_char (c : ascii) : option ascii :=
  if Ascii.eqb c "b" then Some (ascii_of_nat 8)
  else if Ascii.eqb c "f" then Some (ascii_of_nat 12)
  else if Ascii.eqb c "n" then Some (ascii_of_nat 10)
  else if Ascii.eqb c "r" then Some (ascii_of_nat 13)
  else if Ascii.eqb c "t" then Some (ascii_of_nat 9)
  else if Ascii.eqb c backslash || Ascii.eqb c "/" || Ascii.eqb c dquote then Some c
  else None.

(** The bytes up to the closing quote, still escaped, and what follows it; [hex] hexadecimal
    digits of an escape are still expected. *)
Fixpoint scan_string (hex : nat) (l : list ascii) : result error (list ascii * list ascii) :=
  match l with
  | [] => Err json_eof
  | c :: l' =>
      let keep hex l := match scan_string hex l with Ok (s, r) => Ok (c :: s, r) | Err e => Err e end in
      match hex with
      | S hex' => if is_hex c then keep hex' l' else Err (json_syntax c "in \u hexadecimal character escape")
      | O =>
          if Ascii.eqb c dquote then Ok ([], l')
          else if byte_val c <? 32 then Err (json_syntax c "in string literal")
          else if Ascii.eqb c backslash then
            match l' with
            | [] => Err json_eof
            | e :: l2 =>
                let keep2 hex := match scan_string hex l2 with Ok (s, r) => Ok (c :: e :: s, r) | Err e => Err e end in
                if Ascii.eqb e "u" then keep2 4%nat
                else if bool_decide (is_Some (escape_char e)) then keep2 0%nat
                else Err (json_syntax e "in string escape code")
            end
          else keep 0%nat l'
      end
  end.

(** Four hexadecimal digits. *)
Definition hex4 (a b c d : Z * list ascii) : option Z :=
  let digit p := match p.2 with [x] => hex_value x | _ => None end in
  x ← digit a; y ← digit b; z ← digit c; w ← digit d;
  Some (((x * 16 + y) * 16 + z) * 16 + w).

(** [utf16.IsSurrogate] and [utf16.DecodeRune]. *)
Definition is_surrogate (r : Z) : bool := (55296 <=? r) && (r <? 57344).
Definition utf16_DecodeRune (r1 r2 : Z) : Z :=
  if (55296 <=? r1) && (r1 <? 56320) && (56320 <=? r2) && (r2 <? 57344)
  then (r1 - 55296) * 1024 + (r2 - 56320) + 65536 else rune_error.

Definition is_rune (c : ascii) (p : Z * list ascii) : bool := bool_decide (p.2 = [c]).

(** [unquote]: escapes are replaced; what is not UTF-8 and a lone surrogate become U+FFFD. *)
Fixpoint unquote_runes (ps : list (Z * list ascii)) : list ascii :=
  match ps with
  | [] => []
  | p :: ps1 =>
      if is_rune backslash p then
        match ps1 with
        | [] => []
        | e :: ps2 =>
            if is_rune "u" e then
              match ps2 with
              | a :: b :: c :: d :: ps6 =>
                  match hex4 a b c d with
                  | None => []
                  | Some r =>
                      if is_surrogate r then
                        match ps6 with
                        | s :: u :: a' :: b' :: c' :: d' :: ps12 =>
                            if is_rune backslash s && is_rune "u" u then
                              match hex4 a' b' c' d' with
                              | Some r2 =>
                                  let dec := utf16_DecodeRune r r2 in
                                  if dec =? rune_error then encode_rune rune_error ++ unquote_runes ps6
                                  else encode_rune dec ++ unquote_runes ps12
                              | None => encode_rune rune_error ++ unquote_runes ps6
                              end
                            else encode_rune rune_error ++ unquote_runes ps6
                        | _ => encode_rune rune_error ++ unquote_runes ps6
                        end
                      else encode_rune r ++ unquote_runes ps6
                  end
              | _ => []
              end
            else
              match e.2 with
              | [c] => match escape_char c with Some c => c :: unquote_runes ps2 | None => [] end
              | _ => []
              end
        end
      else encode_rune p.1 ++ unquote_runes ps1
  end.

(** A string after its opening quote. *)
Definition parse_string (l : list ascii) : result error (string * list ascii) :=
  match scan_string 0 l with
  | Ok (raw, r) => Ok (string_of (unquote_runes (decode_runes raw)), r)
  | Err e => Err e
  end.

(** *** Values *)

Definition maxNestingDepth : Z := 10000.

(** A value with [depth] objects and arrays around it, and what follows it. *)
Fixpoint parse_value (fuel : nat) (depth : Z) (l : list ascii) : result error (JSON * list ascii) :=
  match fuel with
  | O => Err json_eof
  | S fuel =>
      match skip_space l with
      | [] => Err json_eof
      | c :: l1 =>
          if Ascii.eqb c "{" then
            if maxNestingDepth <=? depth then Err (json_syntax c "exceeded max depth")
            else match skip_space l1 with
                 | [] => Err json_eof
                 | d :: l2 => if Ascii.eqb d "}" then Ok (JObj [], l2) else parse_members fuel (depth + 1) (d :: l2) []
                 end
          else if Ascii.eqb c "[" then
            if maxNestingDepth <=? depth then Err (json_syntax c "exceeded max depth")
            else match skip_space l1 with
                 | [] => Err json_eof
                 | d :: l2 => if Ascii.eqb d "]" then Ok (JArr [], l2) else parse_elements fuel (depth + 1) (d :: l2) []
                 end
          else if Ascii.eqb c dquote then
            match parse_string l1 with Ok (s, r) => Ok (JStr s, r) | Err e => Err e end
          else if Ascii.eqb c "-" || json_digit c then
            match parse_number (c :: l1) with Ok (n, r) => Ok (JNum (string_of n), r) | Err e => Err e end
          else if Ascii.eqb c "t" then
            match parse_literal "true" (bytes_of "rue") l1 with Ok r => Ok (JBool true, r) | Err e => Err e end
          else if Ascii.eqb c "f" then
            match parse_literal "false" (bytes_of "alse") l1 with Ok r => Ok (JBool false, r) | Err e => Err e end
          else if Ascii.eqb c "n" then
            match parse_literal "null" (bytes_of "ull") l1 with Ok r => Ok (JNull, r) | Err e => Err e end
          else Err (json_syntax c "looking for beginning of value")
      end
  end
(* the elements before the next one, in reverse *)
with parse_elements (fuel : nat) (depth : Z) (l : list ascii) (seen : list JSON) : result error (JSON * list ascii) :=
  match fuel with
  | O => Err json_eof
  | S fuel =>
      match parse_value fuel depth l with
      | Err e => Err e
      | Ok (v, r) =>
          match skip_space r with
          | [] => Err json_eof
          | c :: r' =>
              if Ascii.eqb c "," then parse_elements fuel depth r' (v :: seen)
              else if Ascii.eqb c "]" then Ok (JArr (rev (v :: seen)), r')
              else Err (json_syntax c "after array element")
          end
      end
  end
with parse_members (fuel : nat) (depth : Z) (l : list ascii) (seen : list (string * JSON)) : result error (JSON * list ascii) :=
  match fuel with
  | O => Err json_eof
  | S fuel =>
      match skip_space l with
      | [] => Err json_eof
      | q :: l1 =>
          if Ascii.eqb q dquote then
            match parse_string l1 with
            | Err e => Err e
            | Ok (k, r) =>
                match skip_space r with
                | [] => Err json_eof
                | colon :: r1 =>
                    if Ascii.eqb colon ":" then
                      match parse_value fuel depth r1 with
                      | Err e => Err e
                      | Ok (v, r) =>
                          match skip_space r with
                          | [] => Err json_eof
                          | c :: r' =>
                              if Ascii.eqb c "," then parse_members fuel depth r' ((k, v) :: seen)
                              else if Ascii.eqb c "}" then Ok (JObj (rev ((k, v) :: seen)), r')
                              else Err (json_syntax c "after object key:value pair")
                          end
                      end
                    else Err (json_syntax colon "after object key")
                end
            end
          else Err (json_syntax q "looking for beginning of object key string")
      end
  end.

(** A value takes at most two calls for each byte. *)
Definition parse_fuel (l : list ascii) : nat := S (2 * length l).

(** [json.Unmarshal]: one value and nothing after it. *)
Definition json_parse (text : string) : result error JSON :=
  let l := bytes_of text in
  match parse_value (parse_fuel l) 0 l with
  | Err e => Err e
  | Ok (v, r) =>
      match skip_space r with
      | [] => Ok v
      | c :: _ => Err (json_syntax c "after top-level value")
      end
  end.

(** [json.Decoder.Decode] of the first value of a stream, which ends with EOF or, for [failed],
    with an error of its reader.  Only an object or array is known to be complete without
    reading on. *)
Definition json_first (text : string) (failed : option error) : result error JSON :=
  let l := bytes_of text in
  match parse_value (parse_fuel l) 0 l with
  | Ok (v, r) =>
      match failed, v with
      | Some e, JObj _ | Some e, JArr _ => Ok v
      | Some e, _ => match r with [] => Err e | _ => Ok v end
      | None, _ => Ok v
      end
  | Err e =>
      if bool_decide (e = json_eof) then
        Err (match failed with
             | Some e => e
             | None => match skip_space l with [] => errors_New "EOF" | _ => errors_New "unexpected EOF" end
             end)
      else Err e
  end.

(** A text written with backquotes for the double quotes. *)
Definition json_sample (s : string) : string :=
  string_of (map (fun c => if Ascii.eqb c "`" then dquote else c) (bytes_of s)).

Example parsed :
  json_parse (json_sample " {`a` : [1, -0.5e+3, true,null] , `b\n`:`x\u00e9\ud83d\ude00\ud83d` } ")
    = Ok (JObj [("a", JArr [JNum "1"; JNum "-0.5e+3"; JBool true; JNull]); ("b" +:+ String (ascii_of_nat 10) "", JStr "xé😀�")]).
Proof. vm_compute. reflexivity. Qed.

Example refused :
  json_parse "[1,]" = Err (errors_New "invalid character ']' looking for beginning of value") /\
  json_parse "01" = Err (errors_New "invalid character '1' after top-level value") /\
  json_parse "{" = Err json_eof /\ json_first "3" (Some (errors_New "closed")) = Err (errors_New "closed").
Proof. vm_compute. by split_and!. Qed.

(** ** Lemmas on UTF-8 *)

Lemma byte_val_bounds c : 0 <= byte_val c < 256.
Proof. unfold byte_val. pose proof (N_ascii_bounded c). lia. Qed.

Lemma byte_of_byte_val c z : z = byte_val c -> byte_of z = c.
Proof. intros ->. unfold byte_of, byte_val. by rewrite N2Z.id, ascii_N_embedding. Qed.

(** A rune that is encoded as UTF-8 prescribes. *)
Record good_rune (p : Z * list ascii) : Prop := {
  good_encode : encode_rune p.1 = p.2;
  good_decode : forall l, decode_runes (p.2 ++ l) = p :: decode_runes l;
  good_bytes : 0 <= p.1 < 128 /\ p.2 = [byte_of p.1] \/ 128 <= p.1 /\ Forall (fun c => 128 <= byte_val c) p.2 }.

Definition bad_rune (p : Z * list ascii) : Prop := p.1 = rune_error /\ length p.2 = 1%nat.

Lemma decode_low c l : byte_val c < 128 -> decode_runes (c :: l) = (byte_val c, [c]) :: decode_runes l.
Proof. intros Hc. cbn [decode_runes]. cbn zeta. by rewrite (proj2 (Z.ltb_lt _ _)) by lia. Qed.

Lemma good_low c : byte_val c < 128 -> good_rune (byte_val c, [c]).
Proof.
  intros Hc. pose proof (byte_val_bounds c). split; cbn [fst snd].
  - unfold encode_rune. replace ((0 <=? byte_val c) && (byte_val c <? 128)) with true by (symmetry; lia). by rewrite (byte_of_byte_val c).
  - intros l. by apply decode_low.
  - left. split; [lia|]. by rewrite (byte_of_byte_val c).
Qed.

Lemma second_ok_bounds b0 b1 : second_ok b0 b1 = true ->
  128 <= byte_val b1 <= 191 /\ (byte_val b0 = 224 -> 160 <= byte_val b1) /\ (byte_val b0 = 237 -> byte_val b1 <= 159) /\
  (byte_val b0 = 240 -> 144 <= byte_val b1) /\ (byte_val b0 = 244 -> byte_val b1 <= 143).
Proof. unfold second_ok, byte_in, is_cont. cbn zeta. repeat case_match; lia. Qed.

Ltac utf8_bounds :=
  repeat match goal with
    | E : (_ && _)%bool = true |- _ => apply andb_true_iff in E as [? ?]
    | E : second_ok _ _ = true |- _ => apply second_ok_bounds in E as (? & ? & ? & ? & ?)
    | E : byte_in _ _ _ = true |- _ => unfold byte_in in E
    | E : is_cont _ = true |- _ => unfold is_cont in E
    end.

Ltac pick_true := match goal with |- context [if ?b then _ else _] => replace b with true by (symmetry; lia) end.
Ltac pick_false := match goal with |- context [if ?b then _ else _] => replace b with false by (symmetry; lia) end.

Lemma good_two b0 b1 : byte_in 194 223 b0 = true -> second_ok b0 b1 = true ->
  good_rune ((byte_val b0 - 192) * 64 + (byte_val b1 - 128), [b0; b1]).
Proof.
  intros E0 E1. split; cbn [fst snd].
  - utf8_bounds. unfold encode_rune. cbn zeta. pick_false. pick_true.
    f_equal; [|f_equal]; apply byte_of_byte_val; Z.div_mod_to_equations; lia.
  - intros l. cbn [app decode_runes]. cbn zeta. rewrite E0, E1. utf8_bounds. pick_false. done.
  - right. utf8_bounds. split; [lia|]. repeat constructor; lia.
Qed.

Lemma good_three b0 b1 b2 : byte_in 194 223 b0 = false -> byte_in 224 239 b0 = true -> second_ok b0 b1 && is_cont b2 = true ->
  good_rune ((byte_val b0 - 224) * 4096 + (byte_val b1 - 128) * 64 + (byte_val b2 - 128), [b0; b1; b2]).
Proof.
  intros En E0 E1. split; cbn [fst snd].
  - clear En. utf8_bounds. unfold encode_rune. cbn zeta. pick_false. pick_false. pick_true.
    f_equal; [|f_equal; [|f_equal]]; apply byte_of_byte_val; Z.div_mod_to_equations; lia.
  - intros l. cbn [app decode_runes]. cbn zeta. rewrite En, E0, E1. clear En. utf8_bounds. pick_false. done.
  - right. clear En. utf8_bounds. split; [lia|]. repeat constructor; lia.
Qed.

Lemma good_four b0 b1 b2 b3 : byte_in 194 223 b0 = false -> byte_in 224 239 b0 = false -> byte_in 240 244 b0 = true ->
  second_ok b0 b1 && is_cont b2 && is_cont b3 = true ->
  good_rune ((byte_val b0 - 240) * 262144 + (byte_val b1 - 128) * 4096 + (byte_val b2 - 128) * 64 + (byte_val b3 - 128), [b0; b1; b2; b3]).
Proof.
  intros En En2 E0 E1. split; cbn [fst snd].
  - clear En En2. utf8_bounds. unfold encode_rune. cbn zeta. pick_false. pick_false. pick_false. pick_true.
    f_equal; [|f_equal; [|f_equal; [|f_equal]]]; apply byte_of_byte_val; Z.div_mod_to_equations; lia.
  - intros l. cbn [app decode_runes]. cbn zeta. rewrite En, En2, E0, E1. clear En En2. utf8_bounds. pick_false. done.
  - right. clear En En2. utf8_bounds. split; [lia|]. repeat constructor; lia.
Qed.

(** The runes of any bytes: each one is good or stands for one invalid byte. *)
Lemma decode_runes_spec l :
  Forall (fun p => good_rune p \/ bad_rune p) (decode_runes l) /\ concat (map snd (decode_runes l)) = l.
Proof.
  remember (length l) as n eqn:En. assert (Hn : (length l <= n)%nat) by lia. clear En. revert l Hn.
  induction n as [|n IH]; intros l Hn; [destruct l; [done|cbn in Hn; lia]|].
  destruct l as [|b0 l1]; [done|]. cbn [length] in Hn.
  assert (Hstep : forall p l', (length l' <= n)%nat -> (good_rune p \/ bad_rune p) ->
    Forall (fun p => good_rune p \/ bad_rune p) (p :: decode_runes l') /\ concat (map snd (p :: decode_runes l')) = p.2 ++ l').
  { intros p l' Hl Hp. destruct (IH l' Hl) as [H1 H2]. split; [by constructor|]. cbn. by rewrite H2. }
  assert (Hbad : good_rune (rune_error, [b0]) \/ bad_rune (rune_error, [b0])) by (by right).
  cbn [decode_runes]. cbn zeta. destruct (byte_val b0 <? 128) eqn:E1.
  { apply Hstep; [lia|]. left. apply good_low. lia. }
  destruct (byte_in 194 223 b0) eqn:E2.
  { destruct l1 as [|b1 l2]; [apply Hstep; [cbn; lia|done]|]. cbn in Hn.
    destruct (second_ok b0 b1) eqn:E3; apply Hstep; try done; try (cbn; lia). left. by apply good_two. }
  destruct (byte_in 224 239 b0) eqn:E3.
  { destruct l1 as [|b1 [|b2 l2]]; try (apply Hstep; [cbn in *; lia|done]). cbn in Hn.
    destruct (second_ok b0 b1 && is_cont b2) eqn:E4; apply Hstep; try done; try (cbn; lia). left. by apply good_three. }
  destruct (byte_in 240 244 b0) eqn:E4; [|apply Hstep; [lia|done]].
  destruct l1 as [|b1 [|b2 [|b3 l2]]]; try (apply Hstep; [cbn in *; lia|done]). cbn in Hn.
  destruct (second_ok b0 b1 && is_cont b2 && is_cont b3) eqn:E5; apply Hstep; try done; try (cbn; lia). left. by apply good_four.
Qed.

(** [utf8.ValidString] *)
Definition valid_utf8 (s : string) : bool :=
  forallb (fun p => negb ((p.1 =? rune_error) && Nat.eqb (length p.2) 1)) (decode_runes (bytes_of s)).

Lemma valid_utf8_good s : valid_utf8 s = true -> Forall good_rune (decode_runes (bytes_of s)).
Proof.
  unfold valid_utf8. rewrite forallb_forall. intros Hv. rewrite list.Forall_forall. intros p Hp.
  destruct (decode_runes_spec (bytes_of s)) as [Hall _]. rewrite list.Forall_forall in Hall. destruct (Hall p Hp) as [|[E1 E2]]; [done|].
  specialize (Hv p (proj1 (list_elem_of_In _ _) Hp)). rewrite E1, E2 in Hv. done.
Qed.

(** ** Lemmas on strings *)

Lemma decode_lows l l' : Forall (fun c => byte_val c < 128) l -> decode_runes (l ++ l') = map (fun c => (byte_val c, [c])) l ++ decode_runes l'.
Proof. induction 1 as [|c l Hc _ IH]; [done|]. rewrite <- app_comm_cons, decode_low by done. cbn. by rewrite IH. Qed.

(** What is written for a rune. *)
Inductive written (p : Z * list ascii) : list ascii -> Prop :=
| WEscape c e : escape_char e = Some c -> p.2 = [c] -> byte_val e < 128 -> Ascii.eqb e "u" = false -> written p [backslash; e]
| WUnicode : In p.1 (map Z.of_nat (seq 0 32) ++ [60; 62; 38; 8232; 8233]) -> written p (backslash :: "u"%char :: hex_width 4 p.1)
| WPlain : p.1 <> 34 -> p.1 <> 92 -> 32 <= p.1 -> written p p.2.

Lemma json_rune_written p : good_rune p -> ~ bad_rune p -> written p (json_rune p).
Proof.
  intros [Henc _ Hb] Hbad. unfold json_rune. cbn zeta.
  assert (Hp : 0 <= p.1 < 128 -> p.2 = [byte_of p.1]) by (intros Hlt; destruct Hb as [[_ Hb]|[? _]]; [done|lia]).
  destruct ((p.1 =? rune_error) && Nat.eqb (length p.2) 1) eqn:E0.
  { exfalso. apply Hbad. apply andb_true_iff in E0 as [E1 E2]. split; [lia|]. by apply Nat.eqb_eq. }
  destruct ((p.1 =? 34) || (p.1 =? 92)) eqn:E1.
  { apply orb_true_iff in E1. rewrite !Z.eqb_eq in E1. destruct E1 as [E1|E1]; rewrite E1;
      (eapply WEscape; [reflexivity|rewrite Hp, E1 by lia; reflexivity|reflexivity|reflexivity]). }
  repeat match goal with
    | |- written p (if p.1 =? ?k then _ else _) => destruct (Z.eqb_spec p.1 k) as [Ek|];
        [eapply WEscape; [reflexivity|rewrite Hp, Ek by lia; reflexivity|reflexivity|reflexivity]|]
    end.
  destruct ((p.1 <? 32) || _ || _ || _ || _ || _) eqn:E2.
  - apply WUnicode. apply in_app_iff. destruct (Z.ltb_spec p.1 32) as [Hl|Hl].
    + left. apply in_map_iff. exists (Z.to_nat p.1). split; [|apply in_seq]; destruct Hb as [[? _]|[? _]]; lia.
    + right. cbn. lia.
  - apply orb_false_iff in E1. apply WPlain; lia.
Qed.

Lemma hex_chars n :
  In n (map Z.of_nat (seq 0 32) ++ [60; 62; 38; 8232; 8233]) ->
  exists a b c d, hex_width 4 n = [a; b; c; d] /\ is_hex a && is_hex b && is_hex c && is_hex d = true /\
    hex4 (byte_val a, [a]) (byte_val b, [b]) (byte_val c, [c]) (byte_val d, [d]) = Some n /\ is_surrogate n = false /\
    Forall (fun c => byte_val c < 128) [a; b; c; d].
Proof.
  assert (Hall : forallb (fun n => match hex_width 4 n with
    | [a; b; c; d] => is_hex a && is_hex b && is_hex c && is_hex d &&
        bool_decide (hex4 (byte_val a, [a]) (byte_val b, [b]) (byte_val c, [c]) (byte_val d, [d]) = Some n) &&
        negb (is_surrogate n) && forallb (fun c => byte_val c <? 128) [a; b; c; d]
    | _ => false end) (map Z.of_nat (seq 0 32) ++ [60; 62; 38; 8232; 8233]) = true) by (vm_compute; reflexivity).
  rewrite forallb_forall in Hall. intros Hn. specialize (Hall n Hn). destruct (hex_width 4 n) as [|a [|b [|c [|d [|]]]]]; try done.
  exists a, b, c, d. rewrite !andb_true_iff, negb_true_iff in Hall. destruct Hall as ((((((? & ?) & ?) & ?) & Hh) & ?) & Hl).
  apply bool_decide_eq_true in Hh. rewrite !andb_true_iff. split_and!; try done.
  rewrite forallb_forall in Hl. apply List.Forall_forall. intros x Hx. specialize (Hl x Hx). lia.
Qed.

(** The scanner passes over it, and unquoting gives the rune back. *)
Definition prefixed (x : list ascii) (r : result error (list ascii * list ascii)) : result error (list ascii * list ascii) :=
  match r with Ok (s, r) => Ok (x ++ s, r) | Err e => Err e end.

Lemma scan_plain l r : Forall (fun c => 32 <= byte_val c /\ byte_val c <> 34 /\ byte_val c <> 92) l ->
  scan_string 0 (l ++ r) = prefixed l (scan_string 0 r).
Proof.
  induction 1 as [|c l (H1 & H2 & H3) _ IH]; [cbn [app]; by destruct (scan_string 0 r) as [[]|]|]. cbn [app scan_string]. cbn zeta.
  destruct (Ascii.eqb_spec c dquote) as [->|_]; [done|]. rewrite (proj2 (Z.ltb_ge _ _)) by lia.
  destruct (Ascii.eqb_spec c backslash) as [->|_]; [done|]. rewrite IH. by destruct (scan_string 0 r) as [[]|].
Qed.

Lemma scan_written p x r : good_rune p -> written p x -> scan_string 0 (x ++ r) = prefixed x (scan_string 0 r).
Proof.
  intros Hg [c e He Hp Hlow Hu|Hin|H1 H2 H3].
  - cbn [app scan_string]. cbn zeta. change (Ascii.eqb backslash dquote) with false. change (byte_val backslash <? 32) with false.
    change (Ascii.eqb backslash backslash) with true. cbn iota. rewrite Hu, He. rewrite bool_decide_true by done.
    by destruct (scan_string 0 r) as [[]|].
  - destruct (hex_chars p.1 Hin) as (a & b & c & d & -> & Hh & _). rewrite !andb_true_iff in Hh. destruct Hh as [[[Ha Hb] Hc] Hd].
    cbn [app scan_string]. cbn zeta. change (Ascii.eqb backslash dquote) with false. change (byte_val backslash <? 32) with false.
    change (Ascii.eqb backslash backslash) with true. change (Ascii.eqb "u" "u") with true. cbn iota. rewrite Ha, Hb, Hc, Hd.
    by destruct (scan_string 0 r) as [[]|].
  - apply scan_plain. destruct Hg as [_ _ [[Hl ->]|[_ Hall]]].
    + constructor; [|constructor]. rewrite byte_val_byte_of by lia. lia.
    + eapply list.Forall_impl; [exact Hall|]. cbn. intros c Hc. lia.
Qed.

Lemma is_rune_backslash p : good_rune p -> p.1 <> 92 -> is_rune backslash p = false.
Proof.
  intros [_ _ Hb] Hn. apply bool_decide_eq_false. intros E. destruct Hb as [[Hl Hb]|[_ Hb]]; rewrite Hb in * || rewrite E in *.
  - injection E as E. apply (f_equal byte_val) in E. rewrite byte_val_byte_of in E by lia. done.
  - by inversion Hb.
Qed.

Lemma unquote_written p x r : good_rune p -> written p x ->
  unquote_runes (decode_runes (x ++ r)) = p.2 ++ unquote_runes (decode_runes r).
Proof.
  intros Hg Hw. destruct Hw as [c e He Hp Hlow Hu|Hin|H1 H2 H3].
  - cbn [app]. rewrite !decode_low by (done || (vm_compute; reflexivity)). cbn [unquote_runes]. rewrite Hp.
    change (is_rune backslash (byte_val backslash, [backslash])) with true. cbn iota.
    assert (Hr : is_rune "u" (byte_val e, [e]) = false).
    { apply bool_decide_eq_false. cbn. intros [= ->]. done. }
    rewrite Hr. cbn [snd]. by rewrite He.
  - destruct (hex_chars p.1 Hin) as (a & b & c & d & -> & _ & Hh & Hs & Hlow).
    change ((backslash :: "u"%char :: [a; b; c; d]) ++ r) with ([backslash; "u"%char; a; b; c; d] ++ r).
    rewrite decode_lows by (repeat (constructor; [vm_compute; reflexivity|]); exact Hlow).
    cbn [map app unquote_runes]. change (is_rune backslash (byte_val backslash, [backslash])) with true.
    change (is_rune "u" (byte_val "u", ["u"%char])) with true. cbn iota. rewrite Hh, Hs. by rewrite (good_encode p Hg).
  - rewrite (good_decode p Hg). cbn [unquote_runes]. rewrite is_rune_backslash by done. by rewrite (good_encode p Hg).
Qed.

(** A quoted string is read back. *)
Lemma scan_quoted ps r : Forall good_rune ps -> Forall (fun p => ~ bad_rune p) ps ->
  scan_string 0 (flat_map json_rune ps ++ dquote :: r) = Ok (flat_map json_rune ps, r).
Proof.
  induction 1 as [|p ps Hg _ IH]; inversion 1; [done|]. cbn [flat_map]. rewrite <- app_assoc, (scan_written p) by auto using json_rune_written.
  by rewrite IH.
Qed.

Lemma unquote_quoted ps : Forall good_rune ps -> Forall (fun p => ~ bad_rune p) ps ->
  unquote_runes (decode_runes (flat_map json_rune ps)) = concat (map snd ps).
Proof.
  induction 1 as [|p ps Hg _ IH]; inversion 1; [done|]. cbn [flat_map map concat]. rewrite (unquote_written p) by auto using json_rune_written.
  by rewrite IH.
Qed.

Lemma valid_utf8_not_bad s : valid_utf8 s = true -> Forall (fun p => ~ bad_rune p) (decode_runes (bytes_of s)).
Proof.
  unfold valid_utf8. rewrite forallb_forall. intros Hv. rewrite list.Forall_forall. intros p Hp [E1 E2].
  specialize (Hv p (proj1 (list_elem_of_In _ _) Hp)). rewrite E1, E2 in Hv. done.
Qed.

Lemma parse_string_quoted s r : valid_utf8 s = true ->
  parse_string (flat_map json_rune (decode_runes (bytes_of s)) ++ dquote :: r) = Ok (s, r).
Proof.
  intros Hv. unfold parse_string. rewrite scan_quoted by auto using valid_utf8_good, valid_utf8_not_bad.
  rewrite unquote_quoted by auto using valid_utf8_good, valid_utf8_not_bad.
  by rewrite (proj2 (decode_runes_spec _)), string_of_bytes_of.
Qed.

(** ** Lemmas on numbers *)

(** What cannot continue a number. *)
Definition stops (r : list ascii) : Prop :=
  match r with c :: _ => json_digit c = false /\ Ascii.eqb c "." = false /\ Ascii.eqb c "e" = false /\ Ascii.eqb c "E" = false | [] => True end.

Lemma span_digits_app l r : stops r -> span_digits (l ++ r) = let '(d, x) := span_digits l in (d, x ++ r).
Proof.
  intros Hr. induction l as [|c l IH].
  - destruct r as [|c r]; [done|]. destruct Hr as (Hd & _). cbn. by rewrite Hd.
  - cbn. destruct (json_digit c); [|done]. rewrite IH. by destruct (span_digits l).
Qed.

Definition extends (parse : list ascii -> result error (list ascii * list ascii)) : Prop :=
  forall l x y r, stops r -> parse l = Ok (x, y) -> parse (l ++ r) = Ok (x, y ++ r).

Lemma some_digits_extends ctx : extends (some_digits ctx).
Proof.
  intros [|c l] x y r Hr; [done|]. cbn [app some_digits]. destruct (json_digit c); [|done]. intros Heq.
  assert (E : span_digits (c :: l) = (x, y)) by congruence. by rewrite app_comm_cons, span_digits_app, E.
Qed.

Lemma parse_exponent_stops r : stops r -> parse_exponent r = Ok ([], r).
Proof. destruct r as [|c r]; [done|]. intros (_ & _ & E1 & E2). cbn. by rewrite E1, E2. Qed.

Lemma parse_exponent_extends : extends parse_exponent.
Proof.
  intros [|c l] x y r Hr E; [injection E as <- <-; by apply parse_exponent_stops|]. cbn [app parse_exponent] in *.
  destruct (_ || _); [|by injection E as <- <-]. destruct l as [|s l]; [done|]. cbn [app].
  assert (Hsign : forall sg l2, match some_digits "in exponent of numeric literal" l2 with Ok (d, r) => Ok (c :: sg ++ d, r) | Err e => Err e end = Ok (x, y) ->
    match some_digits "in exponent of numeric literal" (l2 ++ r) with Ok (d, r) => Ok (c :: sg ++ d, r) | Err e => Err e end = Ok (x, y ++ r)).
  { intros sg l2. destruct (some_digits _ l2) as [[d z]|e] eqn:Ed; [|done]. intros [= <- <-]. by rewrite (some_digits_extends _ _ _ _ _ Hr Ed). }
  destruct (_ || _); [by apply Hsign|]. by apply (Hsign [] (s :: l)).
Qed.

Lemma parse_fraction_extends : extends parse_fraction.
Proof.
  intros [|c l] x y r Hr E.
  - injection E as <- <-. destruct r as [|c r]; [done|]. cbn [app parse_fraction]. destruct Hr as (H1 & H2 & H3). rewrite H2. by apply parse_exponent_stops.
  - cbn [app parse_fraction] in *. destruct (Ascii.eqb c "."); [|by apply (parse_exponent_extends (c :: l))].
    destruct (some_digits _ l) as [[d z]|e] eqn:Ed; [|done]. rewrite (some_digits_extends _ _ _ _ _ Hr Ed).
    destruct (parse_exponent z) as [[x' y']|e] eqn:Ex; [|done]. injection E as <- <-. by rewrite (parse_exponent_extends _ _ _ _ Hr Ex).
Qed.

Lemma parse_unsigned_extends : extends parse_unsigned.
Proof.
  intros [|c l] x y r Hr E; [done|]. cbn [app parse_unsigned] in *. destruct (Ascii.eqb c "0").
  - destruct (parse_fraction l) as [[x' y']|e] eqn:Ef; [|done]. injection E as <- <-. by rewrite (parse_fraction_extends _ _ _ _ Hr Ef).
  - destruct (json_digit c); [|done]. rewrite span_digits_app by done. destruct (span_digits l) as [d z].
    destruct (parse_fraction z) as [[x' y']|e] eqn:Ef; [|done]. injection E as <- <-. by rewrite (parse_fraction_extends _ _ _ _ Hr Ef).
Qed.

Lemma parse_number_extends : extends parse_number.
Proof.
  intros [|c l] x y r Hr E; [done|]. cbn [app parse_number] in *. destruct (Ascii.eqb c "-"); [|by apply (parse_unsigned_extends (c :: l))].
  destruct (parse_unsigned l) as [[x' y']|e] eqn:Eu; [|done]. injection E as <- <-. by rewrite (parse_unsigned_extends _ _ _ _ Hr Eu).
Qed.

(** A text that is one number. *)
Definition json_number (lit : string) : bool :=
  match parse_number (bytes_of lit) with Ok (x, []) => bool_decide (x = bytes_of lit) | _ => false end.

Lemma parse_json_number lit r : json_number lit = true -> stops r -> parse_number (bytes_of lit ++ r) = Ok (bytes_of lit, r).
Proof.
  unfold json_number. destruct (parse_number (bytes_of lit)) as [[x [|]]|e] eqn:E; try done. rewrite bool_decide_eq_true. intros -> Hr.
  apply (parse_number_extends _ _ _ _ Hr E).
Qed.

(** ** The round trip *)

Section induction.
Context (P : JSON -> Prop) (Hnull : P JNull) (Hbool : forall b, P (JBool b)) (Hnum : forall l, P (JNum l)) (Hstr : forall s, P (JStr s)).
Context (Harr : forall l, Forall P l -> P (JArr l)) (Hobj : forall ms, Forall (fun kv => P kv.2) ms -> P (JObj ms)).

(** Induction with a hypothesis for every element and member. *)
Fixpoint JSON_nested_ind (v : JSON) : P v :=
  match v with
  | JNull => Hnull
  | JBool b => Hbool b
  | JNum l => Hnum l
  | JStr s => Hstr s
  | JArr l => Harr l ((fix go l : Forall P l := match l with [] => Forall_nil _ | x :: l' => Forall_cons _ _ _ (JSON_nested_ind x) (go l') end) l)
  | JObj ms => Hobj ms ((fix go ms : Forall (fun kv => P kv.2) ms :=
      match ms with [] => Forall_nil _ | kv :: ms' => Forall_cons _ _ _ (JSON_nested_ind kv.2) (go ms') end) ms)
  end.
End induction.

(** A value that [json.Marshal] writes without loss: numbers are literals, strings are UTF-8. *)
Fixpoint json_ok (v : JSON) : bool :=
  match v with
  | JNull | JBool _ => true
  | JNum lit => json_number lit
  | JStr s => valid_utf8 s
  | JArr l => forallb json_ok l
  | JObj ms => forallb (fun kv => valid_utf8 kv.1 && json_ok kv.2) ms
  end.

Fixpoint json_depth (v : JSON) : Z :=
  match v with
  | JArr l => 1 + foldr Z.max 0 (map json_depth l)
  | JObj ms => 1 + foldr Z.max 0 (map (fun kv => json_depth kv.2) ms)
  | _ => 0
  end.

Lemma number_head lit : json_number lit = true -> exists c l, bytes_of lit = c :: l /\ (Ascii.eqb c "-" || json_digit c) = true.
Proof.
  unfold json_number, parse_number, parse_unsigned. destruct (bytes_of lit) as [|c l]; [done|]. intros E. exists c, l. split; [done|].
  destruct (Ascii.eqb c "-"); [done|]. destruct (Ascii.eqb_spec c "0") as [->|]; [done|]. by destruct (json_digit c).
Qed.

(** A number is not taken for anything else. *)
Lemma number_char c : (Ascii.eqb c "-" || json_digit c) = true ->
  json_space c = false /\ Ascii.eqb c "{" = false /\ Ascii.eqb c "[" = false /\ Ascii.eqb c dquote = false /\ Ascii.eqb c "]" = false.
Proof. destruct c as [[] [] [] [] [] [] [] []]; vm_compute; intros E; first [discriminate E|by split_and!]. Qed.

Lemma json_bytes_head v : json_ok v = true -> exists c l, json_bytes v = c :: l /\ json_space c = false /\ Ascii.eqb c "]" = false.
Proof.
  destruct v as [|[]|lit|s|l|ms]; intros Hv; try (by eexists _, _). apply number_head in Hv as (c & l & E & Hc).
  apply number_char in Hc as (? & _ & _ & _ & ?). exists c, l. done.
Qed.

Lemma skip_space_head c l : json_space c = false -> skip_space (c :: l) = c :: l.
Proof. intros E. cbn. by rewrite E. Qed.

Lemma skip_space_bytes v r : json_ok v = true -> skip_space (json_bytes v ++ r) = json_bytes v ++ r.
Proof. intros Hv. destruct (json_bytes_head v Hv) as (c & l & -> & Hc & _). by apply skip_space_head. Qed.

Definition parses (v : JSON) : Prop := forall fuel depth r, stops r -> (2 * length (json_bytes v) < fuel)%nat ->
  depth + json_depth v <= maxNestingDepth -> parse_value fuel depth (json_bytes v ++ r) = Ok (v, r).

Lemma elements_head l r : exists c x, elements_bytes json_bytes false l ++ r = c :: x /\ (c = ","%char \/ c = "]"%char).
Proof. destruct l; eexists _, _; (split; [reflexivity|auto]). Qed.

Lemma members_head l r : exists c x, members_bytes json_bytes false l ++ r = c :: x /\ (c = ","%char \/ c = "}"%char).
Proof. destruct l as [|[]]; eexists _, _; (split; [reflexivity|auto]). Qed.

Lemma stops_elements l r : stops (elements_bytes json_bytes false l ++ r).
Proof. destruct (elements_head l r) as (c & x & -> & [-> | ->]); vm_compute; auto. Qed.

Lemma stops_members l r : stops (members_bytes json_bytes false l ++ r).
Proof. destruct (members_head l r) as (c & x & -> & [-> | ->]); vm_compute; auto. Qed.

Lemma parse_elements_bytes l : forall v fuel depth seen r, parses v -> Forall parses l -> json_ok v = true ->
  forallb json_ok l = true -> (2 * (length (json_bytes v) + length (elements_bytes json_bytes false l)) <= fuel)%nat ->
  depth + json_depth v <= maxNestingDepth -> Forall (fun x => depth + json_depth x <= maxNestingDepth) l ->
  parse_elements fuel depth (json_bytes v ++ elements_bytes json_bytes false l ++ r) seen = Ok (JArr (rev seen ++ v :: l), r).
Proof.
  induction l as [|x l IH]; intros v fuel depth seen r Hv Hl Ov Ol Hf Hd Hdl; cbn [elements_bytes] in Hf; rewrite ?length_app in Hf; cbn [length] in Hf; (destruct fuel as [|fuel]; [lia|]).
  all: cbn [parse_elements]; rewrite Hv by (apply stops_elements || lia); cbn [elements_bytes app].
  - rewrite skip_space_head by done. done.
  - rewrite skip_space_head by done. cbn [Ascii.eqb]. change (Ascii.eqb "," ",") with true. cbn iota. inversion Hl; subst. inversion Hdl; subst.
    cbn [forallb] in Ol. apply andb_true_iff in Ol as [Ox Ol].
    pose proof (json_bytes_head v Ov) as (c & y & Ec & _). rewrite Ec in Hf. cbn [length] in Hf.
    rewrite <- app_assoc, IH by (done || lia). cbn [rev]. by rewrite <- app_assoc.
Qed.

(** A key and its colon. *)
Lemma quote_bytes k r : bytes_of (json_quote k) ++ r = dquote :: flat_map json_rune (decode_runes (bytes_of k)) ++ dquote :: r.
Proof. unfold json_quote. rewrite bytes_of_string_of. cbn [app]. by rewrite <- app_assoc. Qed.

Lemma quote_length k : (2 <= length (bytes_of (json_quote k)))%nat.
Proof. unfold json_quote. rewrite bytes_of_string_of. cbn [app length]. rewrite length_app. cbn. lia. Qed.

Lemma parse_members_bytes ms : forall k v fuel depth seen r, parses v -> Forall (fun kv => parses kv.2) ms -> valid_utf8 k = true -> json_ok v = true ->
  forallb (fun kv => valid_utf8 kv.1 && json_ok kv.2) ms = true ->
  (2 * (length (bytes_of (json_quote k)) + S (length (json_bytes v) + length (members_bytes json_bytes false ms))) <= fuel)%nat ->
  depth + json_depth v <= maxNestingDepth -> Forall (fun kv => depth + json_depth kv.2 <= maxNestingDepth) ms ->
  parse_members fuel depth (bytes_of (json_quote k) ++ ":"%char :: json_bytes v ++ members_bytes json_bytes false ms ++ r) seen
    = Ok (JObj (rev seen ++ (k, v) :: ms), r).
Proof.
  induction ms as [|[k2 x] ms IH]; intros k v fuel depth seen r Hv Hl Ok Ov Ol Hf Hd Hdl; pose proof (quote_length k) as Hq;
    cbn [members_bytes] in Hf; rewrite ?length_app in Hf; cbn [length] in Hf; rewrite ?length_app in Hf; (destruct fuel as [|fuel]; [lia|]).
  all: rewrite quote_bytes; cbn [parse_members]; rewrite skip_space_head by done; change (Ascii.eqb dquote dquote) with true; cbn iota;
    rewrite parse_string_quoted by done; rewrite skip_space_head by done; change (Ascii.eqb ":" ":") with true; cbn iota;
    rewrite Hv by (apply stops_members || lia); cbn [members_bytes app]; rewrite skip_space_head by done.
  - done.
  - change (Ascii.eqb "," ",") with true. cbn iota. inversion Hl; subst. inversion Hdl; subst.
    cbn [forallb fst snd] in *. rewrite !andb_true_iff in Ol. destruct Ol as [[Ok2 Ox] Ol].
    rewrite <- app_assoc. cbn [app]. rewrite <- app_assoc. rewrite IH by (done || lia). cbn [rev]. by rewrite <- app_assoc.
Qed.

Lemma depth_elements {A} (f : A -> Z) l depth m : depth + (1 + foldr Z.max 0 (map f l)) <= m -> Forall (fun x => depth + 1 + f x <= m) l.
Proof. induction l as [|x l IH]; cbn; constructor; [lia|]. apply IH. lia. Qed.

Lemma foldr_max_nonneg l : 0 <= foldr Z.max 0 l.
Proof. induction l; cbn; lia. Qed.

Lemma parse_value_bytes v : json_ok v = true -> parses v.
Proof.
  induction v as [|b|lit|s|l IH|ms IH] using JSON_nested_ind; intros Ov fuel depth r Hr Hf Hd; (destruct fuel as [|fuel]; [lia|]).
  - done.
  - by destruct b.
  - destruct (number_head lit Ov) as (c & l & E & Hc). destruct (number_char c Hc) as (H1 & H2 & H3 & H4 & _).
    pose proof (parse_json_number lit r Ov Hr) as Hp. cbn [json_bytes parse_value]. rewrite E in *. cbn [app] in *. rewrite skip_space_head by done.
    rewrite H2, H3, H4, Hc, Hp. by rewrite <- E, string_of_bytes_of.
  - cbn [json_bytes parse_value]. rewrite quote_bytes, skip_space_head by done. change (Ascii.eqb dquote "{") with false.
    change (Ascii.eqb dquote "[") with false. change (Ascii.eqb dquote dquote) with true. cbn iota. by rewrite parse_string_quoted.
  - cbn [json_ok json_depth json_bytes length] in *. cbn [app parse_value]. rewrite skip_space_head by done.
    change (Ascii.eqb "[" "{") with false. change (Ascii.eqb "[" "[") with true. cbn iota.
    pose proof (foldr_max_nonneg (map json_depth l)). rewrite (proj2 (Z.leb_gt _ _)) by lia. apply depth_elements in Hd.
    destruct l as [|x l]; [done|]. cbn [forallb] in Ov. apply andb_true_iff in Ov as [Ox Ol].
    cbn [elements_bytes app] in *. rewrite length_app in Hf. rewrite <- app_assoc.
    assert (Hall : Forall parses (x :: l)).
    { rewrite list.Forall_forall in IH |- *. intros y Hy. apply IH; [done|]. apply elem_of_cons in Hy as [->|Hy]; [done|].
      rewrite forallb_forall in Ol. apply Ol. by apply list_elem_of_In. }
    inversion Hall; subst. inversion Hd; subst.
    destruct (json_bytes_head x Ox) as (c & y & Ec & Hs & Hb). rewrite Ec at 1. cbn [app]. rewrite skip_space_head by done. rewrite Hb.
    rewrite app_comm_cons, <- Ec. by rewrite parse_elements_bytes by (done || lia).
  - cbn [json_ok json_depth json_bytes length] in *. cbn [app parse_value]. rewrite skip_space_head by done.
    change (Ascii.eqb "{" "{") with true. cbn iota.
    pose proof (foldr_max_nonneg (map (fun kv => json_depth kv.2) ms)). rewrite (proj2 (Z.leb_gt _ _)) by lia. apply depth_elements in Hd.
    destruct ms as [|[k x] ms]; [done|]. cbn [forallb fst snd] in Ov. rewrite !andb_true_iff in Ov. destruct Ov as [[Ok Ox] Ol].
    cbn [members_bytes app] in *. rewrite length_app in Hf. cbn [length] in Hf. rewrite length_app in Hf.
    assert (Hall : Forall (fun kv => parses kv.2) ((k, x) :: ms)).
    { rewrite list.Forall_forall in IH |- *. intros y Hy. apply IH; [done|]. apply elem_of_cons in Hy as [->|Hy]; [done|].
      rewrite forallb_forall in Ol. apply list_elem_of_In in Hy. specialize (Ol y Hy). by apply andb_true_iff in Ol as [_ ?]. }
    inversion Hall; subst. inversion Hd; subst. rewrite <- app_assoc. cbn [app]. rewrite <- app_assoc.
    assert (Hsk : forall z, skip_space (bytes_of (json_quote k) ++ z) = bytes_of (json_quote k) ++ z) by (intros z; rewrite quote_bytes; by apply skip_space_head).
    rewrite Hsk. pose proof (quote_bytes k) as Hq. rewrite Hq at 1. change (Ascii.eqb dquote "}") with false. cbn iota.
    rewrite <- Hq. by rewrite parse_members_bytes by (done || lia).
Qed.

(** Reading what [json.Marshal] has written gives the value back. *)
Lemma json_parse_render v : json_ok v = true -> json_depth v <= maxNestingDepth -> json_parse (json_render v) = Ok v.
Proof.
  intros Hv Hd. unfold json_parse, json_render, parse_fuel. rewrite bytes_of_string_of. cbn zeta.
  pose proof (parse_value_bytes v Hv (S (2 * length (json_bytes v))) 0 []) as Hp. rewrite app_nil_r in Hp. rewrite Hp by (done || lia). done.
Qed.

(** ** Enough fuel *)

Lemma skip_space_length l : (length (skip_space l) <= length l)%nat.
Proof. induction l as [|c l IH]; cbn; [lia|]. destruct (json_space c); cbn; lia. Qed.

Lemma parse_literal_length name e l r : parse_literal name e l = Ok r -> (length r <= length l)%nat.
Proof.
  revert l. induction e as [|c e IH]; intros l; cbn; [intros [= ->]; lia|]. destruct l as [|x l]; [done|].
  destruct (Ascii.eqb x c); [|done]. intros E. apply IH in E. cbn. lia.
Qed.

Lemma scan_string_length l : forall hex s r, scan_string hex l = Ok (s, r) -> (length r < length l)%nat.
Proof.
  remember (length l) as n eqn:En. assert (Hn : (length l <= n)%nat) by lia. rewrite En. clear En. revert l Hn.
  induction n as [|n IH]; intros [|c l] Hn hex s r; cbn [length] in *; try done; try lia. cbn [scan_string]. cbn zeta.
  assert (Hk : forall x hex l', (length l' <= n)%nat -> match scan_string hex l' with Ok (s, r) => Ok (x ++ s, r) | Err e => Err e end = Ok (s, r) -> (length r < length l')%nat).
  { intros x hex' l' Hl. destruct (scan_string hex' l') as [[s' r']|e] eqn:E; [|done]. intros [= _ <-]. by eapply IH. }
  destruct hex as [|hex].
  - destruct (Ascii.eqb c dquote); [intros [= _ <-]; lia|]. destruct (_ <? 32); [done|]. destruct (Ascii.eqb c backslash).
    + destruct l as [|e l]; [done|]. cbn [length] in *. destruct (Ascii.eqb e "u"); [|destruct (bool_decide _); [|done]];
        intros E; apply (Hk [c; e]) in E; lia.
    + intros E. apply (Hk [c]) in E; lia.
  - destruct (is_hex c); [|done]. intros E. apply (Hk [c]) in E; lia.
Qed.

Lemma parse_string_length l s r : parse_string l = Ok (s, r) -> (length r < length l)%nat.
Proof. unfold parse_string. destruct (scan_string 0 l) as [[raw x]|] eqn:E; [|done]. intros [= _ <-]. by eapply scan_string_length. Qed.

Definition shrinks (parse : list ascii -> result error (list ascii * list ascii)) : Prop :=
  forall l x r, parse l = Ok (x, r) -> (length r <= length l)%nat.

Lemma span_digits_length l : (length (span_digits l).2 <= length l)%nat.
Proof. induction l as [|c l IH]; cbn; [lia|]. destruct (json_digit c); cbn; [|lia]. destruct (span_digits l). cbn in *. lia. Qed.

Lemma some_digits_shrinks ctx : shrinks (some_digits ctx).
Proof.
  intros [|c l] x r; [done|]. cbn [some_digits]. destruct (json_digit c); [|done]. intros E.
  pose proof (span_digits_length (c :: l)) as Hs. replace (span_digits (c :: l)) with (x, r) in Hs by congruence. done.
Qed.

Lemma parse_exponent_shrinks : shrinks parse_exponent.
Proof.
  intros [|c l] x r; cbn [parse_exponent]; [by intros [= _ <-]|]. destruct (_ || _); [|by intros [= _ <-]].
  destruct l as [|s l]; [done|]. destruct (_ || _).
  all: match goal with |- context [some_digits ?c ?l] => destruct (some_digits c l) as [[d y]|] eqn:E; [|done]; apply some_digits_shrinks in E end.
  all: intros [= _ <-]; cbn in *; lia.
Qed.

Lemma parse_fraction_shrinks : shrinks parse_fraction.
Proof.
  intros [|c l] x r; cbn [parse_fraction]; [by intros [= _ <-]|]. destruct (Ascii.eqb c "."); [|apply parse_exponent_shrinks].
  destruct (some_digits _ l) as [[d y]|] eqn:E; [|done]. apply some_digits_shrinks in E.
  destruct (parse_exponent y) as [[d2 y2]|] eqn:E2; [|done]. apply parse_exponent_shrinks in E2. intros [= _ <-]. cbn. lia.
Qed.

Lemma parse_unsigned_length l x r : parse_unsigned l = Ok (x, r) -> (length r < length l)%nat.
Proof.
  destruct l as [|c l]; [done|]. cbn [parse_unsigned]. destruct (Ascii.eqb c "0").
  - destruct (parse_fraction l) as [[d y]|] eqn:E; [|done]. apply parse_fraction_shrinks in E. intros [= _ <-]. cbn. lia.
  - destruct (json_digit c); [|done]. pose proof (span_digits_length l). destruct (span_digits l) as [d y].
    destruct (parse_fraction y) as [[d2 y2]|] eqn:E; [|done]. apply parse_fraction_shrinks in E. intros [= _ <-]. cbn in *. lia.
Qed.

Lemma parse_number_length l x r : parse_number l = Ok (x, r) -> (length r < length l)%nat.
Proof.
  destruct l as [|c l]; [done|]. cbn [parse_number]. destruct (Ascii.eqb c "-"); [|apply parse_unsigned_length].
  destruct (parse_unsigned l) as [[d y]|] eqn:E; [|done]. apply parse_unsigned_length in E. intros [= _ <-]. cbn. lia.
Qed.

Lemma skip_space_cons l c l1 : skip_space l = c :: l1 -> (length l1 < length l)%nat.
Proof. intros E. pose proof (skip_space_length l). rewrite E in *. cbn in *. lia. Qed.

Ltac json_lengths :=
  repeat match goal with
    | E : skip_space _ = _ :: _ |- _ => apply skip_space_cons in E
    | E : parse_string _ = Ok _ |- _ => apply parse_string_length in E
    | E : parse_number _ = Ok _ |- _ => apply parse_number_length in E
    | E : parse_literal _ _ _ = Ok _ |- _ => apply parse_literal_length in E
    end; cbn [length] in *.

Lemma parse_length fuel :
  (forall d l v r, parse_value fuel d l = Ok (v, r) -> (length r < length l)%nat) /\
  (forall d l seen v r, parse_elements fuel d l seen = Ok (v, r) -> (length r < length l)%nat) /\
  (forall d l seen v r, parse_members fuel d l seen = Ok (v, r) -> (length r < length l)%nat).
Proof.
  induction fuel as [|fuel (IHv & IHe & IHm)]; [by split_and!|]. split_and!.
  - intros d l v r. cbn [parse_value]. intros E. repeat (case_match; simplify_eq); json_lengths;
      try (apply IHe in E; cbn [length] in *); try (apply IHm in E; cbn [length] in *); lia.
  - intros d l seen v r. cbn [parse_elements]. intros E. repeat (case_match; simplify_eq); json_lengths;
      repeat match goal with E : parse_value _ _ _ = Ok _ |- _ => apply IHv in E end; try apply IHe in E; lia.
  - intros d l seen v r. cbn [parse_members]. intros E. repeat (case_match; simplify_eq); json_lengths;
      repeat match goal with E : parse_value _ _ _ = Ok _ |- _ => apply IHv in E end; try apply IHm in E; lia.
Qed.

(** One call on each side of the equation. *)
Ltac unfold_once c app fuel :=
  let U := fresh in
  assert (U : forall f, ltac:(let t := eval cbn beta in (app (S f)) in exact (t = ltac:(let u := eval cbn [c] in t in exact u)))) by reflexivity;
  rewrite (U (S fuel)), (U fuel); clear U.

(** More fuel than [parse_fuel] changes nothing. *)
Lemma parse_stable fuel :
  (forall d l, (2 * length l < fuel)%nat -> parse_value (S fuel) d l = parse_value fuel d l) /\
  (forall d l seen, (2 * length l + 2 <= fuel)%nat -> parse_elements (S fuel) d l seen = parse_elements fuel d l seen) /\
  (forall d l seen, (2 * length l + 2 <= fuel)%nat -> parse_members (S fuel) d l seen = parse_members fuel d l seen).
Proof.
  induction fuel as [|fuel (IHv & IHe & IHm)]; [split_and!; intros; lia|]. split_and!.
  - intros d l Hf. unfold_once parse_value (fun f => parse_value f d l) fuel.
    destruct (skip_space l) as [|c l1] eqn:E1; [done|]. destruct (skip_space l1) as [|x l2] eqn:E2; [done|]. json_lengths.
    rewrite IHm, IHe by (cbn [length]; lia). done.
  - intros d l seen Hf. unfold_once parse_elements (fun f => parse_elements f d l seen) fuel. rewrite IHv by lia.
    destruct (parse_value fuel d l) as [[v r]|] eqn:Ev; [|done]. apply (proj1 (parse_length fuel)) in Ev.
    destruct (skip_space r) as [|x r'] eqn:E; [done|]. json_lengths. by rewrite IHe by lia.
  - intros d l seen Hf. unfold_once parse_members (fun f => parse_members f d l seen) fuel.
    destruct (skip_space l) as [|q l1] eqn:E1; [done|]. destruct (Ascii.eqb q dquote); [|done].
    destruct (parse_string l1) as [[k r]|] eqn:E2; [|done]. destruct (skip_space r) as [|colon r1] eqn:E3; [done|]. json_lengths.
    destruct (Ascii.eqb colon ":"); [|done]. rewrite IHv by lia.
    destruct (parse_value fuel d r1) as [[v r2]|] eqn:Ev; [|done]. apply (proj1 (parse_length fuel)) in Ev.
    destruct (skip_space r2) as [|x r'] eqn:E; [done|]. json_lengths. by rewrite IHm by lia.
Qed.

Lemma parse_fuel_enough l d fuel : (parse_fuel l <= fuel)%nat -> parse_value fuel d l = parse_value (parse_fuel l) d l.
Proof.
  intros Hf. induction Hf as [|fuel Hf IH]; [done|]. rewrite <- IH. apply parse_stable. unfold parse_fuel in Hf. lia.
Qed.

(** ** Trimmed texts *)

Lemma decode_cases b0 l1 : (exists p l', good_rune p /\ b0 :: l1 = p.2 ++ l' /\ decode_runes (b0 :: l1) = p :: decode_runes l') \/
  (byte_val b0 >= 128 /\ decode_runes (b0 :: l1) = (rune_error, [b0]) :: decode_runes l1 /\
   forall l2, (exists l3, l1 = l2 ++ l3) -> decode_runes (b0 :: l2) = (rune_error, [b0]) :: decode_runes l2).
Proof.
  cbn [decode_runes]. cbn zeta. destruct (byte_val b0 <? 128) eqn:E1.
  { left. exists (byte_val b0, [b0]), l1. split_and!; [apply good_low; lia|done|done]. }
  assert (Hge : byte_val b0 >= 128) by lia.
  destruct (byte_in 194 223 b0) eqn:E2.
  { destruct l1 as [|b1 l2].
    - right. split_and!; [done|done|]. intros l2 [l3 E]. by destruct l2.
    - destruct (second_ok b0 b1) eqn:E3; [left; eexists (_, [b0; b1]), l2; split_and!; [by apply good_two|done|done]|].
      right. split_and!; [done|done|]. intros [|c l4] [l3 E]; [done|]. injection E as <- ->. by rewrite E3. }
  destruct (byte_in 224 239 b0) eqn:E3.
  { destruct l1 as [|b1 [|b2 l2]].
    1, 2: right; split_and!; [done|done|]; intros l2 [l3 E]; destruct l2 as [|? [|]]; by simplify_eq/=.
    destruct (second_ok b0 b1 && is_cont b2) eqn:E4; [left; eexists (_, [b0; b1; b2]), l2; split_and!; [by apply good_three|done|done]|].
    right. split_and!; [done|done|]. intros [|c [|c2 l4]] [l3 E]; [done|done|]. injection E as <- <- ->. by rewrite E4. }
  destruct (byte_in 240 244 b0) eqn:E4; [|right; by split_and!].
  destruct l1 as [|b1 [|b2 [|b3 l2]]].
  1, 2, 3: right; split_and!; [done|done|]; intros l2 [l3 E]; destruct l2 as [|? [|? [|]]]; by simplify_eq/=.
  destruct (second_ok b0 b1 && is_cont b2 && is_cont b3) eqn:E5; [left; eexists (_, [b0; b1; b2; b3]), l2; split_and!; [by apply good_four|done|done]|].
  right. split_and!; [done|done|]. intros [|c [|c2 [|c3 l4]]] [l3 E]; [done|done|done|]. injection E as <- <- <- ->. by rewrite E5.
Qed.

(** Runes removed from the front leave the others as they are. *)
Lemma decode_suffix pre : forall l q, decode_runes l = pre ++ q -> decode_runes (concat (map snd q)) = q.
Proof.
  induction pre as [|a pre IH]; intros l q E; [cbn in E; rewrite <- E; f_equal; apply decode_runes_spec|].
  destruct l as [|b0 l1]; [done|]. destruct (decode_cases b0 l1) as [(p & l' & _ & _ & E2)|(_ & E2 & _)]; rewrite E2 in E; injection E as _ E; by apply IH in E.
Qed.

(** Runes removed from the end leave the first one as it is. *)
Lemma decode_prefix p t suf : decode_runes (concat (map snd (p :: t ++ suf))) = p :: t ++ suf -> exists q, decode_runes (concat (map snd (p :: t))) = p :: q.
Proof.
  cbn [map concat]. rewrite map_app, concat_app. intros E. destruct (p.2 ++ concat (map snd t) ++ concat (map snd suf)) as [|b0 l1] eqn:El; [done|].
  destruct (decode_cases b0 l1) as [(p' & l' & Hg & Hl & E2)|(_ & E2 & Hbad)]; rewrite E2 in E; injection E as Ep _.
  - subst p'. rewrite (good_decode p Hg). by eexists.
  - rewrite <- Ep in *. cbn in El. injection El as El. cbn [snd app]. rewrite (Hbad (concat (map snd t))) by (by exists (concat (map snd suf))). by eexists.
Qed.

Lemma drop_while_split {A} (f : A -> bool) l : exists pre, l = pre ++ drop_while f l /\ match drop_while f l with x :: _ => f x = false | [] => True end.
Proof.
  induction l as [|x l (pre & E & Hh)]; [by exists []|]. cbn. destruct (f x) eqn:Ef; [|by exists []]. exists (x :: pre). cbn. by rewrite <- E.
Qed.

Lemma trim_split l : exists pre suf, l = pre ++ trim_runes l ++ suf /\ match trim_runes l with p :: _ => unicode_IsSpace p.1 = false | [] => True end.
Proof.
  unfold trim_runes. set (sp := fun p : Z * list ascii => unicode_IsSpace p.1). destruct (drop_while_split sp l) as (pre & E & Hh).
  destruct (drop_while_split sp (rev (drop_while sp l))) as (suf & E2 & _). exists pre, (rev suf). split.
  - rewrite <- rev_app_distr, <- E2, rev_involutive. exact E.
  - apply (f_equal (@rev _)) in E2. rewrite rev_involutive, rev_app_distr in E2. destruct (rev (drop_while sp (rev _))) as [|p t]; [done|].
    rewrite E2 in Hh. exact Hh.
Qed.

(** A text that is not blank stays so when it is trimmed. *)
Lemma trim_not_blank s : TrimSpace s <> "" -> TrimSpace (TrimSpace s) <> "".
Proof.
  unfold TrimSpace at 1 3. destruct (trim_split (decode_runes (bytes_of s))) as (pre & suf & E & Hh).
  destruct (trim_runes (decode_runes (bytes_of s))) as [|p t] eqn:Et; [done|]. intros Hne.
  pose proof (decode_suffix pre _ _ E) as E1. cbn [app] in E1. destruct (decode_prefix p t suf E1) as [q Eq].
  unfold TrimSpace, flatten_runes. rewrite bytes_of_string_of, Eq.
  assert (Ht : exists x r, trim_runes (p :: q) = x :: r /\ x = p).
  { unfold trim_runes. cbn [drop_while]. rewrite Hh. destruct (drop_while_split (fun p : Z * list ascii => unicode_IsSpace p.1) (rev (p :: q))) as (pre2 & E2 & _).
    apply (f_equal (@rev _)) in E2. rewrite rev_involutive, rev_app_distr in E2.
    destruct (rev (drop_while _ (rev (p :: q)))) as [|x r] eqn:Ed; [|cbn in E2; injection E2 as <- _; by exists p, r]. exfalso.
    apply (f_equal (@rev _)) in Ed. rewrite rev_involutive in Ed. cbn in Ed.
    assert (Hall : forall l, drop_while (fun p : Z * list ascii => unicode_IsSpace p.1) l = [] -> Forall (fun p => unicode_IsSpace p.1 = true) l).
    { induction l as [|y l IH]; [constructor|]. cbn. destruct (unicode_IsSpace y.1) eqn:Ey; [|done]. intros Hd. constructor; auto. }
    apply Hall in Ed. rewrite list.Forall_app, list.Forall_cons in Ed. destruct Ed as (_ & Hp & _). cbn in Hp. congruence. }
  destruct Ht as (x & r & -> & ->). cbn [map concat]. intros Hc. apply (f_equal bytes_of) in Hc. rewrite bytes_of_string_of in Hc.
  destruct p.2 as [|c b] eqn:Ep; [|done]. destruct p as [rn b0]. cbn in Ep. subst b0.
  destruct (decode_runes_spec (concat (map snd ((rn, []) :: t)))) as [Hf _]. rewrite Eq in Hf. apply list.Forall_cons in Hf as [[Hg|Hb] _].
  - pose proof (good_encode _ Hg) as He. cbn in He. unfold encode_rune in He. cbn zeta in He. repeat case_match; done.
  - by destruct Hb.
Qed.

Lemma trim_blank s : TrimSpace s <> "" -> is_blank (TrimSpace s) = false.
Proof. intros Hs. apply bool_decide_eq_false. by apply trim_not_blank. Qed.

(** ** A JSON text is one line *)

Definition printed (l : list ascii) : Prop := Forall (fun c => 32 <= byte_val c) l.

Definition prints (parse : list ascii -> result error (list ascii * list ascii)) : Prop := forall l x r, parse l = Ok (x, r) -> printed x.

Lemma digit_printed c : json_digit c = true -> 32 <= byte_val c.
Proof. unfold json_digit. lia. Qed.

Lemma eqb_printed c d : Ascii.eqb c d = true -> 32 <= byte_val d -> 32 <= byte_val c.
Proof. by intros ->%Ascii.eqb_eq. Qed.

Lemma span_digits_printed l : printed (span_digits l).1.
Proof.
  induction l as [|c l IH]; cbn; [constructor|]. destruct (json_digit c) eqn:E; [|constructor]. destruct (span_digits l).
  constructor; [by apply digit_printed|done].
Qed.

Lemma some_digits_prints ctx : prints (some_digits ctx).
Proof.
  intros [|c l] x r; [done|]. cbn [some_digits]. destruct (json_digit c); [|done]. intros E.
  pose proof (span_digits_printed (c :: l)) as Hs. by replace (span_digits (c :: l)) with (x, r) in Hs by congruence.
Qed.

Lemma parse_exponent_prints : prints parse_exponent.
Proof.
  intros [|c l] x r; cbn [parse_exponent]; [intros [= <- _]; constructor|]. destruct (_ || _) eqn:Ec; [|intros [= <- _]; constructor].
  assert (Hc : 32 <= byte_val c) by (apply orb_true_iff in Ec as [E|E]; by apply (eqb_printed _ _ E)).
  clear Ec. set (sl := match l with [] => _ | _ => _ end). assert (Hs : printed sl.1).
  { unfold sl. destruct l as [|s l2]; [constructor|]. destruct (_ || _) eqn:Es; constructor; [|constructor].
    apply orb_true_iff in Es as [E|E]; by apply (eqb_printed _ _ E). }
  destruct sl as [sign l2]. destruct (some_digits _ l2) as [[d y]|] eqn:E; [|done]. apply some_digits_prints in E.
  intros [= <- _]. constructor; [done|]. by apply list.Forall_app.
Qed.

Lemma parse_fraction_prints : prints parse_fraction.
Proof.
  intros [|c l] x r; cbn [parse_fraction]; [intros [= <- _]; constructor|]. destruct (Ascii.eqb c ".") eqn:Ec; [|apply parse_exponent_prints].
  destruct (some_digits _ l) as [[d y]|] eqn:E; [|done]. apply some_digits_prints in E.
  destruct (parse_exponent y) as [[d2 y2]|] eqn:E2; [|done]. apply parse_exponent_prints in E2. intros [= <- _].
  constructor; [by apply (eqb_printed _ _ Ec)|]. by apply list.Forall_app.
Qed.

Lemma parse_unsigned_prints : prints parse_unsigned.
Proof.
  intros [|c l] x r; [done|]. cbn [parse_unsigned]. destruct (Ascii.eqb c "0") eqn:Ec.
  - destruct (parse_fraction l) as [[d y]|] eqn:E; [|done]. apply parse_fraction_prints in E. intros [= <- _]. constructor; [by apply (eqb_printed _ _ Ec)|done].
  - destruct (json_digit c) eqn:Ed; [|done]. pose proof (span_digits_printed l) as Hs. destruct (span_digits l) as [d y].
    destruct (parse_fraction y) as [[d2 y2]|] eqn:E; [|done]. apply parse_fraction_prints in E. intros [= <- _].
    constructor; [by apply digit_printed|]. by apply list.Forall_app.
Qed.

Lemma parse_number_prints : prints parse_number.
Proof.
  intros [|c l] x r; [done|]. cbn [parse_number]. destruct (Ascii.eqb c "-") eqn:Ec; [|apply parse_unsigned_prints].
  destruct (parse_unsigned l) as [[y r']|] eqn:E2; [|done]. apply parse_unsigned_prints in E2. intros [= <- _].
  constructor; [by apply (eqb_printed _ _ Ec)|done].
Qed.

Lemma json_number_printed lit : json_number lit = true -> printed (bytes_of lit).
Proof.
  unfold json_number. destruct (parse_number (bytes_of lit)) as [[x [|]]|] eqn:E; try done. intros <-%bool_decide_eq_true.
  by apply parse_number_prints in E.
Qed.

Lemma hex_printed w z : 0 <= z -> printed (hex_width w z).
Proof.
  revert z. induction w as [|w IH]; intros z Hz; cbn; [constructor|]. apply list.Forall_app. split; [apply IH; apply Z.div_pos; lia|].
  constructor; [|constructor]. pose proof (Z.mod_pos_bound z 16 ltac:(lia)). unfold hex_digit. case_if as E.
  - apply Z.ltb_lt in E. rewrite byte_val_digit by lia. lia.
  - rewrite byte_val_byte_of by lia. lia.
Qed.

Lemma rune_printed p : good_rune p \/ bad_rune p -> printed (json_rune p).
Proof.
  intros Hp. destruct (decide (bad_rune p)) as [[E1 E2]|Hb].
  { unfold json_rune. rewrite E1, E2. repeat constructor; done. }
  destruct Hp as [Hg|]; [|done]. assert (Hp0 : 0 <= p.1) by (destruct (good_bytes p Hg) as [[? _]|[? _]]; lia).
  destruct (json_rune_written p Hg Hb) as [c e He Hp2 Hlow Hu|Hin|H1 H2 H3].
  - constructor; [done|]. constructor; [|constructor]. unfold escape_char in He. repeat case_match; try done;
      repeat match goal with E : (_ || _)%bool = true |- _ => apply orb_true_iff in E as [E|E] end;
      match goal with E : Ascii.eqb e ?d = true |- _ => by apply (eqb_printed _ _ E) end.
  - constructor; [done|]. constructor; [done|]. by apply hex_printed.
  - destruct (good_bytes p Hg) as [[Hl ->]|[_ Hall]].
    + constructor; [|constructor]. rewrite byte_val_byte_of; lia.
    + eapply list.Forall_impl; [exact Hall|]. cbn. lia.
Qed.

Lemma quote_printed s : printed (bytes_of (json_quote s)).
Proof.
  unfold json_quote. rewrite bytes_of_string_of. apply list.Forall_app. split; [by constructor|]. apply list.Forall_app. split; [|by constructor].
  destruct (decode_runes_spec (bytes_of s)) as [Hall _]. induction Hall as [|p ps Hp _ IH]; [constructor|].
  cbn [flat_map]. apply list.Forall_app. split; [by apply rune_printed|done].
Qed.

(** Whatever its strings are, the text of a value has no control characters if its numbers have none. *)
Fixpoint json_numbers (v : JSON) : bool :=
  match v with
  | JNum lit => forallb (fun c => 32 <=? byte_val c) (bytes_of lit)
  | JArr l => forallb json_numbers l
  | JObj ms => forallb (fun kv => json_numbers kv.2) ms
  | _ => true
  end.

Lemma forallb_printed l : forallb (fun c => 32 <=? byte_val c) l = true <-> printed l.
Proof.
  unfold printed. rewrite forallb_forall, list.Forall_forall. setoid_rewrite list_elem_of_In. split; intros Hl c Hc; specialize (Hl c Hc); lia.
Qed.

Lemma json_printed v : json_numbers v = true -> printed (json_bytes v).
Proof.
  induction v as [|b|lit|s|l IH|ms IH] using JSON_nested_ind; intros Hv; cbn [json_bytes].
  - repeat constructor; done.
  - destruct b; repeat constructor; done.
  - cbn [json_numbers] in Hv. apply forallb_printed, Hv.
  - apply quote_printed.
  - constructor; [done|]. cbn [json_numbers] in Hv. generalize true. revert Hv. induction IH as [|x l Hx _ IHl]; intros Hv first; cbn [elements_bytes]; [by repeat constructor|].
    cbn in Hv. apply andb_true_iff in Hv as [Hv1 Hv2]. apply list.Forall_app. split; [destruct first; by repeat constructor|].
    apply list.Forall_app. split; [by apply Hx|by apply IHl].
  - constructor; [done|]. cbn [json_numbers] in Hv. generalize true. revert Hv. induction IH as [|[k x] l Hx _ IHl]; intros Hv first; cbn [members_bytes]; [by repeat constructor|].
    cbn [forallb snd] in Hv. apply andb_true_iff in Hv as [Hv1 Hv2].
    apply list.Forall_app. split; [destruct first; by repeat constructor|]. apply list.Forall_app. split; [apply quote_printed|].
    constructor; [done|]. apply list.Forall_app. split; [by apply Hx|by apply IHl].
Qed.

Lemma json_ok_numbers v : json_ok v = true -> json_numbers v = true.
Proof.
  induction v as [|b|lit|s|l IH|ms IH] using JSON_nested_ind; cbn [json_ok json_numbers]; try done.
  - intros Hn. by apply forallb_printed, json_number_printed.
  - induction IH as [|x l Hx _ IHl]; [done|]. cbn [forallb]. rewrite !andb_true_iff. intros [? ?]. auto.
  - induction IH as [|[k x] l Hx _ IHl]; [done|]. cbn [forallb snd fst]. rewrite !andb_true_iff. intros [[? ?] ?]. auto.
Qed.

Lemma members_end ms : forall first, exists m, members_bytes json_bytes first ms = m ++ ["}"%char].
Proof.
  induction ms as [|[k x] ms IH]; intros first; cbn [members_bytes]; [by exists []|]. destruct (IH false) as [m ->].
  exists ((if first then [] else [","%char]) ++ bytes_of (json_quote k) ++ ":"%char :: json_bytes x ++ m).
  by rewrite <- !app_assoc, <- app_comm_cons, <- app_assoc.
Qed.

Definition newline : ascii := ascii_of_nat 10.

Lemma printed_no_newline l : printed l -> newline ∉ l.
Proof. intros Hl Hin. unfold printed in Hl. rewrite list.Forall_forall in Hl. specialize (Hl _ Hin). done. Qed.
