(* ===== verification/Strconv.v ===== *)
(** * Strconv: texts of numbers and durations

    What the code uses of the packages strconv and time to read and write numbers:
    [strconv.ParseFloat] (decimal, hexadecimal, infinities, underscores) with correct rounding,
    the shortest decimal of a float that [json.Marshal] writes, [strconv.ParseInt] and
    [time.ParseDuration]. *)

From Stdlib Require Import Ascii SpecFloat.
From S2P Require Import Prelude GoLib.

(** ** Rounding *)

(** The float nearest to [n/d], ties to even, for positive [n] and [d]: at least 65 bits of the
    quotient and one more for what is lost. *)
Definition f_ratio (neg : bool) (n d : Z) : float64 :=
  let k := Z.max 0 (66 - (Z.log2 n - Z.log2 d)) in
  let q := n * 2 ^ k / d in
  let lost := if n * 2 ^ k mod d =? 0 then 0 else 1 in
  binary_normalize 53 1024 (cond_Zopp neg (2 * q + lost)) (- k - 1) neg.

(** [m * 10^e] and [m * 2^e]; far outside the range without computing the power. *)
Definition f_decimal (neg : bool) (m e : Z) : float64 :=
  let total := Z.of_nat (length (dec_digits m)) + e in
  if m =? 0 then S754_zero neg
  else if 310 <? total then S754_infinity neg
  else if total <? -330 then S754_zero neg
  else if 0 <=? e then f_ratio neg (m * 10 ^ e) 1
  else f_ratio neg m (10 ^ (- e)).

Definition f_binary (neg : bool) (m e : Z) : float64 :=
  if m =? 0 then S754_zero neg
  else if 1100 <? Z.log2 m + e then S754_infinity neg
  else if Z.log2 m + e <? -1200 then S754_zero neg
  else if 0 <=? e then f_ratio neg (m * 2 ^ e) 1
  else f_ratio neg m (2 ^ (- e)).

(** ** strconv.ParseFloat *)

Inductive num_error : Type := ErrSyntax | ErrRange.
Definition num_error_text (e : num_error) : string :=
  match e with ErrSyntax => "invalid syntax" | ErrRange => "value out of range" end.

(** The message of a [*strconv.NumError]. *)
Definition NumError `{Unicode} (fn num : string) (e : num_error) : error :=
  errors_New ("strconv." +:+ fn +:+ ": parsing " +:+ Quote num +:+ ": " +:+ num_error_text e).

Definition lower_ascii (c : ascii) : ascii :=
  let v := byte_val c in if (65 <=? v) && (v <=? 90) then byte_of (v + 32) else c.

Definition split_sign (l : list ascii) : bool * list ascii :=
  match l with
  | c :: l' => if Ascii.eqb c "-" then (true, l') else if Ascii.eqb c "+" then (false, l') else (false, l)
  | [] => (false, [])
  end.

(** A digit of the base; underscores are checked separately. *)
Definition float_digit (hex : bool) (c : ascii) : option Z :=
  let c := lower_ascii c in
  let v := byte_val c in
  if is_digit c then Some (v - 48) else if hex && (97 <=? v) && (v <=? 102) then Some (v - 87) else None.

(** The mantissa: its digits as a number, the number of digits after the point, whether there was
    a digit, and what follows. *)
Fixpoint read_mantissa (hex dot some : bool) (m : Z) (frac : Z) (l : list ascii) : Z * Z * bool * list ascii :=
  match l with
  | [] => (m, frac, some, [])
  | c :: l' =>
      if Ascii.eqb c "_" then read_mantissa hex dot some m frac l'
      else if Ascii.eqb c "." then if dot then (m, frac, some, l) else read_mantissa hex true some m frac l'
      else match float_digit hex c with
           | Some d => read_mantissa hex dot true ((if hex then 16 else 10) * m + d) (if dot then frac + 1 else frac) l'
           | None => (m, frac, some, l)
           end
  end.

(** The digits of the exponent, which does not grow beyond five digits. *)
Fixpoint read_exponent (e : Z) (l : list ascii) : Z * list ascii :=
  match l with
  | c :: l' =>
      if Ascii.eqb c "_" then read_exponent e l'
      else if is_digit c then read_exponent (if e <? 10000 then 10 * e + (byte_val c - 48) else e) l'
      else (e, l)
  | [] => (e, [])
  end.

Definition signed_exponent (l : list ascii) : option (Z * list ascii) :=
  let '(neg, l) := split_sign l in
  match l with
  | c :: _ => if is_digit c then let '(e, r) := read_exponent 0 l in Some (if neg then - e else e, r) else None
  | [] => None
  end.

(** [underscoreOK]: an underscore follows a digit or the prefix and is followed by a digit. *)
Inductive seen : Type := SawStart | SawDigit | SawUnderscore | SawOther.
Fixpoint underscores_ok (hex : bool) (saw : seen) (l : list ascii) : bool :=
  match l with
  | [] => match saw with SawUnderscore => false | _ => true end
  | c :: l' =>
      if bool_decide (is_Some (float_digit hex c)) then underscores_ok hex SawDigit l'
      else if Ascii.eqb c "_" then match saw with SawDigit => underscores_ok hex SawUnderscore l' | _ => false end
      else match saw with SawUnderscore => false | _ => underscores_ok hex SawOther l' end
  end.

Definition float_prefix (l : list ascii) : bool * list ascii :=
  match l with
  | z :: x :: (_ :: _) as l' => if Ascii.eqb z "0" && Ascii.eqb (lower_ascii x) "x" then (true, drop 2 l) else (false, l)
  | _ => (false, l)
  end.

Definition underscoreOK (l : list ascii) : bool :=
  let '(_, l) := split_sign l in
  match l with
  | z :: x :: l' =>
      let y := lower_ascii x in
      if Ascii.eqb z "0" && (Ascii.eqb y "b" || Ascii.eqb y "o" || Ascii.eqb y "x")
      then underscores_ok (Ascii.eqb y "x") SawDigit l' else underscores_ok false SawStart l
  | _ => underscores_ok false SawStart l
  end.

(** The value; [None] if the syntax is wrong. *)
Definition read_float (l : list ascii) : option float64 :=
  let '(neg, body) := split_sign l in
  let name := string_of (map lower_ascii body) in
  if String.eqb name "inf" || String.eqb name "infinity" then Some (S754_infinity neg)
  else if String.eqb (string_of (map lower_ascii l)) "nan" then Some S754_nan
  else
    let '(hex, digits) := float_prefix body in
    let '(m, frac, some, r) := read_mantissa hex false false 0 0 digits in
    let value e r :=
      match r with
      | [] =>
          if negb (existsb (Ascii.eqb "_") l) || underscoreOK l
          then Some (if hex then f_binary neg m (e - 4 * frac) else f_decimal neg m (e - frac)) else None
      | _ => None
      end in
    if negb some then None
    else match r with
         | c :: r' =>
             if Ascii.eqb (lower_ascii c) (if hex then "p" else "e")
             then match signed_exponent r' with Some (e, r2) => value e r2 | None => None end
             else None
         | [] => if hex then None else value 0 []
         end.

Definition names_infinity (s : string) : bool :=
  let name := string_of (map lower_ascii (split_sign (bytes_of s)).2) in String.eqb name "inf" || String.eqb name "infinity".

Definition parse_float (s : string) : float64 + num_error :=
  match read_float (bytes_of s) with
  | None => inr ErrSyntax
  | Some (S754_infinity neg) => if names_infinity s then inl (S754_infinity neg) else inr ErrRange
  | Some x => inl x
  end.

Definition ParseFloat `{Unicode} (s : string) : result error float64 :=
  match parse_float s with inl x => Ok x | inr e => Err (NumError "ParseFloat" s e) end.

Example parse_floats :
  map (fun s => match parse_float s with inl x => Some x | inr _ => None end)
    ["0.1"; "-1_0.5e-1"; "0x1.8p1"; "1e400"; "5e-324"; "1__0"; "9007199254740993"; ""; "."; "1e-400"]
  = [Some (f_lit 1 10); Some (f_lit (-105) 100); Some (f_of_Z 3); None; Some (S754_finite false 1 (-1074)); None;
     Some (f_of_Z 9007199254740992); None; None; Some f_zero].
Proof. vm_compute. reflexivity. Qed.

(** ** The shortest decimal *)

(** The exponent [p] with [10^(p-1) <= n/d < 10^p]. *)
Fixpoint small_point (fuel : nat) (n d p : Z) : Z :=
  match fuel with
  | O => p
  | S f => if d <=? 10 * n then p else small_point f (10 * n) d (p - 1)
  end.
Definition decimal_point (n d : Z) : Z :=
  if d <=? n then Z.of_nat (length (dec_digits (n / d))) else small_point 330 n d 0.

(** [n/d * 10^k], rounded down, and the rest against [d']. *)
Definition scaled (n d k : Z) : Z * Z * Z :=
  let n' := if 0 <=? k then n * 10 ^ k else n in
  let d' := if 0 <=? k then d else d * 10 ^ (- k) in
  (n' / d', n' mod d', d').

(** A decimal of [p] digits that is read as [x], the nearest one if there are two. *)
Definition decimal_of (x : float64) (n d point p : Z) : option Z :=
  let '(lo, r, d') := scaled n d (p - point) in
  let reads c := bool_decide (f_decimal false c (point - p) = x) in
  let down := (2 * r <? d') || ((2 * r =? d') && Z.even lo) in
  match reads lo, reads (lo + 1) with
  | true, true => Some (if down then lo else lo + 1)
  | true, false => Some lo
  | false, true => Some (lo + 1)
  | false, false => None
  end.

Fixpoint shortest (fuel : nat) (x : float64) (n d point p : Z) : Z * Z :=
  match fuel with
  | O => (0, 0)
  | S f => match decimal_of x n d point p with Some c => (c, point - p) | None => shortest f x n d point (p + 1) end
  end.

Fixpoint strip_zeros (fuel : nat) (c e : Z) : Z * Z :=
  match fuel with
  | O => (c, e)
  | S f => if (c mod 10 =? 0) && negb (c =? 0) then strip_zeros f (c / 10) (e + 1) else (c, e)
  end.

(** The text of [c * 10^e] without and with an exponent. *)
Definition fixed_text (c e : Z) : list ascii :=
  let ds := dec_digits c in
  if 0 <=? e then ds ++ replicate (Z.to_nat e) "0"%char
  else
    let whole := Z.of_nat (length ds) + e in
    if 0 <? whole then take (Z.to_nat whole) ds ++ "."%char :: drop (Z.to_nat whole) ds
    else "0"%char :: "."%char :: replicate (Z.to_nat (- whole)) "0"%char ++ ds.

Definition exponent_text (c e : Z) : list ascii :=
  let ds := dec_digits c in
  let x := Z.of_nat (length ds) - 1 + e in
  match ds with
  | d1 :: rest =>
      d1 :: (match rest with [] => [] | _ => "."%char :: rest end) ++ "e"%char :: (if x <? 0 then "-"%char else "+"%char) :: dec_digits (Z.abs x)
  | [] => []
  end.

(** How [json.Marshal] writes a float; [None] for a value it refuses.  An exponent is written from
    1e21 and below 1e-6, without leading zeros. *)
Definition json_float (x : float64) : option string :=
  match x with
  | S754_zero neg => Some (if neg then "-0" else "0")
  | S754_finite neg m e =>
      let a := S754_finite false m e in
      let n := Z.pos m * 2 ^ Z.max 0 e in
      let d := 2 ^ Z.max 0 (- e) in
      let '(c, k) := shortest 17 a n d (decimal_point n d) 1 in
      let '(c, k) := strip_zeros 20 c k in
      let text := if f_ltb a (f_lit 1 1000000) || f_geb a (f_of_Z (10 ^ 21)) then exponent_text c k else fixed_text c k in
      Some ((if neg then "-" else "") +:+ string_of text)
  | _ => None
  end.

Example json_floats :
  map json_float [f_lit 1 10; f_of_Z (-3); f_lit 1 3; S754_finite false 1 (-1074); f_of_Z (10 ^ 21); f_lit 25 100000000; f_div (f_of_Z 1) (f_of_Z (2 ^ 44)); f_of_Z 123456789; S754_nan]
  = [Some "0.1"; Some "-3"; Some "0.3333333333333333"; Some "5e-324"; Some "1e+21"; Some "2.5e-7"; Some "5.684341886080802e-14"; Some "123456789"; None].
Proof. vm_compute. reflexivity. Qed.

(** ** strconv.ParseInt *)

(** Base 10 with [bits] bits. *)
Definition ParseInt `{Unicode} (bits : Z) (s : string) : result error Z :=
  let '(neg, l) := split_sign (bytes_of s) in
  match parse_uint l with
  | None => Err (NumError "ParseInt" s ErrSyntax)
  | Some v =>
      let z := if neg then - v else v in
      if (- 2 ^ (bits - 1) <=? z) && (z <? 2 ^ (bits - 1)) then Ok z else Err (NumError "ParseInt" s ErrRange)
  end.

(** ** time.ParseDuration *)

(** The quoting of package time. *)
Definition time_quote (s : string) : string :=
  string_of ([dquote] ++ flat_map (fun p : Z * list ascii =>
    if (128 <=? p.1) || (p.1 <? 32) then flat_map (fun c => backslash :: "x"%char :: hex_width 2 (byte_val c)) p.2
    else if (p.1 =? 34) || (p.1 =? 92) then backslash :: p.2 else p.2) (decode_runes (bytes_of s)) ++ [dquote]).

Definition duration_unit (u : string) : option Z :=
  if String.eqb u "ns" then Some 1
  else if String.eqb u "us" || String.eqb u "µs" || String.eqb u "μs" then Some 1000
  else if String.eqb u "ms" then Some (1000 * 1000)
  else if String.eqb u "s" then Some Second
  else if String.eqb u "m" then Some (60 * Second)
  else if String.eqb u "h" then Some (3600 * Second)
  else None.

(** [leadingInt]: [None] if it does not fit in 63 bits. *)
Fixpoint leading_int (x : Z) (l : list ascii) : option (Z * list ascii) :=
  match l with
  | c :: l' =>
      if is_digit c then
        if 2 ^ 63 / 10 <? x then None
        else let x' := 10 * x + (byte_val c - 48) in if 2 ^ 63 <? x' then None else leading_int x' l'
      else Some (x, l)
  | [] => Some (x, [])
  end.

(** [leadingFraction]: the digits that fit, and the number of those that count. *)
Fixpoint leading_fraction (overflow : bool) (x : Z) (scale : float64) (l : list ascii) : Z * float64 * list ascii :=
  match l with
  | c :: l' =>
      if is_digit c then
        let y := 10 * x + (byte_val c - 48) in
        if overflow || ((2 ^ 63 - 1) / 10 <? x) || (2 ^ 63 <? y) then leading_fraction true x scale l'
        else leading_fraction false y (f_mul scale (f_of_Z 10)) l'
      else (x, scale, l)
  | [] => (x, scale, [])
  end.

Fixpoint span_unit (l : list ascii) : list ascii * list ascii :=
  match l with
  | c :: l' => if Ascii.eqb c "." || is_digit c then ([], l) else let '(u, r) := span_unit l' in (c :: u, r)
  | [] => ([], [])
  end.

(** The fraction after a point, if there is one, and whether it has digits. *)
Definition optional_fraction (r : list ascii) : Z * float64 * bool * list ascii :=
  match r with
  | dot :: r' =>
      if Ascii.eqb dot "." then
        let '(f, scale, r2) := leading_fraction false 0 (f_of_Z 1) r' in
        (f, scale, negb (Nat.eqb (length r2) (length r')), r2)
      else (0, f_of_Z 1, false, r)
  | [] => (0, f_of_Z 1, false, [])
  end.

Section durations.
Context (orig : string).
Definition invalid_duration : error := errors_New ("time: invalid duration " +:+ time_quote orig).

(** One number with its unit, in nanoseconds. *)
Definition duration_part (l : list ascii) : result error (Z * list ascii) :=
  match l with
  | [] => Err invalid_duration
  | c :: _ =>
      if negb (Ascii.eqb c "." || is_digit c) then Err invalid_duration
      else
        match leading_int 0 l with
        | None => Err invalid_duration
        | Some (v, r) =>
            let pre := negb (Nat.eqb (length r) (length l)) in
            let '(f, scale, post, r) := optional_fraction r in
            if negb pre && negb post then Err invalid_duration
            else
              let '(u, r) := span_unit r in
              let name := string_of u in
              if String.eqb name "" then Err (errors_New ("time: missing unit in duration " +:+ time_quote orig))
              else match duration_unit name with
                   | None => Err (errors_New ("time: unknown unit " +:+ time_quote name +:+ " in duration " +:+ time_quote orig))
                   | Some unit =>
                       if 2 ^ 63 / unit <? v then Err invalid_duration
                       else
                         let v := v * unit + (if 0 <? f then f_trunc_int (f_mul (f_of_Z f) (f_div (f_of_Z unit) scale)) else 0) in
                         if 2 ^ 63 <? v then Err invalid_duration else Ok (v, r)
                   end
        end
  end.

Fixpoint duration_parts (fuel : nat) (d : Z) (l : list ascii) : result error Z :=
  match l, fuel with
  | [], _ => Ok d
  | _, O => Err invalid_duration
  | _, S fuel =>
      match duration_part l with
      | Err e => Err e
      | Ok (v, r) => if 2 ^ 63 <? d + v then Err invalid_duration else duration_parts fuel (d + v) r
      end
  end.
End durations.

Definition ParseDuration (s : string) : result error Duration :=
  let '(neg, l) := split_sign (bytes_of s) in
  if String.eqb (string_of l) "0" then Ok 0
  else match l with
       | [] => Err (invalid_duration s)
       | _ =>
           match duration_parts s (length l) 0 l with
           | Err e => Err e
           | Ok d => if neg then Ok (- d) else if 2 ^ 63 - 1 <? d then Err (invalid_duration s) else Ok d
           end
       end.

Example durations :
  ParseDuration "1h15m30.918s" = Ok (4530918 * 1000000) /\ ParseDuration "-1.5h" = Ok (- 5400 * Second) /\
  ParseDuration "3000000h" = Err (invalid_duration "3000000h") /\ ParseDuration "12" = Err (errors_New ("time: missing unit in duration " +:+ time_quote "12")) /\
  ParseDuration "0" = Ok 0 /\ ParseDuration "-9223372036854775808ns" = Ok (- 2 ^ 63) /\ ParseDuration "9223372036854775808ns" = Err (invalid_duration "9223372036854775808ns").
Proof. vm_compute. by split_and!. Qed.

(** ** Signs of floats *)

Definition unsigned (x : float64) : Prop :=
  match x with S754_zero s | S754_infinity s | S754_finite s _ _ => s = false | S754_nan => True end.

Lemma round_aux_unsigned m e l : unsigned (binary_round_aux 53 1024 false m e l).
Proof.
  unfold binary_round_aux. destruct (shr_fexp _ _ _ _ _) as [s1 e1]. destruct (shr_fexp _ _ _ _ _) as [s2 e2].
  destruct (shr_m s2); [done| |done]. by destruct (e2 <=? 1024 - 53).
Qed.

Lemma f_of_Z_unsigned n : 0 <= n -> unsigned (f_of_Z n).
Proof. intros Hn. destruct n as [|p|p]; [done| |lia]. unfold f_of_Z, binary_normalize, binary_round. destruct (shl_align _ _ _). apply round_aux_unsigned. Qed.

Lemma f_mul_unsigned x y : unsigned x -> unsigned y -> unsigned (f_mul x y).
Proof. destruct x as [s|s| |s m e], y as [s'|s'| |s' m' e']; cbn; try done; intros -> ->; try done. apply round_aux_unsigned. Qed.

Lemma f_div_unsigned x y : unsigned x -> unsigned y -> unsigned (f_div x y).
Proof.
  destruct x as [s|s| |s m e], y as [s'|s'| |s' m' e']; cbn -[SFdiv_core_binary]; try done; intros -> ->; try done.
  destruct (SFdiv_core_binary _ _ _ _ _ _) as [[? ?] ?]. apply round_aux_unsigned.
Qed.

Lemma f_trunc_unsigned x : unsigned x -> 0 <= f_trunc_int x.
Proof.
  destruct x as [s|s| |s m e]; cbn; try lia. intros ->. cbn. destruct (Z.leb_spec 0 e); [pose proof (Z.pow_nonneg 2 e); lia|].
  apply Z.quot_pos; [lia|]. apply Z.pow_pos_nonneg; lia.
Qed.

(** ** Ranges *)

Lemma ParseInt_range `{Unicode} bits s z : ParseInt bits s = Ok z -> - 2 ^ (bits - 1) <= z < 2 ^ (bits - 1).
Proof. unfold ParseInt. destruct (split_sign _) as [neg l]. destruct (parse_uint l); [|done]. case_match eqn:E; [|done]. intros [= <-]. lia. Qed.

Lemma leading_int_range x l v r : 0 <= x -> leading_int x l = Some (v, r) -> 0 <= v.
Proof.
  revert x. induction l as [|c l IH]; intros x Hx; cbn -[Z.pow Z.div].
  - intros [= <- <-]. done.
  - destruct (is_digit c) eqn:Ed; [|intros [= <- <-]; done]. destruct (_ <? x); [done|]. destruct (2 ^ 63 <? _); [done|]. apply IH.
    unfold is_digit in Ed. lia.
Qed.

Lemma leading_fraction_range o x scale l : 0 <= x -> unsigned scale ->
  0 <= (leading_fraction o x scale l).1.1 /\ unsigned (leading_fraction o x scale l).1.2.
Proof.
  revert o x scale. induction l as [|c l IH]; intros o x scale Hx Hs; cbn -[Z.pow Z.div f_of_Z]; [done|].
  destruct (is_digit c) eqn:Ed; [|done]. case_match; [by apply IH|]. apply IH; [unfold is_digit in Ed; lia|].
  apply f_mul_unsigned; [done|]. by apply f_of_Z_unsigned.
Qed.

Lemma optional_fraction_range r : 0 <= (optional_fraction r).1.1.1 /\ unsigned (optional_fraction r).1.1.2.
Proof.
  assert (Hz : 0 <= 0 /\ unsigned (f_of_Z 1)) by (split; [done|by apply f_of_Z_unsigned]). destruct r as [|dot r']; [done|].
  unfold optional_fraction. destruct (Ascii.eqb dot "."); [|done]. pose proof (leading_fraction_range false 0 (f_of_Z 1) r' (proj1 Hz) (proj2 Hz)) as Hl.
  by destruct (leading_fraction _ _ _ r') as [[f sc] r2].
Qed.

Lemma duration_part_range orig l v r : duration_part orig l = Ok (v, r) -> 0 <= v.
Proof.
  unfold duration_part. destruct l as [|c l]; [done|]. destruct (negb _); [done|]. destruct (leading_int 0 (c :: l)) as [[w r1]|] eqn:Ew; [|done].
  apply leading_int_range in Ew; [|done]. cbn zeta.
  pose proof (optional_fraction_range r1) as Hf. destruct (optional_fraction r1) as [[[f scale] post] r2]. cbn in Hf. destruct Hf as [Hf Hs].
  destruct (_ && _); [done|]. destruct (span_unit r2) as [u r3]. destruct (String.eqb _ ""); [done|].
  destruct (duration_unit _) as [unit|] eqn:Eu; [|done]. assert (Hu : 0 < unit) by (unfold duration_unit in Eu; repeat case_match; simplify_eq; done).
  destruct (_ <? w); [done|]. case_match; [done|]. intros [= <- <-].
  assert (0 <= if 0 <? f then f_trunc_int (f_mul (f_of_Z f) (f_div (f_of_Z unit) scale)) else 0); [|nia].
  destruct (0 <? f); [|done]. apply f_trunc_unsigned, f_mul_unsigned; [by apply f_of_Z_unsigned|]. apply f_div_unsigned; [apply f_of_Z_unsigned; lia|done].
Qed.

Lemma duration_parts_range orig fuel d l z : 0 <= d <= 2 ^ 63 -> duration_parts orig fuel d l = Ok z -> 0 <= z <= 2 ^ 63.
Proof.
  revert d l. induction fuel as [|fuel IH]; intros d [|c l] Hd; cbn -[Z.pow duration_part]; try (intros [= <-]; done); try done.
  destruct (duration_part orig (c :: l)) as [[v r]|] eqn:E; [|done]. apply duration_part_range in E.
  destruct (2 ^ 63 <? d + v) eqn:El; [done|]. apply IH. lia.
Qed.

Lemma ParseDuration_range s d : ParseDuration s = Ok d -> - 2 ^ 63 <= d < 2 ^ 63.
Proof.
  unfold ParseDuration. destruct (split_sign _) as [neg l]. destruct (String.eqb _ "0"); [intros [= <-]; lia|]. destruct l as [|c l]; [done|].
  destruct (duration_parts s _ 0 _) as [z|] eqn:E; [|done]. apply duration_parts_range in E; [|lia].
  destruct neg; [intros [= <-]; lia|]. destruct (_ <? z) eqn:El; [done|]. intros [= <-]. lia.
Qed.
