(* ===== verification/Model.v ===== *)
(** * Model: the domain types (src/pkg/model)

    The structs of package [model] as records, with the Go field names prefixed
    by the struct's name.  A pointer field that may be nil is an [option]; the
    string-typed enumerations are inductive types, with the string each constant
    stands for.  Values are immutable here, so the deep copies that the stores
    make ([cloneTask], [cloneRun], [cloneStep], [cloneEvent], [cloneMessage]) are
    identities. *)

From S2P Require Import Prelude GoLib.

(** ** Status enumerations (model/task.go) *)

Inductive TaskStatus : Type :=
| TaskStatusQueued | TaskStatusRunning | TaskStatusSucceeded | TaskStatusFailed | TaskStatusAborted.

Inductive RunStatus : Type :=
| RunStatusQueued | RunStatusRunning | RunStatusSucceeded | RunStatusFailed | RunStatusAborted.

Inductive StepType : Type :=
| StepTypeLLMCall | StepTypeToolCall | StepTypeObservation | StepTypeFinal.

Inductive StepStatus : Type := StepStatusOK | StepStatusError.

#[global] Instance TaskStatus_eq_dec : EqDecision TaskStatus.
Proof. solve_decision. Defined.
#[global] Instance RunStatus_eq_dec : EqDecision RunStatus.
Proof. solve_decision. Defined.
#[global] Instance StepType_eq_dec : EqDecision StepType.
Proof. solve_decision. Defined.
#[global] Instance StepStatus_eq_dec : EqDecision StepStatus.
Proof. solve_decision. Defined.

Definition string_of_TaskStatus (s : TaskStatus) : string :=
  match s with
  | TaskStatusQueued => "QUEUED" | TaskStatusRunning => "RUNNING"
  | TaskStatusSucceeded => "SUCCEEDED" | TaskStatusFailed => "FAILED"
  | TaskStatusAborted => "ABORTED"
  end.

Definition string_of_RunStatus (s : RunStatus) : string :=
  match s with
  | RunStatusQueued => "RUN_QUEUED" | RunStatusRunning => "RUNNING"
  | RunStatusSucceeded => "SUCCEEDED" | RunStatusFailed => "FAILED"
  | RunStatusAborted => "ABORTED"
  end.

Definition string_of_StepType (s : StepType) : string :=
  match s with
  | StepTypeLLMCall => "llm_call" | StepTypeToolCall => "tool_call"
  | StepTypeObservation => "observation" | StepTypeFinal => "final"
  end.

(** ** Structs (model/task.go) *)

Record TokenUsage : Type := mkTokenUsage {
  TokenUsage_Input : Z; TokenUsage_Output : Z; TokenUsage_Total : Z }.

Record ArtifactRef : Type := mkArtifactRef {
  ArtifactRef_S3Key : string; ArtifactRef_SHA256 : string; ArtifactRef_Size : Z }.

Record CheckpointRef : Type := mkCheckpointRef {
  CheckpointRef_Memory : option ArtifactRef; CheckpointRef_Workspace : option ArtifactRef }.

Record ModelConfig : Type := mkModelConfig {
  ModelConfig_ModelID : string;
  ModelConfig_Temperature : float64;
  ModelConfig_MaxTokens : Z;
  ModelConfig_PolicyMode : string;
  ModelConfig_CostCapUSD : float64;
  ModelConfig_FallbackModelIDs : list string }.

Record Task : Type := mkTask {
  Task_TaskID : string;
  Task_TenantID : string;
  Task_UserID : string;
  Task_Status : TaskStatus;
  Task_ActiveRunID : string;
  Task_AbortRequested : bool;
  Task_AbortReason : string;
  Task_AbortTS : option Time;
  Task_IdempotencyKey : string;
  Task_Prompt : string;
  Task_ModelConfig : option ModelConfig;
  Task_CreatedAt : Time;
  Task_UpdatedAt : Time }.

Record Run : Type := mkRun {
  Run_TaskID : string;
  Run_RunID : string;
  Run_TenantID : string;
  Run_Status : RunStatus;
  Run_QueuedAt : option Time;
  Run_ParentRunID : string;
  Run_ResumeFromStepIndex : option Z;
  Run_ModelConfig : option ModelConfig;
  Run_StartedAt : option Time;
  Run_EndedAt : option Time;
  Run_LastStepIndex : Z;
  Run_TotalTokenUsage : option TokenUsage;
  Run_TotalCostUSD : float64 }.

Record Step : Type := mkStep {
  Step_RunID : string;
  Step_StepIndex : Z;
  Step_Type : StepType;
  Step_Status : StepStatus;
  Step_Input : string;
  Step_Output : string;
  Step_TSStart : Time;
  Step_TSEnd : Time;
  Step_LatencyMS : Z;
  Step_TokenUsage : option TokenUsage;
  Step_CheckpointRef : option CheckpointRef;
  Step_ErrorCode : string;
  Step_ErrorMessage : string }.

Record Connection : Type := mkConnection {
  Connection_ConnectionID : string;
  Connection_TenantID : string;
  Connection_UserID : string;
  Connection_TaskID : string;
  Connection_RunID : string;
  Connection_ConnectedAt : Time;
  Connection_TTL : Z }.

Record SQSMessage : Type := mkSQSMessage {
  SQSMessage_TenantID : string;
  SQSMessage_TaskID : string;
  SQSMessage_RunID : string;
  SQSMessage_TaskType : string;
  SQSMessage_SubmittedAt : Z;
  SQSMessage_Attempt : Z;
  SQSMessage_DedupeKey : string;
  SQSMessage_EstimatedTokens : Z;
  SQSMessage_EstimatedCost : float64 }.

(** ** Stream events (model/stream.go) *)

Inductive StreamEventType : Type :=
| StreamEventTokenChunk | StreamEventStepStart | StreamEventStepEnd | StreamEventToolCall
| StreamEventToolResult | StreamEventComplete | StreamEventError.

#[global] Instance StreamEventType_eq_dec : EqDecision StreamEventType.
Proof. solve_decision. Defined.

(** An [interface{}] value: what [encoding/json] produces, and Go integers. *)
#[warnings="-register-all"]
Inductive gval : Type :=
| GNil
| GBool (b : bool)
| GInt (z : Z)
| GFloat (x : float64)
| GStr (s : string)
| GList (l : list gval)
| GMap (l : list (string * gval)).

Record StreamEvent : Type := mkStreamEvent {
  StreamEvent_TaskID : string;
  StreamEvent_RunID : string;
  StreamEvent_Seq : Z;
  StreamEvent_TS : Z;
  StreamEvent_Type : StreamEventType;
  StreamEvent_Data : gval }.

(** ** Agent memory (model/memory.go) *)

Inductive MessageRole : Type :=
| MessageRoleSystem | MessageRoleUser | MessageRoleAssistant | MessageRoleTool.

#[global] Instance MessageRole_eq_dec : EqDecision MessageRole.
Proof. solve_decision. Defined.

Record MemoryToolCall : Type := mkMemoryToolCall {
  MemoryToolCall_ID : string; MemoryToolCall_Name : string; MemoryToolCall_Args : string }.

Record MemoryMessage : Type := mkMemoryMessage {
  MemoryMessage_Role : MessageRole;
  MemoryMessage_Content : string;
  MemoryMessage_ToolCallID : string;
  MemoryMessage_ToolCalls : list MemoryToolCall }.

Record MemorySnapshot : Type := mkMemorySnapshot {
  MemorySnapshot_RunID : string;
  MemorySnapshot_StepIndex : Z;
  MemorySnapshot_Messages : list MemoryMessage;
  MemorySnapshot_Scratchpad : string;
  MemorySnapshot_ToolState : list (string * gval) }.

(** ** Field updates *)

#[global] Instance TokenUsage_eta : Eta TokenUsage := fun r => mkTokenUsage
  (TokenUsage_Input r) (TokenUsage_Output r) (TokenUsage_Total r).
#[global] Instance ModelConfig_eta : Eta ModelConfig := fun r => mkModelConfig
  (ModelConfig_ModelID r) (ModelConfig_Temperature r) (ModelConfig_MaxTokens r)
  (ModelConfig_PolicyMode r) (ModelConfig_CostCapUSD r) (ModelConfig_FallbackModelIDs r).
#[global] Instance Task_eta : Eta Task := fun r => mkTask
  (Task_TaskID r) (Task_TenantID r) (Task_UserID r) (Task_Status r) (Task_ActiveRunID r)
  (Task_AbortRequested r) (Task_AbortReason r) (Task_AbortTS r) (Task_IdempotencyKey r)
  (Task_Prompt r) (Task_ModelConfig r) (Task_CreatedAt r) (Task_UpdatedAt r).
#[global] Instance Run_eta : Eta Run := fun r => mkRun
  (Run_TaskID r) (Run_RunID r) (Run_TenantID r) (Run_Status r) (Run_QueuedAt r)
  (Run_ParentRunID r) (Run_ResumeFromStepIndex r) (Run_ModelConfig r) (Run_StartedAt r)
  (Run_EndedAt r) (Run_LastStepIndex r) (Run_TotalTokenUsage r) (Run_TotalCostUSD r).
#[global] Instance Step_eta : Eta Step := fun r => mkStep
  (Step_RunID r) (Step_StepIndex r) (Step_Type r) (Step_Status r) (Step_Input r)
  (Step_Output r) (Step_TSStart r) (Step_TSEnd r) (Step_LatencyMS r) (Step_TokenUsage r)
  (Step_CheckpointRef r) (Step_ErrorCode r) (Step_ErrorMessage r).
#[global] Instance SQSMessage_eta : Eta SQSMessage := fun r => mkSQSMessage
  (SQSMessage_TenantID r) (SQSMessage_TaskID r) (SQSMessage_RunID r) (SQSMessage_TaskType
  r) (SQSMessage_SubmittedAt r) (SQSMessage_Attempt r) (SQSMessage_DedupeKey r)
  (SQSMessage_EstimatedTokens r) (SQSMessage_EstimatedCost r).
#[global] Instance StreamEvent_eta : Eta StreamEvent := fun r => mkStreamEvent
  (StreamEvent_TaskID r) (StreamEvent_RunID r) (StreamEvent_Seq r) (StreamEvent_TS r)
  (StreamEvent_Type r) (StreamEvent_Data r).
#[global] Instance MemorySnapshot_eta : Eta MemorySnapshot := fun r => mkMemorySnapshot
  (MemorySnapshot_RunID r) (MemorySnapshot_StepIndex r) (MemorySnapshot_Messages r)
  (MemorySnapshot_Scratchpad r) (MemorySnapshot_ToolState r).

(** A run in a terminal state never changes status again, except through
    [ResetRunToQueued]. *)
Definition run_terminal (s : RunStatus) : bool :=
  match s with RunStatusQueued | RunStatusRunning => false | _ => true end.
