(* ===== verification/StateStore.v ===== *)
(** * StateStore: the metadata store interface (src/pkg/state/store.go)

    [StateStore] is the interface [state.Store] as a class of operations on a
    store state [S].  Every operation maps the state before the call to the state
    after it and the Go result.  The readings of the wall clock an operation makes
    are its first arguments, in the order of the reads; the [context.Context]
    argument is not used by the in-memory store and is left out.  A pointer
    argument that an operation compares with nil is an [option].

    [StateStoreLaws] states what the clients (task service, worker, recovery)
    rely on: the effect of each operation on what [GetTask], [GetRun] and [GetStep]
    observe afterwards. *)

From S2P Require Import Prelude GoLib Model.

Definition ErrNotFound : error := mkErr [SNotFound] "not found".
Definition ErrConflict : error := mkErr [SConflict] "conflict: condition check failed".
Definition ErrAlreadyExists : error := mkErr [SAlreadyExists] "already exists".

Class StateStore (S : Type) := {
  (* TaskStore *)
  ApplyCreateTransition : Time -> option Task -> option Run -> S -> S * result error unit;
  PutTask : Task -> S -> S * result error unit;
  GetTask : string -> S -> result error Task;
  IsAbortRequested : string -> S -> result error (bool * string);
  UpdateTaskStatus : Time -> string -> list TaskStatus -> TaskStatus -> S -> S * result error unit;
  UpdateTaskStatusForRun :
    Time -> string -> string -> list TaskStatus -> TaskStatus -> S -> S * result error unit;
  SetAbortRequested : Time -> string -> string -> S -> S * result error unit;
  ClearAbortRequested : Time -> string -> S -> S * result error unit;
  SetActiveRun : Time -> string -> string -> S -> S * result error unit;
  ApplyResumeTransition :
    Time -> Time -> string -> option Run -> list TaskStatus -> TaskStatus -> S -> S * result error unit;
  GetTaskByIdempotencyKey : string -> string -> S -> result error Task;
  ListTasks : string -> list TaskStatus -> Z -> S -> result error (list Task);
  (* RunStore *)
  PutRun : Time -> Run -> S -> S * result error unit;
  GetRun : string -> string -> S -> result error Run;
  ClaimRun : Time -> string -> string -> S -> S * result error unit;
  CompleteRun : Time -> string -> string -> RunStatus -> S -> S * result error unit;
  UpdateLastStepIndex : string -> string -> Z -> S -> S * result error unit;
  AddRunUsage : string -> string -> option TokenUsage -> float64 -> S -> S * result error unit;
  ResetRunToQueued : Time -> string -> string -> S -> S * result error unit;
  ListRuns : string -> list RunStatus -> Z -> S -> result error (list Run);
  (* StepStore *)
  PutStep : Step -> S -> S * result error unit;
  GetStep : string -> Z -> S -> result error Step;
  ListSteps : string -> Z -> Z -> S -> result error (list Step);
  (* ConnectionStore *)
  PutConnection : Connection -> S -> S * result error unit;
  GetConnection : string -> S -> result error Connection;
  DeleteConnection : string -> S -> S * result error unit;
  GetConnectionsByTask : string -> S -> result error (list Connection);
  (* EventStore *)
  PutEvent : Time -> Time -> option StreamEvent -> S -> S * result error unit;
  ReplayEvents : string -> string -> Z -> Z -> Z -> S -> result error (list StreamEvent);
  CompactEvents : string -> string -> Z -> S -> S * result error Z;
}.

(** The status of a run, as an observer sees it. *)
Definition run_status (r : result error Run) : option RunStatus :=
  match r with Ok r => Some (Run_Status r) | Err _ => None end.

(** A change that no observer of tasks and run statuses can see. *)
Definition quiet {S} `{StateStore S} (s s' : S) : Prop :=
  (forall t, GetTask t s' = GetTask t s) /\
  (forall a b, run_status (GetRun a b s') = run_status (GetRun a b s)).

(** What the clients observe of a store after an operation. *)
Class StateStoreLaws (S : Type) `{StateStore S} : Prop := {
  law_create now t r s s' :
    ApplyCreateTransition now (Some t) (Some r) s = (s', Ok tt) ->
    GetTask (Task_TaskID t) s' = Ok t /\
    (exists q, GetRun (Run_TaskID r) (Run_RunID r) s' = Ok (r <| Run_QueuedAt := q |>)) /\
    (Task_IdempotencyKey t <> "" ->
     GetTaskByIdempotencyKey (Task_TenantID t) (Task_IdempotencyKey t) s' = Ok t);
  law_create_err now t r s s' e : ApplyCreateTransition now t r s = (s', Err e) -> s' = s;
  law_claim now taskID runID s :
    match GetRun taskID runID s with
    | Ok r =>
        if decide (Run_Status r = RunStatusQueued) then exists s',
          ClaimRun now taskID runID s = (s', Ok tt) /\
          GetRun taskID runID s' = Ok (r <| Run_Status := RunStatusRunning |> <| Run_StartedAt := Some now |>) /\
          forall t, GetTask t s' = GetTask t s
        else ClaimRun now taskID runID s = (s, Err ErrConflict)
    | Err _ => ClaimRun now taskID runID s = (s, Err ErrNotFound)
    end;
  law_complete now taskID runID status s :
    match GetRun taskID runID s with
    | Ok r => exists s',
        CompleteRun now taskID runID status s = (s', Ok tt) /\
        GetRun taskID runID s' = Ok (r <| Run_Status := status |> <| Run_EndedAt := Some now |>) /\
        forall t, GetTask t s' = GetTask t s
    | Err _ => CompleteRun now taskID runID status s = (s, Err ErrNotFound)
    end;
  law_update_for_run now taskID runID from to s :
    match GetTask taskID s with
    | Ok t =>
        if decide (Task_ActiveRunID t = runID /\ Task_Status t ∈ from) then exists s',
          UpdateTaskStatusForRun now taskID runID from to s = (s', Ok tt) /\
          GetTask taskID s' = Ok (t <| Task_Status := to |> <| Task_UpdatedAt := now |>) /\
          forall a b, GetRun a b s' = GetRun a b s
        else UpdateTaskStatusForRun now taskID runID from to s = (s, Err ErrConflict)
    | Err _ => UpdateTaskStatusForRun now taskID runID from to s = (s, Err ErrNotFound)
    end;
  law_abort now taskID reason s :
    match GetTask taskID s with
    | Ok t => exists s', SetAbortRequested now taskID reason s = (s', Ok tt) /\
        GetTask taskID s' = Ok (t <| Task_AbortRequested := true |> <| Task_AbortReason := reason |>
          <| Task_AbortTS := Some now |> <| Task_UpdatedAt := now |>)
    | Err _ => SetAbortRequested now taskID reason s = (s, Err ErrNotFound)
    end;
  law_resume now1 now2 taskID r from to s s' :
    ApplyResumeTransition now1 now2 taskID (Some r) from to s = (s', Ok tt) ->
    Run_TaskID r = taskID /\
    (exists t, GetTask taskID s = Ok t /\ Task_Status t ∈ from /\
       GetTask taskID s' = Ok (t <| Task_ActiveRunID := Run_RunID r |> <| Task_AbortRequested := false |>
          <| Task_AbortReason := "" |> <| Task_AbortTS := None |> <| Task_Status := to |>
          <| Task_UpdatedAt := now2 |>)) /\
    (exists q, GetRun taskID (Run_RunID r) s' = Ok (r <| Run_QueuedAt := q |>));
  law_resume_err now1 now2 taskID r from to s s' e :
    ApplyResumeTransition now1 now2 taskID r from to s = (s', Err e) -> s' = s;
  law_get_missing taskID s e : GetTask taskID s = Err e -> e = ErrNotFound;
  law_quiet_step st s : quiet s (PutStep st s).1;
  law_quiet_last a b i s : quiet s (UpdateLastStepIndex a b i s).1;
  law_quiet_usage a b u c s : quiet s (AddRunUsage a b u c s).1;
  law_quiet_event t1 t2 ev s : quiet s (PutEvent t1 t2 ev s).1;
  law_quiet_connection id s : quiet s (DeleteConnection id s).1;
  law_reset now taskID runID s :
    match GetRun taskID runID s with
    | Ok r => exists s',
        ResetRunToQueued now taskID runID s = (s', Ok tt) /\
        GetRun taskID runID s' = Ok (r <| Run_Status := RunStatusQueued |> <| Run_QueuedAt := Some now |>
          <| Run_StartedAt := None |> <| Run_EndedAt := None |>) /\
        forall t, GetTask t s' = GetTask t s
    | Err _ => ResetRunToQueued now taskID runID s = (s, Err ErrNotFound)
    end;
  law_last taskID runID i s :
    match GetRun taskID runID s with
    | Ok r => exists s',
        UpdateLastStepIndex taskID runID i s = (s', Ok tt) /\
        GetRun taskID runID s' = Ok (r <| Run_LastStepIndex := i |>)
    | Err _ => UpdateLastStepIndex taskID runID i s = (s, Err ErrNotFound)
    end;
  law_update_task now taskID from to s :
    match GetTask taskID s with
    | Ok t =>
        if decide (Task_Status t ∈ from) then exists s',
          UpdateTaskStatus now taskID from to s = (s', Ok tt) /\
          GetTask taskID s' = Ok (t <| Task_Status := to |> <| Task_UpdatedAt := now |>) /\
          forall a b, GetRun a b s' = GetRun a b s
        else UpdateTaskStatus now taskID from to s = (s, Err ErrConflict)
    | Err _ => UpdateTaskStatus now taskID from to s = (s, Err ErrNotFound)
    end;
  law_quiet_compact a b ts s : quiet s (CompactEvents a b ts s).1;
  law_complete_frame now taskID runID status s b :
    b <> runID -> GetRun taskID b (CompleteRun now taskID runID status s).1 = GetRun taskID b s;
  law_resume_frame now1 now2 taskID r from to s s' :
    ApplyResumeTransition now1 now2 taskID (Some r) from to s = (s', Ok tt) ->
    GetRun taskID (Run_RunID r) s = Err ErrNotFound /\
    forall b, b <> Run_RunID r -> GetRun taskID b s' = GetRun taskID b s;
}.
