(* ===== verification/MemoryStore.v ===== *)
(** * MemoryStore: the in-memory metadata store (src/pkg/state/memory_store.go)

    The maps of the struct [MemoryStore] as finite maps on the same string keys.
    Every method runs under the store's mutex, so a concurrent execution is a
    sequence of the operations below. *)

From S2P Require Import Prelude GoLib Model StateStore.

Record MemoryStore : Type := mkMemoryStore {
  MS_tasks : gmap string Task;
  MS_runs : gmap string Run;
  MS_steps : gmap string Step;
  MS_connections : gmap string Connection;
  MS_events : gmap string (list StreamEvent);
  MS_eventRetention : Duration;
  MS_idempotency : gmap string string }.

#[global] Instance MemoryStore_eta : Eta MemoryStore := fun r => mkMemoryStore
  (MS_tasks r) (MS_runs r) (MS_steps r) (MS_connections r) (MS_events r)
  (MS_eventRetention r) (MS_idempotency r).

Definition NewMemoryStore : MemoryStore := mkMemoryStore ∅ ∅ ∅ ∅ ∅ (24 * Hour) ∅.

Definition runKey (taskID runID : string) : string := taskID +:+ "#" +:+ runID.
Definition stepKey (runID : string) (idx : Z) : string := runID +:+ "#" +:+ fmt_0d 8 idx.
Definition idempKey (tenantID key : string) : string := tenantID +:+ "#" +:+ key.
Definition eventKey (taskID runID : string) : string := taskID +:+ "#" +:+ runID.

(** run_defaults.go *)
Definition ensureQueuedAt_run (r : Run) (now : Time) : Run :=
  if negb (bool_decide (Run_Status r = RunStatusQueued)) || bool_decide (is_Some (Run_QueuedAt r))
  then r
  else r <| Run_QueuedAt := Some now |>.

Definition ensureQueuedAt (run : option Run) (now : Time) : option Run :=
  match run with None => None | Some r => Some (ensureQueuedAt_run r now) end.

(** [if limit > 0 && len(out) > limit { out = out[:limit] }] *)
Definition limit_slice {A} (limit : Z) (l : list A) : list A :=
  if (0 <? limit) && (limit <? Z.of_nat (length l)) then take (Z.to_nat limit) l else l.

(** ** TaskStore *)

Definition MemoryStore_ApplyCreateTransition (now : Time) (task : option Task) (run : option Run)
    (s : MemoryStore) : MemoryStore * result error unit :=
  match task, ensureQueuedAt run now with
  | Some t, Some r =>
      if bool_decide (Task_TaskID t = "") || bool_decide (Run_TaskID r = "")
         || bool_decide (Run_RunID r = "") then (s, Err ErrConflict)
      else if bool_decide (Run_TaskID r ≠ Task_TaskID t) then (s, Err ErrConflict)
      else if bool_decide (is_Some (MS_tasks s !! Task_TaskID t)) then (s, Err ErrAlreadyExists)
      else if bool_decide (is_Some (MS_runs s !! runKey (Run_TaskID r) (Run_RunID r)))
      then (s, Err ErrAlreadyExists)
      else
        let commit s' :=
          (s' <| MS_tasks ::= insert (Task_TaskID t) t |>
              <| MS_runs ::= insert (runKey (Run_TaskID r) (Run_RunID r)) r |>, Ok tt) in
        if bool_decide (Task_IdempotencyKey t ≠ "") then
          let ik := idempKey (Task_TenantID t) (Task_IdempotencyKey t) in
          if bool_decide (is_Some (MS_idempotency s !! ik)) then (s, Err ErrAlreadyExists)
          else commit (s <| MS_idempotency ::= insert ik (Task_TaskID t) |>)
        else commit s
  | _, _ => (s, Err ErrConflict)
  end.

Definition MemoryStore_PutTask (task : Task) (s : MemoryStore) : MemoryStore * result error unit :=
  let put s' :=
    if bool_decide (is_Some (MS_tasks s' !! Task_TaskID task)) then (s', Err ErrAlreadyExists)
    else (s' <| MS_tasks ::= insert (Task_TaskID task) task |>, Ok tt) in
  if bool_decide (Task_IdempotencyKey task ≠ "") then
    let ik := idempKey (Task_TenantID task) (Task_IdempotencyKey task) in
    if bool_decide (is_Some (MS_idempotency s !! ik)) then (s, Err ErrAlreadyExists)
    else put (s <| MS_idempotency ::= insert ik (Task_TaskID task) |>)
  else put s.

Definition MemoryStore_GetTask (taskID : string) (s : MemoryStore) : result error Task :=
  match MS_tasks s !! taskID with Some t => Ok t | None => Err ErrNotFound end.

Definition MemoryStore_IsAbortRequested (taskID : string) (s : MemoryStore)
    : result error (bool * string) :=
  match MS_tasks s !! taskID with
  | Some t => Ok (Task_AbortRequested t, Task_AbortReason t)
  | None => Err ErrNotFound
  end.

(** Replace the task stored under [taskID]; the methods below mutate the stored
    struct through its pointer. *)
Definition store_task (taskID : string) (t : Task) (s : MemoryStore) : MemoryStore :=
  s <| MS_tasks ::= insert taskID t |>.

Definition MemoryStore_UpdateTaskStatus (now : Time) (taskID : string) (from : list TaskStatus)
    (to : TaskStatus) (s : MemoryStore) : MemoryStore * result error unit :=
  match MS_tasks s !! taskID with
  | None => (s, Err ErrNotFound)
  | Some t =>
      if bool_decide (Task_Status t ∈ from)
      then (store_task taskID (t <| Task_Status := to |> <| Task_UpdatedAt := now |>) s, Ok tt)
      else (s, Err ErrConflict)
  end.

Definition MemoryStore_UpdateTaskStatusForRun (now : Time) (taskID runID : string)
    (from : list TaskStatus) (to : TaskStatus) (s : MemoryStore) : MemoryStore * result error unit :=
  match MS_tasks s !! taskID with
  | None => (s, Err ErrNotFound)
  | Some t =>
      if bool_decide (Task_ActiveRunID t ≠ runID) then (s, Err ErrConflict)
      else if bool_decide (Task_Status t ∈ from)
      then (store_task taskID (t <| Task_Status := to |> <| Task_UpdatedAt := now |>) s, Ok tt)
      else (s, Err ErrConflict)
  end.

Definition MemoryStore_SetAbortRequested (now : Time) (taskID reason : string) (s : MemoryStore)
    : MemoryStore * result error unit :=
  match MS_tasks s !! taskID with
  | None => (s, Err ErrNotFound)
  | Some t =>
      (store_task taskID
         (t <| Task_AbortRequested := true |> <| Task_AbortReason := reason |>
            <| Task_AbortTS := Some now |> <| Task_UpdatedAt := now |>) s, Ok tt)
  end.

Definition MemoryStore_ClearAbortRequested (now : Time) (taskID : string) (s : MemoryStore)
    : MemoryStore * result error unit :=
  match MS_tasks s !! taskID with
  | None => (s, Err ErrNotFound)
  | Some t =>
      (store_task taskID
         (t <| Task_AbortRequested := false |> <| Task_AbortReason := "" |>
            <| Task_AbortTS := None |> <| Task_UpdatedAt := now |>) s, Ok tt)
  end.

Definition MemoryStore_SetActiveRun (now : Time) (taskID runID : string) (s : MemoryStore)
    : MemoryStore * result error unit :=
  match MS_tasks s !! taskID with
  | None => (s, Err ErrNotFound)
  | Some t =>
      (store_task taskID (t <| Task_ActiveRunID := runID |> <| Task_UpdatedAt := now |>) s, Ok tt)
  end.

Definition MemoryStore_ApplyResumeTransition (now1 now2 : Time) (taskID : string) (run : option Run)
    (from : list TaskStatus) (to : TaskStatus) (s : MemoryStore) : MemoryStore * result error unit :=
  match ensureQueuedAt run now1 with
  | None => (s, Err ErrConflict)
  | Some r =>
      if bool_decide (Run_TaskID r = "") || bool_decide (Run_RunID r = "")
         || bool_decide (Run_TaskID r ≠ taskID) then (s, Err ErrConflict)
      else match MS_tasks s !! taskID with
      | None => (s, Err ErrNotFound)
      | Some t =>
          let key := runKey (Run_TaskID r) (Run_RunID r) in
          if bool_decide (is_Some (MS_runs s !! key)) then (s, Err ErrAlreadyExists)
          else if bool_decide (Task_Status t ∈ from) then
            (store_task taskID
               (t <| Task_ActiveRunID := Run_RunID r |> <| Task_AbortRequested := false |>
                  <| Task_AbortReason := "" |> <| Task_AbortTS := None |>
                  <| Task_Status := to |> <| Task_UpdatedAt := now2 |>)
               (s <| MS_runs ::= insert key r |>), Ok tt)
          else (s, Err ErrConflict)
      end
  end.

Definition MemoryStore_GetTaskByIdempotencyKey (tenantID key : string) (s : MemoryStore)
    : result error Task :=
  match MS_idempotency s !! idempKey tenantID key with
  | None => Err ErrNotFound
  | Some taskID => match MS_tasks s !! taskID with None => Err ErrNotFound | Some t => Ok t end
  end.

Definition task_matches (tenantID : string) (statuses : list TaskStatus) (t : Task) : bool :=
  negb (bool_decide (tenantID ≠ "") && bool_decide (Task_TenantID t ≠ tenantID)) &&
  negb (negb (Nat.eqb (length statuses) 0) && negb (bool_decide (Task_Status t ∈ statuses))).

Definition task_less (a b : Task) : bool :=
  if time_Equal (Task_CreatedAt a) (Task_CreatedAt b)
  then String.ltb (Task_TaskID a) (Task_TaskID b)
  else time_Before (Task_CreatedAt a) (Task_CreatedAt b).

Definition MemoryStore_ListTasks (tenantID : string) (statuses : list TaskStatus) (limit : Z)
    (s : MemoryStore) : result error (list Task) :=
  let out := List.filter (task_matches tenantID statuses) (map_to_list (MS_tasks s)).*2 in
  Ok (limit_slice limit (sort_slice task_less out)).

(** ** RunStore *)

Definition MemoryStore_PutRun (now : Time) (run : Run) (s : MemoryStore)
    : MemoryStore * result error unit :=
  let r := ensureQueuedAt_run run now in
  let key := runKey (Run_TaskID r) (Run_RunID r) in
  if bool_decide (is_Some (MS_runs s !! key)) then (s, Err ErrAlreadyExists)
  else (s <| MS_runs ::= insert key r |>, Ok tt).

Definition MemoryStore_GetRun (taskID runID : string) (s : MemoryStore) : result error Run :=
  match MS_runs s !! runKey taskID runID with Some r => Ok r | None => Err ErrNotFound end.

(** The methods below mutate the stored run through its pointer. *)
Definition with_run (taskID runID : string) (f : Run -> Run) (s : MemoryStore)
    : MemoryStore * result error unit :=
  match MS_runs s !! runKey taskID runID with
  | None => (s, Err ErrNotFound)
  | Some r => (s <| MS_runs ::= insert (runKey taskID runID) (f r) |>, Ok tt)
  end.

Definition MemoryStore_ClaimRun (now : Time) (taskID runID : string) (s : MemoryStore)
    : MemoryStore * result error unit :=
  match MS_runs s !! runKey taskID runID with
  | None => (s, Err ErrNotFound)
  | Some r =>
      if bool_decide (Run_Status r ≠ RunStatusQueued) then (s, Err ErrConflict)
      else with_run taskID runID
             (fun r => r <| Run_Status := RunStatusRunning |> <| Run_StartedAt := Some now |>) s
  end.

Definition MemoryStore_CompleteRun (now : Time) (taskID runID : string) (status : RunStatus)
    : MemoryStore -> MemoryStore * result error unit :=
  with_run taskID runID (fun r => r <| Run_Status := status |> <| Run_EndedAt := Some now |>).

Definition MemoryStore_UpdateLastStepIndex (taskID runID : string) (stepIndex : Z)
    : MemoryStore -> MemoryStore * result error unit :=
  with_run taskID runID (fun r => r <| Run_LastStepIndex := stepIndex |>).

Definition add_usage (total : option TokenUsage) (u : TokenUsage) : TokenUsage :=
  let t := default (mkTokenUsage 0 0 0) total in
  mkTokenUsage (add64 (TokenUsage_Input t) (TokenUsage_Input u))
    (add64 (TokenUsage_Output t) (TokenUsage_Output u))
    (add64 (TokenUsage_Total t) (TokenUsage_Total u)).

Definition MemoryStore_AddRunUsage (taskID runID : string) (usage : option TokenUsage)
    (costUSD : float64) : MemoryStore -> MemoryStore * result error unit :=
  with_run taskID runID (fun r =>
    let r1 := match usage with
              | None => r
              | Some u => r <| Run_TotalTokenUsage := Some (add_usage (Run_TotalTokenUsage r) u) |>
              end in
    if f_gtb costUSD f_zero then r1 <| Run_TotalCostUSD ::= (fun c => f_add c costUSD) |> else r1).

Definition MemoryStore_ResetRunToQueued (now : Time) (taskID runID : string)
    : MemoryStore -> MemoryStore * result error unit :=
  with_run taskID runID (fun r =>
    r <| Run_Status := RunStatusQueued |> <| Run_QueuedAt := Some now |>
      <| Run_StartedAt := None |> <| Run_EndedAt := None |>).

Definition run_matches (tenantID : string) (statuses : list RunStatus) (r : Run) : bool :=
  negb (bool_decide (tenantID ≠ "") && bool_decide (Run_TenantID r ≠ tenantID)) &&
  negb (negb (Nat.eqb (length statuses) 0) && negb (bool_decide (Run_Status r ∈ statuses))).

Definition run_less (a b : Run) : bool :=
  let iStart := default zero_time (Run_StartedAt a) in
  let jStart := default zero_time (Run_StartedAt b) in
  if time_Equal iStart jStart
  then String.ltb (runKey (Run_TaskID a) (Run_RunID a)) (runKey (Run_TaskID b) (Run_RunID b))
  else time_Before iStart jStart.

Definition MemoryStore_ListRuns (tenantID : string) (statuses : list RunStatus) (limit : Z)
    (s : MemoryStore) : result error (list Run) :=
  let out := List.filter (run_matches tenantID statuses) (map_to_list (MS_runs s)).*2 in
  Ok (limit_slice limit (sort_slice run_less out)).

(** ** StepStore *)

Definition MemoryStore_PutStep (step : Step) (s : MemoryStore) : MemoryStore * result error unit :=
  let key := stepKey (Step_RunID step) (Step_StepIndex step) in
  if bool_decide (is_Some (MS_steps s !! key)) then (s, Err ErrConflict)
  else (s <| MS_steps ::= insert key step |>, Ok tt).

Definition MemoryStore_GetStep (runID : string) (stepIndex : Z) (s : MemoryStore)
    : result error Step :=
  match MS_steps s !! stepKey runID stepIndex with Some st => Ok st | None => Err ErrNotFound end.

Definition step_matches (runID : string) (from : Z) (st : Step) : bool :=
  bool_decide (Step_RunID st = runID) && (from <=? Step_StepIndex st).

Definition step_less (a b : Step) : bool := Step_StepIndex a <? Step_StepIndex b.

Definition MemoryStore_ListSteps (runID : string) (from limit : Z) (s : MemoryStore)
    : result error (list Step) :=
  let out := List.filter (step_matches runID from) (map_to_list (MS_steps s)).*2 in
  Ok (limit_slice limit (sort_slice step_less out)).

(** ** ConnectionStore *)

Definition MemoryStore_PutConnection (conn : Connection) (s : MemoryStore)
    : MemoryStore * result error unit :=
  (s <| MS_connections ::= insert (Connection_ConnectionID conn) conn |>, Ok tt).

Definition MemoryStore_GetConnection (connectionID : string) (s : MemoryStore)
    : result error Connection :=
  match MS_connections s !! connectionID with Some c => Ok c | None => Err ErrNotFound end.

Definition MemoryStore_DeleteConnection (connectionID : string) (s : MemoryStore)
    : MemoryStore * result error unit :=
  (s <| MS_connections ::= delete connectionID |>, Ok tt).

(** The order of the result is the iteration order of the Go map, which is not
    specified. *)
Definition MemoryStore_GetConnectionsByTask (taskID : string) (s : MemoryStore)
    : result error (list Connection) :=
  Ok (List.filter (fun c => bool_decide (Connection_TaskID c = taskID))
        (map_to_list (MS_connections s)).*2).

(** ** EventStore *)

Definition event_less (a b : StreamEvent) : bool :=
  if StreamEvent_Seq a =? StreamEvent_Seq b then StreamEvent_TS a <? StreamEvent_TS b
  else StreamEvent_Seq a <? StreamEvent_Seq b.

Definition MemoryStore_PutEvent (now1 now2 : Time) (event : option StreamEvent) (s : MemoryStore)
    : MemoryStore * result error unit :=
  match event with
  | None => (s, Ok tt)
  | Some ev =>
      if bool_decide (StreamEvent_TaskID ev = "") || bool_decide (StreamEvent_RunID ev = "")
      then (s, Err ErrConflict)
      else
        let ev := if StreamEvent_TS ev =? 0 then ev <| StreamEvent_TS := time_Unix now1 |> else ev in
        let key := eventKey (StreamEvent_TaskID ev) (StreamEvent_RunID ev) in
        let runEvents := default [] (MS_events s !! key) in
        if existsb (fun x => StreamEvent_Seq x =? StreamEvent_Seq ev) runEvents then (s, Ok tt)
        else
          let sorted := sort_slice event_less (runEvents ++ [ev]) in
          let kept :=
            if 0 <? MS_eventRetention s then
              let cutoff := time_Unix (time_Add now2 (- MS_eventRetention s)) in
              List.filter (fun e => cutoff <=? StreamEvent_TS e) sorted
            else sorted in
          (s <| MS_events ::= insert key kept |>, Ok tt)
  end.

(** The events of a run that [ReplayEvents] scans: the ones stored under the
    task and run, or, for an empty task id with nothing stored under it, those of
    every key that ends in the run id. *)
Definition replay_source (taskID runID : string) (s : MemoryStore) : list StreamEvent :=
  let runEvents := default [] (MS_events s !! eventKey taskID runID) in
  if Nat.eqb (length runEvents) 0 && bool_decide (taskID = "") then
    sort_slice event_less
      (flat_map (fun kv => if HasSuffix kv.1 ("#" +:+ runID) then kv.2 else [])
         (map_to_list (MS_events s)))
  else runEvents.

Definition replay_keeps (taskID : string) (fromSeq fromTS : Z) (ev : StreamEvent) : bool :=
  negb (bool_decide (taskID ≠ "") && bool_decide (StreamEvent_TaskID ev ≠ taskID))
  && negb ((0 <? fromSeq) && (StreamEvent_Seq ev <=? fromSeq))
  && negb ((0 <? fromTS) && (StreamEvent_TS ev <? fromTS)).

(** The scan loop: collect the events that pass, stop at [limit] of them. *)
Fixpoint replay_go (keep : StreamEvent -> bool) (limit : nat) (evs : list StreamEvent)
    : list StreamEvent :=
  match evs with
  | [] => []
  | ev :: evs' =>
      if keep ev then
        match limit with
        | O | 1%nat => [ev]
        | S n => ev :: replay_go keep n evs'
        end
      else replay_go keep limit evs'
  end.

Definition MemoryStore_ReplayEvents (taskID runID : string) (fromSeq fromTS limit : Z)
    (s : MemoryStore) : result error (list StreamEvent) :=
  let limit := if limit <=? 0 then 200 else limit in
  Ok (replay_go (replay_keeps taskID fromSeq fromTS) (Z.to_nat limit) (replay_source taskID runID s)).

Definition compact_keeps (taskID : string) (beforeTS : Z) (ev : StreamEvent) : bool :=
  if bool_decide (taskID ≠ "") && bool_decide (StreamEvent_TaskID ev ≠ taskID) then true
  else negb (StreamEvent_TS ev <? beforeTS).

Definition MemoryStore_CompactEvents (taskID runID : string) (beforeTS : Z) (s : MemoryStore)
    : MemoryStore * result error Z :=
  if beforeTS <=? 0 then (s, Ok 0)
  else
    let key := eventKey taskID runID in
    let runEvents := default [] (MS_events s !! key) in
    if Nat.eqb (length runEvents) 0 then (s, Ok 0)
    else
      let kept := List.filter (compact_keeps taskID beforeTS) runEvents in
      (s <| MS_events ::= insert key kept |>,
       Ok (Z.of_nat (length (List.filter (fun e => negb (compact_keeps taskID beforeTS e)) runEvents)))).

#[global] Instance MemoryStore_StateStore : StateStore MemoryStore := {|
  ApplyCreateTransition := MemoryStore_ApplyCreateTransition;
  PutTask := MemoryStore_PutTask;
  GetTask := MemoryStore_GetTask;
  IsAbortRequested := MemoryStore_IsAbortRequested;
  UpdateTaskStatus := MemoryStore_UpdateTaskStatus;
  UpdateTaskStatusForRun := MemoryStore_UpdateTaskStatusForRun;
  SetAbortRequested := MemoryStore_SetAbortRequested;
  ClearAbortRequested := MemoryStore_ClearAbortRequested;
  SetActiveRun := MemoryStore_SetActiveRun;
  ApplyResumeTransition := MemoryStore_ApplyResumeTransition;
  GetTaskByIdempotencyKey := MemoryStore_GetTaskByIdempotencyKey;
  ListTasks := MemoryStore_ListTasks;
  PutRun := MemoryStore_PutRun;
  GetRun := MemoryStore_GetRun;
  ClaimRun := MemoryStore_ClaimRun;
  CompleteRun := MemoryStore_CompleteRun;
  UpdateLastStepIndex := MemoryStore_UpdateLastStepIndex;
  AddRunUsage := MemoryStore_AddRunUsage;
  ResetRunToQueued := MemoryStore_ResetRunToQueued;
  ListRuns := MemoryStore_ListRuns;
  PutStep := MemoryStore_PutStep;
  GetStep := MemoryStore_GetStep;
  ListSteps := MemoryStore_ListSteps;
  PutConnection := MemoryStore_PutConnection;
  GetConnection := MemoryStore_GetConnection;
  DeleteConnection := MemoryStore_DeleteConnection;
  GetConnectionsByTask := MemoryStore_GetConnectionsByTask;
  PutEvent := MemoryStore_PutEvent;
  ReplayEvents := MemoryStore_ReplayEvents;
  CompactEvents := MemoryStore_CompactEvents;
|}.

(** ** Executions

    The operations that change the store, as data, and what a sequence of them
    does.  The mutex makes every concurrent execution such a sequence. *)

Inductive store_op : Type :=
| OpApplyCreateTransition (now : Time) (t : option Task) (r : option Run)
| OpPutTask (t : Task)
| OpUpdateTaskStatus (now : Time) (taskID : string) (from : list TaskStatus) (to : TaskStatus)
| OpUpdateTaskStatusForRun (now : Time) (taskID runID : string) (from : list TaskStatus) (to : TaskStatus)
| OpSetAbortRequested (now : Time) (taskID reason : string)
| OpClearAbortRequested (now : Time) (taskID : string)
| OpSetActiveRun (now : Time) (taskID runID : string)
| OpApplyResumeTransition (now1 now2 : Time) (taskID : string) (r : option Run)
    (from : list TaskStatus) (to : TaskStatus)
| OpPutRun (now : Time) (r : Run)
| OpClaimRun (now : Time) (taskID runID : string)
| OpCompleteRun (now : Time) (taskID runID : string) (status : RunStatus)
| OpUpdateLastStepIndex (taskID runID : string) (idx : Z)
| OpAddRunUsage (taskID runID : string) (u : option TokenUsage) (cost : float64)
| OpResetRunToQueued (now : Time) (taskID runID : string)
| OpPutStep (st : Step)
| OpPutConnection (c : Connection)
| OpDeleteConnection (connectionID : string)
| OpPutEvent (now1 now2 : Time) (ev : option StreamEvent)
| OpCompactEvents (taskID runID : string) (beforeTS : Z).

Definition exec_op (o : store_op) (s : MemoryStore) : MemoryStore * result error unit :=
  match o with
  | OpApplyCreateTransition now t r => MemoryStore_ApplyCreateTransition now t r s
  | OpPutTask t => MemoryStore_PutTask t s
  | OpUpdateTaskStatus now t from to => MemoryStore_UpdateTaskStatus now t from to s
  | OpUpdateTaskStatusForRun now t r from to => MemoryStore_UpdateTaskStatusForRun now t r from to s
  | OpSetAbortRequested now t reason => MemoryStore_SetAbortRequested now t reason s
  | OpClearAbortRequested now t => MemoryStore_ClearAbortRequested now t s
  | OpSetActiveRun now t r => MemoryStore_SetActiveRun now t r s
  | OpApplyResumeTransition n1 n2 t r from to => MemoryStore_ApplyResumeTransition n1 n2 t r from to s
  | OpPutRun now r => MemoryStore_PutRun now r s
  | OpClaimRun now t r => MemoryStore_ClaimRun now t r s
  | OpCompleteRun now t r st => MemoryStore_CompleteRun now t r st s
  | OpUpdateLastStepIndex t r i => MemoryStore_UpdateLastStepIndex t r i s
  | OpAddRunUsage t r u c => MemoryStore_AddRunUsage t r u c s
  | OpResetRunToQueued now t r => MemoryStore_ResetRunToQueued now t r s
  | OpPutStep st => MemoryStore_PutStep st s
  | OpPutConnection c => MemoryStore_PutConnection c s
  | OpDeleteConnection c => MemoryStore_DeleteConnection c s
  | OpPutEvent n1 n2 ev => MemoryStore_PutEvent n1 n2 ev s
  | OpCompactEvents t r b =>
      let '(s', r) := MemoryStore_CompactEvents t r b s in
      (s', match r with Ok _ => Ok tt | Err e => Err e end)
  end.

Definition exec_ops (ops : list store_op) (s : MemoryStore) : MemoryStore :=
  fold_left (fun s o => (exec_op o s).1) ops s.

(** ** The invariant of the store *)

Definition seq_lt (a b : StreamEvent) : Prop := StreamEvent_Seq a < StreamEvent_Seq b.

Record ms_wf (s : MemoryStore) : Prop := {
  wf_tasks : forall k t, MS_tasks s !! k = Some t -> k = Task_TaskID t;
  wf_runs : forall k r, MS_runs s !! k = Some r -> k = runKey (Run_TaskID r) (Run_RunID r);
  wf_steps : forall k st, MS_steps s !! k = Some st -> k = stepKey (Step_RunID st) (Step_StepIndex st);
  wf_conns : forall k c, MS_connections s !! k = Some c -> k = Connection_ConnectionID c;
  wf_events_key : forall k evs, MS_events s !! k = Some evs ->
    Forall (fun e => k = eventKey (StreamEvent_TaskID e) (StreamEvent_RunID e)) evs;
  wf_events_sorted : forall k evs, MS_events s !! k = Some evs -> StronglySorted seq_lt evs;
  wf_idem : forall ik id, MS_idempotency s !! ik = Some id -> is_Some (MS_tasks s !! id);
}.

(** Unfold one operation and split on its guards. *)
Ltac op_cases :=
  repeat (first [split_match | progress cbn [fst snd] in *]); bool_prop; simplify_eq/=.

(** Unfold the operations of an execution step. *)
Ltac unfold_store_ops :=
  cbn [exec_op]; unfold MemoryStore_ApplyCreateTransition, MemoryStore_PutTask, MemoryStore_UpdateTaskStatus,
    MemoryStore_UpdateTaskStatusForRun, MemoryStore_SetAbortRequested, MemoryStore_ClearAbortRequested,
    MemoryStore_SetActiveRun, MemoryStore_ApplyResumeTransition, MemoryStore_PutRun, MemoryStore_ClaimRun,
    MemoryStore_CompleteRun, MemoryStore_UpdateLastStepIndex, MemoryStore_AddRunUsage,
    MemoryStore_ResetRunToQueued, MemoryStore_PutStep, MemoryStore_PutConnection,
    MemoryStore_DeleteConnection, MemoryStore_PutEvent, MemoryStore_CompactEvents; cbn zeta.

(** *** Keys *)

Lemma runKey_inj t r t' r' :
  no_hash t -> no_hash t' -> runKey t r = runKey t' r' -> t = t' /\ r = r'.
Proof. apply hash_join_inj. Qed.

(** Step keys are injective for every run id: the padded index has no "#". *)
Lemma stepKey_inj r i r' i' : stepKey r i = stepKey r' i' -> r = r' /\ i = i'.
Proof.
  intros H. apply hash_join_inj_r in H as [-> Hi]; [|apply no_hash_fmt_0d..].
  split; [done|]. by apply fmt_0d_inj in Hi.
Qed.

Lemma ensureQueuedAt_run_ids r now :
  Run_TaskID (ensureQueuedAt_run r now) = Run_TaskID r /\
  Run_RunID (ensureQueuedAt_run r now) = Run_RunID r /\
  Run_Status (ensureQueuedAt_run r now) = Run_Status r.
Proof. unfold ensureQueuedAt_run. destruct (_ || _)%bool; done. Qed.

(** *** Events *)

Lemma event_less_total : Total (not_after event_less).
Proof.
  intros a b. unfold not_after, event_less.
  destruct (Z.eqb_spec (StreamEvent_Seq a) (StreamEvent_Seq b)),
    (Z.eqb_spec (StreamEvent_Seq b) (StreamEvent_Seq a)); try lia;
    rewrite !Z.ltb_ge; lia.
Qed.

Lemma event_less_trans : Transitive (not_after event_less).
Proof.
  intros a b c. unfold not_after, event_less.
  destruct (Z.eqb_spec (StreamEvent_Seq b) (StreamEvent_Seq a)),
    (Z.eqb_spec (StreamEvent_Seq c) (StreamEvent_Seq b)),
    (Z.eqb_spec (StreamEvent_Seq c) (StreamEvent_Seq a)); rewrite !Z.ltb_ge; lia.
Qed.

Lemma event_less_seq a b : not_after event_less a b -> StreamEvent_Seq a <= StreamEvent_Seq b.
Proof.
  unfold not_after, event_less. destruct (Z.eqb_spec (StreamEvent_Seq b) (StreamEvent_Seq a)); [lia|].
  rewrite Z.ltb_ge. lia.
Qed.

Lemma seq_lt_NoDup evs : StronglySorted seq_lt evs -> NoDup (map StreamEvent_Seq evs).
Proof.
  induction 1 as [|a l Hl IH Ha]; simpl; [constructor|]. constructor; [|done].
  intros Hin. apply list_elem_of_In, in_map_iff in Hin as (b & Hb & Hin).
  apply list_elem_of_In in Hin. pose proof (Forall_elem _ _ _ Ha Hin) as H'. unfold seq_lt in H'. lia.
Qed.

(** Inserting an event with a new sequence number keeps the list strictly sorted. *)
Lemma sorted_insert_event evs ev :
  StronglySorted seq_lt evs ->
  existsb (fun x => StreamEvent_Seq x =? StreamEvent_Seq ev) evs = false ->
  StronglySorted seq_lt (sort_slice event_less (evs ++ [ev])).
Proof.
  intros Hs Hnew.
  eapply StronglySorted_strict with (key := StreamEvent_Seq).
  - apply event_less_seq.
  - apply sort_slice_sorted; [apply event_less_trans | apply event_less_total].
  - rewrite (Permutation_map StreamEvent_Seq (sort_slice_perm event_less (evs ++ [ev]))).
    rewrite map_app. apply list.NoDup_app. split; [by apply seq_lt_NoDup|]. split; [|apply NoDup_singleton].
    intros x Hx Hin. apply list_elem_of_singleton in Hin as ->.
    apply list_elem_of_In, in_map_iff in Hx as (b & Hb & Hin).
    apply eq_true_false_abs with (2 := Hnew), existsb_exists.
    exists b. split; [done|]. by apply Z.eqb_eq.
Qed.

(** *** Preservation of the invariant *)

Ltac lookup_cases :=
  repeat match goal with
  | H : <[_ := _]> _ !! _ = Some _ |- _ =>
      rewrite lookup_insert in H; case_decide; simplify_eq/=
  | H : delete _ _ !! _ = Some _ |- _ =>
      rewrite lookup_delete in H; case_decide; simplify_eq/=
  end.

Ltac wf_solve :=
  constructor; cbn [upd] in *; cbn in *; intros; lookup_cases;
  eauto using wf_tasks, wf_runs, wf_steps, wf_conns, wf_events_key, wf_events_sorted, wf_idem.

Lemma wf_insert_task s k t :
  ms_wf s -> Task_TaskID t = k -> ms_wf (store_task k t s).
Proof.
  intros H Hk. unfold store_task. wf_solve.
  rewrite lookup_insert. case_decide; [done|]. by eapply wf_idem.
Qed.

Lemma wf_insert_run s r :
  ms_wf s -> ms_wf (s <| MS_runs ::= insert (runKey (Run_TaskID r) (Run_RunID r)) r |>).
Proof. intros H. wf_solve. Qed.

Lemma wf_insert_idem s ik id :
  ms_wf s -> is_Some (MS_tasks s !! id) -> ms_wf (s <| MS_idempotency ::= insert ik id |>).
Proof. intros H. wf_solve. Qed.

Lemma wf_with_run s t r f :
  ms_wf s -> (forall x, Run_TaskID (f x) = Run_TaskID x /\ Run_RunID (f x) = Run_RunID x) ->
  ms_wf (with_run t r f s).1.
Proof.
  intros H Hf. unfold with_run. destruct (MS_runs s !! runKey t r) as [x|] eqn:E; [|done].
  destruct (Hf x) as [H1 H2]. pose proof (wf_runs _ H _ _ E) as Hk. simpl. rewrite Hk.
  rewrite <- H1, <- H2. by apply wf_insert_run.
Qed.

Lemma wf_stored_task s taskID t : ms_wf s -> MS_tasks s !! taskID = Some t -> Task_TaskID t = taskID.
Proof. intros H Ht. symmetry. by apply (wf_tasks _ H). Qed.

#[local] Hint Resolve wf_insert_task wf_insert_run wf_insert_idem wf_with_run wf_stored_task : agentforge.

Lemma wf_insert_task_idem s ik t :
  ms_wf s ->
  ms_wf (s <| MS_idempotency ::= insert ik (Task_TaskID t) |> <| MS_tasks ::= insert (Task_TaskID t) t |>).
Proof.
  intros H. wf_solve.
  - rewrite lookup_insert_eq. eauto.
  - rewrite lookup_insert. case_decide; [eauto|]. by eapply wf_idem.
Qed.

Lemma wf_create s now t r : ms_wf s -> ms_wf (MemoryStore_ApplyCreateTransition now t r s).1.
Proof.
  intros H. unfold MemoryStore_ApplyCreateTransition. op_cases; auto; apply wf_insert_run.
  - by apply wf_insert_task_idem.
  - by apply (wf_insert_task s).
Qed.

Lemma wf_put_task s t : ms_wf s -> ms_wf (MemoryStore_PutTask t s).1.
Proof.
  intros H. unfold MemoryStore_PutTask. op_cases; auto.
  - by apply wf_insert_idem.
  - by apply wf_insert_task_idem.
  - by apply (wf_insert_task s).
Qed.

Lemma wf_resume s n1 n2 t r from to : ms_wf s -> ms_wf (MemoryStore_ApplyResumeTransition n1 n2 t r from to s).1.
Proof.
  intros H. unfold MemoryStore_ApplyResumeTransition. op_cases; auto.
  apply wf_insert_task; [by apply wf_insert_run|]. cbn. eauto with agentforge.
Qed.

Lemma wf_put_event s n1 n2 ev : ms_wf s -> ms_wf (MemoryStore_PutEvent n1 n2 ev s).1.
Proof.
  intros H. unfold MemoryStore_PutEvent. destruct ev as [ev|]; [|done]. cbn zeta.
  destruct (_ || _)%bool; [done|].
  set (e := if StreamEvent_TS ev =? 0 then _ else _).
  set (k := eventKey _ _).
  destruct (existsb _ _) eqn:Hnew; [done|].
  assert (Hs : StronglySorted seq_lt (default [] (MS_events s !! k))).
  { destruct (MS_events s !! k) eqn:E; [by eapply wf_events_sorted|constructor]. }
  assert (Hk : Forall (fun e => k = eventKey (StreamEvent_TaskID e) (StreamEvent_RunID e))
                 (default [] (MS_events s !! k))).
  { destruct (MS_events s !! k) eqn:E; [by eapply wf_events_key|constructor]. }
  pose proof (sorted_insert_event _ _ Hs Hnew) as Hs'.
  assert (Hk' : Forall (fun e => k = eventKey (StreamEvent_TaskID e) (StreamEvent_RunID e))
                  (sort_slice event_less (default [] (MS_events s !! k) ++ [e]))).
  { rewrite (sort_slice_perm event_less). apply Forall_app. split; [done|]. by constructor. }
  wf_solve.
  - destruct (0 <? _); [|done]. apply list.Forall_forall. intros x Hx.
    apply list_elem_of_In, filter_In in Hx as [Hx _]. apply list_elem_of_In in Hx.
    exact (Forall_elem _ _ _ Hk' Hx).
  - destruct (0 <? _); [|done]. by apply StronglySorted_filter.
Qed.

Lemma wf_compact s t r b : ms_wf s -> ms_wf (MemoryStore_CompactEvents t r b s).1.
Proof.
  intros H. unfold MemoryStore_CompactEvents. op_cases; auto.
  wf_solve.
  - apply list.Forall_forall. intros x Hx.
    apply list_elem_of_In, filter_In in Hx as [Hx _]. apply list_elem_of_In in Hx.
    destruct (MS_events s !! eventKey t r) as [l|] eqn:E; [|by inversion Hx].
    exact (Forall_elem _ _ _ (wf_events_key _ H _ _ E) Hx).
  - apply StronglySorted_filter.
    destruct (MS_events s !! eventKey t r) as [l|] eqn:E; [by eapply wf_events_sorted|constructor].
Qed.

Lemma wf_exec_op s o : ms_wf s -> ms_wf (exec_op o s).1.
Proof.
  intros H. destruct o; cbn [exec_op].
  all: try (apply wf_with_run; [done|]; intros; op_cases; done).
  all: try (unfold MemoryStore_UpdateTaskStatus, MemoryStore_UpdateTaskStatusForRun,
    MemoryStore_SetAbortRequested, MemoryStore_ClearAbortRequested, MemoryStore_SetActiveRun;
    op_cases; auto; apply wf_insert_task; cbn; eauto with agentforge; fail).
  - by apply wf_create.
  - by apply wf_put_task.
  - by apply wf_resume.
  - unfold MemoryStore_PutRun. op_cases; auto with agentforge.
  - unfold MemoryStore_ClaimRun. op_cases; auto. by apply wf_with_run.
  - unfold MemoryStore_PutStep. op_cases; auto. wf_solve.
  - wf_solve.
  - wf_solve.
  - by apply wf_put_event.
  - pose proof (wf_compact s taskID runID beforeTS H).
    by destruct (MemoryStore_CompactEvents _ _ _ _).
Qed.

Lemma wf_new : ms_wf NewMemoryStore.
Proof. constructor; cbn; intros; by rewrite lookup_empty in *. Qed.

Lemma wf_exec_ops ops s : ms_wf s -> ms_wf (exec_ops ops s).
Proof.
  unfold exec_ops. revert s. induction ops as [|o ops IH]; intros s H; [done|].
  apply IH. by apply wf_exec_op.
Qed.

(** *** Runs and steps across operations *)

(** Operations that put the run under key [k] back to RUN_QUEUED. *)
Definition requeues (k : string) (o : store_op) : bool :=
  match o with
  | OpResetRunToQueued _ t r => bool_decide (runKey t r = k)
  | OpCompleteRun _ t r RunStatusQueued => bool_decide (runKey t r = k)
  | _ => false
  end.

(** The number of claims of key [k] that succeed in an execution. *)
Fixpoint claims_won (k : string) (ops : list store_op) (s : MemoryStore) : nat :=
  match ops with
  | [] => 0
  | o :: ops' =>
      let '(s', res) := exec_op o s in
      let won := match o with
                 | OpClaimRun _ t r => bool_decide (runKey t r = k) && is_ok res
                 | _ => false
                 end in
      (if won then 1 else 0) + claims_won k ops' s'
  end%nat.

Lemma with_run_lookup t r f s k :
  MS_runs (with_run t r f s).1 !! k =
    if decide (k = runKey t r) then f <$> MS_runs s !! k else MS_runs s !! k.
Proof.
  unfold with_run. destruct (MS_runs s !! runKey t r) as [x|] eqn:E; cbn [upd]; cbn.
  - rewrite lookup_insert. repeat case_decide; subst; try congruence. by rewrite E.
  - case_decide; subst; [by rewrite E|done].
Qed.

(** Every operation keeps the runs it finds, up to an update of their fields. *)
Lemma run_insert_new_lookup s k r x :
  MS_runs s !! k = None -> forall k', MS_runs s !! k' = Some x -> (<[k := r]> (MS_runs s)) !! k' = Some x.
Proof. intros Hn k' Hx. rewrite lookup_insert_ne; congruence. Qed.

Lemma not_is_Some_None {A} (o : option A) : ~ is_Some o -> o = None.
Proof. destruct o; [|done]. intros []. eauto. Qed.

Lemma exec_op_claimed k o s x :
  MS_runs s !! k = Some x -> Run_Status x <> RunStatusQueued -> requeues k o = false ->
  exists y, MS_runs (exec_op o s).1 !! k = Some y /\ Run_Status y <> RunStatusQueued.
Proof.
  intros Hx Hq Hr. destruct o; unfold_store_ops.
  all: try (rewrite with_run_lookup; case_decide; [|by eauto]; rewrite Hx; cbn in Hr |- *;
            eexists; split; [reflexivity|]; op_cases; congruence).
  all: op_cases; try (by eauto).
  all: try (exists x; split; [|done]; cbn; apply run_insert_new_lookup; [|done];
    by apply not_is_Some_None).
  all: rewrite with_run_lookup; destruct (decide (k = runKey taskID runID)) as [Hk|Hk]; [|by eauto];
    rewrite Hx; eexists; (split; [reflexivity|]); cbn in *; try done.
  destruct status; try done. by rewrite bool_decide_true in Hr.
Qed.

(** A stored step is never changed or removed. *)
Lemma exec_op_step k o s st : MS_steps s !! k = Some st -> MS_steps (exec_op o s).1 !! k = Some st.
Proof.
  intros Hx. destruct o; unfold_store_ops; unfold with_run; op_cases; try done.
  cbn. rewrite lookup_insert_ne; [done|]. intros <-. naive_solver.
Qed.

Lemma exec_ops_step ops k s st : MS_steps s !! k = Some st -> MS_steps (exec_ops ops s) !! k = Some st.
Proof.
  unfold exec_ops. revert s. induction ops as [|o ops IH]; intros s H; [done|].
  apply IH. by apply exec_op_step.
Qed.

Lemma claims_won_claimed k ops s x :
  MS_runs s !! k = Some x -> Run_Status x <> RunStatusQueued ->
  Forall (fun o => requeues k o = false) ops -> claims_won k ops s = 0%nat.
Proof.
  revert s x. induction ops as [|o ops IH]; intros s x Hx Hq Hf; [done|].
  inversion Hf as [|? ? Ho Hops]; subst. cbn [claims_won].
  destruct (exec_op_claimed k o s x Hx Hq Ho) as (y & Hy & Hyq).
  destruct (exec_op o s) as [s' res] eqn:E. cbn in Hy. rewrite (IH s' y Hy Hyq Hops).
  destruct o; try done. case_bool_decide; [|done]. subst k.
  cbn [exec_op] in E. unfold MemoryStore_ClaimRun in E. rewrite Hx in E.
  rewrite bool_decide_true in E by done. by simplify_eq/=.
Qed.

Lemma claim_ok_status now t r s s' :
  MemoryStore_ClaimRun now t r s = (s', Ok tt) ->
  exists x, MS_runs s !! runKey t r = Some x /\ Run_Status x = RunStatusQueued /\
    MS_runs s' = <[runKey t r := x <| Run_Status := RunStatusRunning |> <| Run_StartedAt := Some now |>]> (MS_runs s) /\
    MS_tasks s' = MS_tasks s /\ MS_steps s' = MS_steps s /\ MS_events s' = MS_events s /\
    MS_connections s' = MS_connections s /\ MS_idempotency s' = MS_idempotency s.
Proof.
  unfold MemoryStore_ClaimRun, with_run. intros H.
  destruct (MS_runs s !! runKey t r) as [x|] eqn:E; [|done].
  case_bool_decide as Hq; [done|]. simplify_eq/=.
  exists x. repeat split. destruct (decide (Run_Status x = RunStatusQueued)); [done|tauto].
Qed.

(** *** Listing and replay *)

Lemma elem_of_filter_list {A} (f : A -> bool) l x : x ∈ List.filter f l <-> x ∈ l /\ f x = true.
Proof. by rewrite !list_elem_of_In, filter_In. Qed.

Lemma NoDup_step_index runID from (l : list (string * Step)) :
  NoDup l.*1 -> (forall k st, (k, st) ∈ l -> k = stepKey (Step_RunID st) (Step_StepIndex st)) ->
  NoDup (map Step_StepIndex (List.filter (step_matches runID from) l.*2)).
Proof.
  induction l as [|[k st] l IH]; intros Hnd Hk; cbn; [constructor|].
  apply list.NoDup_cons in Hnd as [Hnotin Hnd].
  assert (IH' : NoDup (map Step_StepIndex (List.filter (step_matches runID from) l.*2))).
  { apply IH; [done|]. intros. apply Hk. by right. }
  destruct (step_matches runID from st) eqn:Hm; [|done].
  cbn. apply list.NoDup_cons. split; [|done]. intros Hin.
  apply list_elem_of_In, in_map_iff in Hin as (st' & Hidx & Hin).
  apply list_elem_of_In, elem_of_filter_list in Hin as [Hin Hm'].
  apply list_elem_of_fmap in Hin as ([k' st''] & -> & Hin). cbn in *.
  apply Hnotin. rewrite (Hk k st) by (by left).
  unfold step_matches in Hm, Hm'. bool_prop.
  apply list_elem_of_fmap. exists (k', st''). split; [|done]. cbn.
  rewrite (Hk k' st'') by (by right). congruence.
Qed.

Lemma step_less_trans : Transitive (not_after step_less).
Proof. intros a b c. unfold not_after, step_less. rewrite !Z.ltb_ge. lia. Qed.

Lemma step_less_total : Total (not_after step_less).
Proof. intros a b. unfold not_after, step_less. rewrite !Z.ltb_ge. lia. Qed.

Lemma replay_go_take keep n evs :
  (0 < n)%nat -> replay_go keep n evs = take n (List.filter keep evs).
Proof.
  revert n. induction evs as [|ev evs IH]; intros n Hn; cbn; [by rewrite take_nil|].
  destruct (keep ev); [|by apply IH].
  destruct n as [|[|n]]; [lia|done|]. cbn. f_equal. rewrite IH by lia. done.
Qed.

Lemma replay_eq s taskID runID fromSeq fromTS limit :
  taskID <> "" ->
  MemoryStore_ReplayEvents taskID runID fromSeq fromTS limit s =
    Ok (take (Z.to_nat (if limit <=? 0 then 200 else limit))
          (List.filter (replay_keeps taskID fromSeq fromTS)
             (default [] (MS_events s !! eventKey taskID runID)))).
Proof.
  intros Hne. unfold MemoryStore_ReplayEvents, replay_source.
  rewrite (bool_decide_false (taskID = "")) by done. rewrite andb_false_r.
  rewrite replay_go_take; [done|]. destruct (limit <=? 0) eqn:E; bool_prop; lia.
Qed.

(** In a strictly sorted list the events after the last one of a prefix are those
    with a larger sequence number. *)
Lemma sorted_filter_drop l n e :
  StronglySorted seq_lt l -> list.last (take n l) = Some e ->
  List.filter (fun x => StreamEvent_Seq e <? StreamEvent_Seq x) l = drop n l.
Proof.
  intros Hs. revert n. induction Hs as [|a l Hl IH Ha]; intros [|n] Hlast; try done.
  assert (Hin : a = e /\ take n l = [] \/ list.last (take n l) = Some e).
  { cbn in Hlast. destruct (take n l); [left; naive_solver|by right]. }
  cbn. destruct Hin as [[-> Hnil]|Hin].
  - rewrite Z.ltb_irrefl.
    assert (drop n l = l) as ->.
    { rewrite <- (take_drop n l) at 2. by rewrite Hnil. }
    clear -Ha. induction Ha as [|b l Hb Hl IH]; [done|]. cbn.
    rewrite (proj2 (Z.ltb_lt _ _) Hb). by f_equal.
  - rewrite (proj2 (Z.ltb_ge _ _)); [by apply IH|].
    apply last_Some_elem_of, elem_of_take in Hin as (i & Hi & _).
    pose proof (Forall_lookup_1 _ _ _ _ Ha Hi) as H'. unfold seq_lt in H'. lia.
Qed.

Lemma filter_filter_list {A} (f g : A -> bool) l :
  List.filter f (List.filter g l) = List.filter (fun x => g x && f x) l.
Proof.
  induction l as [|a l IH]; [done|]. cbn. destruct (g a) eqn:E; cbn; rewrite IH; done.
Qed.

Lemma filter_length_le_list {A} (f : A -> bool) l : (length (List.filter f l) ≤ length l)%nat.
Proof. induction l as [|a l IH]; cbn; [lia|]. destruct (f a); cbn; lia. Qed.

(** ** Properties *)

(** C2: in every execution from an empty store, every record is filed under the
    key of its own identifiers, the events of a run have strictly increasing
    sequence numbers, and every idempotency entry points to a stored task. *)
Theorem store_invariant (ops : list store_op) : ms_wf (exec_ops ops NewMemoryStore).
Proof. apply wf_exec_ops, wf_new. Qed.

(** C1: a run is claimed at most once.  In every interleaving of store
    operations, from every state, in which the run is not put back to RUN_QUEUED,
    at most one [ClaimRun] of it succeeds, whatever the number of deliveries. *)
Theorem claim_exclusive (k : string) (ops : list store_op) (s : MemoryStore)
    (Hq : Forall (fun o => requeues k o = false) ops) :
  (claims_won k ops s <= 1)%nat.
Proof.
  revert s. induction Hq as [|o ops Ho Hops IH]; intros s; [cbn; lia|]. cbn [claims_won].
  destruct (exec_op o s) as [s' res] eqn:E. specialize (IH s').
  destruct o; try lia. case_bool_decide as Hk; [|cbn; lia].
  destruct res as [[]|e]; [|cbn; lia]. subst k. cbn [exec_op] in E.
  apply claim_ok_status in E as (x & _ & _ & Hruns & _).
  rewrite (claims_won_claimed _ _ s' (x <| Run_Status := RunStatusRunning |> <| Run_StartedAt := Some now |>));
    [cbn; lia| |done..].
  by rewrite Hruns, lookup_insert_eq.
Qed.

(** a step is written once.  A step that [GetStep] returns is returned
    unchanged after any further operations, so a checkpoint is never overwritten. *)
Theorem step_write_once (ops : list store_op) (s : MemoryStore) (runID : string) (i : Z) (st : Step)
    (H : MemoryStore_GetStep runID i s = Ok st) :
  MemoryStore_GetStep runID i (exec_ops ops s) = Ok st.
Proof.
  unfold MemoryStore_GetStep in *.
  destruct (MS_steps s !! stepKey runID i) eqn:E; [|done].
  by rewrite (exec_ops_step _ _ _ _ E).
Qed.

(** C3: transitions are all-or-nothing.  An operation that returns an error leaves
    the store as it was, for every operation except [PutTask]. *)
Theorem failed_op_no_effect (o : store_op) (s : MemoryStore) (e : error)
    (Hput : match o with OpPutTask _ => False | _ => True end)
    (Herr : (exec_op o s).2 = Err e) :
  (exec_op o s).1 = s.
Proof.
  revert Herr. destruct o; try done; unfold_store_ops; unfold with_run; op_cases; try done.
Qed.

(** [PutTask] is not all-or-nothing: when the task id is taken it returns
    ErrAlreadyExists, but the idempotency entry of the rejected task stays, so its
    key now leads to the task that was there before. *)
Theorem PutTask_failure_leaks_key (s : MemoryStore) (t old : Task)
    (Hkey : Task_IdempotencyKey t <> "")
    (Hfree : MS_idempotency s !! idempKey (Task_TenantID t) (Task_IdempotencyKey t) = None)
    (Hold : MS_tasks s !! Task_TaskID t = Some old) :
  (MemoryStore_PutTask t s).2 = Err ErrAlreadyExists /\
  MemoryStore_GetTaskByIdempotencyKey (Task_TenantID t) (Task_IdempotencyKey t) s = Err ErrNotFound /\
  MemoryStore_GetTaskByIdempotencyKey (Task_TenantID t) (Task_IdempotencyKey t)
    (MemoryStore_PutTask t s).1 = Ok old.
Proof.
  unfold MemoryStore_PutTask, MemoryStore_GetTaskByIdempotencyKey.
  rewrite bool_decide_true by done. cbn zeta. rewrite Hfree, bool_decide_false by (by intros []).
  cbn [upd]; cbn. rewrite Hold, bool_decide_true by eauto. cbn.
  by rewrite lookup_insert_eq, Hold.
Qed.

(** [ListSteps] is exact.  It returns, in strictly increasing index order,
    precisely the stored steps of the run with index at least [from], cut to the
    first [limit] of them when [limit] is positive. *)
Theorem ListSteps_exact (s : MemoryStore) (runID : string) (from limit : Z) (H : ms_wf s) :
  exists l, MemoryStore_ListSteps runID from limit s = Ok (limit_slice limit l) /\
    StronglySorted (fun a b => Step_StepIndex a < Step_StepIndex b) l /\
    (forall st, st ∈ l <->
       Step_RunID st = runID /\ from <= Step_StepIndex st /\
       MemoryStore_GetStep runID (Step_StepIndex st) s = Ok st).
Proof.
  eexists. split; [reflexivity|]. split.
  - eapply StronglySorted_strict with (key := Step_StepIndex).
    + intros a b. unfold not_after, step_less. rewrite Z.ltb_ge. exact id.
    + apply sort_slice_sorted; [apply step_less_trans | apply step_less_total].
    + rewrite (Permutation_map Step_StepIndex (sort_slice_perm _ _)).
      apply NoDup_step_index; [apply NoDup_fst_map_to_list|].
      intros k st Hin. apply elem_of_map_to_list in Hin. by apply (wf_steps _ H).
  - intros st. rewrite (sort_slice_perm step_less), elem_of_filter_list.
    unfold step_matches, MemoryStore_GetStep. rewrite andb_true_iff, bool_decide_eq_true, Z.leb_le.
    split.
    + intros [Hin [<- Hi]]. split; [done|]. split; [done|].
      apply list_elem_of_fmap in Hin as ([k st'] & -> & Hin). apply elem_of_map_to_list in Hin.
      cbn. rewrite <- (wf_steps _ H _ _ Hin). by rewrite Hin.
    + intros (<- & Hi & Hg). split; [|done].
      destruct (MS_steps s !! _) as [st'|] eqn:E; [|done]. simplify_eq.
      apply list_elem_of_fmap. eexists (_, st). split; [done|]. by apply elem_of_map_to_list.
Qed.

(** replay by pages loses and repeats nothing.  If a page of [ReplayEvents]
    ends with event [e], then the page followed by everything after sequence number
    [Seq e] is the whole replay. *)
Theorem ReplayEvents_pages (s : MemoryStore) (taskID runID : string) (from fromTS limit big : Z)
    (p q : list StreamEvent) (e : StreamEvent)
    (Hwf : ms_wf s) (Hne : taskID <> "")
    (Hp : MemoryStore_ReplayEvents taskID runID from fromTS limit s = Ok p)
    (Hlast : list.last p = Some e) (Hpos : 0 < StreamEvent_Seq e)
    (Hbig : 0 < big) (Hcover : Z.of_nat (length (default [] (MS_events s !! eventKey taskID runID))) <= big)
    (Hq : MemoryStore_ReplayEvents taskID runID (StreamEvent_Seq e) fromTS big s = Ok q) :
  MemoryStore_ReplayEvents taskID runID from fromTS big s = Ok (p ++ q).
Proof.
  rewrite replay_eq in * by done.
  rewrite (proj2 (Z.leb_gt big 0)) in * by done.
  set (evs := default [] (MS_events s !! eventKey taskID runID)) in *.
  assert (Hs : StronglySorted seq_lt evs).
  { unfold evs. destruct (MS_events s !! _) eqn:E; [by eapply wf_events_sorted|constructor]. }
  injection Hp as Hp. injection Hq as Hq. f_equal.
  set (n := Z.to_nat (if limit <=? 0 then 200 else limit)) in *.
  set (L := List.filter (replay_keeps taskID from fromTS) evs) in *.
  assert (HL : StronglySorted seq_lt L) by (by apply StronglySorted_filter).
  assert (Hlen : forall f, (length (List.filter f evs) ≤ Z.to_nat big)%nat).
  { intros f. pose proof (filter_length_le_list f evs). lia. }
  rewrite take_ge in Hq by apply Hlen. rewrite take_ge by apply Hlen.
  rewrite <- Hp in Hlast. pose proof (sorted_filter_drop _ _ _ HL Hlast) as Hdrop.
  assert (Hkeep : replay_keeps taskID from fromTS e = true).
  { apply last_Some_elem_of, elem_of_take in Hlast as (i & Hi & _).
    apply list_elem_of_lookup_2 in Hi. apply elem_of_filter_list in Hi as [_ Hi]. exact Hi. }
  rewrite <- (take_drop n L), Hp, <- Hdrop, <- Hq. f_equal.
  unfold L. rewrite filter_filter_list. apply filter_ext. intros x.
  unfold replay_keeps in *. rewrite (proj2 (Z.ltb_lt 0 (StreamEvent_Seq e))) by done.
  apply andb_true_iff in Hkeep as [Hkeep _]. apply andb_true_iff in Hkeep as [_ Hfrom].
  destruct (Z.ltb_spec (StreamEvent_Seq e) (StreamEvent_Seq x)) as [Hlt|Hge].
  - rewrite (proj2 (Z.leb_gt (StreamEvent_Seq x) (StreamEvent_Seq e))) by done.
    assert (negb ((0 <? from) && (StreamEvent_Seq x <=? from)) = true) as ->; [|by rewrite andb_true_r].
    destruct (0 <? from); [|done]. cbn in *. bool_prop. apply negb_true_iff, Z.leb_gt. lia.
  - rewrite (proj2 (Z.leb_le (StreamEvent_Seq x) (StreamEvent_Seq e))) by done.
    by rewrite !andb_false_r.
Qed.

(** ** Witnesses *)

Definition demo_task (id run : string) (st : TaskStatus) : Task :=
  mkTask id "tenant" "user" st run false "" None "" "write a report" None 100 100.
Definition demo_run (t r : string) (st : RunStatus) : Run :=
  mkRun t r "tenant" st (Some 100) "" None None None None 0 None f_zero.
Definition demo_step (r : string) (i : Z) : Step :=
  mkStep r i StepTypeLLMCall StepStatusOK "in" "out" 100 200 0 None None "" "".
Definition demo_event (seq : Z) : StreamEvent :=
  mkStreamEvent "t" "r" seq 5000 StreamEventStepStart GNil.

Definition demo_claims : list store_op :=
  [OpPutRun 1 (demo_run "t" "r" RunStatusQueued); OpClaimRun 2 "t" "r"; OpClaimRun 3 "t" "r";
   OpCompleteRun 4 "t" "r" RunStatusSucceeded; OpClaimRun 5 "t" "r"].

Lemma claim_exclusive_witness :
  claims_won "t#r" demo_claims NewMemoryStore = 1%nat /\
  (claims_won "t#r" demo_claims NewMemoryStore <= 1)%nat.
Proof. split; [vm_compute; reflexivity|]. apply claim_exclusive. repeat constructor. Defined.

Lemma step_write_once_witness :
  MemoryStore_GetStep "r" 0
    (exec_ops [OpPutStep (mkStep "r" 0 StepTypeFinal StepStatusError "x" "y" 1 2 3 None None "" "")]
       (exec_ops [OpPutStep (demo_step "r" 0)] NewMemoryStore)) = Ok (demo_step "r" 0).
Proof. apply step_write_once. vm_compute. reflexivity. Defined.

Lemma failed_op_no_effect_witness :
  (exec_op (OpClaimRun 3 "t" "r") NewMemoryStore).1 = NewMemoryStore.
Proof. apply (failed_op_no_effect _ _ ErrNotFound); [exact I|]. vm_compute. reflexivity. Defined.

Definition demo_keyed_task (id key : string) : Task :=
  mkTask id "tenant" "user" TaskStatusQueued "r" false "" None key "p" None 100 100.

Lemma PutTask_failure_leaks_key_witness :
  let s := exec_ops [OpPutTask (demo_task "t" "r" TaskStatusSucceeded)] NewMemoryStore in
  let t := demo_keyed_task "t" "k" in
  (MemoryStore_PutTask t s).2 = Err ErrAlreadyExists /\
  MemoryStore_GetTaskByIdempotencyKey "tenant" "k" s = Err ErrNotFound /\
  MemoryStore_GetTaskByIdempotencyKey "tenant" "k" (MemoryStore_PutTask t s).1
    = Ok (demo_task "t" "r" TaskStatusSucceeded).
Proof.
  apply (PutTask_failure_leaks_key _ (demo_keyed_task "t" "k")); [done|vm_compute; reflexivity..].
Defined.

Lemma ListSteps_exact_witness :
  exists l, MemoryStore_ListSteps "r" 0 1
      (exec_ops [OpPutStep (demo_step "r" 1); OpPutStep (demo_step "r" 0)] NewMemoryStore)
    = Ok (limit_slice 1 l).
Proof.
  destruct (ListSteps_exact
    (exec_ops [OpPutStep (demo_step "r" 1); OpPutStep (demo_step "r" 0)] NewMemoryStore) "r" 0 1)
    as (l & H & _); [apply wf_exec_ops, wf_new|].
  exists l. exact H.
Defined.

Definition demo_events : MemoryStore :=
  exec_ops (map (fun i => OpPutEvent 1 1 (Some (demo_event i))) [2; 1; 3]) NewMemoryStore.

Lemma ReplayEvents_pages_witness :
  MemoryStore_ReplayEvents "t" "r" 0 0 10 demo_events
    = Ok ([demo_event 1; demo_event 2] ++ [demo_event 3]).
Proof.
  apply (ReplayEvents_pages demo_events "t" "r" 0 0 2 10 _ _ (demo_event 2)).
  - apply wf_exec_ops, wf_new.
  - done.
  - vm_compute. reflexivity.
  - reflexivity.
  - reflexivity.
  - reflexivity.
  - vm_compute. congruence.
  - vm_compute. reflexivity.
Defined.

(** ** The store satisfies its interface *)

Lemma ensureQueuedAt_shape r now : exists q, ensureQueuedAt_run r now = r <| Run_QueuedAt := q |>.
Proof. unfold ensureQueuedAt_run. case_if; [exists (Run_QueuedAt r); by destruct r|by eexists]. Qed.

Lemma with_run_laws taskID runID f s :
  match MemoryStore_GetRun taskID runID s with
  | Ok r => exists s', with_run taskID runID f s = (s', Ok tt) /\
      MemoryStore_GetRun taskID runID s' = Ok (f r) /\
      forall t, MemoryStore_GetTask t s' = MemoryStore_GetTask t s
  | Err _ => with_run taskID runID f s = (s, Err ErrNotFound)
  end.
Proof.
  unfold MemoryStore_GetRun, with_run. destruct (MS_runs s !! _) as [r|]; [|done].
  eexists. split; [done|]. cbn. by rewrite lookup_insert_eq.
Qed.

Lemma stored_task_laws taskID t s :
  MemoryStore_GetTask taskID (store_task taskID t s) = Ok t /\
  forall a b, MemoryStore_GetRun a b (store_task taskID t s) = MemoryStore_GetRun a b s.
Proof. unfold MemoryStore_GetTask, store_task. cbn. by rewrite lookup_insert_eq. Qed.

Lemma with_run_quiet a b f s :
  (forall r, Run_Status (f r) = Run_Status r) -> quiet s (with_run a b f s).1.
Proof.
  intros Hf. unfold with_run. destruct (MS_runs s !! runKey a b) as [r|] eqn:E; [|done].
  split; [done|]. intros c d. cbn. unfold MemoryStore_GetRun. cbn.
  destruct (decide (runKey a b = runKey c d)) as [<-|Hne].
  - rewrite lookup_insert_eq, E. cbn. by rewrite Hf.
  - by rewrite lookup_insert_ne.
Qed.

Lemma quiet_same (s s' : MemoryStore) : MS_tasks s' = MS_tasks s -> MS_runs s' = MS_runs s -> quiet s s'.
Proof.
  intros Ht Hr. split; cbn; unfold MemoryStore_GetTask, MemoryStore_GetRun; intros; by rewrite ?Ht, ?Hr.
Qed.

Lemma create_law now t r s s' :
  MemoryStore_ApplyCreateTransition now (Some t) (Some r) s = (s', Ok tt) ->
  MemoryStore_GetTask (Task_TaskID t) s' = Ok t /\
  (exists q, MemoryStore_GetRun (Run_TaskID r) (Run_RunID r) s' = Ok (r <| Run_QueuedAt := q |>)) /\
  (Task_IdempotencyKey t <> "" ->
   MemoryStore_GetTaskByIdempotencyKey (Task_TenantID t) (Task_IdempotencyKey t) s' = Ok t).
Proof.
  unfold MemoryStore_ApplyCreateTransition. cbn [ensureQueuedAt].
  destruct (ensureQueuedAt_shape r now) as [q ->]. cbn.
  repeat (case_if; [done|]). unfold MemoryStore_GetTask, MemoryStore_GetRun, MemoryStore_GetTaskByIdempotencyKey.
  case_if as Hk; [case_if; [done|]|]; intros H; injection H as <-; cbn; rewrite !lookup_insert_eq;
    (split; [done|]; split; [by eexists|]).
  + intros _. done.
  + bool_prop. intros Hne. by destruct Hk.
Qed.

Lemma resume_law now1 now2 taskID r from to s s' :
  MemoryStore_ApplyResumeTransition now1 now2 taskID (Some r) from to s = (s', Ok tt) ->
  Run_TaskID r = taskID /\
  (exists t, MemoryStore_GetTask taskID s = Ok t /\ Task_Status t ∈ from /\
     MemoryStore_GetTask taskID s' = Ok (t <| Task_ActiveRunID := Run_RunID r |> <| Task_AbortRequested := false |>
        <| Task_AbortReason := "" |> <| Task_AbortTS := None |> <| Task_Status := to |>
        <| Task_UpdatedAt := now2 |>)) /\
  (exists q, MemoryStore_GetRun taskID (Run_RunID r) s' = Ok (r <| Run_QueuedAt := q |>)).
Proof.
  unfold MemoryStore_ApplyResumeTransition. cbn [ensureQueuedAt].
  destruct (ensureQueuedAt_shape r now1) as [q ->]. cbn.
  case_if as E; [done|]. unfold MemoryStore_GetTask, MemoryStore_GetRun.
  destruct (MS_tasks s !! taskID) as [t|]; [|done].
  case_if; [done|]. case_if as E2; [|done]. intros H. injection H as <-. bool_prop.
  assert (Run_TaskID r = taskID) as Ht by by apply dec_stable.
  split; [done|]. cbn. rewrite lookup_insert_eq. split; [by exists t|].
  exists q. by rewrite Ht, lookup_insert_eq.
Qed.

(** Runs of one task have different keys. *)
Lemma runKey_inj_run t r r' : runKey t r = runKey t r' -> r = r'.
Proof. unfold runKey. intros H. by simplify_eq. Qed.

Lemma complete_frame now taskID runID status s b : b <> runID ->
  MemoryStore_GetRun taskID b (MemoryStore_CompleteRun now taskID runID status s).1 = MemoryStore_GetRun taskID b s.
Proof.
  intros Hb. unfold MemoryStore_CompleteRun, with_run, MemoryStore_GetRun. destruct (MS_runs s !! runKey taskID runID); [|done].
  cbn. rewrite lookup_insert_ne; [done|]. intros ->%runKey_inj_run. done.
Qed.

Lemma resume_frame now1 now2 taskID r from to s s' :
  MemoryStore_ApplyResumeTransition now1 now2 taskID (Some r) from to s = (s', Ok tt) ->
  MemoryStore_GetRun taskID (Run_RunID r) s = Err ErrNotFound /\
  forall b, b <> Run_RunID r -> MemoryStore_GetRun taskID b s' = MemoryStore_GetRun taskID b s.
Proof.
  unfold MemoryStore_ApplyResumeTransition. cbn [ensureQueuedAt].
  destruct (ensureQueuedAt_shape r now1) as [q ->]. cbn.
  case_if as E; [done|]. unfold MemoryStore_GetRun.
  destruct (MS_tasks s !! taskID) as [t|]; [|done].
  case_if as E1; [done|]. case_if as E2; [|done]. intros H. injection H as <-. bool_prop.
  assert (Run_TaskID r = taskID) as Ht by by apply dec_stable. rewrite Ht in *. cbn. split.
  - destruct (MS_runs s !! runKey taskID (Run_RunID r)) eqn:Er; [|done]. exfalso. eauto.
  - intros b Hb. rewrite lookup_insert_ne; [done|]. intros ?%runKey_inj_run. congruence.
Qed.

#[global] Instance MemoryStore_laws : StateStoreLaws MemoryStore.
Proof.
  constructor; cbn.
  - intros now t r s s'. apply create_law.
  - intros now t r s s' e. unfold MemoryStore_ApplyCreateTransition.
    destruct t, (ensureQueuedAt r now); repeat case_if; congruence.
  - intros now taskID runID s. pose proof (with_run_laws taskID runID
      (fun r => r <| Run_Status := RunStatusRunning |> <| Run_StartedAt := Some now |>) s) as H.
    unfold MemoryStore_ClaimRun. unfold MemoryStore_GetRun in *.
    destruct (MS_runs s !! runKey taskID runID) as [r|]; [|done].
    case_decide as E; [rewrite bool_decide_false; naive_solver|by rewrite bool_decide_true].
  - intros now taskID runID status s. apply with_run_laws.
  - intros now taskID runID from to s. unfold MemoryStore_UpdateTaskStatusForRun.
    unfold MemoryStore_GetTask at 1. destruct (MS_tasks s !! taskID) as [t|]; [|done].
    case_decide as E.
    + destruct E as [E1 E2]. rewrite bool_decide_false, bool_decide_true by naive_solver.
      eexists. split; [done|]. apply stored_task_laws.
    + case_if as E1; [done|]. case_if as E2; [|done]. bool_prop. exfalso. apply E.
      split; [|done]. by apply dec_stable.
  - intros now taskID reason s. unfold MemoryStore_SetAbortRequested.
    unfold MemoryStore_GetTask at 1. destruct (MS_tasks s !! taskID) as [t|]; [|done].
    eexists. split; [done|]. apply stored_task_laws.
  - intros now1 now2 taskID r from to s s'. apply resume_law.
  - intros now1 now2 taskID r from to s s' e. unfold MemoryStore_ApplyResumeTransition.
    destruct (ensureQueuedAt r now1); [|congruence]. repeat (split_match; try congruence).
  - intros taskID s e. unfold MemoryStore_GetTask. destruct (MS_tasks s !! taskID); congruence.
  - intros st s. unfold MemoryStore_PutStep. cbn zeta. case_if; by apply quiet_same.
  - intros a b i s. by apply with_run_quiet.
  - intros a b u c s. apply with_run_quiet. intros r. destruct u; by case_if.
  - intros t1 t2 ev s. unfold MemoryStore_PutEvent. destruct ev; [|done]. cbn zeta.
    repeat (case_if; try by apply quiet_same).
  - intros id s. by apply quiet_same.
  - intros now taskID runID s. apply with_run_laws.
  - intros taskID runID i s. pose proof (with_run_laws taskID runID (fun r => r <| Run_LastStepIndex := i |>) s) as H.
    unfold MemoryStore_UpdateLastStepIndex. destruct (MemoryStore_GetRun taskID runID s); naive_solver.
  - intros now taskID from to s. unfold MemoryStore_UpdateTaskStatus.
    unfold MemoryStore_GetTask at 1. destruct (MS_tasks s !! taskID) as [t|]; [|done].
    case_decide as E; [rewrite bool_decide_true by done|by rewrite bool_decide_false].
    eexists. split; [done|]. apply stored_task_laws.
  - intros a b ts s. unfold MemoryStore_CompactEvents. repeat (case_if; try by apply quiet_same).
  - intros now taskID runID status s b. apply complete_frame.
  - intros now1 now2 taskID r from to s s'. apply resume_frame.
Qed.
