(* ===== verification/DynamoDB.v ===== *)
(** * DynamoDB: the service the production store talks to

    The DynamoDB service and the attribute encoding of the AWS SDK are not part of the
    program.  [DynamoDB] is what the store calls, on an abstract state of the service;
    [DynamoLaws] is the documented behaviour the store relies on, including failures: a call
    that ends with a service error may or may not have taken effect.  Expressions are trees
    instead of texts, with the placeholders of names and values filled in.  [ItemCodec] is
    the attribute encoding of a struct.  [DynamoReference] has a concrete service and encoding
    for which the laws are proved. *)

From Stdlib Require Import Ascii.
From S2P Require Import Prelude GoLib.

(** ** Attribute values and items *)

#[warnings="-register-all"]
Inductive AV : Type :=
| AVS (v : string)
| AVN (v : string)
| AVBOOL (b : bool)
| AVM (l : list (string * AV)).

#[global] Instance AV_eq_dec : EqDecision AV.
Proof.
  refine (fix go (x y : AV) : Decision (x = y) :=
    let _ : EqDecision AV := go in
    match x, y with
    | AVS a, AVS b => cast_if (decide (a = b))
    | AVN a, AVN b => cast_if (decide (a = b))
    | AVBOOL a, AVBOOL b => cast_if (decide (a = b))
    | AVM a, AVM b => cast_if (decide (a = b))
    | _, _ => right _
    end); abstract congruence.
Defined.

Abbreviation Item := (gmap string AV).
Definition Key : Type := string * string.

(** The attributes pk and sk of an item. *)
Definition item_key (it : Item) : option Key :=
  match it !! "pk", it !! "sk" with
  | Some (AVS pk), Some (AVS sk) => Some (pk, sk)
  | _, _ => None
  end.

(** ** Expressions *)

Inductive cond : Type :=
| attribute_exists (a : string)
| attribute_not_exists (a : string)
| attr_eq (a : string) (v : AV)
| attr_in (a : string) (vs : list AV)
| cond_and (c1 c2 : cond)
| cond_or (c1 c2 : cond).

Fixpoint holds (c : cond) (it : Item) : bool :=
  match c with
  | attribute_exists a => bool_decide (is_Some (it !! a))
  | attribute_not_exists a => bool_decide (it !! a = None)
  | attr_eq a v => bool_decide (it !! a = Some v)
  | attr_in a vs => match it !! a with Some v => bool_decide (v ∈ vs) | None => false end
  | cond_and c1 c2 => holds c1 it && holds c2 it
  | cond_or c1 c2 => holds c1 it || holds c2 it
  end.

(** Actions of an update: SET of an attribute, SET of an attribute or of a member of a map
    attribute to its number (or a default) plus another one, REMOVE. *)
Inductive action : Type :=
| set_attr (a : string) (v : AV)
| add_attr (a : string) (zero delta : AV)
| add_member (a m : string) (zero delta : AV)
| remove_attr (a : string).

Fixpoint member (m : string) (l : list (string * AV)) : option AV :=
  match l with
  | [] => None
  | (k, v) :: l' => if String.eqb k m then Some v else member m l'
  end.

Fixpoint set_member (m : string) (v : AV) (l : list (string * AV)) : list (string * AV) :=
  match l with
  | [] => [(m, v)]
  | (k, w) :: l' => if String.eqb k m then (k, v) :: l' else (k, w) :: set_member m v l'
  end.

Record QueryInput : Type := mkQueryInput {
  q_table : string;
  q_index : option string;
  q_pk : string * string;                              (* attribute and value *)
  q_range : option (string * string);                  (* sk BETWEEN *)
  q_filter : option cond }.

(** Errors of the service, as the store tells them apart. *)
Inductive DynErr : Type :=
| ConditionalCheckFailed (msg : string)
| TransactionCanceled (codes : list string) (msg : string)
| ServiceError (e : error).

Definition dyn_error (e : DynErr) : error :=
  match e with
  | ConditionalCheckFailed msg | TransactionCanceled _ msg => errors_New msg
  | ServiceError e => e
  end.

Inductive TransactItem : Type :=
| TPut (table : string) (it : Item) (c : cond)
| TUpdate (table : string) (k : Key) (c : cond) (acts : list action).

(** ** The service *)

Class DynamoDB (D : Type) := {
  GetItem : string -> Key -> ST D (result DynErr Item);
  PutItem : string -> Item -> option cond -> ST D (result DynErr unit);
  UpdateItem : string -> Key -> cond -> list action -> ST D (result DynErr unit);
  DeleteItem : string -> Key -> ST D (result DynErr unit);
  TransactWriteItems : list TransactItem -> ST D (result DynErr unit);
  (* a page of items and the key to continue from, empty at the end *)
  Query : QueryInput -> Item -> option Z -> ST D (result DynErr (list Item * Item));
  (* deletes of a batch; the number of unprocessed ones *)
  BatchDelete : string -> list (AV * AV) -> ST D (result DynErr nat);
  (* addition of the texts of two numbers *)
  number_add : string -> string -> string }.

Section semantics.
Context `{DynamoDB}.

Definition av_add (x delta : AV) : option AV :=
  match x, delta with
  | AVN a, AVN b => Some (AVN (number_add a b))
  | _, _ => None
  end.

(** The effect of an action; [None] if it does not fit the item. *)
Definition act (x : action) (it : Item) : option Item :=
  match x with
  | set_attr a v => Some (<[a := v]> it)
  | add_attr a zero delta => v ← av_add (default zero (it !! a)) delta; Some (<[a := v]> it)
  | add_member a m zero delta =>
      match it !! a with
      | Some (AVM l) => v ← av_add (default zero (member m l)) delta; Some (<[a := AVM (set_member m v l)]> it)
      | _ => None
      end
  | remove_attr a => Some (delete a it)
  end.

Fixpoint act_all (l : list action) (it : Item) : option Item :=
  match l with
  | [] => Some it
  | x :: l' => it' ← act x it; act_all l' it'
  end.

(** An item that an update creates has its key. *)
Definition key_item (k : Key) : Item := <["pk" := AVS k.1]> (<["sk" := AVS k.2]> ∅).
End semantics.

(** The tables, as an observer with consistent reads sees them. *)
Definition Tables : Type := string -> Key -> option Item.

Definition table_set (t : string) (k : Key) (v : option Item) (T : Tables) : Tables :=
  fun t' k' => if decide (t' = t /\ k' = k) then v else T t' k'.

Definition same_tables (T T' : Tables) : Prop := forall t k, T t k = T' t k.

(** The condition of a write to an item that may be missing. *)
Definition holds_at (c : cond) (T : Tables) (t : string) (k : Key) : bool := holds c (default ∅ (T t k)).

(** One write of a transaction: whether its condition holds, and its effect. *)
Definition write_holds (T : Tables) (x : TransactItem) : bool :=
  match x with
  | TPut t it c => match item_key it with Some k => holds_at c T t k | None => false end
  | TUpdate t k c _ => holds_at c T t k
  end.

Definition write_effect `{DynamoDB} (x : TransactItem) (T : Tables) : option Tables :=
  match x with
  | TPut t it _ => k ← item_key it; Some (table_set t k (Some it) T)
  | TUpdate t k _ acts => it ← act_all acts (default (key_item k) (T t k)); Some (table_set t k (Some it) T)
  end.

Fixpoint write_all `{DynamoDB} (l : list TransactItem) (T : Tables) : option Tables :=
  match l with
  | [] => Some T
  | x :: l' => T' ← write_effect x T; write_all l' T'
  end.

Definition failed_code : string := "ConditionalCheckFailed".

(** What a write may do: take effect, refuse because a condition fails, or fail with a service
    error without saying whether it took effect. *)
Definition write_outcome (T T' : Tables) (ok : bool) (effect : option Tables) (refused : DynErr -> Prop)
    (r : result DynErr unit) : Prop :=
  match r with
  | Ok _ => ok = true /\ exists E, effect = Some E /\ same_tables E T'
  | Err (ServiceError _) => same_tables T T' \/ (ok = true /\ exists E, effect = Some E /\ same_tables E T')
  | Err e => ok = false /\ refused e /\ same_tables T T'
  end.

Definition cond_refused (e : DynErr) : Prop := exists msg, e = ConditionalCheckFailed msg.

(** Every failed condition of a transaction is reported in its place. *)
Definition transact_refused (T : Tables) (l : list TransactItem) (e : DynErr) : Prop :=
  exists codes msg, e = TransactionCanceled codes msg /\ length codes = length l /\
    forall i x, l !! i = Some x -> (codes !! i = Some failed_code <-> write_holds T x = false).

Class DynamoLaws (D : Type) `{DynamoDB D} := {
  tables : D -> Tables;
  law_get_item t k d d' r :
    GetItem t k d = (d', r) -> same_tables (tables d) (tables d') /\
    match r with
    | Ok it => it = default ∅ (tables d t k)
    | Err e => exists e', e = ServiceError e'
    end;
  law_put_item t it c k d d' r :
    item_key it = Some k -> PutItem t it c d = (d', r) ->
    write_outcome (tables d) (tables d') (match c with Some c => holds_at c (tables d) t k | None => true end)
      (Some (table_set t k (Some it) (tables d))) cond_refused r;
  law_update_item t k c acts d d' r :
    UpdateItem t k c acts d = (d', r) ->
    write_outcome (tables d) (tables d') (holds_at c (tables d) t k)
      (write_effect (TUpdate t k c acts) (tables d)) cond_refused r;
  law_delete_item t k d d' r :
    DeleteItem t k d = (d', r) ->
    write_outcome (tables d) (tables d') true (Some (table_set t k None (tables d))) (fun _ => False) r;
  law_transact l d d' r :
    TransactWriteItems l d = (d', r) ->
    write_outcome (tables d) (tables d') (forallb (write_holds (tables d)) l) (write_all l (tables d))
      (transact_refused (tables d) l) r }.

(** A service that is available answers every call that makes sense. *)
Class DynamoAvailable (D : Type) `{DynamoLaws D} : Prop := {
  get_answers t k d : exists it, (GetItem t k d).2 = Ok it;
  put_answers t it c d e : is_Some (item_key it) -> (PutItem t it c d).2 <> Err (ServiceError e);
  update_answers t k c acts d e :
    is_Some (write_effect (TUpdate t k c acts) (tables d)) -> (UpdateItem t k c acts d).2 <> Err (ServiceError e);
  delete_answers t k d e : (DeleteItem t k d).2 <> Err (ServiceError e);
  transact_answers l d e : is_Some (write_all l (tables d)) -> (TransactWriteItems l d).2 <> Err (ServiceError e) }.

(** ** The attribute encoding of a struct *)

Class ItemCodec (A : Type) := {
  marshalMap : A -> result error Item;
  unmarshalMap : Item -> result error A }.

(** [attributevalue.Marshal] of a time, [attributevalue.Unmarshal] into a string, and
    [strconv.FormatFloat] with the shortest text. *)
Class ScalarCodec := {
  marshal_time : Time -> result error AV;
  unmarshal_string : AV -> result error string;
  format_float : float64 -> string }.
