(* ===== verification/DynamoStore.v ===== *)
(** * DynamoStore: the production metadata store (src/pkg/state/dynamo_store.go)

    Every operation of [DynamoStore] as a computation on the state of the service.  The
    readings of the wall clock of a call are [now 0], [now 1], ... in the order of the reads.
    The page loops have a fuel argument: [listings_complete] in [DynamoPages] gives the
    bound that is always enough. *)

From Stdlib Require Import Ascii.
From S2P Require Import Prelude GoLib Model StateStore MemoryStore DynamoDB.

Definition defaultConnectionTaskIndex : string := "task-index".
Definition defaultTaskTenantIndex : string := "tenant-created-index".
Definition defaultRunTenantIndex : string := "tenant-run-index".
Definition defaultTaskEntityIndex : string := "entity-created-index".
Definition defaultRunEntityIndex : string := "entity-run-index".
Definition eventTTLAttribute : string := "ttl".
Definition taskMetaSK : string := "META".
Definition connMetaSK : string := "META".
Definition maxBatchWriteSize : nat := 25.

Record DynamoStoreConfig : Type := mkDynamoStoreConfig {
  DC_TasksTable : string;
  DC_RunsTable : string;
  DC_StepsTable : string;
  DC_ConnectionsTable : string;
  DC_ConnectionIndex : string;
  DC_TaskTenantIndex : string;
  DC_RunTenantIndex : string;
  DC_TaskEntityIndex : string;
  DC_RunEntityIndex : string;
  DC_EventRetention : Duration }.

(** The client is the state the operations work on. *)
Record DynamoStore : Type := mkDynamoStore {
  tasksTable : string;
  runsTable : string;
  stepsTable : string;
  connectionsTable : string;
  connectionIndex : string;
  taskTenantIndex : string;
  runTenantIndex : string;
  taskEntityIndex : string;
  runEntityIndex : string;
  eventRetention : Duration }.

Definition or_default (s d : string) : string := if is_blank s then d else TrimSpace s.

Definition NewDynamoStore (client : bool) (cfg : DynamoStoreConfig) : result error DynamoStore :=
  if negb client then Err (errors_New "state: dynamodb client is required")
  else if is_blank (DC_TasksTable cfg) then Err (errors_New "state: tasks table is required")
  else if is_blank (DC_RunsTable cfg) then Err (errors_New "state: runs table is required")
  else if is_blank (DC_StepsTable cfg) then Err (errors_New "state: steps table is required")
  else if is_blank (DC_ConnectionsTable cfg) then Err (errors_New "state: connections table is required")
  else if DC_EventRetention cfg <? 0 then Err (errors_New "state: event retention must be >= 0")
  else Ok (mkDynamoStore (TrimSpace (DC_TasksTable cfg)) (TrimSpace (DC_RunsTable cfg)) (TrimSpace (DC_StepsTable cfg))
    (TrimSpace (DC_ConnectionsTable cfg)) (or_default (DC_ConnectionIndex cfg) defaultConnectionTaskIndex)
    (or_default (DC_TaskTenantIndex cfg) defaultTaskTenantIndex) (or_default (DC_RunTenantIndex cfg) defaultRunTenantIndex)
    (or_default (DC_TaskEntityIndex cfg) defaultTaskEntityIndex) (or_default (DC_RunEntityIndex cfg) defaultRunEntityIndex)
    (DC_EventRetention cfg)).

(** ** Keys *)

Definition taskPK (taskID : string) : string := "TASK#" +:+ taskID.
Definition runPK (taskID : string) : string := "TASK#" +:+ taskID.
Definition runSK (runID : string) : string := "RUN#" +:+ runID.
Definition stepPK (runID : string) : string := "RUN#" +:+ runID.
Definition eventPK (taskID runID : string) : string := "EVT#" +:+ taskID +:+ "#" +:+ runID.
Definition stepSK (stepIndex : Z) : string := "STEP#" +:+ fmt_0d 8 stepIndex.
Definition eventSK (seq : Z) : string := "EVT#" +:+ fmt_0d 20 (if seq <? 0 then 0 else seq).
Definition connectionPK (connectionID : string) : string := "CONN#" +:+ connectionID.
Definition taskGSIKey (taskID : string) : string := "TASK#" +:+ taskID.
Definition tenantGSIKey (tenantID : string) : string := "TENANT#" +:+ tenantID.
Definition taskEntityGSIKey : string := "TASK".
Definition runEntityGSIKey : string := "RUN".
Definition runTenantSortKey (taskID runID : string) : string := taskID +:+ "#" +:+ runID.
Definition connectionGSIKey (connectionID : string) : string := "CONN#" +:+ connectionID.
Definition idempotencyPK (tenantID idempotencyKey : string) : string := "IDEMP#" +:+ tenantID +:+ "#" +:+ idempotencyKey.

(** [time.Format] with RFC3339Nano for a time in UTC: the date of the proleptic Gregorian
    calendar, and the fraction of the second without trailing zeros. *)
Definition civil_from_days (days : Z) : Z * Z * Z :=
  let z := days + 719468 in
  let era := z / 146097 in
  let doe := z - era * 146097 in
  let yoe := (doe - doe / 1460 + doe / 36524 - doe / 146096) / 365 in
  let doy := doe - (365 * yoe + yoe / 4 - yoe / 100) in
  let mp := (5 * doy + 2) / 153 in
  let d := doy - (153 * mp + 2) / 5 + 1 in
  let m := if mp <? 10 then mp + 3 else mp - 9 in
  ((yoe + era * 400 + (if m <=? 2 then 1 else 0)), m, d).

Definition fraction (ns : Z) : string :=
  if ns =? 0 then ""
  else "." +:+ string_of (rev (drop_while (Ascii.eqb "0") (rev (pad0 9 (dec_digits ns))))).

Definition format_rfc3339nano (t : Time) : string :=
  let secs := t / Second in
  let '(y, m, d) := civil_from_days (secs / 86400) in
  let sod := secs mod 86400 in
  (if y <? 0 then "-" else "") +:+ fmt_0d 4 (Z.abs y) +:+ "-" +:+ fmt_0d 2 m +:+ "-" +:+ fmt_0d 2 d +:+ "T"
  +:+ fmt_0d 2 (sod / 3600) +:+ ":" +:+ fmt_0d 2 (sod / 60 mod 60) +:+ ":" +:+ fmt_0d 2 (sod mod 60)
  +:+ fraction (t mod Second) +:+ "Z".

Definition taskTenantSortKey (now : Time) (createdAt : Time) (taskID : string) : string :=
  format_rfc3339nano (if time_IsZero createdAt then now else createdAt) +:+ "#" +:+ taskID.

(** ** Attribute values *)

Definition avString (v : string) : AV := AVS v.
Definition avBool (v : bool) : AV := AVBOOL v.
Definition avInt (v : Z) : AV := AVN (fmt_d v).

Section values.
Context `{ScalarCodec}.

Definition avFloat (v : float64) : AV := AVN (format_float v).
Definition avTime (t : Time) : AV :=
  match marshal_time t with Ok av => av | Err _ => AVS (format_rfc3339nano t) end.

Definition avStatus (s : TaskStatus) : AV := avString (string_of_TaskStatus s).
Definition avRunStatus (s : RunStatus) : AV := avString (string_of_RunStatus s).

Definition getStringAttr (it : Item) (key : string) : result error string :=
  match it !! key with
  | None => Err (errors_New ("missing attribute " +:+ key))
  | Some av => unmarshal_string av
  end.

(** Assignments to an item, in the order of the source. *)
Definition put_attrs (l : list (string * AV)) (it : Item) : Item := fold_left (fun it x => <[x.1 := x.2]> it) l it.

Definition opt_attr {A} (a : string) (f : A -> AV) (v : option A) : list (string * AV) :=
  match v with Some x => [(a, f x)] | None => [] end.

Definition applyTaskCompatFields (task : Task) : list (string * AV) :=
  [("task_id", avString (Task_TaskID task)); ("tenant_id", avString (Task_TenantID task));
   ("user_id", avString (Task_UserID task)); ("status", avStatus (Task_Status task));
   ("active_run_id", avString (Task_ActiveRunID task)); ("abort_requested", avBool (Task_AbortRequested task));
   ("abort_reason", avString (Task_AbortReason task))]
  ++ opt_attr "abort_ts" avTime (Task_AbortTS task)
  ++ [("idempotency_key", avString (Task_IdempotencyKey task)); ("prompt", avString (Task_Prompt task))]
  ++ (if time_IsZero (Task_CreatedAt task) then [] else [("created_at", avTime (Task_CreatedAt task))])
  ++ (if time_IsZero (Task_UpdatedAt task) then [] else [("updated_at", avTime (Task_UpdatedAt task))]).

Definition avUsage (u : TokenUsage) : AV :=
  AVM [("input", avInt (TokenUsage_Input u)); ("output", avInt (TokenUsage_Output u)); ("total", avInt (TokenUsage_Total u))].

Definition applyRunCompatFields (run : Run) : list (string * AV) :=
  [("task_id", avString (Run_TaskID run)); ("run_id", avString (Run_RunID run)); ("tenant_id", avString (Run_TenantID run));
   ("status", avRunStatus (Run_Status run))]
  ++ (if String.eqb (Run_ParentRunID run) "" then [] else [("parent_run_id", avString (Run_ParentRunID run))])
  ++ opt_attr "resume_from_step_index" avInt (Run_ResumeFromStepIndex run)
  ++ opt_attr "queued_at" avTime (Run_QueuedAt run)
  ++ opt_attr "started_at" avTime (Run_StartedAt run)
  ++ opt_attr "ended_at" avTime (Run_EndedAt run)
  ++ (if Run_LastStepIndex run =? 0 then [] else [("last_step_index", avInt (Run_LastStepIndex run))])
  ++ [("total_token_usage", avUsage (default (mkTokenUsage 0 0 0) (Run_TotalTokenUsage run)));
      ("total_cost_usd", avFloat (Run_TotalCostUSD run))].
End values.

(** ** Errors of the service *)

Definition isConditionalCheckFailed (e : DynErr) : bool := match e with ConditionalCheckFailed _ => true | _ => false end.

Definition isTransactionConditionFailed (e : DynErr) : bool :=
  match e with TransactionCanceled codes _ => existsb (String.eqb failed_code) codes | _ => false end.

Definition isRunInsertConflict (e : DynErr) : bool :=
  match e with TransactionCanceled (c :: _) _ => String.eqb c failed_code | _ => false end.

Definition isTaskUpdateConflict (e : DynErr) : bool :=
  match e with TransactionCanceled (_ :: c :: _) _ => String.eqb c failed_code | _ => false end.

(** [fmt.Errorf("<msg>%w", err)] *)
Definition service_err {A} (msg : string) (e : DynErr) : result error A := Err (wrapf msg (dyn_error e)).

(** ** Conditions *)

Definition key_free : cond := cond_and (attribute_not_exists "pk") (attribute_not_exists "sk").

Fixpoint or_all (c : cond) (l : list cond) : cond :=
  match l with [] => c | c' :: l' => cond_or c (or_all c' l') end.

(** The disjunction over the statuses; the callers pass at least one. *)
Definition buildStatusConditionTask (statuses : list TaskStatus) : cond :=
  match map (fun s => attr_eq "status" (avStatus s)) statuses with
  | [] => attr_in "status" []
  | c :: l => or_all c l
  end.

Section store.
Context {D : Type} `{DynamoDB D} `{ScalarCodec} `{ItemCodec Task} `{ItemCodec Run} `{ItemCodec Step} `{ItemCodec Connection}
  `{ItemCodec StreamEvent} (s : DynamoStore) (now : nat -> Time).
Abbreviation M A := (ST D (result error A)).

Definition HealthCheck : M unit :=
  r ← GetItem (tasksTable s) (taskPK "__healthcheck__", taskMetaSK);
  mret (match r with Err e => service_err "state: dynamodb health check: " e | Ok _ => Ok tt end).

Definition taskExists (taskID : string) : M bool :=
  r ← GetItem (tasksTable s) (taskPK taskID, taskMetaSK);
  mret (match r with Err e => service_err "state: check task exists: " e | Ok it => Ok (negb (bool_decide (it = ∅))) end).

Definition runExists (taskID runID : string) : M bool :=
  r ← GetItem (runsTable s) (runPK taskID, runSK runID);
  mret (match r with Err e => service_err "state: check run exists: " e | Ok it => Ok (negb (bool_decide (it = ∅))) end).

(** A failed condition means that the record is missing or in another state. *)
Definition missing_or_conflict (exists_ : M bool) : M unit :=
  r ← exists_;
  mret (match r with Err e => Err e | Ok true => Err ErrConflict | Ok false => Err ErrNotFound end).

Definition mapTaskConditionErr (taskID : string) : M unit := missing_or_conflict (taskExists taskID).

(** ** TaskStore *)

(** The item of a task; the sort keys of the two indexes are the readings [n] and [n + 1]. *)
Definition task_item (n : nat) (task : Task) (it : Item) : Item :=
  put_attrs ([("pk", avString (taskPK (Task_TaskID task))); ("sk", avString taskMetaSK); ("entity", avString "task");
    ("gsi1pk", avString (tenantGSIKey (Task_TenantID task)));
    ("gsi1sk", avString (taskTenantSortKey (now n) (Task_CreatedAt task) (Task_TaskID task)));
    ("gsi2pk", avString taskEntityGSIKey);
    ("gsi2sk", avString (taskTenantSortKey (now (n + 1)%nat) (Task_CreatedAt task) (Task_TaskID task)))]
    ++ applyTaskCompatFields task) it.

Definition run_item (run : Run) (it : Item) : Item :=
  put_attrs ([("pk", avString (runPK (Run_TaskID run))); ("sk", avString (runSK (Run_RunID run))); ("entity", avString "run");
    ("gsi1pk", avString (tenantGSIKey (Run_TenantID run))); ("gsi1sk", avString (runTenantSortKey (Run_TaskID run) (Run_RunID run)));
    ("gsi2pk", avString runEntityGSIKey); ("gsi2sk", avString (runTenantSortKey (Run_TaskID run) (Run_RunID run)))]
    ++ applyRunCompatFields run) it.

Definition idempotency_item (task : Task) (createdAt : Time) : Item :=
  put_attrs [("pk", avString (idempotencyPK (Task_TenantID task) (Task_IdempotencyKey task))); ("sk", avString taskMetaSK);
    ("entity", avString "idempotency"); ("tenant_id", avString (Task_TenantID task));
    ("idempotency_key", avString (Task_IdempotencyKey task)); ("task_id", avString (Task_TaskID task));
    ("created_at", avTime createdAt)] ∅.

Definition DynamoStore_ApplyCreateTransition (task : option Task) (run : option Run) : M unit :=
  match task, ensureQueuedAt run (now 0) with
  | Some task, Some run =>
      if String.eqb (Task_TaskID task) "" || String.eqb (Run_TaskID run) "" || String.eqb (Run_RunID run) "" then mret (Err ErrConflict)
      else if negb (String.eqb (Run_TaskID run) (Task_TaskID task)) then mret (Err ErrConflict)
      else
        match marshalMap task with
        | Err e => mret (Err (wrapf "state: marshal create task: " e))
        | Ok taskIt =>
            match marshalMap run with
            | Err e => mret (Err (wrapf "state: marshal create run: " e))
            | Ok runIt =>
                let idCreatedAt := if time_IsZero (Task_CreatedAt task) then now 3 else Task_CreatedAt task in
                r ← TransactWriteItems
                  ([TPut (tasksTable s) (task_item 1 task taskIt) key_free; TPut (runsTable s) (run_item run runIt) key_free]
                   ++ (if String.eqb (Task_IdempotencyKey task) "" then []
                       else [TPut (tasksTable s) (idempotency_item task idCreatedAt) key_free]));
                mret (match r with
                      | Ok _ => Ok tt
                      | Err e => if isConditionalCheckFailed e || isTransactionConditionFailed e then Err ErrAlreadyExists
                                 else service_err "state: apply create transition: " e
                      end)
            end
        end
  | _, _ => mret (Err ErrConflict)
  end.

Definition DynamoStore_PutTask (task : Task) : M unit :=
  if String.eqb (Task_TaskID task) "" then mret (Err (errors_New "state: put task: invalid task"))
  else
    match marshalMap task with
    | Err e => mret (Err (wrapf "state: put task marshal: " e))
    | Ok it =>
        if String.eqb (Task_IdempotencyKey task) "" then
          r ← PutItem (tasksTable s) (task_item 0 task it) (Some key_free);
          mret (match r with
                | Ok _ => Ok tt
                | Err e => if isConditionalCheckFailed e then Err ErrAlreadyExists else service_err "state: put task: " e
                end)
        else
          r ← TransactWriteItems [TPut (tasksTable s) (task_item 0 task it) key_free;
                                  TPut (tasksTable s) (idempotency_item task (now 2)) key_free];
          mret (match r with
                | Ok _ => Ok tt
                | Err e => if isConditionalCheckFailed e || isTransactionConditionFailed e then Err ErrAlreadyExists
                           else service_err "state: put task transact: " e
                end)
    end.

Definition DynamoStore_GetTask (taskID : string) : M Task :=
  if String.eqb taskID "" then mret (Err ErrNotFound)
  else
    r ← GetItem (tasksTable s) (taskPK taskID, taskMetaSK);
    mret (match r with
          | Err e => service_err "state: get task: " e
          | Ok it => if bool_decide (it = ∅) then Err ErrNotFound
                     else match unmarshalMap it with Err e => Err (wrapf "state: unmarshal task: " e) | Ok task => Ok task end
          end).

Definition DynamoStore_IsAbortRequested (taskID : string) : M (bool * string) :=
  r ← DynamoStore_GetTask taskID;
  mret (match r with Err e => Err e | Ok task => Ok (Task_AbortRequested task, Task_AbortReason task) end).

(** An update of the item of a task, and what a failed condition means. *)
Definition update_task (taskID : string) (c : cond) (acts : list action) (msg : string) (refused : M unit) : M unit :=
  r ← UpdateItem (tasksTable s) (taskPK taskID, taskMetaSK) c acts;
  match r with
  | Ok _ => mret (Ok tt)
  | Err e => if isConditionalCheckFailed e then refused else mret (service_err msg e)
  end.

Definition not_found : M unit := mret (Err ErrNotFound).

Definition DynamoStore_UpdateTaskStatus (taskID : string) (from : list TaskStatus) (to : TaskStatus) : M unit :=
  match from with
  | [] => mret (Err ErrConflict)
  | _ =>
      update_task taskID (cond_and (attribute_exists "pk") (buildStatusConditionTask from))
        [set_attr "status" (avStatus to); set_attr "updated_at" (avTime (now 0))]
        "state: update task status: " (mapTaskConditionErr taskID)
  end.

Definition DynamoStore_UpdateTaskStatusForRun (taskID runID : string) (from : list TaskStatus) (to : TaskStatus) : M unit :=
  match from with
  | [] => mret (Err ErrConflict)
  | _ =>
      update_task taskID
        (cond_and (cond_and (attribute_exists "pk") (attr_eq "active_run_id" (avString runID))) (buildStatusConditionTask from))
        [set_attr "status" (avStatus to); set_attr "updated_at" (avTime (now 0))]
        "state: update task status for run: " (mapTaskConditionErr taskID)
  end.

Definition DynamoStore_SetAbortRequested (taskID reason : string) : M unit :=
  update_task taskID (attribute_exists "pk")
    [set_attr "abort_requested" (avBool true); set_attr "abort_reason" (avString reason);
     set_attr "abort_ts" (avTime (now 0)); set_attr "updated_at" (avTime (now 0))]
    "state: set abort requested: " not_found.

Definition DynamoStore_ClearAbortRequested (taskID : string) : M unit :=
  update_task taskID (attribute_exists "pk")
    [set_attr "abort_requested" (avBool false); set_attr "abort_reason" (avString ""); set_attr "updated_at" (avTime (now 0));
     remove_attr "abort_ts"]
    "state: clear abort requested: " not_found.

Definition DynamoStore_SetActiveRun (taskID runID : string) : M unit :=
  update_task taskID (attribute_exists "pk")
    [set_attr "active_run_id" (avString runID); set_attr "updated_at" (avTime (now 0))]
    "state: set active run: " not_found.

Definition resume_actions (runID : string) (to : TaskStatus) : list action :=
  [set_attr "active_run_id" (avString runID); set_attr "abort_requested" (avBool false); set_attr "abort_reason" (avString "");
   set_attr "status" (avStatus to); set_attr "updated_at" (avTime (now 1)); remove_attr "abort_ts"].

Definition DynamoStore_ApplyResumeTransition (taskID : string) (run : option Run) (from : list TaskStatus) (to : TaskStatus) : M unit :=
  match ensureQueuedAt run (now 0) with
  | None => mret (Err ErrConflict)
  | Some run =>
      if String.eqb (Run_TaskID run) "" || String.eqb (Run_RunID run) "" || negb (String.eqb (Run_TaskID run) taskID)
      then mret (Err ErrConflict)
      else if Nat.eqb (length from) 0 then mret (Err ErrConflict)
      else
        ex ← taskExists taskID;
        match ex with
        | Err e => mret (Err e)
        | Ok false => mret (Err ErrNotFound)
        | Ok true =>
            match marshalMap run with
            | Err e => mret (Err (wrapf "state: marshal resume run: " e))
            | Ok runIt =>
                r ← TransactWriteItems
                  [TPut (runsTable s) (run_item run runIt) key_free;
                   TUpdate (tasksTable s) (taskPK taskID, taskMetaSK)
                     (cond_and (attribute_exists "pk") (buildStatusConditionTask from)) (resume_actions (Run_RunID run) to)];
                match r with
                | Ok _ => mret (Ok tt)
                | Err e =>
                    if isRunInsertConflict e then mret (Err ErrAlreadyExists)
                    else if isTaskUpdateConflict e || isConditionalCheckFailed e || isTransactionConditionFailed e
                    then mapTaskConditionErr taskID
                    else mret (service_err "state: apply resume transition: " e)
                end
            end
        end
  end.

Definition DynamoStore_GetTaskByIdempotencyKey (tenantID idempotencyKey : string) : M Task :=
  if String.eqb tenantID "" || String.eqb idempotencyKey "" then mret (Err ErrNotFound)
  else
    r ← GetItem (tasksTable s) (idempotencyPK tenantID idempotencyKey, taskMetaSK);
    match r with
    | Err e => mret (service_err "state: get task by idempotency key: " e)
    | Ok it =>
        if bool_decide (it = ∅) then mret (Err ErrNotFound)
        else match getStringAttr it "task_id" with
             | Err _ => mret (Err ErrNotFound)
             | Ok taskID => if String.eqb taskID "" then mret (Err ErrNotFound) else DynamoStore_GetTask taskID
             end
    end.

(** ** RunStore *)

Definition DynamoStore_PutRun (run : Run) : M unit :=
  let run := ensureQueuedAt_run run (now 0) in
  if String.eqb (Run_TaskID run) "" || String.eqb (Run_RunID run) "" then mret (Err (errors_New "state: put run: invalid run"))
  else
    match marshalMap run with
    | Err e => mret (Err (wrapf "state: put run marshal: " e))
    | Ok it =>
        r ← PutItem (runsTable s) (run_item run it) (Some key_free);
        mret (match r with
              | Ok _ => Ok tt
              | Err e => if isConditionalCheckFailed e then Err ErrAlreadyExists else service_err "state: put run: " e
              end)
    end.

Definition DynamoStore_GetRun (taskID runID : string) : M Run :=
  r ← GetItem (runsTable s) (runPK taskID, runSK runID);
  mret (match r with
        | Err e => service_err "state: get run: " e
        | Ok it => if bool_decide (it = ∅) then Err ErrNotFound
                   else match unmarshalMap it with Err e => Err (wrapf "state: unmarshal run: " e) | Ok run => Ok run end
        end).

Definition update_run (taskID runID : string) (c : cond) (acts : list action) (msg : string) (refused : M unit) : M unit :=
  r ← UpdateItem (runsTable s) (runPK taskID, runSK runID) c acts;
  match r with
  | Ok _ => mret (Ok tt)
  | Err e => if isConditionalCheckFailed e then refused else mret (service_err msg e)
  end.

Definition DynamoStore_ClaimRun (taskID runID : string) : M unit :=
  update_run taskID runID (cond_and (attribute_exists "pk") (attr_eq "status" (avRunStatus RunStatusQueued)))
    [set_attr "status" (avRunStatus RunStatusRunning); set_attr "started_at" (avTime (now 0))]
    "state: claim run: " (missing_or_conflict (runExists taskID runID)).

Definition DynamoStore_CompleteRun (taskID runID : string) (status : RunStatus) : M unit :=
  update_run taskID runID (attribute_exists "pk")
    [set_attr "status" (avRunStatus status); set_attr "ended_at" (avTime (now 0))] "state: complete run: " not_found.

Definition DynamoStore_UpdateLastStepIndex (taskID runID : string) (stepIndex : Z) : M unit :=
  update_run taskID runID (attribute_exists "pk") [set_attr "last_step_index" (avInt stepIndex)]
    "state: update last step index: " not_found.

Definition usage_actions (usage : option TokenUsage) (costUSD : float64) : list action :=
  match usage with
  | Some u => [add_member "total_token_usage" "input" (avInt 0) (avInt (TokenUsage_Input u));
               add_member "total_token_usage" "output" (avInt 0) (avInt (TokenUsage_Output u));
               add_member "total_token_usage" "total" (avInt 0) (avInt (TokenUsage_Total u))]
  | None => []
  end ++ (if f_gtb costUSD f_zero then [add_attr "total_cost_usd" (avFloat f_zero) (avFloat costUSD)] else []).

Definition DynamoStore_AddRunUsage (taskID runID : string) (usage : option TokenUsage) (costUSD : float64) : M unit :=
  match usage_actions usage costUSD with
  | [] => mret (Ok tt)
  | acts => update_run taskID runID (attribute_exists "pk") acts "state: add run usage: " not_found
  end.

Definition DynamoStore_ResetRunToQueued (taskID runID : string) : M unit :=
  update_run taskID runID (attribute_exists "pk")
    [set_attr "status" (avRunStatus RunStatusQueued); set_attr "queued_at" (avTime (now 0));
     remove_attr "started_at"; remove_attr "ended_at"] "state: reset run to queued: " not_found.

(** ** StepStore *)

Definition DynamoStore_PutStep (step : Step) : M unit :=
  if String.eqb (Step_RunID step) "" then mret (Err (errors_New "state: put step: invalid step"))
  else
    match marshalMap step with
    | Err e => mret (Err (wrapf "state: marshal step: " e))
    | Ok it =>
        let it := put_attrs [("pk", avString (stepPK (Step_RunID step))); ("sk", avString (stepSK (Step_StepIndex step)));
                             ("entity", avString "step")] it in
        r ← PutItem (stepsTable s) it (Some key_free);
        mret (match r with
              | Ok _ => Ok tt
              | Err e => if isConditionalCheckFailed e then Err ErrConflict else service_err "state: put step: " e
              end)
    end.

Definition DynamoStore_GetStep (runID : string) (stepIndex : Z) : M Step :=
  r ← GetItem (stepsTable s) (stepPK runID, stepSK stepIndex);
  mret (match r with
        | Err e => service_err "state: get step: " e
        | Ok it => if bool_decide (it = ∅) then Err ErrNotFound
                   else match unmarshalMap it with Err e => Err (wrapf "state: unmarshal step: " e) | Ok step => Ok step end
        end).

(** ** ConnectionStore *)

Definition connection_item (conn : Connection) (it : Item) : Item :=
  put_attrs [("pk", avString (connectionPK (Connection_ConnectionID conn))); ("sk", avString connMetaSK);
    ("entity", avString "connection"); ("gsi1pk", avString (taskGSIKey (Connection_TaskID conn)));
    ("gsi1sk", avString (connectionGSIKey (Connection_ConnectionID conn)))] it.

Definition DynamoStore_PutConnection (conn : Connection) : M unit :=
  if String.eqb (Connection_ConnectionID conn) "" then mret (Err (errors_New "state: put connection: invalid connection"))
  else
    match marshalMap conn with
    | Err e => mret (Err (wrapf "state: marshal connection: " e))
    | Ok it =>
        r ← PutItem (connectionsTable s) (connection_item conn it) None;
        mret (match r with Ok _ => Ok tt | Err e => service_err "state: put connection: " e end)
    end.

Definition DynamoStore_GetConnection (connectionID : string) : M Connection :=
  r ← GetItem (connectionsTable s) (connectionPK connectionID, connMetaSK);
  mret (match r with
        | Err e => service_err "state: get connection: " e
        | Ok it => if bool_decide (it = ∅) then Err ErrNotFound
                   else match unmarshalMap it with Err e => Err (wrapf "state: unmarshal connection: " e) | Ok conn => Ok conn end
        end).

Definition DynamoStore_DeleteConnection (connectionID : string) : M unit :=
  r ← DeleteItem (connectionsTable s) (connectionPK connectionID, connMetaSK);
  mret (match r with Ok _ => Ok tt | Err e => service_err "state: delete connection: " e end).

(** ** EventStore *)

Definition event_item (ev : StreamEvent) (it : Item) : Item :=
  put_attrs ([("pk", avString (eventPK (StreamEvent_TaskID ev) (StreamEvent_RunID ev)));
    ("sk", avString (eventSK (StreamEvent_Seq ev))); ("entity", avString "event")]
    ++ (if 0 <? eventRetention s
        then [(eventTTLAttribute, AVN (fmt_d (add64 (StreamEvent_TS ev) (Z.quot (eventRetention s) Second))))] else [])) it.

Definition DynamoStore_PutEvent (event : option StreamEvent) : M unit :=
  match event with
  | None => mret (Ok tt)
  | Some ev =>
      if String.eqb (StreamEvent_TaskID ev) "" || String.eqb (StreamEvent_RunID ev) "" then mret (Err ErrConflict)
      else
        let ev := if StreamEvent_TS ev =? 0 then ev <| StreamEvent_TS := time_Unix (now 0) |> else ev in
        match marshalMap ev with
        | Err e => mret (Err (wrapf "state: marshal event: " e))
        | Ok it =>
            r ← PutItem (stepsTable s) (event_item ev it) (Some key_free);
            mret (match r with
                  | Ok _ => Ok tt
                  | Err e => if isConditionalCheckFailed e then Ok tt else service_err "state: put event: " e
                  end)
        end
  end.
End store.

(** ** Lists, page by page *)

Definition max_int32 : Z := 2147483647.

Definition remainingLimitInt32 (limit current : Z) : option Z :=
  if limit <=? 0 then None
  else
    let remaining := limit - current in
    if remaining <=? 0 then None
    else Some (if max_int32 <? remaining then max_int32 else remaining).

Section paging.
Context {D A : Type} `{DynamoDB D} `{ItemCodec A} (q : QueryInput) (msg : string).

(** The limit of the next query: [None] ends the loop, [Some None] asks without a limit. *)
Context (page_limit : Z -> option (option Z)) (keep : A -> bool) (limit : Z).

(** The items of a page that are kept, added until the limit; whether it was reached. *)
Fixpoint take_items (out : list A) (items : list Item) : list A * bool :=
  match items with
  | [] => (out, false)
  | it :: items' =>
      match unmarshalMap it with
      | Err _ => take_items out items'
      | Ok a =>
          if keep a then
            let out := out ++ [a] in
            if (0 <? limit) && (limit <=? Z.of_nat (length out)) then (out, true) else take_items out items'
          else take_items out items'
      end
  end.

(** [None] if the fuel runs out. *)
Fixpoint query_loop (fuel : nat) (startKey : Item) (out : list A) : ST D (option (result error (list A))) :=
  match fuel with
  | O => mret None
  | S fuel' =>
      match page_limit (Z.of_nat (length out)) with
      | None => mret (Some (Ok out))
      | Some lim =>
          r ← Query q startKey lim;
          match r with
          | Err e => mret (Some (service_err msg e))
          | Ok (items, lastKey) =>
              let '(out, full) := take_items out items in
              if full then mret (Some (Ok out))
              else if bool_decide (lastKey = ∅) then mret (Some (Ok out))
              else query_loop fuel' lastKey out
          end
      end
  end.
End paging.

Section lists.
Context {D : Type} `{DynamoDB D} `{ItemCodec Task} `{ItemCodec Run} `{ItemCodec Step} `{ItemCodec Connection}
  `{ItemCodec StreamEvent} (s : DynamoStore) (now : nat -> Time) (fuel : nat).
Abbreviation L A := (ST D (option (result error (list A)))).

(** The remaining number of records, if there is a limit. *)
Definition remaining_page (limit : Z) (current : Z) : option (option Z) :=
  if 0 <? limit then match remainingLimitInt32 limit current with None => None | Some r => Some (Some r) end else Some None.

Definition status_filter {A} (show : A -> string) (statuses : list A) : option cond :=
  match statuses with [] => None | _ => Some (attr_in "status" (map (fun x => avString (show x)) statuses)) end.

Definition listTasksByTenantQuery (tenantID : string) (statuses : list TaskStatus) (limit : Z) : L Task :=
  query_loop (mkQueryInput (tasksTable s) (Some (taskTenantIndex s)) ("gsi1pk", tenantGSIKey tenantID) None
      (status_filter string_of_TaskStatus statuses))
    "state: list tasks query by tenant: " (remaining_page limit) (fun _ => true) limit fuel ∅ [].

Definition listTasksByEntityQuery (statuses : list TaskStatus) (limit : Z) : L Task :=
  query_loop (mkQueryInput (tasksTable s) (Some (taskEntityIndex s)) ("gsi2pk", taskEntityGSIKey) None
      (status_filter string_of_TaskStatus statuses))
    "state: list tasks query by entity: " (remaining_page limit) (fun _ => true) limit fuel ∅ [].

Definition DynamoStore_ListTasks (tenantID : string) (statuses : list TaskStatus) (limit : Z) : L Task :=
  if negb (String.eqb tenantID "") then listTasksByTenantQuery tenantID statuses limit else listTasksByEntityQuery statuses limit.

(** The result of a list after the loop, sorted and cut. *)
Definition finish {A} (less : A -> A -> bool) (limit : Z) (loop : L A) : L A :=
  r ← loop;
  mret (match r with
        | Some (Ok out) => Some (Ok (limit_slice limit (sort_slice less out)))
        | r => r
        end).

Definition listRunsByTenantQuery (tenantID : string) (statuses : list RunStatus) (limit : Z) : L Run :=
  finish run_less limit (query_loop (mkQueryInput (runsTable s) (Some (runTenantIndex s)) ("gsi1pk", tenantGSIKey tenantID) None
      (status_filter string_of_RunStatus statuses))
    "state: list runs query by tenant: " (remaining_page limit) (fun _ => true) limit fuel ∅ []).

Definition listRunsByEntityQuery (statuses : list RunStatus) (limit : Z) : L Run :=
  finish run_less limit (query_loop (mkQueryInput (runsTable s) (Some (runEntityIndex s)) ("gsi2pk", runEntityGSIKey) None
      (status_filter string_of_RunStatus statuses))
    "state: list runs query by entity: " (remaining_page limit) (fun _ => true) limit fuel ∅ []).

Definition DynamoStore_ListRuns (tenantID : string) (statuses : list RunStatus) (limit : Z) : L Run :=
  if negb (String.eqb tenantID "") then listRunsByTenantQuery tenantID statuses limit else listRunsByEntityQuery statuses limit.

Definition DynamoStore_ListSteps (runID : string) (from limit : Z) : L Step :=
  query_loop (mkQueryInput (stepsTable s) None ("pk", stepPK runID) (Some (stepSK from, stepSK 99999999)) None)
    "state: list steps query: " (remaining_page limit) (fun _ => true) limit fuel ∅ [].

Definition DynamoStore_GetConnectionsByTask (taskID : string) : L Connection :=
  if String.eqb taskID "" then mret (Some (Ok []))
  else query_loop (mkQueryInput (connectionsTable s) (Some (connectionIndex s)) ("gsi1pk", taskGSIKey taskID) None None)
         "state: query connections by task: " (remaining_page 0) (fun _ => true) 0 fuel ∅ [].

(** *** Events *)

Definition event_range (pk : string) (start : Z) : QueryInput :=
  mkQueryInput (stepsTable s) None ("pk", pk) (Some (eventSK start, eventSK max_int64)) None.

Definition replay_page (limit current : Z) : option (option Z) :=
  match remainingLimitInt32 limit current with
  | None => None
  | Some r => Some (Some (if r <? 50 then 50 else r))
  end.

Definition replay_event (taskID : string) (fromTS retentionCutoff : Z) (ev : StreamEvent) : bool :=
  negb (negb (String.eqb taskID "") && negb (String.eqb (StreamEvent_TaskID ev) taskID))
  && negb ((0 <? retentionCutoff) && (StreamEvent_TS ev <? retentionCutoff))
  && negb ((0 <? fromTS) && (StreamEvent_TS ev <? fromTS)).

Definition queryReplayEventsByPK (pk taskID : string) (start fromTS limit retentionCutoff : Z) : L StreamEvent :=
  query_loop (event_range pk start) "state: replay events query: " (replay_page limit)
    (replay_event taskID fromTS retentionCutoff) limit fuel ∅ [].

Definition DynamoStore_ReplayEvents (taskID runID : string) (fromSeq fromTS limit : Z) : L StreamEvent :=
  if String.eqb taskID "" || String.eqb runID "" then mret (Some (Ok []))
  else
    let limit := if limit <=? 0 then 200 else limit in
    let start := if 0 <? fromSeq then add64 fromSeq 1 else 0 in
    let retentionCutoff := if 0 <? eventRetention s then time_Unix (time_Add (now 0) (- eventRetention s)) else 0 in
    out ← queryReplayEventsByPK (eventPK taskID runID) taskID start fromTS limit retentionCutoff;
    match out with
    | Some (Ok []) => finish event_less limit (queryReplayEventsByPK (stepPK runID) taskID start fromTS limit retentionCutoff)
    | out => finish event_less limit (mret out)
    end.

(** The items of a page that are to be deleted, each key once. *)
Fixpoint collect_items (taskID : string) (beforeTS : Z) (keys : list (AV * AV)) (items : list Item) : list (AV * AV) :=
  match items with
  | [] => keys
  | it :: items' =>
      let keys := match unmarshalMap it, it !! "pk", it !! "sk" with
                  | Ok ev, Some pk, Some sk =>
                      if (negb (String.eqb taskID "") && negb (String.eqb (StreamEvent_TaskID ev) taskID))
                         || (beforeTS <=? StreamEvent_TS ev) then keys
                      else if bool_decide ((pk, sk) ∈ keys) then keys else keys ++ [(pk, sk)]
                  | _, _, _ => keys
                  end in
      collect_items taskID beforeTS keys items'
  end.

Fixpoint collect (fuel : nat) (taskID : string) (beforeTS : Z) (pk : string) (startKey : Item) (keys : list (AV * AV))
    : ST D (option (result error (list (AV * AV)))) :=
  match fuel with
  | O => mret None
  | S fuel' =>
      r ← Query (event_range pk 0) startKey None;
      match r with
      | Err e => mret (Some (service_err "state: compact events query: " e))
      | Ok (items, lastKey) =>
          let keys := collect_items taskID beforeTS keys items in
          if bool_decide (lastKey = ∅) then mret (Some (Ok keys))
          else collect fuel' taskID beforeTS pk lastKey keys
      end
  end.

(** The batches of deletes; the number of keys deleted, also if a batch fails.  [n] bounds the
    number of batches. *)
Fixpoint delete_batches (n : nat) (keys : list (AV * AV)) (removed : Z) : ST D (Z * option error) :=
  match n, keys with
  | O, _ | _, [] => mret (removed, None)
  | S n', _ =>
      let writes := take maxBatchWriteSize keys in
      r ← BatchDelete (stepsTable s) writes;
      match r with
      | Err e => mret (removed, Some (wrapf "state: compact events batch delete: " (dyn_error e)))
      | Ok unprocessed =>
          if Nat.ltb 0 unprocessed
          then mret (removed, Some (errors_New "state: compact events batch delete returned unprocessed items"))
          else delete_batches n' (drop maxBatchWriteSize keys) (removed + Z.of_nat (length writes))
      end
  end.

Definition DynamoStore_CompactEvents (taskID runID : string) (beforeTS : Z) : ST D (option (Z * option error)) :=
  if (beforeTS <=? 0) || String.eqb taskID "" || String.eqb runID "" then mret (Some (0, None))
  else
    r ← collect fuel taskID beforeTS (eventPK taskID runID) ∅ [];
    match r with
    | None => mret None
    | Some (Err e) => mret (Some (0, Some e))
    | Some (Ok keys) =>
        r ← collect fuel taskID beforeTS (stepPK runID) ∅ keys;
        match r with
        | None => mret None
        | Some (Err e) => mret (Some (0, Some e))
        | Some (Ok keys) => res ← delete_batches (length keys) keys 0; mret (Some res)
        end
    end.
End lists.
