(* ===== verification/DynamoPages.v ===== *)
(** * DynamoPages: the page loops of the production store

    A query returns its items in pages; the store asks for pages until the end or until it has
    enough records.  [QueryLaws] is what DynamoDB documents about pages: a page evaluates the
    next items of the selection, a filter is applied to them afterwards, and the key to
    continue from is empty only at the end.  The loops terminate and return the records of
    the whole selection, however it was cut into pages. *)

From Stdlib Require Import Ascii.
From S2P Require Import Prelude GoLib Model StateStore MemoryStore DynamoDB DynamoStore.

(** The items that pass the filter of a query. *)
Definition passes (q : QueryInput) (it : Item) : bool :=
  match q_filter q with Some c => holds c it | None => true end.

Class QueryLaws (D : Type) `{DynamoDB D} := {
  (* the items a query has left to evaluate after a key *)
  rest : QueryInput -> Item -> D -> list Item;
  law_query q k lim d d' r :
    Query q k lim d = (d', r) ->
    (forall q' k', rest q' k' d' = rest q' k' d) /\
    match r with
    | Err e => exists e', e = ServiceError e'
    | Ok (items, lastKey) => exists seg tail,
        rest q k d = seg ++ tail /\ items = List.filter (passes q) seg /\
        (if bool_decide (lastKey = ∅) then tail = [] else seg <> [] /\ rest q lastKey d = tail)
    end }.

(** The records of a selection: items that do not decode are skipped, then the first ones up
    to the limit are taken. *)
Definition records {A} `{ItemCodec A} (q : QueryInput) (keep : A -> bool) (items : list Item) : list A :=
  List.filter keep (omap (fun it => match unmarshalMap it with Ok a => Some a | Err _ => None end) (List.filter (passes q) items)).

Definition up_to {A} (limit : Z) (l : list A) : list A := if 0 <? limit then take (Z.to_nat limit) l else l.

Section loops.
Context {D A : Type} `{HQ : DynamoDB D} `{HL : !QueryLaws D} `{HC : ItemCodec A} (q : QueryInput) (msg : string).
Context (page_limit : Z -> option (option Z)) (keep : A -> bool) (limit : Z).
Hypothesis Hlimit : forall n, page_limit n = None -> 0 < limit <= n.

Definition decode_all (items : list Item) : list A :=
  List.filter keep (omap (fun it => match unmarshalMap it with Ok a => Some a | Err _ => None end) items).

(** A page is added completely, or the limit is reached. *)
Lemma take_items_spec out items :
  (0 < limit -> Z.of_nat (length out) < limit) ->
  let '(out', full) := take_items keep limit out items in
  if full then 0 < limit /\ exists l1 l2, decode_all items = l1 ++ l2 /\ out' = out ++ l1 /\ Z.of_nat (length out') = limit
  else out' = out ++ decode_all items /\ (0 < limit -> Z.of_nat (length out') < limit).
Proof.
  revert out. induction items as [|it items IH]; intros out Hout; cbn [take_items]; [by rewrite app_nil_r|].
  unfold decode_all in *. cbn [omap list_omap]. destruct (unmarshalMap it) as [a|e]; [|by apply IH].
  cbn [List.filter]. destruct (keep a); [|by apply IH]. cbn zeta.
  assert (Hlen : Z.of_nat (length (out ++ [a])) = Z.of_nat (length out) + 1) by (rewrite length_app; cbn; lia).
  destruct ((0 <? limit) && (limit <=? Z.of_nat (length (out ++ [a])))) eqn:E.
  - bool_prop. split; [lia|]. eexists [a], _. split; [reflexivity|]. split; [done|]. lia.
  - specialize (IH (out ++ [a])). destruct (take_items keep limit (out ++ [a]) items) as [out' full].
    assert (Hpre : 0 < limit -> Z.of_nat (length (out ++ [a])) < limit).
    { intros Hp. apply andb_false_iff in E as [E|E]; bool_prop; lia. }
    specialize (IH Hpre). destruct full.
    + destruct IH as (Hp & l1 & l2 & Heq & -> & Hl). split; [done|]. exists (a :: l1), l2. split; [cbn; by f_equal|]. split; [by rewrite <- app_assoc|done].
    + destruct IH as [-> Hl]. split; [by rewrite <- app_assoc|done].
Qed.

Lemma decode_all_app l1 l2 : decode_all (l1 ++ l2) = decode_all l1 ++ decode_all l2.
Proof. unfold decode_all. by rewrite omap_app, filter_app. Qed.

Lemma records_decode items : records q keep items = decode_all (List.filter (passes q) items).
Proof. done. Qed.

(** The loop from any point of the selection. *)
Lemma query_loop_spec fuel k out d :
  (length (rest q k d) < fuel)%nat -> (0 < limit -> Z.of_nat (length out) < limit) ->
  exists r, (query_loop q msg page_limit keep limit fuel k out d).2 = Some r /\
    match r with
    | Ok l => l = up_to limit (out ++ records q keep (rest q k d))
    | Err e => exists e', e = wrapf msg e'
    end.
Proof.
  revert k out d. induction fuel as [|fuel IH]; intros k out d Hfuel Hout; [lia|]. cbn [query_loop].
  destruct (page_limit (Z.of_nat (length out))) as [lim|] eqn:Epl; [|apply Hlimit in Epl; lia].
  rewrite ST_bind_run. destruct (Query q k lim d) as [d1 r1] eqn:Eq. cbn [fst snd].
  apply law_query in Eq as [Hsame Hr]. destruct r1 as [[items lastKey]|e].
  2:{ destruct Hr as [e' ->]. eexists. split; [reflexivity|]. by eexists. }
  destruct Hr as (seg & tail & Hrest & -> & Hlast).
  pose proof (take_items_spec out (List.filter (passes q) seg) Hout) as Htake.
  destruct (take_items keep limit out (List.filter (passes q) seg)) as [out' full].
  rewrite Hrest, records_decode, filter_app, decode_all_app. destruct full.
  - destruct Htake as (Hpos & l1 & l2 & Heq & -> & Hlen). eexists. split; [reflexivity|].
    unfold up_to. rewrite (proj2 (Z.ltb_lt _ _)) by lia. rewrite Heq.
    set (X := decode_all _). replace (out ++ (l1 ++ l2) ++ X) with ((out ++ l1) ++ (l2 ++ X)) by (by rewrite <- !app_assoc).
    rewrite take_app_le by lia. rewrite take_ge; [done|lia].
  - destruct Htake as [-> Hlen]. case_bool_decide as Elast.
    + subst tail. eexists. split; [reflexivity|]. change (decode_all (List.filter (passes q) [])) with (@nil A). rewrite app_nil_r.
      unfold up_to. destruct (Z.ltb_spec 0 limit); [|done]. rewrite take_ge; [done|]. specialize (Hlen ltac:(lia)). lia.
    + destruct Hlast as [Hne Htail]. rewrite app_assoc. rewrite <- Htail, <- (Hsame q lastKey). apply IH; [|done].
      rewrite Hsame, Htail. rewrite Hrest, length_app in Hfuel. destruct seg; [done|]. cbn in Hfuel. lia.
Qed.
End loops.

Section list_operations.
Context {D : Type} `{HQ : DynamoDB D} `{HL : !QueryLaws D} `{HT : ItemCodec Task} `{HR : ItemCodec Run} `{HS : ItemCodec Step}
  `{HC : ItemCodec Connection} `{HV : ItemCodec StreamEvent} (s : DynamoStore) (now : nat -> Time).

Lemma remaining_page_limit limit n : remaining_page limit n = None -> 0 < limit <= n.
Proof.
  unfold remaining_page, remainingLimitInt32. destruct (Z.ltb_spec 0 limit); [|done].
  rewrite (proj2 (Z.leb_gt _ _)) by lia. cbn zeta. destruct (Z.leb_spec (limit - n) 0); [lia|done].
Qed.

(** A listing that ends and is complete. *)
Definition lists {A} `{ItemCodec A} (q : QueryInput) (limit : Z) (order : list A -> list A) (msg : string)
    (r : option (result error (list A))) (d : D) : Prop :=
  match r with
  | None => False
  | Some (Ok l) => l = order (up_to limit (records q (fun _ => true) (rest q ∅ d)))
  | Some (Err e) => exists e', e = wrapf msg e'
  end.

Lemma query_loop_lists {A} `{ItemCodec A} q limit msg fuel d :
  (length (rest q ∅ d) < fuel)%nat ->
  lists (A := A) q limit id msg (query_loop q msg (remaining_page limit) (fun _ => true) limit fuel ∅ [] d).2 d.
Proof.
  intros Hf. destruct (query_loop_spec (A := A) q msg (remaining_page limit) (fun _ => true) limit (remaining_page_limit limit) fuel ∅ [] d)
    as (r & -> & Hr); [done|cbn; lia|]. by destruct r.
Qed.

(** C19: The listings of tasks, steps and connections terminate and return exactly the records of the whole
    selection in its order, up to the limit, however the service cuts it into pages; a service error in
    the middle is reported and never a shortened list. *)
Theorem listings_complete tenantID statuses runID from taskID limit fuel d :
  let tenant := mkQueryInput (tasksTable s) (Some (taskTenantIndex s)) ("gsi1pk", tenantGSIKey tenantID) None
                  (status_filter string_of_TaskStatus statuses) in
  let all := mkQueryInput (tasksTable s) (Some (taskEntityIndex s)) ("gsi2pk", taskEntityGSIKey) None
                  (status_filter string_of_TaskStatus statuses) in
  let steps := mkQueryInput (stepsTable s) None ("pk", stepPK runID) (Some (stepSK from, stepSK 99999999)) None in
  let conns := mkQueryInput (connectionsTable s) (Some (connectionIndex s)) ("gsi1pk", taskGSIKey taskID) None None in
  (forall q, q ∈ [tenant; all; steps; conns] -> (length (rest q ∅ d) < fuel)%nat) ->
  (if String.eqb tenantID "" then
     lists (A := Task) all limit id "state: list tasks query by entity: " (DynamoStore_ListTasks s fuel tenantID statuses limit d).2 d
   else lists (A := Task) tenant limit id "state: list tasks query by tenant: " (DynamoStore_ListTasks s fuel tenantID statuses limit d).2 d) /\
  lists (A := Step) steps limit id "state: list steps query: " (DynamoStore_ListSteps s fuel runID from limit d).2 d /\
  (taskID <> "" -> lists (A := Connection) conns 0 id "state: query connections by task: " (DynamoStore_GetConnectionsByTask s fuel taskID d).2 d).
Proof.
  cbn zeta. intros Hf. split; [|split].
  - unfold DynamoStore_ListTasks. destruct (String.eqb tenantID ""); cbn [negb]; apply query_loop_lists; apply Hf.
    + by right; left.
    + by left.
  - apply query_loop_lists, Hf. by right; right; left.
  - intros Hne. unfold DynamoStore_GetConnectionsByTask. destruct (String.eqb_spec taskID ""); [done|].
    apply query_loop_lists, Hf. right; right; right. left.
Qed.
End list_operations.
