(* ===== verification/DynamoItems.v ===== *)
(** * DynamoItems: the records of the production store as items

    [TaskCodec] and the other classes state what the attribute encoding of the AWS SDK
    documents: a field is decoded from the attribute with its name, other attributes are
    ignored.  The records of both stores are addressed by slots; a slot has a place in the
    tables and a place in the maps of [MemoryStore].  [rep] relates a record to its item, and
    the lemmas show that the items that the store writes represent the records and stay so
    under its updates. *)

From Stdlib Require Import Ascii.
From S2P Require Import Prelude GoLib Model StateStore MemoryStore DynamoDB DynamoStore.

(** ** The attribute encoding *)

(** Attributes that the store adds to the fields of a struct. *)
Definition store_attrs : list string := ["pk"; "sk"; "entity"; "gsi1pk"; "gsi1sk"; "gsi2pk"; "gsi2sk"].

(** Values that the texts of the encoding represent: times with a year of four digits, integers
    of 64 bits, and floating-point numbers in the range of a DynamoDB number. *)
Definition time_ok (t : Time) : Prop := -62167219200 * Second <= t < 253402300800 * Second.

Definition cost_ok (x : float64) : Prop :=
  match x with
  | SpecFloat.S754_zero false => True
  | SpecFloat.S754_finite _ m e => Z.pos m < 2 ^ 53 /\ -400 <= e <= 360
  | _ => False
  end.

Definition opt_ok {A} (P : A -> Prop) (o : option A) : Prop := match o with Some x => P x | None => True end.

Definition config_ok (c : ModelConfig) : Prop :=
  cost_ok (ModelConfig_Temperature c) /\ cost_ok (ModelConfig_CostCapUSD c) /\ in_int64 (ModelConfig_MaxTokens c).

Definition usage_ok (u : TokenUsage) : Prop :=
  in_int64 (TokenUsage_Input u) /\ in_int64 (TokenUsage_Output u) /\ in_int64 (TokenUsage_Total u).

Definition task_ok (t : Task) : Prop :=
  opt_ok time_ok (Task_AbortTS t) /\ opt_ok config_ok (Task_ModelConfig t) /\ time_ok (Task_CreatedAt t) /\ time_ok (Task_UpdatedAt t).

Definition run_ok (r : Run) : Prop :=
  opt_ok time_ok (Run_QueuedAt r) /\ opt_ok time_ok (Run_StartedAt r) /\ opt_ok time_ok (Run_EndedAt r) /\
  opt_ok in_int64 (Run_ResumeFromStepIndex r) /\ opt_ok config_ok (Run_ModelConfig r) /\ in_int64 (Run_LastStepIndex r) /\
  opt_ok usage_ok (Run_TotalTokenUsage r) /\ cost_ok (Run_TotalCostUSD r).

Definition ref_ok (a : ArtifactRef) : Prop := in_int64 (ArtifactRef_Size a).

Definition checkpoint_ok (c : CheckpointRef) : Prop := opt_ok ref_ok (CheckpointRef_Memory c) /\ opt_ok ref_ok (CheckpointRef_Workspace c).

Definition step_ok (st : Step) : Prop :=
  in_int64 (Step_StepIndex st) /\ time_ok (Step_TSStart st) /\ time_ok (Step_TSEnd st) /\ in_int64 (Step_LatencyMS st) /\
  opt_ok usage_ok (Step_TokenUsage st) /\ opt_ok checkpoint_ok (Step_CheckpointRef st).

Definition connection_ok (c : Connection) : Prop := time_ok (Connection_ConnectedAt c) /\ in_int64 (Connection_TTL c).

Section codecs.
Context `{ScalarCodec}.

(** What setting an attribute does to the decoded struct. *)
Inductive task_attr : string -> AV -> (Task -> Task) -> Prop :=
| ta_task_id v : task_attr "task_id" (avString v) (fun t => t <| Task_TaskID := v |>)
| ta_tenant_id v : task_attr "tenant_id" (avString v) (fun t => t <| Task_TenantID := v |>)
| ta_user_id v : task_attr "user_id" (avString v) (fun t => t <| Task_UserID := v |>)
| ta_status v : task_attr "status" (avStatus v) (fun t => t <| Task_Status := v |>)
| ta_active_run_id v : task_attr "active_run_id" (avString v) (fun t => t <| Task_ActiveRunID := v |>)
| ta_abort_requested v : task_attr "abort_requested" (avBool v) (fun t => t <| Task_AbortRequested := v |>)
| ta_abort_reason v : task_attr "abort_reason" (avString v) (fun t => t <| Task_AbortReason := v |>)
| ta_abort_ts v : time_ok v -> task_attr "abort_ts" (avTime v) (fun t => t <| Task_AbortTS := Some v |>)
| ta_idempotency_key v : task_attr "idempotency_key" (avString v) (fun t => t <| Task_IdempotencyKey := v |>)
| ta_prompt v : task_attr "prompt" (avString v) (fun t => t <| Task_Prompt := v |>)
| ta_created_at v : time_ok v -> task_attr "created_at" (avTime v) (fun t => t <| Task_CreatedAt := v |>)
| ta_updated_at v : time_ok v -> task_attr "updated_at" (avTime v) (fun t => t <| Task_UpdatedAt := v |>).

Class TaskCodec `{ItemCodec Task} : Prop := {
  task_marshal t : task_ok t -> exists it, marshalMap t = Ok it /\ unmarshalMap it = Ok t;
  task_set a v f it t : task_attr a v f -> unmarshalMap it = Ok t -> unmarshalMap (<[a := v]> it) = Ok (f t);
  task_ignore a v it (t : Task) : a ∈ store_attrs -> unmarshalMap it = Ok t -> unmarshalMap (<[a := v]> it) = Ok t;
  task_unset it t : unmarshalMap it = Ok t -> unmarshalMap (delete "abort_ts" it) = Ok (t <| Task_AbortTS := None |>) }.

Inductive run_attr : string -> AV -> (Run -> Run) -> Prop :=
| ra_task_id v : run_attr "task_id" (avString v) (fun r => r <| Run_TaskID := v |>)
| ra_run_id v : run_attr "run_id" (avString v) (fun r => r <| Run_RunID := v |>)
| ra_tenant_id v : run_attr "tenant_id" (avString v) (fun r => r <| Run_TenantID := v |>)
| ra_status v : run_attr "status" (avRunStatus v) (fun r => r <| Run_Status := v |>)
| ra_parent_run_id v : run_attr "parent_run_id" (avString v) (fun r => r <| Run_ParentRunID := v |>)
| ra_resume_from v : in_int64 v -> run_attr "resume_from_step_index" (avInt v) (fun r => r <| Run_ResumeFromStepIndex := Some v |>)
| ra_queued_at v : time_ok v -> run_attr "queued_at" (avTime v) (fun r => r <| Run_QueuedAt := Some v |>)
| ra_started_at v : time_ok v -> run_attr "started_at" (avTime v) (fun r => r <| Run_StartedAt := Some v |>)
| ra_ended_at v : time_ok v -> run_attr "ended_at" (avTime v) (fun r => r <| Run_EndedAt := Some v |>)
| ra_last_step v : in_int64 v -> run_attr "last_step_index" (avInt v) (fun r => r <| Run_LastStepIndex := v |>)
| ra_usage v : usage_ok v -> run_attr "total_token_usage" (avUsage v) (fun r => r <| Run_TotalTokenUsage := Some v |>)
| ra_cost v : cost_ok v -> run_attr "total_cost_usd" (avFloat v) (fun r => r <| Run_TotalCostUSD := v |>).

Class RunCodec `{ItemCodec Run} : Prop := {
  run_marshal r : run_ok r -> exists it, marshalMap r = Ok it /\ unmarshalMap it = Ok r;
  run_set a v f it r : run_attr a v f -> unmarshalMap it = Ok r -> unmarshalMap (<[a := v]> it) = Ok (f r);
  run_ignore a v it (r : Run) : a ∈ store_attrs -> unmarshalMap it = Ok r -> unmarshalMap (<[a := v]> it) = Ok r;
  run_unset_started it r : unmarshalMap it = Ok r -> unmarshalMap (delete "started_at" it) = Ok (r <| Run_StartedAt := None |>);
  run_unset_ended it r : unmarshalMap it = Ok r -> unmarshalMap (delete "ended_at" it) = Ok (r <| Run_EndedAt := None |>) }.

(** Structs that are stored as they are. *)
Class PlainCodec {A : Type} (ok : A -> Prop) `{ItemCodec A} : Prop := {
  plain_marshal (x : A) : ok x -> exists it, marshalMap x = Ok it /\ unmarshalMap it = Ok x;
  plain_ignore a v it (x : A) : a ∈ store_attrs -> unmarshalMap it = Ok x -> unmarshalMap (<[a := v]> it) = Ok x }.

Class StringCodec : Prop := { string_decode v : unmarshal_string (AVS v) = Ok v }.
End codecs.

(** ** Slots *)

Inductive slot : Type :=
| STask (taskID : string)
| SRun (taskID runID : string)
| SStep (runID : string) (idx : Z)
| SConn (connectionID : string)
| SIdem (ik : string).

#[global] Instance slot_eq_dec : EqDecision slot.
Proof. solve_decision. Defined.

Inductive srec : Type := VTask (t : Task) | VRun (r : Run) | VStep (st : Step) | VConn (c : Connection) | VIdem (id : string).

Definition addr (s : DynamoStore) (x : slot) : string * Key :=
  match x with
  | STask id => (tasksTable s, (taskPK id, taskMetaSK))
  | SRun t r => (runsTable s, (runPK t, runSK r))
  | SStep r i => (stepsTable s, (stepPK r, stepSK i))
  | SConn c => (connectionsTable s, (connectionPK c, connMetaSK))
  | SIdem ik => (tasksTable s, ("IDEMP#" +:+ ik, taskMetaSK))
  end.

(** Even in one table the keys of different slots differ. *)
Lemma addr_inj s x y : addr s x = addr s y -> x = y.
Proof.
  destruct x as [x|x x'|x x'|x|x], y as [y|y y'|y y'|y|y]; cbn; intros E; simplify_eq; try done.
  match goal with E : fmt_0d _ _ = _ |- _ => by apply fmt_0d_inj in E as -> end.
Qed.

(** The memory store's side. *)
Definition slot_get (m : MemoryStore) (x : slot) : option srec :=
  match x with
  | STask id => VTask <$> MS_tasks m !! id
  | SRun t r => VRun <$> MS_runs m !! runKey t r
  | SStep r i => VStep <$> MS_steps m !! stepKey r i
  | SConn c => VConn <$> MS_connections m !! c
  | SIdem ik => VIdem <$> MS_idempotency m !! ik
  end.

Definition slot_put (x : slot) (v : option srec) (m : MemoryStore) : MemoryStore :=
  match x, v with
  | STask id, Some (VTask t) => m <| MS_tasks ::= insert id t |>
  | SRun t r, Some (VRun v) => m <| MS_runs ::= insert (runKey t r) v |>
  | SStep r i, Some (VStep v) => m <| MS_steps ::= insert (stepKey r i) v |>
  | SConn c, Some (VConn v) => m <| MS_connections ::= insert c v |>
  | SConn c, None => m <| MS_connections ::= delete c |>
  | SIdem ik, Some (VIdem v) => m <| MS_idempotency ::= insert ik v |>
  | _, _ => m
  end.

(** Values of the right kind. *)
Definition fits (x : slot) (v : option srec) : bool :=
  match x, v with
  | STask _, Some (VTask _) | SRun _ _, Some (VRun _) | SStep _ _, Some (VStep _) | SConn _, Some (VConn _)
  | SConn _, None | SIdem _, Some (VIdem _) => true
  | _, _ => false
  end.

(** Slots that both stores tell apart: the memory store joins the ids of a run with a number
    sign. *)
Definition slot_ok (x : slot) : Prop := match x with SRun t _ => no_hash t | _ => True end.

Lemma slot_get_put x y v m :
  slot_ok x -> slot_ok y -> fits x v = true -> slot_get (slot_put x v m) y = if decide (x = y) then v else slot_get m y.
Proof.
  intros Hx Hy Hf. destruct x, v as [[]|]; try done; destruct y; cbn in *; try (by rewrite decide_False by done);
    match goal with
    | |- context [insert ?a _ _ !! ?b] => destruct (decide (a = b)) as [E|E]; [rewrite E, lookup_insert_eq|rewrite lookup_insert_ne by done]
    | |- context [delete ?a _ !! ?b] => destruct (decide (a = b)) as [E|E]; [rewrite E, lookup_delete_eq|rewrite lookup_delete_ne by done]
    end; try (apply runKey_inj in E as [-> ->]; [|done..]); try (apply stepKey_inj in E as [-> ->]); subst;
    try (by rewrite decide_True by done); try (rewrite decide_False by congruence; done).
Qed.

(** ** Calls of the service

    [fails] says whether a call may end with a service error: it is [False] for an available
    service and [True] in general. *)

#[global] Instance same_tables_equiv : Equivalence same_tables.
Proof. split; [by intros T t k|by intros T T' H t k|]. intros T1 T2 T3 H1 H2 t k. by rewrite H1. Qed.

Section calls.
Context {D : Type} `{HD : DynamoDB D} `{HL : !DynamoLaws D} (fails : Prop) (Hfails : DynamoAvailable D \/ fails).

Definition outage {A} (r : result DynErr A) : Prop := fails /\ exists e, r = Err (ServiceError e).

Lemma get_item_call t k d : exists d' r, GetItem t k d = (d', r) /\ same_tables (tables d) (tables d') /\
  (r = Ok (default ∅ (tables d t k)) \/ outage r).
Proof.
  destruct (GetItem t k d) as [d' r] eqn:E. exists d', r. split; [done|]. pose proof (law_get_item t k d d' r E) as [Hs Hr]. split; [done|].
  destruct r as [it|e]; [left; by subst|]. destruct Hr as [e' ->]. destruct Hfails as [HA|Hf]; [|right; split; [done|by eexists]].
  destruct (get_answers t k d) as [it Hit]. by rewrite E in Hit.
Qed.

(** The outcomes of a write. *)
Definition written (T T' : Tables) (ok : bool) (E : Tables) (refused : DynErr -> Prop) (r : result DynErr unit) : Prop :=
  (if ok then r = Ok tt /\ same_tables E T' else exists e, r = Err e /\ refused e /\ same_tables T T') \/
  (outage r /\ (same_tables T T' \/ (ok = true /\ same_tables E T'))).

Lemma write_call T T' ok E refused r :
  write_outcome T T' ok (Some E) refused r -> ((forall e, r <> Err (ServiceError e)) \/ fails) -> written T T' ok E refused r.
Proof.
  intros Ho Hr. unfold write_outcome in Ho. destruct r as [[]|[msg|codes msg|e]].
  - destruct Ho as (-> & E' & [= <-] & Hs). by left.
  - destruct Ho as (-> & ? & ?). left. by eexists.
  - destruct Ho as (-> & ? & ?). left. by eexists.
  - destruct Hr as [Hr|Hr]; [by destruct (Hr e)|]. right. split; [split; [done|by eexists]|].
    destruct Ho as [Ho|(Hok & E' & [= <-] & Hs)]; [by left|by right].
Qed.

Lemma put_item_call t it k c d :
  item_key it = Some k -> exists d' r, PutItem t it c d = (d', r) /\
  written (tables d) (tables d') (match c with Some c => holds_at c (tables d) t k | None => true end)
    (table_set t k (Some it) (tables d)) cond_refused r.
Proof.
  intros Hk. destruct (PutItem t it c d) as [d' r] eqn:E. exists d', r. split; [done|].
  apply write_call; [by apply law_put_item|]. destruct Hfails as [HA|Hf]; [left|by right]. intros e.
  pose proof (put_answers t it c d e (mk_is_Some _ _ Hk)) as Hp. by rewrite E in Hp.
Qed.

Lemma update_item_call t k c acts it d :
  act_all acts (default (key_item k) (tables d t k)) = Some it -> exists d' r, UpdateItem t k c acts d = (d', r) /\
  written (tables d) (tables d') (holds_at c (tables d) t k) (table_set t k (Some it) (tables d)) cond_refused r.
Proof.
  intros Hk. destruct (UpdateItem t k c acts d) as [d' r] eqn:E. exists d', r. split; [done|].
  apply law_update_item in E as Ho. cbn in Ho. rewrite Hk in Ho. cbn in Ho. apply write_call; [done|].
  destruct Hfails as [HA|Hf]; [left|by right]. intros e. pose proof (update_answers t k c acts d e) as Hp. rewrite E in Hp. apply Hp.
  cbn. rewrite Hk. by eexists.
Qed.

Lemma delete_item_call t k d : exists d' r, DeleteItem t k d = (d', r) /\
  written (tables d) (tables d') true (table_set t k None (tables d)) (fun _ => False) r.
Proof.
  destruct (DeleteItem t k d) as [d' r] eqn:E. exists d', r. split; [done|]. apply write_call; [by apply law_delete_item|].
  destruct Hfails as [HA|Hf]; [left|by right]. intros e. pose proof (delete_answers t k d e) as Hp. by rewrite E in Hp.
Qed.

Lemma transact_call l T d :
  write_all l (tables d) = Some T -> exists d' r, TransactWriteItems l d = (d', r) /\
  written (tables d) (tables d') (forallb (write_holds (tables d)) l) T (transact_refused (tables d) l) r.
Proof.
  intros Hk. destruct (TransactWriteItems l d) as [d' r] eqn:E. exists d', r. split; [done|].
  apply law_transact in E as Ho. rewrite Hk in Ho. apply write_call; [done|].
  destruct Hfails as [HA|Hf]; [left|by right]. intros e. pose proof (transact_answers l d e) as Hp. rewrite E in Hp. apply Hp. by eexists.
Qed.
End calls.

(** ** Items of records *)

(** A run without token usage is stored with a usage of zero. *)
Definition norm_run (r : Run) : Run :=
  r <| Run_TotalTokenUsage := Some (default (mkTokenUsage 0 0 0) (Run_TotalTokenUsage r)) |>.

Lemma put_attrs_app l1 l2 it : put_attrs (l1 ++ l2) it = put_attrs l2 (put_attrs l1 it).
Proof. apply fold_left_app. Qed.

Lemma put_attrs_other l it a : a ∉ l.*1 -> put_attrs l it !! a = it !! a.
Proof.
  revert it. induction l as [|[b v] l IH]; intros it Ha; [done|]. cbn in *. apply not_elem_of_cons in Ha as [Hab Ha].
  change (put_attrs l (<[b := v]> it) !! a = it !! a). rewrite IH by done. by rewrite lookup_insert_ne.
Qed.

Lemma put_attrs_at l1 a v l2 it : a ∉ l2.*1 -> put_attrs (l1 ++ (a, v) :: l2) it !! a = Some v.
Proof. intros Ha. rewrite put_attrs_app. change (put_attrs l2 (<[a := v]> (put_attrs l1 it)) !! a = Some v).
  rewrite put_attrs_other by done. by rewrite lookup_insert_eq. Qed.

Section items.
Context `{ScalarCodec} `{TC : !ItemCodec Task} `{RC : !ItemCodec Run} `{SC : !ItemCodec Step} `{CC : !ItemCodec Connection}.
Context `{!TaskCodec} `{!RunCodec} `{!PlainCodec step_ok} `{!PlainCodec connection_ok}.

(** Attributes that leave the decoded struct as it is. *)
Lemma put_task_attrs l it t :
  Forall (fun x => x.1 ∈ store_attrs \/ exists f, task_attr x.1 x.2 f /\ f t = t) l ->
  unmarshalMap it = Ok t -> unmarshalMap (put_attrs l it) = Ok t.
Proof.
  intros Hl. revert it. induction Hl as [|[a v] l Ha Hl IH]; intros it Hit; [done|]. cbn. apply IH. cbn in Ha.
  destruct Ha as [Ha|(f & Ha & Hf)]; [by apply task_ignore|]. rewrite <- Hf. by apply task_set.
Qed.

Lemma put_run_attrs l it r :
  Forall (fun x => x.1 ∈ store_attrs \/ exists f, run_attr x.1 x.2 f /\ f r = r) l ->
  unmarshalMap it = Ok r -> unmarshalMap (put_attrs l it) = Ok r.
Proof.
  intros Hl. revert it. induction Hl as [|[a v] l Ha Hl IH]; intros it Hit; [done|]. cbn. apply IH. cbn in Ha.
  destruct Ha as [Ha|(f & Ha & Hf)]; [by apply run_ignore|]. rewrite <- Hf. by apply run_set.
Qed.

Lemma put_plain_attrs {A} {ok : A -> Prop} `{PlainCodec A ok} l it x :
  Forall (fun y => y.1 ∈ store_attrs) l -> unmarshalMap it = Ok x -> unmarshalMap (put_attrs l it) = Ok x.
Proof.
  intros Hl. revert it. induction Hl as [|[a v] l Ha Hl IH]; intros it Hit; [done|]. cbn. apply IH. by apply plain_ignore.
Qed.

(** What the item of a record looks like. *)
Definition rep (v : srec) (it : Item) : Prop :=
  is_Some (it !! "pk") /\
  match v with
  | VTask t => unmarshalMap it = Ok t /\ it !! "status" = Some (avStatus (Task_Status t)) /\
               it !! "active_run_id" = Some (avString (Task_ActiveRunID t))
  | VRun r => unmarshalMap it = Ok (norm_run r) /\ it !! "status" = Some (avRunStatus (Run_Status r))
  | VStep st => unmarshalMap it = Ok st
  | VConn c => unmarshalMap it = Ok c
  | VIdem id => id <> "" /\ it !! "task_id" = Some (avString id)
  end.

Lemma rep_nonempty v it : rep v it -> it <> ∅.
Proof. intros [[x Hx] _] ->. by rewrite lookup_empty in Hx. Qed.
End items.

Create HintDb dynamo.
#[export] Hint Constructors task_attr run_attr : dynamo.

(** The attributes of an item one after the other. *)
Ltac attr_keeps :=
  repeat (first [apply Forall_nil_2 | apply Forall_app_2 | apply Forall_cons_2]);
  try (cbn [fst snd]; first
    [ left; apply list_elem_of_In; cbn; tauto
    | right; eexists; split; [by eauto with dynamo|]; done ]).

(** A concrete attribute name is not in a concrete list. *)
Ltac not_in := apply (bool_decide_unpack _); vm_compute; exact I.

Section task_items.
Context `{ScalarCodec} `{TC : !ItemCodec Task} `{RC : !ItemCodec Run} `{SC : !ItemCodec Step} `{CC : !ItemCodec Connection}.
Context `{!TaskCodec} `{!RunCodec} `{!PlainCodec step_ok} `{!PlainCodec connection_ok} (now : nat -> Time).

Definition known (t : Task) (x : string * AV) : Prop := x.1 ∈ store_attrs \/ exists f, task_attr x.1 x.2 f /\ f t = t.

Lemma known_task_fields t : task_ok t -> Forall (known t) (applyTaskCompatFields t).
Proof.
  intros (Ha & Hm & Hc & Hu). unfold applyTaskCompatFields, known. destruct t; cbn in *.
  destruct Task_AbortTS; cbn; repeat case_match; attr_keeps.
Qed.

Lemma rep_task_item n t it :
  task_ok t -> unmarshalMap it = Ok t -> rep (VTask t) (task_item now n t it).
Proof.
  intros Ht Hit. unfold task_item. split; [|split_and!].
  - rewrite put_attrs_app. exists (avString (taskPK (Task_TaskID t))). unfold applyTaskCompatFields.
    rewrite put_attrs_other; [apply (put_attrs_at []); not_in|]. destruct (Task_AbortTS t); repeat case_match; not_in.
  - rewrite put_attrs_app. apply put_task_attrs; [by apply known_task_fields|]. apply put_task_attrs; [|done]. attr_keeps.
  - rewrite put_attrs_app. apply (put_attrs_at (take 3 (applyTaskCompatFields t)) "status"). cbn.
    destruct (Task_AbortTS t); repeat case_match; not_in.
  - rewrite put_attrs_app. apply (put_attrs_at (take 4 (applyTaskCompatFields t)) "active_run_id"). cbn.
    destruct (Task_AbortTS t); repeat case_match; not_in.
Qed.

(** The fields of a run before its usage and cost. *)
Definition run_head (r : Run) : list (string * AV) := take (length (applyRunCompatFields r) - 2) (applyRunCompatFields r).

Lemma applyRunCompatFields_split r :
  applyRunCompatFields r = run_head r ++ [("total_token_usage", avUsage (default (mkTokenUsage 0 0 0) (Run_TotalTokenUsage r)));
    ("total_cost_usd", avFloat (Run_TotalCostUSD r))].
Proof.
  unfold run_head, applyRunCompatFields. rewrite !app_assoc. set (l := (_ ++ _) ++ _) at 3. rewrite length_app. cbn [length].
  rewrite Nat.add_sub, take_app_length. done.
Qed.

Definition run_known (r : Run) (x : string * AV) : Prop := x.1 ∈ store_attrs \/ exists f, run_attr x.1 x.2 f /\ f r = r.

Lemma known_run_head r : run_ok r -> Forall (run_known r) (run_head r).
Proof.
  intros (Hq & Hs & He & Hf & Hm & Hl & Hu & Hc). unfold run_known. unfold run_head, applyRunCompatFields. destruct r; cbn in *.
  destruct Run_QueuedAt, Run_StartedAt, Run_EndedAt, Run_ResumeFromStepIndex; repeat case_match; cbn; attr_keeps.
Qed.

Lemma run_head_shape r : exists l, run_head r = [("task_id", avString (Run_TaskID r)); ("run_id", avString (Run_RunID r));
    ("tenant_id", avString (Run_TenantID r)); ("status", avRunStatus (Run_Status r))] ++ l /\ "status" ∉ l.*1 /\ "pk" ∉ l.*1.
Proof.
  unfold run_head, applyRunCompatFields.
  destruct (Run_QueuedAt r), (Run_StartedAt r), (Run_EndedAt r), (Run_ResumeFromStepIndex r);
    repeat case_match; (eexists; split; [reflexivity|split; not_in]).
Qed.

Lemma default_usage_ok r : run_ok r -> usage_ok (default (mkTokenUsage 0 0 0) (Run_TotalTokenUsage r)).
Proof. intros (_ & _ & _ & _ & _ & _ & Hu & _). destruct (Run_TotalTokenUsage r); [done|]. by split_and!. Qed.

Lemma rep_run_item r it : run_ok r -> unmarshalMap it = Ok r -> rep (VRun r) (run_item r it).
Proof.
  intros Hr Hit. unfold run_item. rewrite applyRunCompatFields_split, !put_attrs_app.
  destruct (run_head_shape r) as (l & Hl & Hs & Hp). split; [|split].
  - exists (avString (runPK (Run_TaskID r))). rewrite put_attrs_other by not_in.
    rewrite Hl, put_attrs_app, put_attrs_other by done. rewrite put_attrs_other by not_in. apply (put_attrs_at []). not_in.
  - assert (Hhead : unmarshalMap (put_attrs (run_head r) (put_attrs
      [("pk", avString (runPK (Run_TaskID r))); ("sk", avString (runSK (Run_RunID r))); ("entity", avString "run");
       ("gsi1pk", avString (tenantGSIKey (Run_TenantID r))); ("gsi1sk", avString (runTenantSortKey (Run_TaskID r) (Run_RunID r)));
       ("gsi2pk", avString runEntityGSIKey); ("gsi2sk", avString (runTenantSortKey (Run_TaskID r) (Run_RunID r)))] it)) = Ok r).
    { apply put_run_attrs; [by apply known_run_head|]. apply put_run_attrs; [|done]. attr_keeps. }
    pose proof (default_usage_ok r Hr) as Hu. destruct Hr as (_ & _ & _ & _ & _ & _ & _ & Hc).
    apply (run_set _ _ _ _ _ (ra_usage _ Hu)) in Hhead. by apply (run_set _ _ _ _ _ (ra_cost _ Hc)) in Hhead.
  - rewrite put_attrs_other by not_in. rewrite Hl, put_attrs_app, put_attrs_other by done.
    apply (put_attrs_at (take 3 (applyRunCompatFields r)) "status"). not_in.
Qed.

Lemma rep_step_item st it :
  unmarshalMap it = Ok st ->
  rep (VStep st) (put_attrs [("pk", avString (stepPK (Step_RunID st))); ("sk", avString (stepSK (Step_StepIndex st)));
    ("entity", avString "step")] it).
Proof.
  intros Hit. split; [eexists; apply (put_attrs_at []); not_in|]. apply put_plain_attrs; [|done].
  repeat (apply Forall_cons_2; [apply list_elem_of_In; cbn; tauto|]). apply Forall_nil_2.
Qed.

Lemma rep_connection_item c it : unmarshalMap it = Ok c -> rep (VConn c) (connection_item c it).
Proof.
  intros Hit. split; [eexists; apply (put_attrs_at []); not_in|]. apply put_plain_attrs; [|done].
  repeat (apply Forall_cons_2; [apply list_elem_of_In; cbn; tauto|]). apply Forall_nil_2.
Qed.

Lemma rep_idempotency_item t c : Task_TaskID t <> "" -> rep (VIdem (Task_TaskID t)) (idempotency_item t c).
Proof.
  intros Ht. unfold idempotency_item. split; [eexists; apply (put_attrs_at []); not_in|]. split; [done|].
  match goal with |- put_attrs ?l _ !! _ = _ => apply (put_attrs_at (take 5 l) "task_id") end. not_in.
Qed.

(** *** Updates *)

Lemma rep_task_set a v g t it : task_attr a v g -> rep (VTask t) it -> rep (VTask (g t)) (<[a := v]> it).
Proof.
  intros Ha (Hpk & Hu & Hs & Hr). split; [destruct (decide (a = "pk")) as [->|]; simplify_map_eq; [by inversion Ha|done]|].
  split; [by apply task_set|]. destruct Ha; cbn; split; by simplify_map_eq.
Qed.

Lemma rep_task_unset t it : rep (VTask t) it -> rep (VTask (t <| Task_AbortTS := None |>)) (delete "abort_ts" it).
Proof. intros (Hpk & Hu & Hs & Hr). split; [by simplify_map_eq|]. split; [by apply task_unset|]. cbn. split; by simplify_map_eq. Qed.

Lemma rep_run_set a v g r it :
  a <> "total_token_usage" -> run_attr a v g -> rep (VRun r) it -> rep (VRun (g r)) (<[a := v]> it).
Proof.
  intros Hne Ha (Hpk & Hu & Hs). split; [destruct (decide (a = "pk")) as [->|]; simplify_map_eq; [by inversion Ha|done]|].
  split; [rewrite (run_set _ _ _ _ _ Ha Hu); by destruct Ha|]. destruct Ha; cbn; by simplify_map_eq.
Qed.

Lemma rep_run_unset_started r it : rep (VRun r) it -> rep (VRun (r <| Run_StartedAt := None |>)) (delete "started_at" it).
Proof. intros (Hpk & Hu & Hs). split; [by simplify_map_eq|]. split; [by rewrite (run_unset_started _ _ Hu)|]. cbn. by simplify_map_eq. Qed.

Lemma rep_run_unset_ended r it : rep (VRun r) it -> rep (VRun (r <| Run_EndedAt := None |>)) (delete "ended_at" it).
Proof. intros (Hpk & Hu & Hs). split; [by simplify_map_eq|]. split; [by rewrite (run_unset_ended _ _ Hu)|]. cbn. by simplify_map_eq. Qed.

(** *** Keys of items *)

Lemma item_key_other l it : "pk" ∉ l.*1 -> "sk" ∉ l.*1 -> item_key (put_attrs l it) = item_key it.
Proof. intros. unfold item_key. by rewrite !put_attrs_other. Qed.

Lemma plain_item_key pk sk l it :
  "pk" ∉ l.*1 -> "sk" ∉ l.*1 -> item_key (put_attrs (("pk", avString pk) :: ("sk", avString sk) :: l) it) = Some (pk, sk).
Proof.
  intros. change (item_key (put_attrs l (<["sk" := avString sk]> (<["pk" := avString pk]> it))) = Some (pk, sk)).
  rewrite item_key_other by done. unfold item_key. by simplify_map_eq.
Qed.

Lemma task_item_key n t it : item_key (task_item now n t it) = Some (taskPK (Task_TaskID t), taskMetaSK).
Proof.
  unfold task_item. rewrite put_attrs_app, item_key_other; [apply plain_item_key; not_in|..];
    unfold applyTaskCompatFields; destruct (Task_AbortTS t); repeat case_match; not_in.
Qed.

Lemma run_item_key r it : item_key (run_item r it) = Some (runPK (Run_TaskID r), runSK (Run_RunID r)).
Proof.
  unfold run_item. rewrite put_attrs_app, item_key_other; [apply plain_item_key; not_in|..];
    unfold applyRunCompatFields;
    destruct (Run_QueuedAt r), (Run_StartedAt r), (Run_EndedAt r), (Run_ResumeFromStepIndex r); repeat case_match; not_in.
Qed.

Lemma idempotency_item_key t c :
  item_key (idempotency_item t c) = Some (idempotencyPK (Task_TenantID t) (Task_IdempotencyKey t), taskMetaSK).
Proof. apply plain_item_key; not_in. Qed.
End task_items.
