(* ===== verification/DynamoRefine.v ===== *)
(** * DynamoRefine: the production store behaves as the in-memory store

    A simulation between [MemoryStore] and [DynamoStore]: while the service is available, every
    operation of [op_ok] on tasks, runs, steps and connections gives the same result on both, and
    the records that can be read afterwards are the same.  [op_ok] leaves out AddRunUsage,
    PutEvent and CompactEvents, PutTask with an idempotency key, updates guarded by an empty list
    of statuses, and ids that are empty or hold a number sign. *)

From Stdlib Require Import Ascii.
From S2P Require Import Prelude GoLib Model StateStore MemoryStore DynamoDB DynamoStore DynamoItems.

Section simulation.
Context {D : Type} `{HD : DynamoDB D} `{HL : !DynamoLaws D} (fails : Prop) (Hfails : DynamoAvailable D \/ fails).
Context `{HSc : ScalarCodec} `{TC : !ItemCodec Task} `{RC : !ItemCodec Run} `{SC : !ItemCodec Step} `{CC : !ItemCodec Connection}
  `{VC : !ItemCodec StreamEvent}.
Context `{!TaskCodec} `{!RunCodec} `{!PlainCodec step_ok} `{!PlainCodec connection_ok} `{!StringCodec} (s : DynamoStore).

(** ** The relation *)

Definition opt_rep (v : option srec) (it : option Item) : Prop :=
  match v, it with Some v, Some it => rep v it | None, None => True | _, _ => False end.

Definition at_slot (T : Tables) (x : slot) : option Item := T (addr s x).1 (addr s x).2.

Definition sim (m : MemoryStore) (T : Tables) : Prop := forall x, slot_ok x -> opt_rep (slot_get m x) (at_slot T x).

Definition set_slot (x : slot) (it : option Item) (T : Tables) : Tables := table_set (addr s x).1 (addr s x).2 it T.

Lemma at_set_slot x y it T : at_slot (set_slot x it T) y = if decide (x = y) then it else at_slot T y.
Proof.
  unfold at_slot, set_slot, table_set. destruct (decide (x = y)) as [->|Hne]; [by rewrite decide_True|].
  rewrite decide_False; [done|]. intros [E1 E2]. apply Hne. symmetry. apply (addr_inj s).
  rewrite (surjective_pairing (addr s y)), (surjective_pairing (addr s x)). by rewrite E1, E2.
Qed.

Lemma sim_same m T T' : same_tables T T' -> sim m T -> sim m T'.
Proof. intros HT Hs x Hx. unfold at_slot. rewrite <- HT. by apply Hs. Qed.

(** A write of one record on both sides. *)
Lemma sim_put m T T' x v it :
  slot_ok x -> fits x v = true -> opt_rep v it -> same_tables (set_slot x it T) T' -> sim m T -> sim (slot_put x v m) T'.
Proof.
  intros Hx Hf Hr HT Hs. eapply sim_same; [exact HT|]. intros y Hy. rewrite slot_get_put, at_set_slot by done.
  by destruct (decide (x = y)); [|apply Hs].
Qed.

(** Whether a record exists. *)
Lemma sim_exists m T x : slot_ok x -> sim m T -> is_Some (at_slot T x) <-> is_Some (slot_get m x).
Proof. intros Hx Hs. specialize (Hs x Hx). unfold opt_rep in Hs. by repeat case_match. Qed.

Lemma sim_key_free m T x : slot_ok x -> sim m T ->
  holds_at key_free T (addr s x).1 (addr s x).2 = negb (bool_decide (is_Some (slot_get m x))).
Proof.
  intros Hx Hs. specialize (Hs x Hx). unfold opt_rep, at_slot in Hs. unfold holds_at.
  destruct (slot_get m x) as [v|], (T (addr s x).1 (addr s x).2) as [it|]; try done.
  cbn. destruct Hs as [[y Hy] _]. rewrite Hy. done.
Qed.

(** ** Results *)

(** The text of a call, then the error of the service. *)
Definition service_failure {A} (r : result error A) : Prop := exists msg e, r = Err (wrapf msg e).

(** The production store does to the service what the memory store does to its maps; if a call
    fails, it does this or nothing. *)
Definition agrees (m : MemoryStore) (d : D) (comp : ST D (result error unit)) (mem : MemoryStore * result error unit) : Prop :=
  exists d' r, comp d = (d', r) /\
    ((r = mem.2 /\ sim mem.1 (tables d')) \/
     (fails /\ service_failure r /\ (sim m (tables d') \/ sim mem.1 (tables d')))).

Lemma agrees_ret m d r : sim m (tables d) -> agrees m d (mret r) (m, r).
Proof. intros Hs. exists d, r. split; [done|]. by left. Qed.

(** A read gives the value, or fails. *)
Definition reads {A} (m : MemoryStore) (d : D) (comp : ST D (result error A)) (v : result error A) : Prop :=
  exists d' r, comp d = (d', r) /\ sim m (tables d') /\ (r = v \/ (fails /\ service_failure r)).

(** ** Reads *)

Lemma get_slot m d x : slot_ok x -> sim m (tables d) ->
  exists d' r, GetItem (addr s x).1 (addr s x).2 d = (d', r) /\ sim m (tables d') /\
    ((exists it, r = Ok it /\ match slot_get m x with Some v => rep v it | None => it = ∅ end) \/ outage fails r).
Proof.
  intros Hx Hs. destruct (get_item_call fails Hfails (addr s x).1 (addr s x).2 d) as (d' & r & E & Hsame & Hr).
  exists d', r. split; [done|]. split; [by eapply sim_same|]. destruct Hr as [->|Hr]; [left|by right]. eexists. split; [done|].
  pose proof (Hs x Hx) as Hy. unfold opt_rep, at_slot in Hy. by destruct (slot_get m x), (tables d _ _).
Qed.

(** Whether there is an item. *)
Lemma exists_sim m d x msg : slot_ok x -> sim m (tables d) ->
  reads m d (r ← GetItem (addr s x).1 (addr s x).2; mret (match r with Err e => service_err msg e | Ok it => Ok (negb (bool_decide (it = ∅))) end))
    (Ok (bool_decide (is_Some (slot_get m x)))).
Proof.
  intros Hx Hs. unfold reads. rewrite ST_bind_run. destruct (get_slot m d x Hx Hs) as (d' & r & -> & Hs' & Hr). cbn [fst snd].
  eexists d', _. split; [done|]. split; [done|]. destruct Hr as [(it & -> & Hit)|[Hf [e ->]]]; [left|right; split; [done|by eexists _, _]].
  f_equal. destruct (slot_get m x); [|by subst]. rewrite bool_decide_false by (by eapply rep_nonempty). by rewrite bool_decide_true.
Qed.

Lemma is_Some_fmap_decide {A B} (f : A -> B) (o : option A) : bool_decide (is_Some (f <$> o)) = bool_decide (is_Some o).
Proof. by destruct o. Qed.

Lemma taskExists_sim m d taskID : sim m (tables d) -> reads m d (taskExists s taskID) (Ok (bool_decide (is_Some (MS_tasks m !! taskID)))).
Proof.
  intros Hs. pose proof (exists_sim m d (STask taskID) "state: check task exists: " I Hs) as He. cbn [slot_get] in He.
  by rewrite is_Some_fmap_decide in He.
Qed.

Lemma missing_or_conflict_sim m d (comp : ST D (result error bool)) (b : bool) :
  reads m d comp (Ok b) -> agrees m d (missing_or_conflict comp) (m, Err (if b then ErrConflict else ErrNotFound)).
Proof.
  intros (d' & r & E & Hs & Hr). unfold agrees, missing_or_conflict. rewrite ST_bind_run, E. cbn [fst snd]. eexists d', _. split; [done|].
  destruct Hr as [->|[Hf (msg & e & ->)]]; [left; by destruct b|right]. split; [done|]. split; [by eexists _, _|by left].
Qed.

(** ** Updates *)

(** An update of the item of a record whose condition reads as [ok] and whose actions read as [f]. *)
Record update_of {A} (inj : A -> srec) (c : cond) (acts : list action) (ok : A -> bool) (f : A -> A) : Prop := {
  up_missing : holds c ∅ = false;
  up_acts it : is_Some (act_all acts it);
  up_ok a it : rep (inj a) it -> holds c it = ok a;
  up_rep a it it' : rep (inj a) it -> act_all acts it = Some it' -> rep (inj (f a)) it' }.

Abbreviation task_update := (update_of VTask).
Abbreviation run_update := (update_of VRun).

(** A call that failed without or with its effect. *)
Lemma failed_agrees m d d' comp mem msg e :
  comp d = (d', service_err msg (ServiceError e)) -> fails -> sim m (tables d') \/ sim mem.1 (tables d') -> agrees m d comp mem.
Proof. intros E Hf Hs. eexists d', _. split; [done|]. right. split; [done|]. split; [by eexists _, _|done]. Qed.

Lemma update_sim {A} (inj : A -> srec) m d x (v : option A) c acts ok f msg refused mem :
  update_of inj c acts ok f -> slot_ok x -> (forall a, fits x (Some (inj a)) = true) -> slot_get m x = inj <$> v -> sim m (tables d) ->
  (let R := forall d', sim m (tables d') -> agrees m d' refused mem in
   match v with
   | Some a => if ok a then mem = (slot_put x (Some (inj (f a))) m, Ok tt) else R
   | None => R
   end) ->
  agrees m d (r ← UpdateItem (addr s x).1 (addr s x).2 c acts;
              match r with
              | Ok _ => mret (Ok tt)
              | Err e => if isConditionalCheckFailed e then refused else mret (service_err msg e)
              end) mem.
Proof.
  intros [Hmiss Hacts Hok Hf] Hx Hfits Hget Hs. cbn zeta. intros Hmem.
  destruct (Hacts (default (key_item (addr s x).2) (tables d (addr s x).1 (addr s x).2))) as [it' Hit'].
  destruct (update_item_call fails Hfails (addr s x).1 (addr s x).2 c acts it' d Hit') as (d' & r & E & Hr).
  pose proof (Hs x Hx) as Hy. unfold at_slot in Hy. rewrite Hget in Hy. unfold holds_at, written in Hr.
  assert (Hkeep : same_tables (tables d) (tables d') -> sim m (tables d')) by (intros; by eapply sim_same).
  destruct v as [a|], (tables d _ _) as [it|] eqn:Et; try done; cbn [default] in *; unfold id in *.
  - rewrite (Hok a it Hy) in Hr. destruct (ok a).
    + subst mem. assert (Hnew : same_tables (set_slot x (Some it') (tables d)) (tables d') -> sim (slot_put x (Some (inj (f a))) m) (tables d')).
      { intros Hsame. eapply (sim_put m (tables d) _ x _ (Some it')); try done. exact (Hf a it it' Hy Hit'). }
      destruct Hr as [[-> Hsame]|[[Hfl [e ->]] Hsame]].
      * exists d', (Ok tt). rewrite ST_bind_run, E. split; [done|]. left. split; [done|]. by apply Hnew.
      * eapply failed_agrees; [by rewrite ST_bind_run, E|done|]. destruct Hsame as [?|[_ ?]]; [left; by apply Hkeep|right; by apply Hnew].
    + destruct Hr as [(e & -> & [msg' ->] & Hsame)|[[Hfl [e ->]] Hsame]].
      * unfold agrees. rewrite ST_bind_run, E. exact (Hmem d' (Hkeep Hsame)).
      * eapply failed_agrees; [by rewrite ST_bind_run, E|done|]. destruct Hsame as [?|[? _]]; [left; by apply Hkeep|done].
  - rewrite Hmiss in Hr. destruct Hr as [(e & -> & [msg' ->] & Hsame)|[[Hfl [e ->]] Hsame]].
    + unfold agrees. rewrite ST_bind_run, E. exact (Hmem d' (Hkeep Hsame)).
    + eapply failed_agrees; [by rewrite ST_bind_run, E|done|]. destruct Hsame as [?|[? _]]; [left; by apply Hkeep|done].
Qed.

Lemma update_task_sim m d taskID c acts ok f msg refused mem :
  task_update c acts ok f -> sim m (tables d) ->
  (let R := forall d', sim m (tables d') -> agrees m d' refused mem in
   match MS_tasks m !! taskID with
   | Some t => if ok t then mem = (store_task taskID (f t) m, Ok tt) else R
   | None => R
   end) -> agrees m d (update_task s taskID c acts msg refused) mem.
Proof. intros Hu Hs Hmem. by apply (update_sim VTask m d (STask taskID) (MS_tasks m !! taskID) c acts ok f). Qed.

Lemma update_run_sim m d taskID runID c acts ok f msg refused mem :
  run_update c acts ok f -> no_hash taskID -> sim m (tables d) ->
  (let R := forall d', sim m (tables d') -> agrees m d' refused mem in
   match MS_runs m !! runKey taskID runID with
   | Some r => if ok r then mem = (m <| MS_runs ::= insert (runKey taskID runID) (f r) |>, Ok tt) else R
   | None => R
   end) -> agrees m d (update_run s taskID runID c acts msg refused) mem.
Proof. intros Hu Hh Hs Hmem. by apply (update_sim VRun m d (SRun taskID runID) (MS_runs m !! runKey taskID runID) c acts ok f). Qed.

(** *** Conditions *)

Lemma string_of_TaskStatus_inj a b : string_of_TaskStatus a = string_of_TaskStatus b -> a = b.
Proof. by destruct a, b. Qed.

Lemma or_all_holds c l it : holds (or_all c l) it = existsb (fun c => holds c it) (c :: l).
Proof. revert c. induction l as [|c' l IH]; intros c; cbn [or_all holds existsb]; [by rewrite orb_false_r|]. by rewrite IH. Qed.

Lemma status_condition from it :
  holds (buildStatusConditionTask from) it =
    match it !! "status" with Some v => existsb (fun x => bool_decide (v = avStatus x)) from | None => false end.
Proof.
  unfold buildStatusConditionTask. destruct from as [|x from]; cbn [map].
  - cbn. destruct (it !! "status"); [|done]. done.
  - rewrite or_all_holds. transitivity (existsb (fun x => holds (attr_eq "status" (avStatus x)) it) (x :: from)).
    { cbn [existsb]. f_equal. induction from; cbn; [done|]. by f_equal. }
    generalize (x :: from). clear. intros l. cbn [holds]. destruct (it !! "status") as [v|]; induction l as [|y l IH]; cbn [existsb]; try done.
    rewrite IH. f_equal. apply bool_decide_ext. naive_solver.
Qed.

Lemma status_condition_rep from t it :
  rep (VTask t) it -> holds (buildStatusConditionTask from) it = bool_decide (Task_Status t ∈ from).
Proof.
  intros (_ & _ & Hst & _). rewrite status_condition, Hst. induction from as [|x from IH]; [done|]. cbn [existsb]. rewrite IH.
  destruct (decide (Task_Status t = x)) as [<-|Hne].
  - rewrite (bool_decide_true (avStatus _ = _)) by done. cbn. symmetry. apply bool_decide_true. left.
  - rewrite (bool_decide_false (avStatus _ = _)) by (intros [= E%string_of_TaskStatus_inj]; done). cbn.
    apply bool_decide_ext. rewrite elem_of_cons. tauto.
Qed.

Lemma exists_pk v it : rep v it -> bool_decide (is_Some (it !! "pk")) = true.
Proof. intros [Hpk _]. by rewrite bool_decide_true. Qed.

(** *** Tasks *)

Ltac solve_acts := intros; eexists; reflexivity.

Lemma status_actions from to now :
  time_ok now ->
  task_update (cond_and (attribute_exists "pk") (buildStatusConditionTask from))
    [set_attr "status" (avStatus to); set_attr "updated_at" (avTime now)] (fun t => bool_decide (Task_Status t ∈ from))
    (fun t => t <| Task_Status := to |> <| Task_UpdatedAt := now |>).
Proof.
  intros Hn. split; [done|solve_acts|..].
  - intros t it Hr. cbn [holds]. by rewrite (exists_pk _ _ Hr), (status_condition_rep _ _ _ Hr).
  - intros t it it' Hr [= <-]. eapply rep_task_set in Hr; [|apply ta_status]. by eapply rep_task_set in Hr; [|by apply ta_updated_at].
Qed.

Lemma mapTaskConditionErr_sim m d taskID : sim m (tables d) ->
  agrees m d (mapTaskConditionErr s taskID) (m, Err (if bool_decide (is_Some (MS_tasks m !! taskID)) then ErrConflict else ErrNotFound)).
Proof. intros Hs. by apply missing_or_conflict_sim, taskExists_sim. Qed.

(** Both stores give the same answer to a guarded update. *)
Lemma guarded_task_sim m d taskID c acts ok f msg :
  task_update c acts ok f -> sim m (tables d) ->
  agrees m d (update_task s taskID c acts msg (mapTaskConditionErr s taskID))
    match MS_tasks m !! taskID with
    | None => (m, Err ErrNotFound)
    | Some t => if ok t then (store_task taskID (f t) m, Ok tt) else (m, Err ErrConflict)
    end.
Proof.
  intros Hu Hs. eapply update_task_sim; [exact Hu|done|]. cbn zeta.
  destruct (MS_tasks m !! taskID) as [t|] eqn:Et; [destruct (ok t); [done|]|]; intros d' Hs'; pose proof (mapTaskConditionErr_sim m d' taskID Hs') as H';
    by rewrite Et in H'.
Qed.

Lemma plain_task_sim m d taskID acts f msg :
  task_update (attribute_exists "pk") acts (fun _ => true) f -> sim m (tables d) ->
  agrees m d (update_task s taskID (attribute_exists "pk") acts msg not_found)
    match MS_tasks m !! taskID with None => (m, Err ErrNotFound) | Some t => (store_task taskID (f t) m, Ok tt) end.
Proof.
  intros Hu Hs. eapply update_task_sim; [exact Hu|done|]. cbn zeta.
  destruct (MS_tasks m !! taskID) as [t|] eqn:Et; [done|]. intros d' Hs'. by apply agrees_ret.
Qed.

Lemma UpdateTaskStatus_sim m d now taskID from to :
  from <> [] -> time_ok (now 0%nat) -> sim m (tables d) ->
  agrees m d (DynamoStore_UpdateTaskStatus s now taskID from to) (MemoryStore_UpdateTaskStatus (now 0%nat) taskID from to m).
Proof.
  intros Hf Hn Hs. pose proof (guarded_task_sim m d taskID _ _ _ _ "state: update task status: " (status_actions from to _ Hn) Hs) as Hup.
  unfold DynamoStore_UpdateTaskStatus. by destruct from.
Qed.

Lemma UpdateTaskStatusForRun_sim m d now taskID runID from to :
  from <> [] -> time_ok (now 0%nat) -> sim m (tables d) ->
  agrees m d (DynamoStore_UpdateTaskStatusForRun s now taskID runID from to)
    (MemoryStore_UpdateTaskStatusForRun (now 0%nat) taskID runID from to m).
Proof.
  intros Hf Hn Hs.
  assert (Hu : task_update (cond_and (cond_and (attribute_exists "pk") (attr_eq "active_run_id" (avString runID))) (buildStatusConditionTask from))
    [set_attr "status" (avStatus to); set_attr "updated_at" (avTime (now 0%nat))]
    (fun t => negb (bool_decide (Task_ActiveRunID t ≠ runID)) && bool_decide (Task_Status t ∈ from))
    (fun t => t <| Task_Status := to |> <| Task_UpdatedAt := now 0%nat |>)).
  { split; [done|solve_acts| |by apply (up_rep _ _ _ _ _ (status_actions from to _ Hn))].
    intros t it Hr. cbn [holds]. rewrite (status_condition_rep _ _ _ Hr). f_equal. rewrite (exists_pk _ _ Hr).
    destruct Hr as (_ & _ & _ & ->). cbn. unfold avString. repeat case_bool_decide; try done; naive_solver. }
  pose proof (guarded_task_sim m d taskID _ _ _ _ "state: update task status for run: " Hu Hs) as Hup.
  unfold DynamoStore_UpdateTaskStatusForRun, MemoryStore_UpdateTaskStatusForRun. destruct from as [|x from]; [done|].
  destruct (MS_tasks m !! taskID) as [t|]; [|done]. by destruct (bool_decide (Task_ActiveRunID t ≠ runID)).
Qed.

Lemma plain_task_update acts f :
  (forall it, is_Some (act_all acts it)) -> (forall t it it', rep (VTask t) it -> act_all acts it = Some it' -> rep (VTask (f t)) it') ->
  task_update (attribute_exists "pk") acts (fun _ => true) f.
Proof. intros Ha Hf. split; [done|done| |done]. intros t it Hr. exact (exists_pk _ _ Hr). Qed.

Lemma SetAbortRequested_sim m d now taskID reason :
  time_ok (now 0%nat) -> sim m (tables d) ->
  agrees m d (DynamoStore_SetAbortRequested s now taskID reason) (MemoryStore_SetAbortRequested (now 0%nat) taskID reason m).
Proof.
  intros Hn. apply plain_task_sim, plain_task_update; [solve_acts|]. intros t it it' Hr [= <-].
  apply (rep_task_set _ _ _ _ _ (ta_abort_requested true)) in Hr. apply (rep_task_set _ _ _ _ _ (ta_abort_reason reason)) in Hr.
  apply (rep_task_set _ _ _ _ _ (ta_abort_ts _ Hn)) in Hr. by apply (rep_task_set _ _ _ _ _ (ta_updated_at _ Hn)) in Hr.
Qed.

Lemma ClearAbortRequested_sim m d now taskID :
  time_ok (now 0%nat) -> sim m (tables d) ->
  agrees m d (DynamoStore_ClearAbortRequested s now taskID) (MemoryStore_ClearAbortRequested (now 0%nat) taskID m).
Proof.
  intros Hn. apply plain_task_sim, plain_task_update; [solve_acts|]. intros t it it' Hr [= <-].
  apply (rep_task_set _ _ _ _ _ (ta_abort_requested false)) in Hr. apply (rep_task_set _ _ _ _ _ (ta_abort_reason "")) in Hr.
  apply (rep_task_set _ _ _ _ _ (ta_updated_at _ Hn)) in Hr. by apply rep_task_unset in Hr.
Qed.

Lemma SetActiveRun_sim m d now taskID runID :
  time_ok (now 0%nat) -> sim m (tables d) ->
  agrees m d (DynamoStore_SetActiveRun s now taskID runID) (MemoryStore_SetActiveRun (now 0%nat) taskID runID m).
Proof.
  intros Hn. apply plain_task_sim, plain_task_update; [solve_acts|]. intros t it it' Hr [= <-].
  apply (rep_task_set _ _ _ _ _ (ta_active_run_id runID)) in Hr. by apply (rep_task_set _ _ _ _ _ (ta_updated_at _ Hn)) in Hr.
Qed.

(** *** Runs *)

Lemma plain_run_sim m d taskID runID acts f msg :
  (forall it, is_Some (act_all acts it)) -> (forall r it it', rep (VRun r) it -> act_all acts it = Some it' -> rep (VRun (f r)) it') ->
  no_hash taskID -> sim m (tables d) ->
  agrees m d (update_run s taskID runID (attribute_exists "pk") acts msg not_found) (with_run taskID runID f m).
Proof.
  intros Ha Hf Hh Hs. assert (Hu : run_update (attribute_exists "pk") acts (fun _ => true) f).
  { split; [done|done| |done]. intros r it Hr. exact (exists_pk _ _ Hr). }
  eapply update_run_sim; [exact Hu|done|done|]. cbn zeta. unfold with_run.
  destruct (MS_runs m !! _); [done|]. intros d' Hs'. by apply agrees_ret.
Qed.

Lemma CompleteRun_sim m d now taskID runID status :
  time_ok (now 0%nat) -> no_hash taskID -> sim m (tables d) ->
  agrees m d (DynamoStore_CompleteRun s now taskID runID status) (MemoryStore_CompleteRun (now 0%nat) taskID runID status m).
Proof.
  intros Hn. apply plain_run_sim; [solve_acts|]. intros r it it' Hr [= <-].
  apply (rep_run_set "status" _ _ _ _ ltac:(done) (ra_status status)) in Hr. by apply (rep_run_set "ended_at" _ _ _ _ ltac:(done) (ra_ended_at _ Hn)) in Hr.
Qed.

Lemma UpdateLastStepIndex_sim m d taskID runID i :
  in_int64 i -> no_hash taskID -> sim m (tables d) ->
  agrees m d (DynamoStore_UpdateLastStepIndex s taskID runID i) (MemoryStore_UpdateLastStepIndex taskID runID i m).
Proof.
  intros Hi. apply plain_run_sim; [solve_acts|]. intros r it it' Hr [= <-].
  by apply (rep_run_set "last_step_index" _ _ _ _ ltac:(done) (ra_last_step _ Hi)) in Hr.
Qed.

Lemma ResetRunToQueued_sim m d now taskID runID :
  time_ok (now 0%nat) -> no_hash taskID -> sim m (tables d) ->
  agrees m d (DynamoStore_ResetRunToQueued s now taskID runID) (MemoryStore_ResetRunToQueued (now 0%nat) taskID runID m).
Proof.
  intros Hn. apply plain_run_sim; [solve_acts|]. intros r it it' Hr [= <-].
  apply (rep_run_set "status" _ _ _ _ ltac:(done) (ra_status RunStatusQueued)) in Hr.
  apply (rep_run_set "queued_at" _ _ _ _ ltac:(done) (ra_queued_at _ Hn)) in Hr. by apply rep_run_unset_started, rep_run_unset_ended in Hr.
Qed.

Lemma ClaimRun_sim m d now taskID runID :
  time_ok (now 0%nat) -> no_hash taskID -> sim m (tables d) ->
  agrees m d (DynamoStore_ClaimRun s now taskID runID) (MemoryStore_ClaimRun (now 0%nat) taskID runID m).
Proof.
  intros Hn Hh Hs.
  assert (Hu : run_update (cond_and (attribute_exists "pk") (attr_eq "status" (avRunStatus RunStatusQueued)))
    [set_attr "status" (avRunStatus RunStatusRunning); set_attr "started_at" (avTime (now 0%nat))]
    (fun r => negb (bool_decide (Run_Status r ≠ RunStatusQueued)))
    (fun r => r <| Run_Status := RunStatusRunning |> <| Run_StartedAt := Some (now 0%nat) |>)).
  { split; [done|solve_acts|..].
    - intros r it Hr. cbn [holds]. rewrite (exists_pk _ _ Hr). destruct Hr as (_ & _ & ->). by destruct (Run_Status r); vm_compute.
    - intros r it it' Hr [= <-]. apply (rep_run_set "status" _ _ _ _ ltac:(done) (ra_status RunStatusRunning)) in Hr.
      by apply (rep_run_set "started_at" _ _ _ _ ltac:(done) (ra_started_at _ Hn)) in Hr. }
  assert (Hmc : forall d1, sim m (tables d1) -> agrees m d1 (missing_or_conflict (runExists s taskID runID))
      (m, Err (if bool_decide (is_Some (MS_runs m !! runKey taskID runID)) then ErrConflict else ErrNotFound))).
  { intros d1 Hs1. apply missing_or_conflict_sim. rewrite <- (is_Some_fmap_decide VRun).
    exact (exists_sim m d1 (SRun taskID runID) "state: check run exists: " Hh Hs1). }
  eapply update_run_sim; [exact Hu|done|done|]. cbn zeta. unfold MemoryStore_ClaimRun, with_run.
  destruct (MS_runs m !! _) as [r|] eqn:Er; [|exact Hmc].
  destruct (bool_decide (Run_Status r ≠ RunStatusQueued)); cbn [negb]; [exact Hmc|done].
Qed.

(** *** Inserts *)

(** A conditional put of a new record. *)
Lemma insert_sim m d x v it (E : error) msg :
  slot_ok x -> fits x (Some v) = true -> item_key it = Some (addr s x).2 -> rep v it -> sim m (tables d) ->
  agrees m d (r ← PutItem (addr s x).1 it (Some key_free);
              mret (match r with
                    | Ok _ => Ok tt
                    | Err e => if isConditionalCheckFailed e then Err E else service_err msg e
                    end))
    (if bool_decide (is_Some (slot_get m x)) then (m, Err E) else (slot_put x (Some v) m, Ok tt)).
Proof.
  intros Hx Hf Hk Hr Hs. destruct (put_item_call fails Hfails (addr s x).1 it (addr s x).2 (Some key_free) d Hk) as (d' & r & Eq & Hw).
  unfold written in Hw. rewrite (sim_key_free m) in Hw by done.
  assert (Hkeep : same_tables (tables d) (tables d') -> sim m (tables d')) by (intros; by eapply sim_same).
  assert (Hnew : same_tables (set_slot x (Some it) (tables d)) (tables d') -> sim (slot_put x (Some v) m) (tables d')).
  { intros Hsame. by eapply (sim_put m (tables d) _ x (Some v) (Some it)). }
  destruct (bool_decide _); cbn [negb] in Hw.
  - destruct Hw as [(e & -> & [msg' ->] & Hsame)|[[Hfl [e ->]] Hsame]].
    + exists d', (Err E). rewrite ST_bind_run, Eq. split; [done|]. left. split; [done|]. by apply Hkeep.
    + eapply failed_agrees; [by rewrite ST_bind_run, Eq|done|]. destruct Hsame as [?|[? _]]; [left; by apply Hkeep|done].
  - destruct Hw as [[-> Hsame]|[[Hfl [e ->]] Hsame]].
    + exists d', (Ok tt). rewrite ST_bind_run, Eq. split; [done|]. left. split; [done|]. by apply Hnew.
    + eapply failed_agrees; [by rewrite ST_bind_run, Eq|done|]. destruct Hsame as [?|[_ ?]]; [left; by apply Hkeep|right; by apply Hnew].
Qed.

Lemma ensureQueuedAt_ok r n : time_ok n -> run_ok r -> run_ok (ensureQueuedAt_run r n).
Proof. intros Hn Hr. unfold ensureQueuedAt_run. case_match; [done|]. by destruct Hr as (? & ? & ? & ? & ? & ? & ? & ?). Qed.

Lemma PutRun_sim m d now r :
  run_ok r -> time_ok (now 0%nat) -> no_hash (Run_TaskID r) -> Run_TaskID r <> "" -> Run_RunID r <> "" -> sim m (tables d) ->
  agrees m d (DynamoStore_PutRun s now r) (MemoryStore_PutRun (now 0%nat) r m).
Proof.
  intros Hr Hn Hh Ht Hi Hs. unfold DynamoStore_PutRun, MemoryStore_PutRun. cbn zeta.
  pose proof (ensureQueuedAt_ok r _ Hn Hr) as Hok. destruct (ensureQueuedAt_run_ids r (now 0%nat)) as (E1 & E2 & _).
  destruct (run_marshal _ Hok) as (it & Em & Eu). rewrite Em.
  rewrite (proj2 (String.eqb_neq (Run_TaskID _) "")), (proj2 (String.eqb_neq (Run_RunID _) "")) by congruence. cbn [orb].
  set (r' := ensureQueuedAt_run r (now 0%nat)) in *. rewrite <- (is_Some_fmap_decide VRun).
  apply (insert_sim m d (SRun (Run_TaskID r') (Run_RunID r')) (VRun r') (run_item r' it));
    [cbn; congruence|done|by apply run_item_key|by apply rep_run_item|done].
Qed.

Lemma PutTask_sim m d now t :
  task_ok t -> Task_TaskID t <> "" -> Task_IdempotencyKey t = "" -> sim m (tables d) ->
  agrees m d (DynamoStore_PutTask s now t) (MemoryStore_PutTask t m).
Proof.
  intros Hok Ht Hk Hs. unfold DynamoStore_PutTask, MemoryStore_PutTask. cbn zeta. rewrite Hk.
  destruct (task_marshal _ Hok) as (it & Em & Eu). rewrite Em, (proj2 (String.eqb_neq (Task_TaskID t) "")) by done.
  rewrite String.eqb_refl, (bool_decide_false ("" ≠ "")) by tauto. rewrite <- (is_Some_fmap_decide VTask).
  apply (insert_sim m d (STask (Task_TaskID t)) (VTask t) (task_item now 0 t it)); [done|done|by apply task_item_key|by apply rep_task_item|done].
Qed.

Lemma PutStep_sim m d st :
  step_ok st -> Step_RunID st <> "" -> sim m (tables d) -> agrees m d (DynamoStore_PutStep s st) (MemoryStore_PutStep st m).
Proof.
  intros Hok Ht Hs. unfold DynamoStore_PutStep, MemoryStore_PutStep. cbn zeta.
  destruct (plain_marshal _ Hok) as (it & Em & Eu). rewrite Em, (proj2 (String.eqb_neq (Step_RunID st) "")) by done.
  rewrite <- (is_Some_fmap_decide VStep).
  apply (insert_sim m d (SStep (Step_RunID st) (Step_StepIndex st)) (VStep st) (put_attrs [("pk", avString (stepPK (Step_RunID st)));
    ("sk", avString (stepSK (Step_StepIndex st))); ("entity", avString "step")] it));
    [done|done|apply plain_item_key; not_in|by apply rep_step_item|done].
Qed.

(** *** Connections *)

(** A write without a condition. *)
Lemma always_sim m d x v it (call : ST D (result DynErr unit)) refused msg :
  slot_ok x -> fits x v = true -> opt_rep v it -> sim m (tables d) ->
  (exists d' r, call d = (d', r) /\ written fails (tables d) (tables d') true (set_slot x it (tables d)) refused r) ->
  agrees m d (r ← call; mret (match r with Ok _ => Ok tt | Err e => service_err msg e end)) (slot_put x v m, Ok tt).
Proof.
  intros Hx Hf Hr Hs (d' & r & E & Hw).
  assert (Hnew : same_tables (set_slot x it (tables d)) (tables d') -> sim (slot_put x v m) (tables d')).
  { intros Hsame. by eapply (sim_put m (tables d) _ x v it). }
  destruct Hw as [[-> Hsame]|[[Hfl [e ->]] Hsame]].
  - exists d', (Ok tt). rewrite ST_bind_run, E. split; [done|]. left. split; [done|]. by apply Hnew.
  - eapply failed_agrees; [by rewrite ST_bind_run, E|done|]. destruct Hsame as [?|[_ ?]]; [left; by eapply sim_same|right; by apply Hnew].
Qed.

Lemma PutConnection_sim m d c :
  connection_ok c -> Connection_ConnectionID c <> "" -> sim m (tables d) ->
  agrees m d (DynamoStore_PutConnection s c) (MemoryStore_PutConnection c m).
Proof.
  intros Hok Hc Hs. unfold DynamoStore_PutConnection, MemoryStore_PutConnection.
  destruct (plain_marshal _ Hok) as (it & Em & Eu). rewrite Em, (proj2 (String.eqb_neq (Connection_ConnectionID c) "")) by done.
  apply (always_sim m d (SConn (Connection_ConnectionID c)) (Some (VConn c)) (Some (connection_item c it)) _ cond_refused); try done.
  - by apply rep_connection_item.
  - apply (put_item_call fails Hfails (connectionsTable s) (connection_item c it) (connectionPK (Connection_ConnectionID c), connMetaSK) None d).
    apply plain_item_key; not_in.
Qed.

Lemma DeleteConnection_sim m d c :
  sim m (tables d) -> agrees m d (DynamoStore_DeleteConnection s c) (MemoryStore_DeleteConnection c m).
Proof.
  intros Hs. apply (always_sim m d (SConn c) None None _ (fun _ => False)); try done.
  apply (delete_item_call fails Hfails (connectionsTable s) (connectionPK c, connMetaSK) d).
Qed.

(** *** Transactions *)

Lemma string_eqb_decide a b : String.eqb a b = bool_decide (a = b).
Proof. destruct (String.eqb_spec a b); by case_bool_decide. Qed.


(** Inserts of new records in one transaction. *)
Record new_record : Type := mkNew { nr_slot : slot; nr_value : srec; nr_item : Item }.

Definition nr_ok (n : new_record) : Prop :=
  slot_ok (nr_slot n) /\ fits (nr_slot n) (Some (nr_value n)) = true /\ item_key (nr_item n) = Some (addr s (nr_slot n)).2 /\
  rep (nr_value n) (nr_item n).

Definition nr_put (n : new_record) : TransactItem := TPut (addr s (nr_slot n)).1 (nr_item n) key_free.

Lemma nr_holds m T l : Forall nr_ok l -> sim m T ->
  forallb (write_holds T) (map nr_put l) = forallb (fun n => negb (bool_decide (is_Some (slot_get m (nr_slot n))))) l.
Proof.
  intros Hl Hs. induction Hl as [|n l (Hx & Hf & Hk & Hr) Hl IH]; [done|]. cbn [map forallb]. rewrite IH. f_equal.
  unfold nr_put. cbn [write_holds]. rewrite Hk. by apply sim_key_free.
Qed.

Lemma nr_writes m T l : Forall nr_ok l -> sim m T ->
  exists T', write_all (map nr_put l) T = Some T' /\ sim (fold_left (fun m n => slot_put (nr_slot n) (Some (nr_value n)) m) l m) T'.
Proof.
  intros Hl. revert m T. induction Hl as [|n l (Hx & Hf & Hk & Hr) Hl IH]; intros m T Hs; [by exists T|].
  cbn [map write_all]. assert (write_effect (nr_put n) T = Some (set_slot (nr_slot n) (Some (nr_item n)) T)) as -> by (cbn; by rewrite Hk).
  cbn [mbind option_bind fold_left]. apply IH.
  by eapply (sim_put m T _ (nr_slot n) (Some (nr_value n)) (Some (nr_item n))).
Qed.

(** A refused transaction names a failed condition. *)
Lemma refused_code T l e : forallb (write_holds T) l = false -> transact_refused T l e -> isTransactionConditionFailed e = true.
Proof.
  intros Hl (codes & msg & -> & Hlen & Hc). cbn. apply existsb_exists. exists failed_code. split; [|reflexivity].
  assert (exists i x, l !! i = Some x /\ write_holds T x = false) as (i & x & Hi & Hx).
  { clear -Hl. induction l as [|x l IH]; [done|]. cbn in Hl. destruct (write_holds T x) eqn:E; [|by exists 0%nat, x].
    destruct (IH Hl) as (i & y & Hi & Hy). by exists (S i), y. }
  apply (Hc i x Hi) in Hx. apply list_elem_of_In. by eapply list_elem_of_lookup_2.
Qed.

Definition nr_free (m : MemoryStore) (n : new_record) : bool := negb (bool_decide (is_Some (slot_get m (nr_slot n)))).

Definition nr_store (l : list new_record) (m : MemoryStore) : MemoryStore :=
  fold_left (fun m n => slot_put (nr_slot n) (Some (nr_value n)) m) l m.

Lemma transact_inserts m d l E msg :
  Forall nr_ok l -> sim m (tables d) ->
  agrees m d (r ← TransactWriteItems (map nr_put l);
              mret (match r with
                    | Ok _ => Ok tt
                    | Err e => if isConditionalCheckFailed e || isTransactionConditionFailed e then Err E else service_err msg e
                    end))
    (if forallb (nr_free m) l then (nr_store l m, Ok tt) else (m, Err E)).
Proof.
  intros Hl Hs. destruct (nr_writes m (tables d) l Hl Hs) as (T' & Hw & Hs').
  destruct (transact_call fails Hfails _ _ d Hw) as (d' & r & Eq & Hr). unfold written in Hr. pose proof (nr_holds m (tables d) l Hl Hs) as Hh.
  assert (Hkeep : same_tables (tables d) (tables d') -> sim m (tables d')) by (intros; by eapply sim_same).
  fold (nr_store l m) in Hs'. change (forallb _ l) with (forallb (nr_free m) l) in Hh. rewrite Hh in Hr. destruct (forallb (nr_free m) l).
  - destruct Hr as [[-> Hsame]|[[Hfl [e ->]] Hsame]].
    + exists d', (Ok tt). rewrite ST_bind_run, Eq. split; [done|]. left. split; [done|]. by eapply sim_same.
    + eapply failed_agrees; [by rewrite ST_bind_run, Eq|done|]. destruct Hsame as [?|[_ ?]]; [left; by apply Hkeep|right; by eapply sim_same].
  - destruct Hr as [(e & -> & Href & Hsame)|[[Hfl [e ->]] Hsame]].
    + exists d', (Err E). rewrite ST_bind_run, Eq. cbn [fst snd]. rewrite (refused_code _ _ _ Hh Href), orb_true_r. split; [done|].
      left. split; [done|]. by apply Hkeep.
    + eapply failed_agrees; [by rewrite ST_bind_run, Eq|done|]. destruct Hsame as [?|[? _]]; [left; by apply Hkeep|done].
Qed.

Lemma ApplyCreateTransition_sim m d now t r :
  opt_ok task_ok t -> opt_ok run_ok r -> opt_ok (fun r => no_hash (Run_TaskID r)) r -> time_ok (now 0%nat) -> sim m (tables d) ->
  agrees m d (DynamoStore_ApplyCreateTransition s now t r) (MemoryStore_ApplyCreateTransition (now 0%nat) t r m).
Proof.
  intros Ht Hr Hh Hn Hs. unfold DynamoStore_ApplyCreateTransition, MemoryStore_ApplyCreateTransition.
  destruct t as [t|]; [|by apply agrees_ret]. destruct r as [r|]; cbn [ensureQueuedAt]; [|by apply agrees_ret]. cbn in Ht, Hr, Hh.
  pose proof (ensureQueuedAt_ok r _ Hn Hr) as Hok. destruct (ensureQueuedAt_run_ids r (now 0%nat)) as (E1 & E2 & _).
  set (r' := ensureQueuedAt_run r (now 0%nat)) in *. rewrite <- E1 in Hh. clearbody r'.
  rewrite !string_eqb_decide.
  destruct (bool_decide (Task_TaskID t = "") || bool_decide (Run_TaskID r' = "") || bool_decide (Run_RunID r' = "")) eqn:Eid;
    [by apply agrees_ret|].
  apply orb_false_iff in Eid as [Eid Er0]. apply orb_false_iff in Eid as [Et0 Er1]. apply bool_decide_eq_false in Et0.
  rewrite <- bool_decide_not. destruct (bool_decide (Run_TaskID r' <> Task_TaskID t)) eqn:Eq; [by apply agrees_ret|].
  destruct (task_marshal t Ht) as (tit & -> & Hut). destruct (run_marshal r' Hok) as (rit & -> & Hur). cbn zeta.
  set (created := if time_IsZero (Task_CreatedAt t) then now 3%nat else Task_CreatedAt t).
  set (l := [mkNew (STask (Task_TaskID t)) (VTask t) (task_item now 1 t tit); mkNew (SRun (Run_TaskID r') (Run_RunID r')) (VRun r') (run_item r' rit)]
    ++ if bool_decide (Task_IdempotencyKey t = "") then []
       else [mkNew (SIdem (idempKey (Task_TenantID t) (Task_IdempotencyKey t))) (VIdem (Task_TaskID t)) (idempotency_item t created)]).
  assert (Hl : Forall nr_ok l).
  { apply Forall_app_2; [apply Forall_cons_2; [|apply Forall_cons_2; [|apply Forall_nil_2]]|].
    - split_and!; [done|done|by apply task_item_key|by apply rep_task_item].
    - split_and!; [done|done|by apply run_item_key|by apply rep_run_item].
    - destruct (bool_decide (Task_IdempotencyKey t = "")); [apply Forall_nil_2|]. apply Forall_cons_2; [|apply Forall_nil_2].
      split_and!; [done|done|by apply idempotency_item_key|by apply rep_idempotency_item]. }
  pose proof (transact_inserts m d l ErrAlreadyExists "state: apply create transition: " Hl Hs) as Hres.
  replace (map nr_put l) with ([TPut (tasksTable s) (task_item now 1 t tit) key_free; TPut (runsTable s) (run_item r' rit) key_free]
    ++ (if bool_decide (Task_IdempotencyKey t = "") then [] else [TPut (tasksTable s) (idempotency_item t created) key_free])) in Hres
    by (subst l; by destruct (bool_decide (Task_IdempotencyKey t = ""))).
  match goal with |- agrees m d ?c ?x => enough (x = (if forallb (nr_free m) l then (nr_store l m, Ok tt) else (m, Err ErrAlreadyExists))) as ->
    by exact Hres end. clear Hres. subst l. rewrite bool_decide_not.
  destruct (bool_decide (Task_IdempotencyKey t = "")); unfold nr_free; cbn [negb app forallb nr_slot slot_get]; rewrite !is_Some_fmap_decide;
    repeat (match goal with |- context [bool_decide (is_Some ?x)] => destruct (bool_decide (is_Some x)); cbn [negb andb] end); done.
Qed.

Lemma resume_actions_rep now runID to t it it' :
  time_ok (now 1%nat) -> rep (VTask t) it -> act_all (resume_actions now runID to) it = Some it' ->
  rep (VTask (t <| Task_ActiveRunID := runID |> <| Task_AbortRequested := false |> <| Task_AbortReason := "" |>
    <| Task_AbortTS := None |> <| Task_Status := to |> <| Task_UpdatedAt := now 1%nat |>)) it'.
Proof.
  intros Hn Hr [= <-]. apply (rep_task_set _ _ _ _ _ (ta_active_run_id runID)) in Hr.
  apply (rep_task_set _ _ _ _ _ (ta_abort_requested false)) in Hr. apply (rep_task_set _ _ _ _ _ (ta_abort_reason "")) in Hr.
  apply (rep_task_set _ _ _ _ _ (ta_status to)) in Hr. apply (rep_task_set _ _ _ _ _ (ta_updated_at _ Hn)) in Hr.
  by apply rep_task_unset in Hr.
Qed.

(** The codes of a refused transaction of two writes. *)
Lemma two_codes T a b e :
  transact_refused T [a; b] e -> isRunInsertConflict e = negb (write_holds T a) /\ isTaskUpdateConflict e = negb (write_holds T b).
Proof.
  intros (codes & msg & -> & Hlen & Hc). destruct codes as [|c1 [|c2 [|]]]; try done.
  pose proof (Hc 0%nat a eq_refl) as H1'. pose proof (Hc 1%nat b eq_refl) as H2'. cbn [lookup list_lookup] in H1', H2'.
  cbn [isRunInsertConflict isTaskUpdateConflict]. split.
  - destruct (String.eqb_spec c1 failed_code), (write_holds T a); naive_solver.
  - destruct (String.eqb_spec c2 failed_code), (write_holds T b); naive_solver.
Qed.

(** The transaction of a resume when the task exists. *)
Lemma resume_transact m d now r it from to t :
  run_ok r -> no_hash (Run_TaskID r) -> time_ok (now 1%nat) -> unmarshalMap it = Ok r -> sim m (tables d) ->
  MS_tasks m !! Run_TaskID r = Some t ->
  let updated := store_task (Run_TaskID r) (t <| Task_ActiveRunID := Run_RunID r |> <| Task_AbortRequested := false |>
      <| Task_AbortReason := "" |> <| Task_AbortTS := None |> <| Task_Status := to |> <| Task_UpdatedAt := now 1%nat |>)
      (m <| MS_runs ::= insert (runKey (Run_TaskID r) (Run_RunID r)) r |>) in
  exists d' res,
  TransactWriteItems [TPut (runsTable s) (run_item r it) key_free;
    TUpdate (tasksTable s) (taskPK (Run_TaskID r), taskMetaSK) (cond_and (attribute_exists "pk") (buildStatusConditionTask from))
      (resume_actions now (Run_RunID r) to)] d = (d', res) /\
  ((if bool_decide (is_Some (MS_runs m !! runKey (Run_TaskID r) (Run_RunID r)))
    then (exists e, res = Err e /\ isRunInsertConflict e = true) /\ sim m (tables d')
    else if bool_decide (Task_Status t ∈ from) then res = Ok tt /\ sim updated (tables d')
    else (exists e, res = Err e /\ isRunInsertConflict e = false /\ isTaskUpdateConflict e = true) /\ sim m (tables d')) \/
   (outage fails res /\ (sim m (tables d') \/
      (bool_decide (is_Some (MS_runs m !! runKey (Run_TaskID r) (Run_RunID r))) = false /\ bool_decide (Task_Status t ∈ from) = true /\
       sim updated (tables d'))))).
Proof.
  intros Hr Hh Hn Hu Hs Ht updated. set (y := STask (Run_TaskID r)). set (acts := resume_actions now (Run_RunID r) to).
  set (c := cond_and (attribute_exists "pk") (buildStatusConditionTask from)).
  pose proof (Hs y I) as Hy. cbn [slot_get y] in Hy. subst y. cbn [slot_get] in Hy. rewrite Ht in Hy. cbn [fmap option_fmap option_map opt_rep] in Hy.
  destruct (at_slot (tables d) (STask (Run_TaskID r))) as [ti|] eqn:Eti; [|done].
  assert (exists ti', act_all acts ti = Some ti') as [ti' Hti'] by (eexists; reflexivity).
  assert (Hrun : nr_ok (mkNew (SRun (Run_TaskID r) (Run_RunID r)) (VRun r) (run_item r it))).
  { split_and!; [done|done|by apply run_item_key|by apply rep_run_item]. }
  assert (Hw : write_all [TPut (runsTable s) (run_item r it) key_free; TUpdate (tasksTable s) (taskPK (Run_TaskID r), taskMetaSK) c acts] (tables d)
    = Some (set_slot (STask (Run_TaskID r)) (Some ti') (set_slot (SRun (Run_TaskID r) (Run_RunID r)) (Some (run_item r it)) (tables d)))).
  { cbn [write_all write_effect]. rewrite run_item_key. cbn [mbind option_bind].
    change (table_set (runsTable s) _ _ _) with (set_slot (SRun (Run_TaskID r) (Run_RunID r)) (Some (run_item r it)) (tables d)).
    match goal with |- context [default _ ?X] =>
      change X with (at_slot (set_slot (SRun (Run_TaskID r) (Run_RunID r)) (Some (run_item r it)) (tables d)) (STask (Run_TaskID r))) end.
    rewrite at_set_slot, decide_False, Eti by done. cbn [default]. unfold id. by rewrite Hti'. }
  destruct (transact_call fails Hfails _ _ d Hw) as (d' & res & E & Hres). exists d', res. split; [exact E|]. unfold written in Hres.
  pose proof (nr_holds m (tables d) [_] ltac:(apply Forall_cons_2; [exact Hrun|apply Forall_nil_2]) Hs) as Hrh.
  cbn [map forallb nr_slot slot_get] in Hrh. rewrite !andb_true_r, is_Some_fmap_decide in Hrh.
  assert (Hth : write_holds (tables d) (TUpdate (tasksTable s) (taskPK (Run_TaskID r), taskMetaSK) c acts) = bool_decide (Task_Status t ∈ from)).
  { cbn [write_holds]. unfold holds_at. unfold at_slot in Eti. cbn [addr fst snd] in Eti. rewrite Eti. cbn [default c holds]. subst c. unfold id.
    cbn [holds]. by rewrite (exists_pk _ _ Hy), (status_condition_rep _ _ _ Hy). }
  cbn [forallb] in Hres. unfold nr_put in Hrh. cbn [nr_slot nr_item addr fst snd] in Hrh. rewrite Hth, Hrh, andb_true_r in Hres.
  assert (Hkeep : same_tables (tables d) (tables d') -> sim m (tables d')) by (intros; by eapply sim_same).
  assert (Hnew : same_tables (set_slot (STask (Run_TaskID r)) (Some ti') (set_slot (SRun (Run_TaskID r) (Run_RunID r)) (Some (run_item r it)) (tables d)))
    (tables d') -> sim updated (tables d')).
  { intros Hsame. eapply sim_same; [exact Hsame|].
    eapply (sim_put _ (set_slot (SRun (Run_TaskID r) (Run_RunID r)) (Some (run_item r it)) (tables d)) _ (STask (Run_TaskID r)) (Some (VTask _)) (Some ti'));
      [done|done|cbn; by apply (resume_actions_rep now (Run_RunID r) to t ti)|done|].
    destruct Hrun as (? & ? & ? & ?). by eapply (sim_put m (tables d) _ (SRun (Run_TaskID r) (Run_RunID r)) (Some (VRun r)) (Some (run_item r it))). }
  destruct Hres as [Hres|[Ho Hsame]].
  - left. destruct (bool_decide (is_Some _)); cbn [negb andb] in *; [|destruct (bool_decide (Task_Status t ∈ from))].
    + destruct Hres as (e & -> & Href & Hsame). split; [|by apply Hkeep]. exists e. split; [done|]. apply two_codes in Href as [-> _]. by rewrite Hrh.
    + destruct Hres as [-> Hsame]. split; [done|by apply Hnew].
    + destruct Hres as (e & -> & Href & Hsame). split; [|by apply Hkeep]. exists e. split; [done|]. apply two_codes in Href as [-> ->].
      by rewrite Hrh, Hth.
  - right. split; [done|]. destruct Hsame as [?|[Hok ?]]; [left; by apply Hkeep|right]. apply andb_true_iff in Hok as [Hok1 Hok2].
    apply negb_true_iff in Hok1. split_and!; [done|done|by apply Hnew].
Qed.

Lemma ApplyResumeTransition_sim m d now taskID r from to :
  opt_ok run_ok r -> no_hash taskID -> from <> [] -> time_ok (now 0%nat) -> time_ok (now 1%nat) -> sim m (tables d) ->
  agrees m d (DynamoStore_ApplyResumeTransition s now taskID r from to) (MemoryStore_ApplyResumeTransition (now 0%nat) (now 1%nat) taskID r from to m).
Proof.
  intros Hr Hh Hf Hn0 Hn1 Hs. unfold DynamoStore_ApplyResumeTransition, MemoryStore_ApplyResumeTransition.
  destruct r as [r|]; cbn [ensureQueuedAt]; [|by apply agrees_ret]. cbn in Hr.
  pose proof (ensureQueuedAt_ok r _ Hn0 Hr) as Hok. set (r' := ensureQueuedAt_run r (now 0%nat)) in *. clearbody r'.
  rewrite !string_eqb_decide, <- bool_decide_not. destruct (_ || _ || _) eqn:Eid; [by apply agrees_ret|].
  assert (Run_TaskID r' = taskID) as <-. { apply orb_false_iff in Eid as [_ Eid]. apply bool_decide_eq_false in Eid. by apply dec_stable. }
  destruct (Nat.eqb_spec (length from) 0) as [E0|_]; [by destruct from|].
  destruct (taskExists_sim m d (Run_TaskID r') Hs) as (d1 & ex & Ex & Hs1 & [->|[Hfl (msg & e & ->)]]);
    [|eexists d1, _; split; [by rewrite ST_bind_run, Ex|]; right; split; [done|]; split; [by eexists _, _|by left]].
  unfold agrees. rewrite ST_bind_run, Ex. cbn [fst snd].
  destruct (MS_tasks m !! Run_TaskID r') as [t|] eqn:Et; [|eexists d1, _; split; [done|]; by left]. rewrite bool_decide_true by done.
  destruct (run_marshal r' Hok) as (it & -> & Hu). rewrite ST_bind_run.
  destruct (resume_transact m d1 now r' it from to t Hok Hh Hn1 Hu Hs1 Et) as (d2 & res & -> & [Hres|[[Hfl [e ->]] Hres]]); cbn [fst snd];
    [destruct (bool_decide (is_Some (MS_runs m !! _))); [|destruct (bool_decide (Task_Status t ∈ from))]|].
  - destruct Hres as [(e & -> & ->) Hs2]. eexists d2, _. split; [done|]. by left.
  - destruct Hres as [-> Hs2]. eexists d2, _. split; [done|]. by left.
  - destruct Hres as [(e & -> & -> & ->) Hs2]. cbn [orb]. pose proof (mapTaskConditionErr_sim m d2 (Run_TaskID r') Hs2) as Hm.
    rewrite Et in Hm. exact Hm.
  - eexists d2, _. split; [done|]. right. split; [done|]. split; [by eexists _, _|].
    destruct Hres as [?|(-> & -> & ?)]; [by left|by right].
Qed.

(** ** Reads of records *)

(** A read of a record that decodes its item. *)
Lemma get_record {A B} `{ItemCodec B} m d x (msg1 msg2 : string) (conv : A -> B) (v : option A) (inj : A -> srec) :
  slot_ok x -> sim m (tables d) -> slot_get m x = inj <$> v -> (forall a it, rep (inj a) it -> unmarshalMap it = Ok (conv a)) ->
  reads m d (r ← GetItem (addr s x).1 (addr s x).2;
             mret (match r with
                   | Err e => service_err msg1 e
                   | Ok it => if bool_decide (it = ∅) then Err ErrNotFound
                              else match unmarshalMap it with Err e => Err (wrapf msg2 e) | Ok b => Ok b end
                   end))
    (match v with Some a => Ok (conv a) | None => Err ErrNotFound end).
Proof.
  intros Hx Hs Hg Hc. unfold reads. rewrite ST_bind_run. destruct (get_slot m d x Hx Hs) as (d' & r & -> & Hs' & Hr). cbn [fst snd].
  eexists d', _. split; [done|]. split; [done|]. rewrite Hg in Hr.
  destruct Hr as [(it & -> & Hr)|[Hf [e ->]]]; [left|right; split; [done|by eexists _, _]]. destruct v as [a|]; cbn in Hr.
  - rewrite bool_decide_false by (by eapply rep_nonempty). by rewrite (Hc a it Hr).
  - by rewrite bool_decide_true.
Qed.

Lemma GetTask_sim m d taskID : taskID <> "" -> sim m (tables d) -> reads m d (DynamoStore_GetTask s taskID) (MemoryStore_GetTask taskID m).
Proof.
  intros Ht Hs. unfold DynamoStore_GetTask. rewrite (proj2 (String.eqb_neq taskID "")) by done.
  exact (get_record m d (STask taskID) "state: get task: " "state: unmarshal task: " id (MS_tasks m !! taskID) VTask I Hs eq_refl
    (fun a it Hr => proj1 (proj2 Hr))).
Qed.

Lemma GetRun_sim m d taskID runID : no_hash taskID -> sim m (tables d) ->
  reads m d (DynamoStore_GetRun s taskID runID) (match MemoryStore_GetRun taskID runID m with Ok r => Ok (norm_run r) | Err e => Err e end).
Proof.
  intros Hh Hs. pose proof (get_record m d (SRun taskID runID) "state: get run: " "state: unmarshal run: " norm_run
    (MS_runs m !! runKey taskID runID) VRun Hh Hs eq_refl (fun a it Hr => proj1 (proj2 Hr))) as Hg.
  unfold MemoryStore_GetRun. by destruct (MS_runs m !! _).
Qed.

Lemma GetStep_sim m d runID i : sim m (tables d) -> reads m d (DynamoStore_GetStep s runID i) (MemoryStore_GetStep runID i m).
Proof.
  intros Hs. exact (get_record m d (SStep runID i) "state: get step: " "state: unmarshal step: " id (MS_steps m !! stepKey runID i) VStep I Hs eq_refl
    (fun a it Hr => proj2 Hr)).
Qed.

Lemma GetConnection_sim m d c : sim m (tables d) -> reads m d (DynamoStore_GetConnection s c) (MemoryStore_GetConnection c m).
Proof.
  intros Hs. exact (get_record m d (SConn c) "state: get connection: " "state: unmarshal connection: " id (MS_connections m !! c) VConn I Hs eq_refl
    (fun a it Hr => proj2 Hr)).
Qed.

Lemma GetTaskByIdempotencyKey_sim m d tenantID key : tenantID <> "" -> key <> "" -> sim m (tables d) ->
  reads m d (DynamoStore_GetTaskByIdempotencyKey s tenantID key) (MemoryStore_GetTaskByIdempotencyKey tenantID key m).
Proof.
  intros Ht Hk Hs. unfold DynamoStore_GetTaskByIdempotencyKey, MemoryStore_GetTaskByIdempotencyKey.
  rewrite (proj2 (String.eqb_neq tenantID "")), (proj2 (String.eqb_neq key "")) by done. cbn [orb]. unfold reads. rewrite ST_bind_run.
  destruct (get_slot m d (SIdem (idempKey tenantID key)) I Hs) as (d1 & r & E & Hs1 & Hr).
  change ((addr s (SIdem (idempKey tenantID key))).1) with (tasksTable s) in E.
  change ((addr s (SIdem (idempKey tenantID key))).2) with (idempotencyPK tenantID key, taskMetaSK) in E. rewrite E. cbn [fst snd]. cbn [slot_get] in Hr.
  destruct Hr as [(it & -> & Hr)|[Hf [e ->]]];
    [|eexists d1, _; split; [done|]; split; [done|]; right; split; [done|by eexists _, _]].
  destruct (MS_idempotency m !! idempKey tenantID key) as [id|]; cbn in Hr.
  - rewrite bool_decide_false by (by eapply (rep_nonempty (VIdem id))). destruct Hr as (_ & Hid & Ha). unfold getStringAttr. rewrite Ha.
    unfold avString. rewrite string_decode, (proj2 (String.eqb_neq id "")) by done. exact (GetTask_sim m d1 id Hid Hs1).
  - rewrite bool_decide_true by done. eexists d1, _. split; [done|]. split; [done|]. by left.
Qed.
End simulation.

(** ** Executions *)

(** The readings of the clock that an operation of the memory store is given, then others. *)
Definition readings (o : store_op) (clock : nat -> Time) (n : nat) : Time :=
  match o, n with
  | OpApplyCreateTransition t _ _, O | OpUpdateTaskStatus t _ _ _, O | OpUpdateTaskStatusForRun t _ _ _ _, O
  | OpSetAbortRequested t _ _, O | OpClearAbortRequested t _, O | OpSetActiveRun t _ _, O | OpApplyResumeTransition t _ _ _ _ _, O
  | OpApplyResumeTransition _ t _ _ _ _, 1%nat | OpPutRun t _, O | OpClaimRun t _ _, O | OpCompleteRun t _ _ _, O
  | OpResetRunToQueued t _ _, O => t
  | _, _ => clock n
  end.

(** The operations on which the stores agree: status guards are not empty, ids are not empty
    and task ids have no number sign, tasks with an idempotency key are created together with
    their run, numbers and times fit in 64 bits.  AddRunUsage, PutEvent and CompactEvents are not among
    them: the first differs for a run that does not exist, the second has its own keys and expiry, and
    the third deletes in batches, so that it may stop half-way. *)
Definition op_ok (o : store_op) : Prop :=
  match o with
  | OpApplyCreateTransition now t r =>
      time_ok now /\ opt_ok task_ok t /\ opt_ok run_ok r /\ opt_ok (fun r => no_hash (Run_TaskID r)) r
  | OpPutTask t => task_ok t /\ Task_TaskID t <> "" /\ Task_IdempotencyKey t = ""
  | OpUpdateTaskStatus now _ from _ | OpUpdateTaskStatusForRun now _ _ from _ => time_ok now /\ from <> []
  | OpSetAbortRequested now _ _ | OpClearAbortRequested now _ | OpSetActiveRun now _ _ => time_ok now
  | OpApplyResumeTransition now1 now2 taskID r from _ =>
      time_ok now1 /\ time_ok now2 /\ no_hash taskID /\ opt_ok run_ok r /\ from <> []
  | OpPutRun now r => time_ok now /\ run_ok r /\ no_hash (Run_TaskID r) /\ Run_TaskID r <> "" /\ Run_RunID r <> ""
  | OpClaimRun now taskID _ | OpCompleteRun now taskID _ _ | OpResetRunToQueued now taskID _ => time_ok now /\ no_hash taskID
  | OpUpdateLastStepIndex taskID _ i => in_int64 i /\ no_hash taskID
  | OpPutStep st => step_ok st /\ Step_RunID st <> ""
  | OpPutConnection c => connection_ok c /\ Connection_ConnectionID c <> ""
  | OpDeleteConnection _ => True
  | OpAddRunUsage _ _ _ _ | OpPutEvent _ _ _ | OpCompactEvents _ _ _ => False
  end.

(** The results of a sequence of operations of the memory store. *)
Fixpoint exec_results (ops : list store_op) (m : MemoryStore) : list (result error unit) :=
  match ops with
  | [] => []
  | o :: ops' => (exec_op o m).2 :: exec_results ops' (exec_op o m).1
  end.

(** The results of the operations and the state they lead to: an operation whose call failed took
    effect completely or not at all. *)
Inductive explained (fails : Prop) : list store_op -> list (result error unit) -> MemoryStore -> MemoryStore -> Prop :=
| ex_nil m : explained fails [] [] m m
| ex_done o ops rs m m' :
    explained fails ops rs (exec_op o m).1 m' -> explained fails (o :: ops) ((exec_op o m).2 :: rs) m m'
| ex_failed o ops r rs m m1 m' :
    fails -> service_failure r -> m1 = m \/ m1 = (exec_op o m).1 -> explained fails ops rs m1 m' ->
    explained fails (o :: ops) (r :: rs) m m'.

Lemma explained_available ops rs m m' : explained False ops rs m m' -> rs = exec_results ops m /\ m' = exec_ops ops m.
Proof. intros He. remember False as F. revert HeqF. induction He; intros ->; [done| |done]. destruct (IHHe eq_refl) as [-> ->]. done. Qed.

Section executions.
Context {D : Type} `{HD : DynamoDB D} `{HL : !DynamoLaws D}.
Context `{HSc : ScalarCodec} `{TC : !ItemCodec Task} `{RC : !ItemCodec Run} `{SC : !ItemCodec Step} `{CC : !ItemCodec Connection}
  `{VC : !ItemCodec StreamEvent}.
Context `{!TaskCodec} `{!RunCodec} `{!PlainCodec step_ok} `{!PlainCodec connection_ok} `{!StringCodec} (s : DynamoStore) (fuel : nat) (clock : nat -> Time).

(** The same operations on the production store; the result is [None] for one that has not returned
    after reading [fuel] pages. *)
Definition dyn_op (o : store_op) : ST D (option (result error unit)) :=
  let now := readings o clock in
  let returns (call : ST D (result error unit)) := (r ← call; mret (Some r)) in
  match o with
  | OpApplyCreateTransition _ t r => returns (DynamoStore_ApplyCreateTransition s now t r)
  | OpPutTask t => returns (DynamoStore_PutTask s now t)
  | OpUpdateTaskStatus _ t from to => returns (DynamoStore_UpdateTaskStatus s now t from to)
  | OpUpdateTaskStatusForRun _ t r from to => returns (DynamoStore_UpdateTaskStatusForRun s now t r from to)
  | OpSetAbortRequested _ t reason => returns (DynamoStore_SetAbortRequested s now t reason)
  | OpClearAbortRequested _ t => returns (DynamoStore_ClearAbortRequested s now t)
  | OpSetActiveRun _ t r => returns (DynamoStore_SetActiveRun s now t r)
  | OpApplyResumeTransition _ _ t r from to => returns (DynamoStore_ApplyResumeTransition s now t r from to)
  | OpPutRun _ r => returns (DynamoStore_PutRun s now r)
  | OpClaimRun _ t r => returns (DynamoStore_ClaimRun s now t r)
  | OpCompleteRun _ t r st => returns (DynamoStore_CompleteRun s now t r st)
  | OpUpdateLastStepIndex t r i => returns (DynamoStore_UpdateLastStepIndex s t r i)
  | OpAddRunUsage t r u c => returns (DynamoStore_AddRunUsage s t r u c)
  | OpResetRunToQueued _ t r => returns (DynamoStore_ResetRunToQueued s now t r)
  | OpPutStep st => returns (DynamoStore_PutStep s st)
  | OpPutConnection c => returns (DynamoStore_PutConnection s c)
  | OpDeleteConnection c => returns (DynamoStore_DeleteConnection s c)
  | OpPutEvent _ _ ev => returns (DynamoStore_PutEvent s now ev)
  | OpCompactEvents t r b =>
      r ← DynamoStore_CompactEvents s fuel t r b;
      mret (match r with
            | None => None
            | Some (_, None) => Some (Ok tt)
            | Some (_, Some e) => Some (Err e)
            end)
  end.

(** The results of a sequence, up to an operation that does not return. *)
Fixpoint dyn_ops (ops : list store_op) : ST D (list (result error unit)) :=
  match ops with
  | [] => mret []
  | o :: ops' =>
      r ← dyn_op o;
      match r with
      | None => mret []
      | Some r => rs ← dyn_ops ops'; mret (r :: rs)
      end
  end.

Section steps.
Context (fails : Prop) (Hfails : DynamoAvailable D \/ fails).

Lemma dyn_op_sim m d o : op_ok o -> sim s m (tables d) -> 
  exists call, dyn_op o = (r ← call; mret (Some r)) /\ agrees fails s m d call (exec_op o m).
Proof.
  intros Ho Hs. destruct o; cbn [op_ok] in Ho; try done; destruct_and? Ho; cbn [exec_op dyn_op];
    eexists; (split; [reflexivity|]).
  - by apply (ApplyCreateTransition_sim fails Hfails s m d (readings (OpApplyCreateTransition now t r) clock)).
  - by apply (PutTask_sim fails Hfails s m d).
  - by apply (UpdateTaskStatus_sim fails Hfails s m d (readings (OpUpdateTaskStatus now taskID from to) clock)).
  - by apply (UpdateTaskStatusForRun_sim fails Hfails s m d (readings (OpUpdateTaskStatusForRun now taskID runID from to) clock)).
  - by apply (SetAbortRequested_sim fails Hfails s m d (readings (OpSetAbortRequested now taskID reason) clock)).
  - by apply (ClearAbortRequested_sim fails Hfails s m d (readings (OpClearAbortRequested now taskID) clock)).
  - by apply (SetActiveRun_sim fails Hfails s m d (readings (OpSetActiveRun now taskID runID) clock)).
  - by apply (ApplyResumeTransition_sim fails Hfails s m d (readings (OpApplyResumeTransition now1 now2 taskID r from to) clock)).
  - by apply (PutRun_sim fails Hfails s m d (readings (OpPutRun now r) clock)).
  - by apply (ClaimRun_sim fails Hfails s m d (readings (OpClaimRun now taskID runID) clock)).
  - by apply (CompleteRun_sim fails Hfails s m d (readings (OpCompleteRun now taskID runID status) clock)).
  - by apply (UpdateLastStepIndex_sim fails Hfails s m d).
  - by apply (ResetRunToQueued_sim fails Hfails s m d (readings (OpResetRunToQueued now taskID runID) clock)).
  - by apply (PutStep_sim fails Hfails s m d).
  - by apply (PutConnection_sim fails Hfails s m d).
  - by apply (DeleteConnection_sim fails Hfails s m d).
Qed.

Lemma dyn_ops_sim ops m d : Forall op_ok ops -> sim s m (tables d) ->
  exists d' rs m', dyn_ops ops d = (d', rs) /\ explained fails ops rs m m' /\ sim s m' (tables d').
Proof.
  intros Hops. revert m d. induction Hops as [|o ops Ho Hops IH]; intros m d Hs; [exists d, [], m; split_and!; [done|constructor|done]|].
  cbn [dyn_ops]. rewrite ST_bind_run. destruct (dyn_op_sim m d o Ho Hs) as (call & -> & d1 & r & Ec & Hr).
  rewrite ST_bind_run, Ec. cbn [fst snd mret ST_ret]. rewrite ST_bind_run.
  assert (exists m1, sim s m1 (tables d1) /\ forall rs m', explained fails ops rs m1 m' -> explained fails (o :: ops) (r :: rs) m m') as (m1 & Hs1 & Hex).
  { destruct Hr as [[-> Hs1]|(Hf & Hsf & [Hs1|Hs1])]; eexists; (split; [exact Hs1|]); intros rs m' He; [by constructor|..].
    - eapply ex_failed; [done|done|by left|done].
    - eapply ex_failed; [done|done|by right|done]. }
  destruct (IH m1 d1 Hs1) as (d2 & rs & m2 & -> & He & Hs2). exists d2, (r :: rs), m2. split_and!; [done|by apply Hex|done].
Qed.

(** What can be read of a store in a state. *)
Definition read_as {A} (r v : result error A) : Prop := r = v \/ (fails /\ service_failure r).

Definition readable (m : MemoryStore) (d : D) : Prop :=
  (forall taskID, taskID <> "" -> read_as (DynamoStore_GetTask s taskID d).2 (MemoryStore_GetTask taskID m)) /\
  (forall taskID runID, no_hash taskID -> read_as (DynamoStore_GetRun s taskID runID d).2
     (match MemoryStore_GetRun taskID runID m with Ok r => Ok (norm_run r) | Err e => Err e end)) /\
  (forall runID i, read_as (DynamoStore_GetStep s runID i d).2 (MemoryStore_GetStep runID i m)) /\
  (forall c, read_as (DynamoStore_GetConnection s c d).2 (MemoryStore_GetConnection c m)) /\
  (forall tenantID key, tenantID <> "" -> key <> "" ->
     read_as (DynamoStore_GetTaskByIdempotencyKey s tenantID key d).2 (MemoryStore_GetTaskByIdempotencyKey tenantID key m)).

Lemma reads_as {A} m d (comp : ST D (result error A)) v : reads fails s m d comp v -> read_as (comp d).2 v.
Proof. by intros (d' & r & -> & _ & Hr). Qed.

Lemma sim_readable m d : sim s m (tables d) -> readable m d.
Proof.
  intros Hs. split_and!; intros; eapply reads_as; [by apply GetTask_sim|by apply GetRun_sim|by apply GetStep_sim|by apply GetConnection_sim|
    by apply GetTaskByIdempotencyKey_sim].
Qed.

Lemma sim_empty d : (forall t k, tables d t k = None) -> sim s NewMemoryStore (tables d).
Proof. intros Hd x _. unfold at_slot. rewrite Hd. by destruct x. Qed.
End steps.

(** C17: While the service is available, the production store is equivalent to the in-memory store on the
    operations of [op_ok]: from empty tables, any sequence of them gives the same result for every operation,
    errors included, and afterwards every task, run, step, connection and idempotency key reads the same in both
    (a run without token usage reads with a usage of zero).  These are the creation and resume transitions, the
    updates of tasks and runs, PutTask, PutRun, PutStep, PutConnection and DeleteConnection, with non-empty ids,
    task ids without a number sign, numbers and times in 64 bits, and updates that expect at least one status; not
    among them are AddRunUsage, PutEvent, CompactEvents and PutTask with an idempotency key. *)
Theorem dynamo_simulates (HA : DynamoAvailable D) (ops : list store_op) (d : D) (Hops : Forall op_ok ops)
    (Hd : forall t k, tables d t k = None) :
  (dyn_ops ops d).2 = exec_results ops NewMemoryStore /\ readable False (exec_ops ops NewMemoryStore) (dyn_ops ops d).1.
Proof.
  destruct (dyn_ops_sim False (or_introl HA) ops NewMemoryStore d Hops (sim_empty d Hd)) as (d' & rs & m' & -> & He & Hs).
  apply explained_available in He as [-> ->]. split; [done|]. by apply (sim_readable False (or_introl HA)).
Qed.

End executions.
