(* ===== verification/DynamoReference.v ===== *)
(** * DynamoReference: a concrete service

    A service that keeps its items in one map, and an attribute encoding, for which all the laws
    of [DynamoDB], [DynamoItems] and [DynamoPages] are proved.  The witnesses of the theorems
    about the production store run on it; [faulty] is the same service with outages. *)

From Stdlib Require Import Ascii.
From S2P Require Import Prelude GoLib Model StateStore MemoryStore DynamoDB DynamoStore DynamoPages DynamoItems DynamoRefine.

(** ** The service *)

Abbreviation RefDB := (gmap (string * Key) Item).

Definition ref_tables (d : RefDB) : Tables := fun t k => d !! (t, k).

Definition ref_error : DynErr := ServiceError (errors_New "ValidationException").

Definition ref_put (t : string) (it : Item) (c : option cond) (d : RefDB) : RefDB * result DynErr unit :=
  match item_key it with
  | None => (d, Err ref_error)
  | Some k =>
      if match c with Some c => holds_at c (ref_tables d) t k | None => true end
      then (<[(t, k) := it]> d, Ok tt) else (d, Err (ConditionalCheckFailed "The conditional request failed"))
  end.

Definition ref_number_add (a b : string) : string := fmt_d (default 0 (Atoi a) + default 0 (Atoi b)).

(** A placeholder for the operations while the class is being built: the actions only use the
    addition of numbers. *)
Definition ref_ops (upd : string -> Key -> cond -> list action -> ST RefDB (result DynErr unit))
    (tra : list TransactItem -> ST RefDB (result DynErr unit)) (qry : QueryInput -> Item -> option Z -> ST RefDB (result DynErr (list Item * Item)))
    : DynamoDB RefDB := {|
  GetItem t k d := (d, Ok (default ∅ (d !! (t, k))));
  PutItem := ref_put;
  UpdateItem := upd;
  DeleteItem t k d := (delete (t, k) d, Ok tt);
  TransactWriteItems := tra;
  Query := qry;
  BatchDelete t keys d :=
    (fold_left (fun d x => match x with (AVS pk, AVS sk) => delete (t, (pk, sk)) d | _ => d end) keys d, Ok O);
  number_add := ref_number_add |}.

Definition ref_numbers : DynamoDB RefDB :=
  ref_ops (fun _ _ _ _ d => (d, Ok tt)) (fun _ d => (d, Ok tt)) (fun _ _ _ d => (d, Ok ([], ∅))).

Definition ref_update (t : string) (k : Key) (c : cond) (acts : list action) (d : RefDB) : RefDB * result DynErr unit :=
  if holds_at c (ref_tables d) t k then
    match act_all (H := ref_numbers) acts (default (key_item k) (d !! (t, k))) with
    | Some it => (<[(t, k) := it]> d, Ok tt)
    | None => (d, Err ref_error)
    end
  else (d, Err (ConditionalCheckFailed "The conditional request failed")).

Definition ref_write (x : TransactItem) (d : RefDB) : option RefDB :=
  match x with
  | TPut t it _ => k ← item_key it; Some (<[(t, k) := it]> d)
  | TUpdate t k _ acts => it ← act_all (H := ref_numbers) acts (default (key_item k) (d !! (t, k))); Some (<[(t, k) := it]> d)
  end.

Fixpoint ref_writes (l : list TransactItem) (d : RefDB) : option RefDB :=
  match l with
  | [] => Some d
  | x :: l' => d' ← ref_write x d; ref_writes l' d'
  end.

Definition ref_transact (l : list TransactItem) (d : RefDB) : RefDB * result DynErr unit :=
  if forallb (write_holds (ref_tables d)) l then
    match ref_writes l d with Some d' => (d', Ok tt) | None => (d, Err ref_error) end
  else (d, Err (TransactionCanceled (map (fun x => if write_holds (ref_tables d) x then "None" else failed_code) l) "Transaction cancelled")).

(** The items of a query in the order of the sort key, one in each page; a key to continue from
    holds the position. *)
Definition sort_attr (q : QueryInput) : string :=
  if String.eqb (q_pk q).1 "pk" then "sk" else if String.eqb (q_pk q).1 "gsi1pk" then "gsi1sk" else "gsi2sk".

Definition sort_key (q : QueryInput) (it : Item) : string := match it !! sort_attr q with Some (AVS v) => v | _ => "" end.

Definition ref_selection (q : QueryInput) (d : RefDB) : list Item :=
  sort_slice (fun a b => String.ltb (sort_key q a) (sort_key q b)) (List.filter (fun x : string * Key * Item =>
     String.eqb x.1.1 (q_table q) && bool_decide (x.2 !! (q_pk q).1 = Some (AVS (q_pk q).2))
     && match q_range q with Some (lo, hi) => String.leb lo x.1.2.2 && String.leb x.1.2.2 hi | None => true end) (map_to_list d)).*2.

Definition position (k : Item) : nat := match k !! "at" with Some (AVM l) => length l | _ => O end.
Definition position_key (n : nat) : Item := {[ "at" := AVM (replicate n ("", AVBOOL true)) ]}.

Definition ref_query (q : QueryInput) (k : Item) (lim : option Z) (d : RefDB) : RefDB * result DynErr (list Item * Item) :=
  match drop (position k) (ref_selection q d) with
  | [] => (d, Ok ([], ∅))
  | [it] => (d, Ok (List.filter (passes q) [it], ∅))
  | it :: _ => (d, Ok (List.filter (passes q) [it], position_key (S (position k))))
  end.

#[global] Instance reference : DynamoDB RefDB := ref_ops ref_update ref_transact ref_query.

(** ** The laws *)

Lemma ref_insert t k it d : same_tables (table_set t k (Some it) (ref_tables d)) (ref_tables (<[(t, k) := it]> d)).
Proof.
  intros t' k'. unfold table_set, ref_tables. destruct (decide (t' = t /\ k' = k)) as [[-> ->]|Hne]; [by rewrite lookup_insert_eq|].
  rewrite lookup_insert_ne; [done|]. intros [= -> ->]. by apply Hne.
Qed.

Lemma ref_delete t k d : same_tables (table_set t k None (ref_tables d)) (ref_tables (delete (t, k) d)).
Proof.
  intros t' k'. unfold table_set, ref_tables. destruct (decide (t' = t /\ k' = k)) as [[-> ->]|Hne]; [by rewrite lookup_delete_eq|].
  rewrite lookup_delete_ne; [done|]. intros [= -> ->]. by apply Hne.
Qed.

Lemma table_set_same t k v T T' : same_tables T T' -> same_tables (table_set t k v T) (table_set t k v T').
Proof. intros HT t' k'. unfold table_set. by case_decide. Qed.

(** The writes of a transaction follow their description. *)
Lemma ref_write_effect x T d : same_tables T (ref_tables d) ->
  match ref_write x d, write_effect x T with
  | Some d', Some T' => same_tables T' (ref_tables d')
  | None, None => True
  | _, _ => False
  end.
Proof.
  intros HT. destruct x as [t it c|t k c acts]; cbn [ref_write write_effect].
  - destruct (item_key it) as [k|]; cbn; [|done]. etrans; [by apply table_set_same|]. apply ref_insert.
  - change (d !! (t, k)) with (ref_tables d t k). rewrite (HT t k). change (act_all (H := ref_numbers)) with (act_all (H := reference)).
    destruct (act_all acts _) as [it|]; cbn; [|done]. etrans; [by apply table_set_same|]. apply ref_insert.
Qed.

Lemma ref_writes_effect l T d : same_tables T (ref_tables d) ->
  match ref_writes l d, write_all l T with
  | Some d', Some T' => same_tables T' (ref_tables d')
  | None, None => True
  | _, _ => False
  end.
Proof.
  revert T d. induction l as [|x l IH]; intros T d HT; [done|]. cbn [ref_writes write_all]. pose proof (ref_write_effect x T d HT) as Hx.
  destruct (ref_write x d), (write_effect x T); cbn; try done. by apply IH.
Qed.

#[global] Instance reference_laws : DynamoLaws RefDB.
Proof.
  refine {| tables := ref_tables |}.
  - intros t k d d' r [= <- <-]. done.
  - intros t it c k d d' r Hk. cbn. unfold ref_put. rewrite Hk.
    destruct (match c with Some c => _ | None => true end); intros [= <- <-]; cbn.
    + split; [done|]. eexists. split; [done|]. apply ref_insert.
    + split_and!; [done|by eexists|done].
  - intros t k c acts d d' r. cbn. unfold ref_update. change (act_all (H := ref_numbers)) with (act_all (H := reference)).
    destruct (holds_at c (ref_tables d) t k); [|intros [= <- <-]; cbn; by split_and!; [|eexists|]].
    change (d !! (t, k)) with (ref_tables d t k).
    destruct (act_all acts _) as [it|]; intros [= <- <-]; cbn; [|by left]. split; [done|]. eexists. split; [done|]. apply ref_insert.
  - intros t k d d' r [= <- <-]. split; [done|]. eexists. split; [done|]. apply ref_delete.
  - intros l d d' r. cbn. unfold ref_transact. destruct (forallb (write_holds (ref_tables d)) l) eqn:El.
    + pose proof (ref_writes_effect l (ref_tables d) d (reflexivity _)) as Hw.
      destruct (ref_writes l d) as [d1|], (write_all l (ref_tables d)) as [T|]; try done; intros [= <- <-]; cbn; [|by left].
      split; [done|]. by eexists.
    + intros [= <- <-]. cbn. split_and!; [done| |done]. eexists _, _. split; [done|]. split; [by rewrite length_map|].
      intros i x Hx. rewrite list_lookup_fmap, Hx. cbn. by destruct (write_holds (ref_tables d) x).
Defined.

#[global] Instance reference_available : DynamoAvailable RefDB.
Proof.
  split.
  - intros t k d. by eexists.
  - intros t it c d e [k Hk]. cbn. unfold ref_put. rewrite Hk. by destruct (match c with Some c => _ | None => true end).
  - intros t k c acts d e [T HT]. cbn. unfold ref_update. destruct (holds_at c (ref_tables d) t k); [|done].
    cbn in HT. change (act_all (H := ref_numbers)) with (act_all (H := reference)). change (d !! (t, k)) with (ref_tables d t k).
    by destruct (act_all acts _).
  - done.
  - intros l d e [T HT]. cbn. unfold ref_transact. destruct (forallb (write_holds (ref_tables d)) l); [|done].
    pose proof (ref_writes_effect l (ref_tables d) d (reflexivity _)) as Hw. cbn in HT. rewrite HT in Hw. by destruct (ref_writes l d).
Qed.

#[global] Instance reference_queries : QueryLaws RefDB.
Proof.
  refine {| rest q k d := drop (position k) (ref_selection q d) |}.
  intros q k lim d d' r. cbn. unfold ref_query. destruct (drop (position k) (ref_selection q d)) as [|it [|it' l]] eqn:E; intros [= <- <-].
  - split; [done|]. exists [], []. by rewrite bool_decide_true.
  - split; [done|]. exists [it], []. by rewrite bool_decide_true.
  - split; [done|]. exists [it], (it' :: l). split; [done|]. split; [done|].
    rewrite bool_decide_false; [|by intros Hx%(f_equal (lookup "at"))]. split; [done|].
    assert (position (position_key (S (position k))) = S (position k)) as ->.
    { unfold position at 1. unfold position_key. rewrite lookup_singleton_eq. apply length_replicate. }
    replace (S (position k)) with (position k + 1)%nat by lia. by rewrite <- drop_drop, E.
Defined.

(** ** The attribute encoding *)

(** Any countable value as a text of bits. *)
Fixpoint pos_text (p : positive) : string :=
  match p with xH => "" | xO p => String "0" (pos_text p) | xI p => String "1" (pos_text p) end.

Fixpoint text_pos (t : string) : positive :=
  match t with
  | EmptyString => xH
  | String c t => if Ascii.eqb c "0" then xO (text_pos t) else xI (text_pos t)
  end.

Lemma text_pos_text p : text_pos (pos_text p) = p.
Proof. by induction p; cbn; f_equal. Qed.

Definition av_text {A} `{Countable A} (x : A) : string := pos_text (encode x).
Definition av_code {A} `{Countable A} (x : A) : AV := AVN (av_text x).
Definition av_decode {A} `{Countable A} (v : AV) : option A := match v with AVN t => decode (text_pos t) | _ => None end.

Lemma av_decode_code {A} `{Countable A} (x : A) : av_decode (av_code x) = Some x.
Proof. unfold av_code, av_text, av_decode. rewrite text_pos_text. apply decode_encode. Qed.

(** Floating-point numbers of the range of a DynamoDB number. *)
Definition float_code (x : float64) : bool + bool * positive * Z :=
  match x with
  | SpecFloat.S754_zero b => inl b
  | SpecFloat.S754_finite b m e => inr (b, m, e)
  | _ => inl true
  end.

Definition float_of (c : bool + bool * positive * Z) : float64 :=
  match c with inl b => SpecFloat.S754_zero b | inr (b, m, e) => SpecFloat.S754_finite b m e end.

Lemma float_of_code x : cost_ok x -> float_of (float_code x) = x.
Proof. by destruct x as [[]|[]| |]. Qed.

#[global] Instance ref_scalars : ScalarCodec := {|
  marshal_time t := Ok (av_code t);
  unmarshal_string v := match v with AVS x => Ok x | _ => Err (errors_New "cannot unmarshal") end;
  format_float x := av_text (float_code x) |}.

Definition get_str (it : Item) (a : string) : string := match it !! a with Some (AVS v) => v | _ => "" end.
Definition get_bool (it : Item) (a : string) : bool := match it !! a with Some (AVBOOL v) => v | _ => false end.
Definition get_code {A} `{Countable A} (it : Item) (a : string) : option A := v ← it !! a; av_decode v.
Definition get_int (it : Item) (a : string) : option Z := match it !! a with Some (AVN v) => Atoi v | _ => None end.
Definition get_status {A} (show : A -> string) (all : list A) (zero : A) (it : Item) (a : string) : A :=
  default zero (List.find (fun x => String.eqb (show x) (get_str it a)) all).

Definition task_statuses := [TaskStatusQueued; TaskStatusRunning; TaskStatusSucceeded; TaskStatusFailed; TaskStatusAborted].
Definition run_statuses := [RunStatusQueued; RunStatusRunning; RunStatusSucceeded; RunStatusFailed; RunStatusAborted].

Definition config_code (c : ModelConfig) : string * (bool + bool * positive * Z) * Z * string * (bool + bool * positive * Z) * list string :=
  (ModelConfig_ModelID c, float_code (ModelConfig_Temperature c), ModelConfig_MaxTokens c, ModelConfig_PolicyMode c,
   float_code (ModelConfig_CostCapUSD c), ModelConfig_FallbackModelIDs c).

Definition config_of (x : string * (bool + bool * positive * Z) * Z * string * (bool + bool * positive * Z) * list string) : ModelConfig :=
  let '(a, b, c, d, e, f) := x in mkModelConfig a (float_of b) c d (float_of e) f.

Lemma config_of_code c : config_ok c -> config_of (config_code c) = c.
Proof. destruct c. intros (H1 & H2 & _). unfold config_of, config_code. cbn. by rewrite !float_of_code. Qed.

Definition get_config (it : Item) : option ModelConfig := config_of <$> get_code it "model_config".

Definition config_attr (c : option ModelConfig) : list (string * AV) :=
  match c with Some c => [("model_config", av_code (config_code c))] | None => [] end.

(** *** Tasks *)

Definition ref_task (it : Item) : Task :=
  mkTask (get_str it "task_id") (get_str it "tenant_id") (get_str it "user_id")
    (get_status string_of_TaskStatus task_statuses TaskStatusQueued it "status") (get_str it "active_run_id") (get_bool it "abort_requested")
    (get_str it "abort_reason") (get_code it "abort_ts") (get_str it "idempotency_key") (get_str it "prompt") (get_config it)
    (default 0 (get_code it "created_at")) (default 0 (get_code it "updated_at")).

Definition task_attrs (t : Task) : list (string * AV) :=
  [("task_id", avString (Task_TaskID t)); ("tenant_id", avString (Task_TenantID t)); ("user_id", avString (Task_UserID t));
   ("status", avStatus (Task_Status t)); ("active_run_id", avString (Task_ActiveRunID t)); ("abort_requested", avBool (Task_AbortRequested t));
   ("abort_reason", avString (Task_AbortReason t)); ("idempotency_key", avString (Task_IdempotencyKey t)); ("prompt", avString (Task_Prompt t));
   ("created_at", avTime (Task_CreatedAt t)); ("updated_at", avTime (Task_UpdatedAt t))]
  ++ opt_attr "abort_ts" avTime (Task_AbortTS t) ++ config_attr (Task_ModelConfig t).

#[global] Instance ref_task_codec : ItemCodec Task := {|
  marshalMap t := Ok (put_attrs (task_attrs t) ∅);
  unmarshalMap it := Ok (ref_task it) |}.

(** Reading an attribute after setting or removing one. *)
Section reading.
Context (it : Item) (a b : string) (Hab : a <> b).

Lemma get_str_ne v : get_str (<[a := v]> it) b = get_str it b.
Proof. unfold get_str. by rewrite lookup_insert_ne. Qed.
Lemma get_bool_ne v : get_bool (<[a := v]> it) b = get_bool it b.
Proof. unfold get_bool. by rewrite lookup_insert_ne. Qed.
Lemma get_int_ne v : get_int (<[a := v]> it) b = get_int it b.
Proof. unfold get_int. by rewrite lookup_insert_ne. Qed.
Lemma get_code_ne {A} `{Countable A} v : get_code (A := A) (<[a := v]> it) b = get_code it b.
Proof. unfold get_code. by rewrite lookup_insert_ne. Qed.
Lemma get_status_ne {A} show (all : list A) zero v : get_status show all zero (<[a := v]> it) b = get_status show all zero it b.
Proof. unfold get_status. by rewrite get_str_ne. Qed.

Lemma get_str_del : get_str (delete a it) b = get_str it b.
Proof. unfold get_str. by rewrite lookup_delete_ne. Qed.
Lemma get_bool_del : get_bool (delete a it) b = get_bool it b.
Proof. unfold get_bool. by rewrite lookup_delete_ne. Qed.
Lemma get_int_del : get_int (delete a it) b = get_int it b.
Proof. unfold get_int. by rewrite lookup_delete_ne. Qed.
Lemma get_code_del {A} `{Countable A} : get_code (A := A) (delete a it) b = get_code it b.
Proof. unfold get_code. by rewrite lookup_delete_ne. Qed.
Lemma get_status_del {A} show (all : list A) zero : get_status show all zero (delete a it) b = get_status show all zero it b.
Proof. unfold get_status. by rewrite get_str_del. Qed.

Lemma get_str_eq v : get_str (<[a := avString v]> it) a = v.
Proof. unfold get_str. by rewrite lookup_insert_eq. Qed.
Lemma get_bool_eq v : get_bool (<[a := avBool v]> it) a = v.
Proof. unfold get_bool. by rewrite lookup_insert_eq. Qed.
Lemma get_int_eq v : in_int64 v -> get_int (<[a := avInt v]> it) a = Some v.
Proof. intros. unfold get_int. rewrite lookup_insert_eq. by apply Atoi_fmt_d. Qed.
Lemma get_code_eq {A} `{Countable A} (v : A) : get_code (<[a := av_code v]> it) a = Some v.
Proof. unfold get_code. rewrite lookup_insert_eq. apply av_decode_code. Qed.
Lemma get_time_eq v : get_code (<[a := avTime v]> it) a = Some v.
Proof. apply get_code_eq. Qed.
Lemma get_code_gone {A} `{Countable A} : get_code (A := A) (delete a it) a = None.
Proof. unfold get_code. by rewrite lookup_delete_eq. Qed.
Lemma get_code_empty {A} `{Countable A} : get_code (A := A) ∅ a = None.
Proof. unfold get_code. by rewrite lookup_empty. Qed.
End reading.

Lemma get_task_status it a s : get_status string_of_TaskStatus task_statuses TaskStatusQueued (<[a := avStatus s]> it) a = s.
Proof. unfold get_status, avStatus. rewrite get_str_eq. by destruct s. Qed.

Lemma get_run_status it a s : get_status string_of_RunStatus run_statuses RunStatusQueued (<[a := avRunStatus s]> it) a = s.
Proof. unfold get_status, avRunStatus. rewrite get_str_eq. by destruct s. Qed.

(** A field of a struct after changes of attributes. *)
Ltac read_field :=
  repeat match goal with
  | |- context [get_str (<[_ := _]> _) _] => first [rewrite get_str_eq | rewrite get_str_ne by discriminate]
  | |- context [get_bool (<[_ := _]> _) _] => first [rewrite get_bool_eq | rewrite get_bool_ne by discriminate]
  | |- context [get_int (<[_ := _]> _) _] => first [rewrite get_int_eq by done | rewrite get_int_ne by discriminate]
  | |- context [get_code (<[_ := _]> _) _] => first [rewrite get_time_eq | rewrite get_code_eq | rewrite get_code_ne by discriminate]
  | |- context [get_status _ _ _ (<[_ := _]> _) _] =>
      first [rewrite get_task_status | rewrite get_run_status | rewrite get_status_ne by discriminate]
  | |- context [get_str (delete _ _) _] => rewrite get_str_del by discriminate
  | |- context [get_bool (delete _ _) _] => rewrite get_bool_del by discriminate
  | |- context [get_int (delete _ _) _] => rewrite get_int_del by discriminate
  | |- context [get_code (delete _ _) _] => first [rewrite get_code_gone | rewrite get_code_del by discriminate]
  | |- context [get_status _ _ _ (delete _ _) _] => rewrite get_status_del by discriminate
  | |- context [get_code ∅ _] => rewrite get_code_empty
  end; try done.

#[local] Arguments get_str : simpl never.
#[local] Arguments get_bool : simpl never.
#[local] Arguments get_int : simpl never.
#[local] Arguments get_code : simpl never.
#[local] Arguments get_status : simpl never.
#[local] Arguments av_code : simpl never.
#[local] Arguments avTime : simpl never.
#[local] Arguments config_of : simpl never.
#[local] Arguments avStatus : simpl never.
#[local] Arguments avRunStatus : simpl never.
#[local] Arguments avInt : simpl never.

#[global] Instance ref_task_laws : TaskCodec.
Proof.
  split.
  - intros t (_ & Hm & _ & _). eexists. split; [done|]. cbn [unmarshalMap ref_task_codec]. f_equal. unfold ref_task, get_config, task_attrs, put_attrs.
    destruct t as [i te u st ar rq rs ab ik pr mc ca ua]. destruct ab, mc; cbn in *; f_equal; read_field.
    all: cbn; by rewrite config_of_code.
  - intros a v f it t Ha [= <-]. cbn [unmarshalMap ref_task_codec]. f_equal. unfold ref_task, get_config. destruct Ha; cbn; f_equal; read_field.
  - intros a v it t Ha [= <-]. cbn [unmarshalMap ref_task_codec]. f_equal. unfold ref_task, get_config.
    unfold store_attrs in Ha. rewrite !elem_of_cons in Ha. destruct_or? Ha; subst; try (f_equal; read_field).
    all: by apply not_elem_of_nil in Ha.
  - intros it t [= <-]. cbn [unmarshalMap ref_task_codec]. f_equal. unfold ref_task, get_config. cbn. f_equal; read_field.
Qed.

(** *** Runs *)

Definition get_member (l : list (string * AV)) (m : string) : Z :=
  match member m l with Some (AVN v) => default 0 (Atoi v) | _ => 0 end.

Definition get_usage (it : Item) : option TokenUsage :=
  match it !! "total_token_usage" with
  | Some (AVM l) => Some (mkTokenUsage (get_member l "input") (get_member l "output") (get_member l "total"))
  | _ => None
  end.

Definition get_cost (it : Item) : float64 := from_option float_of f_zero (get_code it "total_cost_usd").

Definition ref_run (it : Item) : Run :=
  mkRun (get_str it "task_id") (get_str it "run_id") (get_str it "tenant_id")
    (get_status string_of_RunStatus run_statuses RunStatusQueued it "status") (get_code it "queued_at") (get_str it "parent_run_id")
    (get_int it "resume_from_step_index") (get_config it) (get_code it "started_at") (get_code it "ended_at")
    (default 0 (get_int it "last_step_index")) (get_usage it) (get_cost it).

Definition run_attrs (r : Run) : list (string * AV) :=
  [("task_id", avString (Run_TaskID r)); ("run_id", avString (Run_RunID r)); ("tenant_id", avString (Run_TenantID r));
   ("status", avRunStatus (Run_Status r)); ("parent_run_id", avString (Run_ParentRunID r));
   ("last_step_index", avInt (Run_LastStepIndex r)); ("total_cost_usd", avFloat (Run_TotalCostUSD r))]
  ++ opt_attr "queued_at" avTime (Run_QueuedAt r) ++ opt_attr "resume_from_step_index" avInt (Run_ResumeFromStepIndex r)
  ++ opt_attr "started_at" avTime (Run_StartedAt r) ++ opt_attr "ended_at" avTime (Run_EndedAt r)
  ++ opt_attr "total_token_usage" avUsage (Run_TotalTokenUsage r) ++ config_attr (Run_ModelConfig r).

#[global] Instance ref_run_codec : ItemCodec Run := {|
  marshalMap r := Ok (put_attrs (run_attrs r) ∅);
  unmarshalMap it := Ok (ref_run it) |}.

Lemma get_usage_ne it a v : a <> "total_token_usage" -> get_usage (<[a := v]> it) = get_usage it.
Proof. intros. unfold get_usage. by rewrite lookup_insert_ne. Qed.
Lemma get_usage_del it a : a <> "total_token_usage" -> get_usage (delete a it) = get_usage it.
Proof. intros. unfold get_usage. by rewrite lookup_delete_ne. Qed.
Lemma get_usage_eq it u : usage_ok u -> get_usage (<["total_token_usage" := avUsage u]> it) = Some u.
Proof. intros (H1 & H2 & H3). unfold get_usage. rewrite lookup_insert_eq. cbn. unfold get_member, avInt. cbn. rewrite !Atoi_fmt_d by done. by destruct u. Qed.
Lemma get_usage_empty : get_usage ∅ = None.
Proof. done. Qed.
Lemma get_cost_ne it a v : a <> "total_cost_usd" -> get_cost (<[a := v]> it) = get_cost it.
Proof. intros. unfold get_cost. by rewrite get_code_ne. Qed.
Lemma get_cost_del it a : a <> "total_cost_usd" -> get_cost (delete a it) = get_cost it.
Proof. intros. unfold get_cost. by rewrite get_code_del. Qed.
Lemma get_cost_eq it x : cost_ok x -> get_cost (<["total_cost_usd" := avFloat x]> it) = x.
Proof. intros. unfold get_cost. change (avFloat x) with (av_code (float_code x)). rewrite get_code_eq. by apply float_of_code. Qed.
Lemma get_int_empty a : get_int ∅ a = None.
Proof. done. Qed.

#[local] Arguments get_usage : simpl never.
#[local] Arguments get_cost : simpl never.
#[local] Arguments avUsage : simpl never.
#[local] Arguments avFloat : simpl never.

Ltac read_run_field :=
  repeat match goal with
  | |- context [get_usage (<[_ := _]> _)] => first [rewrite get_usage_eq by done | rewrite get_usage_ne by discriminate]
  | |- context [get_usage (delete _ _)] => rewrite get_usage_del by discriminate
  | |- context [get_cost (<[_ := _]> _)] => first [rewrite get_cost_eq by done | rewrite get_cost_ne by discriminate]
  | |- context [get_cost (delete _ _)] => rewrite get_cost_del by discriminate
  end; read_field.

#[global] Instance ref_run_laws : RunCodec.
Proof.
  split.
  - intros r (_ & _ & _ & Hf & Hm & Hl & Hu & Hc). eexists. split; [done|]. cbn [unmarshalMap ref_run_codec]. f_equal.
    unfold ref_run, get_config, run_attrs, put_attrs. destruct r as [i ri te st q pa rf mc sa ea ls us co]. cbn [Run_ModelConfig Run_TotalTokenUsage
      Run_ResumeFromStepIndex Run_LastStepIndex Run_TotalCostUSD] in *.
    destruct q, rf, sa, ea, us, mc; cbn in *; f_equal; read_run_field.
    all: cbn; by rewrite config_of_code.
  - intros a v f it t Ha [= <-]. cbn [unmarshalMap ref_run_codec]. f_equal. unfold ref_run, get_config. destruct Ha; cbn; f_equal; read_run_field.
  - intros a v it t Ha [= <-]. cbn [unmarshalMap ref_run_codec]. f_equal. unfold ref_run, get_config.
    unfold store_attrs in Ha. rewrite !elem_of_cons in Ha. destruct_or? Ha; subst; try (f_equal; read_run_field).
    all: by apply not_elem_of_nil in Ha.
  - intros it t [= <-]. cbn [unmarshalMap ref_run_codec]. f_equal. unfold ref_run, get_config. cbn. f_equal; read_run_field.
  - intros it t [= <-]. cbn [unmarshalMap ref_run_codec]. f_equal. unfold ref_run, get_config. cbn. f_equal; read_run_field.
Qed.

(** *** Steps, connections and events *)

Section plain.
Context {A B : Type} `{Countable B} (code : A -> B) (back : B -> option A).

Definition plain_codec : ItemCodec A := {|
  marshalMap x := Ok {[ "data" := av_code (code x) ]};
  unmarshalMap it := match get_code it "data" ≫= back with Some x => Ok x | None => Err (errors_New "cannot unmarshal") end |}.

Lemma plain_codec_laws (ok : A -> Prop) : (forall x, ok x -> back (code x) = Some x) -> @PlainCodec A ok plain_codec.
Proof.
  intros Hc. split.
  - intros x Hx. eexists. split; [done|]. cbn. assert (get_code (A := B) {[ "data" := av_code (code x) ]} "data" = Some (code x)) as ->.
    { exact (get_code_eq ∅ "data" (code x)). } cbn. by rewrite (Hc x Hx).
  - intros a v it x Ha. cbn. unfold store_attrs in Ha. rewrite !elem_of_cons in Ha.
    destruct_or? Ha; subst; try (by rewrite get_code_ne). by apply not_elem_of_nil in Ha.
Qed.
End plain.

Definition usage_code (u : TokenUsage) : Z * Z * Z := (TokenUsage_Input u, TokenUsage_Output u, TokenUsage_Total u).
Definition usage_of (x : Z * Z * Z) : TokenUsage := mkTokenUsage x.1.1 x.1.2 x.2.

Definition ref_code (a : ArtifactRef) : string * string * Z := (ArtifactRef_S3Key a, ArtifactRef_SHA256 a, ArtifactRef_Size a).
Definition ref_of (x : string * string * Z) : ArtifactRef := mkArtifactRef x.1.1 x.1.2 x.2.

Definition checkpoint_code (c : CheckpointRef) := (ref_code <$> CheckpointRef_Memory c, ref_code <$> CheckpointRef_Workspace c).
Definition checkpoint_of (x : option (string * string * Z) * option (string * string * Z)) : CheckpointRef :=
  mkCheckpointRef (ref_of <$> x.1) (ref_of <$> x.2).

Definition step_types := [StepTypeLLMCall; StepTypeToolCall; StepTypeObservation; StepTypeFinal].

Definition step_code (st : Step) :=
  (Step_RunID st, Step_StepIndex st, string_of_StepType (Step_Type st), bool_decide (Step_Status st = StepStatusOK), (Step_Input st, Step_Output st),
   (Step_TSStart st, Step_TSEnd st, Step_LatencyMS st), usage_code <$> Step_TokenUsage st, checkpoint_code <$> Step_CheckpointRef st,
   (Step_ErrorCode st, Step_ErrorMessage st)).

Definition step_of (x : string * Z * string * bool * (string * string) * (Z * Z * Z) * option (Z * Z * Z)
    * option (option (string * string * Z) * option (string * string * Z)) * (string * string)) : option Step :=
  let '(r, i, ty, ok, (inp, outp), (t1, t2, ms), us, cp, (ec, em)) := x in
  ty ← List.find (fun y => String.eqb (string_of_StepType y) ty) step_types;
  Some (mkStep r i ty (if ok : bool then StepStatusOK else StepStatusError) inp outp t1 t2 ms (usage_of <$> us) (checkpoint_of <$> cp) ec em).

Lemma step_of_code st : step_of (step_code st) = Some st.
Proof.
  destruct st as [r i ty ok inp outp t1 t2 ms us cp ec em]. unfold step_of, step_code. cbn [Step_RunID Step_StepIndex Step_Type Step_Status Step_Input
    Step_Output Step_TSStart Step_TSEnd Step_LatencyMS Step_TokenUsage Step_CheckpointRef Step_ErrorCode Step_ErrorMessage].
  assert (List.find (fun y => String.eqb (string_of_StepType y) (string_of_StepType ty)) step_types = Some ty) as -> by (by destruct ty).
  cbn [mbind option_bind]. f_equal. f_equal.
  - by destruct ok.
  - by destruct us as [[]|].
  - by destruct cp as [[[[]|] [[]|]]|].
Qed.

#[global] Instance ref_step_codec : ItemCodec Step := plain_codec step_code step_of.
#[global] Instance ref_step_laws : PlainCodec step_ok.
Proof. apply plain_codec_laws. intros st _. apply step_of_code. Qed.

Definition connection_code (c : Connection) :=
  (Connection_ConnectionID c, Connection_TenantID c, Connection_UserID c, Connection_TaskID c, Connection_RunID c, Connection_ConnectedAt c, Connection_TTL c).
Definition connection_of (x : string * string * string * string * string * Z * Z) : option Connection :=
  let '(a, b, c, d, e, f, g) := x in Some (mkConnection a b c d e f g).

#[global] Instance ref_connection_codec : ItemCodec Connection := plain_codec connection_code connection_of.
#[global] Instance ref_connection_laws : PlainCodec connection_ok.
Proof. apply plain_codec_laws. intros c _. by destruct c. Qed.

(** Of an event the ids, the sequence number and the time. *)
#[global] Instance ref_event_codec : ItemCodec StreamEvent := plain_codec
  (fun e => (StreamEvent_TaskID e, StreamEvent_RunID e, StreamEvent_Seq e, StreamEvent_TS e))
  (fun '(t, r, q, ts) => Some (mkStreamEvent t r q ts StreamEventTokenChunk GNil)).

#[global] Instance ref_strings : StringCodec.
Proof. by split. Qed.

(** ** The service with outages

    Every write takes the next entry of a list: none, an outage before the write, or one after
    it. *)

Record FaultyDB : Type := mkFaulty { F_db : RefDB; F_faults : list (option bool) }.

Definition with_fault (f : RefDB -> RefDB * result DynErr unit) (d : FaultyDB) : FaultyDB * result DynErr unit :=
  let down := Err (ServiceError (errors_New "connection reset")) in
  match F_faults d with
  | Some false :: l => (mkFaulty (F_db d) l, down)
  | Some true :: l => (mkFaulty (f (F_db d)).1 l, down)
  | l => let '(db, r) := f (F_db d) in (mkFaulty db (tail l), r)
  end.

#[global] Instance faulty : DynamoDB FaultyDB := {|
  GetItem t k d := (d, (GetItem t k (F_db d)).2);
  PutItem t it c := with_fault (PutItem t it c);
  UpdateItem t k c acts := with_fault (UpdateItem t k c acts);
  DeleteItem t k := with_fault (DeleteItem t k);
  TransactWriteItems l := with_fault (TransactWriteItems l);
  Query q k lim d := (d, (Query q k lim (F_db d)).2);
  BatchDelete t keys d := let '(db, r) := BatchDelete t keys (F_db d) in (mkFaulty db (F_faults d), r);
  number_add := number_add |}.

(** An outage hides whether a lawful write happened. *)
Lemma with_fault_outcome f d d' r ok effect refused :
  (forall db' r, f (F_db d) = (db', r) -> write_outcome (ref_tables (F_db d)) (ref_tables db') ok effect refused r) ->
  with_fault f d = (d', r) -> write_outcome (ref_tables (F_db d)) (ref_tables (F_db d')) ok effect refused r.
Proof.
  intros Hf E. destruct (f (F_db d)) as [db r1] eqn:Ef. pose proof (Hf _ _ eq_refl) as Ho. unfold with_fault in E. rewrite Ef in E.
  destruct (F_faults d) as [|[[]|] l]; injection E as <- <-; try exact Ho; cbn; [|by left].
  destruct r1 as [[]|[]]; cbn in Ho; [right; done|..].
  - left. apply Ho.
  - left. apply Ho.
  - exact Ho.
Qed.

Lemma act_all_faulty l it : act_all (H := faulty) l it = act_all (H := reference) l it.
Proof. revert it. induction l as [|x l IH]; intros it; [done|]. cbn [act_all]. change (act (H := faulty) x it) with (act (H := reference) x it).
  destruct (act x it); [apply IH|done]. Qed.

Lemma write_all_faulty l T : write_all (H := faulty) l T = write_all (H := reference) l T.
Proof.
  revert T. induction l as [|x l IH]; intros T; [done|]. cbn [write_all].
  assert (write_effect (H := faulty) x T = write_effect (H := reference) x T) as -> by (destruct x; cbn; [done|by rewrite act_all_faulty]).
  destruct (write_effect x T); [apply IH|done].
Qed.

#[global] Instance faulty_laws : DynamoLaws FaultyDB.
Proof.
  refine {| tables d := ref_tables (F_db d) |}.
  - intros t k d d' r [= <- <-]. done.
  - intros t it c k d d' r Hk. apply with_fault_outcome. intros db' r' E. exact (law_put_item t it c k (F_db d) db' r' Hk E).
  - intros t k c acts d d' r. cbn [write_effect]. rewrite act_all_faulty. apply with_fault_outcome. intros db' r' E. exact (law_update_item t k c acts (F_db d) db' r' E).
  - intros t k d d' r. apply with_fault_outcome. intros db' r' E. exact (law_delete_item t k (F_db d) db' r' E).
  - intros l d d' r. rewrite write_all_faulty. apply with_fault_outcome. intros db' r' E. exact (law_transact l (F_db d) db' r' E).
Defined.
