(* ===== verification/DynamoDemo.v ===== *)
(** * DynamoDemo: the production store on concrete services

    Witnesses of the theorems about the production store, on the reference service and on the
    one with outages. *)

From Stdlib Require Import Ascii.
From S2P Require Import Prelude GoLib Model StateStore MemoryStore DynamoDB DynamoStore DynamoPages DynamoItems DynamoRefine DynamoReference.

Definition demo_store : DynamoStore :=
  mkDynamoStore "tasks" "runs" "steps" "connections" "task-index" "tenant-created-index" "tenant-run-index" "entity-created-index"
    "entity-run-index" 0.

Definition demo_clock (n : nat) : Time := Z.of_nat n.
Definition demo_fuel : nat := 9.

(** Create a task with its run, claim the run twice, record a step, complete the run, resume the
    task with a second run; an update of a task that does not exist. *)
Definition demo_ops : list store_op :=
  [ OpApplyCreateTransition 1 (Some (demo_task "t1" "r1" TaskStatusQueued)) (Some (demo_run "t1" "r1" RunStatusQueued));
    OpClaimRun 2 "t1" "r1"; OpClaimRun 3 "t1" "r1"; OpPutStep (demo_step "r1" 0); OpCompleteRun 4 "t1" "r1" RunStatusFailed;
    OpUpdateTaskStatusForRun 5 "t1" "r1" [TaskStatusQueued] TaskStatusFailed;
    OpApplyResumeTransition 6 7 "t1" (Some (demo_run "t1" "r2" RunStatusQueued)) [TaskStatusFailed] TaskStatusQueued;
    OpSetAbortRequested 8 "t9" "stop" ].

Ltac op_ok_tac :=
  repeat (apply Forall_cons_2; [cbn; unfold time_ok, in_int64; repeat split; try lia; try done; apply (bool_decide_unpack _); vm_compute; exact I|]);
  apply Forall_nil_2.

Lemma demo_ops_ok : Forall op_ok demo_ops.
Proof. op_ok_tac. Qed.

Lemma dynamo_simulates_witness :
  (dyn_ops (D := RefDB) demo_store demo_fuel demo_clock demo_ops ∅).2
    = [Ok tt; Ok tt; Err ErrConflict; Ok tt; Ok tt; Ok tt; Ok tt; Err ErrNotFound] /\
  readable demo_store False (exec_ops demo_ops NewMemoryStore) (dyn_ops (D := RefDB) demo_store demo_fuel demo_clock demo_ops ∅).1.
Proof.
  exact (dynamo_simulates (D := RefDB) demo_store demo_fuel demo_clock reference_available demo_ops ∅ demo_ops_ok (fun t k => eq_refl)).
Defined.

(** The same operations with outages: the claim is applied but its answer is lost, the resume is
    lost on its way to the service. *)
Definition demo_faults : FaultyDB := mkFaulty ∅ [None; Some true; None; None; None; None; Some false].


(** The operations that report a failure. *)
Example demo_faults_seen :
  map is_ok (dyn_ops (D := FaultyDB) demo_store demo_fuel demo_clock demo_ops demo_faults).2 = [true; false; false; true; true; true; false; false].
Proof. vm_compute. reflexivity. Qed.

(** Three steps, read in pages of one item. *)
Definition demo_steps : RefDB :=
  (dyn_ops (D := RefDB) demo_store demo_fuel demo_clock [OpPutStep (demo_step "r1" 0); OpPutStep (demo_step "r1" 1); OpPutStep (demo_step "r1" 2)] ∅).1.

Lemma listings_complete_witness :
  lists (A := Task) (mkQueryInput "tasks" (Some "tenant-created-index") ("gsi1pk", "TENANT#tenant") None None) 2 id
    "state: list tasks query by tenant: " (DynamoStore_ListTasks demo_store 9 "tenant" [] 2 demo_steps).2 demo_steps /\
  lists (A := Step) (mkQueryInput "steps" None ("pk", "RUN#r1") (Some ("STEP#00000000", "STEP#99999999")) None) 2 id
    "state: list steps query: " (DynamoStore_ListSteps demo_store 9 "r1" 0 2 demo_steps).2 demo_steps.
Proof.
  destruct (listings_complete (D := RefDB) demo_store "tenant" [] "r1" 0 "t1" 2 9 demo_steps) as (H1 & H2 & _).
  - intros q Hq. rewrite !elem_of_cons in Hq. destruct_or? Hq; [subst; vm_compute; lia..|]. by apply not_elem_of_nil in Hq.
  - split; [exact H1|exact H2].
Defined.

Example demo_steps_listed :
  (DynamoStore_ListSteps demo_store 9 "r1" 0 2 demo_steps).2 = Some (Ok [demo_step "r1" 0; demo_step "r1" 1]).
Proof. vm_compute. reflexivity. Qed.
