(* ===== verification/Tenant.v ===== *)
(** * Tenant: per-tenant limits, budgets and circuit breaker (src/pkg/tenant/manager.go)

    The manager keeps one [tenantState] per tenant.  Every method runs under the
    manager's mutex.  The injected clock [m.now] is a parameter [clk] of the
    methods: [clk n] is the reading number [n] of the method call, and the state of
    a call in progress is the tenant's state with the number of readings so far. *)

From S2P Require Import Prelude GoLib.

Definition defaultMaxRunning : Z := 4.
Definition defaultMaxQueued : Z := 128.
Definition defaultRatePerMinute : Z := 240.
Definition defaultBreakerErrors : Z := 5.
Definition defaultBreakerCoolDownSec : Z := 60.

Inductive BreakerState : Type := BreakerClosed | BreakerOpen | BreakerHalfOpen.
#[global] Instance BreakerState_eq_dec : EqDecision BreakerState.
Proof. solve_decision. Defined.

Definition string_of_BreakerState (b : BreakerState) : string :=
  match b with BreakerClosed => "closed" | BreakerOpen => "open" | BreakerHalfOpen => "half_open" end.

Inductive AlertType : Type :=
| AlertTypeQueueDepth | AlertTypeErrorBurst | AlertTypeBudgetBreach
| AlertTypeRateLimited | AlertTypeBreakerOpened | AlertTypeBreakerClosed.

Record Policy : Type := mkPolicy {
  Policy_MaxRunning : Z;
  Policy_MaxQueued : Z;
  Policy_RateLimitPerMinute : Z;
  Policy_MaxConsecutiveErrors : Z;
  Policy_BreakerCooldown : Duration;
  Policy_TokenBudget : Z;
  Policy_CostBudget : float64;
  Policy_AlertQueueDepth : Z;
  Policy_AlertErrorBurst : Z;
  Policy_AlertBudgetPct : float64 }.

#[global] Instance Policy_eta : Eta Policy := fun r => mkPolicy
  (Policy_MaxRunning r) (Policy_MaxQueued r) (Policy_RateLimitPerMinute r)
  (Policy_MaxConsecutiveErrors r) (Policy_BreakerCooldown r) (Policy_TokenBudget r)
  (Policy_CostBudget r) (Policy_AlertQueueDepth r) (Policy_AlertErrorBurst r)
  (Policy_AlertBudgetPct r).

Record AdmissionInfo : Type := mkAdmissionInfo {
  AdmissionInfo_MessageKey : string;
  AdmissionInfo_EstimatedTokens : Z;
  AdmissionInfo_EstimatedCost : float64 }.

Record CompletionInfo : Type := mkCompletionInfo {
  CompletionInfo_MessageKey : string;
  CompletionInfo_TokensUsed : Z;
  CompletionInfo_CostUsed : float64;
  CompletionInfo_Failed : bool;
  CompletionInfo_WasAccepted : bool }.

Record Alert : Type := mkAlert {
  Alert_TenantID : string; Alert_Type : AlertType; Alert_Message : string; Alert_TS : Time }.

Record RuntimeSnapshot : Type := mkRuntimeSnapshot {
  RuntimeSnapshot_TenantID : string;
  RuntimeSnapshot_Running : Z;
  RuntimeSnapshot_Queued : Z;
  RuntimeSnapshot_Enqueued : Z;
  RuntimeSnapshot_Dequeued : Z;
  RuntimeSnapshot_Completed : Z;
  RuntimeSnapshot_Failed : Z;
  RuntimeSnapshot_DeadLetter : Z;
  RuntimeSnapshot_ConsecutiveErrors : Z;
  RuntimeSnapshot_BreakerState : string;
  RuntimeSnapshot_BreakerOpenedAt : Z;
  RuntimeSnapshot_RateLimited : Z;
  RuntimeSnapshot_TokensUsed : Z;
  RuntimeSnapshot_CostUsedUSD : float64;
  RuntimeSnapshot_TokenBudget : Z;
  RuntimeSnapshot_CostBudgetUSD : float64;
  RuntimeSnapshot_ReservedTokens : Z;
  RuntimeSnapshot_ReservedCost : float64 }.

Record tenantState : Type := mkTenantState {
  ts_running : Z;
  ts_queued : Z;
  ts_enqueued : Z;
  ts_dequeued : Z;
  ts_completed : Z;
  ts_failed : Z;
  ts_deadLetter : Z;
  ts_consecutiveErrors : Z;
  ts_breakerState : BreakerState;
  ts_breakerOpenedAt : Time;
  ts_halfOpenInFlight : bool;
  ts_rateLimited : Z;
  ts_tokensUsed : Z;
  ts_costUsed : float64;
  ts_reservedTokens : Z;
  ts_reservedCost : float64;
  ts_reservations : gmap string AdmissionInfo;
  ts_enqWindow : list Time;
  ts_alerts : list Alert }.

#[global] Instance tenantState_eta : Eta tenantState := fun r => mkTenantState
  (ts_running r) (ts_queued r) (ts_enqueued r) (ts_dequeued r) (ts_completed r) (ts_failed r)
  (ts_deadLetter r) (ts_consecutiveErrors r) (ts_breakerState r) (ts_breakerOpenedAt r)
  (ts_halfOpenInFlight r) (ts_rateLimited r) (ts_tokensUsed r) (ts_costUsed r)
  (ts_reservedTokens r) (ts_reservedCost r) (ts_reservations r) (ts_enqWindow r) (ts_alerts r).

Record Manager : Type := mkManager {
  M_defaultPolicy : Policy;
  M_policies : gmap string Policy;
  M_states : gmap string tenantState }.

#[global] Instance Manager_eta : Eta Manager := fun r => mkManager
  (M_defaultPolicy r) (M_policies r) (M_states r).

Definition ErrPolicyViolation (reason : string) : error := mkErr [SPolicyViolation] reason.

Definition max64 (a b : Z) : Z := if b <? a then a else b.
Definition maxFloat (a b : float64) : float64 := if f_gtb a b then a else b.

Fixpoint pruneOld (ts : list Time) (cutoff : Time) : list Time :=
  match ts with
  | [] => []
  | t :: ts' => if time_Before t cutoff then pruneOld ts' cutoff else ts
  end.

(** [normalizePolicy] as its sequence of guarded assignments, in source order. *)
Definition policy_defaults : list ((Policy -> bool) * (Policy -> Policy)) :=
  [ (fun p => Policy_MaxRunning p <=? 0,
     fun p => p <| Policy_MaxRunning := defaultMaxRunning |>);
    (fun p => Policy_MaxQueued p <=? 0,
     fun p => p <| Policy_MaxQueued := defaultMaxQueued |>);
    (fun p => Policy_RateLimitPerMinute p <=? 0,
     fun p => p <| Policy_RateLimitPerMinute := defaultRatePerMinute |>);
    (fun p => Policy_MaxConsecutiveErrors p <=? 0,
     fun p => p <| Policy_MaxConsecutiveErrors := defaultBreakerErrors |>);
    (fun p => Policy_BreakerCooldown p <=? 0,
     fun p => p <| Policy_BreakerCooldown := defaultBreakerCoolDownSec * Second |>);
    (fun p => Policy_AlertQueueDepth p <=? 0,
     fun p => p <| Policy_AlertQueueDepth :=
       f_trunc_int (maxFloat (f_of_Z 1) (f_div (f_of_Z (Policy_MaxQueued p)) (f_of_Z 2))) |>);
    (fun p => Policy_AlertErrorBurst p <=? 0,
     fun p => p <| Policy_AlertErrorBurst := Policy_MaxConsecutiveErrors p |>);
    (fun p => f_leb (Policy_AlertBudgetPct p) f_zero || f_gtb (Policy_AlertBudgetPct p) (f_of_Z 1),
     fun p => p <| Policy_AlertBudgetPct := f_lit 9 10 |>) ].

Definition normalize_step (p : Policy) (d : (Policy -> bool) * (Policy -> Policy)) : Policy :=
  if d.1 p then d.2 p else p.

Definition normalizePolicy (p : Policy) : Policy := fold_left normalize_step policy_defaults p.

Definition NewManager (defaultPolicy : Policy) : Manager :=
  mkManager (normalizePolicy defaultPolicy) ∅ ∅.

Definition policyLocked (tenantID : string) (m : Manager) : Policy :=
  default (M_defaultPolicy m) (M_policies m !! tenantID).

Definition new_tenantState : tenantState :=
  mkTenantState 0 0 0 0 0 0 0 0 BreakerClosed zero_time false 0 0 f_zero 0 f_zero ∅ [] [].

(** [stateLocked] creates the state of an unknown tenant; the caller writes the
    state back, so reading it with the default is the same. *)
Definition stateLocked (tenantID : string) (m : Manager) : tenantState :=
  default new_tenantState (M_states m !! tenantID).

Definition put_state (tenantID : string) (st : tenantState) (m : Manager) : Manager :=
  m <| M_states ::= insert tenantID st |>.

Section clocked.
Context (clk : nat -> Time).

(** A tenant's state and the number of clock readings made. *)
Abbreviation tcall := (tenantState * nat)%type.

Definition emitAlertLocked (tenantID : string) (t : AlertType) (message : string) (c : tcall) : tcall :=
  let '(st, n) := c in
  if bool_decide (tenantID = "") || bool_decide (message = "") then c
  else
    let alerts := ts_alerts st ++ [mkAlert tenantID t message (clk n)] in
    let alerts := if (200 <? Z.of_nat (length alerts))
                  then drop (length alerts - 200) alerts else alerts in
    (st <| ts_alerts := alerts |>, S n).

Definition openBreakerLocked (tenantID reason : string) (c : tcall) : tcall :=
  let '(st, n) := c in
  if bool_decide (ts_breakerState st = BreakerOpen) then c
  else emitAlertLocked tenantID AlertTypeBreakerOpened reason
         (st <| ts_breakerState := BreakerOpen |> <| ts_breakerOpenedAt := clk n |>
             <| ts_halfOpenInFlight := false |>, S n).

Definition maybeRecoverBreakerLocked (pol : Policy) (tenantID : string) (now : Time) (c : tcall) : tcall :=
  let '(st, n) := c in
  if negb (bool_decide (ts_breakerState st = BreakerOpen)) then c
  else if (Policy_BreakerCooldown pol <=? 0) || time_IsZero (ts_breakerOpenedAt st) then c
  else if Policy_BreakerCooldown pol <=? time_Sub now (ts_breakerOpenedAt st)
  then emitAlertLocked tenantID AlertTypeBreakerClosed "breaker moved to half-open probe state"
         (st <| ts_breakerState := BreakerHalfOpen |> <| ts_halfOpenInFlight := false |>, n)
  else c.

Definition emitBudgetAlertsLocked (pol : Policy) (tenantID : string) (c : tcall) : tcall :=
  if f_leb (Policy_AlertBudgetPct pol) f_zero then c
  else
    let c := if 0 <? Policy_TokenBudget pol then
        let st := c.1 in
        let used := f_div (f_of_Z (add64 (ts_tokensUsed st) (ts_reservedTokens st)))
                          (f_of_Z (Policy_TokenBudget pol)) in
        if f_geb used (Policy_AlertBudgetPct pol)
        then emitAlertLocked tenantID AlertTypeBudgetBreach
               ("token budget at " +:+ fmt_f 2 (f_mul used (f_of_Z 100)) +:+ "%") c
        else c
      else c in
    if f_gtb (Policy_CostBudget pol) f_zero then
      let st := c.1 in
      let used := f_div (f_add (ts_costUsed st) (ts_reservedCost st)) (Policy_CostBudget pol) in
      if f_geb used (Policy_AlertBudgetPct pol)
      then emitAlertLocked tenantID AlertTypeBudgetBreach
             ("cost budget at " +:+ fmt_f 2 (f_mul used (f_of_Z 100)) +:+ "%") c
      else c
    else c.

(** Drop the reservation of a message, if it has one. *)
Definition release_reservation (key : string) (st : tenantState) : tenantState :=
  if bool_decide (key ≠ "") then
    match ts_reservations st !! key with
    | Some res =>
        st <| ts_reservedTokens ::= (fun x => sub64 x (AdmissionInfo_EstimatedTokens res)) |>
           <| ts_reservedCost ::= (fun x => f_sub x (AdmissionInfo_EstimatedCost res)) |>
           <| ts_reservations ::= delete key |>
    | None => st
    end
  else st.

(** The accepted part of [TryEnqueue]: count the message and reserve its budget. *)
Definition accept_message (info : AdmissionInfo) (now : Time) (st : tenantState) : tenantState :=
  let estTokens := max64 0 (AdmissionInfo_EstimatedTokens info) in
  let estCost := maxFloat f_zero (AdmissionInfo_EstimatedCost info) in
  let key := AdmissionInfo_MessageKey info in
  let st := st <| ts_queued ::= (fun x => add64 x 1) |> <| ts_enqueued ::= (fun x => add64 x 1) |>
               <| ts_enqWindow ::= (fun w => w ++ [now]) |> in
  if bool_decide (key ≠ "") then
    let st := match ts_reservations st !! key with
              | Some old =>
                  st <| ts_reservedTokens ::= (fun x => sub64 x (AdmissionInfo_EstimatedTokens old)) |>
                     <| ts_reservedCost ::= (fun x => f_sub x (AdmissionInfo_EstimatedCost old)) |>
              | None => st
              end in
    st <| ts_reservations ::= insert key (mkAdmissionInfo key estTokens estCost) |>
       <| ts_reservedTokens ::= (fun x => add64 x estTokens) |>
       <| ts_reservedCost ::= (fun x => f_add x estCost) |>
  else st.

Definition tryEnqueue (pol : Policy) (tenantID : string) (info : AdmissionInfo) (st : tenantState)
    : tcall * result error unit :=
  let now := clk 0 in
  let c := maybeRecoverBreakerLocked pol tenantID now (st, 1%nat) in
  let st := c.1 in
  if bool_decide (ts_breakerState st = BreakerOpen)
  then (c, Err (ErrPolicyViolation "tenant breaker is open"))
  else if (0 <? Policy_MaxQueued pol) && (Policy_MaxQueued pol <=? ts_queued st) then
    (emitAlertLocked tenantID AlertTypeQueueDepth
       ("queue depth=" +:+ fmt_d (ts_queued st) +:+ " exceeds limit=" +:+ fmt_d (Policy_MaxQueued pol)) c,
     Err (ErrPolicyViolation "tenant queued limit exceeded"))
  else
    let c := (st <| ts_enqWindow ::= (fun w => pruneOld w (time_Add now (- Minute))) |>, c.2) in
    let st := c.1 in
    if (0 <? Policy_RateLimitPerMinute pol)
       && (Policy_RateLimitPerMinute pol <=? Z.of_nat (length (ts_enqWindow st))) then
      (emitAlertLocked tenantID AlertTypeRateLimited
         ("rate limited: " +:+ fmt_d (Policy_RateLimitPerMinute pol) +:+ " requests/min")
         (st <| ts_rateLimited ::= (fun x => add64 x 1) |>, c.2),
       Err (ErrPolicyViolation "tenant rate limit exceeded"))
    else
      let estTokens := max64 0 (AdmissionInfo_EstimatedTokens info) in
      let estCost := maxFloat f_zero (AdmissionInfo_EstimatedCost info) in
      if (0 <? Policy_TokenBudget pol)
         && (Policy_TokenBudget pol <? add64 (add64 (ts_tokensUsed st) (ts_reservedTokens st)) estTokens) then
        (openBreakerLocked tenantID
           ("token budget exceeded: used=" +:+ fmt_d (ts_tokensUsed st) +:+ " reserved="
            +:+ fmt_d (ts_reservedTokens st) +:+ " incoming=" +:+ fmt_d estTokens
            +:+ " budget=" +:+ fmt_d (Policy_TokenBudget pol)) c,
         Err (ErrPolicyViolation "tenant token budget exceeded"))
      else if f_gtb (Policy_CostBudget pol) f_zero
              && f_gtb (f_add (f_add (ts_costUsed st) (ts_reservedCost st)) estCost) (Policy_CostBudget pol) then
        (openBreakerLocked tenantID
           ("cost budget exceeded: used=" +:+ fmt_f 6 (ts_costUsed st) +:+ " reserved="
            +:+ fmt_f 6 (ts_reservedCost st) +:+ " incoming=" +:+ fmt_f 6 estCost
            +:+ " budget=" +:+ fmt_f 6 (Policy_CostBudget pol)) c,
         Err (ErrPolicyViolation "tenant cost budget exceeded"))
      else
        let c := (accept_message info now st, c.2) in
        let st := c.1 in
        let c := if (0 <? Policy_AlertQueueDepth pol) && (Policy_AlertQueueDepth pol <=? ts_queued st)
                 then emitAlertLocked tenantID AlertTypeQueueDepth
                        ("queue depth reached " +:+ fmt_d (ts_queued st)) c
                 else c in
        (emitBudgetAlertsLocked pol tenantID c, Ok tt).

Definition tryStartRun (pol : Policy) (tenantID : string) (st : tenantState)
    : tcall * result error unit :=
  let c := maybeRecoverBreakerLocked pol tenantID (clk 0) (st, 1%nat) in
  let st := c.1 in
  (* the running limit, with the probe taken in the half-open state *)
  let start st :=
    if (0 <? Policy_MaxRunning pol) && (Policy_MaxRunning pol <=? ts_running st) then
      ((if bool_decide (ts_breakerState st = BreakerHalfOpen)
        then st <| ts_halfOpenInFlight := false |> else st, c.2),
       Err (ErrPolicyViolation "tenant running limit exceeded"))
    else
      let st := st <| ts_running ::= (fun x => add64 x 1) |> in
      let st := if 0 <? ts_queued st then st <| ts_queued ::= (fun x => sub64 x 1) |> else st in
      ((st <| ts_dequeued ::= (fun x => add64 x 1) |>, c.2), Ok tt) in
  match ts_breakerState st with
  | BreakerOpen => (c, Err (ErrPolicyViolation "tenant breaker is open"))
  | BreakerHalfOpen =>
      if ts_halfOpenInFlight st
      then (c, Err (ErrPolicyViolation "tenant breaker is half-open and already probing"))
      else start (st <| ts_halfOpenInFlight := true |>)
  | BreakerClosed => start st
  end.

(** The failure and success branches of [CompleteRun]. *)
Definition complete_failed (pol : Policy) (tenantID : string) (c : tcall) : tcall :=
  let st := c.1 in
  let st := st <| ts_failed ::= (fun x => add64 x 1) |>
               <| ts_consecutiveErrors ::= (fun x => add64 x 1) |> in
  let c := (st, c.2) in
  let c := if (0 <? Policy_MaxConsecutiveErrors pol)
              && (Policy_MaxConsecutiveErrors pol <=? ts_consecutiveErrors st)
           then openBreakerLocked tenantID
                  ("error threshold reached: " +:+ fmt_d (ts_consecutiveErrors st)
                   +:+ " consecutive failures") c
           else c in
  if (0 <? Policy_AlertErrorBurst pol) && (Policy_AlertErrorBurst pol <=? ts_consecutiveErrors c.1)
  then emitAlertLocked tenantID AlertTypeErrorBurst
         ("consecutive failures reached " +:+ fmt_d (ts_consecutiveErrors c.1)) c
  else c.

Definition complete_ok (tenantID : string) (c : tcall) : tcall :=
  let st := c.1 in
  let st := st <| ts_completed ::= (fun x => add64 x 1) |> <| ts_consecutiveErrors := 0 |> in
  if bool_decide (ts_breakerState st = BreakerHalfOpen)
  then emitAlertLocked tenantID AlertTypeBreakerClosed
         "breaker closed after successful half-open probe"
         (st <| ts_breakerState := BreakerClosed |> <| ts_halfOpenInFlight := false |>
             <| ts_breakerOpenedAt := zero_time |>, c.2)
  else (st, c.2).

(** The budget part of [CompleteRun]: free the slot and the reservation, and
    account the usage of an accepted message. *)
Definition settle (info : CompletionInfo) (st : tenantState) : tenantState :=
  let st := if 0 <? ts_running st then st <| ts_running ::= (fun x => sub64 x 1) |> else st in
  let st := release_reservation (CompletionInfo_MessageKey info) st in
  if CompletionInfo_WasAccepted info
  then st <| ts_tokensUsed ::= (fun x => add64 x (max64 0 (CompletionInfo_TokensUsed info))) |>
          <| ts_costUsed ::= (fun x => f_add x (maxFloat f_zero (CompletionInfo_CostUsed info))) |>
  else st.

Definition completeRun (pol : Policy) (tenantID : string) (info : CompletionInfo) (st : tenantState) : tcall :=
  let c := (settle info st, 0%nat) in
  let c := if CompletionInfo_Failed info then complete_failed pol tenantID c else complete_ok tenantID c in
  let c := if bool_decide (ts_breakerState c.1 = BreakerHalfOpen) && CompletionInfo_Failed info
           then openBreakerLocked tenantID "half-open probe failed" c else c in
  emitBudgetAlertsLocked pol tenantID (c.1 <| ts_halfOpenInFlight := false |>, c.2).

(** ** The methods of the manager *)

Definition Manager_TryEnqueue (tenantID : string) (info : AdmissionInfo) (m : Manager)
    : Manager * result error unit :=
  let '(c, r) := tryEnqueue (policyLocked tenantID m) tenantID info (stateLocked tenantID m) in
  (put_state tenantID c.1 m, r).

Definition Manager_TryStartRun (tenantID : string) (m : Manager) : Manager * result error unit :=
  let '(c, r) := tryStartRun (policyLocked tenantID m) tenantID (stateLocked tenantID m) in
  (put_state tenantID c.1 m, r).

Definition Manager_CompleteRun (tenantID : string) (info : CompletionInfo) (m : Manager) : Manager :=
  let c := completeRun (policyLocked tenantID m) tenantID info (stateLocked tenantID m) in
  put_state tenantID c.1 m.
End clocked.

Arguments emitAlertLocked : simpl never.
Arguments openBreakerLocked : simpl never.
Arguments maybeRecoverBreakerLocked : simpl never.
Arguments emitBudgetAlertsLocked : simpl never.
Arguments release_reservation : simpl never.
Arguments accept_message : simpl never.
Arguments settle : simpl never.
Arguments complete_failed : simpl never.
Arguments complete_ok : simpl never.

Definition cancelEnqueue (messageKey : string) (st : tenantState) : tenantState :=
  let st := if 0 <? ts_queued st then st <| ts_queued ::= (fun x => sub64 x 1) |> else st in
  release_reservation messageKey st.

Definition Manager_CancelEnqueue (tenantID messageKey : string) (m : Manager) : Manager :=
  put_state tenantID (cancelEnqueue messageKey (stateLocked tenantID m)) m.

Definition markDeadLetter (messageKey : string) (st : tenantState) : tenantState :=
  release_reservation messageKey (st <| ts_deadLetter ::= (fun x => add64 x 1) |>).

Definition Manager_MarkDeadLetter (tenantID messageKey : string) (m : Manager) : Manager :=
  put_state tenantID (markDeadLetter messageKey (stateLocked tenantID m)) m.

Definition Manager_SetPolicy (tenantID : string) (p : Policy) (m : Manager) : Manager :=
  if bool_decide (tenantID = "") then m
  else m <| M_policies ::= insert tenantID (normalizePolicy p) |>.

Definition Manager_GetPolicy (tenantID : string) (m : Manager) : Policy := policyLocked tenantID m.

Definition snapshotFromState (tenantID : string) (st : tenantState) (pol : Policy) : RuntimeSnapshot :=
  mkRuntimeSnapshot tenantID (ts_running st) (ts_queued st) (ts_enqueued st) (ts_dequeued st)
    (ts_completed st) (ts_failed st) (ts_deadLetter st) (ts_consecutiveErrors st)
    (string_of_BreakerState (ts_breakerState st))
    (if time_IsZero (ts_breakerOpenedAt st) then 0 else time_Unix (ts_breakerOpenedAt st))
    (ts_rateLimited st) (ts_tokensUsed st) (ts_costUsed st) (Policy_TokenBudget pol)
    (Policy_CostBudget pol) (ts_reservedTokens st) (ts_reservedCost st).

Definition Manager_Snapshot (tenantID : string) (m : Manager) : Manager * RuntimeSnapshot :=
  let st := stateLocked tenantID m in
  (put_state tenantID st m, snapshotFromState tenantID st (policyLocked tenantID m)).

Definition Manager_Snapshots (m : Manager) : list RuntimeSnapshot :=
  map (fun '(t, st) => snapshotFromState t st (policyLocked t m))
    (sort_slice (fun a b => String.ltb a.1 b.1) (map_to_list (M_states m))).

Definition Manager_Alerts (tenantID : string) (limit : Z) (m : Manager) : Manager * list Alert :=
  let st := stateLocked tenantID m in
  let n := Z.of_nat (length (ts_alerts st)) in
  let limit := if (limit <=? 0) || (n <? limit) then n else limit in
  (put_state tenantID st m, drop (Z.to_nat (n - limit)) (ts_alerts st)).

(** ** Executions of one tenant under a fixed policy *)

Inductive tenant_op : Type :=
| TTryEnqueue (clk : nat -> Time) (info : AdmissionInfo)
| TTryStartRun (clk : nat -> Time)
| TCompleteRun (clk : nat -> Time) (info : CompletionInfo)
| TCancelEnqueue (key : string)
| TMarkDeadLetter (key : string).

Definition tenant_exec (pol : Policy) (tenantID : string) (o : tenant_op) (st : tenantState)
    : tenantState * result error unit :=
  match o with
  | TTryEnqueue clk info => let '(c, r) := tryEnqueue clk pol tenantID info st in (c.1, r)
  | TTryStartRun clk => let '(c, r) := tryStartRun clk pol tenantID st in (c.1, r)
  | TCompleteRun clk info => ((completeRun clk pol tenantID info st).1, Ok tt)
  | TCancelEnqueue key => (cancelEnqueue key st, Ok tt)
  | TMarkDeadLetter key => (markDeadLetter key st, Ok tt)
  end.

Definition tenant_execs (pol : Policy) (tenantID : string) (ops : list tenant_op) (st : tenantState)
    : tenantState :=
  fold_left (fun st o => (tenant_exec pol tenantID o st).1) ops st.

(** The calls of the manager that change it; every other one only reads. *)
Inductive manager_op : Type :=
| MTenant (tenantID : string) (o : tenant_op)
| MSetPolicy (tenantID : string) (p : Policy)
| MSnapshot (tenantID : string)
| MAlerts (tenantID : string) (limit : Z).

Definition manager_exec (o : manager_op) (m : Manager) : Manager :=
  match o with
  | MTenant t (TTryEnqueue clk info) => (Manager_TryEnqueue clk t info m).1
  | MTenant t (TTryStartRun clk) => (Manager_TryStartRun clk t m).1
  | MTenant t (TCompleteRun clk info) => Manager_CompleteRun clk t info m
  | MTenant t (TCancelEnqueue key) => Manager_CancelEnqueue t key m
  | MTenant t (TMarkDeadLetter key) => Manager_MarkDeadLetter t key m
  | MSetPolicy t p => Manager_SetPolicy t p m
  | MSnapshot t => (Manager_Snapshot t m).1
  | MAlerts t limit => (Manager_Alerts t limit m).1
  end.

Definition manager_execs (ops : list manager_op) (m : Manager) : Manager :=
  fold_left (fun m o => manager_exec o m) ops m.

(** The policies that calls give to a tenant. *)
Definition policies_given (t : string) (ops : list manager_op) : list Policy :=
  omap (fun o => match o with MSetPolicy t' p => if bool_decide (t' = t) then Some p else None | _ => None end) ops.

Definition reserved_sum (m : gmap string AdmissionInfo) : Z :=
  map_fold (fun _ i acc => AdmissionInfo_EstimatedTokens i + acc) 0 m.

(** What a policy must satisfy for the limits to mean anything; every policy that
    [normalizePolicy] returns does. *)
Definition policy_ok (pol : Policy) : Prop :=
  0 < Policy_MaxRunning pol <= max_int64 /\ 0 < Policy_MaxQueued pol <= max_int64 /\
  0 < Policy_RateLimitPerMinute pol.

Record tenant_inv (pol : Policy) (st : tenantState) : Prop := {
  inv_running : 0 <= ts_running st <= Policy_MaxRunning pol;
  inv_queued : 0 <= ts_queued st <= Policy_MaxQueued pol;
  inv_alerts : (length (ts_alerts st) <= 200)%nat;
  inv_window : Z.of_nat (length (ts_enqWindow st)) <= Policy_RateLimitPerMinute pol;
  inv_reserved : ts_reservedTokens st = wrap64 (reserved_sum (ts_reservations st));
  inv_probe : ts_halfOpenInFlight st = true -> ts_breakerState st = BreakerHalfOpen;
}.

(** The counting limits of a policy lie within those of another. *)
Definition policy_le (pol lim : Policy) : Prop :=
  Policy_MaxRunning pol <= Policy_MaxRunning lim /\ Policy_MaxQueued pol <= Policy_MaxQueued lim /\
  Policy_RateLimitPerMinute pol <= Policy_RateLimitPerMinute lim.

(** *** Frame lemmas: alerts do not touch anything else *)

Lemma emitAlert_frame clk t ty msg c :
  exists al, (emitAlertLocked clk t ty msg c).1 = c.1 <| ts_alerts := al |> /\
    ((length (ts_alerts c.1) <= 200)%nat -> (length al <= 200)%nat).
Proof.
  destruct c as [st n]. unfold emitAlertLocked.
  destruct (_ || _)%bool; cbn zeta.
  - exists (ts_alerts st). by destruct st.
  - eexists. split; [reflexivity|]. intros _.
    destruct (200 <? _) eqn:E; bool_prop; [rewrite length_drop|]; lia.
Qed.

Lemma emitBudgetAlerts_frame clk pol t c :
  exists al, (emitBudgetAlertsLocked clk pol t c).1 = c.1 <| ts_alerts := al |> /\
    ((length (ts_alerts c.1) <= 200)%nat -> (length al <= 200)%nat).
Proof.
  assert (Hid : exists al, c.1 = c.1 <| ts_alerts := al |> /\
    ((length (ts_alerts c.1) <= 200)%nat -> (length al <= 200)%nat)).
  { exists (ts_alerts c.1). by destruct c as [[] ?]. }
  unfold emitBudgetAlertsLocked. destruct (f_leb _ _); [done|]. cbn zeta.
  set (c1 := if 0 <? Policy_TokenBudget pol then _ else _).
  assert (H1 : exists al, c1.1 = c.1 <| ts_alerts := al |> /\
    ((length (ts_alerts c.1) <= 200)%nat -> (length al <= 200)%nat)).
  { unfold c1. destruct (0 <? _); [|done]. destruct (f_geb _ _); [|done]. apply emitAlert_frame. }
  clearbody c1. destruct H1 as (al & Hal & Hlen).
  destruct (f_gtb _ _); [|by eauto]. destruct (f_geb _ _); [|by eauto].
  match goal with |- context [emitAlertLocked _ _ _ ?m c1] =>
    destruct (emitAlert_frame clk t AlertTypeBudgetBreach m c1) as (al' & Hal' & Hlen') end.
  exists al'. rewrite Hal', Hal in *. cbn in *. auto.
Qed.

Lemma inv_set_alerts pol st al :
  tenant_inv pol st -> (length al <= 200)%nat -> tenant_inv pol (st <| ts_alerts := al |>).
Proof. intros [] ?. by constructor. Qed.

Lemma inv_emit clk pol t ty msg c :
  tenant_inv pol c.1 -> tenant_inv pol (emitAlertLocked clk t ty msg c).1.
Proof.
  intros H. destruct (emitAlert_frame clk t ty msg c) as (al & -> & Hlen).
  apply inv_set_alerts; [done|]. apply Hlen, (inv_alerts _ _ H).
Qed.

Lemma inv_budget_alerts clk pol lim t c :
  tenant_inv lim c.1 -> tenant_inv lim (emitBudgetAlertsLocked clk pol t c).1.
Proof.
  intros H. destruct (emitBudgetAlerts_frame clk pol t c) as (al & -> & Hlen).
  apply inv_set_alerts; [done|]. apply Hlen, (inv_alerts _ _ H).
Qed.

Lemma inv_open clk pol t reason c :
  tenant_inv pol c.1 -> tenant_inv pol (openBreakerLocked clk t reason c).1.
Proof.
  intros H. unfold openBreakerLocked. destruct c as [st n]. case_bool_decide; [done|].
  apply inv_emit. destruct H. by constructor.
Qed.

Lemma inv_recover clk pol lim t now c :
  tenant_inv lim c.1 -> tenant_inv lim (maybeRecoverBreakerLocked clk pol t now c).1.
Proof.
  intros H. unfold maybeRecoverBreakerLocked. destruct c as [st n].
  destruct (negb _); [done|]. destruct (_ || _)%bool; [done|]. destruct (_ <=? _); [|done].
  apply inv_emit. destruct H. by constructor.
Qed.

(** *** Reservations *)

Lemma reserved_sum_insert m k i :
  m !! k = None -> reserved_sum (<[k := i]> m) = AdmissionInfo_EstimatedTokens i + reserved_sum m.
Proof. intros H. unfold reserved_sum. rewrite map_fold_insert_L; [done|intros; lia|done]. Qed.

Lemma reserved_sum_delete m k i :
  m !! k = Some i -> reserved_sum m = AdmissionInfo_EstimatedTokens i + reserved_sum (delete k m).
Proof. intros H. unfold reserved_sum. rewrite (map_fold_delete_L _ _ k i m); [done|intros; lia|done]. Qed.

Lemma reserved_sum_update m k i old :
  m !! k = Some old ->
  reserved_sum (<[k := i]> m) =
    reserved_sum m - AdmissionInfo_EstimatedTokens old + AdmissionInfo_EstimatedTokens i.
Proof.
  intros H. rewrite (reserved_sum_delete m k old H).
  rewrite <- insert_delete_eq, reserved_sum_insert by apply lookup_delete_eq. lia.
Qed.

Lemma inv_release pol key st : tenant_inv pol st -> tenant_inv pol (release_reservation key st).
Proof.
  intros H. unfold release_reservation. case_bool_decide; [|done].
  destruct (ts_reservations st !! key) as [res|] eqn:E; [|done].
  destruct H. constructor; cbn; try done. rewrite inv_reserved0.
  unfold sub64. rewrite wrap64_sub_l. f_equal. rewrite (reserved_sum_delete _ _ _ E). lia.
Qed.

Lemma inv_admit pol info now st :
  policy_ok pol -> tenant_inv pol st -> ts_queued st < Policy_MaxQueued pol ->
  Z.of_nat (length (ts_enqWindow st)) < Policy_RateLimitPerMinute pol ->
  tenant_inv pol (accept_message info now st).
Proof.
  intros (HR & HQ & HW) [] Hq Hw. unfold accept_message. cbn zeta.
  assert (add64 (ts_queued st) 1 = ts_queued st + 1) as Hadd.
  { apply add64_id. unfold_int64. lia. }
  case_bool_decide as Hk.
  - destruct (ts_reservations _ !! _) as [old|] eqn:E; constructor; cbn in *; rewrite ?Hadd; try done; try lia.
    1, 3: rewrite length_app; cbn; lia.
    + rewrite (reserved_sum_update _ _ _ _ E), inv_reserved0. cbn.
      unfold add64, sub64. rewrite wrap64_add_l.
      rewrite <- Z.add_sub_swap, <- Z.add_sub_assoc, wrap64_add_l. f_equal. lia.
    + rewrite reserved_sum_insert by done. rewrite inv_reserved0. cbn.
      unfold add64. rewrite wrap64_add_l. f_equal. lia.
  - constructor; cbn; rewrite ?Hadd; try done; try lia. rewrite length_app. cbn. lia.
Qed.

Lemma pruneOld_suffix ts cutoff : exists k, pruneOld ts cutoff = drop k ts.
Proof.
  induction ts as [|t ts [k IH]]; cbn; [by exists 0%nat|].
  destruct (time_Before t cutoff); [by exists (S k)|by exists 0%nat].
Qed.

Lemma pruneOld_length ts cutoff : (length (pruneOld ts cutoff) <= length ts)%nat.
Proof. destruct (pruneOld_suffix ts cutoff) as [k ->]. rewrite length_drop. lia. Qed.

Lemma inv_prune pol st cutoff :
  tenant_inv pol st -> tenant_inv pol (st <| ts_enqWindow ::= (fun w => pruneOld w cutoff) |>).
Proof.
  intros []. constructor; cbn; try done. pose proof (pruneOld_length (ts_enqWindow st) cutoff). lia.
Qed.

(** An operation decides by the policy [pol] in force; limits [lim] that are at least as wide stay respected. *)
Section within.
Context (pol lim : Policy) (Hpol : policy_ok pol) (Hlim : policy_ok lim) (Hle : policy_le pol lim).

Lemma inv_tryEnqueue clk t info st : tenant_inv lim st -> tenant_inv lim (tryEnqueue clk pol t info st).1.1.
Proof.
  intros H. unfold tryEnqueue. cbn zeta.
  pose proof (inv_recover clk pol lim t (clk 0%nat) (st, 1%nat) H) as H1.
  destruct (maybeRecoverBreakerLocked _ _ _ _ _) as [st1 n1]. cbn in H1 |- *.
  case_if; [done|]. case_if as Eq; [by apply inv_emit|].
  pose proof (inv_prune lim st1 (time_Add (clk 0%nat) (- Minute)) H1) as H2.
  set (st2 := st1 <| ts_enqWindow ::= _ |>) in *.
  case_if as Er; [apply inv_emit; destruct H2; by constructor|].
  case_if; [by apply inv_open|]. case_if; [by apply inv_open|].
  cbn. apply inv_budget_alerts.
  assert (H3 : tenant_inv lim (accept_message info (clk 0%nat) st2)).
  { destruct Hpol as (? & ? & ?), Hle as (? & ? & ?). apply andb_false_iff in Eq, Er.
    apply inv_admit; [done|done|..]; cbn in *.
    - destruct Eq as [Eq|Eq]; bool_prop; lia.
    - destruct Er as [Er|Er]; bool_prop; lia. }
  case_if; [by apply inv_emit|done].
Qed.

Lemma inv_tryStartRun clk t st : tenant_inv lim st -> tenant_inv lim (tryStartRun clk pol t st).1.1.
Proof.
  destruct Hpol as (HR & _), Hlim as (HR' & HQ & HW), Hle as (HL & _). intros H. unfold tryStartRun. cbn zeta.
  pose proof (inv_recover clk pol lim t (clk 0%nat) (st, 1%nat) H) as H1.
  destruct (maybeRecoverBreakerLocked _ _ _ _ _) as [st1 n1]. cbn in H1 |- *.
  pose proof H1 as [].
  destruct (ts_breakerState st1) eqn:Eb; [|exact H1|case_if; [exact H1|]].
  all: cbn; case_if as E; cbn; [rewrite ?Eb; cbn; try case_bool_decide; try done; constructor; cbn; auto; congruence|].
  all: apply andb_false_iff in E; unfold add64, sub64.
  all: destruct (0 <? ts_queued st1) eqn:Eq; bool_prop; constructor; cbn; auto; try congruence.
  all: try (rewrite wrap64_id; unfold_int64; destruct E; bool_prop; lia).
  all: by rewrite Eb.
Qed.

Lemma inv_settle info st : tenant_inv lim st -> tenant_inv lim (settle info st).
Proof.
  destruct Hlim as (HR & HQ & HW). intros H. unfold settle. cbn zeta.
  set (st1 := if 0 <? ts_running st then _ else _).
  assert (H1 : tenant_inv lim st1).
  { unfold st1. destruct (0 <? ts_running st) eqn:E; [|done]. bool_prop. destruct H.
    constructor; cbn; try done. rewrite sub64_id; unfold_int64; lia. }
  pose proof (inv_release lim (CompletionInfo_MessageKey info) _ H1) as H2.
  destruct (CompletionInfo_WasAccepted info); [|done]. destruct H2. by constructor.
Qed.

Lemma inv_completeRun clk t info st : tenant_inv lim st -> tenant_inv lim (completeRun clk pol t info st).1.
Proof.
  intros H. unfold completeRun. cbn zeta. apply inv_budget_alerts.
  pose proof (inv_settle info st H) as H1.
  match goal with |- tenant_inv _ ((?x).1 <| _ := _ |>, _).1 => assert (H2 : tenant_inv lim x.1) end.
  2: { destruct H2. cbn. by constructor. }
  match goal with |- tenant_inv _ (if _ then openBreakerLocked _ _ _ ?x else _).1 =>
    assert (H3 : tenant_inv lim x.1) end.
  2: { case_if; [by apply inv_open|done]. }
  destruct (CompletionInfo_Failed info).
  - unfold complete_failed. cbn.
    match goal with |- tenant_inv _ (if _ then emitAlertLocked _ _ _ _ ?x else _).1 =>
      assert (H4 : tenant_inv lim x.1) end.
    { assert (tenant_inv lim ((settle info st) <| ts_failed ::= (fun x => add64 x 1) |>
               <| ts_consecutiveErrors ::= (fun x => add64 x 1) |>)) as H4 by (destruct H1; by constructor).
      case_if; [by apply inv_open|done]. }
    case_if; [by apply inv_emit|done].
  - unfold complete_ok. cbn. case_bool_decide.
    + apply inv_emit. destruct H1. by constructor.
    + destruct H1. by constructor.
Qed.

Lemma inv_exec_within t o st : tenant_inv lim st -> tenant_inv lim (tenant_exec pol t o st).1.
Proof.
  intros H. destruct o; cbn.
  - pose proof (inv_tryEnqueue clk t info st H). by destruct (tryEnqueue _ _ _ _ _).
  - pose proof (inv_tryStartRun clk t st H). by destruct (tryStartRun _ _ _ _).
  - by apply inv_completeRun.
  - unfold cancelEnqueue. cbn zeta. apply inv_release. destruct (0 <? ts_queued st) eqn:E; [|done].
    bool_prop. destruct Hlim as (? & ? & ?), H. constructor; cbn; try done.
    rewrite sub64_id; unfold_int64; lia.
  - apply inv_release. destruct H. by constructor.
Qed.
End within.

Lemma inv_exec pol t o st :
  policy_ok pol -> tenant_inv pol st -> tenant_inv pol (tenant_exec pol t o st).1.
Proof. intros Hp. apply inv_exec_within; [done..|]. by unfold policy_le. Qed.

Lemma inv_new pol : policy_ok pol -> tenant_inv pol new_tenantState.
Proof. intros (? & ? & ?). constructor; cbn; try done; lia. Qed.

Lemma normalize_rest_ok l q :
  Forall (fun d => forall q, policy_ok q -> policy_ok (normalize_step q d)) l ->
  policy_ok q -> policy_ok (fold_left normalize_step l q).
Proof. intros Hl. revert q. induction Hl as [|d l Hd Hl IH]; intros q Hq; [done|]. apply IH. auto. Qed.

Lemma normalizePolicy_ok p :
  Policy_MaxRunning p <= max_int64 -> Policy_MaxQueued p <= max_int64 -> policy_ok (normalizePolicy p).
Proof.
  intros HR HQ. unfold normalizePolicy, policy_defaults.
  match goal with |- policy_ok (fold_left _ (?d1 :: ?d2 :: ?d3 :: ?l) p) =>
    change (policy_ok (fold_left normalize_step l
              (normalize_step (normalize_step (normalize_step p d1) d2) d3)));
    set (q1 := normalize_step p d1); set (q2 := normalize_step q1 d2); set (q3 := normalize_step q2 d3)
  end.
  assert (H1 : 0 < Policy_MaxRunning q1 <= max_int64 /\ Policy_MaxQueued q1 <= max_int64).
  { unfold q1, normalize_step. cbn [fst snd].
    case_if; bool_prop; cbn; unfold max_int64, defaultMaxRunning in *; lia. }
  clearbody q1.
  assert (H2 : 0 < Policy_MaxRunning q2 <= max_int64 /\ 0 < Policy_MaxQueued q2 <= max_int64).
  { unfold q2, normalize_step. cbn [fst snd].
    case_if; bool_prop; cbn; unfold max_int64, defaultMaxQueued in *; lia. }
  clearbody q2.
  assert (H3 : policy_ok q3).
  { unfold q3, normalize_step, policy_ok. cbn [fst snd].
    case_if; bool_prop; cbn; unfold defaultRatePerMinute; lia. }
  apply normalize_rest_ok; [|done].
  repeat (apply List.Forall_cons || apply List.Forall_nil);
    intros q Hq; unfold normalize_step; cbn [fst snd]; (case_if; [exact Hq|done]).
Qed.

(** *** The breaker *)

Lemma emitAlert_fst clk t ty msg c :
  (emitAlertLocked clk t ty msg c).1 =
    c.1 <| ts_alerts := ts_alerts (emitAlertLocked clk t ty msg c).1 |>.
Proof. destruct (emitAlert_frame clk t ty msg c) as (al & -> & _). by destruct (c.1). Qed.

Lemma emitBudgetAlerts_fst clk pol t c :
  (emitBudgetAlertsLocked clk pol t c).1 =
    c.1 <| ts_alerts := ts_alerts (emitBudgetAlertsLocked clk pol t c).1 |>.
Proof. destruct (emitBudgetAlerts_frame clk pol t c) as (al & -> & _). by destruct (c.1). Qed.

Lemma openBreaker_open clk t reason c :
  ts_breakerState (openBreakerLocked clk t reason c).1 = BreakerOpen.
Proof.
  unfold openBreakerLocked. destruct c as [st n]. case_bool_decide; [done|].
  by rewrite emitAlert_fst.
Qed.

Lemma openBreaker_errors clk t reason c :
  ts_consecutiveErrors (openBreakerLocked clk t reason c).1 = ts_consecutiveErrors c.1.
Proof.
  unfold openBreakerLocked. destruct c as [st n]. case_bool_decide; [done|].
  by rewrite emitAlert_fst.
Qed.

Lemma release_breaker key st :
  ts_consecutiveErrors (release_reservation key st) = ts_consecutiveErrors st /\
  ts_breakerState (release_reservation key st) = ts_breakerState st.
Proof. unfold release_reservation. repeat (split_match; try done). Qed.

Lemma settle_breaker info st :
  ts_consecutiveErrors (settle info st) = ts_consecutiveErrors st /\
  ts_breakerState (settle info st) = ts_breakerState st.
Proof.
  unfold settle. cbn zeta.
  set (st1 := if 0 <? ts_running st then _ else _).
  assert (ts_consecutiveErrors st1 = ts_consecutiveErrors st /\ ts_breakerState st1 = ts_breakerState st)
    as [<- <-] by (unfold st1; by destruct (0 <? _)).
  destruct (CompletionInfo_WasAccepted info); cbn; apply release_breaker.
Qed.

Lemma completeRun_failed clk pol t info st :
  CompletionInfo_Failed info = true ->
  let st' := (completeRun clk pol t info st).1 in
  ts_consecutiveErrors st' = add64 (ts_consecutiveErrors st) 1 /\
  (0 < Policy_MaxConsecutiveErrors pol <= add64 (ts_consecutiveErrors st) 1 ->
   ts_breakerState st' = BreakerOpen).
Proof.
  intros Hf. unfold completeRun. rewrite Hf. cbn zeta.
  destruct (settle_breaker info st) as [He _].
  rewrite emitBudgetAlerts_fst. cbn [fst].
  set (c1 := complete_failed clk pol t (settle info st, 0%nat)).
  assert (Hc1 : ts_consecutiveErrors c1.1 = add64 (ts_consecutiveErrors st) 1 /\
    (0 < Policy_MaxConsecutiveErrors pol <= add64 (ts_consecutiveErrors st) 1 ->
     ts_breakerState c1.1 = BreakerOpen)).
  { unfold c1, complete_failed. cbn zeta. cbn.
    set (c2 := if (0 <? Policy_MaxConsecutiveErrors pol) && _ then _ else _).
    assert (Hc2 : ts_consecutiveErrors c2.1 = add64 (ts_consecutiveErrors st) 1 /\
      (0 < Policy_MaxConsecutiveErrors pol <= add64 (ts_consecutiveErrors st) 1 ->
       ts_breakerState c2.1 = BreakerOpen)).
    { unfold c2. rewrite He. case_if as E.
      - rewrite openBreaker_errors, openBreaker_open. cbn. by rewrite He.
      - cbn. rewrite He. split; [done|]. apply andb_false_iff in E. destruct E; bool_prop; lia. }
    clearbody c2. case_if; [|done]. by rewrite emitAlert_fst. }
  clearbody c1. case_if as E; cbn; [|done].
  rewrite openBreaker_errors, openBreaker_open. split; [apply Hc1|done].
Qed.

(** What the recovery check does to the breaker. *)
Lemma recover_closed clk pol t now c :
  ts_breakerState c.1 <> BreakerOpen -> maybeRecoverBreakerLocked clk pol t now c = c.
Proof.
  intros H. unfold maybeRecoverBreakerLocked. destruct c as [st n].
  by rewrite bool_decide_false by done.
Qed.

Lemma recover_early clk pol t now c :
  time_Sub now (ts_breakerOpenedAt c.1) < Policy_BreakerCooldown pol ->
  maybeRecoverBreakerLocked clk pol t now c = c.
Proof.
  intros H. unfold maybeRecoverBreakerLocked. destruct c as [st n]. cbn in H.
  rewrite (proj2 (Z.leb_gt _ _) H). by repeat case_if.
Qed.

Lemma recover_due clk pol t now c :
  ts_breakerState c.1 = BreakerOpen -> 0 < Policy_BreakerCooldown pol ->
  time_IsZero (ts_breakerOpenedAt c.1) = false ->
  Policy_BreakerCooldown pol <= time_Sub now (ts_breakerOpenedAt c.1) ->
  exists al, (maybeRecoverBreakerLocked clk pol t now c).1 =
    c.1 <| ts_breakerState := BreakerHalfOpen |> <| ts_halfOpenInFlight := false |> <| ts_alerts := al |>.
Proof.
  intros Ho Hc Hz Hd. unfold maybeRecoverBreakerLocked. destruct c as [st n]. cbn in *.
  rewrite bool_decide_true, Hz by done. rewrite (proj2 (Z.leb_gt _ _) Hc), (proj2 (Z.leb_le _ _) Hd). cbn.
  match goal with |- context [emitAlertLocked ?a ?b ?c ?d ?e] =>
    destruct (emitAlert_frame a b c d e) as (al & Hal & _) end.
  exists al. by rewrite Hal.
Qed.

(** The number of [TryStartRun] calls that succeed in a row of them. *)
Fixpoint starts_won (pol : Policy) (t : string) (clks : list (nat -> Time)) (st : tenantState) : nat :=
  match clks with
  | [] => 0
  | clk :: clks' =>
      let '(c, r) := tryStartRun clk pol t st in
      (if is_ok r then 1 else 0) + starts_won pol t clks' c.1
  end%nat.

Lemma start_probing clk pol t st :
  ts_breakerState st = BreakerHalfOpen -> ts_halfOpenInFlight st = true ->
  tryStartRun clk pol t st =
    ((st, 1%nat), Err (ErrPolicyViolation "tenant breaker is half-open and already probing")).
Proof.
  intros Hb Hp. unfold tryStartRun. rewrite recover_closed by (cbn; congruence). cbn. by rewrite Hb, Hp.
Qed.

Lemma starts_won_probing pol t clks st :
  ts_breakerState st = BreakerHalfOpen -> ts_halfOpenInFlight st = true -> starts_won pol t clks st = 0%nat.
Proof.
  intros Hb Hp. induction clks as [|clk clks IH]; [done|]. cbn [starts_won].
  by rewrite start_probing.
Qed.

Lemma start_half_open clk pol t st :
  ts_breakerState st = BreakerHalfOpen -> ts_halfOpenInFlight st = false ->
  let '(c, r) := tryStartRun clk pol t st in
  ts_breakerState c.1 = BreakerHalfOpen /\ ts_halfOpenInFlight c.1 = is_ok r.
Proof.
  intros Hb Hp. unfold tryStartRun. rewrite recover_closed by (cbn; congruence). cbn. rewrite Hb, Hp. cbn.
  case_if; cbn; rewrite ?Hb; cbn; [done|]. by case_if.
Qed.

(** *** Token budget *)

(** The tokens reserved for a message. *)
Definition reserved_for (key : string) (st : tenantState) : Z :=
  match ts_reservations st !! key with
  | Some i => if bool_decide (key ≠ "") then AdmissionInfo_EstimatedTokens i else 0
  | None => 0
  end.

(** The operations a budgeted tenant performs: estimates small enough that adding
    one to the budget does not overflow, and no more usage accounted on completion
    than was reserved, which is what the queue does. *)
Definition budget_op_ok (pol : Policy) (st : tenantState) (o : tenant_op) : Prop :=
  match o with
  | TTryEnqueue _ info => AdmissionInfo_EstimatedTokens info <= max_int64 - Policy_TokenBudget pol
  | TCompleteRun _ info =>
      CompletionInfo_WasAccepted info = true ->
      max64 0 (CompletionInfo_TokensUsed info) <= reserved_for (CompletionInfo_MessageKey info) st
  | _ => True
  end.

Inductive budget_reachable (pol : Policy) (t : string) : tenantState -> Prop :=
| budget_start : budget_reachable pol t new_tenantState
| budget_step st o :
    budget_reachable pol t st -> budget_op_ok pol st o ->
    budget_reachable pol t (tenant_exec pol t o st).1.

Record budget_inv (pol : Policy) (st : tenantState) : Prop := {
  bi_used : 0 <= ts_tokensUsed st;
  bi_res : map_Forall (fun _ i => 0 <= AdmissionInfo_EstimatedTokens i) (ts_reservations st);
  bi_sum : ts_reservedTokens st = reserved_sum (ts_reservations st);
  bi_cap : ts_tokensUsed st + reserved_sum (ts_reservations st) <= Policy_TokenBudget pol;
}.

Lemma reserved_sum_nonneg m :
  map_Forall (fun _ i => 0 <= AdmissionInfo_EstimatedTokens i) m -> 0 <= reserved_sum m.
Proof.
  induction m as [|k i m Hk IH] using map_ind; [done|].
  intros H. apply map_Forall_insert in H as [Hi Hm]; [|done].
  rewrite reserved_sum_insert by done. specialize (IH Hm). lia.
Qed.

Lemma max64_nonneg z : 0 <= max64 0 z /\ (max64 0 z = z \/ max64 0 z = 0).
Proof. unfold max64. destruct (Z.ltb_spec z 0); lia. Qed.

(** Only these fields matter to the budget. *)
Lemma budget_inv_frame pol st st' :
  budget_inv pol st -> ts_tokensUsed st' = ts_tokensUsed st ->
  ts_reservations st' = ts_reservations st -> ts_reservedTokens st' = ts_reservedTokens st ->
  budget_inv pol st'.
Proof. intros [] H1 H2 H3. constructor; rewrite ?H1, ?H2, ?H3; done. Qed.

Lemma budget_emit clk pol t ty msg c :
  budget_inv pol c.1 -> budget_inv pol (emitAlertLocked clk t ty msg c).1.
Proof. intros H. rewrite emitAlert_fst. by apply (budget_inv_frame pol c.1). Qed.

Lemma budget_alerts clk pol t c :
  budget_inv pol c.1 -> budget_inv pol (emitBudgetAlertsLocked clk pol t c).1.
Proof. intros H. rewrite emitBudgetAlerts_fst. by apply (budget_inv_frame pol c.1). Qed.

Lemma budget_open clk pol t reason c :
  budget_inv pol c.1 -> budget_inv pol (openBreakerLocked clk t reason c).1.
Proof.
  intros H. unfold openBreakerLocked. destruct c as [st n]. case_if; [done|].
  apply budget_emit. by apply (budget_inv_frame pol st).
Qed.

Lemma budget_recover clk pol t now c :
  budget_inv pol c.1 -> budget_inv pol (maybeRecoverBreakerLocked clk pol t now c).1.
Proof.
  intros H. unfold maybeRecoverBreakerLocked. destruct c as [st n].
  repeat (case_if; [done|]). case_if; [|done]. apply budget_emit. by apply (budget_inv_frame pol st).
Qed.

Lemma budget_release pol key st :
  Policy_TokenBudget pol <= max_int64 -> budget_inv pol st ->
  budget_inv pol (release_reservation key st) /\
  ts_tokensUsed (release_reservation key st) = ts_tokensUsed st /\
  reserved_sum (ts_reservations (release_reservation key st)) =
    reserved_sum (ts_reservations st) - reserved_for key st.
Proof.
  intros HB H. unfold release_reservation, reserved_for.
  case_if as Hk.
  - destruct (ts_reservations st !! key) as [res|] eqn:E; [|split; [done|split; [done|lia]]].
    pose proof (bi_res _ _ H _ _ E) as Hres. cbn in Hres. destruct H.
    pose proof (reserved_sum_delete _ _ _ E) as Hsum.
    pose proof (reserved_sum_nonneg (delete key (ts_reservations st))) as Hnn.
    specialize (Hnn ltac:(by apply map_Forall_delete)).
    split; [|cbn; lia]. constructor; cbn; try done; [by apply map_Forall_delete| |lia].
    rewrite bi_sum0, sub64_id; unfold_int64; lia.
  - split; [done|]. split; [done|]. destruct (ts_reservations st !! key); lia.
Qed.

Lemma budget_admit pol info now st :
  Policy_TokenBudget pol <= max_int64 -> budget_inv pol st ->
  ts_tokensUsed st + ts_reservedTokens st + max64 0 (AdmissionInfo_EstimatedTokens info)
    <= Policy_TokenBudget pol ->
  budget_inv pol (accept_message info now st).
Proof.
  intros HB [Hu Hr Hs Hc] Hfit. destruct (max64_nonneg (AdmissionInfo_EstimatedTokens info)) as [He _].
  pose proof (reserved_sum_nonneg _ Hr) as Hnn.
  unfold accept_message. cbn zeta. case_if as Hk; [|by constructor].
  destruct (ts_reservations _ !! _) as [old|] eqn:E; cbn in E.
  - pose proof (Hr _ _ E) as Hold. cbn in Hold. pose proof (reserved_sum_delete _ _ _ E) as Hsum.
    pose proof (reserved_sum_nonneg (delete (AdmissionInfo_MessageKey info) (ts_reservations st))) as Hnd.
    specialize (Hnd ltac:(by apply map_Forall_delete)).
    pose proof (reserved_sum_update (ts_reservations st) (AdmissionInfo_MessageKey info)
      (mkAdmissionInfo (AdmissionInfo_MessageKey info)
        (max64 0 (AdmissionInfo_EstimatedTokens info)) (maxFloat f_zero (AdmissionInfo_EstimatedCost info)))
      old E) as Hup. cbn in Hup.
    constructor; cbn; try done.
    + by apply map_Forall_insert_2.
    + rewrite Hup, Hs, add64_id, sub64_id; try rewrite sub64_id; unfold_int64; lia.
    + rewrite Hup. lia.
  - constructor; cbn; try done.
    + by apply map_Forall_insert_2.
    + rewrite reserved_sum_insert by done. cbn. rewrite Hs, add64_id; unfold_int64; lia.
    + rewrite reserved_sum_insert by done. cbn. lia.
Qed.

Lemma budget_tryEnqueue clk pol t info st :
  0 < Policy_TokenBudget pol <= max_int64 ->
  AdmissionInfo_EstimatedTokens info <= max_int64 - Policy_TokenBudget pol ->
  budget_inv pol st -> budget_inv pol (tryEnqueue clk pol t info st).1.1.
Proof.
  intros HB Hest H. unfold tryEnqueue. cbn zeta.
  pose proof (budget_recover clk pol t (clk 0%nat) (st, 1%nat) H) as H1.
  destruct (maybeRecoverBreakerLocked _ _ _ _ _) as [st1 n1]. cbn in H1 |- *.
  case_if; [done|]. case_if; [by apply budget_emit|].
  assert (H2 : budget_inv pol (st1 <| ts_enqWindow ::= (fun w => pruneOld w (time_Add (clk 0%nat) (- Minute))) |>))
    by (by apply (budget_inv_frame pol st1)).
  case_if; [apply budget_emit; by apply (budget_inv_frame pol st1)|].
  case_if as Ht; [by apply budget_open|]. case_if; [by apply budget_open|].
  cbn. apply budget_alerts.
  match goal with |- context [accept_message info _ ?x] => assert (H3 : budget_inv pol (accept_message info (clk 0%nat) x)) end.
  { apply budget_admit; [lia|done|]. cbn.
    destruct H1. pose proof (reserved_sum_nonneg _ bi_res0). rewrite bi_sum0 in *.
    destruct (max64_nonneg (AdmissionInfo_EstimatedTokens info)) as [He He'].
    apply andb_false_iff in Ht. destruct Ht as [Ht|Ht]; bool_prop; [lia|].
    rewrite (add64_id (ts_tokensUsed st1)) in Ht by (unfold_int64; lia).
    rewrite add64_id in Ht by (unfold_int64; lia). done. }
  case_if; [by apply budget_emit|done].
Qed.

Lemma budget_tryStartRun clk pol t st :
  budget_inv pol st -> budget_inv pol (tryStartRun clk pol t st).1.1.
Proof.
  intros H. unfold tryStartRun. cbn zeta.
  pose proof (budget_recover clk pol t (clk 0%nat) (st, 1%nat) H) as H1.
  destruct (maybeRecoverBreakerLocked _ _ _ _ _) as [st1 n1]. cbn in H1 |- *.
  repeat (split_match; cbn); try done; by apply (budget_inv_frame pol st1).
Qed.

Lemma budget_settle pol info st :
  Policy_TokenBudget pol <= max_int64 -> budget_inv pol st ->
  (CompletionInfo_WasAccepted info = true ->
   max64 0 (CompletionInfo_TokensUsed info) <= reserved_for (CompletionInfo_MessageKey info) st) ->
  budget_inv pol (settle info st).
Proof.
  intros HB H Hu. unfold settle. cbn zeta.
  set (st1 := if 0 <? ts_running st then _ else _).
  assert (H1 : budget_inv pol st1 /\
    reserved_for (CompletionInfo_MessageKey info) st1 = reserved_for (CompletionInfo_MessageKey info) st).
  { unfold st1. case_if; [|done]. split; [by apply (budget_inv_frame pol st)|done]. }
  destruct H1 as [H1 Hf]. clearbody st1.
  destruct (budget_release pol (CompletionInfo_MessageKey info) st1 HB H1) as (H2 & Hused & Hsum).
  destruct (CompletionInfo_WasAccepted info); [|done]. specialize (Hu eq_refl).
  destruct (max64_nonneg (CompletionInfo_TokensUsed info)) as [He _].
  destruct H1, H2. pose proof (reserved_sum_nonneg _ bi_res1).
  assert (add64 (ts_tokensUsed st1) (max64 0 (CompletionInfo_TokensUsed info))
          = ts_tokensUsed st1 + max64 0 (CompletionInfo_TokensUsed info)) as Hadd.
  { apply add64_id. unfold_int64. lia. }
  constructor; cbn; rewrite ?Hused, ?Hadd; try done; lia.
Qed.

Lemma budget_completeRun clk pol t info st :
  Policy_TokenBudget pol <= max_int64 -> budget_inv pol st ->
  (CompletionInfo_WasAccepted info = true ->
   max64 0 (CompletionInfo_TokensUsed info) <= reserved_for (CompletionInfo_MessageKey info) st) ->
  budget_inv pol (completeRun clk pol t info st).1.
Proof.
  intros HB H Hu. pose proof (budget_settle pol info st HB H Hu) as H1.
  unfold completeRun. cbn zeta. apply budget_alerts.
  match goal with |- budget_inv _ ((?x).1 <| _ := _ |>, _).1 => assert (H2 : budget_inv pol x.1) end.
  2: { by apply (budget_inv_frame pol _ _ H2). }
  match goal with |- budget_inv _ (if _ then openBreakerLocked _ _ _ ?x else _).1 =>
    assert (H3 : budget_inv pol x.1) end.
  2: { case_if; [by apply budget_open|done]. }
  case_if.
  - unfold complete_failed. cbn.
    match goal with |- budget_inv _ (if _ then emitAlertLocked _ _ _ _ ?x else _).1 =>
      assert (H4 : budget_inv pol x.1) end.
    { case_if; [apply budget_open|]; by apply (budget_inv_frame pol _ _ H1). }
    case_if; [by apply budget_emit|done].
  - unfold complete_ok. cbn. case_if; [apply budget_emit|]; by apply (budget_inv_frame pol _ _ H1).
Qed.

Lemma budget_exec pol t o st :
  0 < Policy_TokenBudget pol <= max_int64 -> budget_inv pol st -> budget_op_ok pol st o ->
  budget_inv pol (tenant_exec pol t o st).1.
Proof.
  intros HB H Ho. destruct o; cbn in *.
  - pose proof (budget_tryEnqueue clk pol t info st HB Ho H). by destruct (tryEnqueue _ _ _ _ _).
  - pose proof (budget_tryStartRun clk pol t st H). by destruct (tryStartRun _ _ _ _).
  - apply budget_completeRun; [lia|done..].
  - unfold cancelEnqueue. cbn zeta. apply budget_release; [lia|].
    case_if; [|done]. by apply (budget_inv_frame pol st).
  - unfold markDeadLetter. apply budget_release; [lia|]. by apply (budget_inv_frame pol st).
Qed.

(** A completion in the half-open state decides the probe. *)
Lemma completeRun_half_open clk pol t info st :
  ts_breakerState st = BreakerHalfOpen ->
  let st' := (completeRun clk pol t info st).1 in
  ts_halfOpenInFlight st' = false /\
  ts_breakerState st' = if CompletionInfo_Failed info then BreakerOpen else BreakerClosed.
Proof.
  intros Hb. unfold completeRun. cbn zeta. destruct (settle_breaker info st) as [_ Hs].
  rewrite Hb in Hs. rewrite emitBudgetAlerts_fst. cbn. split; [done|].
  destruct (CompletionInfo_Failed info) eqn:Ef.
  - rewrite andb_true_r. set (c1 := complete_failed clk pol t _).
    assert (H1 : ts_breakerState c1.1 = BreakerOpen \/ ts_breakerState c1.1 = BreakerHalfOpen).
    { unfold c1, complete_failed. cbn.
      match goal with |- context [if ?b then emitAlertLocked _ _ _ _ ?x else _] =>
        assert (H2 : ts_breakerState x.1 = BreakerOpen \/ ts_breakerState x.1 = BreakerHalfOpen) end.
      { case_if; [left; apply openBreaker_open|by right]. }
      case_if; [by rewrite emitAlert_fst|done]. }
    clearbody c1. destruct H1 as [H1|H1]; rewrite H1; [done|]. rewrite bool_decide_true by done. apply openBreaker_open.
  - rewrite andb_false_r. unfold complete_ok. cbn. rewrite Hs, bool_decide_true by done. by rewrite emitAlert_fst.
Qed.

(** *** Failures in a row *)

Lemma recover_errors clk pol t now c :
  ts_consecutiveErrors (maybeRecoverBreakerLocked clk pol t now c).1 = ts_consecutiveErrors c.1.
Proof.
  unfold maybeRecoverBreakerLocked. destruct c as [st n]. repeat (case_if; try done).
  by rewrite emitAlert_fst.
Qed.

Lemma admit_errors info now st : ts_consecutiveErrors (accept_message info now st) = ts_consecutiveErrors st.
Proof. unfold accept_message. cbn zeta. repeat (split_match; try done). Qed.

Lemma tryEnqueue_errors clk pol t info st :
  ts_consecutiveErrors (tryEnqueue clk pol t info st).1.1 = ts_consecutiveErrors st.
Proof.
  unfold tryEnqueue. cbn zeta.
  pose proof (recover_errors clk pol t (clk 0%nat) (st, 1%nat)) as H.
  destruct (maybeRecoverBreakerLocked _ _ _ _ _) as [st1 n1]. cbn in H |- *.
  case_if; [done|]. do 2 (case_if; [cbn; by rewrite emitAlert_fst|]).
  do 2 (case_if; [cbn; by rewrite openBreaker_errors|]). cbn.
  rewrite emitBudgetAlerts_fst. cbn. case_if; [rewrite emitAlert_fst|]; cbn; by rewrite admit_errors.
Qed.

Lemma tryStartRun_errors clk pol t st :
  ts_consecutiveErrors (tryStartRun clk pol t st).1.1 = ts_consecutiveErrors st.
Proof.
  unfold tryStartRun. cbn zeta.
  pose proof (recover_errors clk pol t (clk 0%nat) (st, 1%nat)) as H.
  destruct (maybeRecoverBreakerLocked _ _ _ _ _) as [st1 n1]. cbn in H |- *.
  by repeat (split_match; cbn).
Qed.

(** The failed completions of an execution without successful ones. *)
Fixpoint failures (ops : list tenant_op) : option nat :=
  match ops with
  | [] => Some 0%nat
  | TCompleteRun _ info :: ops' => if CompletionInfo_Failed info then S <$> failures ops' else None
  | _ :: ops' => failures ops'
  end.

Lemma exec_errors pol t o st :
  match o with TCompleteRun _ _ => True | _ =>
    ts_consecutiveErrors (tenant_exec pol t o st).1 = ts_consecutiveErrors st end.
Proof.
  destruct o; cbn; try done.
  - pose proof (tryEnqueue_errors clk pol t info st). by destruct (tryEnqueue _ _ _ _ _).
  - pose proof (tryStartRun_errors clk pol t st). by destruct (tryStartRun _ _ _ _).
  - unfold cancelEnqueue. cbn zeta. rewrite (proj1 (release_breaker _ _)). by case_if.
  - unfold markDeadLetter. by rewrite (proj1 (release_breaker _ _)).
Qed.

Lemma execs_errors pol t ops st k :
  failures ops = Some k -> 0 <= ts_consecutiveErrors st ->
  ts_consecutiveErrors st + Z.of_nat k <= max_int64 ->
  ts_consecutiveErrors (tenant_execs pol t ops st) = ts_consecutiveErrors st + Z.of_nat k.
Proof.
  unfold tenant_execs. revert st k.
  induction ops as [|o ops IH]; intros st k Hk H0 Hm; [injection Hk as <-; cbn; lia|].
  cbn [fold_left]. pose proof (exec_errors pol t o st) as He.
  destruct o; cbv beta iota in He; cbn in Hk; try (rewrite IH with (k := k); rewrite ?He; done || lia).
  destruct (CompletionInfo_Failed info) eqn:Ef; [|done].
  destruct (failures ops) as [k'|] eqn:Eo; cbn in Hk; [|done]. injection Hk as <-.
  destruct (completeRun_failed clk pol t info st Ef) as [Hc _]. cbn.
  rewrite add64_id in Hc by (unfold_int64; lia).
  rewrite IH with (k := k'); rewrite ?Hc; done || lia.
Qed.

(** *** Cancelling an enqueue *)

Lemma admit_fields info now st :
  ts_queued (accept_message info now st) = add64 (ts_queued st) 1 /\
  (AdmissionInfo_MessageKey info <> "" -> ts_reservations st !! AdmissionInfo_MessageKey info = None ->
   ts_reservedTokens (accept_message info now st)
     = add64 (ts_reservedTokens st) (max64 0 (AdmissionInfo_EstimatedTokens info)) /\
   ts_reservations (accept_message info now st)
     = <[AdmissionInfo_MessageKey info :=
          mkAdmissionInfo (AdmissionInfo_MessageKey info)
            (max64 0 (AdmissionInfo_EstimatedTokens info))
            (maxFloat f_zero (AdmissionInfo_EstimatedCost info))]> (ts_reservations st)).
Proof.
  unfold accept_message. cbn zeta. split; [repeat (split_match; try done)|].
  intros Hk Hn. rewrite bool_decide_true by done. cbn. by rewrite Hn.
Qed.

Lemma sub64_add64 a b : in_int64 a -> sub64 (add64 a b) b = a.
Proof.
  intros H. unfold sub64, add64. rewrite wrap64_sub_l, Z.add_simpl_r. by apply wrap64_id.
Qed.

Lemma tryEnqueue_ok clk pol t info st :
  (tryEnqueue clk pol t info st).2 = Ok tt ->
  exists st1, ts_queued st1 = ts_queued st /\ ts_reservedTokens st1 = ts_reservedTokens st /\
    ts_reservations st1 = ts_reservations st /\
    (0 < Policy_MaxQueued pol -> ts_queued st < Policy_MaxQueued pol) /\
    exists al, (tryEnqueue clk pol t info st).1.1 = (accept_message info (clk 0%nat) st1) <| ts_alerts := al |>.
Proof.
  unfold tryEnqueue. cbn zeta.
  assert (H1 : exists st1 n1, maybeRecoverBreakerLocked clk pol t (clk 0%nat) (st, 1%nat) = (st1, n1) /\
     ts_queued st1 = ts_queued st /\ ts_reservedTokens st1 = ts_reservedTokens st /\
     ts_reservations st1 = ts_reservations st).
  { unfold maybeRecoverBreakerLocked. do 2 (case_if; [eauto 10|]). case_if; [|eauto 10].
    destruct (emitAlertLocked _ _ _ _ _) as [s n] eqn:E. exists s, n. split; [done|].
    match type of E with emitAlertLocked ?a ?b ?c ?d ?e = _ =>
      destruct (emitAlert_frame a b c d e) as (al & Hal & _) end.
    rewrite E in Hal. cbn in Hal. by rewrite Hal. }
  destruct H1 as (st1 & n1 & -> & Hq & Ht & Hr). cbn.
  case_if; [done|]. case_if as Eq; [done|]. case_if; [done|]. case_if; [done|]. case_if; [done|].
  intros _. eexists (st1 <| ts_enqWindow ::= _ |>). cbn. split; [done|]. split; [done|]. split; [done|].
  split.
  { intros Hp. apply andb_false_iff in Eq. destruct Eq; bool_prop; lia. }
  rewrite emitBudgetAlerts_fst. cbn. case_if; [rewrite emitAlert_fst|]; eexists; reflexivity.
Qed.

(** ** Properties *)

Definition demo_policy : Policy :=
  mkPolicy 1 2 10 3 (2 * Second) 1000 (f_of_Z 0) 0 0 f_zero.
Definition demo_clock (s : Z) (n : nat) : Time := zero_time + s * Second + Z.of_nat n.
Definition demo_ops : list tenant_op :=
  [ TTryEnqueue (demo_clock 1) (mkAdmissionInfo "m1" 100 (f_lit 1 10));
    TTryEnqueue (demo_clock 2) (mkAdmissionInfo "m2" 100 (f_lit 1 10));
    TTryEnqueue (demo_clock 3) (mkAdmissionInfo "m3" 100 (f_lit 1 10));
    TTryStartRun (demo_clock 4);
    TTryStartRun (demo_clock 5);
    TCompleteRun (demo_clock 6) (mkCompletionInfo "m1" 100 (f_lit 1 10) false true) ].

(** A positive token budget is never exceeded: when estimates are small enough not
    to overflow and completions account no more tokens than were reserved for the message
    (as the in-memory queue does), tokens used plus tokens reserved stay within
    [TokenBudget] in every reachable state. *)
Theorem token_budget_cap pol t st :
  0 < Policy_TokenBudget pol <= max_int64 -> budget_reachable pol t st ->
  0 <= ts_tokensUsed st /\ 0 <= ts_reservedTokens st /\
  ts_tokensUsed st + ts_reservedTokens st <= Policy_TokenBudget pol.
Proof.
  intros HB Hr. assert (budget_inv pol st) as [].
  { induction Hr; [|by apply budget_exec]. constructor; try done. cbn. change (reserved_sum ∅) with 0. lia. }
  pose proof (reserved_sum_nonneg _ bi_res0). rewrite bi_sum0. lia.
Qed.

Lemma token_budget_cap_witness :
  let pol := normalizePolicy demo_policy in
  exists st, budget_reachable pol "t" st /\ ts_reservedTokens st = 100 /\
    ts_tokensUsed st + ts_reservedTokens st <= Policy_TokenBudget pol.
Proof.
  intros pol. eexists. split; [|split; [|eapply (token_budget_cap pol "t")]].
  - apply (budget_step pol "t" new_tenantState
             (TTryEnqueue (demo_clock 1) (mkAdmissionInfo "m1" 100 (f_lit 1 10)))).
    + apply budget_start.
    + vm_compute. discriminate.
  - vm_compute. reflexivity.
  - vm_compute. split; [reflexivity|discriminate].
  - apply (budget_step pol "t" new_tenantState
             (TTryEnqueue (demo_clock 1) (mkAdmissionInfo "m1" 100 (f_lit 1 10)))).
    + apply budget_start.
    + vm_compute. discriminate.
Defined.

(** *** The manager *)

Lemma policyLocked_put t t' st m : policyLocked t (put_state t' st m) = policyLocked t m.
Proof. done. Qed.

Lemma stateLocked_put t t' st m : stateLocked t (put_state t' st m) = if decide (t = t') then st else stateLocked t m.
Proof.
  unfold stateLocked, put_state. cbn. case_decide as E; [subst; by rewrite lookup_insert_eq|].
  by rewrite lookup_insert_ne by done.
Qed.

Lemma manager_tenant t o m :
  manager_exec (MTenant t o) m = put_state t (tenant_exec (policyLocked t m) t o (stateLocked t m)).1 m.
Proof.
  destruct o; cbn; unfold Manager_TryEnqueue, Manager_TryStartRun; [|by repeat case_match|done..].
  by destruct (tryEnqueue _ _ _ _ _) as [c r].
Qed.

(** A policy that bounds: its own limits are sound, and it is at least as wide as [p] after normalization. *)
Definition bounded_by (lim p : Policy) : Prop :=
  Policy_MaxRunning p <= max_int64 /\ Policy_MaxQueued p <= max_int64 /\ policy_le (normalizePolicy p) lim.

Lemma manager_within lim t ops : forall m,
  policy_ok lim -> policy_ok (policyLocked t m) -> policy_le (policyLocked t m) lim -> tenant_inv lim (stateLocked t m) ->
  Forall (bounded_by lim) (policies_given t ops) -> tenant_inv lim (stateLocked t (manager_execs ops m)).
Proof.
  induction ops as [|o ops IH]; intros m Hlim Hp Hle Hi Hops; [done|]. cbn [manager_execs fold_left].
  assert (Hrest : Forall (bounded_by lim) (policies_given t ops)).
  { unfold policies_given in Hops. cbn in Hops. repeat case_match; try done. by apply list.Forall_cons in Hops as [_ ?]. }
  destruct o as [t' o|t' p|t'|t' limit].
  - rewrite manager_tenant. apply IH; rewrite ?policyLocked_put, ?stateLocked_put; try done.
    case_decide; [subst|done]. by apply inv_exec_within.
  - cbn [manager_exec]. unfold Manager_SetPolicy. case_bool_decide as E0; [by apply IH|].
    destruct (decide (t' = t)) as [->|Hne].
    + cbn in Hops. rewrite bool_decide_true in Hops by done. apply list.Forall_cons in Hops as [(H1 & H2 & H3) _].
      apply IH; [done|..|done|done]; unfold policyLocked; cbn; rewrite lookup_insert_eq; [by apply normalizePolicy_ok|done].
    + apply IH; [done|..|done|done]; unfold policyLocked; cbn; rewrite lookup_insert_ne by done; done.
  - cbn. apply IH; rewrite ?policyLocked_put, ?stateLocked_put; try done. by case_decide; subst.
  - cbn. apply IH; rewrite ?policyLocked_put, ?stateLocked_put; try done. by case_decide; subst.
Qed.

Lemma start_below clk pol t st :
  0 < Policy_MaxRunning pol -> (tryStartRun clk pol t st).2 = Ok tt -> ts_running st < Policy_MaxRunning pol.
Proof.
  intros Hp. unfold tryStartRun. cbn zeta.
  assert (Hr : ts_running (maybeRecoverBreakerLocked clk pol t (clk 0%nat) (st, 1%nat)).1 = ts_running st).
  { unfold maybeRecoverBreakerLocked. do 3 (case_if; [|done] || case_if; try done). all: by rewrite emitAlert_fst. }
  destruct (maybeRecoverBreakerLocked _ _ _ _ _) as [st1 n1]. cbn in Hr |- *. rewrite <- Hr.
  destruct (ts_breakerState st1); [|done|case_if; [done|]]; cbn;
    (case_if as E; [done|]; intros _; apply andb_false_iff in E; destruct E; bool_prop; lia).
Qed.

(** C32: After any sequence of manager calls, on any tenants and with changes of policy in between, the state of a
    tenant is within limits that are at least as wide as each normalized policy it has had: running and queued counts
    lie between 0 and the limits, the rolling window holds at most the rate limit, at most 200 alerts are kept, the
    reserved-token counter is the sum of the live reservations (modulo 2^64) and a probe is in flight only in the
    half-open state; with one policy throughout these are its own limits.  A run is started only below the running
    limit of the policy in force, and a message is admitted only below its queue limit.  Of the budgets: under one
    policy with a positive token budget, when estimates do not overflow and completions account no more tokens than
    were reserved, tokens used and reserved stay within the token budget; the cost budget is not covered. *)
Theorem tenant_limits p0 ops t lim :
  policy_ok lim ->
  (forall p, p ∈ p0 :: policies_given t ops ->
     Policy_MaxRunning p <= max_int64 /\ Policy_MaxQueued p <= max_int64 /\ policy_le (normalizePolicy p) lim) ->
  let m := manager_execs ops (NewManager p0) in
  let pol := policyLocked t m in
  tenant_inv lim (stateLocked t m) /\
  (forall clk, 0 < Policy_MaxRunning pol -> (Manager_TryStartRun clk t m).2 = Ok tt ->
     ts_running (stateLocked t m) < Policy_MaxRunning pol) /\
  (forall clk info, 0 < Policy_MaxQueued pol -> (Manager_TryEnqueue clk t info m).2 = Ok tt ->
     ts_queued (stateLocked t m) < Policy_MaxQueued pol) /\
  (forall pol' st, 0 < Policy_TokenBudget pol' <= max_int64 -> budget_reachable pol' t st ->
     0 <= ts_tokensUsed st /\ 0 <= ts_reservedTokens st /\
     ts_tokensUsed st + ts_reservedTokens st <= Policy_TokenBudget pol').
Proof.
  intros Hlim Hps m pol. split_and!.
  - destruct (Hps p0 ltac:(set_solver)) as (H1 & H2 & H3). apply manager_within; [done| |done|by apply inv_new|].
    + by apply normalizePolicy_ok.
    + apply list.Forall_forall. intros p Hp. apply Hps. set_solver.
  - intros clk Hp. unfold Manager_TryStartRun. destruct (tryStartRun _ _ _ _) as [c r] eqn:E. cbn. intros ->.
    apply (start_below clk (policyLocked t m) t); [done|]. by rewrite E.
  - intros clk info Hp. unfold Manager_TryEnqueue. destruct (tryEnqueue _ _ _ _ _) as [c r] eqn:E. cbn. intros ->.
    destruct (tryEnqueue_ok clk (policyLocked t m) t info (stateLocked t m)) as (st1 & _ & _ & _ & Hq & _); [by rewrite E|].
    by apply Hq.
  - intros pol' st HB Hr. by apply (token_budget_cap pol' t).
Qed.

(** A tenant with the default policy that is given a narrower one, while another tenant is busy. *)
Definition demo_calls : list manager_op :=
  MSetPolicy "t" demo_policy :: map (MTenant "t") demo_ops ++
  [MTenant "u" (TTryEnqueue (demo_clock 7) (mkAdmissionInfo "m9" 5 f_zero)); MSetPolicy "t" (demo_policy <| Policy_MaxQueued := 1 |>);
   MAlerts "t" 5; MSnapshot "v"].

Lemma tenant_limits_witness :
  let m := manager_execs demo_calls (NewManager demo_policy) in
  tenant_inv (normalizePolicy demo_policy) (stateLocked "t" m) /\ ts_queued (stateLocked "t" m) = 1 /\
  ts_running (stateLocked "t" m) = 0 /\ ts_queued (stateLocked "u" m) = 1.
Proof.
  split; [|vm_compute; done].
  apply (tenant_limits demo_policy demo_calls "t" (normalizePolicy demo_policy)).
  - vm_compute. repeat split; discriminate.
  - intros p Hp. repeat (apply elem_of_cons in Hp as [->|Hp]; [vm_compute; repeat split; discriminate|]).
    by apply not_elem_of_nil in Hp.
Defined.

(** The budget check adds in int64: a request whose estimate makes used + reserved +
    estimate exceed the largest int64 wraps to a negative number, passes the token
    budget check and is admitted although it is far above the budget. *)
Theorem token_budget_overflow clk pol t info st :
  ts_breakerState st = BreakerClosed -> ts_queued st < Policy_MaxQueued pol ->
  Z.of_nat (length (ts_enqWindow st)) < Policy_RateLimitPerMinute pol ->
  f_gtb (Policy_CostBudget pol) f_zero = false ->
  0 < Policy_TokenBudget pol -> 0 <= ts_tokensUsed st -> 0 <= ts_reservedTokens st ->
  ts_tokensUsed st + ts_reservedTokens st <= max_int64 ->
  0 <= AdmissionInfo_EstimatedTokens info <= max_int64 ->
  max_int64 < ts_tokensUsed st + ts_reservedTokens st + AdmissionInfo_EstimatedTokens info ->
  (tryEnqueue clk pol t info st).2 = Ok tt.
Proof.
  intros Hb Hq Hw Hc HB Hu Hr Hs He Hov. unfold tryEnqueue. cbn zeta.
  rewrite recover_closed by (cbn; congruence). cbn. rewrite Hb. cbn.
  rewrite (proj2 (Z.leb_gt _ _) Hq), andb_false_r, Hc.
  pose proof (pruneOld_length (ts_enqWindow st) (time_Add (clk 0%nat) (- Minute))).
  rewrite (proj2 (Z.leb_gt _ _) (ltac:(lia) : Z.of_nat (length (pruneOld (ts_enqWindow st)
    (time_Add (clk 0%nat) (- Minute)))) < Policy_RateLimitPerMinute pol)), andb_false_r.
  replace (max64 0 (AdmissionInfo_EstimatedTokens info)) with (AdmissionInfo_EstimatedTokens info)
    by (unfold max64; destruct (Z.ltb_spec (AdmissionInfo_EstimatedTokens info) 0); lia).
  rewrite (add64_id (ts_tokensUsed st)) by (unfold_int64; lia).
  assert (add64 (ts_tokensUsed st + ts_reservedTokens st) (AdmissionInfo_EstimatedTokens info) < 0)
    by (apply add64_overflow_neg; lia).
  rewrite (proj2 (Z.ltb_ge _ _) (ltac:(lia) :
    add64 (ts_tokensUsed st + ts_reservedTokens st) (AdmissionInfo_EstimatedTokens info)
      <= Policy_TokenBudget pol)), andb_false_r. done.
Qed.

Lemma token_budget_overflow_witness :
  let pol := normalizePolicy demo_policy in
  let st := tenant_execs pol "t" (take 1 demo_ops) new_tenantState in
  Policy_TokenBudget pol = 1000 /\ ts_reservedTokens st = 100 /\
  (tryEnqueue (demo_clock 2) pol "t" (mkAdmissionInfo "huge" max_int64 f_zero) st).2 = Ok tt.
Proof.
  split; [reflexivity|]. split; [vm_compute; reflexivity|].
  apply token_budget_overflow; vm_compute; try (split; discriminate); try discriminate; reflexivity.
Defined.

(** While the breaker is half open at most one of any number of TryStartRun calls is
    admitted: a single probe runs at a time. *)
Theorem half_open_single_probe pol t clks st :
  ts_breakerState st = BreakerHalfOpen -> (starts_won pol t clks st <= 1)%nat.
Proof.
  intros Hb. revert st Hb. induction clks as [|clk clks IH]; intros st Hb; cbn [starts_won]; [lia|].
  destruct (ts_halfOpenInFlight st) eqn:Hp.
  - rewrite start_probing by done. cbn. rewrite starts_won_probing by done. lia.
  - pose proof (start_half_open clk pol t st Hb Hp) as H.
    destruct (tryStartRun clk pol t st) as [c r]. destruct H as [H1 H2].
    destruct (is_ok r); [rewrite starts_won_probing by done; lia|]. specialize (IH _ H1). lia.
Qed.

Definition demo_half_open : tenantState :=
  new_tenantState <| ts_breakerState := BreakerHalfOpen |> <| ts_queued := 5 |>.

Lemma half_open_single_probe_witness :
  let pol := demo_policy <| Policy_MaxRunning := 8 |> in
  (starts_won pol "t" (map demo_clock [1; 2; 3]%Z) demo_half_open <= 1)%nat /\
  starts_won pol "t" (map demo_clock [1; 2; 3]%Z) demo_half_open = 1%nat.
Proof. split; [apply half_open_single_probe; reflexivity|vm_compute; reflexivity]. Defined.

(** The breaker opens on consecutive failures: after any sequence of manager calls in
    which no completion succeeded and [k] failed, a further failed completion leaves the
    breaker open as soon as k + 1 reaches [MaxConsecutiveErrors]. *)
Theorem breaker_trips pol t ops k clk info :
  failures ops = Some k -> CompletionInfo_Failed info = true ->
  0 < Policy_MaxConsecutiveErrors pol <= Z.of_nat k + 1 -> Z.of_nat k < max_int64 ->
  ts_breakerState (completeRun clk pol t info (tenant_execs pol t ops new_tenantState)).1 = BreakerOpen.
Proof.
  intros Hk Hf Hm Hk'.
  pose proof (execs_errors pol t ops new_tenantState k Hk ltac:(cbn; lia) ltac:(cbn; lia)) as He.
  apply completeRun_failed; [done|]. rewrite He. cbn. rewrite add64_id by (unfold_int64; lia). lia.
Qed.

Lemma breaker_trips_witness :
  let fail := TCompleteRun (demo_clock 1) (mkCompletionInfo "m" 0 f_zero true false) in
  failures [fail; TTryStartRun (demo_clock 2); fail] = Some 2%nat /\
  ts_breakerState (completeRun (demo_clock 3) demo_policy "t" (mkCompletionInfo "m" 0 f_zero true false)
    (tenant_execs demo_policy "t" [fail; TTryStartRun (demo_clock 2); fail] new_tenantState)).1 = BreakerOpen.
Proof.
  intros fail. split; [reflexivity|].
  apply (breaker_trips _ _ _ 2); [reflexivity|reflexivity|cbn; lia|vm_compute; reflexivity].
Defined.

(** An open breaker recovers through a probe: before the cooldown has elapsed TryStartRun
    is refused with no effect on the tenant; once it has elapsed a tenant below its running
    limit gets exactly one probe in the half-open state, whose success closes the breaker and
    whose failure opens it again. *)
Theorem breaker_recovers clk pol t st :
  ts_breakerState st = BreakerOpen -> 0 < Policy_BreakerCooldown pol ->
  time_IsZero (ts_breakerOpenedAt st) = false ->
  0 <= ts_running st < Policy_MaxRunning pol ->
  (time_Sub (clk 0%nat) (ts_breakerOpenedAt st) < Policy_BreakerCooldown pol ->
   tryStartRun clk pol t st = ((st, 1%nat), Err (ErrPolicyViolation "tenant breaker is open"))) /\
  (Policy_BreakerCooldown pol <= time_Sub (clk 0%nat) (ts_breakerOpenedAt st) ->
   let '(c, r) := tryStartRun clk pol t st in
   r = Ok tt /\ ts_breakerState c.1 = BreakerHalfOpen /\ ts_halfOpenInFlight c.1 = true /\
   forall clk' info,
     let st' := (completeRun clk' pol t info c.1).1 in
     ts_halfOpenInFlight st' = false /\
     ts_breakerState st' = if CompletionInfo_Failed info then BreakerOpen else BreakerClosed).
Proof.
  intros Hb Hc Hz Hr. split; intros Hd.
  { unfold tryStartRun. rewrite recover_early by done. cbn. by rewrite Hb. }
  destruct (recover_due clk pol t (clk 0%nat) (st, 1%nat) Hb Hc Hz Hd) as [al Hal].
  unfold tryStartRun. cbn zeta.
  destruct (maybeRecoverBreakerLocked _ _ _ _ _) as [st1 n1]. cbn in Hal. subst st1. cbn.
  rewrite (proj2 (Z.leb_gt _ _) (proj2 Hr)), andb_false_r. cbn.
  set (st1 := if 0 <? ts_queued st then _ else _).
  assert (Hst1 : ts_breakerState st1 = BreakerHalfOpen /\ ts_halfOpenInFlight st1 = true)
    by (unfold st1; by case_if).
  clearbody st1. split; [done|]. split; [apply Hst1|]. split; [apply Hst1|].
  intros clk' info. cbn zeta. apply completeRun_half_open. apply Hst1.
Qed.

Lemma breaker_recovers_witness :
  let st := new_tenantState <| ts_breakerState := BreakerOpen |> <| ts_breakerOpenedAt := demo_clock 10 0 |> in
  ts_breakerState (tryStartRun (demo_clock 12) demo_policy "t" st).1.1 = BreakerHalfOpen.
Proof.
  intros st.
  pose proof (breaker_recovers (demo_clock 12) demo_policy "t" st eq_refl eq_refl eq_refl
    ltac:(cbn; lia)) as [_ H].
  specialize (H ltac:(vm_compute; discriminate)).
  destruct (tryStartRun (demo_clock 12) demo_policy "t" st) as [c r]. apply H.
Defined.

(** CancelEnqueue undoes the admission of a new message: the queued count, the reserved
    tokens and the reservations are those before the TryEnqueue. *)
Theorem cancel_undoes_enqueue clk pol t info st :
  AdmissionInfo_MessageKey info <> "" ->
  ts_reservations st !! AdmissionInfo_MessageKey info = None ->
  in_int64 (ts_reservedTokens st) -> 0 <= ts_queued st ->
  0 < Policy_MaxQueued pol <= max_int64 ->
  (tryEnqueue clk pol t info st).2 = Ok tt ->
  let st' := cancelEnqueue (AdmissionInfo_MessageKey info) (tryEnqueue clk pol t info st).1.1 in
  ts_queued st' = ts_queued st /\ ts_reservedTokens st' = ts_reservedTokens st /\
  ts_reservations st' = ts_reservations st.
Proof.
  intros Hk Hn Hi Hq HM Hok.
  destruct (tryEnqueue_ok clk pol t info st Hok) as (st1 & Eq & Et & Er & Hlt & al & ->).
  specialize (Hlt (proj1 HM)).
  destruct (admit_fields info (clk 0%nat) st1) as [Fq F]. rewrite Eq in Fq.
  rewrite add64_id in Fq by (unfold_int64; lia).
  destruct F as [Ft Fr]; [done|by rewrite Er|].
  unfold cancelEnqueue, release_reservation. cbn. rewrite Fq.
  rewrite (proj2 (Z.ltb_lt _ _)) by lia. rewrite bool_decide_true by done. cbn.
  rewrite Fr, lookup_insert_eq. cbn. rewrite Fq, Ft, Et, Fr, Er, sub64_add64 by done.
  rewrite sub64_id by (unfold_int64; lia). rewrite delete_insert_id by done. split; [lia|done].
Qed.

Lemma cancel_undoes_enqueue_witness :
  let info := mkAdmissionInfo "m1" 100 (f_lit 1 10) in
  let st := cancelEnqueue "m1" (tryEnqueue (demo_clock 1) demo_policy "t" info new_tenantState).1.1 in
  ts_queued st = 0 /\ ts_reservedTokens st = 0 /\ ts_reservations st = ∅.
Proof.
  apply (cancel_undoes_enqueue (demo_clock 1) demo_policy "t"
    (mkAdmissionInfo "m1" 100 (f_lit 1 10)) new_tenantState);
    try reflexivity; try discriminate; vm_compute; split; discriminate || reflexivity.
Defined.

(** The reserved cost is kept as a float and drifts: reserving 0.1 and 0.2 and cancelling
    both leaves a reserved cost that is not zero although no message is reserved. *)
Theorem reserved_cost_drifts :
  let ops := [ TTryEnqueue (demo_clock 1) (mkAdmissionInfo "a" 0 (f_lit 1 10));
               TTryEnqueue (demo_clock 2) (mkAdmissionInfo "b" 0 (f_lit 2 10));
               TCancelEnqueue "a"; TCancelEnqueue "b" ] in
  let st := tenant_execs (normalizePolicy demo_policy) "t" ops new_tenantState in
  ts_reservations st = ∅ /\ f_gtb (ts_reservedCost st) f_zero = true.
Proof. vm_compute. done. Qed.
