(* ===== verification/MemoryQueue.v ===== *)
(** * MemoryQueue: the in-memory queue (src/pkg/queue/memory_queue.go)

    The queue is shared by goroutines: callers of [Enqueue], one ingress loop, the
    workers and the retry timers.  Every critical section of the source is one
    function on [MemoryQueue]; the interleavings are the step relation [qstep] on
    [QSys], which adds the program counters of the goroutines to the queue.  The
    sequential composition of the sections, as one caller sees them, is [Enqueue].

    The constructor never leaves [cfg.TenantManager] nil, so the manager is a field
    of the state and the nil tests of the source are always true. *)

From S2P Require Import Prelude GoLib Model Tenant.

Definition defaultRetryBackoff : Duration := 250 * Millisecond.

Record MemoryQueueConfig : Type := mkMemoryQueueConfig {
  cfg_BufferSize : Z;
  cfg_MaxWorkers : Z;
  cfg_MaxAttempts : Z;
  cfg_RetryBackoff : Duration;
  cfg_DedupeWindow : Duration;
  cfg_TenantManager : option Manager }.

#[global] Instance MemoryQueueConfig_eta : Eta MemoryQueueConfig := fun r => mkMemoryQueueConfig
  (cfg_BufferSize r) (cfg_MaxWorkers r) (cfg_MaxAttempts r) (cfg_RetryBackoff r)
  (cfg_DedupeWindow r) (cfg_TenantManager r).

Record MemoryQueue : Type := mkMemoryQueue {
  q_ch : list SQSMessage;
  q_cfg : MemoryQueueConfig;
  q_pending : gmap string (list SQSMessage);
  q_tenantOrder : list string;
  q_nextTenant : nat;
  q_inQueue : gset string;
  q_inFlight : gset string;
  q_recent : gmap string Time;
  q_dlq : list SQSMessage;
  q_tenants : Manager }.

#[global] Instance MemoryQueue_eta : Eta MemoryQueue := fun r => mkMemoryQueue
  (q_ch r) (q_cfg r) (q_pending r) (q_tenantOrder r) (q_nextTenant r) (q_inQueue r)
  (q_inFlight r) (q_recent r) (q_dlq r) (q_tenants r).

Definition defaultTenantManager : Manager :=
  NewManager (mkPolicy 8 2048 1200 8 (30 * Second) 0 f_zero 0 0 f_zero).

Definition DefaultMemoryQueueConfig : MemoryQueueConfig :=
  mkMemoryQueueConfig 100 1 3 defaultRetryBackoff (2 * Minute) (Some defaultTenantManager).

Definition NewMemoryQueueWithConfig (cfg : MemoryQueueConfig) : MemoryQueue :=
  let cfg := if cfg_BufferSize cfg <=? 0 then cfg <| cfg_BufferSize := 100 |> else cfg in
  let cfg := if cfg_MaxWorkers cfg <=? 0 then cfg <| cfg_MaxWorkers := 1 |> else cfg in
  let cfg := if cfg_MaxAttempts cfg <=? 0 then cfg <| cfg_MaxAttempts := 3 |> else cfg in
  let cfg := if cfg_RetryBackoff cfg <=? 0
             then cfg <| cfg_RetryBackoff := defaultRetryBackoff |> else cfg in
  let cfg := if cfg_DedupeWindow cfg <=? 0 then cfg <| cfg_DedupeWindow := 2 * Minute |> else cfg in
  let manager := default defaultTenantManager (cfg_TenantManager cfg) in
  mkMemoryQueue [] (cfg <| cfg_TenantManager := Some manager |>) ∅ [] 0 ∅ ∅ ∅ [] manager.

Definition NewMemoryQueue (bufSize : Z) : MemoryQueue :=
  let cfg := DefaultMemoryQueueConfig in
  NewMemoryQueueWithConfig (if 0 <? bufSize then cfg <| cfg_BufferSize := bufSize |> else cfg).

Definition MemoryQueue_HealthCheck : result error unit := Ok tt.

Definition normalizeTenant (tenantID : string) : string :=
  if bool_decide (tenantID = "") then "default" else tenantID.

Definition messageKey (msg : SQSMessage) : string :=
  let tenantID := normalizeTenant (SQSMessage_TenantID msg) in
  if bool_decide (SQSMessage_DedupeKey msg ≠ "")
  then tenantID +:+ "#" +:+ SQSMessage_DedupeKey msg
  else tenantID +:+ "#" +:+ SQSMessage_TaskID msg +:+ "#" +:+ SQSMessage_RunID msg.

Definition pruneRecentLocked (now : Time) (q : MemoryQueue) : MemoryQueue :=
  q <| q_recent ::= filter (fun kt => ~ (cfg_DedupeWindow (q_cfg q) < time_Sub now kt.2)) |>.

(** ** Enqueue *)

(** The copy that is queued: attempt at least 1, tenant never empty. *)
Definition enqueue_copy (msg : SQSMessage) : SQSMessage :=
  let cp := if SQSMessage_Attempt msg <=? 0 then msg <| SQSMessage_Attempt := 1 |> else msg in
  cp <| SQSMessage_TenantID := normalizeTenant (SQSMessage_TenantID cp) |>.

(** The first critical section: a duplicate is accepted without effect ([None]), any
    other message is marked as queued. *)
Definition enqueue_accept (now : Time) (msg : SQSMessage) (q : MemoryQueue)
    : MemoryQueue * option SQSMessage :=
  let cp := enqueue_copy msg in
  let key := messageKey cp in
  let q := pruneRecentLocked now q in
  if bool_decide (key ∈ q_inQueue q) then (q, None)
  else if bool_decide (key ∈ q_inFlight q) then (q, None)
  else if match q_recent q !! key with
          | Some ts => time_Sub now ts <=? cfg_DedupeWindow (q_cfg q)
          | None => false
          end then (q, None)
  else (q <| q_inQueue ::= union {[key]} |>, Some cp).

(** Admission by the tenant manager, with its clock. *)
Definition enqueue_tenant (clk : nat -> Time) (cp : SQSMessage) (q : MemoryQueue)
    : MemoryQueue * result error unit :=
  let '(m, r) := Manager_TryEnqueue clk (SQSMessage_TenantID cp)
      (mkAdmissionInfo (messageKey cp) (SQSMessage_EstimatedTokens cp) (SQSMessage_EstimatedCost cp))
      (q_tenants q) in
  (q <| q_tenants := m |>, r).

Definition enqueue_unmark (cp : SQSMessage) (q : MemoryQueue) : MemoryQueue :=
  q <| q_inQueue ::= (fun s => s ∖ {[messageKey cp]}) |>.

Definition enqueue_send (cp : SQSMessage) (q : MemoryQueue) : MemoryQueue :=
  q <| q_ch ::= (fun ch => ch ++ [cp]) |>.

Definition enqueue_cancel (cp : SQSMessage) (q : MemoryQueue) : MemoryQueue :=
  q <| q_tenants ::= Manager_CancelEnqueue (SQSMessage_TenantID cp) (messageKey cp) |>.

(** The whole call when nothing interleaves.  [sent] is the branch the final [select]
    takes: the channel had room, or the context was cancelled. *)
Definition Enqueue (now : Time) (clk : nat -> Time) (sent : bool) (msg : option SQSMessage)
    (q : MemoryQueue) : MemoryQueue * result error unit :=
  match msg with
  | None => (q, Err (errors_New "queue: enqueue: nil message"))
  | Some msg =>
      match enqueue_accept now msg q with
      | (q, None) => (q, Ok tt)
      | (q, Some cp) =>
          match enqueue_tenant clk cp q with
          | (q, Err e) => (enqueue_unmark cp q, Err e)
          | (q, Ok _) =>
              if sent then (enqueue_send cp q, Ok tt)
              else (enqueue_cancel cp (enqueue_unmark cp q), Err (wrapf "queue: enqueue: " context_Canceled))
          end
      end
  end.

(** ** Dead letters *)

Definition DeadLetters (q : MemoryQueue) : list SQSMessage := q_dlq q.

(** Re-enqueue a batch: the first failure stops it.  [env i] gives, for the message
    number [i], the clock readings and the [select] branch of its [Enqueue]. *)
Fixpoint redrive (env : nat -> Time * (nat -> Time) * bool) (i : nat) (batch : list SQSMessage)
    (ok : Z) (q : MemoryQueue) : MemoryQueue * Z * option error :=
  match batch with
  | [] => (q, ok, None)
  | msg :: batch' =>
      let msg := msg <| SQSMessage_Attempt := 1 |> in
      let '(now, clk, sent) := env i in
      match Enqueue now clk sent (Some msg) q with
      | (q, Err e) => (q <| q_dlq ::= (fun d => d ++ [msg]) |>, ok, Some e)
      | (q, Ok _) => redrive env (S i) batch' (ok + 1) q
      end
  end.

Definition RedriveDeadLetters (env : nat -> Time * (nat -> Time) * bool) (limit : Z) (q : MemoryQueue)
    : MemoryQueue * Z * option error :=
  let n := Z.of_nat (length (q_dlq q)) in
  let limit := if (limit <=? 0) || (n <? limit) then n else limit in
  let batch := take (Z.to_nat limit) (q_dlq q) in
  redrive env 0 batch 0 (q <| q_dlq ::= drop (Z.to_nat limit) |>).

Definition TenantSnapshots (q : MemoryQueue) : list RuntimeSnapshot := Manager_Snapshots (q_tenants q).

Definition TenantSnapshot (tenantID : string) (q : MemoryQueue) : MemoryQueue * RuntimeSnapshot :=
  let '(m, s) := Manager_Snapshot (normalizeTenant tenantID) (q_tenants q) in
  (q <| q_tenants := m |>, s).

Definition TenantAlerts (tenantID : string) (limit : Z) (q : MemoryQueue) : MemoryQueue * list Alert :=
  let '(m, a) := Manager_Alerts (normalizeTenant tenantID) limit (q_tenants q) in
  (q <| q_tenants := m |>, a).

(** ** Ingress *)

Definition addPendingLocked (q : MemoryQueue) (msg : SQSMessage) : MemoryQueue :=
  let tenantID := normalizeTenant (SQSMessage_TenantID msg) in
  let q := match q_pending q !! tenantID with
           | Some _ => q
           | None => q <| q_tenantOrder ::= (fun o => o ++ [tenantID]) |>
           end in
  q <| q_pending := <[tenantID := default [] (q_pending q !! tenantID) ++ [msg]]> (q_pending q) |>.

(** One turn of [ingressLoop] after it received [msg]: file it and everything buffered. *)
Definition ingress (msg : SQSMessage) (q : MemoryQueue) : MemoryQueue :=
  fold_left addPendingLocked (q_ch q) ((addPendingLocked q msg) <| q_ch := [] |>).

(** ** Dispatch *)

Definition removeTenantLocked (idx : nat) (q : MemoryQueue) : MemoryQueue :=
  if (length (q_tenantOrder q) <=? idx)%nat then q
  else
    let q := q <| q_tenantOrder ::= delete idx |> in
    if (length (q_tenantOrder q) =? 0)%nat then q <| q_nextTenant := 0%nat |>
    else if (length (q_tenantOrder q) <=? q_nextTenant q)%nat then q <| q_nextTenant := 0%nat |>
    else q.

(** Take the first message of the tenant at [idx], whose queue is [msg :: rest]. *)
Definition pop_take (idx : nat) (tenantID : string) (msg : SQSMessage) (rest : list SQSMessage)
    (q : MemoryQueue) : MemoryQueue :=
  let q := match rest with
           | [] => removeTenantLocked idx (q <| q_pending ::= delete tenantID |>)
           | _ => q <| q_pending ::= insert tenantID rest |>
                    <| q_nextTenant := ((idx + 1) mod length (q_tenantOrder q))%nat |>
           end in
  q <| q_inQueue ::= (fun s => s ∖ {[messageKey msg]}) |>
    <| q_inFlight ::= union {[messageKey msg]} |>.

(** The loop of [popEligibleLocked]; [clks n] is the manager's clock in the call of
    [TryStartRun] made when [n] tenants were refused.  [None]: out of fuel. *)
Fixpoint pop_loop (clks : nat -> nat -> Time) (fuel checked : nat) (q : MemoryQueue)
    : option (MemoryQueue * option SQSMessage) :=
  match fuel with
  | 0%nat => None
  | S fuel =>
      if (checked <? length (q_tenantOrder q))%nat && (0 <? length (q_tenantOrder q))%nat then
        let idx := (q_nextTenant q mod length (q_tenantOrder q))%nat in
        let tenantID := default "" (q_tenantOrder q !! idx) in
        match default [] (q_pending q !! tenantID) with
        | [] => pop_loop clks fuel checked
                  (removeTenantLocked idx (q <| q_pending ::= delete tenantID |>))
        | msg :: rest =>
            let '(m, r) := Manager_TryStartRun (clks checked) tenantID (q_tenants q) in
            let q := q <| q_tenants := m |> in
            match r with
            | Err _ => pop_loop clks fuel (S checked)
                         (q <| q_nextTenant := ((idx + 1) mod length (q_tenantOrder q))%nat |>)
            | Ok _ => Some (pop_take idx tenantID msg rest q, Some msg)
            end
        end
      else Some (q, None)
  end.

(** The message, if one may start, and whether anything was pending.  Each turn of the
    loop removes a tenant or counts one, so as much fuel as tenants and one is enough. *)
Definition popEligibleLocked (clks : nat -> nat -> Time) (q : MemoryQueue)
    : option (MemoryQueue * option SQSMessage * bool) :=
  if (length (q_tenantOrder q) =? 0)%nat then Some (q, None, false)
  else '(q, o) ← pop_loop clks (S (length (q_tenantOrder q))) 0 q; Some (q, o, true).

(** ** Completion of an attempt *)

Definition finalFailure (failed : bool) (msg : SQSMessage) (q : MemoryQueue) : bool :=
  failed && (cfg_MaxAttempts (q_cfg q) <=? SQSMessage_Attempt msg).

Definition finish_tenant (clk : nat -> Time) (failed : bool) (msg : SQSMessage) (q : MemoryQueue)
    : MemoryQueue :=
  q <| q_tenants ::= Manager_CompleteRun clk (SQSMessage_TenantID msg)
    (mkCompletionInfo (messageKey msg) (SQSMessage_EstimatedTokens msg) (SQSMessage_EstimatedCost msg)
       failed (negb failed || finalFailure failed msg q)) |>.

Definition finish_dead (msg : SQSMessage) (q : MemoryQueue) : MemoryQueue :=
  q <| q_tenants ::= Manager_MarkDeadLetter (SQSMessage_TenantID msg) (messageKey msg) |>.

(** The critical section of [finishAttempt]. *)
Definition finish_queue (now : Time) (failed : bool) (msg : SQSMessage) (q : MemoryQueue) : MemoryQueue :=
  let key := messageKey msg in
  let final := finalFailure failed msg q in
  let q := q <| q_inFlight ::= (fun s => s ∖ {[key]}) |> in
  let q := if negb failed || final then q <| q_recent ::= insert key now |> else q in
  let q := pruneRecentLocked now q in
  if final then q <| q_dlq ::= (fun d => d ++ [msg]) |> else q.

(** The retry that is scheduled, and after which delay. *)
Definition finish_retry (failed : bool) (msg : SQSMessage) (q : MemoryQueue) : option (SQSMessage * Duration) :=
  if negb failed || finalFailure failed msg q then None
  else
    let retry := msg <| SQSMessage_Attempt ::= (fun a => add64 a 1) |> in
    let delay := wrap64 (cfg_RetryBackoff (q_cfg q) * sub64 (SQSMessage_Attempt retry) 1) in
    Some (retry, if delay <=? 0 then cfg_RetryBackoff (q_cfg q) else delay).

(** The whole of [finishAttempt] when nothing interleaves. *)
Definition finishAttempt (clk : nat -> Time) (now : Time) (failed : bool) (msg : SQSMessage) (q : MemoryQueue)
    : MemoryQueue * option (SQSMessage * Duration) :=
  let q := finish_tenant clk failed msg q in
  let q := if finalFailure failed msg q then finish_dead msg q else q in
  (finish_queue now failed msg q, finish_retry failed msg q).

(** ** The system: the queue and its goroutines *)

Inductive enq_phase : Type :=
| PTenant  (* marked, about to call TryEnqueue *)
| PUnmark  (* refused by the manager, about to unmark *)
| PSend    (* admitted, in the select *)
| PCancel. (* cancelled and unmarked, about to call CancelEnqueue *)

Inductive run_phase : Type :=
| RHandler
| RDead (failed : bool)    (* about to call MarkDeadLetter *)
| RFinish (failed : bool). (* about to enter the critical section *)

Record QSys : Type := mkQSys {
  s_q : MemoryQueue;
  s_enq : list (enq_phase * SQSMessage);
  s_hand : option SQSMessage;               (* received by the ingress loop, not yet filed *)
  s_run : list (run_phase * SQSMessage);
  s_retries : list SQSMessage;
  s_sent : list SQSMessage;                 (* history: messages sent to the channel *)
  s_started : list SQSMessage               (* history: messages dispatched *)
}.

#[global] Instance QSys_eta : Eta QSys := fun r => mkQSys
  (s_q r) (s_enq r) (s_hand r) (s_run r) (s_retries r) (s_sent r) (s_started r).

Definition new_thread (o : option SQSMessage) : list (enq_phase * SQSMessage) :=
  match o with Some cp => [(PTenant, cp)] | None => [] end.

(** Where an admission and the end of a handler lead. *)
Definition admit_phase (r : result error unit) : enq_phase := if is_ok r then PSend else PUnmark.

Definition finish_phase (failed : bool) (m : SQSMessage) (q : MemoryQueue) : run_phase :=
  if finalFailure failed m q then RDead failed else RFinish failed.

Definition run_thread (o : option SQSMessage) : list (run_phase * SQSMessage) :=
  match o with Some m => [(RHandler, m)] | None => [] end.

Inductive qstep : QSys -> QSys -> Prop :=
| q_accept s now msg q o :
    enqueue_accept now msg (s_q s) = (q, o) ->
    qstep s (s <| s_q := q |> <| s_enq ::= (fun e => e ++ new_thread o) |>)
| q_tenant s clk cp l1 l2 q r :
    s_enq s = l1 ++ (PTenant, cp) :: l2 -> enqueue_tenant clk cp (s_q s) = (q, r) ->
    qstep s (s <| s_q := q |> <| s_enq := l1 ++ (admit_phase r, cp) :: l2 |>)
| q_unmark s cp l1 l2 :
    s_enq s = l1 ++ (PUnmark, cp) :: l2 ->
    qstep s (s <| s_q ::= enqueue_unmark cp |> <| s_enq := l1 ++ l2 |>)
| q_send s cp l1 l2 :
    s_enq s = l1 ++ (PSend, cp) :: l2 ->
    Z.of_nat (length (q_ch (s_q s))) < cfg_BufferSize (q_cfg (s_q s)) ->
    qstep s (s <| s_q ::= enqueue_send cp |> <| s_enq := l1 ++ l2 |>
               <| s_sent ::= (fun l => l ++ [cp]) |>)
| q_cancel s cp l1 l2 :
    s_enq s = l1 ++ (PSend, cp) :: l2 ->
    qstep s (s <| s_q ::= enqueue_unmark cp |> <| s_enq := l1 ++ (PCancel, cp) :: l2 |>)
| q_cancelled s cp l1 l2 :
    s_enq s = l1 ++ (PCancel, cp) :: l2 ->
    qstep s (s <| s_q ::= enqueue_cancel cp |> <| s_enq := l1 ++ l2 |>)
| q_receive s m ch :
    s_hand s = None -> q_ch (s_q s) = m :: ch ->
    qstep s (s <| s_q ::= (fun q => q <| q_ch := ch |>) |> <| s_hand := Some m |>)
| q_ingress s m :
    s_hand s = Some m ->
    qstep s (s <| s_q ::= ingress m |> <| s_hand := None |>)
| q_dispatch s clks q o had :
    Z.of_nat (length (s_run s)) < cfg_MaxWorkers (q_cfg (s_q s)) ->
    popEligibleLocked clks (s_q s) = Some (q, o, had) ->
    qstep s (s <| s_q := q |>
               <| s_run ::= (fun r => r ++ run_thread o) |>
               <| s_started ::= (fun l => l ++ option_list o) |>)
| q_complete s clk failed m l1 l2 :
    s_run s = l1 ++ (RHandler, m) :: l2 ->
    qstep s (s <| s_q ::= finish_tenant clk failed m |>
               <| s_run := l1 ++ (finish_phase failed m (s_q s), m) :: l2 |>)
| q_dead s failed m l1 l2 :
    s_run s = l1 ++ (RDead failed, m) :: l2 ->
    qstep s (s <| s_q ::= finish_dead m |> <| s_run := l1 ++ (RFinish failed, m) :: l2 |>)
| q_finish s now failed m l1 l2 :
    s_run s = l1 ++ (RFinish failed, m) :: l2 ->
    qstep s (s <| s_q ::= finish_queue now failed m |> <| s_run := l1 ++ l2 |>
               <| s_retries ::= (fun l => l ++ option_list (fst <$> finish_retry failed m (s_q s))) |>)
| q_retry s now m l1 l2 q o :
    s_retries s = l1 ++ m :: l2 -> enqueue_accept now m (s_q s) = (q, o) ->
    qstep s (s <| s_q := q |> <| s_enq ::= (fun e => e ++ new_thread o) |> <| s_retries := l1 ++ l2 |>)
| q_retry_stop s m l1 l2 :
    s_retries s = l1 ++ m :: l2 -> qstep s (s <| s_retries := l1 ++ l2 |>)
| q_redrive s n :
    qstep s (s <| s_q ::= (fun q => q <| q_dlq ::= drop n |>) |>)
| q_redrive_back s m :
    qstep s (s <| s_q ::= (fun q => q <| q_dlq ::= (fun d => d ++ [m]) |>) |>).

Definition new_sys (cfg : MemoryQueueConfig) : QSys :=
  mkQSys (NewMemoryQueueWithConfig cfg) [] None [] [] [] [].

Inductive qreach (cfg : MemoryQueueConfig) : QSys -> Prop :=
| qreach_new : qreach cfg (new_sys cfg)
| qreach_step s s' : qreach cfg s -> qstep s s' -> qreach cfg s'.

(** ** The scheduler as a ring

    [ring q] is the order in which [popEligibleLocked] tries the tenants. *)

Definition ring (q : MemoryQueue) : list string :=
  drop (q_nextTenant q) (q_tenantOrder q) ++ take (q_nextTenant q) (q_tenantOrder q).

(** Specification of a scan: ask the manager for each tenant in turn; the result is the
    number of tenants refused before the first admitted one. *)
Fixpoint ring_scan (clks : nat -> nat -> Time) (checked : nat) (r : list string) (m : Manager)
    : Manager * option nat :=
  match r with
  | [] => (m, None)
  | t :: r' =>
      match Manager_TryStartRun (clks checked) t m with
      | (m', Ok _) => (m', Some checked)
      | (m', Err _) => ring_scan clks (S checked) r' m'
      end
  end.

(** The queue's own scheduling structure is well formed. *)
Record sched_wf (q : MemoryQueue) : Prop := {
  sw_nodup : NoDup (q_tenantOrder q);
  sw_next : (q_nextTenant q < length (q_tenantOrder q))%nat \/
            (q_tenantOrder q = [] /\ q_nextTenant q = 0%nat);
  sw_order : forall t, t ∈ q_tenantOrder q <-> is_Some (q_pending q !! t);
  sw_nonempty : map_Forall (fun _ l => l <> []) (q_pending q);
}.

(** Two queues with the same scheduling structure. *)
Definition same_sched (q q' : MemoryQueue) : Prop :=
  q_tenantOrder q' = q_tenantOrder q /\ q_nextTenant q' = q_nextTenant q /\ q_pending q' = q_pending q.

Lemma sched_wf_same q q' : sched_wf q -> same_sched q q' -> sched_wf q'.
Proof. intros [] (H1 & H2 & H3). constructor; rewrite ?H1, ?H2, ?H3; done. Qed.

Lemma ring_perm q : ring q ≡ₚ q_tenantOrder q.
Proof. unfold ring. rewrite Permutation_app_comm. by rewrite take_drop. Qed.

Lemma ring_length q : length (ring q) = length (q_tenantOrder q).
Proof. by rewrite ring_perm. Qed.

(** The head of the ring is the tenant the loop looks at. *)
Lemma ring_head q t r :
  sched_wf q -> ring q = t :: r ->
  (q_nextTenant q < length (q_tenantOrder q))%nat /\
  q_tenantOrder q !! q_nextTenant q = Some t /\
  r = drop (S (q_nextTenant q)) (q_tenantOrder q) ++ take (q_nextTenant q) (q_tenantOrder q).
Proof.
  intros Hw Hr. destruct (sw_next q Hw) as [Hn|[Hn _]]; [|unfold ring in Hr; rewrite Hn in Hr; by destruct (q_nextTenant q)].
  destruct (lookup_lt_is_Some_2 _ _ Hn) as [t' Ht']. unfold ring in Hr.
  rewrite (drop_S _ _ _ Ht') in Hr. cbn in Hr. by injection Hr as -> <-.
Qed.

Lemma rotate_take_drop {A} (l : list A) n x :
  l !! n = Some x ->
  let n' := ((n + 1) mod length l)%nat in
  drop n' l ++ take n' l = drop (S n) l ++ take n l ++ [x].
Proof.
  intros Hx n'. pose proof (lookup_lt_Some _ _ _ Hx) as Hn. unfold n'.
  destruct (decide (S n = length l)) as [Hl|Hl].
  - replace (n + 1)%nat with (length l) by lia. rewrite Nat.Div0.mod_same. cbn. rewrite app_nil_r.
    rewrite (drop_ge l (S n)) by lia. cbn. by rewrite <- (take_S_r _ _ _ Hx), take_ge by lia.
  - rewrite Nat.mod_small by lia. replace (n + 1)%nat with (S n) by lia.
    by rewrite (take_S_r _ _ _ Hx).
Qed.

Lemma ring_rotate q t r :
  sched_wf q -> ring q = t :: r ->
  ring (q <| q_nextTenant := ((q_nextTenant q + 1) mod length (q_tenantOrder q))%nat |>) = r ++ [t] /\
  sched_wf (q <| q_nextTenant := ((q_nextTenant q + 1) mod length (q_tenantOrder q))%nat |>).
Proof.
  intros Hw Hr. destruct (ring_head q t r Hw Hr) as (Hn & Ht & ->). unfold ring. cbn. split.
  - rewrite (rotate_take_drop _ _ _ Ht). by rewrite <- app_assoc.
  - destruct Hw. constructor; cbn; try done. left. apply Nat.mod_upper_bound. lia.
Qed.

(** Removing the tenant at the head of the ring. *)
Lemma ring_remove q t r :
  sched_wf q -> ring q = t :: r ->
  let q' := removeTenantLocked (q_nextTenant q) (q <| q_pending ::= delete t |>) in
  ring q' = r /\ sched_wf q' /\
  q' = q <| q_pending := delete t (q_pending q) |> <| q_tenantOrder := q_tenantOrder q' |>
         <| q_nextTenant := q_nextTenant q' |>.
Proof.
  intros Hw Hr. destruct (ring_head q t r Hw Hr) as (Hn & Ht & ->).
  set (l := q_tenantOrder q) in *. set (n := q_nextTenant q) in *.
  assert (Hdel : delete n l = take n l ++ drop (S n) l) by apply delete_take_drop.
  assert (Hp : l ≡ₚ t :: delete n l) by by apply delete_Permutation.
  assert (Hlen : length l = S (length (delete n l))) by by rewrite Hp at 1.
  assert (Hwf : forall n', (n' < length (delete n l))%nat \/ (delete n l = [] /\ n' = 0%nat) ->
    sched_wf (q <| q_pending := delete t (q_pending q) |> <| q_tenantOrder := delete n l |> <| q_nextTenant := n' |>)).
  { intros n' Hn'. destruct Hw. fold l in sw_nodup0.
    assert (HN : NoDup (t :: delete n l)) by (by rewrite <- Hp).
    apply list.NoDup_cons in HN as [Hnt HN].
    constructor; cbn; try done.
    - intros t'. rewrite lookup_delete_is_Some, <- sw_order0. fold l.
      assert (t' ∈ l <-> t' = t \/ t' ∈ delete n l) as -> by (rewrite Hp at 1; apply elem_of_cons).
      split; [intros H; split; [by intros ->|by right]|by intros [? [->|?]]].
    - by apply map_Forall_delete. }
  unfold removeTenantLocked. cbn. fold l n. rewrite (proj2 (Nat.leb_gt _ _) Hn).
  assert (Hring0 : length (delete n l) = n \/ delete n l = [] -> drop (S n) l = []).
  { intros [H|H]; [apply drop_ge; lia|]. rewrite Hdel in H. by apply app_eq_nil in H as [_ ?]. }
  case_if as E0; [|case_if as E1]; cbn.
  - apply Nat.eqb_eq, nil_length_inv in E0. split; [|split; [apply Hwf; by right|done]].
    change (delete n l ++ [] = drop (S n) l ++ take n l). rewrite Hring0 by by right.
    change (delete n l = []) in E0. rewrite E0 in *.
    symmetry in Hdel. apply app_eq_nil in Hdel as [-> _]. done.
  - apply Nat.eqb_neq in E0. apply Nat.leb_le in E1. cbn in E0, E1. fold l n in E0, E1.
    split; [|split; [apply Hwf; left; lia|done]].
    change (delete n l ++ [] = drop (S n) l ++ take n l).
    rewrite app_nil_r, Hdel, Hring0 by (left; lia). by rewrite app_nil_r.
  - apply Nat.leb_gt in E1. cbn in E1. fold l n in E1.
    split; [|split; [apply (Hwf n); by left|done]].
    change (drop n (delete n l) ++ take n (delete n l) = drop (S n) l ++ take n l).
    by rewrite Hdel, drop_app_length', take_app_length' by (rewrite length_take; lia).
Qed.

Lemma pending_head q t r :
  sched_wf q -> ring q = t :: r -> exists msg rest, q_pending q !! t = Some (msg :: rest).
Proof.
  intros Hw Hr. assert (Hin : t ∈ q_tenantOrder q) by (rewrite <- ring_perm, Hr; left).
  apply (sw_order q Hw) in Hin as [l Hl]. pose proof (sw_nonempty q Hw _ _ Hl) as Hne.
  destruct l as [|msg rest]; [done|]. eauto.
Qed.

(** One turn of the loop on a well-formed queue. *)
Lemma pop_loop_turn clks fuel checked q t r msg rest :
  sched_wf q -> ring q = t :: r -> q_pending q !! t = Some (msg :: rest) ->
  (checked < length (q_tenantOrder q))%nat ->
  pop_loop clks (S fuel) checked q =
    match Manager_TryStartRun (clks checked) t (q_tenants q) with
    | (m, Ok _) => Some (pop_take (q_nextTenant q) t msg rest (q <| q_tenants := m |>), Some msg)
    | (m, Err _) => pop_loop clks fuel (S checked)
        (q <| q_tenants := m |>
           <| q_nextTenant := ((q_nextTenant q + 1) mod length (q_tenantOrder q))%nat |>)
    end.
Proof.
  intros Hw Hr Hp Hc. destruct (ring_head q t r Hw Hr) as (Hn & Ht & _). cbn [pop_loop].
  rewrite (proj2 (Nat.ltb_lt _ _) Hc), (proj2 (Nat.ltb_lt 0 _)) by lia. cbn.
  rewrite (Nat.mod_small _ _ Hn), Ht. cbn. rewrite Hp. cbn.
  by destruct (Manager_TryStartRun _ _ _) as [m [[]|e]].
Qed.

(** What a pop does to the scheduling structure. *)
Lemma pop_take_spec q t r msg rest :
  sched_wf q -> ring q = t :: r -> q_pending q !! t = Some (msg :: rest) ->
  let q' := pop_take (q_nextTenant q) t msg rest q in
  sched_wf q' /\ ring q' = r ++ (if decide (rest = []) then [] else [t]) /\
  q_pending q' = (if decide (rest = []) then delete t (q_pending q) else <[t := rest]> (q_pending q)) /\
  q' = q <| q_pending := q_pending q' |> <| q_tenantOrder := q_tenantOrder q' |>
         <| q_nextTenant := q_nextTenant q' |> <| q_inQueue ::= (fun s => s ∖ {[messageKey msg]}) |>
         <| q_inFlight ::= union {[messageKey msg]} |>.
Proof.
  intros Hw Hr Hp. unfold pop_take. destruct rest as [|m2 rest].
  - destruct (ring_remove q t r Hw Hr) as (H1 & H2 & H3).
    set (q1 := removeTenantLocked _ _) in *. clearbody q1.
    rewrite decide_True by done. rewrite app_nil_r.
    split; [by apply (sched_wf_same q1)|]. split; [done|].
    rewrite H3. by destruct q.
  - destruct (ring_rotate q t r Hw Hr) as [H1 H2]. rewrite decide_False by done. cbn zeta.
    split; [|split; [exact H1|]]; [|done].
    destruct H2. constructor; cbn in *; try done.
    + intros t'. rewrite sw_order0. destruct (decide (t = t')) as [<-|Hne].
      * by rewrite lookup_insert_eq, Hp.
      * by rewrite lookup_insert_ne.
    + by apply map_Forall_insert_2.
Qed.

Lemma pop_loop_scan clks todo done q fuel :
  sched_wf q -> ring q = todo ++ done -> (length todo < fuel)%nat ->
  match ring_scan clks (length done) todo (q_tenants q) with
  | (m, None) => exists n, pop_loop clks fuel (length done) q
      = Some (q <| q_tenants := m |> <| q_nextTenant := n |>, None) /\
      ring (q <| q_nextTenant := n |>) = done ++ todo /\ sched_wf (q <| q_nextTenant := n |>)
  | (m, Some j) => exists t msg rest n skip next,
      todo = skip ++ t :: next /\ j = (length done + length skip)%nat /\
      q_pending q !! t = Some (msg :: rest) /\
      ring (q <| q_nextTenant := n |>) = t :: next ++ done ++ skip /\
      sched_wf (q <| q_nextTenant := n |>) /\
      pop_loop clks fuel (length done) q
      = Some (pop_take n t msg rest (q <| q_tenants := m |> <| q_nextTenant := n |>), Some msg)
  end.
Proof.
  revert done q fuel. induction todo as [|t todo IH]; intros don q fuel Hw Hr Hf.
  - cbn. exists (q_nextTenant q). destruct fuel as [|fuel]; [cbn in Hf; lia|]. cbn [pop_loop].
    rewrite <- ring_length, Hr. change ([] ++ don) with don. rewrite Nat.ltb_irrefl. cbn [andb]. rewrite app_nil_r.
    split; [by destruct q|]. split; [done|by destruct q].
  - cbn in Hf, Hr. destruct fuel as [|fuel]; [lia|].
    destruct (pending_head q t _ Hw Hr) as (msg & rest & Hp).
    rewrite (pop_loop_turn clks fuel (length don) q t _ msg rest Hw Hr Hp)
      by (rewrite <- ring_length, Hr; cbn; rewrite length_app; lia).
    cbn [ring_scan]. destruct (Manager_TryStartRun (clks (length don)) t (q_tenants q)) as [m [[]|e]].
    + exists t, msg, rest, (q_nextTenant q), [], todo. cbn. rewrite app_nil_r.
      split; [done|]. split; [lia|]. split; [done|]. split; [done|]. split; [by destruct q|]. by destruct q.
    + destruct (ring_rotate q t _ Hw Hr) as [Hr' Hw'].
      set (n' := ((q_nextTenant q + 1) mod length (q_tenantOrder q))%nat) in *.
      assert (Hl : S (length don) = length (don ++ [t])) by (rewrite length_app; cbn; lia).
      specialize (IH (don ++ [t]) (q <| q_tenants := m |> <| q_nextTenant := n' |>) fuel).
      rewrite <- Hl in IH.
      specialize (IH ltac:(by apply (sched_wf_same _ _ Hw')) ltac:(by rewrite app_assoc) ltac:(lia)).
      change (q_tenants (_ <| q_nextTenant := n' |>)) with m in IH at 1.
      destruct (ring_scan clks (S (length don)) todo m) as [m' [j|]].
      * destruct IH as (t' & msg' & rest' & n & skip & next & -> & -> & Hp' & Hring & Hwf & Hpop).
        exists t', msg', rest', n, (t :: skip), next. cbn.
        split; [done|]. split; [lia|]. split; [done|].
        split; [by rewrite <- app_assoc in Hring|]. split; [by apply (sched_wf_same _ _ Hwf)|done].
      * destruct IH as (n & Hpop & Hring & Hwf). exists n.
        split; [done|]. split; [by rewrite <- app_assoc in Hring|]. by apply (sched_wf_same _ _ Hwf).
Qed.

(** The queue after the first message of tenant [t] was taken, as a relation. *)
Record popped (q : MemoryQueue) (m : Manager) (t : string) (msg : SQSMessage) (rest : list SQSMessage)
    (q' : MemoryQueue) : Prop := {
  po_pending : q_pending q !! t = Some (msg :: rest);
  po_pending' : q_pending q' = if decide (rest = []) then delete t (q_pending q)
                               else <[t := rest]> (q_pending q);
  po_wf : sched_wf q';
  po_rest : q' = q <| q_pending := q_pending q' |> <| q_tenantOrder := q_tenantOrder q' |>
         <| q_nextTenant := q_nextTenant q' |> <| q_inQueue ::= (fun s => s ∖ {[messageKey msg]}) |>
         <| q_inFlight ::= union {[messageKey msg]} |> <| q_tenants := m |>;
}.

Lemma pop_spec clks q :
  sched_wf q ->
  match ring_scan clks 0 (ring q) (q_tenants q) with
  | (m, None) => exists q' had, popEligibleLocked clks q = Some (q', None, had) /\
      ring q' = ring q /\ sched_wf q' /\ q' = q <| q_tenants := m |> <| q_nextTenant := q_nextTenant q' |>
  | (m, Some j) => exists t msg rest q',
      ring q !! j = Some t /\ popEligibleLocked clks q = Some (q', Some msg, true) /\
      popped q m t msg rest q' /\
      ring q' = drop (S j) (ring q) ++ take j (ring q) ++ (if decide (rest = []) then [] else [t])
  end.
Proof.
  intros Hw. unfold popEligibleLocked. rewrite <- ring_length.
  pose proof (pop_loop_scan clks (ring q) [] q (S (length (ring q))) Hw) as H.
  rewrite app_nil_r in H. specialize (H eq_refl ltac:(lia)). cbn [length] in H.
  case_if as E0.
  { apply Nat.eqb_eq, nil_length_inv in E0. rewrite E0. cbn. exists q, false.
    split; [done|]. split; [done|]. split; [done|]. by destruct q. }
  destruct (ring_scan clks 0 (ring q) (q_tenants q)) as [m [j|]].
  - destruct H as (t & msg & rest & n & skip & next & Hring & -> & Hp & Hr' & Hw' & ->).
    destruct (pop_take_spec (q <| q_tenants := m |> <| q_nextTenant := n |>) t (next ++ skip) msg rest)
      as (Hw2 & Hr2 & Hp2 & Hq2); [by apply (sched_wf_same _ _ Hw')|done|done|].
    exists t, msg, rest. cbn. eexists. rewrite Hring. split; [by rewrite list_lookup_middle|].
    split; [reflexivity|].
    set (q2 := pop_take _ _ _ _ _) in *. clearbody q2. split.
    + constructor; [done|done|done|]. rewrite Hq2 at 1. by destruct q2, q.
    + rewrite Hr2, <- app_assoc. f_equal; [|f_equal].
      * rewrite cons_middle, app_assoc, drop_app_length'; [done|]. rewrite length_app. cbn. lia.
      * by rewrite take_app_length.
  - destruct H as (n & -> & Hr' & Hw'). cbn. eexists _, true. split; [reflexivity|].
    split; [exact Hr'|]. split; [by apply (sched_wf_same _ _ Hw')|done].
Qed.

(** ** Independence of tenants in the manager *)

(** A tenant that TryStartRun admits whatever the clock says. *)
Definition startable (t : string) (m : Manager) : Prop :=
  ts_breakerState (stateLocked t m) = BreakerClosed /\
  ts_running (stateLocked t m) < Policy_MaxRunning (policyLocked t m).

Lemma startable_ok clk t m : startable t m -> (Manager_TryStartRun clk t m).2 = Ok tt.
Proof.
  intros [Hb Hr]. unfold Manager_TryStartRun, tryStartRun. rewrite recover_closed by (cbn; congruence).
  cbn. rewrite Hb. by rewrite (proj2 (Z.leb_gt _ _) Hr), andb_false_r.
Qed.

Lemma startable_other clk t t' m :
  t <> t' -> startable t m -> startable t (Manager_TryStartRun clk t' m).1.
Proof.
  intros Hne [Hb Hr]. unfold Manager_TryStartRun, startable. destruct (tryStartRun _ _ _ _) as [c r]. cbn.
  rewrite policyLocked_put, !stateLocked_put, decide_False by done. done.
Qed.

Lemma ring_scan_startable clks t r m :
  NoDup r -> startable t m -> forall i k, r !! i = Some t ->
  exists m' j, ring_scan clks k r m = (m', Some (k + j)%nat) /\ (j <= i)%nat /\
    (j < i -> startable t m')%nat.
Proof.
  revert m. induction r as [|t' r IH]; intros m Hnd Hs i k Hi; [done|].
  apply list.NoDup_cons in Hnd as [Hn Hnd]. cbn [ring_scan].
  destruct i as [|i]; cbn in Hi.
  - injection Hi as ->. pose proof (startable_ok (clks k) t m Hs) as Hok.
    destruct (Manager_TryStartRun _ _ _) as [m' r']. cbn in Hok. subst r'.
    exists m', 0%nat. rewrite Nat.add_0_r. split; [done|]. lia.
  - assert (t <> t') as Hne by (intros ->; apply Hn; by eapply list_elem_of_lookup_2).
    pose proof (startable_other (clks k) t t' m Hne Hs) as Hs'.
    destruct (Manager_TryStartRun _ _ _) as [m' [[]|e]]; cbn in Hs'.
    + exists m', 0%nat. rewrite Nat.add_0_r. split; [done|]. split; [lia|done].
    + destruct (IH m' Hnd Hs' i (S k) Hi) as (m2 & j & -> & Hj & Hs2).
      exists m2, (S j). rewrite <- Nat.add_succ_comm. split; [done|]. split; [lia|]. intros. apply Hs2. lia.
Qed.

(** ** Fairness *)

(** The messages that successive pops return. *)
Fixpoint pops (cs : list (nat -> nat -> Time)) (q : MemoryQueue) : list (option SQSMessage) :=
  match cs with
  | [] => []
  | clks :: cs' =>
      match popEligibleLocked clks q with
      | Some (q', o, _) => o :: pops cs' q'
      | None => []
      end
  end.

Lemma pops_take n : forall cs q k, (k < n)%nat -> pops cs q !! k = pops (take n cs) q !! k.
Proof.
  induction n as [|n IH]; intros cs q k Hk; [lia|]. destruct cs as [|clks cs]; [done|]. cbn.
  destruct (popEligibleLocked clks q) as [[[q' o] b]|]; [|done]. destruct k as [|k]; [done|].
  cbn. apply IH. lia.
Qed.

Lemma popped_other q m t msg rest q' t' :
  popped q m t msg rest q' -> t' <> t -> q_pending q' !! t' = q_pending q !! t'.
Proof.
  intros [] Hne. rewrite po_pending'0. case_decide; [by rewrite lookup_delete_ne|by rewrite lookup_insert_ne].
Qed.

Lemma ring_nodup q : sched_wf q -> NoDup (ring q).
Proof. intros H. rewrite ring_perm. apply (sw_nodup q H). Qed.

Lemma fair_pops i : forall cs q t msg rest,
  sched_wf q -> ring q !! i = Some t -> q_pending q !! t = Some (msg :: rest) ->
  startable t (q_tenants q) -> length cs = S i ->
  exists k, (k <= i)%nat /\ pops cs q !! k = Some (Some msg) /\
    forall j, (j < k)%nat -> exists m, pops cs q !! j = Some (Some m).
Proof.
  induction i as [i IH] using lt_wf_ind. intros cs q t msg rest Hw Hi Hp Hs Hl.
  destruct cs as [|clks cs]; [done|]. cbn [pops].
  destruct (ring_scan_startable clks t (ring q) (q_tenants q) (ring_nodup q Hw) Hs i 0 Hi)
    as (m & j & Hscan & Hj & Hs').
  pose proof (pop_spec clks q Hw) as H. rewrite Hscan in H.
  destruct H as (t' & msg' & rest' & q' & Ht' & -> & Hpop & Hring). cbn in Ht'.
  destruct (decide (j = i)) as [->|Hne].
  - cbn in Hring. rewrite Hi in Ht'. injection Ht' as <-. rewrite (po_pending _ _ _ _ _ _ Hpop) in Hp.
    injection Hp as -> ->. exists 0%nat. split; [lia|]. split; [done|]. lia.
  - assert (t <> t') as Htt.
    { intros ->. apply Hne. by eapply (NoDup_lookup (ring q)); [apply ring_nodup|..]. }
    destruct (IH (i - S j)%nat ltac:(lia) (take (S (i - S j)) cs) q' t msg rest) as (k & Hk & Hk1 & Hk2).
    + apply Hpop.
    + rewrite Hring, lookup_app_l.
      * rewrite lookup_drop. replace (S (0 + j) + (i - S j))%nat with i by lia. done.
      * rewrite length_drop. apply lookup_lt_Some in Hi. lia.
    + by rewrite (popped_other _ _ _ _ _ _ _ Hpop).
    + rewrite (po_rest _ _ _ _ _ _ Hpop). cbn. apply Hs'. lia.
    + rewrite length_take. cbn in Hl. lia.
    + assert (Hpre : forall k', (k' <= k)%nat ->
        pops cs q' !! k' = pops (take (S (i - S j)) cs) q' !! k').
      { intros k' Hk'. apply pops_take. lia. }
      exists (S k). split; [lia|]. split; [cbn; by rewrite Hpre by lia|].
      intros [|j'] Hj'; [by eexists|]. cbn. rewrite Hpre by lia. apply Hk2. lia.
Qed.

(** ** Messages held by the queue *)

Definition pending_msgs (p : gmap string (list SQSMessage)) : list SQSMessage :=
  concat (map snd (map_to_list p)).

Lemma pending_msgs_insert p t l :
  p !! t = None -> pending_msgs (<[t := l]> p) ≡ₚ l ++ pending_msgs p.
Proof. intros H. unfold pending_msgs. by rewrite (map_to_list_insert p t l H). Qed.

Lemma pending_msgs_delete p t l :
  p !! t = Some l -> pending_msgs p ≡ₚ l ++ pending_msgs (delete t p).
Proof.
  intros H. rewrite <- (insert_delete_id p t l H) at 1.
  apply pending_msgs_insert, lookup_delete_eq.
Qed.

Lemma pending_msgs_update p t l :
  pending_msgs (<[t := l]> p) ≡ₚ l ++ pending_msgs (delete t p).
Proof. rewrite <- insert_delete_eq. apply pending_msgs_insert, lookup_delete_eq. Qed.

Lemma popped_msgs q m t msg rest q' :
  popped q m t msg rest q' -> pending_msgs (q_pending q) ≡ₚ msg :: pending_msgs (q_pending q').
Proof.
  intros [Hp Hp' _ _]. rewrite (pending_msgs_delete _ _ _ Hp), Hp'. cbn.
  case_decide as E; [by subst|]. by rewrite pending_msgs_update.
Qed.

Lemma normalize_id t : t <> "" -> normalizeTenant t = t.
Proof. intros H. unfold normalizeTenant. by rewrite bool_decide_false. Qed.

Lemma normalize_nonempty t : normalizeTenant t <> "".
Proof. unfold normalizeTenant. by case_bool_decide. Qed.

Lemma normalize_idemp t : normalizeTenant (normalizeTenant t) = normalizeTenant t.
Proof. apply normalize_id, normalize_nonempty. Qed.

Definition of_tenant (t : string) (l : list SQSMessage) : list SQSMessage :=
  filter (fun m => SQSMessage_TenantID m = t) l.

Arguments of_tenant : simpl never.

Definition named (m : SQSMessage) : Prop := SQSMessage_TenantID m <> "".

(** Filing messages: what [addPendingLocked] and the ingress loop do. *)
Record filed (q : MemoryQueue) (l : list SQSMessage) (q' : MemoryQueue) : Prop := {
  fi_wf : sched_wf q';
  fi_pending : forall t, default [] (q_pending q' !! t) = default [] (q_pending q !! t) ++ of_tenant t l;
  fi_msgs : pending_msgs (q_pending q') ≡ₚ pending_msgs (q_pending q) ++ l;
  fi_rest : q' = q <| q_pending := q_pending q' |> <| q_tenantOrder := q_tenantOrder q' |>;
}.

Lemma filed_nil q : sched_wf q -> filed q [] q.
Proof. intros H. constructor; [done|intros; by rewrite app_nil_r|by rewrite app_nil_r|by destruct q]. Qed.

Lemma filed_trans q l q' l' q'' : filed q l q' -> filed q' l' q'' -> filed q (l ++ l') q''.
Proof.
  intros [] []. constructor; [done|..].
  - intros t. rewrite fi_pending1, fi_pending0. unfold of_tenant. by rewrite list.filter_app, app_assoc.
  - rewrite fi_msgs1, fi_msgs0. by rewrite app_assoc.
  - rewrite fi_rest1, fi_rest0. by destruct q.
Qed.

Lemma filed_one q m : sched_wf q -> named m -> filed q [m] (addPendingLocked q m).
Proof.
  intros Hw Hn. unfold addPendingLocked. rewrite (normalize_id _ Hn).
  set (t := SQSMessage_TenantID m). set (l := default [] (q_pending q !! t) ++ [m]).
  assert (Hpend : forall t', default [] (<[t := l]> (q_pending q) !! t')
      = default [] (q_pending q !! t') ++ of_tenant t' [m]).
  { intros t'. unfold of_tenant. rewrite filter_cons, filter_nil. fold t.
    destruct (decide (t = t')) as [<-|Hne]; [by rewrite lookup_insert_eq|].
    by rewrite lookup_insert_ne, app_nil_r. }
  assert (Hmsgs : pending_msgs (<[t := l]> (q_pending q)) ≡ₚ pending_msgs (q_pending q) ++ [m]).
  { rewrite pending_msgs_update. unfold l. destruct (q_pending q !! t) as [l0|] eqn:E; cbn.
    - rewrite (pending_msgs_delete _ _ _ E). solve_Permutation.
    - rewrite delete_id by done. solve_Permutation. }
  destruct Hw as [Hnd Hnext Hord Hne].
  assert (Hne' : map_Forall (fun _ l => l <> []) (<[t := l]> (q_pending q))).
  { apply map_Forall_insert_2; [|done]. unfold l. by destruct (default [] _). }
  destruct (q_pending q !! t) as [l0|] eqn:E; constructor; cbn in *; fold t; rewrite ?E; try done.
  - constructor; cbn; try done. intros t'. rewrite Hord, lookup_insert_is_Some.
    destruct (decide (t = t')) as [<-|]; rewrite ?E; clear Hord Hnext; naive_solver.
  - assert (Ht : t ∉ q_tenantOrder q) by (rewrite Hord, E; by intros [? ?]).
    constructor; cbn; try done.
    + apply list.NoDup_app. split; [done|]. split; [clear Hord Hnext; set_solver|]. apply NoDup_singleton.
    + left. rewrite length_app. cbn. destruct Hnext as [?|[-> ->]]; cbn; lia.
    + intros t'. rewrite lookup_insert_is_Some, elem_of_app, list_elem_of_singleton, Hord.
      destruct (decide (t = t')) as [<-|]; rewrite ?E; clear Hord Hnext; naive_solver.
Qed.

Lemma filed_fold l : forall q, sched_wf q -> Forall named l -> filed q l (fold_left addPendingLocked l q).
Proof.
  induction l as [|m l IH]; intros q Hw Hl; [by apply filed_nil|].
  apply list.Forall_cons in Hl as [Hm Hl]. cbn [fold_left].
  pose proof (filed_one q m Hw Hm) as H1.
  apply (filed_trans q [m] (addPendingLocked q m) l); [done|]. apply IH; [apply H1|done].
Qed.

Lemma ingress_filed q m :
  sched_wf q -> named m -> Forall named (q_ch q) ->
  filed (q <| q_ch := [] |>) (m :: q_ch q) (ingress m q).
Proof.
  intros Hw Hm Hch. unfold ingress.
  assert (Heq : (addPendingLocked q m) <| q_ch := [] |> = addPendingLocked (q <| q_ch := [] |>) m).
  { unfold addPendingLocked. cbn. by destruct (q_pending q !! _). }
  rewrite Heq. apply (filed_fold (m :: q_ch q)); [by apply (sched_wf_same q)|by constructor].
Qed.

(** ** Keys: who holds which message *)

(** [Q] and [R] are the keys of the queued and of the running messages, [a] and [b] the
    sets the queue keeps of them. *)
Definition key_state (Q R : list string) (a b : gset string) : Prop :=
  NoDup (Q ++ R) /\ a = list_to_set Q /\ b = list_to_set R.

Lemma ks_perm Q Q' R R' a b : Q ≡ₚ Q' -> R ≡ₚ R' -> key_state Q R a b -> key_state Q' R' a b.
Proof.
  intros HQ HR (H1 & H2 & H3). split; [by rewrite <- HQ, <- HR|].
  split; apply leibniz_equiv; [rewrite H2, HQ|rewrite H3, HR]; done.
Qed.

Lemma ks_add k Q R a b : k ∉ a -> k ∉ b -> key_state Q R a b -> key_state (k :: Q) R ({[k]} ∪ a) b.
Proof.
  intros Ha Hb (H1 & -> & ->). split; [|done]. cbn. apply list.NoDup_cons. split; [|done].
  rewrite elem_of_app. rewrite elem_of_list_to_set in Ha, Hb. naive_solver.
Qed.

Lemma ks_remove k Q R a b : key_state (k :: Q) R a b -> key_state Q R (a ∖ {[k]}) b.
Proof.
  intros (H1 & -> & ->). cbn in H1. apply list.NoDup_cons in H1 as [Hk H1]. split; [done|]. split; [|done].
  rewrite elem_of_app in Hk. cbn. set_solver.
Qed.

Lemma ks_start k Q R a b : key_state (k :: Q) R a b -> key_state Q (k :: R) (a ∖ {[k]}) ({[k]} ∪ b).
Proof.
  intros H. destruct (ks_remove k Q R a b H) as (_ & Ha & _). destruct H as (H1 & _ & ->).
  split; [by rewrite <- Permutation_middle|done].
Qed.

Lemma ks_finish k Q R a b : key_state Q (k :: R) a b -> key_state Q R a (b ∖ {[k]}).
Proof.
  intros (H1 & -> & ->). rewrite <- Permutation_middle in H1. apply list.NoDup_cons in H1 as [Hk H1].
  split; [done|]. split; [done|]. rewrite elem_of_app in Hk. cbn. set_solver.
Qed.

Definition holds (e : enq_phase * SQSMessage) : bool :=
  match e.1 with PCancel => false | _ => true end.

Definition enq_msgs (l : list (enq_phase * SQSMessage)) : list SQSMessage :=
  map snd (List.filter holds l).

Arguments enq_msgs : simpl never.
Arguments pending_msgs : simpl never.

Definition queued_msgs (s : QSys) : list SQSMessage :=
  enq_msgs (s_enq s) ++ option_list (s_hand s) ++ q_ch (s_q s) ++ pending_msgs (q_pending (s_q s)).

Definition running_msgs (s : QSys) : list SQSMessage := map snd (s_run s).

Record key_inv (s : QSys) : Prop := {
  ki_wf : sched_wf (s_q s);
  ki_named : Forall named (map snd (s_enq s) ++ option_list (s_hand s) ++ q_ch (s_q s));
  ki_keys : key_state (map messageKey (queued_msgs s)) (map messageKey (running_msgs s))
              (q_inQueue (s_q s)) (q_inFlight (s_q s));
}.

Lemma enq_msgs_app l1 l2 : enq_msgs (l1 ++ l2) = enq_msgs l1 ++ enq_msgs l2.
Proof. unfold enq_msgs. by rewrite List.filter_app, map_app. Qed.

Lemma accept_same_sched now msg q q' o :
  enqueue_accept now msg q = (q', o) ->
  same_sched q q' /\ q_ch q' = q_ch q /\ q_cfg q' = q_cfg q /\ q_tenants q' = q_tenants q /\
  q_inFlight q' = q_inFlight q /\ q_dlq q' = q_dlq q /\
  match o with
  | None => q_inQueue q' = q_inQueue q
  | Some cp => cp = enqueue_copy msg /\ q_inQueue q' = {[messageKey cp]} ∪ q_inQueue q /\
               messageKey cp ∉ q_inQueue q /\ messageKey cp ∉ q_inFlight q
  end.
Proof.
  unfold enqueue_accept. intros H. repeat (split_match_in H); injection H as <- <-; cbn; bool_prop;
    repeat split; done.
Qed.

Lemma copy_named msg : named (enqueue_copy msg).
Proof. unfold named, enqueue_copy. cbn. apply normalize_nonempty. Qed.

Lemma pop_cases clks q q' o had :
  sched_wf q -> popEligibleLocked clks q = Some (q', o, had) ->
  match o with
  | None => sched_wf q' /\ exists m, q' = q <| q_tenants := m |> <| q_nextTenant := q_nextTenant q' |>
  | Some msg => exists m t rest, popped q m t msg rest q'
  end.
Proof.
  intros Hw Hp. pose proof (pop_spec clks q Hw) as H.
  destruct (ring_scan clks 0 (ring q) (q_tenants q)) as [m [j|]].
  - destruct H as (t & msg & rest & q2 & _ & Hq2 & Hpop & _). rewrite Hq2 in Hp. injection Hp as <- <- <-.
    eauto.
  - destruct H as (q2 & b & Hq2 & _ & Hw2 & Heq). rewrite Hq2 in Hp. injection Hp as <- <- <-. eauto.
Qed.

Lemma finish_queue_frame now failed msg q :
  same_sched q (finish_queue now failed msg q) /\
  q_ch (finish_queue now failed msg q) = q_ch q /\
  q_cfg (finish_queue now failed msg q) = q_cfg q /\
  q_tenants (finish_queue now failed msg q) = q_tenants q /\
  q_inQueue (finish_queue now failed msg q) = q_inQueue q /\
  q_inFlight (finish_queue now failed msg q) = q_inFlight q ∖ {[messageKey msg]}.
Proof. unfold finish_queue. cbn zeta. repeat case_if; repeat split; done. Qed.

(** The accept sections of a call and of a retry. *)
Lemma key_inv_accept s now msg q o rs :
  key_inv s -> enqueue_accept now msg (s_q s) = (q, o) ->
  key_inv (s <| s_q := q |> <| s_enq ::= (fun e => e ++ new_thread o) |> <| s_retries := rs |>).
Proof.
  intros [Hw Hn Hk] Ha. destruct (accept_same_sched _ _ _ _ _ Ha) as (Hs & Hch & _ & _ & Hf & _ & Ho).
  constructor; cbn.
  - by apply (sched_wf_same (s_q s)).
  - rewrite Hch, map_app, <- app_assoc. apply Forall_app in Hn as [Hn1 Hn2].
    apply Forall_app_2; [done|]. apply Forall_app_2; [|done].
    destruct o as [cp|]; cbn; [|done]. destruct Ho as [-> _]. constructor; [apply copy_named|done].
  - unfold queued_msgs, running_msgs in *. cbn. rewrite Hch, (proj2 (proj2 Hs)), Hf, enq_msgs_app.
    destruct o as [cp|]; cbn; [|by rewrite app_nil_r, Ho].
    destruct Ho as (_ & -> & H1 & H2).
    eapply ks_perm; [| |eapply ks_add; [exact H1|exact H2|exact Hk]]; [|done].
    rewrite !map_app. cbn. solve_Permutation.
Qed.

(** A caller thread changes phase, keeping or giving up its mark. *)
Lemma enq_msgs_mid l1 ph cp l2 :
  enq_msgs (l1 ++ (ph, cp) :: l2) =
    enq_msgs l1 ++ (if holds (ph, cp) then [cp] else []) ++ enq_msgs l2.
Proof. rewrite enq_msgs_app. unfold enq_msgs. cbn. by destruct (holds (ph, cp)). Qed.

Lemma named_mid (l1 : list (enq_phase * SQSMessage)) ph cp l2 l :
  Forall named (map snd (l1 ++ (ph, cp) :: l2) ++ l) ->
  named cp /\ Forall named (map snd (l1 ++ l2) ++ l) /\
  forall ph', Forall named (map snd (l1 ++ (ph', cp) :: l2) ++ l).
Proof.
  rewrite !map_app. cbn. rewrite !Forall_app, list.Forall_cons. intros [[H1 [H2 H3]] H4].
  split; [done|]. split; [done|]. intros ph'. rewrite map_app. cbn. rewrite !Forall_app, list.Forall_cons. done.
Qed.

Ltac key_perm Hk := eapply ks_perm; [| |exact Hk]; rewrite ?map_app; cbn; rewrite ?map_app; solve_Permutation.

(** The steps of the callers. *)
Lemma key_inv_enq s l1 ph cp l2 q ph' sent :
  key_inv s -> s_enq s = l1 ++ (ph, cp) :: l2 -> same_sched (s_q s) q -> q_ch q = q_ch (s_q s) ->
  q_inFlight q = q_inFlight (s_q s) -> holds (ph, cp) = true ->
  q_inQueue q = (if holds (ph', cp) then q_inQueue (s_q s) else q_inQueue (s_q s) ∖ {[messageKey cp]}) ->
  key_inv (s <| s_q := q |> <| s_enq := l1 ++ (ph', cp) :: l2 |> <| s_sent := sent |>).
Proof.
  intros [Hw Hn Hk] He Hs Hch Hf Hh Hq. unfold queued_msgs, running_msgs in Hk. rewrite He in Hn, Hk.
  destruct (named_mid _ _ _ _ _ Hn) as (Hcp & _ & Hn').
  constructor; cbn; [by apply (sched_wf_same (s_q s))|by rewrite Hch|].
  unfold queued_msgs, running_msgs. cbn. rewrite Hch, (proj2 (proj2 Hs)), Hf, Hq.
  rewrite enq_msgs_mid in *. rewrite Hh in Hk. destruct (holds (ph', cp)); [done|].
  apply ks_remove. key_perm Hk.
Qed.

Lemma key_inv_leave s l1 ph cp l2 q :
  key_inv s -> s_enq s = l1 ++ (ph, cp) :: l2 -> same_sched (s_q s) q -> q_ch q = q_ch (s_q s) ->
  q_inFlight q = q_inFlight (s_q s) ->
  q_inQueue q = (if holds (ph, cp) then q_inQueue (s_q s) ∖ {[messageKey cp]} else q_inQueue (s_q s)) ->
  key_inv (s <| s_q := q |> <| s_enq := l1 ++ l2 |>).
Proof.
  intros [Hw Hn Hk] He Hs Hch Hf Hq. unfold queued_msgs, running_msgs in Hk. rewrite He in Hn, Hk.
  destruct (named_mid _ _ _ _ _ Hn) as (Hcp & Hn' & _).
  constructor; cbn; [by apply (sched_wf_same (s_q s))|by rewrite Hch|].
  unfold queued_msgs, running_msgs. cbn. rewrite Hch, (proj2 (proj2 Hs)), Hf, Hq, enq_msgs_app.
  rewrite enq_msgs_mid in Hk. destruct (holds (ph, cp)); [|done]. apply ks_remove. key_perm Hk.
Qed.

(** The steps of the workers. *)
Lemma key_inv_run s l1 ph m l2 q ph' :
  key_inv s -> s_run s = l1 ++ (ph, m) :: l2 -> same_sched (s_q s) q -> q_ch q = q_ch (s_q s) ->
  q_inFlight q = q_inFlight (s_q s) -> q_inQueue q = q_inQueue (s_q s) ->
  key_inv (s <| s_q := q |> <| s_run := l1 ++ (ph', m) :: l2 |>).
Proof.
  intros [Hw Hn Hk] Hr Hs Hch Hf Hq. unfold queued_msgs, running_msgs in Hk. rewrite Hr in Hk.
  constructor; cbn; [by apply (sched_wf_same (s_q s))|by rewrite Hch|].
  unfold queued_msgs, running_msgs. cbn. rewrite Hch, (proj2 (proj2 Hs)), Hf, Hq.
  rewrite !map_app in *. done.
Qed.

Lemma key_inv_dispatch s clks q o had :
  key_inv s -> popEligibleLocked clks (s_q s) = Some (q, o, had) ->
  key_inv (s <| s_q := q |>
             <| s_run ::= (fun r => r ++ run_thread o) |>
             <| s_started ::= (fun l => l ++ option_list o) |>).
Proof.
  intros [Hw Hn Hk] Hp. unfold queued_msgs, running_msgs in Hk.
  pose proof (pop_cases _ _ _ _ _ Hw Hp) as H. destruct o as [msg|].
  - destruct H as (m & t & rest & Hpop). pose proof (popped_msgs _ _ _ _ _ _ Hpop) as Hmsgs.
    destruct Hpop as [_ _ Hw' Hq]. pose proof Hw' as Hw2. rewrite Hq in Hw2.
    constructor; cbn; [done|by rewrite Hq|].
    unfold queued_msgs, running_msgs. cbn.
    rewrite Hq. cbn. eapply ks_perm; [reflexivity| |apply ks_start; eapply ks_perm; [| |exact Hk]; [|reflexivity]].
    + rewrite !map_app. cbn. solve_Permutation.
    + rewrite Hmsgs. rewrite !map_app. cbn. solve_Permutation.
  - destruct H as (Hw' & m & Hq). constructor; cbn; [done|by rewrite Hq|].
    unfold queued_msgs, running_msgs. cbn. rewrite Hq, app_nil_r. done.
Qed.

Lemma key_inv_step s s' : key_inv s -> qstep s s' -> key_inv s'.
Proof.
  intros Hi Hstep.
  destruct Hstep as [s now msg q o Ha|s clk cp l1 l2 q r He Ht|s cp l1 l2 He|s cp l1 l2 He Hroom
    |s cp l1 l2 He|s cp l1 l2 He|s m ch Hh Hc|s m Hh|s clks q o had Hmax Hp|s clk failed m l1 l2 Hr
    |s failed m l1 l2 Hr|s now failed m l1 l2 Hr|s now m l1 l2 q o Hr Ha|s m l1 l2 Hr|s n|s m].
  - exact (key_inv_accept s now msg q o (s_retries s) Hi Ha).
  - unfold enqueue_tenant in Ht. destruct (Manager_TryEnqueue _ _ _ _) as [mg r']. injection Ht as <- <-.
    apply (key_inv_enq s l1 PTenant cp l2 _ _ (s_sent s) Hi He); try done; unfold admit_phase; by destruct (is_ok r').
  - by apply (key_inv_leave s l1 PUnmark cp l2 _ Hi He).
  - destruct Hi as [Hw Hn Hk]. unfold queued_msgs, running_msgs in Hk. rewrite He in Hn, Hk.
    destruct (named_mid _ _ _ _ _ Hn) as (Hcp & Hn' & _).
    constructor; cbn; [by apply (sched_wf_same (s_q s))| |].
    + rewrite !app_assoc in *. apply Forall_app_2; [done|by constructor].
    + unfold queued_msgs, running_msgs. cbn. rewrite enq_msgs_mid in Hk. rewrite enq_msgs_app. key_perm Hk.
  - by apply (key_inv_enq s l1 PSend cp l2 _ PCancel (s_sent s) Hi He).
  - by apply (key_inv_leave s l1 PCancel cp l2 _ Hi He).
  - destruct Hi as [Hw Hn Hk]. unfold queued_msgs, running_msgs in Hk. rewrite Hh, Hc in Hn, Hk.
    constructor; [by apply (sched_wf_same (s_q s))|done|done].
  - destruct Hi as [Hw Hn Hk]. unfold queued_msgs, running_msgs in Hk. rewrite Hh in Hn, Hk.
    apply Forall_app in Hn as [Hn1 Hn2]. apply list.Forall_cons in Hn2 as [Hm Hch].
    pose proof (ingress_filed (s_q s) m Hw Hm Hch) as [F1 _ F3 F4].
    constructor; cbn; [done| |].
    + rewrite F4. cbn. by rewrite app_nil_r.
    + unfold queued_msgs, running_msgs. cbn.
      assert (q_ch (ingress m (s_q s)) = [] /\ q_inQueue (ingress m (s_q s)) = q_inQueue (s_q s) /\
        q_inFlight (ingress m (s_q s)) = q_inFlight (s_q s)) as (-> & -> & ->) by (by rewrite F4).
      eapply ks_perm; [|reflexivity|exact Hk]. rewrite F3. rewrite !map_app. cbn. solve_Permutation.
  - by apply (key_inv_dispatch s clks q o had).
  - by apply (key_inv_run s l1 RHandler m l2 _ _ Hi Hr).
  - by apply (key_inv_run s l1 (RDead failed) m l2 _ _ Hi Hr).
  - destruct (finish_queue_frame now failed m (s_q s)) as (F1 & F2 & _ & _ & F3 & F4).
    destruct Hi as [Hw Hn Hk]. unfold queued_msgs, running_msgs in Hk. rewrite Hr in Hk.
    constructor; cbn; [by apply (sched_wf_same (s_q s))|by rewrite F2|].
    unfold queued_msgs, running_msgs. cbn. rewrite F2, F3, F4, (proj2 (proj2 F1)).
    apply ks_finish. key_perm Hk.
  - by apply (key_inv_accept s now m q o (l1 ++ l2)).
  - destruct Hi. by constructor.
  - destruct Hi. constructor; [by apply (sched_wf_same (s_q s))|done|done].
  - destruct Hi. constructor; [by apply (sched_wf_same (s_q s))|done|done].
Qed.

Lemma new_sys_wf cfg : sched_wf (s_q (new_sys cfg)).
Proof.
  constructor; cbn; [constructor|by right| |by apply map_Forall_empty].
  intros t. rewrite lookup_empty. split; [by intros ?%elem_of_nil|by intros [? ?]].
Qed.

Lemma key_inv_reach cfg s : qreach cfg s -> key_inv s.
Proof.
  induction 1 as [|s s' _ IH Hs]; [|by apply (key_inv_step s)].
  constructor; [apply new_sys_wf|by constructor|]. split; [constructor|done].
Qed.

(** ** First in, first out per tenant *)

Definition in_transit (s : QSys) : list SQSMessage := option_list (s_hand s) ++ q_ch (s_q s).

Definition fifo_inv (s : QSys) : Prop := forall t,
  of_tenant t (s_sent s) =
    of_tenant t (s_started s) ++ default [] (q_pending (s_q s) !! t) ++ of_tenant t (in_transit s).

Lemma of_tenant_app t l1 l2 : of_tenant t (l1 ++ l2) = of_tenant t l1 ++ of_tenant t l2.
Proof. unfold of_tenant. apply list.filter_app. Qed.

Lemma fifo_frame s s' :
  fifo_inv s -> s_sent s' = s_sent s -> s_started s' = s_started s -> in_transit s' = in_transit s ->
  q_pending (s_q s') = q_pending (s_q s) -> fifo_inv s'.
Proof. intros H H1 H2 H3 H4 t. rewrite H1, H2, H3, H4. apply H. Qed.

(** The queue of a tenant only holds messages of that tenant. *)
Lemma fifo_tenant s t l : fifo_inv s -> q_pending (s_q s) !! t = Some l ->
  Forall (fun m => SQSMessage_TenantID m = t) l.
Proof.
  intros H Hl. apply list.Forall_forall. intros m Hm.
  assert (Hin : m ∈ of_tenant t (s_sent s)).
  { rewrite (H t), Hl. cbn. rewrite !elem_of_app. auto. }
  unfold of_tenant in Hin. by apply list_elem_of_filter in Hin as [? _].
Qed.

Lemma fifo_dispatch s clks q o had :
  sched_wf (s_q s) -> fifo_inv s -> popEligibleLocked clks (s_q s) = Some (q, o, had) ->
  fifo_inv (s <| s_q := q |>
             <| s_run ::= (fun r => r ++ run_thread o) |>
             <| s_started ::= (fun l => l ++ option_list o) |>).
Proof.
  intros Hw Hf Hp. pose proof (pop_cases _ _ _ _ _ Hw Hp) as H. destruct o as [msg|].
  - destruct H as (m & t & rest & Hpop). pose proof (fifo_tenant s t _ Hf (po_pending _ _ _ _ _ _ Hpop)) as Ht.
    apply list.Forall_cons in Ht as [Ht _].
    intros t'. pose proof (Hf t') as Hf'. unfold in_transit in *. cbn.
    assert (q_ch q = q_ch (s_q s)) as -> by (by rewrite (po_rest _ _ _ _ _ _ Hpop)).
    rewrite of_tenant_app, Hf', <- app_assoc. f_equal. rewrite app_assoc. f_equal.
    unfold of_tenant. rewrite filter_cons, filter_nil.
    destruct (decide (t' = t)) as [->|Hne].
    + rewrite decide_True, (po_pending _ _ _ _ _ _ Hpop), (po_pending' _ _ _ _ _ _ Hpop) by done. cbn.
      destruct (decide (rest = [])) as [->|]; [by rewrite lookup_delete_eq|by rewrite lookup_insert_eq].
    + rewrite decide_False by congruence. cbn. by rewrite (popped_other _ _ _ _ _ _ _ Hpop Hne).
  - destruct H as (_ & m & Hq). intros t'. pose proof (Hf t') as Hf'. unfold in_transit in *.
    rewrite Hq. cbn. by rewrite app_nil_r.
Qed.

Lemma fifo_step s s' : key_inv s -> fifo_inv s -> qstep s s' -> fifo_inv s'.
Proof.
  intros Hi Hf Hstep.
  destruct Hstep as [s now msg q o Ha|s clk cp l1 l2 q r He Ht|s cp l1 l2 He|s cp l1 l2 He Hroom
    |s cp l1 l2 He|s cp l1 l2 He|s m ch Hh Hc|s m Hh|s clks q o had Hmax Hp|s clk failed m l1 l2 Hr
    |s failed m l1 l2 Hr|s now failed m l1 l2 Hr|s now m l1 l2 q o Hr Ha|s m l1 l2 Hr|s n|s m].
  1, 13: destruct (accept_same_sched _ _ _ _ _ Ha) as ((_ & _ & Hp) & Hch & _);
    apply (fifo_frame s); try done; unfold in_transit; cbn; by rewrite Hch.
  - unfold enqueue_tenant in Ht. destruct (Manager_TryEnqueue _ _ _ _) as [mg r']. injection Ht as <- <-.
    by apply (fifo_frame s).
  - by apply (fifo_frame s).
  - intros t. unfold in_transit. cbn. rewrite !of_tenant_app, (Hf t). unfold in_transit.
    by rewrite of_tenant_app, <- !app_assoc.
  - by apply (fifo_frame s).
  - by apply (fifo_frame s).
  - apply (fifo_frame s); try done. unfold in_transit. cbn. by rewrite Hh, Hc.
  - destruct Hi as [Hw Hn _]. rewrite Hh in Hn. apply Forall_app in Hn as [_ Hn].
    apply list.Forall_cons in Hn as [Hm Hch].
    pose proof (ingress_filed (s_q s) m Hw Hm Hch) as [_ F2 _ F4].
    intros t. unfold in_transit. cbn. rewrite F2. cbn.
    assert (q_ch (ingress m (s_q s)) = []) as -> by (by rewrite F4).
    rewrite (Hf t). unfold in_transit. rewrite Hh. cbn. by rewrite app_nil_r.
  - apply (fifo_dispatch s clks q o had); [apply Hi|done|done].
  - by apply (fifo_frame s).
  - by apply (fifo_frame s).
  - destruct (finish_queue_frame now failed m (s_q s)) as (F1 & F2 & _).
    apply (fifo_frame s); try done; unfold in_transit; cbn; [by rewrite F2|apply F1].
  - by apply (fifo_frame s).
  - by apply (fifo_frame s).
  - by apply (fifo_frame s).
Qed.

(** ** The running limit of a tenant *)

Definition running (t : string) (m : Manager) : Z := ts_running (stateLocked t m).

Definition mgr_ok (m : Manager) : Prop := forall t,
  policy_ok (policyLocked t m) /\ tenant_inv (policyLocked t m) (stateLocked t m).

(** Every manager call is an operation on one tenant. *)
Definition mgr_exec (t : string) (o : tenant_op) (m : Manager) : Manager :=
  put_state t (tenant_exec (policyLocked t m) t o (stateLocked t m)).1 m.

Lemma mgr_exec_ok t o m : mgr_ok m -> mgr_ok (mgr_exec t o m).
Proof.
  intros H t'. unfold mgr_exec. rewrite policyLocked_put, stateLocked_put.
  destruct (H t') as [Hp Hi]. split; [done|]. case_decide; [|done]. subst. by apply inv_exec.
Qed.

Lemma TryEnqueue_exec clk t info m :
  Manager_TryEnqueue clk t info m =
    (mgr_exec t (TTryEnqueue clk info) m, (tenant_exec (policyLocked t m) t (TTryEnqueue clk info) (stateLocked t m)).2).
Proof. unfold Manager_TryEnqueue, mgr_exec. cbn. by destruct (tryEnqueue _ _ _ _ _). Qed.

Lemma TryStartRun_exec clk t m :
  Manager_TryStartRun clk t m =
    (mgr_exec t (TTryStartRun clk) m, (tenant_exec (policyLocked t m) t (TTryStartRun clk) (stateLocked t m)).2).
Proof. unfold Manager_TryStartRun, mgr_exec. cbn. by destruct (tryStartRun _ _ _ _). Qed.

Lemma emitAlert_running clk t ty msg c :
  ts_running (emitAlertLocked clk t ty msg c).1 = ts_running c.1.
Proof. by rewrite emitAlert_fst. Qed.

Lemma openBreaker_running clk t reason c :
  ts_running (openBreakerLocked clk t reason c).1 = ts_running c.1.
Proof.
  unfold openBreakerLocked. destruct c as [st n]. case_if; [done|]. by rewrite emitAlert_running.
Qed.

Lemma recover_running clk pol t now c :
  ts_running (maybeRecoverBreakerLocked clk pol t now c).1 = ts_running c.1.
Proof.
  unfold maybeRecoverBreakerLocked. destruct c as [st n]. do 2 (case_if; [done|]). case_if; [|done].
  by rewrite emitAlert_running.
Qed.

Lemma release_running key st : ts_running (release_reservation key st) = ts_running st.
Proof. unfold release_reservation. repeat (split_match; try done). Qed.

Lemma tryEnqueue_running clk pol t info st :
  ts_running (tryEnqueue clk pol t info st).1.1 = ts_running st.
Proof.
  unfold tryEnqueue. cbn zeta. pose proof (recover_running clk pol t (clk 0%nat) (st, 1%nat)) as H.
  destruct (maybeRecoverBreakerLocked _ _ _ _ _) as [st1 n1]. cbn in H |- *.
  case_if; [done|]. do 2 (case_if; [cbn; by rewrite emitAlert_running|]).
  do 2 (case_if; [cbn; by rewrite openBreaker_running|]). cbn.
  rewrite emitBudgetAlerts_fst. cbn.
  assert (Ha : forall st, ts_running (accept_message info (clk 0%nat) st) = ts_running st)
    by (intros st0; unfold accept_message; cbn zeta; repeat (split_match; try done)).
  case_if; [rewrite emitAlert_running|]; cbn; by rewrite Ha.
Qed.

Lemma tryStartRun_running clk pol t st :
  0 < Policy_MaxRunning pol ->
  let '(c, r) := tryStartRun clk pol t st in
  if is_ok r then ts_running st < Policy_MaxRunning pol /\ ts_running c.1 = add64 (ts_running st) 1
  else ts_running c.1 = ts_running st.
Proof.
  intros Hm. unfold tryStartRun. cbn zeta.
  pose proof (recover_running clk pol t (clk 0%nat) (st, 1%nat)) as H.
  destruct (maybeRecoverBreakerLocked _ _ _ _ _) as [st1 n1]. cbn in H |- *. rewrite <- H.
  destruct (ts_breakerState st1) eqn:Eb; [|done|case_if; [done|]]; cbn.
  all: case_if as E; cbn; [repeat case_if; done|].
  all: split; [apply andb_false_iff in E; destruct E; bool_prop; lia|].
  all: by case_if.
Qed.

Lemma completeRun_running clk pol t info st :
  ts_running (completeRun clk pol t info st).1 =
    if 0 <? ts_running st then sub64 (ts_running st) 1 else ts_running st.
Proof.
  unfold completeRun. cbn zeta. rewrite emitBudgetAlerts_fst. cbn.
  assert (Hs : ts_running (settle info st) =
    if 0 <? ts_running st then sub64 (ts_running st) 1 else ts_running st).
  { unfold settle. cbn zeta. case_if; cbn; rewrite release_running; by case_if. }
  rewrite <- Hs.
  set (c1 := if CompletionInfo_Failed info then _ else _).
  assert (H1 : ts_running c1.1 = ts_running (settle info st)).
  { unfold c1. case_if.
    - unfold complete_failed. cbn. case_if; [rewrite emitAlert_running|]; (case_if; [rewrite openBreaker_running|]); done.
    - unfold complete_ok. cbn. case_if; [rewrite emitAlert_running|]; done. }
  clearbody c1. case_if; [rewrite openBreaker_running|]; done.
Qed.

(** How an operation changes the running count of its tenant. *)
Lemma exec_running t o m :
  mgr_ok m ->
  running t (mgr_exec t o m) =
    match o with
    | TTryStartRun _ =>
        if is_ok (tenant_exec (policyLocked t m) t o (stateLocked t m)).2 then running t m + 1 else running t m
    | TCompleteRun _ _ => Z.max 0 (running t m - 1)
    | _ => running t m
    end.
Proof.
  intros Hm. destruct (Hm t) as [(HR & _) [Hr _ _ _ _ _]].
  unfold running, mgr_exec. rewrite stateLocked_put, decide_True by done.
  destruct o; cbn.
  - pose proof (tryEnqueue_running clk (policyLocked t m) t info (stateLocked t m)) as H.
    by destruct (tryEnqueue _ _ _ _ _).
  - pose proof (tryStartRun_running clk (policyLocked t m) t (stateLocked t m) ltac:(lia)) as H.
    destruct (tryStartRun _ _ _ _) as [c r]. cbn. destruct (is_ok r); [|done].
    destruct H as [H1 ->]. apply add64_id. unfold_int64. lia.
  - rewrite completeRun_running. case_if as E; bool_prop; [rewrite sub64_id by (unfold_int64; lia)|]; lia.
  - unfold cancelEnqueue. cbn zeta. rewrite release_running. by case_if.
  - unfold markDeadLetter. by rewrite release_running.
Qed.

Lemma exec_running_other t t' o m : t' <> t -> running t' (mgr_exec t o m) = running t' m.
Proof. intros H. unfold running, mgr_exec. by rewrite stateLocked_put, decide_False. Qed.

Lemma scan_running clks r : forall k m m' res,
  mgr_ok m -> ring_scan clks k r m = (m', res) ->
  mgr_ok m' /\
  match res with
  | None => forall t, running t m' = running t m
  | Some j => exists i t, j = (k + i)%nat /\ r !! i = Some t /\
      forall t', running t' m' = running t' m + if decide (t' = t) then 1 else 0
  end.
Proof.
  induction r as [|t0 r IH]; intros k m m' res Hm H; cbn in H; [by injection H as <- <-|].
  rewrite TryStartRun_exec in H. pose proof (exec_running t0 (TTryStartRun (clks k)) m Hm) as Hr.
  pose proof (mgr_exec_ok t0 (TTryStartRun (clks k)) m Hm) as Hm'.
  destruct (tenant_exec _ _ _ _).2 as [[]|e]; cbn in Hr.
  - injection H as <- <-. split; [done|]. exists 0%nat, t0. split; [lia|]. split; [done|].
    intros t'. case_decide as E; [by subst|]. rewrite exec_running_other by done. lia.
  - destruct (IH _ _ _ _ Hm' H) as [Hm2 H2]. split; [done|].
    assert (Hsame : forall t, running t (mgr_exec t0 (TTryStartRun (clks k)) m) = running t m).
    { intros t. destruct (decide (t = t0)) as [->|]; [done|]. by apply exec_running_other. }
    destruct res as [j|].
    + destruct H2 as (i & t & -> & Hi & H2). exists (S i), t. split; [lia|]. split; [done|].
      intros t'. by rewrite H2, Hsame.
    + intros t. by rewrite H2.
Qed.

(** The messages of [t] whose handler runs. *)
Definition handles (t : string) (r : run_phase * SQSMessage) : bool :=
  match r.1 with RHandler => bool_decide (SQSMessage_TenantID r.2 = t) | _ => false end.

Definition handling (t : string) (s : QSys) : Z := Z.of_nat (length (List.filter (handles t) (s_run s))).

Record run_inv (s : QSys) : Prop := {
  ri_mgr : mgr_ok (q_tenants (s_q s));
  ri_count : forall t, running t (q_tenants (s_q s)) = handling t s;
}.

Lemma run_inv_exec s s' t o :
  run_inv s -> s_run s' = s_run s -> q_tenants (s_q s') = mgr_exec t o (q_tenants (s_q s)) ->
  match o with TTryStartRun _ | TCompleteRun _ _ => False | _ => True end -> run_inv s'.
Proof.
  intros [Hm Hc] Hr Hq Ho. constructor; rewrite Hq; [by apply mgr_exec_ok|].
  intros t'. assert (handling t' s' = handling t' s) as -> by (unfold handling; by rewrite Hr).
  rewrite <- Hc.
  destruct (decide (t' = t)) as [->|]; [|by apply exec_running_other].
  rewrite exec_running by done. by destruct o.
Qed.

Lemma run_inv_frame s s' :
  run_inv s -> q_tenants (s_q s') = q_tenants (s_q s) ->
  (forall t, handling t s' = handling t s) -> run_inv s'.
Proof. intros [Hm Hc] Hq Hh. constructor; rewrite Hq; [done|]. intros t. by rewrite Hh. Qed.

Lemma run_inv_dispatch s clks q o had :
  sched_wf (s_q s) -> fifo_inv s -> run_inv s -> popEligibleLocked clks (s_q s) = Some (q, o, had) ->
  run_inv (s <| s_q := q |>
             <| s_run ::= (fun r => r ++ run_thread o) |>
             <| s_started ::= (fun l => l ++ option_list o) |>).
Proof.
  intros Hw Hf [Hm Hc] Hp. pose proof (pop_spec clks (s_q s) Hw) as H.
  destruct (ring_scan clks 0 (ring (s_q s)) (q_tenants (s_q s))) as [m res] eqn:Es.
  destruct (scan_running _ _ _ _ _ _ Hm Es) as [Hm' Hres]. destruct res as [j|].
  - destruct H as (t & msg & rest & q2 & Ht & Hq2 & Hpop & _). rewrite Hq2 in Hp. injection Hp as <- <- <-.
    destruct Hres as (i & t2 & -> & Ht2 & Hrun). cbn in Ht. rewrite Ht in Ht2. injection Ht2 as <-.
    pose proof (fifo_tenant s t _ Hf (po_pending _ _ _ _ _ _ Hpop)) as Htm.
    apply list.Forall_cons in Htm as [Htm _].
    assert (Hq : q_tenants q2 = m) by (by rewrite (po_rest _ _ _ _ _ _ Hpop)).
    constructor; cbn; rewrite Hq; [done|]. intros t'. rewrite Hrun, Hc. unfold handling. cbn.
    rewrite List.filter_app, length_app, Nat2Z.inj_add. f_equal. cbn. unfold handles. cbn. rewrite Htm.
    destruct (decide (t' = t)) as [->|]; [by rewrite bool_decide_true|].
    by rewrite bool_decide_false by congruence.
  - destruct H as (q2 & b & Hq2 & _ & _ & Heq). rewrite Hq2 in Hp. injection Hp as <- <- <-.
    assert (Hq : q_tenants q2 = m) by (by rewrite Heq).
    constructor; cbn; rewrite Hq; [done|]. intros t'. rewrite Hres, Hc. unfold handling. cbn.
    by rewrite app_nil_r.
Qed.

Lemma handling_mid t s l1 r l2 :
  s_run s = l1 ++ r :: l2 ->
  handling t s = Z.of_nat (length (List.filter (handles t) (l1 ++ l2))) + if handles t r then 1 else 0.
Proof.
  intros H. unfold handling. rewrite H, !List.filter_app, !length_app. cbn. destruct (handles t r); cbn; lia.
Qed.

Lemma run_inv_step s s' : key_inv s -> fifo_inv s -> run_inv s -> qstep s s' -> run_inv s'.
Proof.
  intros Hi Hf Hrun Hstep.
  destruct Hstep as [s now msg q o Ha|s clk cp l1 l2 q r He Ht|s cp l1 l2 He|s cp l1 l2 He Hroom
    |s cp l1 l2 He|s cp l1 l2 He|s m ch Hh Hc|s m Hh|s clks q o had Hmax Hp|s clk failed m l1 l2 Hr
    |s failed m l1 l2 Hr|s now failed m l1 l2 Hr|s now m l1 l2 q o Hr Ha|s m l1 l2 Hr|s n|s m];
    try by apply (run_inv_frame s).
  1, 9: destruct (accept_same_sched _ _ _ _ _ Ha) as (_ & _ & _ & Hq & _); by apply (run_inv_frame s).
  - unfold enqueue_tenant in Ht. rewrite TryEnqueue_exec in Ht. injection Ht as <- <-.
    by eapply (run_inv_exec s); [done|reflexivity|reflexivity|].
  - by apply (run_inv_exec s _ (SQSMessage_TenantID cp) (TCancelEnqueue (messageKey cp)) Hrun).
  - destruct Hi as [Hw Hn _]. rewrite Hh in Hn. apply Forall_app in Hn as [_ Hn].
    apply list.Forall_cons in Hn as [Hm Hch].
    pose proof (ingress_filed (s_q s) m Hw Hm Hch) as [_ _ _ F4].
    apply (run_inv_frame s); [done| |done]. cbn. by rewrite F4.
  - apply (run_inv_dispatch s clks q o had); [apply Hi|done..].
  - destruct Hrun as [Hm Hc]. constructor; cbn; [by apply (mgr_exec_ok _ (TCompleteRun clk _))|].
    intros t. set (s' := s <| s_q ::= _ |> <| s_run := _ |>).
    rewrite (handling_mid t s' l1 _ l2 eq_refl).
    pose proof (Hc t) as Hct. rewrite (handling_mid t s l1 _ l2 Hr) in Hct.
    assert (handles t (finish_phase failed m (s_q s), m) = false) as ->
      by (unfold finish_phase; by destruct (finalFailure failed m (s_q s))).
    change (handles t (RHandler, m)) with (bool_decide (SQSMessage_TenantID m = t)) in Hct.
    match goal with |- running t (Manager_CompleteRun clk ?tt ?ii ?mm) = _ =>
      change (running t (mgr_exec tt (TCompleteRun clk ii) mm) = Z.of_nat (length (List.filter (handles t) (l1 ++ l2))) + 0) end.
    destruct (decide (SQSMessage_TenantID m = t)) as [<-|Hne].
    + rewrite exec_running by done. rewrite bool_decide_true in Hct by done. lia.
    + rewrite exec_running_other by congruence. rewrite bool_decide_false in Hct by done. lia.
  - assert (Hd : run_inv (s <| s_q ::= finish_dead m |>)).
    { by apply (run_inv_exec s _ (SQSMessage_TenantID m) (TMarkDeadLetter (messageKey m)) Hrun). }
    apply (run_inv_frame _ _ Hd); [done|]. intros t. unfold handling. cbn.
    by rewrite Hr, !List.filter_app.
  - destruct (finish_queue_frame now failed m (s_q s)) as (_ & _ & _ & F & _).
    apply (run_inv_frame s); [done|done|]. intros t.
    rewrite (handling_mid t s l1 (RFinish failed, m) l2 Hr). unfold handling. cbn. lia.
Qed.

Lemma fifo_reach cfg s : qreach cfg s -> fifo_inv s.
Proof.
  induction 1 as [|s s' Hr IH Hs]; [by intros t|]. apply (fifo_step s); [by apply (key_inv_reach cfg)|done|done].
Qed.

Lemma mgr_ok_new p :
  Policy_MaxRunning p <= max_int64 -> Policy_MaxQueued p <= max_int64 -> mgr_ok (NewManager p).
Proof.
  intros HR HQ t. unfold policyLocked, stateLocked. cbn. rewrite !lookup_empty. cbn.
  pose proof (normalizePolicy_ok p HR HQ). split; [done|by apply inv_new].
Qed.

Lemma run_inv_reach cfg p s :
  Policy_MaxRunning p <= max_int64 -> Policy_MaxQueued p <= max_int64 ->
  cfg_TenantManager cfg = Some (NewManager p) -> qreach cfg s -> run_inv s.
Proof.
  intros HR HQ Hc. induction 1 as [|s s' Hr IH Hs].
  - assert (q_tenants (s_q (new_sys cfg)) = NewManager p) as Hq.
    { unfold new_sys, NewMemoryQueueWithConfig. cbn. repeat case_if; cbn; by rewrite Hc. }
    constructor; rewrite Hq; [by apply mgr_ok_new|done].
  - apply (run_inv_step s); [by apply (key_inv_reach cfg)|by apply (fifo_reach cfg)|done|done].
Qed.

(** ** Branches of the sequential calls *)

Lemma filter_recent_lookup now w (r : gmap string Time) k ts :
  r !! k = Some ts -> time_Sub now ts <= w ->
  filter (fun kt : string * Time => ~ (w < time_Sub now kt.2)) r !! k = Some ts.
Proof. intros H Hw. apply map_lookup_filter_Some. split; [done|]. cbn. lia. Qed.

Lemma Enqueue_recent now clk sent msg q ts :
  q_recent q !! messageKey (enqueue_copy msg) = Some ts ->
  time_Sub now ts <= cfg_DedupeWindow (q_cfg q) ->
  Enqueue now clk sent (Some msg) q = (pruneRecentLocked now q, Ok tt).
Proof.
  intros Hr Hw. unfold Enqueue, enqueue_accept. cbn zeta.
  case_if; [done|]. case_if; [done|].
  unfold pruneRecentLocked at 1. cbn.
  rewrite (filter_recent_lookup now (cfg_DedupeWindow (q_cfg q)) _ _ ts) by done.
  by rewrite (proj2 (Z.leb_le _ _)) by done.
Qed.

Lemma Enqueue_dlq now clk sent msg q : q_dlq (Enqueue now clk sent msg q).1 = q_dlq q.
Proof.
  unfold Enqueue. destruct msg as [msg|]; [|done].
  destruct (enqueue_accept now msg q) as [q1 o] eqn:Ha.
  destruct (accept_same_sched _ _ _ _ _ Ha) as (_ & _ & _ & _ & _ & Hd & _).
  destruct o as [cp|]; [|done]. unfold enqueue_tenant. destruct (Manager_TryEnqueue _ _ _ _) as [m [u|e]]; [|done].
  by case_if.
Qed.

(** The key of a copy is stable, so a dead letter is recognised by its key. *)
Lemma copy_key m : messageKey (enqueue_copy m) = messageKey m.
Proof.
  unfold messageKey, enqueue_copy. destruct (SQSMessage_Attempt m <=? 0); cbn; by rewrite normalize_idemp.
Qed.

(** ** Properties *)

(** C22: No message is delivered twice at the same time: in every interleaving of callers,
    ingress loop, workers, retries and redrives, the keys of the messages that are waiting
    (marked by a caller, in the channel, in the ingress loop or pending) or running are
    pairwise distinct, and the queue's two sets are exactly these keys. *)
Theorem queue_exclusive cfg s :
  qreach cfg s ->
  NoDup (map messageKey (queued_msgs s ++ running_msgs s)) /\
  q_inQueue (s_q s) = list_to_set (map messageKey (queued_msgs s)) /\
  q_inFlight (s_q s) = list_to_set (map messageKey (running_msgs s)).
Proof.
  intros H. destruct (key_inv_reach cfg s H) as [_ _ (H1 & H2 & H3)]. by rewrite map_app.
Qed.

(** C23: Each tenant's messages are dispatched in the order in which they were sent, without
    loss or duplication between the channel and the workers: the messages of a tenant sent so
    far are those started, then those pending, then those in the ingress loop and the channel. *)
Theorem tenant_fifo cfg s t :
  qreach cfg s ->
  of_tenant t (s_sent s) =
    of_tenant t (s_started s) ++ default [] (q_pending (s_q s) !! t) ++ of_tenant t (in_transit s).
Proof. intros H. by apply (fifo_reach cfg). Qed.

(** C24: The queue enforces the tenant's concurrency limit: when its manager was created for it
    by NewManager, the number of a tenant's messages whose handler is running equals the
    manager's running count and never exceeds the policy's [MaxRunning]. *)
Theorem tenant_concurrency cfg p s t :
  Policy_MaxRunning p <= max_int64 -> Policy_MaxQueued p <= max_int64 ->
  cfg_TenantManager cfg = Some (NewManager p) -> qreach cfg s ->
  running t (q_tenants (s_q s)) = handling t s /\
  handling t s <= Policy_MaxRunning (policyLocked t (q_tenants (s_q s))).
Proof.
  intros HR HQ Hc Hs. destruct (run_inv_reach cfg p s HR HQ Hc Hs) as [Hm Hcnt].
  split; [done|]. rewrite <- Hcnt. apply (Hm t).
Qed.

(** C25: [popEligibleLocked] terminates within its fuel and implements the ring scheduler: it asks
    the manager for each tenant once, in ring order from [nextTenant]; the first admitted
    tenant's oldest message is moved from queued to in flight and the tenant goes to the end of
    the ring (or leaves it when it has no more messages); when every tenant is refused only the
    manager's state has changed. *)
Theorem pop_refines_ring cfg s clks :
  qreach cfg s ->
  let q := s_q s in
  match ring_scan clks 0 (ring q) (q_tenants q) with
  | (m, None) => exists q' had, popEligibleLocked clks q = Some (q', None, had) /\
      ring q' = ring q /\ sched_wf q' /\ q' = q <| q_tenants := m |> <| q_nextTenant := q_nextTenant q' |>
  | (m, Some j) => exists t msg rest q',
      ring q !! j = Some t /\ popEligibleLocked clks q = Some (q', Some msg, true) /\
      popped q m t msg rest q' /\
      ring q' = drop (S j) (ring q) ++ take j (ring q) ++ (if decide (rest = []) then [] else [t])
  end.
Proof. intros H. apply pop_spec, (key_inv_reach cfg s H). Qed.

(** C26: Round-robin fairness: a tenant at position [i] of the ring whose breaker is closed and which
    is below its running limit has its oldest message dispatched within the next [i + 1] pops,
    all of which return a message, whatever the other tenants do. *)
Theorem round_robin_fair cfg s i cs t msg rest :
  qreach cfg s -> ring (s_q s) !! i = Some t -> q_pending (s_q s) !! t = Some (msg :: rest) ->
  startable t (q_tenants (s_q s)) -> length cs = S i ->
  exists k, (k <= i)%nat /\ pops cs (s_q s) !! k = Some (Some msg) /\
    forall j, (j < k)%nat -> exists m, pops cs (s_q s) !! j = Some (Some m).
Proof. intros H. apply fair_pops, (key_inv_reach cfg s H). Qed.

(** The outcome of an attempt: a failure at the last attempt puts the message in the dead-letter
    queue and schedules nothing; an earlier failure leaves the dead-letter queue alone and
    schedules the same message with the next attempt number after a positive delay; success does
    neither.  In all cases the message is no longer in flight, and unless it will be retried its
    key is remembered with the time of completion. *)
Theorem finishAttempt_outcome clk now failed msg q :
  0 < cfg_RetryBackoff (q_cfg q) -> 0 <= cfg_DedupeWindow (q_cfg q) ->
  1 <= SQSMessage_Attempt msg < max_int64 ->
  let final := failed && (cfg_MaxAttempts (q_cfg q) <=? SQSMessage_Attempt msg) in
  let '(q', retry) := finishAttempt clk now failed msg q in
  messageKey msg ∉ q_inFlight q' /\
  q_dlq q' = q_dlq q ++ (if final then [msg] else []) /\
  (negb failed || final = true -> q_recent q' !! messageKey msg = Some now /\ retry = None) /\
  (failed && negb final = true -> exists delay, 0 < delay /\
     retry = Some (msg <| SQSMessage_Attempt := SQSMessage_Attempt msg + 1 |>, delay)).
Proof.
  intros HB HW HA final. unfold finishAttempt. set (q1 := finish_tenant clk failed msg q).
  assert (Hfin : forall q', q_cfg q' = q_cfg q -> finalFailure failed msg q' = final)
    by (intros q' Hq'; unfold finalFailure, final; by rewrite Hq').
  set (q2 := if finalFailure failed msg q1 then finish_dead msg q1 else q1).
  assert (H2 : q_cfg q2 = q_cfg q /\ q_dlq q2 = q_dlq q) by (unfold q2; by case_if).
  destruct H2 as [Hc2 Hd2]. clearbody q2.
  unfold finish_queue, finish_retry. cbn zeta. rewrite !Hfin by done. rewrite Hc2. split.
  { destruct final; cbn; case_if; cbn; set_solver. }
  split; [destruct final; cbn; case_if; cbn; rewrite ?Hd2, ?app_nil_r; done|].
  assert (Hnow : time_Sub now now <= cfg_DedupeWindow (q_cfg q))
    by (unfold time_Sub; rewrite Z.sub_diag; unfold min_int64, max_int64; lia).
  split.
  - intros Hf. rewrite Hf. split; [|done].
    destruct final; cbn; apply filter_recent_lookup; rewrite ?Hc2; try apply lookup_insert_eq; done.
  - intros Hf. apply andb_true_iff in Hf as [-> Hf]. rewrite (proj1 (negb_true_iff _) Hf).
    cbn [negb orb].
    assert (msg <| SQSMessage_Attempt ::= (fun a => add64 a 1) |> =
            msg <| SQSMessage_Attempt := SQSMessage_Attempt msg + 1 |>) as ->
      by (unfold upd; by rewrite add64_id by (unfold_int64; lia)).
    case_if as E; bool_prop; eexists; (split; [|reflexivity]); [done|lia].
Qed.

(** When re-enqueueing fails, RedriveDeadLetters puts back only the message that failed: the
    rest of the batch, already removed from the dead-letter queue, is dropped. *)
Theorem redrive_loses_rest env q m rest q1 e :
  q_dlq q = m :: rest ->
  (let '(now, clk, sent) := env 0%nat in
   Enqueue now clk sent (Some (m <| SQSMessage_Attempt := 1 |>)) (q <| q_dlq := [] |>)) = (q1, Err e) ->
  RedriveDeadLetters env 0 q = (q1 <| q_dlq := [m <| SQSMessage_Attempt := 1 |>] |>, 0, Some e).
Proof.
  intros Hd He. unfold RedriveDeadLetters. rewrite Hd. cbn [Z.leb Z.compare orb]. rewrite Nat2Z.id.
  assert (q <| q_dlq ::= drop (length (m :: rest)) |> = q <| q_dlq := [] |>) as ->
    by (unfold upd; by rewrite Hd, drop_ge by done).
  rewrite take_ge by done. cbn [redrive]. destruct (env 0%nat) as [[now clk] sent].
  pose proof (Enqueue_dlq now clk sent (Some (m <| SQSMessage_Attempt := 1 |>)) (q <| q_dlq := [] |>)) as Hq.
  rewrite He in *. cbn in Hq. do 2 f_equal. unfold upd. by rewrite Hq.
Qed.

(** A dead letter redriven while its key is still remembered is lost: RedriveDeadLetters
    reports it as re-enqueued, but it is neither in the channel nor in the dead-letter queue
    (finishAttempt remembers the key of a dead letter for [DedupeWindow]). *)
Theorem redrive_deduped_lost env q m ts :
  q_dlq q = [m] -> q_recent q !! messageKey m = Some ts ->
  time_Sub (env 0%nat).1.1 ts <= cfg_DedupeWindow (q_cfg q) ->
  exists q', RedriveDeadLetters env 0 q = (q', 1, None) /\
    q_dlq q' = [] /\ q_ch q' = q_ch q /\ q_pending q' = q_pending q.
Proof.
  intros Hd Hr Hw. unfold RedriveDeadLetters. rewrite Hd. cbn [Z.leb Z.compare orb]. rewrite Nat2Z.id.
  rewrite take_ge by done. cbn [redrive length]. destruct (env 0%nat) as [[now clk] sent]. cbn in Hw. eexists.
  rewrite (Enqueue_recent _ _ _ _ _ ts); [|by rewrite copy_key|done].
  split; [done|]. cbn. by rewrite Hd.
Qed.

(** ** Executable schedules

    A schedule names the goroutine that moves; [qexec] performs its step, [None] when
    that goroutine cannot move. *)

Inductive qevent : Type :=
| EAccept (now : Time) (msg : SQSMessage)
| ETenant (i : nat) (clk : nat -> Time)
| EUnmark (i : nat)
| ESend (i : nat)
| EReceive
| EIngress
| EDispatch (clks : nat -> nat -> Time)
| EComplete (i : nat) (clk : nat -> Time) (failed : bool)
| EDead (i : nat)
| EFinish (i : nat) (now : Time)
| ERetry (i : nat) (now : Time).

Definition replace_at {A} (i : nat) (l r : list A) : list A := take i l ++ r ++ drop (S i) l.

Definition qexec (e : qevent) (s : QSys) : option QSys :=
  match e with
  | EAccept now msg =>
      let '(q, o) := enqueue_accept now msg (s_q s) in
      Some (s <| s_q := q |> <| s_enq ::= (fun e => e ++ new_thread o) |>)
  | ETenant i clk =>
      match s_enq s !! i with
      | Some (PTenant, cp) =>
          let '(q, r) := enqueue_tenant clk cp (s_q s) in
          Some (s <| s_q := q |> <| s_enq ::= (fun l => replace_at i l [(admit_phase r, cp)]) |>)
      | _ => None
      end
  | EUnmark i =>
      match s_enq s !! i with
      | Some (PUnmark, cp) => Some (s <| s_q ::= enqueue_unmark cp |> <| s_enq ::= (fun l => replace_at i l []) |>)
      | _ => None
      end
  | ESend i =>
      match s_enq s !! i with
      | Some (PSend, cp) =>
          if Z.of_nat (length (q_ch (s_q s))) <? cfg_BufferSize (q_cfg (s_q s))
          then Some (s <| s_q ::= enqueue_send cp |> <| s_enq ::= (fun l => replace_at i l []) |>
                       <| s_sent ::= (fun l => l ++ [cp]) |>)
          else None
      | _ => None
      end
  | EReceive =>
      match s_hand s, q_ch (s_q s) with
      | None, m :: ch => Some (s <| s_q ::= (fun q => q <| q_ch := ch |>) |> <| s_hand := Some m |>)
      | _, _ => None
      end
  | EIngress =>
      match s_hand s with
      | Some m => Some (s <| s_q ::= ingress m |> <| s_hand := None |>)
      | None => None
      end
  | EDispatch clks =>
      if Z.of_nat (length (s_run s)) <? cfg_MaxWorkers (q_cfg (s_q s)) then
        match popEligibleLocked clks (s_q s) with
        | Some (q, o, _) =>
            Some (s <| s_q := q |>
                    <| s_run ::= (fun r => r ++ run_thread o) |>
                    <| s_started ::= (fun l => l ++ option_list o) |>)
        | None => None
        end
      else None
  | EComplete i clk failed =>
      match s_run s !! i with
      | Some (RHandler, m) =>
          Some (s <| s_q ::= finish_tenant clk failed m |>
                  <| s_run ::= (fun l => replace_at i l [(finish_phase failed m (s_q s), m)]) |>)
      | _ => None
      end
  | EDead i =>
      match s_run s !! i with
      | Some (RDead failed, m) =>
          Some (s <| s_q ::= finish_dead m |> <| s_run ::= (fun l => replace_at i l [(RFinish failed, m)]) |>)
      | _ => None
      end
  | EFinish i now =>
      match s_run s !! i with
      | Some (RFinish failed, m) =>
          Some (s <| s_q ::= finish_queue now failed m |> <| s_run ::= (fun l => replace_at i l []) |>
                  <| s_retries ::= (fun l => l ++ option_list (fst <$> finish_retry failed m (s_q s))) |>)
      | _ => None
      end
  | ERetry i now =>
      match s_retries s !! i with
      | Some m =>
          let '(q, o) := enqueue_accept now m (s_q s) in
          Some (s <| s_q := q |> <| s_enq ::= (fun e => e ++ new_thread o) |>
                  <| s_retries ::= (fun l => replace_at i l []) |>)
      | None => None
      end
  end.

Fixpoint qexecs (es : list qevent) (s : QSys) : option QSys :=
  match es with
  | [] => Some s
  | e :: es' => s' ← qexec e s; qexecs es' s'
  end.

Lemma split_at {A} (l : list A) i x : l !! i = Some x -> l = take i l ++ x :: drop (S i) l.
Proof. intros H. symmetry. by apply take_drop_middle. Qed.

Lemma qexec_sound e s s' : qexec e s = Some s' -> qstep s s'.
Proof.
  destruct e; cbn; intros H; repeat (split_match_in H); try discriminate; injection H as <-; bool_prop;
    repeat match goal with H : ?l !! ?i = Some _ |- _ => apply split_at in H end.
  - by eapply q_accept.
  - by eapply q_tenant.
  - by apply q_unmark.
  - by apply q_send.
  - by apply q_receive.
  - by apply q_ingress.
  - by eapply q_dispatch.
  - by apply q_complete.
  - by apply q_dead.
  - by apply q_finish.
  - by eapply q_retry.
Qed.

Lemma qexecs_reach cfg es : forall s s', qreach cfg s -> qexecs es s = Some s' -> qreach cfg s'.
Proof.
  induction es as [|e es IH]; cbn; intros s s' Hr H; [by injection H as <-|].
  destruct (qexec e s) as [s1|] eqn:E; cbn in H; [|done].
  apply (IH s1); [|done]. apply (qreach_step cfg s s1 Hr). by apply (qexec_sound e).
Qed.

(** *** Witnesses *)

Definition demo_msg (tenant run : string) : SQSMessage :=
  mkSQSMessage tenant "task" run "" 0 0 "" 10 f_zero.

Definition demo_cfg : MemoryQueueConfig :=
  mkMemoryQueueConfig 4 2 3 0 0 (Some (NewManager (mkPolicy 1 8 10 1 (30 * Second) 0 f_zero 0 0 f_zero))).

Definition demo_time (s : Z) : Time := s * Second.
Definition demo_clks (n m : nat) : Time := demo_time 1 + Z.of_nat (n + m).

(** Three messages of two tenants are accepted and filed; one starts. *)
Definition demo_schedule : list qevent :=
  let enq m := [EAccept (demo_time 1) m; ETenant 0 (demo_clks 0); ESend 0] in
  enq (demo_msg "a" "r1") ++ enq (demo_msg "a" "r2") ++ enq (demo_msg "b" "r3")
  ++ [EAccept (demo_time 1) (demo_msg "a" "r1"); EReceive; EIngress; EDispatch demo_clks].

Definition demo_sys : QSys := default (new_sys demo_cfg) (qexecs demo_schedule (new_sys demo_cfg)).

Lemma demo_sys_reach : qreach demo_cfg demo_sys.
Proof.
  unfold demo_sys. destruct (qexecs demo_schedule (new_sys demo_cfg)) as [s|] eqn:E; cbn.
  - apply (qexecs_reach _ demo_schedule (new_sys demo_cfg)); [apply qreach_new|exact E].
  - apply qreach_new.
Qed.

Lemma queue_exclusive_witness :
  NoDup (map messageKey (queued_msgs demo_sys ++ running_msgs demo_sys)) /\
  length (queued_msgs demo_sys) = 2%nat /\ length (running_msgs demo_sys) = 1%nat.
Proof. split; [apply (queue_exclusive demo_cfg demo_sys demo_sys_reach)|vm_compute; done]. Defined.

Lemma tenant_fifo_witness :
  of_tenant "a" (s_sent demo_sys) =
    of_tenant "a" (s_started demo_sys) ++ default [] (q_pending (s_q demo_sys) !! "a")
    ++ of_tenant "a" (in_transit demo_sys) /\
  length (of_tenant "a" (s_sent demo_sys)) = 2%nat.
Proof. split; [apply (tenant_fifo demo_cfg demo_sys "a" demo_sys_reach)|vm_compute; done]. Defined.

Lemma tenant_concurrency_witness :
  handling "a" demo_sys <= Policy_MaxRunning (policyLocked "a" (q_tenants (s_q demo_sys))) /\
  handling "a" demo_sys = 1.
Proof.
  split; [|vm_compute; done].
  apply (tenant_concurrency demo_cfg (mkPolicy 1 8 10 1 (30 * Second) 0 f_zero 0 0 f_zero) demo_sys "a");
    [vm_compute; discriminate|vm_compute; discriminate|reflexivity|apply demo_sys_reach].
Defined.

Lemma pop_refines_ring_witness :
  exists t msg rest q',
    ring (s_q demo_sys) !! 0%nat = Some t /\
    popEligibleLocked demo_clks (s_q demo_sys) = Some (q', Some msg, true) /\
    popped (s_q demo_sys) (ring_scan demo_clks 0 (ring (s_q demo_sys)) (q_tenants (s_q demo_sys))).1 t msg rest q'.
Proof.
  pose proof (pop_refines_ring demo_cfg demo_sys demo_clks demo_sys_reach) as H. cbn zeta in H.
  assert (E : (ring_scan demo_clks 0 (ring (s_q demo_sys)) (q_tenants (s_q demo_sys))).2 = Some 0%nat)
    by (vm_compute; reflexivity).
  destruct (ring_scan demo_clks 0 (ring (s_q demo_sys)) (q_tenants (s_q demo_sys))) as [m res].
  cbn in E. subst res. destruct H as (t & msg & rest & q' & H1 & H2 & H3 & _).
  exists t, msg, rest, q'. exact (conj H1 (conj H2 H3)).
Defined.

Lemma round_robin_fair_witness :
  exists k, (k <= 0)%nat /\
    pops [demo_clks] (s_q demo_sys) !! k = Some (Some (enqueue_copy (demo_msg "b" "r3"))).
Proof.
  destruct (round_robin_fair demo_cfg demo_sys 0 [demo_clks] "b" (enqueue_copy (demo_msg "b" "r3")) []
    demo_sys_reach) as (k & Hk & H & _);
    [vm_compute; reflexivity|vm_compute; reflexivity|split; vm_compute; reflexivity|reflexivity|exists k; exact (conj Hk H)].
Defined.

Lemma finishAttempt_outcome_witness :
  let m := enqueue_copy (demo_msg "a" "r1") in
  exists q' retry, finishAttempt (demo_clks 0) (demo_time 2) true m (s_q demo_sys) = (q', retry) /\
  messageKey m ∉ q_inFlight q' /\ exists delay, 0 < delay /\
    retry = Some (m <| SQSMessage_Attempt := SQSMessage_Attempt m + 1 |>, delay).
Proof.
  pose proof (finishAttempt_outcome (demo_clks 0) (demo_time 2) true (enqueue_copy (demo_msg "a" "r1"))
    (s_q demo_sys) ltac:(vm_compute; reflexivity) ltac:(vm_compute; discriminate)
    ltac:(vm_compute; split; [discriminate|reflexivity])) as H. cbn zeta in H.
  destruct (finishAttempt (demo_clks 0) (demo_time 2) true _ (s_q demo_sys)) as [q' retry] eqn:E.
  destruct H as (H1 & _ & _ & H2). exists q', retry. split; [exact E|]. split; [exact H1|]. apply H2. vm_compute. reflexivity.
Defined.

(** Two dead letters of a tenant whose breaker is open. *)
Definition demo_dead : MemoryQueue :=
  (NewMemoryQueueWithConfig demo_cfg)
    <| q_dlq := [demo_msg "a" "r1"; demo_msg "a" "r2"] |>
    <| q_tenants ::= Manager_CompleteRun (demo_clks 0) "a" (mkCompletionInfo "" 0 f_zero true true) |>.

Lemma redrive_loses_rest_witness :
  exists q1, RedriveDeadLetters (fun _ => (demo_time 1, demo_clks 0, true)) 0 demo_dead
    = (q1 <| q_dlq := [(demo_msg "a" "r1") <| SQSMessage_Attempt := 1 |>] |>, 0,
       Some (ErrPolicyViolation "tenant breaker is open")).
Proof.
  eexists. apply (redrive_loses_rest _ demo_dead (demo_msg "a" "r1") [demo_msg "a" "r2"]);
    [reflexivity|]. vm_compute. reflexivity.
Defined.

Definition demo_redrive : MemoryQueue :=
  (NewMemoryQueueWithConfig demo_cfg) <| q_dlq := [demo_msg "a" "r1"] |>
    <| q_recent := <["a#task#r1" := demo_time 1]> ∅ |>.

Lemma redrive_deduped_lost_witness :
  exists q', RedriveDeadLetters (fun _ => (demo_time 60, demo_clks 0, true)) 0 demo_redrive = (q', 1, None) /\
    q_dlq q' = [] /\ q_ch q' = [] /\ q_pending q' = ∅.
Proof.
  apply (redrive_deduped_lost (fun _ => (demo_time 60, demo_clks 0, true)) demo_redrive
    (demo_msg "a" "r1") (demo_time 1)); [reflexivity|vm_compute; reflexivity|vm_compute; discriminate].
Defined.

(** A retry refused by the tenant manager is lost: with a breaker that opens on the first
    failure, a message that fails its first of three attempts is scheduled for a retry, the
    retry's Enqueue is refused because the breaker is open, and afterwards the message is neither
    waiting, running, scheduled nor in the dead-letter queue. *)
Theorem refused_retry_lost :
  let enq m := [EAccept (demo_time 1) m; ETenant 0 (demo_clks 0); ESend 0] in
  let schedule := enq (demo_msg "a" "r1") ++
    [EReceive; EIngress; EDispatch demo_clks; EComplete 0 (demo_clks 0) true; EFinish 0 (demo_time 2);
     ERetry 0 (demo_time 3); ETenant 0 (demo_clks 0); EUnmark 0] in
  exists s, qexecs schedule (new_sys demo_cfg) = Some s /\
    cfg_MaxAttempts (q_cfg (s_q s)) = 3 /\ length (s_started s) = 1%nat /\
    queued_msgs s = [] /\ running_msgs s = [] /\ s_retries s = [] /\ q_dlq (s_q s) = [].
Proof. eexists. split; [vm_compute; reflexivity|]. vm_compute. done. Qed.
