(* ===== verification/World.v ===== *)
(** * World: the environment of the services

    The task service and the recovery jobs work on a metadata store and a queue, both
    behind their interfaces, and read the wall clock, the random source of
    [util.NewID] (src/internal/util/id.go) and environment variables.  The readings of
    a call come from an [Env]; a counter in the [World] numbers them, so that two
    readings are independent.  Handlers are written in the monad [ST World]. *)

From Stdlib Require Import Ascii.
From S2P Require Import Prelude GoLib Model StateStore.

(** The interface [queue.Queue] (src/pkg/queue/queue.go): what a producer uses of it.
    The number identifies the call, for the readings it makes itself. *)
Class MessageQueue (Q : Type) := Queue_Enqueue : nat -> SQSMessage -> Q -> Q * result error unit.

Record Env : Type := mkEnv {
  env_now : nat -> Time;
  env_rand : nat -> list ascii;       (* 12 random bytes *)
  env_getenv : string -> string }.

Record World (S Q : Type) : Type := mkWorld {
  w_store : S;
  w_queue : Q;
  w_tick : nat }.
Arguments mkWorld {S Q}.
Arguments w_store {S Q}.
Arguments w_queue {S Q}.
Arguments w_tick {S Q}.

#[global] Instance World_eta {S Q} : Eta (World S Q) := fun w => mkWorld (w_store w) (w_queue w) (w_tick w).

Section primitives.
Context {S Q : Type} `{StateStore S} `{MessageQueue Q} (env : Env).

Definition tick {A} (f : nat -> A) : ST (World S Q) A := fun w =>
  (w <| w_tick ::= Datatypes.S |>, f (w_tick w)).

Definition time_Now : ST (World S Q) Time := tick (env_now env).

Definition NewID (prefix : string) : ST (World S Q) string :=
  b ← tick (env_rand env); mret (prefix +:+ fmt_x (string_of b)).

Definition on_store {A} (f : S -> S * A) : ST (World S Q) A := fun w =>
  let '(s, a) := f (w_store w) in (w <| w_store := s |>, a).

Definition read_store {A} (f : S -> A) : ST (World S Q) A := fun w => (w, f (w_store w)).

Definition enqueue (msg : SQSMessage) : ST (World S Q) (result error unit) := fun w =>
  let '(q, r) := Queue_Enqueue (w_tick w) msg (w_queue w) in
  (w <| w_queue := q |> <| w_tick ::= Datatypes.S |>, r).
End primitives.

(** Only the queue and the counter may change. *)
Definition same_store {S Q} (w w' : World S Q) : Prop := w_store w' = w_store w.

(** Nothing but the counter changes. *)
Definition unchanged {S Q} (w w' : World S Q) : Prop :=
  w_store w' = w_store w /\ w_queue w' = w_queue w.

(** Unfold the monad and its primitives. *)
Ltac run_st :=
  repeat progress (unfold mbind, ST_bind, mret, ST_ret, time_Now, NewID, tick, on_store, read_store, enqueue in *;
                   cbn in *).
