(* ===== verification/TaskService.v ===== *)
(** * TaskService: the task lifecycle (src/pkg/task/service.go, src/pkg/task/estimation.go,
      src/internal/promptpolicy/policy.go)

    The service is a client of the store and the queue through their interfaces.  A Go
    pointer argument that the code compares with nil is an [option]; the [context] only
    reaches the store, which ignores it, and the queue, whose environment decides the
    outcome of a cancelled [Enqueue]. *)

From Stdlib Require Import Ascii.
From S2P Require Import Prelude GoLib Model StateStore MemoryStore Tenant MemoryQueue World.

(** ** Prompt policy *)

Module promptpolicy.
Section policy.
Context `{Unicode}.

Definition EnvMaxChars : string := "AGENTFORGE_PROMPT_MAX_CHARS".
Definition EnvDenyList : string := "AGENTFORGE_PROMPT_DENYLIST".
Definition DefaultMaxChars : Z := 16000.

Definition ErrPromptTooLong : error := mkErr [SPromptTooLong] "prompt exceeds max length".
Definition ErrPromptDenied : error := mkErr [SPromptDenied] "prompt contains denied term".

Record PromptPolicy : Type := mkPromptPolicy { MaxChars : Z; DenyList : list string }.

(** The loop over the comma-separated terms: blank terms and repetitions are skipped. *)
Fixpoint deny_terms (tokens seen : list string) : list string :=
  match tokens with
  | [] => []
  | token :: tokens' =>
      let normalized := ToLower (TrimSpace token) in
      if bool_decide (normalized = "") || bool_decide (normalized ∈ seen) then deny_terms tokens' seen
      else normalized :: deny_terms tokens' (normalized :: seen)
  end.

Definition LoadFromEnv (getenv : string -> string) : PromptPolicy :=
  let raw := TrimSpace (getenv EnvMaxChars) in
  let maxChars :=
    if bool_decide (raw ≠ "") then
      match Atoi raw with
      | Some parsed => if 0 <? parsed then parsed else DefaultMaxChars
      | None => DefaultMaxChars
      end
    else DefaultMaxChars in
  let raw := getenv EnvDenyList in
  mkPromptPolicy maxChars (if bool_decide (raw ≠ "") then deny_terms (Split raw ",") [] else []).

Definition Validate (prompt : string) (p : PromptPolicy) : option error :=
  if (0 <? MaxChars p) && (MaxChars p <? RuneCountInString prompt) then Some ErrPromptTooLong
  else if existsb (Contains (ToLower prompt)) (DenyList p) then Some ErrPromptDenied
  else None.
End policy.
End promptpolicy.

(** ** Requests and responses *)

Record CreateRequest : Type := mkCreateRequest {
  CreateRequest_TenantID : string;
  CreateRequest_UserID : string;
  CreateRequest_Prompt : string;
  CreateRequest_ModelConfig : option ModelConfig;
  CreateRequest_IdempotencyKey : string }.

Record CreateResponse : Type := mkCreateResponse {
  CreateResponse_TaskID : string; CreateResponse_RunID : string }.

Record ResumeRequest : Type := mkResumeRequest {
  ResumeRequest_TenantID : string;
  ResumeRequest_UserID : string;
  ResumeRequest_FromRunID : string;
  ResumeRequest_FromStepIndex : Z;
  ResumeRequest_ModelConfigOverride : option ModelConfig }.

Record ResumeResponse : Type := mkResumeResponse {
  ResumeResponse_TaskID : string; ResumeResponse_RunID : string }.

Record AbortRequest : Type := mkAbortRequest {
  AbortRequest_TenantID : string; AbortRequest_UserID : string; AbortRequest_Reason : string }.

Definition validationError (msg : string) : error := mkErr [SValidation] ("validation error: " +:+ msg).

(** ** Access *)

Definition hasTaskTenantAccess (task : option Task) (tenantID : string) : bool :=
  match task with None => false | Some t => bool_decide (Task_TenantID t = tenantID) end.

Definition hasTaskAccess (task : option Task) (tenantID userID : string) : bool :=
  if negb (hasTaskTenantAccess task tenantID) then false
  else if is_blank userID then false
  else match task with
       | None => false
       | Some t => if is_blank (Task_UserID t) then false else bool_decide (Task_UserID t = userID)
       end.

(** ** Model configuration *)

Definition allowedModelsEnv : string := "AGENTFORGE_ALLOWED_MODEL_IDS".

Definition defaultAllowedModelIDs : list string :=
  ["gpt-4o-mini"; "gpt-4o"; "gpt-4.1"; "gpt-4"; "claude-3"; "claude-3-haiku"; "claude-3-sonnet";
   "claude-3-opus"; "claude-sonnet-4-20250514"; "claude-opus-4-6"].

Section config.
Context `{Unicode} (getenv : string -> string).

Definition isAllowedModelID (modelID : string) : bool :=
  let raw := TrimSpace (getenv allowedModelsEnv) in
  let allowed :=
    if bool_decide (raw = "") then map (fun m => ToLower (TrimSpace m)) defaultAllowedModelIDs
    else List.filter (fun m => negb (bool_decide (m = "")))
           (map (fun part => ToLower (TrimSpace part)) (Split raw ",")) in
  bool_decide (ToLower (TrimSpace modelID) ∈ allowed).

(** The loop over the fallback models; [None] is the unsupported model error. *)
Fixpoint fallback_models (ids seen : list string) : option (list string) :=
  match ids with
  | [] => Some []
  | m :: ids' =>
      let modelID := TrimSpace m in
      if bool_decide (modelID = "") then fallback_models ids' seen
      else if negb (isAllowedModelID modelID) then None
      else if bool_decide (modelID ∈ seen) then fallback_models ids' seen
      else cons modelID <$> fallback_models ids' (modelID :: seen)
  end.

Definition normalizePolicyMode (mc : ModelConfig) : option ModelConfig :=
  let pm := TrimSpace (ModelConfig_PolicyMode mc) in
  if bool_decide (pm ≠ "") then
    if bool_decide (pm ∈ ["latency-first"; "quality-first"; "cost-cap"])
    then Some (mc <| ModelConfig_PolicyMode := pm |>) else None
  else Some mc.

Definition normalizeAndValidateModelConfig (mc : option ModelConfig) : result error (option ModelConfig) :=
  match mc with
  | None => Ok None
  | Some mc =>
      let mc := mc <| ModelConfig_ModelID ::= TrimSpace |> in
      if bool_decide (ModelConfig_ModelID mc = "") then Err (validationError "model_config.model_id is required")
      else if negb (isAllowedModelID (ModelConfig_ModelID mc))
      then Err (validationError "model_config.model_id is not allowed")
      else if f_ltb (ModelConfig_Temperature mc) f_zero || f_gtb (ModelConfig_Temperature mc) (f_of_Z 2)
      then Err (validationError "model_config.temperature must be between 0 and 2")
      else if ModelConfig_MaxTokens mc <? 0 then Err (validationError "model_config.max_tokens must be >= 0")
      else if f_ltb (ModelConfig_CostCapUSD mc) f_zero
      then Err (validationError "model_config.cost_cap_usd must be >= 0")
      else match normalizePolicyMode mc with
      | None => Err (validationError "model_config.policy_mode is invalid")
      | Some mc =>
          if (0 <? Z.of_nat (length (ModelConfig_FallbackModelIDs mc))) then
            match fallback_models (ModelConfig_FallbackModelIDs mc) [] with
            | None => Err (validationError "model_config.fallback_model_ids contains unsupported model")
            | Some fallback => Ok (Some (mc <| ModelConfig_FallbackModelIDs := fallback |>))
            end
          else Ok (Some mc)
      end
  end.

(** ** Estimation (estimation.go) *)

Definition InferTaskType (prompt : string) : string :=
  let p := ToLower (TrimSpace prompt) in
  if existsb (Contains p) ["code"; "golang"; "python"; "typescript"; "bug"; "test"] then "coding"
  else if existsb (Contains p) ["analy"; "report"; "metrics"; "sql"] then "analysis"
  else if existsb (Contains p) ["summar"; "translate"; "rewrite"] then "writing"
  else "general".

Definition pricing : list (string * float64) :=
  [("gpt-4o-mini", f_lit 35 100000); ("gpt-4o", f_lit 500 100000); ("gpt-4.1", f_lit 600 100000);
   ("claude-3-haiku", f_lit 80 100000); ("claude-3-sonnet", f_lit 300 100000);
   ("claude-3-opus", f_lit 1500 100000)].

Definition price_of (k : string) : option float64 :=
  snd <$> List.find (fun p => bool_decide (p.1 = k)) pricing.

Definition estimateModelCostUSD (modelID : string) (totalTokens : Z) : float64 :=
  if totalTokens <=? 0 then f_zero
  else
    let rate := default (default f_zero (price_of "gpt-4o-mini")) (price_of (ToLower (TrimSpace modelID))) in
    f_mul (f_div (f_of_Z totalTokens) (f_of_Z 1000)) rate.

Definition EstimateUsage (prompt : string) (mc : option ModelConfig) : Z * float64 :=
  let modelID := match mc with
                 | Some mc => if negb (is_blank (ModelConfig_ModelID mc)) then ModelConfig_ModelID mc else "gpt-4o-mini"
                 | None => "gpt-4o-mini"
                 end in
  let maxTokens := match mc with
                   | Some mc => if 0 <? ModelConfig_MaxTokens mc then ModelConfig_MaxTokens mc else 1024
                   | None => 1024
                   end in
  let words := Z.of_nat (length (Fields prompt)) in
  let estInput := f_ceil_int (f_mul (f_of_Z words) (f_lit 13 10)) in
  let tokens := add64 estInput maxTokens in
  let tokens := if tokens <? 256 then 256 else tokens in
  (tokens, estimateModelCostUSD modelID tokens).
End config.

(** ** The service *)

Section service.
Context {S Q : Type} `{StateStore S} `{MessageQueue Q} `{Unicode} (env : Env).
Abbreviation W := (World S Q).

Definition queue_message (tenantID : string) (taskID runID prompt : string) (mc : option ModelConfig)
    (submittedAt : Time) : SQSMessage :=
  let '(tokens, cost) := EstimateUsage prompt mc in
  mkSQSMessage tenantID taskID runID (InferTaskType prompt) (time_Unix submittedAt) 1
    (taskID +:+ "#" +:+ runID) tokens cost.

Definition enqueueQueuedRun (task : Task) (run : Run) (submittedAt : Time) : ST W (result error unit) :=
  if negb (bool_decide (Task_Status task = TaskStatusQueued)) || negb (bool_decide (Run_Status run = RunStatusQueued))
  then mret (Ok tt)
  else
    let tenantID := if negb (is_blank (Run_TenantID run)) then TrimSpace (Run_TenantID run)
                    else Task_TenantID task in
    enqueue (queue_message tenantID (Task_TaskID task) (Run_RunID run) (Task_Prompt task)
               (Run_ModelConfig run) submittedAt).

Definition ensureActiveQueuedRunEnqueued (task : Task) : ST W (result error unit) :=
  if bool_decide (Task_ActiveRunID task = "") then mret (Ok tt)
  else
    r ← read_store (GetRun (Task_TaskID task) (Task_ActiveRunID task));
    match r with
    | Err e => mret (Err e)
    | Ok run => now ← time_Now env; enqueueQueuedRun task run now
    end.

Definition markRunAndTaskFailed (taskID runID : string) : ST W unit :=
  if bool_decide (taskID = "") || bool_decide (runID = "") then mret tt
  else
    t1 ← time_Now env;
    _ ← on_store (CompleteRun t1 taskID runID RunStatusFailed);
    t2 ← time_Now env;
    _ ← on_store (UpdateTaskStatusForRun t2 taskID runID [TaskStatusQueued; TaskStatusRunning] TaskStatusFailed);
    mret tt.

(** The request checks of [Create], in order. *)
Definition validate_create (req : option CreateRequest) : result error (CreateRequest * option ModelConfig) :=
  match req with
  | None => Err (validationError "request is required")
  | Some req =>
      if is_blank (CreateRequest_TenantID req) then Err (validationError "tenant_id is required")
      else if is_blank (CreateRequest_UserID req) then Err (validationError "user_id is required")
      else if is_blank (CreateRequest_Prompt req) then Err (validationError "prompt is required")
      else match promptpolicy.Validate (CreateRequest_Prompt req) (promptpolicy.LoadFromEnv (env_getenv env)) with
      | Some err =>
          if errors_Is err SPromptTooLong then Err (validationError "prompt exceeds maximum length")
          else if errors_Is err SPromptDenied then Err (validationError "prompt contains denied content")
          else Err (validationError "prompt is invalid")
      | None =>
          match normalizeAndValidateModelConfig (env_getenv env) (CreateRequest_ModelConfig req) with
          | Err e => Err e
          | Ok mc => Ok (req, mc)
          end
      end
  end.

Definition existing_response (task : Task) : CreateResponse :=
  mkCreateResponse (Task_TaskID task) (Task_ActiveRunID task).

(** The task and the run that [Create] stores. *)
Definition new_task (req : CreateRequest) (mc : option ModelConfig) (taskID runID : string) (now : Time) : Task :=
  mkTask taskID (CreateRequest_TenantID req) (CreateRequest_UserID req) TaskStatusQueued runID
    false "" None (CreateRequest_IdempotencyKey req) (CreateRequest_Prompt req) mc now now.

Definition new_run (req : CreateRequest) (mc : option ModelConfig) (taskID runID : string) (now : Time) : Run :=
  mkRun taskID runID (CreateRequest_TenantID req) RunStatusQueued (Some now) "" None mc None None 0 None f_zero.

(** [Create] after the validation and the idempotency lookup. *)
Definition create_new (req : CreateRequest) (mc : option ModelConfig) : ST W (result error CreateResponse) :=
  now ← time_Now env;
  taskID ← NewID env "task_";
  runID ← NewID env "run_";
  let task := new_task req mc taskID runID now in
  let run := new_run req mc taskID runID now in
  t ← time_Now env;
  r ← on_store (ApplyCreateTransition t (Some task) (Some run));
  match r with
  | Err e =>
      if errors_Is e SAlreadyExists && bool_decide (CreateRequest_IdempotencyKey req ≠ "") then
        x ← read_store (GetTaskByIdempotencyKey (CreateRequest_TenantID req) (CreateRequest_IdempotencyKey req));
        match x with
        | Err e2 => mret (Err e2)
        | Ok existing => mret (Ok (existing_response existing))
        end
      else mret (Err e)
  | Ok _ =>
      q ← enqueueQueuedRun task run now;
      match q with
      | Err e => mret (Err e)
      | Ok _ => mret (Ok (mkCreateResponse taskID runID))
      end
  end.

Definition Create (req : option CreateRequest) : ST W (result error CreateResponse) :=
  match validate_create req with
  | Err e => mret (Err e)
  | Ok (req, mc) =>
      if bool_decide (CreateRequest_IdempotencyKey req ≠ "") then
        x ← read_store (GetTaskByIdempotencyKey (CreateRequest_TenantID req) (CreateRequest_IdempotencyKey req));
        match x with
        | Ok existing =>
            q ← ensureActiveQueuedRunEnqueued existing;
            match q with
            | Err e => mret (Err e)
            | Ok _ => mret (Ok (existing_response existing))
            end
        | Err e => if errors_Is e SNotFound then create_new req mc else mret (Err e)
        end
      else create_new req mc
  end.

(** Load a task and check the caller's access to it. *)
Definition with_task {A} (taskID : string) (access : option Task -> bool) (k : Task -> ST W (result error A))
    : ST W (result error A) :=
  r ← read_store (GetTask taskID);
  match r with
  | Err e => mret (Err e)
  | Ok t => if negb (access (Some t)) then mret (Err ErrNotFound) else k t
  end.

Definition Get (tenantID taskID : string) : ST W (result error Task) :=
  with_task taskID (fun t => hasTaskTenantAccess t tenantID) (fun t => mret (Ok t)).

Definition GetForUser (tenantID userID taskID : string) : ST W (result error Task) :=
  with_task taskID (fun t => hasTaskAccess t tenantID userID) (fun t => mret (Ok t)).

Definition set_abort (taskID reason : string) : ST W (result error Task) :=
  t ← time_Now env;
  r ← on_store (SetAbortRequested t taskID reason);
  match r with
  | Err e => mret (Err e)
  | Ok _ => read_store (GetTask taskID)
  end.

Definition AbortForUser (tenantID userID taskID : string) (req : AbortRequest) : ST W (result error Task) :=
  with_task taskID (fun t => hasTaskAccess t tenantID userID) (fun _ => set_abort taskID (AbortRequest_Reason req)).

Definition Abort (tenantID taskID : string) (req : option AbortRequest) : ST W (result error Task) :=
  let req := default (mkAbortRequest tenantID "" "") req in
  if bool_decide (AbortRequest_UserID req = "") then
    with_task taskID (fun t => hasTaskTenantAccess t tenantID) (fun _ => set_abort taskID (AbortRequest_Reason req))
  else AbortForUser tenantID (AbortRequest_UserID req) taskID req.

(** The run that [Resume] stores. *)
Definition resume_run (taskID newRunID : string) (req : ResumeRequest) (mc : option ModelConfig) (now : Time) : Run :=
  mkRun taskID newRunID (ResumeRequest_TenantID req) RunStatusQueued (Some now) (ResumeRequest_FromRunID req)
    (Some (ResumeRequest_FromStepIndex req)) mc None None 0 None f_zero.

Definition resume_from : list TaskStatus :=
  [TaskStatusQueued; TaskStatusSucceeded; TaskStatusFailed; TaskStatusAborted].

(** [Resume] after the checks of the request and of the checkpoint. *)
Definition resume_new (taskID : string) (req : ResumeRequest) (task : Task) : ST W (result error ResumeResponse) :=
  now ← time_Now env;
  newRunID ← NewID env "run_";
  match normalizeAndValidateModelConfig (env_getenv env)
          (match ResumeRequest_ModelConfigOverride req with Some mc => Some mc | None => Task_ModelConfig task end) with
  | Err e => mret (Err e)
  | Ok mc =>
      t1 ← time_Now env;
      t2 ← time_Now env;
      r ← on_store (ApplyResumeTransition t1 t2 taskID (Some (resume_run taskID newRunID req mc now))
             resume_from TaskStatusQueued);
      match r with
      | Err e => mret (Err e)
      | Ok _ =>
          q ← enqueue (queue_message (ResumeRequest_TenantID req) taskID newRunID (Task_Prompt task) mc now);
          match q with
          | Err e => _ ← markRunAndTaskFailed taskID newRunID; mret (Err e)
          | Ok _ => mret (Ok (mkResumeResponse taskID newRunID))
          end
      end
  end.

Definition Resume (taskID : string) (req : option ResumeRequest) : ST W (result error ResumeResponse) :=
  match req with
  | None => mret (Err (validationError "request is required"))
  | Some req =>
      if is_blank (ResumeRequest_TenantID req) then mret (Err (validationError "tenant_id is required"))
      else if is_blank (ResumeRequest_UserID req) then mret (Err (validationError "user_id is required"))
      else with_task taskID (fun t => hasTaskAccess t (ResumeRequest_TenantID req) (ResumeRequest_UserID req))
        (fun task =>
          if bool_decide (ResumeRequest_FromRunID req = "")
          then mret (Err (validationError "from_run_id is required for resume"))
          else if ResumeRequest_FromStepIndex req <? 0
          then mret (Err (validationError "from_step_index must be non-negative"))
          else
            run ← read_store (GetRun taskID (ResumeRequest_FromRunID req));
            match run with
            | Err _ => mret (Err (validationError "from_run_id not found for this task"))
            | Ok _ =>
                step ← read_store (GetStep (ResumeRequest_FromRunID req) (ResumeRequest_FromStepIndex req));
                match step with
                | Err _ => mret (Err (validationError
                    "checkpoint step not found: cannot resume from a step that does not exist"))
                | Ok step =>
                    match Step_CheckpointRef step with
                    | None => mret (Err (validationError
                        "checkpoint step has no checkpoint data: cannot resume"))
                    | Some _ => resume_new taskID req task
                    end
                end
            end)
  end.

(** The operations on a run: the run must belong to the task. *)
Definition with_run_of {A} (taskID runID : string) (k : Run -> ST W (result error A)) : ST W (result error A) :=
  r ← read_store (GetRun taskID runID);
  match r with
  | Err _ => mret (Err ErrNotFound)
  | Ok run => k run
  end.

Definition Service_ListSteps (tenantID taskID runID : string) (from limit : Z) : ST W (result error (list Step)) :=
  with_task taskID (fun t => hasTaskTenantAccess t tenantID) (fun _ =>
    with_run_of taskID runID (fun _ => read_store (ListSteps runID from limit))).

Definition ListStepsForUser (tenantID userID taskID runID : string) (from limit : Z)
    : ST W (result error (list Step)) :=
  with_task taskID (fun t => hasTaskAccess t tenantID userID) (fun _ =>
    with_run_of taskID runID (fun _ => read_store (ListSteps runID from limit))).

Definition GetRunForUser (tenantID userID taskID runID : string) : ST W (result error Run) :=
  with_task taskID (fun t => hasTaskAccess t tenantID userID) (fun _ =>
    with_run_of taskID runID (fun run => mret (Ok run))).

Definition ReplayEventsForUser (tenantID userID taskID runID : string) (fromSeq fromTS limit : Z)
    : ST W (result error (list StreamEvent)) :=
  with_task taskID (fun t => hasTaskAccess t tenantID userID) (fun _ =>
    with_run_of taskID runID (fun _ => read_store (ReplayEvents taskID runID fromSeq fromTS limit))).

Definition CompactRunEventsForUser (tenantID userID taskID runID : string) (beforeTS : Z) : ST W (result error Z) :=
  with_task taskID (fun t => hasTaskAccess t tenantID userID) (fun _ =>
    with_run_of taskID runID (fun _ => on_store (CompactEvents taskID runID beforeTS))).

(** ** Operations as data *)

Inductive service_op : Type :=
| SvGetForUser
| SvAbortForUser (req : AbortRequest)
| SvResume (req : ResumeRequest)
| SvListStepsForUser (runID : string) (from limit : Z)
| SvGetRunForUser (runID : string)
| SvReplayEventsForUser (runID : string) (fromSeq fromTS limit : Z)
| SvCompactRunEventsForUser (runID : string) (beforeTS : Z).

Definition forget {A} (m : ST W (result error A)) : ST W (result error unit) :=
  r ← m; mret (match r with Ok _ => Ok tt | Err e => Err e end).

(** The operation of a user of a tenant on a task, without its result value. *)
Definition service_exec (tenantID userID taskID : string) (o : service_op) : ST W (result error unit) :=
  match o with
  | SvGetForUser => forget (GetForUser tenantID userID taskID)
  | SvAbortForUser req => forget (AbortForUser tenantID userID taskID req)
  | SvResume req => forget (Resume taskID (Some (mkResumeRequest tenantID userID
      (ResumeRequest_FromRunID req) (ResumeRequest_FromStepIndex req) (ResumeRequest_ModelConfigOverride req))))
  | SvListStepsForUser runID from limit => forget (ListStepsForUser tenantID userID taskID runID from limit)
  | SvGetRunForUser runID => forget (GetRunForUser tenantID userID taskID runID)
  | SvReplayEventsForUser runID a b c => forget (ReplayEventsForUser tenantID userID taskID runID a b c)
  | SvCompactRunEventsForUser runID b => forget (CompactRunEventsForUser tenantID userID taskID runID b)
  end.
End service.

(** ** Lemmas *)

Lemma access_iff t tenantID userID :
  hasTaskAccess (Some t) tenantID userID = true <->
  Task_TenantID t = tenantID /\ Task_UserID t = userID /\ is_blank userID = false.
Proof.
  unfold hasTaskAccess, hasTaskTenantAccess. case_bool_decide as Ht; cbn; [|naive_solver].
  destruct (is_blank userID) eqn:Eu; [naive_solver|]. destruct (is_blank (Task_UserID t)) eqn:Eb.
  - split; [done|]. intros (_ & <- & _). congruence.
  - rewrite bool_decide_eq_true. naive_solver.
Qed.

Section service_lemmas.
Context {S Q : Type} `{HS : StateStore S} `{HL : !StateStoreLaws S} `{HQ : MessageQueue Q} `{Unicode} (env : Env).
Abbreviation W := (World S Q).

(** A task the caller may not see and a task that does not exist. *)
Definition hidden (tenantID userID taskID : string) (s : S) : Prop :=
  forall t, GetTask taskID s = Ok t -> ~ (Task_TenantID t = tenantID /\ Task_UserID t = userID).

Lemma with_task_hidden {A} tenantID userID taskID (k : Task -> ST W (result error A)) (w : W) :
  hidden tenantID userID taskID (w_store w) ->
  with_task taskID (fun t => hasTaskAccess t tenantID userID) k w = (w, Err ErrNotFound).
Proof.
  intros Hh. unfold with_task. run_st.
  destruct (GetTask taskID (w_store w)) as [t|e] eqn:E.
  - destruct (hasTaskAccess (Some t) tenantID userID) eqn:Ea; [|done].
    apply access_iff in Ea as (? & ? & _). exfalso. by apply (Hh t).
  - by rewrite (law_get_missing _ _ _ E).
Qed.

Lemma enqueueQueuedRun_store task run now (w w' : W) r :
  enqueueQueuedRun task run now w = (w', r) ->
  w_store w' = w_store w /\
  ((r = Ok tt /\ w_queue w' = w_queue w) \/
   (Run_Status run = RunStatusQueued /\
    exists n msg, SQSMessage_TaskID msg = Task_TaskID task /\ SQSMessage_RunID msg = Run_RunID run /\
      Queue_Enqueue n msg (w_queue w) = (w_queue w', r))).
Proof.
  unfold enqueueQueuedRun. case_if as Ec; [run_st; intros E; injection E as <- <-; auto|].
  apply orb_false_iff in Ec as [_ Ec]. apply negb_false_iff in Ec. bool_prop.
  unfold enqueue. destruct (Queue_Enqueue _ _ _) as [q r'] eqn:Eq. intros E. injection E as <- <-.
  split; [done|]. right. split; [done|]. eexists _, _. split_and!; [..|exact Eq]; unfold queue_message; by destruct (EstimateUsage _ _).
Qed.

Lemma ensureActive_store task (w w' : W) r :
  ensureActiveQueuedRunEnqueued env task w = (w', r) ->
  w_store w' = w_store w /\
  ((r = Ok tt /\ w_queue w' = w_queue w) \/
   (exists e, GetRun (Task_TaskID task) (Task_ActiveRunID task) (w_store w) = Err e /\
      Task_ActiveRunID task <> "" /\ r = Err e) \/
   exists run n msg, GetRun (Task_TaskID task) (Task_ActiveRunID task) (w_store w) = Ok run /\
     Run_Status run = RunStatusQueued /\
     SQSMessage_TaskID msg = Task_TaskID task /\ SQSMessage_RunID msg = Run_RunID run /\
     Queue_Enqueue n msg (w_queue w) = (w_queue w', r)).
Proof.
  unfold ensureActiveQueuedRunEnqueued. case_if as E0; [run_st; intros E; injection E as <- <-; auto|].
  bool_prop. run_st. destruct (GetRun _ _ _) as [run|e] eqn:Eg.
  - intros E. destruct (enqueueQueuedRun_store _ _ _ _ _ _ E) as [H1 H2]. split; [done|].
    destruct H2 as [?|(Hq & n & msg & H2)]; [by left|]. right. right. by exists run, n, msg.
  - intros E. injection E as <- <-. split; [done|]. right. left. by exists e.
Qed.

(** Unfold [create_new]: the identifiers it uses and what it does with the store. *)
Lemma create_new_run req mc (w w' : W) r :
  create_new env req mc w = (w', r) ->
  exists now now2 taskID runID s q,
    ApplyCreateTransition now2 (Some (new_task req mc taskID runID now)) (Some (new_run req mc taskID runID now))
      (w_store w) = (s, q) /\
    match q with
    | Ok _ =>
        w_store w' = s /\
        exists n, Queue_Enqueue n (queue_message (if negb (is_blank (CreateRequest_TenantID req))
               then TrimSpace (CreateRequest_TenantID req) else CreateRequest_TenantID req)
               taskID runID (CreateRequest_Prompt req) mc now) (w_queue w)
          = (w_queue w', match r with Ok _ => Ok tt | Err e => Err e end) /\
        (forall resp, r = Ok resp -> resp = mkCreateResponse taskID runID)
    | Err e =>
        w_store w' = s /\ w_queue w' = w_queue w /\
        r = (if errors_Is e SAlreadyExists && bool_decide (CreateRequest_IdempotencyKey req ≠ "") then
               match GetTaskByIdempotencyKey (CreateRequest_TenantID req) (CreateRequest_IdempotencyKey req) s with
               | Err e2 => Err e2
               | Ok existing => Ok (existing_response existing)
               end
             else Err e)
    end.
Proof.
  unfold create_new. run_st. intros E.
  match type of E with context [ApplyCreateTransition ?t (Some (new_task _ _ ?a ?b ?c)) _ _] =>
    exists c, t, a, b end.
  destruct (ApplyCreateTransition _ _ _ _) as [s q]. exists s, q. split; [done|].
  destruct q as [[]|e].
  - unfold enqueueQueuedRun in E. cbn in E. rewrite !bool_decide_true in E by done. cbn in E.
    unfold enqueue in E. cbn in E.
    destruct (Queue_Enqueue _ _ _) as [q r'] eqn:Eq.
    destruct r' as [[]|e]; injection E as <- <-; (split; [done|]; eexists; split; [exact Eq|naive_solver]).
  - case_if as Ea; [|by injection E as <- <-].
    run_st. destruct (GetTaskByIdempotencyKey _ _ _); by injection E as <- <-.
Qed.

(** What a successful [Create] with an idempotency key leaves in the store: the key
    leads to the task of the response. *)
Lemma create_key req req1 mc1 (w w1 : W) resp :
  validate_create env (Some req) = Ok (req1, mc1) -> CreateRequest_IdempotencyKey req <> "" ->
  Create env (Some req) w = (w1, Ok resp) ->
  exists t, GetTaskByIdempotencyKey (CreateRequest_TenantID req) (CreateRequest_IdempotencyKey req) (w_store w1) = Ok t /\
    existing_response t = resp /\
    (Task_ActiveRunID t = "" \/ exists run, GetRun (Task_TaskID t) (Task_ActiveRunID t) (w_store w1) = Ok run).
Proof.
  intros Hv Hk HC.
  assert (req1 = req) as ->.
  { cbn in Hv. repeat (split_match_in Hv; try done). congruence. }
  unfold Create in HC. rewrite Hv in HC. rewrite bool_decide_true in HC by done. run_st.
  destruct (GetTaskByIdempotencyKey _ _ (w_store w)) as [existing|e] eqn:Eg.
  - destruct (ensureActiveQueuedRunEnqueued env existing w) as [w2 q] eqn:Ee.
    destruct (ensureActive_store _ _ _ _ Ee) as [Hs _].
    destruct q as [[]|e]; [|done]. injection HC as <- <-. exists existing. rewrite Hs.
    split; [done|]. split; [done|].
    unfold ensureActiveQueuedRunEnqueued in Ee. case_bool_decide as E0; [by left|right].
    run_st. destruct (GetRun _ _ _) as [run|e]; [by exists run|done].
  - destruct (errors_Is e SNotFound); [|done].
    destruct (create_new_run _ _ _ _ _ HC) as (now & now2 & taskID & runID & s & q & Ha & Hq).
    destruct q as [[]|e'].
    + destruct Hq as (Hs & n & _ & Hr). specialize (Hr resp eq_refl) as ->. rewrite Hs.
      destruct (law_create _ _ _ _ _ Ha) as (_ & (q & Hrun) & Hkey).
      exists (new_task req mc1 taskID runID now). split; [by apply Hkey|]. split; [done|].
      right. eauto.
    + destruct Hq as (Hs & _ & Hr). rewrite (law_create_err _ _ _ _ _ _ Ha) in *. rewrite Hs in *.
      rewrite Eg in Hr. by repeat (split_match_in Hr).
Qed.

Lemma markFailed_run taskID runID (w : W) t run :
  taskID <> "" -> runID <> "" ->
  GetTask taskID (w_store w) = Ok t -> Task_ActiveRunID t = runID -> Task_Status t = TaskStatusQueued ->
  GetRun taskID runID (w_store w) = Ok run ->
  let w' := (markRunAndTaskFailed env taskID runID w).1 in
  w_queue w' = w_queue w /\
  (exists t', GetTask taskID (w_store w') = Ok t' /\ Task_Status t' = TaskStatusFailed /\ Task_ActiveRunID t' = runID) /\
  (exists r', GetRun taskID runID (w_store w') = Ok r' /\ Run_Status r' = RunStatusFailed) /\
  (forall b, b <> runID -> GetRun taskID b (w_store w') = GetRun taskID b (w_store w)).
Proof.
  intros Ht0 Hr0 Ht Ha Hst Hr. unfold markRunAndTaskFailed.
  rewrite !bool_decide_false by done. run_st.
  pose proof (law_complete (env_now env (w_tick w)) taskID runID RunStatusFailed (w_store w)) as HC.
  pose proof (law_complete_frame (env_now env (w_tick w)) taskID runID RunStatusFailed (w_store w)) as HF.
  rewrite Hr in HC. destruct HC as (s1 & Ec & Hr1 & Ht1). rewrite Ec in HF |- *. cbn in HF |- *.
  pose proof (law_update_for_run (env_now env (Datatypes.S (w_tick w))) taskID runID
    [TaskStatusQueued; TaskStatusRunning] TaskStatusFailed s1) as HU.
  rewrite Ht1, Ht, decide_True in HU by (split; [done|rewrite Hst; set_solver]).
  destruct HU as (s2 & -> & Ht2 & Hr2). cbn. rewrite Ht2, Hr2, Hr1. split_and!; [done|by eexists|by eexists|].
  intros b Hb. by rewrite Hr2, HF.
Qed.

(** The two ways [resume_new] can end. *)
Lemma resume_new_outcome taskID req task (w w' : W) r :
  resume_new env taskID req task w = (w', r) -> taskID <> "" ->
  match r with
  | Ok resp =>
      ResumeResponse_TaskID resp = taskID /\
      (exists t t', GetTask taskID (w_store w) = Ok t /\ Task_Status t ∈ resume_from /\
         GetTask taskID (w_store w') = Ok t' /\ Task_Status t' = TaskStatusQueued /\
         Task_ActiveRunID t' = ResumeResponse_RunID resp /\ Task_AbortRequested t' = false) /\
      (exists run, GetRun taskID (ResumeResponse_RunID resp) (w_store w') = Ok run /\
         Run_Status run = RunStatusQueued /\ Run_ParentRunID run = ResumeRequest_FromRunID req /\
         Run_ResumeFromStepIndex run = Some (ResumeRequest_FromStepIndex req)) /\
      GetRun taskID (ResumeResponse_RunID resp) (w_store w) = Err ErrNotFound /\
      (exists n msg, SQSMessage_TaskID msg = taskID /\ SQSMessage_RunID msg = ResumeResponse_RunID resp /\
         SQSMessage_TenantID msg = ResumeRequest_TenantID req /\
         Queue_Enqueue n msg (w_queue w) = (w_queue w', Ok tt))
  | Err e =>
      (w_store w' = w_store w /\ w_queue w' = w_queue w) \/
      exists newRunID n msg,
        GetRun taskID newRunID (w_store w) = Err ErrNotFound /\
        SQSMessage_RunID msg = newRunID /\ Queue_Enqueue n msg (w_queue w) = (w_queue w', Err e) /\
        (exists t', GetTask taskID (w_store w') = Ok t' /\ Task_Status t' = TaskStatusFailed /\
           Task_ActiveRunID t' = newRunID) /\
        (exists r', GetRun taskID newRunID (w_store w') = Ok r' /\ Run_Status r' = RunStatusFailed) /\
        (forall b, b <> newRunID -> GetRun taskID b (w_store w') = GetRun taskID b (w_store w))
  end.
Proof.
  unfold resume_new. run_st. intros E Ht.
  set (id := ("run_" +:+ fmt_x (string_of (env_rand env (Datatypes.S (w_tick w)))))%string) in *.
  assert (Hid : id <> "") by done.
  destruct (normalizeAndValidateModelConfig _ _) as [mc|e]; [|injection E as <- <-; by left].
  run_st. destruct (ApplyResumeTransition _ _ _ _ _ _ _) as [s q] eqn:Ea.
  destruct q as [[]|e].
  2: { injection E as <- <-. left. cbn. split; [by apply (law_resume_err _ _ _ _ _ _ _ _ _ Ea)|done]. }
  destruct (law_resume _ _ _ _ _ _ _ _ Ea) as (_ & (t & Hg & Hst & Hg') & (q & Hr)).
  destruct (law_resume_frame _ _ _ _ _ _ _ _ Ea) as [Hnew Hother]. cbn in Hnew, Hother.
  run_st. destruct (Queue_Enqueue _ _ _) as [q1 r1] eqn:Eq. destruct r1 as [[]|e].
  - injection E as <- <-. cbn. split; [done|]. split; [|split; [|split; [exact Hnew|]]].
    + exists t. eexists. split; [done|]. split; [done|]. split; [exact Hg'|]. done.
    + eexists. split; [exact Hr|]. done.
    + eexists _, _. split_and!; [| | |exact Eq]; done.
  - match type of E with (let '(_, _) := markRunAndTaskFailed env taskID id ?w1 in _) = _ =>
      pose proof (markFailed_run taskID id w1 _ _ Ht Hid Hg' eq_refl eq_refl Hr) as HF;
      destruct (markRunAndTaskFailed env taskID id w1) as [w2 u] end.
    injection E as <- <-. right. destruct HF as (HQ' & HT & HR & HF). eexists id, _, _. cbn in HQ', HT, HR, HF |- *.
    rewrite HQ'. split_and!; [exact Hnew| |exact Eq|exact HT|exact HR|]; [done|].
    intros b Hb. rewrite (HF b Hb). by apply Hother.
Qed.

End service_lemmas.

(** *** Model configuration *)

Section config_lemmas.
Context `{Unicode} (getenv : string -> string).

Lemma fallback_models_spec ids : forall seen l,
  fallback_models getenv ids seen = Some l ->
  NoDup l /\ (forall m, m ∈ l -> m ∉ seen) /\ Forall (fun m => isAllowedModelID getenv m = true) l /\
  (forall m, m ∈ l <-> m ∉ seen /\ m <> "" /\ exists x, x ∈ ids /\ TrimSpace x = m).
Proof.
  induction ids as [|m ids IH]; intros seen l; cbn.
  - intros E. injection E as <-. split; [constructor|]. split; [set_solver|]. split; [done|]. set_solver.
  - case_if as E0; bool_prop.
    + intros E. destruct (IH _ _ E) as (H1 & H2 & H3 & H4). split; [done|]. split; [done|]. split; [done|].
      intros m'. rewrite H4. set_solver.
    + case_if as E1; [done|]. bool_prop. case_if as E2; bool_prop.
      * intros E. destruct (IH _ _ E) as (H1 & H2 & H3 & H4). split; [done|]. split; [done|]. split; [done|].
        intros m'. rewrite H4. set_solver.
      * destruct (fallback_models getenv ids (TrimSpace m :: seen)) as [l'|] eqn:E; cbn; [|done].
        intros El. injection El as <-. destruct (IH _ _ E) as (H1 & H2 & H3 & H4).
        split; [apply list.NoDup_cons; split; [|done]; intros Hin; apply (H2 _ Hin); set_solver|].
        split; [set_solver|]. split; [by constructor|].
        intros m'. rewrite elem_of_cons, H4. destruct (decide (m' = TrimSpace m)) as [->|]; set_solver.
Qed.
End config_lemmas.

(** ** Properties *)

Section service_properties.
Context {S Q : Type} `{HS : StateStore S} `{HL : !StateStoreLaws S} `{HQ : MessageQueue Q} `{Unicode} (env : Env).
Abbreviation W := (World S Q).

(** Isolation: on a task that belongs to another tenant or another user, every per-user
    operation (get, abort, resume, list steps, get run, replay and compact events) answers exactly
    as on a task that does not exist, with ErrNotFound, and changes nothing. *)
Theorem foreign_task_hidden tenantID userID taskID o (w : W) :
  is_blank tenantID = false -> is_blank userID = false ->
  hidden tenantID userID taskID (w_store w) ->
  service_exec env tenantID userID taskID o w = (w, Err ErrNotFound).
Proof.
  intros Ht Hu Hh. destruct o; cbn; unfold forget, GetForUser, AbortForUser, Resume, ListStepsForUser,
    GetRunForUser, ReplayEventsForUser, CompactRunEventsForUser; cbn; rewrite ?Ht, ?Hu;
    rewrite ST_bind_run, with_task_hidden by done; reflexivity.
Qed.

(** C30: Create is idempotent up to the queue: after a Create with an idempotency key succeeded, any further valid
    Create of the same tenant with the same key leaves the store unchanged and returns the same task and run, with
    the queue as it was or, if the active run is still QUEUED, with one more message for that task and run.  Only in
    this last case, when the queue refuses the message, the further Create fails with the error of the queue instead
    of returning the ids. *)
Theorem create_idempotent req1 req2 v1 v2 (w w1 w2 : W) resp r :
  validate_create env (Some req1) = Ok v1 -> validate_create env (Some req2) = Ok v2 ->
  CreateRequest_TenantID req2 = CreateRequest_TenantID req1 ->
  CreateRequest_IdempotencyKey req2 = CreateRequest_IdempotencyKey req1 ->
  CreateRequest_IdempotencyKey req1 <> "" ->
  Create env (Some req1) w = (w1, Ok resp) -> Create env (Some req2) w1 = (w2, r) ->
  w_store w2 = w_store w1 /\
  ((r = Ok resp /\ w_queue w2 = w_queue w1) \/
   exists run n msg q, GetRun (CreateResponse_TaskID resp) (CreateResponse_RunID resp) (w_store w1) = Ok run /\
     Run_Status run = RunStatusQueued /\
     SQSMessage_TaskID msg = CreateResponse_TaskID resp /\ SQSMessage_RunID msg = Run_RunID run /\
     Queue_Enqueue n msg (w_queue w1) = (w_queue w2, q) /\
     match q with Ok _ => r = Ok resp | Err e => r = Err e end).
Proof.
  intros Hv1 Hv2 Ht Hk Hne HC1 HC2. destruct v1 as [q1 mc1], v2 as [q2 mc2].
  destruct (create_key env req1 q1 mc1 w w1 resp Hv1 Hne HC1) as (t & Hg & Hresp & Hrun).
  assert (q2 = req2) as -> by (cbn in Hv2; repeat (split_match_in Hv2; try done); congruence).
  unfold Create in HC2. rewrite Hv2, Hk, Ht in HC2. rewrite bool_decide_true in HC2 by done.
  run_st. rewrite Hg in HC2. rewrite <- Hresp. cbn [existing_response CreateResponse_TaskID CreateResponse_RunID].
  destruct (ensureActiveQueuedRunEnqueued env t w1) as [w3 q] eqn:Ee.
  destruct (ensureActive_store env t w1 w3 q Ee) as [Hs Hq].
  destruct Hq as [[-> Hq]|[(e & He & Hact & ->)|(run & n & msg & H1 & H2 & H3 & H4 & H5)]].
  - injection HC2 as <- <-. auto.
  - exfalso. destruct Hrun as [?|[run Hr]]; [done|]. congruence.
  - destruct q as [u|e]; injection HC2 as <- <-; (split; [done|]); right.
    + exists run, n, msg, (Ok u). done.
    + exists run, n, msg, (Err e). done.
Qed.

(** What a successful Create without an idempotency key does: the store holds the new task,
    queued with the new run active, and the run, queued with the same normalized configuration, and
    exactly one message was given to the queue, which points to that task and run. *)
Theorem create_stores req mc (w w1 : W) resp :
  validate_create env (Some req) = Ok (req, mc) -> CreateRequest_IdempotencyKey req = "" ->
  Create env (Some req) w = (w1, Ok resp) ->
  exists now n,
    GetTask (CreateResponse_TaskID resp) (w_store w1)
      = Ok (new_task req mc (CreateResponse_TaskID resp) (CreateResponse_RunID resp) now) /\
    (exists run, GetRun (CreateResponse_TaskID resp) (CreateResponse_RunID resp) (w_store w1) = Ok run /\
       Run_Status run = RunStatusQueued /\ Run_ModelConfig run = mc) /\
    Queue_Enqueue n (queue_message (TrimSpace (CreateRequest_TenantID req)) (CreateResponse_TaskID resp)
        (CreateResponse_RunID resp) (CreateRequest_Prompt req) mc now) (w_queue w) = (w_queue w1, Ok tt).
Proof.
  intros Hv Hk HC. unfold Create in HC. rewrite Hv, Hk in HC. cbn in HC.
  assert (Hb : is_blank (CreateRequest_TenantID req) = false).
  { cbn in Hv. by destruct (is_blank (CreateRequest_TenantID req)). }
  destruct (create_new_run env _ _ _ _ _ HC) as (now & now2 & taskID & runID & s & q & Ha & Hq).
  destruct q as [[]|e].
  - destruct Hq as (Hs & n & Hq & Hr). specialize (Hr resp eq_refl) as ->. cbn.
    destruct (law_create _ _ _ _ _ Ha) as (Ht & (qa & Hrun) & _). cbn in Ht, Hrun.
    exists now, n. rewrite Hs. split; [done|]. split; [by eexists|]. by rewrite Hb in Hq.
  - destruct Hq as (_ & _ & Hr). rewrite Hk, andb_false_r in Hr. done.
Qed.

End service_properties.

Section config_properties.
Context `{Unicode} (getenv : string -> string).

(** A configuration that is accepted is normalized: the model id is trimmed, not empty and allowed,
    the token limit is not negative, the policy mode is unchanged or one of the three known ones, and the
    fallback list has no repetition and consists of exactly the trimmed non-blank ids given, all allowed. *)
Theorem normalize_config_ok mc r :
  normalizeAndValidateModelConfig getenv (Some mc) = Ok r ->
  exists mc', r = Some mc' /\
    ModelConfig_ModelID mc' = TrimSpace (ModelConfig_ModelID mc) /\ ModelConfig_ModelID mc' <> "" /\
    isAllowedModelID getenv (ModelConfig_ModelID mc') = true /\ 0 <= ModelConfig_MaxTokens mc' /\
    (is_blank (ModelConfig_PolicyMode mc) = false ->
     ModelConfig_PolicyMode mc' ∈ ["latency-first"; "quality-first"; "cost-cap"]) /\
    NoDup (ModelConfig_FallbackModelIDs mc') /\
    Forall (fun m => isAllowedModelID getenv m = true) (ModelConfig_FallbackModelIDs mc') /\
    (forall m, m ∈ ModelConfig_FallbackModelIDs mc' <->
       m <> "" /\ exists x, x ∈ ModelConfig_FallbackModelIDs mc /\ TrimSpace x = m).
Proof.
  unfold normalizeAndValidateModelConfig. cbn zeta. set (m0 := mc <| ModelConfig_ModelID ::= TrimSpace |>).
  case_if as E0; [done|]. case_if as E1; [done|]. case_if as E2; [done|]. case_if as E3; [done|].
  case_if as E4; [done|]. bool_prop.
  destruct (normalizePolicyMode m0) as [m1|] eqn:Ep; [|done].
  assert (Hm1 : m1 = m0 <| ModelConfig_PolicyMode := ModelConfig_PolicyMode m1 |> /\
    (is_blank (ModelConfig_PolicyMode mc) = false ->
     ModelConfig_PolicyMode m1 ∈ ["latency-first"; "quality-first"; "cost-cap"])).
  { unfold normalizePolicyMode in Ep. case_bool_decide as Eb.
    - case_bool_decide as Ec; [|done]. injection Ep as <-. done.
    - injection Ep as <-. split; [by destruct m0|]. unfold is_blank. intros Hb.
      apply bool_decide_eq_false in Hb. cbn in Eb. destruct Eb. done. }
  destruct Hm1 as [Hm1 Hpm].
  assert (Hf : ModelConfig_FallbackModelIDs m1 = ModelConfig_FallbackModelIDs mc) by (by rewrite Hm1).
  assert (Hid : ModelConfig_ModelID m1 = TrimSpace (ModelConfig_ModelID mc)) by (by rewrite Hm1).
  assert (Htok : ModelConfig_MaxTokens m1 = ModelConfig_MaxTokens m0) by (by rewrite Hm1).
  assert (Hcommon : ModelConfig_ModelID m1 <> "" /\ isAllowedModelID getenv (ModelConfig_ModelID m1) = true /\
    0 <= ModelConfig_MaxTokens m1) by (rewrite Hid, Htok; by auto).
  case_if as El; bool_prop.
  - destruct (fallback_models getenv (ModelConfig_FallbackModelIDs m1) []) as [l|] eqn:Ef; [|done].
    intros Hr. injection Hr as <-. destruct (fallback_models_spec getenv _ _ _ Ef) as (F1 & _ & F3 & F4).
    eexists. split; [done|]. cbn. split; [done|]. destruct Hcommon as (? & ? & ?).
    do 3 (split; [done|]). split; [done|]. split; [done|]. split; [done|].
    intros m. rewrite F4, Hf. split; [naive_solver|]. intros [? ?]. split; [apply not_elem_of_nil|done].
  - intros Hr. injection Hr as <-. destruct (ModelConfig_FallbackModelIDs m1) as [|x l] eqn:Ef; [|cbn in El; lia].
    exists m1. split; [done|]. split; [done|]. destruct Hcommon as (? & ? & ?).
    do 3 (split; [done|]). split; [done|]. rewrite Ef. split; [constructor|]. split; [done|].
    intros m. rewrite <- Hf. split; [by intros ?%elem_of_nil|]. intros [_ (x & Hx & _)]. by apply elem_of_nil in Hx.
Qed.

(** The token estimate used for admission is the input estimate plus the output cap, at least 256,
    when that sum fits in an int64; a configuration whose cap makes the sum overflow wraps to a negative
    number and is admitted with the minimum estimate of 256 tokens. *)
Theorem estimate_wraps prompt mc :
  0 < ModelConfig_MaxTokens mc <= max_int64 ->
  let est := f_ceil_int (f_mul (f_of_Z (Z.of_nat (length (Fields prompt)))) (f_lit 13 10)) in
  0 <= est <= max_int64 ->
  (EstimateUsage prompt (Some mc)).1 =
    if decide (est + ModelConfig_MaxTokens mc <= max_int64)
    then Z.max 256 (est + ModelConfig_MaxTokens mc) else 256.
Proof.
  intros Hm est He. unfold EstimateUsage. cbn zeta. cbn [fst]. fold est.
  rewrite (proj2 (Z.ltb_lt 0 (ModelConfig_MaxTokens mc)) ltac:(lia)). case_decide as E.
  - rewrite add64_id by (unfold_int64; lia). case_if; bool_prop; lia.
  - assert (add64 est (ModelConfig_MaxTokens mc) < 0) as Hneg by (apply add64_overflow_neg; unfold_int64; lia).
    by rewrite (proj2 (Z.ltb_lt _ _)) by lia.
Qed.
End config_properties.

(** ** The service on the in-memory store and queue *)

(** The queue behind the interface: each call reads the clocks and takes the [select]
    branch that its environment gives. *)
Definition MemoryQueue_MessageQueue (qenv : nat -> Time * (nat -> Time) * bool) : MessageQueue MemoryQueue :=
  fun n msg q => let '(now, clk, sent) := qenv n in Enqueue now clk sent (Some msg) q.

Module demo.
#[local] Existing Instance ascii_unicode.
#[local] Instance demo_queue : MessageQueue MemoryQueue :=
  MemoryQueue_MessageQueue (fun n => (Z.of_nat n * Second, fun k => Z.of_nat (n + k) * Second, true)).

Definition env : Env :=
  mkEnv (fun n => Z.of_nat n * Second) (fun n => repeat (ascii_of_nat n) 12) (fun _ => "").

Definition world : World MemoryStore MemoryQueue := mkWorld NewMemoryStore (NewMemoryQueue 10) 0.

Definition config : ModelConfig :=
  mkModelConfig " gpt-4o " f_zero 100 " cost-cap " f_zero ["gpt-4"; " "; "gpt-4 "].

Definition request (tenant key : string) : CreateRequest :=
  mkCreateRequest tenant "alice" "write a report" (Some config) key.

Definition response {A} (d : A) (r : result error A) : A := match r with Ok a => a | Err _ => d end.

Definition created : World MemoryStore MemoryQueue * result error CreateResponse :=
  Create env (Some (request "t1" "")) world.
Definition created_task : string := CreateResponse_TaskID (response (mkCreateResponse "" "") created.2).

Lemma foreign_task_hidden_witness :
  service_exec env "t2" "alice" created_task (SvAbortForUser (mkAbortRequest "t2" "alice" "x")) created.1
    = (created.1, Err ErrNotFound).
Proof.
  apply (foreign_task_hidden env "t2" "alice"); [vm_compute; reflexivity|vm_compute; reflexivity|].
  intros t Ht [Hten _]. vm_compute in Ht. injection Ht as <-. vm_compute in Hten. discriminate.
Defined.

Lemma create_idempotent_witness :
  let req := request "t1" "k" in
  let c1 := Create env (Some req) world in
  let c2 := Create env (Some req) c1.1 in
  w_store c2.1 = w_store c1.1 /\ c2.2 = c1.2 /\ is_ok c1.2 = true.
Proof.
  cbn zeta. set (req := request "t1" "k").
  set (c1 := Create env (Some req) world). set (c2 := Create env (Some req) c1.1).
  assert (H1 : exists resp, c1.2 = Ok resp) by (vm_compute; by eexists). destruct H1 as [resp H1].
  assert (H2 : exists v, validate_create env (Some req) = Ok v) by (vm_compute; by eexists). destruct H2 as [v H2].
  split; [|split; vm_compute; reflexivity].
  apply (create_idempotent env req req v v world c1.1 c2.1 resp c2.2 H2 H2 eq_refl eq_refl).
  - vm_compute. discriminate.
  - rewrite <- H1. apply surjective_pairing.
  - apply surjective_pairing.
Defined.

Lemma create_stores_witness :
  exists now, GetTask created_task (w_store created.1)
    = Ok (new_task (request "t1" "") (Some (mkModelConfig "gpt-4o" f_zero 100 "cost-cap" f_zero ["gpt-4"]))
        created_task (CreateResponse_RunID (response (mkCreateResponse "" "") created.2)) now).
Proof.
  destruct (create_stores env (request "t1" "") (Some (mkModelConfig "gpt-4o" f_zero 100 "cost-cap" f_zero ["gpt-4"]))
    world created.1 (response (mkCreateResponse "" "") created.2)) as (now & n & Ht & _).
  - vm_compute. reflexivity.
  - reflexivity.
  - vm_compute. reflexivity.
  - exists now. exact Ht.
Defined.

(** A world with a task whose run has a checkpointed step. *)
Definition created_run : string := CreateResponse_RunID (response (mkCreateResponse "" "") created.2).
Definition checkpointed : World MemoryStore MemoryQueue :=
  created.1 <| w_store ::= (fun s => (MemoryStore_PutStep
    ((demo_step created_run 0) <| Step_CheckpointRef := Some (mkCheckpointRef None None) |>) s).1) |>.
Definition resume_request : ResumeRequest := mkResumeRequest "t1" "alice" created_run 0 None.


Lemma normalize_config_ok_witness :
  exists mc', normalizeAndValidateModelConfig (fun _ => "") (Some config) = Ok (Some mc') /\
    ModelConfig_ModelID mc' = "gpt-4o" /\ NoDup (ModelConfig_FallbackModelIDs mc').
Proof.
  destruct (normalizeAndValidateModelConfig (fun _ => "") (Some config)) as [r|e] eqn:E.
  - destruct (normalize_config_ok (fun _ => "") config r E) as (mc' & -> & H1 & _ & _ & _ & _ & H2 & _).
    exists mc'. split; [done|]. split; [rewrite H1; vm_compute; reflexivity|done].
  - vm_compute in E. discriminate.
Defined.

Lemma estimate_wraps_witness :
  (EstimateUsage "hello world" (Some (config <| ModelConfig_MaxTokens := max_int64 |>))).1 = 256.
Proof.
  rewrite (estimate_wraps "hello world" (config <| ModelConfig_MaxTokens := max_int64 |>));
    [vm_compute; reflexivity|vm_compute; split; [reflexivity|discriminate]
    |vm_compute; split; discriminate].
Defined.

(** The idempotency index joins tenant and key with a number sign that both may contain: a Create of
    tenant [a] with key [b#c] returns the task that tenant [a#b] created with key [c]. *)
Theorem idempotency_collision :
  let c1 := Create env (Some (request "a#b" "c")) world in
  let c2 := Create env (Some (request "a" "b#c")) c1.1 in
  c2.2 = c1.2 /\ is_ok c1.2 = true /\
  match GetTask (CreateResponse_TaskID (response (mkCreateResponse "" "") c2.2)) (w_store c2.1) with
  | Ok t => Task_TenantID t = "a#b"
  | Err _ => False
  end.
Proof. vm_compute. done. Qed.
End demo.
