(* ===== verification/Artifacts.v ===== *)
(** * Artifacts: large objects and checkpoints (src/pkg/artifact/store.go,
      src/pkg/artifact/memory_store.go, src/pkg/memory/snapshot.go,
      src/pkg/engine/workspace_snapshot.go)

    An artifact is a byte list under a key; [Put] returns its SHA-256 digest, computed
    here as FIPS 180-4 defines it.  The compressed form of a gzip stream and the text of
    a JSON document are not determined by their specifications, so the two codecs are a
    class [SnapshotCodec] and the round trip is a law on it. *)

From Stdlib Require Import Ascii.
From S2P Require Import Prelude GoLib Model.

Abbreviation bytes := (list ascii).

(** ** SHA-256 *)

Module sha256.
Definition mask (z : Z) : Z := Z.land z 4294967295.
Definition rotr (n x : Z) : Z := mask (Z.lor (Z.shiftr x n) (Z.shiftl x (32 - n))).

Definition K : list Z :=
  [1116352408; 1899447441; 3049323471; 3921009573; 961987163; 1508970993; 2453635748; 2870763221;
   3624381080; 310598401; 607225278; 1426881987; 1925078388; 2162078206; 2614888103; 3248222580;
   3835390401; 4022224774; 264347078; 604807628; 770255983; 1249150122; 1555081692; 1996064986;
   2554220882; 2821834349; 2952996808; 3210313671; 3336571891; 3584528711; 113926993; 338241895;
   666307205; 773529912; 1294757372; 1396182291; 1695183700; 1986661051; 2177026350; 2456956037;
   2730485921; 2820302411; 3259730800; 3345764771; 3516065817; 3600352804; 4094571909; 275423344;
   430227734; 506948616; 659060556; 883997877; 958139571; 1322822218; 1537002063; 1747873779;
   1955562222; 2024104815; 2227730452; 2361852424; 2428436474; 2756734187; 3204031479; 3329325298].

Definition H0 : list Z :=
  [1779033703; 3144134277; 1013904242; 2773480762; 1359893119; 2600822924; 528734635; 1541459225].

Definition be (n : nat) (z : Z) : bytes :=
  rev (map (fun i => byte_of (Z.land (Z.shiftr z (8 * Z.of_nat i)) 255)) (seq 0 n)).

(** One bit, zeros up to 8 bytes below a multiple of 64, and the length in bits. *)
Definition pad (m : bytes) : bytes :=
  let n := Z.of_nat (length m) in
  m ++ [byte_of 128] ++ repeat (byte_of 0) (Z.to_nat ((55 - n) mod 64)) ++ be 8 (8 * n).

Fixpoint words (l : bytes) : list Z :=
  match l with
  | a :: b :: c :: d :: l' =>
      Z.lor (Z.shiftl (byte_val a) 24) (Z.lor (Z.shiftl (byte_val b) 16)
        (Z.lor (Z.shiftl (byte_val c) 8) (byte_val d))) :: words l'
  | _ => []
  end.

(** The message schedule, kept reversed: the newest word first. *)
Fixpoint schedule (n : nat) (w : list Z) : list Z :=
  match n with
  | O => w
  | S n' =>
      let w15 := nth 14 w 0 in
      let w2 := nth 1 w 0 in
      let s0 := Z.lxor (rotr 7 w15) (Z.lxor (rotr 18 w15) (Z.shiftr w15 3)) in
      let s1 := Z.lxor (rotr 17 w2) (Z.lxor (rotr 19 w2) (Z.shiftr w2 10)) in
      schedule n' (mask (nth 15 w 0 + s0 + nth 6 w 0 + s1) :: w)
  end.

Definition round (st : list Z) (kw : Z * Z) : list Z :=
  match st with
  | [a; b; c; d; e; f; g; h] =>
      let s1 := Z.lxor (rotr 6 e) (Z.lxor (rotr 11 e) (rotr 25 e)) in
      let ch := Z.lxor (Z.land e f) (Z.land (4294967295 - e) g) in
      let t1 := mask (h + s1 + ch + kw.1 + kw.2) in
      let s0 := Z.lxor (rotr 2 a) (Z.lxor (rotr 13 a) (rotr 22 a)) in
      let maj := Z.lxor (Z.land a b) (Z.lxor (Z.land a c) (Z.land b c)) in
      [mask (t1 + mask (s0 + maj)); a; b; c; mask (d + t1); e; f; g]
  | _ => st
  end.

Definition block (h : list Z) (w : list Z) : list Z :=
  let ws := rev (schedule 48 (rev w)) in
  zip_with (fun x y => mask (x + y)) h (fold_left round (zip K ws) h).

Fixpoint blocks (n : nat) (h w : list Z) : list Z :=
  match n with
  | O => h
  | S n' => blocks n' (block h (take 16 w)) (drop 16 w)
  end.

Definition Sum256 (m : bytes) : bytes :=
  let w := words (pad m) in
  concat (map (be 4) (blocks (length w / 16) H0 w)).

Definition hex (m : bytes) : string := fmt_x (string_of (Sum256 m)).
End sha256.

(** The test vector of FIPS 180-4. *)
Example sha256_abc :
  sha256.hex (bytes_of "abc") = "ba7816bf8f01cfea414140de5dae2223b00361a396177a9cb410ff61f20015ad".
Proof. vm_compute. reflexivity. Qed.

(** ** The artifact store *)

Class ArtifactStore (A : Type) := {
  Art_Put : string -> bytes -> A -> A * result error (string * Z);
  Art_Get : string -> A -> result error bytes;
  Art_Exists : string -> A -> result error bool;
  Art_PresignedURL : string -> A -> result error string }.

(** What the clients rely on. *)
Class ArtifactStoreLaws (A : Type) `{ArtifactStore A} : Prop := {
  law_put key data a a' sha size :
    Art_Put key data a = (a', Ok (sha, size)) ->
    sha = sha256.hex data /\ size = Z.of_nat (length data) /\
    forall k, Art_Get k a' = if decide (k = key) then Ok data else Art_Get k a;
}.

Definition ErrArtifactNotFound : error := mkErr [SArtifactNotFound] "artifact: not found".

Record MemoryArtifactStore : Type := mkMemoryArtifactStore { MA_blobs : gmap string bytes }.

Definition NewMemoryArtifactStore : MemoryArtifactStore := mkMemoryArtifactStore ∅.

Definition MemoryArtifactStore_Put (key : string) (data : bytes) (s : MemoryArtifactStore)
    : MemoryArtifactStore * result error (string * Z) :=
  (mkMemoryArtifactStore (<[key := data]> (MA_blobs s)),
   Ok (sha256.hex data, Z.of_nat (length data))).

Definition MemoryArtifactStore_Get (key : string) (s : MemoryArtifactStore) : result error bytes :=
  match MA_blobs s !! key with
  | Some data => Ok data
  | None => Err (mkErr (err_chain ErrArtifactNotFound) (Error ErrArtifactNotFound +:+ ": " +:+ key))
  end.

Definition MemoryArtifactStore_Exists (key : string) (s : MemoryArtifactStore) : result error bool :=
  Ok (bool_decide (is_Some (MA_blobs s !! key))).

Definition MemoryArtifactStore_PresignedURL (key : string) (s : MemoryArtifactStore) : result error string :=
  Ok "".

#[global] Instance MemoryArtifactStore_Artifact : ArtifactStore MemoryArtifactStore := {|
  Art_Put := MemoryArtifactStore_Put;
  Art_Get := MemoryArtifactStore_Get;
  Art_Exists := MemoryArtifactStore_Exists;
  Art_PresignedURL := MemoryArtifactStore_PresignedURL |}.

#[global] Instance MemoryArtifactStore_laws : ArtifactStoreLaws MemoryArtifactStore.
Proof.
  constructor. intros key data a a' sha size H. injection H as <- <- <-. split; [done|]. split; [done|].
  intros k. cbn. unfold MemoryArtifactStore_Get. cbn. case_decide as E.
  - subst. by rewrite lookup_insert_eq.
  - by rewrite lookup_insert_ne.
Qed.

(** ** Snapshots *)

(** [json.Marshal] and [json.Unmarshal] on a snapshot, and a gzip stream; [None] is the error. *)
Class SnapshotCodec := {
  json_Marshal : MemorySnapshot -> result error bytes;
  json_Unmarshal : bytes -> result error MemorySnapshot;
  gzip_compress : bytes -> bytes;
  gzip_decompress : bytes -> result error bytes }.

(** The documented round trips.  JSON is exact on a snapshot whose strings are valid UTF-8
    and whose tool state consists of JSON values. *)
Class SnapshotCodecLaws `{SnapshotCodec} (exact : MemorySnapshot -> Prop) : Prop := {
  law_gzip data : gzip_decompress (gzip_compress data) = Ok data;
  law_json snap : exact snap -> exists data, json_Marshal snap = Ok data /\ json_Unmarshal data = Ok snap;
}.

Definition ErrSnapshotIntegrity : error := mkErr [SSnapshotIntegrity] "memory: snapshot integrity check failed".
Definition ErrWorkspaceSnapshotIntegrity : error :=
  mkErr [SWorkspaceSnapshotIntegrity] "engine: workspace snapshot integrity check failed".

Definition S3Key (tenantID taskID runID : string) (stepIndex : Z) : string :=
  "memory/" +:+ tenantID +:+ "/" +:+ taskID +:+ "/" +:+ runID +:+ "/step_" +:+ fmt_0d 8 stepIndex +:+ ".json.gz".

Definition WorkspaceS3Key (tenantID taskID runID : string) (stepIndex : Z) : string :=
  "workspaces/" +:+ tenantID +:+ "/" +:+ taskID +:+ "/" +:+ runID +:+ "/step_" +:+ fmt_0d 8 stepIndex +:+ ".tar.gz".

(** [fmt.Errorf("%w: ...")] *)
Definition wrap_suffix (e : error) (msg : string) : error := mkErr (err_chain e) (Error e +:+ ": " +:+ msg).

(** The integrity checks of [Load] and [RestoreWorkspace]. *)
Definition check_integrity (base : error) (what : string) (ref : ArtifactRef) (raw : bytes) : option error :=
  if (0 <? ArtifactRef_Size ref) && negb (Z.of_nat (length raw) =? ArtifactRef_Size ref) then
    Some (wrap_suffix base (what +:+ " size mismatch (expected=" +:+ fmt_d (ArtifactRef_Size ref)
            +:+ " got=" +:+ fmt_d (Z.of_nat (length raw)) +:+ ")"))
  else if bool_decide (ArtifactRef_SHA256 ref ≠ "") && negb (bool_decide (sha256.hex raw = ArtifactRef_SHA256 ref)) then
    Some (wrap_suffix base (what +:+ " sha256 mismatch (expected=" +:+ ArtifactRef_SHA256 ref
            +:+ " got=" +:+ sha256.hex raw +:+ ")"))
  else None.

Section snapshotter.
Context {A : Type} `{ArtifactStore A} `{SnapshotCodec}.

Definition Save (tenantID taskID : string) (snap : MemorySnapshot) (a : A) : A * result error ArtifactRef :=
  match json_Marshal snap with
  | Err e => (a, Err (wrapf "memory: marshal: " e))
  | Ok data =>
      let key := S3Key tenantID taskID (MemorySnapshot_RunID snap) (MemorySnapshot_StepIndex snap) in
      match Art_Put key (gzip_compress data) a with
      | (a, Err e) => (a, Err (wrapf "memory: put: " e))
      | (a, Ok (sha, size)) => (a, Ok (mkArtifactRef key sha size))
      end
  end.

Definition Load (ref : ArtifactRef) (a : A) : result error MemorySnapshot :=
  match Art_Get (ArtifactRef_S3Key ref) a with
  | Err e => Err (wrapf "memory: get: " e)
  | Ok raw =>
      match check_integrity ErrSnapshotIntegrity "snapshot" ref raw with
      | Some e => Err e
      | None =>
          match gzip_decompress raw with
          | Err e => Err (wrapf "memory: gzip reader: " e)
          | Ok data =>
              match json_Unmarshal data with
              | Err e => Err (wrapf "memory: unmarshal: " e)
              | Ok snap => Ok snap
              end
          end
      end
  end.

(** What the engine uses of [workspace.Manager] (src/pkg/workspace/workspace.go). *)
Class Workspace (F : Type) := {
  Ws_Snapshot : F -> result error bytes;
  Ws_Restore : bytes -> F -> F * result error unit }.

Context {F : Type} `{Workspace F}.

Definition SnapshotWorkspace (tenantID taskID runID : string) (stepIndex : Z) (ws : F) (a : A)
    : A * result error ArtifactRef :=
  match Ws_Snapshot ws with
  | Err e => (a, Err (wrapf "snapshot workspace: " e))
  | Ok raw =>
      let key := WorkspaceS3Key tenantID taskID runID stepIndex in
      match Art_Put key raw a with
      | (a, Err e) => (a, Err (wrapf "put workspace snapshot: " e))
      | (a, Ok (sha, size)) => (a, Ok (mkArtifactRef key sha size))
      end
  end.

Definition RestoreWorkspace (ref : ArtifactRef) (a : A) (ws : F) : F * result error unit :=
  match Art_Get (ArtifactRef_S3Key ref) a with
  | Err e => (ws, Err (wrapf "get workspace snapshot: " e))
  | Ok raw =>
      match check_integrity ErrWorkspaceSnapshotIntegrity "workspace snapshot" ref raw with
      | Some e => (ws, Err e)
      | None =>
          match Ws_Restore raw ws with
          | (ws, Err e) => (ws, Err (wrapf "restore workspace: " e))
          | (ws, Ok _) => (ws, Ok tt)
          end
      end
  end.
End snapshotter.

(** ** Lemmas *)

Lemma check_integrity_none base what ref raw :
  ArtifactRef_SHA256 ref = sha256.hex raw -> ArtifactRef_Size ref = Z.of_nat (length raw) ->
  check_integrity base what ref raw = None.
Proof.
  intros Hs Hz. unfold check_integrity. rewrite Hz, Z.eqb_refl, andb_false_r, Hs.
  rewrite (bool_decide_true (sha256.hex raw = sha256.hex raw)) by done. by rewrite andb_false_r.
Qed.

Lemma check_integrity_some base what ref raw :
  ArtifactRef_SHA256 ref <> "" -> sha256.hex raw <> ArtifactRef_SHA256 ref ->
  exists e, check_integrity base what ref raw = Some e /\ err_chain e = err_chain base.
Proof.
  intros Hne Hs. unfold check_integrity. case_if; [by eexists|].
  rewrite bool_decide_true, bool_decide_false by done. cbn. by eexists.
Qed.

(** A digest is never the empty string. *)
Lemma sha256_blocks_length n : forall h w, length h = 8%nat -> length (sha256.blocks n h w) = 8%nat.
Proof.
  induction n as [|n IH]; intros h w Hh; [done|]. cbn. apply IH. unfold sha256.block.
  rewrite length_zip_with.
  assert (Hf : forall l (st : list Z), length st = 8%nat -> length (fold_left sha256.round l st) = 8%nat).
  { induction l as [|kw l IHl]; intros st Hst; [done|]. cbn. apply IHl.
    by do 9 (destruct st as [|? st]; try done). }
  rewrite Hf by done. lia.
Qed.

Lemma sha256_hex_nonempty m : sha256.hex m <> "".
Proof.
  unfold sha256.hex, sha256.Sum256. cbn zeta.
  pose proof (sha256_blocks_length (length (sha256.words (sha256.pad m)) / 16) sha256.H0
    (sha256.words (sha256.pad m)) eq_refl) as H.
  destruct (sha256.blocks _ _ _) as [|x l]; [done|]. cbn. done.
Qed.

Section snapshot_properties.
Context {A : Type} `{HA : ArtifactStore A} `{HAL : !ArtifactStoreLaws A} `{HC : SnapshotCodec}.
Context (exact : MemorySnapshot -> Prop) `{HCL : !SnapshotCodecLaws exact}.

(** What [Save] leaves in the store. *)
Lemma Save_stored tenantID taskID snap (a a' : A) ref :
  Save tenantID taskID snap a = (a', Ok ref) ->
  ArtifactRef_S3Key ref = S3Key tenantID taskID (MemorySnapshot_RunID snap) (MemorySnapshot_StepIndex snap) /\
  exists data, json_Marshal snap = Ok data /\
    ArtifactRef_SHA256 ref = sha256.hex (gzip_compress data) /\
    ArtifactRef_Size ref = Z.of_nat (length (gzip_compress data)) /\
    forall k, Art_Get k a' = if decide (k = ArtifactRef_S3Key ref) then Ok (gzip_compress data) else Art_Get k a.
Proof.
  unfold Save. destruct (json_Marshal snap) as [data|e]; [|done].
  destruct (Art_Put _ _ a) as [a1 [[sha size]|e]] eqn:E; [|done]. intros H. injection H as <- <-. cbn.
  destruct (law_put _ _ _ _ _ _ E) as (H1 & H2 & H3). split; [done|]. exists data. by auto.
Qed.

(** A saved memory snapshot is loaded back unchanged from its reference, whatever is stored under
    other keys afterwards. *)
Theorem save_load_roundtrip tenantID taskID snap (a a1 a2 : A) ref :
  exact snap -> Save tenantID taskID snap a = (a1, Ok ref) ->
  Art_Get (ArtifactRef_S3Key ref) a2 = Art_Get (ArtifactRef_S3Key ref) a1 ->
  Load ref a2 = Ok snap.
Proof.
  intros He Hs Hsame. destruct (Save_stored _ _ _ _ _ _ Hs) as (_ & data & Hm & Hsha & Hsize & Hget).
  unfold Load. rewrite Hsame, Hget, decide_True by done.
  rewrite check_integrity_none by done. rewrite law_gzip.
  destruct (law_json snap He) as (data' & Hm' & Hu). rewrite Hm in Hm'. injection Hm' as <-. by rewrite Hu.
Qed.

(** A checkpoint that was overwritten is not restored: the key of a snapshot depends only on tenant,
    task, run and step, so a second Save for the same run and step (a re-execution of the run) replaces
    the first one, and loading the first reference then fails with the integrity error. *)
Theorem overwritten_checkpoint_rejected tenantID taskID snap1 snap2 d1 d2 (a a1 a2 : A) ref1 ref2 :
  MemorySnapshot_RunID snap2 = MemorySnapshot_RunID snap1 ->
  MemorySnapshot_StepIndex snap2 = MemorySnapshot_StepIndex snap1 ->
  json_Marshal snap1 = Ok d1 -> json_Marshal snap2 = Ok d2 ->
  sha256.hex (gzip_compress d2) <> sha256.hex (gzip_compress d1) ->
  Save tenantID taskID snap1 a = (a1, Ok ref1) -> Save tenantID taskID snap2 a1 = (a2, Ok ref2) ->
  exists e, Load ref1 a2 = Err e /\ errors_Is e SSnapshotIntegrity = true.
Proof.
  intros Hrun Hidx Hm1 Hm2 Hd Hs1 Hs2.
  destruct (Save_stored _ _ _ _ _ _ Hs1) as (Hk1 & x1 & Hx1 & Hsha1 & _ & _).
  destruct (Save_stored _ _ _ _ _ _ Hs2) as (Hk2 & x2 & Hx2 & _ & _ & Hget).
  rewrite Hm1 in Hx1. injection Hx1 as <-. rewrite Hm2 in Hx2. injection Hx2 as <-.
  unfold Load. rewrite Hget, decide_True by (rewrite Hk1, Hk2, Hrun, Hidx; done).
  destruct (check_integrity_some ErrSnapshotIntegrity "snapshot" ref1 (gzip_compress d2)) as (e & -> & Hc);
    [rewrite Hsha1; apply sha256_hex_nonempty|by rewrite Hsha1|].
  exists e. split; [done|]. unfold errors_Is. rewrite Hc. done.
Qed.
End snapshot_properties.

Section workspace_properties.
Context {A : Type} `{HA : ArtifactStore A} `{HAL : !ArtifactStoreLaws A} {F : Type} `{HF : Workspace F}.

(** A restored workspace is given exactly the archive of the snapshot: after SnapshotWorkspace,
    RestoreWorkspace hands the same bytes to the workspace; when the stored bytes have another digest it
    fails with the integrity error and leaves the workspace untouched. *)
Theorem workspace_snapshot_integrity tenantID taskID runID idx (ws ws' : F) (a a1 a2 : A) ref raw raw2 :
  Ws_Snapshot ws = Ok raw -> SnapshotWorkspace tenantID taskID runID idx ws a = (a1, Ok ref) ->
  Art_Get (ArtifactRef_S3Key ref) a2 = Ok raw2 ->
  (raw2 = raw -> RestoreWorkspace ref a2 ws' =
     match Ws_Restore raw ws' with
     | (w, Ok _) => (w, Ok tt)
     | (w, Err e) => (w, Err (wrapf "restore workspace: " e))
     end) /\
  (sha256.hex raw2 <> sha256.hex raw ->
   exists e, RestoreWorkspace ref a2 ws' = (ws', Err e) /\ errors_Is e SWorkspaceSnapshotIntegrity = true).
Proof.
  intros Hsnap Hs Hget. unfold SnapshotWorkspace in Hs. rewrite Hsnap in Hs.
  destruct (Art_Put _ _ a) as [a' [[sha size]|e]] eqn:E; [|done]. injection Hs as <- <-. cbn in *.
  destruct (law_put _ _ _ _ _ _ E) as (-> & -> & _).
  unfold RestoreWorkspace. cbn. rewrite Hget. split.
  - intros ->. rewrite check_integrity_none by done. by destruct (Ws_Restore raw ws') as [? [[]|]].
  - intros Hd. edestruct check_integrity_some as (e & -> & Hc); [apply sha256_hex_nonempty|done|].
    exists e. split; [done|]. unfold errors_Is. by rewrite Hc.
Qed.
End workspace_properties.

(** *** Witnesses *)

Module artifact_demo.
Definition snap (s : string) : MemorySnapshot := mkMemorySnapshot "run_1" 3 [] s [].

(** A codec that is exact on the snapshots of the demonstration. *)
#[local] Instance codec : SnapshotCodec := {|
  json_Marshal s := Ok (bytes_of (MemorySnapshot_Scratchpad s));
  json_Unmarshal b := Ok (snap (string_of b));
  gzip_compress b := byte_of 31 :: b;
  gzip_decompress b := Ok (tail b) |}.

Definition exact (s : MemorySnapshot) : Prop := s = snap "one" \/ s = snap "two".

#[local] Instance codec_laws : SnapshotCodecLaws exact.
Proof. constructor; [done|]. intros s [->| ->]; by eexists. Qed.

Definition saved (s : string) (a : MemoryArtifactStore) : MemoryArtifactStore * ArtifactRef :=
  match Save "t" "task_1" (snap s) a with
  | (a, Ok r) => (a, r)
  | (a, Err _) => (a, mkArtifactRef "" "" 0)
  end.

Lemma save_load_roundtrip_witness :
  Load (saved "one" NewMemoryArtifactStore).2 (saved "one" NewMemoryArtifactStore).1 = Ok (snap "one").
Proof.
  apply (save_load_roundtrip exact "t" "task_1" (snap "one") NewMemoryArtifactStore
    (saved "one" NewMemoryArtifactStore).1); [by left|reflexivity|reflexivity].
Defined.

Lemma overwritten_checkpoint_rejected_witness :
  exists e, Load (saved "one" NewMemoryArtifactStore).2
      (saved "two" (saved "one" NewMemoryArtifactStore).1).1 = Err e /\ errors_Is e SSnapshotIntegrity = true.
Proof.
  apply (overwritten_checkpoint_rejected "t" "task_1" (snap "one") (snap "two")
    (bytes_of "one") (bytes_of "two") NewMemoryArtifactStore (saved "one" NewMemoryArtifactStore).1
    _ _ (saved "two" (saved "one" NewMemoryArtifactStore).1).2); try reflexivity.
  vm_compute. discriminate.
Defined.

#[local] Instance bytes_workspace : Workspace bytes := {|
  Ws_Snapshot f := Ok f; Ws_Restore raw _ := (raw, Ok tt) |}.

Definition ws_saved : MemoryArtifactStore * ArtifactRef :=
  match SnapshotWorkspace "t" "task_1" "run_1" 3 (bytes_of "files") NewMemoryArtifactStore with
  | (a, Ok r) => (a, r)
  | (a, Err _) => (a, mkArtifactRef "" "" 0)
  end.

Lemma workspace_snapshot_integrity_witness :
  RestoreWorkspace ws_saved.2 ws_saved.1 ([] : bytes) = (bytes_of "files", Ok tt).
Proof.
  destruct (workspace_snapshot_integrity "t" "task_1" "run_1" 3 (bytes_of "files") [] NewMemoryArtifactStore
    ws_saved.1 ws_saved.1 ws_saved.2 (bytes_of "files") (bytes_of "files")) as [H _];
    [reflexivity|reflexivity|reflexivity|exact (H eq_refl)].
Defined.
End artifact_demo.
