(* ===== verification/Engine.v ===== *)
(** * Engine: the ReAct loop (src/pkg/engine/engine.go, llm.go, tool.go, registry.go, pricing.go)

    [Execute] works on a metadata store, an artifact store, a workspace, a language model, a
    set of tools and a pusher, all behind interfaces.  [EngW] is their state, together with
    the event counter of the run and two histories (the requests sent to the model and the
    events published) that the theorems are about.  The stages of the loop body are separate
    definitions, composed by [engine_step] the way the source composes them; a stage ends the
    run with [Done] (a [return] of the source) or goes on with [Next].  The artifact store is
    always present, as in the worker; the pusher may be nil. *)

From Stdlib Require Import Ascii.
From S2P Require Import Prelude GoLib Model StateStore MemoryStore World TaskService Artifacts.

(** ** Types of the package *)

Record Config : Type := mkConfig { Config_MaxSteps : Z }.
Definition DefaultEngineConfig : Config := mkConfig 50.

Record ToolCall : Type := mkToolCall { ToolCall_ID : string; ToolCall_Name : string; ToolCall_Args : string }.
#[global] Instance ToolCall_eta : Eta ToolCall := fun r => mkToolCall (ToolCall_ID r) (ToolCall_Name r) (ToolCall_Args r).

Record ToolSpec : Type := mkToolSpec {
  ToolSpec_Name : string; ToolSpec_Description : string; ToolSpec_Parameters : string }.

Record LLMRequest : Type := mkLLMRequest {
  LLMRequest_Messages : list MemoryMessage;
  LLMRequest_ModelConfig : option ModelConfig;
  LLMRequest_Tools : list ToolSpec;
  LLMRequest_TaskType : string }.

Record LLMResponse : Type := mkLLMResponse {
  LLMResponse_Content : string;
  LLMResponse_ToolCalls : list ToolCall;
  LLMResponse_TokenUsage : option TokenUsage;
  LLMResponse_FinishReason : string;
  LLMResponse_ModelID : string;
  LLMResponse_Provider : string }.
#[global] Instance LLMResponse_eta : Eta LLMResponse := fun r => mkLLMResponse
  (LLMResponse_Content r) (LLMResponse_ToolCalls r) (LLMResponse_TokenUsage r)
  (LLMResponse_FinishReason r) (LLMResponse_ModelID r) (LLMResponse_Provider r).

(** [LLMClient] and [StreamingLLMClient]: the response and the tokens passed to [onToken]
    before it (none for a client that does not stream). *)
Class LLMClient (L : Type) := LLM_Chat : LLMRequest -> L -> L * (list string * result error LLMResponse).

Record ToolResult : Type := mkToolResult { ToolResult_Output : string; ToolResult_Error : string }.

(** A tool acts on the state [X] of the artifact store and the workspace. *)
Record Tool (X : Type) : Type := mkTool {
  Tool_Name : string;
  Tool_Description : string;
  Tool_Schema : string;
  Tool_Execute : string -> X -> X * result error ToolResult }.
Arguments mkTool {X}.
Arguments Tool_Name {X}.
Arguments Tool_Description {X}.
Arguments Tool_Schema {X}.
Arguments Tool_Execute {X}.

(** registry.go *)
Definition Registry (X : Type) : Type := gmap string (Tool X).
Definition NewRegistry {X} : Registry X := ∅.
Definition Registry_Register {X} (t : Tool X) (r : Registry X) : Registry X := <[Tool_Name t := t]> r.
Definition Registry_Get {X} (name : string) (r : Registry X) : option (Tool X) := r !! name.
Definition Registry_List {X} (r : Registry X) : list string := (map_to_list r).*1.

(** [stream.Pusher]: whether the connection is alive, and an error. *)
Class Pusher (P : Type) := Push : string -> StreamEvent -> P -> P * (bool * option error).

Record RunResult : Type := mkRunResult {
  RunResult_Status : RunStatus;
  RunResult_LastStep : Z;
  RunResult_ErrorMessage : string;
  RunResult_TotalTokens : Z;
  RunResult_TotalCostUSD : float64 }.

Record persistedToolOutput : Type := mkPersistedToolOutput {
  pto_Tool : string; pto_ToolCallID : string; pto_Output : string }.

Record externalizedStepField : Type := mkExternalizedStepField {
  esf_Storage : string; esf_Field : string; esf_Artifact : ArtifactRef; esf_OriginalBytes : Z }.

(** The library functions on texts that the engine calls: [encoding/json] on interface values
    and on two structs, [regexp] with the two patterns of the source, and [strconv.ParseFloat]. *)
Class TextLib := {
  json_decode : string -> option gval;
  json_encode : gval -> option string;
  json_encode_outputs : list persistedToolOutput -> option string;
  json_encode_field : externalizedStepField -> result error string;
  bearerTokenPattern_ReplaceAllString : string -> string -> string;
  plainSecretPattern_ReplaceAllString : string -> string -> string;
  strconv_ParseFloat : string -> option float64 }.

Definition maxSanitizedEventTextRunes : Z := 2048.
Definition eventTextRedacted : string := "[REDACTED]".
Definition eventTextTruncatedSuffix : string := "...[truncated]".
Definition maxEngineMemoryMessages : Z := 64.
Definition maxConsecutiveLengthStops : Z := 3.
Definition maxInlineStepFieldBytes : Z := 128 * 1024.
Definition externalizedStepFieldTag : string := "[EXTERNALIZED_STEP_FIELD]".
Definition lengthContinuePrompt : string :=
  "Your previous response was truncated due to length. Continue exactly from where you stopped, without repeating prior content.".
Definition systemPrompt : string :=
  "You are an AI agent. Use the available tools to complete the task. When done, provide a final answer.".

(** ** Pure helpers *)

Section helpers.
Context `{Unicode} `{TextLib}.

Definition classifyTaskPrompt (prompt : string) : string :=
  let p := ToLower prompt in
  if existsb (Contains p) ["code"; "bug"; "test"; "refactor"] then "coding"
  else if existsb (Contains p) ["analy"; "report"; "sql"; "metric"] then "analysis"
  else if existsb (Contains p) ["summar"; "rewrite"; "translate"] then "writing"
  else "general".

Definition StepFieldS3Key (tenantID taskID runID : string) (stepIndex : Z) (field : string) : string :=
  "steps/" +:+ tenantID +:+ "/" +:+ taskID +:+ "/" +:+ runID +:+ "/step_" +:+ fmt_0d 8 stepIndex
  +:+ "_" +:+ field +:+ ".txt".

Definition collectToolSpecs {X} (reg : option (Registry X)) : list ToolSpec :=
  match reg with
  | None => []
  | Some reg =>
      let names := sort_slice String.ltb (Registry_List reg) in
      flat_map (fun name =>
        match Registry_Get name reg with
        | None => []
        | Some t => [mkToolSpec (Tool_Name t) (Tool_Description t) (Tool_Schema t)]
        end) names
  end.

Definition trimMemoryMessages (messages : list MemoryMessage) (limit : Z) : list MemoryMessage :=
  let n := Z.of_nat (length messages) in
  if (limit <=? 0) || (n <=? limit) then messages
  else
    let keepHead := match messages with
                    | m :: _ => if bool_decide (MemoryMessage_Role m = MessageRoleSystem) then 1 else 0
                    | [] => 0
                    end in
    let tailBudget := limit - keepHead in
    if tailBudget <=? 0 then take (Z.to_nat keepHead) messages
    else
      let start := n - tailBudget in
      let start := if start <? keepHead then keepHead else start in
      take (Z.to_nat keepHead) messages ++ drop (Z.to_nat start) messages.

Definition isSensitiveKey (key : string) : bool :=
  let k := ToLower (TrimSpace key) in
  let k := remove_byte "-" (remove_byte "_" k) in
  bool_decide (k ∈ ["apikey"; "accesstoken"; "refreshtoken"; "token"; "secret"; "password";
                    "authorization"; "authtoken"; "clientsecret"]).

Fixpoint redactJSONValue (v : gval) : gval :=
  match v with
  | GMap l => GMap (map (fun kv => (kv.1, if isSensitiveKey kv.1 then GStr eventTextRedacted
                                          else redactJSONValue kv.2)) l)
  | GList l => GList (map redactJSONValue l)
  | _ => v
  end.

Definition redactJSONSecrets (raw : string) : option string :=
  v ← json_decode raw; json_encode (redactJSONValue v).

Definition runes_string (rs : list (Z * list ascii)) : string := string_of (concat (map (fun r => encode_rune r.1) rs)).

Definition truncateEventText (raw : string) (maxRunes : Z) : string :=
  if maxRunes <=? 0 then ""
  else
    let runes := decode_runes (bytes_of raw) in
    if Z.of_nat (length runes) <=? maxRunes then raw
    else
      let suffixRunes := decode_runes (bytes_of eventTextTruncatedSuffix) in
      if maxRunes <=? Z.of_nat (length suffixRunes) then runes_string (take (Z.to_nat maxRunes) runes)
      else runes_string (take (Z.to_nat (maxRunes - Z.of_nat (length suffixRunes))) runes)
           +:+ eventTextTruncatedSuffix.

Definition sanitizeEventText (raw : string) : string :=
  let out := default raw (redactJSONSecrets raw) in
  let out := bearerTokenPattern_ReplaceAllString out ("Bearer " +:+ eventTextRedacted) in
  let out := plainSecretPattern_ReplaceAllString out ("$1$2" +:+ eventTextRedacted) in
  truncateEventText out maxSanitizedEventTextRunes.

(** Sanitize the string stored under a key of the event data. *)
Definition sanitize_field (key : string) (fields : list (string * gval)) : list (string * gval) :=
  map (fun kv => if bool_decide (kv.1 = key) then
                   (kv.1, match kv.2 with GStr s => GStr (sanitizeEventText s) | v => v end)
                 else kv) fields.

Definition sanitizeEventData (eventType : StreamEventType) (data : gval) : gval :=
  match data with
  | GMap fields =>
      match eventType with
      | StreamEventToolCall => GMap (sanitize_field "args" fields)
      | StreamEventToolResult => GMap (sanitize_field "output" fields)
      | StreamEventComplete => GMap (sanitize_field "final_answer" fields)
      | _ => GMap fields
      end
  | _ => data
  end.

Record budgetExceeded : Type := mkBudgetExceeded { be_Code : string; be_Message : string }.

Definition checkBudgetExceeded (cfg : option ModelConfig) (totalTokens : Z) (totalCostUSD : float64)
    : option budgetExceeded :=
  match cfg with
  | None => None
  | Some cfg =>
      if (0 <? ModelConfig_MaxTokens cfg) && (ModelConfig_MaxTokens cfg <? totalTokens) then
        Some (mkBudgetExceeded "TOKEN_CAP_EXCEEDED"
          ("token cap exceeded: total_tokens=" +:+ fmt_d totalTokens +:+ " cap=" +:+ fmt_d (ModelConfig_MaxTokens cfg)))
      else if f_gtb (ModelConfig_CostCapUSD cfg) f_zero
              && f_gtb totalCostUSD (f_add (ModelConfig_CostCapUSD cfg) (f_lit 1 1000000000)) then
        Some (mkBudgetExceeded "COST_CAP_EXCEEDED"
          ("cost cap exceeded: total_cost_usd=" +:+ fmt_f 6 totalCostUSD
           +:+ " cap_usd=" +:+ fmt_f 6 (ModelConfig_CostCapUSD cfg)))
      else None
  end.

(** *** pricing.go *)

Definition modelPricingOverridesEnv : string := "AGENTFORGE_MODEL_PRICING_OVERRIDES".

Definition defaultUsageModelPricingUSDPer1K : gmap string float64 :=
  list_to_map [("gpt-4o-mini", f_lit 35 100000); ("gpt-4o", f_lit 500 100000); ("gpt-4.1", f_lit 600 100000);
    ("claude-3-haiku", f_lit 80 100000); ("claude-3-sonnet", f_lit 300 100000); ("claude-3-opus", f_lit 1500 100000)].

(** [strings.SplitN(s, "=", 2)], when the separator occurs. *)
Definition split_eq (s : string) : option (string * string) :=
  match Split s "=" with
  | p :: ((_ :: _) as rest) => Some (p, str_join "=" rest)
  | _ => None
  end.

Definition merge_entry (merged : gmap string float64) (entry : string) : gmap string float64 :=
  match split_eq (TrimSpace entry) with
  | None => merged
  | Some (l, r) =>
      let model := ToLower (TrimSpace l) in
      if bool_decide (model = "") then merged
      else match strconv_ParseFloat (TrimSpace r) with
           | None => merged
           | Some rate => if f_leb rate f_zero then merged else <[model := rate]> merged
           end
  end.

Definition mergePricingOverrides (defaults : gmap string float64) (raw : string) : gmap string float64 :=
  let merged := list_to_map (map (fun kv => (ToLower (TrimSpace kv.1), kv.2)) (map_to_list defaults)) in
  if is_blank raw then merged else fold_left merge_entry (Split raw ",") merged.

Definition resolveModelRateUSDPer1K (getenv : string -> string) (modelID : string) (defaults : gmap string float64)
    : float64 :=
  let rates := mergePricingOverrides defaults (getenv modelPricingOverridesEnv) in
  let model := ToLower (TrimSpace modelID) in
  let fallback := default f_zero (defaults !! "gpt-4o-mini") in
  if bool_decide (model ≠ "") then default fallback (rates !! model) else fallback.

Definition EstimateUsageCostUSD (getenv : string -> string) (modelID : string) (usage : option TokenUsage) : float64 :=
  match usage with
  | None => f_zero
  | Some u =>
      if TokenUsage_Total u <=? 0 then f_zero
      else f_mul (f_div (f_of_Z (TokenUsage_Total u)) (f_of_Z 1000))
                 (resolveModelRateUSDPer1K getenv modelID defaultUsageModelPricingUSDPer1K)
  end.
End helpers.

(** ** The engine's world *)

Record EngineEnv : Type := mkEngineEnv {
  ee_now : nat -> Time;
  ee_getenv : string -> string;
  ee_done : nat -> bool;          (* whether the context is cancelled *)
  ee_dispatched : nat -> nat }.   (* how many pushes are started before the context is cancelled *)

Record EngW (S A F L P : Type) : Type := mkEngW {
  ew_store : S;
  ew_art : A;
  ew_ws : F;
  ew_llm : L;
  ew_pusher : option P;
  ew_tick : nat;
  ew_seq : Z;                         (* the variable eventSeq of Execute *)
  ew_requests : list LLMRequest;      (* history: requests sent to the model *)
  ew_events : list StreamEvent }.     (* history: events published *)
Arguments mkEngW {S A F L P}.
Arguments ew_store {S A F L P}.
Arguments ew_art {S A F L P}.
Arguments ew_ws {S A F L P}.
Arguments ew_llm {S A F L P}.
Arguments ew_pusher {S A F L P}.
Arguments ew_tick {S A F L P}.
Arguments ew_seq {S A F L P}.
Arguments ew_requests {S A F L P}.
Arguments ew_events {S A F L P}.

#[global] Instance EngW_eta {S A F L P} : Eta (EngW S A F L P) := fun w => mkEngW
  (ew_store w) (ew_art w) (ew_ws w) (ew_llm w) (ew_pusher w) (ew_tick w) (ew_seq w)
  (ew_requests w) (ew_events w).

(** What a stage of the loop body leads to. *)
Inductive flow (X : Type) : Type :=
| Done (r : result error RunResult)
| Next (x : X).
Arguments Done {X} r.
Arguments Next {X} x.

(** The variables of [Execute] that the loop changes. *)
Record LoopState : Type := mkLoopState {
  ls_mem : MemorySnapshot;
  ls_totalTokens : Z;
  ls_totalCost : float64;
  ls_lengthStops : Z }.
#[global] Instance LoopState_eta : Eta LoopState := fun r => mkLoopState
  (ls_mem r) (ls_totalTokens r) (ls_totalCost r) (ls_lengthStops r).

Definition append_message (m : MemoryMessage) (ls : LoopState) : LoopState :=
  ls <| ls_mem ::= (fun s => s <| MemorySnapshot_Messages ::= (fun l => l ++ [m]) |>) |>.

Section engine.
Context {S A F L P : Type} `{StateStore S} `{ArtifactStore A} `{Workspace F} `{LLMClient L} `{Pusher P}.
Context `{Unicode} `{TextLib} `{SnapshotCodec} (env : EngineEnv) (cfg : Config) (tools : Registry (A * F)).
Abbreviation W := (EngW S A F L P).
Abbreviation M := (ST W).

Definition flow_bind {X Y} (m : M (flow X)) (k : X -> M (flow Y)) : M (flow Y) :=
  r ← m; match r with Done o => mret (Done o) | Next x => k x end.

Definition now : M Time := fun w => (w <| ew_tick ::= Datatypes.S |>, ee_now env (ew_tick w)).
Definition ctx_done : M bool := fun w => (w <| ew_tick ::= Datatypes.S |>, ee_done env (ew_tick w)).
Definition dispatched : M nat := fun w => (w <| ew_tick ::= Datatypes.S |>, ee_dispatched env (ew_tick w)).

(** A primitive step of the world. *)
Definition act {X} (f : W -> W * X) : M X := f.

Definition e_store {X} (f : S -> S * X) : M X := fun w =>
  let '(s, x) := f (ew_store w) in (w <| ew_store := s |>, x).
Definition e_read {X} (f : S -> X) : M X := fun w => (w, f (ew_store w)).
Definition e_art {X} (f : A -> A * X) : M X := fun w =>
  let '(a, x) := f (ew_art w) in (w <| ew_art := a |>, x).

(** *** pushEvent *)

(** Push to the targets; the result is the list of connections found dead. *)
Fixpoint push_all (targets : list Connection) (event : StreamEvent) (p : P) : P * list string :=
  match targets with
  | [] => (p, [])
  | c :: targets' =>
      let '(p, (alive, _)) := Push (Connection_ConnectionID c) event p in
      let '(p, stale) := push_all targets' event p in
      (p, if alive then stale else Connection_ConnectionID c :: stale)
  end.

Fixpoint delete_connections (ids : list string) : M unit :=
  match ids with
  | [] => mret tt
  | id :: ids' => _ ← e_store (DeleteConnection id); delete_connections ids'
  end.

(** The pushes run concurrently; each only concerns its own connection, so their order does
    not matter.  A connection is deleted once however often it was found dead. *)
Definition push_targets (targets : list Connection) (event : StreamEvent) : M unit :=
  n ← dispatched;
  stale ← act (fun w => match ew_pusher w with
      | None => (w, [])
      | Some p => let '(p, stale) := push_all (take n targets) event p in (w <| ew_pusher := Some p |>, stale)
      end);
  delete_connections (remove_dups stale).

(** The event with the next sequence number, published in the history. *)
Definition next_event (taskID runID : string) (eventType : StreamEventType) (data : gval) : M StreamEvent :=
  t ← now;
  act (fun w =>
    let seq := add64 (ew_seq w) 1 in
    let event := mkStreamEvent taskID runID seq (time_Unix t) eventType (sanitizeEventData eventType data) in
    (w <| ew_seq := seq |> <| ew_events ::= (fun l => l ++ [event]) |>, event)).

Definition pushEvent (tenantID taskID runID : string) (eventType : StreamEventType) (data : gval) : M unit :=
  w ← getW;
  match ew_pusher w with
  | None => mret tt
  | Some _ =>
      event ← next_event taskID runID eventType data;
      t1 ← now;
      t2 ← now;
      _ ← e_store (PutEvent t1 t2 (Some event));
      r ← e_read (GetConnectionsByTask taskID);
      match r with
      | Err _ => mret tt
      | Ok conns =>
          let targets := List.filter (fun c =>
            negb (bool_decide (tenantID ≠ "") && bool_decide (Connection_TenantID c ≠ tenantID))) conns in
          if Nat.eqb (length targets) 0 then mret tt else push_targets targets event
      end
  end.

(** *** Steps *)

Definition writeErrorStep (runID : string) (stepIdx : Z) (start : Time) (errorCode : string) (stepErr : error) : M unit :=
  t ← now;
  let errorCode := if bool_decide (errorCode = "") then "STEP_ERROR" else errorCode in
  _ ← e_store (PutStep (mkStep runID stepIdx StepTypeLLMCall StepStatusError "" "" start t
        (Duration_Milliseconds (time_Sub t start)) None None errorCode (Error stepErr)));
  mret tt.

Definition externalizeStepField (tenantID taskID runID : string) (stepIndex : Z) (field value : string)
    : M (result error string) :=
  if len value <=? maxInlineStepFieldBytes then mret (Ok value)
  else
    let key := StepFieldS3Key tenantID taskID runID stepIndex field in
    r ← e_art (Art_Put key (bytes_of value));
    match r with
    | Err e => mret (Err (wrapf ("externalize step " +:+ field +:+ " field: ") e))
    | Ok (sha, size) =>
        match json_encode_field (mkExternalizedStepField "artifact" field (mkArtifactRef key sha size) (len value)) with
        | Err e => mret (Err (wrapf "marshal externalized step field metadata: " e))
        | Ok payload => mret (Ok (externalizedStepFieldTag +:+ payload))
        end
    end.

Definition externalizeLargeStepFields (tenantID taskID runID : string) (step : Step) : M (result error Step) :=
  r1 ← externalizeStepField tenantID taskID runID (Step_StepIndex step) "input" (Step_Input step);
  match r1 with
  | Err e => mret (Err e)
  | Ok input =>
      r2 ← externalizeStepField tenantID taskID runID (Step_StepIndex step) "output" (Step_Output step);
      match r2 with
      | Err e => mret (Err e)
      | Ok output => mret (Ok (step <| Step_Input := input |> <| Step_Output := output |>))
      end
  end.

(** *** Execute *)

Context (task : Task) (run : Run).
Abbreviation tenantID := (Task_TenantID task).
Abbreviation taskID := (Task_TaskID task).
Abbreviation runID := (Run_RunID run).

Definition push (eventType : StreamEventType) (fields : list (string * gval)) : M unit :=
  pushEvent tenantID taskID runID eventType (GMap fields).

(** [return &RunResult{...}, nil] with the totals of the loop. *)
Definition finish (status : RunStatus) (lastStep : Z) (msg : string) (ls : LoopState) : result error RunResult :=
  Ok (mkRunResult status lastStep msg (ls_totalTokens ls) (ls_totalCost ls)).
Definition fail_run {X} (lastStep : Z) (msg : string) (ls : LoopState) : M (flow X) :=
  mret (Done (finish RunStatusFailed lastStep msg ls)).

(** The prompt policy. *)
Definition check_prompt : option RunResult :=
  match promptpolicy.Validate (Task_Prompt task) (promptpolicy.LoadFromEnv (ee_getenv env)) with
  | None => None
  | Some err =>
      let msg := if errors_Is err SPromptTooLong then "prompt exceeds maximum length"
                 else if errors_Is err SPromptDenied then "prompt contains denied content"
                 else "prompt rejected by policy" in
      Some (mkRunResult RunStatusFailed (-1) msg 0 f_zero)
  end.

Definition initial_memory : MemorySnapshot := mkMemorySnapshot runID 0 [] "" [].

(** Restore memory and workspace of the checkpoint a resumed run starts from. *)
Definition restore_checkpoint (mem : MemorySnapshot) (step : Step) : M (result error MemorySnapshot) :=
  match Step_CheckpointRef step with
  | None => mret (Ok mem)
  | Some c =>
      w ← getW;
      let restored := match CheckpointRef_Memory c with
        | None => Ok mem
        | Some ref => match Load ref (ew_art w) with
                      | Err e => Err (wrapf "engine: restore memory: " e)
                      | Ok m => Ok (m <| MemorySnapshot_RunID := runID |>)
                      end
        end in
      match restored with
      | Err e => mret (Err e)
      | Ok mem =>
          match CheckpointRef_Workspace c with
          | None => mret (Ok mem)
          | Some ref =>
              act (fun w => let '(f, r) := RestoreWorkspace ref (ew_art w) (ew_ws w) in
                 (w <| ew_ws := f |>, match r with
                                     | Err e => Err (wrapf "engine: restore workspace: " e)
                                     | Ok _ => Ok mem
                                     end))
          end
      end
  end.

(** The memory the loop starts with and its first step index. *)
Definition initial_state : M (result error (MemorySnapshot * Z)) :=
  match Run_ResumeFromStepIndex run with
  | None => mret (Ok (initial_memory, 0))
  | Some stepIdx =>
      r ← e_read (GetStep (Run_ParentRunID run) stepIdx);
      match r with
      | Err e => mret (Err (wrapf "engine: load checkpoint step: " e))
      | Ok step =>
          r ← restore_checkpoint initial_memory step;
          match r with
          | Err e => mret (Err e)
          | Ok mem => mret (Ok (mem, stepIdx + 1))
          end
      end
  end.

Definition with_system_prompt (mem : MemorySnapshot) : MemorySnapshot :=
  match MemorySnapshot_Messages mem with
  | [] => mem <| MemorySnapshot_Messages :=
            [mkMemoryMessage MessageRoleSystem systemPrompt "" [];
             mkMemoryMessage MessageRoleUser (Task_Prompt task) "" []] |>
  | _ => mem
  end.

(** Before each step: abort, then cancellation. *)
Definition check_abort (stepIdx : Z) (ls : LoopState) : M (flow unit) :=
  r ← e_read (IsAbortRequested taskID);
  match r with
  | Err e => mret (Done (Err (wrapf "engine: check abort: " e)))
  | Ok (false, _) => mret (Next tt)
  | Ok (true, reason) =>
      t ← now;
      _ ← e_store (PutStep (mkStep runID stepIdx StepTypeFinal StepStatusOK "abort_requested" reason t t 0
             None None "ABORTED" reason));
      _ ← e_store (UpdateLastStepIndex taskID runID stepIdx);
      _ ← push StreamEventComplete [("status", GStr "aborted"); ("reason", GStr reason)];
      mret (Done (finish RunStatusAborted stepIdx "" ls))
  end.

Definition check_cancelled (stepIdx : Z) (ls : LoopState) : M (flow unit) :=
  d ← ctx_done;
  if d : bool then fail_run (stepIdx - 1) "context cancelled" ls else mret (Next tt).

Fixpoint push_tokens (stepIdx : Z) (tokens : list string) : M unit :=
  match tokens with
  | [] => mret tt
  | token :: tokens' =>
      _ ← (if bool_decide (token = "") then mret tt
           else push StreamEventTokenChunk [("step_index", GInt stepIdx); ("token", GStr token)]);
      push_tokens stepIdx tokens'
  end.

(** The call of the model on the trimmed memory. *)
Definition call_llm (stepIdx : Z) (stepStart : Time) (ls : LoopState) : M (flow (LLMResponse * LoopState)) :=
  let ls := ls <| ls_mem ::= (fun m => m <| MemorySnapshot_Messages ::=
                  (fun l => trimMemoryMessages l maxEngineMemoryMessages) |>) |> in
  let req := mkLLMRequest (MemorySnapshot_Messages (ls_mem ls)) (Run_ModelConfig run)
               (collectToolSpecs (Some tools)) (classifyTaskPrompt (Task_Prompt task)) in
  r ← act (fun w =>
    let '(l, (tokens, resp)) := LLM_Chat req (ew_llm w) in
    (w <| ew_llm := l |> <| ew_requests ::= (fun rs => rs ++ [req]) |>, (tokens, resp)));
  let '(tokens, resp) := r in
  _ ← push_tokens stepIdx tokens;
  match resp with
  | Err e =>
      _ ← writeErrorStep runID stepIdx stepStart "LLM_ERROR" e;
      _ ← push StreamEventError [("error_code", GStr "LLM_ERROR"); ("message", GStr (Error e))];
      fail_run stepIdx (Error e) ls
  | Ok resp => mret (Next (resp, ls))
  end.

(** Accounting of the usage and the budget check. *)
Definition account_usage (stepIdx : Z) (stepStart : Time) (resp : LLMResponse) (ls : LoopState) : M (flow LoopState) :=
  let stepCost := EstimateUsageCostUSD (ee_getenv env) (LLMResponse_ModelID resp) (LLMResponse_TokenUsage resp) in
  let ls := match LLMResponse_TokenUsage resp with
            | Some u => ls <| ls_totalTokens ::= (fun t => add64 t (TokenUsage_Total u)) |>
            | None => ls
            end in
  let ls := ls <| ls_totalCost ::= (fun c => f_add c stepCost) |> in
  _ ← e_store (AddRunUsage taskID runID (LLMResponse_TokenUsage resp) stepCost);
  match checkBudgetExceeded (Run_ModelConfig run) (ls_totalTokens ls) (ls_totalCost ls) with
  | Some b =>
      _ ← writeErrorStep runID stepIdx stepStart (be_Code b) (errors_New (be_Message b));
      _ ← push StreamEventError [("error_code", GStr (be_Code b)); ("message", GStr (be_Message b));
             ("total_tokens", GInt (ls_totalTokens ls)); ("total_cost_usd", GFloat (ls_totalCost ls))];
      fail_run stepIdx (be_Message b) ls
  | None => mret (Next ls)
  end.

(** Fill in missing tool call ids. *)
Definition name_calls (stepIdx : Z) (calls : list ToolCall) : list ToolCall :=
  imap (fun idx tc => if bool_decide (ToolCall_ID tc = "")
                      then tc <| ToolCall_ID := "call_" +:+ fmt_d stepIdx +:+ "_" +:+ fmt_d (Z.of_nat idx) |>
                      else tc) calls.

Definition assistant_message (resp : LLMResponse) : MemoryMessage :=
  mkMemoryMessage MessageRoleAssistant (LLMResponse_Content resp) ""
    (map (fun tc => mkMemoryToolCall (ToolCall_ID tc) (ToolCall_Name tc) (ToolCall_Args tc)) (LLMResponse_ToolCalls resp)).

(** The tool calls of a response, in order. *)
Fixpoint run_tools (stepIdx : Z) (stepStart : Time) (calls : list ToolCall) (outputs : list persistedToolOutput)
    (ls : LoopState) : M (flow (list persistedToolOutput * LoopState)) :=
  match calls with
  | [] => mret (Next (outputs, ls))
  | tc :: calls' =>
      _ ← push StreamEventToolCall [("tool", GStr (ToolCall_Name tc)); ("args", GStr (ToolCall_Args tc))];
      r ← (match Registry_Get (ToolCall_Name tc) tools with
           | None => mret (Ok ("error: unknown tool " +:+ Quote (ToolCall_Name tc)))
           | Some tool =>
               act (fun w =>
                 let '((a, f), r) := Tool_Execute tool (ToolCall_Args tc) (ew_art w, ew_ws w) in
                 (w <| ew_art := a |> <| ew_ws := f |>,
                  match r with
                  | Err e => Err e
                  | Ok res => Ok (if bool_decide (ToolResult_Error res ≠ "")
                                  then "error: " +:+ ToolResult_Error res else ToolResult_Output res)
                  end))
           end : M (result error string));
      match r with
      | Err e =>
          _ ← writeErrorStep runID stepIdx stepStart "TOOL_EXEC_ERROR" e;
          _ ← push StreamEventError [("error_code", GStr "TOOL_EXEC_ERROR"); ("tool", GStr (ToolCall_Name tc));
                 ("message", GStr (Error e))];
          fail_run stepIdx ("tool " +:+ ToolCall_Name tc +:+ " execution failed: " +:+ Error e) ls
      | Ok out =>
          _ ← push StreamEventToolResult [("tool", GStr (ToolCall_Name tc)); ("output", GStr out)];
          run_tools stepIdx stepStart calls'
            (outputs ++ [mkPersistedToolOutput (ToolCall_Name tc) (ToolCall_ID tc) out])
            (append_message (mkMemoryMessage MessageRoleTool out (ToolCall_ID tc) []) ls)
      end
  end.

(** What is persisted as the step's output. *)
Definition tool_output (outputs : list persistedToolOutput) : string :=
  let last := match rev outputs with o :: _ => pto_Output o | [] => "" end in
  if (1 <? Z.of_nat (length outputs)) then default last (json_encode_outputs outputs) else last.
(** Save memory and workspace under the step's keys. *)
Definition save_checkpoint (stepIdx : Z) (ls : LoopState) : M (flow (CheckpointRef * LoopState)) :=
  let ls := ls <| ls_mem ::= (fun m => m <| MemorySnapshot_StepIndex := stepIdx |>) |> in
  r ← e_art (Save tenantID taskID (ls_mem ls));
  match r with
  | Err e => fail_run stepIdx ("memory checkpoint failed: " +:+ Error e) ls
  | Ok memRef =>
      w ← getW;
      r ← e_art (SnapshotWorkspace tenantID taskID runID stepIdx (ew_ws w));
      match r with
      | Err e => fail_run stepIdx ("workspace checkpoint failed: " +:+ Error e) ls
      | Ok wsRef => mret (Next (mkCheckpointRef (Some memRef) (Some wsRef), ls))
      end
  end.

(** Write the step; a conflict means that it was written before. *)
Definition write_step (step : Step) (ls : LoopState) : M (flow unit) :=
  r ← externalizeLargeStepFields tenantID taskID runID step;
  match r with
  | Err e => fail_run (Step_StepIndex step) ("externalize step fields failed: " +:+ Error e) ls
  | Ok step' =>
      r ← e_store (PutStep step');
      match r with
      | Err e =>
          if errors_Is e SConflict then mret (Next tt)
          else fail_run (Step_StepIndex step) ("write step failed: " +:+ Error e) ls
      | Ok _ => mret (Next tt)
      end
  end.

(** The final answer. *)
Definition write_final (stepIdx : Z) (stepEnd : Time) (resp : LLMResponse) (c : CheckpointRef) (ls : LoopState)
    : M (flow LoopState) :=
  r ← externalizeLargeStepFields tenantID taskID runID
        (mkStep runID (stepIdx + 1) StepTypeFinal StepStatusOK (LLMResponse_Content resp) "" stepEnd stepEnd 0
           None (Some c) "" "");
  match r with
  | Err e => fail_run (stepIdx + 1) ("externalize final step fields failed: " +:+ Error e) ls
  | Ok finalStep =>
      _ ← e_store (PutStep finalStep);
      _ ← e_store (UpdateLastStepIndex taskID runID (stepIdx + 1));
      _ ← push StreamEventComplete [("final_answer", GStr (LLMResponse_Content resp))];
      mret (Done (finish RunStatusSucceeded (stepIdx + 1) "" ls))
  end.

(** After the step was written: a truncated answer, a final answer, or another step. *)
Definition conclude_step (stepIdx : Z) (stepEnd : Time) (resp : LLMResponse) (c : CheckpointRef) (ls : LoopState)
    : M (flow LoopState) :=
  let no_calls := Nat.eqb (length (LLMResponse_ToolCalls resp)) 0 in
  if no_calls && bool_decide (LLMResponse_FinishReason resp = "length") then
    let ls := ls <| ls_lengthStops ::= (fun n => n + 1) |> in
    if maxConsecutiveLengthStops <=? ls_lengthStops ls then
      let errMsg := "llm response truncated " +:+ fmt_d (ls_lengthStops ls) +:+ " times consecutively" in
      _ ← push StreamEventError [("error_code", GStr "LLM_TRUNCATED"); ("message", GStr errMsg)];
      fail_run stepIdx errMsg ls
    else mret (Next (append_message (mkMemoryMessage MessageRoleUser lengthContinuePrompt "" []) ls))
  else
    let ls := ls <| ls_lengthStops := 0 |> in
    if no_calls && bool_decide (LLMResponse_FinishReason resp = "stop")
    then write_final stepIdx stepEnd resp c ls
    else mret (Next ls).

(** The tools, the checkpoint and the step of one response. *)
Definition perform_step (stepIdx : Z) (stepStart : Time) (resp : LLMResponse) (ls : LoopState) : M (flow LoopState) :=
  let resp := resp <| LLMResponse_ToolCalls ::= name_calls stepIdx |> in
  let ls := append_message (assistant_message resp) ls in
  let stepType := if Nat.eqb (length (LLMResponse_ToolCalls resp)) 0 then StepTypeLLMCall else StepTypeToolCall in
  flow_bind (run_tools stepIdx stepStart (LLMResponse_ToolCalls resp) [] ls) (fun '(outputs, ls) =>
  stepEnd ← now;
  let latency := Duration_Milliseconds (time_Sub stepEnd stepStart) in
  flow_bind (save_checkpoint stepIdx ls) (fun '(c, ls) =>
  flow_bind (write_step (mkStep runID stepIdx stepType StepStatusOK (LLMResponse_Content resp) (tool_output outputs)
      stepStart stepEnd latency (LLMResponse_TokenUsage resp) (Some c) "" "") ls) (fun _ =>
  _ ← e_store (UpdateLastStepIndex taskID runID stepIdx);
  _ ← push StreamEventStepEnd [("step_index", GInt stepIdx); ("type", GStr (string_of_StepType stepType));
         ("latency_ms", GInt latency)];
  conclude_step stepIdx stepEnd resp c ls))).

(** One turn of the loop. *)
Definition engine_step (stepIdx : Z) (ls : LoopState) : M (flow LoopState) :=
  flow_bind (check_abort stepIdx ls) (fun _ =>
  flow_bind (check_cancelled stepIdx ls) (fun _ =>
  _ ← push StreamEventStepStart [("step_index", GInt stepIdx)];
  stepStart ← now;
  flow_bind (call_llm stepIdx stepStart ls) (fun '(resp, ls) =>
  flow_bind (account_usage stepIdx stepStart resp ls) (fun ls =>
  perform_step stepIdx stepStart resp ls)))).

(** [n] more turns, from step [stepIdx]; then the limit is reached. *)
Fixpoint engine_loop (n : nat) (limit stepIdx : Z) (ls : LoopState) : M (result error RunResult) :=
  match n with
  | O =>
      _ ← push StreamEventError [("error_code", GStr "MAX_STEPS"); ("message", GStr "max steps reached")];
      mret (finish RunStatusFailed (limit - 1) "max steps reached" ls)
  | Datatypes.S n' =>
      r ← engine_step stepIdx ls;
      match r with
      | Done o => mret o
      | Next ls => engine_loop n' limit (stepIdx + 1) ls
      end
  end.

Definition Execute : M (result error RunResult) :=
  match check_prompt with
  | Some res => mret (Ok res)
  | None =>
      _ ← act (fun w => (w <| ew_seq := 0 |>, tt));
      r ← initial_state;
      match r with
      | Err e => mret (Err e)
      | Ok (mem, startStep) =>
          engine_loop (Z.to_nat (Config_MaxSteps cfg)) (startStep + Config_MaxSteps cfg) startStep
            (mkLoopState (with_system_prompt mem) 0 f_zero 0)
      end
  end.
End engine.

(** ** Relations preserved by the stages

    [preserves R m]: every run of [m] leads from a world to one related by [R].  For a
    preorder closed under the primitive effects of the engine, the call of the model apart,
    every stage of the loop body but that call preserves it. *)

Definition preserves {W X} (R : W -> W -> Prop) (m : ST W X) : Prop := forall w, R w (m w).1.

Lemma preserves_ret {W X} (R : W -> W -> Prop) `{!Reflexive R} (x : X) : preserves R (mret x).
Proof. intros w. cbn. reflexivity. Qed.

Lemma preserves_bind {W X Y} (R : W -> W -> Prop) `{!Transitive R} (m : ST W X) (k : X -> ST W Y) :
  preserves R m -> (forall x, preserves R (k x)) -> preserves R (m ≫= k).
Proof. intros Hm Hk w. rewrite ST_bind_run. etrans; [apply Hm|apply Hk]. Qed.

Lemma flow_bind_run {S A F L P X Y} (m : ST (EngW S A F L P) (flow X)) (k : X -> ST (EngW S A F L P) (flow Y)) w :
  flow_bind m k w = match m w with
                    | (w', Done o) => (w', Done o)
                    | (w', Next x) => k x w'
                    end.
Proof. unfold flow_bind. rewrite ST_bind_run. by destruct (m w) as [w' [o|x]]. Qed.

Section stages.
Context {S A F L P : Type} `{HS : StateStore S} `{HA : ArtifactStore A} `{HF : Workspace F} `{HLL : LLMClient L}
  `{HP : Pusher P}.
Context `{HU : Unicode} `{HT : TextLib} `{HC : SnapshotCodec} (env : EngineEnv) (cfg : Config) (tools : Registry (A * F)).
Context (task : Task) (run : Run).
Abbreviation W := (EngW S A F L P).

Section preserve.
Context (R : W -> W -> Prop) `{HPre : !PreOrder R}.
Context (R_tick : forall w, R w (w <| ew_tick ::= Datatypes.S |>)).
Context (R_art : forall w a f, R w (w <| ew_art := a |> <| ew_ws := f |>)).
Context (R_pusher : forall w p, R w (w <| ew_pusher := p |>)).
Context (R_event : forall ty d, preserves R
  (next_event (S := S) (A := A) (F := F) (L := L) (P := P) env (Task_TaskID task) (Run_RunID run) ty d)).
Context (R_step : forall st, preserves R (e_store (A := A) (F := F) (L := L) (P := P) (PutStep st))).
Context (R_last : forall i, preserves R (e_store (A := A) (F := F) (L := L) (P := P)
  (UpdateLastStepIndex (Task_TaskID task) (Run_RunID run) i))).
Context (R_usage : forall u c, preserves R (e_store (A := A) (F := F) (L := L) (P := P)
  (AddRunUsage (Task_TaskID task) (Run_RunID run) u c))).
Context (R_put : forall t1 t2 ev, preserves R (e_store (A := A) (F := F) (L := L) (P := P) (PutEvent t1 t2 ev))).
Context (R_del : forall id, preserves R (e_store (A := A) (F := F) (L := L) (P := P) (DeleteConnection id))).

Lemma p_ret {X} (x : X) : preserves R (mret x).
Proof. exact (preserves_ret R x). Qed.

Lemma p_bind {X Y} (m : ST W X) (k : X -> ST W Y) :
  preserves R m -> (forall x, preserves R (k x)) -> preserves R (m ≫= k).
Proof. exact (preserves_bind R m k). Qed.

Lemma p_flow {X Y} (m : ST W (flow X)) (k : X -> ST W (flow Y)) :
  preserves R m -> (forall x, preserves R (k x)) -> preserves R (flow_bind m k).
Proof. intros Hm Hk. apply p_bind; [done|]. intros [o|x]; [apply p_ret|apply Hk]. Qed.

Lemma p_now : preserves R (now env).
Proof. intros w. apply R_tick. Qed.

Lemma p_done : preserves R (ctx_done env).
Proof. intros w. apply R_tick. Qed.

Lemma p_read {X} (f : S -> X) : preserves R (e_read f).
Proof. intros w. cbn. reflexivity. Qed.

Lemma p_get : preserves R getW.
Proof. intros w. cbn. reflexivity. Qed.

Lemma p_art {X} (f : A -> A * X) : preserves R (e_art f).
Proof.
  intros w. unfold e_art. destruct (f (ew_art w)) as [a x]. cbn.
  exact (R_art w a (ew_ws w)).
Qed.

Ltac pres_with tac :=
  repeat first
    [ progress intros
    | tac
    | apply p_ret | apply p_now | apply p_done | apply p_read | apply p_get | apply p_art
    | apply R_step | apply R_last | apply R_usage | apply R_put | apply R_del | apply R_event
    | apply p_bind | apply p_flow
    | case_match ].
Ltac pres := pres_with fail.

Lemma p_delete ids : preserves R (delete_connections ids).
Proof. induction ids as [|id ids IH]; cbn [delete_connections]; pres; done. Qed.

Lemma p_push_targets targets ev : preserves R (push_targets env targets ev).
Proof.
  unfold push_targets. apply p_bind; [intros w; apply R_tick|]. intros n. apply p_bind; [|intros; apply p_delete].
  intros w. unfold act. destruct (ew_pusher w) as [p|]; [|cbn; reflexivity].
  destruct (push_all _ ev p) as [p' stale]. apply R_pusher.
Qed.

Lemma p_push ty d : preserves R (push env task run ty d).
Proof. unfold push, pushEvent. pres_with ltac:(apply p_push_targets). Qed.

Lemma p_error_step i t c e : preserves R (writeErrorStep env (Run_RunID run) i t c e).
Proof. unfold writeErrorStep. pres. Qed.

Lemma p_externalize_field a b c i f v : preserves R (externalizeStepField a b c i f v).
Proof. unfold externalizeStepField. pres. Qed.

Lemma p_externalize a b c st : preserves R (externalizeLargeStepFields a b c st).
Proof. unfold externalizeLargeStepFields. pres_with ltac:(apply p_externalize_field). Qed.

Ltac pres2 := pres_with ltac:(first [apply p_push | apply p_error_step | apply p_externalize]).

Lemma p_fail {X} i m ls : preserves R (fail_run (X := X) i m ls).
Proof. unfold fail_run. apply p_ret. Qed.

Lemma p_check_abort i ls : preserves R (check_abort env task run i ls).
Proof. unfold check_abort. pres2. Qed.

Lemma p_check_cancelled i ls : preserves R (check_cancelled env i ls).
Proof. unfold check_cancelled, fail_run. pres2. Qed.

Lemma p_push_tokens i ts : preserves R (push_tokens env task run i ts).
Proof. induction ts as [|t ts IH]; cbn [push_tokens]; pres2; done. Qed.

Lemma p_account i t resp ls : preserves R (account_usage env task run i t resp ls).
Proof. unfold account_usage, fail_run. pres2. Qed.

Lemma p_run_tools i t calls : forall outs ls, preserves R (run_tools env tools task run i t calls outs ls).
Proof.
  induction calls as [|tc calls IH]; intros outs ls; cbn [run_tools]; [apply p_ret|].
  apply p_bind; [apply p_push|]. intros _. apply p_bind.
  - case_match; [|apply p_ret]. intros w. unfold act.
    destruct (Tool_Execute _ _ _) as [[a f] r]. apply R_art.
  - intros [out|e]; unfold fail_run; pres2; apply IH.
Qed.

Lemma p_perform i t resp ls : preserves R (perform_step env tools task run i t resp ls).
Proof.
  unfold perform_step, save_checkpoint, write_step, conclude_step, write_final, fail_run.
  apply p_flow; [apply p_run_tools|]. pres2.
Qed.

(** The one primitive left: the call of the model. *)
Definition chat (ls : LoopState) (w : W) : W :=
  let req := mkLLMRequest (trimMemoryMessages (MemorySnapshot_Messages (ls_mem ls)) maxEngineMemoryMessages)
               (Run_ModelConfig run) (collectToolSpecs (Some tools)) (classifyTaskPrompt (Task_Prompt task)) in
  w <| ew_llm := (LLM_Chat req (ew_llm w)).1 |> <| ew_requests ::= (fun rs => rs ++ [req]) |>.

Lemma p_call_llm i t ls w : R (chat ls w) (call_llm env tools task run i t ls w).1.
Proof.
  unfold call_llm. rewrite ST_bind_run. unfold act at 1 2. unfold chat. cbn.
  destruct (LLM_Chat _ (ew_llm w)) as [l [tokens resp]]. cbn.
  match goal with |- R ?w1 (?m ?w2).1 => change (R w1 (m w1).1); assert (Hp : preserves R m); [|apply Hp] end.
  unfold fail_run. apply p_bind; [apply p_push_tokens|]. pres2.
Qed.

(** A turn makes at most one call of the model. *)
Lemma step_cases i ls w :
  let w' := (engine_step env tools task run i ls w).1 in
  R w w' \/ exists w1, R w w1 /\ R (chat ls w1) w'.
Proof.
  unfold engine_step. rewrite flow_bind_run.
  pose proof (p_check_abort i ls w) as H1. destruct (check_abort env task run i ls w) as [w1 [o|[]]]; cbn [fst snd] in H1 |- *.
  { by left. }
  rewrite flow_bind_run.
  pose proof (p_check_cancelled i ls w1) as H2. destruct (check_cancelled env i ls w1) as [w2 [o|[]]]; cbn [fst snd] in H2 |- *.
  { left. by etrans. }
  right. rewrite ST_bind_run.
  pose proof (p_push StreamEventStepStart [("step_index", GInt i)] w2) as H3.
  destruct (push env task run _ _ w2) as [w3 []]. cbn [fst snd] in H3 |- *.
  rewrite ST_bind_run. pose proof (p_now w3) as H4. destruct (now env w3) as [w4 t]. cbn [fst snd] in H4 |- *.
  exists w4. split; [etrans; [exact H1|]; etrans; [exact H2|]; by etrans|].
  rewrite flow_bind_run. pose proof (p_call_llm i t ls w4) as H5.
  destruct (call_llm env tools task run i t ls w4) as [w5 [o|[resp ls']]]; cbn [fst snd] in H5 |- *; [done|].
  etrans; [exact H5|].
  match goal with |- R w5 (?m w5).1 => assert (Hp : preserves R m); [|apply Hp] end.
  apply p_flow; [apply p_account|]. intros. apply p_perform.
Qed.
Lemma p_initial : preserves R (initial_state run).
Proof.
  unfold initial_state, restore_checkpoint. pres.
  all: intros w; unfold act; destruct (RestoreWorkspace _ _ _) as [f r]; exact (R_art w (ew_art w) f).
Qed.

Lemma p_step (Hchat : forall ls w, R w (chat ls w)) i ls : preserves R (engine_step env tools task run i ls).
Proof.
  intros w. destruct (step_cases i ls w) as [H|(w1 & H1 & H2)]; [done|].
  etrans; [exact H1|]. etrans; [|exact H2]. apply Hchat.
Qed.

Lemma p_loop (Hchat : forall ls w, R w (chat ls w)) n : forall lim i ls,
  preserves R (engine_loop env tools task run n lim i ls).
Proof.
  induction n as [|n IH]; intros lim i ls; cbn [engine_loop].
  - apply p_bind; [apply p_push|]. intros. apply p_ret.
  - apply p_bind; [by apply p_step|]. intros [o|ls']; [apply p_ret|apply IH].
Qed.

Lemma p_execute (Hchat : forall ls w, R w (chat ls w)) w :
  (Execute env cfg tools task run w).1 = w \/ R (w <| ew_seq := 0 |>) (Execute env cfg tools task run w).1.
Proof.
  unfold Execute. destruct (check_prompt env task) as [res|]; [by left|right].
  rewrite ST_bind_run. unfold act. cbn [fst snd].
  match goal with |- R ?w0 (?m ?w0).1 => assert (Hp : preserves R m); [|apply Hp] end.
  apply p_bind; [apply p_initial|]. intros [[mem start]|e]; [by apply p_loop|apply p_ret].
Qed.
End preserve.
End stages.

(** ** The relations of the properties *)

(** Events are published with consecutive sequence numbers (in int64). *)
Definition numbered {S A F L P} (w w' : EngW S A F L P) : Prop :=
  exists evs, ew_events w' = ew_events w ++ evs /\
    map StreamEvent_Seq evs = map (fun i => wrap64 (ew_seq w + Z.of_nat i)) (seq 1 (length evs)) /\
    wrap64 (ew_seq w') = wrap64 (ew_seq w + Z.of_nat (length evs)).

#[global] Instance numbered_preorder {S A F L P} : PreOrder (@numbered S A F L P).
Proof.
  split.
  - intros w. exists []. cbn. by rewrite app_nil_r, Z.add_0_r.
  - intros w1 w2 w3 (e1 & H1 & N1 & S1) (e2 & H2 & N2 & S2). exists (e1 ++ e2).
    rewrite H2, H1, app_assoc. split; [done|]. split.
    + rewrite map_app, N1, N2, length_app, seq_app, map_app. f_equal.
      assert (seq (1 + length e1) (length e2) = map (Nat.add (length e1)) (seq 1 (length e2))) as ->
        by (rewrite (Nat.add_comm 1 (length e1)); symmetry; apply (fmap_add_seq (length e1) 1)).
      rewrite map_map. apply map_ext. intros i.
      rewrite <- wrap64_add_l, S1, wrap64_add_l. f_equal. lia.
    + rewrite S2, <- wrap64_add_l, S1, wrap64_add_l, length_app. f_equal. lia.
Qed.

Lemma numbered_same {S A F L P} (w w' : EngW S A F L P) :
  ew_events w' = ew_events w -> ew_seq w' = ew_seq w -> numbered w w'.
Proof. intros He Hs. exists []. rewrite He, Hs. cbn. by rewrite app_nil_r, Z.add_0_r. Qed.

(** The requests sent so far are a prefix, and no stage but the call of the model adds one. *)
Definition same_requests {S A F L P} (w w' : EngW S A F L P) : Prop := ew_requests w' = ew_requests w.

#[global] Instance same_requests_preorder {S A F L P} : PreOrder (@same_requests S A F L P).
Proof. split; [done|]. intros w1 w2 w3 H1 H2. unfold same_requests in *. congruence. Qed.

Definition quiet_world {S A F L P} `{StateStore S} (w w' : EngW S A F L P) : Prop := quiet (ew_store w) (ew_store w').

#[global] Instance quiet_world_preorder {S A F L P} `{StateStore S} : PreOrder (@quiet_world S A F L P _).
Proof.
  split; [done|]. intros w1 w2 w3 [H1 H2] [H3 H4]. split; intros; [by rewrite H3|by rewrite H4].
Qed.

Section instances.
Context {S A F L P : Type} `{HS : StateStore S} `{HL : !StateStoreLaws S} `{HA : ArtifactStore A} `{HF : Workspace F}
  `{HLL : LLMClient L} `{HP : Pusher P}.
Context `{HU : Unicode} `{HT : TextLib} `{HC : SnapshotCodec} (env : EngineEnv) (cfg : Config) (tools : Registry (A * F)).
Context (task : Task) (run : Run).
Abbreviation W := (EngW S A F L P).

(** *** Whole runs *)

Lemma event_numbered ty d : preserves numbered
  (next_event (S := S) (A := A) (F := F) (L := L) (P := P) env (Task_TaskID task) (Run_RunID run) ty d).
Proof.
  intros w1. unfold next_event. rewrite ST_bind_run. cbn. eexists [_]. split; [done|]. split; [done|].
  cbn. unfold add64. by rewrite (wrap64_id (wrap64 _)) by apply wrap64_range.
Qed.

Lemma store_numbered {X} (f : S -> S * X) : preserves numbered (e_store (A := A) (F := F) (L := L) (P := P) f).
Proof. intros w. unfold e_store. destruct (f (ew_store w)). by apply numbered_same. Qed.

Lemma execute_numbered (w : W) :
  (Execute env cfg tools task run w).1 = w \/ numbered (w <| ew_seq := 0 |>) (Execute env cfg tools task run w).1.
Proof.
  apply p_execute; try apply _; try (intros; by apply numbered_same); intros; apply store_numbered || apply event_numbered.
Qed.

Lemma execute_quiet (w : W) : quiet_world w (Execute env cfg tools task run w).1.
Proof.
  assert (H : (Execute env cfg tools task run w).1 = w \/
    quiet_world (w <| ew_seq := 0 |>) (Execute env cfg tools task run w).1).
  { apply p_execute; try apply _; try done; intros; intros w1; unfold e_store, quiet_world.
    - pose proof (law_quiet_step st (ew_store w1)). by destruct (PutStep st (ew_store w1)).
    - pose proof (law_quiet_last (Task_TaskID task) (Run_RunID run) i (ew_store w1)).
      by destruct (UpdateLastStepIndex _ _ _ (ew_store w1)).
    - pose proof (law_quiet_usage (Task_TaskID task) (Run_RunID run) u c (ew_store w1)).
      by destruct (AddRunUsage _ _ _ _ (ew_store w1)).
    - pose proof (law_quiet_event t1 t2 ev (ew_store w1)). by destruct (PutEvent _ _ _ (ew_store w1)).
    - pose proof (law_quiet_connection id (ew_store w1)). by destruct (DeleteConnection _ (ew_store w1)). }
  destruct H as [->|H]; [reflexivity|exact H].
Qed.

Lemma store_requests {X} (f : S -> S * X) : preserves same_requests (e_store (A := A) (F := F) (L := L) (P := P) f).
Proof. intros w. unfold e_store. by destruct (f (ew_store w)). Qed.

(** A request of this run: at most 64 messages, the configuration of the run. *)
Definition request_ok (req : LLMRequest) : Prop :=
  Z.of_nat (length (LLMRequest_Messages req)) <= maxEngineMemoryMessages /\
  LLMRequest_ModelConfig req = Run_ModelConfig run.

Lemma trim_length l limit : 0 < limit -> Z.of_nat (length (trimMemoryMessages l limit)) <= limit.
Proof.
  intros Hl. unfold trimMemoryMessages. cbn zeta. case_if as E0; bool_prop.
  { apply orb_true_iff in E0. destruct E0; bool_prop; lia. }
  set (k := match l with m :: _ => _ | [] => _ end).
  assert (Hk : 0 <= k <= 1) by (unfold k; destruct l; [lia|case_if; lia]).
  clearbody k. case_if as E1; bool_prop.
  - rewrite length_take. lia.
  - rewrite length_app, length_take, length_drop. case_if as E2; bool_prop; lia.
Qed.

Lemma step_requests i ls (w : W) :
  exists rs, ew_requests (engine_step env tools task run i ls w).1 = ew_requests w ++ rs /\
    (length rs <= 1)%nat /\ Forall request_ok rs.
Proof.
  assert (H : same_requests w (engine_step env tools task run i ls w).1 \/
    exists w1, same_requests w w1 /\ same_requests (chat tools task run ls w1) (engine_step env tools task run i ls w).1).
  { apply step_cases; try apply _; try done; intros; apply store_requests. }
  destruct H as [H|(w1 & H1 & H2)]; unfold same_requests in *.
  - exists []. rewrite app_nil_r. split; [done|]. split; [cbn; lia|done].
  - eexists [_]. rewrite H2. cbn. rewrite H1. split; [reflexivity|]. split; [lia|].
    constructor; [|done]. split; [cbn; apply trim_length; done|done].
Qed.

Lemma push_requests ty d (w : W) : ew_requests (push env task run ty d w).1 = ew_requests w.
Proof. apply (p_push env task run same_requests); try apply _; try done; intros; apply store_requests. Qed.

Lemma loop_requests n : forall lim i ls (w : W),
  exists rs, ew_requests (engine_loop env tools task run n lim i ls w).1 = ew_requests w ++ rs /\
    (length rs <= n)%nat /\ Forall request_ok rs.
Proof.
  induction n as [|n IH]; intros lim i ls w; cbn [engine_loop]; rewrite ST_bind_run.
  - exists []. rewrite app_nil_r. cbn. rewrite push_requests. split; [done|]. split; [lia|done].
  - destruct (step_requests i ls w) as (r1 & H1 & L1 & F1).
    destruct (engine_step env tools task run i ls w) as [w1 [o|ls']]; cbn [fst snd] in *.
    + exists r1. cbn. split; [done|]. split; [lia|done].
    + destruct (IH lim (i + 1) ls' w1) as (r2 & H2 & L2 & F2). exists (r1 ++ r2).
      rewrite H2, H1, app_assoc, length_app. split; [done|]. split; [lia|by apply Forall_app_2].
Qed.

Lemma initial_requests (w : W) : ew_requests (initial_state run w).1 = ew_requests w.
Proof. by apply (p_initial run same_requests). Qed.
End instances.

(** ** Outcomes

    [outcome Qd Qn m]: whatever the world, [m] ends with a result in [Qd] or goes on with a
    value in [Qn]. *)

Definition outcome {W X} (Qd : result error RunResult -> Prop) (Qn : X -> Prop) (m : ST W (flow X)) : Prop :=
  forall w, match (m w).2 with Done o => Qd o | Next x => Qn x end.

Section outcomes.
Context {S A F L P : Type} `{HS : StateStore S} `{HA : ArtifactStore A} `{HF : Workspace F} `{HLL : LLMClient L}
  `{HP : Pusher P}.
Context `{HU : Unicode} `{HT : TextLib} `{HC : SnapshotCodec} (env : EngineEnv) (cfg : Config) (tools : Registry (A * F)).
Context (task : Task) (run : Run).
Abbreviation W := (EngW S A F L P).

Lemma outcome_ret {X} Qd (Qn : X -> Prop) (x : flow X) :
  match x with Done o => Qd o | Next x => Qn x end -> outcome (W := W) Qd Qn (mret x).
Proof. intros H w. exact H. Qed.

Lemma outcome_bind {X Y} Qd (Qn : Y -> Prop) (m : ST W X) (k : X -> ST W (flow Y)) :
  (forall x, outcome Qd Qn (k x)) -> outcome Qd Qn (m ≫= k).
Proof. intros H w. rewrite ST_bind_run. apply H. Qed.

Lemma outcome_flow {X Y} Qd (Qm : X -> Prop) (Qn : Y -> Prop) (m : ST W (flow X)) (k : X -> ST W (flow Y)) :
  outcome Qd Qm m -> (forall x, Qm x -> outcome Qd Qn (k x)) -> outcome Qd Qn (flow_bind m k).
Proof.
  intros Hm Hk w. rewrite flow_bind_run. specialize (Hm w). destruct (m w) as [w' [o|x]]; [exact Hm|by apply Hk].
Qed.

(** The totals of a loop state are within the budget of the run. *)
Definition in_budget (ls : LoopState) : Prop :=
  checkBudgetExceeded (Run_ModelConfig run) (ls_totalTokens ls) (ls_totalCost ls) = None.

Definition same_totals (ls ls' : LoopState) : Prop :=
  ls_totalTokens ls' = ls_totalTokens ls /\ ls_totalCost ls' = ls_totalCost ls.

Lemma same_totals_budget ls ls' : in_budget ls -> same_totals ls ls' -> in_budget ls'.
Proof. unfold in_budget. by intros H [-> ->]. Qed.

(** What a run may end with in turn [i]. *)
Definition good_result (i : Z) (o : result error RunResult) : Prop :=
  forall res, o = Ok res ->
    match RunResult_Status res with
    | RunStatusSucceeded => RunResult_LastStep res = i + 1 /\ RunResult_ErrorMessage res = "" /\
        checkBudgetExceeded (Run_ModelConfig run) (RunResult_TotalTokens res) (RunResult_TotalCostUSD res) = None
    | RunStatusFailed => i - 1 <= RunResult_LastStep res <= i + 1
    | RunStatusAborted => RunResult_LastStep res = i
    | _ => False
    end.

Lemma good_failed i j m ls : i - 1 <= j <= i + 1 -> good_result i (finish RunStatusFailed j m ls).
Proof. intros Hj res [= <-]. exact Hj. Qed.

Lemma good_err i e : good_result i (Err e).
Proof. by intros res. Qed.

(** Peel the effects off, split the branches, and close the failing ones. *)
Ltac outc :=
  repeat first
    [ progress intros
    | apply outcome_ret
    | apply outcome_bind
    | apply good_err
    | apply good_failed; cbn; lia
    | exact I
    | case_match ].

Lemma o_check_abort i ls : outcome (good_result i) (fun _ => True) (check_abort (S := S) (A := A) (F := F) (L := L) (P := P) env task run i ls).
Proof. unfold check_abort. outc. by intros res [= <-]. Qed.

Lemma o_check_cancelled i ls : outcome (good_result i) (fun _ => True) (check_cancelled (S := S) (A := A) (F := F) (L := L) (P := P) env i ls).
Proof. unfold check_cancelled, fail_run. outc. Qed.

Lemma o_call_llm i t ls : outcome (good_result i) (fun _ => True)
  (call_llm (S := S) (A := A) (F := F) (L := L) (P := P) env tools task run i t ls).
Proof. unfold call_llm, fail_run. outc. Qed.

Lemma o_account i t resp ls : outcome (good_result i) in_budget
  (account_usage (S := S) (A := A) (F := F) (L := L) (P := P) env task run i t resp ls).
Proof. unfold account_usage, fail_run. outc; done. Qed.

Lemma o_run_tools i t calls : forall outs ls ls0, same_totals ls0 ls ->
  outcome (good_result i) (fun x => same_totals ls0 x.2)
    (run_tools (S := S) (A := A) (F := F) (L := L) (P := P) env tools task run i t calls outs ls).
Proof.
  induction calls as [|tc calls IH]; intros outs ls ls0 Hs; cbn [run_tools]; [by apply outcome_ret|].
  unfold fail_run. outc. by apply IH.
Qed.

Lemma o_save i ls : outcome (good_result i) (fun x => same_totals ls x.2)
  (save_checkpoint (S := S) (A := A) (F := F) (L := L) (P := P) task run i ls).
Proof. unfold save_checkpoint, fail_run. outc. done. Qed.

Lemma o_write_step st ls : outcome (good_result (Step_StepIndex st)) (fun _ => True)
  (write_step (S := S) (A := A) (F := F) (L := L) (P := P) task run st ls).
Proof. unfold write_step, fail_run. outc. Qed.

Lemma o_conclude i t resp c ls : in_budget ls -> outcome (good_result i) in_budget
  (conclude_step (S := S) (A := A) (F := F) (L := L) (P := P) env task run i t resp c ls).
Proof. intros Hb. unfold conclude_step, write_final, fail_run. outc; try exact Hb. by intros res [= <-]. Qed.

Lemma o_perform i t resp ls : in_budget ls -> outcome (good_result i) in_budget
  (perform_step (S := S) (A := A) (F := F) (L := L) (P := P) env tools task run i t resp ls).
Proof.
  intros Hb. unfold perform_step. eapply outcome_flow; [by apply o_run_tools|].
  intros [outs ls1] H1. apply outcome_bind. intros tend.
  eapply outcome_flow; [apply o_save|]. intros [c ls2] H2.
  eapply outcome_flow; [apply o_write_step|]. intros _ _. do 2 (apply outcome_bind; intros _).
  apply o_conclude. cbn in H1, H2. by do 2 (eapply same_totals_budget; [|eassumption]).
Qed.

Lemma o_step i ls : outcome (good_result i) in_budget
  (engine_step (S := S) (A := A) (F := F) (L := L) (P := P) env tools task run i ls).
Proof.
  unfold engine_step. eapply outcome_flow; [apply o_check_abort|]. intros _ _.
  eapply outcome_flow; [apply o_check_cancelled|]. intros _ _. do 2 (apply outcome_bind; intros ?).
  eapply outcome_flow; [apply o_call_llm|]. intros [resp ls1] _.
  eapply outcome_flow; [apply o_account|]. intros ls2 H2. by apply o_perform.
Qed.

(** The loop ends in one of its turns, or at the limit. *)
Lemma loop_outcome n : forall lim i ls (w : W),
  let o := (engine_loop env tools task run n lim i ls w).2 in
  (exists j, i <= j < i + Z.of_nat n /\ good_result j o) \/
  exists ls', o = finish RunStatusFailed (lim - 1) "max steps reached" ls'.
Proof.
  induction n as [|n IH]; intros lim i ls w; cbn [engine_loop].
  - right. rewrite ST_bind_run. by eexists.
  - rewrite ST_bind_run. pose proof (o_step i ls w) as Hs.
    destruct (engine_step env tools task run i ls w) as [w1 [o|ls1]]; cbn [fst snd] in *.
    + left. exists i. split; [lia|exact Hs].
    + destruct (IH lim (i + 1) ls1 w1) as [(j & Hj & Hg)|H]; [left|by right].
      exists j. split; [lia|exact Hg].
Qed.
End outcomes.

(** ** The bill

    What a run has used, read off its conversation with the model and not off the engine's own
    counters: the requests that were sent are replayed on the client, and the answers are
    added up. *)

(** The answers of the client to a list of requests, and the client after them. *)
Fixpoint conversation {L} `{LLMClient L} (reqs : list LLMRequest) (l : L) : L * list LLMResponse :=
  match reqs with
  | [] => (l, [])
  | req :: reqs' =>
      let '(l1, (_, r)) := LLM_Chat req l in
      let '(l2, answers) := conversation reqs' l1 in
      (l2, match r with Ok a => a :: answers | Err _ => answers end)
  end.

(** The tokens of the answers, as an integer without bound. *)
Definition tokens_used (answers : list LLMResponse) : Z :=
  foldr Z.add 0 (map (fun a => from_option TokenUsage_Total 0 (LLMResponse_TokenUsage a)) answers).

(** The price of the answers, added up in their order. *)
Definition cost_used `{Unicode} `{TextLib} (getenv : string -> string) (answers : list LLMResponse) : float64 :=
  foldl (fun c a => f_add c (EstimateUsageCostUSD getenv (LLMResponse_ModelID a) (LLMResponse_TokenUsage a)))
    f_zero answers.

Lemma conversation_snoc {L} `{LLMClient L} reqs req : forall l : L,
  conversation (reqs ++ [req]) l =
    (let '(l1, answers) := conversation reqs l in
     let '(l2, (_, r)) := LLM_Chat req l1 in
     (l2, match r with Ok a => answers ++ [a] | Err _ => answers end)).
Proof.
  induction reqs as [|q reqs IH]; intros l; cbn.
  - by destruct (LLM_Chat req l) as [l1 [ts [a|e]]].
  - destruct (LLM_Chat q l) as [l1 [ts r]]. rewrite IH. destruct (conversation reqs l1) as [l2 answers].
    destruct (LLM_Chat req l2) as [l3 [ts' [a|e]]]; by destruct r.
Qed.

Lemma tokens_used_snoc answers a :
  tokens_used (answers ++ [a]) = tokens_used answers + from_option TokenUsage_Total 0 (LLMResponse_TokenUsage a).
Proof. unfold tokens_used. induction answers as [|b l IH]; cbn in *; lia. Qed.

Section ledger.
Context {S A F L P : Type} `{HS : StateStore S} `{HA : ArtifactStore A} `{HF : Workspace F} `{HLL : LLMClient L}
  `{HP : Pusher P}.
Context `{HU : Unicode} `{HT : TextLib} `{HC : SnapshotCodec} (env : EngineEnv) (cfg : Config) (tools : Registry (A * F)).
Context (task : Task) (run : Run).
Abbreviation W := (EngW S A F L P).

(** The client and the history of requests are as they were. *)
Definition same_model (w w' : W) : Prop := ew_llm w' = ew_llm w /\ ew_requests w' = ew_requests w.

#[local] Instance same_model_preorder : PreOrder same_model.
Proof. split; [done|]. intros w1 w2 w3 [H1 H2] [H3 H4]. split; congruence. Qed.

Lemma store_same_model {X} (f : S -> S * X) : preserves same_model (e_store f).
Proof. intros w. unfold e_store. by destruct (f (ew_store w)). Qed.

Tactic Notation "same_model_by" uconstr(lem) :=
  apply lem; try apply _; try done; intros; apply store_same_model.

(** The totals are the bill of the conversation since [w0]. *)
Definition billed (w0 w : W) (tokens : Z) (cost : float64) : Prop :=
  exists reqs, ew_requests w = ew_requests w0 ++ reqs /\
    ew_llm w = (conversation reqs (ew_llm w0)).1 /\
    tokens = wrap64 (tokens_used (conversation reqs (ew_llm w0)).2) /\
    cost = cost_used (ee_getenv env) (conversation reqs (ew_llm w0)).2.

Definition billed_state (w0 w : W) (ls : LoopState) : Prop := billed w0 w (ls_totalTokens ls) (ls_totalCost ls).
Definition billed_result (w0 w : W) (o : result error RunResult) : Prop :=
  forall res, o = Ok res -> billed w0 w (RunResult_TotalTokens res) (RunResult_TotalCostUSD res).

Lemma billed_same w0 w w' t c : billed w0 w t c -> same_model w w' -> billed w0 w' t c.
Proof. intros (reqs & H1 & H2 & H3) [E1 E2]. exists reqs. by rewrite E1, E2. Qed.

Lemma billed_state_same w0 w w' ls ls' :
  billed_state w0 w ls -> same_model w w' -> same_totals ls ls' -> billed_state w0 w' ls'.
Proof. unfold billed_state. intros H Hw [-> ->]. by eapply billed_same. Qed.

(** A result carries the totals of the state it was made from. *)
Definition totalled (ls : LoopState) (o : result error RunResult) : Prop :=
  forall res, o = Ok res -> RunResult_TotalTokens res = ls_totalTokens ls /\ RunResult_TotalCostUSD res = ls_totalCost ls.

Lemma totalled_finish st i m ls ls' : same_totals ls ls' -> totalled ls (finish st i m ls').
Proof. intros [H1 H2] res [= <-]. done. Qed.

Lemma totalled_err ls e : totalled ls (Err e).
Proof. by intros res. Qed.

Lemma totalled_mono ls ls' o : same_totals ls ls' -> totalled ls' o -> totalled ls o.
Proof. intros [H1 H2] Ho res E. destruct (Ho res E). split; congruence. Qed.

Lemma billed_totalled w0 w ls o : billed_state w0 w ls -> totalled ls o -> billed_result w0 w o.
Proof. intros Hb Ho res E. destruct (Ho res E) as [-> ->]. exact Hb. Qed.

Ltac tot :=
  repeat first
    [ progress intros
    | apply outcome_ret
    | apply outcome_bind
    | apply totalled_err
    | apply totalled_finish; done
    | exact I
    | done
    | case_match ].

Lemma t_check_abort i ls : outcome (totalled ls) (fun _ => True)
  (check_abort (S := S) (A := A) (F := F) (L := L) (P := P) env task run i ls).
Proof. unfold check_abort. tot. Qed.

Lemma t_check_cancelled i ls : outcome (totalled ls) (fun _ => True)
  (check_cancelled (S := S) (A := A) (F := F) (L := L) (P := P) env i ls).
Proof. unfold check_cancelled, fail_run. tot. Qed.

Lemma t_run_tools i t calls : forall outs ls ls0, same_totals ls0 ls ->
  outcome (totalled ls0) (fun x => same_totals ls0 x.2)
    (run_tools (S := S) (A := A) (F := F) (L := L) (P := P) env tools task run i t calls outs ls).
Proof.
  induction calls as [|tc calls IH]; intros outs ls ls0 Hs; cbn [run_tools]; [by apply outcome_ret|].
  unfold fail_run. tot. by apply IH.
Qed.

Lemma t_save i ls ls0 : same_totals ls0 ls -> outcome (totalled ls0) (fun x => same_totals ls0 x.2)
  (save_checkpoint (S := S) (A := A) (F := F) (L := L) (P := P) task run i ls).
Proof. intros Hs. unfold save_checkpoint, fail_run. tot. Qed.

Lemma t_write_step st ls ls0 : same_totals ls0 ls -> outcome (totalled ls0) (fun _ => True)
  (write_step (S := S) (A := A) (F := F) (L := L) (P := P) task run st ls).
Proof. intros Hs. unfold write_step, fail_run. tot. Qed.

Lemma t_conclude i t resp c ls ls0 : same_totals ls0 ls -> outcome (totalled ls0) (same_totals ls0)
  (conclude_step (S := S) (A := A) (F := F) (L := L) (P := P) env task run i t resp c ls).
Proof. intros Hs. unfold conclude_step, write_final, fail_run. tot. Qed.

Lemma t_perform i t resp ls : outcome (totalled ls) (same_totals ls)
  (perform_step (S := S) (A := A) (F := F) (L := L) (P := P) env tools task run i t resp ls).
Proof.
  unfold perform_step. eapply outcome_flow; [by apply t_run_tools|].
  intros [outs ls1] H1. apply outcome_bind. intros tend.
  eapply outcome_flow; [by apply t_save|]. intros [c ls2] H2.
  eapply outcome_flow; [by apply t_write_step|]. intros _ _. do 2 (apply outcome_bind; intros _).
  by apply t_conclude.
Qed.

(** The state after the usage of an answer was added. *)
Definition charged (a : LLMResponse) (ls : LoopState) : LoopState :=
  match LLMResponse_TokenUsage a with
  | Some u => ls <| ls_totalTokens ::= (fun t => add64 t (TokenUsage_Total u)) |>
  | None => ls
  end <| ls_totalCost ::= (fun c => f_add c
           (EstimateUsageCostUSD (ee_getenv env) (LLMResponse_ModelID a) (LLMResponse_TokenUsage a))) |>.

Lemma t_account i t resp ls : outcome (totalled (charged resp ls)) (same_totals (charged resp ls))
  (account_usage (S := S) (A := A) (F := F) (L := L) (P := P) env task run i t resp ls).
Proof. unfold account_usage, fail_run. fold (charged resp ls). tot. Qed.

Abbreviation request_of ls := (mkLLMRequest
  (trimMemoryMessages (MemorySnapshot_Messages (ls_mem ls)) maxEngineMemoryMessages)
  (Run_ModelConfig run) (collectToolSpecs (Some tools)) (classifyTaskPrompt (Task_Prompt task))).

Lemma t_call_llm i t ls (w : W) :
  match (call_llm env tools task run i t ls w).2 with
  | Done o => (exists e, (LLM_Chat (request_of ls) (ew_llm w)).2.2 = Err e) /\ totalled ls o
  | Next (resp, ls1) => (LLM_Chat (request_of ls) (ew_llm w)).2.2 = Ok resp /\ same_totals ls ls1
  end.
Proof.
  unfold call_llm. rewrite ST_bind_run. unfold act. cbn.
  destruct (LLM_Chat _ (ew_llm w)) as [l [tokens [a|e]]]; cbn; rewrite !ST_bind_run; cbn; [done|].
  split; [by eexists|by apply totalled_finish].
Qed.

(** One more exchange with the model. *)
Lemma billed_chat w0 w ls (answer : result error LLMResponse) :
  billed_state w0 w ls -> (LLM_Chat (request_of ls) (ew_llm w)).2.2 = answer ->
  billed_state w0 (chat tools task run ls w) (match answer with Ok a => charged a ls | Err _ => ls end).
Proof.
  intros (reqs & Hr & Hl & Ht & Hc) Ha. exists (reqs ++ [request_of ls]). rewrite conversation_snoc.
  destruct (conversation reqs (ew_llm w0)) as [l0 answers]. cbn [fst snd] in Hl, Ht, Hc. subst l0.
  assert (Hq : ew_requests (chat tools task run ls w) = ew_requests w0 ++ reqs ++ [request_of ls])
    by (cbn; by rewrite Hr, app_assoc).
  rewrite Hq. unfold chat. destruct (LLM_Chat _ (ew_llm w)) as [l [tokens r]]. cbn [fst snd] in Ha |- *. subst r.
  destruct answer as [a|e]; cbn [fst snd]; [|done]. split; [done|]. split; [done|].
  rewrite tokens_used_snoc. unfold cost_used in *. rewrite foldl_snoc, <- Hc. unfold charged.
  destruct (LLMResponse_TokenUsage a); cbn; rewrite Ht, ?Z.add_0_r.
  - unfold add64. by rewrite wrap64_add_l.
  - done.
Qed.

(** [bills w0 m w N]: from [w], [m] ends with a result that carries the bill, or goes on as [N] says. *)
Definition bills {X} (w0 : W) (m : ST W (flow X)) (w : W) (N : X -> W -> Prop) : Prop :=
  match m w with
  | (w', Done o) => billed_result w0 w' o
  | (w', Next x) => N x w'
  end.

Lemma bills_stage {X} w0 ls (Qn : X -> Prop) (m : ST W (flow X)) w :
  preserves same_model m -> outcome (totalled ls) Qn m -> billed_state w0 w ls ->
  bills w0 m w (fun x w' => Qn x /\ same_model w w').
Proof.
  intros Hp Ho Hb. unfold bills. specialize (Hp w). specialize (Ho w).
  destruct (m w) as [w' [o|x]]; cbn in Hp, Ho; [|done].
  eapply billed_totalled; [|exact Ho]. by eapply billed_state_same.
Qed.

Lemma bills_flow {X Y} w0 (m : ST W (flow X)) (k : X -> ST W (flow Y)) w N N' :
  bills w0 m w N -> (forall x w', N x w' -> bills w0 (k x) w' N') -> bills w0 (flow_bind m k) w N'.
Proof.
  intros Hm Hk. unfold bills in *. rewrite flow_bind_run. destruct (m w) as [w' [o|x]]; [done|]. by apply Hk.
Qed.

Lemma bills_bind {X Y} w0 (m : ST W X) (k : X -> ST W (flow Y)) w N :
  preserves same_model m -> (forall x w', same_model w w' -> bills w0 (k x) w' N) -> bills w0 (m ≫= k) w N.
Proof. intros Hp Hk. unfold bills. rewrite ST_bind_run. apply Hk, Hp. Qed.

Lemma bills_call w0 i t ls w : billed_state w0 w ls ->
  bills w0 (call_llm env tools task run i t ls) w (fun x w' => billed_state w0 w' (charged x.1 x.2)).
Proof.
  intros Hb. unfold bills.
  assert (Hs : same_model (chat tools task run ls w) (call_llm env tools task run i t ls w).1)
    by same_model_by (p_call_llm env tools task run same_model).
  pose proof (t_call_llm i t ls w) as Ha.
  destruct (call_llm env tools task run i t ls w) as [w' [o|[resp ls1]]]; cbn [fst snd] in *.
  - destruct Ha as [[e Ha] Ho]. eapply billed_totalled; [|exact Ho].
    eapply billed_state_same; [exact (billed_chat w0 w ls _ Hb Ha)|done|done].
  - destruct Ha as [Ha [Et Ec]]. eapply billed_state_same; [exact (billed_chat w0 w ls _ Hb Ha)|done|].
    unfold same_totals, charged. destruct (LLMResponse_TokenUsage resp); cbn; by rewrite Et, Ec.
Qed.

Lemma step_billed w0 i ls w : billed_state w0 w ls ->
  bills w0 (engine_step env tools task run i ls) w (fun ls' w' => billed_state w0 w' ls').
Proof.
  intros Hb. unfold engine_step.
  eapply bills_flow; [apply (bills_stage _ ls); [same_model_by p_check_abort|apply t_check_abort|done]|].
  intros _ w1 [_ H1]. assert (Hb1 : billed_state w0 w1 ls) by (by eapply billed_state_same).
  eapply bills_flow; [apply (bills_stage _ ls); [same_model_by p_check_cancelled|apply t_check_cancelled|done]|].
  intros _ w2 [_ H2]. apply bills_bind; [same_model_by p_push|]. intros _ w3 H3.
  apply bills_bind; [by intros w4|]. intros t w4 H4.
  eapply bills_flow.
  { apply bills_call. eapply (billed_state_same _ w1); [done| |done]. etrans; [exact H2|]. by etrans. }
  intros [resp ls1] w5 H5. cbn [fst snd] in H5.
  eapply bills_flow; [apply (bills_stage _ (charged resp ls1)); [same_model_by p_account|apply t_account|done]|].
  intros ls2 w6 [Ht H6]. assert (Hb6 : billed_state w0 w6 ls2) by (by eapply billed_state_same).
  pose proof (bills_stage w0 ls2 (same_totals ls2) (perform_step env tools task run i t resp ls2) w6) as Hp.
  unfold bills in *. specialize (Hp ltac:(same_model_by p_perform) ltac:(apply t_perform) Hb6).
  destruct (perform_step _ _ _ _ _ _ _ _ w6) as [w7 [o|ls3]]; [done|]. destruct Hp as [Ht' Hm].
  by eapply billed_state_same.
Qed.

Lemma loop_billed w0 n : forall lim i ls w, billed_state w0 w ls ->
  let '(w', o) := engine_loop env tools task run n lim i ls w in billed_result w0 w' o.
Proof.
  induction n as [|n IH]; intros lim i ls w Hb; cbn [engine_loop]; rewrite ST_bind_run.
  - match goal with |- context [push env task run ?a ?b w] => assert (Hp : preserves same_model (push env task run a b))
      by same_model_by p_push; specialize (Hp w); destruct (push env task run a b w) as [w1 []] end.
    eapply billed_totalled; [by eapply billed_state_same|by apply totalled_finish].
  - pose proof (step_billed w0 i ls w Hb) as Hs. unfold bills in Hs.
    destruct (engine_step env tools task run i ls w) as [w1 [o|ls1]]; cbn [fst snd]; [exact Hs|by apply IH].
Qed.

(** The totals of a result are the bill of the conversation of this execution. *)
Lemma execute_billed (w : W) :
  let '(w', o) := Execute env cfg tools task run w in billed_result w w' o.
Proof.
  assert (H0 : billed w w 0 f_zero) by (exists []; by rewrite app_nil_r).
  unfold Execute. destruct (check_prompt env task) as [r|] eqn:Ep.
  - intros res [= <-]. unfold check_prompt in Ep. destruct (promptpolicy.Validate _ _); [|done]. by injection Ep as <-.
  - rewrite ST_bind_run. cbn [act fst snd]. rewrite ST_bind_run.
    assert (Hp : preserves same_model (initial_state run)) by same_model_by p_initial.
    match goal with |- context [initial_state run ?w0] => specialize (Hp w0);
      destruct (initial_state run w0) as [w1 [[mem start]|e]] end; cbn [fst snd] in *; [|by intros res].
    apply loop_billed. unfold billed_state. cbn. by eapply billed_same.
Qed.
End ledger.

(** Both caps of a configuration, written out. *)
Definition within_caps (mc : option ModelConfig) (tokens : Z) (cost : float64) : Prop :=
  forall c, mc = Some c ->
    (0 < ModelConfig_MaxTokens c -> tokens <= ModelConfig_MaxTokens c) /\
    (f_gtb (ModelConfig_CostCapUSD c) f_zero = true ->
     f_gtb cost (f_add (ModelConfig_CostCapUSD c) (f_lit 1 1000000000)) = false).

Lemma checkBudgetExceeded_none mc tokens cost : checkBudgetExceeded mc tokens cost = None -> within_caps mc tokens cost.
Proof.
  intros H c ->. unfold checkBudgetExceeded in H.
  destruct (_ && _) eqn:E1; [done|]. destruct (f_gtb _ _ && _) eqn:E2; [done|].
  apply andb_false_iff in E1, E2. split; [intros Hp; destruct E1; bool_prop; lia|].
  intros Hc. rewrite Hc in E2. by destruct E2.
Qed.

(** ** Properties *)

(** The index of the first step of a run. *)
Definition first_step (run : Run) : Z :=
  match Run_ResumeFromStepIndex run with None => 0 | Some i => i + 1 end.

Lemma initial_start {S A F L P} `{HS : StateStore S} `{HA : ArtifactStore A} `{HF : Workspace F} `{HC : SnapshotCodec}
    run (w : EngW S A F L P) mem start :
  (initial_state run w).2 = Ok (mem, start) -> start = first_step run.
Proof.
  unfold initial_state, first_step. destruct (Run_ResumeFromStepIndex run) as [i|]; [|by intros [= _ <-]].
  rewrite ST_bind_run. cbn. destruct (GetStep _ _ _) as [st|e]; [|done]. rewrite ST_bind_run.
  destruct (restore_checkpoint _ _ _ _) as [w1 [m|e]]; cbn; [by intros [= _ <-]|done].
Qed.

Section properties.
Context {S A F L P : Type} `{HS : StateStore S} `{HL : !StateStoreLaws S} `{HA : ArtifactStore A}
  `{HAL : !ArtifactStoreLaws A} `{HF : Workspace F} `{HLL : LLMClient L} `{HP : Pusher P}.
Context `{HU : Unicode} `{HT : TextLib} `{HC : SnapshotCodec} (exact : MemorySnapshot -> Prop)
  `{HCL : !SnapshotCodecLaws exact} (env : EngineEnv) (cfg : Config) (tools : Registry (A * F)).
Context (task : Task) (run : Run).
Abbreviation W := (EngW S A F L P).

(** How an execution can end: refused by the prompt policy, in a turn, or at the limit. *)
Lemma execute_cases (w : W) res :
  (Execute env cfg tools task run w).2 = Ok res ->
  (RunResult_Status res = RunStatusFailed /\
     (RunResult_LastStep res = -1 \/ RunResult_LastStep res = first_step run + Config_MaxSteps cfg - 1)) \/
  exists j, first_step run <= j < first_step run + Z.of_nat (Z.to_nat (Config_MaxSteps cfg)) /\ good_result run j (Ok res).
Proof.
  unfold Execute. destruct (check_prompt env task) as [r|] eqn:Ep.
  - intros [= <-]. unfold check_prompt in Ep. destruct (promptpolicy.Validate _ _); [|done]. injection Ep as <-. by left; auto.
  - rewrite ST_bind_run. cbn [act fst snd]. rewrite ST_bind_run.
    match goal with |- context [initial_state run ?w0] =>
      pose proof (initial_start run w0) as Hst; destruct (initial_state run w0) as [w1 [[mem start]|e]] end;
      cbn [fst snd] in *; [|done].
    rewrite <- (Hst mem start eq_refl). intros Ho.
    destruct (loop_outcome env tools task run (Z.to_nat (Config_MaxSteps cfg)) (start + Config_MaxSteps cfg) start
      (mkLoopState (with_system_prompt task mem) 0 f_zero 0) w1) as [(j & Hj & Hg)|[ls' Hf]].
    + right. exists j. split; [exact Hj|]. rewrite <- Ho. exact Hg.
    + left. rewrite Ho in Hf. injection Hf as ->. cbn. auto.
Qed.

Lemma execute_final (w : W) res : (Execute env cfg tools task run w).2 = Ok res ->
  RunResult_Status res ∈ [RunStatusSucceeded; RunStatusFailed; RunStatusAborted].
Proof.
  intros H. destruct (execute_cases w res H) as [[-> _]|(j & _ & Hg)]; clear dependent exact; clear HAL HL; [set_solver|].
  specialize (Hg res eq_refl). destruct (RunResult_Status res); try done; set_solver.
Qed.

(** C8: The result of Execute: a run that is not refused with an error ends SUCCEEDED, FAILED or ABORTED, never
    in a status that is not final, and its totals are the bill of its own conversation with the model: the requests
    it sent, replayed on the client, give the answers whose tokens (summed, in int64) and prices (added up in order)
    are the reported totals. A run that SUCCEEDED has no error message, these totals are at most the token cap and
    the cost cap (plus the tolerance of 1e-9) of its configuration wherever the caps are set, and its last step lies
    after the first one and within the step limit. *)
Theorem execute_outcome (w : W) res :
  0 <= Config_MaxSteps cfg -> (Execute env cfg tools task run w).2 = Ok res ->
  (exists reqs, ew_requests (Execute env cfg tools task run w).1 = ew_requests w ++ reqs /\
     let answers := (conversation reqs (ew_llm w)).2 in
     RunResult_TotalTokens res = wrap64 (tokens_used answers) /\
     RunResult_TotalCostUSD res = cost_used (ee_getenv env) answers) /\
  match RunResult_Status res with
  | RunStatusSucceeded =>
      first_step run < RunResult_LastStep res <= first_step run + Config_MaxSteps cfg /\
      RunResult_ErrorMessage res = "" /\
      forall c, Run_ModelConfig run = Some c ->
        (0 < ModelConfig_MaxTokens c -> RunResult_TotalTokens res <= ModelConfig_MaxTokens c) /\
        (f_gtb (ModelConfig_CostCapUSD c) f_zero = true ->
         f_gtb (RunResult_TotalCostUSD res) (f_add (ModelConfig_CostCapUSD c) (f_lit 1 1000000000)) = false)
  | RunStatusAborted => first_step run <= RunResult_LastStep res < first_step run + Config_MaxSteps cfg
  | RunStatusFailed =>
      RunResult_LastStep res = -1 \/
      first_step run - 1 <= RunResult_LastStep res <= first_step run + Config_MaxSteps cfg
  | _ => False
  end.
Proof.
  intros Hmax Ho. split.
  { pose proof (execute_billed env cfg tools task run w) as Hb.
    destruct (Execute env cfg tools task run w) as [w' o]. cbn in Ho. destruct (Hb res Ho) as (reqs & H1 & _ & H2).
    by exists reqs. }
  destruct (execute_cases w res Ho) as [[-> Hl]|(j & Hj & Hg)]; [lia|].
  specialize (Hg res eq_refl). destruct (RunResult_Status res); try done; [|lia|lia].
  destruct Hg as (Hlast & Hmsg & Hb). split; [lia|]. split; [done|]. exact (checkBudgetExceeded_none _ _ _ Hb).
Qed.

(** C9: Execute calls the model at most MaxSteps times, always with the configuration of the run and at most 64
    messages. *)
Theorem llm_calls_bounded (w : W) :
  exists reqs, ew_requests (Execute env cfg tools task run w).1 = ew_requests w ++ reqs /\
    (length reqs <= Z.to_nat (Config_MaxSteps cfg))%nat /\
    Forall (fun req => (length (LLMRequest_Messages req) <= 64)%nat /\
                       LLMRequest_ModelConfig req = Run_ModelConfig run) reqs.
Proof.
  assert (Hex : exists reqs, ew_requests (Execute env cfg tools task run w).1 = ew_requests w ++ reqs /\
    (length reqs <= Z.to_nat (Config_MaxSteps cfg))%nat /\ Forall (request_ok run) reqs).
  { unfold Execute. destruct (check_prompt env task) as [r|].
    { exists []. rewrite app_nil_r. split; [done|]. split; [cbn; lia|done]. }
    rewrite ST_bind_run. cbn [act fst snd]. rewrite ST_bind_run.
    match goal with |- context [initial_state run ?w0] =>
      pose proof (initial_requests run w0) as Hr; destruct (initial_state run w0) as [w1 [[mem start]|e]] end;
      cbn [fst snd] in *.
    - destruct (loop_requests env tools task run (Z.to_nat (Config_MaxSteps cfg)) (start + Config_MaxSteps cfg) start
        (mkLoopState (with_system_prompt task mem) 0 f_zero 0) w1) as (rs & H1 & H2). exists rs.
      rewrite H1, Hr. done.
    - exists []. rewrite app_nil_r. cbn. split; [done|]. split; [lia|done]. }
  destruct Hex as (reqs & H1 & H2 & H3). exists reqs. split; [done|]. split; [done|].
  eapply Forall_impl; [|exact H3]. intros req [Hm Hc]. unfold maxEngineMemoryMessages in Hm. split; [lia|done].
Qed.

(** C10: The events an execution publishes are numbered 1, 2, 3, ... without a gap, whatever the outcome. *)
Theorem events_gapless (w : W) :
  exists evs, ew_events (Execute env cfg tools task run w).1 = ew_events w ++ evs /\
    (Z.of_nat (length evs) <= max_int64 -> map StreamEvent_Seq evs = map Z.of_nat (seq 1 (length evs))).
Proof.
  destruct (execute_numbered env cfg tools task run w) as [->|(evs & He & Hn & _)].
  { exists []. by rewrite app_nil_r. }
  exists evs. split; [exact He|]. intros Hlen. rewrite Hn. apply map_ext_in. intros i Hi. apply in_seq in Hi.
  cbn. apply wrap64_id. unfold_int64. lia.
Qed.

(** C11: An abort is respected before every step: when it is requested, the turn does not call the model, and the
    run ends ABORTED at that step with the totals reached so far. *)
Theorem abort_stops_run n lim i ls (w : W) reason :
  IsAbortRequested (Task_TaskID task) (ew_store w) = Ok (true, reason) ->
  let '(w', r) := engine_loop env tools task run (Datatypes.S n) lim i ls w in
  r = Ok (mkRunResult RunStatusAborted i "" (ls_totalTokens ls) (ls_totalCost ls)) /\
  ew_requests w' = ew_requests w.
Proof.
  intros Ha. cbn [engine_loop]. rewrite ST_bind_run. unfold engine_step. rewrite flow_bind_run.
  assert (Hp : ew_requests (check_abort env task run i ls w).1 = ew_requests w).
  { apply (p_check_abort env task run same_requests); try apply _; try done; intros; apply store_requests. }
  assert (Hr : (check_abort env task run i ls w).2 = Done (finish RunStatusAborted i "" ls)).
  { unfold check_abort. rewrite ST_bind_run. cbn [e_read fst snd]. rewrite Ha. by rewrite !ST_bind_run. }
  destruct (check_abort env task run i ls w) as [w1 o]. cbn [fst snd] in *. subst o. done.
Qed.

Lemma keys_differ t1 t2 t3 i t4 t5 t6 j : S3Key t1 t2 t3 i <> WorkspaceS3Key t4 t5 t6 j.
Proof. unfold S3Key, WorkspaceS3Key. by intros [=]. Qed.

(** C12: A checkpoint can be resumed: a run that resumes from a step with the checkpoint of save_checkpoint starts
    at the next index with exactly the saved memory, under its own run id, and with the workspace restored from the
    archive taken at the checkpoint, provided the two artifacts are still stored. *)
Theorem checkpoint_resume i ls c ls1 st raw f run2 (w w1 w2 : W) :
  exact ((ls_mem ls) <| MemorySnapshot_StepIndex := i |>) -> Ws_Snapshot (ew_ws w) = Ok raw ->
  save_checkpoint task run i ls w = (w1, Next (c, ls1)) ->
  Step_CheckpointRef st = Some c -> Run_ResumeFromStepIndex run2 = Some i ->
  GetStep (Run_ParentRunID run2) i (ew_store w2) = Ok st ->
  (forall key, Art_Get key (ew_art w2) = Art_Get key (ew_art w1)) ->
  Ws_Restore raw (ew_ws w2) = (f, Ok tt) ->
  initial_state run2 w2 =
    (w2 <| ew_ws := f |>, Ok ((ls_mem ls1) <| MemorySnapshot_RunID := Run_RunID run2 |>, i + 1)).
Proof.
  intros He Hraw Hsave Hc Hres Hget Hart Hrest.
  unfold save_checkpoint, mbind, ST_bind, e_art, getW in Hsave. cbn in Hsave.
  destruct (Save _ _ _ (ew_art w)) as [a1 [memRef|e]] eqn:Es; [|done]. cbn in Hsave.
  destruct (SnapshotWorkspace _ _ _ _ _ a1) as [a2 [wsRef|e]] eqn:Ew; [|done].
  cbn in Hsave. injection Hsave as <- <- <-.
  destruct (Save_stored _ _ _ _ _ _ Es) as (Hkey & data & Hm & Hsha & Hsize & Hst).
  unfold SnapshotWorkspace in Ew. rewrite Hraw in Ew.
  destruct (Art_Put _ raw a1) as [a3 [[sha size]|e]] eqn:Ep; [|done]. injection Ew as <- <-.
  destruct (law_put _ _ _ _ _ _ Ep) as (-> & -> & Hput).
  unfold initial_state. rewrite Hres, ST_bind_run. cbn [e_read fst snd]. rewrite Hget, ST_bind_run.
  unfold restore_checkpoint. rewrite Hc, ST_bind_run. cbn [getW fst snd CheckpointRef_Memory CheckpointRef_Workspace].
  unfold Load. rewrite Hart. cbn [ew_art]. cbn. rewrite Hput, decide_False by (rewrite Hkey; apply keys_differ).
  rewrite Hst, decide_True by done. rewrite check_integrity_none, law_gzip by done.
  destruct (law_json _ He) as (data' & Hm' & Hu). rewrite Hm in Hm'. injection Hm' as <-. rewrite Hu.
  unfold act, RestoreWorkspace. cbn. rewrite Hart. cbn. rewrite Hput, decide_True by done.
  rewrite check_integrity_none by done. rewrite Hrest. done.
Qed.
End properties.

(** Trimming the memory to 64 messages keeps the system message and the last 63 messages and does not look at
    tool calls: the result of a tool call can be kept while the assistant message that asked for it is dropped. *)
Theorem trim_orphans_tool_result sys before call out after :
  MemoryMessage_Role sys = MessageRoleSystem -> MemoryMessage_Role out = MessageRoleTool ->
  length after = 62%nat ->
  trimMemoryMessages (sys :: before ++ call :: out :: after) maxEngineMemoryMessages = sys :: out :: after.
Proof.
  intros Hsys _ Hlen. unfold trimMemoryMessages, maxEngineMemoryMessages. cbn [length].
  rewrite length_app. cbn [length]. rewrite Hlen. rewrite bool_decide_true by done.
  case_if as E; bool_prop. { apply orb_true_iff in E. destruct E; bool_prop; lia. }
  cbn [Z.sub]. case_if as E1; bool_prop; [lia|]. case_if as E2; bool_prop; [lia|].
  replace (Z.to_nat (Z.of_nat _ - _)) with (Datatypes.S (length (before ++ [call]))) by (rewrite length_app; cbn [length]; lia).
  cbn [drop]. replace (before ++ call :: out :: after) with ((before ++ [call]) ++ out :: after)
    by (by rewrite <- app_assoc).
  by rewrite drop_app_length.
Qed.

(** ** A concrete engine, for the witnesses *)

Module engine_demo.
#[export] Existing Instance ascii_unicode.

#[export] Instance text_lib : TextLib := {|
  json_decode _ := None; json_encode _ := None; json_encode_outputs _ := None;
  json_encode_field _ := Ok "";
  bearerTokenPattern_ReplaceAllString s _ := s; plainSecretPattern_ReplaceAllString s _ := s;
  strconv_ParseFloat _ := None |}.

Definition task : Task :=
  mkTask "task_1" "t" "alice" TaskStatusRunning "run_1" false "" None "" "fix the bug" None 0 0.
Definition run : Run :=
  mkRun "task_1" "run_1" "t" RunStatusRunning None "" None None None None 0 None f_zero.

(** The memory of the first checkpoint. *)
Definition memory0 : MemorySnapshot := with_system_prompt task (initial_memory run).

(** A codec that is exact on that memory. *)
#[export] Instance codec : SnapshotCodec := {|
  json_Marshal s := Ok (bytes_of (MemorySnapshot_RunID s));
  json_Unmarshal _ := Ok memory0;
  gzip_compress b := b;
  gzip_decompress b := Ok b |}.

Definition exact (s : MemorySnapshot) : Prop := s = memory0.

#[export] Instance codec_laws : SnapshotCodecLaws exact.
Proof. constructor; [done|]. intros s ->. by eexists. Qed.

(** A workspace that is one file; tools that overwrite it. *)
#[export] Instance workspace : Workspace bytes := {| Ws_Snapshot f := Ok f; Ws_Restore raw _ := (raw, Ok tt) |}.

Definition write_tool : Tool (MemoryArtifactStore * bytes) :=
  mkTool "fs.write" "write a file" "{}" (fun args '(a, _) => ((a, bytes_of args), Ok (mkToolResult "written" ""))).
Definition tools : Registry (MemoryArtifactStore * bytes) := Registry_Register write_tool NewRegistry.

(** A model that plays a script, one response per call, and answers with an error when it is over. *)
#[export] Instance script : LLMClient (list LLMResponse) := fun _ l =>
  match l with
  | r :: l' => (l', (["tok"], Ok r))
  | [] => ([], ([], Err (errors_New "no response")))
  end.

Definition usage : TokenUsage := mkTokenUsage 10 5 15.
Definition answers : list LLMResponse :=
  [mkLLMResponse "writing" [mkToolCall "" "fs.write" "x = 1"] (Some usage) "tool_calls" "gpt-4o" "openai";
   mkLLMResponse "done" [] (Some usage) "stop" "gpt-4o" "openai"].

(** A pusher that counts, all connections alive. *)
#[export] Instance pusher : Pusher nat := fun _ _ p => (Datatypes.S p, (true, None)).

Definition env : EngineEnv :=
  mkEngineEnv (fun n => Z.of_nat n * Second) (fun _ => "") (fun _ => false) (fun n => n).

Definition store : MemoryStore := (MemoryStore_PutTask task NewMemoryStore).1.

Definition world : EngW MemoryStore MemoryArtifactStore bytes (list LLMResponse) nat :=
  mkEngW store NewMemoryArtifactStore [] answers (Some 0%nat) 0 0 [] [].

Definition executed := Execute env DefaultEngineConfig tools task run world.

(** The two scripted turns run the tool, take a checkpoint each and end with the answer. *)
Example executed_ok :
  executed.2 = Ok (mkRunResult RunStatusSucceeded 2 "" 30 (match executed.2 with
    | Ok r => RunResult_TotalCostUSD r | Err _ => f_zero end)) /\
  ew_ws executed.1 = bytes_of "x = 1" /\ length (ew_requests executed.1) = 2%nat /\
  map StreamEvent_Seq (ew_events executed.1) = [1; 2; 3; 4; 5; 6; 7; 8; 9] /\
  match GetStep "run_1" 1 (ew_store executed.1) with
  | Ok st => Step_Input st = "done" /\ is_Some (Step_CheckpointRef st)
  | Err _ => False
  end.
Proof. vm_compute. by eauto 10. Qed.

Lemma execute_outcome_witness :
  match executed.2 with
  | Ok res => RunResult_Status res = RunStatusSucceeded /\ RunResult_LastStep res <= 50 /\
      exists answers, RunResult_TotalTokens res = wrap64 (tokens_used answers)
  | Err _ => False
  end.
Proof.
  pose proof (fun res H => execute_outcome env DefaultEngineConfig tools task run world res ltac:(discriminate) H) as H.
  fold executed in H. destruct executed_ok as [E _]. rewrite E in H. specialize (H _ eq_refl). rewrite E.
  destruct H as [(reqs & _ & Ht & _) [[_ Hl] _]]. split; [reflexivity|]. split; [exact Hl|]. by eexists.
Defined.

Lemma events_gapless_witness : map StreamEvent_Seq (ew_events executed.1) = map Z.of_nat (seq 1 9).
Proof.
  destruct (events_gapless env DefaultEngineConfig tools task run world) as (evs & He & Hs).
  fold executed in He. cbn [world ew_events app] in He. rewrite He.
  assert (Hl : length evs = 9%nat) by (rewrite <- He; vm_compute; reflexivity).
  rewrite Hl in Hs. apply Hs. vm_compute. discriminate.
Defined.

(** The same world after an abort request. *)
Definition aborting : EngW MemoryStore MemoryArtifactStore bytes (list LLMResponse) nat :=
  world <| ew_store := (MemoryStore_SetAbortRequested 1 "task_1" "stop" store).1 |>.

Lemma abort_stops_run_witness :
  (engine_loop env tools task run 50 50 0 (mkLoopState memory0 0 f_zero 0) aborting).2
    = Ok (mkRunResult RunStatusAborted 0 "" 0 f_zero).
Proof.
  pose proof (abort_stops_run env tools task run 49 50 0 (mkLoopState memory0 0 f_zero 0) aborting "stop" eq_refl) as H.
  destruct (engine_loop env tools task run 50 50 0 (mkLoopState memory0 0 f_zero 0) aborting) as [w r].
  exact (proj1 H).
Defined.

(** A run resumed from the first checkpoint. *)
Definition saved := save_checkpoint task run 0 (mkLoopState memory0 0 f_zero 0) (world <| ew_ws := bytes_of "file" |>).
Definition checkpoint : CheckpointRef :=
  match saved.2 with Next (c, _) => c | Done _ => mkCheckpointRef None None end.
Definition step0 : Step :=
  mkStep "run_1" 0 StepTypeLLMCall StepStatusOK "" "" 0 0 0 None (Some checkpoint) "" "".
Definition run2 : Run := run <| Run_RunID := "run_2" |> <| Run_ParentRunID := "run_1" |>
  <| Run_ResumeFromStepIndex := Some 0 |>.
Definition resuming : EngW MemoryStore MemoryArtifactStore bytes (list LLMResponse) nat :=
  saved.1 <| ew_store ::= (fun s => (MemoryStore_PutStep step0 s).1) |> <| ew_ws := [] |>.

Lemma checkpoint_resume_witness :
  initial_state run2 resuming =
    (resuming <| ew_ws := bytes_of "file" |>, Ok (memory0 <| MemorySnapshot_RunID := "run_2" |>, 1)).
Proof.
  apply (checkpoint_resume exact task run 0 (mkLoopState memory0 0 f_zero 0) checkpoint
    (mkLoopState memory0 0 f_zero 0) step0 (bytes_of "file") (bytes_of "file") run2
    (world <| ew_ws := bytes_of "file" |>) saved.1 resuming); reflexivity.
Defined.

Lemma trim_orphans_tool_result_witness :
  let m role := mkMemoryMessage role "" "" [] in
  let after := repeat (m MessageRoleUser) 62 in
  trimMemoryMessages (m MessageRoleSystem :: [m MessageRoleUser] ++ m MessageRoleAssistant :: m MessageRoleTool :: after) 64
    = m MessageRoleSystem :: m MessageRoleTool :: after.
Proof. intros m after. apply (trim_orphans_tool_result (m MessageRoleSystem)); reflexivity. Defined.
End engine_demo.
