(* ===== verification/Worker.v ===== *)
(** * Worker: handling one queue message (src/pkg/engine/worker.go)

    [handleMessage] claims the run of a message, loads task and run, creates a workspace,
    registers the tools, runs the engine and records the final statuses.  It works on the
    world of the engine ([EngW]); the theorems are proved against the laws of the metadata
    store, and use that [Execute] changes no task and no run status ([execute_quiet]).

    The local workspace lives in the file system of the host: its constructor and its cleanup
    are the operations of [WorkspaceFactory].  The built-in tools are an argument; the
    theorems hold for every set of tools, model and pusher. *)

From S2P Require Import Prelude GoLib Model StateStore MemoryStore World TaskService Artifacts Engine.

(** [workspace.NewLocalManager(workspace.DefaultConfig(runID))] and [Cleanup]; the number
    identifies the call. *)
Class WorkspaceFactory (F : Type) := {
  NewWorkspace : nat -> string -> result error F;
  Ws_Cleanup : F -> F }.

Section worker.
Context {S A F L P : Type} `{StateStore S} `{ArtifactStore A} `{Workspace F} `{HWF : WorkspaceFactory F} `{LLMClient L} `{Pusher P}.
Context `{Unicode} `{TextLib} `{SnapshotCodec} (env : EngineEnv) (cfg : Config).
Context (fs_tools : string -> list (Tool (A * F))) (custom : option (Registry (A * F))).
Abbreviation W := (EngW S A F L P).
Abbreviation M := (ST W).

(** The built-in tools, then the caller's, which may override them. *)
Definition worker_registry (exportPrefix : string) : Registry (A * F) :=
  let registry := fold_left (fun r t => Registry_Register t r) (fs_tools exportPrefix) NewRegistry in
  match custom with
  | None => registry
  | Some tools =>
      fold_left (fun r name => match Registry_Get name tools with
                               | Some t => Registry_Register t r
                               | None => r
                               end) (Registry_List tools) registry
  end.

Definition complete_run (taskID runID : string) (status : RunStatus) : M (result error unit) :=
  t ← now env; e_store (CompleteRun t taskID runID status).

Definition update_task_for_run (taskID runID : string) (from : list TaskStatus) (to : TaskStatus)
    : M (result error unit) :=
  t ← now env; e_store (UpdateTaskStatusForRun t taskID runID from to).

(** [errors.Is(err, state.ErrConflict) || errors.Is(err, state.ErrNotFound)] *)
Definition conflict_or_missing (e : error) : bool := errors_Is e SConflict || errors_Is e SNotFound.

Definition final_task_status (runStatus : RunStatus) : TaskStatus :=
  match runStatus with
  | RunStatusFailed => TaskStatusFailed
  | RunStatusAborted => TaskStatusAborted
  | _ => TaskStatusSucceeded
  end.

Definition finalizeRun (taskID runID : string) (runStatus : RunStatus) : M (option error) :=
  r ← complete_run taskID runID runStatus;
  match r with
  | Err e => mret (Some (wrapf "worker: finalize complete run: " e))
  | Ok _ =>
      r ← update_task_for_run taskID runID [TaskStatusRunning] (final_task_status runStatus);
      match r with
      | Err e => mret (if conflict_or_missing e then None
                       else Some (wrapf "worker: finalize update task status: " e))
      | Ok _ => mret None
      end
  end.

(** Steps 3 to 6: the workspace, the tools, the engine and the final statuses. *)
Definition execute_run (msg : SQSMessage) (task : Task) (run : Run) : M (option error) :=
  n ← act (fun w => (w <| ew_tick ::= Datatypes.S |>, ew_tick w));
  match NewWorkspace n (SQSMessage_RunID msg) with
  | Err e => mret (Some (wrapf "worker: create workspace: " e))
  | Ok ws =>
      _ ← act (fun w => (w <| ew_ws := ws |>, tt));
      let exportPrefix := "exports/" +:+ SQSMessage_TenantID msg +:+ "/" +:+ SQSMessage_TaskID msg
                            +:+ "/" +:+ SQSMessage_RunID msg in
      result ← Execute env cfg (worker_registry exportPrefix) task run;
      err ← finalizeRun (SQSMessage_TaskID msg) (SQSMessage_RunID msg)
              (match result with Ok res => RunResult_Status res | Err _ => RunStatusFailed end);
      _ ← act (fun w => (w <| ew_ws ::= Ws_Cleanup |>, tt));
      mret err
  end.

(** Step 2: load task and run. *)
Definition load_run (msg : SQSMessage) : M (option error) :=
  let taskID := SQSMessage_TaskID msg in
  let runID := SQSMessage_RunID msg in
  r ← e_read (GetTask taskID);
  match r with
  | Err e =>
      _ ← complete_run taskID runID RunStatusFailed;
      mret (Some (wrapf "worker: get task: " e))
  | Ok task =>
      if bool_decide (Task_TenantID task ≠ SQSMessage_TenantID msg) then
        _ ← complete_run taskID runID RunStatusFailed;
        _ ← update_task_for_run taskID runID [TaskStatusRunning] TaskStatusFailed;
        mret None
      else
        r ← e_read (GetRun taskID runID);
        match r with
        | Err e =>
            _ ← complete_run taskID runID RunStatusFailed;
            _ ← update_task_for_run taskID runID [TaskStatusRunning] TaskStatusFailed;
            mret (Some (wrapf "worker: get run: " e))
        | Ok run => execute_run msg task run
        end
  end.

Definition handleMessage (msg : SQSMessage) : M (option error) :=
  let taskID := SQSMessage_TaskID msg in
  let runID := SQSMessage_RunID msg in
  t ← now env;
  r ← e_store (ClaimRun t taskID runID);
  match r with
  | Err e => mret (if conflict_or_missing e then None else Some (wrapf "worker: claim run: " e))
  | Ok _ =>
      r ← update_task_for_run taskID runID [TaskStatusQueued; TaskStatusRunning] TaskStatusRunning;
      match r with
      | Err e =>
          if conflict_or_missing e then
            _ ← complete_run taskID runID RunStatusAborted;
            mret None
          else
            _ ← complete_run taskID runID RunStatusFailed;
            mret (Some (wrapf "worker: update task status to RUNNING: " e))
      | Ok _ => load_run msg
      end
  end.
End worker.

(** ** Lemmas *)

Section worker_lemmas.
Context {S A F L P : Type} `{HS : StateStore S} `{HL : !StateStoreLaws S} `{HA : ArtifactStore A} `{HF : Workspace F}
  `{HWF : WorkspaceFactory F} `{HLL : LLMClient L} `{HP : Pusher P}.
Context `{HU : Unicode} `{HT : TextLib} `{HC : SnapshotCodec} (env : EngineEnv) (cfg : Config).
Context (fs_tools : string -> list (Tool (A * F))) (custom : option (Registry (A * F))).
Abbreviation W := (EngW S A F L P).

Implicit Types (w : W) (t : Task) (r : Run).

Lemma complete_run_spec taskID runID status w r :
  GetRun taskID runID (ew_store w) = Ok r ->
  exists w', complete_run env taskID runID status w = (w', Ok tt) /\
    run_status (GetRun taskID runID (ew_store w')) = Some status /\
    forall id, GetTask id (ew_store w') = GetTask id (ew_store w).
Proof.
  intros Hr. unfold complete_run. rewrite ST_bind_run. cbn.
  pose proof (law_complete (ee_now env (ew_tick w)) taskID runID status (ew_store w)) as Hl. rewrite Hr in Hl.
  destruct Hl as (s' & He & Hg & Ht). unfold e_store. cbn. rewrite He. eexists. split; [done|]. cbn.
  rewrite Hg. split; [done|exact Ht].
Qed.

Lemma update_spec taskID runID from to w t :
  GetTask taskID (ew_store w) = Ok t ->
  exists w' res, update_task_for_run env taskID runID from to w = (w', res) /\
    if decide (Task_ActiveRunID t = runID /\ Task_Status t ∈ from) then
      res = Ok tt /\ (exists u, GetTask taskID (ew_store w') = Ok (t <| Task_Status := to |> <| Task_UpdatedAt := u |>)) /\
      forall a b, GetRun a b (ew_store w') = GetRun a b (ew_store w)
    else res = Err ErrConflict /\ ew_store w' = ew_store w.
Proof.
  intros Ht. unfold update_task_for_run. rewrite ST_bind_run. cbn.
  pose proof (law_update_for_run (ee_now env (ew_tick w)) taskID runID from to (ew_store w)) as Hl. rewrite Ht in Hl.
  unfold e_store. cbn. destruct (decide _).
  - destruct Hl as (s' & He & Hg & Hr). rewrite He. eexists _, _. split; [done|]. cbn. eauto.
  - rewrite Hl. eexists _, _. split; [done|]. done.
Qed.

Lemma claim_spec now taskID runID w r :
  GetRun taskID runID (ew_store w) = Ok r -> Run_Status r = RunStatusQueued ->
  exists w', e_store (ClaimRun now taskID runID) w = (w', Ok tt) /\
    (exists r', GetRun taskID runID (ew_store w') = Ok r' /\ Run_Status r' = RunStatusRunning) /\
    forall id, GetTask id (ew_store w') = GetTask id (ew_store w).
Proof.
  intros Hr Hq. pose proof (law_claim now taskID runID (ew_store w)) as Hl. rewrite Hr, decide_True in Hl by done.
  destruct Hl as (s' & He & Hg & Ht). unfold e_store. rewrite He. eexists. split; [done|]. cbn.
  split; [|exact Ht]. eexists. split; [exact Hg|done].
Qed.

(** What [finalizeRun] leaves: the status of the run, and the task only when its active run is
    this one and it is running. *)
Definition finalized (taskID runID : string) (status : RunStatus) t (s : S) : Prop :=
  run_status (GetRun taskID runID s) = Some status /\
  exists t', GetTask taskID s = Ok t' /\ Task_ActiveRunID t' = Task_ActiveRunID t /\
    Task_Status t' = if decide (Task_ActiveRunID t = runID /\ Task_Status t = TaskStatusRunning)
                     then final_task_status status else Task_Status t.

(** Completing the run and moving the task out of RUNNING, as the worker does on every ending. *)
Lemma finish_spec taskID runID status w r t w1 w2 res1 res2 :
  GetRun taskID runID (ew_store w) = Ok r -> GetTask taskID (ew_store w) = Ok t ->
  complete_run env taskID runID status w = (w1, res1) ->
  update_task_for_run env taskID runID [TaskStatusRunning] (final_task_status status) w1 = (w2, res2) ->
  res1 = Ok tt /\ (res2 = Ok tt \/ res2 = Err ErrConflict) /\ finalized taskID runID status t (ew_store w2).
Proof.
  intros Hr Ht E1 E2. destruct (complete_run_spec taskID runID status w r Hr) as (w1' & Ec & Hs & Hsame).
  rewrite E1 in Ec. injection Ec as <- ->. split; [done|].
  assert (Ht1 : GetTask taskID (ew_store w1) = Ok t) by (by rewrite Hsame).
  destruct (update_spec taskID runID [TaskStatusRunning] (final_task_status status) w1 t Ht1) as (w' & res & Eu & Hu).
  rewrite E2 in Eu. injection Eu as <- <-. unfold finalized.
  destruct (decide (Task_ActiveRunID t = runID /\ Task_Status t ∈ [TaskStatusRunning])) as [D|D].
  - destruct Hu as (-> & (u & Hg) & Hrun). split; [by left|]. rewrite Hrun. split; [done|].
    eexists. split; [exact Hg|]. split; [done|]. rewrite decide_True by set_solver. done.
  - destruct Hu as (-> & Hst). split; [by right|]. rewrite Hst. split; [done|].
    exists t. split; [done|]. split; [done|]. rewrite decide_False by set_solver. done.
Qed.

Lemma finalize_spec taskID runID status w r t :
  GetRun taskID runID (ew_store w) = Ok r -> GetTask taskID (ew_store w) = Ok t ->
  exists w', finalizeRun env taskID runID status w = (w', None) /\ finalized taskID runID status t (ew_store w').
Proof.
  intros Hr Ht. unfold finalizeRun. rewrite ST_bind_run.
  destruct (complete_run env taskID runID status w) as [w1 res1] eqn:E1. cbn [fst snd].
  destruct (update_task_for_run env taskID runID [TaskStatusRunning] (final_task_status status) w1) as [w2 res2] eqn:E2.
  destruct (finish_spec _ _ _ _ _ _ _ _ _ _ Hr Ht E1 E2) as (-> & Hres & Hf).
  exists w2. split; [|exact Hf]. rewrite ST_bind_run, E2. by destruct Hres as [-> | ->].
Qed.

(** [execute_run] succeeds exactly when the workspace is created, with a final status. *)
Lemma execute_run_spec msg task run w r t :
  let taskID := SQSMessage_TaskID msg in let runID := SQSMessage_RunID msg in
  GetRun taskID runID (ew_store w) = Ok r -> GetTask taskID (ew_store w) = Ok t ->
  match NewWorkspace (ew_tick w) runID with
  | Err e => exists w', execute_run env cfg fs_tools custom msg task run w
      = (w', Some (wrapf "worker: create workspace: " e)) /\ ew_store w' = ew_store w
  | Ok _ => exists w' status, execute_run env cfg fs_tools custom msg task run w = (w', None) /\
      status ∈ [RunStatusSucceeded; RunStatusFailed; RunStatusAborted] /\ finalized taskID runID status t (ew_store w')
  end.
Proof.
  cbn zeta. intros Hr Ht. unfold execute_run. rewrite ST_bind_run. cbn [act fst snd].
  destruct (NewWorkspace (ew_tick w) (SQSMessage_RunID msg)) as [ws|e]; [|by eexists].
  rewrite ST_bind_run. cbn [act fst snd]. rewrite ST_bind_run.
  match goal with |- context [Execute ?a ?b ?c task run ?w0] =>
    pose proof (execute_quiet a b c task run w0) as [Hq1 Hq2]; pose proof (execute_final a b c task run w0) as Hfin;
    destruct (Execute a b c task run w0) as [w1 res] end.
  cbn [fst snd] in *. cbn in Hq1, Hq2.
  assert (Hr1 : exists r1, GetRun (SQSMessage_TaskID msg) (SQSMessage_RunID msg) (ew_store w1) = Ok r1).
  { specialize (Hq2 (SQSMessage_TaskID msg) (SQSMessage_RunID msg)). rewrite Hr in Hq2.
    destruct (GetRun _ _ (ew_store w1)); [by eexists|done]. }
  destruct Hr1 as [r1 Hr1]. rewrite <- Hq1 in Ht. rewrite ST_bind_run.
  set (status := match res with Ok res => RunResult_Status res | Err _ => RunStatusFailed end).
  destruct (finalize_spec (SQSMessage_TaskID msg) (SQSMessage_RunID msg) status w1 r1 t Hr1 Ht) as (w2 & Ef & Hf).
  rewrite Ef. cbn. eexists _, status. split; [done|]. split; [|exact Hf].
  unfold status. destruct res as [res|e]; [by apply Hfin|set_solver].
Qed.

Lemma load_run_spec msg w r t :
  let taskID := SQSMessage_TaskID msg in let runID := SQSMessage_RunID msg in
  GetRun taskID runID (ew_store w) = Ok r -> GetTask taskID (ew_store w) = Ok t ->
  let '(w', err) := load_run env cfg fs_tools custom msg w in
  match err with
  | None => exists status, status ∈ [RunStatusSucceeded; RunStatusFailed; RunStatusAborted] /\
      finalized taskID runID status t (ew_store w')
  | Some _ => ew_store w' = ew_store w
  end.
Proof.
  cbn zeta. intros Hr Ht. unfold load_run. cbn zeta. rewrite ST_bind_run. cbn [e_read fst snd]. rewrite Ht.
  case_if as Etn.
  - rewrite ST_bind_run. destruct (complete_run env _ _ RunStatusFailed w) as [w1 res1] eqn:E1. cbn [fst snd].
    rewrite ST_bind_run.
    destruct (update_task_for_run env _ _ [TaskStatusRunning] TaskStatusFailed w1) as [w2 res2] eqn:E2. cbn.
    destruct (finish_spec _ _ RunStatusFailed _ _ _ _ _ _ _ Hr Ht E1 E2) as (_ & _ & Hf).
    exists RunStatusFailed. split; [set_solver|exact Hf].
  - rewrite ST_bind_run. cbn [e_read fst snd]. rewrite Hr.
    pose proof (execute_run_spec msg t r w r t Hr Ht) as Hx. cbn zeta in Hx.
    destruct (NewWorkspace (ew_tick w) (SQSMessage_RunID msg)) as [ws|e].
    + destruct Hx as (w' & status & -> & Hx). eauto.
    + destruct Hx as (w' & -> & Hx). exact Hx.
Qed.

(** It acknowledges the message whenever a workspace can be created. *)
Lemma load_run_acks msg w r t :
  let taskID := SQSMessage_TaskID msg in let runID := SQSMessage_RunID msg in
  GetRun taskID runID (ew_store w) = Ok r -> GetTask taskID (ew_store w) = Ok t ->
  (forall n, exists ws, NewWorkspace n runID = Ok ws) ->
  exists w' status, load_run env cfg fs_tools custom msg w = (w', None) /\
    status ∈ [RunStatusSucceeded; RunStatusFailed; RunStatusAborted] /\ finalized taskID runID status t (ew_store w').
Proof.
  cbn zeta. intros Hr Ht Hws. pose proof (load_run_spec msg w r t Hr Ht) as Hl. cbn zeta in Hl.
  destruct (load_run env cfg fs_tools custom msg w) as [w' [e|]] eqn:E.
  - exfalso. unfold load_run in E. cbn zeta in E. rewrite ST_bind_run in E. cbn [e_read fst snd] in E. rewrite Ht in E.
    split_match_in E.
    + rewrite !ST_bind_run in E. cbn in E. discriminate E.
    + rewrite ST_bind_run in E. cbn [e_read fst snd] in E. rewrite Hr in E.
      pose proof (execute_run_spec msg t r w r t Hr Ht) as Hx. cbn zeta in Hx.
      destruct (Hws (ew_tick w)) as [ws Ews]. rewrite Ews in Hx. destruct Hx as (w2 & st & Hx & _).
      rewrite E in Hx. discriminate Hx.
  - destruct Hl as (status & Hin & Hf). exists w', status. auto.
Qed.
End worker_lemmas.

(** ** Properties *)

(** The switch of [finalizeRun] gives the task the status of the same name. *)
Lemma final_status_matches status : status ∈ [RunStatusSucceeded; RunStatusFailed; RunStatusAborted] ->
  (status, final_task_status status) ∈ [(RunStatusSucceeded, TaskStatusSucceeded); (RunStatusFailed, TaskStatusFailed);
                                        (RunStatusAborted, TaskStatusAborted)].
Proof. intros H. destruct status; cbn; set_solver. Qed.

Section worker_properties.
Context {S A F L P : Type} `{HS : StateStore S} `{HL : !StateStoreLaws S} `{HA : ArtifactStore A} `{HF : Workspace F}
  `{HWF : WorkspaceFactory F} `{HLL : LLMClient L} `{HP : Pusher P}.
Context `{HU : Unicode} `{HT : TextLib} `{HC : SnapshotCodec} (env : EngineEnv) (cfg : Config).
Context (fs_tools : string -> list (Tool (A * F))) (custom : option (Registry (A * F))).
Abbreviation W := (EngW S A F L P).
Implicit Types (w : W) (t : Task) (r : Run).

(** A message whose run cannot be claimed is acknowledged, and only a clock reading was made. *)
Lemma unclaimed_ignored msg w :
  (forall r, GetRun (SQSMessage_TaskID msg) (SQSMessage_RunID msg) (ew_store w) = Ok r ->
     Run_Status r <> RunStatusQueued) ->
  handleMessage env cfg fs_tools custom msg w = (w <| ew_tick ::= Datatypes.S |>, None).
Proof.
  intros Hr. unfold handleMessage. cbn zeta. rewrite ST_bind_run. cbn [now fst snd]. rewrite ST_bind_run.
  unfold e_store at 1 2. cbn.
  pose proof (law_claim (ee_now env (ew_tick w)) (SQSMessage_TaskID msg) (SQSMessage_RunID msg) (ew_store w)) as Hl.
  destruct (GetRun _ _ (ew_store w)) as [r|e].
  - rewrite decide_False in Hl by (by apply Hr). rewrite Hl. by destruct w.
  - rewrite Hl. by destruct w.
Qed.

(** Claiming a queued run and marking its task as running. *)
Lemma handle_claimed msg w r t :
  let taskID := SQSMessage_TaskID msg in let runID := SQSMessage_RunID msg in
  GetRun taskID runID (ew_store w) = Ok r -> Run_Status r = RunStatusQueued ->
  GetTask taskID (ew_store w) = Ok t ->
  if decide (Task_ActiveRunID t = runID /\ Task_Status t ∈ [TaskStatusQueued; TaskStatusRunning]) then
    exists w1 r1 u, handleMessage env cfg fs_tools custom msg w = load_run env cfg fs_tools custom msg w1 /\
      GetRun taskID runID (ew_store w1) = Ok r1 /\ Run_Status r1 = RunStatusRunning /\
      GetTask taskID (ew_store w1) = Ok (t <| Task_Status := TaskStatusRunning |> <| Task_UpdatedAt := u |>)
  else exists w1, handleMessage env cfg fs_tools custom msg w = (w1, None) /\
      run_status (GetRun taskID runID (ew_store w1)) = Some RunStatusAborted /\
      GetTask taskID (ew_store w1) = Ok t.
Proof.
  cbn zeta. intros Hr Hq Ht. unfold handleMessage. cbn zeta. rewrite ST_bind_run. cbn [now fst snd].
  rewrite ST_bind_run.
  set (w0 := w <| ew_tick ::= Datatypes.S |>). change (ew_store w) with (ew_store w0) in Hr, Ht.
  destruct (claim_spec (ee_now env (ew_tick w)) _ _ w0 r Hr Hq) as (w1 & -> & (r1 & Hr1 & Hrun) & Hsame).
  cbn [fst snd]. rewrite ST_bind_run.
  assert (Ht1 : GetTask (SQSMessage_TaskID msg) (ew_store w1) = Ok t) by (by rewrite Hsame).
  destruct (update_spec env _ (SQSMessage_RunID msg) [TaskStatusQueued; TaskStatusRunning] TaskStatusRunning w1 t Ht1)
    as (w2 & res & -> & Hu). cbn [fst snd].
  destruct (decide _).
  - destruct Hu as (-> & (u & Hg) & Hgr). exists w2, r1, u. split; [done|]. by rewrite Hgr.
  - destruct Hu as (-> & Hst). change (conflict_or_missing ErrConflict) with true. cbn match. rewrite <- Hst in Hr1, Ht1. rewrite ST_bind_run.
    destruct (complete_run_spec env _ _ RunStatusAborted w2 r1 Hr1) as (w3 & -> & Hs3 & Ht3).
    exists w3. split; [done|]. split; [exact Hs3|]. by rewrite Ht3.
Qed.

(** A duplicate delivery has no effect: when the run of a message is not queued any more, or does not exist,
    the handler acknowledges the message and changes neither store nor artifacts nor workspace, calls no model and
    publishes no event. *)
Theorem duplicate_delivery_ignored msg w :
  (forall r, GetRun (SQSMessage_TaskID msg) (SQSMessage_RunID msg) (ew_store w) = Ok r ->
     Run_Status r <> RunStatusQueued) ->
  handleMessage env cfg fs_tools custom msg w = (w <| ew_tick ::= Datatypes.S |>, None).
Proof. exact (unclaimed_ignored msg w). Qed.

(** C6: When the handler acknowledges a message whose run was queued, the run is in a final status. If it was the
    active run of a task that is queued or running, the task has the corresponding final status (SUCCEEDED, FAILED or
    ABORTED as the run); otherwise the run was superseded: it is ABORTED and the task is untouched. *)
Theorem handled_run_final msg w w' r t :
  let taskID := SQSMessage_TaskID msg in let runID := SQSMessage_RunID msg in
  GetRun taskID runID (ew_store w) = Ok r -> Run_Status r = RunStatusQueued ->
  GetTask taskID (ew_store w) = Ok t -> handleMessage env cfg fs_tools custom msg w = (w', None) ->
  exists status t', run_status (GetRun taskID runID (ew_store w')) = Some status /\
    GetTask taskID (ew_store w') = Ok t' /\ Task_ActiveRunID t' = Task_ActiveRunID t /\
    if decide (Task_ActiveRunID t = runID /\ Task_Status t ∈ [TaskStatusQueued; TaskStatusRunning])
    then (status, Task_Status t') ∈ [(RunStatusSucceeded, TaskStatusSucceeded); (RunStatusFailed, TaskStatusFailed);
                                     (RunStatusAborted, TaskStatusAborted)]
    else status = RunStatusAborted /\ t' = t.
Proof.
  cbn zeta. intros Hr Hq Ht Hh. pose proof (handle_claimed msg w r t Hr Hq Ht) as Hc. cbn zeta in Hc.
  destruct (decide _) as [[Ha _]|D].
  - destruct Hc as (w1 & r1 & u & He & Hr1 & _ & Ht1).
    pose proof (load_run_spec env cfg fs_tools custom msg w1 r1 _ Hr1 Ht1) as Hl. rewrite <- He, Hh in Hl.
    destruct Hl as (status & Hin & Hst & t' & Hg & Hact & Hts). exists status, t'.
    rewrite decide_True in Hts by done. split_and!; [done|done|done|]. rewrite Hts. by apply final_status_matches.
  - destruct Hc as (w1 & He & Hs & Hg). rewrite Hh in He. injection He as <-.
    exists RunStatusAborted, t. auto.
Qed.

(** A run whose workspace cannot be created is stranded: the handler returns the error after the run was
    claimed, the run stays RUNNING, and the retry of the message is acknowledged as a duplicate without executing
    anything. *)
Theorem workspace_failure_strands_run msg w r t e :
  let taskID := SQSMessage_TaskID msg in let runID := SQSMessage_RunID msg in
  GetRun taskID runID (ew_store w) = Ok r -> Run_Status r = RunStatusQueued ->
  GetTask taskID (ew_store w) = Ok t -> Task_ActiveRunID t = runID -> Task_Status t = TaskStatusQueued ->
  Task_TenantID t = SQSMessage_TenantID msg -> (forall n, NewWorkspace n runID = Err e) ->
  exists w1, handleMessage env cfg fs_tools custom msg w = (w1, Some (wrapf "worker: create workspace: " e)) /\
    run_status (GetRun taskID runID (ew_store w1)) = Some RunStatusRunning /\
    handleMessage env cfg fs_tools custom msg w1 = (w1 <| ew_tick ::= Datatypes.S |>, None).
Proof.
  cbn zeta. intros Hr Hq Ht Ha Hs Htn Hws. pose proof (handle_claimed msg w r t Hr Hq Ht) as Hc. cbn zeta in Hc.
  rewrite decide_True in Hc by (rewrite Hs; split; [done|constructor]). destruct Hc as (w1 & r1 & u & He & Hr1 & Hrun & Ht1).
  pose proof (execute_run_spec env cfg fs_tools custom msg (t <| Task_Status := TaskStatusRunning |> <| Task_UpdatedAt := u |>)
    r1 w1 r1 _ Hr1 Ht1) as Hx. cbn zeta in Hx. rewrite Hws in Hx. destruct Hx as (w2 & Hx & Hst).
  exists w2. rewrite He. split.
  - unfold load_run. cbn zeta. rewrite ST_bind_run. cbn [e_read fst snd]. rewrite Ht1. cbn [Task_TenantID].
    rewrite bool_decide_false by (intros Hn; exact (Hn Htn)). rewrite ST_bind_run. cbn [e_read fst snd]. rewrite Hr1. exact Hx.
  - rewrite Hst, Hr1. cbn. rewrite Hrun. split; [done|]. apply unclaimed_ignored. rewrite Hst, Hr1.
    intros r2 [= <-]. by rewrite Hrun.
Qed.
End worker_properties.

(** *** Witnesses *)

Module worker_demo.
Import engine_demo.

Definition msg : SQSMessage := mkSQSMessage "t" "task_1" "run_1" "coding" 0 1 "" 0 f_zero.
Definition queued_task : Task := task <| Task_Status := TaskStatusQueued |>.
Definition queued_run : Run := run <| Run_Status := RunStatusQueued |> <| Run_QueuedAt := Some 1 |>.
Definition queued : EngW MemoryStore MemoryArtifactStore bytes (list LLMResponse) nat :=
  world <| ew_store := (MemoryStore_ApplyCreateTransition 1 (Some queued_task) (Some queued_run) NewMemoryStore).1 |>.
Definition builtin (_ : string) : list (Tool (MemoryArtifactStore * bytes)) := [write_tool].

(** A host with room for workspaces, and one without. *)
Definition host : WorkspaceFactory bytes := {| NewWorkspace _ _ := Ok []; Ws_Cleanup _ := [] |}.
Definition disk_full : error := errors_New "no space left on device".
Definition full_host : WorkspaceFactory bytes := {| NewWorkspace _ _ := Err disk_full; Ws_Cleanup _ := [] |}.

Definition handled := handleMessage (HWF := host) env DefaultEngineConfig builtin None msg queued.

Lemma handled_ok : handled = (handled.1, None).
Proof. vm_compute. reflexivity. Qed.

Lemma handled_run_final_witness :
  exists t', GetTask "task_1" (ew_store handled.1) = Ok t' /\ Task_Status t' = TaskStatusSucceeded.
Proof.
  destruct (handled_run_final (HWF := host) env DefaultEngineConfig builtin None msg queued handled.1 queued_run queued_task)
    as (status & t' & Hs & Ht & _ & Hd);
    [vm_compute; reflexivity|reflexivity|vm_compute; reflexivity|exact handled_ok|].
  exists t'. split; [exact Ht|]. destruct (decide _) as [D|D].
  - vm_compute in Hs. injection Hs as <-. apply list_elem_of_In in Hd. by destruct Hd as [[= <-]|[[=]|[[=]|[]]]].
  - exfalso. apply D. split; [reflexivity|constructor].
Defined.

Lemma duplicate_delivery_ignored_witness :
  handleMessage (HWF := host) env DefaultEngineConfig builtin None msg handled.1
    = (handled.1 <| ew_tick ::= Datatypes.S |>, None).
Proof.
  apply (duplicate_delivery_ignored (HWF := host) env DefaultEngineConfig builtin None msg handled.1).
  intros r Hr Hq. vm_compute in Hr. injection Hr as <-. discriminate Hq.
Defined.

Lemma workspace_failure_strands_run_witness :
  exists w1, handleMessage (HWF := full_host) env DefaultEngineConfig builtin None msg queued
      = (w1, Some (wrapf "worker: create workspace: " disk_full)) /\
    run_status (GetRun "task_1" "run_1" (ew_store w1)) = Some RunStatusRunning /\
    handleMessage (HWF := full_host) env DefaultEngineConfig builtin None msg w1 = (w1 <| ew_tick ::= Datatypes.S |>, None).
Proof.
  apply (workspace_failure_strands_run (HWF := full_host) env DefaultEngineConfig builtin None msg queued
    queued_run queued_task disk_full); vm_compute; reflexivity.
Defined.
End worker_demo.
