(* ===== verification/Ops.v ===== *)
(** * Ops: recovery and consistency jobs (src/internal/ops)

    [RecoverStaleRuns] puts stale runs back on the queue, [Check] looks for drift between
    tasks, runs and steps, [Repair] removes it, and [RunOnce] is one pass of the scheduler.
    They work on the store and the queue behind their interfaces, in the monad of [World];
    [ctxErr] is [ctx.Err()] at each of its readings.  The loop of [Scheduler.Start] around
    [RunOnce] is in [Scheduler]; the counters of package runtimemetrics are left out. *)

From Stdlib Require Import Ascii.
From S2P Require Import Prelude GoLib Model StateStore MemoryStore MemoryQueue World TaskService.

(** ** Reports *)

Record RecoveryReport : Type := mkRecoveryReport {
  RecoveryReport_Scanned : Z;
  RecoveryReport_Recovered : Z;
  RecoveryReport_Skipped : Z;
  RecoveryReport_Errors : list string }.
#[global] Instance RecoveryReport_eta : Eta RecoveryReport := fun r => mkRecoveryReport
  (RecoveryReport_Scanned r) (RecoveryReport_Recovered r) (RecoveryReport_Skipped r) (RecoveryReport_Errors r).

Record DriftIssue : Type := mkDriftIssue {
  DriftIssue_Type : string;
  DriftIssue_TenantID : string;
  DriftIssue_TaskID : string;
  DriftIssue_RunID : string;
  DriftIssue_Detail : string }.

Record CheckReport : Type := mkCheckReport {
  CheckReport_ScannedTasks : Z;
  CheckReport_ScannedRuns : Z;
  CheckReport_Issues : list DriftIssue }.
#[global] Instance CheckReport_eta : Eta CheckReport := fun r => mkCheckReport
  (CheckReport_ScannedTasks r) (CheckReport_ScannedRuns r) (CheckReport_Issues r).

Record RepairReport : Type := mkRepairReport {
  RepairReport_Requested : Z;
  RepairReport_Applied : Z;
  RepairReport_Failed : Z;
  RepairReport_Errors : list string }.
#[global] Instance RepairReport_eta : Eta RepairReport := fun r => mkRepairReport
  (RepairReport_Requested r) (RepairReport_Applied r) (RepairReport_Failed r) (RepairReport_Errors r).

Record SchedulerConfig : Type := mkSchedulerConfig {
  sc_Interval : Duration;
  sc_StaleFor : Duration;
  sc_Limit : Z;
  sc_TenantID : string;
  sc_ConsistencyCheck : bool;
  sc_ConsistencyRepair : bool;
  sc_EventCompactionEnabled : bool;
  sc_EventCompactionWindow : Duration }.
#[global] Instance SchedulerConfig_eta : Eta SchedulerConfig := fun c => mkSchedulerConfig (sc_Interval c) (sc_StaleFor c)
  (sc_Limit c) (sc_TenantID c) (sc_ConsistencyCheck c) (sc_ConsistencyRepair c) (sc_EventCompactionEnabled c)
  (sc_EventCompactionWindow c).

Record EventCompactionReport : Type := mkEventCompactionReport {
  ecr_BeforeTS : Z;
  ecr_RunsScanned : Z;
  ecr_RunsCompacted : Z;
  ecr_EventsRemoved : Z;
  ecr_Errors : list string }.
#[global] Instance EventCompactionReport_eta : Eta EventCompactionReport := fun r => mkEventCompactionReport
  (ecr_BeforeTS r) (ecr_RunsScanned r) (ecr_RunsCompacted r) (ecr_EventsRemoved r) (ecr_Errors r).

Record SchedulerReport : Type := mkSchedulerReport {
  sr_Timestamp : Time;
  sr_TenantID : string;
  sr_DurationMS : Z;
  sr_Recovery : option RecoveryReport;
  sr_Consistency : option CheckReport;
  sr_Repair : option RepairReport;
  sr_EventCompaction : option EventCompactionReport;
  sr_Error : string }.
#[global] Instance SchedulerReport_eta : Eta SchedulerReport := fun r => mkSchedulerReport
  (sr_Timestamp r) (sr_TenantID r) (sr_DurationMS r) (sr_Recovery r) (sr_Consistency r) (sr_Repair r)
  (sr_EventCompaction r) (sr_Error r).

Definition IssueMissingActiveRun : string := "missing_active_run".
Definition IssueTaskRunStatusMismatch : string := "task_run_status_mismatch".
Definition IssueRunLastStepDrift : string := "run_last_step_drift".

(** All statuses of a task. *)
Definition any_status : list TaskStatus :=
  [TaskStatusQueued; TaskStatusRunning; TaskStatusSucceeded; TaskStatusFailed; TaskStatusAborted].

(** ** Pure helpers *)

Definition isRunStale (run : Run) (task : Task) (now : Time) (staleFor : Duration) : bool :=
  match Run_Status run with
  | RunStatusQueued =>
      match Run_QueuedAt run with
      | Some t => staleFor <=? time_Sub now t
      | None => staleFor <=? time_Sub now (Task_UpdatedAt task)
      end
  | RunStatusRunning =>
      match Run_StartedAt run with
      | None => true
      | Some t => staleFor <=? time_Sub now t
      end
  | _ => false
  end.

Definition mapRunToTaskStatus (runStatus : RunStatus) : TaskStatus :=
  match runStatus with
  | RunStatusQueued => TaskStatusQueued
  | RunStatusRunning => TaskStatusRunning
  | RunStatusSucceeded => TaskStatusSucceeded
  | RunStatusFailed => TaskStatusFailed
  | RunStatusAborted => TaskStatusAborted
  end.

Definition taskRunStatusMismatch (taskStatus : TaskStatus) (runStatus : RunStatus) : string :=
  let differs expected :=
    if bool_decide (taskStatus ≠ expected)
    then "task=" +:+ string_of_TaskStatus taskStatus +:+ " run=" +:+ string_of_RunStatus runStatus else "" in
  match runStatus with
  | RunStatusQueued => differs TaskStatusQueued
  | RunStatusRunning => differs TaskStatusRunning
  | RunStatusSucceeded => differs TaskStatusSucceeded
  | RunStatusFailed => differs TaskStatusFailed
  | RunStatusAborted => differs TaskStatusAborted
  end.

(** [strconv.Atoi] with its error. *)
Definition strconv_Atoi `{Unicode} (s : string) : result error Z :=
  match Atoi s with
  | Some n => Ok n
  | None =>
      let digits := match bytes_of s with
                    | c :: l => if Ascii.eqb c "-" || Ascii.eqb c "+" then l else c :: l
                    | [] => []
                    end in
      let why := match parse_uint digits with Some _ => "value out of range" | None => "invalid syntax" end in
      Err (errors_New ("strconv.Atoi: parsing " +:+ Quote s +:+ ": " +:+ why))
  end.

Definition parseExpectedFromDetail `{Unicode} (detail : string) : result error Z :=
  match Split detail "expected=" with
  | [_; p] => strconv_Atoi (TrimSpace p)
  | _ => Err (errors_New ("invalid detail: " +:+ Quote detail))
  end.

Section jobs.
Context {S Q : Type} `{StateStore S} `{MessageQueue Q} `{Unicode} (env : Env) (ctxErr : nat -> option error).
Abbreviation M := (ST (World S Q)).

(** ** Recovery *)

Definition recovery_message (now : Time) (task : Task) (run : Run) : SQSMessage :=
  let '(estTokens, estCost) := EstimateUsage (Task_Prompt task) (Run_ModelConfig run) in
  mkSQSMessage (Run_TenantID run) (Run_TaskID run) (Run_RunID run) (InferTaskType (Task_Prompt task)) (time_Unix now) 1
    (Run_TaskID run +:+ "#" +:+ Run_RunID run) estTokens estCost.

Definition add_error (what : string) (run : Run) (e : error) (out : RecoveryReport) : RecoveryReport :=
  out <| RecoveryReport_Errors ::= (fun l => l ++ [what +:+ " task=" +:+ Run_TaskID run +:+ " run=" +:+ Run_RunID run
                                             +:+ ": " +:+ Error e]) |>.

(** One listed run. *)
Definition recover_run (now : Time) (staleFor : Duration) (run : Run) (out : RecoveryReport) : M RecoveryReport :=
  r ← read_store (GetTask (Run_TaskID run));
  match r with
  | Err e => mret (add_error "task lookup failed" run e out)
  | Ok task =>
      if bool_decide (Task_ActiveRunID task ≠ Run_RunID run) then mret (out <| RecoveryReport_Skipped ::= Z.succ |>)
      else if negb (isRunStale run task now staleFor) then mret (out <| RecoveryReport_Skipped ::= Z.succ |>)
      else
        t1 ← time_Now env;
        r ← on_store (ResetRunToQueued t1 (Run_TaskID run) (Run_RunID run));
        match r with
        | Err e => mret (add_error "reset run failed" run e out)
        | Ok _ =>
            t2 ← time_Now env;
            _ ← on_store (UpdateTaskStatusForRun t2 (Run_TaskID run) (Run_RunID run)
                   [TaskStatusRunning; TaskStatusQueued; TaskStatusFailed; TaskStatusAborted; TaskStatusSucceeded]
                   TaskStatusQueued);
            r ← enqueue (recovery_message now task run);
            match r with
            | Err e => mret (add_error "requeue failed" run e out)
            | Ok _ => mret (out <| RecoveryReport_Recovered ::= Z.succ |>)
            end
        end
  end.

Fixpoint recover_runs (now : Time) (staleFor : Duration) (runs : list Run) (out : RecoveryReport)
    : M (RecoveryReport * option error) :=
  match runs with
  | [] => mret (out, None)
  | run :: runs' =>
      let out := out <| RecoveryReport_Scanned ::= Z.succ |> in
      c ← tick ctxErr;
      match c with
      | Some e => mret (out, Some e)
      | None =>
          out ← recover_run now staleFor run out;
          recover_runs now staleFor runs' out
      end
  end.

Definition RecoverStaleRuns (tenantID : string) (staleFor : Duration) (limit : Z)
    : M (option RecoveryReport * option error) :=
  let staleFor := if staleFor <=? 0 then 10 * Minute else staleFor in
  let limit := if limit <=? 0 then 200 else limit in
  now ← time_Now env;
  r ← read_store (ListRuns tenantID [RunStatusRunning; RunStatusQueued] limit);
  match r with
  | Err e => mret (None, Some (wrapf "ops: list runs: " e))
  | Ok runs =>
      '(out, err) ← recover_runs now staleFor runs (mkRecoveryReport 0 0 0 []);
      mret (Some out, err)
  end.

(** ** Consistency *)

Definition runByTaskRun (runs : list Run) : gmap string Run :=
  fold_left (fun m run => <[Run_TaskID run +:+ "#" +:+ Run_RunID run := run]> m) runs ∅.

(** The issue of a task, if there is one. *)
Definition check_task (m : gmap string Run) (task : Task) : list DriftIssue :=
  match m !! (Task_TaskID task +:+ "#" +:+ Task_ActiveRunID task) with
  | None => [mkDriftIssue IssueMissingActiveRun (Task_TenantID task) (Task_TaskID task) (Task_ActiveRunID task)
               "task.active_run_id does not exist"]
  | Some activeRun =>
      let mismatch := taskRunStatusMismatch (Task_Status task) (Run_Status activeRun) in
      if bool_decide (mismatch ≠ "")
      then [mkDriftIssue IssueTaskRunStatusMismatch (Task_TenantID task) (Task_TaskID task) (Run_RunID activeRun) mismatch]
      else []
  end.

Definition max_step (steps : list Step) : Z :=
  fold_left (fun m st => if m <? Step_StepIndex st then Step_StepIndex st else m) steps (-1).

Definition drift_detail (last expected : Z) : string :=
  "run.last_step_index=" +:+ fmt_d last +:+ " expected=" +:+ fmt_d expected.

(** The issue of a run, given its steps. *)
Definition check_run (run : Run) (steps : result error (list Step)) : list DriftIssue :=
  match steps with
  | Err _ => []
  | Ok steps =>
      let maxStep := max_step steps in
      if (0 <=? maxStep) && negb (Run_LastStepIndex run =? maxStep)
      then [mkDriftIssue IssueRunLastStepDrift (Run_TenantID run) (Run_TaskID run) (Run_RunID run)
              (drift_detail (Run_LastStepIndex run) maxStep)]
      else []
  end.

(** A loop that asks the context before each element. *)
Fixpoint scan {A} (f : A -> M (list DriftIssue)) (l : list A) (report : CheckReport) : M (CheckReport * option error) :=
  match l with
  | [] => mret (report, None)
  | x :: l' =>
      c ← tick ctxErr;
      match c with
      | Some e => mret (report, Some e)
      | None =>
          issues ← f x;
          scan f l' (report <| CheckReport_Issues ::= (fun l => l ++ issues) |>)
      end
  end.

Definition Check (tenantID : string) (limit : Z) : M (option CheckReport * option error) :=
  let limit := if limit <=? 0 then 500 else limit in
  r ← read_store (ListTasks tenantID [] limit);
  match r with
  | Err e => mret (None, Some (wrapf "ops: list tasks: " e))
  | Ok tasks =>
      r ← read_store (ListRuns tenantID [] (wrap64 (limit * 4)));
      match r with
      | Err e => mret (None, Some (wrapf "ops: list runs: " e))
      | Ok runs =>
          let report := mkCheckReport (Z.of_nat (length tasks)) (Z.of_nat (length runs)) [] in
          '(report, err) ← scan (fun task => mret (check_task (runByTaskRun runs) task)) tasks report;
          match err with
          | Some _ => mret (Some report, err)
          | None =>
              '(report, err) ← scan (fun run => steps ← read_store (ListSteps (Run_RunID run) 0 100000);
                                                mret (check_run run steps)) runs report;
              mret (Some report, err)
          end
      end
  end.

Definition repairTaskRunStatus (issue : DriftIssue) : M (result error unit) :=
  r ← read_store (GetRun (DriftIssue_TaskID issue) (DriftIssue_RunID issue));
  match r with
  | Err e => mret (Err e)
  | Ok run =>
      t ← time_Now env;
      on_store (UpdateTaskStatusForRun t (DriftIssue_TaskID issue) (DriftIssue_RunID issue) any_status
                  (mapRunToTaskStatus (Run_Status run)))
  end.

Definition repairLastStep (issue : DriftIssue) : M (result error unit) :=
  match parseExpectedFromDetail (DriftIssue_Detail issue) with
  | Err e => mret (Err e)
  | Ok want => on_store (UpdateLastStepIndex (DriftIssue_TaskID issue) (DriftIssue_RunID issue) want)
  end.

Definition repairMissingActiveRun (issue : DriftIssue) : M (result error unit) :=
  t ← time_Now env;
  on_store (UpdateTaskStatus t (DriftIssue_TaskID issue) any_status TaskStatusFailed).

Definition repair_issue (issue : DriftIssue) : M (result error unit) :=
  let ty := DriftIssue_Type issue in
  if bool_decide (ty = IssueTaskRunStatusMismatch) then repairTaskRunStatus issue
  else if bool_decide (ty = IssueRunLastStepDrift) then repairLastStep issue
  else if bool_decide (ty = IssueMissingActiveRun) then repairMissingActiveRun issue
  else mret (Err (errors_New ("unsupported issue type: " +:+ ty))).

Fixpoint repair_issues (issues : list DriftIssue) (report : RepairReport) : M (RepairReport * option error) :=
  match issues with
  | [] => mret (report, None)
  | issue :: issues' =>
      c ← tick ctxErr;
      match c with
      | Some e => mret (report, Some e)
      | None =>
          r ← repair_issue issue;
          repair_issues issues'
            (match r with
             | Err e => report <| RepairReport_Failed ::= Z.succ |>
                          <| RepairReport_Errors ::= (fun l => l ++ [DriftIssue_Type issue +:+ " task=" +:+ DriftIssue_TaskID issue
                               +:+ " run=" +:+ DriftIssue_RunID issue +:+ ": " +:+ Error e]) |>
             | Ok _ => report <| RepairReport_Applied ::= Z.succ |>
             end)
      end
  end.

Definition Repair (issues : list DriftIssue) : M (RepairReport * option error) :=
  repair_issues issues (mkRepairReport (Z.of_nat (length issues)) 0 0 []).

(** ** Scheduler *)

Definition normalizeSchedulerConfig (cfg : SchedulerConfig) : SchedulerConfig :=
  let cfg := if sc_StaleFor cfg <=? 0 then cfg <| sc_StaleFor := 10 * Minute |> else cfg in
  let cfg := if sc_Limit cfg <=? 0 then cfg <| sc_Limit := 200 |> else cfg in
  if sc_EventCompactionWindow cfg <=? 0 then cfg <| sc_EventCompactionWindow := 24 * Hour |> else cfg.

Fixpoint compact_runs (cutoff : Z) (runs : list Run) (report : EventCompactionReport) : M EventCompactionReport :=
  match runs with
  | [] => mret report
  | run :: runs' =>
      match Run_EndedAt run with
      | None => compact_runs cutoff runs' report
      | Some ended =>
          if cutoff <? time_Unix ended then compact_runs cutoff runs' report
          else
            r ← on_store (CompactEvents (Run_TaskID run) (Run_RunID run) cutoff);
            compact_runs cutoff runs'
              (match r with
               | Err e => report <| ecr_Errors ::= (fun l => l ++ ["task=" +:+ Run_TaskID run +:+ " run=" +:+ Run_RunID run
                                                      +:+ ": " +:+ Error e]) |>
               | Ok removed => report <| ecr_RunsCompacted ::= Z.succ |>
                                 <| ecr_EventsRemoved ::= (fun n => add64 n removed) |>
               end)
      end
  end.

Definition compactRunEvents (cfg : SchedulerConfig) : M (EventCompactionReport * option error) :=
  now ← time_Now env;
  let cutoff := time_Unix (time_Add now (- sc_EventCompactionWindow cfg)) in
  let report := mkEventCompactionReport cutoff 0 0 0 [] in
  r ← read_store (ListRuns (sc_TenantID cfg) [RunStatusSucceeded; RunStatusFailed; RunStatusAborted] (sc_Limit cfg));
  match r with
  | Err e => mret (report, Some (wrapf "list runs for compaction: " e))
  | Ok runs =>
      report ← compact_runs cutoff runs (report <| ecr_RunsScanned := Z.of_nat (length runs) |>);
      mret (report, None)
  end.

(** The end of a pass: the duration, and the error if there is one. *)
Definition close_report (start : Time) (report : SchedulerReport) (err : option error)
    : M (SchedulerReport * option error) :=
  t ← time_Now env;
  let report := report <| sr_DurationMS := Duration_Milliseconds (time_Sub t start) |> in
  mret (match err with Some e => report <| sr_Error := Error e |> | None => report end, err).

(** The consistency check and, if asked for, the repair. *)
Definition check_and_repair (cfg : SchedulerConfig) (report : SchedulerReport) : M (SchedulerReport * option error) :=
  if negb (sc_ConsistencyCheck cfg) then mret (report, None)
  else
    '(check, err) ← Check (sc_TenantID cfg) (sc_Limit cfg);
    match err with
    | Some _ => mret (report, err)
    | None =>
        let report := report <| sr_Consistency := check |> in
        let issues := match check with Some c => CheckReport_Issues c | None => [] end in
        if sc_ConsistencyRepair cfg && (0 <? Z.of_nat (length issues)) then
          '(repair, err) ← Repair issues;
          mret (match err with Some _ => report | None => report <| sr_Repair := Some repair |> end, err)
        else mret (report, None)
    end.

Definition RunOnce (cfg : SchedulerConfig) : M (SchedulerReport * option error) :=
  start ← time_Now env;
  let report := mkSchedulerReport start (sc_TenantID cfg) 0 None None None None "" in
  '(recovery, err) ← RecoverStaleRuns (sc_TenantID cfg) (sc_StaleFor cfg) (sc_Limit cfg);
  match err with
  | Some _ => close_report start report err
  | None =>
      '(report, err) ← check_and_repair cfg (report <| sr_Recovery := recovery |>);
      match err with
      | Some _ => close_report start report err
      | None =>
          if sc_EventCompactionEnabled cfg then
            '(compaction, err) ← compactRunEvents cfg;
            match err with
            | Some _ => close_report start report err
            | None => close_report start (report <| sr_EventCompaction := Some compaction |>) None
            end
          else close_report start report None
      end
  end.
End jobs.

(** ** Lemmas *)

Lemma mismatch_none ts rs : taskRunStatusMismatch ts rs = "" <-> ts = mapRunToTaskStatus rs.
Proof. by destruct ts, rs. Qed.

Lemma max_step_acc steps : forall m,
  let m' := fold_left (fun m st => if m <? Step_StepIndex st then Step_StepIndex st else m) steps m in
  m' = m \/ exists st, st ∈ steps /\ m' = Step_StepIndex st.
Proof.
  induction steps as [|st steps IH]; intros m; cbn; [by left|].
  destruct (IH (if m <? Step_StepIndex st then Step_StepIndex st else m)) as [->|(x & Hx & ->)].
  - case_if; [right|by left]. exists st. split; [left|done].
  - right. exists x. split; [by right|done].
Qed.

Lemma max_step_int64 steps : Forall (fun st => in_int64 (Step_StepIndex st)) steps -> in_int64 (max_step steps).
Proof.
  intros Hf. unfold max_step. destruct (max_step_acc steps (-1)) as [->|(st & Hin & ->)]; [unfold_int64; lia|].
  exact (Forall_elem _ steps st Hf Hin).
Qed.

(** The text of a drift issue is read back. *)
Lemma parse_detail `{Unicode} last expected :
  in_int64 expected -> parseExpectedFromDetail (drift_detail last expected) = Ok expected.
Proof.
  intros He. unfold parseExpectedFromDetail, drift_detail, Split.
  destruct (fmt_d_chars last) as (l1 & -> & F1). destruct (fmt_d_chars expected) as (l2 & E2 & F2). rewrite E2.
  assert (Hpre : forall t, split_go "expected=" ("run.last_step_index=" +:+ t) [] 0
    = split_go "expected=" t (rev (bytes_of "run.last_step_index=")) 0) by (intros t; reflexivity).
  assert (Hsep : forall t cur, split_go "expected=" (" expected=" +:+ t) cur 0
    = string_of (rev (" "%char :: cur)) :: split_go "expected=" t [] 0) by (intros [|c t] cur; reflexivity).
  assert (Hend : forall s, s +:+ "" = s)
    by (intros s; induction s as [|c s IH]; [done|]; change (String c (s +:+ "") = String c s); by rewrite IH).
  rewrite Hpre, split_go_skip by by apply num_chars_avoid.
  rewrite Hsep, <- (Hend (string_of l2)), split_go_skip by by apply num_chars_avoid.
  cbn [split_go]. rewrite app_nil_r, rev_involutive, TrimSpace_visible.
  - unfold strconv_Atoi. by rewrite <- E2, Atoi_fmt_d.
  - eapply Forall_impl; [|exact F2]. apply num_char_visible.
Qed.

(** ** Properties *)

#[local] Arguments recovery_message : simpl never.
#[local] Arguments add_error : simpl never.

Section job_properties.
Context {S Q : Type} `{HS : StateStore S} `{HL : !StateStoreLaws S} `{HQ : MessageQueue Q} `{HU : Unicode}
  (env : Env) (ctxErr : nat -> option error).
Abbreviation W := (World S Q).

(** What recovery does with a listed run, in every case: a run that is not the active run of its task, or not
    stale, is skipped and nothing changes; a stale one is put back to QUEUED together with its task, with a fresh
    queue time and without start and end time, and a message for it goes to the queue. When the queue refuses the
    message the run stays QUEUED and the report says so. *)
Lemma recover_run_spec now staleFor run out (w : W) :
  let '(w', out') := recover_run env now staleFor run out w in
  match GetTask (Run_TaskID run) (w_store w) with
  | Err e => unchanged w w' /\ out' = add_error "task lookup failed" run e out
  | Ok t =>
      if decide (Task_ActiveRunID t = Run_RunID run /\ isRunStale run t now staleFor = true) then
        match GetRun (Run_TaskID run) (Run_RunID run) (w_store w) with
        | Err _ => unchanged w w' /\ out' = add_error "reset run failed" run ErrNotFound out
        | Ok r =>
            (exists q, GetRun (Run_TaskID run) (Run_RunID run) (w_store w') =
               Ok (r <| Run_Status := RunStatusQueued |> <| Run_QueuedAt := Some q |>
                     <| Run_StartedAt := None |> <| Run_EndedAt := None |>)) /\
            (exists u, GetTask (Run_TaskID run) (w_store w') =
               Ok (t <| Task_Status := TaskStatusQueued |> <| Task_UpdatedAt := u |>)) /\
            exists n, match Queue_Enqueue n (recovery_message now t run) (w_queue w) with
                      | (q', Ok _) => w_queue w' = q' /\ out' = out <| RecoveryReport_Recovered ::= Z.succ |>
                      | (q', Err e) => w_queue w' = q' /\ out' = add_error "requeue failed" run e out
                      end
        end
      else unchanged w w' /\ out' = out <| RecoveryReport_Skipped ::= Z.succ |>
  end.
Proof.
  unfold recover_run. rewrite ST_bind_run. cbn [read_store fst snd].
  destruct (GetTask (Run_TaskID run) (w_store w)) as [t|e] eqn:Et; [|by split].
  case_if as E1; bool_prop; [unfold mret, ST_ret; cbn beta iota; rewrite decide_False by tauto; by split|].
  apply dec_stable in E1.
  case_if as E2; bool_prop; [unfold mret, ST_ret; cbn beta iota; rewrite decide_False by (rewrite E2; naive_solver); by split|].
  destruct (decide (Task_ActiveRunID t = Run_RunID run /\ isRunStale run t now staleFor = true)) as [_|D]; [|by destruct D].
  rewrite ST_bind_run. cbn [time_Now tick fst snd]. rewrite ST_bind_run.
  unfold on_store at 1 2 3. cbn [w_store upd].
  pose proof (law_reset (env_now env (w_tick w)) (Run_TaskID run) (Run_RunID run) (w_store w)) as Hl. cbn.
  destruct (GetRun (Run_TaskID run) (Run_RunID run) (w_store w)) as [r|e] eqn:Er; cycle 1.
  { rewrite Hl. cbn. by split. }
  destruct Hl as (s1 & -> & Hr1 & Ht1). cbn.
  rewrite <- Ht1 in Et.
  pose proof (law_update_for_run (env_now env (Datatypes.S (w_tick w))) (Run_TaskID run) (Run_RunID run)
    [TaskStatusRunning; TaskStatusQueued; TaskStatusFailed; TaskStatusAborted; TaskStatusSucceeded]
    TaskStatusQueued s1) as Hu. rewrite Et in Hu.
  rewrite decide_True in Hu by (split; [done|]; destruct (Task_Status t); set_solver).
  destruct Hu as (s2 & He & Ht2 & Hr2).
  run_st. rewrite He. cbn.
  match goal with |- context [Queue_Enqueue ?n ?m ?q] => destruct (Queue_Enqueue n m q) as [q' [[]|e]] eqn:Eq end; cbn; rewrite Hr2, Hr1, Ht2;
    (split; [by eexists|]; split; [by eexists|]; eexists; by rewrite Eq).
Qed.

(** A status mismatch that Check reports for a task is settled by its repair: afterwards the task has the
    status of its active run and Check no longer reports it. *)
Theorem status_repair_settles m t r i (w : W) :
  GetTask (Task_TaskID t) (w_store w) = Ok t ->
  GetRun (Task_TaskID t) (Task_ActiveRunID t) (w_store w) = Ok r -> Run_RunID r = Task_ActiveRunID t ->
  m !! (Task_TaskID t +:+ "#" +:+ Task_ActiveRunID t) = Some r -> check_task m t = [i] ->
  exists w' t', repair_issue env i w = (w', Ok tt) /\
    GetTask (Task_TaskID t) (w_store w') = Ok t' /\ Task_Status t' = mapRunToTaskStatus (Run_Status r) /\
    GetRun (Task_TaskID t) (Task_ActiveRunID t) (w_store w') = Ok r /\ check_task m t' = [].
Proof.
  intros Ht Hr Hid Hm Hc. unfold check_task in Hc. rewrite Hm in Hc. split_match_in Hc; [|done].
  injection Hc as <-. unfold repair_issue. cbn [DriftIssue_Type]. rewrite bool_decide_true by done.
  unfold repairTaskRunStatus. rewrite ST_bind_run. cbn [read_store fst snd DriftIssue_TaskID DriftIssue_RunID].
  rewrite Hid, Hr. rewrite ST_bind_run. cbn [time_Now tick fst snd]. unfold on_store. cbn.
  pose proof (law_update_for_run (env_now env (w_tick w)) (Task_TaskID t) (Task_ActiveRunID t) any_status
    (mapRunToTaskStatus (Run_Status r)) (w_store w)) as Hu. rewrite Ht in Hu.
  rewrite decide_True in Hu by (split; [done|]; unfold any_status; destruct (Task_Status t); set_solver).
  destruct Hu as (s' & -> & Ht' & Hr'). eexists _, _. split; [done|]. cbn. rewrite Hr'. split; [exact Ht'|].
  split; [done|]. split; [exact Hr|]. unfold check_task. cbn. rewrite Hm, bool_decide_false; [done|].
  intros Hn. apply Hn. by apply mismatch_none.
Qed.

(** A step drift that Check reports for a run is settled by its repair: the expected index is read back from
    the text of the issue, the run then has the highest index of its steps, and Check no longer reports it. *)
Theorem last_step_repair_settles r steps i (w : W) :
  GetRun (Run_TaskID r) (Run_RunID r) (w_store w) = Ok r ->
  Forall (fun st => in_int64 (Step_StepIndex st)) steps -> check_run r (Ok steps) = [i] ->
  exists w' r', repair_issue env i w = (w', Ok tt) /\
    GetRun (Run_TaskID r) (Run_RunID r) (w_store w') = Ok r' /\ Run_LastStepIndex r' = max_step steps /\
    check_run r' (Ok steps) = [].
Proof.
  intros Hr Hf Hc. unfold check_run in Hc. cbn zeta in Hc. split_match_in Hc; [|done]. bool_prop. injection Hc as <-.
  unfold repair_issue. cbn [DriftIssue_Type]. rewrite bool_decide_false, bool_decide_true by done.
  unfold repairLastStep. cbn [DriftIssue_Detail DriftIssue_TaskID DriftIssue_RunID].
  rewrite parse_detail by by apply max_step_int64.
  unfold on_store. pose proof (law_last (Run_TaskID r) (Run_RunID r) (max_step steps) (w_store w)) as Hl.
  rewrite Hr in Hl. destruct Hl as (s' & -> & Hr'). eexists _, _. split; [done|]. split; [exact Hr'|].
  split; [done|]. unfold check_run. cbn. by rewrite Z.eqb_refl, andb_false_r.
Qed.
End job_properties.

(** *** Witnesses and an example *)

Module ops_demo.
#[local] Existing Instance ascii_unicode.
#[local] Instance demo_queue : MessageQueue MemoryQueue :=
  MemoryQueue_MessageQueue (fun n => (Z.of_nat n * Second, fun k => Z.of_nat (n + k) * Second, true)).

Definition env : Env := mkEnv (fun n => Z.of_nat n * Second) (fun n => repeat (ascii_of_nat n) 12) (fun _ => "").

Definition task : Task :=
  mkTask "task_1" "t" "alice" TaskStatusRunning "run_5" false "" None "" "fix the bug" None 0 0.
Definition run (id : string) (status : RunStatus) (start : Time) : Run :=
  mkRun "task_1" id "t" status (Some 0) "" None None (Some start) None 0 None f_zero.

(** A task on its fifth run: four aborted runs and the active one, which is running. *)
Definition store : MemoryStore :=
  exec_ops [OpPutTask task; OpPutRun 0 (run "run_1" RunStatusAborted 1); OpPutRun 0 (run "run_2" RunStatusAborted 2);
    OpPutRun 0 (run "run_3" RunStatusAborted 3); OpPutRun 0 (run "run_4" RunStatusAborted 4);
    OpPutRun 0 (run "run_5" RunStatusRunning 5)] NewMemoryStore.

Definition world : World MemoryStore MemoryQueue := mkWorld store (NewMemoryQueue 10) 0.

(** The status mismatch of a task whose run was queued again. *)
Definition drifted : World MemoryStore MemoryQueue :=
  world <| w_store ::= (fun s => (MemoryStore_ResetRunToQueued 9 "task_1" "run_5" s).1) |>.
Definition reset_run : Run := (run "run_5" RunStatusQueued 5) <| Run_QueuedAt := Some 9 |> <| Run_StartedAt := None |>.
Definition mismatch_issue : DriftIssue :=
  mkDriftIssue IssueTaskRunStatusMismatch "t" "task_1" "run_5" "task=RUNNING run=RUN_QUEUED".

Lemma status_repair_settles_witness :
  exists w' t', repair_issue env mismatch_issue drifted = (w', Ok tt) /\
    GetTask "task_1" (w_store w') = Ok t' /\ Task_Status t' = TaskStatusQueued.
Proof.
  destruct (status_repair_settles env (runByTaskRun [reset_run]) task reset_run mismatch_issue drifted)
    as (w' & t' & H1 & H2 & H3 & _); [vm_compute; reflexivity..|].
  exists w', t'. split; [exact H1|]. split; [exact H2|exact H3].
Defined.

Definition steps : list Step := [demo_step "run_5" 0; demo_step "run_5" 1; demo_step "run_5" 2].
Definition drift_issue : DriftIssue :=
  mkDriftIssue IssueRunLastStepDrift "t" "task_1" "run_5" "run.last_step_index=0 expected=2".

Lemma last_step_repair_settles_witness :
  exists w' r', repair_issue env drift_issue world = (w', Ok tt) /\
    GetRun "task_1" "run_5" (w_store w') = Ok r' /\ Run_LastStepIndex r' = 2.
Proof.
  destruct (last_step_repair_settles env (run "run_5" RunStatusRunning 5) steps drift_issue world)
    as (w' & r' & H1 & H2 & H3 & _).
  - vm_compute. reflexivity.
  - repeat constructor; vm_compute; discriminate.
  - vm_compute. reflexivity.
  - exists w', r'. split; [exact H1|]. split; [exact H2|exact H3].
Defined.

(** The consistency job can fail a healthy task. Check reads at most four times as many runs as tasks, oldest
    first, and takes an active run that is not among them for missing: with a limit of one task and a task that is
    on its fifth run, one pass of the scheduler with repair marks the task FAILED although its active run exists
    and is RUNNING. *)
Theorem repair_fails_healthy_task :
  let cfg := normalizeSchedulerConfig (mkSchedulerConfig 0 0 1 "t" true true false 0) in
  let '(w', (report, err)) := RunOnce env (fun _ => None) cfg world in
  err = None /\ run_status (GetRun "task_1" "run_5" (w_store w')) = Some RunStatusRunning /\
  match GetTask "task_1" (w_store w') with
  | Ok t => Task_ActiveRunID t = "run_5" /\ Task_Status t = TaskStatusFailed
  | Err _ => False
  end.
Proof. vm_compute. auto. Qed.
End ops_demo.
