(* ===== verification/System.v ===== *)
(** * System: the path of a task through the components

    The task service, the queue message, the worker and the engine composed: a task that was
    created, or whose stale run was recovered, reaches a final status when its message is
    handled.  The worker's world is any world with the metadata store that the service or the
    recovery job left behind; model, tools, artifacts and pusher are arbitrary. *)

From S2P Require Import Prelude GoLib Model StateStore MemoryStore MemoryQueue World TaskService Artifacts Engine Worker Ops.

Section system.
Context {S Q A F L P : Type} `{HS : StateStore S} `{HL : !StateStoreLaws S} `{HQ : MessageQueue Q}
  `{HA : ArtifactStore A} `{HF : Workspace F} `{HWF : WorkspaceFactory F} `{HLL : LLMClient L} `{HP : Pusher P}.
Context `{HU : Unicode} `{HT : TextLib} `{HC : SnapshotCodec} (env : Env) (eenv : EngineEnv) (cfg : Config).
Context (fs_tools : string -> list (Tool (A * F))) (custom : option (Registry (A * F))).
Abbreviation EW := (EngW S A F L P).

(** What handling leaves behind: run and task in matching final statuses. *)
Definition settled (taskID runID : string) (s : S) : Prop :=
  exists status t, run_status (GetRun taskID runID s) = Some status /\
    GetTask taskID s = Ok t /\ Task_ActiveRunID t = runID /\
    (status, Task_Status t) ∈ [(RunStatusSucceeded, TaskStatusSucceeded); (RunStatusFailed, TaskStatusFailed);
                               (RunStatusAborted, TaskStatusAborted)].

(** A message for the queued active run of a queued task is handled to the end. *)
Lemma handle_settles msg (w : EW) r t :
  let taskID := SQSMessage_TaskID msg in let runID := SQSMessage_RunID msg in
  GetRun taskID runID (ew_store w) = Ok r -> Run_Status r = RunStatusQueued ->
  GetTask taskID (ew_store w) = Ok t -> Task_ActiveRunID t = runID -> Task_Status t = TaskStatusQueued ->
  (forall n, exists ws, NewWorkspace n runID = Ok ws) ->
  exists w', handleMessage eenv cfg fs_tools custom msg w = (w', None) /\ settled taskID runID (ew_store w').
Proof.
  cbn zeta. intros Hr Hq Ht Ha Hs Hws.
  pose proof (handle_claimed eenv cfg fs_tools custom msg w r t Hr Hq Ht) as Hc. cbn zeta in Hc.
  rewrite decide_True in Hc by (rewrite Hs; split; [done|constructor]).
  destruct Hc as (w1 & r1 & u & -> & Hr1 & _ & Ht1).
  destruct (load_run_acks eenv cfg fs_tools custom msg w1 r1 _ Hr1 Ht1 Hws) as (w' & status & He & Hin & Hst & t' & Hg & Hact & Hts).
  exists w'. split; [exact He|]. exists status, t'. rewrite decide_True in Hts by done.
  split; [exact Hst|]. split; [exact Hg|]. split; [rewrite Hact; exact Ha|]. rewrite Hts. by apply final_status_matches.
Qed.


(** C5: A recovered run is carried through: when recovery finds a stale run that is the active run of its task, it hands
    a message to the queue; if the queue takes it, the run is counted as recovered, and a worker that handles this message
    acknowledges it and leaves the run in a final status and the task in the matching one, provided a workspace can be
    created. If the queue refuses it, the report gets one more error and the run is not counted. *)
Theorem recovered_run_settles now staleFor run r t out (w : World S Q) :
  GetTask (Run_TaskID run) (w_store w) = Ok t -> GetRun (Run_TaskID run) (Run_RunID run) (w_store w) = Ok r ->
  Task_ActiveRunID t = Run_RunID run -> isRunStale run t now staleFor = true ->
  (forall n, exists ws, NewWorkspace n (Run_RunID run) = Ok ws) ->
  let '(w1, out') := recover_run env now staleFor run out w in
  exists n msg,
    match Queue_Enqueue n msg (w_queue w) with
    | (q, Ok _) => w_queue w1 = q /\ RecoveryReport_Recovered out' = RecoveryReport_Recovered out + 1 /\
        RecoveryReport_Errors out' = RecoveryReport_Errors out
    | (q, Err _) => w_queue w1 = q /\ RecoveryReport_Recovered out' = RecoveryReport_Recovered out /\
        exists e, RecoveryReport_Errors out' = RecoveryReport_Errors out ++ [e]
    end /\
    forall ew : EW, ew_store ew = w_store w1 ->
    exists ew', handleMessage eenv cfg fs_tools custom msg ew = (ew', None) /\
      settled (Run_TaskID run) (Run_RunID run) (ew_store ew').
Proof.
  intros Ht Hr Ha Hstale Hws. pose proof (recover_run_spec env now staleFor run out w) as Hrec.
  destruct (recover_run env now staleFor run out w) as [w1 out']. rewrite Ht in Hrec.
  rewrite decide_True, Hr in Hrec by done. destruct Hrec as ((q & Hr1) & (u & Ht1) & n & Hq).
  exists n, (recovery_message now t run). split.
  - destruct (Queue_Enqueue n _ (w_queue w)) as [q' [[]|e]]; destruct Hq as [-> ->]; cbn; [done|by split_and!; [| |eexists]].
  - intros ew Hew. unfold recovery_message. destruct (EstimateUsage (Task_Prompt t) (Run_ModelConfig run)) as [tok cost].
    eapply (handle_settles (mkSQSMessage _ _ _ _ _ _ _ _ _) ew); cbn; rewrite ?Hew; done.
Qed.
End system.

(** *** Witnesses *)

Module system_demo.
Import engine_demo worker_demo.
#[local] Existing Instance demo.demo_queue.
#[local] Existing Instance host.

Definition worker_world (s : MemoryStore) : EngW MemoryStore MemoryArtifactStore bytes (list LLMResponse) nat :=
  engine_demo.world <| ew_store := s |>.

Lemma workspaces id : forall n, exists ws, NewWorkspace (F := bytes) n id = Ok ws.
Proof. intros n. by exists []. Qed.


Lemma recovered_run_settles_witness :
  let stale := ops_demo.run "run_5" RunStatusRunning 5 in
  let w1 := (recover_run ops_demo.env Hour (10 * Minute) stale (mkRecoveryReport 1 0 0 []) ops_demo.world).1 in
  exists n msg ew', w_queue w1 = (Queue_Enqueue n msg (w_queue ops_demo.world)).1 /\
    handleMessage engine_demo.env DefaultEngineConfig builtin None msg (worker_world (w_store w1)) = (ew', None) /\
    settled "task_1" "run_5" (ew_store ew').
Proof.
  cbn zeta. set (stale := ops_demo.run "run_5" RunStatusRunning 5).
  pose proof (recovered_run_settles ops_demo.env engine_demo.env DefaultEngineConfig builtin None Hour (10 * Minute)
    stale stale ops_demo.task (mkRecoveryReport 1 0 0 []) ops_demo.world) as H.
  destruct (recover_run ops_demo.env Hour (10 * Minute) stale (mkRecoveryReport 1 0 0 []) ops_demo.world) as [w1 out].
  destruct H as (n & msg & Hq & H); [vm_compute; reflexivity|vm_compute; reflexivity|reflexivity|vm_compute; reflexivity|apply workspaces|].
  destruct (H (worker_world (w_store w1)) eq_refl) as (ew' & He & Hs). exists n, msg, ew'. split; [|by split].
  destruct (Queue_Enqueue n msg (w_queue ops_demo.world)) as [q [[]|e]]; destruct Hq as [Hq _]; exact Hq.
Defined.
End system_demo.
