(* ===== verification/Interference.v ===== *)
(** * Interference: a worker among other clients of the store

    The worker and the engine are written against the class [StateStore], so a store that others
    use at the same time is one more instance of it: every write of the worker is preceded by any
    operations of other clients (API requests, other workers, recovery of other runs), and a read
    may return anything, since it may come at any moment between two writes.  [Interfered] says this
    of a store; the only thing the others must not do is what belongs to whoever has claimed the run:
    to complete it or to put it back to the queue. *)

From Stdlib Require Import Ascii.
From S2P Require Import Prelude GoLib Model StateStore MemoryStore World TaskService Artifacts Engine Worker.

(** ** What the others may do *)

(** Operations that leave the status of the run under key [k] to the one who claimed it. *)
Definition leaves_run (k : string) (o : store_op) : bool :=
  match o with
  | OpCompleteRun _ t r _ | OpResetRunToQueued _ t r => negb (bool_decide (runKey t r = k))
  | _ => true
  end.

Definition status_at (k : string) (s : MemoryStore) : option RunStatus := Run_Status <$> MS_runs s !! k.

(** Such an operation does not change the status of a run that is not queued; a claim of it fails. *)
Lemma leaves_status k o s st :
  leaves_run k o = true -> status_at k s = Some st -> st <> RunStatusQueued -> status_at k (exec_op o s).1 = Some st.
Proof.
  unfold status_at. intros Hl Hs Hq. destruct (MS_runs s !! k) as [x|] eqn:Hx; [|done]. cbn in Hs. injection Hs as Hs.
  assert (Hkeep : exists y, MS_runs (exec_op o s).1 !! k = Some y /\ Run_Status y = st); [|destruct Hkeep as (y & -> & <-); done].
  destruct o; unfold_store_ops; cbn [leaves_run] in Hl.
  all: try (rewrite with_run_lookup; case_decide; [|by eauto]; rewrite Hx; eexists; split; [reflexivity|]; cbn; bool_prop; op_cases; congruence).
  all: op_cases; try (by eauto).
  all: try (exists x; split; [|done]; cbn; apply run_insert_new_lookup; [|done]; by apply not_is_Some_None).
  all: rewrite with_run_lookup; destruct (decide (k = runKey taskID runID)) as [Hk|Hk]; [|by eauto];
    rewrite Hx; eexists; (split; [reflexivity|]); cbn in *; try done.
  exfalso. apply Heqb. congruence.
Qed.

Lemma leaves_statuses k ops : forall s st,
  Forall (fun o => leaves_run k o = true) ops -> status_at k s = Some st -> st <> RunStatusQueued -> status_at k (exec_ops ops s) = Some st.
Proof.
  induction ops as [|o ops IH]; intros s st Hf Hs Hq; [done|]. apply list.Forall_cons in Hf as [Ho Hops]. cbn. apply IH; [done| |done]. by apply leaves_status.
Qed.

(** ** A store that others use *)

(** The common store went from [s] to [s'] by operations that leave the run. *)
Definition around (k : string) (s s' : MemoryStore) : Prop := exists ops, Forall (fun o => leaves_run k o = true) ops /\ s' = exec_ops ops s.

#[export] Instance around_preorder k : PreOrder (around k).
Proof.
  split; [intros s; by exists []|]. intros s1 s2 s3 (o1 & H1 & ->) (o2 & H2 & ->). exists (o1 ++ o2). split; [by apply list.Forall_app|].
  unfold exec_ops. by rewrite fold_left_app.
Qed.

Lemma around_status k s s' st : around k s s' -> status_at k s = Some st -> st <> RunStatusQueued -> status_at k s' = Some st.
Proof. intros (ops & Hops & ->). by apply leaves_statuses. Qed.

(** The writes a client has made itself, with what they returned. *)
Definition journal : Type := list (store_op * result error unit).

Section shared.
Context {S : Type} `{HS : StateStore S} (k : string) (committed : S -> MemoryStore) (written : S -> journal).

(** A call of [f] is the operation [o] on the common store after some operations of others; it is
    the only thing the journal records. *)
Definition shared (o : store_op) (f : S -> S * result error unit) : Prop := forall s, exists ops,
  Forall (fun o => leaves_run k o = true) ops /\ committed (f s).1 = (exec_op o (exec_ops ops (committed s))).1 /\
  (f s).2 = (exec_op o (exec_ops ops (committed s))).2 /\ written (f s).1 = written s ++ [(o, (f s).2)].

(** The writes of a worker are shared in this way; nothing is said of its reads. *)
Class Interfered : Prop := {
  sh_claim now a b : shared (OpClaimRun now a b) (ClaimRun now a b);
  sh_update now a b from to : shared (OpUpdateTaskStatusForRun now a b from to) (UpdateTaskStatusForRun now a b from to);
  sh_complete now a b st : shared (OpCompleteRun now a b st) (CompleteRun now a b st);
  sh_last a b i : shared (OpUpdateLastStepIndex a b i) (UpdateLastStepIndex a b i);
  sh_usage a b u c : shared (OpAddRunUsage a b u c) (AddRunUsage a b u c);
  sh_step st : shared (OpPutStep st) (PutStep st);
  sh_event t1 t2 ev : shared (OpPutEvent t1 t2 ev) (PutEvent t1 t2 ev);
  sh_delete id : shared (OpDeleteConnection id) (DeleteConnection id) }.

Lemma shared_around o f s : shared o f -> leaves_run k o = true -> around k (committed s) (committed (f s).1).
Proof.
  intros Hf Ho. destruct (Hf s) as (ops & Hops & -> & _). exists (ops ++ [o]). split; [apply list.Forall_app; split; [done|by constructor]|].
  unfold exec_ops. by rewrite fold_left_app.
Qed.
End shared.

(** The writes of the engine: steps, usage and events, and connections that are gone. *)
Definition engine_op (o : store_op) : bool :=
  match o with
  | OpUpdateLastStepIndex _ _ _ | OpAddRunUsage _ _ _ _ | OpPutStep _ | OpPutEvent _ _ _ | OpDeleteConnection _ => true
  | _ => false
  end.

Lemma engine_leaves k o : engine_op o = true -> leaves_run k o = true.
Proof. by destruct o. Qed.

(** ** The worker *)

Section interleaved.
Context {S A F L P : Type} `{HS : StateStore S} `{HA : ArtifactStore A} `{HF : Workspace F}
  `{HWF : WorkspaceFactory F} `{HLL : LLMClient L} `{HP : Pusher P}.
Context `{HU : Unicode} `{HT : TextLib} `{HC : SnapshotCodec} (env : EngineEnv) (cfg : Config).
Context (fs_tools : string -> list (Tool (A * F))) (custom : option (Registry (A * F))).
Context (taskID runID tenantID : string) (committed : S -> MemoryStore) (written : S -> journal).
Abbreviation k := (runKey taskID runID).
Context `{HI : !Interfered k committed written}.
Abbreviation W := (EngW S A F L P).

Definition common (w : W) : MemoryStore := committed (ew_store w).
Definition writes (w : W) : journal := written (ew_store w).

(** Only engine writes were made. *)
Definition world_around (w w' : W) : Prop :=
  around k (common w) (common w') /\ exists work, writes w' = writes w ++ work /\ Forall (fun p => engine_op p.1 = true) work.

#[local] Instance world_around_preorder : PreOrder world_around.
Proof.
  split; [intros w; split; [reflexivity|]; exists []; by rewrite app_nil_r|]. intros w1 w2 w3 (A1 & l1 & E1 & F1) (A2 & l2 & E2 & F2).
  split; [by etrans|]. exists (l1 ++ l2). rewrite E2, E1, app_assoc. split; [done|by apply list.Forall_app].
Qed.

Lemma same_around (w w' : W) : ew_store w' = ew_store w -> world_around w w'.
Proof. intros E. unfold world_around, common, writes. rewrite E. split; [reflexivity|]. exists []. by rewrite app_nil_r. Qed.

Lemma store_around o f : shared k committed written o f -> engine_op o = true -> preserves world_around (e_store (A := A) (F := F) (L := L) (P := P) f).
Proof.
  intros Hf Ho w. unfold e_store, world_around, common, writes. pose proof (shared_around k committed written o f (ew_store w) Hf (engine_leaves k o Ho)) as H.
  destruct (Hf (ew_store w)) as (_ & _ & _ & _ & Hj). destruct (f (ew_store w)) as [s x]. split; [exact H|]. eexists. split; [exact Hj|by constructor].
Qed.

(** The engine does nothing to the status of a claimed run, whatever it reads. *)
Lemma execute_around tools task run w : world_around w (Execute env cfg tools task run w).1.
Proof.
  assert (H : (Execute env cfg tools task run w).1 = w \/ world_around (w <| ew_seq := 0 |>) (Execute env cfg tools task run w).1).
  { apply p_execute; try apply _; try (intros; by apply same_around); try (intros; intros ?; by apply same_around); intros.
    all: eapply store_around; [first [apply sh_step|apply sh_last|apply sh_usage|apply sh_event|apply sh_delete]; exact HI|done]. }
  destruct H as [->|H]; [reflexivity|exact H].
Qed.

(** A write of the worker: the operation itself on a state that the others have brought about. *)
Lemma write_cases o f w : shared k committed written o f -> exists s1, around k (common w) s1 /\
  common (e_store (A := A) (F := F) (L := L) (P := P) f w).1 = (exec_op o s1).1 /\ (e_store f w).2 = (exec_op o s1).2 /\
  writes (e_store f w).1 = writes w ++ [(o, (exec_op o s1).2)].
Proof.
  intros Hf. destruct (Hf (ew_store w)) as (ops & Hops & E1 & E2 & E3). exists (exec_ops ops (common w)). split; [by exists ops|].
  unfold e_store, common, writes in *. rewrite E2 in E3. destruct (f (ew_store w)) as [s x]. done.
Qed.

Lemma complete_around st w st0 : status_at k (common w) = Some st0 -> st0 <> RunStatusQueued ->
  let p := complete_run env taskID runID st w in
  p.2 = Ok tt /\ status_at k (common p.1) = Some st /\ exists now, writes p.1 = writes w ++ [(OpCompleteRun now taskID runID st, Ok tt)].
Proof.
  intros Hs Hq. cbn zeta. unfold complete_run. rewrite ST_bind_run. cbn [now fst snd]. set (w1 := w <| ew_tick ::= Datatypes.S |>).
  destruct (write_cases _ _ w1 (sh_complete k committed written (ee_now env (ew_tick w)) taskID runID st)) as (s1 & Ha & -> & -> & ->).
  apply (around_status _ _ _ _ Ha) in Hs; [|done]. unfold status_at in *. cbn [exec_op]. unfold MemoryStore_CompleteRun, with_run.
  destruct (MS_runs s1 !! k) as [x|]; [|done]. cbn. split; [done|]. rewrite lookup_insert_eq. split; [done|by eexists].
Qed.

(** The task is not left running with this run as its active one. *)
Definition not_left (s : MemoryStore) : Prop :=
  forall t, MS_tasks s !! taskID = Some t -> Task_ActiveRunID t = runID -> Task_Status t <> TaskStatusRunning.

Lemma update_around from to w st : status_at k (common w) = Some st -> st <> RunStatusQueued ->
  let p := update_task_for_run env taskID runID from to w in
  ((p.2 = Ok tt \/ p.2 = Err ErrConflict) \/ p.2 = Err ErrNotFound) /\ status_at k (common p.1) = Some st /\
  (to <> TaskStatusRunning -> TaskStatusRunning ∈ from -> not_left (common p.1)) /\
  (exists now, writes p.1 = writes w ++ [(OpUpdateTaskStatusForRun now taskID runID from to, p.2)]).
Proof.
  intros Hs Hq. cbn zeta. unfold update_task_for_run. rewrite ST_bind_run. cbn [now fst snd]. set (w1 := w <| ew_tick ::= Datatypes.S |>).
  destruct (write_cases _ _ w1 (sh_update k committed written (ee_now env (ew_tick w)) taskID runID from to)) as (s1 & Ha & -> & -> & ->).
  apply (around_status _ _ _ _ Ha) in Hs; [|done]. split_and!.
  - cbn [exec_op]. unfold MemoryStore_UpdateTaskStatusForRun. repeat case_match; auto.
  - by apply leaves_status.
  - intros Hto Hfrom t. cbn [exec_op]. unfold MemoryStore_UpdateTaskStatusForRun. destruct (MS_tasks s1 !! taskID) as [x|] eqn:Ex; cycle 1.
    { cbn. by rewrite Ex. }
    destruct (bool_decide (Task_ActiveRunID x ≠ runID)) eqn:Ea; [|destruct (bool_decide (Task_Status x ∈ from)) eqn:Ef]; cbn.
    + rewrite Ex. intros [= <-] Hact. by apply bool_decide_eq_true in Ea.
    + rewrite lookup_insert_eq. by intros [= <-].
    + rewrite Ex. intros [= <-] _ Hst. apply bool_decide_eq_false in Ef. by rewrite Hst in Ef.
  - by eexists.
Qed.

(** The update is refused only if the task is not the run's to update at that moment. *)
Lemma update_refused from to w e : (update_task_for_run env taskID runID from to w).2 = Err e ->
  exists s1, around k (common w) s1 /\ forall t, MS_tasks s1 !! taskID = Some t -> ~ (Task_ActiveRunID t = runID /\ Task_Status t ∈ from).
Proof.
  unfold update_task_for_run. rewrite ST_bind_run. cbn [now fst snd]. set (w1 := w <| ew_tick ::= Datatypes.S |>).
  destruct (write_cases _ _ w1 (sh_update k committed written (ee_now env (ew_tick w)) taskID runID from to)) as (s1 & Ha & _ & -> & _).
  intros He. exists s1. split; [exact Ha|]. intros t Ht [E1 E2]. cbn [exec_op] in He. unfold MemoryStore_UpdateTaskStatusForRun in He. rewrite Ht in He.
  rewrite bool_decide_false in He by tauto. by rewrite bool_decide_true in He.
Qed.

(** What decides the final status of a run whose task and run were read in [w]: the task belongs to another tenant than the message
    says, or the engine was executed on what was read and made the writes [work]. *)
Inductive concluded (w : W) : RunStatus -> journal -> Prop :=
| concluded_tenant task :
    GetTask taskID (ew_store w) = Ok task -> Task_TenantID task <> tenantID -> concluded w RunStatusFailed []
| concluded_engine task run tools w1 w2 res work :
    GetTask taskID (ew_store w) = Ok task -> Task_TenantID task = tenantID -> GetRun taskID runID (ew_store w) = Ok run ->
    ew_store w1 = ew_store w -> Execute env cfg tools task run w1 = (w2, res) ->
    writes w2 = writes w1 ++ work -> Forall (fun p => engine_op p.1 = true) work ->
    concluded w (match res with Ok r => RunResult_Status r | Err _ => RunStatusFailed end) work.

(** How a claimed run whose task is RUNNING can be left by the worker that read task and run in [w]. *)
Definition left_behind (w : W) (err : option error) (w' : W) : Prop :=
  match err with
  | None => exists status taskStatus work t1 t2 r, concluded w status work /\
      writes w' = writes w ++ work ++ [(OpCompleteRun t1 taskID runID status, Ok tt);
                                       (OpUpdateTaskStatusForRun t2 taskID runID [TaskStatusRunning] taskStatus, r)] /\
      (status, taskStatus) ∈ [(RunStatusSucceeded, TaskStatusSucceeded); (RunStatusFailed, TaskStatusFailed); (RunStatusAborted, TaskStatusAborted)] /\
      status_at k (common w') = Some status /\ not_left (common w')
  | Some _ => status_at k (common w') = Some RunStatusFailed \/ status_at k (common w') = Some RunStatusRunning /\ exists n e, NewWorkspace n runID = Err e
  end.

Lemma final_not_queued st : st ∈ [RunStatusSucceeded; RunStatusFailed; RunStatusAborted] -> st <> RunStatusQueued.
Proof. intros H ->. set_solver. Qed.

Lemma finalize_around status w st : status ∈ [RunStatusSucceeded; RunStatusFailed; RunStatusAborted] -> status_at k (common w) = Some st -> st <> RunStatusQueued ->
  let p := finalizeRun env taskID runID status w in p.2 = None /\ status_at k (common p.1) = Some status /\ not_left (common p.1) /\
  exists t1 t2 r, writes p.1 = writes w ++ [(OpCompleteRun t1 taskID runID status, Ok tt); (OpUpdateTaskStatusForRun t2 taskID runID [TaskStatusRunning] (final_task_status status), r)].
Proof.
  intros Hfin Hs Hq. cbn zeta. unfold finalizeRun. rewrite ST_bind_run. destruct (complete_around status w st Hs Hq) as (E1 & Hs1 & t1 & Hw1).
  destruct (complete_run env taskID runID status w) as [w1 r1]. cbn [fst snd] in *. subst r1. rewrite ST_bind_run.
  destruct (update_around [TaskStatusRunning] (final_task_status status) w1 status Hs1 (final_not_queued _ Hfin)) as (Hr & Hs2 & Hn & t2 & Hw2).
  destruct (update_task_for_run env taskID runID _ _ w1) as [w2 r2]. cbn [fst snd] in *.
  assert (Hend : not_left (common w2)) by (apply Hn; [by destruct status|by left]).
  assert (Hw : exists t1 t2 r, writes w2 = writes w ++ [(OpCompleteRun t1 taskID runID status, Ok tt); (OpUpdateTaskStatusForRun t2 taskID runID [TaskStatusRunning] (final_task_status status), r)]).
  { exists t1, t2, r2. by rewrite Hw2, Hw1, <- app_assoc. }
  destruct Hr as [[-> | ->] | ->]; done.
Qed.

Lemma execute_run_around msg task run w : SQSMessage_TaskID msg = taskID -> SQSMessage_RunID msg = runID ->
  GetTask taskID (ew_store w) = Ok task -> Task_TenantID task = tenantID -> GetRun taskID runID (ew_store w) = Ok run ->
  status_at k (common w) = Some RunStatusRunning ->
  let p := execute_run env cfg fs_tools custom msg task run w in left_behind w p.2 p.1.
Proof.
  intros Ht Hr Hgt Htn Hgr Hs. cbn zeta. unfold execute_run. rewrite Ht, Hr, ST_bind_run. cbn [act fst snd].
  destruct (NewWorkspace (ew_tick w) runID) as [ws|e] eqn:En; cycle 1.
  { right. split; [exact Hs|by eexists _, _]. }
  rewrite ST_bind_run. cbn [act fst snd]. rewrite ST_bind_run.
  match goal with |- context [Execute ?a ?b ?c task run ?w0] => set (tools := c); set (w1 := w0) end.
  assert (Hsame : ew_store w1 = ew_store w) by done.
  pose proof (execute_around tools task run w1) as [Hx (work & Hwork & Hall)]. pose proof (execute_final env cfg tools task run w1) as Hfin.
  assert (Hs1 : status_at k (common (Execute env cfg tools task run w1).1) = Some RunStatusRunning) by (by eapply around_status; [exact Hx|exact Hs|]).
  destruct (Execute env cfg tools task run w1) as [w2 res] eqn:Ex.
  cbn [fst snd] in *. rewrite ST_bind_run. set (status := match res with Ok r => RunResult_Status r | Err _ => RunStatusFailed end).
  assert (Hst : status ∈ [RunStatusSucceeded; RunStatusFailed; RunStatusAborted]) by (unfold status; destruct res as [r|]; [by apply Hfin|set_solver]).
  destruct (finalize_around status w2 RunStatusRunning Hst Hs1) as (En2 & Hs2 & Hn2 & t1 & t2 & r & Hw); [done|].
  destruct (finalizeRun env taskID runID status w2) as [w3 err]. cbn [fst snd] in *. subst err. cbn.
  exists status, (final_task_status status), work, t1, t2, r. split_and!; [by eapply concluded_engine| |by apply final_status_matches|exact Hs2|exact Hn2].
  change (writes w3 = writes w ++ work ++ [(OpCompleteRun t1 taskID runID status, Ok tt); (OpUpdateTaskStatusForRun t2 taskID runID [TaskStatusRunning] (final_task_status status), r)]).
  rewrite Hw, Hwork, <- app_assoc. unfold writes at 1. by rewrite Hsame.
Qed.

Lemma load_run_around msg w : SQSMessage_TaskID msg = taskID -> SQSMessage_RunID msg = runID -> SQSMessage_TenantID msg = tenantID ->
  status_at k (common w) = Some RunStatusRunning ->
  let p := load_run env cfg fs_tools custom msg w in left_behind w p.2 p.1.
Proof.
  intros Ht Hr Htn Hs. cbn zeta. unfold load_run. cbn zeta. rewrite Ht, Hr, ST_bind_run. cbn [e_read fst snd].
  destruct (complete_around RunStatusFailed w RunStatusRunning Hs ltac:(done)) as (_ & Hs1 & t1 & Hw1).
  destruct (update_around [TaskStatusRunning] TaskStatusFailed _ _ Hs1 ltac:(done)) as (_ & Hs2 & Hn & t2 & Hw2).
  destruct (GetTask taskID (ew_store w)) as [task|e] eqn:Hgt.
  - destruct (bool_decide (Task_TenantID task ≠ SQSMessage_TenantID msg)) eqn:Etn.
    + rewrite !ST_bind_run. cbn [fst snd]. eexists RunStatusFailed, TaskStatusFailed, [], t1, t2, _. split_and!.
      * eapply concluded_tenant; [exact Hgt|]. apply bool_decide_eq_true in Etn. by rewrite Htn in Etn.
      * rewrite Hw1, <- app_assoc in Hw2. exact Hw2.
      * set_solver.
      * exact Hs2.
      * apply Hn; [done|by left].
    + apply bool_decide_eq_false, dec_stable in Etn. rewrite Htn in Etn. rewrite ST_bind_run. cbn [e_read fst snd]. destruct (GetRun taskID runID (ew_store w)) as [run|e] eqn:Hgr.
      * by apply execute_run_around.
      * rewrite !ST_bind_run. by left.
  - rewrite ST_bind_run. by left.
Qed.

(** C7: The worker among other clients: whatever operations of others (requests, aborts, resumptions, other workers, jobs on
    other runs) come between its writes, and whatever its reads return, as long as nobody else completes or resets
    the run it has claimed, handling a message ends in one of three ways. (1) Its claim is refused: this is its only write, and the message is
    acknowledged. (2) Its claim succeeds but the task is not the run's any more: it completes the run as ABORTED, writes nothing else
    and acknowledges. (3) It claims the run, marks the task RUNNING and works on the run. If it then acknowledges, the engine was executed on
    the task and run it had read (or the tenant did not match and the run is FAILED), its writes are those of the engine followed by the
    completion of the run with the engine's status and the update of the task to the status of the same name, the run still
    has that status, and its task is not left RUNNING with it. If it does not acknowledge, the run is FAILED, or is RUNNING
    because no workspace could be made. *)
Theorem worker_interleaved msg w (Htask : SQSMessage_TaskID msg = taskID) (Hrun : SQSMessage_RunID msg = runID) (Htenant : SQSMessage_TenantID msg = tenantID) :
  let '(w', err) := handleMessage env cfg fs_tools custom msg w in
  (exists t1 e, err = None /\ writes w' = writes w ++ [(OpClaimRun t1 taskID runID, Err e)] /\ status_at k (common w') <> Some RunStatusQueued) \/
  (exists t1 t2 t3 e, err = None /\
     writes w' = writes w ++ [(OpClaimRun t1 taskID runID, Ok tt);
       (OpUpdateTaskStatusForRun t2 taskID runID [TaskStatusQueued; TaskStatusRunning] TaskStatusRunning, Err e); (OpCompleteRun t3 taskID runID RunStatusAborted, Ok tt)] /\
     status_at k (common w') = Some RunStatusAborted /\
     exists s1, around k (common w) s1 /\ forall t, MS_tasks s1 !! taskID = Some t -> ~ (Task_ActiveRunID t = runID /\ Task_Status t ∈ [TaskStatusQueued; TaskStatusRunning])) \/
  (exists t1 t2 w1, writes w1 = writes w ++ [(OpClaimRun t1 taskID runID, Ok tt);
       (OpUpdateTaskStatusForRun t2 taskID runID [TaskStatusQueued; TaskStatusRunning] TaskStatusRunning, Ok tt)] /\ left_behind w1 err w').
Proof.
  unfold handleMessage. cbn zeta. rewrite Htask, Hrun, ST_bind_run. cbn [now fst snd]. rewrite ST_bind_run. set (w1 := w <| ew_tick ::= Datatypes.S |>).
  destruct (write_cases _ _ w1 (sh_claim k committed written (ee_now env (ew_tick w)) taskID runID)) as (s1 & Ha & E1 & E2 & E3).
  destruct (e_store (ClaimRun _ taskID runID) w1) as [w2 r]. cbn [fst snd] in *. change (common w1) with (common w) in Ha. change (writes w1) with (writes w) in E3.
  set (t1 := ee_now env (ew_tick w)) in *. unfold mret, ST_ret. cbn [exec_op] in E1, E2, E3. unfold MemoryStore_ClaimRun in E1, E2, E3. destruct (MS_runs s1 !! k) as [x|] eqn:Ex; cycle 1.
  { cbn in E1, E2, E3. subst r. left. exists t1, ErrNotFound. split; [done|]. split; [exact E3|]. rewrite E1. unfold status_at. by rewrite Ex. }
  destruct (bool_decide (Run_Status x ≠ RunStatusQueued)) eqn:Eq.
  { cbn in E1, E2, E3. subst r. left. exists t1, ErrConflict. split; [done|]. split; [exact E3|]. rewrite E1. unfold status_at. rewrite Ex. apply bool_decide_eq_true in Eq. cbn. congruence. }
  assert (Hwr : forall f, with_run taskID runID f s1 = ((with_run taskID runID f s1).1, Ok tt)) by (intros f; unfold with_run; by rewrite Ex).
  rewrite Hwr in E2, E3. cbn [snd] in E2, E3. subst r.
  assert (Hs2 : status_at k (common w2) = Some RunStatusRunning) by (rewrite E1; unfold status_at; rewrite with_run_lookup, decide_True by done; by rewrite Ex).
  assert (Ha2 : around k (common w) (common w2)).
  { etrans; [exact Ha|]. exists [OpClaimRun t1 taskID runID]. split; [by constructor|]. cbn. unfold MemoryStore_ClaimRun. rewrite Ex, Eq. exact E1. }
  rewrite ST_bind_run. pose proof (update_around [TaskStatusQueued; TaskStatusRunning] TaskStatusRunning w2 _ Hs2 ltac:(done)) as (Hr & Hs3 & _ & t2 & Hw3).
  pose proof (update_refused [TaskStatusQueued; TaskStatusRunning] TaskStatusRunning w2) as Href.
  destruct (update_task_for_run env taskID runID _ _ w2) as [w3 r3]. cbn [fst snd] in *. rewrite E3, <- app_assoc in Hw3. cbn [app] in Hw3. destruct r3 as [[]|e].
  - pose proof (load_run_around msg w3 Htask Hrun Htenant Hs3) as Hl. destruct (load_run env cfg fs_tools custom msg w3) as [w4 err]. right. right. by exists t1, t2, w3.
  - destruct (Href e eq_refl) as (s2 & Ha3 & Hno). assert (Hcm : conflict_or_missing e = true) by (by destruct Hr as [[[=]|[= ->]]|[= ->]]). rewrite Hcm, ST_bind_run.
    destruct (complete_around RunStatusAborted w3 _ Hs3 ltac:(done)) as (_ & Hs4 & t3 & Hw4). destruct (complete_run env taskID runID RunStatusAborted w3) as [w4 r4]. cbn [fst snd] in *.
    right. left. exists t1, t2, t3, e. split; [done|]. split; [by rewrite Hw4, Hw3, <- app_assoc|]. split; [exact Hs4|]. exists s2. split; [by etrans|exact Hno].
Qed.
End interleaved.

(** ** A store with scripted clients *)

(** Before each write of the worker the others perform the next list of operations, those that leave the run alone. *)
Record Busy : Type := mkBusy { busy_store : MemoryStore; busy_others : list (list store_op); busy_written : journal }.

Section busy.
Context (k : string).

Definition others_now (b : Busy) : MemoryStore := exec_ops (List.filter (leaves_run k) (List.hd [] (busy_others b))) (busy_store b).
Definition busy_write (o : store_op) (b : Busy) : Busy * result error unit :=
  let '(s, x) := exec_op o (others_now b) in (mkBusy s (List.tl (busy_others b)) (busy_written b ++ [(o, x)]), x).
Definition busy_read {X} (f : MemoryStore -> X) (b : Busy) : X := f (others_now b).

Definition Busy_StateStore : StateStore Busy := {|
  ApplyCreateTransition now t r := busy_write (OpApplyCreateTransition now t r);
  PutTask t := busy_write (OpPutTask t);
  GetTask id := busy_read (GetTask id);
  IsAbortRequested id := busy_read (IsAbortRequested id);
  UpdateTaskStatus now id from to := busy_write (OpUpdateTaskStatus now id from to);
  UpdateTaskStatusForRun now a b from to := busy_write (OpUpdateTaskStatusForRun now a b from to);
  SetAbortRequested now id reason := busy_write (OpSetAbortRequested now id reason);
  ClearAbortRequested now id := busy_write (OpClearAbortRequested now id);
  SetActiveRun now a b := busy_write (OpSetActiveRun now a b);
  ApplyResumeTransition n1 n2 id r from to := busy_write (OpApplyResumeTransition n1 n2 id r from to);
  GetTaskByIdempotencyKey a b := busy_read (GetTaskByIdempotencyKey a b);
  ListTasks a l n := busy_read (ListTasks a l n);
  PutRun now r := busy_write (OpPutRun now r);
  GetRun a b := busy_read (GetRun a b);
  ClaimRun now a b := busy_write (OpClaimRun now a b);
  CompleteRun now a b st := busy_write (OpCompleteRun now a b st);
  UpdateLastStepIndex a b i := busy_write (OpUpdateLastStepIndex a b i);
  AddRunUsage a b u c := busy_write (OpAddRunUsage a b u c);
  ResetRunToQueued now a b := busy_write (OpResetRunToQueued now a b);
  ListRuns a l n := busy_read (ListRuns a l n);
  PutStep st := busy_write (OpPutStep st);
  GetStep a i := busy_read (GetStep a i);
  ListSteps a i n := busy_read (ListSteps a i n);
  PutConnection c := busy_write (OpPutConnection c);
  GetConnection id := busy_read (GetConnection id);
  DeleteConnection id := busy_write (OpDeleteConnection id);
  GetConnectionsByTask id := busy_read (GetConnectionsByTask id);
  PutEvent t1 t2 ev := busy_write (OpPutEvent t1 t2 ev);
  ReplayEvents a b x y z := busy_read (ReplayEvents a b x y z);
  CompactEvents a b ts s :=
    let '(m, x) := CompactEvents a b ts (others_now s) in (mkBusy m (List.tl (busy_others s)) (busy_written s), x) |}.

Lemma busy_shared o : shared k busy_store busy_written o (busy_write o).
Proof.
  intros b. exists (List.filter (leaves_run k) (List.hd [] (busy_others b))). split.
  - apply list.Forall_forall. intros x Hx. by apply list_elem_of_In, filter_In in Hx as [_ Hx].
  - unfold busy_write. fold (others_now b). by destruct (exec_op o (others_now b)).
Qed.

Lemma Busy_interfered : @Interfered Busy Busy_StateStore k busy_store busy_written.
Proof. split; intros; apply busy_shared. Qed.
End busy.

(** ** Examples *)

Module interference_demo.
Import engine_demo worker_demo.

Definition key : string := runKey "task_1" "run_1".
#[local] Instance busy_demo : StateStore Busy := Busy_StateStore key.
#[local] Instance busy_demo_interfered : Interfered key busy_store busy_written := Busy_interfered key.

(** While the worker executes the run, another request resumes the task with a new run and a second delivery of the message
    arrives. *)
Definition resumed : Run := queued_run <| Run_RunID := "run_2" |>.
Definition busy_world : EngW Busy MemoryArtifactStore bytes (list LLMResponse) nat :=
  mkEngW (mkBusy (ew_store queued) [[]; []; [OpClaimRun 5 "task_1" "run_1"; OpUpdateTaskStatus 5 "task_1" [TaskStatusRunning] TaskStatusAborted];
    [OpApplyResumeTransition 6 6 "task_1" (Some resumed) [TaskStatusAborted] TaskStatusQueued]] [])
    (ew_art queued) (ew_ws queued) (ew_llm queued) (ew_pusher queued) (ew_tick queued) (ew_seq queued) (ew_requests queued) (ew_events queued).

Definition busy_handled := handleMessage (HWF := host) env DefaultEngineConfig builtin None msg busy_world.

(** What became of the run and its task. *)
Example busy_outcome : busy_handled.2 = None /\ status_at key (busy_store (ew_store busy_handled.1)) = Some RunStatusSucceeded /\
  (fun t => (Task_ActiveRunID t, Task_Status t)) <$> (MS_tasks (busy_store (ew_store busy_handled.1)) !! "task_1") = Some ("run_2", TaskStatusQueued).
Proof. split_and!; vm_compute; reflexivity. Qed.

(** The writes of the worker begin with a claim that succeeds, so the third way applies. *)
Lemma worker_interleaved_witness : exists status, status_at key (busy_store (ew_store busy_handled.1)) = Some status /\
  status ∈ [RunStatusSucceeded; RunStatusFailed; RunStatusAborted] /\ not_left "task_1" "run_1" (busy_store (ew_store busy_handled.1)).
Proof.
  pose proof (worker_interleaved (HWF := host) env DefaultEngineConfig builtin None "task_1" "run_1" "t" busy_store busy_written msg busy_world eq_refl eq_refl eq_refl) as H.
  change (handleMessage env DefaultEngineConfig builtin None msg busy_world) with busy_handled in H.
  assert (E : busy_handled.2 = None) by (vm_compute; reflexivity).
  assert (Ej : exists t1 t2 l, busy_written (ew_store busy_handled.1) = (OpClaimRun t1 "task_1" "run_1", Ok tt) ::
    (OpUpdateTaskStatusForRun t2 "task_1" "run_1" [TaskStatusQueued; TaskStatusRunning] TaskStatusRunning, Ok tt) :: l) by (vm_compute; by eexists _, _, _).
  destruct busy_handled as [w' err]. cbn [fst snd] in *. subst err. destruct Ej as (a1 & a2 & l & Ej).
  destruct H as [(t1 & e & _ & Hw & _)|[(t1 & t2 & t3 & e & _ & Hw & _)|(t1 & t2 & w1 & _ & st & ts & work & u1 & u2 & r & _ & _ & Hin & Hs & Hn)]].
  - unfold writes in Hw. rewrite Ej in Hw. discriminate Hw.
  - unfold writes in Hw. rewrite Ej in Hw. discriminate Hw.
  - exists st. split; [exact Hs|]. split; [|exact Hn]. apply list_elem_of_In in Hin. destruct Hin as [[= <- _]|[[= <- _]|[[= <- _]|[]]]]; set_solver.
Defined.
End interference_demo.
