(* ===== verification/Router.v ===== *)
(** * Router: task-aware routing with fallback (src/pkg/engine/router.go)

    [Resolve] turns a request into an ordered chain of provider and model; [RoutedChat] and
    [RoutedChatStream] try the chain until a provider answers or an error is not worth a
    fallback.  The clients of the providers are behind the class [ProviderClient]; the record
    of the routed client keeps, as a history, the attempts it made. *)

From S2P Require Import Prelude GoLib Model StateStore World TaskService Artifacts Engine.

Definition PolicyLatencyFirst : string := "latency-first".
Definition PolicyQualityFirst : string := "quality-first".
Definition PolicyCostCap : string := "cost-cap".
Definition llmProviderMock : string := "mock".

Record RouteCandidate : Type := mkRouteCandidate { RouteCandidate_Provider : string; RouteCandidate_ModelID : string }.
#[global] Instance RouteCandidate_eq_dec : EqDecision RouteCandidate.
Proof. solve_decision. Defined.

Record RouterConfig : Type := mkRouterConfig {
  RouterConfig_DefaultMode : string; RouterConfig_FallbackProviders : list string }.
#[global] Instance RouterConfig_eta : Eta RouterConfig := fun c =>
  mkRouterConfig (RouterConfig_DefaultMode c) (RouterConfig_FallbackProviders c).

Definition defaultRequestModelPricingUSDPer1K : gmap string float64 :=
  list_to_map [("gpt-4o-mini", f_lit 35 100000); ("gpt-4o", f_lit 500 100000); ("gpt-4.1", f_lit 600 100000)].

(** A provider's client; [Client_ChatStream] is there when it implements streaming. *)
Class ProviderClient (C : Type) := {
  Client_Chat : LLMRequest -> C -> C * result error LLMResponse;
  Client_ChatStream : C -> option (LLMRequest -> C * (list string * result error LLMResponse)) }.

Section routing.
Context `{Unicode} `{TextLib} (getenv : string -> string).

Definition NewModelRouter (cfg : RouterConfig) : RouterConfig :=
  if is_blank (RouterConfig_DefaultMode cfg) then cfg <| RouterConfig_DefaultMode := PolicyLatencyFirst |> else cfg.

Definition chooseModel (taskType mode : string) : string :=
  let taskType := ToLower (TrimSpace taskType) in
  let mode := ToLower (TrimSpace mode) in
  if bool_decide (mode = PolicyQualityFirst) then
    (if bool_decide (taskType = "coding") || bool_decide (taskType = "analysis") then "gpt-4o" else "gpt-4o")
  else if bool_decide (mode = PolicyCostCap) || bool_decide (mode = PolicyLatencyFirst) then "gpt-4o-mini"
  else "gpt-4o-mini".

Definition normalizeProvider (provider : string) : string :=
  let p := ToLower (TrimSpace provider) in
  if bool_decide (p = "") then llmProviderMock else p.

Fixpoint dedupe_go (seen : gset string) (l : list RouteCandidate) : list RouteCandidate :=
  match l with
  | [] => []
  | c :: l' =>
      let key := RouteCandidate_Provider c +:+ "#" +:+ RouteCandidate_ModelID c in
      if bool_decide (key ∈ seen) then dedupe_go seen l' else c :: dedupe_go ({[key]} ∪ seen) l'
  end.
Definition dedupeRouteCandidates (l : list RouteCandidate) : list RouteCandidate := dedupe_go ∅ l.

(** The content of the last user message. *)
Definition last_user_content (messages : list MemoryMessage) : string :=
  match List.find (fun m => bool_decide (MemoryMessage_Role m = MessageRoleUser)) (rev messages) with
  | Some m => MemoryMessage_Content m
  | None => ""
  end.

Definition inferTaskType (req : option LLMRequest) : string :=
  match req with
  | None => "general"
  | Some req =>
      if negb (is_blank (LLMRequest_TaskType req)) then TrimSpace (LLMRequest_TaskType req)
      else
        let s := ToLower (last_user_content (LLMRequest_Messages req)) in
        if existsb (Contains s) ["code"; "test"; "refactor"; "bug"] then "coding"
        else if existsb (Contains s) ["analy"; "report"; "sql"; "metric"] then "analysis"
        else "general"
  end.

Definition estimateRequestCostUSD (req : option LLMRequest) (modelID : string) : float64 :=
  match req with
  | None => f_zero
  | Some req =>
      let approxTokens := match LLMRequest_ModelConfig req with
                          | Some mc => if 0 <? ModelConfig_MaxTokens mc then add64 (ModelConfig_MaxTokens mc) 256 else 256
                          | None => 256
                          end in
      f_mul (f_div (f_of_Z approxTokens) (f_of_Z 1000))
            (resolveModelRateUSDPer1K getenv modelID defaultRequestModelPricingUSDPer1K)
  end.

(** The configuration of a request, if there is one. *)
Definition req_config (req : option LLMRequest) : option ModelConfig := req ≫= LLMRequest_ModelConfig.

(** A setting of the configuration when it is not blank, otherwise the default. *)
Definition configured (field : ModelConfig -> string) (req : option LLMRequest) (dflt : string) : string :=
  match req_config req with
  | Some mc => if negb (is_blank (field mc)) then TrimSpace (field mc) else dflt
  | None => dflt
  end.

Definition Resolve (cfg : RouterConfig) (req : option LLMRequest) (primaryProvider : string) : list RouteCandidate :=
  let mode := configured ModelConfig_PolicyMode req (RouterConfig_DefaultMode cfg) in
  let taskType := inferTaskType req in
  let baseModel := configured ModelConfig_ModelID req (chooseModel taskType mode) in
  let provider := normalizeProvider primaryProvider in
  let primaryModel :=
    match req_config req with
    | Some mc =>
        if f_gtb (ModelConfig_CostCapUSD mc) f_zero
           && f_gtb (estimateRequestCostUSD req baseModel) (ModelConfig_CostCapUSD mc)
        then "gpt-4o-mini" else baseModel
    | None => baseModel
    end in
  let fallbackModels :=
    match req_config req with
    | Some mc => flat_map (fun m => if is_blank m then [] else [mkRouteCandidate provider (TrimSpace m)])
                          (ModelConfig_FallbackModelIDs mc)
    | None => []
    end in
  let fallbackProviders :=
    flat_map (fun p => let prov := normalizeProvider p in
                       if bool_decide (prov = "") then [] else [mkRouteCandidate prov (chooseModel taskType mode)])
             (RouterConfig_FallbackProviders cfg) in
  dedupeRouteCandidates ([mkRouteCandidate provider primaryModel] ++ fallbackModels ++ fallbackProviders).

Definition shouldFallbackOnError (err : option error) : bool :=
  match err with
  | None => false
  | Some e =>
      let msg := ToLower (Error e) in
      if Contains msg "context canceled" || Contains msg "deadline exceeded" then false
      else if existsb (Contains msg) ["invalid"; "bad request"; "401"; "403"; "permission"; "unauthorized"] then false
      else existsb (Contains msg) ["timeout"; "temporary"; "temporarily"; "429"; "500"; "502"; "503"; "504";
                                   "unavailable"; "connection reset"; "refused"; "eof"; "rate limit"]
  end.
End routing.

Definition model_only (modelID : string) : ModelConfig := mkModelConfig modelID f_zero 0 "" f_zero [].

Definition withModel (req : option LLMRequest) (modelID : string) : LLMRequest :=
  match req with
  | None => mkLLMRequest [] (Some (model_only modelID)) [] ""
  | Some r =>
      mkLLMRequest (LLMRequest_Messages r)
        (Some (match LLMRequest_ModelConfig r with
               | Some mc => mc <| ModelConfig_ModelID := modelID |>
               | None => model_only modelID
               end))
        (LLMRequest_Tools r) (LLMRequest_TaskType r)
  end.

(** An answer that does not name its model or provider gets those of the candidate. *)
Definition fill_response (cand : RouteCandidate) (resp : LLMResponse) : LLMResponse :=
  let resp := if bool_decide (LLMResponse_ModelID resp = "")
              then resp <| LLMResponse_ModelID := RouteCandidate_ModelID cand |> else resp in
  if bool_decide (LLMResponse_Provider resp = "")
  then resp <| LLMResponse_Provider := RouteCandidate_Provider cand |> else resp.

Record RoutedLLMClient (C : Type) : Type := mkRoutedLLMClient {
  rc_router : RouterConfig;
  rc_primaryProvider : string;
  rc_clients : gmap string C;
  rc_attempts : list (RouteCandidate * result error LLMResponse) }.   (* history *)
Arguments mkRoutedLLMClient {C}.
Arguments rc_router {C}.
Arguments rc_primaryProvider {C}.
Arguments rc_clients {C}.
Arguments rc_attempts {C}.
#[global] Instance RoutedLLMClient_eta {C} : Eta (RoutedLLMClient C) := fun r => mkRoutedLLMClient
  (rc_router r) (rc_primaryProvider r) (rc_clients r) (rc_attempts r).

Section client.
Context `{Unicode} `{TextLib} (getenv : string -> string) {C : Type} `{ProviderClient C}.

Definition NewRoutedLLMClient (primaryProvider : string) (clients : option (gmap string C)) (router : option RouterConfig)
    : RoutedLLMClient C :=
  mkRoutedLLMClient (default (NewModelRouter (mkRouterConfig "" [])) router) (normalizeProvider primaryProvider)
    (default ∅ clients) [].

(** One attempt: [Chat], or [ChatStream] with what it passes to [onToken]. *)
Definition attempt_chat (req : LLMRequest) (c : C) : C * (list string * result error LLMResponse) :=
  let '(c, r) := Client_Chat req c in (c, ([], r)).
Definition attempt_stream (req : LLMRequest) (c : C) : C * (list string * result error LLMResponse) :=
  match Client_ChatStream c with
  | Some chat => chat req
  | None =>
      let '(c, r) := Client_Chat req c in
      (c, (match r with
           | Ok resp => if bool_decide (LLMResponse_Content resp ≠ "") then [LLMResponse_Content resp] else []
           | Err _ => []
           end, r))
  end.

(** The loop over the candidates. *)
Fixpoint route (attempt : LLMRequest -> C -> C * (list string * result error LLMResponse)) (what : string)
    (req : option LLMRequest) (cands : list RouteCandidate) (lastErr : option error) (rc : RoutedLLMClient C)
    : RoutedLLMClient C * (list string * result error LLMResponse) :=
  let failed := Err (wrapf (what +:+ ": ") (default (errors_New "no available routed providers") lastErr)) in
  match cands with
  | [] => (rc, ([], failed))
  | cand :: cands' =>
      match rc_clients rc !! RouteCandidate_Provider cand with
      | None => route attempt what req cands' lastErr rc
      | Some client =>
          let '(client, (tokens, r)) := attempt (withModel req (RouteCandidate_ModelID cand)) client in
          let rc := rc <| rc_clients ::= insert (RouteCandidate_Provider cand) client |>
                       <| rc_attempts ::= (fun l => l ++ [(cand, r)]) |> in
          match r with
          | Ok resp => (rc, (tokens, Ok (fill_response cand resp)))
          | Err e =>
              if negb (shouldFallbackOnError (Some e)) || Nat.eqb (length cands') 0
              then (rc, (tokens, Err (wrapf (what +:+ ": ") e)))
              else
                let '(rc, (tokens', r)) := route attempt what req cands' (Some e) rc in
                (rc, (tokens ++ tokens', r))
          end
      end
  end.

Definition RoutedChat (req : option LLMRequest) (rc : RoutedLLMClient C)
    : RoutedLLMClient C * result error LLMResponse :=
  let '(rc, (_, r)) := route attempt_chat "routing failed" req
    (Resolve getenv (rc_router rc) req (rc_primaryProvider rc)) None rc in (rc, r).

Definition RoutedChatStream (req : option LLMRequest) (rc : RoutedLLMClient C)
    : RoutedLLMClient C * (list string * result error LLMResponse) :=
  route attempt_stream "routing stream failed" req (Resolve getenv (rc_router rc) req (rc_primaryProvider rc)) None rc.

(** The engine streams through the router. *)
#[global] Instance RoutedLLMClient_LLM : LLMClient (RoutedLLMClient C) := fun req rc => RoutedChatStream (Some req) rc.
End client.

(** ** Lemmas *)

Section dedupe.
Context `{HU : Unicode} `{HT : TextLib} (getenv : string -> string).

Lemma dedupe_go_sub seen l c : c ∈ dedupe_go seen l -> c ∈ l.
Proof.
  revert seen. induction l as [|x l IH]; intros seen; cbn; [done|]. case_if; [intros Hc; right; by eapply IH|].
  rewrite !elem_of_cons. intros [->|Hc]; [by left|right; by eapply IH].
Qed.

Lemma dedupe_go_unseen seen l c :
  c ∈ dedupe_go seen l -> RouteCandidate_Provider c +:+ "#" +:+ RouteCandidate_ModelID c ∉ seen.
Proof.
  revert seen. induction l as [|x l IH]; intros seen; cbn; [by intros ?%elem_of_nil|]. case_if as E; bool_prop; [apply IH|].
  rewrite elem_of_cons. intros [->|Hc]; [done|]. specialize (IH _ Hc). set_solver.
Qed.

Lemma dedupe_go_nodup seen l : NoDup (dedupe_go seen l).
Proof.
  revert seen. induction l as [|x l IH]; intros seen; cbn; [constructor|]. case_if; [done|].
  apply list.NoDup_cons. split; [|done]. intros Hx. apply dedupe_go_unseen in Hx. set_solver.
Qed.

Lemma dedupe_head c l : exists rest, dedupeRouteCandidates (c :: l) = c :: rest /\ forall x, x ∈ rest -> x ∈ l.
Proof.
  unfold dedupeRouteCandidates. cbn. rewrite bool_decide_false by set_solver. eexists. split; [done|].
  intros x. apply dedupe_go_sub.
Qed.
End dedupe.

(** A candidate whose provider has a client. *)
Definition available {C} (rc : RoutedLLMClient C) (c : RouteCandidate) : bool :=
  bool_decide (RouteCandidate_Provider c ∈ dom (rc_clients rc)).

(** ** Properties *)

Section router_properties.
Context `{HU : Unicode} `{HT : TextLib} (getenv : string -> string).

(** The route plan: it starts with the primary provider, has no candidate twice, and consists otherwise of the
    fallback models of the request at the primary provider and of the fallback providers with the model of the
    policy. The first model is the configured or policy model, or, when its estimated cost exceeds a positive cost
    cap, the cheapest model. *)
Theorem resolve_plan cfg req primaryProvider :
  let provider := normalizeProvider primaryProvider in
  let mode := configured ModelConfig_PolicyMode req (RouterConfig_DefaultMode cfg) in
  let policyModel := chooseModel (inferTaskType req) mode in
  let baseModel := configured ModelConfig_ModelID req policyModel in
  NoDup (Resolve getenv cfg req primaryProvider) /\
  exists m rest, Resolve getenv cfg req primaryProvider = mkRouteCandidate provider m :: rest /\
    (m = baseModel \/ m = "gpt-4o-mini") /\
    (forall mc, req_config req = Some mc -> f_gtb (ModelConfig_CostCapUSD mc) f_zero = true ->
       f_gtb (estimateRequestCostUSD getenv req m) (ModelConfig_CostCapUSD mc) = true -> m = "gpt-4o-mini") /\
    forall c, c ∈ rest ->
      (RouteCandidate_Provider c = provider /\ exists mc id, req_config req = Some mc /\
         id ∈ ModelConfig_FallbackModelIDs mc /\ is_blank id = false /\ RouteCandidate_ModelID c = TrimSpace id) \/
      (RouteCandidate_ModelID c = policyModel /\
         exists p, p ∈ RouterConfig_FallbackProviders cfg /\ RouteCandidate_Provider c = normalizeProvider p).
Proof.
  cbn zeta. split; [apply dedupe_go_nodup|]. unfold Resolve. cbn [app].
  match goal with |- context [dedupeRouteCandidates (?c :: ?l)] => destruct (dedupe_head c l) as (rest & Hd & Hrest) end.
  eexists _, rest. split; [exact Hd|]. clear Hd. split; [|split].
  - destruct (req_config req); [case_if; auto|by left].
  - intros mc Hmc Hcap. rewrite Hmc, Hcap. cbn. case_if as E; [done|]. intros Hm. congruence.
  - intros c Hc. apply Hrest, elem_of_app in Hc. destruct Hc as [Hc|Hc].
    + left. destruct (req_config req) as [mc|]; [|by apply elem_of_nil in Hc].
      apply list_elem_of_In, in_flat_map in Hc. destruct Hc as (id & Hid & Hc).
      destruct (is_blank id) eqn:Eb; [done|]. destruct Hc as [<-|[]]. split; [done|]. exists mc, id.
      by rewrite list_elem_of_In.
    + right. apply list_elem_of_In, in_flat_map in Hc. destruct Hc as (p & Hp & Hc). cbn zeta in Hc.
      split_match_in Hc; [done|]. destruct Hc as [<-|[]]. split; [done|]. exists p. by rewrite list_elem_of_In.
Qed.

(** An attempt that failed with an error worth a fallback. *)
Definition retried (a : RouteCandidate * result error LLMResponse) : Prop :=
  exists e, a.2 = Err e /\ shouldFallbackOnError (Some e) = true.

(** The fallback chain: the attempts are made on the candidates that have a client, in the order of the plan,
    and go on only after an error that is worth a fallback. An answer comes from the last attempt, completed with
    the candidate's model and provider; an error means that every candidate was tried, or that the last error is not
    worth a fallback. *)
Theorem route_attempts {C : Type} attempt what req cands : forall lastErr (rc : RoutedLLMClient C),
  let '(rc', (_, r)) := route attempt what req cands lastErr rc in
  exists atts, rc_attempts rc' = rc_attempts rc ++ atts /\
    map fst atts = take (length atts) (List.filter (available rc) cands) /\
    match r with
    | Ok resp => exists init cand resp0, atts = init ++ [(cand, Ok resp0)] /\ Forall retried init /\
        resp = fill_response cand resp0
    | Err _ =>
        (Forall retried atts /\ map fst atts = List.filter (available rc) cands) \/
        exists init cand e, atts = init ++ [(cand, Err e)] /\ Forall retried init /\
          shouldFallbackOnError (Some e) = false
    end.
Proof.
  induction cands as [|cand cands IH]; intros lastErr rc; cbn [route].
  { exists []. rewrite app_nil_r. split; [done|]. split; [done|]. left. split; [constructor|done]. }
  destruct (rc_clients rc !! RouteCandidate_Provider cand) as [client|] eqn:Ec; cycle 1.
  { assert (Ha : available rc cand = false) by (apply bool_decide_false; by apply not_elem_of_dom).
    cbn [List.filter]. rewrite Ha. apply IH. }
  assert (Ha : available rc cand = true) by (apply bool_decide_true; by apply elem_of_dom_2 in Ec).
  destruct (attempt (withModel req (RouteCandidate_ModelID cand)) client) as [client' [tokens r]].
  cbn [List.filter]. rewrite Ha. destruct r as [resp|e].
  { eexists [_]. split; [reflexivity|]. split; [done|]. exists [], cand, resp. split; [done|]. split; [constructor|done]. }
  case_if as Ef.
  { eexists [_]. split; [reflexivity|]. split; [done|]. destruct (shouldFallbackOnError (Some e)) eqn:Es.
    - left. cbn in Ef. apply Nat.eqb_eq in Ef. destruct cands; [|done]. split; [|done]. repeat constructor. by exists e.
    - right. exists [], cand, e. split; [done|]. split; [constructor|done]. }
  set (rc1 := _ : RoutedLLMClient C).
  specialize (IH (Some e) rc1). destruct (route attempt what req cands (Some e) rc1) as [rc' [tokens' r]].
  assert (Hav : List.filter (available rc1) cands = List.filter (available rc) cands).
  { apply List.filter_ext. intros c. unfold available, rc1. cbn. by rewrite dom_insert_lookup_L by eauto. }
  rewrite Hav in IH. destruct IH as (atts & H1 & H2 & H3). exists ((cand, Err e) :: atts).
  assert (Hre : retried (cand, Err e)).
  { exists e. split; [done|]. apply orb_false_iff in Ef. destruct Ef as [Ef _]. by apply negb_false_iff in Ef. }
  split; [rewrite H1; cbn; by rewrite <- app_assoc|]. split; [cbn; by rewrite <- H2|].
  destruct r as [resp|e'].
  - destruct H3 as (init & cand0 & resp0 & -> & Hf & ->). exists ((cand, Err e) :: init), cand0, resp0.
    split; [done|]. split; [by constructor|done].
  - destruct H3 as [[Hf Hm]|(init & cand0 & e0 & -> & Hf & Hn)].
    + left. split; [by constructor|]. cbn. by rewrite Hm.
    + right. exists ((cand, Err e) :: init), cand0, e0. split; [done|]. split; [by constructor|done].
Qed.
End router_properties.

(** ** Examples *)

Module router_demo.
#[local] Existing Instance ascii_unicode.
#[local] Existing Instance engine_demo.text_lib.

(** A provider is the script of its next call: the tokens it streams and the outcome. *)
#[local] Instance scripted : ProviderClient (list string * result error LLMResponse) := {|
  Client_Chat _ c := (c, c.2);
  Client_ChatStream c := Some (fun _ => (c, c)) |}.

Definition answer : LLMResponse := mkLLMResponse "full answer" [] None "stop" "" "".
Definition clients : gmap string (list string * result error LLMResponse) :=
  <["openai" := (["full "; "ans"], Err (errors_New "503 service unavailable"))]>
  {[ "backup" := (["full "; "answer"], Ok answer) ]}.
Definition routed := NewRoutedLLMClient "OpenAI" (Some clients) (Some (mkRouterConfig "latency-first" ["backup"; " "])).
Definition request : LLMRequest := mkLLMRequest [] None [] "coding".

(** The plan of the example; the blank fallback provider, which Resolve means to skip, is routed to the mock
    provider, because normalizeProvider never returns the empty string. *)
Example plan : Resolve (fun _ => "") (rc_router routed) (Some request) (rc_primaryProvider routed) =
  [mkRouteCandidate "openai" "gpt-4o-mini"; mkRouteCandidate "backup" "gpt-4o-mini"; mkRouteCandidate "mock" "gpt-4o-mini"].
Proof. vm_compute. reflexivity. Qed.

(** Falling back in the middle of a stream: the tokens of the failed provider stay in the stream, before those of
    the provider that answers. *)
Example stream_fallback_repeats_tokens :
  let '(rc, (tokens, r)) := RoutedChatStream (fun _ => "") (Some request) routed in
  tokens = ["full "; "ans"; "full "; "answer"] /\ map fst (rc_attempts rc) =
    [mkRouteCandidate "openai" "gpt-4o-mini"; mkRouteCandidate "backup" "gpt-4o-mini"] /\
  r = Ok (mkLLMResponse "full answer" [] None "stop" "gpt-4o-mini" "backup").
Proof. vm_compute. auto. Qed.
End router_demo.
