(* ===== verification/Stream.v ===== *)
(** * Stream: event delivery (src/pkg/stream/chunker.go, src/pkg/stream/aws_pusher.go)

    A [Chunker] collects the events of one connection and hands them to its flush function
    when a timer fires, a number of bytes is reached, or the caller asks for it.  The lock is
    released while the flush function runs, so several flushes can be under way at once: the
    critical sections are functions on [Chunker], and [cstep] interleaves them with the timers
    of the runtime and the returns of the flush function.

    [AWSPusher] keeps one chunker per connection and remembers the connections the gateway
    reported as gone, for a limited time and up to a limited number. *)

From Stdlib Require Import Ascii.
From S2P Require Import Prelude GoLib Model Artifacts Engine.

(** ** The chunker *)

Record ChunkerConfig : Type := mkChunkerConfig {
  FlushInterval : Duration;
  FlushBytes : Z }.

Definition DefaultChunkerConfig : ChunkerConfig := mkChunkerConfig (100 * Millisecond) 2048.

(** The fields of the struct; [C_armed] are the timers of this chunker that the runtime has
    not fired yet, and [C_next] the handle of the next one. *)
Record Chunker : Type := mkChunker {
  C_buf : bytes;
  C_timer : option nat;
  C_stopped : bool;
  C_lastErr : option error;
  C_flushErrorCount : Z;
  C_errorHistory : list string;
  C_armed : list nat;
  C_next : nat }.

#[global] Instance Chunker_eta : Eta Chunker := fun c =>
  mkChunker (C_buf c) (C_timer c) (C_stopped c) (C_lastErr c) (C_flushErrorCount c)
    (C_errorHistory c) (C_armed c) (C_next c).

Definition maxChunkerErrorHistory : nat := 8.

Record ChunkerErrorStats : Type := mkChunkerErrorStats {
  LastErrorText : string;
  ErrorCount : Z;
  RecentErrors : list string }.

Definition NewChunker : Chunker := mkChunker [] None false None 0 [] [] 0.

(** [c.timer.Stop(); c.timer = nil], if there is a timer. *)
Definition stop_timer (c : Chunker) : Chunker :=
  match C_timer c with
  | None => c
  | Some t => c <| C_armed := List.filter (fun u => negb (Nat.eqb u t)) (C_armed c) |> <| C_timer := None |>
  end.

(** [drainLocked] up to the call of the flush function, and after it returned.  [None] means
    that the buffer was empty and that there is no call. *)
Definition drain_begin (c : Chunker) : Chunker * option bytes :=
  match C_buf c with
  | [] => (c, None)
  | data => ((stop_timer c) <| C_buf := [] |>, Some data)
  end.

(** [h[len(h)-n:]] when the slice is longer than [n] *)
Definition keep_last {A} (n : nat) (h : list A) : list A := drop (length h - n) h.

Definition drain_end (err : option error) (c : Chunker) : Chunker :=
  match err with
  | Some e =>
      c <| C_lastErr := Some e |>
        <| C_flushErrorCount ::= fun n => add64 n 1 |>
        <| C_errorHistory ::= fun h => keep_last maxChunkerErrorHistory (h ++ [Error e]) |>
  | None => c <| C_lastErr := None |>
  end.

(** [time.AfterFunc] *)
Definition arm_timer (c : Chunker) : Chunker :=
  c <| C_timer := Some (C_next c) |> <| C_armed ::= cons (C_next c) |> <| C_next ::= S |>.

Section chunker.
Context (cfg : ChunkerConfig) (marshal : StreamEvent -> result error bytes).

(** The record of an event: its JSON text and a newline. *)
Definition Write_record (event : StreamEvent) : result error bytes :=
  match marshal event with
  | Err e => Err e
  | Ok data => Ok (data ++ [byte_of 10])
  end.

(** The critical section of [Write], up to the flush it may have to do. *)
Definition Write_locked (data : bytes) (c : Chunker) : Chunker * option bytes :=
  if C_stopped c then (c, None)
  else
    let c := c <| C_buf ::= fun b => b ++ data |> in
    let c := match C_timer c with None => arm_timer c | Some _ => c end in
    if FlushBytes cfg <=? Z.of_nat (length (C_buf c)) then drain_begin c else (c, None).

Definition Stop_locked (c : Chunker) : Chunker * option bytes :=
  drain_begin (stop_timer (c <| C_stopped := true |>)).

Definition LastError (c : Chunker) : option error := C_lastErr c.

Definition ErrorStats (c : Chunker) : ChunkerErrorStats :=
  mkChunkerErrorStats (match C_lastErr c with Some e => Error e | None => "" end)
    (C_flushErrorCount c) (C_errorHistory c).

(** *** The threads

    [y_fired]: goroutines of timers that fired and wait for the lock; [y_flight]: the data of
    the flush calls that have not returned.  The last three fields are history: the records
    that were accepted, the chunks in the order in which they were taken from the buffer, and
    the calls that returned, with their results. *)
Record ChunkSys : Type := mkChunkSys {
  y_ch : Chunker;
  y_fired : list nat;
  y_flight : list bytes;
  y_written : list bytes;
  y_chunks : list bytes;
  y_done : list (bytes * option error) }.

#[global] Instance ChunkSys_eta : Eta ChunkSys := fun s =>
  mkChunkSys (y_ch s) (y_fired s) (y_flight s) (y_written s) (y_chunks s) (y_done s).

Definition ChunkSys_init : ChunkSys := mkChunkSys NewChunker [] [] [] [] [].

(** A critical section ends: the thread releases the lock and may call the flush function. *)
Definition locked (r : Chunker * option bytes) (s : ChunkSys) : ChunkSys :=
  match r with
  | (c, None) => s <| y_ch := c |>
  | (c, Some data) => s <| y_ch := c |> <| y_flight ::= fun l => l ++ [data] |> <| y_chunks ::= fun l => l ++ [data] |>
  end.

Inductive cstep : ChunkSys -> ChunkSys -> Prop :=
| step_write event data s :
    Write_record event = Ok data ->
    cstep s (locked (Write_locked data (y_ch s))
               (if C_stopped (y_ch s) then s else s <| y_written ::= fun l => l ++ [data] |>))
| step_flush s : cstep s (locked (drain_begin (y_ch s)) s)
| step_stop s : cstep s (locked (Stop_locked (y_ch s)) s)
| step_fire t s :
    t ∈ C_armed (y_ch s) ->
    cstep s (s <| y_ch := (y_ch s) <| C_armed := List.filter (fun u => negb (Nat.eqb u t)) (C_armed (y_ch s)) |> |>
               <| y_fired ::= cons t |>)
| step_timer fired1 t fired2 s :
    y_fired s = fired1 ++ t :: fired2 ->
    cstep s (locked (drain_begin (y_ch s)) (s <| y_fired := fired1 ++ fired2 |>))
| step_return flight1 data flight2 err s :
    y_flight s = flight1 ++ data :: flight2 ->
    cstep s (s <| y_ch ::= drain_end err |> <| y_flight := flight1 ++ flight2 |>
               <| y_done ::= fun l => l ++ [(data, err)] |>).

Definition creach : ChunkSys -> Prop := rtc cstep ChunkSys_init.
End chunker.

(** ** Lemmas on the critical sections *)

Section chunker_invariant.
Context (cfg : ChunkerConfig) (marshal : StreamEvent -> result error bytes).

Definition small (b : bytes) : Prop := b = [] \/ Z.of_nat (length b) < FlushBytes cfg.

(** A chunk is a run of whole records, and only its last record can take it to the limit. *)
Definition chunk_of (g : list bytes) : Prop :=
  exists init r, g = init ++ [r] /\ r <> [] /\ small (concat init).

(** How the records written so far are distributed over the chunks and the buffer. *)
Definition split_records (written chunks : list bytes) (buf : bytes) : Prop :=
  exists groups pending,
    written = concat groups ++ pending /\ chunks = map (fun g => concat g) groups /\ buf = concat pending /\
    Forall chunk_of groups /\ Forall (fun r => r <> []) pending /\ small buf.

(** The timer runs, or its goroutine waits, exactly while there is something to flush. *)
Definition timer_ok (c : Chunker) (fired : list nat) : Prop :=
  (C_timer c = None <-> C_buf c = []) /\
  (forall t, C_timer c = Some t -> t ∈ C_armed c \/ t ∈ fired) /\
  (forall t, t ∈ C_armed c -> C_timer c = Some t) /\
  (C_stopped c = true -> C_buf c = []).

Definition failures (l : list (bytes * option error)) : list error := omap snd l.

Definition errors_ok (c : Chunker) (calls : list (bytes * option error)) : Prop :=
  C_lastErr c = (list.last calls) ≫= snd /\
  C_flushErrorCount c = wrap64 (Z.of_nat (length (failures calls))) /\
  C_errorHistory c = keep_last maxChunkerErrorHistory (map Error (failures calls)).

Record csys_ok (s : ChunkSys) : Prop := {
  co_split : split_records (y_written s) (y_chunks s) (C_buf (y_ch s));
  co_perm : y_chunks s ≡ₚ y_flight s ++ map fst (y_done s);
  co_timer : timer_ok (y_ch s) (y_fired s);
  co_errors : errors_ok (y_ch s) (y_done s) }.

Lemma concat_nonempty (l : list bytes) :
  Forall (fun r => r <> []) l -> concat l = [] -> l = [].
Proof. intros [|r l' Hr _]; [done|]. cbn. intros [? _]%app_nil. done. Qed.

Lemma small_nil : small [].
Proof. by left. Qed.

(** Emptying a non-empty buffer adds one chunk. *)
Lemma split_drain written chunks buf :
  buf <> [] -> split_records written chunks buf -> split_records written (chunks ++ [buf]) [].
Proof.
  intros Hne (groups & pending & -> & -> & -> & Hg & Hp & Hs).
  exists (groups ++ [pending]), []. rewrite concat_app, map_app. cbn. rewrite !app_nil_r.
  do 3 (split; [done|]). split; [|by split; [|apply small_nil]].
  apply Forall_app. split; [done|]. apply Forall_singleton.
  destruct pending as [|r0 p0] using rev_ind; [done|]. clear IHp0.
  exists p0, r0. apply Forall_app in Hp as [_ Hr]. split; [done|]. split; [by inversion Hr|].
  rewrite concat_app in Hs. cbn in Hs. rewrite app_nil_r in Hs.
  destruct Hs as [[-> _]%app_nil|Hs]; [by left|right]. rewrite length_app in Hs. lia.
Qed.

(** Adding a record that stays below the limit, or that fills a chunk. *)
Lemma split_append written chunks buf r :
  r <> [] -> Z.of_nat (length (buf ++ r)) < FlushBytes cfg ->
  split_records written chunks buf -> split_records (written ++ [r]) chunks (buf ++ r).
Proof.
  intros Hr Hlt (groups & pending & -> & -> & -> & Hg & Hp & Hs).
  exists groups, (pending ++ [r]). rewrite concat_app. cbn. rewrite app_nil_r, app_assoc.
  do 4 (split; [done|]). split; [by apply Forall_app; split; [|apply Forall_singleton]|by right].
Qed.

Lemma split_fill written chunks buf r :
  r <> [] -> split_records written chunks buf ->
  split_records (written ++ [r]) (chunks ++ [buf ++ r]) [].
Proof.
  intros Hr (groups & pending & -> & -> & -> & Hg & Hp & Hs).
  exists (groups ++ [pending ++ [r]]), []. rewrite concat_app, map_app. cbn.
  rewrite concat_app. cbn. rewrite !app_nil_r, app_assoc. do 3 (split; [done|]).
  split; [|by split; [|apply small_nil]]. apply Forall_app. split; [done|]. apply Forall_singleton.
  by exists pending, r.
Qed.

Lemma armed_filter (t : nat) (armed : list nat) :
  (forall u, u ∈ armed -> u = t) -> List.filter (fun u => negb (Nat.eqb u t)) armed = [].
Proof.
  induction armed as [|u l IH]; intros Hall; [done|]. cbn.
  rewrite (Hall u (list_elem_of_here _ _)), Nat.eqb_refl. apply IH. intros v Hv. apply Hall. by right.
Qed.

(** [stop_timer] leaves no timer, and no armed one. *)
Lemma stop_timer_armed c fired : timer_ok c fired -> C_armed (stop_timer c) = [].
Proof.
  intros (H1 & H2 & H3 & H4). unfold stop_timer. destruct (C_timer c) as [t|] eqn:Et.
  - cbn. apply armed_filter. intros u Hu. specialize (H3 u Hu). congruence.
  - destruct (C_armed c) as [|t l] eqn:Ea; [done|]. exfalso.
    by specialize (H3 t (list_elem_of_here _ _)).
Qed.

Lemma stop_timer_fields c :
  C_timer (stop_timer c) = None /\ C_buf (stop_timer c) = C_buf c /\ C_stopped (stop_timer c) = C_stopped c /\
  C_lastErr (stop_timer c) = C_lastErr c /\ C_flushErrorCount (stop_timer c) = C_flushErrorCount c /\
  C_errorHistory (stop_timer c) = C_errorHistory c.
Proof. unfold stop_timer. destruct (C_timer c) eqn:E; cbn; auto 10. Qed.

Lemma timer_idle c fired :
  C_timer c = None -> C_armed c = [] -> C_buf c = [] -> timer_ok c fired.
Proof.
  intros Ht Ha Hb. split; [by rewrite Ht, Hb|]. split; [by rewrite Ht|]. split; [|done].
  intros t. rewrite Ha. by intros Hin%not_elem_of_nil.
Qed.
Hint Resolve timer_idle small_nil : agentforge.

(** What the first half of [drainLocked] does. *)
Lemma drain_begin_spec c fired c' r :
  timer_ok c fired -> drain_begin c = (c', r) ->
  C_buf c' = [] /\ (C_stopped c' = C_stopped c) /\ C_lastErr c' = C_lastErr c /\
  C_flushErrorCount c' = C_flushErrorCount c /\ C_errorHistory c' = C_errorHistory c /\
  timer_ok c' fired /\ r = match C_buf c with [] => None | b => Some b end.
Proof.
  intros Ht. unfold drain_begin. destruct (C_buf c) as [|x b] eqn:Eb; intros [= <- <-]; [done|].
  pose proof (stop_timer_armed _ _ Ht) as Ha. destruct (stop_timer_fields c) as (F1 & F2 & F3 & F4 & F5 & F6).
  cbn. do 5 (split; [done|]). split; [|done]. by apply timer_idle.
Qed.

Lemma errors_same c c' calls :
  C_lastErr c' = C_lastErr c -> C_flushErrorCount c' = C_flushErrorCount c ->
  C_errorHistory c' = C_errorHistory c -> errors_ok c calls -> errors_ok c' calls.
Proof. unfold errors_ok. by intros -> -> ->. Qed.

Lemma perm_move {A} (l fl dn : list A) (x : A) : l ≡ₚ fl ++ dn -> l ++ [x] ≡ₚ (fl ++ [x]) ++ dn.
Proof. intros ->. by rewrite <- !app_assoc, (Permutation_app_comm dn [x]). Qed.

(** A drain from any state of the threads. *)
Lemma drain_ok s : csys_ok s -> csys_ok (locked (drain_begin (y_ch s)) s).
Proof.
  intros [Hs Hp Ht He]. destruct (drain_begin (y_ch s)) as [c' r] eqn:E.
  destruct (drain_begin_spec _ _ _ _ Ht E) as (Hb & _ & E1 & E2 & E3 & Ht' & Hr).
  destruct (C_buf (y_ch s)) as [|x b] eqn:Eb; subst r; constructor; cbn;
    eauto using errors_same, perm_move; rewrite Hb; [done|]. by apply split_drain.
Qed.

Lemma write_ok event data s :
  Write_record marshal event = Ok data -> csys_ok s ->
  csys_ok (locked (Write_locked cfg data (y_ch s))
             (if C_stopped (y_ch s) then s else s <| y_written ::= fun l => l ++ [data] |>)).
Proof.
  intros Hw Hok. assert (Hne : data <> []).
  { unfold Write_record in Hw. destruct (marshal event); [|done]. injection Hw as <-. by destruct a. }
  unfold Write_locked. destruct (C_stopped (y_ch s)) eqn:Est; [by destruct s|].
  destruct Hok as [Hs Hp Ht He]. cbn zeta.
  set (c1 := (y_ch s) <| C_buf ::= fun b => b ++ data |>).
  set (c2 := match C_timer c1 with None => arm_timer c1 | Some _ => c1 end).
  assert (Hb2 : C_buf c2 = C_buf (y_ch s) ++ data) by (subst c2; by destruct (C_timer c1)).
  assert (Hne2 : C_buf (y_ch s) ++ data <> []) by (by intros [_ ?]%app_nil).
  assert (He2 : errors_ok c2 (y_done s)) by (subst c2; destruct (C_timer c1); exact He).
  assert (Ht2 : timer_ok c2 (y_fired s)).
  { destruct Ht as (H1 & H2 & H3 & H4). unfold timer_ok. rewrite Hb2. subst c2 c1. cbn.
    destruct (C_timer (y_ch s)) as [t|] eqn:Et; cbn; rewrite ?Et.
    - split; [done|]. split; [done|]. split; [done|]. by rewrite Est.
    - split; [done|]. split; [intros t [= <-]; left; by left|].
      split; [|by rewrite Est]. intros t [->|Hin]%elem_of_cons; [done|]. by specialize (H3 t Hin). }
  case_if as Hf; bool_prop; rewrite Hb2 in Hf.
  - destruct (drain_begin c2) as [c3 r] eqn:E.
    destruct (drain_begin_spec _ _ _ _ Ht2 E) as (Hb & _ & E1 & E2 & E3 & Ht' & Hr).
    rewrite Hb2 in Hr. destruct (C_buf (y_ch s) ++ data) as [|x b] eqn:Ex; [done|]. subst r.
    constructor; cbn; eauto using errors_same, perm_move. rewrite Hb, <- Ex. by apply split_fill.
  - constructor; cbn; auto. rewrite Hb2. by apply split_append.
Qed.

Lemma stop_ok s : csys_ok s -> csys_ok (locked (Stop_locked (y_ch s)) s).
Proof.
  intros [Hs Hp Ht He]. unfold Stop_locked.
  set (c1 := (y_ch s) <| C_stopped := true |>).
  pose proof (stop_timer_armed (y_ch s) _ Ht) as Ha.
  destruct (stop_timer_fields c1) as (F1 & F2 & F3 & F4 & F5 & F6).
  assert (Ha1 : C_armed (stop_timer c1) = []).
  { unfold stop_timer in *. change (C_timer c1) with (C_timer (y_ch s)). by destruct (C_timer (y_ch s)). }
  change (C_buf c1) with (C_buf (y_ch s)) in F2. unfold drain_begin. rewrite F2.
  assert (Hidle : forall c, C_timer c = None -> C_armed c = [] -> C_buf c = [] -> C_lastErr c = C_lastErr (y_ch s) ->
    C_flushErrorCount c = C_flushErrorCount (y_ch s) -> C_errorHistory c = C_errorHistory (y_ch s) ->
    timer_ok c (y_fired s) /\ errors_ok c (y_done s)) by (intros; split; eauto using errors_same with agentforge).
  destruct (C_buf (y_ch s)) as [|x b] eqn:Eb.
  - destruct (Hidle (stop_timer c1)); try done. constructor; cbn; auto. by rewrite F2.
  - set (c2 := (stop_timer c1) <| C_buf := [] |>).
    assert (stop_timer (stop_timer c1) = stop_timer c1) as Hst by (unfold stop_timer at 1; by rewrite F1).
    rewrite Hst. destruct (Hidle c2); try done. constructor; cbn; auto using perm_move. by apply split_drain.
Qed.

Lemma keep_last_snoc {A} n (h : list A) x : keep_last (S n) (keep_last (S n) h ++ [x]) = keep_last (S n) (h ++ [x]).
Proof.
  unfold keep_last. rewrite !length_app, !length_drop. cbn [length].
  destruct (decide (length h <= S n)%nat) as [Hle|Hgt].
  - replace (length h - S n)%nat with 0%nat by lia. by rewrite drop_0, Nat.sub_0_r.
  - rewrite (drop_app_le (drop _ h)) by (rewrite length_drop; lia).
    rewrite (drop_app_le h) by lia. rewrite drop_drop. do 2 f_equal. lia.
Qed.

Lemma drain_end_errors c calls data err :
  errors_ok c calls -> errors_ok (drain_end err c) (calls ++ [(data, err)]).
Proof.
  intros (H1 & H2 & H3). unfold errors_ok, failures. rewrite last_snoc, omap_app.
  destruct err as [e|]; cbn; rewrite ?app_nil_r; [|by auto]. split; [done|].
  rewrite H2, H3, map_app, length_app. cbn. split; [|apply keep_last_snoc].
  unfold add64. by rewrite wrap64_add_l, Nat2Z.inj_add.
Qed.

Lemma drain_end_fields err c :
  C_buf (drain_end err c) = C_buf c /\ C_timer (drain_end err c) = C_timer c /\
  C_armed (drain_end err c) = C_armed c /\ C_stopped (drain_end err c) = C_stopped c.
Proof. by destruct err. Qed.

Lemma return_ok flight1 data flight2 err s :
  y_flight s = flight1 ++ data :: flight2 -> csys_ok s ->
  csys_ok (s <| y_ch ::= drain_end err |> <| y_flight := flight1 ++ flight2 |>
             <| y_done ::= fun l => l ++ [(data, err)] |>).
Proof.
  intros Hf [Hs Hp Ht He]. destruct (drain_end_fields err (y_ch s)) as (F1 & F2 & F3 & F4).
  constructor; cbn.
  - by rewrite F1.
  - rewrite Hp, Hf, map_app. cbn. solve_Permutation.
  - unfold timer_ok in *. by rewrite F1, F2, F3, F4.
  - by apply drain_end_errors.
Qed.

Lemma fire_ok t s :
  t ∈ C_armed (y_ch s) -> csys_ok s ->
  csys_ok (s <| y_ch := (y_ch s) <| C_armed := List.filter (fun u => negb (Nat.eqb u t)) (C_armed (y_ch s)) |> |>
             <| y_fired ::= cons t |>).
Proof.
  intros Hin [Hs Hp (H1 & H2 & H3 & H4) He]. constructor; cbn; try done.
  rewrite (armed_filter t) by (intros u Hu; pose proof (H3 u Hu); pose proof (H3 t Hin); congruence).
  split; [done|]. cbn. split; [|split; [|done]].
  - intros u Hu. right. rewrite (H3 t Hin) in Hu. injection Hu as ->. by left.
  - intros u Hu. by apply not_elem_of_nil in Hu.
Qed.

(** The goroutine of a timer that fired takes the lock. *)
Lemma timer_step_ok fired1 t fired2 s :
  y_fired s = fired1 ++ t :: fired2 -> csys_ok s ->
  csys_ok (locked (drain_begin (y_ch s)) (s <| y_fired := fired1 ++ fired2 |>)).
Proof.
  intros Hf Hok. pose proof (drain_ok s Hok) as [Hs' Hp' Ht' He'].
  destruct Hok as [_ _ Ht _].
  assert (Hidle : forall c r, drain_begin (y_ch s) = (c, r) -> timer_ok c (fired1 ++ fired2)).
  { intros c r E. destruct (drain_begin_spec _ _ _ _ Ht E) as (Hb & _ & _ & _ & _ & (T1 & T2 & T3 & T4) & _).
    apply T1 in Hb as Hn. apply timer_idle; [done| |done].
    destruct (C_armed c) as [|u l] eqn:Ea; [done|]. specialize (T3 u (list_elem_of_here _ _)). congruence. }
  destruct (drain_begin (y_ch s)) as [c [d|]] eqn:E; constructor; cbn in *; eauto.
Qed.

Lemma csys_ok_init : csys_ok ChunkSys_init.
Proof.
  constructor; cbn; [|done|by apply timer_idle|done].
  exists [], []. cbn. auto 10 using Forall_nil_2 with agentforge.
Qed.

Lemma cstep_ok s s' : cstep cfg marshal s s' -> csys_ok s -> csys_ok s'.
Proof.
  intros Hstep Hok; destruct Hstep; eauto using write_ok, drain_ok, stop_ok, fire_ok, timer_step_ok, return_ok.
Qed.

Lemma creach_ok s : creach cfg marshal s -> csys_ok s.
Proof.
  apply rtc_ind_r; [apply csys_ok_init|]. intros s1 s2 _ Hstep Hok. by eapply cstep_ok.
Qed.
End chunker_invariant.

(** ** The properties of the chunker *)

Section chunker_properties.
Context (cfg : ChunkerConfig) (marshal : StreamEvent -> result error bytes).

(** C40: In every interleaving of writers, flushes, timers and returning flush calls, the records that
    were accepted are, in their order, the records of the chunks taken so far followed by those in the
    buffer: nothing is lost, duplicated or torn.  Each chunk has been handed to the flush function
    exactly once (the call is under way or has returned), is not empty, and exceeds the byte limit by
    its last record at most. *)
Theorem chunker_conserves s :
  creach cfg marshal s ->
  exists groups pending,
    y_written s = concat groups ++ pending /\ y_chunks s = map (fun g => concat g) groups /\
    C_buf (y_ch s) = concat pending /\
    y_chunks s ≡ₚ y_flight s ++ map fst (y_done s) /\
    Forall (chunk_of cfg) groups /\ small cfg (C_buf (y_ch s)).
Proof.
  intros H. apply creach_ok in H as [(groups & pending & H1 & H2 & H3 & H4 & _ & H6) Hp _ _].
  by exists groups, pending.
Qed.

(** Buffered data is never stranded: as long as the buffer is not empty, the current timer is
    armed or its goroutine waits to flush; at most one timer is armed, and after [Stop] the buffer
    stays empty. *)
Theorem chunker_never_strands s :
  creach cfg marshal s ->
  (C_buf (y_ch s) <> [] -> exists t, C_timer (y_ch s) = Some t /\ (t ∈ C_armed (y_ch s) \/ t ∈ y_fired s)) /\
  (forall t u, t ∈ C_armed (y_ch s) -> u ∈ C_armed (y_ch s) -> t = u) /\
  (C_stopped (y_ch s) = true -> C_buf (y_ch s) = [] /\ C_armed (y_ch s) = []).
Proof.
  intros H. apply creach_ok in H as [_ _ (H1 & H2 & H3 & H4) _]. split; [|split].
  - intros Hne. destruct (C_timer (y_ch s)) as [t|] eqn:Et; [eauto|]. by destruct Hne; apply H1.
  - intros t u Ht Hu. pose proof (H3 _ Ht). pose proof (H3 _ Hu). congruence.
  - intros Hst. apply H4 in Hst as Hb. split; [done|]. apply H1 in Hb.
    destruct (C_armed (y_ch s)) as [|t l] eqn:Ea; [done|].
    specialize (H3 t (list_elem_of_here _ _)). congruence.
Qed.

(** The error statistics are those of the calls that returned, in the order of their return: the
    number of failures, the texts of the last eight of them, and the error of the last call if it
    failed. *)
Theorem chunker_error_stats s :
  creach cfg marshal s ->
  ErrorStats (y_ch s) =
    mkChunkerErrorStats (match list.last (y_done s) ≫= snd with Some e => Error e | None => "" end)
      (wrap64 (Z.of_nat (length (failures (y_done s)))))
      (keep_last 8 (map Error (failures (y_done s)))) /\
  (length (RecentErrors (ErrorStats (y_ch s))) <= 8)%nat.
Proof.
  intros H. apply creach_ok in H as [_ _ _ (H1 & H2 & H3)]. unfold ErrorStats. rewrite H1, H2, H3.
  split; [done|]. cbn. unfold keep_last, maxChunkerErrorHistory. rewrite length_drop. lia.
Qed.

Lemma concat_concats {A} (gs : list (list (list A))) : concat (map (fun g => concat g) gs) = concat (concat gs).
Proof. induction gs as [|g gs IH]; [done|]. cbn. by rewrite concat_app, IH. Qed.

(** Delivery in order: if no flush starts while another one is under way, the calls that
    returned, the one under way and the buffer are the written records in order. *)
Definition one_at_a_time (s s' : ChunkSys) : Prop :=
  cstep cfg marshal s s' /\ (y_chunks s' <> y_chunks s -> y_flight s = []).

Lemma locked_flight r s :
  (y_chunks (locked r s) = y_chunks s /\ y_flight (locked r s) = y_flight s) \/
  (exists d, y_chunks (locked r s) = y_chunks s ++ [d] /\ y_flight (locked r s) = y_flight s ++ [d]).
Proof. destruct r as [c [d|]]; cbn; eauto. Qed.

Lemma locked_done r s : y_done (locked r s) = y_done s.
Proof. by destruct r as [c [d|]]. Qed.

Definition in_order (s : ChunkSys) : Prop :=
  y_chunks s = map fst (y_done s) ++ y_flight s /\ (length (y_flight s) <= 1)%nat.

Lemma one_at_a_time_in_order s :
  rtc one_at_a_time ChunkSys_init s -> in_order s.
Proof.
  apply rtc_ind_r; [by unfold in_order; cbn; auto with lia|]. intros s1 s2 _ [Hstep Hone] [IH Hlen].
  assert (Hlocked : forall r s0, s2 = locked r s0 -> y_chunks s0 = y_chunks s1 -> y_flight s0 = y_flight s1 ->
    y_done s0 = y_done s1 -> in_order s2).
  { intros r s0 -> Ec Ef Ed. unfold in_order. rewrite locked_done, Ed.
    destruct (locked_flight r s0) as [[-> ->]|(d & E1 & E2)]; [by rewrite Ec, Ef|].
    rewrite E1 in Hone |- *. rewrite E2, Ec, Ef, IH. rewrite Ec in Hone. rewrite Hone.
    - by rewrite app_nil_r.
    - intros E. apply (f_equal length) in E. rewrite length_app in E. cbn in E. lia. }
  destruct Hstep as [| | | |fired1 t fired2 s0|flight1 data flight2 err s0 Hf];
    try (eapply Hlocked; [reflexivity| | |]; (done || by destruct (C_stopped _))); [exact (conj IH Hlen)|].
  unfold in_order. cbn. rewrite Hf in IH, Hlen. rewrite IH. rewrite length_app in Hlen. cbn in Hlen.
  destruct flight1; [|cbn in Hlen; lia]. destruct flight2; [|cbn in Hlen; lia]. cbn.
  rewrite map_app. cbn. rewrite app_nil_r. auto with lia.
Qed.

(** If no flush starts while another one is under way, the connection gets the records in order:
    the chunks whose calls returned, then the one under way, then the buffer are what was written. *)
Theorem chunker_in_order s :
  rtc one_at_a_time ChunkSys_init s ->
  concat (map fst (y_done s)) ++ concat (y_flight s) ++ C_buf (y_ch s) = concat (y_written s).
Proof.
  intros Hr. destruct (one_at_a_time_in_order s Hr) as [Hc _].
  assert (Hreach : creach cfg marshal s) by (eapply rtc_subrel, Hr; by intros s1 s2 [? _]).
  apply creach_ok in Hreach as [(groups & pending & H1 & H2 & H3 & _) _ _ _].
  rewrite H1, H3, concat_app, app_assoc, <- concat_app, <- Hc, H2, concat_concats. done.
Qed.
End chunker_properties.

(** ** The pusher of API Gateway *)

Definition ErrConnectionGone : error := mkErr [SConnectionGone] "connection gone (410)".

Definition IsGoneError `{Unicode} (err : option error) : bool :=
  match err with
  | None => false
  | Some e =>
      if bool_decide (e = ErrConnectionGone) then true
      else
        let msg := ToLower (Error e) in
        Contains msg "goneexception" || Contains msg "status code: 410" || Contains msg "410 gone"
  end.

Record deadConnectionEntry : Type := mkDead { markedAt : Time; expiresAt : Time }.

Definition defaultDeadConnectionTTL : Duration := 15 * Minute.
Definition defaultDeadConnectionLimit : Z := 10000.

(** [P_heap] holds the chunkers ever created, each with the connection its flush function
    posts to, and [P_chunkers] refers to them by position; [P_net] is the state of the remote
    side, [P_tick] numbers the readings of the clock. *)
Record AWSPusher (N : Type) : Type := mkAWSPusher {
  P_chunkCfg : option ChunkerConfig;
  P_chunkers : gmap string nat;
  P_heap : list (string * Chunker);
  P_dead : gmap string deadConnectionEntry;
  P_deadTTL : Duration;
  P_deadLimit : Z;
  P_net : N;
  P_tick : nat }.
Arguments mkAWSPusher {N}.
Arguments P_chunkCfg {N}.
Arguments P_chunkers {N}.
Arguments P_heap {N}.
Arguments P_dead {N}.
Arguments P_deadTTL {N}.
Arguments P_deadLimit {N}.
Arguments P_net {N}.
Arguments P_tick {N}.

#[global] Instance AWSPusher_eta {N} : Eta (AWSPusher N) := fun p =>
  mkAWSPusher (P_chunkCfg p) (P_chunkers p) (P_heap p) (P_dead p) (P_deadTTL p) (P_deadLimit p)
    (P_net p) (P_tick p).

(** [postFunc], the clock, the JSON encoder and the order in which a Go map is traversed (it
    may differ from one traversal to the next) are arguments.  The context of a push only
    reaches [postFunc]. *)
Section aws_pusher.
Context {N : Type} `{Unicode} (post : string -> bytes -> N -> N * option error) (clock : nat -> Time).
Context (marshal : StreamEvent -> result error bytes).
Context (range : nat -> gmap string deadConnectionEntry -> list (string * deadConnectionEntry)).
Abbreviation PM := (ST (AWSPusher N)).

Definition NewAWSPusher (net : N) : AWSPusher N := mkAWSPusher None ∅ [] ∅ 0 0 net 0.

Definition NewChunkedAWSPusher (cfg : ChunkerConfig) (net : N) : AWSPusher N :=
  mkAWSPusher (Some cfg) ∅ [] ∅ defaultDeadConnectionTTL defaultDeadConnectionLimit net 0.

Definition nowUTC : PM Time := fun p => (p <| P_tick ::= S |>, clock (P_tick p)).

Definition postFunc (connectionID : string) (data : bytes) : PM (option error) := fun p =>
  let '(net, err) := post connectionID data (P_net p) in (p <| P_net := net |>, err).

Definition isDeadLocked (connectionID : string) (now : Time) : PM bool := fun p =>
  match P_dead p !! connectionID with
  | None => (p, false)
  | Some entry =>
      if negb (time_After (expiresAt entry) now)
      then (p <| P_dead ::= delete connectionID |>, false)
      else (p, true)
  end.

(** The inner loop of the pruning: the first entry with the least time of marking. *)
Definition oldest (l : list (string * deadConnectionEntry)) : option (string * Time) :=
  fold_left (fun acc '(id, entry) =>
    match acc with
    | None => Some (id, markedAt entry)
    | Some (oldestID, oldestAt) =>
        if time_Before (markedAt entry) oldestAt then Some (id, markedAt entry) else acc
    end) l None.

(** The outer loop; every round deletes one entry. *)
Fixpoint prune_loop (fuel : nat) (limit : Z) (dead : gmap string deadConnectionEntry)
    : gmap string deadConnectionEntry :=
  match fuel with
  | O => dead
  | S fuel' =>
      if limit <? Z.of_nat (size dead) then
        match oldest (range fuel dead) with
        | None => dead
        | Some (oldestID, _) => prune_loop fuel' limit (delete oldestID dead)
        end
      else dead
  end.

Definition pruneDeadConnectionsLocked (now : Time) : PM unit := fun p =>
  let live := filter (fun x : string * deadConnectionEntry => time_After (expiresAt x.2) now = true) (P_dead p) in
  (p <| P_dead := prune_loop (S (size live)) (P_deadLimit p) live |>, tt).

(** The state of the chunker at a position. *)
Definition heap_get (r : nat) (p : AWSPusher N) : Chunker :=
  match P_heap p !! r with Some (_, c) => c | None => NewChunker end.
Definition heap_conn (r : nat) (p : AWSPusher N) : string :=
  match P_heap p !! r with Some (id, _) => id | None => "" end.
Definition heap_set (r : nat) (c : Chunker) (p : AWSPusher N) : AWSPusher N :=
  p <| P_heap ::= alter (fun x => (x.1, c)) r |>.

Definition takeChunker (connectionID : string) : PM (option nat) := fun p =>
  (p <| P_chunkers ::= delete connectionID |>, P_chunkers p !! connectionID).

Definition lastError (r : nat) : PM (option error) := fun p => (p, LastError (heap_get r p)).

(** The part of [markDead] under the lock; the result is the chunker to stop. *)
Definition markDead_locked (connectionID : string) : PM (option nat) :=
  now ← nowUTC;
  dead ← isDeadLocked connectionID now;
  if (dead : bool) then mret None
  else
    _ ← modifyW (fun p => p <| P_dead ::= <[connectionID := mkDead now (time_Add now (P_deadTTL p))]> |>);
    _ ← pruneDeadConnectionsLocked now;
    takeChunker connectionID.

(** A critical section of a chunker, with the flush it asks for: the flush function posts
    the data and marks a connection that is gone; marking it stops its chunker, which may
    flush again.  The nesting is bounded: see [markDead_fuel]. *)
Fixpoint with_chunker (fuel : nat) (section : Chunker -> Chunker * option bytes) (r : nat) : PM unit := fun p =>
  let '(c, out) := section (heap_get r p) in
  let p := heap_set r c p in
  match out with
  | None => (p, tt)
  | Some data =>
      let '(p, err) := postFunc (heap_conn r p) data p in
      let p :=
        if IsGoneError err then
          let '(p, cc) := markDead_locked (heap_conn r p) p in
          match cc, fuel with
          | Some r', S fuel' => (with_chunker fuel' Stop_locked r' p).1
          | _, _ => p
          end
        else p in
      (heap_set r (drain_end err (heap_get r p)) p, tt)
  end.

(** [Stop] can meet an entry of [P_chunkers] at most once for a connection. *)
Definition nesting : nat := 1.

Definition markDead (connectionID : string) : PM unit :=
  cc ← markDead_locked connectionID;
  match cc with
  | None => mret tt
  | Some r => with_chunker nesting Stop_locked r
  end.

Definition isDead (connectionID : string) : PM bool :=
  now ← nowUTC; isDeadLocked connectionID now.

Definition lookupOrNew (connectionID : string) : PM (option nat) := fun p =>
  match P_chunkers p !! connectionID with
  | Some r => (p, Some r)
  | None =>
      let r := length (P_heap p) in
      (p <| P_heap ::= fun h => h ++ [(connectionID, NewChunker)] |>
         <| P_chunkers ::= <[connectionID := r]> |>, Some r)
  end.

Definition getOrCreateChunker (connectionID : string) : PM (option nat) :=
  now ← nowUTC;
  dead ← isDeadLocked connectionID now;
  if (dead : bool) then mret None else lookupOrNew connectionID.

Definition is_terminal (t : StreamEventType) : bool :=
  bool_decide (t = StreamEventComplete) || bool_decide (t = StreamEventError).

Definition pushChunked (cfg : ChunkerConfig) (connectionID : string) (event : StreamEvent)
    : PM (bool * option error) :=
  cc ← getOrCreateChunker connectionID;
  match cc with
  | None => mret (false, None)
  | Some r =>
      match Write_record marshal event with
      | Err e => mret (true, Some e)
      | Ok data =>
          _ ← with_chunker nesting (Write_locked cfg data) r;
          _ ← (if is_terminal (StreamEvent_Type event) then with_chunker nesting drain_begin r else mret tt);
          lastErr ← lastError r;
          match lastErr with
          | Some e =>
              if IsGoneError (Some e) then _ ← markDead connectionID; mret (false, None)
              else mret (true, Some e)
          | None =>
              dead ← isDead connectionID;
              mret (if (dead : bool) then (false, None) else (true, None))
          end
      end
  end.

Definition AWSPusher_Push (connectionID : string) (event : StreamEvent) : PM (bool * option error) := fun p =>
  match P_chunkCfg p with
  | Some cfg => pushChunked cfg connectionID event p
  | None =>
      match marshal event with
      | Err e => (p, (false, Some e))
      | Ok data =>
          let '(p, err) := postFunc connectionID data p in
          match err with
          | Some _ => if IsGoneError err then (p, (false, None)) else (p, (true, err))
          | None => (p, (true, None))
          end
      end
  end.

(** The timer of a chunker fires between two pushes. *)
Definition fire_timer (r : nat) : PM unit := fun p =>
  let p := heap_set r ((heap_get r p) <| C_armed := [] |>) p in
  with_chunker nesting drain_begin r p.

#[global] Instance AWSPusher_Pusher : Pusher (AWSPusher N) := AWSPusher_Push.
End aws_pusher.

(** ** Pruning *)

Section pruning.
Context (range : nat -> gmap string deadConnectionEntry -> list (string * deadConnectionEntry)).
(** A traversal visits every entry of the map once. *)
Hypothesis range_entries : forall n m, range n m ≡ₚ map_to_list m.
Implicit Types (m : gmap string deadConnectionEntry) (id : string).

Lemma oldest_min l acc :
  match fold_left (fun acc '(id, entry) =>
    match acc with
    | None => Some (id, markedAt entry)
    | Some (oldestID, oldestAt) =>
        if time_Before (markedAt entry) oldestAt then Some (id, markedAt entry) else acc
    end) l acc with
  | None => l = [] /\ acc = None
  | Some (id, t) =>
      (acc = Some (id, t) \/ exists e, (id, e) ∈ l /\ markedAt e = t) /\
      (forall id' e', (id', e') ∈ l -> t <= markedAt e') /\
      (forall id' t', acc = Some (id', t') -> t <= t')
  end.
Proof.
  revert acc. induction l as [|[id e] l IH]; intros acc; cbn [fold_left].
  - destruct acc as [[id t]|]; [|done]. split; [by left|]. split; [by intros ? ? ?%not_elem_of_nil|].
    intros id' t' [= -> ->]. lia.
  - set (acc' := match acc with None => _ | Some _ => _ end). specialize (IH acc').
    destruct (fold_left _ l acc') as [[id1 t1]|].
    + destruct IH as (Hin & Hmin & Hacc). subst acc'. unfold time_Before in *.
      assert (Hle : t1 <= markedAt e).
      { destruct acc as [[id0 t0]|]; [|by eapply Hacc].
        destruct (markedAt e <? t0) eqn:Hlt; bool_prop; [by eapply Hacc|]. specialize (Hacc _ _ eq_refl). lia. }
      split; [|split].
      * destruct Hin as [Ha|(e1 & H1 & H2)]; [|right; exists e1; by split; [right|]].
        destruct acc as [[id0 t0]|]; [destruct (markedAt e <? t0)|]; [|by left|];
          simplify_eq; right; exists e; (split; [by left|done]).
      * intros id' e' [[= -> ->]|Hin']%elem_of_cons; eauto.
      * intros id' t' ->. destruct (markedAt e <? t') eqn:Hlt; bool_prop; [lia|by eapply Hacc].
    + destruct IH as [_ Hn]. subst acc'. destruct acc as [[id0 t0]|]; [|done]. by destruct (time_Before _ _).
Qed.

(** The inner loop finds an entry that no other one precedes, if there is any. *)
Lemma oldest_range n m :
  match oldest (range n m) with
  | None => m = ∅
  | Some (id, t) => (exists e, m !! id = Some e /\ markedAt e = t) /\ forall id' e', m !! id' = Some e' -> t <= markedAt e'
  end.
Proof.
  assert (Hr : forall id e, (id, e) ∈ range n m <-> m !! id = Some e).
  { intros id e. rewrite (range_entries n m). apply elem_of_map_to_list. }
  pose proof (oldest_min (range n m) None) as Hmin. unfold oldest. destruct (fold_left _ _ None) as [[id t]|].
  - destruct Hmin as ([?|(e & Hin & Ht)] & Hall & _); [done|]. split; [exists e; by rewrite <- Hr|].
    intros id' e' Hin'%Hr. eauto.
  - destruct Hmin as [Hnil _]. apply map_eq. intros id. rewrite lookup_empty.
    destruct (m !! id) as [e|] eqn:E; [|done]. apply Hr in E. rewrite Hnil in E. by apply not_elem_of_nil in E.
Qed.

(** The loop ends within as many rounds as there are entries: it then keeps the newest ones. *)
Lemma prune_loop_spec fuel limit m :
  (size m < fuel)%nat ->
  let m' := prune_loop range fuel limit m in
  m' ⊆ m /\ Z.of_nat (size m') = Z.min (Z.of_nat (size m)) (Z.max 0 limit) /\
  (forall id e id' e', m' !! id = Some e -> m !! id' = Some e' -> m' !! id' = None -> markedAt e' <= markedAt e).
Proof.
  revert m. induction fuel as [|fuel IH]; intros m Hf; [lia|]. cbn [prune_loop].
  case_if as Hlim; bool_prop; [|split; [done|]; split; [lia|congruence]].
  pose proof (oldest_range (S fuel) m) as Hold. destruct (oldest _) as [[id t]|].
  - destruct Hold as [(e & He & Ht) Hmin]. assert (Hsz : size m = S (size (delete id m))).
    { rewrite map_size_delete_Some by eauto. destruct (size m) eqn:E; [|done].
      apply map_size_empty_iff in E. subst m. done. }
    destruct (IH (delete id m)) as (Hsub & Hsize & Hkeep); [lia|]. cbn zeta in *.
    split; [etrans; [exact Hsub|apply delete_subseteq]|]. split; [lia|].
    intros id1 e1 id2 e2 H1 H2 H3. destruct (decide (id2 = id)) as [->|Hne].
    + assert (m !! id1 = Some e1) by (eapply lookup_weaken; [|apply (delete_subseteq m id)]; by eapply lookup_weaken).
      specialize (Hmin _ _ H). assert (e2 = e) by congruence. subst. lia.
    + eapply Hkeep; eauto. by rewrite lookup_delete_ne.
  - subst m. rewrite map_size_empty in *. cbn in Hlim.
    split; [done|]. split; [lia|]. intros ? ? ? ? ?. by rewrite lookup_empty in *.
Qed.

Definition unexpired (now : Time) (m : gmap string deadConnectionEntry) :=
  filter (fun x : string * deadConnectionEntry => time_After (expiresAt x.2) now = true) m.

(** Pruning the list of dead connections terminates for every order in which the map is traversed,
    and leaves exactly as many of the unexpired entries as the limit allows, the most recently marked
    ones: no dropped entry is newer than a kept one. *)
Theorem prune_keeps_newest {N} (p : AWSPusher N) now :
  let live := unexpired now (P_dead p) in
  let dead' := P_dead (pruneDeadConnectionsLocked range now p).1 in
  dead' ⊆ live /\ Z.of_nat (size dead') = Z.min (Z.of_nat (size live)) (Z.max 0 (P_deadLimit p)) /\
  (forall id e id' e', dead' !! id = Some e -> live !! id' = Some e' -> dead' !! id' = None -> markedAt e' <= markedAt e).
Proof. cbn. apply (prune_loop_spec (S (size _))). fold (unexpired now (P_dead p)). lia. Qed.
End pruning.

(** ** Pushes *)

Section pushes.
Context {N : Type} `{HU : Unicode} (post : string -> bytes -> N -> N * option error) (clock : nat -> Time).
Context (marshal : StreamEvent -> result error bytes).
Context (range : nat -> gmap string deadConnectionEntry -> list (string * deadConnectionEntry)).
Hypothesis range_entries : forall n m, range n m ≡ₚ map_to_list m.
Implicit Types (p : AWSPusher N) (id : string).

(** Every connection that has a chunker has one of its own, which is not stopped, and is not
    on the list of dead connections. *)
Definition pusher_ok p : Prop := forall id r,
  P_chunkers p !! id = Some r ->
  P_dead p !! id = None /\ exists c, P_heap p !! r = Some (id, c) /\ C_stopped c = false.

(** Nothing but the clock and the lists of connections changes. *)
Definition quiet p p' : Prop :=
  P_net p' = P_net p /\ P_heap p' = P_heap p /\ P_chunkCfg p' = P_chunkCfg p.

Lemma isDeadLocked_spec id now p p' b :
  isDeadLocked id now p = (p', b) ->
  quiet p p' /\ P_chunkers p' = P_chunkers p /\ P_dead p' ⊆ P_dead p /\
  (b = false -> P_dead p' !! id = None) /\ (b = true -> is_Some (P_dead p !! id)).
Proof.
  unfold isDeadLocked. destruct (P_dead p !! id) as [e|] eqn:E; [case_if|]; intros [= <- <-]; cbn; unfold quiet; cbn.
  - rewrite lookup_delete_eq. split; [done|]. split; [done|]. split; [apply delete_subseteq|done].
  - by rewrite E.
  - by rewrite E.
Qed.

Lemma prune_quiet now p p' :
  pruneDeadConnectionsLocked range now p = (p', tt) ->
  quiet p p' /\ P_chunkers p' = P_chunkers p /\ P_dead p' ⊆ P_dead p.
Proof.
  intros [= <-]. cbn. split; [done|]. split; [done|].
  destruct (prune_keeps_newest range range_entries p now) as [Hsub _]. cbn in Hsub.
  etrans; [exact Hsub|apply map_filter_subseteq].
Qed.

Lemma markDead_locked_spec id p p' cc :
  markDead_locked clock range id p = (p', cc) ->
  quiet p p' /\
  ((cc = None /\ P_chunkers p' = P_chunkers p /\ P_dead p' ⊆ P_dead p /\ is_Some (P_dead p !! id)) \/
   (cc = P_chunkers p !! id /\ P_chunkers p' = delete id (P_chunkers p) /\
    forall id', id' <> id -> P_dead p !! id' = None -> P_dead p' !! id' = None)).
Proof.
  unfold markDead_locked. rewrite ST_bind_run. cbn [nowUTC fst snd]. set (p0 := p <| P_tick ::= S |>).
  rewrite ST_bind_run. destruct (isDeadLocked id (clock (P_tick p)) p0) as [p1 b] eqn:E1. cbn [fst snd].
  apply isDeadLocked_spec in E1 as ((Q1 & Q2 & Q3) & Hc & Hd & Hf & Ht).
  destruct b.
  - intros [= <- <-]. split; [by repeat split|]. left. eauto.
  - rewrite ST_bind_run. cbn [modifyW fst snd]. rewrite ST_bind_run.
    match goal with |- context [pruneDeadConnectionsLocked range _ ?x] => set (p2 := x) end.
    destruct (pruneDeadConnectionsLocked range (clock (P_tick p)) p2) as [p3 []] eqn:E3. cbn [fst snd].
    apply prune_quiet in E3 as ((R1 & R2 & R3) & Rc & Rd). intros [= <- <-]. cbn.
    split; [unfold quiet; cbn; rewrite R1, R2, R3; by repeat split|]. right. rewrite Rc. cbn. rewrite Hc.
    split; [done|]. split; [done|]. intros id' Hne Hnone.
    eapply lookup_weaken_None; [|exact Rd]. cbn. rewrite lookup_insert_ne by done.
    by eapply lookup_weaken_None.
Qed.

Lemma heap_set_get r c p : is_Some (P_heap p !! r) -> heap_get r (heap_set r c p) = c.
Proof. intros [[id c0] E]. unfold heap_get, heap_set. cbn. by rewrite list_lookup_alter_eq, E. Qed.

Lemma heap_set_conn r r' c p : heap_conn r' (heap_set r c p) = heap_conn r' p.
Proof.
  unfold heap_conn, heap_set. cbn. destruct (decide (r' = r)) as [->|Hne].
  - rewrite list_lookup_alter_eq. by destruct (P_heap p !! r) as [[? ?]|].
  - by rewrite list_lookup_alter_ne.
Qed.

Definition unreferenced (r : nat) p : Prop := forall id, P_chunkers p !! id <> Some r.
Definition keeps_open (section : Chunker -> Chunker * option bytes) : Prop :=
  forall c, C_stopped (section c).1 = C_stopped c.

Lemma heap_set_ok r c p :
  (C_stopped c = C_stopped (heap_get r p) \/ unreferenced r p) -> pusher_ok p -> pusher_ok (heap_set r c p).
Proof.
  intros Hst Hok id r' Hr. cbn in Hr. destruct (Hok id r' Hr) as [Hd (c' & Hc & Hs)]. split; [done|].
  cbn. destruct (decide (r' = r)) as [->|Hne].
  - destruct Hst as [Hst|Hun]; [|by destruct (Hun id)]. unfold heap_get in Hst. rewrite Hc in Hst.
    exists c. rewrite list_lookup_alter_eq, Hc. cbn. split; [done|]. by rewrite Hst.
  - exists c'. by rewrite list_lookup_alter_ne.
Qed.

Lemma markDead_locked_ok id p p' cc :
  pusher_ok p -> markDead_locked clock range id p = (p', cc) ->
  pusher_ok p' /\
  (forall r, cc = Some r -> unreferenced r p' /\ heap_conn r p' = id /\ P_chunkers p' !! id = None).
Proof.
  intros Hok E. apply markDead_locked_spec in E as ((_ & Hh & _) & [(-> & Hc & Hd & _)|(-> & Hc & Hd)]).
  - split; [|done]. intros id' r' Hr. rewrite Hc in Hr. destruct (Hok _ _ Hr) as [Hn He]. rewrite Hh.
    split; [by eapply lookup_weaken_None|done].
  - split.
    + intros id' r' Hr. rewrite Hc in Hr. apply lookup_delete_Some in Hr as [Hne Hr].
      destruct (Hok _ _ Hr) as [Hn He]. rewrite Hh. by split; [apply Hd|].
    + intros r Hr. destruct (Hok _ _ Hr) as [_ (c & Hheap & _)]. rewrite Hc, lookup_delete_eq.
      unfold heap_conn. rewrite Hh, Hheap. split; [|done]. intros id'. rewrite Hc.
      intros [Hne Hr']%lookup_delete_Some. destruct (Hok _ _ Hr') as [_ (c' & Hheap' & _)]. congruence.
Qed.

(** What happens between the two halves of a flush: the post and, if the connection is gone,
    the end of its chunker. *)
Definition flush_call (fuel : nat) (r : nat) (data : bytes) p : AWSPusher N * option error :=
  let '(p, err) := postFunc post (heap_conn r p) data p in
  (if IsGoneError err then
     let '(p, cc) := markDead_locked clock range (heap_conn r p) p in
     match cc, fuel with
     | Some r', S fuel' => (with_chunker post clock range fuel' Stop_locked r' p).1
     | _, _ => p
     end
   else p, err).

Lemma with_chunker_eq fuel section r p :
  (with_chunker post clock range fuel section r p).1 =
  let p1 := heap_set r (section (heap_get r p)).1 p in
  match (section (heap_get r p)).2 with
  | None => p1
  | Some data => let '(p2, err) := flush_call fuel r data p1 in heap_set r (drain_end err (heap_get r p2)) p2
  end.
Proof.
  destruct fuel; cbn [with_chunker]; unfold flush_call; destruct (section (heap_get r p)) as [c [data|]]; cbn [fst snd]; try done;
    destruct (postFunc post _ data _) as [p1 err]; by destruct (IsGoneError err).
Qed.

Lemma drain_end_stopped err c : C_stopped (drain_end err c) = C_stopped c.
Proof. by destruct err. Qed.

Lemma with_chunker_ok fuel : forall section r p,
  pusher_ok p -> keeps_open section \/ unreferenced r p ->
  pusher_ok (with_chunker post clock range fuel section r p).1.
Proof.
  induction fuel as [|fuel IH]; intros section r p Hok Hsec; rewrite with_chunker_eq; cbn zeta;
    set (p1 := heap_set r (fst (section (heap_get r p))) p);
    (assert (Hok1 : pusher_ok p1) by (apply heap_set_ok; [destruct Hsec as [Hs|]; [left; apply Hs|by right]|done]));
    clearbody p1; destruct (snd (section (heap_get r p))) as [data|]; try done; unfold flush_call;
    destruct (postFunc post _ data p1) as [p2 err] eqn:E2;
    (assert (Hok2 : pusher_ok p2) by (unfold postFunc in E2; destruct (post _ _ _); injection E2 as <- _; exact Hok1));
    (apply heap_set_ok; [by left; rewrite drain_end_stopped|]);
    destruct (IsGoneError err); try done;
    destruct (markDead_locked clock range _ p2) as [p3 cc] eqn:E3;
    destruct (markDead_locked_ok _ _ _ _ Hok2 E3) as [Hok3 Hun]; destruct cc as [r'|]; try done.
  apply IH; [done|]. right. by apply Hun.
Qed.

(** Once the chunker of the connection has been removed, a flush cannot stop another one. *)
Lemma stop_nested fuel r p :
  P_chunkers p !! heap_conn r p = None ->
  (with_chunker post clock range fuel Stop_locked r p).1 = (with_chunker post clock range 0 Stop_locked r p).1.
Proof.
  intros Hnone. rewrite !with_chunker_eq. cbn zeta. destruct (Stop_locked _) as [c [data|]]; cbn [fst snd]; [|done].
  unfold flush_call. set (p1 := heap_set r c p).
  destruct (postFunc post _ data p1) as [p2 err] eqn:E2. destruct (IsGoneError err) eqn:Eg; [|done].
  assert (P_chunkers p2 = P_chunkers p /\ heap_conn r p2 = heap_conn r p) as [Hc2 Hr2].
  { unfold postFunc in E2. destruct (post _ _ _). injection E2 as <- _. split; [done|]. apply (heap_set_conn r r c p). }
  destruct (markDead_locked clock range _ p2) as [p3 cc] eqn:E3.
  apply markDead_locked_spec in E3 as (_ & [(-> & _)|(-> & _)]); [by destruct fuel|].
  rewrite Hr2, Hc2, Hnone. by destruct fuel.
Qed.

(** The nesting of flushes is bounded: more of it than [nesting] changes nothing. *)
Lemma with_chunker_fuel fuel section r p :
  pusher_ok p -> keeps_open section \/ unreferenced r p ->
  (with_chunker post clock range (nesting + fuel) section r p).1 = (with_chunker post clock range nesting section r p).1.
Proof.
  intros Hok Hsec. rewrite !with_chunker_eq. cbn zeta. destruct (section (heap_get r p)) as [c [data|]] eqn:Es; cbn [fst snd]; [|done].
  unfold flush_call. set (p1 := heap_set r c p).
  assert (Hok1 : pusher_ok p1).
  { apply heap_set_ok; [destruct Hsec as [Hs|]; [left; by rewrite <- (Hs (heap_get r p)), Es|by right]|done]. }
  destruct (postFunc post _ data p1) as [p2 err] eqn:E2. destruct (IsGoneError err); [|done].
  assert (Hok2 : pusher_ok p2) by (unfold postFunc in E2; destruct (post _ _ _); injection E2 as <- _; exact Hok1).
  destruct (markDead_locked clock range _ p2) as [p3 cc] eqn:E3.
  destruct (markDead_locked_ok _ _ _ _ Hok2 E3) as [Hok3 Hun]. destruct cc as [r'|]; [|done].
  destruct (Hun r' eq_refl) as (_ & Hconn & Hnone). cbn [nesting Nat.add].
  rewrite stop_nested; [done|]. by rewrite Hconn.
Qed.

Lemma drain_begin_out c :
  C_buf (drain_begin c).1 = [] /\ C_stopped (drain_begin c).1 = C_stopped c /\
  (drain_begin c).2 = match C_buf c with [] => None | b => Some b end.
Proof.
  unfold drain_begin. destruct (C_buf c) eqn:E; [done|]. cbn. by destruct (stop_timer_fields c) as (_ & _ & -> & _).
Qed.

Lemma Write_locked_out cfg data c :
  C_stopped c = false ->
  C_stopped (Write_locked cfg data c).1 = false /\
  ((Write_locked cfg data c).2 = match C_buf c ++ data with [] => None | b => Some b end /\
     C_buf (Write_locked cfg data c).1 = [] \/
   (Write_locked cfg data c).2 = None /\ C_buf (Write_locked cfg data c).1 = C_buf c ++ data).
Proof.
  intros Hst. unfold Write_locked. rewrite Hst. cbn zeta.
  set (c2 := match C_timer _ with None => _ | Some _ => _ end).
  assert (C_buf c2 = C_buf c ++ data /\ C_stopped c2 = false) as [Hb Hs] by (subst c2; cbn; by destruct (C_timer c)).
  case_if; [|by auto]. destruct (drain_begin_out c2) as (H1 & -> & ->). rewrite Hb. auto.
Qed.

Lemma keeps_open_write cfg data : keeps_open (Write_locked cfg data).
Proof.
  intros c. destruct (C_stopped c) eqn:E; [unfold Write_locked; by rewrite E|by apply Write_locked_out].
Qed.

Lemma keeps_open_drain : keeps_open drain_begin.
Proof. intros c. apply drain_begin_out. Qed.

(** The chunker of a live connection. *)
Definition has_chunker id r c p : Prop :=
  P_chunkers p !! id = Some r /\ P_heap p !! r = Some (id, c) /\ C_stopped c = false /\ P_dead p !! id = None.

Lemma heap_set_lookup r c c0 id p :
  P_heap p !! r = Some (id, c0) -> P_heap (heap_set r c p) !! r = Some (id, c).
Proof. intros E. cbn. by rewrite list_lookup_alter_eq, E. Qed.

Lemma heap_lookup_get r c id p : P_heap p !! r = Some (id, c) -> heap_get r p = c /\ heap_conn r p = id.
Proof. unfold heap_get, heap_conn. by intros ->. Qed.

(** A section that flushes everything posts it once; a connection that is gone loses its chunker. *)
Lemma with_chunker_posts section id r c d p :
  has_chunker id r c p -> (section c).2 = Some d -> C_buf (section c).1 = [] -> C_stopped (section c).1 = false ->
  let p' := (with_chunker post clock range nesting section r p).1 in
  let e := (post id d (P_net p)).2 in
  P_net p' = (post id d (P_net p)).1 /\
  exists c', P_heap p' !! r = Some (id, c') /\ C_buf c' = [] /\ C_lastErr c' = e /\
    if IsGoneError e then P_chunkers p' !! id = None else has_chunker id r c' p'.
Proof.
  intros (Hc & Hh & Hst & Hd) Hout Hbuf Hst1. cbn zeta. rewrite with_chunker_eq. cbn zeta.
  destruct (heap_lookup_get _ _ _ _ Hh) as [-> _]. rewrite Hout.
  destruct (section c) as [c1 out]. cbn [fst snd] in *. set (p1 := heap_set r c1 p).
  assert (Hh1 : P_heap p1 !! r = Some (id, c1)) by (by eapply heap_set_lookup).
  destruct (heap_lookup_get _ _ _ _ Hh1) as [_ Hconn]. unfold flush_call, postFunc.
  rewrite Hconn. change (P_net p1) with (P_net p). destruct (post id d (P_net p)) as [net e]. cbn [fst snd].
  set (p2 := p1 <| P_net := net |>).
  assert (Hh2 : P_heap p2 !! r = Some (id, c1)) by exact Hh1.
  destruct (heap_lookup_get _ _ _ _ Hh2) as [Hget2 Hconn2].
  destruct (IsGoneError e) eqn:Eg.
  - rewrite Hconn2. destruct (markDead_locked clock range id p2) as [p3 cc] eqn:E3.
    apply markDead_locked_spec in E3 as ((N3 & H3 & _) & [(_ & _ & _ & [x Hx])|(-> & Hc3 & _)]).
    { by change (P_dead p2) with (P_dead p) in Hx; rewrite Hd in Hx. }
    change (P_chunkers p2) with (P_chunkers p) in *. rewrite Hc. cbn [nesting].
    rewrite with_chunker_eq. cbn zeta. rewrite <- H3 in Hh2.
    destruct (heap_lookup_get _ _ _ _ Hh2) as [-> _].
    destruct (drain_begin_out (stop_timer (c1 <| C_stopped := true |>))) as (B1 & B2 & B3).
    destruct (stop_timer_fields (c1 <| C_stopped := true |>)) as (_ & F2 & _).
    unfold Stop_locked. rewrite B3, F2. cbn [C_buf upd]. cbn. rewrite Hbuf.
    set (c3 := (drain_begin _).1) in *. set (p4 := heap_set r c3 p3).
    assert (Hh4 : P_heap p4 !! r = Some (id, c3)) by (by eapply heap_set_lookup).
    destruct (heap_lookup_get _ _ _ _ Hh4) as [-> _]. split; [exact N3|].
    exists (drain_end e c3). split; [by eapply heap_set_lookup|].
    destruct (drain_end_fields e c3) as (-> & _). split; [done|]. split; [by destruct e|].
    cbn. rewrite Hc3. apply lookup_delete_eq.
  - rewrite Hget2. split; [done|]. exists (drain_end e c1).
    destruct (drain_end_fields e c1) as (D1 & _ & _ & D4).
    split; [by eapply heap_set_lookup|]. split; [by rewrite D1|]. split; [by destruct e|].
    repeat split; try done; [by eapply heap_set_lookup|by rewrite D4].
Qed.

(** A section that does not flush only changes its chunker. *)
Lemma with_chunker_silent fuel section id r c p :
  has_chunker id r c p -> (section c).2 = None ->
  (with_chunker post clock range fuel section r p).1 = heap_set r (section c).1 p.
Proof.
  intros (_ & Hh & _ & _) Hout. rewrite with_chunker_eq. cbn zeta.
  destruct (heap_lookup_get _ _ _ _ Hh) as [-> _]. by rewrite Hout.
Qed.

Definition buffered id p : bytes :=
  match P_chunkers p !! id with Some r => C_buf (heap_get r p) | None => [] end.

Lemma getOrCreate_spec id p p' cc :
  pusher_ok p -> getOrCreateChunker clock id p = (p', cc) ->
  pusher_ok p' /\ P_net p' = P_net p /\
  match cc with
  | None => (isDeadLocked id (clock (P_tick p)) p).2 = true
  | Some r => (isDeadLocked id (clock (P_tick p)) p).2 = false /\
      exists c, has_chunker id r c p' /\ C_buf c = buffered id p
  end.
Proof.
  intros Hok. unfold getOrCreateChunker. rewrite ST_bind_run. cbn [nowUTC fst snd]. set (p0 := p <| P_tick ::= S |>).
  rewrite ST_bind_run. assert (Hsame : (isDeadLocked id (clock (P_tick p)) p).2 = (isDeadLocked id (clock (P_tick p)) p0).2).
  { unfold isDeadLocked. cbn. destruct (P_dead p !! id); [by case_if|done]. }
  rewrite Hsame. destruct (isDeadLocked id (clock (P_tick p)) p0) as [p1 b] eqn:E1. cbn [fst snd].
  apply isDeadLocked_spec in E1 as ((Q1 & Q2 & Q3) & Hc & Hd & Hf & _).
  assert (Hok1 : pusher_ok p1).
  { intros id' r Hr. rewrite Hc in Hr. destruct (Hok _ _ Hr) as [Hn He]. rewrite Q2. split; [exact (lookup_weaken_None _ _ _ Hn Hd)|done]. }
  destruct b; [by intros [= <- <-]|]. change (P_chunkers p0) with (P_chunkers p) in *.
  change (P_heap p0) with (P_heap p) in *. unfold lookupOrNew. rewrite Hc.
  destruct (P_chunkers p !! id) as [r|] eqn:Er; intros [= <- <-]; cbn [fst snd].
  - destruct (Hok _ _ Er) as [Hn (c & Hh & Hst)]. split; [done|]. split; [done|]. split; [done|].
    exists c. split; [|unfold buffered; rewrite Er; by destruct (heap_lookup_get _ _ _ _ Hh) as [-> _]].
    split; [by rewrite Hc|]. split; [by rewrite Q2|]. split; [done|by apply Hf].
  - split; [|split; [done|]; split; [done|]].
    + intros id' r'. cbn. destruct (decide (id' = id)) as [->|Hne].
      * rewrite lookup_insert_eq. intros [= <-]. split; [by apply Hf|]. exists NewChunker.
        by rewrite lookup_app_r, Nat.sub_diag by lia.
      * rewrite lookup_insert_ne by done. intros Hr'. destruct (Hok1 id' r' Hr') as [Hn (c & Hh & Hst)].
        split; [done|]. exists c. split; [|done]. by apply lookup_app_l_Some.
    + exists NewChunker. split; [|unfold buffered; by rewrite Er]. repeat split; cbn.
      * by rewrite lookup_insert_eq.
      * by rewrite lookup_app_r, Nat.sub_diag by lia.
      * by apply Hf.
Qed.

Lemma markDead_quiet id p :
  P_chunkers p !! id = None ->
  let p' := (markDead post clock range id p).1 in
  P_net p' = P_net p /\ P_heap p' = P_heap p /\ P_chunkers p' !! id = None.
Proof.
  intros Hn. unfold markDead. rewrite ST_bind_run. destruct (markDead_locked clock range id p) as [p1 cc] eqn:E.
  apply markDead_locked_spec in E as ((Q1 & Q2 & _) & [(-> & Hc & _)|(-> & Hc & _)]); cbn [fst snd]; rewrite ?Hn;
    cbn; rewrite Hc; auto. split; [done|]. split; [done|]. apply lookup_delete_eq.
Qed.

Lemma isDead_live id p :
  P_dead p !! id = None ->
  isDead clock id p = (p <| P_tick ::= S |>, false).
Proof. intros Hd. unfold isDead. rewrite ST_bind_run. cbn [nowUTC fst snd]. unfold isDeadLocked. cbn. by rewrite Hd. Qed.

(** How [pushChunked] ends after its flushes, from the last error of its chunker. *)
Definition push_ending (id : string) (r : nat) : ST (AWSPusher N) (bool * option error) :=
  lastErr ← lastError r;
  match lastErr with
  | Some e =>
      if IsGoneError (Some e) then _ ← markDead post clock range id; mret (false, None)
      else mret (true, Some e)
  | None =>
      dead ← isDead clock id;
      mret (if (dead : bool) then (false, None) else (true, None))
  end.

(** The answer to the caller when a flush had the outcome [e]. *)
Definition push_answer (e : option error) : bool * option error :=
  if IsGoneError e then (false, None) else (true, e).

Lemma push_ending_spec id r c e p :
  P_heap p !! r = Some (id, c) -> C_buf c = [] -> C_lastErr c = e ->
  (if IsGoneError e then P_chunkers p !! id = None else has_chunker id r c p) ->
  let '(p', res) := push_ending id r p in
  res = push_answer e /\ P_net p' = P_net p /\ buffered id p' = [] /\
  (IsGoneError e = true -> P_chunkers p' !! id = None).
Proof.
  intros Hh Hb He Hend. unfold push_ending. rewrite ST_bind_run. unfold lastError, LastError. cbn [fst snd].
  destruct (heap_lookup_get _ _ _ _ Hh) as [Hget _]. rewrite Hget, He. unfold push_answer, buffered.
  destruct e as [e|].
  - destruct (IsGoneError (Some e)) eqn:Eg.
    + rewrite ST_bind_run. destruct (markDead_quiet id p Hend) as (M1 & M2 & M3).
      destruct (markDead post clock range id p) as [p' []]. cbn [fst snd mret ST_ret] in *. by rewrite M3.
    + destruct Hend as (Hc & _). cbn. by rewrite Hc, Hget, Hb.
  - cbn [IsGoneError] in *. destruct Hend as (Hc & _ & _ & Hd). rewrite ST_bind_run, isDead_live by done.
    cbn [fst snd mret ST_ret]. change (P_chunkers (p <| P_tick ::= S |>)) with (P_chunkers p). rewrite Hc.
    change (heap_get r (p <| P_tick ::= S |>)) with (heap_get r p). by rewrite Hget, Hb.
Qed.

Lemma Write_record_nonempty event data : Write_record marshal event = Ok data -> data <> [].
Proof. unfold Write_record. destruct (marshal event) as [d|]; [|done]. intros [= <-]. by destruct d. Qed.

Lemma drain_after cfg data c :
  C_stopped c = false -> data <> [] -> (Write_locked cfg data c).2 = None ->
  let c1 := (Write_locked cfg data c).1 in
  (drain_begin c1).2 = Some (C_buf c ++ data) /\ C_buf (drain_begin c1).1 = [] /\ C_stopped (drain_begin c1).1 = false.
Proof.
  intros Hst Hne Hout. destruct (Write_locked_out cfg data c Hst) as [Hs [[Ho _]|[_ Hb]]].
  - rewrite Ho in Hout. destruct (C_buf c ++ data) eqn:E; [by apply app_nil in E as [_ ?]|done].
  - cbn zeta. destruct (drain_begin_out (Write_locked cfg data c).1) as (-> & -> & ->). rewrite Hb, Hs.
    destruct (C_buf c ++ data) eqn:E; [by apply app_nil in E as [_ ?]|done].
Qed.

(** The write and the flush of a final event post everything that is buffered, once. *)
Lemma write_flush_posts cfg id r c data p :
  has_chunker id r c p -> data <> [] ->
  let p1 := (with_chunker post clock range nesting (Write_locked cfg data) r p).1 in
  let p' := (with_chunker post clock range nesting drain_begin r p1).1 in
  let e := (post id (C_buf c ++ data) (P_net p)).2 in
  P_net p' = (post id (C_buf c ++ data) (P_net p)).1 /\
  exists c', P_heap p' !! r = Some (id, c') /\ C_buf c' = [] /\ C_lastErr c' = e /\
    if IsGoneError e then P_chunkers p' !! id = None else has_chunker id r c' p'.
Proof.
  intros Hch Hne. cbn zeta. pose proof Hch as (_ & Hh & Hst & _).
  destruct (Write_locked_out cfg data c Hst) as [Hs [[Ho Hb]|[Ho Hb]]].
  - assert (Ho' : (Write_locked cfg data c).2 = Some (C_buf c ++ data)).
    { rewrite Ho. destruct (C_buf c ++ data) eqn:E; [by apply app_nil in E as [_ ?]|done]. }
    destruct (with_chunker_posts (Write_locked cfg data) id r c _ p Hch Ho' Hb Hs) as (Hn & c' & Hh' & Hb' & He & Hend).
    set (p1 := (with_chunker post clock range nesting (Write_locked cfg data) r p).1) in *.
    assert (Hsil : (with_chunker post clock range nesting drain_begin r p1).1 = heap_set r c' p1).
    { rewrite with_chunker_eq. cbn zeta. destruct (heap_lookup_get _ _ _ _ Hh') as [-> _]. unfold drain_begin. by rewrite Hb'. }
    rewrite Hsil. split; [done|]. exists c'. split; [by eapply heap_set_lookup|]. split; [done|]. split; [done|].
    destruct (IsGoneError _); [done|]. destruct Hend as (G1 & G2 & G3 & G4).
    repeat split; try done. by eapply heap_set_lookup.
  - destruct (drain_after cfg data c Hst Hne Ho) as (D1 & D2 & D3).
    rewrite (with_chunker_silent nesting _ _ _ _ _ Hch Ho).
    assert (Hch1 : has_chunker id r (Write_locked cfg data c).1 (heap_set r (Write_locked cfg data c).1 p)).
    { destruct Hch as (G1 & G2 & G3 & G4). repeat split; try done. by eapply heap_set_lookup. }
    exact (with_chunker_posts drain_begin id r _ _ _ Hch1 D1 D2 D3).
Qed.

(** Pushing a final event to a live connection posts the buffered records followed by the event in
    one message, exactly once.  If the gateway accepts it, or fails for another reason, the caller learns
    the outcome and the connection is kept; if the connection is gone, the caller is told so, without an
    error, and its chunker is dropped. *)
Theorem push_final_event cfg id event data p :
  pusher_ok p -> P_chunkCfg p = Some cfg -> (isDeadLocked id (clock (P_tick p)) p).2 = false ->
  Write_record marshal event = Ok data -> is_terminal (StreamEvent_Type event) = true ->
  let '(p', res) := AWSPusher_Push post clock marshal range id event p in
  let '(net, e) := post id (buffered id p ++ data) (P_net p) in
  P_net p' = net /\ res = push_answer e /\ buffered id p' = [] /\
  (IsGoneError e = true -> P_chunkers p' !! id = None).
Proof.
  intros Hok Hcfg Hlive Hw Hterm. unfold AWSPusher_Push. rewrite Hcfg. unfold pushChunked. rewrite ST_bind_run.
  destruct (getOrCreateChunker clock id p) as [p1 cc] eqn:E1. cbn [fst snd].
  destruct (getOrCreate_spec _ _ _ _ Hok E1) as (Hok1 & Hn1 & Hcc).
  destruct cc as [r|]; [|congruence]. destruct Hcc as [_ (c & Hch & Hbuf)].
  rewrite Hw. rewrite ST_bind_run, Hterm, ST_bind_run. fold (push_ending id r).
  pose proof (write_flush_posts cfg id r c data p1 Hch (Write_record_nonempty _ _ Hw)) as Hposts.
  cbn zeta in Hposts. rewrite Hbuf, Hn1 in Hposts.
  destruct (with_chunker post clock range nesting (Write_locked cfg data) r p1) as [p2 []]. cbn [fst snd] in *.
  destruct (with_chunker post clock range nesting drain_begin r p2) as [p3 []]. cbn [fst snd] in *.
  destruct (post id (buffered id p ++ data) (P_net p)) as [net e]. cbn [fst snd] in *.
  destruct Hposts as (Hn & c' & Hh & Hb & He & Hend).
  pose proof (push_ending_spec id r c' e p3 Hh Hb He Hend) as Hfin.
  destruct (push_ending id r p3) as [p4 res]. destruct Hfin as (-> & -> & H3 & H4). auto.
Qed.

(** A connection on the list of dead connections is not contacted again before its entry expires:
    a push returns at once that the connection is not alive. *)
Theorem push_dead cfg id event p entry :
  P_chunkCfg p = Some cfg -> P_dead p !! id = Some entry -> clock (P_tick p) < expiresAt entry ->
  AWSPusher_Push post clock marshal range id event p = (p <| P_tick ::= S |>, (false, None)).
Proof.
  intros Hcfg Hd Hlt. unfold AWSPusher_Push. rewrite Hcfg. unfold pushChunked, getOrCreateChunker.
  rewrite !ST_bind_run. cbn [nowUTC fst snd]. unfold isDeadLocked. cbn. rewrite Hd.
  unfold time_After. assert (clock (P_tick p) <? expiresAt entry = true) as -> by (by apply Z.ltb_lt). done.
Qed.

(** The invariant is kept by every operation. *)
Lemma markDead_ok id p : pusher_ok p -> pusher_ok (markDead post clock range id p).1.
Proof.
  intros Hok. unfold markDead. rewrite ST_bind_run. destruct (markDead_locked clock range id p) as [p1 cc] eqn:E.
  destruct (markDead_locked_ok _ _ _ _ Hok E) as [Hok1 Hun]. cbn [fst snd]. destruct cc as [r|]; [|done].
  apply with_chunker_ok; [done|]. right. by apply Hun.
Qed.

Lemma isDead_ok id p : pusher_ok p -> pusher_ok (isDead clock id p).1.
Proof.
  intros Hok. unfold isDead. rewrite ST_bind_run. cbn [nowUTC fst snd]. set (p0 := p <| P_tick ::= S |>).
  destruct (isDeadLocked id (clock (P_tick p)) p0) as [p1 b] eqn:E1. cbn [fst].
  apply isDeadLocked_spec in E1 as ((Q1 & Q2 & Q3) & Hc & Hd & _).
  intros id' r Hr. rewrite Hc in Hr. destruct (Hok _ _ Hr) as [Hn He]. rewrite Q2.
  split; [exact (lookup_weaken_None _ _ _ Hn Hd)|done].
Qed.

Lemma push_ending_ok id r p : pusher_ok p -> pusher_ok (push_ending id r p).1.
Proof.
  intros Hok. unfold push_ending. rewrite ST_bind_run. unfold lastError. cbn [fst snd].
  destruct (LastError _) as [e|]; [case_if; [|done]|]; rewrite ST_bind_run; cbn [mret ST_ret fst];
    auto using markDead_ok, isDead_ok.
Qed.

(** After any sequence of pushes and firing timers, each connection that has a chunker has one of
    its own that is still open, and is not on the list of dead connections: no event is written to a
    stopped chunker or to the chunker of another connection. *)
Theorem pusher_invariant cfg net ops :
  let step p (op : string * StreamEvent + nat) :=
    match op with
    | inl (id, event) => (AWSPusher_Push post clock marshal range id event p).1
    | inr r => (fire_timer post clock range r p).1
    end in
  pusher_ok (fold_left step ops (NewChunkedAWSPusher cfg net)).
Proof.
  cbn zeta. assert (Hall : forall p, pusher_ok p -> pusher_ok (fold_left (fun p op => match op with
    | inl (id, event) => (AWSPusher_Push post clock marshal range id event p).1
    | inr r => (fire_timer post clock range r p).1 end) ops p)); [|by apply Hall].
  induction ops as [|op ops IH]; intros p Hok; [done|]. cbn [fold_left]. apply IH. clear IH.
  destruct op as [[id event]|r].
  - unfold AWSPusher_Push. destruct (P_chunkCfg p) as [cfg'|].
    + unfold pushChunked. rewrite ST_bind_run. destruct (getOrCreateChunker clock id p) as [p1 cc] eqn:E1.
      destruct (getOrCreate_spec _ _ _ _ Hok E1) as (Hok1 & _ & _). cbn [fst snd].
      destruct cc as [r|]; [|done]. destruct (Write_record marshal event) as [data|]; [|done].
      rewrite !ST_bind_run. fold (push_ending id r). apply push_ending_ok.
      assert (Hw : pusher_ok (with_chunker post clock range nesting (Write_locked cfg' data) r p1).1)
        by (apply with_chunker_ok; [done|left; apply keeps_open_write]).
      case_if; [|done]. apply with_chunker_ok; [done|left; apply keeps_open_drain].
    + destruct (marshal event); [|done]. unfold postFunc. destruct (post id a (P_net p)) as [n [e|]]; [|done].
      by destruct (IsGoneError _).
  - unfold fire_timer. apply with_chunker_ok; [|left; apply keeps_open_drain]. apply heap_set_ok; [by left|done].
Qed.
End pushes.

(** ** Concrete runs *)

Module stream_demo.
Definition marshal (event : StreamEvent) : result error bytes := Ok (bytes_of (fmt_d (StreamEvent_Seq event))).
Definition event (n : Z) (t : StreamEventType) : StreamEvent := mkStreamEvent "task" "run" n 0 t GNil.
Definition record (n : Z) : bytes := bytes_of (fmt_d n) ++ [byte_of 10].
Definition cfg : ChunkerConfig := mkChunkerConfig Second 4.

Lemma record_ok n t : Write_record marshal (event n t) = Ok (record n).
Proof. reflexivity. Qed.

(** Two records fill a chunk, which is being posted; a third one waits. *)
Definition sys : ChunkSys :=
  mkChunkSys (mkChunker (record 3) (Some 1%nat) false None 0 [] [1%nat] 2) []
    [record 1 ++ record 2] [record 1; record 2; record 3] [record 1 ++ record 2] [].

Lemma write_step n s s' :
  s' = locked (Write_locked cfg (record n) (y_ch s))
         (if C_stopped (y_ch s) then s else s <| y_written ::= fun l => l ++ [record n] |>) ->
  cstep cfg marshal s s'.
Proof. intros ->. by eapply (step_write cfg marshal (event n StreamEventTokenChunk)), record_ok. Qed.

Lemma sys_steps : rtc (one_at_a_time cfg marshal) ChunkSys_init sys.
Proof.
  eapply rtc_l; [split; [by apply (write_step 1)|vm_compute; done]|].
  eapply rtc_l; [split; [by apply (write_step 2)|vm_compute; done]|].
  eapply rtc_l; [split; [by apply (write_step 3)|vm_compute; done]|]. vm_compute. apply rtc_refl.
Qed.

Lemma sys_reach : creach cfg marshal sys.
Proof. eapply rtc_subrel, sys_steps. by intros s1 s2 [? _]. Qed.

Lemma chunker_conserves_witness :
  creach cfg marshal sys /\
  exists groups pending, y_written sys = concat groups ++ pending /\ y_chunks sys = map (fun g => concat g) groups /\
    C_buf (y_ch sys) = concat pending /\ y_chunks sys ≡ₚ y_flight sys ++ map fst (y_done sys) /\
    Forall (chunk_of cfg) groups /\ small cfg (C_buf (y_ch sys)).
Proof. split; [exact sys_reach|]. exact (chunker_conserves cfg marshal sys sys_reach). Defined.

Lemma chunker_never_strands_witness :
  C_buf (y_ch sys) <> [] /\
  exists t, C_timer (y_ch sys) = Some t /\ (t ∈ C_armed (y_ch sys) \/ t ∈ y_fired sys).
Proof. split; [done|]. destruct (chunker_never_strands cfg marshal sys sys_reach) as [H _]. by apply H. Defined.

(** A timer's flush is still under way when the next chunk is posted and accepted: the
    connection may get the second chunk first. *)
Example chunks_can_overtake :
  exists s, creach cfg marshal s /\ y_chunks s = [record 1; record 2 ++ record 3] /\
    y_flight s = [record 1] /\ map fst (y_done s) = [record 2 ++ record 3].
Proof.
  eexists. split; [|split; [|split]].
  - eapply rtc_l; [by apply (write_step 1)|]. eapply rtc_l; [by apply (step_fire cfg marshal 0); vm_compute; left|].
    eapply rtc_l; [by apply (step_timer cfg marshal [] 0 [])|].
    eapply rtc_l; [by apply (write_step 2)|]. eapply rtc_l; [by apply (write_step 3)|].
    eapply rtc_l; [by apply (step_return cfg marshal [record 1] (record 2 ++ record 3) [] None)|].
    apply rtc_refl.
  - reflexivity.
  - reflexivity.
  - reflexivity.
Qed.

(** A gateway that accepts everything but messages to the connection "gone". *)
Definition post (id : string) (data : bytes) (net : list (string * bytes)) : list (string * bytes) * option error :=
  (net ++ [(id, data)], if bool_decide (id = "gone") then Some ErrConnectionGone else None).
Definition clock (n : nat) : Time := Z.of_nat n * Second.
Definition range (n : nat) (m : gmap string deadConnectionEntry) := map_to_list m.

Lemma range_entries n m : range n m ≡ₚ map_to_list m.
Proof. done. Qed.

#[local] Instance demo_unicode : Unicode := ascii_unicode.

Definition push id n t := (AWSPusher_Push post clock marshal range id (event n t)).

(** One buffered event for the connection "c". *)
Definition pusher : AWSPusher (list (string * bytes)) :=
  (push "c" 1 StreamEventTokenChunk (NewChunkedAWSPusher cfg [])).1.

Lemma pusher_is_ok : pusher_ok pusher.
Proof.
  exact (pusher_invariant post clock marshal range range_entries cfg [] [inl ("c", event 1 StreamEventTokenChunk)]).
Qed.

Lemma push_final_event_witness :
  (push "c" 2 StreamEventComplete pusher).2 = (true, None) /\
  P_net (push "c" 2 StreamEventComplete pusher).1 = [("c", record 1 ++ record 2)].
Proof.
  pose proof (push_final_event post clock marshal range range_entries cfg "c" (event 2 StreamEventComplete) (record 2)
    pusher pusher_is_ok eq_refl ltac:(vm_compute; reflexivity) (record_ok _ _) eq_refl) as H.
  change (AWSPusher_Push post clock marshal range "c" (event 2 StreamEventComplete) pusher)
    with (push "c" 2 StreamEventComplete pusher) in H.
  destruct (push "c" 2 StreamEventComplete pusher) as [p' res]. destruct H as (H1 & H2 & _). cbn [fst snd].
  split; [rewrite H2; vm_compute; reflexivity|]. rewrite H1. vm_compute. reflexivity.
Defined.

Definition dead_pusher : AWSPusher (list (string * bytes)) :=
  (push "gone" 1 StreamEventError (NewChunkedAWSPusher cfg [])).1.

Lemma push_dead_witness :
  (push "gone" 2 StreamEventError dead_pusher).2 = (false, None) /\
  P_net (push "gone" 2 StreamEventError dead_pusher).1 = P_net dead_pusher.
Proof.
  unfold push. rewrite (push_dead post clock marshal range cfg "gone" (event 2 StreamEventError) dead_pusher
    (mkDead Second (901 * Second))); [by split|reflexivity|vm_compute; reflexivity|vm_compute; reflexivity].
Defined.

Definition three_dead : AWSPusher (list (string * bytes)) :=
  (NewChunkedAWSPusher cfg []) <| P_deadLimit := 1 |>
    <| P_dead := {[ "old" := mkDead 0 5; "a" := mkDead 1 20; "b" := mkDead 2 20 ]} |>.

Lemma prune_keeps_newest_witness :
  P_dead (pruneDeadConnectionsLocked range 10 three_dead).1 = {[ "b" := mkDead 2 20 ]} /\
  P_dead (pruneDeadConnectionsLocked range 10 three_dead).1 ⊆ unexpired 10 (P_dead three_dead).
Proof. split; [reflexivity|]. exact (proj1 (prune_keeps_newest range range_entries three_dead 10)). Defined.
End stream_demo.
