(* ===== verification/Encoding.v ===== *)
(** * Encoding: base64 and JSON (encoding/base64 and encoding/json of Go)

    The parts of the two packages that the program uses: the standard base64 encoding with
    its round trip, and how [json.Unmarshal] fills a struct from a JSON value; the texts of JSON
    are in [JSON].  [JSONText] stands for the wording of the errors for a value of a wrong type. *)

From Stdlib Require Import Ascii.
From S2P Require Import Prelude GoLib JSON Strconv.

(** ** encoding/base64, StdEncoding *)

Definition b64_alphabet : list ascii := bytes_of "ABCDEFGHIJKLMNOPQRSTUVWXYZabcdefghijklmnopqrstuvwxyz0123456789+/".
Definition b64_char (v : Z) : ascii := nth (Z.to_nat v) b64_alphabet "="%char.

Fixpoint index_of (c : ascii) (l : list ascii) (i : Z) : option Z :=
  match l with
  | [] => None
  | x :: l' => if Ascii.eqb c x then Some i else index_of c l' (i + 1)
  end.
Definition sextet (c : ascii) : option Z := index_of c b64_alphabet 0.

Fixpoint b64_encode (l : list ascii) : list ascii :=
  match l with
  | [] => []
  | [a] => let v := byte_val a * 16 in [b64_char (v / 64); b64_char (v mod 64); "="%char; "="%char]
  | [a; b] =>
      let v := (byte_val a * 256 + byte_val b) * 4 in
      [b64_char (v / 4096); b64_char (v / 64 mod 64); b64_char (v mod 64); "="%char]
  | a :: b :: c :: l' =>
      let v := byte_val a * 65536 + byte_val b * 256 + byte_val c in
      b64_char (v / 262144) :: b64_char (v / 4096 mod 64) :: b64_char (v / 64 mod 64) :: b64_char (v mod 64) :: b64_encode l'
  end.

Definition is_newline (c : ascii) : bool := Ascii.eqb c (ascii_of_nat 10) || Ascii.eqb c (ascii_of_nat 13).

(** The rest after newlines, and its position. *)
Fixpoint skip_newlines (l : list ascii) (si : Z) : list ascii * Z :=
  match l with
  | c :: l' => if is_newline c then skip_newlines l' (si + 1) else (l, si)
  | [] => ([], si)
  end.

(** The bytes of two, three or four sextets. *)
Definition quantum (acc : list Z) : list ascii :=
  match acc with
  | [s0; s1] => [byte_of ((s0 * 64 + s1) / 16)]
  | [s0; s1; s2] => let v := ((s0 * 64 + s1) * 64 + s2) / 4 in [byte_of (v / 256); byte_of (v mod 256)]
  | [s0; s1; s2; s3] =>
      let v := ((s0 * 64 + s1) * 64 + s2) * 64 + s3 in [byte_of (v / 65536); byte_of (v / 256 mod 256); byte_of (v mod 256)]
  | _ => []
  end.

(** After the padding only newlines may follow. *)
Definition after_padding (acc : list Z) (rest : list ascii) (si : Z) : result Z (list ascii) :=
  match skip_newlines rest si with
  | ([], _) => Ok (quantum acc)
  | (_, si') => Err si'
  end.

(** The decoder at the position [si] with the sextets [acc] of the current quantum; the error
    is the position that [CorruptInputError] reports. *)
Fixpoint b64_decode (l : list ascii) (si : Z) (acc : list Z) : result Z (list ascii) :=
  match l with
  | [] => match acc with [] => Ok [] | _ => Err (si - Z.of_nat (length acc)) end
  | c :: l' =>
      match sextet c with
      | Some v =>
          match acc with
          | [_; _; _] =>
              match b64_decode l' (si + 1) [] with
              | Ok data => Ok (quantum (acc ++ [v]) ++ data)
              | Err e => Err e
              end
          | _ => b64_decode l' (si + 1) (acc ++ [v])
          end
      | None =>
          if is_newline c then b64_decode l' (si + 1) acc
          else if negb (Ascii.eqb c "=") then Err si
          else
            match acc with
            | [_; _] =>
                match skip_newlines l' (si + 1) with
                | ([], si') => Err si'
                | (c' :: rest, si') => if negb (Ascii.eqb c' "=") then Err (si' - 1) else after_padding acc rest (si' + 1)
                end
            | [_; _; _] => after_padding acc l' (si + 1)
            | _ => Err si
            end
      end
  end.

Definition base64_EncodeToString (data : list ascii) : string := string_of (b64_encode data).
Definition base64_DecodeString (s : string) : result error (list ascii) :=
  match b64_decode (bytes_of s) 0 [] with
  | Ok data => Ok data
  | Err off => Err (errors_New ("illegal base64 data at input byte " +:+ fmt_d off))
  end.

(** *** The round trip *)

Lemma sextet_char v : 0 <= v < 64 -> sextet (b64_char v) = Some v.
Proof.
  intros Hv. rewrite <- (Z2Nat.id v) by lia. assert (Hn : (Z.to_nat v < 64)%nat) by lia. revert Hn. generalize (Z.to_nat v). clear.
  intros n Hn. assert (Hall : forallb (fun n => bool_decide (sextet (b64_char (Z.of_nat n)) = Some (Z.of_nat n))) (seq 0 64) = true)
    by (vm_compute; reflexivity).
  rewrite forallb_forall in Hall. specialize (Hall n). rewrite in_seq in Hall. apply (bool_decide_unpack _). rewrite Hall by lia. done.
Qed.

Lemma list_ind3 {A} (P : list A -> Prop) :
  P [] -> (forall a, P [a]) -> (forall a b, P [a; b]) -> (forall a b c l, P l -> P (a :: b :: c :: l)) -> forall l, P l.
Proof.
  intros H0 H1 H2 H3. enough (H : forall l, P l /\ (forall a, P (a :: l)) /\ (forall a b, P (a :: b :: l))) by (intros l; apply H).
  intros l. induction l as [|x l (IH0 & IH1 & IH2)]; [by split_and!|]. split_and!; auto.
Qed.

Lemma b64_step v l si acc :
  0 <= v < 64 -> b64_decode (b64_char v :: l) si acc =
    match acc with
    | [_; _; _] => match b64_decode l (si + 1) [] with Ok data => Ok (quantum (acc ++ [v]) ++ data) | Err e => Err e end
    | _ => b64_decode l (si + 1) (acc ++ [v])
    end.
Proof. intros Hv. cbn [b64_decode]. by rewrite sextet_char. Qed.

Lemma b64_decode_encode l si : b64_decode (b64_encode l) si [] = Ok l.
Proof.
  revert si. induction l as [|a|a b|a b c l IH] using list_ind3; intros si; [done|..]; cbn [b64_encode]; cbn zeta;
    pose proof (byte_val_bounds a) as Ha; try (pose proof (byte_val_bounds b) as Hb); try (pose proof (byte_val_bounds c) as Hc).
  - rewrite !b64_step by (Z.div_mod_to_equations; lia). cbn [app].
    change (b64_decode ["="%char; "="%char] ?s ?acc) with (@Ok Z _ (quantum acc)). cbn [quantum]. f_equal. f_equal.
    apply byte_of_byte_val. Z.div_mod_to_equations; lia.
  - rewrite !b64_step by (Z.div_mod_to_equations; lia). cbn [app].
    change (b64_decode ["="%char] ?s ?acc) with (@Ok Z _ (quantum acc)). cbn [quantum]. cbn zeta.
    f_equal. f_equal; [|f_equal]; apply byte_of_byte_val; Z.div_mod_to_equations; lia.
  - rewrite !b64_step by (Z.div_mod_to_equations; lia). cbn [app]. rewrite IH. cbn [quantum app]. cbn zeta.
    f_equal. f_equal; [|f_equal; [|f_equal]]; apply byte_of_byte_val; Z.div_mod_to_equations; lia.
Qed.

Lemma base64_roundtrip data : base64_DecodeString (base64_EncodeToString data) = Ok data.
Proof. unfold base64_DecodeString, base64_EncodeToString. by rewrite bytes_of_string_of, b64_decode_encode. Qed.

(** ** encoding/json *)

(** The errors for a value that does not fit the Go type of the place it is decoded into. *)
Class JSONText := { json_type_error : JSON -> string -> error }.

(** Names of fields are compared up to the case of letters; two letters beyond ASCII fold to
    "s" and "k". *)
Definition fold_rune (p : Z * list ascii) : Z :=
  let r := p.1 in
  if (65 <=? r) && (r <=? 90) then r + 32 else if r =? 383 then 115 else if r =? 8490 then 107 else r.
Definition fold_name (s : string) : list Z := map fold_rune (decode_runes (bytes_of s)).

Section unmarshal.
Context `{JSONText} {S : Type}.

(** A field of a struct: its name and how a value is stored; [null] changes nothing. *)
Definition setter : Type := JSON -> S -> S * option error.
Definition field : Type := string * setter.

Definition set_with {A} (decode : JSON -> result error A) (upd : A -> S -> S) : setter := fun v s =>
  match v with
  | JNull => (s, None)
  | _ => match decode v with Ok a => (upd a s, None) | Err e => (s, Some e) end
  end.

Definition json_string (v : JSON) : result error string :=
  match v with JStr t => Ok t | _ => Err (json_type_error v "string") end.

Definition json_int (v : JSON) : result error Z :=
  match v with
  | JNum lit => match Atoi lit with Some z => Ok z | None => Err (json_type_error v "int") end
  | _ => Err (json_type_error v "int")
  end.

Definition json_float64 (v : JSON) : result error float64 :=
  match v with
  | JNum lit => match parse_float lit with inl x => Ok x | inr _ => Err (json_type_error v "float64") end
  | _ => Err (json_type_error v "float64")
  end.

(** The elements of a list; [null] is the zero value. *)
Fixpoint json_each {A} (decode : JSON -> result error A) (zero : A) (l : list JSON) : list A * option error :=
  match l with
  | [] => ([], None)
  | v :: l' =>
      let '(a, e) := match v with JNull => (zero, None) | _ => match decode v with Ok a => (a, None) | Err e => (zero, Some e) end end in
      let '(rest, e') := json_each decode zero l' in
      (a :: rest, match e with Some _ => e | None => e' end)
  end.

Definition json_list {A} (decode : JSON -> result error A) (zero : A) (go_type : string) (v : JSON) : result error (list A) :=
  match v with
  | JArr l => match json_each decode zero l with (r, None) => Ok r | (_, Some e) => Err e end
  | _ => Err (json_type_error v go_type)
  end.

(** The field for a name: the one with that name, or the first up to case. *)
Definition find_field (fields : list field) (name : string) : option setter :=
  match List.find (fun f => String.eqb f.1 name) fields with
  | Some f => Some f.2
  | None => match List.find (fun f => bool_decide (fold_name f.1 = fold_name name)) fields with
            | Some f => Some f.2
            | None => None
            end
  end.

(** The members in order, unknown ones ignored; the first error is reported at the end. *)
Fixpoint decode_members (fields : list field) (members : list (string * JSON)) (s : S) (err : option error) : S * option error :=
  match members with
  | [] => (s, err)
  | (name, v) :: members' =>
      match find_field fields name with
      | None => decode_members fields members' s err
      | Some set =>
          let '(s, e) := set v s in
          decode_members fields members' s (match err with Some _ => err | None => e end)
      end
  end.

Definition decode_struct (fields : list field) (v : JSON) (s : S) : S * option error :=
  match v with
  | JNull => (s, None)
  | JObj members => decode_members fields members s None
  | _ => (s, Some (json_type_error v "struct"))
  end.

(** [json.Unmarshal] into a struct. *)
Definition json_Unmarshal_struct (fields : list field) (text : string) (s : S) : result error S :=
  match json_parse text with
  | Err e => Err e
  | Ok v => match decode_struct fields v s with (s, None) => Ok s | (_, Some e) => Err e end
  end.
End unmarshal.
