(* ===== verification/FileSystem.v ===== *)
(** * FileSystem: paths and files of the host

    What the workspace uses of Go's packages path/filepath and os on a Unix system: the
    lexical functions on paths, and the system calls on a file system of directories, regular
    files, symbolic links and sockets.  A file system is a map from absolute paths, as lists of
    names, to nodes.  Every system call may fail for a reason the model does not know (a full
    disk, a permission): [fault] decides that, per call.  Library functions that make several
    calls, such as [os.RemoveAll], can therefore stop half-way, as their documentation says. *)

From Stdlib Require Import Ascii.
From S2P Require Import Prelude GoLib.

(** ** package filepath *)

Definition slash : ascii := "/".

Definition IsAbs (path : string) : bool := HasPrefix path "/".

(** The elements of a cleaned path: no empty ones and no ".", and ".." only at the start of a
    relative path.  [stack] holds the elements so far, the last one first. *)
Fixpoint clean_go (rooted : bool) (parts : list string) (stack : list string) : list string :=
  match parts with
  | [] => rev stack
  | p :: rest =>
      if String.eqb p "" || String.eqb p "." then clean_go rooted rest stack
      else if String.eqb p ".." then
        match stack with
        | [] => clean_go rooted rest (if rooted then [] else [".."])
        | top :: below => if String.eqb top ".." then clean_go rooted rest (".." :: stack)
                          else clean_go rooted rest below
        end
      else clean_go rooted rest (p :: stack)
  end.

Definition Clean (path : string) : string :=
  let rooted := IsAbs path in
  let out := (if rooted then "/" else "") +:+ str_join "/" (clean_go rooted (Split path "/") []) in
  if String.eqb out "" then "." else out.

(** [filepath.Join] of two elements; empty ones are ignored. *)
Definition Join (a b : string) : string :=
  match a, b with
  | "", "" => ""
  | "", _ => Clean b
  | _, "" => Clean a
  | _, _ => Clean (a +:+ "/" +:+ b)
  end.

(** The names of a path, without empty ones and ".". *)
Definition path_names (path : string) : list string :=
  List.filter (fun p => negb (String.eqb p "" || String.eqb p ".")) (Split path "/").

(** [filepath.Rel] *)
Fixpoint strip_common (a b : list string) : list string * list string :=
  match a, b with
  | x :: a', y :: b' => if String.eqb x y then strip_common a' b' else (a, b)
  | _, _ => (a, b)
  end.

Definition Rel (basepath targpath : string) : result error string :=
  let base := Clean basepath in
  let targ := Clean targpath in
  let '(b, t) := strip_common (path_names base) (path_names targ) in
  if negb (Bool.eqb (IsAbs base) (IsAbs targ)) || existsb (String.eqb "..") b then
    Err (errors_New ("Rel: can't make " +:+ targpath +:+ " relative to " +:+ basepath))
  else
    match map (fun _ => "..") b ++ t with
    | [] => Ok "."
    | l => Ok (str_join "/" l)
    end.

(** [filepath.Dir]: everything before the last slash, cleaned. *)
Definition Dir (path : string) : string :=
  Clean (string_of (rev (drop_while (fun c => negb (Ascii.eqb c slash)) (rev (bytes_of path))))).

(** [filepath.Base], for the name in a file info. *)
Definition Base (path : string) : string :=
  match rev (path_names path) with
  | name :: _ => name
  | [] => if IsAbs path then "/" else "."
  end.

(** [filepath.Abs] with the working directory [wd]. *)
Definition Abs (wd : result error string) (path : string) : result error string :=
  if IsAbs path then Ok (Clean path)
  else match wd with
       | Err e => Err e
       | Ok dir => Ok (Join dir path)
       end.

(** *** Lemmas on paths *)

Definition no_slash (s : string) : Prop := slash ∉ bytes_of s.

(** A name that a cleaned path can contain. *)
Definition plain (s : string) : Prop := no_slash s /\ s <> "" /\ s <> "." /\ s <> "..".

(** The text of an absolute path. *)
Definition abs_path (l : list string) : string := "/" +:+ str_join "/" l.

Lemma prefix_empty s : String.prefix "" s = true.
Proof. by destruct s. Qed.

(** One round of [Split] at a slash and at another character. *)
Lemma split_go_cons c s cur :
  split_go "/" (String c s) cur 0 =
  if ascii_dec slash c then string_of (rev cur) :: split_go "/" s [] 0 else split_go "/" s (c :: cur) 0.
Proof. cbn [split_go String.prefix]. destruct (ascii_dec "/" c), (ascii_dec slash c); try done. by rewrite prefix_empty. Qed.

Lemma split_go_slash a b cur :
  split_go "/" (a +:+ String slash b) cur 0 = split_go "/" a cur 0 ++ Split b "/".
Proof.
  revert cur. induction a as [|c a IH]; intros cur.
  - change ("" +:+ String slash b) with (String slash b). by rewrite split_go_cons.
  - change (String c a +:+ String slash b) with (String c (a +:+ String slash b)).
    rewrite !split_go_cons. destruct (ascii_dec slash c); [cbn [app]; f_equal|]; apply IH.
Qed.

Lemma Split_slash a b : Split (a +:+ "/" +:+ b) "/" = Split a "/" ++ Split b "/".
Proof. apply split_go_slash. Qed.

Lemma split_go_no_slash s cur : no_slash s -> split_go "/" s cur 0 = [string_of (rev cur ++ bytes_of s)].
Proof.
  revert cur. unfold no_slash. induction s as [|c s IH]; intros cur Hs; [cbn; by rewrite app_nil_r|].
  cbn in Hs. apply not_elem_of_cons in Hs as [Hc Hs].
  rewrite split_go_cons. destruct (ascii_dec slash c); [done|]. rewrite IH by done. cbn. by rewrite <- app_assoc.
Qed.

Lemma Split_no_slash s : no_slash s -> Split s "/" = [s].
Proof. intros Hs. unfold Split. rewrite split_go_no_slash by done. cbn. by rewrite string_of_bytes_of. Qed.

Lemma Split_join l : l <> [] -> Forall no_slash l -> Split (str_join "/" l) "/" = l.
Proof.
  intros Hne Hl. induction Hl as [|x l Hx Hl IH]; [done|]. destruct l as [|y l].
  - by apply Split_no_slash.
  - change (str_join "/" (x :: y :: l)) with (x +:+ "/" +:+ str_join "/" (y :: l)).
    rewrite Split_slash, IH by done. by rewrite Split_no_slash.
Qed.

(** Every part is free of slashes. *)
Lemma split_go_parts s cur : slash ∉ cur -> Forall no_slash (split_go "/" s cur 0).
Proof.
  assert (Hrev : forall l, slash ∉ l -> no_slash (string_of (rev l))).
  { intros l. unfold no_slash. by rewrite bytes_of_string_of, !list_elem_of_In, <- in_rev. }
  revert cur. induction s as [|c s IH]; intros cur Hcur; [cbn; by apply Forall_singleton, Hrev|].
  rewrite split_go_cons. destruct (ascii_dec slash c) as [|Hne].
  - constructor; [by apply Hrev|]. apply IH. by intros ?%not_elem_of_nil.
  - apply IH. by intros [?|?]%elem_of_cons.
Qed.

Lemma Split_parts s : Forall no_slash (Split s "/").
Proof. apply split_go_parts. by intros ?%not_elem_of_nil. Qed.

Lemma plain_eqb s : plain s -> String.eqb s "" = false /\ String.eqb s "." = false /\ String.eqb s ".." = false.
Proof. intros (_ & H1 & H2 & H3). by rewrite !String.eqb_neq. Qed.

Lemma plain_no_slash l : Forall plain l -> Forall no_slash l.
Proof. intros H. eapply Forall_impl; [|exact H]. by intros s [? _]. Qed.
#[export] Hint Resolve plain_no_slash : agentforge.

Lemma not_plain_dots s : no_slash s -> s <> "" -> s <> "." -> s <> ".." -> plain s.
Proof. done. Qed.

Lemma clean_go_plain r l stack : Forall plain l -> clean_go r l stack = rev stack ++ l.
Proof.
  intros Hl. revert stack. induction Hl as [|x l Hx Hl IH]; intros stack; cbn [clean_go]; [by rewrite app_nil_r|].
  destruct (plain_eqb x Hx) as (-> & -> & ->). cbn. rewrite IH. cbn. by rewrite <- app_assoc.
Qed.

Lemma clean_go_app r a b stack : clean_go r (a ++ b) stack = clean_go r b (rev (clean_go r a stack)).
Proof.
  revert stack. induction a as [|x a IH]; intros stack; cbn [app clean_go]; [by rewrite rev_involutive|].
  destruct (String.eqb x "" || String.eqb x "."); [apply IH|]. destruct (String.eqb x ".."); [|apply IH].
  destruct stack as [|top below]; [apply IH|]. destruct (String.eqb top ".."); apply IH.
Qed.

(** The elements of a rooted path are plain names. *)
Lemma clean_go_rooted l stack : Forall no_slash l -> Forall plain stack -> Forall plain (clean_go true l stack).
Proof.
  intros Hl. revert stack. induction Hl as [|x l Hx Hl IH]; intros stack Hst; cbn [clean_go]; [by apply Forall_rev|].
  destruct (String.eqb_spec x ""); [by apply IH|]. destruct (String.eqb_spec x "."); [by apply IH|].
  destruct (String.eqb_spec x ".."); cbn; [|apply IH; by constructor].
  destruct Hst as [|top below Ht Hb]; [by apply IH|]. destruct (plain_eqb top Ht) as (_ & _ & ->). by apply IH.
Qed.

(** Those of a relative path may start with "..". *)
Definition ups_then_plain (l : list string) : Prop := exists k q, l = replicate k ".." ++ q /\ Forall plain q.

Lemma clean_go_relative l stack :
  Forall no_slash l -> ups_then_plain (rev stack) -> ups_then_plain (clean_go false l stack).
Proof.
  intros Hl. revert stack. induction Hl as [|x l Hx Hl IH]; intros stack Hst; cbn [clean_go]; [done|].
  destruct (String.eqb_spec x ""); [by apply IH|]. destruct (String.eqb_spec x "."); [by apply IH|].
  destruct (String.eqb_spec x "..") as [->|]; cbn [orb].
  - destruct stack as [|top below]; [apply IH; exists 1%nat, []; by split|].
    destruct Hst as (k & q & Hq & Hp). cbn [rev] in Hq.
    destruct q as [|z q] using rev_ind; [|clear IHq].
    + rewrite app_nil_r in Hq. destruct k as [|k]; [by apply app_nil in Hq as [_ ?]|].
      rewrite replicate_S_end in Hq. apply app_inj_tail in Hq as [Hq ->]. cbn. apply IH.
      exists (S (S k)), []. cbn [rev]. rewrite Hq, app_nil_r, !replicate_S_end. by split.
    + rewrite app_assoc in Hq. apply app_inj_tail in Hq as [Hq ->]. apply Forall_app in Hp as [Hp Hz].
      destruct (plain_eqb z) as (_ & _ & ->); [by inversion Hz|]. apply IH. by exists k, q.
  - apply IH. destruct Hst as (k & q & Hq & Hp). exists k, (q ++ [x]). cbn [rev]. rewrite Hq, <- app_assoc.
    split; [done|]. apply Forall_app. split; [done|]. by apply Forall_singleton.
Qed.

Lemma IsAbs_abs_path l : IsAbs (abs_path l) = true.
Proof. unfold IsAbs, HasPrefix, abs_path. cbn. apply prefix_empty. Qed.

Lemma Split_abs_path l : l <> [] -> Forall no_slash l -> Split (abs_path l) "/" = "" :: l.
Proof. intros Hne Hl. exact (eq_trans (Split_slash "" _) (f_equal (app [""]) (Split_join l Hne Hl))). Qed.

Lemma Clean_rooted s : IsAbs s = true -> Clean s = abs_path (clean_go true (Split s "/") []).
Proof. intros H. unfold Clean. by rewrite H. Qed.

Lemma Clean_nonempty s : Clean s <> "".
Proof.
  unfold Clean. cbn zeta. set (out := _ +:+ _). clearbody out. destruct (String.eqb_spec out ""); [done|congruence].
Qed.

Lemma Clean_abs_path l : Forall plain l -> Clean (abs_path l) = abs_path l.
Proof.
  intros Hl. rewrite Clean_rooted by apply IsAbs_abs_path. f_equal. destruct l as [|x l]; [done|].
  rewrite Split_abs_path by (done || by apply plain_no_slash). change (clean_go true ("" :: x :: l) []) with (clean_go true (x :: l) []). by rewrite clean_go_plain.
Qed.

(** A cleaned absolute path has plain names. *)
Lemma Clean_abs_plain s : IsAbs s = true -> exists l, Clean s = abs_path l /\ Forall plain l.
Proof.
  intros H. rewrite Clean_rooted by done. eexists. split; [done|]. apply clean_go_rooted; [apply Split_parts|done].
Qed.

Lemma filter_plain l :
  Forall plain l -> List.filter (fun p => negb (String.eqb p "" || String.eqb p ".")) l = l.
Proof.
  induction 1 as [|y l' Hy Hl IH]; [done|]. cbn [List.filter]. destruct (plain_eqb y Hy) as (-> & -> & _). cbn. by rewrite IH.
Qed.

Lemma path_names_abs l : Forall plain l -> path_names (abs_path l) = l.
Proof.
  intros Hl. destruct l as [|x l]; [done|]. unfold path_names.
  rewrite Split_abs_path by (done || by apply plain_no_slash). exact (filter_plain _ Hl).
Qed.

Lemma abs_path_inj l1 l2 : Forall plain l1 -> Forall plain l2 -> abs_path l1 = abs_path l2 -> l1 = l2.
Proof. intros H1 H2 E. by rewrite <- (path_names_abs l1), <- (path_names_abs l2), E. Qed.

Lemma string_app_assoc (a b c : string) : a +:+ (b +:+ c) = (a +:+ b) +:+ c.
Proof. apply bytes_of_inj. by rewrite !bytes_of_app, app_assoc. Qed.

Lemma abs_path_app rp r : rp <> [] -> r <> [] -> abs_path (rp ++ r) = abs_path rp +:+ "/" +:+ str_join "/" r.
Proof.
  intros Hrp Hr. induction rp as [|x rp IH]; [done|]. destruct rp as [|y rp].
  - cbn [app]. destruct r; [done|]. unfold abs_path. cbn [str_join]. by rewrite string_app_assoc.
  - unfold abs_path in *. specialize (IH ltac:(done)). cbn [app] in *.
    change (str_join "/" (x :: y :: rp ++ r)) with (x +:+ "/" +:+ str_join "/" (y :: rp ++ r)).
    change (str_join "/" (x :: y :: rp)) with (x +:+ "/" +:+ str_join "/" (y :: rp)).
    rewrite IH. by rewrite !string_app_assoc.
Qed.

Lemma HasPrefix_app s p : HasPrefix s p = true <-> exists x, s = p +:+ x.
Proof.
  unfold HasPrefix. revert s. induction p as [|c p IH]; intros s.
  - rewrite prefix_empty. split; [by exists s|done].
  - destruct s as [|d s]; cbn; [split; [done|by intros [x Hx]]|].
    destruct (ascii_dec c d) as [->|Hne].
    + rewrite IH. split; intros [x Hx]; exists x; [by subst|by injection Hx].
    + split; [done|]. by intros [x [= ? _]].
Qed.

Lemma Split_nonempty x : Split x "/" <> [].
Proof.
  unfold Split. generalize (@nil ascii). induction x as [|c x IH]; intros cur; [done|].
  rewrite split_go_cons. destruct (ascii_dec slash c); [done|apply IH].
Qed.

Lemma HasPrefix_under rp q :
  rp <> [] -> Forall plain rp -> Forall plain q ->
  HasPrefix (abs_path q) (abs_path rp +:+ "/") = true <-> exists r, r <> [] /\ q = rp ++ r.
Proof.
  intros Hne Hrp Hq. rewrite HasPrefix_app. split.
  - intros [x Hx]. apply (f_equal (fun s => Split s "/")) in Hx.
    rewrite <- string_app_assoc, Split_slash, (Split_abs_path rp) in Hx by (done || by apply plain_no_slash).
    pose proof (Split_nonempty x) as Hxn. destruct q as [|y q].
    + change (Split (abs_path []) "/") with ["" : string; ""] in Hx.
      apply (f_equal length) in Hx. rewrite length_app in Hx. destruct rp; [done|]. destruct (Split x "/"); [done|]. cbn in Hx. lia.
    + rewrite Split_abs_path in Hx by (done || by apply plain_no_slash). injection Hx as Hx. by exists (Split x "/").
  - intros (r & Hr & ->). exists (str_join "/" r). rewrite abs_path_app by done. by rewrite string_app_assoc.
Qed.

Lemma Join_abs rp s :
  rp <> [] -> Forall plain rp -> s <> "" -> Join (abs_path rp) s = abs_path (clean_go true (Split s "/") (rev rp)).
Proof.
  intros Hne Hrp Hs. unfold Join. destruct s as [|c s]; [done|]. unfold abs_path at 1.
  change ("/" +:+ str_join "/" rp) with (String "/" ("" +:+ str_join "/" rp)). cbn match.
  fold (abs_path rp). change (String "/" ("" +:+ str_join "/" rp)) with (abs_path rp).
  rewrite Clean_rooted by (unfold IsAbs, HasPrefix, abs_path; cbn; apply prefix_empty).
  rewrite Split_slash, Split_abs_path by (done || by apply plain_no_slash). f_equal.
  change (("" :: rp) ++ Split (String c s) "/") with ("" :: (rp ++ Split (String c s) "/")). cbn [clean_go String.eqb orb].
  by rewrite clean_go_app, (clean_go_plain _ rp).
Qed.

Lemma Join_plain rp name : rp <> [] -> Forall plain rp -> plain name -> Join (abs_path rp) name = abs_path (rp ++ [name]).
Proof.
  intros Hne Hrp Hn. assert (Hs : name <> "") by (by destruct Hn as (_ & ? & _)). rewrite Join_abs by done. f_equal.
  rewrite Split_no_slash by (by destruct Hn). rewrite clean_go_plain by (by apply Forall_singleton).
  by rewrite rev_involutive.
Qed.

Lemma strip_common_app rp r : strip_common rp (rp ++ r) = ([], r).
Proof. induction rp as [|x rp IH]; cbn; [done|]. by rewrite String.eqb_refl. Qed.

Lemma Rel_under rp r :
  Forall plain rp -> Forall plain r -> r <> [] -> Rel (abs_path rp) (abs_path (rp ++ r)) = Ok (str_join "/" r).
Proof.
  intros Hrp Hr Hne. unfold Rel. rewrite !Clean_abs_path by (done || by apply Forall_app). cbn zeta.
  rewrite !path_names_abs by (done || by apply Forall_app). rewrite strip_common_app, !IsAbs_abs_path. cbn.
  by destruct r.
Qed.

Lemma Rel_self rp : Forall plain rp -> Rel (abs_path rp) (abs_path rp) = Ok ".".
Proof.
  intros Hrp. unfold Rel. rewrite !Clean_abs_path, !path_names_abs, !IsAbs_abs_path by done. cbn zeta.
  rewrite <- (app_nil_r rp) at 2. by rewrite strip_common_app.
Qed.

Lemma drop_while_app_stop (f : ascii -> bool) l c rest :
  Forall (fun d => f d = true) l -> f c = false -> drop_while f (l ++ c :: rest) = c :: rest.
Proof. intros Hl Hc. induction Hl as [|d l Hd Hl IH]; cbn; [by rewrite Hc|]. by rewrite Hd. Qed.

Lemma Dir_abs l x : Forall plain l -> plain x -> Dir (abs_path (l ++ [x])) = abs_path l.
Proof.
  intros Hl Hx. assert (Hx' : Forall (fun d => negb (Ascii.eqb d slash) = true) (rev (bytes_of x))).
  { apply Forall_rev, list.Forall_forall. intros d Hd. apply negb_true_iff, Ascii.eqb_neq. intros ->.
    by destruct Hx as [Hns _]. }
  assert (Hb : exists pre, bytes_of (abs_path (l ++ [x])) = pre ++ slash :: bytes_of x /\
                           Clean (string_of (pre ++ [slash])) = abs_path l).
  { destruct l as [|y l].
    - exists []. by split.
    - exists (bytes_of (abs_path (y :: l))). split.
      + rewrite abs_path_app by done. by rewrite !bytes_of_app.
      + assert (string_of (bytes_of (abs_path (y :: l)) ++ [slash]) = abs_path (y :: l) +:+ "/" +:+ "") as ->.
        { apply bytes_of_inj. by rewrite bytes_of_string_of, !bytes_of_app. }
        rewrite Clean_rooted by (unfold IsAbs, HasPrefix, abs_path; cbn; apply prefix_empty).
        rewrite Split_slash, Split_abs_path by (done || by apply plain_no_slash). f_equal.
        change (("" :: y :: l) ++ Split "" "/") with ("" :: ((y :: l) ++ [""])). cbn [clean_go String.eqb orb].
        change (clean_go true ((y :: l) ++ [""]) [] = y :: l).
        rewrite clean_go_app, (clean_go_plain _ (y :: l)) by done. cbn [clean_go String.eqb orb]. by rewrite rev_involutive. }
  destruct Hb as (pre & Hb & Hc). unfold Dir. rewrite Hb, rev_app_distr. cbn [rev]. rewrite <- app_assoc. cbn [app].
  rewrite drop_while_app_stop by (done || by rewrite Ascii.eqb_refl). cbn [rev]. by rewrite rev_involutive.
Qed.

(** ** The file system *)

Inductive node : Type :=
| NDir
| NFile (mode : Z) (data : list ascii)
| NSymlink (target : string)
| NSocket.

#[global] Instance node_eq_dec : EqDecision node.
Proof. solve_decision. Defined.

Definition is_dir (n : node) : bool := match n with NDir => true | _ => false end.
Definition is_regular (n : node) : bool := match n with NFile _ _ => true | _ => false end.
Definition is_symlink (n : node) : bool := match n with NSymlink _ => true | _ => false end.

Abbreviation path := (list string).
Abbreviation FS := (gmap path node).

(** The root directory always exists. *)
Definition fs_lookup (fs : FS) (p : path) : option node :=
  match p with [] => Some NDir | _ => fs !! p end.

Definition ENOENT : error := mkErr [SNotExist] "no such file or directory".
Definition ENOTDIR : error := errors_New "not a directory".
Definition EISDIR : error := errors_New "is a directory".
Definition ELOOP : error := errors_New "too many levels of symbolic links".
Definition EEXIST : error := mkErr [SExist] "file exists".
Definition ENOTEMPTY : error := errors_New "directory not empty".
Definition EINVAL : error := errors_New "invalid argument".
Definition ENXIO : error := errors_New "no such device or address".
Definition EBUSY : error := errors_New "device or resource busy".
Definition ENAMETOOLONG : error := errors_New "file name too long".

(** [fs.PathError] *)
Definition path_error (op name : string) (e : error) : error := wrapf (op +:+ " " +:+ name +:+ ": ") e.

Definition bad_name (name : string) : option error :=
  if 255 <? len name then Some ENAMETOOLONG
  else if bool_decide (zero ∈ bytes_of name) then Some EINVAL
  else None.

(** The path the kernel finds: names are looked up one after the other, ".." is the parent, a
    symbolic link continues at its target.  The last name need not exist; it is followed only
    if [follow] is set.  At most [links] links are followed. *)
Fixpoint resolve (fs : FS) (follow : bool) (links : nat) : path -> list string -> result error path :=
  fix go (cur : path) (rest : list string) {struct rest} : result error path :=
    match rest with
    | [] => Ok cur
    | name :: rest' =>
        if String.eqb name "" || String.eqb name "." then go cur rest'
        else if String.eqb name ".." then go (removelast cur) rest'
        else
          match bad_name name with
          | Some e => Err e
          | None =>
              let p := cur ++ [name] in
              match fs_lookup fs p with
              | None => match rest' with [] => Ok p | _ => Err ENOENT end
              | Some NDir => go p rest'
              | Some (NSymlink target) =>
                  if negb follow && match rest' with [] => true | _ => false end then Ok p
                  else match links with
                       | O => Err ELOOP
                       | S links' =>
                           resolve fs follow links' (if IsAbs target then [] else cur) (Split target "/" ++ rest')
                       end
              | Some _ => match rest' with [] => Ok p | _ => Err ENOTDIR end
              end
          end
    end.

(** Linux follows at most 40 links. *)
Definition MAXSYMLINKS : nat := 40.
Definition namei (follow : bool) (name : string) (fs : FS) : result error path :=
  resolve fs follow MAXSYMLINKS [] (Split name "/").

(** The rest of [q] below [p]. *)
Fixpoint below (p q : path) : option path :=
  match p, q with
  | [], _ => Some q
  | x :: p', y :: q' => if String.eqb x y then below p' q' else None
  | _ :: _, [] => None
  end.

Definition under (p q : path) : bool := match below p q with Some _ => true | None => false end.
Definition child (p q : path) : option string := match below p q with Some [name] => Some name | _ => None end.

(** The entries of a directory, sorted by name. *)
Definition children (fs : FS) (p : path) : list (string * node) :=
  sort_slice (fun a b => String.ltb a.1 b.1)
    (omap (fun x : path * node => (fun name => (name, x.2)) <$> child p x.1) (map_to_list fs)).

Definition has_children (fs : FS) (p : path) : bool :=
  existsb (fun x : path * node => match child p x.1 with Some _ => true | None => false end) (map_to_list fs).

(** The order in which [filepath.Walk] visits paths: a directory before its entries, the
    entries by name. *)
Fixpoint path_ltb (p q : path) : bool :=
  match p, q with
  | [], [] => false
  | [], _ :: _ => true
  | _ :: _, [] => false
  | x :: p', y :: q' => String.ltb x y || (String.eqb x y && path_ltb p' q')
  end.

(** The nodes below [p], [p] itself excluded, in that order. *)
Definition walk_paths (fs : FS) (p : path) : list path :=
  sort_slice path_ltb (List.filter (fun q => match below p q with Some (_ :: _) => true | _ => false end) (map_to_list fs).*1).

(** The subtree at [old] moves to [new]. *)
Definition move_path (old new p : path) : path := match below old p with Some rest => new ++ rest | None => p end.
Definition relocate (old new : path) (fs : FS) : FS :=
  list_to_map (map (fun x : path * node => (move_path old new x.1, x.2)) (map_to_list fs)).

(** ** System calls *)

Record Host : Type := mkHost { h_fs : FS; h_tick : nat }.

#[global] Instance Host_eta : Eta Host := fun h => mkHost (h_fs h) (h_tick h).

(** [os.FileInfo] *)
Record Info : Type := mkInfo { info_name : string; info_node : node; info_size : Z }.
Definition Info_IsDir (i : Info) : bool := is_dir (info_node i).

(** What the host decides: which calls fail, how much a failing write has written, the random
    part of temporary names, and the size it reports for directories and sockets. *)
Class HostEnv := {
  fault : nat -> option error;
  partial_write : nat -> nat;
  temp_suffix : nat -> Z;
  special_size : path -> Z }.

Section os.
Context `{HostEnv}.
Abbreviation IO := (ST Host).

Definition call {A} (op name : string) (f : FS -> FS * result error A) : IO (result error A) := fun h =>
  let h' := h <| h_tick ::= S |> in
  match fault (h_tick h) with
  | Some e => (h', Err (path_error op name e))
  | None =>
      let '(fs, r) := f (h_fs h) in
      (h' <| h_fs := fs |>, match r with Ok a => Ok a | Err e => Err (path_error op name e) end)
  end.

(** A call that only reads. *)
Definition query {A} (op name : string) (f : FS -> result error A) : IO (result error A) :=
  call op name (fun fs => (fs, f fs)).

Definition node_size (p : path) (n : node) : Z :=
  match n with
  | NFile _ data => Z.of_nat (length data)
  | NSymlink target => len target
  | NDir | NSocket => special_size p
  end.

Definition stat_at (follow : bool) (name : string) (fs : FS) : result error Info :=
  match namei follow name fs with
  | Err e => Err e
  | Ok p =>
      match fs_lookup fs p with
      | Some n => Ok (mkInfo (Base name) n (node_size p n))
      | None => Err ENOENT
      end
  end.

Definition os_Lstat (name : string) : IO (result error Info) := query "lstat" name (stat_at false name).
Definition os_Stat (name : string) : IO (result error Info) := query "stat" name (stat_at true name).

Definition mkdir_at (name : string) (fs : FS) : FS * result error unit :=
  match namei false name fs with
  | Err e => (fs, Err e)
  | Ok p =>
      match fs_lookup fs p with
      | Some _ => (fs, Err EEXIST)
      | None => (<[p := NDir]> fs, Ok tt)
      end
  end.

Definition os_Mkdir (name : string) : IO (result error unit) := call "mkdir" name (mkdir_at name).

(** [os.MkdirAll] for an absolute path, given by its names from the last one. *)
Fixpoint mkdir_all (rnames : list string) : IO (result error unit) :=
  let name := abs_path (rev rnames) in
  r ← os_Stat name;
  match r with
  | Ok info => mret (if Info_IsDir info then Ok tt else Err (path_error "mkdir" name ENOTDIR))
  | Err _ =>
      match rnames with
      | [] => os_Mkdir name
      | _ :: parent =>
          r ← match parent with [] => mret (Ok tt) | _ => mkdir_all parent end;
          match r with
          | Err e => mret (Err e)
          | Ok _ =>
              r ← os_Mkdir name;
              match r with
              | Ok _ => mret (Ok tt)
              | Err e =>
                  l ← os_Lstat name;
                  match l with
                  | Ok info => mret (if Info_IsDir info then Ok tt else Err e)
                  | Err _ => mret (Err e)
                  end
              end
          end
      end
  end.

Definition os_MkdirAll (name : string) : IO (result error unit) := mkdir_all (rev (path_names name)).

(** [os.OpenFile] with O_CREATE, O_WRONLY and O_TRUNC *)
Definition creat_at (name : string) (perm : Z) (fs : FS) : FS * result error path :=
  match namei true name fs with
  | Err e => (fs, Err e)
  | Ok p =>
      match fs_lookup fs p with
      | Some NDir => (fs, Err EISDIR)
      | Some NSocket => (fs, Err ENXIO)
      | Some (NSymlink _) => (fs, Err ELOOP)
      | Some (NFile mode _) => (<[p := NFile mode []]> fs, Ok p)
      | None => (<[p := NFile perm []]> fs, Ok p)
      end
  end.

Definition os_Create (name : string) (perm : Z) : IO (result error path) := call "open" name (creat_at name perm).

Definition set_data (p : path) (data : list ascii) (fs : FS) : FS :=
  match fs !! p with Some (NFile mode _) => <[p := NFile mode data]> fs | _ => fs end.

(** Writing to an open file; a failing write may have written a part. *)
Definition os_Write (name : string) (p : path) (data : list ascii) : IO (result error unit) := fun h =>
  let h' := h <| h_tick ::= S |> in
  match fault (h_tick h) with
  | Some e => (h' <| h_fs ::= set_data p (take (partial_write (h_tick h)) data) |>, Err (path_error "write" name e))
  | None => (h' <| h_fs ::= set_data p data |>, Ok tt)
  end.

(** Closing a file can report an earlier error. *)
Definition os_Close (name : string) : IO (result error unit) := query "close" name (fun _ => Ok tt).

Definition os_WriteFile (name : string) (data : list ascii) (perm : Z) : IO (result error unit) :=
  r ← os_Create name perm;
  match r with
  | Err e => mret (Err e)
  | Ok p =>
      r ← os_Write name p data;
      c ← os_Close name;
      mret (match r with Err e => Err e | Ok _ => c end)
  end.

Definition open_at (name : string) (fs : FS) : result error path :=
  match namei true name fs with
  | Err e => Err e
  | Ok p =>
      match fs_lookup fs p with
      | Some NSocket => Err ENXIO
      | Some _ => Ok p
      | None => Err ENOENT
      end
  end.

Definition os_Open (name : string) : IO (result error path) := query "open" name (open_at name).

Definition os_Read (name : string) (p : path) : IO (result error (list ascii)) :=
  query "read" name (fun fs => match fs_lookup fs p with
                               | Some (NFile _ data) => Ok data
                               | _ => Err EISDIR
                               end).

Definition os_ReadFile (name : string) : IO (result error (list ascii)) :=
  r ← os_Open name;
  match r with
  | Err e => mret (Err e)
  | Ok p => os_Read name p
  end.

Definition os_ReadDir (name : string) : IO (result error (list (string * node))) :=
  r ← os_Open name;
  match r with
  | Err e => mret (Err e)
  | Ok p => query "readdirent" name (fun fs => match fs_lookup fs p with
                                               | Some NDir => Ok (children fs p)
                                               | _ => Err ENOTDIR
                                               end)
  end.

Definition unlink_at (p : path) (fs : FS) : FS * result error unit :=
  match fs_lookup fs p with
  | None => (fs, Err ENOENT)
  | Some NDir => if bool_decide (p = []) then (fs, Err EBUSY)
                 else if has_children fs p then (fs, Err ENOTEMPTY) else (delete p fs, Ok tt)
  | Some _ => (delete p fs, Ok tt)
  end.

Definition os_Remove (name : string) : IO (result error unit) :=
  call "remove" name (fun fs => match namei false name fs with
                                | Err e => (fs, Err e)
                                | Ok p => unlink_at p fs
                                end).

(** [os.RemoveAll] removes what it can and returns the first error. *)
Fixpoint remove_each (ps : list path) (first : option error) : IO (option error) :=
  match ps with
  | [] => mret first
  | p :: ps' =>
      r ← call "unlinkat" (abs_path p) (unlink_at p);
      remove_each ps' (match first, r with None, Err e => Some e | _, _ => first end)
  end.

Definition os_RemoveAll (name : string) : IO (result error unit) :=
  r ← query "lstat" name (fun fs => match namei false name fs with
                                    | Err e => Err e
                                    | Ok p => match fs_lookup fs p with
                                              | None => Err ENOENT
                                              | Some _ => Ok (rev (p :: walk_paths fs p))
                                              end
                                    end);
  match r with
  | Err e => mret (if errors_Is e SNotExist then Ok tt else Err e)
  | Ok ps =>
      e ← remove_each ps None;
      mret (match e with Some e => Err e | None => Ok tt end)
  end.

Definition rename_at (oldname newname : string) (fs : FS) : FS * result error unit :=
  match namei false oldname fs, namei false newname fs with
  | Err e, _ | Ok _, Err e => (fs, Err e)
  | Ok old, Ok new =>
      match fs_lookup fs old with
      | None => (fs, Err ENOENT)
      | Some n =>
          if bool_decide (old = new) then (fs, Ok tt)
          else if bool_decide (old = []) || bool_decide (new = []) then (fs, Err EBUSY)
          else if under old new then (fs, Err EINVAL)
          else
            match fs_lookup fs new with
            | Some n' =>
                if is_dir n && negb (is_dir n') then (fs, Err ENOTDIR)
                else if negb (is_dir n) && is_dir n' then (fs, Err EISDIR)
                else if has_children fs new then (fs, Err ENOTEMPTY)
                else (relocate old new (delete new fs), Ok tt)
            | None => (relocate old new fs, Ok tt)
            end
      end
  end.

Definition os_Rename (oldname newname : string) : IO (result error unit) :=
  call "rename" (oldname +:+ " " +:+ newname) (rename_at oldname newname).

Definition os_Chmod (name : string) : IO (result error unit) :=
  query "chmod" name (fun fs => match stat_at true name fs with Ok _ => Ok tt | Err e => Err e end).

(** [os.MkdirTemp] tries random names, 10000 at most. *)
Fixpoint mkdir_temp (tries : nat) (prefix : string) : IO (result error string) := fun h =>
  match tries with
  | O => (h, Err (path_error "mkdirtemp" prefix EEXIST))
  | S tries' =>
      let name := prefix +:+ fmt_d (temp_suffix (h_tick h)) in
      let '(h, r) := os_Mkdir name h in
      match r with
      | Ok _ => (h, Ok name)
      | Err e => if errors_Is e SExist then mkdir_temp tries' prefix h else (h, Err e)
      end
  end.

Definition ends_with_slash (s : string) : bool :=
  match rev (bytes_of s) with c :: _ => Ascii.eqb c slash | [] => false end.

Definition os_MkdirTemp (dir prefix : string) : IO (result error string) :=
  mkdir_temp (N.to_nat 10000) ((if ends_with_slash dir then dir else dir +:+ "/") +:+ prefix).

(** [os.OpenFile] with O_CREATE and O_EXCL *)
Definition excl_at (name : string) (perm : Z) (fs : FS) : FS * result error path :=
  match namei false name fs with
  | Err e => (fs, Err e)
  | Ok p =>
      match fs_lookup fs p with
      | Some _ => (fs, Err EEXIST)
      | None => (<[p := NFile perm []]> fs, Ok p)
      end
  end.

Definition os_CreateExcl (name : string) (perm : Z) : IO (result error path) := call "open" name (excl_at name perm).

(** [os.CreateTemp] tries random names between the prefix and the suffix, 10000 at most; the name and the open file. *)
Fixpoint create_temp (tries : nat) (prefix suffix : string) : IO (result error (string * path)) := fun h =>
  match tries with
  | O => (h, Err (path_error "createtemp" (prefix +:+ "*" +:+ suffix) EEXIST))
  | S tries' =>
      let name := prefix +:+ fmt_d (temp_suffix (h_tick h)) +:+ suffix in
      let '(h, r) := os_CreateExcl name 384 h in
      match r with
      | Ok p => (h, Ok (name, p))
      | Err e => if errors_Is e SExist then create_temp tries' prefix suffix h else (h, Err e)
      end
  end.

Definition os_CreateTemp (dir prefix suffix : string) : IO (result error (string * path)) :=
  create_temp (N.to_nat 10000) ((if ends_with_slash dir then dir else dir +:+ "/") +:+ prefix) suffix.

(** [filepath.Walk] with a function that stops at the first error: the infos of the paths
    visited, the given one first. *)
Fixpoint walk_each (ps : list path) : IO (list (string * Info) * option error) :=
  match ps with
  | [] => mret ([], None)
  | p :: ps' =>
      r ← os_Lstat (abs_path p);
      match r with
      | Err e => mret ([], Some e)
      | Ok info => rest ← walk_each ps'; mret ((abs_path p, info) :: rest.1, rest.2)
      end
  end.

Definition Walk (root : string) : IO (list (string * Info) * option error) := fun h =>
  let '(h, r) := os_Lstat root h in
  match r with
  | Err e => (h, ([], Some e))
  | Ok info =>
      match Info_IsDir info, namei false root (h_fs h) with
      | true, Ok p =>
          let '(h, rest) := walk_each (walk_paths (h_fs h) p) h in
          (h, ((root, info) :: rest.1, rest.2))
      | _, _ => (h, ([(root, info)], None))
      end
  end.
End os.

(** ** Lemmas on paths in a file system *)

Lemma below_spec p q r : below p q = Some r <-> q = p ++ r.
Proof.
  revert q. induction p as [|x p IH]; intros q; cbn; [naive_solver|].
  destruct q as [|y q]; [naive_solver|]. destruct (String.eqb_spec x y) as [->|Hne]; [rewrite IH|]; naive_solver.
Qed.

Lemma below_app p r : below p (p ++ r) = Some r.
Proof. by apply below_spec. Qed.

Lemma under_spec p q : under p q = true <-> exists r, q = p ++ r.
Proof.
  unfold under. destruct (below p q) as [r|] eqn:E; [apply below_spec in E; naive_solver|].
  split; [done|]. intros [r Hr]. by rewrite (proj2 (below_spec p q r) Hr) in E.
Qed.

Definition good_name (s : string) : Prop := plain s /\ bad_name s = None.

(** The parent of every node is a directory, and its name is one the kernel accepts. *)
Definition fs_wf (fs : FS) : Prop := forall p x n, fs !! (p ++ [x]) = Some n -> fs_lookup fs p = Some NDir /\ good_name x.

(** A path whose names all denote directories. *)
Definition real_dir (fs : FS) (p : path) : Prop := forall a b, p = a ++ b -> fs_lookup fs a = Some NDir.

(** A path with no symbolic link on it. *)
Definition no_links (fs : FS) (p : path) : Prop := forall a b t, p = a ++ b -> fs_lookup fs a <> Some (NSymlink t).

Lemma good_plain l : Forall good_name l -> Forall plain l.
Proof. intros H. eapply Forall_impl; [|exact H]. by intros s [? _]. Qed.

Lemma real_dir_app fs a b : real_dir fs (a ++ b) -> real_dir fs a.
Proof. intros H c d ->. apply (H c (d ++ b)). by rewrite app_assoc. Qed.

Lemma no_links_app fs a b : no_links fs (a ++ b) -> no_links fs a.
Proof. intros H c d t ->. apply (H c (d ++ b)). by rewrite app_assoc. Qed.

Lemma app_snoc_cases {A} (p a b : list A) x : p ++ [x] = a ++ b -> (b = [] /\ a = p ++ [x]) \/ exists b', b = b' ++ [x] /\ p = a ++ b'.
Proof.
  intros H. destruct b as [|y b _] using rev_ind; [left; by rewrite app_nil_r in H|].
  right. rewrite app_assoc in H. apply app_inj_tail in H as [-> ->]. by exists b.
Qed.

Lemma real_dir_snoc fs p x : real_dir fs p -> fs_lookup fs (p ++ [x]) = Some NDir -> real_dir fs (p ++ [x]).
Proof. intros Hp Hx a b [[-> ->]|(b' & -> & ->)]%app_snoc_cases; [done|]. by eapply Hp. Qed.

Lemma no_links_snoc fs p x :
  no_links fs p -> (forall t, fs_lookup fs (p ++ [x]) <> Some (NSymlink t)) -> no_links fs (p ++ [x]).
Proof. intros Hp Hx a b t [[-> ->]|(b' & -> & ->)]%app_snoc_cases; [done|]. by eapply Hp. Qed.

Lemma fs_lookup_ne fs p : p <> [] -> fs_lookup fs p = fs !! p.
Proof. by destruct p. Qed.

Lemma fs_lookup_app fs p q : q <> [] -> fs_lookup fs (p ++ q) = fs !! (p ++ q).
Proof. intros Hq. destruct p; [by destruct q|done]. Qed.

(** In a well-formed file system the path to a directory consists of directories. *)
Lemma fs_wf_real fs p : fs_wf fs -> fs_lookup fs p = Some NDir -> real_dir fs p.
Proof.
  intros Hwf. induction p as [|x p IH] using rev_ind; intros Hp.
  - intros a b [-> ->]%eq_sym%app_nil. done.
  - apply real_dir_snoc; [|done]. apply IH. apply (Hwf p x NDir). by destruct p.
Qed.

(** Below a path that does not exist there is nothing. *)
Lemma fs_wf_missing fs p q : fs_wf fs -> fs_lookup fs p = None -> fs_lookup fs (p ++ q) = None.
Proof.
  intros Hwf Hp. induction q as [|x q IH] using rev_ind; [by rewrite app_nil_r|].
  rewrite app_assoc. destruct (fs_lookup fs ((p ++ q) ++ [x])) as [n|] eqn:E; [|done].
  assert (fs !! ((p ++ q) ++ [x]) = Some n) as E' by (by destruct (p ++ q)).
  apply Hwf in E' as [E' _]. congruence.
Qed.

(** Nor is there below a node that is not a directory. *)
Lemma fs_wf_leaf fs p q n : fs_wf fs -> fs_lookup fs p = Some n -> is_dir n = false -> q <> [] -> fs !! (p ++ q) = None.
Proof.
  intros Hwf Hp Hn. induction q as [|x q IH] using rev_ind; [done|]. intros _. rewrite app_assoc.
  destruct (fs !! ((p ++ q) ++ [x])) as [m|] eqn:E; [|done]. apply Hwf in E as [E _]. exfalso.
  destruct q as [|y q]; [rewrite app_nil_r, Hp in E; by injection E as ->|].
  rewrite fs_lookup_app in E by done. by rewrite IH in E.
Qed.

(** The names of every existing path are good. *)
Lemma fs_wf_good fs p : fs_wf fs -> is_Some (fs_lookup fs p) -> Forall good_name p.
Proof.
  intros Hwf. induction p as [|x p IH] using rev_ind; [done|]. intros [n Hn].
  assert (fs !! (p ++ [x]) = Some n) as E by (by destruct p). apply Hwf in E as [Hd Hx].
  apply Forall_app. split; [by apply IH; eexists|by apply Forall_singleton].
Qed.

Lemma fs_lookup_snoc fs p x : fs_lookup fs (p ++ [x]) = fs !! (p ++ [x]).
Proof. by destruct p. Qed.

(** One name of a path. *)
Lemma resolve_plain fs follow links cur name rest :
  plain name ->
  resolve fs follow links cur (name :: rest) =
  match bad_name name with
  | Some e => Err e
  | None =>
      match fs_lookup fs (cur ++ [name]) with
      | None => match rest with [] => Ok (cur ++ [name]) | _ => Err ENOENT end
      | Some NDir => resolve fs follow links (cur ++ [name]) rest
      | Some (NSymlink target) =>
          if negb follow && match rest with [] => true | _ => false end then Ok (cur ++ [name])
          else match links with
               | O => Err ELOOP
               | S links' =>
                   resolve fs follow links' (if IsAbs target then [] else cur) (Split target "/" ++ rest)
               end
      | Some _ => match rest with [] => Ok (cur ++ [name]) | _ => Err ENOTDIR end
      end
  end.
Proof. intros Hn. destruct (plain_eqb name Hn) as (H1 & H2 & H3). destruct links; cbn; by rewrite H1, H2, H3. Qed.

Lemma resolve_no_links fs follow links cur rest q :
  Forall plain rest -> (forall a b t, rest = a ++ b -> a <> [] -> fs_lookup fs (cur ++ a) <> Some (NSymlink t)) ->
  resolve fs follow links cur rest = Ok q -> q = cur ++ rest.
Proof.
  intros Hp. revert cur. induction Hp as [|name rest Hn Hp IH]; intros cur Hl.
  - destruct links; cbn; intros [= <-]; by rewrite app_nil_r.
  - rewrite resolve_plain by done. destruct (bad_name name); [done|].
    destruct (fs_lookup fs (cur ++ [name])) as [[| |t|]|] eqn:E.
    + intros Hr. apply IH in Hr; [by rewrite <- app_assoc in Hr|]. intros a b t Hab Hne. rewrite <- app_assoc.
      apply (Hl (name :: a) b t); [by rewrite Hab|done].
    + destruct rest; [|done]. by intros [= <-].
    + by destruct (Hl [name] rest t).
    + destruct rest; [|done]. by intros [= <-].
    + destruct rest; [|done]. by intros [= <-].
Qed.

Lemma namei_split fs follow p :
  Forall plain p -> namei follow (abs_path p) fs = resolve fs follow MAXSYMLINKS [] p.
Proof.
  intros Hp. unfold namei. destruct p as [|x p]; [done|]. by rewrite Split_abs_path by (done || by apply plain_no_slash).
Qed.

(** Without links on it, a path is found where its names say. *)
Lemma namei_no_links fs follow p q :
  Forall plain p -> no_links fs p -> namei follow (abs_path p) fs = Ok q -> q = p.
Proof.
  intros Hp Hl. rewrite namei_split by done. intros Hr. apply resolve_no_links in Hr; [done..|].
  intros a b t Hab _. by apply (Hl a b).
Qed.

Lemma resolve_dirs fs follow links cur dirs rest :
  Forall good_name dirs -> (forall a b, dirs = a ++ b -> fs_lookup fs (cur ++ a) = Some NDir) ->
  resolve fs follow links cur (dirs ++ rest) = resolve fs follow links (cur ++ dirs) rest.
Proof.
  intros Hd. revert cur. induction Hd as [|x dirs [Hx Hb] Hd IH]; intros cur Hall; [by rewrite app_nil_r|].
  cbn [app]. rewrite resolve_plain, Hb, (Hall [x] dirs) by done. rewrite IH.
  - by rewrite <- app_assoc.
  - intros a b ->. rewrite <- app_assoc. by apply (Hall (x :: a) b).
Qed.

(** A path through directories is found, whether or not its last name exists. *)
Lemma namei_real fs follow p x :
  Forall good_name (p ++ [x]) -> real_dir fs p ->
  (follow = true -> forall t, fs !! (p ++ [x]) <> Some (NSymlink t)) ->
  namei follow (abs_path (p ++ [x])) fs = Ok (p ++ [x]).
Proof.
  intros Hg Hr Hl. rewrite namei_split by (by apply good_plain). apply Forall_app in Hg as [Hp Hx].
  inversion Hx as [|? ? [Hpx Hb] _]; subst. rewrite resolve_dirs; [|done|done].
  rewrite resolve_plain, Hb by done. cbn [app]. rewrite fs_lookup_snoc.
  destruct (fs !! (p ++ [x])) as [[| |t|]|] eqn:E; try done. destruct follow; [|done]. by destruct (Hl eq_refl t).
Qed.

(** ** Lemmas on system calls *)

(** Only paths that satisfy [P] have changed. *)
Definition changes_only (P : path -> Prop) (fs fs' : FS) : Prop := forall q, P q \/ fs' !! q = fs !! q.

Lemma changes_refl P fs : changes_only P fs fs.
Proof. intros q. by right. Qed.

Lemma changes_trans P fs1 fs2 fs3 : changes_only P fs1 fs2 -> changes_only P fs2 fs3 -> changes_only P fs1 fs3.
Proof. intros H1 H2 q. destruct (H1 q) as [|E1]; [by left|]. destruct (H2 q) as [|E2]; [by left|]. right. congruence. Qed.

Lemma changes_weaken (P Q : path -> Prop) fs fs' : (forall q, P q -> Q q) -> changes_only P fs fs' -> changes_only Q fs fs'.
Proof. intros HPQ H q. destruct (H q); auto. Qed.

Lemma changes_insert (p : path) (n : node) (fs : FS) : changes_only (eq p) fs (<[p := n]> fs).
Proof. intros q. destruct (decide (p = q)); [by left|right]. by rewrite lookup_insert_ne. Qed.

Lemma changes_delete (p : path) (fs : FS) : changes_only (eq p) fs (delete p fs).
Proof. intros q. destruct (decide (p = q)); [by left|right]. by rewrite lookup_delete_ne. Qed.

#[export] Hint Resolve changes_refl changes_insert changes_delete : agentforge.

(** Directories were added on the way to [p], nothing else. *)
Definition added_dirs (p : path) (fs fs' : FS) : Prop := forall q,
  fs' !! q = fs !! q \/ (fs !! q = None /\ fs' !! q = Some NDir /\ q <> [] /\ exists b, p = q ++ b).

Lemma added_refl p fs : added_dirs p fs fs.
Proof. intros q. by left. Qed.

Lemma added_trans p fs1 fs2 fs3 : added_dirs p fs1 fs2 -> added_dirs p fs2 fs3 -> added_dirs p fs1 fs3.
Proof.
  intros H1 H2 q. destruct (H1 q) as [E1|(N1 & D1 & Hne & Hb)], (H2 q) as [E2|(N2 & D2 & Hne2 & Hb2)].
  - left. congruence.
  - right. rewrite <- E1. done.
  - right. rewrite E2. done.
  - congruence.
Qed.

Lemma added_weaken p x fs fs' : added_dirs p fs fs' -> added_dirs (p ++ x) fs fs'.
Proof.
  intros H q. destruct (H q) as [E|(N & D & Hne & b & ->)]; [by left|right]. split; [done|]. split; [done|].
  split; [done|]. exists (b ++ x). by rewrite <- app_assoc.
Qed.

Lemma added_lookup p fs fs' q n : added_dirs p fs fs' -> fs_lookup fs q = Some n -> fs_lookup fs' q = Some n.
Proof. intros H. destruct q as [|x q]; [done|]. cbn. destruct (H (x :: q)) as [->|(-> & _)]; done. Qed.

Lemma added_no_links p fs fs' q : added_dirs p fs fs' -> no_links fs q -> no_links fs' q.
Proof.
  intros H Hl a b t ->. specialize (Hl a b t eq_refl). destruct a as [|x a]; [done|]. cbn in *.
  destruct (H (x :: a)) as [->|(_ & -> & _)]; done.
Qed.

Lemma added_real p fs fs' q : added_dirs p fs fs' -> real_dir fs q -> real_dir fs' q.
Proof. intros H Hr a b ->. eapply added_lookup; [exact H|]. by eapply Hr. Qed.
#[export] Hint Resolve added_refl added_no_links added_real added_weaken : agentforge.

(** *** Well-formedness *)

Lemma fs_wf_insert fs p x n :
  fs_wf fs -> fs_lookup fs p = Some NDir -> good_name x -> (n = NDir \/ fs !! (p ++ [x]) <> Some NDir) ->
  fs_wf (<[p ++ [x] := n]> fs).
Proof.
  intros Hwf Hp Hx Hn q y m. destruct (decide (p ++ [x] = q ++ [y])) as [E|Hne].
  - apply app_inj_tail in E as [<- <-]. intros _. split; [|done]. destruct p as [|z p]; [done|]. cbn.
    rewrite lookup_insert_ne; [done|]. intros E. apply (f_equal length) in E. cbn in E. rewrite length_app in E. cbn in E. lia.
  - rewrite lookup_insert_ne by done. intros Hq. apply Hwf in Hq as [Hd Hy]. split; [|done]. destruct q as [|z q]; [done|]. cbn in *.
    destruct (decide (p ++ [x] = z :: q)) as [E|Hne2]; [|by rewrite lookup_insert_ne].
    rewrite <- E, lookup_insert_eq. rewrite <- E in Hd. destruct Hn as [->|Hn]; [done|]. congruence.
Qed.

Lemma has_children_spec fs p : has_children fs p = true <-> exists x n, fs !! (p ++ [x]) = Some n.
Proof.
  unfold has_children. rewrite existsb_exists. split.
  - intros ([q n] & Hin%list_elem_of_In%elem_of_map_to_list & Hc). unfold child in Hc. cbn in Hc.
    destruct (below p q) as [[|y [|]]|] eqn:E; try done. apply below_spec in E as ->. eauto.
  - intros (x & n & Hx). exists (p ++ [x], n). split; [by apply list_elem_of_In, elem_of_map_to_list|].
    unfold child. cbn. by rewrite below_app.
Qed.

Lemma fs_wf_delete fs p : fs_wf fs -> has_children fs p = false -> fs_wf (delete p fs).
Proof.
  intros Hwf Hc q y m [Hne Hq]%lookup_delete_Some. pose proof (Hwf _ _ _ Hq) as [Hd Hy]. split; [|done]. destruct q as [|z q]; [done|]. cbn in *.
  rewrite lookup_delete_ne; [done|]. intros ->. assert (has_children fs (z :: q) = true); [|congruence].
  apply has_children_spec. by exists y, m.
Qed.

(** A path that was found has directories before its last name. *)
Lemma resolve_parent fs follow links cur rest x q :
  Forall plain (rest ++ [x]) ->
  (forall a b t, rest = a ++ b -> a <> [] -> fs_lookup fs (cur ++ a) <> Some (NSymlink t)) ->
  resolve fs follow links cur (rest ++ [x]) = Ok q ->
  forall a b, rest = a ++ b -> a <> [] -> fs_lookup fs (cur ++ a) = Some NDir.
Proof.
  revert cur. induction rest as [|y rest IH]; intros cur Hp Hl Hr a b Hab Hne; [by destruct a|].
  cbn [app] in *. inversion Hp as [|? ? Hy Hp']; subst. rewrite resolve_plain in Hr by done.
  destruct (bad_name y); [done|]. destruct (fs_lookup fs (cur ++ [y])) as [[| |t|]|] eqn:E.
  - destruct a as [|z a]; [done|]. injection Hab as <- Hab. destruct a as [|z' a]; [done|].
    assert (Hrw : cur ++ y :: z' :: a = (cur ++ [y]) ++ z' :: a) by (by rewrite <- app_assoc). rewrite Hrw.
    eapply (IH (cur ++ [y])); [done| |exact Hr|exact Hab|done].
    intros a' b' t Hab' _. rewrite <- app_assoc. apply (Hl (y :: a') b' t); [by rewrite Hab'|done].
  - by destruct rest.
  - by destruct (Hl [y] rest t).
  - by destruct rest.
  - by destruct rest.
Qed.

Lemma namei_parent fs follow p x q :
  Forall plain (p ++ [x]) -> no_links fs p -> namei follow (abs_path (p ++ [x])) fs = Ok q -> real_dir fs p.
Proof.
  intros Hp Hl. rewrite namei_split by done. intros Hr a b Hab. destruct a as [|y a]; [done|].
  eapply (resolve_parent fs follow _ [] p x q); [done| |exact Hr|exact Hab|done]. intros a' b' t Hab' _. by apply (Hl a' b').
Qed.

Lemma resolve_good fs follow links cur rest q :
  Forall plain rest -> (forall a b t, rest = a ++ b -> a <> [] -> fs_lookup fs (cur ++ a) <> Some (NSymlink t)) ->
  resolve fs follow links cur rest = Ok q -> Forall good_name rest.
Proof.
  intros Hp. revert cur. induction Hp as [|name rest Hn Hp IH]; intros cur Hl; [done|].
  rewrite resolve_plain by done. destruct (bad_name name) eqn:Eb; [done|]. intros Hr. constructor; [done|].
  assert (Hrec : resolve fs follow links (cur ++ [name]) rest = Ok q -> Forall good_name rest).
  { apply IH. intros a b t Hab Hne. rewrite <- app_assoc. apply (Hl (name :: a) b t); [by rewrite Hab|done]. }
  destruct (fs_lookup fs (cur ++ [name])) as [[| |t|]|] eqn:E; try (by destruct rest); [by apply Hrec|].
  by destruct (Hl [name] rest t).
Qed.

(** The names of a path that was found are good. *)
Lemma namei_good fs follow p q :
  Forall plain p -> no_links fs p -> namei follow (abs_path p) fs = Ok q -> Forall good_name p.
Proof.
  intros Hp Hl. rewrite namei_split by done. apply resolve_good; [done|]. intros a b t Hab _. by apply (Hl a b).
Qed.

Lemma namei_good_last fs follow p x q :
  Forall plain (p ++ [x]) -> no_links fs (p ++ [x]) -> namei follow (abs_path (p ++ [x])) fs = Ok q -> good_name x.
Proof. intros Hp Hl Hn. apply namei_good in Hn; [|done..]. apply Forall_app in Hn as [_ Hx]. by inversion Hx. Qed.

(** Directories were added on the way to [p], from the top down. *)
Definition dirs_made (p : path) (fs fs' : FS) : Prop := added_dirs p fs fs' /\ (fs_wf fs -> fs_wf fs').

Lemma made_refl p fs : dirs_made p fs fs.
Proof. split; auto with agentforge. Qed.

Lemma made_trans p fs1 fs2 fs3 : dirs_made p fs1 fs2 -> dirs_made p fs2 fs3 -> dirs_made p fs1 fs3.
Proof. intros [H1 W1] [H2 W2]. split; [by eapply added_trans|auto]. Qed.
#[export] Hint Resolve made_refl : agentforge.

Section os_lemmas.
Context `{HE : HostEnv}.

(** An injected failure is an I/O error or a refused permission, never "does not exist" or
    "exists": those are reported by the call itself. *)
Definition faults_ok : Prop :=
  forall n e, fault n = Some e -> errors_Is e SNotExist = false /\ errors_Is e SExist = false.

Definition no_faults : Prop := forall n, fault n = None.

Lemma no_faults_ok : no_faults -> faults_ok.
Proof. intros H n e. by rewrite H. Qed.

Lemma query_fs {A} (op name : string) (f : FS -> result error A) (h : Host) : h_fs (query op name f h).1 = h_fs h.
Proof. unfold query, call. by destruct (fault _). Qed.

Lemma query_ok {A} (op name : string) (f : FS -> result error A) (h : Host) a : (query op name f h).2 = Ok a -> f (h_fs h) = Ok a.
Proof. unfold query, call. destruct (fault _); [done|]. by destruct (f (h_fs h)). Qed.

(** A query that answers "does not exist" says so of the file system. *)
Lemma query_not_exist {A} (op name : string) (f : FS -> result error A) (h : Host) e :
  faults_ok -> (query op name f h).2 = Err e -> errors_Is e SNotExist = true ->
  exists e', f (h_fs h) = Err e' /\ errors_Is e' SNotExist = true.
Proof.
  intros Hf. unfold query, call. destruct (fault (h_tick h)) as [e0|] eqn:E.
  - intros [= <-]. destruct (Hf _ _ E) as [H0 _]. unfold errors_Is, path_error, wrapf in *. cbn. by rewrite H0.
  - destruct (f (h_fs h)) as [a|e1]; intros [= <-]. by exists e1.
Qed.

Lemma query_pair {A} (op name : string) (f : FS -> result error A) (h : Host) h' r : query op name f h = (h', r) -> h_fs h' = h_fs h.
Proof. intros E. rewrite <- (query_fs op name f h). by rewrite E. Qed.

Lemma call_fs {A} (op name : string) (f : FS -> FS * result error A) (h : Host) :
  h_fs (call op name f h).1 = h_fs h \/ h_fs (call op name f h).1 = (f (h_fs h)).1.
Proof. unfold call. destruct (fault _); [by left|right]. by destruct (f (h_fs h)). Qed.

Lemma call_ok {A} (op name : string) (f : FS -> FS * result error A) (h : Host) h' a :
  call op name f h = (h', Ok a) -> f (h_fs h) = (h_fs h', Ok a).
Proof. unfold call. destruct (fault _); [done|]. destruct (f (h_fs h)) as [fs [b|e]]; intros [= <- <-]. done. Qed.

Lemma stat_no_links follow p fs i :
  Forall plain p -> no_links fs p -> stat_at follow (abs_path p) fs = Ok i -> fs_lookup fs p = Some (info_node i) /\
    info_size i = node_size p (info_node i).
Proof.
  intros Hp Hl. unfold stat_at. destruct (namei follow (abs_path p) fs) as [q|] eqn:E; [|done].
  apply namei_no_links in E as ->; [|done..]. destruct (fs_lookup fs p); [|done]. by intros [= <-].
Qed.

(** *** Directories *)

Lemma mkdir_at_added p fs :
  Forall plain p -> no_links fs p -> dirs_made p fs (mkdir_at (abs_path p) fs).1.
Proof.
  intros Hp Hl. unfold mkdir_at. destruct (namei false (abs_path p) fs) as [q|] eqn:E; [|apply made_refl].
  pose proof E as E'. apply namei_no_links in E as ->; [|done..]. destruct (fs_lookup fs p) eqn:Ep; [apply made_refl|].
  split; cbn; [|intros Hwf; destruct p as [|x p] using rev_ind; [done|]; apply fs_wf_insert;
    [done|by eapply (namei_parent fs false p x _ Hp (no_links_app _ _ _ Hl) E' p []); rewrite app_nil_r|by eapply namei_good_last|by left]].
  intros q. destruct (decide (p = q)) as [<-|Hne].
  - right. rewrite lookup_insert_eq. destruct p as [|x p]; [done|]. cbn in Ep. split; [done|]. split; [done|].
    split; [done|]. exists []. by rewrite app_nil_r.
  - left. by rewrite lookup_insert_ne.
Qed.

Lemma os_Mkdir_added p h : Forall plain p -> no_links (h_fs h) p -> dirs_made p (h_fs h) (h_fs (os_Mkdir (abs_path p) h).1).
Proof.
  intros Hp Hl. unfold os_Mkdir. destruct (call_fs "mkdir" (abs_path p) (mkdir_at (abs_path p)) h) as [->| ->];
    [apply made_refl|by apply mkdir_at_added].
Qed.

Lemma os_Mkdir_ok p h h' :
  Forall plain p -> no_links (h_fs h) p -> os_Mkdir (abs_path p) h = (h', Ok tt) -> fs_lookup (h_fs h') p = Some NDir.
Proof.
  intros Hp Hl E. apply call_ok in E. unfold mkdir_at in E.
  destruct (namei false (abs_path p) (h_fs h)) as [q|] eqn:Eq; [|done]. apply namei_no_links in Eq as ->; [|done..].
  destruct (fs_lookup (h_fs h) p) eqn:Ep; [done|]. injection E as <-. destruct p; [done|]. cbn. by rewrite lookup_insert_eq.
Qed.

Ltac step_bind := rewrite ST_bind_run.

(** [os.MkdirAll] adds directories on its path; when it succeeds the path is a directory. *)
Lemma mkdir_all_spec rnames h :
  Forall plain (rev rnames) -> no_links (h_fs h) (rev rnames) ->
  let '(h', r) := mkdir_all rnames h in
  dirs_made (rev rnames) (h_fs h) (h_fs h') /\ (r = Ok tt -> fs_lookup (h_fs h') (rev rnames) = Some NDir).
Proof.
  revert h. induction rnames as [|x parent IH]; intros h Hp Hl.
  - cbn [mkdir_all]. step_bind. destruct (os_Stat (abs_path (rev [])) h) as [h1 r1] eqn:E1. cbn [fst snd].
    assert (Hfs : h_fs h1 = h_fs h) by (by eapply query_pair).
    destruct r1 as [i|e]; [|pose proof (os_Mkdir_added (rev []) h1 Hp ltac:(by rewrite Hfs)) as Hm].
    + destruct (Info_IsDir i); cbn; rewrite Hfs; auto with agentforge.
    + destruct (os_Mkdir (abs_path (rev [])) h1) as [h2 r2] eqn:E2. rewrite <- Hfs. by split.
  - cbn [mkdir_all]. set (p := rev (x :: parent)) in *. step_bind.
    destruct (os_Stat (abs_path p) h) as [h1 r1] eqn:E1. cbn [fst snd].
    assert (Hfs : h_fs h1 = h_fs h) by (by eapply query_pair).
    destruct r1 as [i|e].
    + destruct (Info_IsDir i) eqn:Ei; unfold mret, ST_ret; cbn match; rewrite Hfs; split; auto with agentforge; [|done]. intros _.
      assert (Hs : stat_at true (abs_path p) (h_fs h) = Ok i) by (eapply query_ok; unfold os_Stat in E1; by rewrite E1).
      apply stat_no_links in Hs as [Hs _]; [|done..]. rewrite Hs. f_equal. unfold Info_IsDir, is_dir in Ei. by destruct (info_node i).
    + step_bind.
      assert (Hpar : let '(h2, r2) := (match parent with [] => mret (Ok tt) | _ => mkdir_all parent end : ST Host (result error unit)) h1 in
        dirs_made p (h_fs h1) (h_fs h2)).
      { destruct parent as [|y parent']; [apply made_refl|]. subst p. cbn [rev] in *.
        specialize (IH h1). destruct (mkdir_all (y :: parent') h1) as [h2 r2]. destruct IH as [[Ha Hw] _]; [| |split; [by apply added_weaken|done]].
        - by apply Forall_app in Hp as [? _].
        - rewrite Hfs. by eapply no_links_app. }
      destruct ((match parent with [] => _ | _ => _ end : ST Host (result error unit)) h1) as [h2 r2]. cbn [fst snd].
      rewrite <- Hfs. assert (Hl2 : no_links (h_fs h2) p) by (eapply added_no_links; [exact (proj1 Hpar)|by rewrite Hfs]).
      destruct r2 as [[]|e2]; [|by split]. step_bind.
      pose proof (os_Mkdir_added p h2 Hp Hl2) as Hm. destruct (os_Mkdir (abs_path p) h2) as [h3 r3] eqn:E3. cbn [fst snd] in *.
      assert (Hadd : dirs_made p (h_fs h1) (h_fs h3)) by (by eapply made_trans).
      destruct r3 as [[]|e3]; [split; [done|]; intros _; by eapply os_Mkdir_ok|]. step_bind.
      destruct (os_Lstat (abs_path p) h3) as [h4 r4] eqn:E4. cbn [fst snd].
      assert (Hfs4 : h_fs h4 = h_fs h3) by (by eapply query_pair).
      destruct r4 as [i|e4]; [|by unfold mret, ST_ret; cbn match; rewrite Hfs4].
      destruct (Info_IsDir i) eqn:Ei; unfold mret, ST_ret; cbn match; rewrite Hfs4; (split; [done|]); [|done]. intros _.
      assert (Hs : stat_at false (abs_path p) (h_fs h3) = Ok i) by (eapply query_ok; unfold os_Lstat in E4; by rewrite E4).
      apply stat_no_links in Hs as [Hs _]; [|done|exact (added_no_links _ _ _ _ (proj1 Hm) Hl2)]. rewrite Hs. f_equal. unfold Info_IsDir, is_dir in Ei.
      by destruct (info_node i).
Qed.

Lemma os_MkdirAll_spec p h h' r :
  Forall plain p -> no_links (h_fs h) p -> os_MkdirAll (abs_path p) h = (h', r) ->
  dirs_made p (h_fs h) (h_fs h') /\ (r = Ok tt -> fs_lookup (h_fs h') p = Some NDir).
Proof.
  intros Hp Hl E. unfold os_MkdirAll in E. rewrite path_names_abs in E by done.
  pose proof (mkdir_all_spec (rev p) h) as H. rewrite rev_involutive, E in H. by apply H.
Qed.
End os_lemmas.

(** A path is reported missing only if one of its directories is. *)
Lemma resolve_missing fs follow links cur rest e :
  Forall plain rest -> (forall a b t, rest = a ++ b -> a <> [] -> fs_lookup fs (cur ++ a) <> Some (NSymlink t)) ->
  resolve fs follow links cur rest = Err e -> errors_Is e SNotExist = true ->
  exists a b, rest = a ++ b /\ fs_lookup fs (cur ++ a) = None.
Proof.
  intros Hp. revert cur. induction Hp as [|name rest Hn Hp IH]; intros cur Hl.
  - by destruct links.
  - rewrite resolve_plain by done. destruct (bad_name name) as [e0|] eqn:Eb.
    { intros [= ->]. unfold bad_name in Eb. repeat case_match; simplify_eq; done. }
    destruct (fs_lookup fs (cur ++ [name])) as [[| |t|]|] eqn:E.
    + intros Hr He. destruct (IH (cur ++ [name])) as (a & b & -> & Ha); [|done..|].
      * intros a b t Hab Hne. rewrite <- app_assoc. apply (Hl (name :: a) b t); [by rewrite Hab|done].
      * exists (name :: a), b. split; [done|]. by rewrite <- app_assoc in Ha.
    + destruct rest; [done|]. by intros [= <-].
    + by destruct (Hl [name] rest t).
    + destruct rest; [done|]. by intros [= <-].
    + intros _ _. exists [name], rest. done.
Qed.

Lemma namei_missing fs follow p e :
  Forall plain p -> no_links fs p -> namei follow (abs_path p) fs = Err e -> errors_Is e SNotExist = true ->
  exists a b, p = a ++ b /\ fs_lookup fs a = None.
Proof.
  intros Hp Hl. rewrite namei_split by done. intros Hr He. eapply (resolve_missing fs follow _ [] p); [done| |done..].
  intros a b t Hab _. by apply (Hl a b).
Qed.

Section file_lemmas.
Context `{HE : HostEnv}.

(** A regular file was created or replaced at [p]. *)
Definition file_put (p : path) (data : list ascii) (fs fs' : FS) : Prop :=
  exists d x mode, p = d ++ [x] /\ fs' = <[p := NFile mode data]> fs /\ fs_lookup fs d = Some NDir /\ good_name x /\
    (fs !! p = None \/ exists m old, fs !! p = Some (NFile m old)).

Lemma file_put_changes p data fs fs' : file_put p data fs fs' -> changes_only (eq p) fs fs'.
Proof. intros (d & x & mode & -> & -> & _). apply changes_insert. Qed.

Lemma file_put_wf p data fs fs' : file_put p data fs fs' -> fs_wf fs -> fs_wf fs'.
Proof.
  intros (d & x & mode & -> & -> & Hd & Hx & Hold) Hwf. apply fs_wf_insert; [done..|]. right. intros E. rewrite E in Hold.
  by destruct Hold as [?|(? & ? & ?)].
Qed.

Lemma file_put_twice p d1 d2 fs fs' mode :
  file_put p d1 fs fs' -> fs' !! p = Some (NFile mode d1) -> file_put p d2 fs (<[p := NFile mode d2]> fs').
Proof.
  intros (d & x & m & -> & -> & Hd & Hx & Hold) Hm. exists d, x, mode. split; [done|]. split; [by rewrite insert_insert_eq|].
  done.
Qed.

Lemma creat_at_spec p perm fs fs' q :
  Forall plain p -> no_links fs p -> creat_at (abs_path p) perm fs = (fs', Ok q) -> q = p /\ file_put p [] fs fs'.
Proof.
  intros Hp Hl. unfold creat_at. destruct (namei true (abs_path p) fs) as [q'|] eqn:E; [|done].
  pose proof E as E'. apply namei_no_links in E as ->; [|done..].
  destruct p as [|x d _] using rev_ind; [done|].
  assert (Hd : fs_lookup fs d = Some NDir).
  { eapply (namei_parent fs true d x _ Hp (no_links_app _ _ _ Hl) E' d []). by rewrite app_nil_r. }
  assert (Hx : good_name x) by (by eapply namei_good_last).
  rewrite fs_lookup_snoc. destruct (fs !! (d ++ [x])) as [[|m old| |]|] eqn:Eo; intros [= <- <-]; (split; [done|]).
  - exists d, x, m. eauto 10.
  - exists d, x, perm. eauto 10.
Qed.

Lemma set_data_file p data fs mode old :
  fs !! p = Some (NFile mode old) -> set_data p data fs = <[p := NFile mode data]> fs.
Proof. unfold set_data. by intros ->. Qed.

(** [os.WriteFile]: nothing happens, or the file is there, complete if there was no error. *)
Lemma os_WriteFile_spec p data perm h h' r :
  Forall plain p -> no_links (h_fs h) p -> os_WriteFile (abs_path p) data perm h = (h', r) ->
  (h_fs h' = h_fs h /\ r <> Ok tt) \/
  exists written, file_put p written (h_fs h) (h_fs h') /\ (r = Ok tt -> written = data) /\ (no_faults -> r = Ok tt).
Proof.
  intros Hp Hl. unfold os_WriteFile. rewrite ST_bind_run.
  destruct (os_Create (abs_path p) perm h) as [h1 r1] eqn:E1. cbn [fst snd].
  destruct r1 as [q|e].
  - apply call_ok in E1. apply creat_at_spec in E1 as [-> Hput]; [|done..]. rewrite !ST_bind_run.
    pose proof Hput as (d & x & mode & _ & Hfs1 & _).
    assert (Hm : h_fs h1 !! p = Some (NFile mode [])) by (by rewrite Hfs1, lookup_insert_eq).
    destruct (os_Write (abs_path p) p data h1) as [h2 r2] eqn:E2. cbn [fst snd].
    destruct (os_Close (abs_path p) h2) as [h3 r3] eqn:E3. cbn [fst snd].
    assert (Hfs3 : h_fs h3 = h_fs h2) by (by eapply query_pair). intros [= <- <-]. right. rewrite Hfs3.
    unfold os_Write in E2. destruct (fault (h_tick h1)) as [e|] eqn:Ef; injection E2 as <- <-; cbn; rewrite (set_data_file _ _ _ _ _ Hm);
      eexists; (split; [by eapply file_put_twice|]); (split; [done|]); intros Hn; [by rewrite Hn in Ef|].
    unfold os_Close, query, call in E3. rewrite Hn in E3. by injection E3 as _ <-.
  - intros [= <- <-]. left. split; [|done].
    destruct (call_fs "open" (abs_path p) (creat_at (abs_path p) perm) h) as [Hc|Hc]; unfold os_Create in E1; rewrite E1 in Hc; [done|].
    cbn in Hc. rewrite Hc. unfold call in E1. destruct (fault (h_tick h)); [injection E1 as <- _; by rewrite <- Hc|].
    destruct (creat_at (abs_path p) perm (h_fs h)) as [fs [q|e']] eqn:Ec; [done|].
    unfold creat_at in Ec. destruct (namei _ _ _) as [q|]; [|by injection Ec as <- _].
    by destruct (fs_lookup (h_fs h) q) as [[]|]; injection Ec as <-.
Qed.

Lemma os_ReadFile_spec p h h' r :
  os_ReadFile (abs_path p) h = (h', r) ->
  h_fs h' = h_fs h /\
  (Forall plain p -> no_links (h_fs h) p -> forall data, r = Ok data -> exists mode, h_fs h !! p = Some (NFile mode data)).
Proof.
  unfold os_ReadFile. rewrite ST_bind_run. destruct (os_Open (abs_path p) h) as [h1 r1] eqn:E1. cbn [fst snd].
  pose proof (query_pair _ _ _ _ _ _ E1) as Hfs1. destruct r1 as [q|e]; [|by intros [= <- <-]].
  destruct (os_Read (abs_path p) q h1) as [h2 r2] eqn:E2. intros [= <- <-].
  pose proof (query_pair _ _ _ _ _ _ E2) as Hfs2. split; [congruence|]. intros Hp Hl data ->.
  assert (Ho : open_at (abs_path p) (h_fs h) = Ok q) by (eapply query_ok; unfold os_Open in E1; by rewrite E1).
  unfold open_at in Ho. destruct (namei true (abs_path p) (h_fs h)) as [q'|] eqn:En; [|done].
  apply namei_no_links in En as ->; [|done..].
  assert (q = p) as -> by (destruct (fs_lookup (h_fs h) p) as [[]|]; congruence).
  unfold os_Read in E2. assert (Hr : (query "read" (abs_path p) (fun fs => match fs_lookup fs p with
      | Some (NFile _ data) => Ok data | _ => Err EISDIR end) h1).2 = Ok data) by (by rewrite E2).
  apply query_ok in Hr. rewrite Hfs1 in Hr. destruct p as [|x p]; [done|]. cbn in Hr.
  destruct (h_fs h !! (x :: p)) as [[|m d| |]|]; try done. injection Hr as ->. by exists m.
Qed.

(** *** Removal *)

Lemma unlink_at_spec p fs :
  ((unlink_at p fs).1 = fs /\ (unlink_at p fs).2 <> Ok tt) \/
  ((unlink_at p fs).1 = delete p fs /\ (unlink_at p fs).2 = Ok tt /\ is_Some (fs !! p) /\ p <> [] /\
   (fs !! p = Some NDir -> has_children fs p = false)).
Proof.
  unfold unlink_at. destruct p as [|x p]; [left; by case_if|]. cbn [fs_lookup].
  destruct (fs !! (x :: p)) as [n|]; [|left; by split].
  destruct n; try (right; repeat split; by (eauto || intros [=])). case_if; [by left|].
  destruct (has_children fs (x :: p)); [by left|right]. repeat split; eauto.
Qed.

Lemma unlink_at_wf p fs : fs_wf fs -> fs_wf (unlink_at p fs).1.
Proof.
  intros Hwf. destruct (unlink_at_spec p fs) as [[-> _]|(-> & _ & _ & Hne & Hd)]; [done|].
  destruct (has_children fs p) eqn:Hc; [|by apply fs_wf_delete]. exfalso.
  apply has_children_spec in Hc as (x & n & Hx). apply Hwf in Hx as [Hx _]. destruct p as [|y p]; [done|]. by specialize (Hd Hx).
Qed.

(** A call that deletes one path at most. *)
Lemma unlink_call p op name h :
  changes_only (eq p) (h_fs h) (h_fs (call op name (unlink_at p) h).1) /\
  (fs_wf (h_fs h) -> fs_wf (h_fs (call op name (unlink_at p) h).1)).
Proof.
  destruct (call_fs op name (unlink_at p) h) as [-> | ->]; [by auto with agentforge|].
  split; [|apply unlink_at_wf]. destruct (unlink_at_spec p (h_fs h)) as [[-> _]|(-> & _)]; auto with agentforge.
Qed.

Lemma unlink_call_sub p op name h : h_fs (call op name (unlink_at p) h).1 ⊆ h_fs h.
Proof.
  destruct (call_fs op name (unlink_at p) h) as [-> | ->]; [done|].
  destruct (unlink_at_spec p (h_fs h)) as [[-> _]|(-> & _)]; [done|apply delete_subseteq].
Qed.

Lemma remove_each_sub ps first h : h_fs (remove_each ps first h).1 ⊆ h_fs h.
Proof.
  revert first h. induction ps as [|p ps IH]; intros first h; cbn [remove_each]; [done|]. rewrite ST_bind_run.
  etrans; [apply IH|apply unlink_call_sub].
Qed.

Lemma remove_each_spec ps first h :
  changes_only (fun q => q ∈ ps) (h_fs h) (h_fs (remove_each ps first h).1) /\
  (fs_wf (h_fs h) -> fs_wf (h_fs (remove_each ps first h).1)).
Proof.
  revert first h. induction ps as [|p ps IH]; intros first h; cbn [remove_each]; [by split; auto with agentforge|].
  rewrite ST_bind_run. destruct (unlink_call p "unlinkat" (abs_path p) h) as [Hc Hw].
  destruct (call "unlinkat" (abs_path p) (unlink_at p) h) as [h1 r]. cbn [fst snd] in *.
  edestruct IH as [Hc' Hw']. split; [|by intros; apply Hw', Hw]. eapply changes_trans; eapply changes_weaken; [|exact Hc| |exact Hc'].
  - intros q <-. by left.
  - intros q Hq. by right.
Qed.

(** Without an error everything was removed. *)
Lemma remove_each_ok ps first h :
  (remove_each ps first h).2 = None ->
  first = None /\ forall q, h_fs (remove_each ps first h).1 !! q = if decide (q ∈ ps) then None else h_fs h !! q.
Proof.
  revert first h. induction ps as [|p ps IH]; intros first h; cbn [remove_each].
  { intros Hf. split; [exact Hf|]. intros q. by rewrite decide_False by apply not_elem_of_nil. }
  rewrite ST_bind_run. destruct (call "unlinkat" (abs_path p) (unlink_at p) h) as [h1 r] eqn:E. cbn [fst snd].
  intros Hn. destruct (IH _ _ Hn) as [Hf Hq]. destruct r as [[]|e]; [|by destruct first].
  split; [by destruct first|]. apply call_ok in E.
  destruct (unlink_at_spec p (h_fs h)) as [[_ H2]|(H1 & _)]; rewrite E in *; [done|]. cbn in H1.
  intros q. rewrite Hq, H1. destruct (decide (q = p)) as [->|Hne].
  - rewrite lookup_delete_eq. rewrite (decide_True (P := p ∈ p :: ps)) by (by left). by case_decide.
  - rewrite lookup_delete_ne by done. destruct (decide (q ∈ ps)); [by rewrite decide_True by (by right)|].
    rewrite decide_False; [done|]. by intros [?|?]%elem_of_cons.
Qed.

Lemma walk_paths_spec fs p q : q ∈ walk_paths fs p <-> is_Some (fs !! q) /\ exists r, r <> [] /\ q = p ++ r.
Proof.
  unfold walk_paths. rewrite sort_slice_perm, list_elem_of_In, filter_In, <- list_elem_of_In, list_elem_of_fmap. split.
  - intros [((q' & n) & -> & Hin%elem_of_map_to_list) Hb]. cbn in *. split; [by eauto|].
    destruct (below p q') as [[|y r]|] eqn:E; try done. apply below_spec in E. by exists (y :: r).
  - intros [[n Hn] (r & Hr & ->)]. split; [exists (p ++ r, n); split; [done|by apply elem_of_map_to_list]|].
    rewrite below_app. by destruct r.
Qed.

(** The paths that [os.RemoveAll] removes. *)
Definition at_or_under (p q : path) : Prop := exists r, q = p ++ r.

Lemma os_RemoveAll_sub name h : h_fs (os_RemoveAll name h).1 ⊆ h_fs h.
Proof.
  unfold os_RemoveAll. rewrite ST_bind_run. match goal with |- context [query ?o ?n ?f h] => pose proof (query_fs o n f h) as Hq end.
  destruct (query _ _ _ h) as [h1 [ps|e]]; cbn [fst snd] in *; [|by rewrite <- Hq].
  rewrite ST_bind_run, <- Hq. apply (remove_each_sub ps None h1).
Qed.

End file_lemmas.

(** *** Paths whose last name is not followed *)

Lemma resolve_nofollow fs links cur rest x :
  Forall plain (rest ++ [x]) ->
  (forall a b t, rest = a ++ b -> a <> [] -> fs_lookup fs (cur ++ a) <> Some (NSymlink t)) ->
  match resolve fs false links cur (rest ++ [x]) with
  | Ok q => q = cur ++ rest ++ [x] /\ bad_name x = None
  | Err e => errors_Is e SNotExist = true -> exists a b, rest = a ++ b /\ fs_lookup fs (cur ++ a) = None
  end.
Proof.
  assert (Hbad : forall name e, bad_name name = Some e -> errors_Is e SNotExist = false).
  { intros name e. unfold bad_name. by repeat case_match; intros [= <-]. }
  revert cur. induction rest as [|y rest IH]; intros cur Hp Hl; cbn [app] in *; inversion Hp as [|? ? Hy Hp']; subst;
    rewrite resolve_plain by done.
  - destruct (bad_name x) as [e0|] eqn:Eb; [by rewrite (Hbad _ _ Eb)|].
    destruct (fs_lookup fs (cur ++ [x])) as [[]|]; try done. by destruct links.
  - destruct (bad_name y) as [e0|] eqn:Eb; [by rewrite (Hbad _ _ Eb)|]. destruct (fs_lookup fs (cur ++ [y])) as [[| |t|]|] eqn:E.
    + specialize (IH (cur ++ [y]) Hp'). rewrite <- (app_assoc cur [y] (rest ++ [x])) in IH. cbn [app] in IH.
      destruct (resolve fs false links (cur ++ [y]) (rest ++ [x])) as [q|e].
      * apply IH. intros a b t Hab _. rewrite <- app_assoc. apply (Hl (y :: a) b t); [by rewrite Hab|done].
      * intros He. destruct IH as (a & b & -> & Ha); [|done|].
        { intros a b t Hab _. rewrite <- app_assoc. apply (Hl (y :: a) b t); [by rewrite Hab|done]. }
        exists (y :: a), b. split; [done|]. by rewrite <- app_assoc in Ha.
    + by destruct rest.
    + by destruct (Hl [y] rest t).
    + by destruct rest.
    + assert (rest ++ [x] <> []) by (by destruct rest). destruct (rest ++ [x]); [done|]. intros _. by exists [y], rest.
Qed.

(** [os.Lstat] on a path without links before its last name. *)
Lemma lstat_spec `{HostEnv} fs p x :
  Forall plain (p ++ [x]) -> no_links fs p -> fs_wf fs ->
  match stat_at false (abs_path (p ++ [x])) fs with
  | Ok i => fs_lookup fs (p ++ [x]) = Some (info_node i)
  | Err e => errors_Is e SNotExist = true -> fs_lookup fs (p ++ [x]) = None
  end.
Proof.
  intros Hp Hl Hwf. unfold stat_at. rewrite namei_split by done.
  pose proof (resolve_nofollow fs MAXSYMLINKS [] p x Hp) as Hr.
  destruct (resolve fs false MAXSYMLINKS [] (p ++ [x])) as [q|e]; cbn in Hr.
  - destruct Hr as [-> _]; [by intros a b t Hab _; apply (Hl a b)|]. by destruct (fs_lookup fs (p ++ [x])).
  - intros He. destruct Hr as (a & b & -> & Ha); [by intros a b t Hab _; apply (Hl a b)|done|].
    rewrite <- app_assoc. by apply fs_wf_missing.
Qed.

(** The two calls that inspect a path. *)
Lemma stat_call `{HE : HostEnv} op follow name h h' r :
  query op name (stat_at follow name) h = (h', r) ->
  h_fs h' = h_fs h /\
  match r with
  | Ok i => stat_at follow name (h_fs h) = Ok i
  | Err e => faults_ok -> errors_Is e SNotExist = true ->
             exists e', stat_at follow name (h_fs h) = Err e' /\ errors_Is e' SNotExist = true
  end.
Proof.
  intros E. split; [by eapply query_pair|]. destruct r as [i|e].
  - eapply query_ok. by rewrite E.
  - intros Hf He. apply (query_not_exist op name (stat_at follow name) h e Hf); [by rewrite E|done].
Qed.

(** *** Walking a directory, and sums over a file system *)

Section walk.
Context `{HE : HostEnv}.

Lemma query_run {A} (op name : string) (f : FS -> result error A) (h : Host) :
  no_faults ->
  query op name f h = (h <| h_tick ::= S |>, match f (h_fs h) with Ok a => Ok a | Err e => Err (path_error op name e) end).
Proof. intros Hn. unfold query, call. rewrite Hn. by destruct h. Qed.

Definition info_at (fs : FS) (p : path) : Info :=
  let n := default NDir (fs_lookup fs p) in mkInfo (Base (abs_path p)) n (node_size p n).

Lemma stat_exists follow fs p :
  fs_wf fs -> is_Some (fs_lookup fs p) -> (follow = true -> no_links fs p) -> stat_at follow (abs_path p) fs = Ok (info_at fs p).
Proof.
  intros Hwf [n Hn] Hl. unfold stat_at, info_at. destruct p as [|x p _] using rev_ind; [done|].
  rewrite fs_lookup_snoc in Hn. destruct (Hwf _ _ _ Hn) as [Hd _].
  rewrite namei_real; [by rewrite fs_lookup_snoc, Hn| | |].
  - apply (fs_wf_good fs); [done|]. rewrite fs_lookup_snoc. by eexists.
  - by apply fs_wf_real.
  - intros ->. intros t E. apply (Hl eq_refl (p ++ [x]) [] t); [by rewrite app_nil_r|]. by rewrite fs_lookup_snoc.
Qed.

Lemma walk_each_spec ps h :
  no_faults -> fs_wf (h_fs h) -> Forall (fun p => is_Some (fs_lookup (h_fs h) p)) ps ->
  exists h', h_fs h' = h_fs h /\
    walk_each ps h = (h', (map (fun p => (abs_path p, info_at (h_fs h) p)) ps, None)).
Proof.
  intros Hn Hwf Hps. revert h Hwf Hps. induction ps as [|p ps IH]; intros h Hwf Hps; [by exists h|].
  inversion Hps as [|? ? Hp Hps']; subst. cbn [walk_each]. rewrite ST_bind_run. unfold os_Lstat.
  rewrite query_run by done. cbn [fst snd]. rewrite stat_exists by done. rewrite ST_bind_run.
  set (h1 := h <| h_tick ::= S |>). destruct (IH h1) as (h' & Hfs & E); [done..|].
  rewrite E. cbn [fst snd]. exists h'. by split.
Qed.

Lemma Walk_spec rp h :
  no_faults -> fs_wf (h_fs h) -> Forall plain rp -> fs_lookup (h_fs h) rp = Some NDir ->
  exists h', h_fs h' = h_fs h /\
    Walk (abs_path rp) h = (h', (map (fun p => (abs_path p, info_at (h_fs h) p)) (rp :: walk_paths (h_fs h) rp), None)).
Proof.
  intros Hn Hwf Hrp Hd. unfold Walk, os_Lstat. rewrite query_run by done.
  rewrite stat_exists by (done || by eexists).
  assert (Hdir : Info_IsDir (info_at (h_fs h) rp) = true) by (unfold Info_IsDir, info_at; by rewrite Hd).
  rewrite Hdir. set (h1 := h <| h_tick ::= S |>). change (h_fs h1) with (h_fs h).
  assert (Hnl : no_links (h_fs h) rp).
  { intros a b t Hab. by rewrite (fs_wf_real _ _ Hwf Hd a b Hab). }
  destruct (namei false (abs_path rp) (h_fs h)) as [p|e] eqn:En.
  - apply namei_no_links in En as ->; [|done..].
    destruct (walk_each_spec (walk_paths (h_fs h) rp) h1) as (h' & Hfs & E); [done..| |].
    + apply list.Forall_forall. intros q [Hq (r & Hr & ->)]%walk_paths_spec. change (h_fs h1) with (h_fs h).
      by destruct rp, r.
    + rewrite E. by exists h'.
  - exfalso. pose proof (stat_exists false (h_fs h) rp Hwf) as Hs. unfold stat_at in Hs. rewrite En in Hs.
    discriminate Hs; [by eexists|done].
Qed.
End walk.

Definition sumZ (l : list Z) : Z := foldr Z.add 0 l.

#[global] Instance sumZ_proper : Proper ((≡ₚ) ==> (=)) sumZ.
Proof. intros l1 l2 H. unfold sumZ. induction H; cbn; lia. Qed.

Lemma sumZ_filter {A} (f : A -> bool) (g : A -> Z) l :
  (forall x, x ∈ l -> f x = false -> g x = 0) -> sumZ (map g (List.filter f l)) = sumZ (map g l).
Proof.
  induction l as [|x l IH]; intros Hz; [done|]. cbn.
  assert (IH' : sumZ (map g (List.filter f l)) = sumZ (map g l)) by (apply IH; intros y Hy; apply Hz; by right).
  destruct (f x) eqn:E; cbn; unfold sumZ in *; rewrite IH'; [done|]. rewrite (Hz x); [lia|by left|done].
Qed.

(** The sum of a measure over all nodes. *)
Definition usage (w : path -> node -> Z) (fs : FS) : Z := sumZ (map (fun x => w x.1 x.2) (map_to_list fs)).

Definition node_weight (w : path -> node -> Z) (fs : FS) (p : path) : Z := match fs !! p with Some n => w p n | None => 0 end.

Lemma usage_insert_new w fs p n : fs !! p = None -> usage w (<[p := n]> fs) = w p n + usage w fs.
Proof. intros Hp. unfold usage. by rewrite (map_to_list_insert _ _ _ Hp). Qed.

Lemma usage_delete w fs p : usage w (delete p fs) = usage w fs - node_weight w fs p.
Proof.
  unfold node_weight. destruct (fs !! p) as [n|] eqn:E.
  - rewrite <- (insert_delete_id fs p n E) at 2. rewrite usage_insert_new by apply lookup_delete_eq. lia.
  - rewrite delete_id by done. lia.
Qed.

Lemma usage_insert w fs p n : usage w (<[p := n]> fs) = usage w fs - node_weight w fs p + w p n.
Proof.
  rewrite <- insert_delete_eq. rewrite usage_insert_new by apply lookup_delete_eq. rewrite usage_delete. lia.
Qed.

Lemma usage_empty_weight w fs : (forall p, node_weight w fs p = 0) -> usage w fs = 0.
Proof.
  induction fs as [|p n fs Hp IH] using map_ind; [done|]. intros Hz. rewrite usage_insert_new by done.
  assert (w p n = 0) as -> by (specialize (Hz p); unfold node_weight in Hz; by rewrite lookup_insert_eq in Hz).
  apply IH. intros q. specialize (Hz q). unfold node_weight in *. destruct (decide (q = p)) as [->|Hne]; [by rewrite Hp|].
  by rewrite lookup_insert_ne in Hz.
Qed.

(** The sum only depends on the weight of each path. *)
Lemma usage_ext w fs fs' : (forall p, node_weight w fs p = node_weight w fs' p) -> usage w fs = usage w fs'.
Proof.
  revert fs'. induction fs as [|p n fs Hp IH] using map_ind; intros fs' Heq.
  - symmetry. apply usage_empty_weight. intros p. by rewrite <- Heq.
  - rewrite usage_insert_new by done. rewrite (IH (delete p fs')).
    + rewrite usage_delete, <- Heq. unfold node_weight. rewrite lookup_insert_eq. lia.
    + intros q. specialize (Heq q). unfold node_weight in *. destruct (decide (p = q)) as [<-|Hne].
      * by rewrite Hp, lookup_delete_eq.
      * by rewrite lookup_insert_ne in Heq; [rewrite lookup_delete_ne|].
Qed.

Lemma usage_added w p fs fs' : (forall q, w q NDir = 0) -> added_dirs p fs fs' -> usage w fs' = usage w fs.
Proof.
  intros Hw Ha. apply usage_ext. intros q. unfold node_weight.
  destruct (Ha q) as [->|(-> & -> & _)]; [done|]. by rewrite Hw.
Qed.

(** *** The order of a walk *)

Lemma string_ltb_trans a b c : String.ltb a b = true -> String.ltb b c = true -> String.ltb a c = true.
Proof.
  unfold String.ltb. destruct (String.compare a b) eqn:E1; [done| |done]. destruct (String.compare b c) eqn:E2; [done| |done].
  by rewrite (string_lt_trans _ _ _ E1 E2).
Qed.

Lemma path_ltb_trans p q r : path_ltb p q = true -> path_ltb q r = true -> path_ltb p r = true.
Proof.
  revert q r. induction p as [|x p IH]; intros [|y q] [|z r]; cbn; try done.
  rewrite !orb_true_iff, !andb_true_iff, !String.eqb_eq.
  intros [H1|[<- H1]] [H2|[<- H2]]; eauto using string_ltb_trans.
Qed.

Lemma path_ltb_total p q : path_ltb p q = false -> p = q \/ path_ltb q p = true.
Proof.
  revert q. induction p as [|x p IH]; intros [|y q]; cbn; auto.
  rewrite orb_false_iff, string_ltb_false. intros [[<-|Hlt] H2].
  - rewrite String.eqb_refl in H2 |- *. destruct (IH q H2) as [->|Hq]; [by left|right]. by rewrite Hq, orb_true_r.
  - right. unfold String.ltb. by rewrite Hlt.
Qed.

#[export] Instance path_not_after_total : Total (not_after path_ltb).
Proof.
  intros p q. unfold not_after. destruct (path_ltb q p) eqn:E; [right|by left].
  destruct (path_ltb p q) eqn:E'; [|done]. pose proof (path_ltb_trans _ _ _ E E') as H.
  exfalso. clear -H. induction q as [|x q IH]; cbn in H; [done|]. apply orb_true_iff in H as [H|[_ H]%andb_true_iff]; [|by apply IH].
  unfold String.ltb in H. by rewrite string_compare_refl in H.
Qed.

#[export] Instance path_not_after_trans : Transitive (not_after path_ltb).
Proof.
  intros p q r. unfold not_after. intros H1 H2. destruct (path_ltb r p) eqn:E; [|done].
  destruct (path_ltb_total _ _ H1) as [->|H1']; [congruence|]. by rewrite (path_ltb_trans _ _ _ E H1') in H2.
Qed.

Lemma path_ltb_below p r : r <> [] -> path_ltb p (p ++ r) = true.
Proof. intros Hr. induction p as [|x p IH]; cbn; [by destruct r|]. by rewrite String.eqb_refl, IH, orb_true_r. Qed.

(** A walk reaches a node after the directories above it. *)
Lemma walk_paths_order fs p a q b r :
  walk_paths fs p = a ++ q :: b -> r <> [] -> q ++ r ∈ a -> False.
Proof.
  intros E Hr Hin. pose proof (sort_slice_sorted path_ltb _ path_not_after_trans path_not_after_total : StronglySorted _ (walk_paths fs p)) as Hs.
  rewrite E in Hs. pose proof (StronglySorted_app_1_elem_of _ _ _ _ _ Hs Hin (list_elem_of_here _ _)) as Hn.
  unfold not_after in Hn. by rewrite path_ltb_below in Hn.
Qed.

Lemma walk_paths_NoDup fs p : NoDup (walk_paths fs p).
Proof. unfold walk_paths. rewrite sort_slice_perm. apply NoDup_ListNoDup, NoDup_filter, NoDup_ListNoDup, NoDup_fst_map_to_list. Qed.

(** Entries before the directories that contain them can all be removed. *)
Lemma remove_each_success `{HE : HostEnv} ps h :
  no_faults -> NoDup ps -> (forall q, q ∈ ps -> q <> [] /\ is_Some (h_fs h !! q)) ->
  (forall a q b x n, ps = a ++ q :: b -> h_fs h !! (q ++ [x]) = Some n -> q ++ [x] ∈ a) ->
  (remove_each ps None h).2 = None.
Proof.
  intros Hn. revert h. induction ps as [|q ps IH]; intros h Hnd Hex Hch; [done|]. cbn [remove_each].
  apply list.NoDup_cons in Hnd as [Hq Hnd]. destruct (Hex q (list_elem_of_here _ _)) as [Hqne [n Hqn]].
  assert (Hno : has_children (h_fs h) q = false).
  { apply not_true_iff_false. intros (x & m & Hx)%has_children_spec. by apply (Hch [] q ps) in Hx as ?%not_elem_of_nil. }
  rewrite ST_bind_run. unfold call. rewrite Hn.
  assert (Hu : unlink_at q (h_fs h) = (delete q (h_fs h), Ok tt)).
  { unfold unlink_at. destruct q as [|y q]; [done|]. cbn [fs_lookup]. rewrite Hqn, Hno. by destruct n. }
  rewrite Hu. cbn [fst snd]. apply IH; [done| |].
  - intros q' Hq'. destruct (Hex q') as [Hne Hs]; [by right|]. split; [done|]. cbn. rewrite lookup_delete_ne; [done|]. by intros ->.
  - cbn. intros a q' b x m -> [Hne Hx]%lookup_delete_Some.
    pose proof (Hch (q :: a) q' b x m eq_refl Hx) as [E|?]%elem_of_cons; [by rewrite E in Hne|done].
Qed.

Lemma os_RemoveAll_success `{HE : HostEnv} p h :
  no_faults -> fs_wf (h_fs h) -> Forall plain p -> p <> [] -> no_links (h_fs h) p -> is_Some (h_fs h !! p) ->
  (os_RemoveAll (abs_path p) h).2 = Ok tt.
Proof.
  intros Hn Hwf Hp Hne Hl Hex. assert (Hlk : fs_lookup (h_fs h) p = h_fs h !! p) by (by destruct p).
  unfold os_RemoveAll. rewrite ST_bind_run, query_run by done. cbn [fst snd].
  assert (Hnm : namei false (abs_path p) (h_fs h) = Ok p).
  { destruct p as [|x d _] using rev_ind; [done|]. destruct Hex as [n Hx]. destruct (Hwf _ _ _ Hx) as [Hd _].
    apply namei_real; [|by apply fs_wf_real|done]. apply (fs_wf_good (h_fs h)); [done|]. rewrite Hlk. by eexists. }
  rewrite Hnm, Hlk. destruct Hex as [n Hx]. rewrite Hx. rewrite ST_bind_run. cbn [fst snd].
  set (ps := rev (p :: walk_paths (h_fs h) p)). set (h1 := h <| h_tick ::= S |>).
  rewrite remove_each_success; [done|done| | |].
  - unfold ps. rewrite <- Permutation_rev. apply list.NoDup_cons. split; [|apply walk_paths_NoDup].
    intros [_ (r & Hr & E)]%walk_paths_spec. rewrite <- (app_nil_r p) in E at 1. by apply app_inv_head in E.
  - intros q Hq. unfold ps in Hq. rewrite <- Permutation_rev, elem_of_cons, walk_paths_spec in Hq.
    change (h_fs h1) with (h_fs h). destruct Hq as [->|[Hs (r & Hr & ->)]]; [by split; [|eexists]|split; [by destruct p|done]].
  - change (h_fs h1) with (h_fs h). intros a q b x m E Hm. unfold ps in E. apply (f_equal (@rev _)) in E.
    rewrite rev_involutive, rev_app_distr in E. cbn [rev] in E. rewrite <- app_assoc in E. cbn [app] in E.
    assert (Hq : q ∈ p :: walk_paths (h_fs h) p) by (rewrite E; apply elem_of_app; right; by left).
    assert (Hqr : exists r, q = p ++ r).
    { apply elem_of_cons in Hq as [->|[_ (r & _ & ->)]%walk_paths_spec]; [exists []; by rewrite app_nil_r|by exists r]. }
    destruct Hqr as [r ->].
    assert (Hc : (p ++ r) ++ [x] ∈ p :: walk_paths (h_fs h) p).
    { right. apply walk_paths_spec. split; [by eexists|]. exists (r ++ [x]). split; [by destruct r|by rewrite app_assoc]. }
    rewrite E in Hc. apply elem_of_app in Hc as [Hc|[Hc|Hc]%elem_of_cons].
    + exfalso. destruct (rev b) as [|y b']; [by apply not_elem_of_nil in Hc|]. injection E as <- E.
      apply elem_of_cons in Hc as [Hc|Hc]; [|by eapply (walk_paths_order _ _ _ _ _ [x] E)].
      apply (f_equal length) in Hc. rewrite !length_app in Hc. cbn in Hc. lia.
    + exfalso. apply (f_equal length) in Hc. rewrite !length_app in Hc. cbn in Hc. lia.
    + by rewrite list_elem_of_In, <- in_rev, <- list_elem_of_In in Hc.
Qed.

(** A measure of the nodes below [rp] is a sum over the paths of a walk. *)
Lemma usage_walk w fs rp :
  (forall q n, match below rp q with Some (_ :: _) => True | _ => w q n = 0 end) ->
  usage w fs = sumZ (map (node_weight w fs) (walk_paths fs rp)).
Proof.
  intros Hw. unfold walk_paths. rewrite sort_slice_perm.
  set (f := fun q => match below rp q with Some (_ :: _) => true | _ => false end).
  assert (Hfil : sumZ (map (node_weight w fs) (List.filter f (map_to_list fs).*1)) = sumZ (map (node_weight w fs) (map_to_list fs).*1)).
  { apply sumZ_filter. intros q _ Hq. unfold node_weight, f in *. destruct (fs !! q) as [n|]; [|done].
    specialize (Hw q n). by destruct (below rp q) as [[|? ?]|]. }
  rewrite Hfil. clear Hfil. unfold usage. f_equal.
  assert (Hall : forall x, x ∈ map_to_list fs -> fs !! x.1 = Some x.2) by (intros [q n] Hx; by apply elem_of_map_to_list).
  induction (map_to_list fs) as [|x l IH]; [done|]. cbn. rewrite <- IH by (intros y Hy; apply Hall; by right).
  f_equal. unfold node_weight. by rewrite (Hall x) by (by left).
Qed.

Lemma walk_each_fs `{HE : HostEnv} ps h : h_fs (walk_each ps h).1 = h_fs h.
Proof.
  revert h. induction ps as [|p ps IH]; intros h; [done|]. cbn [walk_each]. rewrite ST_bind_run.
  destruct (os_Lstat (abs_path p) h) as [h1 r] eqn:E. apply stat_call in E as [Hfs _]. cbn [fst snd].
  destruct r as [i|e]; [|done]. rewrite ST_bind_run. cbn. by rewrite IH.
Qed.

Lemma Walk_fs `{HE : HostEnv} root h : h_fs (Walk root h).1 = h_fs h.
Proof.
  unfold Walk. destruct (os_Lstat root h) as [h1 r] eqn:E. apply stat_call in E as [Hfs _].
  destruct r as [i|e]; [|done]. destruct (Info_IsDir i); [|done]. destruct (namei false root (h_fs h1)) as [p|]; [|done].
  pose proof (walk_each_fs (walk_paths (h_fs h1) p) h1) as Hw. destruct (walk_each _ h1) as [h2 l]. cbn in *. congruence.
Qed.

Lemma usage_mono w fs fs' : (forall p n, 0 <= w p n) -> fs' ⊆ fs -> usage w fs' <= usage w fs.
Proof.
  intros Hw. revert fs. induction fs' as [|p n m Hp IH] using map_ind; intros fs Hsub.
  - unfold usage at 1. rewrite map_to_list_empty. cbn. unfold usage.
    unfold sumZ. induction (map_to_list fs) as [|x l IHl]; cbn; [done|]. pose proof (Hw x.1 x.2). lia.
  - assert (Hn : fs !! p = Some n) by (eapply lookup_weaken; [|exact Hsub]; apply lookup_insert_eq).
    rewrite usage_insert_new by done. assert (usage w m <= usage w (delete p fs)).
    { apply IH. apply map_subseteq_spec. intros q k Hq. destruct (decide (q = p)) as [->|Hne]; [congruence|].
      rewrite lookup_delete_ne by done. eapply lookup_weaken; [|exact Hsub]. by rewrite lookup_insert_ne. }
    rewrite usage_delete in H. unfold node_weight in H. rewrite Hn in H. lia.
Qed.

(** *** Moving a directory *)

Lemma move_path_old old new r : move_path old new (old ++ r) = new ++ r.
Proof. unfold move_path. by rewrite below_app. Qed.

Lemma move_path_other old new p : under old p = false -> move_path old new p = p.
Proof. unfold move_path, under. by destruct (below old p). Qed.

Lemma relocate_lookup old new fs p n :
  (forall r, fs !! (new ++ r) = None) ->
  relocate old new fs !! p = Some n <-> exists q, fs !! q = Some n /\ move_path old new q = p.
Proof.
  intros Hnew. unfold relocate.
  assert (Hinj : forall q1 n1 q2 n2, fs !! q1 = Some n1 -> fs !! q2 = Some n2 -> move_path old new q1 = move_path old new q2 -> q1 = q2).
  { assert (Hno : forall q n, fs !! q = Some n -> under new q = false).
    { intros q m Hq. apply not_true_iff_false. intros [r ->]%under_spec. by rewrite Hnew in Hq. }
    intros q1 n1 q2 n2 H1 H2 E. destruct (under old q1) eqn:E1, (under old q2) eqn:E2.
    - apply under_spec in E1 as [r1 ->], E2 as [r2 ->]. rewrite !move_path_old in E. by apply app_inv_head in E as ->.
    - apply under_spec in E1 as [r1 ->]. rewrite move_path_old, move_path_other in E by done. subst q2.
      rewrite Hnew in H2. done.
    - apply under_spec in E2 as [r2 ->]. rewrite move_path_old, move_path_other in E by done. subst q1. by rewrite Hnew in H1.
    - by rewrite !move_path_other in E by done. }
  rewrite <- elem_of_list_to_map.
  - rewrite list_elem_of_fmap. split.
    + intros ([q m] & [= -> ->] & Hin%elem_of_map_to_list). cbn in *. eauto.
    + intros (q & Hq & <-). exists (q, n). split; [done|]. by apply elem_of_map_to_list.
  - rewrite map_map. cbn. pose proof (NoDup_map_to_list fs) as Hnd.
    assert (Hall : forall x, x ∈ map_to_list fs -> fs !! x.1 = Some x.2) by (intros [q m] Hx; by apply elem_of_map_to_list).
    induction Hnd as [|x l Hx Hnd IH]; [constructor|]. cbn. apply list.NoDup_cons. split.
    + intros (y & Ey & Hy)%list_elem_of_fmap. assert (x = y); [|by subst].
      pose proof (Hall x ltac:(by left)) as Hx'. pose proof (Hall y ltac:(by right)) as Hy'.
      pose proof (Hinj _ _ _ _ Hx' Hy' Ey) as Exy. destruct x, y. cbn in *. subst. congruence.
    + apply IH. intros y Hy. apply Hall. by right.
Qed.

(** The tree at [old] is now at [new], and nothing else has changed. *)
Lemma relocate_spec old new fs :
  under old new = false -> under new old = false -> (forall r, fs !! (new ++ r) = None) ->
  (forall r, relocate old new fs !! (new ++ r) = fs !! (old ++ r)) /\
  (forall r, relocate old new fs !! (old ++ r) = None) /\
  (forall p, under old p = false -> under new p = false -> relocate old new fs !! p = fs !! p).
Proof.
  intros H1 H2 Hnew. assert (Hiff := fun p n => relocate_lookup old new fs p n Hnew).
  assert (Hon : forall r s, new ++ r = old ++ s -> False).
  { intros r s E. apply app_eq_app in E as (l & [[E _]|[E _]]).
    - by rewrite (proj2 (under_spec old new)) in H1 by eauto.
    - by rewrite (proj2 (under_spec new old)) in H2 by eauto. }
  assert (Hmv : forall q, (exists r, q = old ++ r /\ move_path old new q = new ++ r) \/
                          (under old q = false /\ move_path old new q = q)).
  { intros q. destruct (under old q) eqn:Eq; [left|right; by rewrite move_path_other].
    apply under_spec in Eq as [r ->]. exists r. by rewrite move_path_old. }
  split_and!.
  - intros r. apply option_eq. intros n. rewrite Hiff. split.
    + intros (q & Hq & E). destruct (Hmv q) as [(r' & -> & Er)|[_ Er]]; rewrite Er in E; [by apply app_inv_head in E as ->|].
      subst q. by rewrite Hnew in Hq.
    + intros Hq. exists (old ++ r). by rewrite move_path_old.
  - intros r. destruct (relocate old new fs !! (old ++ r)) as [n|] eqn:E; [|done]. apply Hiff in E as (q & Hq & E).
    destruct (Hmv q) as [(r' & -> & Er)|[Hu Er]]; rewrite Er in E; [by apply Hon in E|].
    subst q. by rewrite (proj2 (under_spec old _)) in Hu by eauto.
  - intros p Ho Hn. apply option_eq. intros n. rewrite Hiff. split.
    + intros (q & Hq & E). destruct (Hmv q) as [(r' & -> & Er)|[_ Er]]; rewrite Er in E; [|by subst].
      subst p. by rewrite (proj2 (under_spec new _)) in Hn by eauto.
    + intros Hq. exists p. by rewrite move_path_other.
Qed.

(** A path that ends in [x] and is found without following [x]. *)
Lemma namei_nofollow fs p x q :
  Forall plain (p ++ [x]) -> no_links fs p -> namei false (abs_path (p ++ [x])) fs = Ok q -> q = p ++ [x] /\ good_name x.
Proof.
  intros Hp Hl. rewrite namei_split by done. pose proof (resolve_nofollow fs MAXSYMLINKS [] p x Hp) as Hr.
  intros E. rewrite E in Hr. destruct Hr as [-> Hb]; [intros a b t Hab _; by apply (Hl a b)|]. split; [done|].
  apply Forall_app in Hp as [_ Hx]. by inversion Hx.
Qed.

Lemma fs_wf_empty fs p r : fs_wf fs -> has_children fs p = false -> r <> [] -> fs !! (p ++ r) = None.
Proof.
  intros Hwf Hc Hr. destruct r as [|x r]; [done|].
  assert (Hx : fs_lookup fs (p ++ [x]) = None).
  { rewrite fs_lookup_snoc. destruct (fs !! (p ++ [x])) as [n|] eqn:E; [|done].
    by rewrite (proj2 (has_children_spec fs p)) in Hc by eauto. }
  pose proof (fs_wf_missing _ _ r Hwf Hx) as Hm. rewrite <- app_assoc in Hm. cbn in Hm. by destruct p.
Qed.

(** [a] and [b] are different names in the directory [d]. *)
Lemma siblings_apart (d : path) (a b : string) : a <> b -> under (d ++ [a]) (d ++ [b]) = false.
Proof.
  intros Hne. apply not_true_iff_false. intros [r E]%under_spec. rewrite <- app_assoc in E. apply app_inv_head in E. cbn in E. congruence.
Qed.

Lemma siblings_disjoint (d : path) (a b : string) (r s : path) : a <> b -> d ++ a :: r <> d ++ b :: s.
Proof. intros Hne E. apply app_inv_head in E. congruence. Qed.

(** Renaming an entry of [d] to a name that is free, or an empty directory. *)
Lemma rename_at_spec d a b fs fs' r :
  fs_wf fs -> real_dir fs d -> Forall plain (d ++ [a]) -> Forall plain (d ++ [b]) -> a <> b ->
  rename_at (abs_path (d ++ [a])) (abs_path (d ++ [b])) fs = (fs', r) ->
  (fs' = fs /\ r <> Ok tt) \/
  (r = Ok tt /\ is_Some (fs !! (d ++ [a])) /\ (forall s, s <> [] -> fs !! (d ++ [b] ++ s) = None) /\ good_name b /\
   (forall s, fs' !! (d ++ [b] ++ s) = fs !! (d ++ [a] ++ s)) /\
   (forall s, fs' !! (d ++ [a] ++ s) = None) /\
   (forall p, under (d ++ [a]) p = false -> under (d ++ [b]) p = false -> fs' !! p = fs !! p)).
Proof.
  intros Hwf Hd Ha Hb Hne. unfold rename_at.
  assert (Hl : no_links fs d) by (intros x y t Hxy; by rewrite (Hd x y Hxy)).
  destruct (namei false (abs_path (d ++ [a])) fs) as [old|e] eqn:Eo; [|intros [= <- <-]; by left].
  destruct (namei false (abs_path (d ++ [b])) fs) as [new|e] eqn:En; [|intros [= <- <-]; by left].
  apply namei_nofollow in Eo as [-> _]; [|done..]. apply namei_nofollow in En as [-> Hgb]; [|done..].
  rewrite !fs_lookup_snoc. destruct (fs !! (d ++ [a])) as [n|] eqn:Ea; [|intros [= <- <-]; by left].
  rewrite bool_decide_false by (intros E; apply app_inv_head in E; congruence).
  rewrite !bool_decide_false by (by destruct d). rewrite siblings_apart by done. cbn [orb].
  assert (Hmain : forall fs0, (forall p, p <> d ++ [b] -> fs0 !! p = fs !! p) -> (forall s, fs0 !! ((d ++ [b]) ++ s) = None) ->
    (forall s, relocate (d ++ [a]) (d ++ [b]) fs0 !! (d ++ [b] ++ s) = fs !! (d ++ [a] ++ s)) /\
    (forall s, relocate (d ++ [a]) (d ++ [b]) fs0 !! (d ++ [a] ++ s) = None) /\
    (forall p, under (d ++ [a]) p = false -> under (d ++ [b]) p = false -> relocate (d ++ [a]) (d ++ [b]) fs0 !! p = fs !! p)).
  { intros fs0 Hsame Hnone. destruct (relocate_spec (d ++ [a]) (d ++ [b]) fs0) as (R1 & R2 & R3);
      [by apply siblings_apart|by apply siblings_apart|done|]. split_and!.
    - intros s. rewrite !app_assoc, R1. apply Hsame. rewrite <- app_assoc. by apply siblings_disjoint.
    - intros s. by rewrite app_assoc.
    - intros p Hp1 Hp2. rewrite R3 by done. apply Hsame. intros ->. rewrite (proj2 (under_spec _ _)) in Hp2; [done|].
      exists []. by rewrite app_nil_r. }
  destruct (fs !! (d ++ [b])) as [n'|] eqn:Eb.
  - destruct (is_dir n && negb (is_dir n')); [intros [= <- <-]; by left|].
    destruct (negb (is_dir n) && is_dir n'); [intros [= <- <-]; by left|].
    destruct (has_children fs (d ++ [b])) eqn:Ec; [intros [= <- <-]; by left|].
    intros [= <- <-]. right. split; [done|]. split; [by eexists|].
    assert (Hemp : forall s, s <> [] -> fs !! (d ++ [b] ++ s) = None) by (intros s Hs; rewrite app_assoc; by apply fs_wf_empty).
    split; [done|]. split; [done|]. apply Hmain.
    + intros p Hp. by rewrite lookup_delete_ne.
    + intros s. destruct s as [|x s]; [by rewrite app_nil_r, lookup_delete_eq|].
      rewrite lookup_delete_ne; [rewrite <- app_assoc; by apply Hemp|].
      intros E. rewrite <- (app_nil_r (d ++ [b])) in E at 1. by apply app_inv_head in E.
  - intros [= <- <-]. right. split; [done|]. split; [by eexists|].
    assert (Hemp : forall s, fs !! ((d ++ [b]) ++ s) = None).
    { intros s. assert (Hm : fs_lookup fs (d ++ [b]) = None) by (by rewrite fs_lookup_snoc).
      pose proof (fs_wf_missing _ _ s Hwf Hm) as Hs. by destruct d. }
    split; [intros s _; rewrite app_assoc; apply Hemp|]. split; [done|]. by apply Hmain.
Qed.

(** *** Removing a tree *)

(** No link before the last name. *)
Definition no_links_above (fs : FS) (p : path) : Prop := forall d x, p = d ++ [x] -> no_links fs d.

Lemma no_links_above_intro fs p : no_links fs p -> no_links_above fs p.
Proof. intros Hl d x ->. by eapply no_links_app. Qed.

Lemma no_links_above_snoc fs d x : no_links fs d -> no_links_above fs (d ++ [x]).
Proof. intros Hl d' x' E. apply app_inj_tail in E as [<- _]. done. Qed.
#[export] Hint Resolve no_links_above_intro no_links_above_snoc : agentforge.

Lemma namei_above fs p q : Forall plain p -> no_links_above fs p -> namei false (abs_path p) fs = Ok q -> q = p.
Proof.
  intros Hp Hl E. destruct p as [|x d _] using rev_ind; [by injection E as <-|].
  apply namei_nofollow in E as [-> _]; [done|done|]. by eapply Hl.
Qed.

Lemma namei_above_missing fs p e :
  Forall plain p -> no_links_above fs p -> namei false (abs_path p) fs = Err e -> errors_Is e SNotExist = true ->
  exists a b, p = a ++ b /\ fs_lookup fs a = None.
Proof.
  intros Hp Hl E He. destruct p as [|x d _] using rev_ind; [done|]. rewrite namei_split in E by done.
  pose proof (resolve_nofollow fs MAXSYMLINKS [] d x Hp) as Hr. rewrite E in Hr.
  destruct Hr as (a & b & -> & Ha); [|done|exists a, (b ++ [x]); by rewrite app_assoc].
  intros a b t Hab _. by eapply (Hl d x eq_refl a b).
Qed.

Lemma os_RemoveAll_spec `{HE : HostEnv} p h h' r :
  Forall plain p -> no_links_above (h_fs h) p -> os_RemoveAll (abs_path p) h = (h', r) ->
  changes_only (at_or_under p) (h_fs h) (h_fs h') /\ (fs_wf (h_fs h) -> fs_wf (h_fs h')) /\
  (faults_ok -> fs_wf (h_fs h) -> r = Ok tt -> forall q, at_or_under p q -> h_fs h' !! q = None).
Proof.
  intros Hp Hl. unfold os_RemoveAll. rewrite ST_bind_run.
  set (f := fun fs => match namei false (abs_path p) fs with
                      | Err e => Err e
                      | Ok p0 => match fs_lookup fs p0 with
                                 | None => Err ENOENT
                                 | Some _ => Ok (rev (p0 :: walk_paths fs p0))
                                 end
                      end).
  destruct (query "lstat" (abs_path p) f h) as [h1 r1] eqn:E1. cbn [fst snd]. pose proof (query_pair _ _ _ _ _ _ E1) as Hfs1.
  destruct r1 as [ps|e].
  - assert (Hps : ps = rev (p :: walk_paths (h_fs h) p)).
    { assert (Hf : f (h_fs h) = Ok ps) by (eapply query_ok; by rewrite E1). unfold f in Hf.
      destruct (namei false (abs_path p) (h_fs h)) as [q|] eqn:En; [|done]. apply namei_above in En as ->; [|done..].
      destruct (fs_lookup (h_fs h) p); [congruence|done]. }
    assert (Hin : forall q, q ∈ ps <-> q = p \/ (is_Some (h_fs h !! q) /\ exists r, r <> [] /\ q = p ++ r)).
    { intros q. rewrite Hps, list_elem_of_In, <- in_rev, <- list_elem_of_In, elem_of_cons, walk_paths_spec. done. }
    rewrite ST_bind_run. destruct (remove_each_spec ps None h1) as [Hc Hw]. pose proof (remove_each_ok ps None h1) as Hok.
    destruct (remove_each ps None h1) as [h2 e]. cbn [fst snd] in *. rewrite Hfs1 in *. intros [= <- <-].
    split; [|split; [done|]].
    + eapply changes_weaken; [|exact Hc]. intros q [->|(_ & r & _ & ->)]%Hin; [exists []; by rewrite app_nil_r|by exists r].
    + intros _ _ He q [r' ->]. destruct e; [done|]. destruct (Hok eq_refl) as [_ Hq]. rewrite Hq. case_decide as Hd; [done|].
      destruct (h_fs h !! (p ++ r')) as [n|] eqn:En; [|done]. destruct Hd. apply Hin.
      destruct r' as [|y r']; [left; by rewrite app_nil_r|right]. split; [by eexists|]. by exists (y :: r').
  - intros [= <- <-]. rewrite Hfs1. split; [apply changes_refl|]. split; [done|]. intros Hfa Hwf He q [r' ->].
    destruct (errors_Is e SNotExist) eqn:Ee; [|done].
    destruct (query_not_exist "lstat" (abs_path p) f h e Hfa) as (e' & Hf & He'); [by rewrite E1|done|]. unfold f in Hf.
    assert (Hnone : exists a b, p = a ++ b /\ fs_lookup (h_fs h) a = None).
    { destruct (namei false (abs_path p) (h_fs h)) as [p'|e1] eqn:En.
      - apply namei_above in En as ->; [|done..]. exists p, []. rewrite app_nil_r.
        destruct (fs_lookup (h_fs h) p); [done|by split].
      - injection Hf as ->. by eapply namei_above_missing. }
    destruct Hnone as (a & b & -> & Ha). pose proof (fs_wf_missing _ _ (b ++ r') Hwf Ha) as Hm. rewrite <- app_assoc.
    destruct a; [done|exact Hm].
Qed.

(** *** Creating a file and writing to it *)

Lemma os_Create_err `{HE : HostEnv} name perm h h' e : os_Create name perm h = (h', Err e) -> h_fs h' = h_fs h.
Proof.
  unfold os_Create, call. destruct (fault (h_tick h)); [by intros [= <- _]|].
  destruct (creat_at name perm (h_fs h)) as [fs [q|e']] eqn:Ec; intros [= <- _]. cbn.
  unfold creat_at in Ec. destruct (namei _ _ _) as [q|]; [|by injection Ec as <- _].
  by destruct (fs_lookup (h_fs h) q) as [[]|]; injection Ec as <-.
Qed.

Lemma os_Write_spec `{HE : HostEnv} name p data h h' r mode old :
  h_fs h !! p = Some (NFile mode old) -> os_Write name p data h = (h', r) ->
  exists written, h_fs h' = <[p := NFile mode written]> (h_fs h) /\ (r = Ok tt -> written = data) /\ (no_faults -> r = Ok tt).
Proof.
  intros Hp. unfold os_Write. destruct (fault (h_tick h)) as [e|] eqn:Ef; intros [= <- <-]; cbn; rewrite (set_data_file _ _ _ _ _ Hp);
    eexists; (split; [done|]); (split; [done|]); intros Hn; [|done]. by rewrite Hn in Ef.
Qed.

Lemma os_CreateExcl_cases `{HE : HostEnv} d x perm h h' r :
  Forall plain (d ++ [x]) -> no_links (h_fs h) d -> os_CreateExcl (abs_path (d ++ [x])) perm h = (h', r) ->
  match r with
  | Err _ => h_fs h' = h_fs h
  | Ok p => p = d ++ [x] /\ h_fs h !! p = None /\ good_name x /\ h_fs h' = <[p := NFile perm []]> (h_fs h)
  end.
Proof.
  intros Hp Hl E. destruct r as [p|e].
  - apply call_ok in E. unfold excl_at in E. destruct (namei false _ _) as [q|] eqn:En; [|done].
    apply namei_nofollow in En as [-> Hg]; [|done..]. rewrite fs_lookup_snoc in E.
    destruct (h_fs h !! (d ++ [x])) eqn:Ex; [done|]. by injection E as <- <-.
  - unfold os_CreateExcl, call in E. destruct (fault (h_tick h)); [by injection E as <- _|].
    unfold excl_at in E. destruct (namei false _ _) as [q|]; [destruct (fs_lookup (h_fs h) q)|]; try done; by injection E as <- _.
Qed.

(** Removing a file: it is gone, or the call failed and it is still there. *)
Lemma os_Remove_file `{HE : HostEnv} d x mode data h h' r :
  Forall good_name (d ++ [x]) -> real_dir (h_fs h) d -> h_fs h !! (d ++ [x]) = Some (NFile mode data) ->
  os_Remove (abs_path (d ++ [x])) h = (h', r) ->
  (h_fs h' = delete (d ++ [x]) (h_fs h) \/ h_fs h' = h_fs h) /\ (no_faults -> h_fs h' = delete (d ++ [x]) (h_fs h)).
Proof.
  intros Hg Hr Hx. unfold os_Remove, call. destruct (fault (h_tick h)) as [e|] eqn:Ef.
  { intros [= <- _]. cbn. split; [by right|]. intros Hn. by rewrite Hn in Ef. }
  rewrite namei_real by done. unfold unlink_at. rewrite fs_lookup_snoc, Hx. intros [= <- _]. cbn. auto.
Qed.

Lemma os_Mkdir_cases `{HE : HostEnv} d x h h' r :
  Forall plain (d ++ [x]) -> no_links (h_fs h) d -> os_Mkdir (abs_path (d ++ [x])) h = (h', r) ->
  match r with
  | Err _ => h_fs h' = h_fs h
  | Ok _ => h_fs h !! (d ++ [x]) = None /\ good_name x /\ real_dir (h_fs h) d /\ h_fs h' = <[d ++ [x] := NDir]> (h_fs h)
  end.
Proof.
  intros Hp Hl E. destruct r as [[]|e].
  - apply call_ok in E. unfold mkdir_at in E. destruct (namei false _ _) as [q|] eqn:En; [|done]. pose proof En as En'.
    apply namei_nofollow in En as [-> Hg]; [|done..]. rewrite fs_lookup_snoc in E.
    destruct (h_fs h !! (d ++ [x])); [done|]. injection E as <-. split_and!; try done. by eapply namei_parent.
  - unfold os_Mkdir, call in E. destruct (fault (h_tick h)); [by injection E as <- _|].
    unfold mkdir_at in E. destruct (namei false _ _) as [q|]; [destruct (fs_lookup (h_fs h) q)|]; try done; by injection E as <- _.
Qed.
