(* ===== verification/Workspace.v ===== *)
(** * Workspace: the files of a run (src/pkg/workspace/workspace.go, src/pkg/workspace/local.go)

    [LocalManager] gives a run a directory of the host with quotas on bytes and files.  Its
    operations work on the manager and the file system of [FileSystem].  The archive formats
    tar and gzip are not determined by the program: [ArchiveCodec] says what their reader and
    writer do, and the round trip is a law.  The lock of the manager makes its operations
    atomic towards each other, so they are functions on the state. *)

From Stdlib Require Import Ascii.
From S2P Require Import Prelude GoLib Artifacts FileSystem.

(** ** workspace.go *)

Record WsConfig : Type := mkWsConfig {
  Root : string;
  MaxTotalBytes : Z;
  MaxArchiveBytes : Z;
  MaxFileCount : Z }.

#[global] Instance WsConfig_eta : Eta WsConfig := fun c =>
  mkWsConfig (Root c) (MaxTotalBytes c) (MaxArchiveBytes c) (MaxFileCount c).

Definition DefaultWsConfig (runID : string) : WsConfig :=
  mkWsConfig ("/tmp/agentforge/" +:+ runID) (50 * 1024 * 1024) (60 * 1024 * 1024) 2000.

Record FileInfo : Type := mkFileInfo {
  FI_Name : string;
  FI_Path : string;
  FI_IsDir : bool;
  FI_Size : Z }.

(** The operations of [Manager] on files, as the file tools use them. *)
Class WorkspaceFiles (F : Type) := {
  Ws_Write : string -> bytes -> F -> F * result error unit;
  Ws_Read : string -> F -> F * result error bytes;
  Ws_List : string -> F -> F * result error (list FileInfo);
  Ws_Stat : string -> F -> F * result error FileInfo;
  Ws_Delete : string -> F -> F * result error unit }.

(** ** Archives *)

Inductive TarType : Type := TypeDir | TypeReg | TypeOther.

(** A header and what reading its body yields: bytes, and the error that ends them if the
    archive is damaged. *)
Record TarEntry : Type := mkTarEntry {
  te_name : string;
  te_type : TarType;
  te_size : Z;
  te_mode : Z;
  te_body : bytes;
  te_err : option error }.

(** Writing fails if an entry cannot be encoded.  Reading yields entries until the end of the
    archive or an error; [targz_consumed data n] is the number of bytes of [data] that were
    read when the reader stopped after [n] entries. *)
Class ArchiveCodec := {
  targz_write : list TarEntry -> result error bytes;
  targz_read : bytes -> result error (list TarEntry * option error);
  targz_consumed : bytes -> nat -> Z }.

(** The reader finds in an archive what the writer put there, and reads no more than there is. *)
Definition codec_ok `{ArchiveCodec} : Prop :=
  forall l data, targz_write l = Ok data -> targz_read data = Ok (l, None) /\ forall n, targz_consumed data n <= Z.of_nat (length data).

(** ** local.go *)

Definition ErrPathTraversal : error := mkErr [SPathTraversal] "workspace: path traversal detected".
Definition ErrQuotaBytes : error := mkErr [SQuotaBytes] "workspace: total bytes quota exceeded".
Definition ErrQuotaFiles : error := mkErr [SQuotaFiles] "workspace: file count quota exceeded".

Record LocalManager : Type := mkLocalManager {
  lm_cfg : WsConfig;
  lm_totalBytes : Z;
  lm_fileCount : Z }.

#[global] Instance LocalManager_eta : Eta LocalManager := fun m =>
  mkLocalManager (lm_cfg m) (lm_totalBytes m) (lm_fileCount m).

(** The manager and the host it runs on. *)
Record LocalWs : Type := mkLocalWs { lw_m : LocalManager; lw_host : Host }.

#[global] Instance LocalWs_eta : Eta LocalWs := fun w => mkLocalWs (lw_m w) (lw_host w).

Definition lw_root (w : LocalWs) : string := Root (lm_cfg (lw_m w)).
Definition lw_fs (w : LocalWs) : FS := h_fs (lw_host w).

Section local.
Context `{HostEnv} `{ArchiveCodec}.
Abbreviation IO := (ST Host).
Abbreviation M := (ST LocalWs).

Definition io {A} (f : IO A) : M A := fun w =>
  let '(h, a) := f (lw_host w) in (w <| lw_host := h |>, a).

Definition cfg : M WsConfig := fun w => (w, lm_cfg (lw_m w)).
Definition manager : M LocalManager := fun w => (w, lw_m w).
Definition set_usage (total count : Z) : M unit :=
  modifyW (fun w => w <| lw_m ::= fun m => m <| lm_totalBytes := total |> <| lm_fileCount := count |> |>).

(** The check of the components of a path, one [os.Lstat] per component. *)
Fixpoint check_components (cur : string) (parts : list string) : IO (result error unit) :=
  match parts with
  | [] => mret (Ok tt)
  | part :: parts' =>
      if String.eqb part "" || String.eqb part "." then check_components cur parts'
      else
        let cur := Join cur part in
        r ← os_Lstat cur;
        match r with
        | Err e => if errors_Is e SNotExist then check_components cur parts'
                   else mret (Err (wrapf "workspace: lstat: " e))
        | Ok info => if is_symlink (info_node info) then mret (Err ErrPathTraversal)
                     else check_components cur parts'
        end
  end.

Definition ensureNoSymlink (root abs : string) : IO (result error unit) :=
  if String.eqb abs root then mret (Ok tt)
  else
    match Rel root abs with
    | Err _ => mret (Err ErrPathTraversal)
    | Ok rel => check_components root (Split rel "/")
    end.

Definition safePath (root rel : string) : IO (result error string) :=
  let cleaned := Clean rel in
  if IsAbs cleaned then mret (Err ErrPathTraversal)
  else
    let abs := Join root cleaned in
    if negb (HasPrefix abs (root +:+ "/")) && negb (String.eqb abs root) then mret (Err ErrPathTraversal)
    else
      r ← ensureNoSymlink root abs;
      mret (match r with Err e => Err e | Ok _ => Ok abs end).

(** The totals over the files that were visited, and the error of the walk. *)
Definition recount : M (result error unit) :=
  c ← cfg;
  visited ← io (Walk (Root c));
  let files := List.filter (fun x => negb (Info_IsDir x.2)) visited.1 in
  _ ← set_usage (foldr (fun x n => info_size x.2 + n) 0 files) (Z.of_nat (length files));
  mret (match visited.2 with Some e => Err e | None => Ok tt end).

Definition NewLocalManager (wd : result error string) (c : WsConfig) : IO (result error LocalManager) := fun h =>
  match Abs wd (Root c) with
  | Err e => (h, Err (wrapf "workspace: resolve root: " e))
  | Ok absRoot =>
      let c := c <| Root := absRoot |> in
      let c := if MaxArchiveBytes c <=? 0 then c <| MaxArchiveBytes := MaxTotalBytes c + 10 * 1024 * 1024 |> else c in
      let '(h, r) := os_MkdirAll (Root c) h in
      match r with
      | Err e => (h, Err (wrapf "workspace: create root: " e))
      | Ok _ =>
          let w := (recount (mkLocalWs (mkLocalManager c 0 0) h)).1 in
          (lw_host w, Ok (lw_m w))
      end
  end.

(** [fmt.Errorf("<msg>%w", err)] on the error of a call *)
Definition wrap_err {A} (msg : string) (r : result error A) : result error A :=
  match r with Err e => Err (wrapf msg e) | Ok a => Ok a end.

(** The two steps of [Write] that change files. *)
Definition write_file (abs : string) (content : bytes) : M (result error unit) :=
  r ← io (os_MkdirAll (Dir abs));
  match r with
  | Err e => mret (Err (wrapf "workspace: mkdir: " e))
  | Ok _ => r ← io (os_WriteFile abs content 384); mret (wrap_err "workspace: write: " r)
  end.

(** [Write] after the path check. *)
Definition Write_locked (abs : string) (content : bytes) : M (result error unit) :=
  m ← manager;
  info ← io (os_Stat abs);
  let oldSize := match info with Ok i => info_size i | Err _ => 0 end in
  let isNew := match info with Ok _ => false | Err _ => true end in
  let newTotal := lm_totalBytes m - oldSize + Z.of_nat (length content) in
  if MaxTotalBytes (lm_cfg m) <? newTotal then mret (Err ErrQuotaBytes)
  else if isNew && (MaxFileCount (lm_cfg m) <? lm_fileCount m + 1) then mret (Err ErrQuotaFiles)
  else
    r ← write_file abs content;
    match r with
    | Err e => mret (Err e)
    | Ok _ =>
        _ ← set_usage newTotal (if isNew then lm_fileCount m + 1 else lm_fileCount m);
        mret (Ok tt)
    end.

(** Every operation checks its path first. *)
Definition with_path {A} (name : string) (k : string -> M (result error A)) : M (result error A) :=
  c ← cfg;
  r ← io (safePath (Root c) name);
  match r with
  | Err e => mret (Err e)
  | Ok abs => k abs
  end.

Definition Write (name : string) (content : bytes) : M (result error unit) :=
  with_path name (fun abs => Write_locked abs content).

Definition Read (name : string) : M (result error bytes) :=
  with_path name (fun abs => r ← io (os_ReadFile abs); mret (wrap_err "workspace: read: " r)).

(** The infos of the entries of a directory; an entry that cannot be inspected has size 0. *)
Fixpoint list_infos (abs dir : string) (entries : list (string * node)) : IO (list FileInfo) :=
  match entries with
  | [] => mret []
  | e :: entries' =>
      info ← os_Lstat (Join abs e.1);
      rest ← list_infos abs dir entries';
      mret (mkFileInfo e.1 (Join dir e.1) (is_dir e.2) (match info with Ok i => info_size i | Err _ => 0 end) :: rest)
  end.

Definition List (dir : string) : M (result error (list FileInfo)) :=
  with_path dir (fun abs =>
    r ← io (os_ReadDir abs);
    match r with
    | Err e => mret (Err (wrapf "workspace: list: " e))
    | Ok entries => l ← io (list_infos abs dir entries); mret (Ok l)
    end).

Definition Stat (name : string) : M (result error FileInfo) :=
  with_path name (fun abs =>
    r ← io (os_Stat abs);
    match r with
    | Err e => mret (Err (wrapf "workspace: stat: " e))
    | Ok i => mret (Ok (mkFileInfo (info_name i) name (Info_IsDir i) (info_size i)))
    end).

Definition Delete_locked (abs : string) : M (result error unit) :=
  m ← manager;
  info ← io (os_Stat abs);
  match info with
  | Err e => mret (Err (wrapf "workspace: delete: " e))
  | Ok i =>
      if Info_IsDir i then
        if String.eqb abs (Root (lm_cfg m)) then mret (Err (errors_New "workspace: delete: refusing to remove root"))
        else
          r ← io (os_RemoveAll abs);
          match r with
          | Err e => mret (Err (wrapf "workspace: delete: " e))
          | Ok _ => recount
          end
      else
        r ← io (os_Remove abs);
        match r with
        | Err e => mret (Err (wrapf "workspace: delete: " e))
        | Ok _ =>
            _ ← set_usage (lm_totalBytes m - info_size i) (lm_fileCount m - 1);
            mret (Ok tt)
        end
  end.

Definition Delete (name : string) : M (result error unit) := with_path name Delete_locked.

(** *** Snapshots *)

(** The entries of the workspace: absolute and relative path. *)
Definition snapshot_entry (root : string) (x : string * Info) : result error (option (string * string)) :=
  match Rel root x.1 with
  | Err e => Err e
  | Ok rel =>
      if String.eqb rel "." then Ok None
      else if is_symlink (info_node x.2) then Ok None
      else if negb (Info_IsDir x.2 || is_regular (info_node x.2)) then Ok None
      else Ok (Some (x.1, rel))
  end.

Fixpoint collect_entries (root : string) (visited : list (string * Info)) (err : option error)
    : result error (list (string * string)) :=
  match visited with
  | [] => match err with Some e => Err e | None => Ok [] end
  | x :: visited' =>
      match snapshot_entry root x, collect_entries root visited' err with
      | Err e, _ => Err e
      | Ok _, Err e => Err e
      | Ok None, Ok l => Ok l
      | Ok (Some entry), Ok l => Ok (entry :: l)
      end
  end.

Definition snapshotEntries : M (result error (list (string * string))) :=
  c ← cfg;
  visited ← io (Walk (Root c));
  mret (collect_entries (Root c) visited.1 visited.2).

(** One round of the goroutine of [Snapshot]: an entry of the archive, nothing, or the error
    that ends it.  The content of a file is copied after its header was written, so its
    length can differ from the size in the header. *)
Definition archive_entry (entry : string * string) : IO (result error (option TarEntry)) :=
  r ← os_Lstat entry.1;
  match r with
  | Err e => mret (if errors_Is e SNotExist then Ok None else Err e)
  | Ok info =>
      match info_node info with
      | NSymlink _ | NSocket => mret (Ok None)
      | NDir => mret (Ok (Some (mkTarEntry entry.2 TypeDir 0 448 [] None)))
      | NFile mode _ =>
          r ← os_Open entry.1;
          match r with
          | Err e =>
              mret (if errors_Is e SNotExist
                    then Ok (Some (mkTarEntry entry.2 TypeReg (info_size info) mode [] None)) else Err e)
          | Ok p =>
              data ← os_Read entry.1 p;
              c ← os_Close entry.1;
              mret (match data, c with
                    | Err e, _ => Err e
                    | Ok _, Err e => Err e
                    | Ok data, Ok _ => Ok (Some (mkTarEntry entry.2 TypeReg (info_size info) mode data None))
                    end)
          end
      end
  end.

Fixpoint archive_entries (entries : list (string * string)) : IO (result error (list TarEntry)) :=
  match entries with
  | [] => mret (Ok [])
  | entry :: entries' =>
      r ← archive_entry entry;
      match r with
      | Err e => mret (Err e)
      | Ok None => archive_entries entries'
      | Ok (Some t) =>
          rest ← archive_entries entries';
          mret (match rest with Err e => Err e | Ok l => Ok (t :: l) end)
      end
  end.

(** The bytes a reader of the pipe gets, or the error it sees. *)
Definition Snapshot : M (result error bytes) :=
  r ← snapshotEntries;
  match r with
  | Err e => mret (Err e)
  | Ok entries =>
      r ← io (archive_entries entries);
      mret (match r with Err e => Err e | Ok l => targz_write l end)
  end.

(** *** Restore *)

(** [mode] clamped to 32 bits, and only the owner's read and write bits of it. *)
Definition sanitizeArchiveFileMode (mode : Z) : Z :=
  let mode := if mode <? 0 then 0 else mode in
  let mode := if 4294967295 <? mode then 4294967295 else mode in
  Z.land mode 384.

(** [fmt.Errorf("%w: ...")] *)
Definition errorf_w (e : error) (msg : string) : error := mkErr (err_chain e) (Error e +:+ ": " +:+ msg).

(** The path checks of an archive entry; the result is the target. *)
Definition check_entry (root name : string) : result error string :=
  let cleanName := Clean name in
  if IsAbs cleanName then Err (errorf_w ErrPathTraversal name)
  else if existsb (String.eqb "..") (Split cleanName "/") then Err (errorf_w ErrPathTraversal name)
  else
    let target := Join root cleanName in
    if negb (HasPrefix target (root +:+ "/")) && negb (String.eqb target root) then
      Err (errorf_w ErrPathTraversal ("resolved " +:+ target))
    else Ok target.

(** An error is noted together with one from closing the file. *)
Definition close_note (c : result error unit) (e : error) : error :=
  match c with Err e' => mkErr (err_chain e) (Error e +:+ " (close: " +:+ Error e' +:+ ")") | Ok _ => e end.

(** The body of a regular file; what [io.Copy] writes, and its error. *)
Definition extract_file (t : TarEntry) (target : string) : IO (result error unit) :=
  r ← os_MkdirAll (Dir target);
  match r with
  | Err e => mret (Err e)
  | Ok _ =>
      r ← os_Create target (sanitizeArchiveFileMode (te_mode t));
      match r with
      | Err e => mret (Err (wrapf "workspace: create file: " e))
      | Ok p =>
          let data := take (Z.to_nat (te_size t + 1)) (te_body t) in
          let readErr := if Z.of_nat (length (te_body t)) <? te_size t + 1 then te_err t else None in
          w ← os_Write target p data;
          c ← os_Close target;
          mret (match w, readErr with
                | Err e, _ | Ok _, Some e => Err (close_note c (wrapf "workspace: extract file: " e))
                | Ok _, None =>
                    if Z.of_nat (length data) =? te_size t then
                      match c with Err e => Err (wrapf "workspace: close file: " e) | Ok _ => Ok tt end
                    else Err (close_note c (errors_New ("workspace: extract file size mismatch ("
                           +:+ fmt_d (Z.of_nat (length data)) +:+ " != " +:+ fmt_d (te_size t) +:+ ")")))
                end)
      end
  end.

(** The loop over the archive, with the number of entries read when it ends. *)
Fixpoint extract_entries (c : WsConfig) (root : string) (entries : list TarEntry) (last : option error)
    (totalBytes fileCount : Z) (n : nat) : IO (nat * result error unit) :=
  match entries with
  | [] => mret (n, match last with
                   | Some e => Err (wrapf "workspace: tar next: " e)
                   | None => Ok tt
                   end)
  | t :: entries' =>
      match check_entry root (te_name t) with
      | Err e => mret (S n, Err e)
      | Ok target =>
          match te_type t with
          | TypeDir =>
              r ← os_MkdirAll target;
              match r with
              | Err e => mret (S n, Err (wrapf "workspace: mkdir: " e))
              | Ok _ => extract_entries c root entries' last totalBytes fileCount (S n)
              end
          | TypeReg =>
              if te_size t <? 0 then
                mret (S n, Err (errors_New ("workspace: invalid negative file size in tar header: " +:+ fmt_d (te_size t))))
              else if MaxFileCount c <? fileCount + 1 then
                mret (S n, Err (errorf_w ErrQuotaFiles ("archive contains more than " +:+ fmt_d (MaxFileCount c) +:+ " files")))
              else if MaxTotalBytes c - totalBytes <? te_size t then
                mret (S n, Err (errorf_w ErrQuotaBytes ("archive exceeds " +:+ fmt_d (MaxTotalBytes c) +:+ " bytes")))
              else
                r ← extract_file t target;
                match r with
                | Err e => mret (S n, Err e)
                | Ok _ => extract_entries c root entries' last (totalBytes + te_size t) (fileCount + 1) (S n)
                end
          | TypeOther => extract_entries c root entries' last totalBytes fileCount (S n)
          end
      end
  end.

(** [extractTarGzIntoRoot], and the number of bytes it consumed. *)
Definition extractTarGzIntoRoot (c : WsConfig) (data : bytes) (root : string) : IO (Z * result error unit) :=
  match targz_read data with
  | Err e => mret (targz_consumed data 0, Err (wrapf "workspace: gzip reader: " e))
  | Ok (entries, last) =>
      r ← extract_entries c root entries last 0 0 0;
      mret (targz_consumed data r.1, r.2)
  end.

(** The archive is extracted beside the root, at most [MaxArchiveBytes] + 1 bytes of it. *)
Definition extract_limited (c : WsConfig) (r : bytes) (tmpRoot : string) : IO (result error unit) :=
  let limit := MaxArchiveBytes c + 1 in
  res ← extractTarGzIntoRoot c (take (Z.to_nat limit) r) tmpRoot;
  mret (if limit - res.1 <=? 0
        then Err (errorf_w ErrQuotaBytes ("archive exceeds " +:+ fmt_d (MaxArchiveBytes c) +:+ " bytes"))
        else res.2).

(** The old root is moved away, the new one into its place; if that fails, the old one is
    moved back. *)
Definition swap_roots (root tmpRoot : string) : IO (result error unit) :=
  let backupRoot := root +:+ ".restore-backup" in
  _ ← os_RemoveAll backupRoot;
  info ← os_Stat root;
  match info with
  | Err e =>
      if errors_Is e SNotExist then
        r ← os_Rename tmpRoot root;
        mret (wrap_err "workspace: activate restore: " r)
      else mret (Err (wrapf "workspace: stat root: " e))
  | Ok _ =>
      r ← os_Rename root backupRoot;
      match r with
      | Err e => mret (Err (wrapf "workspace: stage previous root: " e))
      | Ok _ =>
          r ← os_Rename tmpRoot root;
          match r with
          | Err e =>
              rb ← os_Rename backupRoot root;
              mret (match rb with
                    | Err e' => Err (mkErr (err_chain e) ("workspace: activate restore: " +:+ Error e
                                  +:+ " (rollback failed: " +:+ Error e' +:+ ")"))
                    | Ok _ => Err (wrapf "workspace: activate restore: " e)
                    end)
          | Ok _ => _ ← os_RemoveAll backupRoot; mret (Ok tt)
          end
      end
  end.

Definition restore_files (c : WsConfig) (r : bytes) : IO (result error unit) :=
  t ← os_MkdirTemp (Dir (Root c)) ".agentforge-restore-";
  match t with
  | Err e => mret (Err (wrapf "workspace: create restore temp root: " e))
  | Ok tmpRoot =>
      ch ← os_Chmod tmpRoot;
      match ch with
      | Err e => _ ← os_RemoveAll tmpRoot; mret (Err (wrapf "workspace: chmod restore temp root: " e))
      | Ok _ =>
          res ← extract_limited c r tmpRoot;
          res ← match res with
                | Err e => mret (Err e)
                | Ok _ => swap_roots (Root c) tmpRoot
                end;
          match res with
          | Err e => _ ← os_RemoveAll tmpRoot; mret (Err e)
          | Ok _ => mret (Ok tt)
          end
      end
  end.

Definition Restore (r : bytes) : M (result error unit) :=
  c ← cfg;
  res ← io (restore_files c r);
  match res with
  | Err e => mret (Err e)
  | Ok _ => recount
  end.

Definition Cleanup : M (result error unit) := c ← cfg; io (os_RemoveAll (Root c)).

Definition Usage (m : LocalManager) : Z * Z := (lm_totalBytes m, lm_fileCount m).

#[global] Instance LocalWs_Files : WorkspaceFiles LocalWs := {|
  Ws_Write := Write;
  Ws_Read := Read;
  Ws_List := List;
  Ws_Stat := Stat;
  Ws_Delete := Delete |}.

#[global] Instance LocalWs_Workspace : Workspace LocalWs := {|
  Ws_Snapshot w := (Snapshot w).2;
  Ws_Restore := Restore |}.
End local.

(** ** Paths stay below the root *)

Section paths.
Context `{HE : HostEnv} (rp : path).
Hypothesis Hrp : rp <> [].
Hypothesis Hplain : Forall plain rp.

(** The root is a directory of a well-formed file system. *)
Definition root_ok (fs : FS) : Prop := fs_wf fs /\ fs_lookup fs rp = Some NDir.

Lemma root_no_links fs : root_ok fs -> no_links fs rp.
Proof. intros [Hwf Hd] a b t Hab. rewrite (fs_wf_real _ _ Hwf Hd a b Hab). done. Qed.

Lemma check_components_spec a parts h h' r :
  faults_ok -> fs_wf (h_fs h) -> Forall plain (rp ++ a) -> Forall plain parts -> no_links (h_fs h) (rp ++ a) ->
  check_components (abs_path (rp ++ a)) parts h = (h', r) ->
  h_fs h' = h_fs h /\ (r = Ok tt -> no_links (h_fs h) (rp ++ a ++ parts)).
Proof.
  intros Hf Hwf Ha Hps. revert a h Hwf Ha. induction Hps as [|x parts Hx Hps IH]; intros a h Hwf Ha Hl; cbn [check_components].
  { intros [= <- <-]. by rewrite app_nil_r. }
  destruct (plain_eqb x Hx) as (-> & -> & _). cbn [orb]. rewrite ST_bind_run.
  assert (Hne : rp ++ a <> []) by (by destruct rp).
  rewrite Join_plain by done. destruct (os_Lstat (abs_path ((rp ++ a) ++ [x])) h) as [h1 r1] eqn:E1. cbn [fst snd].
  apply stat_call in E1 as [Hfs1 Hr1].
  assert (Hax : Forall plain ((rp ++ a) ++ [x])) by (apply Forall_app; split; [done|by apply Forall_singleton]).
  pose proof (lstat_spec (h_fs h) (rp ++ a) x Hax Hl Hwf) as Hls.
  assert (Hrec : (forall t, fs_lookup (h_fs h) ((rp ++ a) ++ [x]) <> Some (NSymlink t)) ->
    check_components (abs_path ((rp ++ a) ++ [x])) parts h1 = (h', r) ->
    h_fs h' = h_fs h /\ (r = Ok tt -> no_links (h_fs h) (rp ++ a ++ x :: parts))).
  { intros Hnl E. rewrite <- Hfs1 in Hwf, Hl, Hnl |- *. rewrite <- app_assoc in E, Hax.
    replace (rp ++ a ++ x :: parts) with (rp ++ (a ++ [x]) ++ parts) by (by rewrite <- app_assoc).
    eapply IH; [done|exact Hax| |exact E]. rewrite app_assoc. by apply no_links_snoc. }
  destruct r1 as [i|e].
  - rewrite Hr1 in Hls. destruct (is_symlink (info_node i)) eqn:Ei; [by intros [= <- <-]|].
    apply Hrec. intros t. rewrite Hls. by destruct (info_node i).
  - destruct (errors_Is e SNotExist) eqn:Ee; [|by intros [= <- <-]]. apply Hrec. intros t.
    destruct (Hr1 Hf eq_refl) as (e' & He' & Hn).
    rewrite He' in Hls. by rewrite Hls.
Qed.

(** A path that passes the check is the root or below it, and has no symbolic link on it. *)
Lemma safePath_spec rel h h' r :
  faults_ok -> root_ok (h_fs h) -> safePath (abs_path rp) rel h = (h', r) ->
  h_fs h' = h_fs h /\
  forall abs, r = Ok abs -> exists q, abs = abs_path (rp ++ q) /\ Forall plain q /\ no_links (h_fs h) (rp ++ q).
Proof.
  intros Hf Hroot. unfold safePath. cbn zeta.
  destruct (IsAbs (Clean rel)) eqn:Eabs; [by intros [= <- <-]|].
  assert (Hcl : Clean rel <> "") by apply Clean_nonempty.
  rewrite Join_abs by done. set (q := clean_go true (Split (Clean rel) "/") (rev rp)).
  assert (Hq : Forall plain q) by (apply clean_go_rooted; [apply Split_parts|by apply Forall_rev]).
  destruct (HasPrefix (abs_path q) (abs_path rp +:+ "/")) eqn:Epre; cbn [negb andb].
  - apply HasPrefix_under in Epre as (b & Hb & Hqb); [|done..]. clearbody q. subst q.
    apply Forall_app in Hq as [_ Hpb]. rewrite ST_bind_run. unfold ensureNoSymlink.
    destruct (String.eqb_spec (abs_path (rp ++ b)) (abs_path rp)) as [Eq|_].
    { apply abs_path_inj in Eq; [|by apply Forall_app|done]. destruct Hb. rewrite <- (app_nil_r rp) in Eq at 2.
      by apply app_inv_head in Eq. }
    rewrite Rel_under by done. rewrite Split_join by (done || by apply plain_no_slash).
    destruct (check_components (abs_path rp) b h) as [h1 r1] eqn:E1. cbn [fst snd]. intros [= <- <-].
    destruct (check_components_spec [] b h h1 r1) as [Hfs Hok]; try (rewrite ?app_nil_r; done).
    + apply Hroot.
    + rewrite app_nil_r. by apply root_no_links.
    + split; [done|]. intros abs Habs. destruct r1 as [[]|]; [|done]. injection Habs as <-. exists b. auto.
  - destruct (String.eqb_spec (abs_path q) (abs_path rp)) as [Eq|_]; [|by intros [= <- <-]]. cbn [negb andb].
    rewrite ST_bind_run. unfold ensureNoSymlink. rewrite Eq, String.eqb_refl. intros [= <- <-]. split; [done|].
    intros abs [= <-]. exists []. rewrite app_nil_r. split; [done|]. split; [done|]. by apply root_no_links.
Qed.
End paths.

(** ** Effects of the operations *)

Section effects.
Context `{HE : HostEnv} `{HC : ArchiveCodec} (rp : path).
Hypothesis Hrp : rp <> [].
Hypothesis Hplain : Forall plain rp.

(** A workspace at [rp] whose root exists. *)
Definition ws_ok (w : LocalWs) : Prop := lw_root w = abs_path rp /\ root_ok rp (lw_fs w).

Definition below_root (q : path) : Prop := exists r, r <> [] /\ q = rp ++ r.

Lemma changes_root_ok fs fs' : changes_only below_root fs fs' -> fs_wf fs' -> root_ok rp fs -> root_ok rp fs'.
Proof.
  intros Hc Hwf [_ Hd]. split; [done|]. destruct rp as [|x p] eqn:E; [done|]. cbn in *.
  destruct (Hc (x :: p)) as [(r & Hr & Hq)|Hq]; [|by rewrite Hq].
  destruct Hr. rewrite E in Hq. rewrite <- (app_nil_r (x :: p)) in Hq at 1. by apply app_inv_head in Hq.
Qed.

(** Directories added on a path below an existing root are below it. *)
Lemma added_below r fs fs' : root_ok rp fs -> added_dirs (rp ++ r) fs fs' -> changes_only below_root fs fs'.
Proof.
  intros [Hwf Hd] Ha q. destruct (Ha q) as [->|(Hn & _ & Hne & b & Hb)]; [by right|left].
  assert (Hpre : (exists c, rp = q ++ c) \/ (exists c, c <> [] /\ q = rp ++ c)).
  { clear -Hb. revert q Hb. induction rp as [|x p IH]; intros q Hb.
    - destruct q as [|y q]; [left; by exists []|right; by exists (y :: q)].
    - destruct q as [|y q]; [left; by exists (x :: p)|]. injection Hb as <- Hb.
      destruct (IH q Hb) as [[c ->]|(c & Hc & ->)]; [left; by exists c|right; by exists c]. }
  destruct Hpre as [[c Hc]|Hc]; [|done]. exfalso.
  pose proof (fs_wf_real _ _ Hwf Hd q c Hc) as Hq. destruct q; [done|]. cbn in Hq. congruence.
Qed.

(** What [with_path] hands to an operation. *)
Lemma with_path_spec {A} name (k : string -> ST LocalWs (result error A)) w w' r :
  faults_ok -> ws_ok w -> with_path name k w = (w', r) ->
  (exists e, r = Err e /\ lw_fs w' = lw_fs w /\ lw_m w' = lw_m w) \/
  exists q w1, Forall plain q /\ no_links (lw_fs w) (rp ++ q) /\ lw_fs w1 = lw_fs w /\ lw_m w1 = lw_m w /\
    k (abs_path (rp ++ q)) w1 = (w', r).
Proof.
  intros Hf [Hroot Hok]. unfold with_path. rewrite ST_bind_run. cbn [cfg fst snd]. rewrite ST_bind_run.
  change (Root (lm_cfg (lw_m w))) with (lw_root w). rewrite Hroot. unfold io at 1.
  destruct (safePath (abs_path rp) name (lw_host w)) as [h r1] eqn:E1. unfold io. rewrite E1. cbn [fst snd].
  destruct (safePath_spec rp Hrp Hplain _ _ _ _ Hf Hok E1) as [Hfs Hsafe].
  destruct r1 as [abs|e]; [|intros [= <- <-]; left; by exists e].
  destruct (Hsafe abs eq_refl) as (q & -> & Hq & Hl). intros Hk. right. by exists q, (w <| lw_host := h |>).
Qed.

(** Running a system call inside an operation. *)
Lemma io_run {A} (f : ST Host A) w : io f w = (w <| lw_host := (f (lw_host w)).1 |>, (f (lw_host w)).2).
Proof. unfold io. by destruct (f (lw_host w)). Qed.

Lemma Dir_under q : Forall plain q -> exists d x, rp ++ q = d ++ [x] /\ Forall plain d /\ Dir (abs_path (rp ++ q)) = abs_path d.
Proof.
  intros Hq. assert (Hp : Forall plain (rp ++ q)) by (by apply Forall_app). assert (Hne : rp ++ q <> []) by (by destruct rp).
  destruct (rp ++ q) as [|x d _] using rev_ind; [done|]. exists d, x. apply Forall_app in Hp as [Hd Hx].
  split; [done|]. split; [done|]. apply Dir_abs; [done|by inversion Hx].
Qed.

(** Making the parent directories and writing the file. *)
Lemma write_file_spec q content w w' r :
  Forall plain q -> root_ok rp (lw_fs w) -> no_links (lw_fs w) (rp ++ q) ->
  write_file (abs_path (rp ++ q)) content w = (w', r) ->
  lw_m w' = lw_m w /\ changes_only below_root (lw_fs w) (lw_fs w') /\ fs_wf (lw_fs w') /\
  (r = Ok tt -> exists fs1, added_dirs (rp ++ q) (lw_fs w) fs1 /\ file_put (rp ++ q) content fs1 (lw_fs w')) /\
  (no_faults -> r <> Ok tt -> added_dirs (rp ++ q) (lw_fs w) (lw_fs w')).
Proof.
  intros Hq Hroot Hl. destruct (Dir_under q Hq) as (d & x & Hpq & Hd & HD). unfold write_file. rewrite HD.
  rewrite ST_bind_run, io_run. cbn [fst snd].
  destruct (os_MkdirAll (abs_path d) (lw_host w)) as [h1 r1] eqn:E1. cbn [fst snd].
  assert (Hld : no_links (lw_fs w) d) by (rewrite Hpq in Hl; by eapply no_links_app).
  destruct (os_MkdirAll_spec _ _ _ _ Hd Hld E1) as [[Hadd Hwf1] Hdir].
  assert (Hadd' : added_dirs (rp ++ q) (lw_fs w) (h_fs h1)) by (rewrite Hpq; by apply added_weaken).
  pose proof (added_below q _ _ Hroot Hadd') as Hch1. pose proof (Hwf1 (proj1 Hroot)) as Hw1.
  destruct r1 as [[]|e]; [|intros [= <- <-]; by split_and!].
  rewrite ST_bind_run, io_run. cbn [fst snd lw_host upd]. set (w1 := w <| lw_host := h1 |>). change (lw_host w1) with h1.
  destruct (os_WriteFile (abs_path (rp ++ q)) content 384 h1) as [h2 r2] eqn:E2. cbn [fst snd].
  apply os_WriteFile_spec in E2; [|by apply Forall_app|exact (added_no_links _ _ _ _ Hadd' Hl)].
  intros [= <- <-]. change (lw_fs (w1 <| lw_host := h2 |>)) with (h_fs h2).
  destruct E2 as [[Hsame Hr]|(written & Hput & Hr & Hnf)].
  - rewrite Hsame. split; [done|]. split; [done|]. split; [done|]. split; [by destruct r2 as [[]|]|done].
  - assert (Hne : q <> []).
    { intros ->. destruct Hput as (d' & x' & mode & _ & _ & _ & _ & Hold). rewrite app_nil_r in Hold.
      destruct Hroot as [Hwf Hrd]. pose proof (added_lookup _ _ _ _ _ Hadd' Hrd) as Hrd1.
      destruct rp as [|y p]; [done|]. cbn in Hrd1. rewrite Hrd1 in Hold. by destruct Hold as [?|(? & ? & ?)]. }
    split; [done|]. split; [|split; [by eapply file_put_wf|split]].
    + eapply changes_trans; [exact Hch1|]. eapply changes_weaken; [|by eapply file_put_changes].
      intros p <-. by exists q.
    + intros Hrt. exists (h_fs h1). split; [done|]. destruct r2 as [[]|]; [|done]. by rewrite <- (Hr eq_refl).
    + intros Hn Hrt. by rewrite (Hnf Hn) in Hrt.
Qed.

(** The effect of [Write] after the path check: an error, with at most some directories and a part of
    the file written; or the file with its content, and the new totals. *)
Lemma Write_locked_spec q content w w' r :
  Forall plain q -> root_ok rp (lw_fs w) -> no_links (lw_fs w) (rp ++ q) ->
  Write_locked (abs_path (rp ++ q)) content w = (w', r) ->
  lm_cfg (lw_m w') = lm_cfg (lw_m w) /\ changes_only below_root (lw_fs w) (lw_fs w') /\ fs_wf (lw_fs w') /\
  match r with
  | Err _ => lw_m w' = lw_m w /\ (no_faults -> added_dirs (rp ++ q) (lw_fs w) (lw_fs w'))
  | Ok _ => exists fs1 info, added_dirs (rp ++ q) (lw_fs w) fs1 /\ file_put (rp ++ q) content fs1 (lw_fs w') /\
      (os_Stat (abs_path (rp ++ q)) (lw_host w)).2 = info /\
      lw_m w' = mkLocalManager (lm_cfg (lw_m w))
        (lm_totalBytes (lw_m w) - match info with Ok i => info_size i | Err _ => 0 end + Z.of_nat (length content))
        (match info with Ok _ => lm_fileCount (lw_m w) | Err _ => lm_fileCount (lw_m w) + 1 end) /\
      lm_totalBytes (lw_m w') <= MaxTotalBytes (lm_cfg (lw_m w)) /\
      (match info with Ok _ => True | Err _ => lm_fileCount (lw_m w') <= MaxFileCount (lm_cfg (lw_m w)) end)
  end.
Proof.
  intros Hq [Hwf Hd] Hl. unfold Write_locked. rewrite ST_bind_run. cbn [manager fst snd]. rewrite ST_bind_run, io_run. cbn [fst snd].
  destruct (os_Stat (abs_path (rp ++ q)) (lw_host w)) as [h1 info] eqn:E1. cbn [fst snd].
  pose proof E1 as E1'. apply stat_call in E1' as [Hfs1 Hst]. fold (lw_fs w) in Hfs1.
  set (w1 := w <| lw_host := h1 |>). cbn zeta.
  assert (Hfsw1 : lw_fs w1 = lw_fs w) by exact Hfs1. assert (Hm1 : lw_m w1 = lw_m w) by done. clearbody w1.
  case_if as Hbytes; [intros [= <- <-]; rewrite Hfsw1, Hm1; auto 10 with agentforge|].
  case_if as Hfiles; [intros [= <- <-]; rewrite Hfsw1, Hm1; auto 10 with agentforge|].
  rewrite ST_bind_run. destruct (write_file (abs_path (rp ++ q)) content w1) as [w2 r2] eqn:E2. cbn [fst snd].
  apply write_file_spec in E2 as (Hm2 & Hch & Hw2 & Hput & Hnf); [|done|by rewrite Hfsw1|by rewrite Hfsw1].
  rewrite Hfsw1 in Hch, Hput, Hnf. rewrite Hm1 in Hm2. destruct r2 as [[]|e]; [|intros [= <- <-]; rewrite Hm2; auto 10].
  rewrite ST_bind_run. cbn [set_usage modifyW fst snd]. intros [= <- <-].
  destruct (Hput eq_refl) as (fs1 & Hadd & Hfile). cbn. rewrite Hm2.
  split; [done|]. split; [done|]. split; [done|]. exists fs1, info. split; [done|]. split; [done|]. split; [done|].
  split; [by destruct info|]. apply Z.ltb_ge in Hbytes. split; [done|].
  destruct info as [i|e]; [done|]. by apply Z.ltb_ge in Hfiles.
Qed.

(** *** Usage *)

(** What [recount] counts: the files, links and sockets below the root. *)
Definition weight (size : path -> node -> Z) (q : path) (n : node) : Z :=
  match below rp q with
  | Some (_ :: _) => if is_dir n then 0 else size q n
  | _ => 0
  end.
Definition tree_bytes (fs : FS) : Z := usage (weight node_size) fs.
Definition tree_files (fs : FS) : Z := usage (weight (fun _ _ => 1)) fs.

Lemma weight_dir size q : weight size q NDir = 0.
Proof. unfold weight. by destruct (below rp q) as [[|? ?]|]. Qed.

Lemma weight_below size q n : q <> [] -> weight size (rp ++ q) n = if is_dir n then 0 else size (rp ++ q) n.
Proof. intros Hq. unfold weight. rewrite below_app. by destruct q. Qed.

Lemma recount_fs w : lw_fs (recount w).1 = lw_fs w /\ lm_cfg (lw_m (recount w).1) = lm_cfg (lw_m w).
Proof.
  unfold recount. rewrite ST_bind_run. cbn [cfg fst snd]. rewrite ST_bind_run, io_run. cbn [fst snd].
  pose proof (Walk_fs (Root (lm_cfg (lw_m w))) (lw_host w)) as Hfs. rewrite ST_bind_run. cbn. done.
Qed.

(** The paths of a walk have the weight their infos say. *)
Definition weighed (fs : FS) (p : path) : Prop :=
  forall size, node_weight (weight size) fs p =
    let n := info_node (info_at fs p) in if is_dir n then 0 else size p n.

Lemma walk_weighed fs p : fs_lookup fs rp = Some NDir -> p ∈ rp :: walk_paths fs rp -> weighed fs p.
Proof.
  intros Hd [->|Hp]%elem_of_cons size; unfold node_weight, info_at.
  - rewrite Hd. cbn. destruct rp as [|y q] eqn:E; [done|]. cbn in Hd. rewrite Hd, <- E. apply weight_dir.
  - apply walk_paths_spec in Hp as [[n Hn] (r & Hr & ->)]. rewrite Hn, weight_below by done.
    assert (fs_lookup fs (rp ++ r) = Some n) as -> by (by destruct rp). done.
Qed.

Lemma visited_sum fs size ps :
  Forall (weighed fs) ps ->
  sumZ (map (fun x => size x.1 (info_node (snd x.2))) (List.filter (fun x => negb (Info_IsDir (snd x.2)))
    (map (fun p => (p, (abs_path p, info_at fs p))) ps))) = sumZ (map (node_weight (weight size) fs) ps).
Proof.
  induction 1 as [|p l Hp Hl IH]; [done|]. cbn [List.filter map sumZ foldr fst snd]. rewrite (Hp size). cbn zeta.
  unfold Info_IsDir at 1. destruct (is_dir (info_node (info_at fs p))); cbn [negb map foldr fst snd]; unfold sumZ in *; rewrite IH; lia.
Qed.

Lemma visited_total fs ps :
  foldr (fun (x : string * Info) n => info_size x.2 + n) 0
    (List.filter (fun x => negb (Info_IsDir x.2)) (map (fun p => (abs_path p, info_at fs p)) ps)) =
  sumZ (map (fun x => node_size x.1 (info_node (snd x.2))) (List.filter (fun x => negb (Info_IsDir (snd x.2)))
    (map (fun p => (p, (abs_path p, info_at fs p))) ps))).
Proof. induction ps as [|p ps IH]; [done|]. cbn. destruct (Info_IsDir _); cbn; [done|]. unfold sumZ in IH. by rewrite IH. Qed.

Lemma visited_count fs ps :
  Z.of_nat (length (List.filter (fun x => negb (Info_IsDir x.2)) (map (fun p => (abs_path p, info_at fs p)) ps))) =
  sumZ (map (fun x => (fun _ _ => 1) x.1 (info_node (snd x.2))) (List.filter (fun x => negb (Info_IsDir (snd x.2)))
    (map (fun p => (p, (abs_path p, info_at fs p))) ps))).
Proof. induction ps as [|p ps IH]; [done|]. cbn. destruct (Info_IsDir _); cbn [negb length map]; [done|]. unfold sumZ in IH |- *. cbn. rewrite <- IH. lia. Qed.

Lemma tree_sum fs size :
  fs_lookup fs rp = Some NDir ->
  usage (weight size) fs = sumZ (map (node_weight (weight size) fs) (rp :: walk_paths fs rp)).
Proof.
  intros Hd. rewrite (usage_walk _ _ rp) by (intros q n; unfold weight; by destruct (below rp q) as [[|? ?]|]).
  cbn. rewrite (walk_weighed fs rp Hd (list_elem_of_here _ _)). unfold info_at. by rewrite Hd.
Qed.

(** Without faults, [recount] finds exactly what is there. *)
Lemma recount_exact w w' r :
  no_faults -> ws_ok w -> recount w = (w', r) ->
  r = Ok tt /\ lw_fs w' = lw_fs w /\ lw_m w' = mkLocalManager (lm_cfg (lw_m w)) (tree_bytes (lw_fs w)) (tree_files (lw_fs w)).
Proof.
  intros Hn [Hroot [Hwf Hd]]. unfold recount. rewrite ST_bind_run. cbn [cfg fst snd]. rewrite ST_bind_run, io_run.
  change (Root (lm_cfg (lw_m w))) with (lw_root w). rewrite Hroot.
  destruct (Walk_spec rp (lw_host w) Hn Hwf Hplain Hd) as (h' & Hfs & E).
  remember (rp :: walk_paths (h_fs (lw_host w)) rp) as ps eqn:Hps. rewrite E. cbn [fst snd]. rewrite ST_bind_run. cbn [set_usage modifyW fst snd]. intros [= <- <-]. split; [done|]. split; [exact Hfs|].
  cbn. rewrite visited_total, visited_count.
  assert (Hall : Forall (weighed (lw_fs w)) ps) by (subst ps; apply list.Forall_forall; intros p; by apply walk_weighed).
  unfold tree_bytes, tree_files. rewrite !tree_sum by done. change (h_fs (lw_host w)) with (lw_fs w) in *. rewrite <- Hps.
  by rewrite (visited_sum (lw_fs w) node_size _ Hall), (visited_sum (lw_fs w) (fun _ _ => 1) _ Hall).
Qed.
End effects.

Section deletion.
Context `{HE : HostEnv} `{HC : ArchiveCodec} (rp : path).
Hypothesis Hrp : rp <> [].
Hypothesis Hplain : Forall plain rp.

Lemma os_Remove_spec p h h' r :
  Forall plain p -> no_links (h_fs h) p -> os_Remove (abs_path p) h = (h', r) ->
  (h_fs h' = h_fs h /\ r <> Ok tt) \/
  (h_fs h' = delete p (h_fs h) /\ r = Ok tt /\ is_Some (h_fs h !! p) /\ (fs_wf (h_fs h) -> fs_wf (h_fs h'))).
Proof.
  intros Hp Hl. unfold os_Remove, call. destruct (fault (h_tick h)); [intros [= <- <-]; by left|].
  destruct (namei false (abs_path p) (h_fs h)) as [q|e] eqn:En; [|intros [= <- <-]; by left].
  apply namei_no_links in En as ->; [|done..].
  pose proof (unlink_at_wf p (h_fs h)) as Hwf. destruct (unlink_at_spec p (h_fs h)) as [[H1 H2]|(H1 & H2 & H3 & _)];
    destruct (unlink_at p (h_fs h)) as [fs r1]; cbn in *; destruct r1 as [[]|]; try done; intros [= <- <-]; cbn; auto.
Qed.

(** The totals of the manager are what is below the root. *)
Definition exact (w : LocalWs) : Prop :=
  lw_m w = mkLocalManager (lm_cfg (lw_m w)) (tree_bytes rp (lw_fs w)) (tree_files rp (lw_fs w)).

(** What [Delete] of the path [rp ++ q] guarantees. *)
Definition deleted (q : path) (w w' : LocalWs) (r : result error unit) : Prop :=
  lm_cfg (lw_m w') = lm_cfg (lw_m w) /\ changes_only (below_root rp) (lw_fs w) (lw_fs w') /\ fs_wf (lw_fs w') /\ lw_fs w' ⊆ lw_fs w /\
  (no_faults -> exact w -> exact w') /\
  (no_faults -> r = Ok tt -> forall p, lw_fs w' !! p = if under (rp ++ q) p then None else lw_fs w !! p).

Lemma deleted_nothing q w w' e :
  fs_wf (lw_fs w) -> lw_fs w' = lw_fs w -> lw_m w' = lw_m w -> deleted q w w' (Err e).
Proof. intros Hwf Hfs Hm. unfold deleted, exact. rewrite Hfs, Hm. by split_and!; auto with agentforge. Qed.

Lemma delete_dir_spec q w w' r :
  Forall plain q -> q <> [] -> ws_ok rp w -> no_links (lw_fs w) (rp ++ q) -> is_Some (lw_fs w !! (rp ++ q)) ->
  (r1 ← io (os_RemoveAll (abs_path (rp ++ q)));
   match r1 with
   | Err e => mret (Err (wrapf "workspace: delete: " e))
   | Ok _ => recount
   end) w = (w', r) ->
  deleted q w w' r.
Proof.
  intros Hq Hqne [Hroot [Hwf Hd]] Hl Hex. assert (Hpq : Forall plain (rp ++ q)) by (by apply Forall_app).
  rewrite ST_bind_run, io_run. pose proof (os_RemoveAll_success (rp ++ q) (lw_host w)) as Hsucc.
  pose proof (os_RemoveAll_sub (abs_path (rp ++ q)) (lw_host w)) as Hsub.
  destruct (os_RemoveAll (abs_path (rp ++ q)) (lw_host w)) as [h2 r2] eqn:E2. cbn [fst snd] in *.
  apply os_RemoveAll_spec in E2 as (Hch & Hw2 & Hgone); [|done|by apply no_links_above_intro]. fold (lw_fs w) in *.
  assert (Hch' : changes_only (below_root rp) (lw_fs w) (h_fs h2)).
  { eapply changes_weaken; [|exact Hch]. intros p [r0 ->]. exists (q ++ r0). rewrite app_assoc. split; [by destruct q|done]. }
  set (w2 := w <| lw_host := h2 |>).
  destruct r2 as [[]|e]; [|intros [= <- <-]; split_and!; try done; [by apply Hw2|]].
  - assert (Hok2 : ws_ok rp w2) by (split; [done|]; eapply changes_root_ok; [done|done|exact Hch'|by apply Hw2|by split]).
    pose proof (recount_fs w2) as [Hf3 Hc3]. destruct (recount w2) as [w3 r3] eqn:E3. cbn [fst] in *. intros [= <- <-].
    change (lw_fs w2) with (h_fs h2) in *. unfold deleted. rewrite Hf3. split_and!; [done|done|by apply Hw2|done| |].
    + intros Hn _. destruct (recount_exact rp Hrp Hplain _ _ _ Hn Hok2 E3) as (_ & Hfs3 & Hm). unfold exact. by rewrite Hfs3, Hm.
    + intros Hn _ p. destruct (under (rp ++ q) p) eqn:Eu.
      * apply under_spec in Eu. by apply Hgone; [apply no_faults_ok|..].
      * destruct (Hch p) as [Hat|]; [|done]. apply under_spec in Hat. congruence.
  - intros Hn _. exfalso. by discriminate Hsucc; [| | |destruct rp|..].
Qed.

Lemma delete_file_spec q w w' r i :
  Forall plain q -> ws_ok rp w -> no_links (lw_fs w) (rp ++ q) ->
  fs_lookup (lw_fs w) (rp ++ q) = Some (info_node i) -> info_size i = node_size (rp ++ q) (info_node i) ->
  is_dir (info_node i) = false ->
  (r1 ← io (os_Remove (abs_path (rp ++ q)));
   match r1 with
   | Err e => mret (Err (wrapf "workspace: delete: " e))
   | Ok _ =>
       _ ← set_usage (lm_totalBytes (lw_m w) - info_size i) (lm_fileCount (lw_m w) - 1);
       mret (Ok tt)
   end) w = (w', r) ->
  deleted q w w' r.
Proof.
  intros Hq [Hroot [Hwf Hd]] Hl Hnode Hsize Hnd. assert (Hpq : Forall plain (rp ++ q)) by (by apply Forall_app).
  assert (Hqne : q <> []).
  { intros ->. rewrite app_nil_r, Hd in Hnode. injection Hnode as Hi. by rewrite <- Hi in Hnd. }
  rewrite ST_bind_run, io_run. destruct (os_Remove (abs_path (rp ++ q)) (lw_host w)) as [h2 r2] eqn:E2. cbn [fst snd].
  apply os_Remove_spec in E2; [|done..]. fold (lw_fs w) in E2. destruct E2 as [[Hsame Hr]|(Hdel & -> & Hsome & Hw2)].
  { destruct r2 as [[]|e]; [done|]. intros [= <- <-]. by apply deleted_nothing. }
  rewrite ST_bind_run. cbn [set_usage modifyW fst snd]. intros Heq.
  assert (Hfs' : lw_fs w' = delete (rp ++ q) (lw_fs w)) by (injection Heq as <- _; exact Hdel). injection Heq as <- <-.
  unfold deleted, exact. rewrite Hfs'. cbn. split_and!; [done| |rewrite Hdel in Hw2; by apply Hw2|apply delete_subseteq| |].
  - eapply changes_weaken; [|apply changes_delete]. intros p <-. by exists q.
  - intros _ Hm. assert (Hn : lw_fs w !! (rp ++ q) = Some (info_node i)) by (by destruct rp).
    rewrite Hm. cbn. unfold tree_bytes, tree_files. rewrite !usage_delete. unfold node_weight. rewrite Hn.
    by rewrite !weight_below, Hnd, Hsize by done.
  - intros _ _ p. destruct (decide (p = rp ++ q)) as [->|Hne].
    { rewrite lookup_delete_eq. rewrite (proj2 (under_spec _ _)); [done|]. exists []. by rewrite app_nil_r. }
    rewrite lookup_delete_ne by done. destruct (under (rp ++ q) p) eqn:Eu; [|done].
    apply under_spec in Eu as [c ->]. by apply (fs_wf_leaf _ (rp ++ q) c (info_node i)); [..|intros ->; rewrite app_nil_r in Hne].
Qed.

(** The effect of [Delete] after the path check. *)
Lemma Delete_locked_spec q w w' r :
  Forall plain q -> ws_ok rp w -> no_links (lw_fs w) (rp ++ q) -> Delete_locked (abs_path (rp ++ q)) w = (w', r) ->
  deleted q w w' r.
Proof.
  intros Hq Hok Hl. pose proof Hok as [Hroot [Hwf Hd]]. assert (Hpq : Forall plain (rp ++ q)) by (by apply Forall_app).
  unfold Delete_locked. rewrite ST_bind_run. cbn [manager fst snd]. rewrite ST_bind_run, io_run. cbn [fst snd].
  destruct (os_Stat (abs_path (rp ++ q)) (lw_host w)) as [h1 info] eqn:E1. apply stat_call in E1 as [Hfs1 Hst]. cbn [fst snd].
  set (w1 := w <| lw_host := h1 |>). assert (Hfsw1 : lw_fs w1 = lw_fs w) by exact Hfs1.
  assert (Hfrom : forall w2 r2, deleted q w1 w2 r2 -> deleted q w w2 r2).
  { intros w2 r2. unfold deleted, exact. rewrite Hfsw1. change (lw_m w1) with (lw_m w). done. }
  destruct info as [i|e]; [|intros [= <- <-]; by apply deleted_nothing].
  apply stat_no_links in Hst as [Hnode Hsize]; [|done..]. fold (lw_fs w) in Hnode. rewrite <- Hfsw1 in Hnode, Hl.
  assert (Hok1 : ws_ok rp w1) by (split; [done|]; rewrite Hfsw1; by split).
  destruct (Info_IsDir i) eqn:Edir.
  - change (Root (lm_cfg (lw_m w))) with (lw_root w). rewrite Hroot.
    destruct (String.eqb_spec (abs_path (rp ++ q)) (abs_path rp)) as [|Hne]; [intros [= <- <-]; by apply deleted_nothing|].
    intros E. apply Hfrom. eapply delete_dir_spec; [done| |done|done| |exact E].
    + intros ->. by rewrite app_nil_r in Hne.
    + destruct rp; [done|]. by eexists.
  - intros E. apply Hfrom. by eapply delete_file_spec.
Qed.
End deletion.

(** ** Sequences of file operations *)

Inductive ws_op : Type :=
| WsWrite (name : string) (content : bytes)
| WsRead (name : string)
| WsList (dir : string)
| WsStat (name : string)
| WsDelete (name : string).

Section operations.
Context `{HE : HostEnv} `{HC : ArchiveCodec} (rp : path).
Hypothesis Hrp : rp <> [].
Hypothesis Hplain : Forall plain rp.

Definition run_op (w : LocalWs) (op : ws_op) : LocalWs :=
  match op with
  | WsWrite name content => (Write name content w).1
  | WsRead name => (Read name w).1
  | WsList dir => (List dir w).1
  | WsStat name => (Stat name w).1
  | WsDelete name => (Delete name w).1
  end.

(** The totals are exact and within the limits. *)
Definition within (w : LocalWs) : Prop :=
  lm_totalBytes (lw_m w) <= MaxTotalBytes (lm_cfg (lw_m w)) /\ lm_fileCount (lw_m w) <= MaxFileCount (lm_cfg (lw_m w)).

(** Sizes that the host reports are not negative. *)
Definition sizes_ok : Prop := forall p, 0 <= special_size p.

Lemma weight_nonneg size q n : (forall q n, 0 <= size q n) -> 0 <= weight rp size q n.
Proof. intros Hs. unfold weight. destruct (below rp q) as [[|? ?]|]; try lia. by destruct (is_dir n). Qed.

Lemma node_size_nonneg q n : sizes_ok -> 0 <= node_size q n.
Proof. intros Hs. destruct n; cbn; unfold len; try lia; apply Hs. Qed.

(** What every operation keeps. *)
Definition op_keeps (w w' : LocalWs) : Prop :=
  changes_only (below_root rp) (lw_fs w) (lw_fs w') /\ ws_ok rp w' /\
  (no_faults -> sizes_ok -> exact rp w -> within w -> exact rp w' /\ within w').

Lemma keeps_same w w' : ws_ok rp w -> lw_fs w' = lw_fs w -> lw_m w' = lw_m w -> op_keeps w w'.
Proof.
  intros [Hroot Hok] Hfs Hm. unfold op_keeps, ws_ok, exact, within, lw_root. rewrite Hfs, Hm.
  split_and!; auto with agentforge; apply Hok.
Qed.

(** The totals after a successful write. *)
Lemma write_exact q content fs1 w w' :
  no_faults -> ws_ok rp w -> Forall plain q -> no_links (lw_fs w) (rp ++ q) -> exact rp w ->
  added_dirs (rp ++ q) (lw_fs w) fs1 -> file_put (rp ++ q) content fs1 (lw_fs w') ->
  let info := (os_Stat (abs_path (rp ++ q)) (lw_host w)).2 in
  tree_bytes rp (lw_fs w') = lm_totalBytes (lw_m w) - match info with Ok i => info_size i | Err _ => 0 end + Z.of_nat (length content) /\
  tree_files rp (lw_fs w') = match info with Ok _ => lm_fileCount (lw_m w) | Err _ => lm_fileCount (lw_m w) + 1 end.
Proof.
  intros Hn [_ [Hwf Hd]] Hq Hl Hex Hadd (d & x & mode & Hpx & -> & Hdd & Hx & Hold). cbn zeta.
  assert (Hqne : q <> []).
  { intros ->. rewrite app_nil_r in *. pose proof (added_lookup _ _ _ _ _ Hadd Hd) as Hd1. destruct rp; [done|]. cbn in Hd1.
    rewrite Hd1 in Hold. by destruct Hold as [?|(? & ? & ?)]. }
  assert (lm_totalBytes (lw_m w) = tree_bytes rp (lw_fs w) /\ lm_fileCount (lw_m w) = tree_files rp (lw_fs w)) as [-> ->]
    by (unfold exact in Hex; by rewrite Hex).
  unfold tree_bytes, tree_files.
  rewrite !usage_insert, !weight_below by done. cbn [is_dir node_size].
  rewrite !(usage_added _ _ _ _ (weight_dir rp _) Hadd).
  unfold os_Stat. rewrite query_run by done. cbn [snd]. fold (lw_fs w).
  assert (Hlk : forall fs, fs_lookup fs (rp ++ q) = fs !! (rp ++ q)) by (intros fs; by rewrite fs_lookup_app).
  unfold node_weight. destruct (Hadd (rp ++ q)) as [Heq|(Hnone & Hdir & _)]; [|rewrite Hdir in Hold; by destruct Hold as [?|(? & ? & ?)]].
  destruct Hold as [Hnone|(m & old & Hfile)].
  - rewrite Hnone. destruct (stat_at true (abs_path (rp ++ q)) (lw_fs w)) as [i|e] eqn:Es; [|cbn match; split; lia].
    apply stat_no_links in Es as [Es _]; [|by apply Forall_app|done]. rewrite Hlk, <- Heq in Es. congruence.
  - rewrite Hfile, !weight_below by done. cbn [is_dir node_size].
    rewrite stat_exists; [|done|rewrite Hlk, <- Heq; by eexists|done]. unfold info_at. rewrite Hlk, <- Heq, Hfile. cbn. split; lia.
Qed.

Lemma Write_keeps name content w : faults_ok -> ws_ok rp w -> op_keeps w (Write name content w).1.
Proof.
  intros Hf Hok. destruct (Write name content w) as [w' r] eqn:E. cbn [fst].
  apply (with_path_spec rp Hrp Hplain) in E as [(e & -> & Hfs & Hm)|(q & w1 & Hq & Hl & Hfs1 & Hm1 & E)];
    [by apply keeps_same| |done..].
  assert (Hok1 : ws_ok rp w1) by (destruct Hok; unfold ws_ok, lw_root in *; by rewrite Hfs1, Hm1).
  rewrite <- Hfs1 in Hl. apply (Write_locked_spec rp Hrp Hplain) in E as (Hc & Hch & Hwf & Hr); [|done|apply Hok1|done].
  assert (Hok' : ws_ok rp w').
  { destruct Hok1 as [Hroot1 Hroot2]. split; [unfold lw_root in *; by rewrite Hc|]. by eapply changes_root_ok. }
  split; [by rewrite <- Hfs1|]. split; [done|]. intros Hn _ Hex Hwi.
  assert (Hex1 : exact rp w1) by (unfold exact; by rewrite Hfs1, Hm1). unfold exact, within. rewrite Hc.
  destruct r as [[]|e].
  - destruct Hr as (fs1 & info & Hadd & Hput & Hinfo & Hm & Hb1 & Hb2).
    destruct (write_exact q content fs1 w1 w' Hn Hok1 Hq Hl Hex1 Hadd Hput) as [T1 T2]. rewrite Hinfo in T1, T2.
    split; [rewrite T1, T2; exact Hm|]. split; [done|]. destruct info as [i|e]; [|done].
    rewrite Hm. cbn. rewrite Hm1. apply Hwi.
  - destruct Hr as [Hm Hadd]. specialize (Hadd Hn). unfold tree_bytes, tree_files.
    rewrite !(usage_added _ _ _ _ (weight_dir rp _) Hadd), Hm, Hm1. split; [|exact Hwi].
    unfold exact in Hex. unfold tree_bytes, tree_files in Hex. by rewrite Hfs1.
Qed.

Lemma Delete_keeps name w : faults_ok -> ws_ok rp w -> op_keeps w (Delete name w).1.
Proof.
  intros Hf Hok. destruct (Delete name w) as [w' r] eqn:E. cbn [fst].
  apply (with_path_spec rp Hrp Hplain) in E as [(e & -> & Hfs & Hm)|(q & w1 & Hq & Hl & Hfs1 & Hm1 & E)];
    [by apply keeps_same| |done..].
  assert (Hok1 : ws_ok rp w1) by (destruct Hok; unfold ws_ok, lw_root in *; by rewrite Hfs1, Hm1).
  rewrite <- Hfs1 in Hl. apply (Delete_locked_spec rp Hrp Hplain) in E as (Hc & Hch & Hwf & Hsub & Hex & _); [|done..].
  rewrite Hfs1 in Hch. rewrite Hm1 in Hc.
  assert (Hok' : ws_ok rp w').
  { destruct Hok as [Hroot1 Hroot2]. split; [unfold lw_root in *; by rewrite Hc|]. by eapply changes_root_ok. }
  split; [done|]. split; [done|]. intros Hn Hsz Hx Hwi.
  assert (Hx' : exact rp w') by (apply Hex; [done|]; unfold exact; by rewrite Hfs1, Hm1). split; [done|]. rewrite Hfs1 in Hsub.
  unfold within. rewrite Hc, Hx'. cbn [lm_totalBytes lm_fileCount]. unfold exact in Hx. unfold within in Hwi. rewrite Hx in Hwi.
  cbn [lm_totalBytes lm_fileCount lm_cfg] in Hwi. unfold tree_bytes, tree_files in *.
  pose proof (usage_mono (weight rp node_size) _ _ (fun q n => weight_nonneg _ q n (fun q n => node_size_nonneg q n Hsz)) Hsub).
  pose proof (usage_mono (weight rp (fun _ _ => 1)) _ _ (fun q n => weight_nonneg _ q n (fun _ _ => Z.le_0_1)) Hsub). lia.
Qed.

(** Operations that only look at files. *)
Lemma query_op_keeps {A} name (k : string -> ST LocalWs (result error A)) w :
  (forall abs w1, lw_fs (k abs w1).1 = lw_fs w1 /\ lw_m (k abs w1).1 = lw_m w1) ->
  faults_ok -> ws_ok rp w -> op_keeps w (with_path name k w).1.
Proof.
  intros Hk Hf Hok. destruct (with_path name k w) as [w' r] eqn:E. cbn [fst].
  apply (with_path_spec rp Hrp Hplain) in E as [(e & -> & Hfs & Hm)|(q & w1 & Hq & Hl & Hfs1 & Hm1 & E)];
    [by apply keeps_same| |done..].
  destruct (Hk (abs_path (rp ++ q)) w1) as [Hfs Hm]. rewrite E in Hfs, Hm. cbn in *. apply keeps_same; congruence.
Qed.

Lemma os_ReadFile_fs name h : h_fs (os_ReadFile name h).1 = h_fs h.
Proof.
  unfold os_ReadFile. rewrite ST_bind_run. destruct (os_Open name h) as [h1 r1] eqn:E1. apply query_pair in E1. cbn [fst snd].
  destruct r1 as [p|e]; [|done]. unfold os_Read. by rewrite query_fs.
Qed.

Lemma os_ReadDir_fs name h : h_fs (os_ReadDir name h).1 = h_fs h.
Proof.
  unfold os_ReadDir. rewrite ST_bind_run. destruct (os_Open name h) as [h1 r1] eqn:E1. apply query_pair in E1. cbn [fst snd].
  destruct r1 as [p|e]; [|done]. by rewrite query_fs.
Qed.

Lemma list_infos_fs abs dir entries h : h_fs (list_infos abs dir entries h).1 = h_fs h.
Proof.
  revert h. induction entries as [|e l IH]; intros h; [done|]. cbn [list_infos]. rewrite ST_bind_run.
  destruct (os_Lstat (Join abs e.1) h) as [h1 r1] eqn:E1. apply query_pair in E1. cbn [fst snd].
  rewrite ST_bind_run. cbn. by rewrite IH.
Qed.

Lemma run_op_keeps op w : faults_ok -> ws_ok rp w -> op_keeps w (run_op w op).
Proof.
  intros Hf Hok. destruct op; cbn [run_op]; [by apply Write_keeps| | | |by apply Delete_keeps];
    apply query_op_keeps; try done; intros abs w1; rewrite ST_bind_run, io_run; cbn [fst snd].
  - split; [|done]. apply (os_ReadFile_fs abs (lw_host w1)).
  - pose proof (os_ReadDir_fs abs (lw_host w1)) as Hr. destruct (os_ReadDir abs (lw_host w1)) as [h1 [l|e]]; cbn [fst snd] in *; [|by split].
    rewrite ST_bind_run, io_run. cbn. split; [|done]. unfold lw_fs. cbn. by rewrite list_infos_fs.
  - destruct (os_Stat abs (lw_host w1)) as [h1 r1] eqn:E1. apply query_pair in E1. cbn [fst snd]. by destruct r1.
Qed.

Lemma run_ops_keeps ops w : faults_ok -> ws_ok rp w -> op_keeps w (fold_left run_op ops w).
Proof.
  intros Hf. revert w. induction ops as [|op ops IH]; intros w Hok; [by apply keeps_same|]. cbn [fold_left].
  destruct (run_op_keeps op w Hf Hok) as (Hc1 & Hok1 & Hx1). destruct (IH _ Hok1) as (Hc2 & Hok2 & Hx2).
  split; [by eapply changes_trans|]. split; [done|]. intros Hn Hs Hex Hwi. destruct (Hx1 Hn Hs Hex Hwi). auto.
Qed.

(** C34: Whatever names the file operations are given, and whatever symbolic links there are below the
    root, no sequence of operations changes a file, directory or link outside the workspace root, not
    even if system calls fail half-way; the root stays a directory. *)
Theorem workspace_confined ops w :
  faults_ok -> ws_ok rp w ->
  ws_ok rp (fold_left run_op ops w) /\
  forall q, under rp q = false -> lw_fs (fold_left run_op ops w) !! q = lw_fs w !! q.
Proof.
  intros Hf Hok. destruct (run_ops_keeps ops w Hf Hok) as (Hc & Hok' & _). split; [done|].
  intros q Hq. destruct (Hc q) as [(r & _ & ->)|Heq]; [|done]. by rewrite (proj2 (under_spec _ _)) in Hq by (by exists r).
Qed.

(** C35: While no system call fails, the totals of the manager are exactly the bytes and the number of the
    files below the root after any sequence of operations, and stay within the quotas. *)
Theorem workspace_quota ops w :
  no_faults -> sizes_ok -> ws_ok rp w -> exact rp w -> within w ->
  let w' := fold_left run_op ops w in
  Usage (lw_m w') = (tree_bytes rp (lw_fs w'), tree_files rp (lw_fs w')) /\
  tree_bytes rp (lw_fs w') <= MaxTotalBytes (lm_cfg (lw_m w')) /\
  tree_files rp (lw_fs w') <= MaxFileCount (lm_cfg (lw_m w')).
Proof.
  intros Hn Hs Hok Hex Hwi. cbn zeta. destruct (run_ops_keeps ops w (no_faults_ok Hn) Hok) as (_ & _ & Hx).
  destruct (Hx Hn Hs Hex Hwi) as [Hex' [Hw1 Hw2]]. unfold exact in Hex'. unfold Usage. rewrite Hex' in Hw1, Hw2 |- *. done.
Qed.

(** Reading changes nothing and gives the content of a file below the root. *)
Lemma Read_below name w w' data :
  faults_ok -> ws_ok rp w -> Read name w = (w', Ok data) ->
  lw_fs w' = lw_fs w /\ lw_m w' = lw_m w /\
  exists q mode, q <> [] /\ Forall plain q /\ lw_fs w !! (rp ++ q) = Some (NFile mode data).
Proof.
  intros Hf Hok E.
  apply (with_path_spec rp Hrp Hplain) in E as [(e & [=] & _)|(q & w1 & Hq & Hl & Hfs1 & Hm1 & E)]; [|done..].
  rewrite ST_bind_run, io_run in E. cbn [fst snd] in E.
  destruct (os_ReadFile (abs_path (rp ++ q)) (lw_host w1)) as [h1 r1] eqn:E1.
  apply os_ReadFile_spec in E1 as [Hfs2 Hread]. cbn in E. injection E as <- Er. destruct r1 as [d|]; [|done]. injection Er as ->.
  change (h_fs (lw_host w1)) with (lw_fs w1) in *. rewrite Hfs1 in *.
  destruct (Hread ltac:(by apply Forall_app) Hl data eq_refl) as [mode Hm]. split; [exact Hfs2|]. split; [exact Hm1|].
  exists q, mode. split; [|done].
  intros ->. rewrite app_nil_r in Hm. destruct Hok as [_ [_ Hd]]. destruct rp; [done|]. cbn in Hd. congruence.
Qed.

(** [Read] only ever returns the content of a regular file below the root, also through links. *)
Theorem read_confined name w w' data :
  faults_ok -> ws_ok rp w -> Read name w = (w', Ok data) ->
  exists q mode, q <> [] /\ Forall plain q /\ lw_fs w !! (rp ++ q) = Some (NFile mode data).
Proof. intros Hf Hok E. by apply Read_below in E as (_ & _ & ?). Qed.

(** *** What was written can be read *)

Lemma check_components_exists a parts h :
  no_faults -> fs_wf (h_fs h) -> Forall plain (rp ++ a ++ parts) -> is_Some (fs_lookup (h_fs h) (rp ++ a ++ parts)) ->
  no_links (h_fs h) (rp ++ a ++ parts) -> (check_components (abs_path (rp ++ a)) parts h).2 = Ok tt.
Proof.
  intros Hn. revert a h. induction parts as [|x parts IH]; intros a h Hwf Hp Hex Hl; [done|]. cbn [check_components].
  assert (Hx : plain x) by (rewrite !Forall_app in Hp; destruct Hp as (_ & _ & Hp); by inversion Hp).
  assert (Hra : Forall plain (rp ++ a)) by (rewrite app_assoc in Hp; by apply Forall_app in Hp as [? _]).
  destruct (plain_eqb x Hx) as (-> & -> & _). cbn [orb]. rewrite ST_bind_run, Join_plain by (done || by destruct rp).
  replace (rp ++ a ++ x :: parts) with (((rp ++ a) ++ [x]) ++ parts) in * by (by rewrite <- !app_assoc).
  assert (Hex1 : is_Some (fs_lookup (h_fs h) ((rp ++ a) ++ [x]))).
  { destruct (fs_lookup (h_fs h) ((rp ++ a) ++ [x])) as [n|] eqn:E; [by eexists|].
    rewrite (fs_wf_missing _ _ parts Hwf E) in Hex. by destruct Hex. }
  unfold os_Lstat. rewrite query_run by done. cbn [fst snd]. rewrite stat_exists by done.
  assert (is_symlink (info_node (info_at (h_fs h) ((rp ++ a) ++ [x]))) = false) as ->.
  { unfold info_at. destruct Hex1 as [n Hx1]. rewrite Hx1. cbn. destruct n as [| |t|]; try done.
    by destruct (Hl ((rp ++ a) ++ [x]) parts t eq_refl). }
  set (h1 := h <| h_tick ::= S |>). replace ((rp ++ a) ++ [x]) with (rp ++ a ++ [x]) in * by (by rewrite app_assoc).
  apply IH; change (h_fs h1) with (h_fs h); rewrite <- ?app_assoc in *; done.
Qed.

(** The place a name denotes. *)
Definition located (name : string) (q : path) : Prop :=
  IsAbs (Clean name) = false /\ Forall plain q /\ Join (abs_path rp) (Clean name) = abs_path (rp ++ q).

Lemma safePath_located name h h' abs :
  safePath (abs_path rp) name h = (h', Ok abs) -> IsAbs (Clean name) = false /\ Join (abs_path rp) (Clean name) = abs.
Proof.
  unfold safePath. cbn zeta. destruct (IsAbs (Clean name)); [done|]. case_if; [done|]. rewrite ST_bind_run.
  destruct (ensureNoSymlink _ _ h) as [h1 [[]|]]; cbn; [|done]. by intros [= _ <-].
Qed.

Lemma safePath_exists name q h :
  no_faults -> root_ok rp (h_fs h) -> located name q -> is_Some (fs_lookup (h_fs h) (rp ++ q)) -> no_links (h_fs h) (rp ++ q) ->
  exists h', h_fs h' = h_fs h /\ safePath (abs_path rp) name h = (h', Ok (abs_path (rp ++ q))).
Proof.
  intros Hn Hroot (Habs & Hq & Hj) Hex Hl. destruct (safePath (abs_path rp) name h) as [h' r] eqn:E.
  destruct (safePath_spec rp Hrp Hplain _ _ _ _ (no_faults_ok Hn) Hroot E) as [Hfs _]. exists h'. split; [done|].
  unfold safePath in E. cbn zeta in E. rewrite Habs, Hj in E.
  assert (Hok : (ensureNoSymlink (abs_path rp) (abs_path (rp ++ q)) h).2 = Ok tt).
  { unfold ensureNoSymlink. case_if; [done|]. assert (Hqne : q <> []) by (intros ->; by rewrite app_nil_r, String.eqb_refl in Hif).
    rewrite Rel_under, Split_join by (done || by apply plain_no_slash).
    pose proof (check_components_exists [] q h Hn (proj1 Hroot)) as Hcc. rewrite app_nil_r in Hcc. apply Hcc; [by apply Forall_app|done|done]. }
  assert (Hpre : negb (HasPrefix (abs_path (rp ++ q)) (abs_path rp +:+ "/")) && negb (String.eqb (abs_path (rp ++ q)) (abs_path rp)) = false).
  { destruct q as [|x q]; [by rewrite app_nil_r, String.eqb_refl, andb_false_r|].
    assert (HasPrefix (abs_path (rp ++ x :: q)) (abs_path rp +:+ "/") = true) as ->; [|done].
    apply HasPrefix_under; [done|done|by apply Forall_app|]. by exists (x :: q). }
  rewrite Hpre, ST_bind_run in E. destruct (ensureNoSymlink _ _ h) as [h1 r1]. cbn in Hok, E. rewrite Hok in E. by injection E as <- <-.
Qed.

Lemma read_file_at p h mode data :
  no_faults -> fs_wf (h_fs h) -> no_links (h_fs h) p -> p <> [] -> h_fs h !! p = Some (NFile mode data) ->
  (os_ReadFile (abs_path p) h).2 = Ok data.
Proof.
  intros Hn Hwf Hl Hne Hp. unfold os_ReadFile, os_Open. rewrite ST_bind_run, query_run by done. cbn [fst snd].
  assert (Hlk : fs_lookup (h_fs h) p = Some (NFile mode data)) by (by destruct p).
  assert (Hnm : namei true (abs_path p) (h_fs h) = Ok p).
  { destruct p as [|x d _] using rev_ind; [done|]. destruct (Hwf _ _ _ Hp) as [Hd _].
    apply namei_real; [|by apply fs_wf_real|by rewrite Hp]. apply (fs_wf_good (h_fs h)); [done|]. rewrite Hlk. by eexists. }
  unfold open_at. rewrite Hnm, Hlk. cbn [fst snd]. unfold os_Read. rewrite query_run by done. cbn. by rewrite Hlk.
Qed.

(** A successful write: where the file is, and what did not change. *)
Lemma Write_located name content w w1 :
  no_faults -> ws_ok rp w -> Write name content w = (w1, Ok tt) ->
  exists q mode fs1, located name q /\ q <> [] /\ no_links fs1 (rp ++ q) /\
    added_dirs (rp ++ q) (lw_fs w) fs1 /\ lw_fs w1 = <[rp ++ q := NFile mode content]> fs1.
Proof.
  intros Hn [Hroot Hrok] E. unfold Write, with_path in E. rewrite ST_bind_run in E. cbn [cfg fst snd] in E.
  rewrite ST_bind_run, io_run in E. change (Root (lm_cfg (lw_m w))) with (lw_root w) in E. rewrite Hroot in E.
  destruct (safePath (abs_path rp) name (lw_host w)) as [h r] eqn:Es. cbn [fst snd] in E.
  destruct (safePath_spec rp Hrp Hplain _ _ _ _ (no_faults_ok Hn) Hrok Es) as [Hfs Hsafe].
  destruct r as [abs|e]; [|done]. destruct (Hsafe abs eq_refl) as (q & -> & Hq & Hl).
  destruct (safePath_located _ _ _ _ Es) as [H1 H2]. set (w0 := w <| lw_host := h |>) in E.
  assert (Hfs0 : lw_fs w0 = lw_fs w) by exact Hfs.
  apply (Write_locked_spec rp Hrp Hplain) in E as (_ & _ & _ & fs1 & info & Hadd & Hput & _); [|done|by rewrite Hfs0|by rewrite Hfs0].
  rewrite Hfs0 in Hadd. destruct Hput as (d & x & mode & Hpx & Hfs1 & Hd & Hx & Hold).
  exists q, mode, fs1. split; [by split_and!|]. split; [|split; [by eapply added_no_links|done]].
  intros ->. rewrite app_nil_r in *. destruct Hrok as [_ Hrd]. pose proof (added_lookup _ _ _ _ _ Hadd Hrd) as Hrd1.
  destruct rp; [done|]. cbn in Hrd1. rewrite Hrd1 in Hold. by destruct Hold as [?|(? & ? & ?)].
Qed.

(** C36: A successful write puts the content at the place that its name denotes, the root of the workspace joined with
    the cleaned name; every other file, directory and link is as it was, but for directories added on the way to that
    place.  The content is then read back under every relative name for the same place. *)
Theorem write_read_roundtrip name name' content w w1 :
  no_faults -> ws_ok rp w -> Write name content w = (w1, Ok tt) ->
  IsAbs (Clean name') = false -> Join (abs_path rp) (Clean name') = Join (abs_path rp) (Clean name) ->
  (Read name' w1).2 = Ok content /\
  exists q mode, q <> [] /\ Forall plain q /\ Join (abs_path rp) (Clean name) = abs_path (rp ++ q) /\
    lw_fs w1 !! (rp ++ q) = Some (NFile mode content) /\
    forall p, p <> rp ++ q -> lw_fs w1 !! p = lw_fs w !! p \/
      (lw_fs w !! p = None /\ lw_fs w1 !! p = Some NDir /\ exists b, rp ++ q = p ++ b).
Proof.
  intros Hn Hok E Hrel Hcl. pose proof (run_op_keeps (WsWrite name content) w (no_faults_ok Hn) Hok) as (_ & Hok1 & _).
  cbn [run_op] in Hok1. rewrite E in Hok1. destruct Hok1 as [Hroot1 Hrok1]. cbn [fst] in *.
  destruct (Write_located name content w w1 Hn Hok E) as (q & mode & fs1 & Hloc & Hqne & Hl1 & Hadd & Hfs1).
  assert (Hfile : lw_fs w1 !! (rp ++ q) = Some (NFile mode content)) by (rewrite Hfs1; apply lookup_insert_eq).
  assert (Hl2 : no_links (lw_fs w1) (rp ++ q)).
  { intros a b t Hab. rewrite Hfs1. destruct a as [|y a]; [done|]. cbn. destruct (decide (rp ++ q = y :: a)) as [Ea|Hne].
    - by rewrite Ea, lookup_insert_eq.
    - rewrite lookup_insert_ne by done. by apply (Hl1 (y :: a) b t). }
  split.
  - unfold Read, with_path. rewrite ST_bind_run. cbn [cfg fst snd]. rewrite ST_bind_run, io_run.
    change (Root (lm_cfg (lw_m w1))) with (lw_root w1). rewrite Hroot1.
    destruct (safePath_exists name' q (lw_host w1) Hn Hrok1) as (h & Hfs & ->).
    + destruct Hloc as (_ & Hq & Hj). split_and!; [done|done|by rewrite Hcl].
    + change (h_fs (lw_host w1)) with (lw_fs w1). rewrite fs_lookup_app, Hfile by done. by eexists.
    + done.
    + cbn [fst snd]. rewrite ST_bind_run, io_run. cbn [fst snd]. change (lw_host (w1 <| lw_host := h |>)) with h.
      rewrite (read_file_at _ _ mode content); [done|done| | |by destruct rp|]; rewrite Hfs; [apply Hrok1|done|done].
  - destruct Hloc as (_ & Hq & Hj). exists q, mode. split_and!; [done|done|done|done|].
    intros p Hne. rewrite Hfs1, lookup_insert_ne by done.
    destruct (Hadd p) as [->|(Hnone & Hdir & _ & Hb)]; [by left|by right].
Qed.
End operations.
