(* ===== verification/WorkspaceRestore.v ===== *)
(** * WorkspaceRestore: archives of a workspace

    Theorems on [Restore] of [Workspace]: an archive, however it was made, is
    extracted only below a fresh directory beside the root and creates no links; a restore
    that fails leaves the old files in place or, if even the rollback fails, in the backup
    directory.  [WorkspaceSnapshot] shows that a restored snapshot gives the same files. *)

From Stdlib Require Import Ascii.
From S2P Require Import Prelude GoLib Artifacts FileSystem Workspace.

(** ** The directories a restore uses *)

Definition temp_name (n : Z) : string := ".agentforge-restore-" +:+ fmt_d n.
Definition backup_name (x : string) : string := x +:+ ".restore-backup".

Lemma abs_path_suffix d x s : abs_path (d ++ [x]) +:+ s = abs_path (d ++ [x +:+ s]).
Proof.
  destruct d as [|y d]; [done|]. rewrite !abs_path_app by done. cbn [str_join]. by rewrite <- !string_app_assoc.
Qed.

Lemma no_slash_app a b : no_slash a -> no_slash b -> no_slash (a +:+ b).
Proof. unfold no_slash. rewrite bytes_of_app, elem_of_app. tauto. Qed.

Lemma no_slash_fmt_d z : no_slash (fmt_d z).
Proof.
  destruct (fmt_d_chars z) as (l & -> & Hl). unfold no_slash. rewrite bytes_of_string_of. by apply num_chars_avoid.
Qed.

Lemma string_length_app a b : String.length (a +:+ b) = (String.length a + String.length b)%nat.
Proof. induction a as [|c a IH]; [done|]. change (String c a +:+ b) with (String c (a +:+ b)). cbn. by rewrite IH. Qed.

(** Names with more than two characters are plain if they have no slash. *)
Lemma plain_long s : no_slash s -> (2 < String.length s)%nat -> plain s.
Proof. intros Hs Hl. split; [done|]. split_and!; intros ->; cbn in Hl; lia. Qed.

Lemma temp_name_plain n : plain (temp_name n).
Proof.
  apply plain_long; [|unfold temp_name; rewrite string_length_app; cbn; lia]. apply no_slash_app; [|apply no_slash_fmt_d].
  apply (bool_decide_unpack _). vm_compute. done.
Qed.

Lemma backup_name_plain x : plain x -> plain (backup_name x).
Proof.
  intros [Hx _]. apply plain_long.
  - apply no_slash_app; [done|]. apply (bool_decide_unpack _). vm_compute. done.
  - unfold backup_name. rewrite string_length_app. cbn. lia.
Qed.

Lemma bytes_app_last {A} (l1 l2 : list A) (x y : A) : l1 ++ [x] = l2 ++ [y] -> x = y.
Proof. by intros [_ ?]%app_inj_tail. Qed.

(** A temporary directory is not the backup. *)
Lemma temp_not_backup n x : temp_name n <> backup_name x.
Proof.
  intros E. apply (f_equal bytes_of) in E. unfold temp_name, backup_name in E. rewrite !bytes_of_app in E.
  destruct (fmt_d_chars n) as (l & Hl & Hch). rewrite Hl, bytes_of_string_of in E.
  destruct l as [|c l _] using rev_ind.
  { rewrite app_nil_r in E. change (bytes_of ".agentforge-restore-") with (bytes_of ".agentforge-restore" ++ ["-"%char]) in E.
    change (bytes_of ".restore-backup") with (bytes_of ".restore-backu" ++ ["p"%char]) in E. rewrite app_assoc in E.
    by apply bytes_app_last in E. }
  apply Forall_app in Hch as [_ Hc]. inversion Hc as [|? ? Hc' _]; subst.
  change (bytes_of ".restore-backup") with (bytes_of ".restore-backu" ++ ["p"%char]) in E. rewrite !app_assoc in E.
  apply bytes_app_last in E as ->. done.
Qed.

Lemma backup_not_root x : backup_name x <> x.
Proof.
  intros E. apply (f_equal String.length) in E. unfold backup_name in E. rewrite string_length_app in E. cbn in E. lia.
Qed.

(** ** Extraction *)

Section extraction.
Context `{HE : HostEnv} `{HC : ArchiveCodec} (t : path).
Hypothesis Ht : t <> [].
Hypothesis Htp : Forall plain t.

(** [t] is a directory without links below it. *)
Definition clean_tree (fs : FS) : Prop := root_ok t fs /\ forall r l, fs !! (t ++ r) <> Some (NSymlink l).

Lemma clean_no_links fs r : clean_tree fs -> no_links fs (t ++ r).
Proof.
  intros [[Hwf Hd] Hc] a b l Hab. apply eq_sym, app_eq_app in Hab as (m & [[Ha _]|[Ha _]]).
  - rewrite Ha. destruct m as [|y m]; [rewrite app_nil_r|].
    + by rewrite Hd.
    + rewrite fs_lookup_app by done. apply Hc.
  - by rewrite (fs_wf_real _ _ Hwf Hd a m Ha).
Qed.

(** New directories and files are no links. *)
Lemma clean_added r fs fs' : clean_tree fs -> dirs_made (t ++ r) fs fs' -> clean_tree fs' /\ changes_only (below_root t) fs fs'.
Proof.
  intros [Hroot Hc] [Ha Hw]. pose proof (added_below t r _ _ Hroot Ha) as Hch. split; [|done]. split.
  - eapply changes_root_ok; [done|done|exact Hch|apply Hw, Hroot|done].
  - intros s l. destruct (Ha (t ++ s)) as [->|(_ & -> & _)]; [apply Hc|done].
Qed.

Lemma clean_put r data fs fs' : clean_tree fs -> file_put (t ++ r) data fs fs' -> clean_tree fs' /\ changes_only (below_root t) fs fs'.
Proof.
  intros [Hroot Hc] Hput. pose proof (file_put_wf _ _ _ _ Hput (proj1 Hroot)) as Hwf.
  pose proof (file_put_changes _ _ _ _ Hput) as Hch0. destruct Hput as (d & x & mode & Hp & -> & Hd & Hx & Hold).
  assert (Hr : r <> []).
  { intros ->. rewrite app_nil_r in *. destruct Hroot as [_ Hdir]. destruct t; [done|]. cbn in Hdir. rewrite Hdir in Hold.
    by destruct Hold as [?|(? & ? & ?)]. }
  assert (Hch : changes_only (below_root t) fs (<[t ++ r := NFile mode data]> fs)).
  { eapply changes_weaken; [|exact Hch0]. intros q <-. by exists r. }
  split; [|done]. split; [by eapply changes_root_ok|]. intros s l. destruct (decide (t ++ r = t ++ s)) as [->|Hne].
  - by rewrite lookup_insert_eq.
  - rewrite lookup_insert_ne by done. apply Hc.
Qed.

Lemma check_entry_spec name target :
  check_entry (abs_path t) name = Ok target -> exists r, target = abs_path (t ++ r) /\ Forall plain r.
Proof.
  unfold check_entry. cbn zeta. destruct (IsAbs (Clean name)) eqn:Eabs; [done|].
  destruct (existsb _ _); [done|]. rewrite Join_abs by (done || apply Clean_nonempty).
  set (q := clean_go true (Split (Clean name) "/") (rev t)).
  assert (Hq : Forall plain q) by (apply clean_go_rooted; [apply Split_parts|by apply Forall_rev]).
  destruct (HasPrefix (abs_path q) (abs_path t +:+ "/")) eqn:Epre; cbn [negb andb].
  - apply HasPrefix_under in Epre as (b & Hb & Hqb); [|done..]. intros [= <-]. exists b. rewrite <- Hqb. split; [done|].
    rewrite Hqb in Hq. by apply Forall_app in Hq as [_ ?].
  - destruct (String.eqb_spec (abs_path q) (abs_path t)) as [Eq|_]; [|done]. intros [= <-]. exists []. by rewrite app_nil_r.
Qed.

Lemma extract_file_confined e r h h' res :
  Forall plain r -> clean_tree (h_fs h) -> extract_file e (abs_path (t ++ r)) h = (h', res) ->
  clean_tree (h_fs h') /\ changes_only (below_root t) (h_fs h) (h_fs h').
Proof.
  intros Hr Hc. destruct (Dir_under t Ht Htp r Hr) as (d & x & Hdx & Hd & HD). unfold extract_file. rewrite HD, ST_bind_run.
  pose proof (clean_no_links _ r Hc) as Hl.
  destruct (os_MkdirAll (abs_path d) h) as [h1 r1] eqn:E1. cbn [fst snd].
  apply os_MkdirAll_spec in E1 as [[Ha Hw] _]; [|done|rewrite Hdx in Hl; by eapply no_links_app].
  assert (Hm : dirs_made (t ++ r) (h_fs h) (h_fs h1)) by (split; [rewrite Hdx; by apply added_weaken|done]).
  destruct (clean_added r _ _ Hc Hm) as [Hc1 Hch1]. destruct r1 as [[]|er]; [|by intros [= <- <-]].
  rewrite ST_bind_run. destruct (os_Create _ _ h1) as [h2 r2] eqn:E2. cbn [fst snd].
  destruct r2 as [p|er]; [|apply os_Create_err in E2; intros [= <- <-]; by rewrite E2].
  apply call_ok, creat_at_spec in E2 as [-> Hput]; [|by apply Forall_app|by apply clean_no_links].
  assert (Hm2 : exists mode, h_fs h2 !! (t ++ r) = Some (NFile mode [])).
  { destruct Hput as (d' & x' & mode & _ & -> & _). exists mode. by rewrite lookup_insert_eq. }
  destruct Hm2 as [mode Hmode]. cbn zeta. rewrite !ST_bind_run.
  destruct (os_Write (abs_path (t ++ r)) (t ++ r) _ h2) as [h3 r3] eqn:E3. cbn [fst snd].
  apply (os_Write_spec _ _ _ _ _ _ _ _ Hmode) in E3 as (written & Hfs3 & _).
  pose proof (file_put_twice _ _ written _ _ _ Hput Hmode) as Hput'. rewrite <- Hfs3 in Hput'.
  destruct (clean_put r written _ _ Hc1 Hput') as [Hc3 Hch3].
  destruct (os_Close _ h3) as [h4 r4] eqn:E4. apply query_pair in E4. intros [= <- _]. rewrite E4.
  split; [done|]. by eapply changes_trans.
Qed.

(** Whatever an archive contains, it is extracted below [t]. *)
Lemma extract_confined c entries last tb fc n h h' res :
  clean_tree (h_fs h) -> extract_entries c (abs_path t) entries last tb fc n h = (h', res) ->
  clean_tree (h_fs h') /\ changes_only (below_root t) (h_fs h) (h_fs h').
Proof.
  revert tb fc n h. induction entries as [|e entries IH]; intros tb fc n h Hc; cbn [extract_entries].
  { intros [= <- <-]. auto with agentforge. }
  destruct (check_entry (abs_path t) (te_name e)) as [target|err] eqn:Ec; [|intros [= <- <-]; auto with agentforge].
  apply check_entry_spec in Ec as (r & -> & Hr). destruct (te_type e).
  - rewrite ST_bind_run. destruct (os_MkdirAll _ h) as [h1 r1] eqn:E1. cbn [fst snd].
    apply os_MkdirAll_spec in E1 as [Hm _]; [|by apply Forall_app|by apply clean_no_links].
    destruct (clean_added r _ _ Hc Hm) as [Hc1 Hch1]. destruct r1 as [[]|er]; [|by intros [= <- <-]].
    intros E. apply IH in E as [Hc2 Hch2]; [|done]. split; [done|]. by eapply changes_trans.
  - case_if; [intros [= <- <-]; auto with agentforge|]. case_if; [intros [= <- <-]; auto with agentforge|].
    case_if; [intros [= <- <-]; auto with agentforge|]. rewrite ST_bind_run.
    destruct (extract_file e _ h) as [h1 r1] eqn:E1. cbn [fst snd]. apply extract_file_confined in E1 as [Hc1 Hch1]; [|done..].
    destruct r1 as [[]|er]; [|by intros [= <- <-]].
    intros E. apply IH in E as [Hc2 Hch2]; [|done]. split; [done|]. by eapply changes_trans.
  - apply IH. done.
Qed.
End extraction.

(** ** Moving directories *)

Section moving.
Context `{HE : HostEnv} (d : path).

(** The entry [a] of [d] is now called [b]. *)
Definition moved (a b : string) (fs fs' : FS) : Prop :=
  (forall s, fs' !! (d ++ [b] ++ s) = fs !! (d ++ [a] ++ s)) /\
  (forall s, fs' !! (d ++ [a] ++ s) = None) /\
  (forall p, under (d ++ [a]) p = false -> under (d ++ [b]) p = false -> fs' !! p = fs !! p).

Lemma not_under_parent a : under (d ++ [a]) d = false.
Proof.
  apply not_true_iff_false. intros [r E]%under_spec. apply (f_equal length) in E. rewrite !length_app in E. cbn in E. lia.
Qed.

Lemma under_above a p y : under (d ++ [a]) p = true -> under (d ++ [a]) (p ++ [y]) = true.
Proof. intros [r ->]%under_spec. apply under_spec. exists (r ++ [y]). by rewrite app_assoc. Qed.

Lemma moved_lookup_dir a b fs fs' : moved a b fs fs' -> fs_lookup fs' d = fs_lookup fs d.
Proof.
  intros (_ & _ & H). destruct (decide (d = [])) as [E|Hne]; [by rewrite E|].
  rewrite !fs_lookup_ne by done. apply H; apply not_under_parent.
Qed.

Lemma moved_wf a b fs fs' :
  fs_wf fs -> fs_lookup fs d = Some NDir -> good_name b -> moved a b fs fs' -> fs_wf fs'.
Proof.
  intros Hwf Hd Hb Hm p y n Hp. pose proof (moved_lookup_dir _ _ _ _ Hm) as Hdd. destruct Hm as (H1 & H2 & H3).
  destruct (under (d ++ [b]) (p ++ [y])) eqn:Eb.
  - apply under_spec in Eb as [s Hs]. destruct s as [|z s _] using rev_ind.
    + rewrite app_nil_r in Hs. apply app_inj_tail in Hs as [-> ->]. by rewrite Hdd.
    + rewrite app_assoc in Hs. apply app_inj_tail in Hs as [-> ->]. rewrite <- !app_assoc, H1 in Hp.
      rewrite !app_assoc in Hp. apply Hwf in Hp as [Hp Hz]. split; [|done].
      assert (forall fs p, fs_lookup fs ((d ++ [p]) ++ s) = fs !! (d ++ [p] ++ s)) as Hlk.
      { intros fs0 p. rewrite <- app_assoc. by rewrite fs_lookup_app. }
      rewrite Hlk, H1. by rewrite Hlk in Hp.
  - destruct (under (d ++ [a]) (p ++ [y])) eqn:Ea.
    { apply under_spec in Ea as [s Hs]. rewrite <- app_assoc in Hs. by rewrite Hs, H2 in Hp. }
    rewrite H3 in Hp by done. apply Hwf in Hp as [Hp Hy]. split; [|done]. destruct p as [|z p]; [done|]. cbn in *.
    rewrite H3; [done|..]; apply not_true_iff_false; intros Hu; apply (under_above _ _ y) in Hu; cbn in *; congruence.
Qed.

Lemma os_Rename_spec a b h h' r :
  fs_wf (h_fs h) -> real_dir (h_fs h) d -> Forall plain (d ++ [a]) -> Forall plain (d ++ [b]) -> a <> b ->
  os_Rename (abs_path (d ++ [a])) (abs_path (d ++ [b])) h = (h', r) ->
  (h_fs h' = h_fs h /\ r <> Ok tt) \/
  (r = Ok tt /\ moved a b (h_fs h) (h_fs h') /\ fs_wf (h_fs h') /\ real_dir (h_fs h') d /\ is_Some (h_fs h !! (d ++ [a])) /\
   good_name b /\ forall s, s <> [] -> h_fs h !! (d ++ [b] ++ s) = None).
Proof.
  intros Hwf Hd Ha Hb Hne. unfold os_Rename, call. destruct (fault (h_tick h)); [intros [= <- <-]; by left|].
  destruct (rename_at _ _ (h_fs h)) as [fs r1] eqn:E. apply rename_at_spec in E; [|done..].
  destruct E as [[-> Hr]|(-> & Hs & Hemp & Hg & Hm)].
  - destruct r1 as [[]|]; [done|]. intros [= <- <-]. by left.
  - intros [= <- <-]. right. assert (Hdd : fs_lookup (h_fs h) d = Some NDir) by (apply (Hd d []); by rewrite app_nil_r).
    assert (Hm' : moved a b (h_fs h) fs) by exact Hm. pose proof (moved_wf _ _ _ _ Hwf Hdd Hg Hm') as Hwf'.
    do 3 (split; [done|]). split; [|done]. apply fs_wf_real; [done|]. exact (eq_trans (moved_lookup_dir _ _ _ _ Hm') Hdd).
Qed.

(** Changes below the entry [a] do not touch the entry [b]. *)
Lemma changes_apart (P : path -> Prop) a b fs fs' s :
  a <> b -> (forall q, P q -> at_or_under (d ++ [a]) q) -> changes_only P fs fs' -> fs' !! (d ++ [b] ++ s) = fs !! (d ++ [b] ++ s).
Proof.
  intros Hne HP Hc. destruct (Hc (d ++ [b] ++ s)) as [Hp|]; [|done]. apply HP in Hp as [r Hr].
  rewrite <- app_assoc in Hr. by apply siblings_disjoint in Hr.
Qed.

(** And not the directory itself. *)
Lemma changes_real (P : path -> Prop) a fs fs' :
  fs_wf fs' -> (forall q, P q -> at_or_under (d ++ [a]) q) -> changes_only P fs fs' -> real_dir fs d -> real_dir fs' d.
Proof.
  intros Hwf HP Hc Hd. apply fs_wf_real; [done|]. assert (Hdd : fs_lookup fs d = Some NDir) by (apply (Hd d []); by rewrite app_nil_r).
  destruct (decide (d = [])) as [E|Hne]; [by rewrite E|]. rewrite fs_lookup_ne in Hdd by done. rewrite fs_lookup_ne by done.
  destruct (Hc d) as [Hp| ->]; [|done].
  apply HP in Hp. destruct Hp as [r Hr]. apply (f_equal length) in Hr. rewrite !length_app in Hr. cbn in Hr. lia.
Qed.
End moving.

(** ** Restore *)

Section restore.
Context `{HE : HostEnv} `{HC : ArchiveCodec} (d : path) (x : string).
Hypothesis Hdp : Forall plain (d ++ [x]).
Abbreviation bx := (backup_name x).

(** The tree at the entry [b] of [d] is the one that was at the entry [a]. *)
Definition same_tree (a b : string) (fs fs' : FS) : Prop := forall s, fs' !! (d ++ [b] ++ s) = fs !! (d ++ [a] ++ s).

(** The directory that holds the root is in order. *)
Definition sound (fs : FS) : Prop := fs_wf fs /\ real_dir fs d.

(** The entries of [d] that a restore through the temporary directory [t] uses. *)
Definition touched (t : string) (q : path) : Prop :=
  at_or_under (d ++ [x]) q \/ at_or_under (d ++ [bx]) q \/ at_or_under (d ++ [t]) q.

Lemma plain_dir : Forall plain d /\ plain x.
Proof. pose proof Hdp as H. apply Forall_app in H as [? Hx]. split; [done|]. by inversion Hx. Qed.

Lemma plain_entry b : plain b -> Forall plain (d ++ [b]).
Proof. intros. apply Forall_app. split; [apply plain_dir|by constructor]. Qed.

Lemma sound_no_links fs : sound fs -> no_links fs d.
Proof. intros [_ Hd] a b l ->. by rewrite (Hd a b). Qed.

(** Removing the entry [b] keeps the others. *)
Lemma remove_entry b h h' r :
  plain b -> sound (h_fs h) -> os_RemoveAll (abs_path (d ++ [b])) h = (h', r) ->
  sound (h_fs h') /\ changes_only (at_or_under (d ++ [b])) (h_fs h) (h_fs h') /\
  forall a, a <> b -> same_tree a a (h_fs h) (h_fs h').
Proof.
  intros Hb [Hwf Hd] E. apply os_RemoveAll_spec in E as (Hc & Hw & _);
    [|by apply plain_entry|by apply no_links_above_snoc, sound_no_links].
  split; [|split; [done|]].
  - split; [by apply Hw|]. eapply (changes_real d _ b); [by apply Hw| |exact Hc|done]. done.
  - intros a Hne s. by eapply (changes_apart d _ b a).
Qed.

(** Renaming an entry, as the restore uses it. *)
Lemma rename_entry a b h h' r :
  plain a -> plain b -> a <> b -> sound (h_fs h) -> os_Rename (abs_path (d ++ [a])) (abs_path (d ++ [b])) h = (h', r) ->
  sound (h_fs h') /\ changes_only (fun q => at_or_under (d ++ [a]) q \/ at_or_under (d ++ [b]) q) (h_fs h) (h_fs h') /\
  (forall z, z <> a -> z <> b -> same_tree z z (h_fs h) (h_fs h')) /\
  match r with Ok _ => same_tree a b (h_fs h) (h_fs h') | Err _ => h_fs h' = h_fs h end.
Proof.
  intros Ha Hb Hne [Hwf Hd] E. apply os_Rename_spec in E; [|done|done|by apply plain_entry|by apply plain_entry|done].
  destruct E as [[Hfs Hr]|(-> & (Hm1 & Hm2 & Hm3) & Hwf' & Hd' & _)].
  - rewrite Hfs. split; [done|]. split; [auto with agentforge|]. split; [done|]. by destruct r as [[]|].
  - split; [done|]. split; [|split; [|done]].
    + intros q. destruct (under (d ++ [a]) q) eqn:Ea; [left; left; by apply under_spec|].
      destruct (under (d ++ [b]) q) eqn:Eb; [left; right; by apply under_spec|]. right. by apply Hm3.
    + intros z Hza Hzb s. apply Hm3; apply not_true_iff_false; intros [u Eu]%under_spec; rewrite <- app_assoc in Eu;
        by apply siblings_disjoint in Eu.
Qed.

Lemma touched_x t q : at_or_under (d ++ [x]) q -> touched t q. Proof. by left. Qed.
Lemma touched_b t q : at_or_under (d ++ [bx]) q -> touched t q. Proof. by right; left. Qed.
Lemma touched_t t q : at_or_under (d ++ [t]) q -> touched t q. Proof. by right; right. Qed.
Hint Resolve touched_x touched_b touched_t : core.

(** Either the old tree is in its place or it is in the backup; on success the new one is in
    its place. *)
Lemma swap_roots_spec t h h' r :
  faults_ok -> plain t -> t <> x -> t <> bx -> sound (h_fs h) -> h_fs h !! (d ++ [x]) = Some NDir ->
  swap_roots (abs_path (d ++ [x])) (abs_path (d ++ [t])) h = (h', r) ->
  sound (h_fs h') /\ changes_only (touched t) (h_fs h) (h_fs h') /\
  match r with
  | Ok _ => same_tree t x (h_fs h) (h_fs h')
  | Err _ => same_tree x x (h_fs h) (h_fs h') \/ same_tree x bx (h_fs h) (h_fs h')
  end.
Proof.
  intros Hf Hpt Htx Htb Hs Hx. destruct plain_dir as [Hd Hpx]. pose proof (backup_name_plain x Hpx) as Hpb.
  pose proof (backup_not_root x) as Hbx.
  unfold swap_roots. rewrite abs_path_suffix. change (x +:+ ".restore-backup") with bx. cbn zeta. rewrite ST_bind_run.
  destruct (os_RemoveAll _ h) as [h1 r1] eqn:E1. cbn [fst snd]. apply remove_entry in E1 as (Hs1 & Hc1 & Hk1); [|done..].
  assert (Hx1 : h_fs h1 !! (d ++ [x]) = Some NDir).
  { rewrite <- Hx. specialize (Hk1 x ltac:(done) []). by rewrite !app_nil_r in Hk1. }
  assert (Hch1 : changes_only (touched t) (h_fs h) (h_fs h1)) by (eapply changes_weaken; [|exact Hc1]; auto).
  rewrite ST_bind_run. destruct (os_Stat _ h1) as [h2 r2] eqn:E2. cbn [fst snd]. apply stat_call in E2 as [Hfs2 Hr2].
  destruct r2 as [i|e].
  2:{ destruct (errors_Is e SNotExist) eqn:Ene.
      - destruct (Hr2 Hf eq_refl) as (e' & He' & _). rewrite stat_exists in He'; [done|apply Hs1|by rewrite fs_lookup_snoc, Hx1|].
        intros _. intros a b l Hab. destruct b as [|y b _] using rev_ind.
        + rewrite app_nil_r in Hab. by rewrite <- Hab, fs_lookup_snoc, Hx1.
        + rewrite app_assoc in Hab. apply app_inj_tail in Hab as [Hab _]. by eapply sound_no_links.
      - intros [= <- <-]. rewrite Hfs2. split; [done|]. split; [done|]. left. by apply Hk1. }
  rewrite <- Hfs2 in Hx1, Hs1, Hch1, Hk1. clear Hr2 Hc1 Hfs2 h1 r1.
  rewrite ST_bind_run. destruct (os_Rename _ _ h2) as [h3 r3] eqn:E3. cbn [fst snd].
  apply rename_entry in E3 as (Hs3 & Hc3 & Hk3 & Hr3); [|done..].
  assert (Hch3 : changes_only (touched t) (h_fs h) (h_fs h3)).
  { eapply changes_trans; [exact Hch1|]. eapply changes_weaken; [|exact Hc3]. intros q [?|?]; auto. }
  destruct r3 as [u3|e3].
  2:{ intros [= <- <-]. split; [done|]. split; [done|]. left. rewrite Hr3. by apply Hk1. }
  assert (Hold3 : same_tree x bx (h_fs h) (h_fs h3)) by (intros s; rewrite Hr3; by apply Hk1).
  assert (Hnew3 : same_tree t t (h_fs h) (h_fs h3)) by (intros s; rewrite Hk3 by done; by apply Hk1).
  rewrite ST_bind_run. destruct (os_Rename _ _ h3) as [h4 r4] eqn:E4. cbn [fst snd].
  apply rename_entry in E4 as (Hs4 & Hc4 & Hk4 & Hr4); [|done..].
  assert (Hch4 : changes_only (touched t) (h_fs h) (h_fs h4)).
  { eapply changes_trans; [exact Hch3|]. eapply changes_weaken; [|exact Hc4]. intros q [?|?]; auto. }
  assert (Hold4 : same_tree x bx (h_fs h) (h_fs h4)) by (intros s; rewrite Hk4 by done; apply Hold3).
  destruct r4 as [u4|e4]; rewrite ST_bind_run.
  - destruct (os_RemoveAll _ h4) as [h5 r5] eqn:E5. cbn [fst snd]. apply remove_entry in E5 as (Hs5 & Hc5 & Hk5); [|done..].
    intros [= <- <-]. split; [done|]. split.
    + eapply changes_trans; [exact Hch4|]. eapply changes_weaken; [|exact Hc5]. auto.
    + intros s. rewrite Hk5 by done. rewrite Hr4. apply Hnew3.
  - destruct (os_Rename _ _ h4) as [h5 r5] eqn:E5. cbn [fst snd]. apply rename_entry in E5 as (Hs5 & Hc5 & Hk5 & Hr5); [|done..].
    assert (Hch5 : changes_only (touched t) (h_fs h) (h_fs h5)).
    { eapply changes_trans; [exact Hch4|]. eapply changes_weaken; [|exact Hc5]. intros q [?|?]; auto. }
    destruct r5 as [u5|e5]; intros [= <- <-]; (split; [done|]; split; [done|]).
    + left. intros s. rewrite Hr5. apply Hold4.
    + right. rewrite Hr5. apply Hold4.
Qed.

(** A fresh directory beside the root. *)
Lemma mkdir_temp_spec tries h h' r :
  sound (h_fs h) -> mkdir_temp tries (abs_path (d ++ [".agentforge-restore-"])) h = (h', r) ->
  match r with
  | Err _ => h_fs h' = h_fs h
  | Ok name => exists n, name = abs_path (d ++ [temp_name n]) /\ h_fs h !! (d ++ [temp_name n]) = None /\
                 h_fs h' = <[d ++ [temp_name n] := NDir]> (h_fs h) /\ good_name (temp_name n)
  end.
Proof.
  revert h. induction tries as [|tries IH]; intros h Hs; cbn [mkdir_temp]; [by intros [= <- <-]|].
  rewrite abs_path_suffix. change (".agentforge-restore-" +:+ fmt_d ?n) with (temp_name n).
  destruct (os_Mkdir _ h) as [h1 r1] eqn:E1.
  apply os_Mkdir_cases in E1; [|apply plain_entry, temp_name_plain|by apply sound_no_links]. destruct r1 as [u|e].
  - intros [= <- <-]. destruct E1 as (Hnone & Hg & _ & Hfs). by eexists.
  - case_if; [|by intros [= <- <-]]. intros E. apply IH in E; [|by rewrite E1]. by rewrite E1 in E.
Qed.

Lemma abs_path_entry y : (if ends_with_slash (abs_path d) then abs_path d else abs_path d +:+ "/") +:+ y = abs_path (d ++ [y]).
Proof.
  destruct plain_dir as [Hd _]. destruct (decide (d = [])) as [E0|Hne]; [by rewrite E0|].
  assert (Hend : ends_with_slash (abs_path d) = false).
  { destruct (exists_last Hne) as (d' & z & E). rewrite E in Hd |- *. apply Forall_app in Hd as [_ Hz].
    inversion Hz as [|? ? [Hns (Hz0 & _)] _]; subst. unfold ends_with_slash.
    assert (exists l, bytes_of (abs_path (d' ++ [z])) = l ++ bytes_of z) as [l ->].
    { destruct (decide (d' = [])) as [->|Hd']; [by exists ["/"%char]|]. rewrite abs_path_app by done.
      rewrite !bytes_of_app, app_assoc. by eexists. }
    rewrite rev_app_distr. destruct (rev (bytes_of z)) as [|c l'] eqn:Er.
    - apply (f_equal (@rev _)) in Er. rewrite rev_involutive in Er. by destruct z.
    - cbn. apply Ascii.eqb_neq. intros ->. apply Hns. apply list_elem_of_In, in_rev. rewrite Er. by left. }
  rewrite Hend, abs_path_app by done. by rewrite <- string_app_assoc.
Qed.

Lemma made_entry t fs :
  sound fs -> plain t -> good_name t -> fs !! (d ++ [t]) = None -> sound (<[d ++ [t] := NDir]> fs) /\
  clean_tree (d ++ [t]) (<[d ++ [t] := NDir]> fs) /\ changes_only (at_or_under (d ++ [t])) fs (<[d ++ [t] := NDir]> fs).
Proof.
  intros [Hwf Hd] Hp Hg Hn. assert (Hc : changes_only (at_or_under (d ++ [t])) fs (<[d ++ [t] := NDir]> fs)).
  { eapply changes_weaken; [|apply changes_insert]. intros q <-. exists []. by rewrite app_nil_r. }
  assert (Hdd : fs_lookup fs d = Some NDir) by (apply (Hd d []); by rewrite app_nil_r).
  assert (Hwf' : fs_wf (<[d ++ [t] := NDir]> fs)) by (apply fs_wf_insert; [done..|by left]).
  split; [split; [done|by eapply (changes_real d _ t)]|]. split; [|done]. split; [split; [done|]|].
  - by rewrite fs_lookup_snoc, lookup_insert_eq.
  - intros s l. destruct s as [|y s _] using rev_ind; [by rewrite app_nil_r, lookup_insert_eq|].
    rewrite lookup_insert_ne; [|intros E; apply (f_equal length) in E; rewrite !length_app in E; cbn in E; lia].
    pose proof (fs_wf_missing fs (d ++ [t]) (s ++ [y]) Hwf) as Hm. rewrite fs_lookup_snoc, app_assoc, fs_lookup_snoc in Hm.
    rewrite app_assoc, Hm by done. done.
Qed.

(** What is written below a fresh directory does not reach its siblings. *)
Lemma below_sibling t fs fs' :
  sound fs -> clean_tree (d ++ [t]) fs' -> changes_only (below_root (d ++ [t])) fs fs' ->
  sound fs' /\ changes_only (at_or_under (d ++ [t])) fs fs' /\ forall a, a <> t -> same_tree a a fs fs'.
Proof.
  intros [Hwf Hd] [[Hwf' _] _] Hc. assert (Hc' : changes_only (at_or_under (d ++ [t])) fs fs').
  { eapply changes_weaken; [|exact Hc]. intros q (s & _ & ->). by exists s. }
  split; [split; [done|by eapply (changes_real d _ t)]|]. split; [done|]. intros a Hne s. by eapply (changes_apart d _ t a).
Qed.

Lemma extract_limited_confined c r t h h' res :
  plain t -> clean_tree (d ++ [t]) (h_fs h) -> extract_limited c r (abs_path (d ++ [t])) h = (h', res) ->
  clean_tree (d ++ [t]) (h_fs h') /\ changes_only (below_root (d ++ [t])) (h_fs h) (h_fs h').
Proof.
  intros Hp Hc. unfold extract_limited. cbn zeta. rewrite ST_bind_run. unfold extractTarGzIntoRoot.
  destruct (targz_read _) as [[entries last]|e]; cbn [fst snd].
  - rewrite ST_bind_run. destruct (extract_entries _ _ _ _ _ _ _ h) as [h1 r1] eqn:E. cbn [fst snd]. intros [= <- _].
    eapply extract_confined; [by destruct d|by apply plain_entry|done|exact E].
  - intros [= <- _]. auto with agentforge.
Qed.


(** The outcome of a restore: on failure the old tree is in its place or in the backup, on
    success the root is a directory without links. *)
Definition outcome {A} (r : result error A) (fs fs' : FS) : Prop :=
  match r with
  | Ok _ => fs' !! (d ++ [x]) = Some NDir /\ forall s l, fs' !! (d ++ [x] ++ s) <> Some (NSymlink l)
  | Err _ => same_tree x x fs fs' \/ same_tree x bx fs fs'
  end.

Lemma drop_temp t e h h1 h' r :
  plain t -> t <> x -> t <> bx -> sound (h_fs h1) -> changes_only (touched t) (h_fs h) (h_fs h1) ->
  outcome (A := unit) (Err e) (h_fs h) (h_fs h1) -> os_RemoveAll (abs_path (d ++ [t])) h1 = (h', r) ->
  sound (h_fs h') /\ changes_only (touched t) (h_fs h) (h_fs h') /\ outcome (A := unit) (Err e) (h_fs h) (h_fs h').
Proof.
  intros Hp Hx Hb Hs Hc Ho E. apply remove_entry in E as (Hs' & Hc' & Hk); [|done..]. split; [done|]. split.
  - eapply changes_trans; [exact Hc|]. eapply changes_weaken; [|exact Hc']. auto.
  - destruct Ho as [Ho|Ho]; [left|right]; intros s; rewrite Hk by done; apply Ho.
Qed.

Lemma restore_files_spec c r h h' res :
  faults_ok -> Root c = abs_path (d ++ [x]) -> sound (h_fs h) -> h_fs h !! (d ++ [x]) = Some NDir ->
  restore_files c r h = (h', res) ->
  sound (h_fs h') /\ outcome res (h_fs h) (h_fs h') /\
  exists n, changes_only (touched (temp_name n)) (h_fs h) (h_fs h') /\
            (h_fs h !! (d ++ [temp_name n]) = None \/ h_fs h' = h_fs h).
Proof.
  intros Hf Hroot Hs Hx. destruct plain_dir as [Hd Hpx]. unfold restore_files. rewrite Hroot, Dir_abs by done.
  rewrite ST_bind_run. unfold os_MkdirTemp. rewrite abs_path_entry. generalize (N.to_nat 10000) as tries. intros tries.
  destruct (mkdir_temp tries _ h) as [h1 [name|e]] eqn:E1; cbn [fst snd]; (apply mkdir_temp_spec in E1; [|done]).
  2:{ intros [= <- <-]. rewrite E1. split; [done|]. split; [by left|]. exists 0. split; [auto with agentforge|by right]. }
  destruct E1 as (n & -> & Hnone & Hfs1 & Hg). set (t := temp_name n) in *.
  assert (Hpt : plain t) by apply temp_name_plain. assert (Htb : t <> bx) by apply temp_not_backup.
  assert (Htx : t <> x) by (intros E; rewrite E in Hnone; congruence).
  destruct (made_entry t (h_fs h)) as (Hs1 & Hcl1 & Hc1); [done..|]. rewrite <- Hfs1 in Hs1, Hcl1, Hc1.
  assert (Hch1 : changes_only (touched t) (h_fs h) (h_fs h1)) by (eapply changes_weaken; [|exact Hc1]; auto).
  assert (Ho1 : same_tree x x (h_fs h) (h_fs h1)) by (intros s; by eapply (changes_apart d _ t x)).
  intros E. enough (sound (h_fs h') /\ outcome res (h_fs h) (h_fs h') /\ changes_only (touched t) (h_fs h) (h_fs h')) as (? & ? & ?)
    by (split; [done|]; split; [done|]; exists n; auto).
  revert E. rewrite ST_bind_run. destruct (os_Chmod _ h1) as [h2 r2] eqn:E2. cbn [fst snd]. apply query_pair in E2.
  rewrite <- E2 in Hs1, Hcl1, Hch1, Ho1. clear Hfs1 Hc1 E2. destruct r2 as [u|e].
  2:{ rewrite ST_bind_run. destruct (os_RemoveAll _ h2) as [h3 r3] eqn:E3. cbn [fst snd].
      apply (drop_temp t e h) in E3 as (? & ? & ?); [|done..|by left]. by intros [= <- <-]. }
  rewrite ST_bind_run. destruct (extract_limited _ _ _ h2) as [h3 r3] eqn:E3. cbn [fst snd].
  apply extract_limited_confined in E3 as [Hcl3 Hc3]; [|done..]. destruct (below_sibling t _ _ Hs1 Hcl3 Hc3) as (Hs3 & Hc3' & Hk3).
  assert (Hch3 : changes_only (touched t) (h_fs h) (h_fs h3)).
  { eapply changes_trans; [exact Hch1|]. eapply changes_weaken; [|exact Hc3']. auto. }
  assert (Ho3 : same_tree x x (h_fs h) (h_fs h3)) by (intros s; rewrite Hk3 by done; apply Ho1).
  rewrite ST_bind_run. destruct r3 as [u3|e3]; unfold mret, ST_ret; cbn [fst snd].
  2:{ rewrite ST_bind_run. destruct (os_RemoveAll _ h3) as [h4 r4] eqn:E4. cbn [fst snd].
      apply (drop_temp t e3 h) in E4 as (? & ? & ?); [|done..|by left]. by intros [= <- <-]. }
  destruct (swap_roots _ _ h3) as [h4 r4] eqn:E4. cbn [fst snd].
  assert (Hx3 : h_fs h3 !! (d ++ [x]) = Some NDir) by (rewrite <- Hx; specialize (Ho3 []); by rewrite !app_nil_r in Ho3).
  apply swap_roots_spec in E4 as (Hs4 & Hc4 & Hr4); [|done..].
  assert (Hch4 : changes_only (touched t) (h_fs h) (h_fs h4)) by (by eapply changes_trans).
  destruct r4 as [u4|e4].
  - intros [= <- <-]. split; [done|]. split; [|done]. split.
    + specialize (Hr4 []). rewrite !app_nil_r in Hr4. rewrite Hr4. destruct Hcl3 as [[_ H3] _]. by rewrite fs_lookup_snoc in H3.
    + intros s l. rewrite Hr4, app_assoc. apply Hcl3.
  - rewrite ST_bind_run. destruct (os_RemoveAll _ h4) as [h5 r5] eqn:E5. cbn [fst snd].
    apply (drop_temp t e4 h) in E5 as (? & ? & ?); [by intros [= <- <-]|done..|].
    destruct Hr4 as [Hr|Hr]; [left|right]; intros s; rewrite Hr; apply Ho3.
Qed.

(** C37: A restore extracts below a fresh directory beside the root, whatever names and links the archive
    contains, and touches nothing else but the root and its backup.  If it succeeds, the root is a directory without
    symbolic links.  If it fails, also because system calls fail, there are two cases.  Before the new tree was
    activated: the manager is unchanged and the old tree is in its place, or in the backup directory if the rollback
    failed too.  Or the new tree was activated, as a directory without symbolic links, and the count of its files that
    ends every restore failed: the error is that of the count, and the old tree is not brought back. *)
Theorem restore_atomic r w w' res :
  faults_ok -> ws_ok (d ++ [x]) w -> Restore r w = (w', res) ->
  (exists n, changes_only (touched (temp_name n)) (lw_fs w) (lw_fs w') /\
             (lw_fs w !! (d ++ [temp_name n]) = None \/ lw_fs w' = lw_fs w)) /\
  let activated := ws_ok (d ++ [x]) w' /\ forall s l, lw_fs w' !! (d ++ [x] ++ s) <> Some (NSymlink l) in
  match res with
  | Ok _ => activated
  | Err e =>
      (lw_m w' = lw_m w /\ (same_tree x x (lw_fs w) (lw_fs w') \/ same_tree x bx (lw_fs w) (lw_fs w'))) \/
      (activated /\ exists w1, lw_m w1 = lw_m w /\ lw_fs w1 = lw_fs w' /\ recount w1 = (w', Err e))
  end.
Proof.
  intros Hf [Hroot [Hwf Hx]]. unfold Restore. rewrite ST_bind_run. cbn [cfg fst snd]. rewrite ST_bind_run, io_run. cbn [fst snd].
  destruct (restore_files _ r (lw_host w)) as [h1 r1] eqn:E1. cbn [fst snd]. rewrite fs_lookup_snoc in Hx.
  apply restore_files_spec in E1 as (Hs & Ho & n & Hc & Hn); [|done|done| |done].
  2:{ split; [done|]. destruct (Hwf _ _ _ Hx) as [Hd _]. by apply fs_wf_real. }
  destruct r1 as [u|e].
  - set (w1 := w <| lw_host := h1 |>). destruct (recount_fs w1) as [Hfs Hcfg]. destruct (recount w1) as [w2 r2] eqn:E2.
    cbn [fst snd] in *. intros [= <- <-]. rewrite Hfs. split; [by exists n|]. destruct Ho as [Hd Hcl]. cbn zeta.
    assert (Hnew : ws_ok (d ++ [x]) w2 /\ forall s l, lw_fs w1 !! (d ++ [x] ++ s) <> Some (NSymlink l)).
    { split; [|exact Hcl]. split; [unfold lw_root in *; by rewrite Hcfg|]. rewrite Hfs. split; [apply Hs|]. by rewrite fs_lookup_snoc. }
    destruct r2 as [u2|e2]; [exact Hnew|]. right. split; [exact Hnew|]. by exists w1.
  - intros [= <- <-]. split; [by exists n|]. left. split; [done|exact Ho].
Qed.
End restore.

(** ** A concrete workspace *)

Module ws_demo.
(** A host without failures, and one on which the call number [k] fails. *)
Definition demo_fault (k : option nat) : HostEnv := {|
  fault := fun n => if bool_decide (k = Some n) then Some (errors_New "input/output error") else None;
  partial_write := fun _ => O;
  temp_suffix := Z.of_nat;
  special_size := fun _ => 0 |}.
#[local] Instance demo_env : HostEnv := demo_fault None.

(** A reader that finds one file in every archive. *)
#[local] Instance demo_codec : ArchiveCodec := {|
  targz_write := fun _ => Ok [];
  targz_read := fun _ => Ok ([mkTarEntry "a/b" TypeReg 1 420 ["x"%char] None], None);
  targz_consumed := fun _ _ => 0 |}.

(** The root [/tmp/ws] holds a file and a link to [/etc]. *)
Definition demo_fs : FS :=
  <[["tmp"; "ws"] ++ ["link"] := NSymlink "/etc"]> (<[["tmp"; "ws"] ++ ["f"] := NFile 384 ["o"%char; "k"%char]]>
  (<[["tmp"] ++ ["ws"] := NDir]> (<[[] ++ ["tmp"] := NDir]> (<[[] ++ ["etc"] := NDir]> ∅)))).

Definition demo_rp : path := ["tmp"; "ws"].
Definition demo_cfg : WsConfig := mkWsConfig "/tmp/ws" 100 100 10.
Definition demo_ws : LocalWs := mkLocalWs (mkLocalManager demo_cfg 6 2) (mkHost demo_fs 0).

Lemma demo_plain : Forall plain demo_rp.
Proof. repeat constructor; try (apply (bool_decide_unpack _); vm_compute; done); done. Qed.

Lemma demo_good s : bool_decide (no_slash s) && negb (existsb (String.eqb s) [""; "."; ".."]) = true -> bad_name s = None -> good_name s.
Proof.
  intros [H1 H2]%andb_prop Hb. split; [|done]. bool_prop. split; [done|].
  split_and!; intros ->; done.
Qed.

Lemma demo_wf : fs_wf demo_fs.
Proof.
  repeat (apply fs_wf_insert; [|reflexivity|apply demo_good; reflexivity|by (left + right)]). by intros [|? ?] ? ?.
Qed.

Lemma demo_ok : ws_ok demo_rp demo_ws.
Proof. split; [reflexivity|]. split; [apply demo_wf|reflexivity]. Qed.

Lemma demo_no_faults : no_faults.
Proof. done. Qed.

(** A write through the link is refused, one to the root is done. *)
Definition demo_ops : list ws_op := [WsWrite "link/passwd" ["x"%char]; WsWrite "../../etc/x" []; WsWrite "d/e" ["x"%char]; WsDelete "f"].

Lemma workspace_confined_witness :
  (Write "link/passwd" ["x"%char] demo_ws).2 = Err ErrPathTraversal /\
  lw_fs (fold_left run_op demo_ops demo_ws) !! ["etc"; "passwd"] = None.
Proof.
  split; [vm_compute; reflexivity|].
  destruct (workspace_confined demo_rp ltac:(done) demo_plain demo_ops demo_ws (no_faults_ok demo_no_faults) demo_ok) as [_ H].
  rewrite H; vm_compute; reflexivity.
Defined.

Lemma workspace_quota_witness :
  Usage (lw_m (fold_left run_op demo_ops demo_ws)) = (5, 2) /\
  tree_bytes demo_rp (lw_fs (fold_left run_op demo_ops demo_ws)) <= 100.
Proof.
  split; [vm_compute; reflexivity|].
  apply (workspace_quota demo_rp ltac:(done) demo_plain demo_ops demo_ws demo_no_faults); [intros p; cbn; lia|apply demo_ok|..];
    vm_compute; [reflexivity|split; done].
Defined.

Lemma read_confined_witness :
  exists q mode, q <> [] /\ Forall plain q /\ lw_fs demo_ws !! (demo_rp ++ q) = Some (NFile mode ["o"%char; "k"%char]).
Proof.
  eapply (read_confined demo_rp ltac:(done) demo_plain "d/../f" demo_ws); [apply no_faults_ok, demo_no_faults|apply demo_ok|].
  vm_compute. reflexivity.
Defined.

Lemma write_read_roundtrip_witness :
  (Read "d/../d/e" (Write "d/e" ["x"%char] demo_ws).1).2 = Ok ["x"%char] /\
  Join (abs_path demo_rp) (Clean "d/e") = abs_path (demo_rp ++ ["d"; "e"]).
Proof.
  split; [|vm_compute; reflexivity].
  apply (write_read_roundtrip demo_rp ltac:(done) demo_plain "d/e" "d/../d/e" ["x"%char] demo_ws);
    [apply demo_no_faults|apply demo_ok|vm_compute; reflexivity|reflexivity|vm_compute; reflexivity].
Defined.

(** The rename that would activate the restored tree fails. *)
#[local] Instance demo_broken : HostEnv := demo_fault (Some 11%nat).

Lemma demo_broken_ok : @faults_ok demo_broken.
Proof. intros n e. cbn. case_bool_decide; [|done]. by intros [= <-]. Qed.

Lemma restore_atomic_witness :
  (exists e, (@Restore demo_broken demo_codec [] demo_ws).2 = Err e) /\
  lw_m (@Restore demo_broken demo_codec [] demo_ws).1 = lw_m demo_ws /\
  (same_tree ["tmp"] "ws" "ws" demo_fs (lw_fs (@Restore demo_broken demo_codec [] demo_ws).1) \/
   same_tree ["tmp"] "ws" "ws.restore-backup" demo_fs (lw_fs (@Restore demo_broken demo_codec [] demo_ws).1)).
Proof.
  split; [eexists; vm_compute; reflexivity|].
  destruct (@Restore demo_broken demo_codec [] demo_ws) as [w' res] eqn:E.
  destruct (@restore_atomic demo_broken demo_codec ["tmp"] "ws" demo_plain [] demo_ws w' res demo_broken_ok demo_ok E) as [_ H].
  vm_compute in E. injection E as <- <-. destruct H as [H|[[_ Hl] _]]; [exact H|].
  exfalso. apply (Hl ["link"] "/etc"). vm_compute. reflexivity.
Defined.

(** The count after the activation fails: the restore reports an error although the new tree is in place, the old
    one is gone, and the manager counts nothing. *)
#[local] Instance demo_uncounted : HostEnv := demo_fault (Some 16%nat).

Example restore_uncounted :
  let '(w, r) := @Restore demo_uncounted demo_codec [] demo_ws in
  is_ok r = false /\ Usage (lw_m w) = (0, 0) /\ lw_fs w !! (demo_rp ++ ["f"]) = None /\
  lw_fs w !! (demo_rp ++ ["a"; "b"]) = Some (NFile 384 ["x"%char]) /\
  lw_fs w !! ["tmp"; "ws.restore-backup"; "f"] = None.
Proof. vm_compute. auto 10. Qed.
End ws_demo.
