(* ===== verification/WorkspaceSnapshot.v ===== *)
(** * WorkspaceSnapshot: a restored snapshot gives the same files

    The round trip of [Snapshot] and [Restore] of [Workspace]: if the archive reader reads
    what the writer wrote, a snapshot of one workspace restores in another one, possibly on
    another host, to the same directories and files.  The proof has three parts: what a
    snapshot of a tree contains, what the extraction of such an archive builds, and that no
    step of the restore fails. *)

From Stdlib Require Import Ascii.
From S2P Require Import Prelude GoLib Artifacts FileSystem Workspace WorkspaceRestore.

(** ** System calls that succeed *)

Section success.
Context `{HE : HostEnv}.
Hypothesis Hn : no_faults.

Lemma call_run {A} (op name : string) (f : FS -> FS * result error A) (h : Host) :
  call op name f h = (h <| h_tick ::= S |> <| h_fs := (f (h_fs h)).1 |>,
                      match (f (h_fs h)).2 with Ok a => Ok a | Err e => Err (path_error op name e) end).
Proof. unfold call. rewrite Hn. by destruct (f (h_fs h)). Qed.

Lemma dir_no_links fs p : fs_wf fs -> fs_lookup fs p = Some NDir -> no_links fs p.
Proof. intros Hwf Hd a b t Hab. by rewrite (fs_wf_real _ _ Hwf Hd a b Hab). Qed.

Lemma os_Stat_dir p h :
  fs_wf (h_fs h) -> fs_lookup (h_fs h) p = Some NDir ->
  os_Stat (abs_path p) h = (h <| h_tick ::= S |>, Ok (info_at (h_fs h) p)).
Proof.
  intros Hwf Hd. unfold os_Stat. rewrite query_run by done.
  rewrite stat_exists; [done|done|by rewrite Hd|]. intros _. by apply dir_no_links.
Qed.

(** A directory that exists is left alone. *)
Lemma os_MkdirAll_exists p h :
  fs_wf (h_fs h) -> Forall plain p -> fs_lookup (h_fs h) p = Some NDir ->
  exists h', h_fs h' = h_fs h /\ os_MkdirAll (abs_path p) h = (h', Ok tt).
Proof.
  intros Hwf Hp Hd. exists (h <| h_tick ::= S |>). split; [done|]. unfold os_MkdirAll. rewrite path_names_abs by done.
  destruct (rev p) as [|x rp] eqn:Er; cbn [mkdir_all]; rewrite <- Er, rev_involutive, ST_bind_run, os_Stat_dir by done;
    cbn [fst snd]; unfold Info_IsDir, info_at; by rewrite Hd.
Qed.

Lemma os_Mkdir_child p x h :
  fs_wf (h_fs h) -> fs_lookup (h_fs h) p = Some NDir -> good_name x -> h_fs h !! (p ++ [x]) = None ->
  exists h', h_fs h' = <[p ++ [x] := NDir]> (h_fs h) /\ os_Mkdir (abs_path (p ++ [x])) h = (h', Ok tt).
Proof.
  intros Hwf Hd Hx Hnone. unfold os_Mkdir. rewrite call_run. unfold mkdir_at.
  rewrite namei_real; [|apply Forall_app; split; [apply (fs_wf_good (h_fs h)); [done|by rewrite Hd]|by constructor]|by apply fs_wf_real|done].
  rewrite fs_lookup_snoc, Hnone. eexists. split; [|reflexivity]. done.
Qed.

(** A missing directory is made if its parent exists. *)
Lemma os_MkdirAll_child p x h :
  fs_wf (h_fs h) -> fs_lookup (h_fs h) p = Some NDir -> p <> [] -> good_name x -> h_fs h !! (p ++ [x]) = None ->
  exists h', h_fs h' = <[p ++ [x] := NDir]> (h_fs h) /\ os_MkdirAll (abs_path (p ++ [x])) h = (h', Ok tt).
Proof.
  intros Hwf Hd Hne Hx Hnone. assert (Hp : Forall plain p) by (apply good_plain, (fs_wf_good (h_fs h)); [done|by rewrite Hd]).
  assert (Hpx : Forall plain (p ++ [x])) by (apply Forall_app; split; [done|constructor; [apply Hx|done]]).
  unfold os_MkdirAll. rewrite path_names_abs, rev_unit by done. cbn [mkdir_all rev]. rewrite rev_involutive, ST_bind_run.
  unfold os_Stat. rewrite query_run by done. cbn [fst snd].
  assert (stat_at true (abs_path (p ++ [x])) (h_fs h) = Err ENOENT) as ->.
  { unfold stat_at. rewrite namei_real; [by rewrite fs_lookup_snoc, Hnone| |by apply fs_wf_real|by rewrite Hnone].
    apply Forall_app. split; [apply (fs_wf_good (h_fs h)); [done|by rewrite Hd]|by constructor]. }
  set (h1 := h <| h_tick ::= S |>). rewrite ST_bind_run.
  destruct (os_MkdirAll_exists p h1) as (h2 & Hfs2 & E2); [done..|]. unfold os_MkdirAll in E2. rewrite path_names_abs in E2 by done.
  assert (Hpar : (match rev p with [] => mret (Ok tt) | _ :: _ => mkdir_all (rev p) end : ST Host (result error unit)) h1 = (h2, Ok tt)).
  { destruct (rev p) eqn:Er; [|done]. apply (f_equal (@rev _)) in Er. by rewrite rev_involutive in Er. }
  rewrite Hpar. cbn [fst snd]. rewrite ST_bind_run. change (h_fs h1) with (h_fs h) in Hfs2.
  destruct (os_Mkdir_child p x h2) as (h3 & Hfs3 & E3); [by rewrite Hfs2..|done|by rewrite Hfs2|].
  rewrite E3. exists h3. by rewrite Hfs3, Hfs2.
Qed.

(** A file is created in a directory. *)
Lemma os_Create_child p x perm h :
  fs_wf (h_fs h) -> fs_lookup (h_fs h) p = Some NDir -> good_name x -> h_fs h !! (p ++ [x]) = None ->
  exists h', h_fs h' = <[p ++ [x] := NFile perm []]> (h_fs h) /\ os_Create (abs_path (p ++ [x])) perm h = (h', Ok (p ++ [x])).
Proof.
  intros Hwf Hd Hx Hnone. unfold os_Create. rewrite call_run. unfold creat_at.
  rewrite namei_real; [|apply Forall_app; split; [apply (fs_wf_good (h_fs h)); [done|by rewrite Hd]|by constructor]|by apply fs_wf_real|by rewrite Hnone].
  rewrite fs_lookup_snoc, Hnone. eexists. split; [|reflexivity]. done.
Qed.

(** An entry takes a free name. *)
Lemma os_Rename_free d a b h :
  fs_wf (h_fs h) -> real_dir (h_fs h) d -> good_name b -> a <> b ->
  is_Some (h_fs h !! (d ++ [a])) -> h_fs h !! (d ++ [b]) = None ->
  (os_Rename (abs_path (d ++ [a])) (abs_path (d ++ [b])) h).2 = Ok tt.
Proof.
  intros Hwf Hd Hb Hne [n Ha] Hnone. unfold os_Rename. rewrite call_run. cbn [snd]. unfold rename_at.
  assert (Hg : Forall good_name (d ++ [a])) by (apply (fs_wf_good (h_fs h)); [done|rewrite fs_lookup_snoc, Ha; done]).
  assert (Hgb : Forall good_name (d ++ [b])) by (apply Forall_app in Hg as [? _]; apply Forall_app; split; [done|by constructor]).
  rewrite !namei_real by done. rewrite !fs_lookup_snoc, Ha, Hnone.
  rewrite bool_decide_false by (intros E; apply app_inj_tail in E as [_ ?]; done).
  rewrite !bool_decide_false by (by destruct d). cbn [orb]. by rewrite siblings_apart.
Qed.
End success.

(** ** What a snapshot contains *)

Section contents.
Context `{HE : HostEnv} `{HC : ArchiveCodec} (rp : path).
Hypothesis Hn : no_faults.
Hypothesis Hrp : rp <> [].
Hypothesis Hplain : Forall plain rp.

Definition archived (n : node) : bool := is_dir n || is_regular n.

(** The nodes of a list of paths that an archive records, relative to the root. *)
Definition rel_node (fs : FS) (p : path) : option (path * node) :=
  match below rp p, fs !! p with
  | Some (x :: s), Some n => if archived n then Some (x :: s, n) else None
  | _, _ => None
  end.

Definition tree_nodes (fs : FS) : list (path * node) := omap (rel_node fs) (walk_paths fs rp).

Definition tar_of (e : path * node) : TarEntry :=
  match e.2 with
  | NFile mode data => mkTarEntry (str_join "/" e.1) TypeReg (Z.of_nat (length data)) mode data None
  | _ => mkTarEntry (str_join "/" e.1) TypeDir 0 448 [] None
  end.

(** A path below the root that exists. *)
Definition present (fs : FS) (p : path) : Prop := exists s, s <> [] /\ p = rp ++ s /\ is_Some (fs !! p).

Lemma present_plain fs s : fs_wf fs -> s <> [] -> is_Some (fs !! (rp ++ s)) -> Forall plain s.
Proof.
  intros Hwf Hs Hex. rewrite <- (fs_lookup_app fs rp s Hs) in Hex. apply (fs_wf_good _ _ Hwf), good_plain in Hex.
  by apply Forall_app in Hex as [_ ?].
Qed.

Lemma snapshot_entry_run fs p :
  fs_wf fs -> present fs p ->
  snapshot_entry (abs_path rp) (abs_path p, info_at fs p) =
    Ok ((fun e : path * node => (abs_path (rp ++ e.1), str_join "/" e.1)) <$> rel_node fs p).
Proof.
  intros Hwf (s & Hs & -> & n & Hlk). assert (Hps : Forall plain s) by (eapply present_plain; [done..|by rewrite Hlk]).
  unfold snapshot_entry. cbn [fst snd]. rewrite Rel_under by done.
  unfold rel_node. rewrite below_app, Hlk. unfold Info_IsDir, info_at. cbn [info_node].
  rewrite fs_lookup_app, Hlk by done. cbn [default]. unfold id. destruct s as [|x s]; [done|].
  assert (String.eqb (str_join "/" (x :: s)) "." = false) as ->.
  { apply String.eqb_neq. intros E. inversion Hps as [|? ? Hx Hs']; subst. destruct s as [|y s].
    - cbn in E. subst x. destruct Hx as (_ & _ & ? & _). done.
    - apply (f_equal (fun t => Split t "/")) in E. rewrite Split_join in E; [done|done|by apply plain_no_slash]. }
  unfold archived. by destruct n.
Qed.

Lemma collect_run fs ps :
  fs_wf fs -> Forall (present fs) ps ->
  collect_entries (abs_path rp) (map (fun p => (abs_path p, info_at fs p)) ps) None =
    Ok (map (fun e : path * node => (abs_path (rp ++ e.1), str_join "/" e.1)) (omap (rel_node fs) ps)).
Proof.
  intros Hwf Hps. induction Hps as [|p ps Hp Hps IH]; [done|]. cbn [map collect_entries]. rewrite IH, snapshot_entry_run by done.
  cbn [omap list_omap]. by destruct (rel_node fs p).
Qed.

Lemma archive_entry_run e h :
  fs_wf (h_fs h) -> e.1 <> [] -> h_fs h !! (rp ++ e.1) = Some e.2 -> archived e.2 = true ->
  exists h', h_fs h' = h_fs h /\ archive_entry (abs_path (rp ++ e.1), str_join "/" e.1) h = (h', Ok (Some (tar_of e))).
Proof.
  destruct e as [s n]. cbn [fst snd]. intros Hwf Hs Hlk Hk. assert (Hlk' : fs_lookup (h_fs h) (rp ++ s) = Some n) by (by rewrite fs_lookup_app).
  unfold archive_entry, os_Lstat. cbn [fst snd]. rewrite ST_bind_run, query_run by done. rewrite stat_exists by (done || by rewrite Hlk').
  cbn [fst snd]. unfold info_at. cbn [info_node info_size]. rewrite Hlk'. cbn [default]. unfold id. destruct n as [|mode data| |]; try done.
  - eexists. split; [|reflexivity]. done.
  - rewrite ST_bind_run. unfold os_Open. rewrite query_run by done. cbn [fst snd]. unfold open_at.
    assert (Hnm : namei true (abs_path (rp ++ s)) (h_fs h) = Ok (rp ++ s)).
    { destruct (exists_last Hs) as (s' & x & ->). rewrite app_assoc in *. destruct (Hwf _ _ _ Hlk) as [Hd _].
      apply namei_real; [|by apply fs_wf_real|by rewrite Hlk]. apply (fs_wf_good (h_fs h)); [done|]. by rewrite Hlk'. }
    change (h_fs (h <| h_tick ::= S |>)) with (h_fs h). rewrite Hnm, Hlk'. cbn [fst snd].
    rewrite ST_bind_run. unfold os_Read. rewrite query_run by done. cbn [fst snd].
    change (h_fs (h <| h_tick ::= S |> <| h_tick ::= S |>)) with (h_fs h). rewrite Hlk'. cbn [fst snd].
    rewrite ST_bind_run. unfold os_Close. rewrite query_run by done. eexists. split; [|reflexivity]. done.
Qed.

Lemma archive_entries_run l h :
  fs_wf (h_fs h) -> Forall (fun e => e.1 <> [] /\ h_fs h !! (rp ++ e.1) = Some e.2 /\ archived e.2 = true) l ->
  exists h', h_fs h' = h_fs h /\
    archive_entries (map (fun e => (abs_path (rp ++ e.1), str_join "/" e.1)) l) h = (h', Ok (map tar_of l)).
Proof.
  intros Hwf Hl. revert h Hwf Hl. induction l as [|e l IH]; intros h Hwf Hl; [by exists h|].
  inversion Hl as [|? ? (H1 & H2 & H3) Hl']; subst. cbn [map archive_entries]. rewrite ST_bind_run.
  destruct (archive_entry_run e h) as (h1 & Hfs1 & E1); [done..|]. rewrite E1. cbn [fst snd]. rewrite ST_bind_run.
  destruct (IH h1) as (h2 & Hfs2 & E2); [by rewrite Hfs1|by rewrite Hfs1|]. rewrite E2. exists h2. split; [congruence|done].
Qed.

Lemma tree_nodes_spec fs s n :
  (s, n) ∈ tree_nodes fs <-> s <> [] /\ fs !! (rp ++ s) = Some n /\ archived n = true.
Proof.
  unfold tree_nodes. rewrite list_elem_of_omap. split.
  - intros (p & Hp & E). apply walk_paths_spec in Hp as [_ (r & Hr & ->)]. unfold rel_node in E. rewrite below_app in E.
    destruct r as [|y r]; [done|]. destruct (fs !! _) as [m|] eqn:Em; [|done]. destruct (archived m) eqn:Ea; [|done]. by injection E as <- <-.
  - intros (Hs & Hlk & Ha). exists (rp ++ s). split; [apply walk_paths_spec; split; [by rewrite Hlk|by exists s]|].
    unfold rel_node. rewrite below_app, Hlk, Ha. by destruct s.
Qed.

Lemma snapshotEntries_run w :
  ws_ok rp w -> exists h1, h_fs h1 = lw_fs w /\
    snapshotEntries w = (w <| lw_host := h1 |>, Ok (map (fun e => (abs_path (rp ++ e.1), str_join "/" e.1)) (tree_nodes (lw_fs w)))).
Proof.
  intros [Hroot [Hwf Hd]]. unfold snapshotEntries. rewrite ST_bind_run.
  cbn [cfg fst snd]. rewrite ST_bind_run, io_run. change (Root (lm_cfg (lw_m w))) with (lw_root w). rewrite Hroot.
  destruct (Walk_spec rp (lw_host w) Hn Hwf Hplain Hd) as (h1 & Hfs1 & E1). rewrite E1. cbn [fst snd map collect_entries].
  assert (Hself : snapshot_entry (abs_path rp) (abs_path rp, info_at (h_fs (lw_host w)) rp) = Ok None).
  { unfold snapshot_entry. cbn [fst snd]. by rewrite Rel_self. }
  exists h1. split; [done|]. unfold lw_fs in *. rewrite Hself, collect_run; [done|done|].
  apply list.Forall_forall. intros p [Hp (r & Hr & ->)]%walk_paths_spec. by exists r.
Qed.

Lemma Snapshot_run w :
  ws_ok rp w -> exists w', lw_fs w' = lw_fs w /\ lw_m w' = lw_m w /\ Snapshot w = (w', targz_write (map tar_of (tree_nodes (lw_fs w)))).
Proof.
  intros Hok. destruct (snapshotEntries_run w Hok) as (h1 & Hfs1 & E1). unfold Snapshot. rewrite ST_bind_run, E1. cbn [fst snd].
  rewrite ST_bind_run, io_run. set (w1 := w <| lw_host := h1 |>). change (lw_host w1) with h1.
  destruct (archive_entries_run (tree_nodes (lw_fs w)) h1) as (h2 & Hfs2 & E2); [rewrite Hfs1; apply Hok| |].
  { apply list.Forall_forall. intros [s n] He. rewrite Hfs1. by apply tree_nodes_spec. }
  rewrite E2. exists (w1 <| lw_host := h2 |>). split; [|done]. change (h_fs h2 = lw_fs w). congruence.
Qed.
End contents.

(** ** What an extraction builds *)

Lemma join_not_abs s : s <> [] -> Forall plain s -> IsAbs (str_join "/" s) = false /\ str_join "/" s <> "".
Proof.
  intros Hs Hp. destruct s as [|x s]; [done|]. inversion Hp as [|? ? (Hx & Hne & _) _]; subst.
  destruct x as [|c x]; [done|]. assert (Hc : c <> slash) by (intros ->; apply Hx; left).
  assert (Hcs : exists r, str_join "/" (String c x :: s) = String c r) by (destruct s; by eexists). destruct Hcs as [r ->].
  split; [|done]. unfold IsAbs, HasPrefix. cbn [String.prefix].
  destruct (ascii_dec "/" c) as [E|]; [|done]. by destruct Hc.
Qed.

Lemma Clean_relative s : s <> [] -> Forall plain s -> Clean (str_join "/" s) = str_join "/" s.
Proof.
  intros Hs Hp. destruct (join_not_abs s Hs Hp) as [Ha Hne]. unfold Clean. rewrite Ha. cbn zeta.
  rewrite Split_join, clean_go_plain by (done || by apply plain_no_slash). cbn [rev app].
  change ("" +:+ str_join "/" s) with (str_join "/" s). by destruct (String.eqb_spec (str_join "/" s) "").
Qed.

Section building.
Context `{HE : HostEnv} (t : path).
Hypothesis Hn : no_faults.
Hypothesis Ht : t <> [].
Hypothesis Htp : Forall plain t.

Lemma check_entry_run s : s <> [] -> Forall plain s -> check_entry (abs_path t) (str_join "/" s) = Ok (abs_path (t ++ s)).
Proof.
  intros Hs Hp. destruct (join_not_abs s Hs Hp) as [Ha Hne]. unfold check_entry. cbn zeta. rewrite Clean_relative, Ha by done.
  rewrite Split_join by (done || by apply plain_no_slash).
  assert (existsb (String.eqb "..") s = false) as ->.
  { apply not_true_iff_false. intros (y & Hy & E)%existsb_exists. apply String.eqb_eq in E as <-.
    rewrite list.Forall_forall in Hp. apply list_elem_of_In, Hp in Hy as (_ & _ & _ & ?). done. }
  rewrite Join_abs, Split_join, clean_go_plain, rev_involutive by (done || by apply plain_no_slash).
  assert (HasPrefix (abs_path (t ++ s)) (abs_path t +:+ "/") = true) as ->; [|done].
  apply HasPrefix_under; [done|done|by apply Forall_app|]. by exists s.
Qed.

(** What a node becomes. *)
Definition restored (n : node) : node :=
  match n with NFile mode data => NFile (sanitizeArchiveFileMode mode) data | _ => NDir end.

(** A list of nodes that can be made in this order after [seen]. *)
Inductive buildable : list (path * node) -> list (path * node) -> Prop :=
| buildable_nil seen : buildable seen []
| buildable_cons seen s y n l :
    s = [] \/ (s, NDir) ∈ seen -> s ++ [y] ∉ seen.*1 -> Forall good_name (s ++ [y]) -> archived n = true ->
    buildable (seen ++ [(s ++ [y], n)]) l -> buildable seen ((s ++ [y], n) :: l).

(** Below [t] there is what [seen] says. *)
Definition built (seen : list (path * node)) (fs : FS) : Prop :=
  fs_wf fs /\ fs_lookup fs t = Some NDir /\
  forall s n, s <> [] -> fs !! (t ++ s) = Some n <-> exists n0, (s, n0) ∈ seen /\ n = restored n0.

Lemma built_parent seen s fs : built seen fs -> s = [] \/ (s, NDir) ∈ seen -> fs_lookup fs (t ++ s) = Some NDir.
Proof.
  intros (_ & Hd & Hb) [->|Hs]; [by rewrite app_nil_r|]. destruct s as [|y s]; [by rewrite app_nil_r|].
  rewrite fs_lookup_app by done. apply Hb; [done|]. by exists NDir.
Qed.

Lemma built_fresh seen s fs : built seen fs -> s <> [] -> s ∉ seen.*1 -> fs !! (t ++ s) = None.
Proof.
  intros (_ & _ & Hb) Hs Hf. destruct (fs !! (t ++ s)) as [n|] eqn:E; [|done]. apply Hb in E as (n0 & Hin & _); [|done].
  destruct Hf. apply list_elem_of_fmap. by exists (s, n0).
Qed.

Lemma built_insert seen s y n fs :
  built seen fs -> s = [] \/ (s, NDir) ∈ seen -> s ++ [y] ∉ seen.*1 -> good_name y ->
  built (seen ++ [(s ++ [y], n)]) (<[(t ++ s) ++ [y] := restored n]> fs).
Proof.
  intros Hb Hpar Hf Hy. pose proof (built_parent _ _ _ Hb Hpar) as Hd. assert (Hsy : s ++ [y] <> []) by (by destruct s).
  pose proof (built_fresh _ _ _ Hb Hsy Hf) as Hnone. rewrite app_assoc in Hnone. destruct Hb as (Hwf & Hdt & Hb).
  split; [|split].
  - apply fs_wf_insert; [done|done|done|]. right. by rewrite Hnone.
  - rewrite fs_lookup_ne in * by done. rewrite lookup_insert_ne; [done|].
    intros E. apply (f_equal length) in E. rewrite !length_app in E. cbn in E. lia.
  - intros s' n' Hs'. setoid_rewrite elem_of_app. destruct (decide (s' = s ++ [y])) as [->|Hne].
    + rewrite app_assoc, lookup_insert_eq. split.
      * intros [= <-]. exists n. split; [right; apply list_elem_of_here|done].
      * intros (n0 & [Hin|Hin] & ->).
        -- destruct Hf. apply list_elem_of_fmap. by exists (s ++ [y], n0).
        -- apply list_elem_of_singleton in Hin as [= ->]. done.
    + rewrite lookup_insert_ne by (rewrite <- app_assoc; intros E; by apply app_inv_head in E). rewrite Hb by done. split.
      * intros (n0 & Hin & ->). exists n0. auto.
      * intros (n0 & [Hin|Hin] & ->); [by exists n0|]. by apply list_elem_of_singleton in Hin as [= ? ->].
Qed.

Lemma set_data_insert p mode data old fs : set_data p data (<[p := NFile mode old]> fs) = <[p := NFile mode data]> fs.
Proof. unfold set_data. by rewrite lookup_insert_eq, insert_insert_eq. Qed.

Lemma extract_file_run p x mode data name h :
  fs_wf (h_fs h) -> p <> [] -> Forall plain p -> fs_lookup (h_fs h) p = Some NDir -> good_name x -> h_fs h !! (p ++ [x]) = None ->
  exists h', h_fs h' = <[p ++ [x] := NFile (sanitizeArchiveFileMode mode) data]> (h_fs h) /\
    extract_file (mkTarEntry name TypeReg (Z.of_nat (length data)) mode data None) (abs_path (p ++ [x])) h = (h', Ok tt).
Proof.
  intros Hwf Hne Hp Hd Hx Hnone. unfold extract_file. rewrite Dir_abs by (done || apply Hx). rewrite ST_bind_run.
  destruct (os_MkdirAll_exists Hn p h) as (h1 & Hfs1 & E1); [done..|]. rewrite E1. cbn [fst snd]. rewrite ST_bind_run. cbn [te_mode].
  destruct (os_Create_child Hn p x (sanitizeArchiveFileMode mode) h1) as (h2 & Hfs2 & E2); [by rewrite Hfs1..|done|by rewrite Hfs1|].
  rewrite E2. cbn [fst snd te_body te_size te_err]. cbn zeta. rewrite ST_bind_run. unfold os_Write. rewrite Hn. cbn [fst snd].
  rewrite ST_bind_run. unfold os_Close. rewrite query_run by done. cbn [fst snd].
  rewrite take_ge by lia. rewrite Z.eqb_refl. destruct (_ <? _); eexists; (split; [|reflexivity]); cbn;
    by rewrite Hfs2, Hfs1, set_data_insert.
Qed.

Definition node_bytes (e : path * node) : Z := match e.2 with NFile _ data => Z.of_nat (length data) | _ => 0 end.
Definition node_count (e : path * node) : Z := match e.2 with NFile _ _ => 1 | _ => 0 end.

Lemma node_sums_nonneg l : 0 <= sumZ (map node_bytes l) /\ 0 <= sumZ (map node_count l).
Proof.
  induction l as [|[s n] l [IH1 IH2]]; [done|].
  change (0 <= node_bytes (s, n) + sumZ (map node_bytes l) /\ 0 <= node_count (s, n) + sumZ (map node_count l)).
  unfold node_bytes at 1, node_count at 1. cbn [snd]. destruct n; lia.
Qed.

(** Every step succeeds if the quotas admit the rest. *)
Lemma extract_entries_run c l seen tb fc k h :
  buildable seen l -> built seen (h_fs h) ->
  tb + sumZ (map node_bytes l) <= MaxTotalBytes c -> fc + sumZ (map node_count l) <= MaxFileCount c ->
  exists h' k', built (seen ++ l) (h_fs h') /\ extract_entries c (abs_path t) (map tar_of l) None tb fc k h = (h', (k', Ok tt)).
Proof.
  intros Hl. revert tb fc k h. induction Hl as [seen|seen s y n l Hpar Hf Hg Ha Hl IH]; intros tb fc k h Hb Hbytes Hcount.
  { exists h, k. by rewrite app_nil_r. }
  pose proof (node_sums_nonneg l) as [Hs1 Hs2]. 
  change (tb + (node_bytes (s ++ [y], n) + sumZ (map node_bytes l)) <= MaxTotalBytes c) in Hbytes.
  change (fc + (node_count (s ++ [y], n) + sumZ (map node_count l)) <= MaxFileCount c) in Hcount.
  assert (Hgp : Forall plain (s ++ [y])) by (by apply good_plain). assert (Hy : good_name y) by (apply Forall_app in Hg as [_ Hg]; by inversion Hg).
  assert (Hsy : s ++ [y] <> []) by (by destruct s). pose proof (built_parent _ _ _ Hb Hpar) as Hd.
  pose proof (built_fresh _ _ _ Hb Hsy Hf) as Hnone. pose proof (built_insert _ _ _ n _ Hb Hpar Hf Hy) as Hb'.
  assert (Hne : t ++ s <> []) by (by destruct t). rewrite app_assoc in Hnone.
  assert (Hps : Forall plain (t ++ s)) by (apply Forall_app in Hgp as [? _]; by apply Forall_app).
  assert (Hname : te_name (tar_of (s ++ [y], n)) = str_join "/" (s ++ [y])) by (by destruct n).
  cbn [map extract_entries]. rewrite Hname, check_entry_run, app_assoc by done.
  replace (seen ++ (s ++ [y], n) :: l) with ((seen ++ [(s ++ [y], n)]) ++ l) by (by rewrite <- app_assoc).
  destruct n as [|mode data| |]; try done.
  - cbn [tar_of snd te_type]. rewrite ST_bind_run. destruct (os_MkdirAll_child Hn (t ++ s) y h) as (h1 & Hfs1 & E1); [apply Hb|done..|].
    rewrite E1. cbn [fst snd]. apply IH; [by rewrite Hfs1|exact Hbytes|exact Hcount].
  - change (tar_of (s ++ [y], NFile mode data)) with
      (mkTarEntry (str_join "/" (s ++ [y])) TypeReg (Z.of_nat (length data)) mode data None) in *.
    cbn [te_type te_size]. unfold node_bytes at 1 in Hbytes. unfold node_count at 1 in Hcount. cbn [snd] in Hbytes, Hcount.
    rewrite (proj2 (Z.ltb_ge _ _)) by lia. rewrite (proj2 (Z.ltb_ge _ _)) by lia. rewrite (proj2 (Z.ltb_ge _ _)) by lia.
    rewrite ST_bind_run. destruct (extract_file_run (t ++ s) y mode data (str_join "/" (s ++ [y])) h) as (h1 & Hfs1 & E1); [apply Hb|done..|].
    rewrite E1. cbn [fst snd]. apply IH; [by rewrite Hfs1|lia..].
Qed.
End building.

(** ** A tree can be built in the order of a walk *)

Section order.
Context (rp : path) (fs : FS).
Hypothesis Hwf : fs_wf fs.

Lemma rel_node_parent a p b s y n :
  walk_paths fs rp = a ++ p :: b -> rel_node rp fs p = Some (s ++ [y], n) ->
  (s = [] \/ (s, NDir) ∈ omap (rel_node rp fs) a) /\ s ++ [y] ∉ (omap (rel_node rp fs) a).*1 /\
  Forall good_name (s ++ [y]) /\ archived n = true.
Proof.
  intros Hsplit E. assert (Hp : p = rp ++ s ++ [y] /\ fs !! p = Some n /\ archived n = true).
  { assert (Hin : p ∈ walk_paths fs rp) by (rewrite Hsplit; apply elem_of_app; right; left).
    apply walk_paths_spec in Hin as [_ (r & Hr & ->)]. unfold rel_node in E. rewrite below_app in E.
    destruct r as [|z r]; [done|]. destruct (fs !! _) as [m|]; [|done]. destruct (archived m) eqn:Ea; [|done].
    injection E as <- <-. done. }
  destruct Hp as (-> & Hlk & Ha). rewrite app_assoc in Hlk. destruct (Hwf _ _ _ Hlk) as [Hd Hy]. split; [|split; [|split; [|done]]].
  - destruct (decide (s = [])) as [->|Hs]; [by left|right]. rewrite fs_lookup_app in Hd by done.
    assert (Hin : rp ++ s ∈ walk_paths fs rp) by (apply walk_paths_spec; split; [by rewrite Hd|by exists s]).
    rewrite Hsplit in Hin. apply elem_of_app in Hin as [Hin|[Hin|Hin]%elem_of_cons].
    + apply list_elem_of_omap. exists (rp ++ s). split; [done|]. unfold rel_node. rewrite below_app, Hd. by destruct s.
    + apply (f_equal length) in Hin. rewrite !length_app in Hin. cbn in Hin. lia.
    + exfalso. apply list_elem_of_split in Hin as (b1 & b2 & ->).
      apply (walk_paths_order fs rp (a ++ (rp ++ s ++ [y]) :: b1) (rp ++ s) b2 [y]); [by rewrite Hsplit, <- app_assoc|done|].
      rewrite <- app_assoc. apply elem_of_app. right. left.
  - intros ([s' n'] & Es & (q & Hq & Eq)%list_elem_of_omap)%list_elem_of_fmap. cbn in Es. subst s'.
    assert (Hqw : q ∈ walk_paths fs rp) by (rewrite Hsplit; apply elem_of_app; by left).
    apply walk_paths_spec in Hqw as [_ (r & Hr & ->)]. unfold rel_node in Eq. rewrite below_app in Eq.
    destruct r as [|z r]; [done|]. destruct (fs !! (rp ++ z :: r)) as [m|]; [|done]. destruct (archived m); [|done].
    injection Eq as Eq _. rewrite Eq in Hq. pose proof (walk_paths_NoDup fs rp) as Hnd. rewrite Hsplit in Hnd.
    apply list.NoDup_app in Hnd as (_ & Hnd & _). apply (Hnd _ Hq). left.
  - apply Forall_app. split; [|by constructor].
    destruct (decide (s = [])) as [->|Hs]; [done|]. pose proof (fs_wf_good fs (rp ++ s) Hwf) as Hg. rewrite Hd in Hg.
    by apply Forall_app in Hg as [_ ?].
Qed.

Lemma walk_buildable a b : walk_paths fs rp = a ++ b -> buildable (omap (rel_node rp fs) a) (omap (rel_node rp fs) b).
Proof.
  revert a. induction b as [|p b IH]; intros a Hsplit; [constructor|]. cbn [omap list_omap].
  specialize (IH (a ++ [p])). rewrite <- app_assoc, omap_app in IH. specialize (IH Hsplit). cbn [omap list_omap] in IH.
  destruct (rel_node rp fs p) as [[s n]|] eqn:E; [|by rewrite app_nil_r in IH].
  destruct s as [|y s _] using rev_ind.
  - unfold rel_node in E. destruct (below rp p) as [[|? ?]|]; [done| |done]. destruct (fs !! p); [|done]. by destruct (archived _).
  - destruct (rel_node_parent _ _ _ _ _ _ Hsplit E) as (H1 & H2 & H3 & H4). by constructor.
Qed.

Lemma tree_buildable : buildable [] (tree_nodes rp fs).
Proof. by apply (walk_buildable []). Qed.
End order.

(** The archived files are part of the usage. *)
Lemma tree_sums `{HE : HostEnv} rp fs :
  sizes_ok -> sumZ (map node_bytes (tree_nodes rp fs)) <= tree_bytes rp fs /\ sumZ (map node_count (tree_nodes rp fs)) <= tree_files rp fs.
Proof.
  intros Hs. unfold tree_bytes, tree_files.
  rewrite !(usage_walk _ fs rp) by (intros q n; unfold weight; by destruct (below rp q) as [[|? ?]|]).
  unfold tree_nodes. induction (walk_paths fs rp) as [|p l [IH1 IH2]]; [done|]. cbn [omap list_omap].
  assert (Hw : (forall e, rel_node rp fs p = Some e -> node_bytes e <= node_weight (weight rp node_size) fs p /\
                          node_count e <= node_weight (weight rp (fun _ _ => 1)) fs p) /\
               0 <= node_weight (weight rp node_size) fs p /\ 0 <= node_weight (weight rp (fun _ _ => 1)) fs p).
  { split.
    - intros e. unfold rel_node, node_weight, weight. destruct (below rp p) as [[|? ?]|]; [done| |done]. destruct (fs !! p) as [n|]; [|done].
      destruct n; cbn; try done; intros [= <-]; cbn; lia.
    - unfold node_weight. destruct (fs !! p); [|done]. split; apply weight_nonneg; intros; [by apply node_size_nonneg|lia]. }
  destruct Hw as (Hw & Hw1 & Hw2).
  change (sumZ (map ?f (p :: l))) with (f p + sumZ (map f l)). destruct (rel_node rp fs p) as [e|] eqn:E.
  - destruct (Hw e eq_refl) as [H1 H2]. change (sumZ (map ?f (e :: ?x))) with (f e + sumZ (map f x)). cbn in *. lia.
  - cbn in *. lia.
Qed.

(** ** The round trip *)

Section roundtrip.
Context `{HE : HostEnv} `{HC : ArchiveCodec} (d : path) (x : string).
Hypothesis Hn : no_faults.
Hypothesis Hdp : Forall plain (d ++ [x]).

(** The backup has a name the kernel accepts, and no link is in its place. *)
Definition backup_room (fs : FS) : Prop :=
  good_name (backup_name x) /\ forall l, fs !! (d ++ [backup_name x]) <> Some (NSymlink l).

(** And the host finds an unused name for a temporary directory. *)
Definition room (fs : FS) : Prop :=
  (forall k, fs !! (d ++ [temp_name (temp_suffix k)]) = None /\ good_name (temp_name (temp_suffix k))) /\ backup_room fs.

Lemma sound_dir fs : sound d fs -> fs_lookup fs d = Some NDir.
Proof. intros [_ Hd]. apply (Hd d []). by rewrite app_nil_r. Qed.

Lemma os_MkdirTemp_run h :
  sound d (h_fs h) -> room (h_fs h) ->
  exists h' n, os_MkdirTemp (abs_path d) ".agentforge-restore-" h = (h', Ok (abs_path (d ++ [temp_name n]))) /\
    h_fs h' = <[d ++ [temp_name n] := NDir]> (h_fs h) /\ h_fs h !! (d ++ [temp_name n]) = None /\ good_name (temp_name n).
Proof.
  intros Hs (Hfree & _). unfold os_MkdirTemp. rewrite (abs_path_entry d x Hdp). destruct (N.to_nat 10000) as [|tries] eqn:Et; [lia|].
  clear Et. cbn [mkdir_temp]. rewrite abs_path_suffix. set (n := temp_suffix (h_tick h)).
  change (".agentforge-restore-" +:+ fmt_d n) with (temp_name n). destruct (Hfree (h_tick h)) as [H1 H2].
  destruct (os_Mkdir_child Hn d (temp_name n) h) as (h1 & Hfs1 & E1); [apply Hs|by apply sound_dir|done|done|].
  rewrite E1. exists h1, n. done.
Qed.

Lemma backup_gone h h1 r :
  sound d (h_fs h) -> backup_room (h_fs h) -> os_RemoveAll (abs_path (d ++ [backup_name x])) h = (h1, r) ->
  h_fs h1 !! (d ++ [backup_name x]) = None.
Proof.
  intros Hs (Hg & Hl) E. pose proof (os_RemoveAll_sub (abs_path (d ++ [backup_name x])) h) as Hsub. rewrite E in Hsub. cbn in Hsub.
  destruct (h_fs h !! (d ++ [backup_name x])) as [n|] eqn:Eb; [|by eapply lookup_weaken_None].
  assert (Hp : Forall plain (d ++ [backup_name x])) by (apply (plain_entry d x Hdp), Hg).
  assert (Hnl : no_links (h_fs h) (d ++ [backup_name x])).
  { intros a b l Hab. destruct b as [|z b _] using rev_ind.
    - rewrite app_nil_r in Hab. rewrite <- Hab, fs_lookup_snoc, Eb. intros [= ->]. by destruct (Hl l).
    - rewrite app_assoc in Hab. apply app_inj_tail in Hab as [Hab _]. by eapply (sound_no_links d). }
  pose proof (os_RemoveAll_success (d ++ [backup_name x]) h Hn (proj1 Hs) Hp) as Hok. rewrite E in Hok. cbn in Hok.
  apply os_RemoveAll_spec in E as (_ & _ & Hgone); [|done|by apply no_links_above_snoc; eapply sound_no_links].
  apply (Hgone (no_faults_ok Hn) (proj1 Hs)); [|exists []; by rewrite app_nil_r].
  apply Hok; [by destruct d|done|by rewrite Eb].
Qed.

(** Every step of the swap succeeds. *)
Lemma swap_roots_run t h :
  plain t -> t <> x -> t <> backup_name x -> sound d (h_fs h) -> backup_room (h_fs h) ->
  h_fs h !! (d ++ [x]) = Some NDir -> h_fs h !! (d ++ [t]) = Some NDir ->
  (swap_roots (abs_path (d ++ [x])) (abs_path (d ++ [t])) h).2 = Ok tt.
Proof.
  intros Hpt Htx Htb Hs Hroom Hx Ht. destruct (plain_dir d x Hdp) as [Hpd Hpx]. pose proof (backup_name_plain x Hpx) as Hpb.
  pose proof (backup_not_root x) as Hbx. pose proof Hroom as (Hgb & Hlb).
  unfold swap_roots. rewrite abs_path_suffix. change (x +:+ ".restore-backup") with (backup_name x). cbn zeta. rewrite ST_bind_run.
  destruct (os_RemoveAll _ h) as [h1 r1] eqn:E1. cbn [fst snd]. pose proof (backup_gone _ _ _ Hs Hroom E1) as Hb1.
  apply (remove_entry d x Hdp) in E1 as (Hs1 & _ & Hk1); [|done..].
  pose proof (Hk1 x ltac:(done) []) as Hx1. pose proof (Hk1 t ltac:(done) []) as Ht1. rewrite !app_nil_r in Hx1, Ht1.
  rewrite Hx in Hx1. rewrite Ht in Ht1. rewrite ST_bind_run, os_Stat_dir; [|done|apply Hs1|by rewrite fs_lookup_snoc].
  cbn [fst snd]. set (h2 := h1 <| h_tick ::= S |>). change (h_fs h1) with (h_fs h2) in *. rewrite ST_bind_run.
  assert (E3ok : (os_Rename (abs_path (d ++ [x])) (abs_path (d ++ [backup_name x])) h2).2 = Ok tt)
    by (apply os_Rename_free; [done|apply Hs1|apply Hs1|done|done|by rewrite Hx1|done]).
  destruct (os_Rename _ _ h2) as [h3 r3] eqn:E3. cbn in E3ok. subst r3. cbn [fst snd].
  apply os_Rename_spec in E3 as [[_ ?]|(_ & (_ & Hgone3 & Hrest3) & Hwf3 & Hd3 & _)];
    [done| |apply Hs1|apply Hs1|done|by apply (plain_entry d x Hdp)|done].
  specialize (Hgone3 []). rewrite app_nil_r in Hgone3. assert (Ht3 : h_fs h3 !! (d ++ [t]) = Some NDir).
  { rewrite Hrest3; [done|by apply siblings_apart, not_eq_sym..]. }
  rewrite ST_bind_run. assert (E4ok : (os_Rename (abs_path (d ++ [t])) (abs_path (d ++ [x])) h3).2 = Ok tt).
  { apply os_Rename_free; [done|done|done| |done|by rewrite Ht3|done].
    pose proof (fs_wf_good (h_fs h) (d ++ [x]) (proj1 Hs)) as Hg. rewrite fs_lookup_snoc, Hx in Hg.
    specialize (Hg ltac:(done)). apply Forall_app in Hg as [_ Hg]. by inversion Hg. }
  destruct (os_Rename _ _ h3) as [h4 r4]. cbn in E4ok. subst r4. cbn [fst snd]. by rewrite ST_bind_run.
Qed.

(** The archive of a tree that fits into the quotas is built again. *)
Lemma extract_limited_run c rp fs data t h :
  codec_ok -> fs_wf fs -> sizes_ok -> targz_write (map tar_of (tree_nodes rp fs)) = Ok data ->
  Z.of_nat (length data) <= MaxArchiveBytes c -> tree_bytes rp fs <= MaxTotalBytes c -> tree_files rp fs <= MaxFileCount c ->
  t <> [] -> Forall plain t -> built t [] (h_fs h) ->
  exists h', built t (tree_nodes rp fs) (h_fs h') /\ extract_limited c data (abs_path t) h = (h', Ok tt).
Proof.
  intros Hcodec Hwf Hsz Hdata Hlen Hb Hf Htne Htp Hbuilt. destruct (Hcodec _ _ Hdata) as [Hread Hcons].
  destruct (tree_sums rp fs Hsz) as [Hs1 Hs2]. unfold extract_limited. cbn zeta. rewrite ST_bind_run.
  rewrite take_ge by lia. unfold extractTarGzIntoRoot. rewrite Hread, ST_bind_run.
  destruct (extract_entries_run t Hn Htne Htp c _ [] 0 0 0 h (tree_buildable rp fs Hwf) Hbuilt) as (h' & k & Hb' & E); [lia..|].
  rewrite E. cbn [fst snd]. exists h'. split; [done|]. unfold mret, ST_ret. cbn [fst snd]. specialize (Hcons k).
  by rewrite (proj2 (Z.leb_gt _ _)) by lia.
Qed.

Lemma restore_files_run c rp fs data h :
  codec_ok -> fs_wf fs -> sizes_ok -> targz_write (map tar_of (tree_nodes rp fs)) = Ok data ->
  Z.of_nat (length data) <= MaxArchiveBytes c -> tree_bytes rp fs <= MaxTotalBytes c -> tree_files rp fs <= MaxFileCount c ->
  Root c = abs_path (d ++ [x]) -> sound d (h_fs h) -> h_fs h !! (d ++ [x]) = Some NDir -> room (h_fs h) ->
  exists h', restore_files c data h = (h', Ok tt) /\ sound d (h_fs h') /\ built (d ++ [x]) (tree_nodes rp fs) (h_fs h').
Proof.
  intros Hcodec Hwf Hsz Hdata Hlen Hb Hf Hroot Hs Hx Hroom. destruct (plain_dir d x Hdp) as [Hpd Hpx].
  unfold restore_files. rewrite Hroot, Dir_abs by done. rewrite ST_bind_run.
  destruct (os_MkdirTemp_run h Hs Hroom) as (h1 & n & E1 & Hfs1 & Hnone & Hg). rewrite E1. cbn [fst snd].
  set (t := temp_name n) in *. assert (Hpt : plain t) by apply Hg. assert (Htb : t <> backup_name x) by apply temp_not_backup.
  assert (Htx : t <> x) by (intros E; rewrite E in Hnone; congruence).
  destruct (made_entry d t (h_fs h)) as (Hs1 & Hcl1 & Hc1); [done..|]. rewrite <- Hfs1 in Hs1, Hcl1, Hc1.
  rewrite ST_bind_run. unfold os_Chmod. rewrite query_run by done. destruct Hcl1 as [[Hwf1 Hd1] Hcl1].
  rewrite stat_exists by (done || (by rewrite Hd1) || (intros _; by apply dir_no_links)). cbn [fst snd].
  set (h2 := h1 <| h_tick ::= S |>). change (h_fs h1) with (h_fs h2) in *. rewrite ST_bind_run.
  destruct (extract_limited_run c rp fs data (d ++ [t]) h2) as (h3 & Hb3 & E3); try done.
  { by destruct d. }
  { by apply (plain_entry d x Hdp). }
  { split; [done|]. split; [done|]. intros s m Hs0. split; [|intros (? & ?%not_elem_of_nil & _); done]. intros Hm. exfalso.
    rewrite Hfs1, lookup_insert_ne in Hm; [|intros E; rewrite <- (app_nil_r (d ++ [t])) in E at 1; by apply app_inv_head in E as <-].
    pose proof (fs_wf_missing (h_fs h) (d ++ [t]) s (proj1 Hs)) as Hmiss. rewrite fs_lookup_snoc, fs_lookup_app in Hmiss by done.
    rewrite Hmiss in Hm; done. }
  rewrite E3. cbn [fst snd]. rewrite ST_bind_run.
  pose proof (extract_limited_confined d x Hdp c data t h2 h3 (Ok tt) Hpt) as Hconf. destruct Hconf as [Hcl3 Hc3]; [by split|done|].
  destruct (below_sibling d t (h_fs h2) (h_fs h3)) as (Hs3 & _ & Hk3); [done..|].
  assert (Hk2 : forall a, a <> t -> same_tree d a a (h_fs h) (h_fs h2)) by (intros a Hne s; by eapply (changes_apart d _ t a)).
  pose proof (Hk3 x ltac:(done) []) as Hx3. rewrite (Hk2 x ltac:(done) []), !app_nil_r, Hx in Hx3.
  pose proof (Hk3 (backup_name x) ltac:(done) []) as Hbx3. rewrite (Hk2 (backup_name x) ltac:(done) []), !app_nil_r in Hbx3.
  assert (Ht3 : h_fs h3 !! (d ++ [t]) = Some NDir) by (destruct Hb3 as (_ & H3 & _); by rewrite fs_lookup_snoc in H3).
  assert (Hroom3 : backup_room (h_fs h3)) by (split; [apply Hroom|]; intros l; rewrite Hbx3; apply Hroom).
  pose proof (swap_roots_run t h3 Hpt Htx Htb Hs3 Hroom3 Hx3 Ht3) as Hok.
  destruct (swap_roots _ _ h3) as [h4 r4] eqn:E4. cbn [fst snd] in *. subst r4.
  apply (swap_roots_spec d x Hdp) in E4 as (Hs4 & _ & Htree); [|by apply no_faults_ok|done..].
  exists h4. split; [done|]. split; [done|]. split; [apply Hs4|]. split.
  - rewrite fs_lookup_snoc, <- (app_nil_r (d ++ [x])), <- app_assoc, Htree. by rewrite app_assoc, app_nil_r.
  - intros s m Hsne. rewrite <- app_assoc, Htree, app_assoc. by apply Hb3.
Qed.

(** C38: Round trip: if the archive reader reads what the writer wrote, then restoring a snapshot of a
    workspace in a workspace whose quotas admit it succeeds, and afterwards the tree below the root has
    exactly the directories of the snapshotted tree, and its regular files with the same content and the
    owner's read and write permissions; links and special files are left out. *)
Theorem snapshot_restore_roundtrip rp w w1 w2 data :
  codec_ok -> sizes_ok -> Forall plain rp -> ws_ok rp w -> Snapshot w = (w1, Ok data) ->
  ws_ok (d ++ [x]) w2 -> room (lw_fs w2) ->
  Z.of_nat (length data) <= MaxArchiveBytes (lm_cfg (lw_m w2)) ->
  tree_bytes rp (lw_fs w) <= MaxTotalBytes (lm_cfg (lw_m w2)) -> tree_files rp (lw_fs w) <= MaxFileCount (lm_cfg (lw_m w2)) ->
  (Restore data w2).2 = Ok tt /\
  forall s, s <> [] -> lw_fs (Restore data w2).1 !! (d ++ [x] ++ s) =
                       n ← lw_fs w !! (rp ++ s); if archived n then Some (restored n) else None.
Proof.
  intros Hcodec Hsz Hplain Hok Hsnap [Hroot2 [Hwf2 Hd2]] Hroom Hlen Hb Hf.
  destruct (Snapshot_run rp Hn Hplain w Hok) as (w' & _ & _ & E). rewrite E in Hsnap. injection Hsnap as -> Hdata.
  rewrite fs_lookup_snoc in Hd2. destruct (restore_files_run (lm_cfg (lw_m w2)) rp (lw_fs w) data (lw_host w2)) as (h' & Er & Hs' & Hb'); try done.
  { apply Hok. } { split; [done|]. apply fs_wf_real; [done|]. by apply (Hwf2 d x NDir). }
  unfold Restore. rewrite ST_bind_run. cbn [cfg fst snd]. rewrite ST_bind_run, io_run. cbn [fst snd]. rewrite Er. cbn [fst snd].
  set (w3 := w2 <| lw_host := h' |>). assert (Hok3 : ws_ok (d ++ [x]) w3) by (split; [done|]; split; apply Hb').
  destruct (recount w3) as [w4 r4] eqn:E4. apply (recount_exact (d ++ [x])) in E4 as (-> & Hfs4 & _); try done; [|by destruct d]. cbn [fst snd].
  split; [done|]. intros s Hs. rewrite Hfs4. destruct Hb' as (_ & _ & Hb'). rewrite app_assoc.
  destruct (lw_fs w !! (rp ++ s)) as [n|] eqn:En; cbn.
  - destruct (archived n) eqn:Ea; [apply Hb'; [done|]; exists n; split; [by apply tree_nodes_spec|done]|].
    destruct (lw_fs w3 !! ((d ++ [x]) ++ s)) as [m|] eqn:Em; [|done]. exfalso.
    apply Hb' in Em as (n0 & Hin & _); [|done]. apply tree_nodes_spec in Hin as (_ & Hin & Hin'); congruence.
  - destruct (lw_fs w3 !! ((d ++ [x]) ++ s)) as [m|] eqn:Em; [|done]. exfalso.
    apply Hb' in Em as (n0 & Hin & _); [|done]. apply tree_nodes_spec in Hin as (_ & Hin & Hin'); congruence.
Qed.
End roundtrip.

(** ** A concrete round trip *)

Module snapshot_demo.
Import ws_demo.

#[local] Instance calm_env : HostEnv := {|
  fault := fun _ => None; partial_write := fun _ => O; temp_suffix := fun _ => 7; special_size := fun _ => 0 |}.

(** A format for archives with the single file [f]: its content. *)
#[local] Instance one_file : ArchiveCodec := {|
  targz_write := fun l => match l with
    | [mkTarEntry name TypeReg size mode body None] =>
        if String.eqb name "f" && (size =? Z.of_nat (length body)) && (mode =? 384) then Ok body else Err (errors_New "unsupported")
    | _ => Err (errors_New "unsupported")
    end;
  targz_read := fun data => Ok ([mkTarEntry "f" TypeReg (Z.of_nat (length data)) 384 data None], None);
  targz_consumed := fun data _ => Z.of_nat (length data) |}.

Lemma one_file_ok : codec_ok.
Proof.
  intros l data. cbn. destruct l as [|[name ty size mode body err] [|? ?]]; [done| |by destruct ty, err].
  destruct ty, err; try done. destruct (String.eqb_spec name "f"); [|done]. destruct (Z.eqb_spec size (Z.of_nat (length body))); [|done].
  destruct (Z.eqb_spec mode 384); [|done]. intros [= <-]. by subst.
Qed.

(** Another workspace, empty, in the same directory. *)
Definition other_fs : FS := <[["tmp"] ++ ["other"] := NDir]> (<[[] ++ ["tmp"] := NDir]> ∅).
Definition other_ws : LocalWs := mkLocalWs (mkLocalManager (mkWsConfig "/tmp/other" 50 60 5) 0 0) (mkHost other_fs 0).

Lemma other_plain : Forall plain (["tmp"] ++ ["other"]).
Proof. repeat constructor; try (apply (bool_decide_unpack _); vm_compute; done); done. Qed.

Lemma other_ok : ws_ok (["tmp"] ++ ["other"]) other_ws.
Proof.
  split; [reflexivity|]. split; [|reflexivity].
  repeat (apply fs_wf_insert; [|reflexivity|apply demo_good; reflexivity|by (left + right)]). by intros [|? ?] ? ?.
Qed.

Lemma other_room : room ["tmp"] "other" other_fs.
Proof.
  split; [intros k; split; [reflexivity|apply demo_good; reflexivity]|]. split; [apply demo_good; reflexivity|]. by intros l.
Qed.

Lemma snapshot_restore_roundtrip_witness :
  exists data, (Snapshot demo_ws).2 = Ok data /\ (Restore data other_ws).2 = Ok tt /\
    lw_fs (Restore data other_ws).1 !! ["tmp"; "other"; "f"] = Some (NFile 384 ["o"%char; "k"%char]).
Proof.
  destruct (Snapshot demo_ws) as [w1 r] eqn:E. assert (Hr : r = Ok ["o"%char; "k"%char]) by (apply (f_equal snd) in E; vm_compute in E; by rewrite E).
  subst r. eexists. split; [reflexivity|].
  destruct (@snapshot_restore_roundtrip calm_env one_file ["tmp"] "other" (fun _ => eq_refl) other_plain demo_rp demo_ws w1 other_ws ["o"%char; "k"%char]) as [H1 H2];
    [apply one_file_ok|intros p; cbn; lia|apply demo_plain|apply demo_ok|exact E|apply other_ok|apply other_room|vm_compute; done..|].
  split; [exact H1|]. exact (H2 ["f"] ltac:(done)).
Defined.
End snapshot_demo.
