(* ===== verification/FSTools.v ===== *)
(** * FSTools: the built-in file tools (src/pkg/engine/fs_tools.go)

    The six tools the worker registers for every run.  They act on the workspace through
    [WorkspaceFiles] and on the artifact store through [ArtifactStore]; theorems against the
    interfaces are instantiated with the local workspace.  An export writes its archive to a
    temporary file outside the workspace ([TempFiles]), which it removes in the end without looking
    at the error.  A failure of a tool is part of its result, never a Go error: the engine shows it to
    the model. *)

From Stdlib Require Import Ascii.
From S2P Require Import Prelude GoLib JSON Encoding Artifacts Engine FileSystem Workspace WorkspaceRestore.

Definition defaultFSReadMaxBytes : Z := 512 * 1024.

Definition nl : string := string_of [ascii_of_nat 10].
Definition quotes : string := string_of [dquote].

(** JSON texts of the program, written with single quotes. *)
Definition json_text (s : string) : string :=
  string_of (map (fun c => if Ascii.eqb c (ascii_of_nat 39) then dquote else c) (bytes_of s)).

(** [strings.Trim] with a cutset of one byte *)
Definition trim_byte (c : ascii) (s : string) : string :=
  string_of (rev (drop_while (Ascii.eqb c) (rev (drop_while (Ascii.eqb c) (bytes_of s))))).

(** [getenv] is the value of AGENTFORGE_FS_READ_MAX_BYTES. *)
Definition fsReadMaxBytesFromEnv (getenv : string) : Z :=
  let raw := TrimSpace getenv in
  if String.eqb raw "" then defaultFSReadMaxBytes
  else match Atoi raw with
       | Some n => if n <=? 0 then defaultFSReadMaxBytes else n
       | None => defaultFSReadMaxBytes
       end.

Definition isPrintable (data : bytes) : bool :=
  forallb (fun b => negb ((byte_val b <? 32) && negb (byte_val b =? 10) && negb (byte_val b =? 13) && negb (byte_val b =? 9))) data.

(** What the tools get from outside: the directory for temporary files, the cancellation of the
    context before the n-th path of an export, how much of the archive has reached the temporary file
    when the n-th entry was written (the compressor buffers), and eight random bytes. *)
Class ToolEnv := {
  os_TempDir : string;
  tool_cancelled : string -> nat -> option error;
  tool_flushed : string -> nat -> bytes;
  tool_random : string -> result error bytes }.

(** An open temporary file. *)
Record temp_file : Type := mkTempFile { tf_name : string; tf_path : path }.

(** The temporary file of an export: [os.CreateTemp], writes to it, and the deferred close and
    remove, whose errors are ignored. *)
Class TempFiles (F : Type) := {
  Tmp_Create : F -> F * result error temp_file;
  Tmp_Write : temp_file -> bytes -> F -> F * result error unit;
  Tmp_Discard : temp_file -> F -> F }.

Definition temp_prefix : string := "agentforge-export-".
Definition temp_suffix_text : string := ".tar.gz".

#[global] Instance LocalWs_Temp `{HostEnv} `{ToolEnv} : TempFiles LocalWs := {|
  Tmp_Create w :=
    let '(h, r) := os_CreateTemp os_TempDir temp_prefix temp_suffix_text (lw_host w) in
    (w <| lw_host := h |>, match r with Ok (name, p) => Ok (mkTempFile name p) | Err e => Err e end);
  Tmp_Write f data w :=
    let '(h, r) := os_Write (tf_name f) (tf_path f) data (lw_host w) in (w <| lw_host := h |>, r);
  Tmp_Discard f w :=
    let h := (os_Close (tf_name f) (lw_host w)).1 in
    w <| lw_host := (os_Remove (tf_name f) h).1 |> |}.

(** *** Parameters *)

Record WriteParams : Type := mkWriteParams { WP_Path : string; WP_Content : string; WP_ContentBase64 : string }.
#[global] Instance WriteParams_eta : Eta WriteParams := fun p => mkWriteParams (WP_Path p) (WP_Content p) (WP_ContentBase64 p).

Record ReadParams : Type := mkReadParams { RP_Path : string; RP_MaxBytes : Z }.
#[global] Instance ReadParams_eta : Eta ReadParams := fun p => mkReadParams (RP_Path p) (RP_MaxBytes p).

Section tools.
Context {A F : Type} `{ArtifactStore A} `{WorkspaceFiles F} `{ArchiveCodec} `{JSONText} `{Unicode} `{ToolEnv} `{!TempFiles F}.
Abbreviation X := (A * F)%type.

Definition ok_output (out : string) : result error ToolResult := Ok (mkToolResult out "").
Definition tool_error (msg : string) : result error ToolResult := Ok (mkToolResult "" msg).

(** An operation on the workspace. *)
Definition on_ws {B} (f : F -> F * B) (x : X) : X * B := let '(w, b) := f x.2 in ((x.1, w), b).

Definition write_fields : list (field (S := WriteParams)) :=
  [("path", set_with json_string (fun v p => p <| WP_Path := v |>));
   ("content", set_with json_string (fun v p => p <| WP_Content := v |>));
   ("content_base64", set_with json_string (fun v p => p <| WP_ContentBase64 := v |>))].

Definition fsWriteTool_Execute (args : string) (x : X) : X * result error ToolResult :=
  match json_Unmarshal_struct write_fields args (mkWriteParams "" "" "") with
  | Err e => (x, tool_error ("invalid args: " +:+ Error e))
  | Ok params =>
      match (if String.eqb (WP_ContentBase64 params) "" then Ok (bytes_of (WP_Content params))
             else base64_DecodeString (WP_ContentBase64 params)) with
      | Err e => (x, tool_error ("base64 decode: " +:+ Error e))
      | Ok data =>
          let '(x, r) := on_ws (Ws_Write (WP_Path params) data) x in
          (x, match r with
              | Err e => tool_error (Error e)
              | Ok _ => ok_output ("wrote " +:+ fmt_d (Z.of_nat (length data)) +:+ " bytes to " +:+ WP_Path params)
              end)
      end
  end.

Definition read_fields : list (field (S := ReadParams)) :=
  [("path", set_with json_string (fun v p => p <| RP_Path := v |>));
   ("max_bytes", set_with json_int (fun v p => p <| RP_MaxBytes := v |>))].

Definition effective_limit (maxReadBytes max_bytes : Z) : Z :=
  let effectiveLimit := if 0 <? max_bytes then max_bytes else maxReadBytes in
  if effectiveLimit <=? 0 then defaultFSReadMaxBytes else effectiveLimit.

(** The output for the content of a file. *)
Definition render (limit : Z) (content : bytes) : string :=
  let totalBytes := Z.of_nat (length content) in
  let truncated := limit <? totalBytes in
  let data := if truncated then take (Z.to_nat limit) content else content in
  let shown := fmt_d (Z.of_nat (length data)) +:+ " of " +:+ fmt_d totalBytes in
  if isPrintable data then
    string_of data +:+ (if truncated then nl +:+ nl +:+ "[TRUNCATED] showing first " +:+ shown +:+ " bytes" else "")
  else
    base64_EncodeToString data +:+
      (if truncated then nl +:+ nl +:+ "[TRUNCATED_BASE64] showing first " +:+ shown +:+ " bytes before base64 encoding" else "").

Definition fsReadTool_Execute (maxReadBytes : Z) (args : string) (x : X) : X * result error ToolResult :=
  match json_Unmarshal_struct read_fields args (mkReadParams "" 0) with
  | Err e => (x, tool_error ("invalid args: " +:+ Error e))
  | Ok params =>
      let '(x, r) := on_ws (Ws_Read (RP_Path params)) x in
      (x, match r with
          | Err e => tool_error (Error e)
          | Ok content => ok_output (render (effective_limit maxReadBytes (RP_MaxBytes params)) content)
          end)
  end.

(** The structs with a single string. *)
Definition one_string (name : string) : list (field (S := string)) := [(name, set_with json_string (fun v _ => v))].

Definition list_line (e : FileInfo) : string :=
  FI_Name e +:+ (if FI_IsDir e then "/" else "") +:+ " (" +:+ fmt_d (FI_Size e) +:+ " bytes)".

Definition fsListTool_Execute (args : string) (x : X) : X * result error ToolResult :=
  match json_Unmarshal_struct (one_string "dir") args "" with
  | Err e => (x, tool_error ("invalid args: " +:+ Error e))
  | Ok dir =>
      let dir := if String.eqb dir "" then "." else dir in
      let '(x, r) := on_ws (Ws_List dir) x in
      (x, match r with
          | Err e => tool_error (Error e)
          | Ok entries => ok_output (str_join nl (map list_line entries))
          end)
  end.

(** [json.Marshal] of a [FileInfo] *)
Definition info_json (i : FileInfo) : string :=
  "{" +:+ json_quote "name" +:+ ":" +:+ json_quote (FI_Name i) +:+ "," +:+ json_quote "path" +:+ ":" +:+ json_quote (FI_Path i)
  +:+ "," +:+ json_quote "is_dir" +:+ ":" +:+ json_bool (FI_IsDir i) +:+ "," +:+ json_quote "size" +:+ ":" +:+ fmt_d (FI_Size i) +:+ "}".

Definition fsStatTool_Execute (args : string) (x : X) : X * result error ToolResult :=
  match json_Unmarshal_struct (one_string "path") args "" with
  | Err e => (x, tool_error ("invalid args: " +:+ Error e))
  | Ok path =>
      let '(x, r) := on_ws (Ws_Stat path) x in
      (x, match r with
          | Err e => tool_error (Error e)
          | Ok info => ok_output (info_json info)
          end)
  end.

Definition fsDeleteTool_Execute (args : string) (x : X) : X * result error ToolResult :=
  match json_Unmarshal_struct (one_string "path") args "" with
  | Err e => (x, tool_error ("invalid args: " +:+ Error e))
  | Ok path =>
      let '(x, r) := on_ws (Ws_Delete path) x in
      (x, match r with
          | Err e => tool_error (Error e)
          | Ok _ => ok_output ("deleted " +:+ path)
          end)
  end.

(** *** fs.export *)

Definition randomHex (args : string) : result error string :=
  match tool_random args with
  | Err e => Err e
  | Ok b => Ok (fmt_x (string_of b))
  end.

(** The loop over the paths: the archive entries written so far, or the message of the
    failure. *)
Fixpoint export_paths (args : string) (tmp : temp_file) (paths : list string) (n : nat) (acc : list TarEntry) (x : X)
    : X * result string (list TarEntry) :=
  match paths with
  | [] => (x, Ok acc)
  | p :: paths' =>
      match tool_cancelled args n with
      | Some e => (x, Err ("export cancelled: " +:+ Error e))
      | None =>
          let '(x, r) := on_ws (Ws_Read p) x in
          match r with
          | Err e => (x, Err ("export failed: read " +:+ p +:+ ": " +:+ Error e))
          | Ok data =>
              let acc := acc ++ [mkTarEntry p TypeReg (Z.of_nat (length data)) 420 data None] in
              match targz_write acc with
              | Err e => (x, Err ("export failed: " +:+ Error e))
              | Ok _ =>
                  let '(x, r) := on_ws (Tmp_Write tmp (tool_flushed args n)) x in
                  match r with
                  | Err e => (x, Err ("export failed: " +:+ Error e))
                  | Ok _ => export_paths args tmp paths' (S n) acc x
                  end
              end
          end
      end
  end.

(** Closing the archive, naming and storing it.  The call that rewinds the file fails like a write, with the
    same message, so that its failure is a case of the write. *)
Definition export_store (exportPrefix args : string) (tmp : temp_file) (entries : list TarEntry) (x : X) : X * result error ToolResult :=
  match targz_write entries with
  | Err e => (x, tool_error ("export failed: " +:+ Error e))
  | Ok archive =>
      let '(x, r) := on_ws (Tmp_Write tmp archive) x in
      match r with
      | Err e => (x, tool_error ("export failed: " +:+ Error e))
      | Ok _ =>
          match randomHex args with
          | Err e => (x, tool_error ("failed to generate artifact id: " +:+ Error e))
          | Ok rnd =>
              let prefix := if String.eqb exportPrefix "" then "exports" else exportPrefix in
              let key := prefix +:+ "/artifact_" +:+ rnd +:+ ".tar.gz" in
              let '(a, r) := Art_Put key archive x.1 in
              ((a, x.2), match r with
                         | Err e => tool_error ("export failed: " +:+ Error e)
                         | Ok (sha, size) =>
                             ok_output ("{" +:+ quotes +:+ "s3_key" +:+ quotes +:+ ":" +:+ Quote key +:+ "," +:+ quotes +:+ "sha256" +:+ quotes
                               +:+ ":" +:+ Quote sha +:+ "," +:+ quotes +:+ "size" +:+ quotes +:+ ":" +:+ fmt_d size +:+ "}")
                         end)
          end
      end
  end.

Definition paths_field : list (field (S := list string)) :=
  [("paths", set_with (json_list json_string "" "[]string") (fun v _ => v))].

Definition fsExportTool_Execute (exportPrefix args : string) (x : X) : X * result error ToolResult :=
  match json_Unmarshal_struct paths_field args [] with
  | Err e => (x, tool_error ("invalid args: " +:+ Error e))
  | Ok [] => (x, tool_error "paths required")
  | Ok paths =>
      let '(x, r) := on_ws Tmp_Create x in
      match r with
      | Err e => (x, tool_error ("failed to create temp export file: " +:+ Error e))
      | Ok tmp =>
          let '(x, r) := export_paths args tmp paths 0 [] x in
          let '(x, res) := match r with
                           | Err msg => (x, tool_error msg)
                           | Ok entries => export_store exportPrefix args tmp entries x
                           end in
          ((x.1, Tmp_Discard tmp x.2), res)
      end
  end.

(** *** The tools *)

Definition fsWriteTool_Schema : string := json_text "{
		'type':'object',
		'properties':{
			'path':{'type':'string','description':'Workspace-relative file path'},
			'content':{'type':'string','description':'UTF-8 text content'},
			'content_base64':{'type':'string','description':'Base64-encoded binary content'}
		},
		'required':['path'],
		'additionalProperties':false
	}".
Definition fsWriteTool : Tool X := mkTool "fs.write" "Write a file to the workspace" fsWriteTool_Schema fsWriteTool_Execute.

Definition fsReadTool_Schema : string := json_text "{
		'type':'object',
		'properties':{
			'path':{'type':'string','description':'Workspace-relative file path'},
			'max_bytes':{'type':'integer','description':'Optional response byte cap for this read (defaults from AGENTFORGE_FS_READ_MAX_BYTES / 512KB)'}
		},
		'required':['path'],
		'additionalProperties':false
	}".
Definition fsReadTool (maxReadBytes : Z) : Tool X := mkTool "fs.read" "Read a file from the workspace" fsReadTool_Schema (fsReadTool_Execute maxReadBytes).

Definition fsListTool_Schema : string := json_text "{
		'type':'object',
		'properties':{
			'dir':{'type':'string','description':'Directory path, defaults to .'}
		},
		'additionalProperties':false
	}".
Definition fsListTool : Tool X := mkTool "fs.list" "List files in a workspace directory" fsListTool_Schema fsListTool_Execute.

Definition fsStatTool_Schema : string := json_text "{
		'type':'object',
		'properties':{
			'path':{'type':'string','description':'Workspace-relative file path'}
		},
		'required':['path'],
		'additionalProperties':false
	}".
Definition fsStatTool : Tool X := mkTool "fs.stat" "Get file metadata" fsStatTool_Schema fsStatTool_Execute.

Definition fsDeleteTool_Schema : string := json_text "{
		'type':'object',
		'properties':{
			'path':{'type':'string','description':'Workspace-relative file path'}
		},
		'required':['path'],
		'additionalProperties':false
	}".
Definition fsDeleteTool : Tool X := mkTool "fs.delete" "Delete a file from the workspace" fsDeleteTool_Schema fsDeleteTool_Execute.

Definition fsExportTool_Schema : string := json_text "{
		'type':'object',
		'properties':{
			'paths':{
				'type':'array',
				'items':{'type':'string'},
				'minItems':1,
				'description':'Workspace-relative file paths to include'
			}
		},
		'required':['paths'],
		'additionalProperties':false
	}".
Definition fsExportTool (exportPrefix : string) : Tool X := mkTool "fs.export" "Export workspace files as an artifact archive" fsExportTool_Schema (fsExportTool_Execute exportPrefix).

(** The tools of a workspace; the export tool only if there is an artifact store. *)
Definition NewFSToolsWithArtifactsPrefix (getenv : string) (artifacts : bool) (exportPrefix : string) : list (Tool X) :=
  [fsWriteTool; fsReadTool (fsReadMaxBytesFromEnv getenv); fsListTool; fsStatTool; fsDeleteTool]
  ++ (if artifacts then [fsExportTool (trim_byte slash exportPrefix)] else []).

Definition NewFSToolsWithArtifacts (getenv : string) (artifacts : bool) : list (Tool X) :=
  NewFSToolsWithArtifactsPrefix getenv artifacts "exports".

Definition NewFSTools (getenv : string) : list (Tool X) := NewFSToolsWithArtifacts getenv false.
End tools.

(** ** What a read shows *)

Lemma effective_limit_pos maxReadBytes max_bytes : 0 < effective_limit maxReadBytes max_bytes.
Proof.
  unfold effective_limit, defaultFSReadMaxBytes. cbn zeta. repeat case_if; bool_prop; lia.
Qed.

Lemma string_app_nil_r (s : string) : s +:+ "" = s.
Proof. apply bytes_of_inj. rewrite bytes_of_app. apply app_nil_r. Qed.

(** [fs.read] shows the first bytes of the file up to the limit of the call, as text or, if they are
    not printable, in base64, from which they can be recovered; a note follows exactly if the file was
    longer, and the limit is positive whatever the call and the environment ask for. *)
Theorem read_output maxReadBytes max_bytes content :
  let limit := effective_limit maxReadBytes max_bytes in
  let data := take (Z.to_nat limit) content in
  let shown := if isPrintable data then string_of data else base64_EncodeToString data in
  exists note, render limit content = shown +:+ note /\ (note = "" <-> Z.of_nat (length content) <= limit) /\
    Z.of_nat (length data) = Z.min limit (Z.of_nat (length content)) /\ 0 < limit /\
    (if isPrintable data then bytes_of shown = data else base64_DecodeString shown = Ok data).
Proof.
  cbn zeta. set (limit := effective_limit _ _). pose proof (effective_limit_pos maxReadBytes max_bytes) as Hpos. fold limit in Hpos.
  unfold render. cbn zeta.
  assert (Hdata : (if limit <? Z.of_nat (length content) then take (Z.to_nat limit) content else content) = take (Z.to_nat limit) content).
  { destruct (Z.ltb_spec limit (Z.of_nat (length content))); [done|]. rewrite take_ge; [done|lia]. }
  rewrite Hdata. set (data := take (Z.to_nat limit) content).
  assert (Hlen : Z.of_nat (length data) = Z.min limit (Z.of_nat (length content))) by (unfold data; rewrite length_take; lia).
  destruct (isPrintable data); eexists; (split; [reflexivity|]); (split; [|split; [done|split; [done|]]]);
    try (destruct (Z.ltb_spec limit (Z.of_nat (length content))); split; (done || lia)).
  - apply bytes_of_string_of.
  - apply base64_roundtrip.
Qed.

(** ** The tools on a local workspace *)

Section local_tools.
Context {A : Type} `{HA : ArtifactStore A} `{HE : HostEnv} `{HC : ArchiveCodec} `{HJ : JSONText} `{HU : Unicode} `{HT : ToolEnv}.
Abbreviation X := (A * LocalWs)%type.

(** A call of one of the first five tools is a sequence of workspace operations and gives a result. *)
Definition ws_ops (f : X -> X * result error ToolResult) : Prop := forall x,
  (exists ops, (f x).1.2 = fold_left run_op ops x.2) /\ exists res, (f x).2 = Ok res.

Lemma no_ops (x : X) r : (exists ops, ((x, Ok r) : X * result error ToolResult).1.2 = fold_left run_op ops x.2) /\ exists res, ((x, Ok r) : X * result error ToolResult).2 = Ok res.
Proof. split; [by exists []|by eexists]. Qed.

Lemma one_op op {B} (f : LocalWs -> LocalWs * result error B) (g : result error B -> result error ToolResult) (x : X) :
  (forall w, (f w).1 = run_op w op) -> (forall r, exists res, g r = Ok res) ->
  let y := let '(x, r) := on_ws f x in (x, g r) in
  (exists ops, y.1.2 = fold_left run_op ops x.2) /\ exists res, y.2 = Ok res.
Proof.
  intros Hf Hg. unfold on_ws. specialize (Hf x.2). destruct (f x.2) as [w r]. cbn in *. split; [by exists [op]|apply Hg].
Qed.

Lemma fsWriteTool_ops args : ws_ops (fsWriteTool_Execute args).
Proof.
  intros x. unfold fsWriteTool_Execute. destruct (json_Unmarshal_struct _ _ _) as [p|e]; [|apply no_ops].
  destruct (if String.eqb _ _ then _ else _) as [data|e]; [|apply no_ops].
  apply (one_op (WsWrite (WP_Path p) data)); [done|]. intros [|]; by eexists.
Qed.

Lemma fsReadTool_ops limit args : ws_ops (fsReadTool_Execute limit args).
Proof.
  intros x. unfold fsReadTool_Execute. destruct (json_Unmarshal_struct _ _ _) as [p|e]; [|apply no_ops].
  apply (one_op (WsRead (RP_Path p))); [done|]. intros [|]; by eexists.
Qed.

Lemma fsListTool_ops args : ws_ops (fsListTool_Execute args).
Proof.
  intros x. unfold fsListTool_Execute. destruct (json_Unmarshal_struct _ _ _) as [p|e]; [|apply no_ops].
  cbn zeta. eapply (one_op (WsList _)); [done|]. intros [|]; by eexists.
Qed.

Lemma fsStatTool_ops args : ws_ops (fsStatTool_Execute args).
Proof.
  intros x. unfold fsStatTool_Execute. destruct (json_Unmarshal_struct _ _ _) as [p|e]; [|apply no_ops].
  apply (one_op (WsStat p)); [done|]. intros [|]; by eexists.
Qed.

Lemma fsDeleteTool_ops args : ws_ops (fsDeleteTool_Execute args).
Proof.
  intros x. unfold fsDeleteTool_Execute. destruct (json_Unmarshal_struct _ _ _) as [p|e]; [|apply no_ops].
  apply (one_op (WsDelete p)); [done|]. intros [|]; by eexists.
Qed.

(** *** The temporary file *)

Definition export_name (n : Z) : string := temp_prefix +:+ fmt_d n +:+ temp_suffix_text.

Lemma export_name_plain n : plain (export_name n).
Proof.
  apply plain_long; [|unfold export_name; rewrite string_length_app; cbn; lia].
  apply no_slash_app; [apply (bool_decide_unpack _); vm_compute; done|]. apply no_slash_app; [apply no_slash_fmt_d|].
  apply (bool_decide_unpack _). vm_compute. done.
Qed.

(** The directory for temporary files is a real directory that does not lie in the workspace. *)
Definition temp_ok (rp tp : path) (fs : FS) : Prop :=
  os_TempDir = abs_path tp /\ Forall plain tp /\ fs_lookup fs tp = Some NDir /\ under rp tp = false.

Lemma create_temp_spec tp tries h h' r :
  Forall plain tp -> no_links (h_fs h) tp -> create_temp tries (abs_path (tp ++ [temp_prefix])) temp_suffix_text h = (h', r) ->
  match r with
  | Err _ => h_fs h' = h_fs h
  | Ok (name, p) => exists n, name = abs_path p /\ p = tp ++ [export_name n] /\ h_fs h !! p = None /\ good_name (export_name n) /\
      h_fs h' = <[p := NFile 384 []]> (h_fs h)
  end.
Proof.
  intros Hp. revert h. induction tries as [|tries IH]; intros h Hl; cbn [create_temp]; [by intros [= <- <-]|].
  rewrite abs_path_suffix. change (temp_prefix +:+ fmt_d ?n +:+ temp_suffix_text) with (export_name n).
  destruct (os_CreateExcl _ _ h) as [h1 r1] eqn:E1.
  apply os_CreateExcl_cases in E1; [|apply Forall_app; split; [done|]; constructor; [apply export_name_plain|done]|done].
  destruct r1 as [p|e].
  - intros [= <- <-]. destruct E1 as (-> & Hnone & Hg & Hfs). by eexists.
  - case_if; [|by intros [= <- <-]]. intros E. apply IH in E; [|by rewrite E1]. by rewrite E1 in E.
Qed.

(** The world with the temporary file [q] of some content, and otherwise as [w0]. *)
Definition with_temp (q : path) (w0 w : LocalWs) : Prop :=
  lw_m w = lw_m w0 /\ exists data, lw_fs w = <[q := NFile 384 data]> (lw_fs w0).

Section export.
Context (rp tp : path) (Hrp : rp <> []) (Hplain : Forall plain rp) (Hf : faults_ok).

(** The root stays a directory of a well-formed tree. *)
Lemma temp_ws_ok w n data : temp_ok rp tp (lw_fs w) -> ws_ok rp w -> good_name (export_name n) -> lw_fs w !! (tp ++ [export_name n]) = None ->
  root_ok rp (<[tp ++ [export_name n] := NFile 384 data]> (lw_fs w)).
Proof.
  intros Ht [_ [Hwf Hd]] Hg Hn. split.
  - apply fs_wf_insert; [done|apply Ht|done|]. right. by rewrite Hn.
  - destruct rp as [|y r]; [done|]. cbn in *. rewrite lookup_insert_ne; [done|]. intros E. rewrite E in Hn. congruence.
Qed.

Lemma read_same name w : ws_ok rp w -> lw_fs (Read name w).1 = lw_fs w /\ lw_m (Read name w).1 = lw_m w.
Proof.
  intros Hok. destruct (Read name w) as [w' r] eqn:E. cbn.
  apply (with_path_spec rp Hrp Hplain) in E as [(e & _ & Hfs & Hm)|(q & w1 & _ & _ & Hfs1 & Hm1 & E)]; [done| |done..].
  rewrite ST_bind_run, io_run in E. cbn in E. injection E as <- _. cbn. split; [|exact Hm1].
  unfold lw_fs in *. cbn. by rewrite os_ReadFile_fs.
Qed.

Lemma temp_write q w0 w f data : lw_fs w0 !! q = None -> tf_path f = q -> with_temp q w0 w -> with_temp q w0 (Tmp_Write f data w).1.
Proof.
  intros Hq Hp [Hm [d Hfs]]. cbn. destruct (os_Write (tf_name f) (tf_path f) data (lw_host w)) as [h r] eqn:E. cbn.
  rewrite Hp in E. eapply os_Write_spec in E as (written & E & _).
  - split; [done|]. exists written. unfold lw_fs in *. cbn. by rewrite E, Hfs, insert_insert_eq.
  - change (h_fs (lw_host w)) with (lw_fs w). rewrite Hfs. apply lookup_insert_eq.
Qed.

Context (n : Z) (Hg : good_name (export_name n)) (w0 : LocalWs) (Hok : ws_ok rp w0) (Ht : temp_ok rp tp (lw_fs w0)).
Context (Hfresh : lw_fs w0 !! (tp ++ [export_name n]) = None).
Abbreviation q := (tp ++ [export_name n]).

Lemma with_temp_ok w : with_temp q w0 w -> ws_ok rp w.
Proof.
  intros [Hm [data Hfs]]. split; [unfold lw_root; rewrite Hm; apply Hok|]. rewrite Hfs. by apply temp_ws_ok.
Qed.

Lemma export_paths_temp args f paths i acc (x : X) :
  tf_path f = q -> with_temp q w0 x.2 -> with_temp q w0 (export_paths args f paths i acc x).1.2.
Proof.
  intros Hp. revert i acc x. induction paths as [|p paths IH]; intros i acc x Hw; [done|]. cbn [export_paths].
  destruct (tool_cancelled args i); [done|]. unfold on_ws. pose proof (read_same p x.2 (with_temp_ok _ Hw)) as [Hfs Hm].
  change (Ws_Read p x.2) with (Read p x.2). destruct (Read p x.2) as [w1 r]. cbn [fst snd] in *.
  assert (Hw1 : with_temp q w0 w1) by (destruct Hw as [Hm0 [d Hd]]; split; [congruence|]; exists d; congruence).
  destruct r as [data|e]; [|done]. cbn zeta. destruct (targz_write _); [|done].
  pose proof (temp_write q w0 w1 f (tool_flushed args i) Hfresh Hp Hw1) as Hw2.
  destruct (Tmp_Write f (tool_flushed args i) w1) as [w2 [u|e]]; cbn [fst snd] in *; [by apply IH|done].
Qed.

Lemma export_store_temp prefix args f entries (x : X) :
  tf_path f = q -> with_temp q w0 x.2 ->
  with_temp q w0 (export_store prefix args f entries x).1.2 /\ exists res, (export_store prefix args f entries x).2 = Ok res.
Proof.
  intros Hp Hw. unfold export_store. destruct (targz_write entries) as [archive|]; [|split; [done|by eexists]]. unfold on_ws.
  pose proof (temp_write q w0 x.2 f archive Hfresh Hp Hw) as Hw1. destruct (Tmp_Write f archive x.2) as [w1 [u|e]]; cbn [fst snd] in *;
    [|split; [done|by eexists]].
  destruct (randomHex args); [|split; [done|by eexists]]. cbn zeta. cbn [fst snd].
  destruct (Art_Put _ _ _) as [a1 [[sha size]|e]]; (split; [done|by eexists]).
Qed.

(** Discarding the file brings the old tree back, or the removal failed and the file is left. *)
Lemma discard_spec f w : tf_name f = abs_path q -> with_temp q w0 w ->
  let w' := Tmp_Discard f w in
  lw_m w' = lw_m w0 /\ (lw_fs w' = lw_fs w0 \/ exists data, lw_fs w' = <[q := NFile 384 data]> (lw_fs w0)) /\
  (no_faults -> lw_fs w' = lw_fs w0).
Proof.
  intros Hn [Hm [data Hfs]]. cbn. rewrite Hn. destruct (os_Close _ _) as [h1 r1] eqn:E1. apply query_pair in E1. cbn.
  destruct (os_Remove _ h1) as [h2 r2] eqn:E2.
  change (h_fs (lw_host w)) with (lw_fs w) in E1.
  assert (Hwf : fs_wf (h_fs h1)) by (rewrite E1, Hfs; by apply temp_ws_ok).
  assert (Hx : h_fs h1 !! q = Some (NFile 384 data)) by (rewrite E1, Hfs; apply lookup_insert_eq).
  assert (Hback : delete q (h_fs h1) = lw_fs w0) by (rewrite E1, Hfs; by rewrite delete_insert_id).
  eapply os_Remove_file in E2 as [Ho Hno]; [| | |exact Hx].
  - cbn. split; [done|]. unfold lw_fs at 1 3 5. cbn. rewrite Hback in *. split; [|done].
    destruct Ho as [->| ->]; [by left|right]. exists data. by rewrite E1, Hfs.
  - apply (fs_wf_good (h_fs h1)); [done|]. rewrite fs_lookup_snoc, Hx. by eexists.
  - apply fs_wf_real; [done|]. by destruct (Hwf _ _ _ Hx).
Qed.
End export.

(** What a call leaves outside the root: nothing, or the temporary file of an export whose removal failed. *)
Definition left_temp (tp q : path) : Prop := exists n, q = tp ++ [export_name n].

Definition outside_kept (rp tp : path) (fs fs' : FS) : Prop := forall q, under rp q = false ->
  fs' !! q = fs !! q \/ (left_temp tp q /\ fs !! q = None /\ exists data, fs' !! q = Some (NFile 384 data)).

Record call_keeps (rp tp : path) (w w' : LocalWs) : Prop := {
  ck_ok : ws_ok rp w';
  ck_outside : outside_kept rp tp (lw_fs w) (lw_fs w');
  ck_exact : no_faults -> forall q, under rp q = false -> lw_fs w' !! q = lw_fs w !! q;
  ck_quota : no_faults -> sizes_ok -> exact rp w -> within w -> exact rp w' /\ within w' }.

Lemma ops_call_keeps rp tp ops w : rp <> [] -> Forall plain rp -> faults_ok -> ws_ok rp w ->
  call_keeps rp tp w (fold_left run_op ops w).
Proof.
  intros Hrp Hplain Hf Hok. destruct (run_ops_keeps rp Hrp Hplain ops w Hf Hok) as (Hc & Hok' & Hx).
  assert (Hout : forall q, under rp q = false -> lw_fs (fold_left run_op ops w) !! q = lw_fs w !! q).
  { intros q Hq. destruct (Hc q) as [(r & _ & ->)|Heq]; [|done]. by rewrite (proj2 (under_spec _ _)) in Hq by (by exists r). }
  split; [done|intros q Hq; left; by apply Hout|by intros _|done].
Qed.

Lemma same_call_keeps rp tp w w' : ws_ok rp w -> lw_m w' = lw_m w -> lw_fs w' = lw_fs w -> call_keeps rp tp w w'.
Proof.
  intros [Hr Hok] Hm Hfs. split; unfold ws_ok, outside_kept, exact, within, lw_root in *; rewrite ?Hm, ?Hfs; auto.
Qed.

(** The temporary file that an export creates. *)
Lemma created_temp rp tp w w1 r :
  ws_ok rp w -> temp_ok rp tp (lw_fs w) -> Tmp_Create w = (w1, r) ->
  match r with
  | Err _ => lw_m w1 = lw_m w /\ lw_fs w1 = lw_fs w
  | Ok f => exists n, good_name (export_name n) /\ lw_fs w !! (tp ++ [export_name n]) = None /\
      tf_name f = abs_path (tp ++ [export_name n]) /\ tf_path f = tp ++ [export_name n] /\ with_temp (tp ++ [export_name n]) w w1
  end.
Proof.
  intros Hok (Htd & Htp & Htdir & Hu) E1. cbn in E1. destruct (os_CreateTemp _ _ _ _) as [h r0] eqn:Ec. unfold os_CreateTemp in Ec.
  rewrite Htd, (abs_path_entry tp "x") in Ec by (apply Forall_app; split; [done|]; constructor; [|done]; by apply (bool_decide_unpack _)).
  apply create_temp_spec in Ec; [|done|].
  2:{ intros a b t Hab. pose proof (fs_wf_real _ _ (proj1 (proj2 Hok)) Htdir a b Hab) as Ha. unfold lw_fs in Ha. by rewrite Ha. }
  injection E1 as <- <-. destruct r0 as [[name q]|e]; [|done].
  destruct Ec as (n & -> & -> & Hnone & Hg & Hfs1). exists n. split_and!; try done. split; [done|]. by exists [].
Qed.

Lemma export_call_keeps rp tp prefix args (x : X) :
  rp <> [] -> Forall plain rp -> faults_ok -> ws_ok rp x.2 -> temp_ok rp tp (lw_fs x.2) ->
  call_keeps rp tp x.2 (fsExportTool_Execute prefix args x).1.2 /\ exists res, (fsExportTool_Execute prefix args x).2 = Ok res.
Proof.
  intros Hrp Hplain Hf Hok Ht. unfold fsExportTool_Execute.
  destruct (json_Unmarshal_struct _ _ _) as [[|p ps]|e]; [split; [by apply same_call_keeps|by eexists]| |split; [by apply same_call_keeps|by eexists]].
  unfold on_ws. destruct (Tmp_Create x.2) as [w1 r1] eqn:E1. apply (created_temp rp tp) in E1; [|done|done].
  destruct r1 as [f|e]; cbn [fst snd]; [|destruct E1; split; [by apply same_call_keeps|by eexists]].
  destruct E1 as (n & Hg & Hnone & Hn & Hp & Hw1). set (x1 := (x.1, w1)). change w1 with x1.2 in Hw1.
  pose proof (export_paths_temp rp tp Hrp Hplain Hf n Hg x.2 Hok Ht Hnone args f (p :: ps) 0 [] x1 Hp Hw1) as Hw2.
  destruct (export_paths args f (p :: ps) 0 [] x1) as [x2 r2]. cbn [fst snd] in Hw2.
  assert (exists x3 res, (match r2 with Err msg => (x2, tool_error msg) | Ok entries => export_store prefix args f entries x2 end) = (x3, Ok res) /\
    with_temp (tp ++ [export_name n]) x.2 x3.2) as (x3 & res & -> & Hw3).
  { destruct r2 as [entries|msg]; [|by eexists _, _].
    destruct (export_store_temp tp n x.2 Hnone prefix args f entries x2 Hp Hw2) as [H1 [res H2]].
    destruct (export_store prefix args f entries x2) as [x3 r3]. cbn in *. subst r3. by eexists _, _. }
  split; [|by eexists]. cbn [fst snd].
  destruct (discard_spec rp tp Hrp Hplain n Hg x.2 Hok Ht Hnone f x3.2 Hn Hw3) as (Hm & Ho & Hno).
  destruct Ho as [Hsame|[data Hleft]]; [by apply same_call_keeps|]. split.
  - split; [unfold lw_root; rewrite Hm; apply Hok|]. rewrite Hleft. by apply (temp_ws_ok rp tp).
  - intros q' Hq'. rewrite Hleft. destruct (decide (q' = tp ++ [export_name n])) as [->|Hne].
    + right. split; [by exists n|]. split; [done|]. exists data. by rewrite lookup_insert_eq.
    + left. by rewrite lookup_insert_ne.
  - intros Hnf q' _. by rewrite Hno.
  - intros Hnf _. unfold exact, within. by rewrite Hno, Hm.
Qed.

(** A sequence of calls of the tools, by name and arguments; unknown names are not called. *)
Definition call_tool (tools : list (Tool X)) (x : X) (c : string * string) : X :=
  match List.find (fun t => String.eqb (Tool_Name t) c.1) tools with
  | Some t => (Tool_Execute t c.2 x).1
  | None => x
  end.

Lemma fs_call_keeps rp tp getenv artifacts prefix (t : Tool X) args (x : X) :
  rp <> [] -> Forall plain rp -> faults_ok -> ws_ok rp x.2 -> temp_ok rp tp (lw_fs x.2) ->
  t ∈ NewFSToolsWithArtifactsPrefix getenv artifacts prefix ->
  call_keeps rp tp x.2 (Tool_Execute t args x).1.2 /\ exists res, (Tool_Execute t args x).2 = Ok res.
Proof.
  intros Hrp Hplain Hf Hok Ht. unfold NewFSToolsWithArtifactsPrefix. rewrite elem_of_app, !elem_of_cons. intros [H|H].
  - assert (Hops : ws_ops (Tool_Execute t args)).
    { destruct H as [->|[->|[->|[->|[->|H]]]]]; [apply fsWriteTool_ops|apply fsReadTool_ops|apply fsListTool_ops|apply fsStatTool_ops|apply fsDeleteTool_ops|].
      by apply not_elem_of_nil in H. }
    destruct (Hops x) as [[ops ->] Hres]. split; [by apply ops_call_keeps|done].
  - destruct artifacts; [|by apply not_elem_of_nil in H]. apply list_elem_of_singleton in H as ->. by apply export_call_keeps.
Qed.

Lemma outside_trans rp tp fs1 fs2 fs3 : outside_kept rp tp fs1 fs2 -> outside_kept rp tp fs2 fs3 -> outside_kept rp tp fs1 fs3.
Proof.
  intros H1 H2 q Hq. destruct (H1 q Hq) as [E1|(L1 & N1 & d1 & D1)], (H2 q Hq) as [E2|(L2 & N2 & d2 & D2)].
  - left. congruence.
  - right. split; [done|]. split; [congruence|by exists d2].
  - right. split; [done|]. split; [done|]. exists d1. congruence.
  - congruence.
Qed.

Lemma temp_ok_kept rp tp fs fs' : temp_ok rp tp fs -> outside_kept rp tp fs fs' -> temp_ok rp tp fs'.
Proof.
  intros (H1 & H2 & H3 & H4) Ho. split_and!; try done. destruct tp as [|y tp]; [done|]. cbn in *.
  destruct (Ho (y :: tp) H4) as [->|(_ & Hn & _)]; [done|congruence].
Qed.

Lemma calls_keep rp tp getenv artifacts prefix calls : rp <> [] -> Forall plain rp -> faults_ok -> forall x : X,
  ws_ok rp x.2 -> temp_ok rp tp (lw_fs x.2) ->
  call_keeps rp tp x.2 (fold_left (call_tool (NewFSToolsWithArtifactsPrefix getenv artifacts prefix)) calls x).2.
Proof.
  intros Hrp Hplain Hf. induction calls as [|c calls IH]; intros x Hok Ht; [by apply same_call_keeps|]. cbn [fold_left].
  set (x1 := call_tool _ x c).
  assert (H1 : call_keeps rp tp x.2 x1.2).
  { unfold x1, call_tool. destruct (List.find _ _) as [t|] eqn:E; [|by apply same_call_keeps]. apply List.find_some in E as [Hin _].
    apply list_elem_of_In in Hin. by apply (fs_call_keeps rp tp getenv artifacts prefix t c.2 x). }
  destruct H1 as [Hok1 Ho1 He1 Hq1]. destruct (IH x1 Hok1 (temp_ok_kept _ _ _ _ Ht Ho1)) as [Hok2 Ho2 He2 Hq2]. split; [done| | |].
  - by eapply outside_trans.
  - intros Hn q Hq. by rewrite He2, He1.
  - intros Hn Hs Hex Hwi. destruct (Hq1 Hn Hs Hex Hwi). auto.
Qed.

(** C39: Whatever a model asks the file tools to do, with any arguments and in any order, it changes nothing outside
    the workspace root, except that an export can leave its temporary archive, a new file in the directory for
    temporary files, if the system call that removes it fails.  While system calls succeed nothing at all changes
    outside the root, and the workspace stays within its quotas with exact totals.  Every call gives the model a
    result rather than failing the step.  The directory for temporary files is a real one outside the workspace. *)
Theorem tools_confined rp tp getenv artifacts prefix calls (x : X) :
  rp <> [] -> Forall plain rp -> faults_ok -> ws_ok rp x.2 -> temp_ok rp tp (lw_fs x.2) ->
  let tools := NewFSToolsWithArtifactsPrefix getenv artifacts prefix in
  let w := (fold_left (call_tool tools) calls x).2 in
  (forall q, under rp q = false -> lw_fs w !! q = lw_fs x.2 !! q \/
     (lw_fs x.2 !! q = None /\ exists n data, q = tp ++ ["agentforge-export-" +:+ fmt_d n +:+ ".tar.gz"] /\
        lw_fs w !! q = Some (NFile 384 data))) /\
  (no_faults -> forall q, under rp q = false -> lw_fs w !! q = lw_fs x.2 !! q) /\
  (no_faults -> sizes_ok -> exact rp x.2 -> within x.2 ->
   tree_bytes rp (lw_fs w) <= MaxTotalBytes (lm_cfg (lw_m w)) /\ tree_files rp (lw_fs w) <= MaxFileCount (lm_cfg (lw_m w))) /\
  (forall t args, t ∈ tools -> exists res, (Tool_Execute t args (fold_left (call_tool tools) calls x)).2 = Ok res).
Proof.
  intros Hrp Hplain Hf Hok Ht. cbn zeta. destruct (calls_keep rp tp getenv artifacts prefix calls Hrp Hplain Hf x Hok Ht) as [Hok' Ho He Hq].
  split_and!; [|exact He| |].
  - intros q Hu. destruct (Ho q Hu) as [?|([n ->] & Hn & d & Hd)]; [by left|right]. split; [done|]. by exists n, d.
  - intros Hn Hs Hex Hwi. destruct (Hq Hn Hs Hex Hwi) as [Hex' [Hw1 Hw2]]. unfold exact in Hex'. by rewrite Hex' in Hw1, Hw2.
  - intros t args Hin. by apply (fs_call_keeps rp tp getenv artifacts prefix t args _ Hrp Hplain Hf Hok' (temp_ok_kept _ _ _ _ Ht Ho) Hin).
Qed.
End local_tools.

(** ** Exports *)

Section exports.
Context {A : Type} `{HA : ArtifactStore A} `{HE : HostEnv} `{HC : ArchiveCodec} `{HJ : JSONText} `{HU : Unicode} `{HT : ToolEnv}.
Context (rp tp : path).
Hypothesis Hrp : rp <> [].
Hypothesis Hplain : Forall plain rp.
Hypothesis Hf : faults_ok.

(** An entry of an export: the file that was asked for, as it is in the workspace. *)
Definition exported (w : LocalWs) (p : string) (e : TarEntry) : Prop :=
  te_name e = p /\ te_type e = TypeReg /\ te_size e = Z.of_nat (length (te_body e)) /\
  exists q mode, q <> [] /\ lw_fs w !! (rp ++ q) = Some (NFile mode (te_body e)).

Section running.
Context (n : Z) (Hg : good_name (export_name n)) (w0 : LocalWs) (Hok : ws_ok rp w0) (Ht : temp_ok rp tp (lw_fs w0)).
Context (Hfresh : lw_fs w0 !! (tp ++ [export_name n]) = None).

(** The temporary file does not lie in the workspace. *)
Lemma temp_outside r : tp ++ [export_name n] <> rp ++ r.
Proof.
  intros E. destruct Ht as (_ & _ & _ & Hu), Hok as [_ [_ Hd]]. destruct r as [|y r _] using rev_ind.
  - rewrite app_nil_r in E. rewrite E in Hfresh. destruct rp as [|z l]; [done|]. cbn in Hd. congruence.
  - rewrite app_assoc in E. apply app_inj_tail in E as [E _]. by rewrite (proj2 (under_spec rp tp)) in Hu by (by exists r).
Qed.

Lemma export_paths_ok args f paths i acc (a : A) w x' entries :
  tf_path f = tp ++ [export_name n] -> with_temp (tp ++ [export_name n]) w0 w ->
  export_paths args f paths i acc (a, w) = (x', Ok entries) ->
  exists l w', x' = (a, w') /\ with_temp (tp ++ [export_name n]) w0 w' /\ entries = acc ++ l /\ Forall2 (exported w0) paths l.
Proof.
  intros Hp. revert i acc w. induction paths as [|p paths IH]; intros i acc w Hw; cbn [export_paths].
  { intros [= <- <-]. exists [], w. do 2 (split; [done|]). by rewrite app_nil_r. }
  destruct (tool_cancelled args i); [done|]. unfold on_ws. cbn [fst snd]. change (Ws_Read p w) with (Read p w).
  destruct (Read p w) as [w1 r] eqn:E. destruct r as [data|e]; [|done]. cbn zeta. destruct (targz_write _); [|done].
  apply (Read_below rp Hrp Hplain) in E as (Hfs & Hm & q & mode & Hq & _ & Hfile); [|done|by apply (with_temp_ok rp tp Hrp Hplain n Hg w0)].
  assert (Hw1 : with_temp (tp ++ [export_name n]) w0 w1)
    by (destruct Hw as [Hm0 [d Hd]]; split; [congruence|]; exists d; congruence).
  pose proof (temp_write _ w0 w1 f (tool_flushed args i) Hfresh Hp Hw1) as Hw2. cbn [fst snd].
  destruct (Tmp_Write f (tool_flushed args i) w1) as [w2 [u|e]]; cbn [fst snd] in Hw2; [|by intros [= _ ?]]. intros E2.
  apply IH in E2 as (l & w' & -> & Hw' & -> & Hl); [|done].
  eexists (_ :: l), w'. split; [done|]. split; [done|]. split; [by rewrite <- app_assoc|]. constructor; [|done].
  split_and!; try done. exists q, mode. split; [done|]. destruct Hw as [_ [d Hd]]. rewrite Hd in Hfile.
  by rewrite lookup_insert_ne in Hfile by apply temp_outside.
Qed.
End running.

Lemma export_paths_msg args f paths i acc (x x' : A * LocalWs) : export_paths args f paths i acc x <> (x', Err "").
Proof.
  revert i acc x. induction paths as [|p paths IH]; intros i acc x; [done|]. cbn [export_paths].
  destruct (tool_cancelled args i); [done|]. destruct (on_ws (Ws_Read p) x) as [x1 [data|e]]; [|done]. cbn zeta.
  destruct (targz_write _); [|done]. destruct (on_ws (Tmp_Write f _) x1) as [x2 [u|e]]; [apply IH|done].
Qed.

(** A successful [fs.export] stores one new archive under the prefix of the run, which reads back as
    exactly the files that were asked for, in order, with the contents they have in the workspace; the
    files of the workspace and the other artifacts are unchanged. *)
Theorem export_archive `{HAL : !ArtifactStoreLaws A} prefix args (a : A) w x' out paths :
  codec_ok -> ws_ok rp w -> temp_ok rp tp (lw_fs w) -> json_Unmarshal_struct paths_field args [] = Ok paths ->
  fsExportTool_Execute prefix args (a, w) = (x', Ok (mkToolResult out "")) ->
  (forall r, lw_fs x'.2 !! (rp ++ r) = lw_fs w !! (rp ++ r)) /\
  exists rnd archive entries,
    let key := (if String.eqb prefix "" then "exports" else prefix) +:+ "/artifact_" +:+ rnd +:+ ".tar.gz" in
    targz_read archive = Ok (entries, None) /\ Forall2 (exported w) paths entries /\
    forall k, Art_Get k x'.1 = if decide (k = key) then Ok archive else Art_Get k a.
Proof.
  intros Hcodec Hok Ht Hargs. unfold fsExportTool_Execute. rewrite Hargs. destruct paths as [|p ps]; [done|]. unfold on_ws.
  cbn [fst snd]. destruct (Tmp_Create w) as [w1 r1] eqn:E1. apply (created_temp rp tp) in E1; [|done|done].
  destruct r1 as [f|e]; [|by intros [= _ _ ?]]. destruct E1 as (n & Hg & Hnone & Hn & Hp & Hw1).
  destruct (export_paths args f (p :: ps) 0 [] (a, w1)) as [x2 r2] eqn:E2. destruct r2 as [entries|msg].
  2:{ intros [= <- _ ->]. by apply export_paths_msg in E2. }
  eapply export_paths_ok in E2 as (l & w2 & -> & Hw2 & -> & Hl); [|done..].
  unfold export_store. destruct (targz_write ([] ++ l)) as [archive|e] eqn:Ew; [|by intros [= _ _ ?]]. unfold on_ws. cbn [fst snd].
  pose proof (temp_write _ w w2 f archive Hnone Hp Hw2) as Hw3.
  destruct (Tmp_Write f archive w2) as [w3 [u|e]]; cbn [fst snd] in *; [|by intros [= _ _ ?]].
  destruct (randomHex args) as [rnd|e]; [|by intros [= _ _ ?]]. cbn zeta. cbn [fst snd].
  destruct (Art_Put _ archive a) as [a1 [[sha size]|e]] eqn:Ep; [|by intros [= _ _ ?]]. intros [= <- _]. cbn [fst snd]. split.
  - intros r. destruct (discard_spec rp tp Hrp Hplain n Hg w Hok Ht Hnone f w3 Hn Hw3) as (_ & Ho & _).
    cbn zeta in Ho. change (lw_fs (Tmp_Discard f w3) !! (rp ++ r) = lw_fs w !! (rp ++ r)).
    destruct Ho as [Ho|[d Ho]]; rewrite Ho; [done|]. by rewrite lookup_insert_ne by (by eapply temp_outside).
  - exists rnd, archive, l. cbn zeta. destruct (Hcodec _ _ Ew) as [Hread _]. split; [done|]. split; [done|].
    apply law_put in Ep as (_ & _ & Hget). exact Hget.
Qed.
End exports.

(** ** Concrete calls *)

Module tools_demo.
Import ws_demo.
#[local] Existing Instance demo_env.
#[local] Existing Instance ascii_unicode.

#[local] Instance demo_json : JSONText :=
  {| json_type_error := fun _ t => errors_New ("json: cannot unmarshal value into Go value of type " +:+ t) |}.

#[local] Instance demo_tool_env : ToolEnv := {|
  os_TempDir := "/tmp";
  tool_cancelled := fun _ _ => None;
  tool_flushed := fun _ _ => [];
  tool_random := fun _ => Ok (bytes_of "12345678") |}.

(** An archive format for the single file [f]. *)
#[local] Instance f_codec : ArchiveCodec := {|
  targz_write := fun l => match l with
    | [mkTarEntry name TypeReg size mode body None] =>
        if String.eqb name "f" && (size =? Z.of_nat (length body)) && (mode =? 420) then Ok body else Err (errors_New "unsupported")
    | _ => Err (errors_New "unsupported")
    end;
  targz_read := fun data => Ok ([mkTarEntry "f" TypeReg (Z.of_nat (length data)) 420 data None], None);
  targz_consumed := fun data _ => Z.of_nat (length data) |}.

Lemma f_codec_ok : codec_ok.
Proof.
  intros l data. cbn. destruct l as [|[name ty size mode body err] [|? ?]]; [done| |by destruct ty, err].
  destruct ty, err; try done. destruct (String.eqb_spec name "f"); [|done]. destruct (Z.eqb_spec size (Z.of_nat (length body))); [|done].
  destruct (Z.eqb_spec mode 420); [|done]. intros [= <-]. by subst.
Qed.

Definition demo_x : MemoryArtifactStore * LocalWs := (mkMemoryArtifactStore ∅, demo_ws).
Definition demo_tools : list (Tool (MemoryArtifactStore * LocalWs)) := NewFSToolsWithArtifactsPrefix " 4096 " true "/exports/t1/".
Definition demo_calls : list (string * string) := [("fs.write", (json_sample "{`path`: `d/e`, `content_base64`: `AP8=`}")); ("fs.write", (json_sample "{`PATH`: `link/x`, `content`: `x`}")); ("fs.rm", "d")].

(** Binary content is written from base64 and shown in base64; a path through a link is refused. *)
Example binary_file_shown :
  (fsReadTool_Execute 4096 (json_sample "{`path`: `d/e`, `max_bytes`: 10}") (fold_left (call_tool demo_tools) demo_calls demo_x)).2 = Ok (mkToolResult "AP8=" "") /\
  (fsWriteTool_Execute (json_sample "{`PATH`: `link/x`, `content`: `x`}") demo_x).2 = Ok (mkToolResult "" "workspace: path traversal detected").
Proof. vm_compute. done. Qed.

Lemma demo_temp_ok : temp_ok demo_rp ["tmp"] (lw_fs demo_ws).
Proof. split_and!; [reflexivity| |reflexivity|reflexivity]. repeat constructor; try (apply (bool_decide_unpack _); vm_compute; done); done. Qed.

Lemma tools_confined_witness :
  let w := (fold_left (call_tool demo_tools) (demo_calls ++ [("fs.export", json_sample "{`paths`: [`f`]}")]) demo_x).2 in
  lw_fs w !! ["etc"] = Some NDir /\ tree_bytes demo_rp (lw_fs w) <= 100.
Proof.
  cbn zeta.
  destruct (tools_confined demo_rp ["tmp"] " 4096 " true "/exports/t1/" (demo_calls ++ [("fs.export", json_sample "{`paths`: [`f`]}")]) demo_x
              ltac:(done) demo_plain (no_faults_ok demo_no_faults) demo_ok demo_temp_ok) as (_ & H1 & H2 & _).
  split; [rewrite H1; [reflexivity|apply demo_no_faults|reflexivity]|].
  apply H2; [apply demo_no_faults|intros p; cbn; lia|vm_compute; reflexivity|vm_compute; split; done].
Defined.

Lemma export_archive_witness :
  exists out x', fsExportTool_Execute "exports/t1" (json_sample "{`paths`: [`f`]}") demo_x = (x', Ok (mkToolResult out "")) /\
    lw_fs x'.2 !! (demo_rp ++ ["f"]) = Some (NFile 384 ["o"%char; "k"%char]).
Proof.
  eexists _, _. split; [vm_compute; reflexivity|].
  refine (proj1 (export_archive demo_rp ["tmp"] ltac:(done) demo_plain (no_faults_ok demo_no_faults) "exports/t1" (json_sample "{`paths`: [`f`]}") (mkMemoryArtifactStore ∅) demo_ws
           _ _ ["f"] f_codec_ok demo_ok demo_temp_ok eq_refl _) ["f"]). vm_compute. reflexivity.
Defined.

(** When the removal fails, the archive with the exported files stays in the directory for temporary files; the
    call reports success. *)
Definition unremovable : HostEnv := demo_fault (Some 7%nat).

Example export_left_behind :
  let '(x, r) := @fsExportTool_Execute _ _ _ (@LocalWs_Files unremovable) _ _ _ _ (@LocalWs_Temp unremovable _)
                   "exports/t1" (json_sample "{`paths`: [`f`]}") demo_x in
  lw_fs x.2 !! ["tmp"; "agentforge-export-0.tar.gz"] = Some (NFile 384 ["o"%char; "k"%char]) /\
  match r with Ok res => ToolResult_Error res = "" | Err _ => False end.
Proof. vm_compute. done. Qed.
End tools_demo.
