(* ===== verification/API.v ===== *)
(** * API: the HTTP interface (src/pkg/api)

    Requests, the authentication middleware, the handlers of the task API and of the WebSocket
    registrations, the routes and the request counters.  A handler is a computation on the
    state of the process: the world of the task service, the pusher and the counters.  A
    response carries the Go value that [writeJSON] encodes.  Parameters: the Unicode tables and
    the wording of decoding errors.  Tracing and the log lines are left out. *)

From Stdlib Require Import Ascii.
From S2P Require Import Prelude GoLib Model StateStore MemoryStore Tenant MemoryQueue World TaskService JSON Strconv Encoding FileSystem Engine.

(** ** Requests and responses *)

Record Request : Type := mkRequest {
  Request_Method : string;
  Request_Path : string;                              (* URL.Path *)
  Request_Header : string -> string;                  (* Header.Get *)
  Request_Query : string -> string;                   (* URL.Query().Get *)
  Request_Body : string }.

(** The value of a response body. *)
Inductive Payload : Type :=
| PText (text : string)                               (* http.Error *)
| PStrings (members : list (string * string))         (* map[string]string *)
| PCreated (r : CreateResponse)
| PResumed (r : ResumeResponse)
| PTask (t : Task)
| PRun (r : Run)
| PSteps (l : list Step)
| PEvents (l : list StreamEvent)
| PRemoved (n : Z)
| PSnapshot (s : RuntimeSnapshot)
| PAlerts (l : list Alert)
| PConnected (replayed : Z).

Record Reply : Type := mkReply { Reply_Status : Z; Reply_Body : Payload }.

(** A reply with the header X-Request-Id; a redirect has its target as text. *)
Record Response : Type := mkResponse { Response_RequestID : string; Response_Reply : Reply }.

Definition writeJSON (code : Z) (data : Payload) : Reply := mkReply code data.

Definition error_reply (code : Z) (msg : string) : Reply := writeJSON code (PStrings [("error", msg)]).

Definition writeInternalError (requestID : string) : Reply :=
  writeJSON 500 (PStrings [("error", "internal server error"); ("request_id", requestID)]).

(** ** Request counters (metrics.go) *)

Record requestMetrics : Type := mkRequestMetrics {
  requestsTotal : Z; latencyMSTotal : Z;
  status1xx : Z; status2xx : Z; status3xx : Z; status4xx : Z; status5xx : Z; errors5xxTotal : Z }.

#[global] Instance requestMetrics_eta : Eta requestMetrics := fun m => mkRequestMetrics
  (requestsTotal m) (latencyMSTotal m) (status1xx m) (status2xx m) (status3xx m) (status4xx m) (status5xx m) (errors5xxTotal m).

Definition observeRequestMetrics (status latencyMS : Z) (m : requestMetrics) : requestMetrics :=
  let inc z := add64 z 1 in
  let m := m <| requestsTotal ::= inc |> <| latencyMSTotal ::= (fun z => add64 z latencyMS) |> in
  if 500 <=? status then m <| status5xx ::= inc |> <| errors5xxTotal ::= inc |>
  else if 400 <=? status then m <| status4xx ::= inc |>
  else if 300 <=? status then m <| status3xx ::= inc |>
  else if 200 <=? status then m <| status2xx ::= inc |>
  else m <| status1xx ::= inc |>.

(** ** Decoding *)

(** [strconv.Atoi] and [strconv.ParseInt] with the error ignored: zero for a text that is not a
    number, the nearest bound for one out of range. *)
Definition atoi_value (s : string) : Z :=
  let clamp o := match o with Some v => Z.max min_int64 (Z.min max_int64 v) | None => 0 end in
  match bytes_of s with
  | [] => 0
  | c :: l =>
      if Ascii.eqb c "-" then clamp (v ← parse_uint l; Some (- v))
      else if Ascii.eqb c "+" then clamp (parse_uint l)
      else clamp (parse_uint (c :: l))
  end.

Definition maxRequestBodySize : Z := 2 ^ 20.

Section decoding.
Context `{JSONText}.

(** The first value of a body behind [http.MaxBytesReader]. *)
Definition decode_body (body : string) : result error JSON :=
  let l := bytes_of body in
  if maxRequestBodySize <? Z.of_nat (length l)
  then json_first (string_of (take (Z.to_nat maxRequestBodySize) l)) (Some (errors_New "http: request body too large"))
  else json_first body None.

Definition decode_into {A} (fields : list (field (S := A))) (zero : A) (body : string) : result error A :=
  match decode_body body with
  | Err e => Err e
  | Ok v => match decode_struct fields v zero with (a, None) => Ok a | (_, Some e) => Err e end
  end.

(** A pointer to a struct: [null] makes it nil, an object is decoded into the struct it points
    to, or into a new one. *)
Definition set_pointer {A B} (get : A -> option B) (upd : option B -> A -> A) (fields : list (field (S := B))) (zero : B) : setter (S := A) :=
  fun v a =>
    match v with
    | JNull => (upd None a, None)
    | _ => let '(b, e) := decode_struct fields v (default zero (get a)) in (upd (Some b) a, e)
    end.

Definition ModelConfig_fields : list (field (S := ModelConfig)) :=
  [("model_id", set_with json_string (fun v c => c <| ModelConfig_ModelID := v |>));
   ("temperature", set_with json_float64 (fun v c => c <| ModelConfig_Temperature := v |>));
   ("max_tokens", set_with json_int (fun v c => c <| ModelConfig_MaxTokens := v |>));
   ("policy_mode", set_with json_string (fun v c => c <| ModelConfig_PolicyMode := v |>));
   ("cost_cap_usd", set_with json_float64 (fun v c => c <| ModelConfig_CostCapUSD := v |>));
   ("fallback_model_ids", fun v c =>
      match v with
      | JNull => (c <| ModelConfig_FallbackModelIDs := [] |>, None)
      | _ => set_with (json_list json_string "" "[]string") (fun v c => c <| ModelConfig_FallbackModelIDs := v |>) v c
      end)].

Definition zero_config : ModelConfig := mkModelConfig "" f_zero 0 "" f_zero [].

(** An [interface{}]: numbers become float64, of members with the same name the last one stays. *)
Fixpoint any_value (v : JSON) : result error JSON :=
  match v with
  | JNum lit =>
      match parse_float lit with
      | inl x => Ok (JNum (default "" (json_float x)))
      | inr _ => Err (json_type_error v "float64")
      end
  | JArr l =>
      match (fix go (l : list JSON) := match l with
             | [] => Ok []
             | x :: l' => match any_value x, go l' with Ok y, Ok r => Ok (y :: r) | Err e, _ => Err e | _, Err e => Err e end
             end) l with
      | Ok l => Ok (JArr l)
      | Err e => Err e
      end
  | JObj ms =>
      match (fix go (ms : list (string * JSON)) := match ms with
             | [] => Ok []
             | (k, x) :: ms' => match any_value x, go ms' with Ok y, Ok r => Ok ((k, y) :: r) | Err e, _ => Err e | _, Err e => Err e end
             end) ms with
      | Ok ms => Ok (JObj (sort_slice (fun a b => String.ltb a.1 b.1)
                   (omap (fun i => match ms !! i with
                                   | Some (k, x) => if bool_decide (k ∈ (drop (S i) ms).*1) then None else Some (k, x)
                                   | None => None
                                   end) (seq 0 (length ms)))))
      | Err e => Err e
      end
  | _ => Ok v
  end.

(** [json.Marshal] of an [interface{}] and [json.Unmarshal] of the text into a model
    configuration; the marshalling of a decoded value does not fail. *)
Definition any_config (v : JSON) : result error ModelConfig :=
  match decode_struct ModelConfig_fields v zero_config with (c, None) => Ok c | (_, Some e) => Err e end.

Record create_body : Type := mkCreateBody { cb_Prompt : string; cb_ModelConfig : option JSON; cb_IdempotencyKey : string }.
#[global] Instance create_body_eta : Eta create_body := fun b => mkCreateBody (cb_Prompt b) (cb_ModelConfig b) (cb_IdempotencyKey b).

Definition create_fields : list (field (S := create_body)) :=
  [("prompt", set_with json_string (fun v b => b <| cb_Prompt := v |>));
   ("model_config", fun v b =>
      match v with
      | JNull => (b <| cb_ModelConfig := None |>, None)
      | _ => match any_value v with Ok v => (b <| cb_ModelConfig := Some v |>, None) | Err e => (b, Some e) end
      end);
   ("idempotency_key", set_with json_string (fun v b => b <| cb_IdempotencyKey := v |>))].

Record resume_body : Type := mkResumeBody { rb_FromRunID : string; rb_FromStepIndex : Z; rb_ModelConfigOverride : option ModelConfig }.
#[global] Instance resume_body_eta : Eta resume_body := fun b => mkResumeBody (rb_FromRunID b) (rb_FromStepIndex b) (rb_ModelConfigOverride b).

Definition resume_fields : list (field (S := resume_body)) :=
  [("from_run_id", set_with json_string (fun v b => b <| rb_FromRunID := v |>));
   ("from_step_index", set_with json_int (fun v b => b <| rb_FromStepIndex := v |>));
   ("model_config_override", set_pointer rb_ModelConfigOverride (fun v b => b <| rb_ModelConfigOverride := v |>) ModelConfig_fields zero_config)].

Definition reason_fields : list (field (S := string)) := [("reason", set_with json_string (fun v _ => v))].
Definition before_fields : list (field (S := Z)) := [("before_ts", set_with json_int (fun v _ => v))].
End decoding.

(** ** Authentication (middleware.go) *)

Record TenantInfo : Type := mkTenantInfo { TenantInfo_TenantID : string; TenantInfo_UserID : string; TenantInfo_RequestID : string }.

Definition authModeHeader : string := "header".
Definition authModeTrusted : string := "trusted".
Definition headerTenantID : string := "X-Tenant-Id".
Definition headerUserID : string := "X-User-Id".
Definition headerTrustedTenantID : string := "X-Authenticated-Tenant-Id".
Definition headerTrustedUserID : string := "X-Authenticated-User-Id".

(** [strings.EqualFold] *)
Definition EqualFold (a b : string) : bool := bool_decide (fold_name a = fold_name b).

Definition effectiveAuthMode `{Unicode} (getenv : string -> string) : string :=
  let mode := ToLower (TrimSpace (getenv "AGENTFORGE_AUTH_MODE")) in
  if String.eqb mode authModeHeader then authModeHeader
  else if String.eqb mode authModeTrusted || String.eqb mode "trusted_claims" || String.eqb mode "claims" then authModeTrusted
  else if EqualFold (TrimSpace (getenv "AGENTFORGE_RUNTIME")) "aws" then authModeTrusted
  else authModeHeader.

Definition extractIdentityFromRequest (r : Request) (mode : string) : string * string :=
  if String.eqb mode authModeTrusted
  then (TrimSpace (Request_Header r headerTrustedTenantID), TrimSpace (Request_Header r headerTrustedUserID))
  else (TrimSpace (Request_Header r headerTenantID), TrimSpace (Request_Header r headerUserID)).

(** ** The process *)

Record Api (S Q P : Type) : Type := mkApi { api_world : World S Q; api_pusher : P; api_metrics : requestMetrics }.
Arguments mkApi {S Q P}.
Arguments api_world {S Q P}.
Arguments api_pusher {S Q P}.
Arguments api_metrics {S Q P}.
#[global] Instance Api_eta {S Q P} : Eta (Api S Q P) := fun a => mkApi (api_world a) (api_pusher a) (api_metrics a).

(** [TenantRuntimeProvider]; the provider is the queue. *)
Record TenantRuntimeProvider (Q : Type) : Type := mkProvider {
  rt_TenantSnapshot : string -> Q -> Q * RuntimeSnapshot;
  rt_TenantAlerts : string -> Z -> Q -> Q * list Alert }.
Arguments rt_TenantSnapshot {Q}.
Arguments rt_TenantAlerts {Q}.

#[global] Instance RuntimeSnapshot_eta : Eta RuntimeSnapshot := fun s => mkRuntimeSnapshot
  (RuntimeSnapshot_TenantID s) (RuntimeSnapshot_Running s) (RuntimeSnapshot_Queued s) (RuntimeSnapshot_Enqueued s) (RuntimeSnapshot_Dequeued s)
  (RuntimeSnapshot_Completed s) (RuntimeSnapshot_Failed s) (RuntimeSnapshot_DeadLetter s) (RuntimeSnapshot_ConsecutiveErrors s)
  (RuntimeSnapshot_BreakerState s) (RuntimeSnapshot_BreakerOpenedAt s) (RuntimeSnapshot_RateLimited s) (RuntimeSnapshot_TokensUsed s)
  (RuntimeSnapshot_CostUsedUSD s) (RuntimeSnapshot_TokenBudget s) (RuntimeSnapshot_CostBudgetUSD s) (RuntimeSnapshot_ReservedTokens s) (RuntimeSnapshot_ReservedCost s).

Section handlers.
Context {S Q P : Type} `{StateStore S} `{MessageQueue Q} `{Pusher P} `{Unicode} `{JSONText} (env : Env).
Context (provider : option (TenantRuntimeProvider Q)).
Abbreviation A := (Api S Q P).

(** A call of the task service. *)
Definition svc {X} (m : ST (World S Q) X) : ST A X := fun a =>
  let '(w, x) := m (api_world a) in (a <| api_world := w |>, x).

Definition on_queue {X} (f : Q -> Q * X) : ST (World S Q) X := fun w =>
  let '(q, x) := f (w_queue w) in (w <| w_queue := q |>, x).

(** [h.svc] results: the reply to an error. *)
Definition reply_to {X} (m : ST (World S Q) (result error X)) (ok : X -> Reply) (failed : error -> Reply) : ST A Reply :=
  r ← svc m; mret (match r with Ok x => ok x | Err e => failed e end).

Definition not_found_or_internal (t : TenantInfo) (msg : string) (e : error) : Reply :=
  if errors_Is e SNotFound then error_reply 404 msg else writeInternalError (TenantInfo_RequestID t).

Definition with_body {X} (fields : list (field (S := X))) (zero : X) (msg : string) (r : Request) (k : X -> ST A Reply) : ST A Reply :=
  match decode_into fields zero (Request_Body r) with
  | Err _ => mret (error_reply 400 msg)
  | Ok b => k b
  end.

Definition createTask (t : TenantInfo) (r : Request) : ST A Reply :=
  with_body create_fields (mkCreateBody "" None "") "invalid request body" r (fun body =>
    if String.eqb (cb_Prompt body) "" then mret (error_reply 400 "prompt is required")
    else
      let ik := Request_Header r "Idempotency-Key" in
      let key := if negb (String.eqb ik "") && String.eqb (cb_IdempotencyKey body) "" then ik else cb_IdempotencyKey body in
      match match cb_ModelConfig body with None => Ok None | Some v => match any_config v with Ok c => Ok (Some c) | Err e => Err e end end with
      | Err _ => mret (error_reply 400 "invalid model_config format")
      | Ok mc =>
          reply_to (Create env (Some (mkCreateRequest (TenantInfo_TenantID t) (TenantInfo_UserID t) (cb_Prompt body) mc key)))
            (fun resp => writeJSON 201 (PCreated resp))
            (fun e => if errors_Is e SValidation then error_reply 400 "invalid create request"
                      else writeInternalError (TenantInfo_RequestID t))
      end).

Definition getTask (t : TenantInfo) (taskID : string) : ST A Reply :=
  reply_to (GetForUser (TenantInfo_TenantID t) (TenantInfo_UserID t) taskID) (fun x => writeJSON 200 (PTask x))
    (not_found_or_internal t "task not found").

Definition abortTask (t : TenantInfo) (r : Request) (taskID : string) : ST A Reply :=
  with_body reason_fields "" "invalid request body" r (fun reason =>
    reply_to (Abort env (TenantInfo_TenantID t) taskID (Some (mkAbortRequest (TenantInfo_TenantID t) (TenantInfo_UserID t) reason)))
      (fun x => writeJSON 200 (PTask x)) (not_found_or_internal t "task not found")).

Definition resumeTask (t : TenantInfo) (r : Request) (taskID : string) : ST A Reply :=
  with_body resume_fields (mkResumeBody "" 0 None) "invalid request body" r (fun body =>
    if String.eqb (rb_FromRunID body) "" then mret (error_reply 400 "from_run_id is required")
    else
      reply_to (Resume env taskID (Some (mkResumeRequest (TenantInfo_TenantID t) (TenantInfo_UserID t) (rb_FromRunID body)
                  (rb_FromStepIndex body) (rb_ModelConfigOverride body))))
        (fun resp => writeJSON 200 (PResumed resp))
        (fun e => if errors_Is e SNotFound then error_reply 404 "task not found"
                  else if errors_Is e SValidation then error_reply 400 "invalid resume request"
                  else writeInternalError (TenantInfo_RequestID t))).

(** A limit of the query: the default if it is missing or not positive, at most [most]. *)
Definition query_limit (r : Request) (dflt most : Z) : Z :=
  let limit := atoi_value (Request_Query r "limit") in
  let limit := if limit <=? 0 then dflt else limit in
  if most <? limit then most else limit.

Definition listSteps (t : TenantInfo) (r : Request) (taskID runID : string) : ST A Reply :=
  let from := atoi_value (Request_Query r "from") in
  let from := if from <? 0 then 0 else from in
  reply_to (ListStepsForUser (TenantInfo_TenantID t) (TenantInfo_UserID t) taskID runID from (query_limit r 200 1000))
    (fun l => writeJSON 200 (PSteps l)) (not_found_or_internal t "task or run not found").

Definition getRun (t : TenantInfo) (taskID runID : string) : ST A Reply :=
  reply_to (GetRunForUser (TenantInfo_TenantID t) (TenantInfo_UserID t) taskID runID) (fun x => writeJSON 200 (PRun x))
    (not_found_or_internal t "run not found").

Definition replayEvents (t : TenantInfo) (r : Request) (taskID runID : string) : ST A Reply :=
  reply_to (ReplayEventsForUser (TenantInfo_TenantID t) (TenantInfo_UserID t) taskID runID
              (atoi_value (Request_Query r "from_seq")) (atoi_value (Request_Query r "from_ts")) (query_limit r 200 2000))
    (fun l => writeJSON 200 (PEvents l)) (not_found_or_internal t "task or run not found").

Definition compactEvents (t : TenantInfo) (r : Request) (taskID runID : string) : ST A Reply :=
  with_body before_fields 0 "invalid request body" r (fun beforeTS =>
    reply_to (CompactRunEventsForUser (TenantInfo_TenantID t) (TenantInfo_UserID t) taskID runID beforeTS)
      (fun n => writeJSON 200 (PRemoved n)) (not_found_or_internal t "task or run not found")).

(** What belongs to a tenant as a whole is shown to that tenant only. *)
Definition for_tenant (t : TenantInfo) (tenantID msg : string) (k : TenantRuntimeProvider Q -> ST A Reply) : ST A Reply :=
  if negb (String.eqb (TenantInfo_TenantID t) tenantID) then mret (error_reply 404 "tenant not found")
  else match provider with
       | None => mret (error_reply 501 msg)
       | Some p => k p
       end.

Definition getTenantRuntime (t : TenantInfo) (tenantID : string) : ST A Reply :=
  for_tenant t tenantID "tenant runtime metrics not configured" (fun p =>
    snap ← svc (on_queue (rt_TenantSnapshot p tenantID));
    let snap := if String.eqb (RuntimeSnapshot_TenantID snap) "" then snap <| RuntimeSnapshot_TenantID := tenantID |> else snap in
    mret (writeJSON 200 (PSnapshot snap))).

Definition getTenantAlerts (t : TenantInfo) (r : Request) (tenantID : string) : ST A Reply :=
  for_tenant t tenantID "tenant alerts not configured" (fun p =>
    l ← svc (on_queue (rt_TenantAlerts p tenantID (query_limit r 50 200)));
    mret (writeJSON 200 (PAlerts l))).

(** *** Paths *)

Definition TrimPrefix (s p : string) : string :=
  if HasPrefix s p then String.substring (String.length p) (String.length s - String.length p) s else s.

Definition normalizeAPIPath (path : string) : string :=
  if HasPrefix path "/v1/" then TrimPrefix path "/v1" else if String.eqb path "/v1" then "/" else path.

Definition is_method (m : string) (r : Request) : bool := String.eqb (Request_Method r) m.

Definition not_allowed : Reply := error_reply 405 "method not allowed".
Definition no_route : Reply := error_reply 404 "not found".

Definition handleTasks (t : TenantInfo) (r : Request) : ST A Reply :=
  if is_method "POST" r then createTask t r else mret not_allowed.

(** The paths below /tasks/{task_id}/runs. *)
Definition handle_runs (t : TenantInfo) (r : Request) (taskID : string) (rest : list string) : ST A Reply :=
  match rest with
  | [runID] => if is_method "GET" r then getRun t taskID runID else mret no_route
  | runID :: x :: y =>
      let second := match y with z :: _ => z | [] => "" end in
      if negb (Nat.eqb (length y) 0) && String.eqb x "events" && String.eqb second "replay" && is_method "GET" r
      then replayEvents t r taskID runID
      else if negb (Nat.eqb (length y) 0) && String.eqb x "events" && String.eqb second "compact" && is_method "POST" r
      then compactEvents t r taskID runID
      else if String.eqb x "steps" && is_method "GET" r then listSteps t r taskID runID
      else mret no_route
  | [] => mret no_route
  end.

Definition handleTaskByID (t : TenantInfo) (r : Request) : ST A Reply :=
  match Split (TrimPrefix (normalizeAPIPath (Request_Path r)) "/tasks/") "/" with
  | [] | "" :: _ => mret (error_reply 400 "missing task_id")
  | [taskID] => if is_method "GET" r then getTask t taskID else mret not_allowed
  | taskID :: op :: rest =>
      if String.eqb op "abort" && is_method "POST" r then abortTask t r taskID
      else if String.eqb op "resume" && is_method "POST" r then resumeTask t r taskID
      else if String.eqb op "runs" then handle_runs t r taskID rest
      else mret no_route
  end.

Definition handleTenantByID (t : TenantInfo) (r : Request) : ST A Reply :=
  match Split (TrimPrefix (normalizeAPIPath (Request_Path r)) "/tenants/") "/" with
  | tenantID :: what :: _ =>
      if String.eqb tenantID "" then mret no_route
      else if String.eqb what "runtime" && is_method "GET" r then getTenantRuntime t tenantID
      else if String.eqb what "alerts" && is_method "GET" r then getTenantAlerts t r tenantID
      else mret no_route
  | _ => mret no_route
  end.
End handlers.

(** ** WebSocket registrations (ws_handlers.go) *)

Record connect_body : Type := mkConnectBody {
  wb_ConnectionID : string; wb_TaskID : string; wb_RunID : string; wb_LastSeq : Z; wb_FromTS : Z }.
#[global] Instance connect_body_eta : Eta connect_body := fun b => mkConnectBody
  (wb_ConnectionID b) (wb_TaskID b) (wb_RunID b) (wb_LastSeq b) (wb_FromTS b).

Definition connect_fields `{JSONText} : list (field (S := connect_body)) :=
  [("connection_id", set_with json_string (fun v b => b <| wb_ConnectionID := v |>));
   ("task_id", set_with json_string (fun v b => b <| wb_TaskID := v |>));
   ("run_id", set_with json_string (fun v b => b <| wb_RunID := v |>));
   ("last_seq", set_with json_int (fun v b => b <| wb_LastSeq := v |>));
   ("from_ts", set_with json_int (fun v b => b <| wb_FromTS := v |>))].

Definition disconnect_fields `{JSONText} : list (field (S := string)) := [("connection_id", set_with json_string (fun v _ => v))].

Section ws_handlers.
Context {S Q P : Type} `{StateStore S} `{MessageQueue Q} `{Pusher P} `{Unicode} `{JSONText} (env : Env).
(* whether a task service and a pusher are set *)
Context (taskSvc pusher : bool).
Abbreviation A := (Api S Q P).

(** The events that the client has missed, until one cannot be delivered; the number delivered. *)
Fixpoint replay_missed (connectionID : string) (lastSeq : Z) (events : list StreamEvent) (replayed : Z) (p : P) : P * Z :=
  match events with
  | [] => (p, replayed)
  | ev :: events' =>
      if (0 <? lastSeq) && (StreamEvent_Seq ev <=? lastSeq) then replay_missed connectionID lastSeq events' replayed p
      else if pusher then
        let '(p, (alive, pushErr)) := Push connectionID ev p in
        if bool_decide (is_Some pushErr) || negb alive then (p, replayed)
        else replay_missed connectionID lastSeq events' (replayed + 1) p
      else replay_missed connectionID lastSeq events' (replayed + 1) p
  end.

Definition on_pusher {X} (f : P -> P * X) : ST A X := fun a =>
  let '(p, x) := f (api_pusher a) in (a <| api_pusher := p |>, x).

(** Register the connection and replay, after the task was found to belong to the caller. *)
Definition connect (t : TenantInfo) (body : connect_body) : ST A Reply :=
  connectedAt ← svc (time_Now env);
  ttl ← svc (time_Now env);
  let conn := mkConnection (wb_ConnectionID body) (TenantInfo_TenantID t) (TenantInfo_UserID t) (wb_TaskID body) (wb_RunID body)
                connectedAt (time_Unix (time_Add ttl (2 * Hour))) in
  r ← svc (on_store (PutConnection conn));
  match r with
  | Err _ => mret (writeInternalError (TenantInfo_RequestID t))
  | Ok _ =>
      if taskSvc && negb (String.eqb (wb_TaskID body) "") && negb (String.eqb (wb_RunID body) "") then
        events ← svc (ReplayEventsForUser (TenantInfo_TenantID t) (TenantInfo_UserID t) (wb_TaskID body) (wb_RunID body)
                   (wb_LastSeq body) (wb_FromTS body) 2000);
        match events with
        | Err _ => mret (writeJSON 200 (PConnected 0))
        | Ok l => n ← on_pusher (replay_missed (wb_ConnectionID body) (wb_LastSeq body) l 0); mret (writeJSON 200 (PConnected n))
        end
      else mret (writeJSON 200 (PConnected 0))
  end.

Definition handleConnect (t : TenantInfo) (r : Request) : ST A Reply :=
  with_body connect_fields (mkConnectBody "" "" "" 0 0) "invalid body" r (fun body =>
    if String.eqb (wb_ConnectionID body) "" || String.eqb (wb_TaskID body) ""
    then mret (error_reply 400 "connection_id and task_id required")
    else if taskSvc then
      task ← svc (GetForUser (TenantInfo_TenantID t) (TenantInfo_UserID t) (wb_TaskID body));
      match task with
      | Err _ => mret (error_reply 404 "task not found")
      | Ok _ => connect t body
      end
    else connect t body).

Definition handleDisconnect (t : TenantInfo) (r : Request) : ST A Reply :=
  with_body disconnect_fields "" "invalid body" r (fun connectionID =>
    if String.eqb connectionID "" then mret (error_reply 400 "connection_id required")
    else
      conn ← svc (read_store (GetConnection connectionID));
      match conn with
      | Err _ => mret (error_reply 404 "connection not found")
      | Ok conn =>
          if negb (String.eqb (Connection_TenantID conn) (TenantInfo_TenantID t)) then mret (error_reply 404 "connection not found")
          else
            d ← svc (on_store (DeleteConnection connectionID));
            mret (match d with
                  | Err _ => writeInternalError (TenantInfo_RequestID t)
                  | Ok _ => writeJSON 200 (PStrings [("status", "disconnected")])
                  end)
      end).
End ws_handlers.

(** ** The middleware and the routes *)

Section server.
Context {S Q P : Type} `{StateStore S} `{MessageQueue Q} `{Pusher P} `{Unicode} `{JSONText} (env : Env).
Context (provider : option (TenantRuntimeProvider Q)) (taskSvc pusher : bool).
Abbreviation A := (Api S Q P).
Definition handler : Type := TenantInfo -> Request -> ST A Reply.

Definition unauthorized (what requestID : string) : Reply :=
  let q := String dquote "" in
  mkReply 401 (PText ("{" +:+ q +:+ "error" +:+ q +:+ ":" +:+ q +:+ "missing authenticated " +:+ what +:+ " identity" +:+ q +:+ ","
    +:+ q +:+ "request_id" +:+ q +:+ ":" +:+ q +:+ requestID +:+ q +:+ "}" +:+ String (ascii_of_nat 10) "")).

Definition logRequest (status : Z) (startedAt now : Time) : ST A unit := fun a =>
  (a <| api_metrics ::= observeRequestMetrics status (Duration_Milliseconds (time_Sub now startedAt)) |>, tt).

Definition AuthMiddleware (next : handler) (r : Request) : ST A Response :=
  startedAt ← svc (time_Now env);
  let authMode := effectiveAuthMode (env_getenv env) in
  requestID ← (if String.eqb (Request_Header r "X-Request-Id") "" then svc (NewID env "req_") else mret (Request_Header r "X-Request-Id"));
  let '(tenantID, userID) := extractIdentityFromRequest r authMode in
  reply ← (if String.eqb tenantID "" then mret (unauthorized "tenant" requestID)
           else if String.eqb userID "" then mret (unauthorized "user" requestID)
           else next (mkTenantInfo tenantID userID requestID) r);
  now ← svc (time_Now env);
  _ ← logRequest (Reply_Status reply) startedAt now;
  mret (mkResponse requestID reply).

(** The two [RegisterRoutes]. *)
Definition routes : list (string * handler) :=
  [("/tasks", handleTasks env); ("/tasks/", handleTaskByID env); ("/tenants/", handleTenantByID provider);
   ("/v1/tasks", handleTasks env); ("/v1/tasks/", handleTaskByID env); ("/v1/tenants/", handleTenantByID provider);
   ("/ws/connect", handleConnect env taskSvc pusher); ("/ws/disconnect", handleDisconnect);
   ("/v1/ws/connect", handleConnect env taskSvc pusher); ("/v1/ws/disconnect", handleDisconnect)].

(** [http.ServeMux]: the cleaned path is redirected to if it differs; a pattern that ends in a
    slash matches the paths below it, the longest such pattern is taken. *)
Definition cleanPath (p : string) : string :=
  let p := if HasPrefix p "/" then p else "/" +:+ p in
  let np := Clean p in
  if HasSuffix p "/" && negb (String.eqb np "/") then np +:+ "/" else np.

Definition longest (l : list (string * handler)) : option handler :=
  match sort_slice (fun a b => Nat.ltb (String.length b.1) (String.length a.1)) l with x :: _ => Some x.2 | [] => None end.

Definition mux_match (path : string) : option handler :=
  match List.find (fun x => String.eqb x.1 path) routes with
  | Some x => Some x.2
  | None => longest (List.filter (fun x => HasSuffix x.1 "/" && HasPrefix path x.1) routes)
  end.

Definition redirect (target : string) : Response := mkResponse "" (mkReply 301 (PText target)).

Definition ServeHTTP (r : Request) : ST A Response :=
  let path := if is_method "CONNECT" r then Request_Path r else cleanPath (Request_Path r) in
  if negb (String.eqb path (Request_Path r)) then mret (redirect path)
  else
    match mux_match path with
    | Some h => AuthMiddleware h r
    | None =>
        if existsb (fun x => String.eqb x.1 (path +:+ "/")) routes then mret (redirect (path +:+ "/"))
        else mret (mkResponse "" (mkReply 404 (PText ("404 page not found" +:+ String (ascii_of_nat 10) ""))))
    end.
End server.
