(* ===== verification/APISafety.v ===== *)
(** * APISafety: what the HTTP interface guarantees

    The theorems about [API], over any queue and pusher: a request never changes what belongs
    to another user, a foreign task looks exactly like a missing one, and in trusted mode the
    identity comes from the headers of the authorizer alone. *)

From Stdlib Require Import Ascii.
From S2P Require Import Prelude GoLib Model StateStore MemoryStore Tenant MemoryQueue World TaskService JSON Encoding FileSystem Engine API.

(** ** Isolation *)

Section isolation.
Context {Q P : Type} `{MessageQueue Q} `{Pusher P} `{Unicode} `{JSONText} (env : Env).
Context (tenantID userID : string) (checked : bool).
Abbreviation W := (World MemoryStore Q).
Abbreviation A := (Api MemoryStore Q P).

Definition owned (t : Task) : Prop := Task_TenantID t = tenantID /\ Task_UserID t = userID.

(** Tasks of others, all runs and all steps that exist stay as they are; no task changes its owner; and
    with a task service, a new connection is one of the caller to a task that the caller owns. *)
Record keeps (s s' : MemoryStore) : Prop := {
  keeps_tasks : forall id t, MS_tasks s !! id = Some t -> ~ owned t -> MS_tasks s' !! id = Some t;
  keeps_owner : forall id t, MS_tasks s !! id = Some t ->
    exists t', MS_tasks s' !! id = Some t' /\ Task_TenantID t' = Task_TenantID t /\ Task_UserID t' = Task_UserID t;
  keeps_runs : forall k r, MS_runs s !! k = Some r -> MS_runs s' !! k = Some r;
  keeps_steps : MS_steps s' = MS_steps s;
  keeps_conns : checked = true -> forall id c, MS_connections s' !! id = Some c -> MS_connections s !! id = Some c \/
    Connection_TenantID c = tenantID /\ Connection_UserID c = userID /\
    exists t, MS_tasks s' !! Connection_TaskID c = Some t /\ owned t }.

(** Changes of what [keeps] does not mention, and of the runs, tasks and connections alone. *)
Lemma keeps_unmentioned s s' :
  MS_tasks s' = MS_tasks s -> MS_runs s' = MS_runs s -> MS_steps s' = MS_steps s -> MS_connections s' = MS_connections s -> keeps s s'.
Proof. intros ET ER ES EC. split; rewrite ?ET, ?ER, ?ES, ?EC; eauto. Qed.

#[local] Instance keeps_refl : Reflexive keeps.
Proof. intros s. by apply keeps_unmentioned. Qed.

#[local] Instance keeps_trans : Transitive keeps.
Proof.
  intros s1 s2 s3 [T1 O1 R1 S1 C1] [T2 O2 R2 S2 C2]. split; [eauto| |eauto|congruence|].
  - intros id t Ht. apply O1 in Ht as (t2 & Ht2 & E1 & E2). apply O2 in Ht2 as (t3 & Ht3 & E3 & E4). exists t3. split_and!; congruence.
  - intros Hc id c Hin. destruct (C2 Hc _ _ Hin) as [Hin2|?]; [|by right]. destruct (C1 Hc _ _ Hin2) as [?|(E1 & E2 & t & Ht & Ho)]; [by left|].
    right. split_and!; [done|done|]. apply O2 in Ht as (t3 & Ht3 & E3 & E4). exists t3. split; [done|]. destruct Ho. split; congruence.
Qed.

Lemma keeps_new_run s k r : MS_runs s !! k = None -> keeps s (s <| MS_runs ::= insert k r |>).
Proof.
  intros Hn. split; cbn; eauto. intros k' r' Hk. rewrite lookup_insert_ne; [done|]. intros <-. congruence.
Qed.

Lemma keeps_new_task s id t : MS_tasks s !! id = None -> keeps s (s <| MS_tasks ::= insert id t |>).
Proof.
  intros Hn. split; cbn; eauto.
  - intros id' t' Hid _. rewrite lookup_insert_ne; [done|]. intros <-. congruence.
  - intros id' t' Hid. exists t'. rewrite lookup_insert_ne; [done|]. intros <-. congruence.
Qed.

Definition kept {X} (m : ST W X) : Prop := forall w, keeps (w_store w) (w_store (m w).1).

Lemma kept_ret {X} (x : X) : kept (mret x).
Proof. by intros w. Qed.

Lemma kept_bind {X Y} (m : ST W X) (k : X -> ST W Y) : kept m -> (forall x, kept (k x)) -> kept (x ← m; k x).
Proof. intros Hm Hk w. rewrite ST_bind_run. etrans; [apply Hm|]. apply Hk. Qed.

Lemma kept_read {X} (f : MemoryStore -> X) : kept (read_store f).
Proof. by intros w. Qed.

Lemma kept_tick {X} (f : nat -> X) : kept (tick f).
Proof. by intros w. Qed.

Lemma kept_now : kept (time_Now env).
Proof. by intros w. Qed.

Lemma kept_id p : kept (NewID env p).
Proof. by intros w. Qed.

Lemma kept_enqueue msg : kept (enqueue msg).
Proof. intros w. unfold enqueue. by destruct (Queue_Enqueue _ _ _). Qed.

Lemma kept_queue {X} (f : Q -> Q * X) : kept (on_queue f).
Proof. intros w. unfold on_queue. by destruct (f (w_queue w)). Qed.

Lemma kept_store {X} (f : MemoryStore -> MemoryStore * X) : (forall s, keeps s (f s).1) -> kept (on_store f).
Proof. intros Hf w. unfold on_store. specialize (Hf (w_store w)). by destruct (f (w_store w)). Qed.

(** *** The task service *)

(** An operation on a task that belongs to the caller. *)
Lemma kept_with_task {X} taskID (k : Task -> ST W (result error X)) :
  (forall t w, MS_tasks (w_store w) !! taskID = Some t -> owned t -> keeps (w_store w) (w_store (k t w).1)) ->
  kept (with_task taskID (fun t => hasTaskAccess t tenantID userID) k).
Proof.
  intros Hk w. unfold with_task. rewrite ST_bind_run. cbn. unfold MemoryStore_GetTask.
  destruct (MS_tasks (w_store w) !! taskID) as [t|] eqn:Et; [|done].
  destruct (hasTaskAccess (Some t) tenantID userID) eqn:Ea; cbn [negb]; [|done].
  apply Hk; [done|]. apply access_iff in Ea as (? & ? & _). by split.
Qed.

(** A change of one owned task. *)
Lemma keeps_own taskID t t' s :
  MS_tasks s !! taskID = Some t -> owned t -> owned t' -> keeps s (store_task taskID t' s).
Proof.
  intros Ht Ho Ho'. split; cbn; eauto.
  - intros id t1 Hid Hn. rewrite lookup_insert_ne; [done|]. intros <-. by simplify_eq.
  - intros id t1 Hid. destruct (decide (taskID = id)) as [<-|Hne]; [|exists t1; by rewrite lookup_insert_ne].
    exists t'. rewrite lookup_insert_eq. destruct Ho, Ho'. simplify_eq. split_and!; congruence.
Qed.

Lemma keeps_abort now taskID reason t s :
  MS_tasks s !! taskID = Some t -> owned t -> keeps s (MemoryStore_SetAbortRequested now taskID reason s).1.
Proof. intros Ht Ho. unfold MemoryStore_SetAbortRequested. rewrite Ht. by eapply keeps_own. Qed.

Lemma keeps_create now t r s : keeps s (MemoryStore_ApplyCreateTransition now t r s).1.
Proof.
  unfold MemoryStore_ApplyCreateTransition. op_cases; try done.
  all: match goal with |- keeps ?s (?s1 <| MS_tasks ::= insert ?id ?t |> <| MS_runs ::= insert ?k ?r |>) =>
    transitivity s1; [by apply keeps_unmentioned|]; transitivity (s1 <| MS_tasks ::= insert id t |>);
    [apply keeps_new_task|apply keeps_new_run]; cbn; by apply not_is_Some_None end.
Qed.

Lemma keeps_resume n1 n2 taskID t r from to s :
  MS_tasks s !! taskID = Some t -> owned t -> keeps s (MemoryStore_ApplyResumeTransition n1 n2 taskID r from to s).1.
Proof.
  intros Ht Ho. unfold MemoryStore_ApplyResumeTransition. rewrite Ht. op_cases; try done.
  match goal with |- keeps ?s (store_task _ _ ?s1) => transitivity s1; [apply keeps_new_run; by apply not_is_Some_None|] end.
  by eapply keeps_own.
Qed.

(** Later changes of the new run and of the owned task. *)
Lemma keeps_complete_new now taskID runID status s s1 :
  MS_runs s !! runKey taskID runID = None -> keeps s s1 -> keeps s (MemoryStore_CompleteRun now taskID runID status s1).1.
Proof.
  intros Hn Hk. unfold MemoryStore_CompleteRun, with_run. destruct (MS_runs s1 !! _) as [r0|]; [|done]. destruct Hk. split; cbn; eauto.
  intros k r Hr. rewrite lookup_insert_ne; [by eauto|]. intros <-. congruence.
Qed.

Lemma keeps_update_own now taskID runID from to t s s1 :
  MS_tasks s !! taskID = Some t -> owned t -> keeps s s1 -> keeps s (MemoryStore_UpdateTaskStatusForRun now taskID runID from to s1).1.
Proof.
  intros Ht Ho Hk. transitivity s1; [done|]. unfold MemoryStore_UpdateTaskStatusForRun. op_cases; try done.
  destruct (keeps_owner _ _ Hk _ _ Ht) as (t1 & Ht1 & E1 & E2). destruct Ho as [Ho1 Ho2].
  eapply keeps_own; [done| |]; split; cbn; congruence.
Qed.

Lemma keeps_mark_failed taskID runID t s (w : W) :
  MS_tasks s !! taskID = Some t -> owned t -> MS_runs s !! runKey taskID runID = None -> keeps s (w_store w) ->
  keeps s (w_store (markRunAndTaskFailed env taskID runID w).1).
Proof.
  intros Ht Ho Hn Hk. unfold markRunAndTaskFailed. destruct (_ || _); [done|]. rewrite ST_bind_run. cbn [fst snd time_Now tick].
  rewrite !ST_bind_run. unfold on_store. cbn.
  match goal with |- context [MemoryStore_CompleteRun ?n ?a ?b ?c ?s0] =>
    pose proof (keeps_complete_new n a b c s s0 Hn Hk) as Hc; destruct (MemoryStore_CompleteRun n a b c s0) as [s1 r1] end. cbn in *.
  match goal with |- context [MemoryStore_UpdateTaskStatusForRun ?n ?a ?b ?c ?e ?s0] =>
    pose proof (keeps_update_own n a b c e t s s0 Ht Ho Hc) as Hu; destruct (MemoryStore_UpdateTaskStatusForRun n a b c e s0) as [s2 r2] end.
  exact Hu.
Qed.

Lemma resume_inserts_new n1 n2 taskID r from to s s' :
  MemoryStore_ApplyResumeTransition n1 n2 taskID (Some r) from to s = (s', Ok tt) -> MS_runs s !! runKey taskID (Run_RunID r) = None.
Proof.
  unfold MemoryStore_ApplyResumeTransition. destruct (ensureQueuedAt_run_ids r n1) as (E1 & E2 & _). cbn [ensureQueuedAt].
  destruct (_ || _) eqn:Eg; [done|]. apply orb_false_iff in Eg as [_ Eg]. apply bool_decide_eq_false in Eg.
  destruct (MS_tasks s !! taskID); [|done]. case_bool_decide as Hr; [done|]. intros _. apply not_is_Some_None.
  rewrite <- E2, <- (dec_stable Eg). exact Hr.
Qed.

#[local] Arguments MemoryStore_ApplyResumeTransition : simpl never.
#[local] Arguments MemoryStore_ApplyCreateTransition : simpl never.
#[local] Arguments markRunAndTaskFailed : simpl never.

Lemma kept_resume_new taskID req t (w : W) :
  MS_tasks (w_store w) !! taskID = Some t -> owned t ->
  keeps (w_store w) (w_store (resume_new env taskID req t w).1).
Proof.
  intros Ht Ho. unfold resume_new. run_st.
  set (id := ("run_" +:+ fmt_x (string_of (env_rand env (Datatypes.S (w_tick w)))))%string).
  destruct (normalizeAndValidateModelConfig _ _) as [mc|e]; [|done]. run_st.
  match goal with |- context [MemoryStore_ApplyResumeTransition ?a ?b taskID ?r ?f ?to ?s] =>
    pose proof (keeps_resume a b taskID t r f to s Ht Ho) as Hk; pose proof (resume_inserts_new a b taskID (default (mkRun "" "" "" RunStatusQueued None "" None None None None 0 None f_zero) r) f to s) as Hnew;
    destruct (MemoryStore_ApplyResumeTransition a b taskID r f to s) as [s1 [[]|e]] eqn:Ea end; [|exact Hk].
  cbn in Hk. specialize (Hnew s1 Ea). cbn in Hnew. run_st. destruct (Queue_Enqueue _ _ _) as [q1 [[]|e]]; cbn; [exact Hk|].
  match goal with |- context [markRunAndTaskFailed env taskID ?i ?w1] =>
    pose proof (keeps_mark_failed taskID i t (w_store w) w1 Ht Ho Hnew Hk) as Hm; destruct (markRunAndTaskFailed env taskID i w1) as [w2 u] end.
  exact Hm.
Qed.

Lemma kept_enqueueQueuedRun task run now : kept (enqueueQueuedRun (Q := Q) task run now).
Proof. unfold enqueueQueuedRun. destruct (_ || _); [apply kept_ret|apply kept_enqueue]. Qed.

Lemma kept_ensure task : kept (ensureActiveQueuedRunEnqueued env task).
Proof.
  unfold ensureActiveQueuedRunEnqueued. case_bool_decide; [apply kept_ret|]. apply kept_bind; [apply kept_read|]. intros [run|e]; [|apply kept_ret].
  apply kept_bind; [apply kept_now|]. intros now. apply kept_enqueueQueuedRun.
Qed.

Lemma kept_create_new req mc : kept (create_new env req mc).
Proof.
  unfold create_new. apply kept_bind; [apply kept_now|]. intros now. apply kept_bind; [apply kept_id|]. intros taskID.
  apply kept_bind; [apply kept_id|]. intros runID. cbn zeta. apply kept_bind; [apply kept_now|]. intros t.
  apply kept_bind; [apply kept_store; intros s; apply keeps_create|]. intros [[]|e].
  - apply kept_bind; [apply kept_enqueueQueuedRun|]. intros [[]|e]; apply kept_ret.
  - destruct (_ && _); [|apply kept_ret]. apply kept_bind; [apply kept_read|]. intros [x|e2]; apply kept_ret.
Qed.

Lemma kept_Create req : kept (Create env req).
Proof.
  unfold Create. destruct (validate_create env req) as [[req' mc]|e]; [|apply kept_ret]. case_bool_decide; [|apply kept_create_new].
  apply kept_bind; [apply kept_read|]. intros [ex|e].
  - apply kept_bind; [apply kept_ensure|]. intros [[]|e]; apply kept_ret.
  - destruct (errors_Is e SNotFound); [apply kept_create_new|apply kept_ret].
Qed.

Lemma kept_GetForUser taskID : kept (GetForUser tenantID userID taskID).
Proof. by apply kept_with_task. Qed.

Lemma kept_Abort taskID reason : userID <> "" -> kept (Abort env tenantID taskID (Some (mkAbortRequest tenantID userID reason))).
Proof.
  intros Hu. unfold Abort. cbn. rewrite bool_decide_false by done. apply kept_with_task. intros t w Ht Ho. unfold set_abort.
  rewrite !ST_bind_run. unfold on_store. cbn -[MemoryStore_SetAbortRequested].
  match goal with |- context [MemoryStore_SetAbortRequested ?n ?a ?b ?c] =>
    pose proof (keeps_abort n a b t c Ht Ho) as Hk; destruct (MemoryStore_SetAbortRequested n a b c) as [s1 [[]|e]] end; exact Hk.
Qed.

Lemma kept_Resume taskID from idx mc : kept (Resume env taskID (Some (mkResumeRequest tenantID userID from idx mc))).
Proof.
  unfold Resume. cbn [ResumeRequest_TenantID ResumeRequest_UserID]. destruct (is_blank tenantID); [apply kept_ret|].
  destruct (is_blank userID); [apply kept_ret|]. apply kept_with_task. intros t w Ht Ho.
  case_bool_decide; [done|]. destruct (_ <? 0); [done|]. rewrite ST_bind_run. cbn [read_store fst snd]. destruct (GetRun _ _ _) as [run|e]; [|done].
  rewrite ST_bind_run. cbn [read_store fst snd]. destruct (GetStep _ _ _) as [step|e]; [|done]. destruct (Step_CheckpointRef step); [|done].
  by apply kept_resume_new.
Qed.

(** An operation on a run that does not change tasks, runs and steps. *)
Lemma kept_run_of {X} taskID runID (k : Run -> ST W (result error X)) :
  (forall run, kept (k run)) -> kept (with_task taskID (fun t => hasTaskAccess t tenantID userID) (fun _ => with_run_of taskID runID k)).
Proof.
  intros Hk. apply kept_with_task. intros t w _ _. revert w. unfold with_run_of. apply kept_bind; [apply kept_read|].
  intros [run|e]; [apply Hk|apply kept_ret].
Qed.

Lemma keeps_compact taskID runID before s : keeps s (MemoryStore_CompactEvents taskID runID before s).1.
Proof. unfold MemoryStore_CompactEvents. repeat case_match; by apply keeps_unmentioned. Qed.

(** *** Handlers *)

Definition akept {X} (m : ST A X) : Prop := forall a, keeps (w_store (api_world a)) (w_store (api_world (m a).1)).

Lemma akept_ret {X} (x : X) : akept (mret x).
Proof. by intros a. Qed.

Lemma akept_bind {X Y} (m : ST A X) (k : X -> ST A Y) : akept m -> (forall x, akept (k x)) -> akept (x ← m; k x).
Proof. intros Hm Hk a. rewrite ST_bind_run. etrans; [apply Hm|]. apply Hk. Qed.

Lemma akept_svc {X} (m : ST W X) : kept m -> akept (svc m).
Proof. intros Hm a. specialize (Hm (api_world a)). unfold svc. by destruct (m (api_world a)). Qed.

Lemma akept_reply {X} (m : ST W (result error X)) ok failed : kept m -> akept (reply_to m ok failed).
Proof. intros Hm. apply akept_bind; [by apply akept_svc|]. intros r. apply akept_ret. Qed.

Lemma akept_body {X} (fields : list (field (S := X))) zero msg r (k : X -> ST A Reply) :
  (forall b, akept (k b)) -> akept (with_body fields zero msg r k).
Proof. intros Hk. unfold with_body. destruct (decode_into _ _ _); [apply Hk|apply akept_ret]. Qed.

Lemma akept_pusher {X} (f : P -> P * X) : akept (on_pusher f).
Proof. intros a. unfold on_pusher. by destruct (f (api_pusher a)). Qed.

(** Split a handler into its calls. *)
Ltac akept_cases :=
  repeat first
    [ apply akept_ret
    | apply akept_reply
    | apply akept_body; intros
    | match goal with |- akept (if ?b then _ else _) => destruct b end
    | match goal with |- akept (match ?x with _ => _ end) => destruct x end
    | apply kept_Create | apply kept_GetForUser | by apply kept_Abort | apply kept_Resume
    | apply kept_run_of; intros; first [apply kept_read | apply kept_ret | apply kept_store; intros; apply keeps_compact]
    | apply akept_bind; [first [apply akept_svc | apply akept_pusher]|intros]
    | apply kept_now | apply kept_read | apply kept_queue | apply kept_store ].

Section as_caller.
Context (requestID : string) (Hu : userID <> "") (provider : option (TenantRuntimeProvider Q)) (pusher : bool).
Abbreviation me := (mkTenantInfo tenantID userID requestID).

Lemma akept_handleTasks r : akept (handleTasks env me r).
Proof. unfold handleTasks, createTask. akept_cases. Qed.

Lemma akept_handleTaskByID r : akept (handleTaskByID env me r).
Proof.
  unfold handleTaskByID, handle_runs, getTask, abortTask, resumeTask, getRun, replayEvents, compactEvents, listSteps. cbn zeta. akept_cases.
Qed.

Lemma akept_handleTenantByID r : akept (handleTenantByID provider me r).
Proof. unfold handleTenantByID, getTenantRuntime, getTenantAlerts, for_tenant. akept_cases. Qed.

Lemma keeps_put_connection c s :
  (checked = true -> Connection_TenantID c = tenantID /\ Connection_UserID c = userID /\
     exists t, MS_tasks s !! Connection_TaskID c = Some t /\ owned t) ->
  keeps s (MemoryStore_PutConnection c s).1.
Proof.
  intros Hc. split; cbn; eauto. intros Hck id c' Hid. destruct (decide (Connection_ConnectionID c = id)) as [<-|Hne].
  - rewrite lookup_insert_eq in Hid. simplify_eq. right. by apply Hc.
  - rewrite lookup_insert_ne in Hid by done. by left.
Qed.

Lemma keeps_delete_connection id s : keeps s (MemoryStore_DeleteConnection id s).1.
Proof. split; cbn; eauto. intros _ id' c Hin. left. by apply lookup_delete_Some in Hin as [_ ?]. Qed.

Lemma akept_connect body (a : A) :
  (checked = true -> exists t, MS_tasks (w_store (api_world a)) !! wb_TaskID body = Some t /\ owned t) ->
  keeps (w_store (api_world a)) (w_store (api_world (connect env checked pusher me body a).1)).
Proof.
  intros Hc. unfold connect. rewrite ST_bind_run. cbn [svc time_Now tick fst snd]. rewrite ST_bind_run. cbn [svc time_Now tick fst snd].
  cbn zeta. rewrite ST_bind_run. etrans.
  2: { match goal with |- keeps _ (w_store (api_world (?m ?b).1)) => refine ((_ : akept m) b) end. akept_cases. }
  unfold svc, on_store. cbn. apply keeps_put_connection. cbn. auto.
Qed.

Lemma akept_handleConnect r : akept (handleConnect env checked pusher me r).
Proof.
  unfold handleConnect. apply akept_body. intros body. destruct (_ || _); [apply akept_ret|]. destruct checked eqn:Eck.
  - intros [w p m]. rewrite ST_bind_run. unfold svc, GetForUser, with_task. rewrite ST_bind_run. cbn. unfold MemoryStore_GetTask.
    destruct (MS_tasks _ !! _) as [t|] eqn:Et; [|done]. destruct (hasTaskAccess _ _ _) eqn:Ea; [|done]. cbn.
    rewrite <- Eck. apply (akept_connect body (mkApi w p m)). intros _. cbn. exists t. split; [done|]. apply access_iff in Ea as (? & ? & _). by split.
  - intros a. rewrite <- Eck. apply akept_connect. congruence.
Qed.

Lemma akept_handleDisconnect r : akept (handleDisconnect me r).
Proof. unfold handleDisconnect. akept_cases. intros s. apply keeps_delete_connection. Qed.

Lemma akept_routes path h r : (path, h) ∈ routes env provider checked pusher -> akept (h me r).
Proof.
  intros Hin. unfold routes in Hin. rewrite !elem_of_cons in Hin.
  destruct_or? Hin; try (injection Hin as -> ->); try (by apply not_elem_of_nil in Hin);
    auto using akept_handleTasks, akept_handleTaskByID, akept_handleTenantByID, akept_handleConnect, akept_handleDisconnect.
Qed.
End as_caller.
End isolation.

Section mux.
Context {S Q P : Type} `{StateStore S} `{MessageQueue Q} `{Pusher P} `{Unicode} `{JSONText} (env : Env).
Context (provider : option (TenantRuntimeProvider Q)) (taskSvc pusher : bool).

Lemma mux_match_route path (h : handler) :
  mux_match env provider taskSvc pusher path = Some h -> exists p, (p, h) ∈ routes env provider taskSvc pusher.
Proof.
  unfold mux_match, longest. destruct (List.find _ _) as [x|] eqn:Ef.
  - apply find_some in Ef as [Hin _]. apply list_elem_of_In in Hin. intros [= <-]. exists x.1. by destruct x.
  - match goal with |- context [sort_slice ?f ?l] => destruct (sort_slice f l) as [|x l'] eqn:Es; [done|];
      assert (Hin : x ∈ l) by (rewrite <- (sort_slice_perm f l), Es; left) end.
    intros [= <-]. apply elem_of_filter_list in Hin as [Hin _]. exists x.1. by destruct x.
Qed.
End mux.

Section served.
Context {Q P : Type} `{MessageQueue Q} `{Pusher P} `{Unicode} `{JSONText} (env : Env).
Context (provider : option (TenantRuntimeProvider Q)) (taskSvc pusher : bool).
Abbreviation A := (Api MemoryStore Q P).
Abbreviation serve := (ServeHTTP (S := MemoryStore) (P := P) env provider taskSvc pusher).

Lemma keeps_served (r : Request) (a : A) :
  let caller := extractIdentityFromRequest r (effectiveAuthMode (env_getenv env)) in
  keeps caller.1 caller.2 taskSvc (w_store (api_world a)) (w_store (api_world (serve r a).1)).
Proof.
  cbn zeta. unfold ServeHTTP. destruct (negb _); [apply keeps_refl|].
  destruct (mux_match _ _ _ _ _) as [h|] eqn:Em; [|destruct (existsb _ _); apply keeps_refl].
  apply mux_match_route in Em as [p Hin]. unfold AuthMiddleware.
  destruct (extractIdentityFromRequest r _) as [tenantID userID] eqn:Ei. cbn [fst snd].
  apply (akept_bind tenantID userID taskSvc); [apply akept_svc, kept_now|]. intros startedAt.
  apply (akept_bind tenantID userID taskSvc); [destruct (String.eqb _ _); [apply akept_svc, kept_id|apply akept_ret]|]. intros requestID.
  apply (akept_bind tenantID userID taskSvc).
  - destruct (String.eqb_spec tenantID ""); [apply akept_ret|]. destruct (String.eqb_spec userID ""); [apply akept_ret|].
    by eapply akept_routes.
  - intros reply. apply (akept_bind tenantID userID taskSvc); [apply akept_svc, kept_now|]. intros now.
    apply (akept_bind tenantID userID taskSvc); [intros b; apply keeps_refl|]. intros _. apply akept_ret.
Qed.

Lemma anonymous_served (r : Request) (a : A) :
  let caller := extractIdentityFromRequest r (effectiveAuthMode (env_getenv env)) in
  let a' := (serve r a).1 in
  caller.1 = "" \/ caller.2 = "" ->
  w_store (api_world a') = w_store (api_world a) /\ w_queue (api_world a') = w_queue (api_world a) /\ api_pusher a' = api_pusher a.
Proof.
  cbn zeta. intros Hc. unfold ServeHTTP. destruct (negb _); [done|]. destruct (mux_match _ _ _ _ _) as [h|]; [|by destruct (existsb _ _)].
  unfold AuthMiddleware. destruct (extractIdentityFromRequest r _) as [tenantID userID]. cbn [fst snd] in Hc.
  assert (E : forall m, (if String.eqb tenantID "" then mret (unauthorized "tenant" m) else if String.eqb userID "" then mret (unauthorized "user" m)
     else h (mkTenantInfo tenantID userID m) r) = mret (unauthorized (if String.eqb tenantID "" then "tenant" else "user") m) :> ST A Reply).
  { intros m. destruct (String.eqb_spec tenantID ""); [done|]. destruct (String.eqb_spec userID ""); [done|]. naive_solver. }
  run_st. destruct (String.eqb (Request_Header r _) _); run_st; rewrite E; by run_st.
Qed.

(** C27: Serving a request, whatever its method, path, headers and body are, never changes a task that
    does not belong to the caller identified by the headers, never changes the owner of a task, never changes
    or removes an existing run or step, and (with a task service) adds only connections of the caller to tasks
    of the caller; a request without an identity leaves store, queue and pusher as they are. *)
Theorem api_isolated (r : Request) (a : A) :
  let caller := extractIdentityFromRequest r (effectiveAuthMode (env_getenv env)) in
  let a' := (serve r a).1 in
  keeps caller.1 caller.2 taskSvc (w_store (api_world a)) (w_store (api_world a')) /\
  (caller.1 = "" \/ caller.2 = "" ->
     w_store (api_world a') = w_store (api_world a) /\ w_queue (api_world a') = w_queue (api_world a) /\ api_pusher a' = api_pusher a).
Proof. split; [apply keeps_served|apply anonymous_served]. Qed.

(** Every connection in the store is one to a task of the user who made it. *)
Definition conns_owned (s : MemoryStore) : Prop :=
  forall id c, MS_connections s !! id = Some c ->
    exists t, MS_tasks s !! Connection_TaskID c = Some t /\ owned (Connection_TenantID c) (Connection_UserID c) t.

Lemma keeps_conns_owned tenantID userID s s' : keeps tenantID userID true s s' -> conns_owned s -> conns_owned s'.
Proof.
  intros Hk Hs id c Hin. destruct (keeps_conns _ _ _ _ _ Hk eq_refl _ _ Hin) as [Hin'|(<- & <- & ?)]; [|done].
  apply Hs in Hin' as (t & Ht & Ho). apply (keeps_owner _ _ _ _ _ Hk) in Ht as (t' & Ht' & E1 & E2).
  exists t'. split; [done|]. destruct Ho. split; congruence.
Qed.

Definition serve_all (l : list Request) (a : A) : A := foldl (fun a r => (serve r a).1) a l.

(** Subscriptions stay inside a user: with a task service configured, after any sequence of requests every
    stored connection belongs to the user who owns the task it streams, if this was so before. *)
Theorem api_subscriptions_owned (l : list Request) (a : A) (Hsvc : taskSvc = true)
    (Hs : conns_owned (w_store (api_world a))) :
  conns_owned (w_store (api_world (serve_all l a))).
Proof.
  revert a Hs. induction l as [|r l IH]; intros a Hs; [done|]. apply IH.
  eapply keeps_conns_owned; [|done]. rewrite <- Hsvc. apply keeps_served.
Qed.
End served.

(** ** Identity *)

Section identity.
Context {S Q P : Type} `{StateStore S} `{MessageQueue Q} `{Pusher P} `{Unicode} `{JSONText} (env : Env).
Context (provider : option (TenantRuntimeProvider Q)) (taskSvc pusher : bool).
Abbreviation A := (Api S Q P).

(** Two requests that differ at most in the headers of the local mode. *)
Record same_but_local (r r' : Request) : Prop := {
  same_method : Request_Method r' = Request_Method r;
  same_path : Request_Path r' = Request_Path r;
  same_query : Request_Query r' = Request_Query r;
  same_body : Request_Body r' = Request_Body r;
  same_headers : forall h, h <> headerTenantID -> h <> headerUserID -> Request_Header r' h = Request_Header r h }.

Lemma same_handlers r r' p (h : handler) :
  same_but_local r r' -> (p, h) ∈ routes env provider taskSvc pusher -> forall me, h me r' = h me r :> ST A Reply.
Proof.
  destruct r as [m path hd q b], r' as [m' path' hd' q' b']. intros [? ? ? ? Hh] Hin me. cbn in *. subst. unfold routes in Hin. rewrite !elem_of_cons in Hin.
  destruct_or? Hin; try (injection Hin as -> ->); try (by apply not_elem_of_nil in Hin); try reflexivity;
    unfold handleTasks, createTask, is_method, with_body; cbn [Request_Method Request_Body Request_Header]; by rewrite (Hh "Idempotency-Key").
Qed.

(** In trusted mode the headers X-Tenant-Id and X-User-Id, which a client can choose, have no influence
    at all: two requests that differ at most in them get the same response and cause the same changes. *)
Theorem api_trusted_identity (r r' : Request) (Hmode : effectiveAuthMode (env_getenv env) = authModeTrusted)
    (Hsame : same_but_local r r') (a : A) :
  ServeHTTP env provider taskSvc pusher r' a = ServeHTTP env provider taskSvc pusher r a.
Proof.
  unfold ServeHTTP, is_method. rewrite (same_path _ _ Hsame), (same_method _ _ Hsame). destruct (negb _); [done|].
  destruct (mux_match _ _ _ _ _) as [h|] eqn:Em; [|done]. apply mux_match_route in Em as [p Hin].
  unfold AuthMiddleware, extractIdentityFromRequest. rewrite Hmode.
  change (String.eqb authModeTrusted authModeTrusted) with true. cbn iota.
  rewrite !(same_headers _ _ Hsame) by done. pose proof (same_handlers r r' p h Hsame Hin) as Eh.
  rewrite !ST_bind_run. by rewrite Eh.
Qed.
End identity.

(** ** Hidden tasks *)

Section hiding.
Context {S Q P : Type} `{HS : StateStore S} `{HL : !StateStoreLaws S} `{MessageQueue Q} `{Pusher P} `{Unicode} `{JSONText} (env : Env).
Abbreviation A := (Api S Q P).

Lemma reply_hidden {X} (m : ST (World S Q) (result error X)) ok failed (a : A) :
  m (api_world a) = (api_world a, Err ErrNotFound) -> reply_to m ok failed a = (a, failed ErrNotFound).
Proof. intros Hm. unfold reply_to, svc. rewrite ST_bind_run, Hm. cbn. by destruct a. Qed.

(** The answer to a request for a task that the caller may not see. *)
Definition hidden_answer (me : TenantInfo) (taskID : string) (m : ST A Reply) : Prop :=
  exists reply, Reply_Status reply ∈ [400; 404; 405] /\
    forall a : A, hidden (TenantInfo_TenantID me) (TenantInfo_UserID me) taskID (w_store (api_world a)) -> m a = (a, reply).

Lemma hidden_ret me taskID reply : Reply_Status reply ∈ [400; 404; 405] -> hidden_answer me taskID (mret reply).
Proof. intros Hr. by exists reply. Qed.

Lemma hidden_body {X} me taskID (fields : list (field (S := X))) zero msg r (k : X -> ST A Reply) :
  (forall b, hidden_answer me taskID (k b)) -> hidden_answer me taskID (with_body fields zero msg r k).
Proof. intros Hk. unfold with_body. destruct (decode_into _ _ _); [apply Hk|]. apply hidden_ret. set_solver. Qed.

(** A call that ends with [ErrNotFound] for a hidden task. *)
Lemma hidden_reply {X} me taskID (m : ST (World S Q) (result error X)) ok failed :
  Reply_Status (failed ErrNotFound) ∈ [400; 404; 405] ->
  (forall w, hidden (TenantInfo_TenantID me) (TenantInfo_UserID me) taskID (w_store w) -> m w = (w, Err ErrNotFound)) ->
  hidden_answer me taskID (reply_to m ok failed).
Proof. intros Hr Hm. exists (failed ErrNotFound). split; [done|]. intros a Ha. apply reply_hidden. by apply Hm. Qed.

Lemma hidden_404 me msg : Reply_Status (not_found_or_internal me msg ErrNotFound) ∈ [400; 404; 405].
Proof. cbn. set_solver. Qed.

Lemma hidden_error {X} me taskID e ok failed :
  Reply_Status (failed e) ∈ [400; 404; 405] ->
  hidden_answer me taskID (reply_to (mret (Err e : result error X)) ok failed).
Proof. intros Hr. exists (failed e). split; [done|]. intros [w p m] _. done. Qed.

Ltac hidden_cases :=
  repeat first
    [ apply hidden_ret; set_solver
    | apply hidden_body; intros
    | match goal with |- hidden_answer _ _ (if ?b then _ else _) => destruct b end
    | match goal with |- hidden_answer _ _ (match ?x with _ => _ end) => destruct x end
    | apply hidden_reply; [first [apply hidden_404 | cbn; set_solver]|intros ? ?; by apply with_task_hidden] ].

Lemma hidden_abort me r taskID : TenantInfo_UserID me <> "" -> hidden_answer me taskID (abortTask env me r taskID).
Proof.
  intros Hu. apply hidden_body. intros reason. apply hidden_reply; [apply hidden_404|]. intros w Hw. unfold Abort. cbn.
  rewrite bool_decide_false by done. by apply with_task_hidden.
Qed.

Lemma hidden_resume me r taskID : hidden_answer me taskID (resumeTask env me r taskID).
Proof.
  apply hidden_body. intros body. destruct (String.eqb _ ""); [apply hidden_ret; set_solver|].
  unfold Resume. cbn [ResumeRequest_TenantID ResumeRequest_UserID].
  destruct (is_blank _); [apply hidden_error; cbn; set_solver|]. destruct (is_blank _); [apply hidden_error; cbn; set_solver|].
  hidden_cases.
Qed.

Lemma hidden_runs me r taskID rest : hidden_answer me taskID (handle_runs me r taskID rest).
Proof. unfold handle_runs, getRun, replayEvents, compactEvents, listSteps. hidden_cases. Qed.

(** C28: A request about a task of somebody else is answered exactly as one about a task that does not
    exist: the reply depends only on the request, has status 400, 404 or 405, and nothing changes.  So the
    API cannot be used to find out which task ids exist. *)
Theorem api_foreign_hidden (me : TenantInfo) (r : Request) (taskID : string) (rest : list string)
    (Huser : TenantInfo_UserID me <> "")
    (Hpath : Split (TrimPrefix (normalizeAPIPath (Request_Path r)) "/tasks/") "/" = taskID :: rest) :
  hidden_answer me taskID (handleTaskByID env me r).
Proof.
  unfold handleTaskByID. rewrite Hpath. destruct taskID as [|c taskID]; [apply hidden_ret; set_solver|]. destruct rest as [|op rest].
  - unfold getTask. hidden_cases.
  - destruct (_ && _); [by apply hidden_abort|]. destruct (_ && _); [apply hidden_resume|].
    destruct (String.eqb op "runs"); [apply hidden_runs|]. apply hidden_ret. set_solver.
Qed.
End hiding.

(** ** Concrete requests *)

Module api_demo.
#[local] Existing Instance ascii_unicode.
#[local] Instance demo_queue : MessageQueue MemoryQueue :=
  MemoryQueue_MessageQueue (fun n => (Z.of_nat n * Second, fun k => Z.of_nat (n + k) * Second, true)).

(** A pusher that counts. *)
#[local] Instance demo_pusher : Pusher nat := fun _ _ p => (Datatypes.S p, (true, None)).
#[local] Instance demo_json : JSONText :=
  {| json_type_error := fun _ t => errors_New ("json: cannot unmarshal value into Go value of type " +:+ t) |}.

Definition demo_env (mode : string) : Env :=
  mkEnv (fun n => Z.of_nat n * Second) (fun n => repeat (ascii_of_nat n) 12)
    (fun k => if String.eqb k "AGENTFORGE_AUTH_MODE" then mode else "").

Definition task (id tenant : string) : Task :=
  mkTask id tenant "ann" TaskStatusQueued "r1" false "" None "" "write" None 0 0.

(** The tasks t1 of the tenant acme and t2 of the tenant other. *)
Definition process : Api MemoryStore MemoryQueue nat :=
  mkApi (mkWorld (NewMemoryStore <| MS_tasks := {["t1" := task "t1" "acme"; "t2" := task "t2" "other"]} |>) (NewMemoryQueue 10) 0)
    0%nat (mkRequestMetrics 0 0 0 0 0 0 0 0).

Definition request (method path tenant body : string) : Request :=
  mkRequest method path
    (fun h => if String.eqb h headerTenantID then tenant else if String.eqb h headerUserID then "ann"
              else if String.eqb h headerTrustedTenantID then "acme" else if String.eqb h headerTrustedUserID then "ann" else "")
    (fun _ => "") body.

Definition create_text : string := json_sample "{`prompt`: `write a report`, `model_config`: {`model_id`: `gpt-4o`, `max_tokens`: 1e2}}".
Definition abort_text : string := json_sample "{`reason`: `late`} {}".
Definition connect_text (task : string) : string := json_sample ("{`connection_id`:`c1`,`task_id`:`" +:+ task +:+ "`}").

Abbreviation serve mode := (ServeHTTP (demo_env mode) None true true).
Abbreviation status mode r := (Reply_Status (Response_Reply (serve mode r process).2)).

Example statuses :
  status "" (request "GET" "/tasks/t1" "acme" "") = 200 /\ status "" (request "GET" "/v1/tasks/t1" "other" "") = 404 /\
  status "" (request "GET" "/v1/tasks/t9" "other" "") = 404 /\ status "" (request "GET" "/tasks/t1" "" "") = 401 /\
  status "trusted" (request "GET" "/tasks/t1" "other" "") = 200 /\ status "" (request "POST" "/tasks" "acme" create_text) = 201 /\
  status "" (request "POST" "/tasks/t1/abort" "acme" abort_text) = 200 /\ status "" (request "POST" "/tasks/t1/abort" "other" abort_text) = 404 /\
  status "" (request "PUT" "/tasks/t1" "acme" "") = 405 /\ status "" (request "GET" "/tasks/../tasks/t1" "acme" "") = 301 /\
  status "" (request "POST" "/ws/connect" "other" (connect_text "t1")) = 404.
Proof. vm_compute. by split_and!. Qed.

(** A registration replaces the one of another tenant that has the same connection id. *)
Example connection_taken :
  let a := serve_all (demo_env "") None true true
    [request "POST" "/ws/connect" "acme" (connect_text "t1"); request "POST" "/ws/connect" "other" (connect_text "t2")] process in
  (Connection_TenantID <$> MS_connections (w_store (api_world a)) !! "c1") = Some "other".
Proof. vm_compute. reflexivity. Qed.

Lemma api_foreign_hidden_witness :
  let me := mkTenantInfo "other" "ann" "q" in
  hidden_answer me "t1" (handleTaskByID (demo_env "") me (request "POST" "/v1/tasks/t1/abort" "other" abort_text) : ST (Api MemoryStore MemoryQueue nat) Reply) /\
  hidden "other" "ann" "t1" (w_store (api_world process)).
Proof.
  cbn zeta. split.
  - apply (api_foreign_hidden (demo_env "") _ _ "t1" ["abort"]); [discriminate|vm_compute; reflexivity].
  - intros t Ht [Hten _]. vm_compute in Ht. injection Ht as <-. vm_compute in Hten. discriminate.
Defined.

Lemma api_subscriptions_owned_witness :
  let l := [request "POST" "/ws/connect" "acme" (connect_text "t1"); request "POST" "/ws/connect" "other" (connect_text "t1")] in
  conns_owned (w_store (api_world (serve_all (demo_env "") None true true l process))) /\
  size (MS_connections (w_store (api_world (serve_all (demo_env "") None true true l process)))) = 1%nat.
Proof.
  cbn zeta. split; [|vm_compute; reflexivity]. apply api_subscriptions_owned; [reflexivity|].
  intros id c Hc. vm_compute in Hc. discriminate.
Defined.

Lemma api_trusted_identity_witness :
  serve "trusted" (request "POST" "/tasks/t1/abort" "other" abort_text) process = serve "trusted" (request "POST" "/tasks/t1/abort" "acme" abort_text) process.
Proof.
  apply api_trusted_identity; [vm_compute; reflexivity|]. split; try reflexivity.
  intros h H1 H2. cbn. rewrite <- String.eqb_neq in H1, H2. by rewrite H1, H2.
Defined.
End api_demo.
