(* ===== verification/SQSQueue.v ===== *)
(** * SQSQueue: the production queue (src/pkg/queue/sqs_queue.go)

    [SQSQueue] on Amazon SQS: the construction, the messages that Enqueue sends, and the
    consumer.  A goroutine of the consumer is a program [prog] that makes calls (of the service
    and of the handler) and continues with their answers; the goroutines of a batch, the
    heartbeats and the polling loop run interleaved in the step relation [cstep].  The service
    is outside: its answers are arbitrary.  Log lines are left out. *)

From Stdlib Require Import Ascii.
From S2P Require Import Prelude GoLib JSON Strconv Model MemoryQueue Encoding.

(** ** Construction *)

Definition defaultSQSWaitTimeSeconds : Z := 20.
Definition defaultSQSVisibilityTimeoutSecs : Z := 300.
Definition defaultSQSMaxMessages : Z := 10.

Record SQSQueueConfig : Type := mkSQSQueueConfig {
  SQSQueueConfig_QueueURL : string;
  SQSQueueConfig_WaitTimeSeconds : Z;
  SQSQueueConfig_VisibilityTimeout : Z;
  SQSQueueConfig_MaxMessages : Z }.

Record SQSQueue : Type := mkSQSQueue {
  sq_queueURL : string;
  sq_waitTimeSeconds : Z;
  sq_visibilityTimeout : Z;
  sq_maxMessages : Z;
  sq_handlerConcurrency : Z;
  sq_isFIFO : bool }.

(** [client] tells whether there is a client. *)
Definition NewSQSQueue (client : bool) (cfg : SQSQueueConfig) : result error SQSQueue :=
  if negb client then Err (errors_New "queue: sqs client is required")
  else if String.eqb (TrimSpace (SQSQueueConfig_QueueURL cfg)) "" then Err (errors_New "queue: queue url is required")
  else
    let wait := if SQSQueueConfig_WaitTimeSeconds cfg <=? 0 then defaultSQSWaitTimeSeconds else SQSQueueConfig_WaitTimeSeconds cfg in
    let vis := if SQSQueueConfig_VisibilityTimeout cfg <=? 0 then defaultSQSVisibilityTimeoutSecs else SQSQueueConfig_VisibilityTimeout cfg in
    let max := if (SQSQueueConfig_MaxMessages cfg <=? 0) || (10 <? SQSQueueConfig_MaxMessages cfg) then defaultSQSMaxMessages
               else SQSQueueConfig_MaxMessages cfg in
    let queueURL := TrimSpace (SQSQueueConfig_QueueURL cfg) in
    Ok (mkSQSQueue queueURL wait vis max max (HasSuffix queueURL ".fifo")).

(** ** Messages *)

(** [json.Marshal] of a float. *)
Definition marshal_float (x : float64) : result error JSON :=
  match json_float x with
  | Some lit => Ok (JNum lit)
  | None => Err (errors_New ("json: unsupported value: " +:+ fmt_f 0 x))
  end.

(** The struct as JSON; empty fields marked omitempty are left out. *)
Definition SQSMessage_value (m : SQSMessage) : result error JSON :=
  let cost := if f_leb (SQSMessage_EstimatedCost m) f_zero && f_geb (SQSMessage_EstimatedCost m) f_zero then Ok []
              else match marshal_float (SQSMessage_EstimatedCost m) with Ok v => Ok [("estimated_cost_usd", v)] | Err e => Err e end in
  match cost with
  | Err e => Err e
  | Ok cost =>
      Ok (JObj ([("tenant_id", JStr (SQSMessage_TenantID m)); ("task_id", JStr (SQSMessage_TaskID m)); ("run_id", JStr (SQSMessage_RunID m))]
        ++ (if String.eqb (SQSMessage_TaskType m) "" then [] else [("task_type", JStr (SQSMessage_TaskType m))])
        ++ [("submitted_at", JNum (fmt_d (SQSMessage_SubmittedAt m))); ("attempt", JNum (fmt_d (SQSMessage_Attempt m)))]
        ++ (if String.eqb (SQSMessage_DedupeKey m) "" then [] else [("dedupe_key", JStr (SQSMessage_DedupeKey m))])
        ++ (if SQSMessage_EstimatedTokens m =? 0 then [] else [("estimated_tokens", JNum (fmt_d (SQSMessage_EstimatedTokens m)))])
        ++ cost))
  end.

Definition zero_message : SQSMessage := mkSQSMessage "" "" "" "" 0 0 "" 0 f_zero.

#[local] Instance SQSMessage_eta : Eta SQSMessage := fun m => mkSQSMessage
  (SQSMessage_TenantID m) (SQSMessage_TaskID m) (SQSMessage_RunID m) (SQSMessage_TaskType m) (SQSMessage_SubmittedAt m)
  (SQSMessage_Attempt m) (SQSMessage_DedupeKey m) (SQSMessage_EstimatedTokens m) (SQSMessage_EstimatedCost m).

Section decoding.
Context `{JSONText}.

Definition SQSMessage_fields : list (field (S := SQSMessage)) :=
  [("tenant_id", set_with json_string (fun v m => m <| SQSMessage_TenantID := v |>));
   ("task_id", set_with json_string (fun v m => m <| SQSMessage_TaskID := v |>));
   ("run_id", set_with json_string (fun v m => m <| SQSMessage_RunID := v |>));
   ("task_type", set_with json_string (fun v m => m <| SQSMessage_TaskType := v |>));
   ("submitted_at", set_with json_int (fun v m => m <| SQSMessage_SubmittedAt := v |>));
   ("attempt", set_with json_int (fun v m => m <| SQSMessage_Attempt := v |>));
   ("dedupe_key", set_with json_string (fun v m => m <| SQSMessage_DedupeKey := v |>));
   ("estimated_tokens", set_with json_int (fun v m => m <| SQSMessage_EstimatedTokens := v |>));
   ("estimated_cost_usd", set_with json_float64 (fun v m => m <| SQSMessage_EstimatedCost := v |>))].
End decoding.

Definition groupIDForMessage (msg : option SQSMessage) : string :=
  match msg with
  | None => "default"
  | Some m =>
      let task := negb (String.eqb (SQSMessage_TaskID m) "") in
      let run := negb (String.eqb (SQSMessage_RunID m) "") in
      if task && run then SQSMessage_TaskID m +:+ "#" +:+ SQSMessage_RunID m
      else if task then SQSMessage_TaskID m
      else if run then SQSMessage_RunID m
      else if negb (String.eqb (SQSMessage_TenantID m) "") then SQSMessage_TenantID m
      else "default"
  end.

Definition dedupeIDForMessage (msg : option SQSMessage) : string :=
  match msg with
  | None => ""
  | Some m =>
      if negb (String.eqb (SQSMessage_DedupeKey m) "") then SQSMessage_DedupeKey m
      else SQSMessage_TaskID m +:+ "#" +:+ SQSMessage_RunID m
  end.

Record SendMessageInput : Type := mkSendMessageInput {
  SendMessageInput_QueueUrl : string;
  SendMessageInput_MessageBody : string;
  SendMessageInput_MessageGroupId : option string;
  SendMessageInput_MessageDeduplicationId : option string }.
#[global] Instance SendMessageInput_eta : Eta SendMessageInput := fun i => mkSendMessageInput
  (SendMessageInput_QueueUrl i) (SendMessageInput_MessageBody i) (SendMessageInput_MessageGroupId i) (SendMessageInput_MessageDeduplicationId i).

Section queue.
Context `{JSONText} (q : SQSQueue).

Definition buildSendMessageInput (body : string) : SendMessageInput := mkSendMessageInput (sq_queueURL q) body None None.

(** At least one. *)
Definition at_least_one (m : SQSMessage) : SQSMessage := if SQSMessage_Attempt m <=? 0 then m <| SQSMessage_Attempt := 1 |> else m.

(** The request that Enqueue makes. *)
Definition enqueue_input (msg : option SQSMessage) : result error SendMessageInput :=
  match msg with
  | None => Err (errors_New "queue: enqueue: nil message")
  | Some m =>
      let cp := at_least_one m in
      match SQSMessage_value cp with
      | Err e => Err (wrapf "queue: marshal message: " e)
      | Ok v =>
          let input := buildSendMessageInput (json_render v) in
          Ok (if sq_isFIFO q
              then input <| SendMessageInput_MessageGroupId := Some (groupIDForMessage (Some cp)) |>
                         <| SendMessageInput_MessageDeduplicationId := Some (dedupeIDForMessage (Some cp)) |>
              else input)
      end
  end.

(** [SendMessage] is the service. *)
Definition SQS_Enqueue {Q} (SendMessage : SendMessageInput -> Q -> Q * option error) (msg : option SQSMessage) (s : Q) : Q * result error unit :=
  match enqueue_input msg with
  | Err e => (s, Err e)
  | Ok input =>
      match SendMessage input s with
      | (s, Some e) => (s, Err (wrapf "queue: sqs send message: " e))
      | (s, None) => (s, Ok tt)
      end
  end.

Definition SQS_HealthCheck (answer : option error) : option error :=
  match answer with Some e => Some (wrapf "queue: sqs health check: " e) | None => None end.

(** ** Goroutines *)

(** A received message. *)
Record Message : Type := mkMessage {
  Message_Body : option string;
  Message_ReceiptHandle : option string;
  Message_Attributes : gmap string string }.

(** The calls of a goroutine; each is answered by an error or by success. *)
Inductive call : Type :=
| CallHandler (msg : SQSMessage)
| DeleteMessage (handle : string)
| ChangeMessageVisibility (handle : string) (seconds : Z)
| StartHeartbeat (handle : string) (interval : Duration)
| StopHeartbeat.

Inductive prog : Type :=
| Return
| Call (c : call) (k : option error -> prog).

(** The receipt handle, if there is one. *)
Definition handle_of (m : Message) : option string :=
  match Message_ReceiptHandle m with
  | Some h => if String.eqb h "" then None else Some h
  | None => None
  end.

(** A failed deletion is only logged. *)
Definition deleteMessage (m : Message) : prog :=
  match handle_of m with None => Return | Some h => Call (DeleteMessage h) (fun _ => Return) end.

Definition retryVisibility : Z :=
  if (0 <? sq_visibilityTimeout q) && (sq_visibilityTimeout q <? 1) then sq_visibilityTimeout q else 1.

Definition accelerateRetry (m : Message) : prog :=
  match handle_of m with None => Return | Some h => Call (ChangeMessageVisibility h retryVisibility) (fun _ => Return) end.

(** The time between heartbeats, if there are any. *)
Definition heartbeat_interval : option Duration :=
  if sq_visibilityTimeout q <=? 1 then None
  else let interval := Z.quot (sq_visibilityTimeout q) 2 * Second in Some (if interval <? 5 * Second then 5 * Second else interval).

Definition startVisibilityHeartbeat (m : Message) : option (string * Duration) :=
  match handle_of m, heartbeat_interval with Some h, Some d => Some (h, d) | _, _ => None end.

(** The message for the handler; its attempt is the number of deliveries. *)
Definition with_receive_count (m : Message) (msg : SQSMessage) : SQSMessage :=
  match Message_Attributes m !! "ApproximateReceiveCount" with
  | Some raw =>
      match Atoi raw with
      | Some rc => if 0 <? rc then msg <| SQSMessage_Attempt := rc |> else msg
      | None => msg
      end
  | None => msg
  end.

Definition decode_message (m : Message) : option SQSMessage :=
  match Message_Body m with
  | None => None
  | Some body =>
      match json_Unmarshal_struct SQSMessage_fields body zero_message with
      | Err _ => None
      | Ok msg => Some (at_least_one (with_receive_count m msg))
      end
  end.

(** The handler, then the deletion of the message or its early return to the queue. *)
Definition handle_with (m : Message) (msg : SQSMessage) (stop : prog -> prog) : prog :=
  Call (CallHandler msg) (fun err =>
    stop (match err with Some _ => accelerateRetry m | None => deleteMessage m end)).

Definition processMessage (m : Message) : prog :=
  match decode_message m with
  | None => deleteMessage m
  | Some msg =>
      match startVisibilityHeartbeat m with
      | Some (h, d) => Call (StartHeartbeat h d) (fun _ => handle_with m msg (fun p => Call StopHeartbeat (fun _ => p)))
      | None => handle_with m msg (fun p => p)
      end
  end.
End queue.

(** ** The consumer *)

Inductive phase : Type :=
| PLoop                                    (* the head of the polling loop *)
| PReceive                                 (* inside ReceiveMessage *)
| PBackoff                                 (* after a failed receive *)
| PBatch (todo : list Message)             (* processBatch, before the next message *)
| PAcquire (m : Message) (todo : list Message)   (* waiting for a slot *)
| PWait                                    (* wg.Wait *)
| PReturned (e : error).

(** A goroutine of a batch, named by the number of its delivery. *)
Record proc : Type := mkProc { proc_id : nat; proc_prog : prog }.

(** A heartbeat, and whether it was told to stop. *)
Record beat : Type := mkBeat { beat_id : nat; beat_handle : string; beat_stopped : bool }.

Inductive entry : Type :=
| EReceived (messages : list Message)
| ECall (id : nat) (c : call) (answer : option error)
| EBeat (id : nat) (handle : string) (seconds : Z).

Record consumer : Type := mkConsumer {
  cn_phase : phase;
  cn_backoff : Duration;
  cn_ctx : option error;                   (* ctx.Err() *)
  cn_slots : Z;                            (* the capacity of sem *)
  cn_procs : list proc;
  cn_beats : list beat;
  cn_started : list Message;               (* the deliveries started, in order *)
  cn_log : list entry }.
#[global] Instance consumer_eta : Eta consumer := fun c => mkConsumer
  (cn_phase c) (cn_backoff c) (cn_ctx c) (cn_slots c) (cn_procs c) (cn_beats c) (cn_started c) (cn_log c).

Definition nextBackoff (b : Duration) : Duration :=
  if b <? 30 * Second then (if 30 * Second <? b * 2 then 30 * Second else b * 2) else b.

(** The capacity of the semaphore of a batch. *)
Definition batch_slots (q : SQSQueue) (messages : list Message) : Z :=
  let concurrency := if sq_handlerConcurrency q <=? 0 then 1 else sq_handlerConcurrency q in
  if Z.of_nat (length messages) <? concurrency then Z.of_nat (length messages) else concurrency.

Definition beats_after (id : nat) (c : call) (l : list beat) : list beat :=
  match c with
  | StartHeartbeat h _ => mkBeat id h false :: l
  | StopHeartbeat => map (fun b => if Nat.eqb (beat_id b) id then mkBeat id (beat_handle b) true else b) l
  | _ => l
  end.

Section consumer.
Context `{JSONText} (q : SQSQueue).

Definition StartConsumer : consumer := mkConsumer PLoop Second None 0 [] [] [] [].

Inductive cstep (c : consumer) : consumer -> Prop :=
| s_cancel e : cn_ctx c = None -> cstep c (c <| cn_ctx := Some e |>)
| s_loop_return e : cn_phase c = PLoop -> cn_ctx c = Some e -> cstep c (c <| cn_phase := PReturned e |>)
| s_loop : cn_phase c = PLoop -> cn_ctx c = None -> cstep c (c <| cn_phase := PReceive |>)
| s_receive_return e : cn_phase c = PReceive -> cn_ctx c = Some e -> cstep c (c <| cn_phase := PReturned e |>)
| s_receive_fail : cn_phase c = PReceive -> cn_ctx c = None -> cstep c (c <| cn_phase := PBackoff |>)
| s_receive_none : cn_phase c = PReceive -> cstep c (c <| cn_phase := PLoop |> <| cn_backoff := Second |> <| cn_log ::= (.++ [EReceived []]) |>)
| s_receive m ms : cn_phase c = PReceive ->
    cstep c (c <| cn_phase := PBatch (m :: ms) |> <| cn_backoff := Second |> <| cn_slots := batch_slots q (m :: ms) |>
               <| cn_log ::= (.++ [EReceived (m :: ms)]) |>)
| s_backoff_return e : cn_phase c = PBackoff -> cn_ctx c = Some e -> cstep c (c <| cn_phase := PReturned e |>)
| s_backoff : cn_phase c = PBackoff -> cstep c (c <| cn_phase := PLoop |> <| cn_backoff ::= nextBackoff |>)
| s_batch_cancelled m ms e : cn_phase c = PBatch (m :: ms) -> cn_ctx c = Some e -> cstep c (c <| cn_phase := PWait |>)
| s_batch_next m ms : cn_phase c = PBatch (m :: ms) -> cn_ctx c = None -> cstep c (c <| cn_phase := PAcquire m ms |>)
| s_batch_end : cn_phase c = PBatch [] -> cstep c (c <| cn_phase := PWait |>)
| s_acquire m ms : cn_phase c = PAcquire m ms -> Z.of_nat (length (cn_procs c)) < cn_slots c ->
    cstep c (c <| cn_phase := PBatch ms |> <| cn_started ::= (.++ [m]) |>
               <| cn_procs ::= cons (mkProc (length (cn_started c)) (processMessage q m)) |>)
| s_wait : cn_phase c = PWait -> cn_procs c = [] ->
    cstep c (c <| cn_phase := match cn_ctx c with Some e => PReturned e | None => PLoop end |>)
| s_call id x k l1 l2 answer : cn_procs c = l1 ++ mkProc id (Call x k) :: l2 ->
    cstep c (c <| cn_procs := l1 ++ mkProc id (k answer) :: l2 |> <| cn_beats ::= beats_after id x |>
               <| cn_log ::= (.++ [ECall id x answer]) |>)
| s_done id l1 l2 : cn_procs c = l1 ++ mkProc id Return :: l2 -> cstep c (c <| cn_procs := l1 ++ l2 |>)
| s_beat b : b ∈ cn_beats c -> cstep c (c <| cn_log ::= (.++ [EBeat (beat_id b) (beat_handle b) (sq_visibilityTimeout q)]) |>)
| s_beat_exit b l1 l2 : cn_beats c = l1 ++ b :: l2 -> beat_stopped b = true \/ is_Some (cn_ctx c) ->
    cstep c (c <| cn_beats := l1 ++ l2 |>).

Definition reachable : consumer -> Prop := rtc cstep StartConsumer.

(** ** What a delivery does *)

(** The calls of a delivery so far. *)
Definition calls_of (id : nat) (l : list entry) : list (call * option error) :=
  omap (fun e => match e with ECall i c a => if Nat.eqb i id then Some (c, a) else None | _ => None end) l.

(** What is left of a program after some calls. *)
Inductive after : prog -> list (call * option error) -> prog -> Prop :=
| after_nil p : after p [] p
| after_call c k a l p : after (k a) l p -> after (Call c k) ((c, a) :: l) p.

Lemma after_app p l p' c k a : after p l p' -> p' = Call c k -> after p (l ++ [(c, a)]) (k a).
Proof. induction 1 as [p|c' k' a' l p' _ IH]; [intros ->; repeat constructor|]. intros ->. constructor. by apply IH. Qed.

Lemma after_split p l1 l2 p' : after p (l1 ++ l2) p' -> exists p1, after p l1 p1 /\ after p1 l2 p'.
Proof.
  revert p. induction l1 as [|[c a] l1 IH]; intros p Ha; cbn in Ha; [exists p; by split; [constructor|]|].
  inversion Ha as [|? k ? ? ? Hk]; subst. apply IH in Hk as (p1 & ? & ?). exists p1. by split; [constructor|].
Qed.

Lemma calls_of_app id l1 l2 : calls_of id (l1 ++ l2) = calls_of id l1 ++ calls_of id l2.
Proof. apply omap_app. Qed.

Lemma calls_of_elem id l c a : (c, a) ∈ calls_of id l -> ECall id c a ∈ l.
Proof.
  unfold calls_of. rewrite list_elem_of_omap. intros (e & He & Hc). destruct e as [|i c' a'|]; try done.
  destruct (Nat.eqb_spec i id) as [->|]; [|done]. by simplify_eq.
Qed.

(** A deletion follows an undecodable body or a handler that returned nil. *)
Lemma delete_follows m l h a l' p : after (processMessage q m) (l ++ (DeleteMessage h, a) :: l') p ->
  handle_of m = Some h /\ (decode_message m = None \/ exists msg, decode_message m = Some msg /\ (CallHandler msg, None) ∈ l).
Proof.
  intros Ha. apply after_split in Ha as (p1 & Hl & Hr). inversion Hr as [|? k ? ? ? _]; subst. clear Hr.
  unfold processMessage, handle_with, deleteMessage, accelerateRetry in Hl.
  destruct (decode_message m) as [msg|]; [|destruct (handle_of m) as [h'|]; [|by inversion Hl]; split; [|by left]; inversion Hl as [|? ? ? ? ? Hn]; subst; [done|by inversion Hn]].
  assert (Hend : forall p0, (p0 = fun err : option error => match err with
      | Some _ => match handle_of m with Some h0 => Call (ChangeMessageVisibility h0 (retryVisibility q)) (fun _ => Return) | None => Return end
      | None => match handle_of m with Some h0 => Call (DeleteMessage h0) (fun _ => Return) | None => Return end end) ->
      forall err l0, after (p0 err) l0 (Call (DeleteMessage h) k) -> err = None /\ handle_of m = Some h).
  { intros p0 -> err l0 Hx. destruct err as [e|], (handle_of m) as [h0|]; inversion Hx as [|? ? ? ? ? Hn]; subst; try done; by inversion Hn. }
  destruct (startVisibilityHeartbeat q m) as [[h' d]|].
  - inversion Hl as [|? ? ? l1 ? Hl1]; subst. inversion Hl1 as [|? ? err l2 ? Hl2]; subst. inversion Hl2 as [|? ? ? l3 ? Hl3]; subst.
    destruct (Hend _ eq_refl err l3 Hl3) as [-> ->]. split; [done|]. right. exists msg. split; [done|]. set_solver.
  - inversion Hl as [|? ? err l1 ? Hl1]; subst. destruct (Hend _ eq_refl err l1 Hl1) as [-> ->]. split; [done|]. right. exists msg. split; [done|]. set_solver.
Qed.
End consumer.

(** ** Invariants *)

Section invariants.
Context `{JSONText} (q : SQSQueue).

#[local] Arguments calls_of : simpl never.

(** All messages received so far. *)
Definition received (l : list entry) : list Message :=
  concat (map (fun e => match e with EReceived ms => ms | _ => [] end) l).

#[local] Arguments received : simpl never.

(** The messages of the batch that were not started yet. *)
Definition todo_of (p : phase) : list Message :=
  match p with PBatch ms => ms | PAcquire m ms => m :: ms | _ => [] end.

Definition in_batch (p : phase) : bool :=
  match p with PBatch _ | PAcquire _ _ | PWait => true | _ => false end.

Definition max_slots : Z := Z.max 1 (sq_handlerConcurrency q).

Record cinv (c : consumer) : Prop := {
  inv_ids : NoDup (proc_id <$> cn_procs c);
  inv_started : Forall (fun p => (proc_id p < length (cn_started c))%nat) (cn_procs c);
  inv_trace : forall id m, cn_started c !! id = Some m ->
    exists p, after (processMessage q m) (calls_of id (cn_log c)) p /\
      (mkProc id p ∈ cn_procs c \/ p = Return /\ id ∉ (proc_id <$> cn_procs c));
  inv_fresh : forall id, (length (cn_started c) <= id)%nat -> calls_of id (cn_log c) = [];
  inv_slots : in_batch (cn_phase c) = true -> 1 <= cn_slots c <= max_slots /\ Z.of_nat (length (cn_procs c)) <= cn_slots c;
  inv_idle : in_batch (cn_phase c) = false -> cn_procs c = [];
  inv_received : cn_ctx c = None -> received (cn_log c) = cn_started c ++ todo_of (cn_phase c);
  inv_backoff : Second <= cn_backoff c <= 30 * Second }.

Lemma received_app l1 l2 : received (l1 ++ l2) = received l1 ++ received l2.
Proof. unfold received. by rewrite map_app, concat_app. Qed.

Lemma calls_of_received id l ms : calls_of id (l ++ [EReceived ms]) = calls_of id l.
Proof. rewrite calls_of_app. unfold calls_of at 2. cbn. by rewrite app_nil_r. Qed.

Lemma calls_of_beat id l i h s : calls_of id (l ++ [EBeat i h s]) = calls_of id l.
Proof. rewrite calls_of_app. unfold calls_of at 2. cbn. by rewrite app_nil_r. Qed.

Lemma calls_of_call id l i x a : calls_of id (l ++ [ECall i x a]) = calls_of id l ++ (if Nat.eqb i id then [(x, a)] else []).
Proof. rewrite calls_of_app. unfold calls_of at 2. cbn. by destruct (Nat.eqb i id). Qed.

Lemma cinv_start : cinv StartConsumer.
Proof. split; cbn; try done; first [constructor|unfold Second; lia]. Qed.

(** Steps that change neither goroutines nor deliveries. *)
Lemma cinv_quiet c c' :
  cinv c -> cn_procs c' = cn_procs c -> cn_started c' = cn_started c -> (forall id, calls_of id (cn_log c') = calls_of id (cn_log c)) ->
  (in_batch (cn_phase c') = true -> 1 <= cn_slots c' <= max_slots /\ Z.of_nat (length (cn_procs c)) <= cn_slots c') ->
  (in_batch (cn_phase c') = false -> cn_procs c = []) ->
  (cn_ctx c' = None -> received (cn_log c') = cn_started c ++ todo_of (cn_phase c')) ->
  Second <= cn_backoff c' <= 30 * Second -> cinv c'.
Proof.
  intros [H1 H2 H3 H4 H5 H6 H7 H8] Ep Es El Hs Hi Hr Hb. split; rewrite ?Ep, ?Es; try done.
  - intros id m Hm. rewrite El. by apply H3.
  - intros id Hid. rewrite El. by apply H4.
Qed.

Lemma batch_slots_bounds m ms : 1 <= batch_slots q (m :: ms) <= max_slots.
Proof.
  unfold batch_slots, max_slots. cbn zeta. assert (Hn : (0 < length (m :: ms))%nat) by (cbn; lia). revert Hn. generalize (length (m :: ms)).
  intros n Hn. destruct (Z.leb_spec (sq_handlerConcurrency q) 0); destruct (_ <? _) eqn:E; lia.
Qed.

Lemma nextBackoff_bounds b : Second <= b <= 30 * Second -> Second <= nextBackoff b <= 30 * Second.
Proof. unfold nextBackoff, Second. repeat case_match; lia. Qed.

Lemma cinv_acquire c m ms : cinv c -> cn_phase c = PAcquire m ms -> Z.of_nat (length (cn_procs c)) < cn_slots c ->
  cinv (c <| cn_phase := PBatch ms |> <| cn_started ::= (.++ [m]) |> <| cn_procs ::= cons (mkProc (length (cn_started c)) (processMessage q m)) |>).
Proof.
  intros [H1 H2 H3 H4 H5 H6 H7 H8] Hp Hlt. rewrite Hp in *. split; cbn.
  - constructor; [|done]. rewrite list_elem_of_fmap. intros (p & E & Hin). rewrite list.Forall_forall in H2. specialize (H2 p Hin). lia.
  - rewrite length_app. cbn. constructor; [cbn; lia|]. eapply list.Forall_impl; [exact H2|]. cbn. lia.
  - intros id m' Hm'. apply lookup_app_Some in Hm' as [Hm'|[Hid Hm']].
    + destruct (H3 id m' Hm') as (p & Ha & Hin). exists p. split; [done|]. destruct Hin as [Hin|[-> Hn]]; [left; by right|].
      right. split; [done|]. rewrite elem_of_cons. intros [->|]; [|done]. apply lookup_lt_Some in Hm'. lia.
    + destruct (id - length (cn_started c))%nat as [|n] eqn:En; [|by destruct n]. cbn in Hm'. simplify_eq.
      assert (id = length (cn_started c)) as -> by lia. exists (processMessage q m'). rewrite H4 by lia. split; [constructor|]. left. by left.
  - intros id Hid. rewrite length_app in Hid. cbn in Hid. apply H4. lia.
  - intros _. specialize (H5 eq_refl). lia.
  - done.
  - intros Hc. rewrite H7 by done. cbn. by rewrite <- app_assoc.
  - done.
Qed.

Lemma cinv_call c id x k l1 l2 answer : cinv c -> cn_procs c = l1 ++ mkProc id (Call x k) :: l2 ->
  cinv (c <| cn_procs := l1 ++ mkProc id (k answer) :: l2 |> <| cn_beats ::= beats_after id x |> <| cn_log ::= (.++ [ECall id x answer]) |>).
Proof.
  intros [H1 H2 H3 H4 H5 H6 H7 H8] Hp. rewrite Hp in *.
  assert (Hids : proc_id <$> (l1 ++ mkProc id (k answer) :: l2) = proc_id <$> (l1 ++ mkProc id (Call x k) :: l2)) by (by rewrite !fmap_app).
  assert (Hlt : (id < length (cn_started c))%nat) by (rewrite list.Forall_app, list.Forall_cons in H2; apply H2).
  split; cbn.
  - by rewrite Hids.
  - rewrite list.Forall_app, list.Forall_cons in *. naive_solver.
  - intros i m Hm. rewrite calls_of_call, Hids. destruct (H3 i m Hm) as (p & Ha & Hin). destruct (Nat.eqb_spec id i) as [<-|Hne].
    + exists (k answer). split; [|left; set_solver]. apply (after_app _ _ p x k answer Ha).
      destruct Hin as [Hin|[_ Hn]]; [|exfalso; apply Hn; rewrite fmap_app; set_solver].
      assert (Hin2 : mkProc id (Call x k) ∈ l1 ++ mkProc id (Call x k) :: l2) by set_solver.
      apply list_elem_of_lookup in Hin as [i1 E1]. apply list_elem_of_lookup in Hin2 as [i2 E2].
      assert (i1 = i2) as -> by (eapply (NoDup_lookup _ _ _ id H1); rewrite list_lookup_fmap; [by rewrite E1|by rewrite E2]). congruence.
    + rewrite app_nil_r. exists p. split; [done|]. destruct Hin as [Hin|?]; [left|by right]. set_solver.
  - intros i Hi. rewrite calls_of_call, H4 by done. destruct (Nat.eqb_spec id i); [lia|done].
  - intros Hb. specialize (H5 Hb). rewrite length_app in *. cbn in *. lia.
  - intros Hb. specialize (H6 Hb). by destruct l1.
  - intros Hc. rewrite received_app, app_nil_r. by apply H7.
  - done.
Qed.

Lemma cinv_done c id l1 l2 : cinv c -> cn_procs c = l1 ++ mkProc id Return :: l2 -> cinv (c <| cn_procs := l1 ++ l2 |>).
Proof.
  intros [H1 H2 H3 H4 H5 H6 H7 H8] Hp. rewrite Hp in *.
  rewrite fmap_app, fmap_cons, list.NoDup_app in H1. destruct H1 as (N1 & N2 & N3). cbn in N3. apply list.NoDup_cons in N3 as [N3 N4].
  split; cbn.
  - rewrite fmap_app, list.NoDup_app. split_and!; [done| |done]. intros y Hy Hy2. apply (N2 y Hy). by right.
  - rewrite list.Forall_app, list.Forall_cons in H2. rewrite list.Forall_app. naive_solver.
  - intros i m Hm. destruct (H3 i m Hm) as (p & Ha & Hin). exists p. split; [done|]. rewrite fmap_app in *. cbn in Hin.
    destruct Hin as [Hin|[-> Hn]]; [|right; set_solver]. apply elem_of_app in Hin as [Hin|Hin]; [left; set_solver|].
    apply elem_of_cons in Hin as [[= -> ->]|Hin]; [|left; set_solver]. right. split; [done|]. rewrite elem_of_app. intros [Hx|Hx]; [|done].
    apply (N2 _ Hx). by left.
  - done.
  - intros Hb. specialize (H5 Hb). rewrite length_app in *. cbn in *. lia.
  - intros Hb. specialize (H6 Hb). by destruct l1.
  - done.
  - done.
Qed.

Lemma cinv_step c c' : cinv c -> cstep q c c' -> cinv c'.
Proof.
  intros Hc Hs. pose proof Hc as [_ _ _ _ H5 H6 H7 H8]. destruct Hs as [e Hx|e Hp Hx|Hp Hx|e Hp Hx|Hp Hx|Hp|m ms Hp|e Hp Hx|Hp|m ms e Hp Hx|m ms Hp Hx|Hp|m ms Hp Hlt|Hp Hn|id x k l1 l2 a Hp|id l1 l2 Hp|b Hb|b l1 l2 Hb Hst];
    try (by apply (cinv_acquire c m ms)); try (by eapply cinv_call); try (by eapply cinv_done); rewrite ?Hp in *; cbn [in_batch todo_of] in *;
    apply (cinv_quiet c); cbn; rewrite ?Hp; cbn [in_batch todo_of]; auto using calls_of_received, calls_of_beat, nextBackoff_bounds; try done; try (unfold Second; lia).
  - intros Hnone. rewrite received_app, H7 by done. unfold received. cbn. by rewrite !app_nil_r.
  - intros _. pose proof (batch_slots_bounds m ms). rewrite H6 by done. cbn. lia.
  - intros Hnone. rewrite received_app, H7 by done. unfold received. cbn. by rewrite !app_nil_r.
  - intros Hnone. congruence.
  - intros Hnone. rewrite Hnone, H7 by done. done.
  - intros Hnone. rewrite received_app, H7 by done. unfold received. cbn. by rewrite app_nil_r.
Qed.

Lemma reachable_cinv c : reachable q c -> cinv c.
Proof.
  intros Hr. unfold reachable in Hr. remember StartConsumer as c0 eqn:E0. assert (H0 : cinv c0) by (rewrite E0; apply cinv_start). clear E0.
  induction Hr as [c|c1 c2 c3 Hs _ IH]; [done|]. apply IH. by eapply cinv_step.
Qed.

Lemma retry_one : retryVisibility q = 1.
Proof. unfold retryVisibility. destruct (_ && _) eqn:E; [lia|done]. Qed.

(** The calls of a delivery that is over. *)
Definition settled (m : Message) (l : list (call * option error)) : Prop :=
  match decode_message m with
  | None => forall h, handle_of m = Some h -> exists a, l = [(DeleteMessage h, a)]
  | Some msg => exists err, (CallHandler msg, err) ∈ l /\ forall h, handle_of m = Some h ->
      match err with
      | None => exists a, list_basics.list.last l = Some (DeleteMessage h, a)
      | Some _ => (exists a, list_basics.list.last l = Some (ChangeMessageVisibility h 1, a)) /\ forall a, (DeleteMessage h, a) ∉ l
      end
  end.

Ltac run_calls :=
  repeat match goal with
    | E : after (Call _ _) _ _ |- _ => inversion E; subst; clear E
    | E : after Return _ _ |- _ => inversion E; subst; clear E
    end; cbn beta iota in *.
Ltac in_calls := rewrite !elem_of_cons; auto.
Ltac not_in_calls := rewrite !elem_of_cons; let Hx := fresh in intros Hx; destruct_or? Hx; try discriminate Hx; by apply not_elem_of_nil in Hx.

Lemma finished_settled m l : after (processMessage q m) l Return -> settled m l.
Proof.
  unfold processMessage, handle_with, deleteMessage, accelerateRetry, settled. rewrite retry_one. intros Ha.
  destruct (decode_message m) as [msg|].
  - destruct (startVisibilityHeartbeat q m) as [[h' d]|]; run_calls.
    all: match goal with |- context [(CallHandler _, ?err) :: _] => exists err; split; [in_calls|]; intros h Hh; rewrite Hh in *; destruct err end;
      run_calls; [split|]; try (by eexists); intros ?; not_in_calls.
  - intros h Hh. rewrite Hh in Ha. run_calls. by eexists.
Qed.

(** C20: A message is deleted from the queue only if its body cannot be decoded or after the handler was
    called with the decoded message and returned nil: a delivery whose handler failed is never acknowledged.
    In every interleaving of the goroutines, the heartbeats and the polling loop, whatever the service answers. *)
Theorem sqs_acknowledges_handled c l1 id h a l2 (Hr : reachable q c) (Hlog : cn_log c = l1 ++ ECall id (DeleteMessage h) a :: l2) :
  exists m, cn_started c !! id = Some m /\ handle_of m = Some h /\
    (decode_message m = None \/ exists msg, decode_message m = Some msg /\ ECall id (CallHandler msg) None ∈ l1).
Proof.
  apply reachable_cinv in Hr. assert (Hc : calls_of id (cn_log c) = calls_of id l1 ++ (DeleteMessage h, a) :: calls_of id l2).
  { rewrite Hlog, calls_of_app. f_equal. unfold calls_of at 1. cbn. by rewrite Nat.eqb_refl. }
  destruct (cn_started c !! id) as [m|] eqn:Em.
  - destruct (inv_trace c Hr id m Em) as (p & Ha & _). rewrite Hc in Ha. apply delete_follows in Ha as [Hh Hd]. exists m. split_and!; [done|done|].
    destruct Hd as [?|(msg & ? & Hin)]; [by left|]. right. exists msg. split; [done|]. by apply calls_of_elem.
  - apply lookup_ge_None in Em. rewrite (inv_fresh c Hr id Em) in Hc. by destruct (calls_of id l1).
Qed.

(** C21: At most handlerConcurrency goroutines work at a time; the pause between failed receives is between one
    and thirty seconds; and the consumer polls again only when every message received so far has been dealt with
    completely: dropped, handled and deleted, or handled with an error and handed back to the queue. *)
Theorem sqs_batches_settle c (Hr : reachable q c) :
  Z.of_nat (length (cn_procs c)) <= max_slots /\ Second <= cn_backoff c <= 30 * Second /\
  (in_batch (cn_phase c) = false -> cn_ctx c = None ->
   cn_started c = received (cn_log c) /\ forall id m, received (cn_log c) !! id = Some m -> settled m (calls_of id (cn_log c))).
Proof.
  apply reachable_cinv in Hr. destruct Hr as [_ _ H3 _ H5 H6 H7 H8]. split_and!; try apply H8.
  - destruct (in_batch (cn_phase c)) eqn:E; [specialize (H5 eq_refl); lia|]. rewrite H6 by done. cbn. unfold max_slots. lia.
  - intros Hb Hn. assert (E : cn_started c = received (cn_log c)).
    { rewrite H7 by done. destruct (cn_phase c); try done; by rewrite app_nil_r. }
    split; [done|]. intros id m Hm. rewrite <- E in Hm. destruct (H3 id m Hm) as (p & Ha & Hin). rewrite H6 in Hin by done.
    destruct Hin as [Hin|[-> _]]; [by apply not_elem_of_nil in Hin|]. by apply finished_settled.
Qed.
End invariants.

(** ** What is sent is what is received *)

Lemma dec_go_head fuel n acc : 0 < n < 10 ^ Z.of_nat fuel -> exists c l, dec_go fuel n acc = c :: l /\ Ascii.eqb c "0" = false.
Proof.
  revert n acc. induction fuel as [|f IH]; intros n acc Hn; [cbn in Hn; lia|]. cbn [dec_go]. cbn zeta.
  destruct (Z.ltb_spec n 10) as [Hl|Hl].
  - eexists _, _. split; [reflexivity|]. rewrite Z.mod_small by lia. apply Ascii.eqb_neq. intros E. apply (f_equal byte_val) in E.
    unfold digit in E. rewrite byte_val_byte_of in E by lia. change (byte_val "0") with 48 in E. lia.
  - apply IH. rewrite Nat2Z.inj_succ, Z.pow_succ_r in Hn by lia. split; [apply Z.div_str_pos; lia|]. apply Z.div_lt_upper_bound; lia.
Qed.

Lemma span_all_digits l : Forall (fun c => is_digit c = true) l -> span_digits l = (l, []).
Proof. induction 1 as [|c l Hc _ IH]; [done|]. cbn. change (json_digit c) with (is_digit c). by rewrite Hc, IH. Qed.

Lemma parse_unsigned_digits n : 0 <= n -> parse_unsigned (dec_digits n) = Ok (dec_digits n, []).
Proof.
  intros Hn. destruct (decide (n = 0)) as [->|Hne]; [vm_compute; reflexivity|].
  destruct (dec_go_head (S (Z.to_nat (Z.log2 n))) n []) as (c & l & E & Hc); [pose proof (dec_digits_fuel n Hn); lia|].
  pose proof (dec_digits_digits n) as Hd. change (dec_go (S (Z.to_nat (Z.log2 n))) n []) with (dec_digits n) in E. rewrite E in *.
  apply list.Forall_cons in Hd as [Hd1 Hd2]. cbn [parse_unsigned]. change (json_digit c) with (is_digit c). rewrite Hc, Hd1.
  rewrite span_all_digits by done. cbn. by rewrite app_nil_r.
Qed.

Lemma digits_no_sign n : exists c l, dec_digits n = c :: l /\ Ascii.eqb c "-" = false.
Proof.
  destruct (dec_digits n) as [|c l] eqn:E; [by destruct (dec_digits_nonempty n)|]. exists c, l. split; [done|].
  pose proof (dec_digits_digits n) as Hd. rewrite E in Hd. apply list.Forall_cons in Hd as [Hd _]. by destruct (Ascii.eqb_spec c "-") as [->|].
Qed.

Lemma json_number_fmt_d z : json_number (fmt_d z) = true.
Proof.
  unfold json_number, fmt_d. destruct (Z.ltb_spec z 0) as [Hz|Hz].
  - cbn [bytes_of]. rewrite bytes_of_string_of. cbn [parse_number]. change (Ascii.eqb "-" "-") with true. cbn iota.
    rewrite parse_unsigned_digits by lia. by apply bool_decide_eq_true.
  - rewrite bytes_of_string_of. unfold parse_number. destruct (digits_no_sign z) as (c & l & E & Hc). rewrite E, Hc, <- E.
    rewrite parse_unsigned_digits by lia. by apply bool_decide_eq_true.
Qed.

Section roundtrip.
Context `{JSONText}.

(** A message that JSON carries without loss: texts in UTF-8, numbers of 64 bits, a cost that the
    written decimal gives back and that is not the negative zero. *)
Record encodable (m : SQSMessage) : Prop := {
  enc_tenant : valid_utf8 (SQSMessage_TenantID m) = true;
  enc_task : valid_utf8 (SQSMessage_TaskID m) = true;
  enc_run : valid_utf8 (SQSMessage_RunID m) = true;
  enc_type : valid_utf8 (SQSMessage_TaskType m) = true;
  enc_key : valid_utf8 (SQSMessage_DedupeKey m) = true;
  enc_submitted : in_int64 (SQSMessage_SubmittedAt m);
  enc_attempt : in_int64 (SQSMessage_Attempt m);
  enc_tokens : in_int64 (SQSMessage_EstimatedTokens m);
  enc_cost : exists lit, json_float (SQSMessage_EstimatedCost m) = Some lit /\ json_number lit = true /\ parse_float lit = inl (SQSMessage_EstimatedCost m);
  enc_sign : SQSMessage_EstimatedCost m <> SpecFloat.S754_zero true }.

Lemma encodable_attempt m : encodable m -> encodable (at_least_one m).
Proof. unfold at_least_one. case_match; [|done]. intros []. by split. Qed.

Lemma json_int_fmt_d z : in_int64 z -> json_int (JNum (fmt_d z)) = Ok z.
Proof. intros Hz. cbn. by rewrite Atoi_fmt_d. Qed.

Lemma zero_cost x : f_leb x f_zero && f_geb x f_zero = true -> x <> SpecFloat.S754_zero true -> x = f_zero.
Proof. destruct x as [[]|[]| |[] m e]; cbn; intros E Hx; try discriminate E; done. Qed.

(** One member of the object. *)
Lemma decode_member {A} (upd : A -> SQSMessage -> SQSMessage) decode name v a ms s :
  find_field SQSMessage_fields name = Some (set_with decode upd) -> v <> JNull -> decode v = Ok a ->
  decode_members SQSMessage_fields ((name, v) :: ms) s None = decode_members SQSMessage_fields ms (upd a s) None.
Proof. intros Hf Hv Hd. cbn [decode_members]. rewrite Hf. unfold set_with. by destruct v; rewrite ?Hd. Qed.

(** A member that is left out when it would change nothing. *)
Lemma decode_optional {A} (upd : A -> SQSMessage -> SQSMessage) decode (omit : bool) name v a ms s :
  find_field SQSMessage_fields name = Some (set_with decode upd) -> v <> JNull -> (omit = false -> decode v = Ok a) -> (omit = true -> upd a s = s) ->
  decode_members SQSMessage_fields ((if omit then [] else [(name, v)]) ++ ms) s None = decode_members SQSMessage_fields ms (upd a s) None.
Proof. intros Hf Hv Hd Hs. destruct omit; cbn [app]; [by rewrite Hs|]. by apply (decode_member upd decode _ _ a); auto. Qed.

Lemma optional_ok (omit : bool) (name : string) v : valid_utf8 name = true -> (omit = false -> json_ok v = true) ->
  forallb (fun kv => valid_utf8 kv.1 && json_ok kv.2) (if omit then [] else [(name, v)]) = true.
Proof. intros Hn Hv. destruct omit; [done|]. cbn [forallb fst snd]. by rewrite Hn, Hv. Qed.

(** The members of the object. *)
Definition message_members (m : SQSMessage) (lit : string) : list (string * JSON) :=
  [("tenant_id", JStr (SQSMessage_TenantID m)); ("task_id", JStr (SQSMessage_TaskID m)); ("run_id", JStr (SQSMessage_RunID m))]
  ++ (if String.eqb (SQSMessage_TaskType m) "" then [] else [("task_type", JStr (SQSMessage_TaskType m))])
  ++ [("submitted_at", JNum (fmt_d (SQSMessage_SubmittedAt m))); ("attempt", JNum (fmt_d (SQSMessage_Attempt m)))]
  ++ (if String.eqb (SQSMessage_DedupeKey m) "" then [] else [("dedupe_key", JStr (SQSMessage_DedupeKey m))])
  ++ (if SQSMessage_EstimatedTokens m =? 0 then [] else [("estimated_tokens", JNum (fmt_d (SQSMessage_EstimatedTokens m)))])
  ++ (if f_leb (SQSMessage_EstimatedCost m) f_zero && f_geb (SQSMessage_EstimatedCost m) f_zero then [] else [("estimated_cost_usd", JNum lit)]).

Lemma members_ok m lit : encodable m -> json_number lit = true -> json_ok (JObj (message_members m lit)) = true.
Proof.
  intros [V1 V2 V3 V4 V5 _ _ _ _ _] Hn. cbn [json_ok]. unfold message_members. rewrite !forallb_app, !optional_ok by (done || by (intros _; cbn [json_ok]; rewrite ?json_number_fmt_d)).
  cbn [forallb fst snd json_ok]. by rewrite V1, V2, V3, !json_number_fmt_d.
Qed.

Lemma members_decode m lit : encodable m -> parse_float lit = inl (SQSMessage_EstimatedCost m) ->
  decode_members SQSMessage_fields (message_members m lit) zero_message None = (m, None).
Proof.
  intros [_ _ _ _ _ Hs Ha Ht _ Hz] Hp. unfold message_members. destruct m as [tenant task run type submitted attempt key tokens cost]. cbn in Hs, Ha, Ht, Hz, Hp. cbn [app
    SQSMessage_TenantID SQSMessage_TaskID SQSMessage_RunID SQSMessage_TaskType SQSMessage_SubmittedAt SQSMessage_Attempt SQSMessage_DedupeKey SQSMessage_EstimatedTokens SQSMessage_EstimatedCost].
  erewrite decode_member by (reflexivity || done). erewrite decode_member by (reflexivity || done). erewrite decode_member by (reflexivity || done).
  erewrite (decode_optional _ _ _ _ _ type) by (reflexivity || done || (intros E%String.eqb_eq; by subst)).
  erewrite decode_member by (reflexivity || done || by apply json_int_fmt_d). erewrite decode_member by (reflexivity || done || by apply json_int_fmt_d).
  erewrite (decode_optional _ _ _ _ _ key) by (reflexivity || done || (intros E%String.eqb_eq; by subst)).
  erewrite (decode_optional _ _ _ _ _ tokens) by (reflexivity || done || (intros E%Z.eqb_eq; by subst) || (intros _; by apply json_int_fmt_d)).
  rewrite <- (app_nil_r (if f_leb _ _ && _ then _ else _)).
  erewrite (decode_optional _ _ _ _ _ cost) by (reflexivity || done || (intros E%zero_cost; by subst) || (intros _; unfold json_float64; by rewrite Hp)).
  done.
Qed.

Lemma SQSMessage_value_ok m : encodable m ->
  exists lit, SQSMessage_value m = Ok (JObj (message_members m lit)) /\ json_ok (JObj (message_members m lit)) = true /\
    json_depth (JObj (message_members m lit)) <= maxNestingDepth /\ decode_struct SQSMessage_fields (JObj (message_members m lit)) zero_message = (m, None).
Proof.
  intros He. destruct (enc_cost m He) as (lit & Hf & Hn & Hp). exists lit. split_and!.
  - unfold SQSMessage_value, marshal_float, message_members. rewrite Hf. by destruct (f_leb _ _ && _).
  - by apply members_ok.
  - unfold message_members. cbn [json_depth]. rewrite !map_app, !foldr_app. unfold maxNestingDepth. repeat case_match; cbn; lia.
  - by apply members_decode.
Qed.

(** The handler gets the message that was enqueued: for every message that JSON can carry Enqueue builds a
    request, and any delivery of its body is decoded to the same message, whose attempt is the receive count of
    the service if it is given, and at least one. *)
Theorem sqs_message_roundtrip (q : SQSQueue) (msg : SQSMessage) (He : encodable msg) :
  exists input, enqueue_input q (Some msg) = Ok input /\
    forall m, Message_Body m = Some (SendMessageInput_MessageBody input) ->
      decode_message m = Some (at_least_one (with_receive_count m (at_least_one msg))).
Proof.
  apply encodable_attempt in He. destruct (SQSMessage_value_ok _ He) as (lit & Hv & Hok & Hd & Hdec).
  unfold enqueue_input. cbn zeta. rewrite Hv. eexists. split; [reflexivity|]. intros m Hm. unfold decode_message. rewrite Hm.
  match goal with |- context [SendMessageInput_MessageBody ?i] =>
    replace (SendMessageInput_MessageBody i) with (json_render (JObj (message_members (at_least_one msg) lit))) by (by destruct (sq_isFIFO q)) end.
  unfold json_Unmarshal_struct. rewrite json_parse_render by done. by rewrite Hdec.
Qed.
End roundtrip.

(** The heartbeat of a queue with a visibility timeout between two and five seconds comes too late:
    the message is visible again before its first extension. *)
Lemma late_heartbeat q d : 2 <= sq_visibilityTimeout q <= 5 -> heartbeat_interval q = Some d -> sq_visibilityTimeout q * Second <= d.
Proof.
  intros Hv. unfold heartbeat_interval. rewrite (proj2 (Z.leb_gt _ _)) by lia. intros [= <-].
  assert (Hq : Z.quot (sq_visibilityTimeout q) 2 <= 2) by (rewrite Z.quot_div_nonneg by lia; apply Z.lt_succ_r, Z.div_lt_upper_bound; lia).
  unfold Second in *. case_match; lia.
Qed.

(** ** A delivery *)

Module sqs_demo.
#[local] Instance demo_json : JSONText :=
  {| json_type_error := fun _ t => errors_New ("json: cannot unmarshal value into Go value of type " +:+ t) |}.

Definition queue : SQSQueue := mkSQSQueue "https://sqs/q.fifo" 20 300 10 10 true.
Definition msg : SQSMessage := mkSQSMessage "acme" "t1" "r1" "" 1700000000 0 "t1#r1" 1200 (f_lit 3 100).

Lemma msg_encodable : encodable msg.
Proof.
  split; [reflexivity..| | | | |discriminate]; [split; vm_compute; discriminate..|].
  exists "0.03". split_and!; vm_compute; reflexivity.
Qed.

Definition body : string := match enqueue_input queue (Some msg) with Ok i => SendMessageInput_MessageBody i | Err _ => "" end.

Example sent : enqueue_input queue (Some msg) = Ok (mkSendMessageInput "https://sqs/q.fifo"
  (json_sample "{`tenant_id`:`acme`,`task_id`:`t1`,`run_id`:`r1`,`submitted_at`:1700000000,`attempt`:1,`dedupe_key`:`t1#r1`,`estimated_tokens`:1200,`estimated_cost_usd`:0.03}")
  (Some "t1#r1") (Some "t1#r1")).
Proof. vm_compute. reflexivity. Qed.

Lemma sqs_message_roundtrip_witness :
  exists input, enqueue_input queue (Some msg) = Ok input /\
    decode_message (mkMessage (Some (SendMessageInput_MessageBody input)) None ∅) = Some (at_least_one msg).
Proof.
  destruct (sqs_message_roundtrip queue msg msg_encodable) as (input & Hi & Hm). exists input. split; [exact Hi|].
  rewrite (Hm (mkMessage (Some (SendMessageInput_MessageBody input)) None ∅) eq_refl). reflexivity.
Defined.

Definition delivered : Message := mkMessage (Some body) (Some "h") {["ApproximateReceiveCount" := "2"]}.
Definition handled : SQSMessage := mkSQSMessage "acme" "t1" "r1" "" 1700000000 2 "t1#r1" 1200 (f_lit 3 100).

Lemma delivered_decodes : decode_message delivered = Some handled.
Proof. vm_compute. reflexivity. Qed.

(** One message is received and handled; a heartbeat comes in between. *)
Definition log : list entry :=
  [EReceived [delivered]; ECall 0 (StartHeartbeat "h" (150 * Second)) None; EBeat 0 "h" 300; ECall 0 (CallHandler handled) None;
   ECall 0 StopHeartbeat None; ECall 0 (DeleteMessage "h") None].
Definition polled : consumer := mkConsumer PLoop Second None 1 [] [mkBeat 0 "h" true] [delivered] log.

Lemma program : processMessage queue delivered =
  Call (StartHeartbeat "h" (150 * Second)) (fun _ => Call (CallHandler handled) (fun err => Call StopHeartbeat (fun _ =>
    match err with Some _ => accelerateRetry queue delivered | None => Call (DeleteMessage "h") (fun _ => Return) end))).
Proof. unfold processMessage. rewrite delivered_decodes. reflexivity. Qed.

Lemma polled_reachable : reachable queue polled.
Proof.
  unfold reachable. eapply rtc_l; [by apply s_loop|]. eapply rtc_l; [by apply (s_receive queue _ delivered [])|].
  eapply rtc_l; [by apply (s_batch_next queue _ delivered [])|]. eapply rtc_l; [by apply (s_acquire queue _ delivered [])|]. cbn. rewrite program.
  eapply rtc_l; [by eapply (s_call queue _ 0 _ _ [] [] None)|]. eapply rtc_l; [apply (s_beat queue _ (mkBeat 0 "h" false)); by left|].
  eapply rtc_l; [by eapply (s_call queue _ 0 _ _ [] [] None)|]. eapply rtc_l; [by eapply (s_call queue _ 0 _ _ [] [] None)|].
  eapply rtc_l; [by eapply (s_call queue _ 0 _ _ [] [] None)|]. eapply rtc_l; [by apply (s_done queue _ 0 [] [])|].
  eapply rtc_l; [by apply s_batch_end|]. eapply rtc_l; [by apply s_wait|]. cbn. apply rtc_refl.
Qed.

Lemma sqs_acknowledges_handled_witness :
  exists m, cn_started polled !! 0%nat = Some m /\ handle_of m = Some "h" /\
    (decode_message m = None \/ exists msg, decode_message m = Some msg /\ ECall 0 (CallHandler msg) None ∈ take 5 log).
Proof. apply (sqs_acknowledges_handled queue polled (take 5 log) 0 "h" None [] polled_reachable). reflexivity. Defined.

Lemma sqs_batches_settle_witness :
  received (cn_log polled) = [delivered] /\ settled delivered (calls_of 0 (cn_log polled)).
Proof.
  destruct (sqs_batches_settle queue polled polled_reachable) as (_ & _ & Hs). destruct (Hs eq_refl eq_refl) as [_ Hall].
  split; [reflexivity|]. apply Hall. reflexivity.
Defined.
End sqs_demo.
