(* ===== verification/S3Store.v ===== *)
(** * S3Store: the production artifact store (src/pkg/artifact/s3_store.go)

    [S3Store] on Amazon S3.  The service is a parameter, a type [D] with the four calls that the
    code makes; [S3Laws] is what S3 documents of them: a put that succeeds has read the whole body
    and replaced the object, a read that succeeds sees what was put last, and a 404 means that there
    is no object.  A call may also fail for another reason (403, 5xx, no connection).
    [s3_refines_memory]: the store gives the results of the in-memory store, or reports the failure
    of the service.  While the service answers ([S3Available]) the store is an instance of
    [ArtifactStoreLaws], which connects it to the theorems of the engine. *)

From S2P Require Import Prelude GoLib Artifacts.

Definition defaultS3PresignExpiry : Duration := 15 * Minute.

Record S3StoreConfig : Type := mkS3StoreConfig {
  S3StoreConfig_Bucket : string;
  S3StoreConfig_PresignExpires : Duration;
  S3StoreConfig_SSEKMSKeyID : string }.

Record S3Store : Type := mkS3Store {
  s3_bucket : string;
  s3_presignExpires : Duration;
  s3_sseKMSKeyID : string }.

Definition NewS3Store (client : bool) (cfg : S3StoreConfig) : result error S3Store :=
  if negb client then Err (errors_New "artifact: s3 client is required")
  else if String.eqb (S3StoreConfig_Bucket cfg) "" then Err (errors_New "artifact: bucket is required")
  else Ok (mkS3Store (S3StoreConfig_Bucket cfg)
    (if S3StoreConfig_PresignExpires cfg <=? 0 then defaultS3PresignExpiry else S3StoreConfig_PresignExpires cfg)
    (S3StoreConfig_SSEKMSKeyID cfg)).

(** ** The service *)

(** An error of a call: whether it is a NoSuchKey, and the code of the API error. *)
Record S3Error : Type := mkS3Error { S3Error_NoSuchKey : bool; S3Error_Code : option string; S3Error_Err : error }.

Record PutObjectInput : Type := mkPutObjectInput {
  PutObjectInput_Bucket : string;
  PutObjectInput_Key : string;
  PutObjectInput_Body : bytes;
  PutObjectInput_ServerSideEncryption : string;
  PutObjectInput_SSEKMSKeyId : option string }.

(** A put also tells which bytes of the body were read. *)
Class S3Service (D : Type) := {
  PutObject : PutObjectInput -> D -> D * (bytes * option S3Error);
  GetObject : string -> string -> D -> result S3Error bytes;
  HeadObject : string -> string -> D -> option S3Error;
  PresignGetObject : string -> string -> Duration -> D -> result S3Error string }.

Definition isS3NotFound (e : S3Error) : bool :=
  S3Error_NoSuchKey e || match S3Error_Code e with Some code => String.eqb code "NotFound" || String.eqb code "NoSuchKey" | None => false end.

(** The 404 answers that S3 documents: the typed NoSuchKey of a get, the code NotFound of a head, which has
    no body, and the code NoSuchKey. *)
Definition reports_missing (e : S3Error) : Prop :=
  S3Error_NoSuchKey e = true \/ S3Error_Code e = Some "NoSuchKey" \/ S3Error_Code e = Some "NotFound".

(** What S3 documents; [object] is the content of a key.  The errors are the service's own. *)
Class S3Laws (D : Type) `{S3Service D} := {
  object : string -> string -> D -> option bytes;
  put_stores i d d' read :
    PutObject i d = (d', (read, None)) ->
    read = PutObjectInput_Body i /\
    forall b k, object b k d' = if decide (b = PutObjectInput_Bucket i /\ k = PutObjectInput_Key i) then Some (PutObjectInput_Body i) else object b k d;
  get_reads b k d : match GetObject b k d with
    | Ok data => object b k d = Some data
    | Err e => (reports_missing e -> object b k d = None) /\ errors_Is (S3Error_Err e) SArtifactNotFound = false end;
  head_reads b k d : match HeadObject b k d with
    | None => object b k d <> None
    | Some e => (reports_missing e -> object b k d = None) /\ errors_Is (S3Error_Err e) SArtifactNotFound = false end }.

(** A service whose reads fail with a 404 only. *)
Class S3Available (D : Type) `{S3Service D} : Prop := {
  get_answers b k d e : GetObject b k d = Err e -> reports_missing e;
  head_answers b k d e : HeadObject b k d = Some e -> reports_missing e }.

(** ** The operations *)

Definition ErrKeyRequired : error := errors_New "artifact: key is required".

(** [hashCounter]: the bytes that went through the reader; a length in memory fits in 64 bits. *)
Record hashCounter : Type := mkHashCounter { hc_written : bytes; hc_n : Z }.
Definition hashCounter_Write (p : bytes) (c : hashCounter) : hashCounter := mkHashCounter (hc_written c ++ p) (hc_n c + Z.of_nat (length p)).

Section store.
Context {D : Type} `{S3Service D} (s : S3Store).

Definition buildPutObjectInput (key : string) (body : bytes) : PutObjectInput :=
  mkPutObjectInput (s3_bucket s) key body "aws:kms" (if negb (String.eqb (s3_sseKMSKeyID s) "") then Some (s3_sseKMSKeyID s) else None).

(** [r] is [None] for a nil reader. *)
Definition S3Store_Put (key : string) (r : option bytes) (d : D) : D * result error (string * Z) :=
  if String.eqb key "" then (d, Err ErrKeyRequired)
  else match r with
       | None => (d, Err (errors_New "artifact: reader is nil"))
       | Some data =>
           let '(d, (read, err)) := PutObject (buildPutObjectInput key data) d in
           let counter := hashCounter_Write read (mkHashCounter [] 0) in
           match err with
           | Some e => (d, Err (wrapf "artifact: s3 put object: " (S3Error_Err e)))
           | None => (d, Ok (sha256.hex (hc_written counter), hc_n counter))
           end
       end.

Definition S3Store_Get (key : string) (d : D) : result error bytes :=
  if String.eqb key "" then Err ErrKeyRequired
  else match GetObject (s3_bucket s) key d with
       | Ok data => Ok data
       | Err e => if isS3NotFound e then Err ErrArtifactNotFound else Err (wrapf "artifact: s3 get object: " (S3Error_Err e))
       end.

Definition S3Store_Exists (key : string) (d : D) : result error bool :=
  if String.eqb key "" then Err ErrKeyRequired
  else match HeadObject (s3_bucket s) key d with
       | None => Ok true
       | Some e => if isS3NotFound e then Ok false else Err (wrapf "artifact: s3 head object: " (S3Error_Err e))
       end.

Definition S3Store_PresignedURL (key : string) (d : D) : result error string :=
  if String.eqb key "" then Err ErrKeyRequired
  else match S3Store_Exists key d with
       | Err e => Err e
       | Ok false => Err ErrArtifactNotFound
       | Ok true =>
           match PresignGetObject (s3_bucket s) key (s3_presignExpires s) d with
           | Ok url => Ok url
           | Err e => if isS3NotFound e then Err ErrArtifactNotFound else Err (wrapf "artifact: s3 presign get object: " (S3Error_Err e))
           end
       end.

#[global] Instance S3Store_Artifact : ArtifactStore D := {|
  Art_Put := fun key data => S3Store_Put key (Some data);
  Art_Get := S3Store_Get;
  Art_Exists := S3Store_Exists;
  Art_PresignedURL := S3Store_PresignedURL |}.
End store.

(** ** The contract of an artifact store *)

Section laws.
Context {D : Type} `{HD : S3Service D} `{HL : !S3Laws D} (s : S3Store).

Lemma isS3NotFound_spec e : isS3NotFound e = true <-> reports_missing e.
Proof.
  unfold isS3NotFound, reports_missing. rewrite orb_true_iff. destruct (S3Error_Code e) as [c|]; [|naive_solver].
  rewrite orb_true_iff, !String.eqb_eq. naive_solver.
Qed.

#[local] Instance reports_missing_dec e : Decision (reports_missing e).
Proof. unfold reports_missing. apply _. Qed.

Lemma isS3NotFound_false e : ~ reports_missing e -> isS3NotFound e = false.
Proof. rewrite <- isS3NotFound_spec. by destruct (isS3NotFound e). Qed.

(** What a call of the service that failed for another reason than a 404 is. *)
Definition get_fails (key : string) (d : D) : Prop :=
  exists e, GetObject (s3_bucket s) key d = Err e /\ ~ reports_missing e.
Definition head_fails (key : string) (d : D) : Prop :=
  exists e, HeadObject (s3_bucket s) key d = Some e /\ ~ reports_missing e.

Lemma S3_Get_object key d : key <> "" ->
  (get_fails key d /\ exists e, S3Store_Get s key d = Err e /\ errors_Is e SArtifactNotFound = false) \/
  (~ get_fails key d /\
   S3Store_Get s key d = match object (s3_bucket s) key d with Some data => Ok data | None => Err ErrArtifactNotFound end).
Proof.
  intros Hk. unfold S3Store_Get, get_fails. rewrite (proj2 (String.eqb_neq _ _) Hk).
  pose proof (get_reads (s3_bucket s) key d) as Hg.
  destruct (GetObject _ _ _) as [data|e]; [right; split; [naive_solver|by rewrite Hg]|].
  destruct Hg as [Hm He]. destruct (decide (reports_missing e)) as [Hr|Hr].
  - right. split; [naive_solver|]. by rewrite (proj2 (isS3NotFound_spec e) Hr), Hm.
  - left. split; [eauto|]. rewrite (isS3NotFound_false e Hr). by eexists.
Qed.

Lemma S3_Exists_object key d : key <> "" ->
  (head_fails key d /\ exists e, S3Store_Exists s key d = Err e /\ errors_Is e SArtifactNotFound = false) \/
  (~ head_fails key d /\ S3Store_Exists s key d = Ok (bool_decide (is_Some (object (s3_bucket s) key d)))).
Proof.
  intros Hk. unfold S3Store_Exists, head_fails. rewrite (proj2 (String.eqb_neq _ _) Hk).
  pose proof (head_reads (s3_bucket s) key d) as Hg.
  destruct (HeadObject _ _ _) as [e|].
  - destruct Hg as [Hm He]. destruct (decide (reports_missing e)) as [Hr|Hr].
    + right. split; [naive_solver|]. by rewrite (proj2 (isS3NotFound_spec e) Hr), Hm.
    + left. split; [eauto|]. rewrite (isS3NotFound_false e Hr). by eexists.
  - right. split; [naive_solver|]. destruct (object _ _ _); [done|by destruct Hg].
Qed.

(** A put that reports success. *)
Lemma S3_Put_object key data d d' sha size :
  S3Store_Put s key (Some data) d = (d', Ok (sha, size)) ->
  key <> "" /\ sha = sha256.hex data /\ size = Z.of_nat (length data) /\
  forall b k, object b k d' = if decide (b = s3_bucket s /\ k = key) then Some data else object b k d.
Proof.
  unfold S3Store_Put. destruct (String.eqb_spec key ""); [done|]. destruct (PutObject _ _) as [d1 [read [e|]]] eqn:Ep; [done|]. intros [= <- <- <-].
  apply put_stores in Ep as [-> Ho]. cbn [hashCounter_Write hc_written hc_n app PutObjectInput_Body buildPutObjectInput].
  split_and!; [done|done|lia|exact Ho].
Qed.
#[global] Instance S3Store_laws `{HV : !S3Available D} : @ArtifactStoreLaws D (S3Store_Artifact s).
Proof.
  constructor. intros key data a a' sha size Hp. cbn in Hp. apply S3_Put_object in Hp as (Hk & -> & -> & Ho). split_and!; [done|done|].
  intros k. cbn. destruct (decide (k = "")) as [->|Hne]; [rewrite decide_False by done; done|].
  assert (Hget : forall d, S3Store_Get s k d = match object (s3_bucket s) k d with Some data => Ok data | None => Err ErrArtifactNotFound end).
  { intros d. destruct (S3_Get_object k d Hne) as [[(e & He & Hm) _]|[_ H]]; [|done]. by destruct Hm; eapply get_answers. }
  rewrite !Hget, Ho. case_decide as Hd; case_decide as Hd2; naive_solver.
Qed.

(** ** Refinement of the in-memory store *)

Inductive art_op : Type := APut (key : string) (data : bytes) | AGet (key : string) | AExists (key : string).
Inductive art_res : Type := RPut (r : result error (string * Z)) | RGet (r : result error bytes) | RExists (r : result error bool).

Definition op_key (o : art_op) : string := match o with APut k _ | AGet k | AExists k => k end.

Definition art_exec {A} `{ArtifactStore A} (o : art_op) (a : A) : A * art_res :=
  match o with
  | APut k data => let '(a, r) := Art_Put k data a in (a, RPut r)
  | AGet k => (a, RGet (Art_Get k a))
  | AExists k => (a, RExists (Art_Exists k a))
  end.

(** Equal results; two errors for a missing artifact may have different texts. *)
Definition same_res (x y : art_res) : Prop :=
  match x, y with
  | RGet (Err e), RGet (Err e') => errors_Is e SArtifactNotFound = true /\ errors_Is e' SArtifactNotFound = true
  | _, _ => x = y
  end.

Definition put_failed (r : art_res) : bool := match r with RPut (Err _) => true | _ => false end.

Fixpoint art_run {A} `{ArtifactStore A} (ops : list art_op) (a : A) : A * list art_res :=
  match ops with
  | [] => (a, [])
  | o :: ops' => let '(a, r) := art_exec o a in let '(a, rs) := art_run ops' a in (a, r :: rs)
  end.

Definition s3_sim (m : MemoryArtifactStore) (d : D) : Prop := forall k, object (s3_bucket s) k d = MA_blobs m !! k.

Abbreviation s3_exec := (@art_exec D (S3Store_Artifact s)).
Abbreviation s3_run := (@art_run D (S3Store_Artifact s)).

(** The call of the service behind an operation failed, and not with a 404. *)
Definition service_fails (o : art_op) (d : D) : Prop :=
  match o with
  | APut k data => (PutObject (buildPutObjectInput s k data) d).2.2 <> None
  | AGet k => get_fails k d
  | AExists k => head_fails k d
  end.

(** An error, and not the one for a missing artifact. *)
Definition reports_failure (r : art_res) : Prop :=
  match r with
  | RPut (Err _) => True
  | RGet (Err e) | RExists (Err e) => errors_Is e SArtifactNotFound = false
  | _ => False
  end.

Lemma s3_exec_res o m d : op_key o <> "" -> s3_sim m d ->
  (service_fails o d -> reports_failure (s3_exec o d).2) /\
  (~ service_fails o d -> same_res (s3_exec o d).2 (art_exec o m).2).
Proof.
  intros Hk Hs. destruct o as [k data|k|k]; cbn in *.
  - unfold S3Store_Put. rewrite (proj2 (String.eqb_neq _ _) Hk).
    destruct (PutObject _ _) as [d' [read [e|]]] eqn:Ep; cbn; [naive_solver|]. split; [done|]. intros _.
    apply put_stores in Ep as [-> _]. cbn. done.
  - destruct (S3_Get_object k d Hk) as [[Hf (e & -> & He)]|[Hf ->]]; [done|]. split; [done|]. intros _.
    rewrite (Hs k). unfold MemoryArtifactStore_Get. by destruct (MA_blobs m !! k).
  - destruct (S3_Exists_object k d Hk) as [[Hf (e & -> & He)]|[Hf ->]]; [done|]. split; [done|]. intros _.
    by rewrite (Hs k).
Qed.

Lemma s3_exec_sim o m d : s3_sim m d -> put_failed (s3_exec o d).2 = false -> s3_sim (art_exec o m).1 (s3_exec o d).1.
Proof.
  intros Hs. destruct o as [k data|k|k]; cbn in *; [|done|done].
  destruct (S3Store_Put s k (Some data) d) as [d' [[sha size]|e]] eqn:Ep; [|done]. intros _. apply S3_Put_object in Ep as (_ & _ & _ & Ho).
  cbn. intros k'. rewrite Ho. destruct (decide (k' = k)) as [->|Hne].
  + rewrite decide_True by done. cbn. by rewrite lookup_insert_eq.
  + rewrite decide_False by naive_solver. cbn. by rewrite lookup_insert_ne.
Qed.

Lemma s3_run_sim ops : forall m d, s3_sim m d ->
  existsb put_failed (s3_run ops d).2 = false -> s3_sim (art_run ops m).1 (s3_run ops d).1.
Proof.
  induction ops as [|o ops IH]; intros m d Hs; [done|].
  pose proof (s3_exec_sim o m d Hs) as H1. cbn [art_run]. destruct (s3_exec o d) as [d1 r1], (art_exec o m) as [m1 r1'].
  specialize (IH m1 d1). destruct (s3_run ops d1) as [d2 rs], (art_run ops m1) as [m2 rs']. cbn in *.
  intros [Hf1 Hf2]%orb_false_iff. auto.
Qed.
End laws.

(** C15: The production artifact store behaves like the in-memory store or reports that the service failed: after any
    sequence of operations on an empty bucket in which no put failed, the bucket holds what the in-memory store holds,
    and the next operation (a put, a read or an existence check with a non-empty key) gives the result of the in-memory
    store (hash, size, content; for a missing artifact both say not-found), unless its call of S3 fails with something
    else than a 404, and then it reports an error that is not not-found. *)
Theorem s3_refines_memory {D : Type} `{HD : S3Service D} `{HL : !S3Laws D} (s : S3Store) (ops : list art_op) (o : art_op) (d : D)
    (Hkey : op_key o <> "") (Hempty : forall k, object (s3_bucket s) k d = None)
    (Hputs : existsb put_failed (art_run (H := S3Store_Artifact s) ops d).2 = false) :
  let d1 := (art_run (H := S3Store_Artifact s) ops d).1 in
  let m1 := (art_run ops NewMemoryArtifactStore).1 in
  (forall k, object (s3_bucket s) k d1 = MA_blobs m1 !! k) /\
  (service_fails s o d1 -> reports_failure (art_exec (H := S3Store_Artifact s) o d1).2) /\
  (~ service_fails s o d1 -> same_res (art_exec (H := S3Store_Artifact s) o d1).2 (art_exec o m1).2).
Proof.
  assert (Hs : s3_sim s (art_run ops NewMemoryArtifactStore).1 (art_run (H := S3Store_Artifact s) ops d).1).
  { apply s3_run_sim; [|done]. intros k. by rewrite Hempty. }
  split; [exact Hs|]. by apply s3_exec_res.
Qed.

(** ** A concrete service: one key may not be read *)

Module s3_demo.
Definition RefS3 : Type := gmap (string * string) bytes.
Definition no_such_key : S3Error := mkS3Error true (Some "NoSuchKey") (errors_New "NoSuchKey").

#[local] Instance ref_service : S3Service RefS3 := {|
  PutObject := fun i d => (<[(PutObjectInput_Bucket i, PutObjectInput_Key i) := PutObjectInput_Body i]> d, (PutObjectInput_Body i, None));
  GetObject := fun b k d => if String.eqb k "secret" then Err (mkS3Error false (Some "AccessDenied") (errors_New "AccessDenied")) else match d !! (b, k) with Some data => Ok data | None => Err no_such_key end;
  HeadObject := fun b k d => match d !! (b, k) with Some _ => None | None => Some (mkS3Error false (Some "NotFound") (errors_New "NotFound")) end;
  PresignGetObject := fun b k _ d => Ok ("https://" +:+ b +:+ "/" +:+ k) |}.

#[local] Instance ref_laws : S3Laws RefS3.
Proof.
  refine {| object := fun b k (d : RefS3) => d !! (b, k) |}.
  - intros i d d' read [= <- <-]. split; [done|]. intros b k. case_decide as Hd; [destruct Hd as [-> ->]; apply lookup_insert_eq|].
    apply lookup_insert_ne. intros [= <- <-]. by apply Hd.
  - intros b k d. cbn. destruct (String.eqb k "secret"); [split; [intros [?|[?|?]]; done|done]|]. by destruct (d !! (b, k)).
  - intros b k d. cbn. by destruct (d !! (b, k)).
Defined.

Definition store : S3Store := mkS3Store "artifacts" defaultS3PresignExpiry "".
Definition ops : list art_op :=
  [APut "a" (String.list_ascii_of_string "abc"); APut "secret" []; AGet "a"; AExists "b"; AGet "b"; AGet "secret"].

(** The read that is denied does not pass for a missing artifact. *)
Example denied_is_no_404 : S3Store_Get store "secret" (art_run (H := S3Store_Artifact store) ops (∅ : RefS3)).1 =
  Err (wrapf "artifact: s3 get object: " (errors_New "AccessDenied")).
Proof. vm_compute. reflexivity. Qed.

Lemma s3_refines_memory_witness :
  same_res (art_exec (H := S3Store_Artifact store) (AExists "b") (art_run (H := S3Store_Artifact store) ops (∅ : RefS3)).1).2
    (art_exec (AExists "b") (art_run ops NewMemoryArtifactStore).1).2.
Proof.
  apply (s3_refines_memory store ops (AExists "b") ∅); [discriminate|intros k; reflexivity|vm_compute; reflexivity|].
  intros (e & He & Hm). vm_compute in He. injection He as <-. apply Hm. right. right. reflexivity.
Defined.
End s3_demo.
