(* ===== verification/Config.v ===== *)
(** * Config: the configuration of the processes (src/internal/config/runtime.go)

    The loaders of the runtime configuration.  The environment is a function from names to
    values; a loader stops at the first variable that is missing or invalid. *)

From Stdlib Require Import SpecFloat.
From S2P Require Import Prelude GoLib Strconv JSON Model StateStore MemoryStore Tenant MemoryQueue World TaskService Encoding FileSystem Engine API SQSQueue.

Definition DefaultConnectionsTaskIndex : string := "task-index".
Definition DefaultSQSWaitTimeSeconds : Z := 20.
Definition DefaultSQSVisibilityTimeout : Z := 300.
Definition DefaultSQSMaxMessages : Z := 10.
Definition DefaultRecoveryLimit : Z := 200.
Definition DefaultArtifactPresignExpires : Duration := 15 * Minute.
Definition DefaultRecoveryStaleFor : Duration := 10 * Minute.
Definition DefaultRecoveryEventCompactionWindow : Duration := 24 * Hour.
Definition DefaultEventRetention : Duration := 24 * Hour.
Definition DefaultOTelExporter : string := "none".
Definition DefaultOTelSampleRatio : float64 := f_of_Z 1.

Record AWSStateConfig : Type := mkAWSStateConfig {
  AWSStateConfig_TasksTable : string;
  AWSStateConfig_RunsTable : string;
  AWSStateConfig_StepsTable : string;
  AWSStateConfig_ConnectionsTable : string;
  AWSStateConfig_ConnectionIndex : string }.

Record AWSRuntimeConfig : Type := mkAWSRuntimeConfig {
  AWSRuntimeConfig_State : AWSStateConfig;
  AWSRuntimeConfig_TaskQueueURL : string;
  AWSRuntimeConfig_ArtifactsBucket : string;
  AWSRuntimeConfig_ArtifactSSEKMSKeyARN : string;
  AWSRuntimeConfig_WebSocketEndpoint : string;
  AWSRuntimeConfig_EventRetention : Duration;
  AWSRuntimeConfig_ArtifactPresignExpires : Duration;
  AWSRuntimeConfig_SQSWaitTimeSeconds : Z;
  AWSRuntimeConfig_SQSVisibilityTimeoutSeconds : Z;
  AWSRuntimeConfig_SQSMaxMessages : Z }.

Record RecoveryRuntimeConfig : Type := mkRecoveryRuntimeConfig {
  RecoveryRuntimeConfig_Enabled : bool;
  RecoveryRuntimeConfig_Interval : Duration;
  RecoveryRuntimeConfig_StaleFor : Duration;
  RecoveryRuntimeConfig_Limit : Z;
  RecoveryRuntimeConfig_TenantID : string;
  RecoveryRuntimeConfig_ConsistencyCheck : bool;
  RecoveryRuntimeConfig_ConsistencyRepair : bool;
  RecoveryRuntimeConfig_EventCompactionEnabled : bool;
  RecoveryRuntimeConfig_EventCompactionWindow : Duration }.

Record TelemetryRuntimeConfig : Type := mkTelemetryRuntimeConfig {
  TelemetryRuntimeConfig_Enabled : bool;
  TelemetryRuntimeConfig_ServiceName : string;
  TelemetryRuntimeConfig_Exporter : string;
  TelemetryRuntimeConfig_SampleRatio : float64 }.

(** The next statement runs if there is no error. *)
Notation "'try' x := e 'in' k" := (match e with Err err => Err err | Ok x => k end)
  (at level 10, x pattern, e at level 200, k at level 200).
Notation "'ensure' c 'else' m 'in' k" := (if negb c then Err (errors_New m) else k)
  (at level 10, c at level 10, m at level 200, k at level 200).

Section loading.
Context `{Unicode} (getenv : string -> string).

Definition ParseRuntimeMode (raw : string) : string :=
  let mode := ToLower (TrimSpace raw) in
  if bool_decide (mode ∈ [""; "local"; "dev"; "development"]) then "local"
  else if bool_decide (mode ∈ ["aws"; "prod"; "production"]) then "aws"
  else mode.

Definition RuntimeModeFromEnv : string := ParseRuntimeMode (getenv "AGENTFORGE_RUNTIME").

Definition RequiredString (key : string) : result error string :=
  let v := TrimSpace (getenv key) in
  if String.eqb v "" then Err (errors_New ("missing required environment variable " +:+ key)) else Ok v.

Definition config_String (key def : string) : string :=
  let v := TrimSpace (getenv key) in if String.eqb v "" then def else v.

Definition Int32 (key : string) (def : Z) : result error Z :=
  let raw := TrimSpace (getenv key) in
  if String.eqb raw "" then Ok def
  else match ParseInt 32 raw with Ok n => Ok n | Err e => Err (wrapf ("invalid " +:+ key +:+ ": ") e) end.

Definition config_Bool (key : string) (def : bool) : result error bool :=
  let raw := TrimSpace (getenv key) in
  if String.eqb raw "" then Ok def
  else if bool_decide (ToLower raw ∈ ["1"; "true"; "yes"; "y"; "on"]) then Ok true
  else if bool_decide (ToLower raw ∈ ["0"; "false"; "no"; "n"; "off"]) then Ok false
  else Err (errors_New ("invalid " +:+ key +:+ ": " +:+ Quote raw)).

Definition config_Duration (key : string) (def : Duration) : result error Duration :=
  let raw := TrimSpace (getenv key) in
  if String.eqb raw "" then Ok def
  else match ParseDuration raw with Ok d => Ok d | Err e => Err (wrapf ("invalid " +:+ key +:+ ": ") e) end.

Definition NormalizeWebSocketEndpoint (endpoint : string) : string :=
  let trimmed := TrimSpace endpoint in
  if HasPrefix trimmed "wss://" then "https://" +:+ TrimPrefix trimmed "wss://" else trimmed.

Definition LoadAWSStateConfigFromEnv : result error AWSStateConfig :=
  try tasksTable := RequiredString "TASKS_TABLE" in
  try runsTable := RequiredString "RUNS_TABLE" in
  try stepsTable := RequiredString "STEPS_TABLE" in
  try connectionsTable := RequiredString "CONNECTIONS_TABLE" in
  Ok (mkAWSStateConfig tasksTable runsTable stepsTable connectionsTable (config_String "CONNECTIONS_TASK_INDEX" DefaultConnectionsTaskIndex)).

Definition EventRetentionFromEnv : result error Duration :=
  try retention := config_Duration "AGENTFORGE_EVENT_RETENTION" DefaultEventRetention in
  ensure (0 <=? retention) else "invalid AGENTFORGE_EVENT_RETENTION: must be >= 0" in
  Ok retention.

Definition LoadAWSRuntimeConfigFromEnv : result error AWSRuntimeConfig :=
  try stateCfg := LoadAWSStateConfigFromEnv in
  try queueURL := RequiredString "TASK_QUEUE_URL" in
  try artifactsBucket := RequiredString "ARTIFACTS_BUCKET" in
  try eventRetention := EventRetentionFromEnv in
  try presign := config_Duration "ARTIFACT_PRESIGN_EXPIRES" DefaultArtifactPresignExpires in
  try waitTime := Int32 "SQS_WAIT_TIME_SECONDS" DefaultSQSWaitTimeSeconds in
  try visibility := Int32 "SQS_VISIBILITY_TIMEOUT_SECONDS" DefaultSQSVisibilityTimeout in
  try maxMessages := Int32 "SQS_MAX_MESSAGES" DefaultSQSMaxMessages in
  Ok (mkAWSRuntimeConfig stateCfg queueURL artifactsBucket (config_String "ARTIFACT_SSE_KMS_KEY_ARN" "")
        (NormalizeWebSocketEndpoint (config_String "WEBSOCKET_ENDPOINT" "")) eventRetention presign waitTime visibility maxMessages).

Definition LoadRecoveryRuntimeConfigFromEnv : result error RecoveryRuntimeConfig :=
  try enabled := config_Bool "AGENTFORGE_RECOVERY_ENABLED" false in
  try interval := config_Duration "AGENTFORGE_RECOVERY_INTERVAL" 0 in
  ensure (0 <=? interval) else "invalid AGENTFORGE_RECOVERY_INTERVAL: must be >= 0" in
  try staleFor := config_Duration "AGENTFORGE_RECOVERY_STALE_FOR" DefaultRecoveryStaleFor in
  ensure (0 <? staleFor) else "invalid AGENTFORGE_RECOVERY_STALE_FOR: must be > 0" in
  try limit := Int32 "AGENTFORGE_RECOVERY_LIMIT" DefaultRecoveryLimit in
  ensure (0 <? limit) else "invalid AGENTFORGE_RECOVERY_LIMIT: must be > 0" in
  try check := config_Bool "AGENTFORGE_RECOVERY_CONSISTENCY_CHECK" false in
  try repair := config_Bool "AGENTFORGE_RECOVERY_CONSISTENCY_REPAIR" false in
  ensure (negb (repair && negb check)) else "AGENTFORGE_RECOVERY_CONSISTENCY_REPAIR requires AGENTFORGE_RECOVERY_CONSISTENCY_CHECK=true" in
  try compactionEnabled := config_Bool "AGENTFORGE_RECOVERY_EVENT_COMPACTION_ENABLED" false in
  try compactionWindow := config_Duration "AGENTFORGE_RECOVERY_EVENT_COMPACTION_WINDOW" DefaultRecoveryEventCompactionWindow in
  ensure (0 <? compactionWindow) else "invalid AGENTFORGE_RECOVERY_EVENT_COMPACTION_WINDOW: must be > 0" in
  Ok (mkRecoveryRuntimeConfig enabled interval staleFor limit (config_String "AGENTFORGE_RECOVERY_TENANT_ID" "") check repair compactionEnabled compactionWindow).

(** The ratio of traces that are kept. *)
Definition sample_ratio : result error float64 :=
  let raw := TrimSpace (getenv "AGENTFORGE_OTEL_SAMPLE_RATIO") in
  if String.eqb raw "" then Ok DefaultOTelSampleRatio
  else match ParseFloat raw with
       | Err e => Err (wrapf "invalid AGENTFORGE_OTEL_SAMPLE_RATIO: " e)
       | Ok parsed =>
           if f_ltb parsed f_zero || f_gtb parsed (f_of_Z 1)
           then Err (errors_New "invalid AGENTFORGE_OTEL_SAMPLE_RATIO: must be between 0 and 1") else Ok parsed
       end.

Definition LoadTelemetryRuntimeConfigFromEnv (defaultServiceName : string) : result error TelemetryRuntimeConfig :=
  try enabled := config_Bool "AGENTFORGE_OTEL_ENABLED" false in
  let serviceName := TrimSpace (config_String "AGENTFORGE_OTEL_SERVICE_NAME" defaultServiceName) in
  let serviceName := if String.eqb serviceName "" then "agentforge" else serviceName in
  let exporter := ToLower (TrimSpace (config_String "AGENTFORGE_OTEL_EXPORTER" DefaultOTelExporter)) in
  let exporter' := if String.eqb exporter "" then DefaultOTelExporter else exporter in
  if negb (bool_decide (exporter' ∈ ["none"; "stdout"]))
  then Err (errors_New ("invalid AGENTFORGE_OTEL_EXPORTER: " +:+ Quote exporter +:+ " (expected one of: none, stdout)"))
  else
    try sampleRatio := sample_ratio in
    Ok (mkTelemetryRuntimeConfig enabled serviceName exporter' sampleRatio).
End loading.

(** ** What a loaded configuration satisfies *)

Definition int32_range (z : Z) : Prop := - 2 ^ 31 <= z < 2 ^ 31.
Definition duration_range (d : Duration) : Prop := - 2 ^ 63 <= d < 2 ^ 63.

Lemma SFcompare_opp x y : SFcompare y x = option_map CompOpp (SFcompare x y).
Proof.
  destruct x as [s|s| |s m e], y as [s'|s'| |s' m' e']; try done; try destruct s; try destruct s'; try done; cbn; f_equal;
    change (Pos.compare_cont Eq ?a ?b) with (Pos.compare a b); rewrite (Z.compare_antisym e e'), (Pos.compare_antisym m m'); by destruct (e ?= e'), (Pos.compare m m').
Qed.

Lemma f_leb_ltb x y : x <> S754_nan -> y <> S754_nan -> f_ltb y x = false -> f_leb x y = true.
Proof.
  unfold f_ltb, f_leb, SFltb, SFleb. rewrite (SFcompare_opp x y). intros Hx Hy. destruct (SFcompare x y) as [[]|] eqn:E; try done.
  by destruct x as [?|?| |? ? ?], y as [?|?| |? ? ?].
Qed.

Section loaded.
Context `{Unicode} (getenv : string -> string).

Lemma Int32_range key def z : int32_range def -> Int32 getenv key def = Ok z -> int32_range z.
Proof. intros Hd. unfold Int32. case_match; [intros [= <-]; done|]. destruct (ParseInt 32 _) eqn:E; [|done]. intros [= <-]. by apply ParseInt_range in E. Qed.

Lemma Duration_range key def d : duration_range def -> config_Duration getenv key def = Ok d -> duration_range d.
Proof. intros Hd. unfold config_Duration. case_match; [intros [= <-]; done|]. destruct (ParseDuration _) eqn:E; [|done]. intros [= <-]. by apply ParseDuration_range in E. Qed.

Lemma RequiredString_some key v : RequiredString getenv key = Ok v -> is_blank v = false.
Proof. unfold RequiredString. cbn zeta. destruct (String.eqb_spec (TrimSpace (getenv key)) ""); [done|]. intros [= <-]. by apply trim_blank. Qed.

Ltac loaded := repeat match goal with
  | |- match ?e with Ok _ => _ | Err _ => _ end = Ok _ -> _ => destruct e eqn:?; [|discriminate]
  | |- (if negb ?c then _ else _) = Ok _ -> _ => destruct c eqn:?; cbn [negb]; [|discriminate]
  end; intros [= <-].

(** A configuration of the recovery job that makes sense. *)
Record recovery_ok (c : RecoveryRuntimeConfig) : Prop := {
  ro_interval : 0 <= RecoveryRuntimeConfig_Interval c < 2 ^ 63;
  ro_stale : 0 < RecoveryRuntimeConfig_StaleFor c < 2 ^ 63;
  ro_limit : 0 < RecoveryRuntimeConfig_Limit c < 2 ^ 31;
  ro_repair : RecoveryRuntimeConfig_ConsistencyRepair c = true -> RecoveryRuntimeConfig_ConsistencyCheck c = true;
  ro_window : 0 < RecoveryRuntimeConfig_EventCompactionWindow c < 2 ^ 63 }.

Lemma recovery_loaded c : LoadRecoveryRuntimeConfigFromEnv getenv = Ok c -> recovery_ok c.
Proof.
  unfold LoadRecoveryRuntimeConfigFromEnv. loaded.
  repeat match goal with
    | E : config_Duration _ _ _ = Ok _ |- _ => apply Duration_range in E; [|by split]
    | E : Int32 _ _ _ = Ok _ |- _ => apply Int32_range in E; [|by split]
    end. unfold duration_range, int32_range in *.
  split; cbn; try lia. match goal with E : negb (?r && negb ?k) = true |- _ => by destruct r, k end.
Qed.

(** The ratio of traces: between zero and one, or not a number. *)
Lemma sample_ratio_loaded x : sample_ratio getenv = Ok x -> x = S754_nan \/ f_leb f_zero x = true /\ f_leb x (f_of_Z 1) = true.
Proof.
  unfold sample_ratio. case_match; [intros [= <-]; right; done|]. destruct (ParseFloat _) as [y|]; [|done].
  destruct (f_ltb y f_zero || f_gtb y (f_of_Z 1)) eqn:E; [done|]. intros [= <-]. apply orb_false_iff in E as [E1 E2].
  destruct (decide (y = S754_nan)) as [->|Hn]; [by left|]. right. split; by apply f_leb_ltb.
Qed.

(** Telemetry settings that make sense. *)
Record telemetry_ok (c : TelemetryRuntimeConfig) : Prop := {
  to_service : TelemetryRuntimeConfig_ServiceName c <> "";
  to_exporter : TelemetryRuntimeConfig_Exporter c ∈ ["none"; "stdout"];
  to_ratio : let x := TelemetryRuntimeConfig_SampleRatio c in x = S754_nan \/ f_leb f_zero x = true /\ f_leb x (f_of_Z 1) = true }.

Lemma telemetry_loaded name c : LoadTelemetryRuntimeConfigFromEnv getenv name = Ok c -> telemetry_ok c.
Proof.
  unfold LoadTelemetryRuntimeConfigFromEnv. destruct (config_Bool _ _ _); [|done]. cbn zeta. destruct (bool_decide (_ ∈ _)) eqn:Ee; [|done]. cbn [negb].
  destruct (sample_ratio getenv) as [x|] eqn:Er; [|done]. intros [= <-]. apply bool_decide_eq_true in Ee. split; cbn.
  - match goal with |- (if String.eqb ?s "" then _ else _) <> _ => by destruct (String.eqb_spec s "") end.
  - exact Ee.
  - by apply sample_ratio_loaded.
Qed.

(** Production settings that make sense. *)
Record aws_ok (c : AWSRuntimeConfig) : Prop := {
  ao_tables : Forall (fun s => is_blank s = false) [AWSStateConfig_TasksTable (AWSRuntimeConfig_State c); AWSStateConfig_RunsTable (AWSRuntimeConfig_State c);
    AWSStateConfig_StepsTable (AWSRuntimeConfig_State c); AWSStateConfig_ConnectionsTable (AWSRuntimeConfig_State c);
    AWSStateConfig_ConnectionIndex (AWSRuntimeConfig_State c); AWSRuntimeConfig_TaskQueueURL c; AWSRuntimeConfig_ArtifactsBucket c];
  ao_retention : 0 <= AWSRuntimeConfig_EventRetention c < 2 ^ 63;
  ao_presign : duration_range (AWSRuntimeConfig_ArtifactPresignExpires c);
  ao_wait : int32_range (AWSRuntimeConfig_SQSWaitTimeSeconds c);
  ao_visibility : int32_range (AWSRuntimeConfig_SQSVisibilityTimeoutSeconds c);
  ao_max : int32_range (AWSRuntimeConfig_SQSMaxMessages c) }.

Lemma EventRetention_range d : EventRetentionFromEnv getenv = Ok d -> 0 <= d < 2 ^ 63.
Proof.
  unfold EventRetentionFromEnv. destruct (config_Duration _ _ _) as [x|] eqn:E; [|done]. apply Duration_range in E; [|by split].
  destruct (0 <=? x) eqn:E0; [|done]. intros [= <-]. unfold duration_range in E. lia.
Qed.

Lemma config_String_some key def : is_blank def = false -> is_blank (config_String getenv key def) = false.
Proof. intros Hd. unfold config_String. cbn zeta. destruct (String.eqb_spec (TrimSpace (getenv key)) ""); [done|]. by apply trim_blank. Qed.

Lemma aws_loaded c : LoadAWSRuntimeConfigFromEnv getenv = Ok c -> aws_ok c.
Proof.
  unfold LoadAWSRuntimeConfigFromEnv. destruct (LoadAWSStateConfigFromEnv getenv) as [st|] eqn:Es; [|done]. revert Es.
  unfold LoadAWSStateConfigFromEnv. loaded. loaded.
  repeat match goal with
    | E : config_Duration _ _ _ = Ok _ |- _ => apply Duration_range in E; [|by split]
    | E : Int32 _ _ _ = Ok _ |- _ => apply Int32_range in E; [|by split]
    | E : RequiredString _ _ = Ok _ |- _ => apply RequiredString_some in E
    | E : EventRetentionFromEnv _ = Ok _ |- _ => apply EventRetention_range in E
    end.
  split; cbn; try done. repeat (constructor; [first [done|by apply config_String_some]|]). constructor.
Qed.

(** The queue that the processes build from it. *)
Definition queue_config (c : AWSRuntimeConfig) : SQSQueueConfig := mkSQSQueueConfig (AWSRuntimeConfig_TaskQueueURL c)
  (AWSRuntimeConfig_SQSWaitTimeSeconds c) (AWSRuntimeConfig_SQSVisibilityTimeoutSeconds c) (AWSRuntimeConfig_SQSMaxMessages c).

Definition queue_ok (q : SQSQueue) : Prop :=
  sq_queueURL q <> "" /\ 0 < sq_waitTimeSeconds q < 2 ^ 31 /\ 0 < sq_visibilityTimeout q < 2 ^ 31 /\ 1 <= sq_maxMessages q <= 10 /\
  sq_handlerConcurrency q = sq_maxMessages q.

Lemma queue_built c q : aws_ok c -> NewSQSQueue true (queue_config c) = Ok q -> queue_ok q.
Proof.
  intros [_ _ _ Hw Hv _]. unfold NewSQSQueue, queue_config.
  cbn [negb SQSQueueConfig_QueueURL SQSQueueConfig_WaitTimeSeconds SQSQueueConfig_VisibilityTimeout SQSQueueConfig_MaxMessages].
  destruct (String.eqb_spec (TrimSpace (AWSRuntimeConfig_TaskQueueURL c)) ""); [done|].
  intros [= <-]. unfold queue_ok, int32_range, defaultSQSWaitTimeSeconds, defaultSQSVisibilityTimeoutSecs, defaultSQSMaxMessages in *. cbn.
  split; [done|]. repeat case_match; lia.
Qed.

End loaded.

(** ** Gaps *)

#[local] Existing Instance ascii_unicode.

(** A ratio that is not a number passes the check of its bounds. *)
Lemma sample_ratio_nan : sample_ratio (fun k => if String.eqb k "AGENTFORGE_OTEL_SAMPLE_RATIO" then "NaN" else "") = Ok S754_nan.
Proof. vm_compute. reflexivity. Qed.

(** A wait time above the 20 seconds that SQS accepts is passed on. *)
Lemma wait_time_unchecked :
  Int32 (fun _ => "21") "SQS_WAIT_TIME_SECONDS" DefaultSQSWaitTimeSeconds = Ok 21 /\
  (sq_waitTimeSeconds <$> match NewSQSQueue true (mkSQSQueueConfig "q" 21 0 0) with Ok q => Some q | Err _ => None end) = Some 21.
Proof. vm_compute. done. Qed.

(** With AGENTFORGE_RUNTIME=production the process runs on the production stores, but the API takes the
    identity from the headers that any client can set. *)
Lemma production_header_identity :
  let getenv k := if String.eqb k "AGENTFORGE_RUNTIME" then "production" else "" in
  RuntimeModeFromEnv getenv = "aws" /\ effectiveAuthMode getenv = authModeHeader.
Proof. vm_compute. done. Qed.
