(* ===== verification/Commands.v ===== *)
(** * Commands: the processes (src/cmd, src/pkg/runtimemetrics)

    How the processes build their parts from the environment, the Lambda handlers of the
    WebSocket routes, the readiness answer and the exported counters.  The flow of
    [main] itself is in [Processes]. *)

From Stdlib Require Import Ascii.
From S2P Require Import Prelude GoLib Strconv JSON Model StateStore MemoryStore DynamoDB DynamoStore Tenant MemoryQueue World TaskService Artifacts Encoding FileSystem Engine Ops API APISafety SQSQueue S3Store Config.

(** ** Start of a process *)

(** What [initRuntime] returns: the in-memory parts with an embedded worker, or the production parts;
    the pusher is the one for the endpoint, or the recording one without an endpoint. *)
Inductive runtime : Type :=
| RuntimeLocal (queueCapacity : Z)
| RuntimeAWS (store : DynamoStore) (artifacts : S3Store) (q : SQSQueue) (endpoint : option string).

Definition dynamo_config (c : AWSStateConfig) (retention : Duration) : DynamoStoreConfig :=
  mkDynamoStoreConfig (AWSStateConfig_TasksTable c) (AWSStateConfig_RunsTable c) (AWSStateConfig_StepsTable c)
    (AWSStateConfig_ConnectionsTable c) (AWSStateConfig_ConnectionIndex c) "" "" "" "" retention.

Definition s3_config (c : AWSRuntimeConfig) : S3StoreConfig :=
  mkS3StoreConfig (AWSRuntimeConfig_ArtifactsBucket c) (AWSRuntimeConfig_ArtifactPresignExpires c) (AWSRuntimeConfig_ArtifactSSEKMSKeyARN c).

Definition buildWSPusher (endpoint : string) : option string := if String.eqb endpoint "" then None else Some endpoint.

Section start.
Context `{Unicode} (getenv : string -> string).

(** [awsErr] is the result of loading the configuration of the AWS client. *)
Definition initRuntime (awsErr : option error) : result error runtime :=
  if negb (String.eqb (RuntimeModeFromEnv getenv) "aws") then Ok (RuntimeLocal 1000)
  else match awsErr with
       | Some e => Err (wrapf "load aws config: " e)
       | None =>
           try cfg := LoadAWSRuntimeConfigFromEnv getenv in
           try store := NewDynamoStore true (dynamo_config (AWSRuntimeConfig_State cfg) (AWSRuntimeConfig_EventRetention cfg)) in
           try artifacts := NewS3Store true (s3_config cfg) in
           try q := NewSQSQueue true (queue_config cfg) in
           Ok (RuntimeAWS store artifacts q (buildWSPusher (AWSRuntimeConfig_WebSocketEndpoint cfg)))
       end.

(** The store of the two Lambda handlers; [None] is the in-memory one. *)
Definition initStore (awsErr : option error) : result error (option DynamoStore) :=
  if negb (String.eqb (RuntimeModeFromEnv getenv) "aws") then Ok None
  else match awsErr with
       | Some e => Err (wrapf "load aws config: " e)
       | None =>
           try cfg := LoadAWSStateConfigFromEnv getenv in
           try retention := EventRetentionFromEnv getenv in
           try store := NewDynamoStore true (dynamo_config cfg retention) in
           Ok (Some store)
       end.

(** The scheduler configuration of the recovery command, which always runs at least once. *)
Definition recovery_scheduler (cfg : RecoveryRuntimeConfig) : SchedulerConfig :=
  mkSchedulerConfig (if RecoveryRuntimeConfig_Enabled cfg then RecoveryRuntimeConfig_Interval cfg else 0)
    (RecoveryRuntimeConfig_StaleFor cfg) (RecoveryRuntimeConfig_Limit cfg) (RecoveryRuntimeConfig_TenantID cfg)
    (RecoveryRuntimeConfig_ConsistencyCheck cfg) (RecoveryRuntimeConfig_ConsistencyRepair cfg)
    (RecoveryRuntimeConfig_EventCompactionEnabled cfg) (RecoveryRuntimeConfig_EventCompactionWindow cfg).
End start.

(** ** Readiness and counters *)

(** The answer of /health/ready: the status code, the checks and the errors; a part without a health
    check is ready. *)
Definition buildReadinessResponse (store q : option error) : Z * string * list (string * string) * list (string * string) :=
  let check e := match e with Some _ => "error" | None => "ok" end in
  let errs := (match store with Some e => [("state", Error e)] | None => [] end) ++ (match q with Some e => [("queue", Error e)] | None => [] end) in
  let code := match errs with [] => 200 | _ => 503 end in
  (code, if code =? 200 then "ready" else "not_ready", [("state", check store); ("queue", check q)], errs).

Record counters : Type := mkCounters {
  claimConflicts : Z; finalizeFailures : Z; streamPushErrors : Z; recoveryRuns : Z; recoveryRequeued : Z; recoveryErrors : Z }.
#[global] Instance counters_eta : Eta counters := fun c => mkCounters
  (claimConflicts c) (finalizeFailures c) (streamPushErrors c) (recoveryRuns c) (recoveryRequeued c) (recoveryErrors c).

Definition IncClaimConflicts (c : counters) : counters := c <| claimConflicts ::= (fun z => add64 z 1) |>.
Definition IncFinalizeFailures (c : counters) : counters := c <| finalizeFailures ::= (fun z => add64 z 1) |>.
Definition IncStreamPushErrors (c : counters) : counters := c <| streamPushErrors ::= (fun z => add64 z 1) |>.
Definition IncRecoveryRuns (c : counters) : counters := c <| recoveryRuns ::= (fun z => add64 z 1) |>.
Definition AddRecoveryRequeued (n : Z) (c : counters) : counters := if 0 <? n then c <| recoveryRequeued ::= (fun z => add64 z n) |> else c.
Definition AddRecoveryErrors (n : Z) (c : counters) : counters := if 0 <? n then c <| recoveryErrors ::= (fun z => add64 z n) |> else c.

(** One metric in the text format: its help, type and values. *)
Definition metric (name help kind : string) (values : list (string * string)) : list string :=
  ("# HELP " +:+ name +:+ " " +:+ help) :: ("# TYPE " +:+ name +:+ " " +:+ kind) :: map (fun p => name +:+ p.1 +:+ " " +:+ p.2) values.

Definition avg_latency (m : requestMetrics) : float64 :=
  if 0 <? requestsTotal m then f_div (f_of_Z (latencyMSTotal m)) (f_of_Z (requestsTotal m)) else f_zero.

(** The lines of /metrics. *)
Definition writePrometheusMetrics (m : requestMetrics) (c : counters) : list string :=
  let count name help v := metric name help "counter" [("", fmt_d v)] in
  let class k v := ("{code_class=" +:+ String dquote (k +:+ String dquote "}"), fmt_d v) in
  count "agentforge_http_requests_total" "Total HTTP requests processed by AuthMiddleware." (requestsTotal m)
  ++ count "agentforge_http_request_latency_ms_total" "Cumulative request latency in milliseconds." (latencyMSTotal m)
  ++ metric "agentforge_http_request_latency_ms_avg" "Average request latency in milliseconds." "gauge" [("", fmt_f 6 (avg_latency m))]
  ++ metric "agentforge_http_responses_total" "Total HTTP responses by status class." "counter"
       [class "1xx" (status1xx m); class "2xx" (status2xx m); class "3xx" (status3xx m); class "4xx" (status4xx m); class "5xx" (status5xx m)]
  ++ count "agentforge_http_5xx_total" "Total HTTP 5xx responses." (errors5xxTotal m)
  ++ count "agentforge_claim_conflicts_total" "Total run claim conflicts in worker." (claimConflicts c)
  ++ count "agentforge_worker_finalize_failures_total" "Total worker finalize failures." (finalizeFailures c)
  ++ count "agentforge_stream_push_errors_total" "Total stream push errors." (streamPushErrors c)
  ++ count "agentforge_recovery_runs_total" "Total stale-run recovery executions." (recoveryRuns c)
  ++ count "agentforge_recovery_requeued_total" "Total runs requeued by recovery." (recoveryRequeued c)
  ++ count "agentforge_recovery_errors_total" "Total recovery processing errors." (recoveryErrors c).

(** The counters of the engine (engine/metrics.go). *)
Record Metrics : Type := mkMetrics {
  mt_taskStarted : Z; mt_taskSucceeded : Z; mt_taskFailed : Z; mt_taskAborted : Z; mt_stepLatencyTotal : Z; mt_stepCount : Z; mt_streamPushErrors : Z }.
#[global] Instance Metrics_eta : Eta Metrics := fun m => mkMetrics
  (mt_taskStarted m) (mt_taskSucceeded m) (mt_taskFailed m) (mt_taskAborted m) (mt_stepLatencyTotal m) (mt_stepCount m) (mt_streamPushErrors m).

Definition NewMetrics : Metrics := mkMetrics 0 0 0 0 0 0 0.
Definition Metrics_TaskStarted (m : Metrics) : Metrics := m <| mt_taskStarted ::= (fun z => add64 z 1) |>.
Definition Metrics_TaskSucceeded (m : Metrics) : Metrics := m <| mt_taskSucceeded ::= (fun z => add64 z 1) |>.
Definition Metrics_TaskFailed (m : Metrics) : Metrics := m <| mt_taskFailed ::= (fun z => add64 z 1) |>.
Definition Metrics_TaskAborted (m : Metrics) : Metrics := m <| mt_taskAborted ::= (fun z => add64 z 1) |>.
Definition Metrics_StepLatency (ms : Z) (m : Metrics) : Metrics :=
  m <| mt_stepLatencyTotal ::= (fun z => add64 z ms) |> <| mt_stepCount ::= (fun z => add64 z 1) |>.
Definition Metrics_StreamPushError (m : Metrics) : Metrics := m <| mt_streamPushErrors ::= (fun z => add64 z 1) |>.

(** ** The recording pusher (stream/mock_pusher.go) *)

Record PushedEvent : Type := mkPushedEvent { PushedEvent_ConnectionID : string; PushedEvent_Event : StreamEvent }.
Record MockPusher : Type := mkMockPusher { mp_events : list PushedEvent; mp_GoneConnections : gmap string bool }.

Definition NewMockPusher : MockPusher := mkMockPusher [] ∅.

Definition MockPusher_Push (connectionID : string) (event : StreamEvent) (p : MockPusher) : MockPusher * (bool * option error) :=
  if default false (mp_GoneConnections p !! connectionID) then (p, (false, None))
  else (mkMockPusher (mp_events p ++ [mkPushedEvent connectionID event]) (mp_GoneConnections p), (true, None)).

Definition MockPusher_Events (p : MockPusher) : list PushedEvent := mp_events p.
Definition MockPusher_Reset (p : MockPusher) : MockPusher := mkMockPusher [] (mp_GoneConnections p).

#[global] Instance MockPusher_Pusher : Pusher MockPusher := MockPusher_Push.

(** ** The Lambda handlers of the WebSocket routes *)

(** The event of $connect: the claims of a JWT authorizer, the context of a Lambda authorizer (any
    JSON values), and the query. *)
Record GatewayEvent : Type := mkGatewayEvent {
  ev_ConnectionID : string;
  ev_Claims : gmap string string;
  ev_Lambda : gmap string JSON;
  ev_Query : gmap string string }.

Record GatewayResponse : Type := mkGatewayResponse { GatewayResponse_StatusCode : Z; GatewayResponse_Body : string }.

(** The bodies, written with single quotes. *)
Definition gateway_reply (code : Z) (body : string) : GatewayResponse :=
  mkGatewayResponse code (string_of (map (fun c => if Ascii.eqb c (ascii_of_nat 39) then dquote else c) (bytes_of body))).

Fixpoint firstNonEmpty (values : list string) : string :=
  match values with
  | [] => ""
  | v :: values' => let trimmed := TrimSpace v in if String.eqb trimmed "" then firstNonEmpty values' else trimmed
  end.

(** Only strings count: the decoder of the event makes no [json.Number]. *)
Fixpoint lambdaClaimString (claims : gmap string JSON) (keys : list string) : string :=
  match keys with
  | [] => ""
  | k :: keys' =>
      match claims !! k with
      | Some (JStr s) => if String.eqb (TrimSpace s) "" then lambdaClaimString claims keys' else TrimSpace s
      | _ => lambdaClaimString claims keys'
      end
  end.

(** A missing key reads as the empty string. *)
Definition map_get (m : gmap string string) (k : string) : string := default "" (m !! k).

Definition extractTrustedIdentity (event : GatewayEvent) : string * string :=
  let claim := map_get (ev_Claims event) in
  (firstNonEmpty [claim "tenant_id"; claim "tenantId"; claim "custom:tenant_id";
     lambdaClaimString (ev_Lambda event) ["tenant_id"; "tenantId"; "custom:tenant_id"]],
   firstNonEmpty [claim "sub"; claim "user_id"; claim "userId"; claim "cognito:username";
     lambdaClaimString (ev_Lambda event) ["sub"; "user_id"; "userId"; "username"; "cognito:username"]]).

Section lambda.
Context {S Q : Type} `{StateStore S} (env : Env).
Abbreviation W := (World S Q).

Definition store_connection (conn : Time -> Time -> Connection) : ST W GatewayResponse :=
  connectedAt ← time_Now env;
  ttl ← time_Now env;
  r ← on_store (PutConnection (conn connectedAt ttl));
  mret (match r with
        | Err _ => gateway_reply 500 "{'error':'internal'}"
        | Ok _ => gateway_reply 200 "{'status':'connected'}"
        end).

Definition wsconnect_handler (event : GatewayEvent) : ST W GatewayResponse :=
  let connID := ev_ConnectionID event in
  if String.eqb connID "" then mret (gateway_reply 400 "{'error':'missing connectionId'}")
  else
    let '(tenantID, userID) := extractTrustedIdentity event in
    if String.eqb tenantID "" || String.eqb userID "" then mret (gateway_reply 401 "{'error':'authenticated tenant/user identity required'}")
    else
      let taskID := map_get (ev_Query event) "task_id" in
      let runID := map_get (ev_Query event) "run_id" in
      let register := store_connection (fun now ttl => mkConnection connID tenantID userID taskID runID now (time_Unix (time_Add ttl (2 * Hour)))) in
      if String.eqb taskID "" then register
      else
        task ← read_store (GetTask taskID);
        match task with
        | Err _ => mret (gateway_reply 404 "{'error':'task not found'}")
        | Ok t =>
            if negb (String.eqb (Task_TenantID t) tenantID) then mret (gateway_reply 403 "{'error':'forbidden'}")
            else if negb (String.eqb (Task_UserID t) "") && negb (String.eqb (Task_UserID t) userID) then mret (gateway_reply 403 "{'error':'forbidden'}")
            else register
        end.

Definition wsdisconnect_handler (connID : string) : ST W GatewayResponse :=
  if String.eqb connID "" then mret (gateway_reply 400 "{'error':'missing connectionId'}")
  else
    r ← on_store (DeleteConnection connID);
    mret (match r with
          | Err _ => gateway_reply 500 "{'error':'internal'}"
          | Ok _ => gateway_reply 200 "{'status':'disconnected'}"
          end).
End lambda.

(** ** Starting in production *)

Section started.
Context `{Unicode} (getenv : string -> string).

(** A process in production mode whose configuration loads also starts: the constructors of the store, the
    artifact store and the queue accept every configuration that the loader accepts, and the parts they build have
    non-empty names, a positive validity of download links and working queue parameters. *)
Theorem startup_total cfg (Hmode : RuntimeModeFromEnv getenv = "aws") (Hload : LoadAWSRuntimeConfigFromEnv getenv = Ok cfg) :
  exists store artifacts q endpoint, initRuntime getenv None = Ok (RuntimeAWS store artifacts q endpoint) /\
    Forall (fun s => s <> "") [tasksTable store; runsTable store; stepsTable store; connectionsTable store; s3_bucket artifacts] /\
    0 <= eventRetention store /\ 0 < s3_presignExpires artifacts /\ queue_ok q.
Proof.
  pose proof (aws_loaded getenv cfg Hload) as Hok. unfold initRuntime. rewrite Hmode, Hload. cbn [String.eqb negb].
  pose proof Hok as [Ht Hr _ _ _ _]. rewrite !list.Forall_cons in Ht. destruct Ht as (B1 & B2 & B3 & B4 & B5 & B6 & B7 & _).
  assert (Hn : forall s, is_blank s = false -> TrimSpace s <> "") by (intros s Hs; by apply bool_decide_eq_false in Hs).
  unfold NewDynamoStore, dynamo_config. cbn [negb DC_TasksTable DC_RunsTable DC_StepsTable DC_ConnectionsTable DC_EventRetention].
  rewrite B1, B2, B3, B4, (proj2 (Z.ltb_ge _ _)) by lia. unfold NewS3Store, s3_config. cbn [negb S3StoreConfig_Bucket].
  destruct (String.eqb_spec (AWSRuntimeConfig_ArtifactsBucket cfg) "") as [Eb|Hb]; [by rewrite Eb in B7|].
  destruct (NewSQSQueue true (queue_config cfg)) as [q|e] eqn:Eq.
  - eexists _, _, q, _. split; [reflexivity|]. cbn. split_and!; [repeat (constructor; [auto|]); constructor|lia| |by eapply queue_built].
    unfold defaultS3PresignExpiry, Minute, Second. case_match; lia.
  - unfold NewSQSQueue, queue_config in Eq. cbn [negb SQSQueueConfig_QueueURL] in Eq.
    destruct (String.eqb_spec (TrimSpace (AWSRuntimeConfig_TaskQueueURL cfg)) ""); [|done]. by apply Hn in B6.
Qed.
End started.

(** ** Subscriptions through every entry point *)

Section entries.
Context {Q P : Type} `{MessageQueue Q} `{Pusher P} `{Unicode} `{JSONText} (env : Env).
Context (provider : option (TenantRuntimeProvider Q)) (pusher : bool).
Abbreviation A := (Api MemoryStore Q P).

Inductive entry_point : Type :=
| HTTPRequest (r : Request)
| GatewayConnect (event : GatewayEvent)
| GatewayDisconnect (connID : string).

Definition enter (e : entry_point) (a : A) : A :=
  match e with
  | HTTPRequest r => (ServeHTTP env provider true pusher r a).1
  | GatewayConnect event => (svc (wsconnect_handler env event) a).1
  | GatewayDisconnect id => (svc (wsdisconnect_handler id) a).1
  end.

(** A connection streams a task of its own tenant, and of its own user unless the task has none; or it
    streams no task. *)
Definition conns_safe (s : MemoryStore) : Prop :=
  forall id c, MS_connections s !! id = Some c -> Connection_TaskID c = "" \/
    exists t, MS_tasks s !! Connection_TaskID c = Some t /\ Task_TenantID t = Connection_TenantID c /\
      (Task_UserID t = "" \/ Task_UserID t = Connection_UserID c).

Lemma served_safe r (a : A) : conns_safe (w_store (api_world a)) -> conns_safe (w_store (api_world (ServeHTTP env provider true pusher r a).1)).
Proof.
  intros Hs id c Hin. pose proof (keeps_served env provider true pusher r a) as Hk. cbn zeta in Hk.
  destruct (keeps_conns _ _ _ _ _ Hk eq_refl _ _ Hin) as [Hold|(E1 & E2 & t & Ht & Ho1 & Ho2)].
  - destruct (Hs _ _ Hold) as [?|(t & Ht & E1 & E2)]; [by left|]. right. destruct (keeps_owner _ _ _ _ _ Hk _ _ Ht) as (t' & Ht' & E3 & E4).
    exists t'. split; [done|]. rewrite E3, E4. done.
  - right. exists t. split_and!; [done|congruence|right; congruence].
Qed.

Lemma registered_safe conn (w : World MemoryStore Q) :
  (forall now ttl, Connection_TaskID (conn now ttl) = "" \/ exists t, MS_tasks (w_store w) !! Connection_TaskID (conn now ttl) = Some t /\
     Task_TenantID t = Connection_TenantID (conn now ttl) /\ (Task_UserID t = "" \/ Task_UserID t = Connection_UserID (conn now ttl))) ->
  conns_safe (w_store w) -> conns_safe (w_store (store_connection env conn w).1).
Proof.
  intros Hc Hs. unfold store_connection. rewrite !ST_bind_run. cbn. intros id c Hin. cbn in Hin.
  match type of Hin with insert ?k ?v _ !! _ = _ => destruct (decide (k = id)) as [<-|Hne] end.
  - rewrite lookup_insert_eq in Hin. injection Hin as <-. apply Hc.
  - rewrite lookup_insert_ne in Hin by done. by apply Hs in Hin.
Qed.

Lemma connected_safe event (a : A) : conns_safe (w_store (api_world a)) -> conns_safe (w_store (api_world (svc (wsconnect_handler env event) a).1)).
Proof.
  intros Hs. unfold svc. destruct (wsconnect_handler env event (api_world a)) as [w x] eqn:E. cbn. revert E. unfold wsconnect_handler.
  destruct (String.eqb _ ""); [by intros [= <- _]|]. destruct (extractTrustedIdentity event) as [tenantID userID].
  destruct (_ || _); [by intros [= <- _]|]. cbn zeta. destruct (String.eqb_spec (map_get (ev_Query event) "task_id") "") as [E0|Hne].
  - intros E. apply (f_equal (fun p => w_store p.1)) in E. cbn in E. rewrite <- E. apply registered_safe; [|done]. intros. left. exact E0.
  - rewrite ST_bind_run. cbn [read_store fst snd]. destruct (GetTask _ _) as [t|e] eqn:Et; [|by intros [= <- _]].
    destruct (String.eqb_spec (Task_TenantID t) tenantID) as [E1|]; [|by intros [= <- _]]. cbn [negb].
    destruct (_ && _) eqn:E2; [by intros [= <- _]|]. intros E. apply (f_equal (fun p => w_store p.1)) in E. cbn in E. rewrite <- E.
    apply registered_safe; [|done]. intros now ttl. right. exists t. cbn. unfold GetTask in Et. cbn in Et. unfold MemoryStore_GetTask in Et.
    destruct (MS_tasks _ !! _) as [t'|]; [|done]. injection Et as ->. split_and!; [done|done|].
    destruct (String.eqb_spec (Task_UserID t) ""); [by left|]. destruct (String.eqb_spec (Task_UserID t) userID); [by right|done].
Qed.

Lemma disconnected_safe id (a : A) : conns_safe (w_store (api_world a)) -> conns_safe (w_store (api_world (svc (wsdisconnect_handler id) a).1)).
Proof.
  intros Hs. unfold wsdisconnect_handler. destruct (String.eqb id ""); [done|]. unfold svc. rewrite ST_bind_run. cbn. intros id' c Hin. cbn in Hin.
  apply lookup_delete_Some in Hin as [_ Hin]. by apply Hs in Hin.
Qed.

(** C29: Streams stay with their owners whatever comes in: if before every stored connection streams no task or a task
    of its own tenant that belongs to the connection's user or to no user, then this is so after any sequence of
    HTTP requests and gateway events.  So no client receives the events of a task of another tenant, nor those of a
    task that belongs to another user; a task without a user may be streamed by every user of its tenant. *)
Theorem subscriptions_owned (l : list entry_point) (a : A) (Hs : conns_safe (w_store (api_world a))) :
  conns_safe (w_store (api_world (foldl (fun a e => enter e a) a l))).
Proof.
  revert a Hs. induction l as [|e l IH]; intros a Hs; [done|]. apply IH.
  destruct e; [by apply served_safe|by apply connected_safe|by apply disconnected_safe].
Qed.
End entries.

(** ** Concrete processes *)

Module commands_demo.
#[local] Existing Instance ascii_unicode.
#[local] Instance demo_queue : MessageQueue MemoryQueue :=
  MemoryQueue_MessageQueue (fun n => (Z.of_nat n * Second, fun k => Z.of_nat (n + k) * Second, true)).
#[local] Instance demo_pusher : Pusher nat := fun _ _ p => (Datatypes.S p, (true, None)).
#[local] Instance demo_json : JSONText :=
  {| json_type_error := fun _ t => errors_New ("json: cannot unmarshal value into Go value of type " +:+ t) |}.

Definition production (k : string) : string :=
  if String.eqb k "AGENTFORGE_RUNTIME" then " AWS"
  else if String.eqb k "SQS_VISIBILITY_TIMEOUT_SECONDS" then " 60 "
  else if String.eqb k "AGENTFORGE_EVENT_RETENTION" then "1h30m"
  else if String.eqb k "WEBSOCKET_ENDPOINT" then "wss://ws.example/prod"
  else if existsb (String.eqb k) ["TASKS_TABLE"; "RUNS_TABLE"; "STEPS_TABLE"; "CONNECTIONS_TABLE"; "TASK_QUEUE_URL"; "ARTIFACTS_BUCKET"] then " " +:+ k +:+ " " else "".

Definition production_config : AWSRuntimeConfig :=
  mkAWSRuntimeConfig (mkAWSStateConfig "TASKS_TABLE" "RUNS_TABLE" "STEPS_TABLE" "CONNECTIONS_TABLE" "task-index") "TASK_QUEUE_URL" "ARTIFACTS_BUCKET" ""
    "https://ws.example/prod" (5400 * Second) (15 * Minute) 20 60 10.

Lemma startup_total_witness :
  exists store artifacts q endpoint, initRuntime production None = Ok (RuntimeAWS store artifacts q endpoint) /\
    Forall (fun s => s <> "") [tasksTable store; runsTable store; stepsTable store; connectionsTable store; s3_bucket artifacts] /\
    0 <= eventRetention store /\ 0 < s3_presignExpires artifacts /\ queue_ok q.
Proof. apply (startup_total production production_config); vm_compute; reflexivity. Defined.

Definition env : Env := mkEnv (fun n => Z.of_nat n * Second) (fun n => repeat (ascii_of_nat n) 12) (fun _ => "").

Definition task : Task := mkTask "t1" "acme" "ann" TaskStatusQueued "r1" false "" None "" "write" None 0 0.
Definition process : Api MemoryStore MemoryQueue nat :=
  mkApi (mkWorld (NewMemoryStore <| MS_tasks := {["t1" := task]} |>) (NewMemoryQueue 10) 0) 0%nat (mkRequestMetrics 0 0 0 0 0 0 0 0).

Definition event (conn tenant user task : string) : GatewayEvent :=
  mkGatewayEvent conn {["tenant_id" := tenant; "sub" := user]} ∅ {["task_id" := task]}.

Definition answer (e : GatewayEvent) : Z := GatewayResponse_StatusCode (wsconnect_handler env e (api_world process)).2.

(** The answers tell a task of another tenant from one that does not exist. *)
Lemma wsconnect_reveals_tasks :
  answer (event "c1" "acme" "ann" "t1") = 200 /\ answer (event "c2" "other" "eve" "t1") = 403 /\ answer (event "c2" "other" "eve" "t2") = 404 /\
  answer (event "c2" " " "eve" "t1") = 401.
Proof. vm_compute. done. Qed.

Lemma subscriptions_owned_witness :
  let l := [GatewayConnect (event "c1" "acme" "ann" "t1"); GatewayConnect (event "c2" "other" "eve" "t1"); GatewayDisconnect "c9"] in
  let a := foldl (fun a e => enter env None true e a) process l in
  conns_safe (w_store (api_world a)) /\ size (MS_connections (w_store (api_world a))) = 1%nat.
Proof.
  cbn zeta. split; [|vm_compute; reflexivity]. apply (subscriptions_owned env None true). intros id c Hc. vm_compute in Hc. discriminate.
Defined.
End commands_demo.
