(* ===== verification/Logging.v ===== *)
(** * Logging: the JSON logger and the set-up of tracing (src/internal/util/log.go, src/internal/telemetry/otel.go)

    A log call writes its entry and then a newline to the writer of the logger, which is behind
    the class [Writer].  The OpenTelemetry SDK is behind the class [TracingSDK]. *)

From Stdlib Require Import Ascii SpecFloat.
From S2P Require Import Prelude GoLib Strconv JSON Model DynamoDB DynamoStore Config.

(** ** Values as JSON *)

(** [json.Marshal] of an [interface{}]; [None] for a number it refuses. *)
Fixpoint gval_json (v : gval) : option JSON :=
  match v with
  | GNil => Some JNull
  | GBool b => Some (JBool b)
  | GInt z => Some (JNum (fmt_d z))
  | GFloat x => match json_float x with Some t => Some (JNum t) | None => None end
  | GStr s => Some (JStr s)
  | GList l =>
      match (fix go (l : list gval) := match l with
             | [] => Some []
             | x :: l' => match gval_json x, go l' with Some y, Some r => Some (y :: r) | _, _ => None end
             end) l with
      | Some l => Some (JArr l)
      | None => None
      end
  | GMap ms =>
      match (fix go (ms : list (string * gval)) := match ms with
             | [] => Some []
             | (k, x) :: ms' => match gval_json x, go ms' with Some y, Some r => Some ((k, y) :: r) | _, _ => None end
             end) ms with
      | Some ms => Some (JObj (sort_slice (fun a b => String.ltb a.1 b.1) ms))
      | None => None
      end
  end.

(** ** The logger *)

(** An [io.Writer]: what it has taken, and an error if it did not take everything. *)
Class Writer (W : Type) := Write : list ascii -> W -> W * option error.

Record Logger : Type := mkLogger { logger_fields : gmap string gval }.

Definition NewLogger : Logger := mkLogger ∅.
Definition With (key : string) (value : gval) (l : Logger) : Logger := mkLogger (<[key := value]> (logger_fields l)).

(** The entry of a call: the fields of the logger, the level, message and time, and the extra
    fields, each overriding the ones before. *)
Definition log_entry (l : Logger) (level msg : string) (now : Time) (extra : list (gmap string gval)) : gmap string gval :=
  fold_left (fun entry e => e ∪ entry) extra
    (<["ts" := GStr (format_rfc3339nano now)]> (<["msg" := GStr msg]> (<["level" := GStr level]> (logger_fields l)))).

Definition marshal_failed : list ascii := bytes_of (json_sample "{`level`:`error`,`msg`:`logger marshal failed`}").

Definition log_data (entry : gmap string gval) : list ascii :=
  match gval_json (GMap (map_to_list entry)) with Some v => json_bytes v | None => marshal_failed end.

Section logger.
Context {W : Type} `{Writer W}.

Definition log (l : Logger) (level msg : string) (now : Time) (extra : list (gmap string gval)) (w : W) : W :=
  match Write (log_data (log_entry l level msg now extra)) w with
  | (w, Some _) => w
  | (w, None) => (Write [newline] w).1
  end.

Definition Info (l : Logger) := log l "info".
Definition Warn (l : Logger) := log l "warn".
Definition Error_ (l : Logger) := log l "error".
End logger.

(** ** Tracing *)

(** The exporters and the providers of the SDK; a provider has a service name and a sampling
    ratio, and exports to what it is given. *)
Class TracingSDK (E P : Type) := {
  stdouttrace_New : result error E;
  NewTracerProvider : string -> float64 -> option E -> P;
  Shutdown : P -> option error }.

Section tracing.
Context `{Unicode} {E P : Type} `{TracingSDK E P}.

Definition newExporter (name : string) : result error (option E) :=
  let n := ToLower (TrimSpace name) in
  if bool_decide (n = "") || bool_decide (n = "none") then Ok None
  else if bool_decide (n = "stdout") then match stdouttrace_New with Ok e => Ok (Some e) | Err e => Err e end
  else Err (errors_New ("telemetry: unsupported exporter " +:+ Quote name)).

(** The provider that becomes the global one, if any, and the function that shuts it down.  The
    propagators of trace headers, which are set first in every case, are left out. *)
Definition Init (cfg : option TelemetryRuntimeConfig) : result error (option P * (unit -> option error)) :=
  match cfg with
  | Some cfg =>
      if TelemetryRuntimeConfig_Enabled cfg then
        match newExporter (TelemetryRuntimeConfig_Exporter cfg) with
        | Err e => Err e
        | Ok exporter =>
            let tp := NewTracerProvider (TelemetryRuntimeConfig_ServiceName cfg) (TelemetryRuntimeConfig_SampleRatio cfg) exporter in
            Ok (Some tp, fun _ => Shutdown tp)
        end
      else Ok (None, fun _ => None)
  | None => Ok (None, fun _ => None)
  end.

(** The trace id of a span context: sixteen bytes, printed if the context is valid. *)
Definition TraceIDFromContext (traceID spanID : list Z) : string :=
  if forallb (Z.eqb 0) traceID || forallb (Z.eqb 0) spanID then "" else string_of (hex_of (map byte_of traceID)).
End tracing.

(** ** Lines *)

Section gval_induction.
Context (P : gval -> Prop) (Hnil : P GNil) (Hbool : forall b, P (GBool b)) (Hint : forall z, P (GInt z)) (Hfloat : forall x, P (GFloat x)) (Hstr : forall s, P (GStr s)).
Context (Hlist : forall l, Forall P l -> P (GList l)) (Hmap : forall ms, Forall (fun kv => P kv.2) ms -> P (GMap ms)).

Fixpoint gval_nested_ind (v : gval) : P v :=
  match v with
  | GNil => Hnil
  | GBool b => Hbool b
  | GInt z => Hint z
  | GFloat x => Hfloat x
  | GStr s => Hstr s
  | GList l => Hlist l ((fix go l : Forall P l := match l with [] => Forall_nil _ | x :: l' => Forall_cons _ _ _ (gval_nested_ind x) (go l') end) l)
  | GMap ms => Hmap ms ((fix go ms : Forall (fun kv => P kv.2) ms :=
      match ms with [] => Forall_nil _ | kv :: ms' => Forall_cons _ _ _ (gval_nested_ind kv.2) (go ms') end) ms)
  end.
End gval_induction.

Lemma digits_printed z : printed (dec_digits z).
Proof. eapply list.Forall_impl; [apply dec_digits_digits|]. intros c Hc. by apply digit_printed. Qed.

Lemma fmt_d_printed z : printed (bytes_of (fmt_d z)).
Proof.
  destruct (fmt_d_chars z) as (l & -> & Hl). rewrite bytes_of_string_of. eapply list.Forall_impl; [exact Hl|]. intros c Hc.
  apply num_char_visible in Hc. unfold visible in Hc. lia.
Qed.

Lemma replicate_printed n c : 32 <= byte_val c -> printed (replicate n c).
Proof. intros Hc. by apply list.Forall_replicate. Qed.

Lemma fixed_text_printed c e : printed (fixed_text c e).
Proof.
  pose proof (digits_printed c) as Hd. unfold fixed_text. cbn zeta. destruct (0 <=? e); [|destruct (0 <? _)].
  - apply list.Forall_app. split; [exact Hd|by apply replicate_printed].
  - apply list.Forall_app. split; [by apply list.Forall_take|]. constructor; [done|by apply list.Forall_drop].
  - constructor; [done|]. constructor; [done|]. apply list.Forall_app. split; [by apply replicate_printed|exact Hd].
Qed.

Lemma exponent_text_printed c e : printed (exponent_text c e).
Proof.
  pose proof (digits_printed c) as Hd. unfold exponent_text. destruct (dec_digits c) as [|d1 rest]; [constructor|].
  apply list.Forall_cons in Hd as [Hd1 Hrest]. constructor; [done|]. apply list.Forall_app. split; [by destruct rest; [constructor|constructor]|].
  constructor; [done|]. constructor; [by case_match|apply digits_printed].
Qed.

Lemma json_float_printed x t : json_float x = Some t -> printed (bytes_of t).
Proof.
  unfold json_float. destruct x as [neg| | |neg m e]; try done.
  - intros [= <-]. destruct neg; repeat constructor; done.
  - destruct (shortest _ _ _ _ _ _) as [c k]. destruct (strip_zeros _ _ _) as [c' k']. intros [= <-]. rewrite bytes_of_app, bytes_of_string_of.
    apply list.Forall_app. split; [destruct neg; repeat constructor; done|]. case_match; [apply exponent_text_printed|apply fixed_text_printed].
Qed.

Lemma gval_json_numbers v : forall j, gval_json v = Some j -> json_numbers j = true.
Proof.
  induction v as [|b|z|x|s|l IH|ms IH] using gval_nested_ind; intros j; cbn [gval_json].
  - by intros [= <-].
  - by intros [= <-].
  - intros [= <-]. apply forallb_printed, fmt_d_printed.
  - destruct (json_float x) as [t|] eqn:E; [|done]. intros [= <-]. apply forallb_printed. by eapply json_float_printed.
  - by intros [= <-].
  - match goal with |- match ?g l with _ => _ end = _ -> _ => destruct (g l) as [js|] eqn:E; [|done] end. intros [= <-]. cbn [json_numbers].
    revert js E. induction IH as [|x l Hx _ IHl]; intros js; [by intros [= <-]|]. destruct (gval_json x) as [y|]; [|done].
    match goal with |- match ?g with _ => _ end = _ -> _ => destruct g as [r|]; [|done] end. intros [= <-]. cbn [forallb]. by rewrite (Hx y eq_refl), (IHl r eq_refl).
  - match goal with |- match ?g ms with _ => _ end = _ -> _ => destruct (g ms) as [js|] eqn:E; [|done] end. intros [= <-]. cbn [json_numbers].
    assert (Hjs : forallb (fun kv => json_numbers kv.2) js = true).
    { revert js E. induction IH as [|[k x] l Hx _ IHl]; intros js; [by intros [= <-]|]. cbn in Hx. destruct (gval_json x) as [y|]; [|done].
      match goal with |- match ?g with _ => _ end = _ -> _ => destruct g as [r|]; [|done] end. intros [= <-]. cbn [forallb snd]. by rewrite (Hx y eq_refl), (IHl r eq_refl). }
    rewrite forallb_forall in Hjs |- *. intros kv Hkv. apply Hjs. rewrite <- list_elem_of_In in *. by rewrite sort_slice_perm in Hkv.
Qed.

Lemma log_data_one_line entry : newline ∉ log_data entry.
Proof.
  apply printed_no_newline. unfold log_data. destruct (gval_json _) as [v|] eqn:E; [|repeat constructor; done].
  by apply json_printed, (gval_json_numbers _ _ E).
Qed.

(** A writer that takes everything. *)
#[export] Instance buffer : Writer (list ascii) := fun data w => (w ++ data, None).

(** One call of the logger: its level, message, time and extra fields. *)
Record log_call : Type := mklog_call { lc_logger : Logger; lc_level : string; lc_msg : string; lc_now : Time; lc_extra : list (gmap string gval) }.
Definition run_log (w : list ascii) (c : log_call) : list ascii := log (lc_logger c) (lc_level c) (lc_msg c) (lc_now c) (lc_extra c) w.
Definition call_data (c : log_call) : list ascii := log_data (log_entry (lc_logger c) (lc_level c) (lc_msg c) (lc_now c) (lc_extra c)).

(** Calls one after the other write one line each, whatever the fields hold. *)
Theorem log_lines (calls : list log_call) : forall w,
  fold_left run_log calls w = w ++ flat_map (fun c => call_data c ++ [newline]) calls /\ Forall (fun c => newline ∉ call_data c) calls.
Proof.
  induction calls as [|c calls IH]; intros w; [split; [by rewrite app_nil_r|constructor]|]. cbn [fold_left flat_map].
  destruct (IH (run_log w c)) as [-> Hall]. split; [|constructor; [apply log_data_one_line|done]].
  unfold run_log, log, Write, buffer. fold (call_data c). cbn [fst]. by rewrite <- !app_assoc.
Qed.

(** ** Tracing *)

(** A configuration that loads never asks for an unknown exporter: what can fail is the exporter to stdout. *)
Theorem telemetry_starts `{HU : Unicode} {E P} `{HS : TracingSDK E P} getenv name cfg (Hcfg : LoadTelemetryRuntimeConfigFromEnv getenv name = Ok cfg) :
  match Init (Some cfg) with
  | Ok (tp, _) => tp = None <-> TelemetryRuntimeConfig_Enabled cfg = false
  | Err e => TelemetryRuntimeConfig_Exporter cfg = "stdout" /\ stdouttrace_New = Err e
  end.
Proof.
  apply telemetry_loaded in Hcfg as [_ Hex _]. unfold Init. destruct (TelemetryRuntimeConfig_Enabled cfg); [|done].
  apply elem_of_cons in Hex as [->|[->|[]%elem_of_nil]%elem_of_cons].
  - by change (newExporter "none") with (@Ok error (option E) None).
  - change (newExporter "stdout") with (match stdouttrace_New with Ok e => @Ok error (option E) (Some e) | Err e => Err e end).
    by destruct stdouttrace_New.
Qed.

(** ** Examples *)

Module logging_demo.
Definition worker : Logger := With "component" (GStr "worker") NewLogger.
Definition call (msg : string) : log_call := mklog_call worker "info" msg 0 [{[ "level" := GStr "debug" ]}].

Example one_line : string_of (run_log [] (call "started")) =
  json_sample "{`component`:`worker`,`level`:`debug`,`msg`:`started`,`ts`:`1970-01-01T00:00:00Z`}" +:+ string_of [newline].
Proof. vm_compute. reflexivity. Qed.

Fixpoint cut_line (l : list ascii) : list ascii * list ascii :=
  match l with
  | [] => ([], [])
  | c :: l' => if Ascii.eqb c newline then ([], l') else let '(a, b) := cut_line l' in (c :: a, b)
  end.

(** The entry and the newline are two writes without a lock: two goroutines that log at the same time can produce a line
    with two entries, which is not JSON, and an empty line. *)
Example torn_lines :
  let out := call_data (call "a") ++ call_data (call "b") ++ [newline] ++ [newline] in
  let '(first, rest) := cut_line out in is_ok (json_parse (string_of first)) = false /\ rest = [newline].
Proof. vm_compute. auto. Qed.
End logging_demo.
