(* ===== verification/URL.v ===== *)
(** * URL: net/url and the addresses of package net

    What the validation of a base URL uses of the Go library (as of Go 1.24.0): [url.Parse] with
    its errors, [Hostname], [String], and [net.ParseIP] with [IsLoopback].  Texts are lists of
    bytes here. *)

From Stdlib Require Import Ascii.
From S2P Require Import Prelude GoLib JSON Encoding.

(** ** Cutting texts *)

(** [strings.Cut] at a byte. *)
Fixpoint cut (c : ascii) (l : list ascii) : option (list ascii * list ascii) :=
  match l with
  | [] => None
  | x :: l' =>
      if Ascii.eqb x c then Some ([], l')
      else match cut c l' with Some (a, b) => Some (x :: a, b) | None => None end
  end.

(** The text before the first [c], and the text after it (nothing, without a [c]). *)
Definition cut_at (c : ascii) (l : list ascii) : list ascii * list ascii := default (l, []) (cut c l).

(** The texts before and after the last [c]. *)
Definition cut_last (c : ascii) (l : list ascii) : option (list ascii * list ascii) :=
  match cut c (rev l) with Some (a, b) => Some (rev b, rev a) | None => None end.

Definition contains_byte (c : ascii) (l : list ascii) : bool := existsb (Ascii.eqb c) l.

(** [strings.Cut] at "%25", the second part with the separator. *)
Fixpoint cut_zone (l : list ascii) : option (list ascii * list ascii) :=
  match l with
  | [] => None
  | x :: l' =>
      if bool_decide (take 3 l = bytes_of "%25") then Some ([], l)
      else match cut_zone l' with Some (a, b) => Some (x :: a, b) | None => None end
  end.

(** ** Escapes *)

Inductive encoding : Type := encodePath | encodeUserPassword | encodeHost | encodeZone | encodeFragment.
#[global] Instance encoding_eq_dec : EqDecision encoding.
Proof. solve_decision. Defined.

Definition is_letter (c : ascii) : bool := byte_in 97 122 c || byte_in 65 90 c.
Definition one_of (s : string) (c : ascii) : bool := contains_byte c (bytes_of s).

Definition host_mode (mode : encoding) : bool := bool_decide (mode = encodeHost \/ mode = encodeZone).

Definition shouldEscape (c : ascii) (mode : encoding) : bool :=
  if is_letter c || is_digit c then false
  else if host_mode mode && (one_of "!$&'()*+,;=:[]<>" c || Ascii.eqb c dquote) then false
  else if one_of "-_.~" c then false
  else if one_of "$&+,/:;=?@" c && negb (host_mode mode) then
    match mode with
    | encodePath => Ascii.eqb c "?"
    | encodeUserPassword => one_of "@/?:" c
    | _ => false
    end
  else if bool_decide (mode = encodeFragment) && one_of "!()*" c then false
  else true.

Definition upper_hex (z : Z) : ascii := if z <? 10 then digit z else byte_of (55 + z).

Definition url_escape (mode : encoding) (l : list ascii) : list ascii :=
  flat_map (fun c => if shouldEscape c mode then ["%"%char; upper_hex (byte_val c / 16); upper_hex (byte_val c mod 16)] else [c]) l.

Section parsing.
Context `{Unicode}.

Definition EscapeError (l : list ascii) : error := errors_New ("invalid URL escape " +:+ Quote (string_of (take 3 l))).
Definition InvalidHostError (c : ascii) : error :=
  errors_New ("invalid character " +:+ Quote (string_of [c]) +:+ " in host name").

(** An escape is allowed in its place. *)
Definition escape_ok (mode : encoding) (esc : list ascii) (hi lo : Z) : bool :=
  match mode with
  | encodeHost => negb (hi <? 8) || bool_decide (esc = bytes_of "%25")
  | encodeZone => bool_decide (esc = bytes_of "%25") || (hi * 16 + lo =? 32) || negb (shouldEscape (byte_of (hi * 16 + lo)) encodeHost)
  | _ => true
  end.

Fixpoint unescape (mode : encoding) (l : list ascii) : result error (list ascii) :=
  match l with
  | [] => Ok []
  | c :: l1 =>
      if Ascii.eqb c "%" then
        match l1 with
        | a :: b :: l3 =>
            match hex_value a, hex_value b with
            | Some hi, Some lo =>
                if escape_ok mode [c; a; b] hi lo
                then match unescape mode l3 with Ok r => Ok (byte_of (hi * 16 + lo) :: r) | Err e => Err e end
                else Err (EscapeError l)
            | _, _ => Err (EscapeError l)
            end
        | _ => Err (EscapeError l)
        end
      else if host_mode mode && (byte_val c <? 128) && shouldEscape c mode then Err (InvalidHostError c)
      else match unescape mode l1 with Ok r => Ok (c :: r) | Err e => Err e end
  end.

(** A text that may stay as it is. *)
Definition validEncoded (mode : encoding) (l : list ascii) : bool :=
  forallb (fun c => one_of "!$&'()*+,;=:@[]%" c || negb (shouldEscape c mode)) l.

(** ** url.Parse *)

Record Userinfo : Type := mkUserinfo { Userinfo_username : list ascii; Userinfo_password : option (list ascii) }.

Record URL : Type := mkURL {
  URL_Scheme : string;
  URL_Opaque : list ascii;
  URL_User : option Userinfo;
  URL_Host : list ascii;
  URL_Path : list ascii;
  URL_RawPath : list ascii;
  URL_OmitHost : bool;
  URL_ForceQuery : bool;
  URL_RawQuery : list ascii;
  URL_Fragment : list ascii;
  URL_RawFragment : list ascii }.

(** The scheme and the rest; without a valid scheme the whole text is the rest. *)
Fixpoint getScheme (first : bool) (l : list ascii) : result error (option (list ascii * list ascii)) :=
  match l with
  | [] => Ok None
  | c :: l' =>
      let go := match getScheme false l' with
                | Ok (Some (s, r)) => Ok (Some (c :: s, r))
                | other => other
                end in
      if is_letter c then go
      else if is_digit c || one_of "+-." c then (if first then Ok None else go)
      else if Ascii.eqb c ":" then (if first then Err (errors_New "missing protocol scheme") else Ok (Some ([], l')))
      else Ok None
  end.

Definition validOptionalPort (port : list ascii) : bool :=
  match port with
  | [] => true
  | c :: digits => Ascii.eqb c ":" && forallb is_digit digits
  end.

Definition invalid_port (port : list ascii) : error :=
  errors_New ("invalid port " +:+ Quote (string_of port) +:+ " after host").

Definition parseHost (host : list ascii) : result error (list ascii) :=
  match host with
  | "["%char :: _ =>
      match cut_last "]" host with
      | None => Err (errors_New "missing ']' in host")
      | Some (inside, colonPort) =>
          if negb (validOptionalPort colonPort) then Err (invalid_port colonPort)
          else match cut_zone inside with
               | Some (addr, zone) =>
                   match unescape encodeHost addr with
                   | Err e => Err e
                   | Ok host1 =>
                       match unescape encodeZone zone with
                       | Err e => Err e
                       | Ok host2 =>
                           match unescape encodeHost ("]"%char :: colonPort) with
                           | Err e => Err e
                           | Ok host3 => Ok (host1 ++ host2 ++ host3)
                           end
                       end
                   end
               | None => unescape encodeHost host
               end
      end
  | _ =>
      match cut_last ":" host with
      | Some (_, port) => if negb (validOptionalPort (":"%char :: port)) then Err (invalid_port (":"%char :: port)) else unescape encodeHost host
      | None => unescape encodeHost host
      end
  end.

Definition validUserinfo (l : list ascii) : bool :=
  forallb (fun c => is_letter c || is_digit c || one_of "-._:~!$&'()*+,;=%@" c) l.

Definition parseUserinfo (l : list ascii) : result error Userinfo :=
  if negb (validUserinfo l) then Err (errors_New "net/url: invalid userinfo")
  else match cut ":" l with
       | None => match unescape encodeUserPassword l with Ok u => Ok (mkUserinfo u None) | Err e => Err e end
       | Some (u, p) =>
           match unescape encodeUserPassword u with
           | Err e => Err e
           | Ok u => match unescape encodeUserPassword p with Ok p => Ok (mkUserinfo u (Some p)) | Err e => Err e end
           end
       end.

Definition parseAuthority (authority : list ascii) : result error (option Userinfo * list ascii) :=
  match cut_last "@" authority with
  | None => match parseHost authority with Ok host => Ok (None, host) | Err e => Err e end
  | Some (userinfo, host) =>
      match parseHost host with
      | Err e => Err e
      | Ok host => match parseUserinfo userinfo with Ok u => Ok (Some u, host) | Err e => Err e end
      end
  end.

(** The raw text is kept when it is not the default escape of the decoded one. *)
Definition raw_of (mode : encoding) (decoded raw : list ascii) : list ascii :=
  if bool_decide (raw = url_escape mode decoded) then [] else raw.

Definition is_control (c : ascii) : bool := (byte_val c <? 32) || (byte_val c =? 127).

(** The rest without its query: a final question mark alone, or what follows the first one. *)
Definition split_query (rest : list ascii) : list ascii * bool * list ascii :=
  match cut "?" rest with
  | Some (r, []) => (r, true, [])
  | Some (r, q) => (r, false, q)
  | None => (rest, false, [])
  end.

Definition starts_with (p : string) (l : list ascii) : bool := bool_decide (take (String.length p) l = bytes_of p).

(** The URL of a text without a fragment. *)
Definition parse_url (raw : list ascii) : result error URL :=
  if existsb is_control raw then Err (errors_New "net/url: invalid control character in URL")
  else if bool_decide (raw = bytes_of "*") then Ok (mkURL "" [] None [] raw [] false false [] [] [])
  else
    match getScheme true raw with
    | Err e => Err e
    | Ok found =>
        let '(scheme, rest) := match found with Some (s, r) => (ToLower (string_of s), r) | None => ("", raw) end in
        let '(rest, forceQuery, query) := split_query rest in
        let with_authority (user : option Userinfo) (host path : list ascii) (omit : bool) :=
          match unescape encodePath path with
          | Err e => Err e
          | Ok decoded => Ok (mkURL scheme [] user host decoded (raw_of encodePath decoded path) omit forceQuery query [] [])
          end in
        if negb (starts_with "/" rest) && negb (String.eqb scheme "") then Ok (mkURL scheme rest None [] [] [] false forceQuery query [] [])
        else if negb (starts_with "/" rest) && contains_byte ":" (cut_at "/" rest).1
        then Err (errors_New "first path segment in URL cannot contain colon")
        else if (negb (String.eqb scheme "") || negb (starts_with "///" rest)) && starts_with "//" rest then
          let authority := drop 2 rest in
          let '(authority, path) :=
            match cut "/" authority with Some (a, p) => (a, "/"%char :: p) | None => (authority, []) end in
          match parseAuthority authority with
          | Err e => Err e
          | Ok (user, host) => with_authority user host path false
          end
        else with_authority None [] rest (negb (String.eqb scheme "") && starts_with "/" rest)
    end.

Definition url_Error (raw : list ascii) (e : error) : error :=
  wrapf ("parse " +:+ Quote (string_of raw) +:+ ": ") e.

Definition url_Parse (s : string) : result error URL :=
  let raw := bytes_of s in
  let '(u, frag) := cut_at "#" raw in
  match parse_url u with
  | Err e => Err (url_Error u e)
  | Ok url =>
      match frag with
      | [] => Ok url
      | _ =>
          match unescape encodeFragment frag with
          | Err e => Err (url_Error raw e)
          | Ok decoded =>
              Ok (mkURL (URL_Scheme url) (URL_Opaque url) (URL_User url) (URL_Host url) (URL_Path url) (URL_RawPath url)
                    (URL_OmitHost url) (URL_ForceQuery url) (URL_RawQuery url) decoded (raw_of encodeFragment decoded frag))
          end
      end
  end.

(** ** Hostname and String *)

Definition Hostname (u : URL) : string :=
  let host := match cut_last ":" (URL_Host u) with
              | Some (h, port) => if validOptionalPort (":"%char :: port) then h else URL_Host u
              | None => URL_Host u
              end in
  string_of (match host with
             | "["%char :: h => match rev h with "]"%char :: r => rev r | _ => host end
             | _ => host
             end).

Definition Userinfo_String (u : Userinfo) : list ascii :=
  match Userinfo_username u, Userinfo_password u with
  | [], None | [], Some [] => []
  | name, None => url_escape encodeUserPassword name
  | name, Some p => url_escape encodeUserPassword name ++ ":"%char :: url_escape encodeUserPassword p
  end.

(** The raw text if it is a valid escape of the decoded one. *)
Definition kept (mode : encoding) (raw decoded : list ascii) : bool :=
  negb (bool_decide (raw = [])) && validEncoded mode raw &&
  match unescape mode raw with Ok d => bool_decide (d = decoded) | Err _ => false end.

Definition EscapedPath (u : URL) : list ascii :=
  if kept encodePath (URL_RawPath u) (URL_Path u) then URL_RawPath u
  else if bool_decide (URL_Path u = ["*"%char]) then ["*"%char]
  else url_escape encodePath (URL_Path u).

Definition EscapedFragment (u : URL) : list ascii :=
  if kept encodeFragment (URL_RawFragment u) (URL_Fragment u) then URL_RawFragment u
  else url_escape encodeFragment (URL_Fragment u).

Definition URL_String (u : URL) : string :=
  let scheme := if String.eqb (URL_Scheme u) "" then [] else bytes_of (URL_Scheme u) ++ [":"%char] in
  let body :=
    match URL_Opaque u with
    | _ :: _ => scheme ++ URL_Opaque u
    | [] =>
        let no_host := bool_decide (URL_Host u = []) && match URL_User u with None => true | _ => false end in
        let authority :=
          if (String.eqb (URL_Scheme u) "" && no_host) || (URL_OmitHost u && no_host) then []
          else (if no_host && bool_decide (URL_Path u = []) then [] else bytes_of "//")
               ++ match URL_User u with Some ui => Userinfo_String ui ++ ["@"%char] | None => [] end
               ++ url_escape encodeHost (URL_Host u) in
        let path := EscapedPath u in
        let slash := if negb (bool_decide (path = [])) && negb (starts_with "/" path) && negb (bool_decide (URL_Host u = []))
                     then ["/"%char] else [] in
        let before := scheme ++ authority ++ slash in
        let dot := if bool_decide (before = []) && contains_byte ":" (cut_at "/" path).1 then bytes_of "./" else [] in
        before ++ dot ++ path
    end in
  string_of (body
    ++ (if URL_ForceQuery u || negb (bool_decide (URL_RawQuery u = [])) then "?"%char :: URL_RawQuery u else [])
    ++ match URL_Fragment u with [] => [] | _ => "#"%char :: EscapedFragment u end).
End parsing.

(** ** net.ParseIP *)

(** The bytes of an IPv4 address in dotted decimal form. *)
Definition parse_octet (s : string) : option Z :=
  match bytes_of s with
  | [] => None
  | [c] => if is_digit c then Some (byte_val c - 48) else None
  | c :: l =>
      let v := parse_digits 0 (c :: l) in
      if forallb is_digit (c :: l) && negb (Ascii.eqb c "0") && (v <=? 255) then Some v else None
  end.

Definition parseIPv4 (l : list ascii) : option (list Z) :=
  let parts := Split (string_of l) "." in
  if Nat.eqb (length parts) 4 then mapM parse_octet parts else None.

Fixpoint span_hex (l : list ascii) : list Z * list ascii :=
  match l with
  | c :: l' => match hex_value c with Some v => let '(d, r) := span_hex l' in (v :: d, r) | None => ([], l) end
  | [] => ([], [])
  end.

(** The groups of an IPv6 address: the bytes so far, the place of "::" and what is left, for at
    most [room] more groups. *)
Fixpoint ipv6_groups (room : nat) (ip : list Z) (ellipsis : option nat) (s : list ascii) : option (list Z * option nat * list ascii) :=
  match room with
  | O => Some (ip, ellipsis, s)
  | S room =>
      let '(digits, rest) := span_hex s in
      if Nat.eqb (length digits) 0 || Nat.ltb 4 (length digits) then None
      else
        let acc := fold_left (fun a d => a * 16 + d) digits 0 in
        let ip' := ip ++ [acc / 256; acc mod 256] in
        match rest with
        | [] => Some (ip', ellipsis, [])
        | "."%char :: _ =>
            if (match ellipsis with None => negb (Nat.eqb (length ip) 12) | Some _ => false end) || Nat.ltb 16 (length ip + 4) then None
            else match parseIPv4 s with Some v4 => Some (ip ++ v4, ellipsis, []) | None => None end
        | ":"%char :: r =>
            match r with
            | [] => None
            | ":"%char :: r2 =>
                match ellipsis, r2 with
                | Some _, _ => None
                | None, [] => Some (ip', Some (length ip'), [])
                | None, _ => ipv6_groups room ip' (Some (length ip')) r2
                end
            | _ => ipv6_groups room ip' ellipsis r
            end
        | _ => None
        end
  end.

(** An IPv6 address without a zone. *)
Definition parseIPv6 (s : list ascii) : option (list Z) :=
  if bool_decide (s = bytes_of "::") then Some (replicate 16 0)
  else
    let '(ellipsis, s) := if starts_with "::" s then (Some O, drop 2 s) else (None, s) in
    match ipv6_groups 8 [] ellipsis s with
    | Some (ip, ellipsis, []) =>
        match Nat.ltb (length ip) 16, ellipsis with
        | true, Some k => Some (take k ip ++ replicate (16 - length ip) 0 ++ drop k ip)
        | true, None | false, Some _ => None
        | false, None => Some ip
        end
    | _ => None
    end.

Definition v4InV6Prefix : list Z := replicate 10 0 ++ [255; 255].

(** The sixteen bytes of an address; a zone is not allowed. *)
Definition ParseIP (s : string) : option (list Z) :=
  let l := bytes_of s in
  match List.find (fun c => one_of ".:%" c) l with
  | Some "."%char => match parseIPv4 l with Some v4 => Some (v4InV6Prefix ++ v4) | None => None end
  | Some ":"%char => if contains_byte "%" l then None else parseIPv6 l
  | _ => None
  end.

Definition IsLoopback (ip : list Z) : bool :=
  if bool_decide (take 12 ip = v4InV6Prefix) then bool_decide (ip !! 12%nat = Some 127)
  else bool_decide (ip = replicate 15 0 ++ [1]).

(** ** Examples *)

Module url_demo.
#[local] Existing Instance ascii_unicode.

Definition hostname_of (s : string) : option string := match url_Parse s with Ok u => Some (Hostname u) | Err _ => None end.
Definition reprint (s : string) : option string := match url_Parse s with Ok u => Some (URL_String u) | Err _ => None end.

Example hostnames :
  map hostname_of ["https://api.openai.com/v1"; "http://u:p@LOCALHOST:8080/v1/"; "https://[::1]:443/x"; "https://[fe80::1%25en0]/";
                   "mailto:x"; "http://a b/"; "http://h:8x/"; "http://[::1"; ":x"; "https://h?q=1#f"] =
  [Some "api.openai.com"; Some "LOCALHOST"; Some "::1"; Some "fe80::1%en0"; Some ""; None; None; None; None; Some "h"].
Proof. vm_compute. reflexivity. Qed.

Example texts :
  map reprint ["HTTPS://Api.OpenAI.com/v1"; "http://u:p%40@h:8080/v%31/a%2Fb/"; "https://[fe80::1%25en0]/?"; "https://h?q=1#f%21"; "x:y"; "/a:b"; "*"] =
  [Some "https://Api.OpenAI.com/v1"; Some "http://u:p%40@h:8080/v%31/a%2Fb/"; Some "https://[fe80::1%25en0]/?"; Some "https://h?q=1#f%21"; Some "x:y"; Some "/a:b"; Some "*"].
Proof. vm_compute. reflexivity. Qed.

Example addresses :
  map ParseIP ["127.0.0.1"; "10.0.0.256"; "1.2.3"; "01.2.3.4"; "::1"; "::"; "1::2::3"; "fe80::1%en0"; "::ffff:127.0.0.1"; "1:2:3:4:5:6:7:8"; "1:2:3:4:5:6:7::"; "host"] =
  [Some (v4InV6Prefix ++ [127; 0; 0; 1]); None; None; None; Some (replicate 15 0 ++ [1]); Some (replicate 16 0); None; None;
   Some (v4InV6Prefix ++ [127; 0; 0; 1]); Some [0;1;0;2;0;3;0;4;0;5;0;6;0;7;0;8]; Some [0;1;0;2;0;3;0;4;0;5;0;6;0;7;0;0]; None].
Proof. vm_compute. reflexivity. Qed.
End url_demo.
