(* ===== verification/OpenAI.v ===== *)
(** * OpenAI: the client of an OpenAI-compatible API (src/pkg/engine/openai_llm.go)

    Requests and their JSON, the retry loops, and the assembling of an answer from one response
    or from a stream of server-sent events.  The network and the clock are the class [Remote]:
    the answer to the n-th request of the client and what the context says after it. *)

From Stdlib Require Import Ascii.
From S2P Require Import Prelude GoLib Strconv JSON Model StateStore World TaskService Artifacts Engine Encoding URL API Router.

Definition llmProviderOpenAI : string := "openai".
Definition defaultOpenAIBaseURL : string := "https://api.openai.com/v1".
Definition openAIMaxResponseBytes : Z := 2 * 2 ^ 20.
Definition openAIMaxStreamBytes : Z := 8 * 2 ^ 20.
Definition openAIMaxSSELineBytes : Z := 2 ^ 20.
Definition openAIMaxAttempts : Z := 3.

(** ** HTTP *)

(** An [http.Client]; [T] stands for its transport, its redirect policy and its cookie jar. *)
Record http_Client (T : Type) : Type := mkhttp_Client { http_Transport : T; http_Timeout : Duration }.
Arguments mkhttp_Client {T}.
Arguments http_Transport {T}.
Arguments http_Timeout {T}.

Record HTTPRequest : Type := mkHTTPRequest {
  HTTPRequest_Method : string; HTTPRequest_URL : string;
  HTTPRequest_Authorization : string; HTTPRequest_ContentType : string;
  HTTPRequest_Body : string }.

(** A response: its body is the bytes that can be read, then the end or an error. *)
Record HTTPResponse : Type := mkHTTPResponse {
  HTTPResponse_StatusCode : Z; HTTPResponse_RetryAfter : string;
  HTTPResponse_Body : list ascii; HTTPResponse_ReadErr : option error; HTTPResponse_CloseErr : option error }.

(** [Do] answers the n-th request, [ctx_Err] and [time_Now] are read after it; [ctx_Done n d] tells
    whether and when the context is done during a pause of [d] after that request.  [http_ParseTime]
    depends on the time zones of the machine. *)
Class Remote (T : Type) := {
  default_transport : T;
  Do : http_Client T -> nat -> HTTPRequest -> result error HTTPResponse;
  ctx_Err : nat -> option error;
  ctx_Done : nat -> Duration -> option Duration;
  time_Now : nat -> Time;
  http_ParseTime : string -> option Time }.

(** A context that is done has an error from then on. *)
Class ContextLaws (T : Type) `{Remote T} : Prop := {
  law_done : forall n d, ctx_Done n d <> None -> ctx_Err (S n) <> None }.

(** The first [n] bytes. *)
Fixpoint limit_bytes (n : Z) (l : list ascii) : list ascii :=
  match l with
  | [] => []
  | c :: l' => if n <=? 0 then [] else c :: limit_bytes (n - 1) l'
  end.

(** A body behind [io.LimitReader]: behind the limit its error is not seen. *)
Definition limit_body (n : Z) (resp : HTTPResponse) : list ascii * option error :=
  (limit_bytes n (HTTPResponse_Body resp),
   if Z.of_nat (length (HTTPResponse_Body resp)) <? n then HTTPResponse_ReadErr resp else None).

(** *** bufio.Scanner over lines *)

Fixpoint split_lines (cur : list ascii) (l : list ascii) : list (list ascii) * list ascii :=
  match l with
  | [] => ([], rev cur)
  | c :: l' =>
      if Ascii.eqb c (ascii_of_nat 10) then let '(ls, r) := split_lines [] l' in (rev cur :: ls, r)
      else split_lines (c :: cur) l'
  end.

Definition dropCR (l : list ascii) : list ascii :=
  match rev l with c :: r => if Ascii.eqb c (ascii_of_nat 13) then rev r else l | [] => l end.

Definition ErrTooLong : error := errors_New "bufio.Scanner: token too long".
Definition line_fits (l : list ascii) : bool := Z.of_nat (length l) <? openAIMaxSSELineBytes.

(** The lines in order, each with what [Err] returns if the loop stops there, and what it
    returns at the end.  A line has to fit in the buffer; the last one may lack its end. *)
Fixpoint scan_lines (lines : list (list ascii)) (last : list ascii) (err : option error) : list (string * option error) * option error :=
  match lines with
  | [] =>
      if negb (line_fits last) then ([], Some ErrTooLong)
      else match last with [] => ([], err) | _ => ([(string_of (dropCR last), err)], err) end
  | l :: lines' =>
      if negb (line_fits l) then ([], Some ErrTooLong)
      else let '(ts, e) := scan_lines lines' last err in ((string_of (dropCR l), None) :: ts, e)
  end.

Definition scan_body (body : list ascii) (err : option error) : list (string * option error) * option error :=
  let '(lines, last) := split_lines [] body in scan_lines lines last err.

(** ** The structs of the API *)

Record openAIUsage : Type := mkopenAIUsage { PromptTokens : Z; CompletionTokens : Z; TotalTokens : Z }.
#[global] Instance openAIUsage_eta : Eta openAIUsage := fun u => mkopenAIUsage (PromptTokens u) (CompletionTokens u) (TotalTokens u).

Record openAIToolFunctionCall : Type := mkopenAIToolFunctionCall { Function_Name : string; Function_Arguments : string }.
#[global] Instance openAIToolFunctionCall_eta : Eta openAIToolFunctionCall := fun f => mkopenAIToolFunctionCall (Function_Name f) (Function_Arguments f).

Record openAIToolCallMessage : Type := mkopenAIToolCallMessage {
  TCM_ID : string; TCM_Type : string; TCM_Function : openAIToolFunctionCall }.
#[global] Instance openAIToolCallMessage_eta : Eta openAIToolCallMessage := fun m => mkopenAIToolCallMessage (TCM_ID m) (TCM_Type m) (TCM_Function m).

Record openAIStreamToolCall : Type := mkopenAIStreamToolCall {
  STC_Index : Z; STC_ID : string; STC_Type : string; STC_Function : openAIToolFunctionCall }.
#[global] Instance openAIStreamToolCall_eta : Eta openAIStreamToolCall := fun m => mkopenAIStreamToolCall (STC_Index m) (STC_ID m) (STC_Type m) (STC_Function m).

(** A slice that is decoded into: its elements, and what the array behind it holds from before. *)
Record Slice (A : Type) : Type := mkSlice { elems : list A; spare : list A }.
Arguments mkSlice {A}.
Arguments elems {A}.
Arguments spare {A}.
Definition nil_slice {A} : Slice A := mkSlice [] [].

(** A [json.RawMessage] is the value it holds; it is empty before it is decoded. *)
Record openAIChoiceMessage : Type := mkopenAIChoiceMessage {
  Message_Content : option JSON; Message_ToolCalls : Slice openAIToolCallMessage }.
#[global] Instance openAIChoiceMessage_eta : Eta openAIChoiceMessage := fun m => mkopenAIChoiceMessage (Message_Content m) (Message_ToolCalls m).

Record openAIStreamDelta : Type := mkopenAIStreamDelta {
  Delta_Content : option JSON; Delta_ToolCalls : Slice openAIStreamToolCall }.
#[global] Instance openAIStreamDelta_eta : Eta openAIStreamDelta := fun m => mkopenAIStreamDelta (Delta_Content m) (Delta_ToolCalls m).

Record openAIChoice : Type := mkopenAIChoice { Choice_Message : openAIChoiceMessage; Choice_FinishReason : string }.
#[global] Instance openAIChoice_eta : Eta openAIChoice := fun c => mkopenAIChoice (Choice_Message c) (Choice_FinishReason c).

Record openAIStreamChoice : Type := mkopenAIStreamChoice { StreamChoice_Delta : openAIStreamDelta; StreamChoice_FinishReason : string }.
#[global] Instance openAIStreamChoice_eta : Eta openAIStreamChoice := fun c => mkopenAIStreamChoice (StreamChoice_Delta c) (StreamChoice_FinishReason c).

Record openAIChatResponse : Type := mkopenAIChatResponse { Response_Choices : Slice openAIChoice; Response_Usage : option openAIUsage }.
#[global] Instance openAIChatResponse_eta : Eta openAIChatResponse := fun r => mkopenAIChatResponse (Response_Choices r) (Response_Usage r).

Record openAIChatStreamResponse : Type := mkopenAIChatStreamResponse {
  StreamResponse_Choices : Slice openAIStreamChoice; StreamResponse_Usage : option openAIUsage }.
#[global] Instance openAIChatStreamResponse_eta : Eta openAIChatStreamResponse := fun r =>
  mkopenAIChatStreamResponse (StreamResponse_Choices r) (StreamResponse_Usage r).

Record openAIFunctionDef : Type := mkopenAIFunctionDef {
  FunctionDef_Name : string; FunctionDef_Description : string; FunctionDef_Parameters : JSON }.
Record openAITool : Type := mkopenAITool { Tool_Type : string; Tool_Function : openAIFunctionDef }.

Record openAIMessage : Type := mkopenAIMessage {
  Msg_Role : string; Msg_Content : string; Msg_ToolCallID : string; Msg_ToolCalls : list openAIToolCallMessage }.
#[global] Instance openAIMessage_eta : Eta openAIMessage := fun m => mkopenAIMessage (Msg_Role m) (Msg_Content m) (Msg_ToolCallID m) (Msg_ToolCalls m).

Record openAIStreamOptions : Type := mkopenAIStreamOptions { IncludeUsage : bool }.

Record openAIChatRequest : Type := mkopenAIChatRequest {
  Request_Model : string;
  Request_Messages : list openAIMessage;
  Request_Temperature : option float64;
  Request_MaxTokens : option Z;
  Request_Tools : list openAITool;
  Request_ToolChoice : string;
  Request_Stream : bool;
  Request_StreamOptions : option openAIStreamOptions }.

(** ** Decoding *)

Section decoding_responses.
Context `{JSONText}.

(** The elements of an array decoded into what is there already, then into zero values. *)
Fixpoint decode_elems {A} (set : setter (S := A)) (zero : A) (l : list JSON) (old : list A) : list A * option error :=
  match l with
  | [] => ([], None)
  | v :: l' =>
      let '(a, e) := set v (default zero (head old)) in
      let '(rest, e') := decode_elems set zero l' (tail old) in
      (a :: rest, match e with Some _ => e | None => e' end)
  end.

(** A slice: [null] makes it nil, an array reuses the array behind the slice. *)
Definition decode_slice {A} (set : setter (S := A)) (zero : A) (go_type : string) (v : JSON) (s : Slice A) : Slice A * option error :=
  match v with
  | JNull => (nil_slice, None)
  | JArr [] => (nil_slice, None)
  | JArr l =>
      let old := elems s ++ spare s in
      let '(new, e) := decode_elems set zero l old in (mkSlice new (drop (length l) old), e)
  | _ => (s, Some (json_type_error v go_type))
  end.

(** A struct within a struct, and a field that is a slice. *)
Definition set_struct {A B} (get : A -> B) (put : B -> A -> A) (fields : list (field (S := B))) : setter (S := A) :=
  fun v a => let '(b, e) := decode_struct fields v (get a) in (put b a, e).
Definition set_slice {A B} (get : A -> Slice B) (put : Slice B -> A -> A) (set : setter (S := B)) (zero : B) (go_type : string) : setter (S := A) :=
  fun v a => let '(s, e) := decode_slice set zero go_type v (get a) in (put s a, e).

Definition function_fields : list (field (S := openAIToolFunctionCall)) :=
  [("name", set_with json_string (fun v f => f <| Function_Name := v |>));
   ("arguments", set_with json_string (fun v f => f <| Function_Arguments := v |>))].

Definition tool_call_fields : list (field (S := openAIToolCallMessage)) :=
  [("id", set_with json_string (fun v m => m <| TCM_ID := v |>));
   ("type", set_with json_string (fun v m => m <| TCM_Type := v |>));
   ("function", set_struct TCM_Function (fun f m => m <| TCM_Function := f |>) function_fields)].

Definition stream_call_fields : list (field (S := openAIStreamToolCall)) :=
  [("index", set_with json_int (fun v m => m <| STC_Index := v |>));
   ("id", set_with json_string (fun v m => m <| STC_ID := v |>));
   ("type", set_with json_string (fun v m => m <| STC_Type := v |>));
   ("function", set_struct STC_Function (fun f m => m <| STC_Function := f |>) function_fields)].

Definition zero_function : openAIToolFunctionCall := mkopenAIToolFunctionCall "" "".
Definition zero_call : openAIToolCallMessage := mkopenAIToolCallMessage "" "" zero_function.
Definition zero_stream_call : openAIStreamToolCall := mkopenAIStreamToolCall 0 "" "" zero_function.

Definition message_fields : list (field (S := openAIChoiceMessage)) :=
  [("content", fun v m => (m <| Message_Content := Some v |>, None));
   ("tool_calls", set_slice Message_ToolCalls (fun s m => m <| Message_ToolCalls := s |>) (decode_struct tool_call_fields) zero_call "[]engine.openAIToolCallMessage")].

Definition delta_fields : list (field (S := openAIStreamDelta)) :=
  [("content", fun v m => (m <| Delta_Content := Some v |>, None));
   ("tool_calls", set_slice Delta_ToolCalls (fun s m => m <| Delta_ToolCalls := s |>) (decode_struct stream_call_fields) zero_stream_call "[]engine.openAIStreamToolCall")].

Definition choice_fields : list (field (S := openAIChoice)) :=
  [("message", set_struct Choice_Message (fun m c => c <| Choice_Message := m |>) message_fields);
   ("finish_reason", set_with json_string (fun v c => c <| Choice_FinishReason := v |>))].

Definition stream_choice_fields : list (field (S := openAIStreamChoice)) :=
  [("delta", set_struct StreamChoice_Delta (fun m c => c <| StreamChoice_Delta := m |>) delta_fields);
   ("finish_reason", set_with json_string (fun v c => c <| StreamChoice_FinishReason := v |>))].

Definition zero_choice : openAIChoice := mkopenAIChoice (mkopenAIChoiceMessage None nil_slice) "".
Definition zero_stream_choice : openAIStreamChoice := mkopenAIStreamChoice (mkopenAIStreamDelta None nil_slice) "".

Definition usage_fields : list (field (S := openAIUsage)) :=
  [("prompt_tokens", set_with json_int (fun v u => u <| PromptTokens := v |>));
   ("completion_tokens", set_with json_int (fun v u => u <| CompletionTokens := v |>));
   ("total_tokens", set_with json_int (fun v u => u <| TotalTokens := v |>))].

Definition response_fields : list (field (S := openAIChatResponse)) :=
  [("choices", set_slice Response_Choices (fun s r => r <| Response_Choices := s |>) (decode_struct choice_fields) zero_choice "[]engine.openAIChoice");
   ("usage", set_pointer Response_Usage (fun u r => r <| Response_Usage := u |>) usage_fields (mkopenAIUsage 0 0 0))].

Definition stream_response_fields : list (field (S := openAIChatStreamResponse)) :=
  [("choices", set_slice StreamResponse_Choices (fun s r => r <| StreamResponse_Choices := s |>) (decode_struct stream_choice_fields) zero_stream_choice "[]engine.openAIStreamChoice");
   ("usage", set_pointer StreamResponse_Usage (fun u r => r <| StreamResponse_Usage := u |>) usage_fields (mkopenAIUsage 0 0 0))].

(** A part of a content that is a list: its type and text. *)
Definition part_fields : list (field (S := string * string)) :=
  [("type", set_with json_string (fun v p => (v, p.2))); ("text", set_with json_string (fun v p => (p.1, v)))].

Definition normalizeContent (raw : option JSON) : string :=
  match raw with
  | None | Some JNull => ""
  | Some (JStr s) => s
  | Some v =>
      match decode_slice (decode_struct part_fields) ("", "") "[]struct" v nil_slice with
      | (parts, None) =>
          str_join "" (map snd (List.filter (fun p => bool_decide (p.1 = "text") || bool_decide (p.1 = "")) (elems parts)))
      | (_, Some _) => ""
      end
  end.

(** ** Answers *)

Definition usage_of (u : openAIUsage) : TokenUsage := mkTokenUsage (PromptTokens u) (CompletionTokens u) (TotalTokens u).

(** The tool calls that have a name, with "{}" for blank arguments. *)
Definition named_calls (calls : list ToolCall) : list ToolCall :=
  flat_map (fun tc =>
    if is_blank (ToolCall_Name tc) then []
    else let args := TrimSpace (ToolCall_Args tc) in
         [mkToolCall (ToolCall_ID tc) (ToolCall_Name tc) (if String.eqb args "" then "{}" else args)]) calls.

Definition call_of (m : openAIToolCallMessage) : ToolCall :=
  mkToolCall (TCM_ID m) (Function_Name (TCM_Function m)) (Function_Arguments (TCM_Function m)).

Definition completionToLLMResponse (completion : openAIChatResponse) : result error LLMResponse :=
  match elems (Response_Choices completion) with
  | [] => Err (errors_New "engine: openai client: empty choices")
  | choice :: _ =>
      Ok (mkLLMResponse (normalizeContent (Message_Content (Choice_Message choice)))
            (named_calls (map call_of (elems (Message_ToolCalls (Choice_Message choice)))))
            (usage_of <$> Response_Usage completion) (Choice_FinishReason choice) "" "")
  end.

Record error_payload : Type := mkerror_payload { ep_Message : string; ep_Type : string; ep_Code : string }.
#[local] Instance error_payload_eta : Eta error_payload := fun p => mkerror_payload (ep_Message p) (ep_Type p) (ep_Code p).

Definition error_fields : list (field (S := error_payload)) :=
  [("error", decode_struct
      [("message", set_with json_string (fun v p => p <| ep_Message := v |>));
       ("type", set_with json_string (fun v p => p <| ep_Type := v |>));
       ("code", set_with json_string (fun v p => p <| ep_Code := v |>))])].

Definition parseOpenAIError (statusCode : Z) (body : list ascii) : error :=
  let prefix := "engine: openai client: status " +:+ fmt_d statusCode +:+ ": " in
  let plain := errors_New (prefix +:+ TrimSpace (string_of body)) in
  match json_Unmarshal_struct error_fields (string_of body) (mkerror_payload "" "" "") with
  | Ok p => if String.eqb (ep_Message p) "" then plain else errors_New (prefix +:+ ep_Message p)
  | Err _ => plain
  end.
End decoding_responses.

(** ** Requests *)

Definition role_string (r : MessageRole) : string :=
  match r with
  | MessageRoleSystem => "system"
  | MessageRoleUser => "user"
  | MessageRoleAssistant => "assistant"
  | MessageRoleTool => "tool"
  end.

(** The fields of a struct that are not left out. *)
Definition omit_empty (name : string) (s : string) : list (string * JSON) := if String.eqb s "" then [] else [(name, JStr s)].
Definition omit_nil {A} (name : string) (f : A -> JSON) (l : list A) : list (string * JSON) :=
  match l with [] => [] | _ => [(name, JArr (map f l))] end.

Definition tool_call_json (m : openAIToolCallMessage) : JSON :=
  JObj (omit_empty "id" (TCM_ID m) ++ omit_empty "type" (TCM_Type m) ++
        [("function", JObj [("name", JStr (Function_Name (TCM_Function m))); ("arguments", JStr (Function_Arguments (TCM_Function m)))])]).

Definition message_json (m : openAIMessage) : JSON :=
  JObj ([("role", JStr (Msg_Role m)); ("content", JStr (Msg_Content m))] ++ omit_empty "tool_call_id" (Msg_ToolCallID m)
        ++ omit_nil "tool_calls" tool_call_json (Msg_ToolCalls m)).

Definition tool_json (t : openAITool) : JSON :=
  JObj [("type", JStr (Tool_Type t));
        ("function", JObj ([("name", JStr (FunctionDef_Name (Tool_Function t)))] ++ omit_empty "description" (FunctionDef_Description (Tool_Function t))
           ++ match FunctionDef_Parameters (Tool_Function t) with JNull => [] | v => [("parameters", v)] end))].

Definition options_json (o : openAIStreamOptions) : JSON :=
  JObj (if IncludeUsage o then [("include_usage", JBool true)] else []).

(** [json.Marshal] of a request; an infinite temperature has no JSON. *)
Definition marshal_request (r : openAIChatRequest) : result error JSON :=
  let with_temperature (t : list (string * JSON)) :=
    Ok (JObj ([("model", JStr (Request_Model r)); ("messages", JArr (map message_json (Request_Messages r)))] ++ t
      ++ match Request_MaxTokens r with Some n => [("max_tokens", JNum (fmt_d n))] | None => [] end
      ++ omit_nil "tools" tool_json (Request_Tools r)
      ++ omit_empty "tool_choice" (Request_ToolChoice r)
      ++ (if Request_Stream r then [("stream", JBool true)] else [])
      ++ match Request_StreamOptions r with Some o => [("stream_options", options_json o)] | None => [] end)) in
  match Request_Temperature r with
  | None => with_temperature []
  | Some x => match json_float x with
              | Some t => with_temperature [("temperature", JNum t)]
              | None => Err (errors_New "json: unsupported value: +Inf")
              end
  end.

(** A pause: the time its timer was set to, and how far into it the context ended it, if it did. *)
Record pause : Type := mkPause {
  pause_timer : Duration;
  pause_cut : option Duration }.

(** A client: its settings, and as a history the requests it sent and the pauses it made. *)
Record OpenAICompatibleClient (T : Type) : Type := mkOpenAIClient {
  oc_apiKey : string;
  oc_baseURL : string;
  oc_defaultModel : string;
  oc_httpClient : http_Client T;
  oc_streamClient : http_Client T;
  oc_sent : list HTTPRequest;
  oc_waits : list pause }.
Arguments mkOpenAIClient {T}.
Arguments oc_apiKey {T}.
Arguments oc_baseURL {T}.
Arguments oc_defaultModel {T}.
Arguments oc_httpClient {T}.
Arguments oc_streamClient {T}.
Arguments oc_sent {T}.
Arguments oc_waits {T}.
#[global] Instance OpenAICompatibleClient_eta {T} : Eta (OpenAICompatibleClient T) := fun c =>
  mkOpenAIClient (oc_apiKey c) (oc_baseURL c) (oc_defaultModel c) (oc_httpClient c) (oc_streamClient c) (oc_sent c) (oc_waits c).

Record OpenAICompatibleClientConfig (T : Type) : Type := mkOpenAIConfig {
  Config_APIKey : string;
  Config_BaseURL : string;
  Config_DefaultModel : string;
  Config_Timeout : Duration;
  Config_HTTPClient : option (http_Client T) }.
Arguments mkOpenAIConfig {T}.
Arguments Config_APIKey {T}.
Arguments Config_BaseURL {T}.
Arguments Config_DefaultModel {T}.
Arguments Config_Timeout {T}.
Arguments Config_HTTPClient {T}.

Section building.
Context `{Unicode} `{JSONText}.

Definition openai_message (m : MemoryMessage) : openAIMessage :=
  let msg := mkopenAIMessage (role_string (MemoryMessage_Role m)) (MemoryMessage_Content m) "" [] in
  match MemoryMessage_Role m with
  | MessageRoleAssistant =>
      msg <| Msg_ToolCalls := map (fun tc => mkopenAIToolCallMessage (MemoryToolCall_ID tc) "function"
               (mkopenAIToolFunctionCall (MemoryToolCall_Name tc) (MemoryToolCall_Args tc))) (MemoryMessage_ToolCalls m) |>
  | MessageRoleTool => msg <| Msg_ToolCallID := MemoryMessage_ToolCallID m |>
  | _ => msg
  end.

Definition any_object : JSON := JObj [("additionalProperties", JBool true); ("type", JStr "object")].

(** The schema of a tool: its parameters if they are JSON that fits an [interface{}]. *)
Definition tool_parameters (parameters : string) : JSON :=
  match json_parse parameters with
  | Ok v => match any_value v with Ok v => v | Err _ => any_object end
  | Err _ => any_object
  end.

Definition openai_tools (tools : list ToolSpec) : list openAITool :=
  flat_map (fun t =>
    if is_blank (ToolSpec_Name t) then []
    else [mkopenAITool "function" (mkopenAIFunctionDef (ToolSpec_Name t) (ToolSpec_Description t) (tool_parameters (ToolSpec_Parameters t)))]) tools.

Definition buildChatRequest {T} (c : OpenAICompatibleClient T) (req : LLMRequest) (stream : bool) : openAIChatRequest :=
  let tools := openai_tools (LLMRequest_Tools req) in
  mkopenAIChatRequest
    (configured ModelConfig_ModelID (Some req) (oc_defaultModel c))
    (map openai_message (LLMRequest_Messages req))
    (match LLMRequest_ModelConfig req with
     | Some mc => if f_gtb (ModelConfig_Temperature mc) f_zero then Some (ModelConfig_Temperature mc) else None
     | None => None
     end)
    (match LLMRequest_ModelConfig req with
     | Some mc => if 0 <? ModelConfig_MaxTokens mc then Some (ModelConfig_MaxTokens mc) else None
     | None => None
     end)
    tools
    (match tools with [] => "" | _ => "auto" end)
    stream
    (if stream then Some (mkopenAIStreamOptions true) else None).

(** ** The base URL *)

Definition isLoopbackHost (host : string) : bool :=
  EqualFold host "localhost" || match ParseIP host with Some ip => IsLoopback ip | None => false end.

(** [strings.TrimRight(s, "/")] *)
Definition trim_slashes (s : string) : string := string_of (rev (drop_while (Ascii.eqb "/") (rev (bytes_of s)))).

Definition normalizeAndValidateBaseURL (raw : string) : result error string :=
  let baseURL := if is_blank raw then defaultOpenAIBaseURL else TrimSpace raw in
  match url_Parse baseURL with
  | Err e => Err (wrapf "engine: openai client: invalid OPENAI_BASE_URL: " e)
  | Ok parsed =>
      if String.eqb (URL_Scheme parsed) "" || bool_decide (URL_Host parsed = [])
      then Err (errors_New "engine: openai client: invalid OPENAI_BASE_URL: missing scheme or host")
      else
        let scheme := ToLower (URL_Scheme parsed) in
        let hostname := TrimSpace (Hostname parsed) in
        if String.eqb hostname "" then Err (errors_New "engine: openai client: invalid OPENAI_BASE_URL: empty host")
        else if String.eqb scheme "http" && negb (isLoopbackHost hostname)
        then Err (errors_New "engine: openai client: OPENAI_BASE_URL must use https unless host is localhost/loopback")
        else if negb (String.eqb scheme "https") && negb (String.eqb scheme "http")
        then Err (errors_New ("engine: openai client: OPENAI_BASE_URL scheme " +:+ Quote (URL_Scheme parsed) +:+ " is not allowed"))
        else if match ParseIP hostname with Some ip => negb (IsLoopback ip) | None => false end
        then Err (errors_New "engine: openai client: OPENAI_BASE_URL IP literals are only allowed for loopback addresses")
        else Ok (trim_slashes (URL_String parsed))
  end.

Definition NewOpenAICompatibleClient {T} `{Remote T} (cfg : OpenAICompatibleClientConfig T) : result error (OpenAICompatibleClient T) :=
  if is_blank (Config_APIKey cfg) then Err (errors_New "engine: openai client: api key is required")
  else match normalizeAndValidateBaseURL (Config_BaseURL cfg) with
       | Err e => Err e
       | Ok baseURL =>
           let modelID := if is_blank (Config_DefaultModel cfg) then "gpt-4o-mini" else TrimSpace (Config_DefaultModel cfg) in
           let httpClient := match Config_HTTPClient cfg with
                             | Some c => c
                             | None => mkhttp_Client default_transport (if Config_Timeout cfg <=? 0 then 60 * Second else Config_Timeout cfg)
                             end in
           Ok (mkOpenAIClient (Config_APIKey cfg) baseURL modelID httpClient (mkhttp_Client (http_Transport httpClient) 0) [] [])
       end.
End building.

(** ** Sending *)

Definition shouldRetryStatus (statusCode : Z) : bool :=
  (statusCode =? 429) || (statusCode =? 502) || (statusCode =? 503) || (statusCode =? 504).

Definition is_success (statusCode : Z) : bool := (200 <=? statusCode) && (statusCode <? 300).

(** 200 milliseconds, doubled for every attempt after the first. *)
Definition backoff_of (attempt : Z) : Duration := Nat.iter (Z.to_nat (attempt - 1)) (fun b => wrap64 (b * 2)) (200 * Millisecond).

Section sending.
Context `{Unicode} `{JSONText} {T : Type} `{Remote T}.
Abbreviation Client := (OpenAICompatibleClient T).

Definition parseRetryAfter (raw : string) (now : Time) : Duration :=
  let value := TrimSpace raw in
  if String.eqb value "" then 0
  else match Atoi value with
       | Some seconds => if seconds <=? 0 then 0 else wrap64 (seconds * Second)
       | None =>
           match http_ParseTime value with
           | None => 0
           | Some when => let d := time_Sub when now in if d <=? 0 then 0 else d
           end
       end.

(** The pause before the next attempt: the select ends it when the timer fires or when the context is
    done, whichever comes first, and does not say which. *)
Definition sleepWithBackoff (attempt : Z) (retryAfterHeader : string) (c : Client) : Client :=
  if attempt <=? 0 then c
  else
    let backoff := backoff_of attempt in
    let retryAfter := parseRetryAfter retryAfterHeader (time_Now (length (oc_sent c))) in
    let wait := if backoff <? retryAfter then retryAfter else backoff in
    c <| oc_waits ::= (fun l => l ++ [mkPause wait (ctx_Done (length (oc_sent c)) wait)]) |>.

Definition newRequest (c : Client) (body : string) : result error HTTPRequest :=
  let url := oc_baseURL c +:+ "/chat/completions" in
  match url_Parse url with
  | Err e => Err (wrapf "engine: openai client: build request: " e)
  | Ok _ => Ok (mkHTTPRequest "POST" url ("Bearer " +:+ oc_apiKey c) "application/json" body)
  end.

(** What an attempt came to: a result, or an error that may be worth another attempt, with the
    Retry-After header for the pause. *)
Inductive attempt_end (A : Type) : Type :=
| Finished (r : result error A)
| Retryable (e : error) (retryAfter : string).
Arguments Finished {A}.
Arguments Retryable {A}.

(** A response other than a success. *)
Definition refused {A} (resp : HTTPResponse) (body : list ascii) : attempt_end A :=
  let e := parseOpenAIError (HTTPResponse_StatusCode resp) body in
  if shouldRetryStatus (HTTPResponse_StatusCode resp) then Retryable e (HTTPResponse_RetryAfter resp) else Finished (Err e).

(** The body of a JSON response. *)
Definition json_attempt (answer : result error HTTPResponse) : attempt_end (list ascii) :=
  match answer with
  | Err e => Retryable (wrapf "engine: openai client: request failed: " e) ""
  | Ok resp =>
      let '(body, readErr) := limit_body (openAIMaxResponseBytes + 1) resp in
      let err := match readErr, HTTPResponse_CloseErr resp with
                 | Some e, _ => Some e
                 | None, Some e => Some (wrapf "engine: openai client: close response body: " e)
                 | None, None => None
                 end in
      match err with
      | Some e => Retryable (wrapf "engine: openai client: read response: " e) ""
      | None =>
          if openAIMaxResponseBytes <? Z.of_nat (length body)
          then Finished (Err (errors_New ("engine: openai client: response too large (> " +:+ fmt_d openAIMaxResponseBytes +:+ " bytes)")))
          else if is_success (HTTPResponse_StatusCode resp) then Finished (Ok body)
          else refused resp body
      end
  end.

(** A response whose body is left to be streamed. *)
Definition stream_attempt (answer : result error HTTPResponse) : attempt_end HTTPResponse :=
  match answer with
  | Err e => Retryable (wrapf "engine: openai client: stream request failed: " e) ""
  | Ok resp =>
      if is_success (HTTPResponse_StatusCode resp) then Finished (Ok resp)
      else refused resp (limit_body openAIMaxResponseBytes resp).1
  end.

(** The loop over the attempts, with [remaining] of them to go. *)
Fixpoint attempts {A} (remaining : nat) (attempt : Z) (outcome : result error HTTPResponse -> attempt_end A)
    (client : Client -> http_Client T) (what : string) (lastErr : option error) (body : string) (c : Client) : Client * result error A :=
  match remaining with
  | O => (c, Err (default (errors_New what) lastErr))
  | S remaining =>
      match newRequest c body with
      | Err e => (c, Err e)
      | Ok httpReq =>
          let answer := Do (client c) (length (oc_sent c)) httpReq in
          let c := c <| oc_sent ::= (fun l => l ++ [httpReq]) |> in
          match outcome answer with
          | Finished r => (c, r)
          | Retryable e retryAfter =>
              if (attempt <? openAIMaxAttempts) && bool_decide (ctx_Err (length (oc_sent c)) = None)
              then attempts remaining (attempt + 1) outcome client what (Some e) body (sleepWithBackoff attempt retryAfter c)
              else (c, Err e)
          end
      end
  end.

Definition doJSONRequest (body : string) (c : Client) : Client * result error (list ascii) :=
  attempts (Z.to_nat openAIMaxAttempts) 1 json_attempt oc_httpClient "engine: openai client: empty response" None body c.
Definition doStreamRequest (body : string) (c : Client) : Client * result error HTTPResponse :=
  attempts (Z.to_nat openAIMaxAttempts) 1 stream_attempt oc_streamClient "engine: openai client: stream request failed" None body c.

(** ** Chat *)

Definition nil_request : error := errors_New "engine: openai client: request is nil".

Definition OpenAI_Chat (req : option LLMRequest) (c : Client) : Client * result error LLMResponse :=
  match req with
  | None => (c, Err nil_request)
  | Some req =>
      let requestBody := buildChatRequest c req false in
      match marshal_request requestBody with
      | Err e => (c, Err (wrapf "engine: openai client: marshal request: " e))
      | Ok v =>
          let '(c, r) := doJSONRequest (json_render v) c in
          (c, match r with
              | Err e => Err e
              | Ok respBody =>
                  match json_Unmarshal_struct response_fields (string_of respBody) (mkopenAIChatResponse nil_slice None) with
                  | Err e => Err (wrapf "engine: openai client: decode response: " e)
                  | Ok completion =>
                      match completionToLLMResponse completion with
                      | Err e => Err e
                      | Ok resp => Ok (resp <| LLMResponse_ModelID := Request_Model requestBody |>
                                            <| LLMResponse_Provider := llmProviderOpenAI |>)
                      end
                  end
              end)
      end
  end.

(** ** ChatStream *)

(** What the loop has gathered: the tokens in order, the partial tool calls by stream index. *)
Record StreamState : Type := mkStreamState {
  ss_tokens : list string;
  ss_calls : gmap Z ToolCall;
  ss_finishReason : string;
  ss_usage : option TokenUsage }.
#[local] Instance StreamState_eta : Eta StreamState := fun s => mkStreamState (ss_tokens s) (ss_calls s) (ss_finishReason s) (ss_usage s).
Definition empty_stream : StreamState := mkStreamState [] ∅ "" None.

Definition keep_or {A} `{EqDecision A} (zero new old : A) : A := if bool_decide (new = zero) then old else new.

(** A fragment of a tool call. *)
Definition add_fragment (calls : gmap Z ToolCall) (tcd : openAIStreamToolCall) : gmap Z ToolCall :=
  let call := default (mkToolCall "" "" "") (calls !! STC_Index tcd) in
  <[STC_Index tcd := mkToolCall (keep_or "" (STC_ID tcd) (ToolCall_ID call))
                       (keep_or "" (Function_Name (STC_Function tcd)) (ToolCall_Name call))
                       (ToolCall_Args call +:+ Function_Arguments (STC_Function tcd))]> calls.

Definition add_chunk (chunk : openAIChatStreamResponse) (st : StreamState) : StreamState :=
  let st := match StreamResponse_Usage chunk with Some u => st <| ss_usage := Some (usage_of u) |> | None => st end in
  match elems (StreamResponse_Choices chunk) with
  | [] => st
  | choice :: _ =>
      let token := normalizeContent (Delta_Content (StreamChoice_Delta choice)) in
      st <| ss_finishReason := keep_or "" (StreamChoice_FinishReason choice) (ss_finishReason st) |>
         <| ss_tokens ::= (fun l => if String.eqb token "" then l else l ++ [token]) |>
         <| ss_calls ::= (fun m => fold_left add_fragment (elems (Delta_ToolCalls (StreamChoice_Delta choice))) m) |>
  end.

(** The payload of a line, if it is an event with data. *)
Definition event_payload (raw : string) : option string :=
  let line := TrimSpace raw in
  if String.eqb line "" || HasPrefix line ":" then None
  else if negb (HasPrefix line "data:") then None
  else let payload := TrimSpace (TrimPrefix line "data:") in
       if String.eqb payload "" then None else Some payload.

(** The loop over the lines; the error is that of a chunk or of the scanner. *)
Fixpoint stream_loop (lines : list (string * option error)) (final : option error) (st : StreamState) : StreamState * option error :=
  let scan_error e := match e with Some e => Some (wrapf "engine: openai client: read stream: " e) | None => None end in
  match lines with
  | [] => (st, scan_error final)
  | (raw, err) :: lines' =>
      match event_payload raw with
      | None => stream_loop lines' final st
      | Some payload =>
          if String.eqb payload "[DONE]" then (st, scan_error err)
          else match json_Unmarshal_struct stream_response_fields payload (mkopenAIChatStreamResponse nil_slice None) with
               | Err e => (st, Some (wrapf "engine: openai client: decode stream chunk: " e))
               | Ok chunk => stream_loop lines' final (add_chunk chunk st)
               end
      end
  end.

(** The sort of the stream indices: each place in turn is exchanged with every smaller number
    behind it. *)
Fixpoint exchange_pass (x : Z) (l : list Z) : Z * list Z :=
  match l with
  | [] => (x, [])
  | y :: l' => if y <? x then let '(m, r) := exchange_pass y l' in (m, x :: r) else let '(m, r) := exchange_pass x l' in (m, y :: r)
  end.
Fixpoint exchange_sort (n : nat) (l : list Z) : list Z :=
  match n, l with
  | S n, x :: l' => let '(m, r) := exchange_pass x l' in m :: exchange_sort n r
  | _, _ => l
  end.

(** The tool calls; [idxs] are the stream indices in the order in which the map is iterated. *)
Definition ordered_calls (calls : gmap Z ToolCall) (idxs : list Z) : list ToolCall :=
  named_calls (omap (fun idx => calls !! idx) (exchange_sort (length idxs) idxs)).

Context (iterate : gmap Z ToolCall -> list Z).

(** The tokens passed to [onToken] and the answer. *)
Definition OpenAI_ChatStream (req : option LLMRequest) (c : Client) : Client * (list string * result error LLMResponse) :=
  match req with
  | None => (c, ([], Err nil_request))
  | Some req =>
      let requestBody := buildChatRequest c req true in
      match marshal_request requestBody with
      | Err e => (c, ([], Err (wrapf "engine: openai client: marshal stream request: " e)))
      | Ok v =>
          let '(c, r) := doStreamRequest (json_render v) c in
          (c, match r with
              | Err e => ([], Err e)
              | Ok resp =>
                  let '(body, readErr) := limit_body openAIMaxStreamBytes resp in
                  let '(lines, final) := scan_body body readErr in
                  let '(st, err) := stream_loop lines final empty_stream in
                  (ss_tokens st,
                   match err with
                   | Some e => Err e
                   | None => Ok (mkLLMResponse (str_join "" (ss_tokens st)) (ordered_calls (ss_calls st) (iterate (ss_calls st)))
                                   (ss_usage st) (ss_finishReason st) (Request_Model requestBody) llmProviderOpenAI)
                   end)
              end)
      end
  end.
End sending.
Arguments Finished {A}.
Arguments Retryable {A}.

(** ** Attempts *)

Section retries.
Context `{HU : Unicode} `{HJ : JSONText} {T : Type} `{HR : Remote T} `{HCL : !ContextLaws T}.
Abbreviation Client := (OpenAICompatibleClient T).

(** The same settings, whatever was sent. *)
Definition settings (c : Client) := (oc_apiKey c, oc_baseURL c, oc_defaultModel c, oc_httpClient c, oc_streamClient c).

(** An answer that is worth another attempt: none at all, one that could not be read, or a status
    that says to come back later. *)
Definition worth_retry (answer : result error HTTPResponse) : Prop :=
  match answer with
  | Err _ => True
  | Ok resp => HTTPResponse_ReadErr resp <> None \/ HTTPResponse_CloseErr resp <> None \/
               HTTPResponse_StatusCode resp ∈ [429; 502; 503; 504]
  end.

Lemma shouldRetryStatus_spec code : shouldRetryStatus code = true <-> code ∈ [429; 502; 503; 504].
Proof. unfold shouldRetryStatus. rewrite !orb_true_iff, !Z.eqb_eq. set_solver. Qed.

Lemma refused_retry {A} resp body e ra : refused (A := A) resp body = Retryable e ra -> HTTPResponse_StatusCode resp ∈ [429; 502; 503; 504].
Proof. unfold refused. case_if as E; [|done]. by rewrite shouldRetryStatus_spec in E. Qed.

Lemma json_attempt_retry answer e ra : json_attempt answer = Retryable e ra -> worth_retry answer.
Proof.
  unfold json_attempt, limit_body. destruct answer as [resp|e0]; [|done]. cbn.
  destruct (Z.of_nat _ <? _); destruct (HTTPResponse_ReadErr resp) as [e1|], (HTTPResponse_CloseErr resp) as [e2|]; auto;
    repeat case_if; try done; intros ?%refused_retry; auto.
Qed.

Lemma stream_attempt_retry answer e ra : stream_attempt answer = Retryable e ra -> worth_retry answer.
Proof. unfold stream_attempt. destruct answer as [resp|e0]; [|done]. case_if; [done|]. intros ?%refused_retry. cbn. auto. Qed.

(** The run of the loop from one attempt on: how many requests it sends, what each came to, and the pauses
    between them. *)
Definition loop_spec {A} (outcome : result error HTTPResponse -> attempt_end A) (client : http_Client T)
    (httpReq : HTTPRequest) (first : Z) (c c' : Client) (r : result error A) : Prop :=
  let n := length (oc_sent c) in
  exists (k : nat) (ps : list pause), first + Z.of_nat k <= openAIMaxAttempts /\ length ps = k /\
    settings c' = settings c /\ oc_sent c' = oc_sent c ++ replicate (S k) httpReq /\ oc_waits c' = oc_waits c ++ ps /\
    (forall i p, ps !! i = Some p -> exists e ra, outcome (Do client (n + i) httpReq) = Retryable e ra /\
        ctx_Err (n + S i) = None /\
        pause_timer p = Z.max (backoff_of (first + Z.of_nat i)) (parseRetryAfter ra (time_Now (n + S i))) /\
        (pause_cut p <> None -> S i = k)) /\
    match outcome (Do client (n + k) httpReq) with
    | Finished r' => r = r'
    | Retryable e _ => r = Err e /\ (first + Z.of_nat k = openAIMaxAttempts \/ ctx_Err (n + S k) <> None)
    end.

Lemma newRequest_settings c c' body : settings c = settings c' -> newRequest c body = newRequest c' body.
Proof. unfold settings, newRequest. intros E. simplify_eq. by repeat match goal with H : _ = _ |- _ => rewrite H end. Qed.

Lemma sleep_spec attempt ra (c : Client) : 1 <= attempt ->
  let w := Z.max (backoff_of attempt) (parseRetryAfter ra (time_Now (length (oc_sent c)))) in
  sleepWithBackoff attempt ra c = c <| oc_waits ::= (fun l => l ++ [mkPause w (ctx_Done (length (oc_sent c)) w)]) |>.
Proof.
  intros Ha. unfold sleepWithBackoff. rewrite (proj2 (Z.leb_gt attempt 0)) by lia. cbn zeta.
  replace (Z.max _ _) with (if backoff_of attempt <? parseRetryAfter ra (time_Now (length (oc_sent c)))
    then parseRetryAfter ra (time_Now (length (oc_sent c))) else backoff_of attempt); [done|].
  case_if as E; bool_prop; lia.
Qed.

(** After a dead context the loop gives up at the next answer. *)
Lemma dead_stops {A} outcome client httpReq first (c c' : Client) (r : result error A) :
  ctx_Err (S (length (oc_sent c))) <> None -> loop_spec outcome client httpReq first c c' r ->
  oc_waits c' = oc_waits c.
Proof.
  intros Hd (k & ps & _ & Hl & _ & _ & Hw & Hp & _). rewrite Hw. destruct ps as [|p ps]; [by rewrite app_nil_r|].
  destruct (Hp 0%nat p eq_refl) as (e & ra & _ & Hc & _). by rewrite Nat.add_1_r in Hc.
Qed.

Lemma attempts_spec {A} outcome (client : Client -> http_Client T) what body httpReq : forall n first lastErr (c : Client),
  (forall c c', settings c = settings c' -> client c = client c') ->
  newRequest c body = Ok httpReq -> 1 <= first -> first + Z.of_nat n = openAIMaxAttempts + 1 -> n <> O ->
  let '(c', r) := attempts n first outcome client what lastErr body c in
  loop_spec (A := A) outcome (client c) httpReq first c c' r.
Proof.
  induction n as [|n IH]; intros first lastErr c Hcl Hreq Hf Hn Hn0; [done|]. cbn [attempts]. rewrite Hreq.
  set (c1 := c <| oc_sent ::= _ |>).
  assert (Hl1 : length (oc_sent c1) = (length (oc_sent c) + 1)%nat) by (unfold c1; cbn; by rewrite length_app).
  destruct (outcome (Do (client c) (length (oc_sent c)) httpReq)) as [r|e ra] eqn:Eo.
  { exists O, []. rewrite (Nat.add_0_r (length (oc_sent c))), Eo, app_nil_r. split_and!; done || lia. }
  case_if as Eif; cycle 1.
  { exists O, []. rewrite (Nat.add_0_r (length (oc_sent c))), Eo, app_nil_r. split_and!; try (done || lia).
    apply andb_false_iff in Eif. rewrite Z.ltb_ge, bool_decide_eq_false, Hl1 in Eif. destruct Eif as [?|?]; [left; lia|by right]. }
  apply andb_true_iff in Eif. destruct Eif as [Elt Ectx]. apply Z.ltb_lt in Elt. apply bool_decide_eq_true in Ectx. rewrite Hl1 in Ectx.
  rewrite (sleep_spec first ra c1 Hf). rewrite Hl1. set (w := Z.max _ _). set (c2 := c1 <| oc_waits ::= _ |>).
  specialize (IH (first + 1) (Some e) c2 Hcl). destruct (attempts n (first + 1) outcome client what (Some e) body c2) as [c' r].
  assert (Hs2 : length (oc_sent c2) = (length (oc_sent c) + 1)%nat) by done.
  assert (Hspec : loop_spec outcome (client c2) httpReq (first + 1) c2 c' r).
  { apply IH; [|lia|lia|lia]. by rewrite (newRequest_settings c2 c). }
  clear IH. pose proof (fun H => dead_stops _ _ _ _ _ _ _ H Hspec) as Hdead.
  destruct Hspec as (k & ps & Hk & Hlen & Hset & Hsent & Hwaits & Hps & Hend).
  rewrite (Hcl c2 c) in Hps, Hend by done. rewrite Hs2 in *.
  exists (S k), (mkPause w (ctx_Done (length (oc_sent c) + 1) w) :: ps). split_and!; [lia|cbn; lia|done| | | |].
  - rewrite Hsent. unfold c2, c1. cbn. by rewrite <- app_assoc.
  - rewrite Hwaits. unfold c2, c1. cbn. by rewrite <- app_assoc.
  - intros [|i] p Hi.
    + injection Hi as <-. exists e, ra. rewrite (Nat.add_0_r (length (oc_sent c))), Z.add_0_r. split_and!; [done..|].
      cbn. intros Hcut. f_equal. rewrite <- Hlen.
      assert (Hw : oc_waits c' = oc_waits c2) by (apply Hdead; rewrite Hs2 || idtac; by apply (law_done _ w)).
      rewrite Hwaits in Hw. apply (f_equal length) in Hw. rewrite length_app in Hw. lia.
    + destruct (Hps i p Hi) as (e1 & ra1 & H1 & H2 & H3 & H4). exists e1, ra1.
      replace (length (oc_sent c) + S i)%nat with (length (oc_sent c) + 1 + i)%nat by lia.
      replace (length (oc_sent c) + S (S i))%nat with (length (oc_sent c) + 1 + S i)%nat by lia.
      replace (first + Z.of_nat (S i)) with (first + 1 + Z.of_nat i) by lia.
      split_and!; [done..|]. intros Hc. by rewrite (H4 Hc).
  - replace (length (oc_sent c) + S k)%nat with (length (oc_sent c) + 1 + k)%nat by lia.
    replace (length (oc_sent c) + S (S k))%nat with (length (oc_sent c) + 1 + S k)%nat by lia.
    revert Hend. destruct (outcome (Do (client c) (length (oc_sent c) + 1 + k) httpReq)) as [r'|e1 ra1]; [done|].
    intros [He Hx]. split; [done|]. destruct Hx as [Hx|Hx]; [left; lia|by right].
Qed.
End retries.

(** ** Properties *)

Section openai_properties.
Context `{HU : Unicode} `{HJ : JSONText} {T : Type} `{HR : Remote T} `{HCL : !ContextLaws T}.

(** C14: The loops that send a request, for a response and for a stream: they send between one and three requests, all
    of them the same.  Another one is sent only after an answer that is worth it (none, one that could not be read, or
    status 429, 502, 503 or 504) that came in while the context was live, and after a pause.  The timer of the pause is
    set to the larger of the backoff (200 ms after the first request, 400 ms after the second) and what the Retry-After
    header of that answer asks for; the pause ends when the timer fires or the context is done.  A pause that the
    context ended is the last one: one more request is sent with the dead context, and no other.  What the last attempt
    came to is the result; it is an error worth another attempt only after the third request or with a dead context. *)
Theorem openai_retries (body : string) (c : OpenAICompatibleClient T) httpReq (Hreq : newRequest c body = Ok httpReq) :
  (let '(c', r) := doJSONRequest body c in loop_spec json_attempt (oc_httpClient c) httpReq 1 c c' r) /\
  (let '(c', r) := doStreamRequest body c in loop_spec stream_attempt (oc_streamClient c) httpReq 1 c c' r) /\
  (forall answer e ra, json_attempt answer = Retryable e ra \/ stream_attempt answer = Retryable e ra -> worth_retry answer) /\
  backoff_of 1 = 200 * Millisecond /\ backoff_of 2 = 400 * Millisecond.
Proof.
  split_and!; [| | |done|done].
  - apply attempts_spec; try done. unfold settings. by intros ?? [= ? ? ? -> ?].
  - apply attempts_spec; try done. unfold settings. by intros ?? [= ? ? ? ? ->].
  - intros answer e ra [H|H]; [by eapply json_attempt_retry|by eapply stream_attempt_retry].
Qed.
End openai_properties.

(** ** Examples *)

Module openai_demo.
#[export] Existing Instance ascii_unicode.
#[export] Instance json_text : JSONText := {| json_type_error _ t := errors_New ("json: cannot unmarshal into Go value of type " +:+ t) |}.

(** A transport that answers from a script. *)
Abbreviation script := (list (result error HTTPResponse)).
#[export] Instance scripted : Remote script := {|
  default_transport := [];
  Do c n _ := default (Err (errors_New "EOF")) (http_Transport c !! n);
  ctx_Err _ := None; ctx_Done _ _ := None; time_Now _ := 0; http_ParseTime _ := None |}.
#[export] Instance scripted_laws : ContextLaws script.
Proof. constructor; done. Qed.

(** The same transport with a context that is cancelled 50 ms into the first pause. *)
Definition cancelled : Remote script := {|
  default_transport := [];
  Do c n _ := default (Err (errors_New "EOF")) (http_Transport c !! n);
  ctx_Err n := if Nat.leb n 1 then None else Some (errors_New "context canceled");
  ctx_Done n _ := if Nat.eqb n 1 then Some (50 * Millisecond) else None;
  time_Now _ := 0; http_ParseTime _ := None |}.

Definition replied (lines : list string) : result error HTTPResponse :=
  Ok (mkHTTPResponse 200 "" (bytes_of (str_join (string_of [ascii_of_nat 10]) (map json_sample lines))) None None).
Definition busy : result error HTTPResponse :=
  Ok (mkHTTPResponse 503 "7" (bytes_of (json_sample "{`error`:{`message`:`overloaded`}}")) None None).
Definition client (s : script) : OpenAICompatibleClient script :=
  let http := mkhttp_Client s 0 in mkOpenAIClient "sk" "http://localhost:80/v1" "gpt-4o-mini" http http [] [].
Definition iterate (m : gmap Z ToolCall) : list Z := (map_to_list m).*1.
Definition request : LLMRequest := mkLLMRequest [mkMemoryMessage MessageRoleUser "hi" "" []] None [mkToolSpec "fs.read" "" "{}"] "".

Example new_client s :
  NewOpenAICompatibleClient (mkOpenAIConfig "sk" " HTTP://localhost:80/v1/" "" 0 (Some (mkhttp_Client s 0))) = Ok (client s).
Proof. vm_compute. reflexivity. Qed.

Lemma openai_retries_witness : exists c', doJSONRequest "body" (client [busy; replied ["{}"]]) = (c', Ok (bytes_of "{}")) /\
  length (oc_sent c') = 2%nat /\ oc_waits c' = [mkPause (7 * Second) None] /\
  loop_spec json_attempt (oc_httpClient (client [busy; replied ["{}"]])) (mkHTTPRequest "POST" "http://localhost:80/v1/chat/completions" "Bearer sk" "application/json" "body")
    1 (client [busy; replied ["{}"]]) c' (Ok (bytes_of "{}")).
Proof.
  assert (Hreq : newRequest (client [busy; replied ["{}"]]) "body" =
    Ok (mkHTTPRequest "POST" "http://localhost:80/v1/chat/completions" "Bearer sk" "application/json" "body")) by (vm_compute; reflexivity).
  destruct (openai_retries "body" (client [busy; replied ["{}"]]) _ Hreq) as [H _].
  destruct (doJSONRequest "body" (client [busy; replied ["{}"]])) as [c' r] eqn:E.
  exists c'. vm_compute in E. injection E as <- <-. split_and!; try reflexivity. exact H.
Defined.

(** The request that follows a pause cut short is sent nevertheless; the one after it is not. *)
Example request_after_cancel :
  let '(c, r) := @doJSONRequest _ _ script cancelled "body" (client [busy; busy; replied ["{}"]]) in
  length (oc_sent c) = 2%nat /\ oc_waits c = [mkPause (7 * Second) (Some (50 * Millisecond))] /\
  r = Err (errors_New "engine: openai client: status 503: overloaded").
Proof. vm_compute. auto. Qed.

(** A call in fragments and out of order, after a busy answer. *)
Example stream_example :
  let '(c, r) := OpenAI_ChatStream iterate (Some request) (client [busy; replied
    ["data: {`choices`:[{`delta`:{`content`:`a`,`tool_calls`:[{`index`:1,`id`:`x`,`function`:{`name`:`n`,`arguments`:`{`}}]}}]}"; ": ping"; "";
     "data: {`choices`:[{`delta`:{`content`:[{`type`:`text`,`text`:`b`}],`tool_calls`:[{`index`:1,`function`:{`arguments`:`}`}},{`index`:0,`function`:{`name`:`m`}}]}, `finish_reason`:`stop`}],`usage`:{`total_tokens`:3}}";
     "data: [DONE]"; "data: x"]]) in
  oc_waits c = [mkPause (7 * Second) None] /\ map HTTPRequest_Body (oc_sent c) = replicate 2 (json_sample
    "{`model`:`gpt-4o-mini`,`messages`:[{`role`:`user`,`content`:`hi`}],`tools`:[{`type`:`function`,`function`:{`name`:`fs.read`,`parameters`:{}}}],`tool_choice`:`auto`,`stream`:true,`stream_options`:{`include_usage`:true}}") /\
  r = (["a"; "b"], Ok (mkLLMResponse "ab" [mkToolCall "" "m" "{}"; mkToolCall "x" "n" "{}"] (Some (mkTokenUsage 0 0 3)) "stop" "gpt-4o-mini" "openai")).
Proof. vm_compute. auto. Qed.

(** The server decides how long to wait: 292 years are accepted, one second more wraps to a negative number and
    is ignored. *)
Example retry_after_unbounded :
  parseRetryAfter "9223372036" 0 = 9223372036 * Second /\ parseRetryAfter "9223372037" 0 < 0.
Proof. vm_compute. auto. Qed.

(** An address with a zone is not taken for an IP literal, so a link-local address is accepted; a query ends up in front
    of the path of the endpoint. *)
Example zoned_address_accepted :
  normalizeAndValidateBaseURL "https://10.0.0.1/v1" = Err (errors_New "engine: openai client: OPENAI_BASE_URL IP literals are only allowed for loopback addresses") /\
  normalizeAndValidateBaseURL "https://[fe80::1%25eth0]/v1" = Ok "https://[fe80::1%25eth0]/v1".
Proof. vm_compute. auto. Qed.
Example query_before_endpoint :
  match NewOpenAICompatibleClient (T := script) (mkOpenAIConfig "sk" "https://host/v1?version=2" "" 0 None) with
  | Ok c => HTTPRequest_URL <$> (match newRequest c "" with Ok r => Some r | Err _ => None end)
  | Err _ => None
  end = Some "https://host/v1?version=2/chat/completions".
Proof. vm_compute. reflexivity. Qed.
End openai_demo.
