(* ===== verification/OpenAIStream.v ===== *)
(** * OpenAIStream: streamed and unstreamed answers agree (src/pkg/engine/openai_llm.go)

    A server may send an answer as one JSON value, or cut into server-sent events in any way.
    [stream_equals_chat]: [ChatStream] on the events gives what [Chat] gives on the value. *)

From Stdlib Require Import Ascii.
From S2P Require Import Prelude GoLib Strconv JSON Model StateStore World TaskService Artifacts Engine Encoding URL API Router SQSQueue OpenAI.

(** ** The order of the tool calls *)

Lemma exchange_pass_perm l : forall x, (exchange_pass x l).1 :: (exchange_pass x l).2 ≡ₚ x :: l.
Proof.
  induction l as [|y l IH]; intros x; cbn; [done|]. case_if as E.
  - specialize (IH y). destruct (exchange_pass y l) as [m r]. cbn in *. by rewrite Permutation_swap, IH.
  - specialize (IH x). destruct (exchange_pass x l) as [m r]. cbn in *. by rewrite Permutation_swap, IH, Permutation_swap.
Qed.

Lemma exchange_pass_min l : forall x, (exchange_pass x l).1 <= x /\ Forall (Z.le (exchange_pass x l).1) (exchange_pass x l).2.
Proof.
  induction l as [|y l IH]; intros x; cbn; [split; [lia|constructor]|]. case_if as E.
  - apply Z.ltb_lt in E. specialize (IH y). destruct (exchange_pass y l) as [m r]. cbn in *. destruct IH. split; [lia|constructor; [lia|done]].
  - apply Z.ltb_ge in E. specialize (IH x). destruct (exchange_pass x l) as [m r]. cbn in *. destruct IH. split; [lia|constructor; [lia|done]].
Qed.

Lemma exchange_sort_perm n : forall l, exchange_sort n l ≡ₚ l.
Proof.
  induction n as [|n IH]; intros [|x l]; cbn; try done. pose proof (exchange_pass_perm l x) as Hp.
  destruct (exchange_pass x l) as [m r]. cbn in Hp. by rewrite IH.
Qed.

Lemma exchange_sort_sorted n : forall l, length l = n -> StronglySorted Z.le (exchange_sort n l).
Proof.
  induction n as [|n IH]; intros [|x l] Hl; cbn; try done; try constructor. pose proof (exchange_pass_perm l x) as Hp.
  pose proof (exchange_pass_min l x) as [_ Hm]. destruct (exchange_pass x l) as [m r]. cbn in Hp, Hm.
  assert (Hr : length r = n) by (apply Permutation_length in Hp; cbn in *; lia).
  constructor; [by apply IH|]. by rewrite exchange_sort_perm.
Qed.

Lemma seqZ_sorted n : forall m, StronglySorted Z.le (seqZ m (Z.of_nat n)).
Proof.
  induction n as [|n IH]; intros m; [rewrite seqZ_nil by lia; constructor|]. rewrite seqZ_cons by lia.
  replace (Z.pred (Z.of_nat (S n))) with (Z.of_nat n) by lia. constructor; [apply IH|]. apply list.Forall_forall. intros x Hx%elem_of_seqZ. lia.
Qed.

(** Whatever the order of the iteration, the sorted indices are the numbers in order. *)
Lemma exchange_sort_seqZ l n : l ≡ₚ seqZ 0 (Z.of_nat n) -> exchange_sort (length l) l = seqZ 0 (Z.of_nat n).
Proof.
  intros Hl. apply (StronglySorted_unique Z.le); [by apply exchange_sort_sorted|apply seqZ_sorted|by rewrite exchange_sort_perm].
Qed.

(** ** Fragments *)

(** A fragment of a tool call and a piece of an answer, as the server sends them. *)
Record fragment : Type := mkfragment { f_index : Z; f_call : ToolCall }.
Record piece : Type := mkpiece { p_content : string; p_fragments : list fragment; p_finish : string; p_usage : option openAIUsage }.

(** The whole answer. *)
Record answer : Type := mkanswer { a_content : string; a_calls : list ToolCall; a_finish : string; a_usage : option openAIUsage }.

Definition last_given (l : list string) : string := default "" (list_basics.list.last (List.filter (fun s => negb (String.eqb s "")) l)).
Definition all_fragments (ps : list piece) : list fragment := flat_map p_fragments ps.
Definition fragments_of (i : Z) (fs : list fragment) : list ToolCall := map f_call (List.filter (fun f => f_index f =? i) fs).
Definition merged (fs : list ToolCall) : ToolCall :=
  mkToolCall (last_given (map ToolCall_ID fs)) (last_given (map ToolCall_Name fs)) (str_join "" (map ToolCall_Args fs)).

(** The pieces make up the answer: its content is cut into the contents of the pieces, each call into the fragments
    with its index, where the id and the name are sent at least once and the arguments bit by bit. *)
Record streams (ps : list piece) (a : answer) : Prop := {
  st_content : a_content a = str_join "" (map p_content ps);
  st_calls : forall i call, a_calls a !! i = Some call ->
    fragments_of (Z.of_nat i) (all_fragments ps) <> [] /\ call = merged (fragments_of (Z.of_nat i) (all_fragments ps));
  st_index : Forall (fun f => 0 <= f_index f < Z.of_nat (length (a_calls a))) (all_fragments ps);
  st_finish : a_finish a = last_given (map p_finish ps);
  st_usage : a_usage a = list_basics.list.last (omap p_usage ps) }.

Lemma append_nil s : s +:+ "" = s.
Proof. apply bytes_of_inj. by rewrite bytes_of_app, app_nil_r. Qed.
Lemma append_assoc s1 s2 s3 : s1 +:+ (s2 +:+ s3) = (s1 +:+ s2) +:+ s3.
Proof. apply bytes_of_inj. by rewrite !bytes_of_app, app_assoc. Qed.

Lemma str_join_nil_app l1 l2 : str_join "" (l1 ++ l2) = str_join "" l1 +:+ str_join "" l2.
Proof.
  assert (Hc : forall x l, str_join "" (x :: l) = x +:+ str_join "" l).
  { intros x [|y l]; [|done]. cbn. by rewrite append_nil. }
  induction l1 as [|x l1 IH]; [done|]. rewrite <- app_comm_cons, !Hc, IH. by rewrite append_assoc.
Qed.

Lemma last_given_snoc l s : last_given (l ++ [s]) = keep_or "" s (last_given l).
Proof.
  unfold last_given, keep_or. rewrite List.filter_app. cbn. destruct (String.eqb_spec s "") as [->|Hs]; cbn.
  - by rewrite app_nil_r.
  - rewrite last_snoc. by rewrite bool_decide_false.
Qed.

(** What the client keeps of a fragment. *)
Definition stream_call (f : fragment) : openAIStreamToolCall :=
  mkopenAIStreamToolCall (f_index f) (ToolCall_ID (f_call f)) "function"
    (mkopenAIToolFunctionCall (ToolCall_Name (f_call f)) (ToolCall_Args (f_call f))).

Definition gathered (fs : list fragment) (i : Z) : option ToolCall :=
  match fragments_of i fs with [] => None | l => Some (merged l) end.

Lemma merged_snoc l tc : merged (l ++ [tc]) =
  mkToolCall (keep_or "" (ToolCall_ID tc) (ToolCall_ID (merged l))) (keep_or "" (ToolCall_Name tc) (ToolCall_Name (merged l)))
    (ToolCall_Args (merged l) +:+ ToolCall_Args tc).
Proof. unfold merged. rewrite !map_app. cbn [map]. by rewrite !last_given_snoc, str_join_nil_app. Qed.

Lemma add_fragment_gathered fs f m : (forall i, m !! i = gathered fs i) -> forall i, add_fragment m (stream_call f) !! i = gathered (fs ++ [f]) i.
Proof.
  intros Hm i. unfold add_fragment, gathered, fragments_of. cbn [stream_call STC_Index STC_ID STC_Function Function_Name Function_Arguments].
  rewrite List.filter_app, map_app. cbn [List.filter]. destruct (Z.eqb_spec (f_index f) i) as [<-|Hi].
  - rewrite lookup_insert_eq, Hm. unfold gathered. fold (fragments_of (f_index f) fs). cbn [map].
    transitivity (Some (merged (fragments_of (f_index f) fs ++ [f_call f]))); [|by destruct (fragments_of (f_index f) fs)].
    rewrite merged_snoc. by destruct (fragments_of (f_index f) fs).
  - rewrite lookup_insert_ne by done. cbn [map]. rewrite app_nil_r. apply Hm.
Qed.

Lemma add_fragments_gathered new : forall fs m, (forall i, m !! i = gathered fs i) ->
  forall i, fold_left add_fragment (map stream_call new) m !! i = gathered (fs ++ new) i.
Proof.
  induction new as [|f new IH]; intros fs m Hm i; cbn [map fold_left]; [by rewrite app_nil_r|].
  rewrite (IH (fs ++ [f])) by (by apply add_fragment_gathered). by rewrite <- app_assoc.
Qed.

Lemma omap_seqZ (m : gmap Z ToolCall) calls : forall k, (forall i call, calls !! i = Some call -> m !! (k + Z.of_nat i) = Some call) ->
  omap (fun idx => m !! idx) (seqZ k (Z.of_nat (length calls))) = calls.
Proof.
  induction calls as [|x calls IH]; intros k Hm; [by rewrite seqZ_nil|]. rewrite seqZ_cons by (cbn; lia). cbn [omap list_omap].
  specialize (Hm O x eq_refl) as Hx. rewrite Z.add_0_r in Hx. rewrite Hx. f_equal.
  replace (Z.pred (Z.of_nat (length (x :: calls)))) with (Z.of_nat (length calls)) by (cbn; lia). apply IH.
  intros i call Hi. replace (Z.succ k + Z.of_nat i) with (k + Z.of_nat (S i)) by lia. by apply Hm.
Qed.

Lemma ordered_calls_answer ps a m idxs : streams ps a -> (forall i, m !! i = gathered (all_fragments ps) i) ->
  idxs ≡ₚ (map_to_list m).*1 -> ordered_calls m idxs = named_calls (a_calls a).
Proof.
  intros [_ Hcalls Hidx _ _] Hm Hp.
  assert (Hlook : forall i call, a_calls a !! i = Some call -> m !! (0 + Z.of_nat i) = Some call).
  { intros i call Hi. rewrite Z.add_0_l, Hm. destruct (Hcalls i call Hi) as [Hne ->]. unfold gathered. by destruct (fragments_of _ _). }
  assert (Hs : idxs ≡ₚ seqZ 0 (Z.of_nat (length (a_calls a)))).
  { rewrite Hp. apply NoDup_Permutation; [apply NoDup_fst_map_to_list|apply NoDup_seqZ|]. intros i. rewrite elem_of_seqZ, list_elem_of_fmap. split.
    - intros ([j call] & -> & Hin%elem_of_map_to_list). cbn. rewrite Hm in Hin. unfold gathered, fragments_of in Hin.
      destruct (List.filter _ _) as [|f l] eqn:Ef; [done|]. assert (Hf : In f (f :: l)) by (by left). rewrite <- Ef, filter_In in Hf.
      destruct Hf as [Hf Hj]. apply Z.eqb_eq in Hj. rewrite list.Forall_forall in Hidx. specialize (Hidx f (proj2 (list_elem_of_In _ _) Hf)). lia.
    - intros Hi. destruct (lookup_lt_is_Some_2 (a_calls a) (Z.to_nat i)) as [call Hc]; [lia|]. exists (i, call). split; [done|].
      apply elem_of_map_to_list. apply Hlook in Hc. by rewrite Z.add_0_l, Z2Nat.id in Hc by lia. }
  unfold ordered_calls. rewrite (exchange_sort_seqZ idxs _ Hs). by rewrite (omap_seqZ m _ 0 Hlook).
Qed.

(** ** Pieces *)

Section pieces.
Context `{HJ : JSONText}.

(** What a piece decodes to. *)
Definition chunk_of (p : piece) : openAIChatStreamResponse :=
  mkopenAIChatStreamResponse
    (mkSlice [mkopenAIStreamChoice (mkopenAIStreamDelta (Some (JStr (p_content p))) (mkSlice (map stream_call (p_fragments p)) [])) (p_finish p)] [])
    (p_usage p).

Record assembled (ps : list piece) (st : StreamState) : Prop := {
  as_content : str_join "" (ss_tokens st) = str_join "" (map p_content ps);
  as_tokens : Forall (fun t => t <> "") (ss_tokens st);
  as_calls : forall i, ss_calls st !! i = gathered (all_fragments ps) i;
  as_finish : ss_finishReason st = last_given (map p_finish ps);
  as_usage : ss_usage st = usage_of <$> list_basics.list.last (omap p_usage ps) }.

Lemma assembled_nil : assembled [] empty_stream.
Proof. split; done. Qed.

Lemma omap_snoc {A B} (f : A -> option B) l x : omap f (l ++ [x]) = omap f l ++ match f x with Some y => [y] | None => [] end.
Proof. rewrite omap_app. cbn. by destruct (f x). Qed.

Lemma assembled_snoc ps p st : assembled ps st -> assembled (ps ++ [p]) (add_chunk (chunk_of p) st).
Proof.
  intros [Hc Ht Hca Hf Hu].
  assert (Hst : add_chunk (chunk_of p) st =
    mkStreamState (if String.eqb (p_content p) "" then ss_tokens st else ss_tokens st ++ [p_content p])
      (fold_left add_fragment (map stream_call (p_fragments p)) (ss_calls st)) (keep_or "" (p_finish p) (ss_finishReason st))
      (match p_usage p with Some u => Some (usage_of u) | None => ss_usage st end)).
  { unfold add_chunk, chunk_of. cbn. by destruct (p_usage p). }
  rewrite Hst. clear Hst. split; cbn [ss_tokens ss_calls ss_finishReason ss_usage].
  - rewrite map_app, str_join_nil_app. cbn [map str_join]. destruct (String.eqb_spec (p_content p) "") as [->|Hp].
    + by rewrite append_nil.
    + by rewrite str_join_nil_app, Hc.
  - destruct (String.eqb_spec (p_content p) "") as [|Hp]; [done|]. apply list.Forall_app. split; [done|]. by constructor.
  - intros i. unfold all_fragments. rewrite flat_map_app. cbn [flat_map]. rewrite app_nil_r. by apply add_fragments_gathered.
  - rewrite map_app. cbn [map]. by rewrite last_given_snoc, Hf.
  - rewrite omap_snoc. destruct (p_usage p) as [u|]; [by rewrite last_snoc|by rewrite app_nil_r].
Qed.
End pieces.

(** ** Lines and events *)

Lemma split_lines_line l : forall cur rest, newline ∉ l ->
  split_lines cur (l ++ newline :: rest) = ((rev cur ++ l) :: (split_lines [] rest).1, (split_lines [] rest).2).
Proof.
  induction l as [|c l IH]; intros cur rest Hl; cbn [app split_lines].
  - destruct (split_lines [] rest). by rewrite app_nil_r.
  - destruct (Ascii.eqb_spec c (ascii_of_nat 10)) as [->|Hc]; [by destruct Hl; left|].
    rewrite IH by (intros Hin; apply Hl; by right). cbn. by rewrite <- app_assoc.
Qed.

Lemma split_lines_all ls : Forall (fun l => newline ∉ l) ls -> split_lines [] (flat_map (fun l => l ++ [newline]) ls) = (ls, []).
Proof.
  induction 1 as [|l ls Hl _ IH]; [done|]. cbn [flat_map]. rewrite <- app_assoc. cbn [app]. rewrite split_lines_line by done. by rewrite IH.
Qed.

Lemma scan_lines_all ls : forallb line_fits ls = true ->
  scan_lines ls [] None = (map (fun l => (string_of (dropCR l), None)) ls, None).
Proof.
  induction ls as [|l ls IH]; cbn [forallb scan_lines]; [done|]. intros [Hl Hls]%andb_true_iff. rewrite Hl, IH by done. done.
Qed.

(** The last rune of a text that ends with a byte of ASCII. *)
Lemma good_rune_bytes p : good_rune p -> p.2 <> [].
Proof. intros Hg E. pose proof (good_encode p Hg) as He. rewrite E in He. unfold encode_rune in He. cbn zeta in He. repeat case_match; done. Qed.

Lemma decode_last d : byte_val d < 128 -> forall n m, (length m <= n)%nat -> exists q, decode_runes (m ++ [d]) = q ++ [(byte_val d, [d])].
Proof.
  intros Hd n. induction n as [|n IH]; intros [|b0 l1] Hn; cbn in Hn; try lia.
  1, 2: exists []; cbn [app]; by rewrite decode_low.
  rewrite <- app_comm_cons. destruct (decode_cases b0 (l1 ++ [d])) as [(p & l' & Hg & Hl & ->)|(_ & -> & _)]; cycle 1.
  { destruct (IH l1 ltac:(lia)) as [q ->]. by exists ((rune_error, [b0]) :: q). }
  destruct l' as [|y l2 _] using rev_ind.
  - exfalso. rewrite app_nil_r in Hl. destruct (good_bytes p Hg) as [[_ E]|[_ E]]; rewrite <- Hl in E.
    + apply (f_equal length) in E. cbn in E. rewrite length_app in E. cbn in E. lia.
    + apply list.Forall_cons in E as [_ E]. apply list.Forall_app in E as [_ E]. apply list.Forall_cons in E as [E _]. lia.
  - rewrite app_comm_cons, app_assoc in Hl. apply app_inj_tail in Hl as [Hl <-].
    assert (Hlen : (length l2 <= n)%nat).
    { pose proof (good_rune_bytes p Hg). apply (f_equal length) in Hl. cbn in Hl. rewrite length_app in Hl. destruct p.2; [done|]. cbn in Hl. lia. }
    destruct (IH l2 Hlen) as [q ->]. by exists (p :: q).
Qed.

(** Spaces around a text are trimmed, nothing else. *)
Lemma TrimSpace_ends (space : bool) c m d : visible c -> visible d ->
  TrimSpace (string_of ((if space then [" "%char] else []) ++ c :: m ++ [d])) = string_of (c :: m ++ [d]).
Proof.
  intros Hc Hd. unfold TrimSpace, flatten_runes. rewrite bytes_of_string_of. f_equal.
  pose proof (visible_no_space c Hc) as Sc. pose proof (visible_no_space d Hd) as Sd. unfold visible in Hc, Hd.
  assert (Hr : trim_runes (decode_runes ((if space then [" "%char] else []) ++ c :: m ++ [d])) = decode_runes (c :: m ++ [d])).
  { transitivity (trim_runes (decode_runes (c :: m ++ [d]))).
    - destruct space; [|done]. cbn [app]. rewrite (decode_low " "%char) by done. unfold trim_runes. cbn [drop_while].
      change (unicode_IsSpace (byte_val " ", [" "%char]).1) with true. done.
    - rewrite decode_low by lia. destruct (decode_last d ltac:(lia) (length m) m) as [q ->]; [lia|].
      unfold trim_runes. cbn [drop_while fst]. rewrite Sc. rewrite app_comm_cons, rev_unit. cbn [drop_while fst]. rewrite Sd.
      by rewrite <- rev_unit, rev_involutive. }
  rewrite Hr. apply decode_runes_spec.
Qed.

Lemma substring_all s : String.substring 0 (String.length s) s = s.
Proof. induction s as [|c s IH]; [done|]. cbn. by rewrite IH. Qed.

(** The payload of an event whose data is an object. *)
Lemma event_payload_object ms : event_payload (string_of (dropCR (bytes_of "data: " ++ json_bytes (JObj ms)))) = Some (json_render (JObj ms)).
Proof.
  unfold json_render. cbn [json_bytes]. destruct (members_end ms true) as [m ->].
  assert (Hcr : dropCR (bytes_of "data: " ++ "{"%char :: m ++ ["}"%char]) = bytes_of "data: " ++ "{"%char :: m ++ ["}"%char]).
  { unfold dropCR. rewrite app_comm_cons, app_assoc, rev_unit. done. }
  rewrite Hcr. clear Hcr. unfold event_payload.
  change (bytes_of "data: " ++ "{"%char :: m ++ ["}"%char]) with ("d"%char :: (bytes_of "ata: " ++ "{"%char :: m) ++ ["}"%char]).
  pose proof (TrimSpace_ends false "d" (bytes_of "ata: " ++ "{"%char :: m) "}" ltac:(unfold visible; done) ltac:(unfold visible; done)) as Ht1.
  pose proof (TrimSpace_ends true "{" m "}" ltac:(unfold visible; done) ltac:(unfold visible; done)) as Ht2.
  cbn [app] in Ht1, Ht2. rewrite Ht1. cbn zeta.
  change (string_of ("d"%char :: (bytes_of "ata: " ++ "{"%char :: m) ++ ["}"%char]))
    with ("data:" +:+ string_of (" "%char :: "{"%char :: m ++ ["}"%char])).
  assert (Hp : HasPrefix ("data:" +:+ string_of (" "%char :: "{"%char :: m ++ ["}"%char])) "data:" = true) by done.
  unfold TrimPrefix. rewrite Hp. cbn [negb].
  assert (Hs : forall s, String.substring (String.length "data:") (String.length ("data:" +:+ s) - String.length "data:") ("data:" +:+ s) = s).
  { intros s. change (String.substring 0 (String.length s - 0) s = s). rewrite Nat.sub_0_r. apply substring_all. }
  rewrite Hs, Ht2. done.
Qed.

(** ** The texts of the server *)

Definition usage_json (u : openAIUsage) : JSON :=
  JObj [("prompt_tokens", JNum (fmt_d (PromptTokens u))); ("completion_tokens", JNum (fmt_d (CompletionTokens u))); ("total_tokens", JNum (fmt_d (TotalTokens u)))].
Definition opt_usage_json (u : option openAIUsage) : JSON := match u with Some u => usage_json u | None => JNull end.
Definition function_json (tc : ToolCall) : JSON := JObj [("name", JStr (ToolCall_Name tc)); ("arguments", JStr (ToolCall_Args tc))].
Definition call_json (tc : ToolCall) : JSON := JObj [("id", JStr (ToolCall_ID tc)); ("type", JStr "function"); ("function", function_json tc)].
Definition fragment_json (f : fragment) : JSON :=
  JObj [("index", JNum (fmt_d (f_index f))); ("id", JStr (ToolCall_ID (f_call f))); ("type", JStr "function"); ("function", function_json (f_call f))].

(** The answer as one value, and a piece of it. *)
Definition completion_members (a : answer) : list (string * JSON) :=
  [("choices", JArr [JObj [("message", JObj [("content", JStr (a_content a)); ("tool_calls", JArr (map call_json (a_calls a)))]);
                           ("finish_reason", JStr (a_finish a))]]);
   ("usage", opt_usage_json (a_usage a))].
Definition piece_members (p : piece) : list (string * JSON) :=
  [("choices", JArr [JObj [("delta", JObj [("content", JStr (p_content p)); ("tool_calls", JArr (map fragment_json (p_fragments p)))]);
                           ("finish_reason", JStr (p_finish p))]]);
   ("usage", opt_usage_json (p_usage p))].

Definition completion_text (a : answer) : list ascii := json_bytes (JObj (completion_members a)).
Definition sse_lines (ps : list piece) : list (list ascii) :=
  flat_map (fun p => [bytes_of "data: " ++ json_bytes (JObj (piece_members p)); []]) ps ++ [bytes_of "data: [DONE]"; []].
Definition sse_text (ps : list piece) : list ascii := flat_map (fun l => l ++ [newline]) (sse_lines ps).

(** What JSON can carry: texts in UTF-8, numbers of 64 bits. *)
Definition call_ok (tc : ToolCall) : Prop := valid_utf8 (ToolCall_ID tc) = true /\ valid_utf8 (ToolCall_Name tc) = true /\ valid_utf8 (ToolCall_Args tc) = true.
Definition usage_ok (u : option openAIUsage) : Prop :=
  match u with Some u => in_int64 (PromptTokens u) /\ in_int64 (CompletionTokens u) /\ in_int64 (TotalTokens u) | None => True end.
Definition piece_ok (p : piece) : Prop :=
  valid_utf8 (p_content p) = true /\ valid_utf8 (p_finish p) = true /\ usage_ok (p_usage p) /\
  Forall (fun f => in_int64 (f_index f) /\ call_ok (f_call f)) (p_fragments p).
Definition answer_ok (a : answer) : Prop :=
  valid_utf8 (a_content a) = true /\ valid_utf8 (a_finish a) = true /\ usage_ok (a_usage a) /\ Forall call_ok (a_calls a).

Lemma opt_usage_json_ok u : json_ok (opt_usage_json u) = true.
Proof. destruct u as [u|]; [|done]. cbn [opt_usage_json usage_json json_ok forallb fst snd]. by rewrite !json_number_fmt_d. Qed.

Lemma call_json_ok tc : call_ok tc -> json_ok (call_json tc) = true.
Proof. intros (H1 & H2 & H3). cbn [call_json function_json json_ok forallb fst snd]. by rewrite H1, H2, H3. Qed.

Lemma fragment_json_ok f : call_ok (f_call f) -> json_ok (fragment_json f) = true.
Proof. intros (H1 & H2 & H3). cbn [fragment_json function_json json_ok forallb fst snd]. by rewrite json_number_fmt_d, H1, H2, H3. Qed.

Lemma forallb_map_ok {A} (f : A -> JSON) (P : A -> Prop) l : (forall x, P x -> json_ok (f x) = true) -> Forall P l -> forallb json_ok (map f l) = true.
Proof. intros Hf. induction 1 as [|x l Hx _ IH]; [done|]. cbn. by rewrite Hf. Qed.

Lemma piece_json_ok p : piece_ok p -> json_ok (JObj (piece_members p)) = true.
Proof.
  intros (H1 & H2 & _ & H3). cbn [piece_members json_ok forallb fst snd]. rewrite H1, H2, opt_usage_json_ok.
  rewrite (forallb_map_ok fragment_json _ _ (fun f Hf => fragment_json_ok f (proj2 Hf)) H3). done.
Qed.

Lemma completion_json_ok a : answer_ok a -> json_ok (JObj (completion_members a)) = true.
Proof.
  intros (H1 & H2 & _ & H3). cbn [completion_members json_ok forallb fst snd]. rewrite H1, H2, opt_usage_json_ok.
  rewrite (forallb_map_ok call_json _ _ call_json_ok H3). done.
Qed.

Lemma depth_map {A} (f : A -> JSON) k l : 0 <= k -> (forall x, json_depth (f x) <= k) -> foldr Z.max 0 (map json_depth (map f l)) <= k.
Proof. intros Hk Hf. induction l as [|x l IH]; cbn; [done|]. specialize (Hf x). lia. Qed.

Lemma piece_depth p : json_depth (JObj (piece_members p)) <= maxNestingDepth.
Proof.
  pose proof (depth_map fragment_json 2 (p_fragments p) ltac:(lia) (fun f => ltac:(cbn; lia))) as Hd.
  cbn [piece_members json_depth map foldr snd]. assert (Hu : json_depth (opt_usage_json (p_usage p)) <= 1) by (destruct (p_usage p); cbn; lia).
  unfold maxNestingDepth. lia.
Qed.

Lemma completion_depth a : json_depth (JObj (completion_members a)) <= maxNestingDepth.
Proof.
  pose proof (depth_map call_json 2 (a_calls a) ltac:(lia) (fun f => ltac:(cbn; lia))) as Hd.
  cbn [completion_members json_depth map foldr snd]. assert (Hu : json_depth (opt_usage_json (a_usage a)) <= 1) by (destruct (a_usage a); cbn; lia).
  unfold maxNestingDepth. lia.
Qed.

(** ** Decoding them *)

Section decoded.
Context `{HJ : JSONText}.

Lemma decode_step {S} (fields : list (field (S := S))) name v ms s set s' :
  find_field fields name = Some set -> set v s = (s', None) ->
  decode_members fields ((name, v) :: ms) s None = decode_members fields ms s' None.
Proof. intros Hf Hs. cbn [decode_members]. by rewrite Hf, Hs. Qed.

Lemma set_int {S} z (upd : Z -> S -> S) s : in_int64 z -> set_with json_int upd (JNum (fmt_d z)) s = (upd z s, None).
Proof. intros Hz. unfold set_with. by rewrite json_int_fmt_d. Qed.

Lemma decode_elems_map {A B} (set : setter (S := A)) (zero : A) (f : B -> JSON) (g : B -> A) (P : B -> Prop) l :
  (forall x, P x -> set (f x) zero = (g x, None)) -> Forall P l -> decode_elems set zero (map f l) [] = (map g l, None).
Proof. intros Hs. induction 1 as [|x l Hx _ IH]; [done|]. cbn [map decode_elems]. change (default zero (head (@nil A))) with zero. change (tail (@nil A)) with (@nil A). rewrite (Hs x Hx). by rewrite IH. Qed.

Lemma decode_slice_map {A B} (set : setter (S := A)) (zero : A) t (f : B -> JSON) (g : B -> A) (P : B -> Prop) l :
  (forall x, P x -> set (f x) zero = (g x, None)) -> Forall P l -> decode_slice set zero t (JArr (map f l)) nil_slice = (mkSlice (map g l) [], None).
Proof.
  intros Hs Hl. destruct l as [|x l]; [done|]. cbn [decode_slice map nil_slice elems spare app].
  change (f x :: map f l) with (map f (x :: l)). by rewrite (decode_elems_map _ _ f g P _ Hs Hl).
Qed.

Lemma set_usage u : usage_ok u -> forall {A} (get : A -> option openAIUsage) upd a, get a = None ->
  set_pointer get upd usage_fields (mkopenAIUsage 0 0 0) (opt_usage_json u) a = (upd u a, None).
Proof.
  intros Hu A get upd a Ha. destruct u as [u|]; [|done]. destruct Hu as (H1 & H2 & H3). unfold set_pointer, opt_usage_json, usage_json. rewrite Ha.
  cbn [decode_struct]. change (default ?z (@None openAIUsage)) with z.
  erewrite decode_step; [|reflexivity|by apply set_int].
  erewrite decode_step; [|reflexivity|by apply set_int].
  erewrite decode_step; [|reflexivity|by apply set_int].
  by destruct u.
Qed.

Lemma decode_fragment f : in_int64 (f_index f) /\ call_ok (f_call f) -> decode_struct stream_call_fields (fragment_json f) zero_stream_call = (stream_call f, None).
Proof.
  intros [Hi _]. cbn [fragment_json decode_struct].
  erewrite decode_step; [|reflexivity|by apply set_int].
  done.
Qed.

Definition message_call (tc : ToolCall) : openAIToolCallMessage :=
  mkopenAIToolCallMessage (ToolCall_ID tc) "function" (mkopenAIToolFunctionCall (ToolCall_Name tc) (ToolCall_Args tc)).

Lemma decode_call tc : call_ok tc -> decode_struct tool_call_fields (call_json tc) zero_call = (message_call tc, None).
Proof. done. Qed.

Lemma decode_slice_one {A} (set : setter (S := A)) (zero : A) t v a :
  set v zero = (a, None) -> decode_slice set zero t (JArr [v]) nil_slice = (mkSlice [a] [], None).
Proof. intros Hs. cbn. by rewrite Hs. Qed.

Lemma decode_stream_choice p : piece_ok p ->
  decode_struct stream_choice_fields
    (JObj [("delta", JObj [("content", JStr (p_content p)); ("tool_calls", JArr (map fragment_json (p_fragments p)))]); ("finish_reason", JStr (p_finish p))])
    zero_stream_choice =
  (mkopenAIStreamChoice (mkopenAIStreamDelta (Some (JStr (p_content p))) (mkSlice (map stream_call (p_fragments p)) [])) (p_finish p), None).
Proof.
  intros (_ & _ & _ & Hf). cbn [decode_struct]. erewrite decode_step; [|reflexivity|].
  2: { cbn [snd]. unfold set_struct. cbn [decode_struct]. erewrite decode_step; [|reflexivity|reflexivity].
       erewrite decode_step; [|reflexivity|]. 2: { cbn [snd]. unfold set_slice. cbn [upd Delta_ToolCalls StreamChoice_Delta zero_stream_choice].
         rewrite (decode_slice_map _ _ _ fragment_json stream_call _ _ decode_fragment Hf). reflexivity. }
       reflexivity. }
  reflexivity.
Qed.

Lemma decode_piece p : piece_ok p ->
  json_Unmarshal_struct stream_response_fields (json_render (JObj (piece_members p))) (mkopenAIChatStreamResponse nil_slice None) = Ok (chunk_of p).
Proof.
  intros Hp. unfold json_Unmarshal_struct. rewrite json_parse_render by auto using piece_json_ok, piece_depth.
  unfold piece_members. cbn [decode_struct]. erewrite decode_step; [|reflexivity|].
  2: { cbn [snd]. unfold set_slice. cbn [StreamResponse_Choices]. rewrite (decode_slice_one _ _ _ _ _ (decode_stream_choice p Hp)). reflexivity. }
  erewrite decode_step; [|reflexivity|apply set_usage; [apply Hp|reflexivity]]. reflexivity.
Qed.

Definition completion_of (a : answer) : openAIChatResponse :=
  mkopenAIChatResponse (mkSlice [mkopenAIChoice (mkopenAIChoiceMessage (Some (JStr (a_content a))) (mkSlice (map message_call (a_calls a)) [])) (a_finish a)] []) (a_usage a).

Lemma decode_choice a : answer_ok a ->
  decode_struct choice_fields
    (JObj [("message", JObj [("content", JStr (a_content a)); ("tool_calls", JArr (map call_json (a_calls a)))]); ("finish_reason", JStr (a_finish a))])
    zero_choice =
  (mkopenAIChoice (mkopenAIChoiceMessage (Some (JStr (a_content a))) (mkSlice (map message_call (a_calls a)) [])) (a_finish a), None).
Proof.
  intros (_ & _ & _ & Hc). cbn [decode_struct]. erewrite decode_step; [|reflexivity|].
  2: { cbn [snd]. unfold set_struct. cbn [decode_struct]. erewrite decode_step; [|reflexivity|reflexivity].
       erewrite decode_step; [|reflexivity|]. 2: { cbn [snd]. unfold set_slice. cbn [upd Message_ToolCalls Choice_Message zero_choice].
         rewrite (decode_slice_map _ _ _ call_json message_call _ _ decode_call Hc). reflexivity. }
       reflexivity. }
  reflexivity.
Qed.

Lemma decode_completion a : answer_ok a ->
  json_Unmarshal_struct response_fields (json_render (JObj (completion_members a))) (mkopenAIChatResponse nil_slice None) = Ok (completion_of a).
Proof.
  intros Ha. unfold json_Unmarshal_struct. rewrite json_parse_render by auto using completion_json_ok, completion_depth.
  unfold completion_members. cbn [decode_struct]. erewrite decode_step; [|reflexivity|].
  2: { cbn [snd]. unfold set_slice. cbn [Response_Choices]. rewrite (decode_slice_one _ _ _ _ _ (decode_choice a Ha)). reflexivity. }
  erewrite decode_step; [|reflexivity|apply set_usage; [apply Ha|reflexivity]]. reflexivity.
Qed.
End decoded.

(** ** The two ways to get an answer *)

Lemma limit_bytes_id n l : Z.of_nat (length l) <= n -> limit_bytes n l = l.
Proof.
  revert n. induction l as [|c l IH]; intros n Hn; cbn [limit_bytes]; [done|]. cbn in Hn. rewrite (proj2 (Z.leb_gt n 0)) by lia. f_equal. apply IH. lia.
Qed.

Definition response_with (body : list ascii) : HTTPResponse := mkHTTPResponse 200 "" body None None.

Section equivalence.
Context `{HU : Unicode} `{HJ : JSONText} {T : Type} `{HR : Remote T} (iterate : gmap Z ToolCall -> list Z).

Lemma stream_loop_pieces ps : forall done st rest, Forall piece_ok ps -> assembled done st -> exists st', assembled (done ++ ps) st' /\
  stream_loop (map (fun l => (string_of (dropCR l), None)) (flat_map (fun p => [bytes_of "data: " ++ json_bytes (JObj (piece_members p)); []]) ps) ++ rest) None st
    = stream_loop rest None st'.
Proof.
  induction ps as [|p ps IH]; intros done st rest Hps Hst.
  - exists st. by rewrite app_nil_r.
  - apply list.Forall_cons in Hps as [Hp Hps]. destruct (IH (done ++ [p]) (add_chunk (chunk_of p) st) rest Hps) as (st' & Has & Hl).
    { by apply assembled_snoc. }
    exists st'. split; [by rewrite <- app_assoc in Has|]. rewrite <- Hl. cbn [flat_map map app stream_loop]. cbn zeta.
    rewrite event_payload_object.
    assert (Hne : String.eqb (json_render (JObj (piece_members p))) "[DONE]" = false) by done.
    rewrite Hne, decode_piece by done. change (event_payload (string_of (dropCR []))) with (@None string). done.
Qed.

Lemma sse_no_newline ps : Forall piece_ok ps -> Forall (fun l => newline ∉ l) (sse_lines ps).
Proof.
  intros Hps. unfold sse_lines. apply list.Forall_app. split.
  - induction Hps as [|p ps Hp _ IH]; [constructor|]. cbn [flat_map app]. constructor; [|constructor; [apply not_elem_of_nil|done]].
    apply printed_no_newline, list.Forall_app. split; [repeat constructor; done|]. by apply json_printed, json_ok_numbers, piece_json_ok.
  - constructor; [|constructor; [apply not_elem_of_nil|constructor]]. apply printed_no_newline. repeat constructor; done.
Qed.

(** The events of an answer, gathered. *)
Lemma stream_assembles ps : Forall piece_ok ps -> forallb line_fits (sse_lines ps) = true ->
  exists lines st, scan_body (sse_text ps) None = (lines, None) /\ stream_loop lines None empty_stream = (st, None) /\ assembled ps st.
Proof.
  intros Hps Hfit. unfold scan_body, sse_text. rewrite split_lines_all by (by apply sse_no_newline). rewrite scan_lines_all by done.
  destruct (stream_loop_pieces ps [] empty_stream (map (fun l => (string_of (dropCR l), None)) [bytes_of "data: [DONE]"; []]) Hps assembled_nil) as (st & Has & Hl).
  eexists _, st. split; [reflexivity|]. split; [|done]. unfold sse_lines. rewrite map_app, Hl. reflexivity.
Qed.

(** A first attempt that succeeds is the only one. *)
Lemma attempts_first {A} outcome (client : OpenAICompatibleClient T -> http_Client T) what body c httpReq (r : result error A) n :
  newRequest c body = Ok httpReq -> outcome (Do (client c) (length (oc_sent c)) httpReq) = Finished r ->
  attempts (S n) 1 outcome client what None body c = (c <| oc_sent ::= (fun l => l ++ [httpReq]) |>, r).
Proof. intros Hn Ho. cbn [attempts]. by rewrite Hn, Ho. Qed.

Lemma json_attempt_ok body : Z.of_nat (length body) <= openAIMaxResponseBytes -> json_attempt (Ok (response_with body)) = Finished (Ok body).
Proof.
  intros Hb. unfold json_attempt, limit_body. cbn [response_with HTTPResponse_Body HTTPResponse_ReadErr HTTPResponse_CloseErr HTTPResponse_StatusCode].
  rewrite limit_bytes_id by lia. replace (if _ <? _ then None else None) with (@None error) by (by case_match).
  by rewrite (proj2 (Z.ltb_ge _ _)) by lia.
Qed.

Lemma calls_of_messages l : map call_of (map message_call l) = l.
Proof. rewrite map_map. rewrite <- (map_id l) at 2. apply map_ext. by intros []. Qed.

(** C13: Streaming changes nothing: if the server sends an answer once as a JSON value and once cut into events in any
    way, [Chat] and [ChatStream] return the same response, with the tool calls in the order of their indices whatever the
    order of the map iteration is, and the tokens passed to [onToken] are never empty and make up the content. *)
Theorem stream_equals_chat (c : OpenAICompatibleClient T) req v v' r r' a ps
    (Hiter : forall m, iterate m ≡ₚ (map_to_list m).*1)
    (Hv : marshal_request (buildChatRequest c req false) = Ok v) (Hv' : marshal_request (buildChatRequest c req true) = Ok v')
    (Hr : newRequest c (json_render v) = Ok r) (Hr' : newRequest c (json_render v') = Ok r')
    (Hchat : Do (oc_httpClient c) (length (oc_sent c)) r = Ok (response_with (completion_text a)))
    (Hstream : Do (oc_streamClient c) (length (oc_sent c)) r' = Ok (response_with (sse_text ps)))
    (Hps : streams ps a) (Ha : answer_ok a) (Hok : Forall piece_ok ps)
    (Hsize : Z.of_nat (length (completion_text a)) <= openAIMaxResponseBytes)
    (Hsize' : Z.of_nat (length (sse_text ps)) <= openAIMaxStreamBytes) (Hlines : forallb line_fits (sse_lines ps) = true) :
  exists tokens resp, (OpenAI_Chat (Some req) c).2 = Ok resp /\ (OpenAI_ChatStream iterate (Some req) c).2 = (tokens, Ok resp) /\
    str_join "" tokens = LLMResponse_Content resp /\ Forall (fun t => t <> "") tokens /\
    resp = mkLLMResponse (a_content a) (named_calls (a_calls a)) (usage_of <$> a_usage a) (a_finish a)
             (Request_Model (buildChatRequest c req true)) llmProviderOpenAI.
Proof.
  destruct (stream_assembles ps Hok Hlines) as (lines & st & Hscan & Hloop & [Hc Ht Hca Hf Hu]).
  exists (ss_tokens st). eexists. split_and!; [| |idtac|exact Ht|reflexivity].
  - unfold OpenAI_Chat. rewrite Hv. unfold doJSONRequest. change (Z.to_nat openAIMaxAttempts) with 3%nat.
    rewrite (attempts_first _ _ _ _ _ r (Ok (completion_text a))) by (done || (rewrite Hchat; by apply json_attempt_ok)).
    cbn [snd]. change (string_of (completion_text a)) with (json_render (JObj (completion_members a))).
    rewrite decode_completion by done. unfold completionToLLMResponse, completion_of.
    cbn [Response_Choices elems Choice_Message Message_ToolCalls]. rewrite calls_of_messages. reflexivity.
  - unfold OpenAI_ChatStream. rewrite Hv'. unfold doStreamRequest. change (Z.to_nat openAIMaxAttempts) with 3%nat.
    rewrite (attempts_first _ _ _ _ _ r' (Ok (response_with (sse_text ps)))) by (done || by rewrite Hstream).
    cbn [snd]. unfold limit_body. cbn [response_with HTTPResponse_Body HTTPResponse_ReadErr]. rewrite limit_bytes_id by done.
    replace (if _ <? _ then None else None) with (@None error) by (by case_match). rewrite Hscan, Hloop. f_equal. f_equal.
    rewrite (ordered_calls_answer ps a _ _ Hps Hca (Hiter _)), Hc, Hf, Hu. destruct Hps as [-> _ _ -> ->]. done.
  - cbn [LLMResponse_Content]. rewrite Hc. destruct Hps as [-> _ _ _ _]. done.
Qed.
End equivalence.

(** ** Example *)

Module stream_demo.
Import openai_demo.

Definition calls : list ToolCall := [mkToolCall "c0" "fs.read" "{}"; mkToolCall "c1" "fs.write" "{x}"].
Definition whole : answer := mkanswer "Hello" calls "tool_calls" (Some (mkopenAIUsage 3 4 7)).
Definition cut : list piece :=
  [mkpiece "He" [mkfragment 1 (mkToolCall "c1" "fs.write" "{")] "" None;
   mkpiece "" [mkfragment 0 (mkToolCall "c0" "" ""); mkfragment 1 (mkToolCall "" "" "x}")] "" None;
   mkpiece "llo" [mkfragment 0 (mkToolCall "" "fs.read" "{}")] "tool_calls" None;
   mkpiece "" [] "" (Some (mkopenAIUsage 3 4 7))].
Definition both : OpenAICompatibleClient script :=
  mkOpenAIClient "sk" "http://localhost/v1" "m" (mkhttp_Client [Ok (response_with (completion_text whole))] 0)
    (mkhttp_Client [Ok (response_with (sse_text cut))] 0) [] [].

Lemma cut_streams : streams cut whole.
Proof.
  split; try reflexivity.
  - intros [|[|i]] call [= <-]; split; try discriminate; reflexivity.
  - apply list.Forall_forall. intros f Hf. cbn. repeat (apply elem_of_cons in Hf as [->|Hf]; [cbn; lia|]). by apply not_elem_of_nil in Hf.
Qed.

Definition get {A} (zero : A) (r : result error A) : A := match r with Ok a => a | Err _ => zero end.
Definition body_json (stream : bool) : JSON := get JNull (marshal_request (buildChatRequest both request stream)).
Definition sent (stream : bool) : HTTPRequest := get (mkHTTPRequest "" "" "" "" "") (newRequest both (json_render (body_json stream))).

Lemma whole_ok : answer_ok whole.
Proof. repeat split; try reflexivity; try (cbn; unfold_int64; lia). repeat constructor; reflexivity. Qed.

Lemma cut_ok : Forall piece_ok cut.
Proof.
  unfold cut. repeat apply list.Forall_cons_2; try apply list.Forall_nil_2; (split_and!; [reflexivity|reflexivity|cbn; unfold_int64; lia|]); cbn [p_fragments];
    repeat apply list.Forall_cons_2; try apply list.Forall_nil_2; (split; [cbn; unfold_int64; lia|split_and!; reflexivity]).
Qed.

Lemma stream_equals_chat_witness : exists tokens resp,
  (OpenAI_Chat (Some request) both).2 = Ok resp /\ (OpenAI_ChatStream iterate (Some request) both).2 = (tokens, Ok resp) /\
  LLMResponse_Content resp = "Hello" /\ LLMResponse_ToolCalls resp = calls.
Proof.
  destruct (stream_equals_chat iterate both request (body_json false) (body_json true) (sent false) (sent true) whole cut
    (fun m => reflexivity _) ltac:(vm_compute; reflexivity) ltac:(vm_compute; reflexivity) ltac:(vm_compute; reflexivity) ltac:(vm_compute; reflexivity)
    ltac:(vm_compute; reflexivity) ltac:(vm_compute; reflexivity) cut_streams whole_ok cut_ok
    ltac:(vm_compute; discriminate) ltac:(vm_compute; discriminate) ltac:(vm_compute; reflexivity)) as (tokens & resp & H1 & H2 & _ & _ & H3).
  exists tokens, resp. split_and!; [done|done|by rewrite H3|]. rewrite H3. vm_compute. reflexivity.
Defined.
End stream_demo.
