(* ===== verification/LLMFactory.v ===== *)
(** * LLMFactory: the model clients of a process (src/pkg/engine/llm_factory.go, mock_llm.go)

    The scripted client for tests, the API key from the environment or from Secrets Manager, and
    the routed client that [NewLLMClientFromEnv] builds from them.  The environment is a function,
    the secrets service the class [SecretsManager]. *)

From Stdlib Require Import Ascii.
From S2P Require Import Prelude GoLib Strconv JSON Model StateStore World TaskService Artifacts Engine Encoding URL API Router OpenAI.

(** ** The scripted client *)

Record MockLLMClient : Type := mkMockLLMClient { mock_callCount : Z; mock_maxSteps : Z }.
#[global] Instance MockLLMClient_eta : Eta MockLLMClient := fun m => mkMockLLMClient (mock_callCount m) (mock_maxSteps m).

Definition NewMockLLMClient (maxSteps : Z) : MockLLMClient := mkMockLLMClient 0 (if maxSteps <=? 0 then 2 else maxSteps).
Definition Mock_Reset (m : MockLLMClient) : MockLLMClient := m <| mock_callCount := 0 |>.

(** The arguments of the scripted tool call. *)
Definition mock_args (count : Z) : string :=
  json_sample "{`path`:`step_" +:+ fmt_d count +:+ json_sample ".txt`,`content`:`output from step " +:+ fmt_d count +:+ json_sample "`}".

(** [ctx] are the readings of the context: before the call, then before each token. *)
Definition Mock_Chat (ctx : nat -> option error) (req : option LLMRequest) (m : MockLLMClient) : MockLLMClient * result error LLMResponse :=
  match ctx O with
  | Some e => (m, Err e)
  | None =>
      let count := add64 (mock_callCount m) 1 in
      let modelID := match req_config req with
                     | Some mc => if String.eqb (ModelConfig_ModelID mc) "" then "mock-default" else ModelConfig_ModelID mc
                     | None => "mock-default"
                     end in
      (m <| mock_callCount := count |>,
       Ok (if count <=? mock_maxSteps m
           then mkLLMResponse ("I'll use a tool (step " +:+ fmt_d count +:+ ")") [mkToolCall "" "fs.write" (mock_args count)]
                  (Some (mkTokenUsage 100 50 150)) "tool_calls" modelID "mock"
           else mkLLMResponse ("Task complete after " +:+ fmt_d (sub64 count 1) +:+ " steps.") []
                  (Some (mkTokenUsage 80 30 110)) "stop" modelID "mock"))
  end.

(** The words of the content, as long as the context is live. *)
Fixpoint mock_tokens (ctx : nat -> option error) (i : nat) (parts : list string) : list string * option error :=
  match parts with
  | [] => ([], None)
  | p :: parts' =>
      match ctx (S i) with
      | Some e => ([], Some e)
      | None => let '(ts, e) := mock_tokens ctx (S i) parts' in ((if Nat.eqb i 0 then p else " " +:+ p) :: ts, e)
      end
  end.

Definition Mock_ChatStream (ctx : nat -> option error) (req : option LLMRequest) (m : MockLLMClient)
    : MockLLMClient * (list string * result error LLMResponse) :=
  match Mock_Chat ctx req m with
  | (m, Err e) => (m, ([], Err e))
  | (m, Ok resp) =>
      let '(ts, e) := if String.eqb (LLMResponse_Content resp) "" then ([], None) else mock_tokens ctx 0 (Fields (LLMResponse_Content resp)) in
      (m, (ts, match e with Some e => Err e | None => Ok resp end))
  end.

(** ** The API key *)

(** AWS: the configuration may fail to load; a secret may have no text. *)
Class SecretsManager := {
  LoadDefaultConfig : option error;
  GetSecretValue : string -> result error (option string) }.

Section factory.
Context `{Unicode} `{JSONText} `{TextLib} `{SecretsManager} {T : Type} `{Remote T} (getenv : string -> string).
Context (mock_ctx : Z -> nat -> option error) (iterate : gmap Z ToolCall -> list Z).

Definition fetchSecretString (secretID : string) : result error string :=
  match LoadDefaultConfig with
  | Some e => Err (wrapf "load aws config: " e)
  | None =>
      match GetSecretValue secretID with
      | Err e => Err (wrapf "get secret value: " e)
      | Ok None => Err (errors_New ("secret " +:+ Quote secretID +:+ " has empty SecretString"))
      | Ok (Some s) =>
          if is_blank s then Err (errors_New ("secret " +:+ Quote secretID +:+ " has blank SecretString")) else Ok (TrimSpace s)
      end
  end.

(** [json.Unmarshal] into a [map[string]interface{}]: [null] is the nil map. *)
Definition unmarshal_map (text : string) : result error (list (string * JSON)) :=
  match json_parse text with
  | Err e => Err e
  | Ok JNull => Ok []
  | Ok (JObj ms) => match any_value (JObj ms) with Ok (JObj ms) => Ok ms | Ok _ => Ok [] | Err e => Err e end
  | Ok v => Err (json_type_error v "map[string]interface {}")
  end.

Definition member (name : string) (ms : list (string * JSON)) : option JSON := snd <$> List.find (fun kv => String.eqb kv.1 name) ms.

(** A member that is a text with more than spaces. *)
Definition text_member (v : JSON) : option string :=
  match v with JStr s => if is_blank s then None else Some (TrimSpace s) | _ => None end.

Definition extractAPIKeyFromSecretValue (secretValue field : string) : result error string :=
  let trimmed := TrimSpace secretValue in
  if String.eqb trimmed "" then Err (errors_New "secret value is empty")
  else if negb (String.eqb field "") then
    match unmarshal_map trimmed with
    | Err e => Err (wrapf ("OPENAI_API_KEY_SECRET_FIELD=" +:+ Quote field +:+ " requires JSON secret: ") e)
    | Ok obj =>
        match member field obj with
        | None => Err (errors_New ("field " +:+ Quote field +:+ " not found in JSON secret"))
        | Some v =>
            match text_member v with
            | Some s => Ok s
            | None => Err (errors_New ("field " +:+ Quote field +:+ " in JSON secret is not a non-empty string"))
            end
        end
    end
  else if HasPrefix trimmed "{" then
    match unmarshal_map trimmed with
    | Ok obj =>
        match omap (fun key => member key obj ≫= text_member) ["OPENAI_API_KEY"; "api_key"; "apiKey"; "key"] with
        | s :: _ => Ok s
        | [] => Err (errors_New "json secret missing api key field; set OPENAI_API_KEY_SECRET_FIELD to choose one")
        end
    | Err _ => Ok trimmed
    end
  else Ok trimmed.

Definition resolveOpenAIAPIKey : result error string :=
  let key := TrimSpace (getenv "OPENAI_API_KEY") in
  if negb (String.eqb key "") then Ok key
  else
    let secretID := TrimSpace (getenv "OPENAI_API_KEY_SECRET_ARN") in
    if String.eqb secretID "" then Ok ""
    else match fetchSecretString secretID with
         | Err e => Err (wrapf "engine: load OPENAI_API_KEY from Secrets Manager: " e)
         | Ok secretValue =>
             match extractAPIKeyFromSecretValue secretValue (TrimSpace (getenv "OPENAI_API_KEY_SECRET_FIELD")) with
             | Err e => Err (wrapf "engine: parse OPENAI_API_KEY secret: " e)
             | Ok apiKey => Ok apiKey
             end
         end.

(** ** The clients *)

Inductive AnyClient : Type :=
| AMock (m : MockLLMClient)
| AOpenAI (c : OpenAICompatibleClient T).

(** [strconv.Atoi] with its error. *)
Definition strconv_Atoi (s : string) : result error Z :=
  match Atoi s with
  | Some z => Ok z
  | None => Err (NumError "Atoi" s (match parse_uint (split_sign (bytes_of s)).2 with Some _ => ErrRange | None => ErrSyntax end))
  end.

(** A variable that holds a number, if it is set. *)
Definition env_int (name : string) : result error (option Z) :=
  let raw := TrimSpace (getenv name) in
  if String.eqb raw "" then Ok None
  else match strconv_Atoi raw with Ok n => Ok (Some n) | Err e => Err (wrapf ("engine: invalid " +:+ name +:+ ": ") e) end.

Definition newLLMClientForProvider (provider : string) : result error AnyClient :=
  if String.eqb provider llmProviderMock then
    match env_int "AGENTFORGE_LLM_MOCK_STEPS" with
    | Err e => Err e
    | Ok n => Ok (AMock (NewMockLLMClient (default 3 n)))
    end
  else if String.eqb provider llmProviderOpenAI then
    match env_int "AGENTFORGE_LLM_TIMEOUT_SECONDS" with
    | Err e => Err e
    | Ok sec =>
        let timeout := match sec with Some n => if 0 <? n then wrap64 (n * Second) else 60 * Second | None => 60 * Second end in
        match resolveOpenAIAPIKey with
        | Err e => Err e
        | Ok apiKey =>
            match NewOpenAICompatibleClient (mkOpenAIConfig apiKey (getenv "OPENAI_BASE_URL") (getenv "AGENTFORGE_LLM_MODEL") timeout None) with
            | Ok c => Ok (AOpenAI c)
            | Err e => Err e
            end
        end
    end
  else Err (errors_New ("engine: unsupported AGENTFORGE_LLM_PROVIDER " +:+ Quote provider)).

(** The fallback providers of the list, each with its client. *)
Fixpoint fallback_clients (provider : string) (parts : list string) (clients : gmap string AnyClient) (fallbacks : list string)
    : result error (gmap string AnyClient * list string) :=
  match parts with
  | [] => Ok (clients, fallbacks)
  | part :: parts' =>
      let p := ToLower (TrimSpace part) in
      if String.eqb p "" || String.eqb p provider then fallback_clients provider parts' clients fallbacks
      else if bool_decide (p ∈ dom clients) then fallback_clients provider parts' clients fallbacks
      else match newLLMClientForProvider p with
           | Err e => Err (wrapf ("engine: initialize fallback provider " +:+ Quote p +:+ ": ") e)
           | Ok client => fallback_clients provider parts' (<[p := client]> clients) (fallbacks ++ [p])
           end
  end.

Definition NewLLMClientFromEnv : result error (RoutedLLMClient AnyClient) :=
  let provider := let p := ToLower (TrimSpace (getenv "AGENTFORGE_LLM_PROVIDER")) in if String.eqb p "" then llmProviderMock else p in
  match newLLMClientForProvider provider with
  | Err e => Err e
  | Ok primary =>
      let raw := TrimSpace (getenv "AGENTFORGE_LLM_FALLBACK_PROVIDERS") in
      let parts := if String.eqb raw "" then [] else Split raw "," in
      match fallback_clients provider parts {[ provider := primary ]} [] with
      | Err e => Err e
      | Ok (clients, fallbacks) =>
          let router := NewModelRouter (mkRouterConfig (TrimSpace (getenv "AGENTFORGE_LLM_ROUTING_DEFAULT_MODE")) fallbacks) in
          Ok (NewRoutedLLMClient provider (Some clients) (Some router))
      end
  end.

(** Both clients stream. *)
#[global] Instance AnyClient_ProviderClient : ProviderClient AnyClient := {|
  Client_Chat req c :=
    match c with
    | AMock m => let '(m', r) := Mock_Chat (mock_ctx (mock_callCount m)) (Some req) m in (AMock m', r)
    | AOpenAI o => let '(o', r) := OpenAI_Chat (Some req) o in (AOpenAI o', r)
    end;
  Client_ChatStream c := Some (fun req =>
    match c with
    | AMock m => let '(m', r) := Mock_ChatStream (mock_ctx (mock_callCount m)) (Some req) m in (AMock m', r)
    | AOpenAI o => let '(o', r) := OpenAI_ChatStream iterate (Some req) o in (AOpenAI o', r)
    end) |}.
End factory.
Arguments AnyClient T : clear implicits.
Arguments AMock {T}.
Arguments AOpenAI {T}.

(** ** What the factory builds *)

Section factory_properties.
Context `{HU : Unicode} `{HJ : JSONText} `{HT : TextLib} `{HS : SecretsManager} {T : Type} `{HR : Remote T} (getenv : string -> string).

(** A new client of its provider. *)
Definition fresh_client (name : string) (client : AnyClient T) : Prop :=
  match client with
  | AMock m => name = llmProviderMock /\ mock_callCount m = 0 /\ 0 < mock_maxSteps m
  | AOpenAI c => name = llmProviderOpenAI /\ is_blank (oc_apiKey c) = false /\ is_blank (oc_defaultModel c) = false /\ oc_sent c = [] /\
      normalizeAndValidateBaseURL (getenv "OPENAI_BASE_URL") = Ok (oc_baseURL c) /\
      0 < http_Timeout (oc_httpClient c) /\ http_Timeout (oc_streamClient c) = 0
  end.

Lemma NewOpenAI_fresh (cfg : OpenAICompatibleClientConfig T) c : Config_HTTPClient cfg = None -> NewOpenAICompatibleClient cfg = Ok c ->
  is_blank (oc_apiKey c) = false /\ is_blank (oc_defaultModel c) = false /\ oc_sent c = [] /\
  normalizeAndValidateBaseURL (Config_BaseURL cfg) = Ok (oc_baseURL c) /\ 0 < http_Timeout (oc_httpClient c) /\ http_Timeout (oc_streamClient c) = 0.
Proof.
  intros Hc. unfold NewOpenAICompatibleClient. rewrite Hc. case_if as Hk; [done|]. destruct (normalizeAndValidateBaseURL _) as [url|e]; [|done].
  intros [= <-]. cbn. split_and!; try done.
  - case_if as Hm; [done|]. apply trim_blank. apply bool_decide_eq_false in Hm. done.
  - case_if as Ht; [unfold Second; lia|]. apply Z.leb_gt in Ht. done.
Qed.

Lemma newLLMClientForProvider_fresh name (client : AnyClient T) : newLLMClientForProvider getenv name = Ok client -> fresh_client name client.
Proof.
  unfold newLLMClientForProvider. destruct (String.eqb_spec name llmProviderMock) as [->|Hn].
  - destruct (env_int getenv _) as [n|e]; [|done]. intros [= <-]. cbn. split_and!; [done|done|]. case_if as Hs; [lia|]. apply Z.leb_gt in Hs. done.
  - destruct (String.eqb_spec name llmProviderOpenAI) as [->|]; [|done]. destruct (env_int getenv _) as [n|e]; [|done].
    destruct (resolveOpenAIAPIKey getenv) as [key|e]; [|done]. destruct (NewOpenAICompatibleClient _) as [c|e] eqn:E; [|done]. intros [= <-].
    apply NewOpenAI_fresh in E; [|done]. cbn in *. tauto.
Qed.

Lemma fresh_normalized name (client : AnyClient T) : fresh_client name client -> normalizeProvider name = name.
Proof. destruct client; intros [-> _]; vm_compute; reflexivity. Qed.

Definition all_fresh (clients : gmap string (AnyClient T)) : Prop := map_Forall fresh_client clients.

Lemma fallback_clients_spec provider parts : forall clients fallbacks clients' fallbacks',
  fallback_clients getenv provider parts clients fallbacks = Ok (clients', fallbacks') -> all_fresh clients ->
  (forall p, p ∈ fallbacks -> p ∈ dom clients) -> all_fresh clients' /\ dom clients ⊆ dom clients' /\ (forall p, p ∈ fallbacks' -> p ∈ dom clients').
Proof.
  induction parts as [|part parts IH]; intros clients fallbacks clients' fallbacks'; cbn [fallback_clients]; [by intros [= -> ->]|].
  case_if; [by apply IH|]. case_if; [by apply IH|].
  destruct (newLLMClientForProvider _ _) as [client|e] eqn:E; [|done]. intros Hf Hall Hin.
  apply IH in Hf; [destruct Hf as (H1 & H2 & H3); split_and!; [done|set_solver|done]| |].
  - apply map_Forall_insert_2; [by apply newLLMClientForProvider_fresh|done].
  - intros p. rewrite elem_of_app, dom_insert_L. set_solver.
Qed.

Lemma NewModelRouter_fallbacks cfg : RouterConfig_FallbackProviders (NewModelRouter cfg) = RouterConfig_FallbackProviders cfg.
Proof. unfold NewModelRouter. by case_if. Qed.

(** Every candidate of every route plan of the client built from the environment has a client, and each client is new and
    of the provider it is registered under: the scripted one, or one with an API key, a validated base URL and a bounded
    time for a request. *)
Theorem env_client_complete (rc : RoutedLLMClient (AnyClient T)) (Hrc : NewLLMClientFromEnv getenv = Ok rc) :
  all_fresh (rc_clients rc) /\ rc_attempts rc = [] /\
  forall req c, c ∈ Resolve getenv (rc_router rc) req (rc_primaryProvider rc) -> available rc c = true.
Proof.
  revert Hrc. unfold NewLLMClientFromEnv. set (provider := if _ : bool then llmProviderMock else _).
  destruct (newLLMClientForProvider getenv provider) as [primary|e] eqn:Ep; [|done]. apply newLLMClientForProvider_fresh in Ep as Hp.
  match goal with |- context [fallback_clients getenv provider ?ps _ _] => set (parts := ps) end.
  destruct (fallback_clients getenv provider parts _ _) as [[clients fallbacks]|e] eqn:Ef; [|done]. intros [= <-].
  destruct (fallback_clients_spec _ _ _ _ _ _ Ef) as (Hall & Hdom & Hin).
  { apply map_Forall_singleton. exact Hp. }
  { intros p Hin%elem_of_nil. destruct Hin. }
  clear Ef Ep.
  split; [exact Hall|]. split; [reflexivity|]. intros req c Hc. apply bool_decide_eq_true.
  assert (Hkey : forall p, p ∈ dom clients -> normalizeProvider p = p).
  { intros p (client & Hl)%elem_of_dom. exact (fresh_normalized p client (Hall p client Hl)). }
  assert (Hprov : provider ∈ dom clients) by (apply Hdom; rewrite dom_singleton_L; by apply elem_of_singleton).
  assert (Hn : normalizeProvider (normalizeProvider provider) ∈ dom clients) by (by rewrite !(Hkey provider Hprov)).
  unfold NewRoutedLLMClient in Hc. cbn [rc_router rc_primaryProvider default] in Hc. unfold Resolve in Hc.
  apply dedupe_go_sub in Hc. cbn [id] in Hc. rewrite NewModelRouter_fallbacks in Hc.
  cbn [RouterConfig_FallbackProviders] in Hc. rewrite !elem_of_app in Hc. destruct Hc as [Hc|[Hc|Hc]].
  - apply list_elem_of_singleton in Hc. subst c. exact Hn.
  - destruct (req_config req) as [mc|]; [|by apply elem_of_nil in Hc]. apply list_elem_of_In, in_flat_map in Hc as (m & _ & Hc).
    destruct (is_blank m); [done|]. destruct Hc as [<-|[]]. exact Hn.
  - apply list_elem_of_In, in_flat_map in Hc as (p & Hpin & Hc). apply list_elem_of_In, Hin in Hpin.
    cbn zeta in Hc. split_match_in Hc; [done|]. destruct Hc as [<-|[]]. cbn [RouteCandidate_Provider]. by rewrite (Hkey p Hpin).
Qed.
End factory_properties.

(** ** The script of the mock *)

(** A byte that JSON writes as it is. *)
Definition plain (c : ascii) : bool := (32 <=? byte_val c) && (byte_val c <? 127) && negb (existsb (Ascii.eqb c) [dquote; backslash; "<"; ">"; "&"]%char).

Lemma plain_rune c : plain c = true -> byte_val c < 128 /\ json_rune (byte_val c, [c]) = [c].
Proof.
  intros Hc. split; [unfold plain in Hc; lia|]. revert c Hc. 
  assert (Hall : forall b0 b1 b2 b3 b4 b5 b6 b7, let c := Ascii b0 b1 b2 b3 b4 b5 b6 b7 in
    (if plain c then bool_decide (json_rune (byte_val c, [c]) = [c]) else true) = true).
  { intros [] [] [] [] [] [] [] []; vm_compute; reflexivity. }
  intros [b0 b1 b2 b3 b4 b5 b6 b7] Hc. specialize (Hall b0 b1 b2 b3 b4 b5 b6 b7). cbn zeta in Hall. rewrite Hc in Hall. by apply bool_decide_eq_true in Hall.
Qed.

Lemma quote_plain s : forallb plain (bytes_of s) = true -> bytes_of (json_quote s) = dquote :: bytes_of s ++ [dquote].
Proof.
  intros Hs. unfold json_quote. rewrite bytes_of_string_of. cbn [app]. f_equal. f_equal. revert Hs. generalize (bytes_of s) as l.
  induction l as [|c l IH]; cbn [forallb]; [done|]. intros [Hc Hl]%andb_true_iff. apply plain_rune in Hc as [Hc Hr].
  rewrite decode_low by done. cbn [flat_map]. by rewrite Hr, IH.
Qed.

Lemma fmt_d_plain z : forallb plain (bytes_of (fmt_d z)) = true.
Proof.
  destruct (fmt_d_chars z) as (l & -> & Hl). rewrite bytes_of_string_of. apply forallb_forall. intros c Hc. rewrite <- list_elem_of_In in Hc.
  apply (Forall_elem _ _ _ Hl) in Hc. unfold num_char, is_digit in Hc. apply orb_true_iff in Hc as [Hc|Hc%Ascii.eqb_eq]; [|by subst].
  unfold plain. apply andb_true_iff. split; [lia|]. apply negb_true_iff, not_true_iff_false. rewrite existsb_exists. intros (x & Hx & ->%Ascii.eqb_eq).
  revert Hc. repeat (destruct Hx as [<-|Hx]; [vm_compute; discriminate|]). destruct Hx.
Qed.

Lemma plain_utf8 s : forallb plain (bytes_of s) = true -> valid_utf8 s = true.
Proof.
  intros Hs. unfold valid_utf8. revert Hs. generalize (bytes_of s) as l. induction l as [|c l IH]; cbn [forallb]; [done|].
  intros [Hc Hl]%andb_true_iff. apply plain_rune in Hc as [Hc _]. rewrite decode_low by done. cbn [forallb fst snd]. rewrite IH by done.
  rewrite (proj2 (Z.eqb_neq _ _)); [done|]. unfold rune_error. lia.
Qed.

(** The file and its content for the number [d]. *)
Definition mock_file (d : string) : string := "step_" +:+ d +:+ ".txt".
Definition mock_text (d : string) : string := "output from step " +:+ d.
Definition mock_value (d : string) : JSON := JObj [("path", JStr (mock_file d)); ("content", JStr (mock_text d))].

Definition quoted (c : ascii) : ascii := if Ascii.eqb c "`" then dquote else c.
Lemma sample_bytes s : bytes_of (json_sample s) = map quoted (bytes_of s).
Proof. apply bytes_of_string_of. Qed.

Lemma mock_file_plain d : forallb plain (bytes_of d) = true -> forallb plain (bytes_of (mock_file d)) = true.
Proof. intros Hd. unfold mock_file. by rewrite !bytes_of_app, !forallb_app, Hd. Qed.
Lemma mock_text_plain d : forallb plain (bytes_of d) = true -> forallb plain (bytes_of (mock_text d)) = true.
Proof. intros Hd. unfold mock_text. by rewrite !bytes_of_app, !forallb_app, Hd. Qed.

Lemma mock_args_bytes d : forallb plain (bytes_of d) = true ->
  bytes_of (json_sample "{`path`:`step_" +:+ d +:+ json_sample ".txt`,`content`:`output from step " +:+ d +:+ json_sample "`}") = json_bytes (mock_value d).
Proof.
  intros Hd. unfold mock_value. cbn [json_bytes members_bytes]. rewrite (quote_plain (mock_file d)), (quote_plain (mock_text d)) by auto using mock_file_plain, mock_text_plain.
  unfold mock_file, mock_text. rewrite !bytes_of_app, !sample_bytes. generalize (bytes_of d). intros l.
  repeat (rewrite <- app_assoc || rewrite <- app_comm_cons). vm_compute. reflexivity.
Qed.

(** The scripted arguments are the JSON object that they look like. *)
Lemma mock_args_render count : mock_args count = json_render (mock_value (fmt_d count)).
Proof. apply bytes_of_inj. unfold json_render. rewrite bytes_of_string_of. apply mock_args_bytes, fmt_d_plain. Qed.

Lemma mock_args_parse count : json_parse (mock_args count) = Ok (mock_value (fmt_d count)).
Proof.
  rewrite mock_args_render. apply json_parse_render.
  - unfold mock_value. cbn [json_ok forallb fst snd]. by rewrite !plain_utf8 by auto using mock_file_plain, mock_text_plain, fmt_d_plain.
  - unfold mock_value, maxNestingDepth. cbn [json_depth map foldr snd]. lia.
Qed.

Definition live : nat -> option error := fun _ => None.

(** The scripted client asks for a file to be written in each of its first calls, as many as it was told, and then
    gives its answer; the arguments are JSON. *)
Theorem mock_script (req : option LLMRequest) (steps : Z) (k : nat) (Hk : Z.of_nat k < max_int64) :
  let m := Nat.iter k (fun m => (Mock_Chat live req m).1) (NewMockLLMClient steps) in
  let n := Z.of_nat k + 1 in
  exists resp, (Mock_Chat live req m).2 = Ok resp /\ LLMResponse_Provider resp = llmProviderMock /\
    (n <= mock_maxSteps (NewMockLLMClient steps) -> LLMResponse_FinishReason resp = "tool_calls" /\
       exists args, LLMResponse_ToolCalls resp = [mkToolCall "" "fs.write" args] /\
         json_parse args = Ok (mock_value (fmt_d n))) /\
    (mock_maxSteps (NewMockLLMClient steps) < n -> LLMResponse_FinishReason resp = "stop" /\ LLMResponse_ToolCalls resp = []).
Proof.
  cbn zeta.
  assert (Hm : forall j, Z.of_nat j <= max_int64 -> Nat.iter j (fun m => (Mock_Chat live req m).1) (NewMockLLMClient steps)
    = mkMockLLMClient (Z.of_nat j) (mock_maxSteps (NewMockLLMClient steps))).
  { induction j as [|j IH]; intros Hj; [done|]. rewrite Nat.iter_succ, IH by lia. unfold Mock_Chat. cbn [live fst].
    cbn [upd mock_callCount mock_maxSteps]. rewrite add64_id by (unfold_int64; lia). 
    replace (Z.of_nat (S j)) with (Z.of_nat j + 1) by lia. reflexivity. }
  rewrite Hm by lia. unfold Mock_Chat. cbn [live snd mock_callCount mock_maxSteps]. rewrite add64_id by (unfold_int64; lia).
  eexists. split; [reflexivity|]. split; [by case_if|]. split; intros Hn.
  - rewrite (proj2 (Z.leb_le _ _)) by done. split; [done|]. eexists. split; [reflexivity|]. apply mock_args_parse.
  - by rewrite (proj2 (Z.leb_gt _ _)) by done.
Qed.

(** ** Examples *)

Module factory_demo.
Import openai_demo.
#[local] Existing Instance engine_demo.text_lib.
#[local] Instance secrets : SecretsManager := {|
  LoadDefaultConfig := None;
  GetSecretValue id := if String.eqb id "arn" then Ok (Some (json_sample " {`note`:1,`api_key`:` sk-1 `} ")) else Err (errors_New "not found") |}.

Definition env (vars : list (string * string)) (name : string) : string := default "" (snd <$> List.find (fun kv => String.eqb kv.1 name) vars).
Definition both_env := env [("AGENTFORGE_LLM_PROVIDER", " OpenAI"); ("AGENTFORGE_LLM_FALLBACK_PROVIDERS", "mock, openai,,MOCK"); ("OPENAI_API_KEY_SECRET_ARN", "arn")].

Definition summary (r : result error (RoutedLLMClient (AnyClient script))) : result error (string * list string * list string) :=
  match r with
  | Ok rc => Ok (rc_primaryProvider rc, RouterConfig_FallbackProviders (rc_router rc),
                 map (fun kv => match kv.2 with AMock _ => "mock" | AOpenAI c => oc_apiKey c end) (map_to_list (rc_clients rc)))
  | Err e => Err e
  end.

Example from_environment :
  summary (NewLLMClientFromEnv both_env) = Ok ("openai", ["mock"], ["sk-1"; "mock"]) /\
  summary (NewLLMClientFromEnv (env [])) = Ok ("mock", [], ["mock"]) /\
  summary (NewLLMClientFromEnv (env [("AGENTFORGE_LLM_PROVIDER", "openai")])) = Err (errors_New "engine: openai client: api key is required").
Proof. split_and!; vm_compute; reflexivity. Qed.

(** A plan with two providers, each with its client. *)
Lemma env_client_complete_witness : exists rc : RoutedLLMClient (AnyClient script), NewLLMClientFromEnv both_env = Ok rc /\
  length (Resolve both_env (rc_router rc) (Some request) (rc_primaryProvider rc)) = 2%nat /\
  forall c, c ∈ Resolve both_env (rc_router rc) (Some request) (rc_primaryProvider rc) -> available rc c = true.
Proof.
  destruct (NewLLMClientFromEnv (T := script) both_env) as [rc|e] eqn:E; [|exfalso; vm_compute in E; discriminate E].
  exists rc. split; [done|]. split; [vm_compute in E; injection E as <-; vm_compute; reflexivity|].
  intros c. apply (env_client_complete both_env rc E).
Defined.

Example mock_streams :
  let '(m, (ts, r)) := Mock_ChatStream live None (NewMockLLMClient 1) in
  ts = ["I'll"; " use"; " a"; " tool"; " (step"; " 1)"] /\ (Mock_Chat live None m).2 =
    Ok (mkLLMResponse "Task complete after 1 steps." [] (Some (mkTokenUsage 80 30 110)) "stop" "mock-default" "mock").
Proof. vm_compute. auto. Qed.
End factory_demo.
