(* ===== verification/Scheduler.v ===== *)
(** * Scheduler: the recovery loop (src/internal/ops/scheduler.go)

    [Scheduler.Start] runs [RunOnce] once and then at every tick of its ticker until the context
    is done.  The loop is a step relation, in which other goroutines and processes work on the
    store and the queue between two passes.  The first part lifts the outcome of one run to a whole
    pass of [RecoverStaleRuns] over the in-memory store. *)

From Stdlib Require Import Ascii.
From S2P Require Import Prelude GoLib Model StateStore MemoryStore MemoryQueue World TaskService Ops.

(** ** A pass over all listed runs *)

Section pass.
Context {Q : Type} `{HQ : MessageQueue Q} `{HU : Unicode} (env : Env).
Abbreviation W := (World MemoryStore Q).

(** The task of a run that recovery puts back: the run is the active one and stale. *)
Definition recovery_target (now : Time) (staleFor : Duration) (s : MemoryStore) (run : Run) : option Task :=
  match MS_tasks s !! Run_TaskID run with
  | Some t => if bool_decide (Task_ActiveRunID t = Run_RunID run) && isRunStale run t now staleFor then Some t else None
  | None => None
  end.

Definition run_key (run : Run) : string := runKey (Run_TaskID run) (Run_RunID run).
Definition requeued (queuedAt : Time) (run : Run) : Run :=
  run <| Run_Status := RunStatusQueued |> <| Run_QueuedAt := Some queuedAt |> <| Run_StartedAt := None |> <| Run_EndedAt := None |>.
Definition task_requeued (updatedAt : Time) (t : Task) : Task := t <| Task_Status := TaskStatusQueued |> <| Task_UpdatedAt := updatedAt |>.

(** The messages of a pass, in the order of the listing. *)
Definition recovery_messages (now : Time) (staleFor : Duration) (s : MemoryStore) (l : list Run) : list SQSMessage :=
  omap (fun run => (fun t => recovery_message now t run) <$> recovery_target now staleFor s run) l.

(** [ms] was handed to the queue in this order. *)
Inductive handed : list SQSMessage -> Q -> Q -> Prop :=
| handed_nil q : handed [] q q
| handed_cons n m ms q q' : handed ms (Queue_Enqueue n m q).1 q' -> handed (m :: ms) q q'.

(** What a pass over [l] does to the store: the targets among [l] are put back to QUEUED with their
    tasks, and nothing else changes. *)
Record passed (now : Time) (staleFor : Duration) (l : list Run) (s s' : MemoryStore) : Prop := {
  ps_rest : s' = s <| MS_tasks := MS_tasks s' |> <| MS_runs := MS_runs s' |>;
  ps_run : forall run, run ∈ l -> is_Some (recovery_target now staleFor s run) -> exists q, MS_runs s' !! run_key run = Some (requeued q run);
  ps_runs : forall k, (forall run, run ∈ l -> is_Some (recovery_target now staleFor s run) -> k <> run_key run) -> MS_runs s' !! k = MS_runs s !! k;
  ps_task : forall run t, run ∈ l -> recovery_target now staleFor s run = Some t -> exists u, MS_tasks s' !! Run_TaskID run = Some (task_requeued u t);
  ps_tasks : forall id, (forall run, run ∈ l -> is_Some (recovery_target now staleFor s run) -> id <> Run_TaskID run) -> MS_tasks s' !! id = MS_tasks s !! id }.

(** The runs a report accounts for. *)
Definition accounted (out : RecoveryReport) : Z :=
  RecoveryReport_Recovered out + RecoveryReport_Skipped out + Z.of_nat (length (RecoveryReport_Errors out)).

(** One run of the listing that is stored as it was listed. *)
Lemma recover_stored now staleFor run out (w : W) :
  MS_runs (w_store w) !! run_key run = Some run ->
  exists w' out', recover_run env now staleFor run out w = (w', out') /\
    RecoveryReport_Scanned out' = RecoveryReport_Scanned out /\ accounted out' = accounted out + 1 /\
    match recovery_target now staleFor (w_store w) run with
    | None => w_store w' = w_store w /\ w_queue w' = w_queue w
    | Some t => exists q u n,
        w_store w' = (w_store w) <| MS_runs ::= insert (run_key run) (requeued q run) |> <| MS_tasks ::= insert (Run_TaskID run) (task_requeued u t) |> /\
        w_queue w' = (Queue_Enqueue n (recovery_message now t run) (w_queue w)).1
    end.
Proof.
  intros Hr. unfold recover_run, recovery_target, accounted. rewrite ST_bind_run. cbn [read_store fst snd].
  unfold GetTask. cbn. unfold MemoryStore_GetTask. destruct (MS_tasks (w_store w) !! Run_TaskID run) as [t|] eqn:Et; cycle 1.
  { eexists _, _. split; [reflexivity|]. cbn. rewrite length_app. cbn. split_and!; [done|lia|done|done]. }
  destruct (decide (Task_ActiveRunID t = Run_RunID run)) as [Ha|Ha]; cycle 1.
  { rewrite bool_decide_true, bool_decide_false by done. cbn [andb]. eexists _, _. split; [reflexivity|]. cbn. split_and!; [done|lia|done|done]. }
  rewrite bool_decide_false, bool_decide_true by tauto. cbn [andb].
  destruct (isRunStale run t now staleFor); cycle 1.
  { cbn [negb]. eexists _, _. split; [reflexivity|]. cbn. split_and!; [done|lia|done|done]. }
  cbn [negb]. run_st. unfold MemoryStore_ResetRunToQueued, with_run. change (runKey (Run_TaskID run) (Run_RunID run)) with (run_key run).
  rewrite Hr. cbn. unfold MemoryStore_UpdateTaskStatusForRun. cbn. rewrite Et. rewrite bool_decide_false by tauto.
  rewrite bool_decide_true by (destruct (Task_Status t); set_solver). cbn.
  match goal with |- context [Queue_Enqueue ?n ?m ?q] => destruct (Queue_Enqueue n m q) as [q' [[]|e]] eqn:Eq end.
  - eexists _, _. split; [reflexivity|]. cbn. split_and!; [done|lia|]. eexists _, _, _. split; [reflexivity|]. by rewrite Eq.
  - eexists _, _. split; [reflexivity|]. cbn. rewrite length_app. cbn. split_and!; [done|lia|]. eexists _, _, _. split; [reflexivity|]. by rewrite Eq.
Qed.

(** Putting back a run changes no other run's chances. *)
Lemma target_frame now staleFor run run' q u t s :
  recovery_target now staleFor s run = Some t -> run_key run' <> run_key run ->
  recovery_target now staleFor (s <| MS_runs ::= insert (run_key run) (requeued q run) |> <| MS_tasks ::= insert (Run_TaskID run) (task_requeued u t) |>) run' =
  recovery_target now staleFor s run'.
Proof.
  unfold recovery_target. cbn. destruct (MS_tasks s !! Run_TaskID run) as [x|] eqn:Ex; [|done]. destruct (_ && _) eqn:Ea; [|done]. intros [= ->] Hk.
  apply andb_true_iff in Ea as [Ea _]. apply bool_decide_eq_true in Ea. destruct (decide (Run_TaskID run' = Run_TaskID run)) as [E|Hne].
  - rewrite E, lookup_insert_eq, Ex. cbn. rewrite bool_decide_false; [done|]. rewrite Ea. intros Er. apply Hk. unfold run_key. by rewrite E, Er.
  - by rewrite lookup_insert_ne.
Qed.

(** ... nor the messages about others. *)
Lemma messages_frame now staleFor run l q u t s :
  recovery_target now staleFor s run = Some t -> run_key run ∉ map run_key l ->
  recovery_messages now staleFor (s <| MS_runs ::= insert (run_key run) (requeued q run) |> <| MS_tasks ::= insert (Run_TaskID run) (task_requeued u t) |>) l =
  recovery_messages now staleFor s l.
Proof.
  intros Ht. unfold recovery_messages. induction l as [|r l IH]; intros Hf; [done|]. cbn [map] in Hf. apply not_elem_of_cons in Hf as [H1 H2].
  cbn [omap list_omap]. rewrite (target_frame _ _ _ _ _ _ _ _ Ht) by congruence. by rewrite IH.
Qed.

Lemma passed_skip now staleFor run l s s' :
  recovery_target now staleFor s run = None -> passed now staleFor l s s' -> passed now staleFor (run :: l) s s'.
Proof.
  intros Hn [H1 H2 H3 H4 H5]. split; [done| | | |].
  - intros r [->|Hr]%elem_of_cons Ht; [by destruct Ht; simplify_eq|by apply H2].
  - intros k Hk. apply H3. intros r Hr. apply Hk. by right.
  - intros r t [->|Hr]%elem_of_cons Ht; [by simplify_eq|by apply H4].
  - intros id Hid. apply H5. intros r Hr. apply Hid. by right.
Qed.

Lemma passed_requeue now staleFor run l s s' q u t :
  recovery_target now staleFor s run = Some t -> run_key run ∉ map run_key l ->
  passed now staleFor l (s <| MS_runs ::= insert (run_key run) (requeued q run) |> <| MS_tasks ::= insert (Run_TaskID run) (task_requeued u t) |>) s' ->
  passed now staleFor (run :: l) s s'.
Proof.
  intros Ht Hfresh. set (s1 := s <| MS_runs ::= _ |> <| MS_tasks ::= _ |>). intros [H1 H2 H3 H4 H5].
  assert (Hne : forall r, r ∈ l -> run_key r <> run_key run).
  { intros r Hr E. apply Hfresh. rewrite <- E. apply list_elem_of_In, in_map. by apply list_elem_of_In. }
  assert (Hsame : forall r, r ∈ l -> recovery_target now staleFor s1 r = recovery_target now staleFor s r) by (intros r Hr; apply target_frame; auto).
  assert (Htask : forall r, r ∈ l -> is_Some (recovery_target now staleFor s r) -> Run_TaskID r <> Run_TaskID run).
  { intros r Hr [t' Ht'] E. apply (Hne r Hr). unfold recovery_target in Ht, Ht'. rewrite E in Ht'. destruct (MS_tasks s !! Run_TaskID run) as [x|]; [|done].
    destruct (bool_decide (Task_ActiveRunID x = Run_RunID r)) eqn:E1; [|done]. destruct (bool_decide (Task_ActiveRunID x = Run_RunID run)) eqn:E2; [|done].
    apply bool_decide_eq_true in E1, E2. unfold run_key. congruence. }
  split.
  - rewrite H1. by destruct s.
  - intros r [->|Hr]%elem_of_cons Hs; [|apply H2; by rewrite ?Hsame]. exists q. rewrite H3; [by apply lookup_insert_eq|]. intros r' Hr' _ E. by apply (Hne r').
  - intros k Hk. rewrite H3; [|intros r Hr; rewrite Hsame by done; intros Hs; apply Hk; [by right|done]]. apply lookup_insert_ne. intros <-. eapply Hk; [by left|by eexists|done].
  - intros r t' [->|Hr]%elem_of_cons Ht'; [|apply H4; by rewrite ?Hsame]. simplify_eq. exists u. rewrite H5; [by apply lookup_insert_eq|].
    intros r' Hr'. rewrite Hsame by done. intros Hs E. by apply (Htask r').
  - intros id Hid. rewrite H5; [|intros r Hr; rewrite Hsame by done; intros Hs; apply Hid; [by right|done]]. apply lookup_insert_ne. intros <-. eapply Hid; [by left|by eexists|done].
Qed.

Context (ctxErr : nat -> option error) (Hctx : forall n, ctxErr n = None).

Lemma recover_all now staleFor l : forall out (w : W),
  NoDup (map run_key l) -> Forall (fun run => MS_runs (w_store w) !! run_key run = Some run) l ->
  exists w' out', recover_runs env ctxErr now staleFor l out w = (w', (out', None)) /\
    RecoveryReport_Scanned out' = RecoveryReport_Scanned out + Z.of_nat (length l) /\ accounted out' = accounted out + Z.of_nat (length l) /\
    passed now staleFor l (w_store w) (w_store w') /\ handed (recovery_messages now staleFor (w_store w) l) (w_queue w) (w_queue w').
Proof.
  induction l as [|run l IH]; intros out w Hnd Hst.
  { eexists _, _. split; [reflexivity|]. split_and!; [cbn; lia|cbn; lia| |constructor]. split; try done; [by destruct (w_store w)|intros r []%not_elem_of_nil|intros r t []%not_elem_of_nil]. }
  cbn [map] in Hnd. apply list.NoDup_cons in Hnd as [Hfresh Hnd]. apply list.Forall_cons in Hst as [Hr Hst].
  cbn [recover_runs]. rewrite ST_bind_run. unfold tick. cbn [fst snd]. rewrite Hctx, ST_bind_run.
  set (w1 := w <| w_tick ::= Datatypes.S |>). set (out1 := out <| RecoveryReport_Scanned ::= Z.succ |>).
  destruct (recover_stored now staleFor run out1 w1 Hr) as (w2 & out2 & E & Hsc & Hac & Hst2). rewrite E. cbn [fst snd]. clear E.
  change (w_store w1) with (w_store w) in Hst2. change (w_queue w1) with (w_queue w) in Hst2.
  assert (Hnum : Z.of_nat (length (run :: l)) = Z.of_nat (length l) + 1) by (cbn [length]; lia). rewrite Hnum.
  change (accounted out1) with (accounted out) in Hac. change (RecoveryReport_Scanned out1) with (Z.succ (RecoveryReport_Scanned out)) in Hsc.
  unfold recovery_messages. cbn [omap list_omap]. destruct (recovery_target now staleFor (w_store w) run) as [t|] eqn:Et.
  - destruct Hst2 as (q & u & n & Es & Eq). destruct (IH out2 w2 Hnd) as (w' & out' & E & H1 & H2 & H3 & H4).
    { rewrite Es. rewrite list.Forall_forall in Hst |- *. intros r Hr'. cbn.
      rewrite lookup_insert_ne; [by apply Hst|]. intros Ek. apply Hfresh. rewrite Ek. apply list_elem_of_In, in_map. by apply list_elem_of_In. }
    exists w', out'. split; [exact E|]. split_and!; [lia|lia| |].
    + rewrite Es in H3. by eapply passed_requeue.
    + cbn [fmap option_fmap option_map]. apply (handed_cons n). rewrite <- Eq. rewrite Es in H4. rewrite (messages_frame _ _ _ _ q u t) in H4 by done. exact H4.
  - destruct Hst2 as [Es Eq]. destruct (IH out2 w2 Hnd) as (w' & out' & E & H1 & H2 & H3 & H4); [by rewrite Es|].
    exists w', out'. split; [exact E|]. rewrite Es in H3, H4. rewrite Eq in H4. split_and!; [lia|lia|by apply passed_skip|exact H4].
Qed.

(** Recovery cannot tell a slow worker from a dead one: a run is stale by the time since its start alone. Once a run has been
    RUNNING for [staleFor], a pass puts it back although its worker may still execute it, and the next claim of it succeeds: it
    is executed a second time. *)
Theorem slow_run_claimed_again now staleFor run t started out (w : W) at_
    (Hrun : MS_runs (w_store w) !! run_key run = Some run) (Htask : MS_tasks (w_store w) !! Run_TaskID run = Some t)
    (Hact : Task_ActiveRunID t = Run_RunID run) (Hst : Run_Status run = RunStatusRunning) (Hstart : Run_StartedAt run = Some started)
    (Hlong : staleFor <= time_Sub now started) :
  (ClaimRun at_ (Run_TaskID run) (Run_RunID run) (w_store w)).2 = Err ErrConflict /\
  (ClaimRun at_ (Run_TaskID run) (Run_RunID run) (w_store (recover_run env now staleFor run out w).1)).2 = Ok tt.
Proof.
  cbn [ClaimRun MemoryStore_StateStore]. unfold MemoryStore_ClaimRun. fold (run_key run). split; [rewrite Hrun, bool_decide_true; [done|by rewrite Hst]|].
  destruct (recover_stored now staleFor run out w Hrun) as (w' & out' & -> & _ & _ & H). unfold recovery_target in H.
  rewrite Htask, bool_decide_true in H by done. unfold isRunStale in H. rewrite Hst, Hstart, (proj2 (Z.leb_le _ _) Hlong) in H. cbn [andb] in H.
  destruct H as (q & u & n & Es & _). cbn [fst]. rewrite Es. cbn. rewrite lookup_insert_eq. cbn. unfold with_run. cbn. fold (run_key run). by rewrite lookup_insert_eq.
Qed.

(** The runs a pass looks at: waiting or running, of the tenant if one is given. *)
Definition open_runs (tenantID : string) (s : MemoryStore) : list Run :=
  List.filter (run_matches tenantID [RunStatusRunning; RunStatusQueued]) (map_to_list (MS_runs s)).*2.

Lemma open_runs_stored tenantID s run : ms_wf s ->
  run ∈ open_runs tenantID s <-> MS_runs s !! run_key run = Some run /\ run_matches tenantID [RunStatusRunning; RunStatusQueued] run = true.
Proof.
  intros Hwf. unfold open_runs. rewrite list_elem_of_In, filter_In, <- list_elem_of_In. split.
  - intros [Hin Hm]. apply list_elem_of_fmap in Hin as ([k r] & -> & Hin). apply elem_of_map_to_list in Hin. cbn in *. split; [|done].
    unfold run_key. by rewrite <- (wf_runs _ Hwf _ _ Hin).
  - intros [Hin Hm]. split; [|done]. apply list_elem_of_fmap. exists (run_key run, run). split; [done|]. by apply elem_of_map_to_list.
Qed.

Lemma open_runs_keys tenantID s : ms_wf s -> NoDup (map run_key (open_runs tenantID s)).
Proof.
  intros Hwf. unfold open_runs.
  assert (Hall : NoDup (map run_key (map_to_list (MS_runs s)).*2)).
  { assert (E : map run_key (map_to_list (MS_runs s)).*2 = (map_to_list (MS_runs s)).*1); [|rewrite E; apply NoDup_fst_map_to_list].
    assert (Hk : forall p, p ∈ map_to_list (MS_runs s) -> run_key p.2 = p.1) by (intros [k r] Hp; apply elem_of_map_to_list in Hp; cbn; by rewrite (wf_runs _ Hwf _ _ Hp)).
    induction (map_to_list (MS_runs s)) as [|p l IH]; [done|]. cbn. rewrite Hk by (by left). f_equal. apply IH. intros p' Hp'. apply Hk. by right. }
  induction (map_to_list (MS_runs s)).*2 as [|r l IH]; [constructor|]. cbn [map List.filter] in *. apply list.NoDup_cons in Hall as [H1 H2].
  destruct (run_matches _ _ r); [|by apply IH]. cbn [map]. apply list.NoDup_cons. split; [|by apply IH]. intros Hin. apply H1.
  apply list_elem_of_In, in_map_iff in Hin as (r' & E & Hr'). apply filter_In in Hr' as [Hr' _]. rewrite <- E. by apply list_elem_of_In, in_map.
Qed.

Lemma limit_slice_sub {A} limit (l : list A) : limit_slice limit l `sublist_of` l.
Proof. unfold limit_slice. destruct (_ && _); [apply sublist_take|done]. Qed.

(** C16: One pass of the recovery over the in-memory store: the listed runs are at most [limit] waiting or running runs of the
    tenant, all of them if there are not more. Exactly those that are stale and the active run of their task are put back
    to QUEUED together with their task, and one message for each goes to the queue, in the order of the listing; every other
    run and task, and the rest of the store, are unchanged. The report accounts for every listed run. *)
Theorem recovery_pass tenantID staleFor limit (w : W) (Hwf : ms_wf (w_store w)) (Hpos : 0 < staleFor) (Hlim : 0 < limit) :
  let s := w_store w in
  let now := env_now env (w_tick w) in
  exists w' out l, RecoverStaleRuns env ctxErr tenantID staleFor limit w = (w', (Some out, None)) /\
    NoDup l /\ (forall run, run ∈ l -> run ∈ open_runs tenantID s) /\ Z.of_nat (length l) = Z.min limit (Z.of_nat (length (open_runs tenantID s))) /\
    passed now staleFor l s (w_store w') /\ handed (recovery_messages now staleFor s l) (w_queue w) (w_queue w') /\
    RecoveryReport_Scanned out = Z.of_nat (length l) /\
    RecoveryReport_Recovered out + RecoveryReport_Skipped out + Z.of_nat (length (RecoveryReport_Errors out)) = Z.of_nat (length l).
Proof.
  cbn zeta. unfold RecoverStaleRuns. rewrite (proj2 (Z.leb_gt _ _) Hpos), (proj2 (Z.leb_gt _ _) Hlim).
  rewrite ST_bind_run. cbn [time_Now tick fst snd]. rewrite ST_bind_run. cbn [read_store fst snd]. unfold ListRuns. cbn [MemoryStore_StateStore]. unfold MemoryStore_ListRuns.
  set (w1 := w <| w_tick ::= Datatypes.S |>). change (MS_runs (w_store w1)) with (MS_runs (w_store w)). fold (open_runs tenantID (w_store w)).
  set (all := open_runs tenantID (w_store w)). set (l := limit_slice limit (sort_slice run_less all)).
  assert (Hsub : l `sublist_of` sort_slice run_less all) by apply limit_slice_sub.
  assert (Hperm : sort_slice run_less all ≡ₚ all) by apply sort_slice_perm.
  assert (Hin : forall run, run ∈ l -> run ∈ all) by (intros run Hr; rewrite <- Hperm; by eapply elem_of_sublist).
  assert (Hnd : NoDup (map run_key l)).
  { eapply sublist_NoDup; [|exact (fmap_sublist run_key _ _ Hsub)]. change (fmap run_key ?x) with (map run_key x). rewrite (Permutation_map run_key Hperm). by apply open_runs_keys. }
  rewrite ST_bind_run. destruct (recover_all (env_now env (w_tick w)) staleFor l (mkRecoveryReport 0 0 0 []) w1 Hnd) as (w' & out & E & H1 & H2 & H3 & H4).
  { apply list.Forall_forall. intros run Hr. by apply Hin, open_runs_stored in Hr as [Hr _]. }
  rewrite E. cbn [fst snd]. exists w', out, l. split; [reflexivity|]. split_and!; [by eapply (NoDup_fmap_1 run_key)|exact Hin| |exact H3|exact H4|exact H1|exact H2].
  rewrite <- (Permutation_length Hperm). unfold l, limit_slice. rewrite (proj2 (Z.ltb_lt 0 limit) Hlim). cbn [andb].
  destruct (Z.ltb_spec limit (Z.of_nat (length (sort_slice run_less all)))); [rewrite length_take; lia|lia].
Qed.
End pass.

Create HintDb upkeep.

(** ** What a pass can change at all *)

(** Statuses and times of tasks and runs, the last step index of runs, and events that are removed. *)
Record upkeep (s s' : MemoryStore) : Prop := {
  up_tasks : forall id, match MS_tasks s !! id with
    | Some t => exists st u, MS_tasks s' !! id = Some (t <| Task_Status := st |> <| Task_UpdatedAt := u |>)
    | None => MS_tasks s' !! id = None
    end;
  up_runs : forall k, match MS_runs s !! k with
    | Some r => exists st q a b i, MS_runs s' !! k = Some (r <| Run_Status := st |> <| Run_QueuedAt := q |> <| Run_StartedAt := a |> <| Run_EndedAt := b |> <| Run_LastStepIndex := i |>)
    | None => MS_runs s' !! k = None
    end;
  up_events : forall k, default [] (MS_events s' !! k) `sublist_of` default [] (MS_events s !! k);
  up_steps : MS_steps s' = MS_steps s;
  up_connections : MS_connections s' = MS_connections s;
  up_idempotency : MS_idempotency s' = MS_idempotency s }.

#[export] Instance upkeep_preorder : PreOrder upkeep.
Proof.
  split.
  - intros s. split; try done.
    + intros id. destruct (MS_tasks s !! id) as [[]|]; [by eexists _, _|done].
    + intros k. destruct (MS_runs s !! k) as [[]|]; [by eexists _, _, _, _, _|done].
  - intros s1 s2 s3 [A1 A2 A3 A4 A5 A6] [B1 B2 B3 B4 B5 B6]. split; try congruence.
    + intros id. specialize (A1 id). specialize (B1 id). destruct (MS_tasks s1 !! id) as [t|]; [|by rewrite A1 in B1].
      destruct A1 as (st & u & E). rewrite E in B1. destruct B1 as (st' & u' & E'). exists st', u'. by rewrite E'.
    + intros k. specialize (A2 k). specialize (B2 k). destruct (MS_runs s1 !! k) as [r|]; [|by rewrite A2 in B2].
      destruct A2 as (st & q & a & b & i & E). rewrite E in B2. destruct B2 as (st' & q' & a' & b' & i' & E'). exists st', q', a', b', i'. by rewrite E'.
    + intros k. etrans; [apply B3|apply A3].
Qed.

Lemma upkeep_task s id t st u : MS_tasks s !! id = Some t -> upkeep s (store_task id (t <| Task_Status := st |> <| Task_UpdatedAt := u |>) s).
Proof.
  intros E. destruct (upkeep_preorder.(PreOrder_Reflexive) s) as [H1 H2 H3 _ _ _]. split; try done. intros id'. cbn. destruct (decide (id = id')) as [<-|Hne].
  - rewrite E, lookup_insert_eq. by eexists _, _.
  - rewrite lookup_insert_ne by done. apply H1.
Qed.

Lemma upkeep_run s taskID runID f :
  (forall r, exists st q a b i, f r = r <| Run_Status := st |> <| Run_QueuedAt := q |> <| Run_StartedAt := a |> <| Run_EndedAt := b |> <| Run_LastStepIndex := i |>) ->
  upkeep s (with_run taskID runID f s).1.
Proof.
  intros Hf. unfold with_run. destruct (MS_runs s !! runKey taskID runID) as [r|] eqn:E; [|done].
  destruct (upkeep_preorder.(PreOrder_Reflexive) s) as [H1 H2 H3 _ _ _]. split; try done. intros k. cbn. destruct (decide (runKey taskID runID = k)) as [<-|Hne].
  - rewrite E, lookup_insert_eq. destruct (Hf r) as (st & q & a & b & i & ->). by eexists _, _, _, _, _.
  - rewrite lookup_insert_ne by done. apply H2.
Qed.

Lemma upkeep_reset now taskID runID s : upkeep s (ResetRunToQueued now taskID runID s).1.
Proof. apply upkeep_run. intros r. exists RunStatusQueued, (Some now), None, None, (Run_LastStepIndex r). by destruct r. Qed.
Lemma upkeep_last taskID runID i s : upkeep s (UpdateLastStepIndex taskID runID i s).1.
Proof. apply upkeep_run. intros r. exists (Run_Status r), (Run_QueuedAt r), (Run_StartedAt r), (Run_EndedAt r), i. by destruct r. Qed.
Lemma upkeep_for_run now taskID runID from to s : upkeep s (UpdateTaskStatusForRun now taskID runID from to s).1.
Proof. cbn. unfold MemoryStore_UpdateTaskStatusForRun. destruct (MS_tasks s !! taskID) eqn:E; [|done]. repeat case_match; cbn; [done|by apply upkeep_task|done]. Qed.
Lemma upkeep_status now taskID from to s : upkeep s (UpdateTaskStatus now taskID from to s).1.
Proof. cbn. unfold MemoryStore_UpdateTaskStatus. destruct (MS_tasks s !! taskID) eqn:E; [|done]. repeat case_match; cbn; [by apply upkeep_task|done]. Qed.
Lemma upkeep_compact taskID runID ts s : upkeep s (CompactEvents taskID runID ts s).1.
Proof.
  cbn. unfold MemoryStore_CompactEvents. destruct (_ <=? 0); [done|]. destruct (Nat.eqb _ 0); [done|].
  destruct (upkeep_preorder.(PreOrder_Reflexive) s) as [H1 H2 H3 _ _ _]. split; try done. intros k. cbn. destruct (decide (eventKey taskID runID = k)) as [<-|Hne].
  - rewrite lookup_insert_eq. cbn. generalize (default [] (MS_events s !! eventKey taskID runID)). intros l. induction l as [|e l IH]; [done|]. cbn. case_match; by constructor.
  - by rewrite lookup_insert_ne.
Qed.
#[export] Hint Resolve upkeep_reset upkeep_last upkeep_for_run upkeep_status upkeep_compact : upkeep.

Section upkeep_jobs.
Context {Q : Type} `{HQ : MessageQueue Q} `{HU : Unicode} (env : Env) (ctxErr : nat -> option error).
Abbreviation M := (ST (World MemoryStore Q)).

(** A computation does only upkeep. *)
Definition tends {A} (m : M A) : Prop := forall w, upkeep (w_store w) (w_store (m w).1).

Lemma tends_ret {A} (x : A) : tends (mret x).
Proof. intros w. done. Qed.
Lemma tends_bind {A B} (m : M A) (f : A -> M B) : tends m -> (forall x, tends (f x)) -> tends (m ≫= f).
Proof. intros Hm Hf w. rewrite ST_bind_run. etrans; [apply Hm|apply Hf]. Qed.
Lemma tends_store {A} (f : MemoryStore -> MemoryStore * A) : (forall s, upkeep s (f s).1) -> tends (on_store f).
Proof. intros Hf w. unfold on_store. destruct (f (w_store w)) eqn:E. cbn. specialize (Hf (w_store w)). by rewrite E in Hf. Qed.
Lemma tends_read {A} (f : MemoryStore -> A) : tends (read_store f).
Proof. intros w. done. Qed.
Lemma tends_tick {A} (f : nat -> A) : tends (tick f).
Proof. intros w. done. Qed.
Lemma tends_enqueue msg : tends (enqueue msg).
Proof. intros w. unfold enqueue. destruct (Queue_Enqueue _ _ _). done. Qed.
End upkeep_jobs.

#[export] Hint Resolve tends_ret tends_read tends_tick tends_enqueue : upkeep.

(** Go through a computation, splitting on what it decides. *)
Ltac tend :=
  repeat first [ progress intros | solve [eauto with upkeep] | apply tends_store; intros; solve [auto with upkeep] | apply tends_bind
               | progress cbn zeta | match goal with |- tends (match ?x with _ => _ end) => destruct x end
               | match goal with |- tends (let '(_, _) := ?x in _) => destruct x end ].

Section upkeep_pass.
Context {Q : Type} `{HQ : MessageQueue Q} `{HU : Unicode} (env : Env) (ctxErr : nat -> option error).

Lemma tends_recover_run now staleFor run out : tends (recover_run env now staleFor run out).
Proof. unfold recover_run, time_Now. tend. Qed.

Lemma tends_recover_runs now staleFor l : forall out, tends (recover_runs env ctxErr now staleFor l out).
Proof. induction l as [|run l IH]; intros out; cbn [recover_runs]; [tend|]. pose proof tends_recover_run. tend. Qed.

Lemma tends_recover tenantID staleFor limit : tends (RecoverStaleRuns env ctxErr tenantID staleFor limit).
Proof. pose proof tends_recover_runs. unfold RecoverStaleRuns, time_Now. tend. Qed.

Lemma tends_scan {A} (f : A -> ST (World MemoryStore Q) (list DriftIssue)) l : (forall x, tends (f x)) -> forall report, tends (scan ctxErr f l report).
Proof. intros Hf. induction l as [|x l IH]; intros report; cbn [scan]; tend. Qed.

Lemma tends_check tenantID limit : tends (Check ctxErr tenantID limit : ST (World MemoryStore Q) _).
Proof. pose proof (@tends_scan). unfold Check. tend. apply tends_scan. tend. Qed.

Lemma tends_repair_issue issue : tends (repair_issue env issue : ST (World MemoryStore Q) _).
Proof. unfold repair_issue, repairTaskRunStatus, repairLastStep, repairMissingActiveRun, time_Now. tend. Qed.

Lemma tends_repair issues : tends (Repair env ctxErr issues : ST (World MemoryStore Q) _).
Proof.
  unfold Repair. match goal with |- tends (repair_issues _ _ _ ?r) => generalize r end.
  induction issues as [|i l IH]; intros r; cbn [repair_issues]; [tend|]. pose proof tends_repair_issue. tend.
Qed.

Lemma tends_compact cfg : tends (compactRunEvents env cfg : ST (World MemoryStore Q) _).
Proof.
  unfold compactRunEvents, time_Now. tend. match goal with |- context [compact_runs ?c ?l ?r] => generalize r; induction l as [|run l IH]; intros r'; cbn [compact_runs]; tend end.
Qed.

(** A whole pass of the scheduler, with consistency check, repair and compaction, in every case (errors, a cancelled
    context, a queue that refuses): no task, run, step or connection appears or disappears, tasks keep everything but
    status and time of update, runs everything but status, times and last step index, and events are only removed. *)
Theorem pass_upkeep cfg (w : World MemoryStore Q) : upkeep (w_store w) (w_store (RunOnce env ctxErr cfg w).1).
Proof.
  revert w. change (tends (RunOnce env ctxErr cfg)).
  pose proof tends_recover. pose proof tends_check. pose proof tends_repair. pose proof tends_compact.
  unfold RunOnce, check_and_repair, close_report, time_Now. tend.
Qed.
End upkeep_pass.

(** ** The loop *)

(** The recoverer and the checker of a scheduler are views of the store and the queue, which are in
    the world. *)
Record Scheduler : Type := mkScheduler { sched_cfg : SchedulerConfig }.

Definition NewScheduler (cfg : SchedulerConfig) : Scheduler := mkScheduler (normalizeSchedulerConfig cfg).

Inductive sched_phase : Type :=
| SchedFirst   (* about to run the first pass *)
| SchedWaiting (* in the select *)
| SchedReturned.

(** [sch_done] tells whether the context is done, [sch_reports] is what was logged. *)
Record SchedSys (S Q : Type) : Type := mkSchedSys {
  sch_phase : sched_phase;
  sch_done : bool;
  sch_world : World S Q;
  sch_reports : list (SchedulerReport * option error) }.
Arguments mkSchedSys {S Q}.
Arguments sch_phase {S Q}.
Arguments sch_done {S Q}.
Arguments sch_world {S Q}.
Arguments sch_reports {S Q}.

(** What [ctx.Err()] answers during a pass that starts and ends with the context as told. *)
Definition ctx_between (before after : bool) (ctxErr : nat -> option error) : Prop :=
  (before = true -> after = true /\ forall n, is_Some (ctxErr n)) /\ (after = false -> forall n, ctxErr n = None).

Section loop.
Context {S Q : Type} `{HS : StateStore S} `{HQ : MessageQueue Q} `{HU : Unicode} (env : Env).
Context (others : World S Q -> World S Q -> Prop).
Abbreviation Sys := (SchedSys S Q).

Inductive Start (s : Scheduler) : Sys -> Sys -> Prop :=
| start_first d d' ctxErr w w' rs r :
    ctx_between d d' ctxErr -> RunOnce env ctxErr (sched_cfg s) w = (w', r) ->
    Start s (mkSchedSys SchedFirst d w rs)
            (mkSchedSys (if sc_Interval (sched_cfg s) <=? 0 then SchedReturned else SchedWaiting) d' w' (rs ++ [r]))
| start_tick d d' ctxErr w w' rs r :
    ctx_between d d' ctxErr -> RunOnce env ctxErr (sched_cfg s) w = (w', r) ->
    Start s (mkSchedSys SchedWaiting d w rs) (mkSchedSys SchedWaiting d' w' (rs ++ [r]))
| start_return w rs : Start s (mkSchedSys SchedWaiting true w rs) (mkSchedSys SchedReturned true w rs)
| start_cancel ph w rs : Start s (mkSchedSys ph false w rs) (mkSchedSys ph true w rs)
| start_others ph d w w' rs : others w w' -> Start s (mkSchedSys ph d w rs) (mkSchedSys ph d w' rs).

(** The loop from its call on. *)
Definition scheduled (s : Scheduler) (w : World S Q) : Sys -> Prop := rtc (Start s) (mkSchedSys SchedFirst false w []).

Record loop_ok (s : Scheduler) (y : Sys) : Prop := {
  lo_first : sch_phase y = SchedFirst <-> sch_reports y = [];
  lo_once : sc_Interval (sched_cfg s) <= 0 -> sch_phase y <> SchedWaiting /\ (length (sch_reports y) <= 1)%nat;
  lo_return : sch_phase y = SchedReturned -> sc_Interval (sched_cfg s) <= 0 \/ sch_done y = true }.

Lemma loop_step s y y' : loop_ok s y -> Start s y y' -> loop_ok s y'.
Proof.
  intros [H1 H2 H3] Hst. destruct Hst; cbn in *; split; cbn.
  - split; [by case_match|intros E; by apply app_eq_nil in E as [_ ?]].
  - intros Hi. rewrite (proj2 (Z.leb_le _ _)) by done. rewrite (proj1 H1) by done. by split; [|cbn; lia].
  - destruct (Z.leb_spec (sc_Interval (sched_cfg s)) 0); [auto|done].
  - split; [done|intros E; by apply app_eq_nil in E as [_ ?]].
  - intros Hi. by destruct (H2 Hi).
  - done.
  - split; [done|intros E; by apply H1 in E].
  - intros Hi. by destruct (H2 Hi).
  - auto.
  - done.
  - done.
  - auto.
  - done.
  - done.
  - done.
Qed.

Lemma scheduled_ok s w y : scheduled s w y -> loop_ok s y.
Proof. apply rtc_ind_r; [split; cbn; [done|split; [done|lia]|done]|]. intros y1 y2 _ Hst Hok. by eapply loop_step. Qed.

(** With an interval of zero the scheduler returns after exactly one pass; with a positive one it returns only
    when the context is done, after at least one pass; and as long as it has not returned it can go on. *)
Theorem scheduler_returns s w y : scheduled s w y ->
  (sch_phase y = SchedReturned -> sch_reports y <> [] /\ (sc_Interval (sched_cfg s) <= 0 -> length (sch_reports y) = 1%nat) /\ (0 < sc_Interval (sched_cfg s) -> sch_done y = true)) /\
  (sch_phase y <> SchedReturned -> exists y', Start s y y' /\ (sch_phase y' = SchedReturned \/ sch_reports y' <> sch_reports y)).
Proof.
  intros Hy. apply scheduled_ok in Hy as [H1 H2 H3]. destruct y as [ph d w' rs]. cbn in *. split.
  - intros ->. assert (Hn : rs <> []) by (intros E; by apply H1 in E). split_and!; [done| |].
    + intros Hi. destruct (H2 Hi) as [_ Hl]. destruct rs as [|? [|]]; [done|done|cbn in Hl; lia].
    + intros Hi. destruct H3; [done|lia|done].
  - intros Hp. set (ctxErr := fun _ : nat => if d then Some (errors_New "context canceled") else None). destruct (RunOnce env ctxErr (sched_cfg s) w') as [w2 r] eqn:E.
    assert (Hc : ctx_between d d ctxErr) by (split; [intros ->; split; [done|by eexists]|by intros ->]).
    assert (Hl : rs ++ [r] <> rs) by (intros El; apply (f_equal length) in El; rewrite length_app in El; cbn in El; lia).
    destruct ph; [| |done]; (eexists; split; [by econstructor|right; exact Hl]).
Qed.
End loop.

(** ** Examples *)

Module scheduler_demo.
Export ops_demo.
#[local] Existing Instances ascii_unicode demo_queue.

Lemma world_wf : ms_wf (w_store world).
Proof. apply wf_exec_ops, wf_new. Qed.

(** The environment of the demo starts its clock late enough for the run to be stale. *)
Definition late : World MemoryStore MemoryQueue := world <| w_tick := 3600%nat |>.

Lemma recovery_pass_witness : exists w' out, RecoverStaleRuns env (fun _ => None) "t" (10 * Minute) 10 late = (w', (Some out, None)) /\
  run_status (GetRun "task_1" "run_5" (w_store w')) = Some RunStatusQueued /\ run_status (GetRun "task_1" "run_4" (w_store w')) = Some RunStatusAborted.
Proof.
  destruct (recovery_pass env (fun _ => None) (fun _ => eq_refl) "t" (10 * Minute) 10 late world_wf) as (w' & out & l & E & Hnd & Hin & Hlen & [_ Hrun Hruns _ _] & _);
    [vm_compute; reflexivity|vm_compute; reflexivity|].
  set (r5 := run "run_5" RunStatusRunning 5). exists w', out. split; [exact E|].
  assert (Ho : open_runs "t" (w_store late) = [r5]) by (vm_compute; reflexivity).
  assert (Hl : l = [r5]).
  { rewrite Ho in Hlen, Hin. destruct l as [|a [|b l]]; [cbn [length] in Hlen; lia| |cbn [length] in Hlen; lia].
    specialize (Hin a ltac:(by left)). apply list_elem_of_singleton in Hin. by subst a. }
  subst l. split.
  - destruct (Hrun r5) as [q Hq]; [by left|vm_compute; by eexists|]. cbn. unfold MemoryStore_GetRun. change (runKey "task_1" "run_5") with (run_key r5). by rewrite Hq.
  - cbn. unfold MemoryStore_GetRun. rewrite Hruns; [vm_compute; reflexivity|]. intros r Hr _. apply list_elem_of_singleton in Hr. subst r. by vm_compute.
Defined.
End scheduler_demo.
