(* ===== verification/Metrics.v ===== *)
(** * Metrics: counters that many goroutines change (src/pkg/api/metrics.go, src/pkg/runtimemetrics, src/pkg/engine/metrics.go)

    [observeRequestMetrics] is a sequence of atomic additions and a snapshot is a sequence of atomic
    loads, both without a lock.  [mstep] interleaves them, one atomic operation a step.  The
    theorems compare this with the operations done in one piece, which the other files use. *)

From S2P Require Import Prelude GoLib Strconv JSON Model StateStore MemoryStore DynamoDB DynamoStore Tenant MemoryQueue World TaskService Artifacts Encoding FileSystem Engine Ops API Commands.

(** ** Atomic operations *)

Inductive counter : Type := CRequests | CLatency | C1xx | C2xx | C3xx | C4xx | C5xx | CErrors.

Definition load (c : counter) (m : requestMetrics) : Z :=
  match c with
  | CRequests => requestsTotal m | CLatency => latencyMSTotal m | C1xx => status1xx m | C2xx => status2xx m
  | C3xx => status3xx m | C4xx => status4xx m | C5xx => status5xx m | CErrors => errors5xxTotal m
  end.

Definition add (op : counter * Z) (m : requestMetrics) : requestMetrics :=
  let plus z := add64 z op.2 in
  match op.1 with
  | CRequests => m <| requestsTotal ::= plus |> | CLatency => m <| latencyMSTotal ::= plus |>
  | C1xx => m <| status1xx ::= plus |> | C2xx => m <| status2xx ::= plus |> | C3xx => m <| status3xx ::= plus |>
  | C4xx => m <| status4xx ::= plus |> | C5xx => m <| status5xx ::= plus |> | CErrors => m <| errors5xxTotal ::= plus |>
  end.

(** The additions of [observeRequestMetrics]. *)
Definition observe_ops (status latencyMS : Z) : list (counter * Z) :=
  [(CRequests, 1); (CLatency, latencyMS)] ++
  (if 500 <=? status then [(C5xx, 1); (CErrors, 1)] else if 400 <=? status then [(C4xx, 1)]
   else if 300 <=? status then [(C3xx, 1)] else if 200 <=? status then [(C2xx, 1)] else [(C1xx, 1)]).

(** The loads of [SnapshotRequestMetrics], in the order of the fields. *)
Definition snapshot_loads : list counter := [CRequests; CLatency; C1xx; C2xx; C3xx; C4xx; C5xx; CErrors].

(** The whole snapshot when nobody interferes. *)
Definition SnapshotRequestMetrics (m : requestMetrics) : list Z := map (fun c => load c m) snapshot_loads.

Definition zero_metrics : requestMetrics := mkRequestMetrics 0 0 0 0 0 0 0 0.

(** ** Other snapshots, without interference *)

Definition SnapshotCounters (c : counters) : list Z :=
  [claimConflicts c; finalizeFailures c; streamPushErrors c; recoveryRuns c; recoveryRequeued c; recoveryErrors c].

Definition Metrics_Snapshot (m : Metrics) : list Z :=
  [mt_taskStarted m; mt_taskSucceeded m; mt_taskFailed m; mt_taskAborted m; mt_stepLatencyTotal m; mt_stepCount m; mt_streamPushErrors m].

(** ** Interleaving *)

Record MetricsSys : Type := mkMetricsSys {
  my_counters : requestMetrics;
  my_threads : list (list (counter * Z));      (* what each observer still has to add *)
  my_seen : list (Z * Z);                      (* history: the observed requests, status and latency *)
  my_todo : list counter;                      (* what the snapshot still has to load *)
  my_loaded : list Z }.
#[global] Instance MetricsSys_eta : Eta MetricsSys := fun s => mkMetricsSys
  (my_counters s) (my_threads s) (my_seen s) (my_todo s) (my_loaded s).

Inductive mstep : MetricsSys -> MetricsSys -> Prop :=
| m_observe s status latencyMS :
    mstep s (s <| my_threads ::= (fun l => l ++ [observe_ops status latencyMS]) |> <| my_seen ::= (fun l => l ++ [(status, latencyMS)]) |>)
| m_add s l1 op ops l2 :
    my_threads s = l1 ++ (op :: ops) :: l2 ->
    mstep s (s <| my_counters ::= add op |> <| my_threads := l1 ++ ops :: l2 |>)
| m_load s c cs :
    my_todo s = c :: cs ->
    mstep s (s <| my_todo := cs |> <| my_loaded ::= (fun l => l ++ [load c (my_counters s)]) |>).

Definition mreach : MetricsSys -> Prop := rtc mstep (mkMetricsSys zero_metrics [] [] snapshot_loads []).

(** ** The additions commute *)

Definition add_all (ops : list (counter * Z)) (m : requestMetrics) : requestMetrics := fold_left (fun m op => add op m) ops m.
Definition observe_all (l : list (Z * Z)) (m : requestMetrics) : requestMetrics := fold_left (fun m p => observeRequestMetrics p.1 p.2 m) l m.

#[local] Arguments add64 : simpl never.

Lemma add64_comm z a b : add64 (add64 z a) b = add64 (add64 z b) a.
Proof. unfold add64. rewrite !wrap64_add_l. f_equal. lia. Qed.

Lemma add_comm op op' m : add op (add op' m) = add op' (add op m).
Proof. destruct m, op as [[] x], op' as [[] y]; cbn; try reflexivity; unfold upd; cbv beta; cbn; by rewrite add64_comm. Qed.

Lemma add_all_comm op ops m : add_all ops (add op m) = add op (add_all ops m).
Proof. revert m. induction ops as [|o ops IH]; intros m; [done|]. cbn. rewrite add_comm. apply IH. Qed.

Lemma add_all_app a b m : add_all (a ++ b) m = add_all b (add_all a m).
Proof. apply fold_left_app. Qed.

Lemma observe_add_all status latencyMS m : add_all (observe_ops status latencyMS) m = observeRequestMetrics status latencyMS m.
Proof. unfold observe_ops, observeRequestMetrics. repeat case_match; reflexivity. Qed.

(** The counters with what is on the way are always those of the requests observed one after the other. *)
Lemma reach_pending s : mreach s -> add_all (concat (my_threads s)) (my_counters s) = observe_all (my_seen s) zero_metrics.
Proof.
  apply (rtc_ind_r (fun s => add_all (concat (my_threads s)) (my_counters s) = observe_all (my_seen s) zero_metrics)); [done|].
  intros y z _ Hst IH. destruct Hst as [u st lat|u l1 op ops l2 E|u c cs E]; cbn.
  - rewrite concat_app. cbn. rewrite app_nil_r, add_all_app, IH. unfold observe_all. rewrite fold_left_app. apply observe_add_all.
  - rewrite E in IH. rewrite concat_app in IH |- *. etrans; [|exact IH]. change (concat ((op :: ops) :: l2)) with ([op] ++ (ops ++ concat l2)).
    change (concat (ops :: l2)) with (ops ++ concat l2). rewrite !add_all_app. change (add_all [op] ?x) with (add op x). by rewrite !add_all_comm.
  - done.
Qed.

Lemma idle_concat {A} (l : list (list A)) : Forall (fun t => t = []) l -> concat l = [].
Proof. induction 1 as [|t l -> _ IH]; [done|exact IH]. Qed.

(** What the counters of the requests say in one place. *)
Definition balanced (m : requestMetrics) : Prop :=
  status1xx m + status2xx m + status3xx m + status4xx m + status5xx m = requestsTotal m /\ errors5xxTotal m = status5xx m.

(** While the totals are far from the bound nothing wraps. *)
Lemma observe_all_balanced l : Z.of_nat (length l) < 2 ^ 63 -> balanced (observe_all l zero_metrics) /\ requestsTotal (observe_all l zero_metrics) = Z.of_nat (length l) /\
  Forall (fun c => 0 <= load c (observe_all l zero_metrics)) [C1xx; C2xx; C3xx; C4xx; C5xx].
Proof.
  induction l as [|p l IH] using rev_ind; intros Hl; [split_and!; [done|done|repeat constructor; done]|]. rewrite length_app in Hl |- *. cbn in Hl |- *.
  destruct IH as ([Hb He] & Hn & Hpos); [lia|]. unfold observe_all in *. rewrite fold_left_app. cbn [fold_left]. set (m := fold_left _ l _) in *.
  rewrite !list.Forall_cons in Hpos |- *. cbn [load] in Hpos. destruct Hpos as (P1 & P2 & P3 & P4 & P5 & _). unfold balanced, observeRequestMetrics.
  repeat case_match; cbn; rewrite ?add64_id by (unfold_int64; lia); split_and!; try lia; constructor.
Qed.

(** No request is lost or counted twice: whenever no observer is on the way, in whatever order the atomic additions of the
    requests were mixed, the counters are those of the requests observed one after the other; their number is the total,
    the sum of the status classes is the total, and the errors are the 5xx answers. *)
Theorem counters_conserved s (Hs : mreach s) (Hidle : Forall (fun t => t = []) (my_threads s)) (Hn : Z.of_nat (length (my_seen s)) < 2 ^ 63) :
  my_counters s = observe_all (my_seen s) zero_metrics /\ requestsTotal (my_counters s) = Z.of_nat (length (my_seen s)) /\ balanced (my_counters s).
Proof.
  apply reach_pending in Hs. rewrite (idle_concat _ Hidle) in Hs. cbn in Hs. rewrite Hs.
  destruct (observe_all_balanced _ Hn) as (Hb & Ht & _). done.
Qed.

(** ** Examples *)

Module metrics_demo.
Definition two : MetricsSys := mkMetricsSys (observe_all [(200, 7); (503, 1)] zero_metrics) [[]; []] [(200, 7); (503, 1)] snapshot_loads [].

(** The additions of two requests, mixed. *)
Lemma two_reached : mreach two.
Proof.
  unfold mreach. eapply rtc_l; [apply (m_observe _ 200 7)|]. eapply rtc_l; [apply (m_observe _ 503 1)|].
  eapply rtc_l; [by apply (m_add _ [] (CRequests, 1) [(CLatency, 7); (C2xx, 1)] [observe_ops 503 1])|].
  eapply rtc_l; [by apply (m_add _ [[(CLatency, 7); (C2xx, 1)]] (CRequests, 1) [(CLatency, 1); (C5xx, 1); (CErrors, 1)] [])|].
  eapply rtc_l; [by apply (m_add _ [[(CLatency, 7); (C2xx, 1)]] (CLatency, 1) [(C5xx, 1); (CErrors, 1)] [])|].
  eapply rtc_l; [by apply (m_add _ [] (CLatency, 7) [(C2xx, 1)] [[(C5xx, 1); (CErrors, 1)]])|].
  eapply rtc_l; [by apply (m_add _ [[(C2xx, 1)]] (C5xx, 1) [(CErrors, 1)] [])|].
  eapply rtc_l; [by apply (m_add _ [[(C2xx, 1)]] (CErrors, 1) [] [])|].
  eapply rtc_l; [by apply (m_add _ [] (C2xx, 1) [] [[]])|]. apply rtc_refl.
Qed.

Lemma counters_conserved_witness : my_counters two = observe_all [(200, 7); (503, 1)] zero_metrics /\ requestsTotal (my_counters two) = 2 /\ balanced (my_counters two).
Proof. apply (counters_conserved two two_reached); [repeat constructor|reflexivity]. Defined.

(** A snapshot is not atomic: a request between the first load and the others gives a snapshot with one answer and no request. *)
Theorem snapshot_not_atomic : exists s, mreach s /\ my_todo s = [] /\ my_loaded s = [0; 7; 0; 1; 0; 0; 0; 0].
Proof.
  eexists. split.
  - unfold mreach. eapply rtc_l; [apply m_load; reflexivity|]. eapply rtc_l; [apply (m_observe _ 200 7)|].
    eapply rtc_l; [by apply (m_add _ [] (CRequests, 1) [(CLatency, 7); (C2xx, 1)] [])|]. eapply rtc_l; [by apply (m_add _ [] (CLatency, 7) [(C2xx, 1)] [])|].
    eapply rtc_l; [by apply (m_add _ [] (C2xx, 1) [] [])|]. do 7 (eapply rtc_l; [apply m_load; reflexivity|]). apply rtc_refl.
  - split; vm_compute; reflexivity.
Qed.
End metrics_demo.
