(* ===== verification/Processes.v ===== *)
(** * Processes: the flow of the programs (src/cmd)

    What each [main] does from its start to its end: the start-up as a sequence of steps that may
    fail, with the message of [log.Fatal], and the life after it as step relations on the
    goroutines of the process.  Of the handlers, the consumer and the HTTP server only what matters
    for the end is kept: how many requests and messages are being worked on, and what
    [http.Server.Shutdown] does to [ListenAndServe].  Deadlines may pass at any time. *)

From Stdlib Require Import Ascii.
From S2P Require Import Prelude GoLib Strconv JSON Model StateStore MemoryStore DynamoDB DynamoStore MemoryQueue World TaskService Artifacts Encoding Engine Ops Router Stream SQSQueue S3Store Config Commands Logging Scheduler URL OpenAI LLMFactory.

(** ** Parts *)

(** What [initRuntime] of cmd/recovery returns. *)
Inductive recovery_runtime : Type :=
| RecoveryLocal (queueCapacity : Z)
| RecoveryAWS (store : DynamoStore) (q : SQSQueue).

Section parts.
Context `{Unicode} (getenv : string -> string).

Definition worker_initRuntime (awsErr : option error) : result error runtime :=
  let mode := RuntimeModeFromEnv getenv in
  if negb (String.eqb mode "aws") then Ok (RuntimeLocal 1000)
  else match awsErr with
       | Some e => Err (wrapf "load aws config: " e)
       | None =>
           try cfg := LoadAWSRuntimeConfigFromEnv getenv in
           try store := NewDynamoStore true (dynamo_config (AWSRuntimeConfig_State cfg) (AWSRuntimeConfig_EventRetention cfg)) in
           try artifacts := NewS3Store true (s3_config cfg) in
           try q := NewSQSQueue true (queue_config cfg) in
           Ok (RuntimeAWS store artifacts q (buildWSPusher (AWSRuntimeConfig_WebSocketEndpoint cfg)))
       end.

Definition recovery_initRuntime (awsErr : option error) : result error recovery_runtime :=
  let mode := RuntimeModeFromEnv getenv in
  if negb (String.eqb mode "aws") then Ok (RecoveryLocal 1000)
  else match awsErr with
       | Some e => Err (wrapf "load aws config: " e)
       | None =>
           try cfg := LoadAWSRuntimeConfigFromEnv getenv in
           try store := NewDynamoStore true (dynamo_config (AWSRuntimeConfig_State cfg) (AWSRuntimeConfig_EventRetention cfg)) in
           try q := NewSQSQueue true (queue_config cfg) in
           Ok (RecoveryAWS store q)
       end.

Definition wsdisconnect_initStore (awsErr : option error) : result error (option DynamoStore) :=
  if negb (String.eqb (RuntimeModeFromEnv getenv) "aws") then Ok None
  else match awsErr with
       | Some e => Err (wrapf "load aws config: " e)
       | None =>
           try stateCfg := LoadAWSStateConfigFromEnv getenv in
           try eventRetention := EventRetentionFromEnv getenv in
           try store := NewDynamoStore true (dynamo_config stateCfg eventRetention) in
           Ok (Some store)
       end.
End parts.

(** The callback of the gateway pusher: [PostToConnection] of the SDK, whose GoneException becomes
    [ErrConnectionGone]. *)
Section post.
Context {N : Type} (PostToConnection : string -> bytes -> N -> N * option error) (isGoneException : error -> bool).

Definition ws_post (connectionID : string) (data : bytes) (net : N) : N * option error :=
  match PostToConnection connectionID data net with
  | (net, Some err) => (net, Some (if isGoneException err then ErrConnectionGone else err))
  | (net, None) => (net, None)
  end.

(** The pusher of a process in production. *)
Definition ws_pusher (endpoint : option string) (net : N) : MockPusher + AWSPusher N :=
  match endpoint with
  | None => inl NewMockPusher
  | Some _ => inr (NewChunkedAWSPusher DefaultChunkerConfig net)
  end.
End post.

(** ** Start *)

(** The next statement runs if there is no error; otherwise the process ends with a message. *)
Notation "'fatal' m 'on' x := e 'in' k" := (match e with Err err => Err (m +:+ Error err) | Ok x => k end)
  (at level 10, m at level 9, x pattern, e at level 200, k at level 200).

(** A Task API that listens. *)
Record TaskAPI (P C : Type) : Type := mkTaskAPI {
  api_addr : string;
  api_mode : string;
  api_runtime : runtime;
  api_tenantRuntime : bool;             (* a TenantRuntimeProvider is set *)
  api_recovery : option Scheduler;
  api_worker : option (RoutedLLMClient C);
  api_tracing : option P }.
Arguments mkTaskAPI {P C}.
Arguments api_addr {P C}.
Arguments api_mode {P C}.
Arguments api_runtime {P C}.
Arguments api_tenantRuntime {P C}.
Arguments api_recovery {P C}.
Arguments api_worker {P C}.
Arguments api_tracing {P C}.

Definition embeddedWorker (rt : runtime) : bool := match rt with RuntimeLocal _ => true | RuntimeAWS _ _ _ _ => false end.
Definition runtime_mode (rt : runtime) : string := match rt with RuntimeLocal _ => "local" | RuntimeAWS _ _ _ _ => "aws" end.

(** The settings of the scheduler in the Task API, which takes the interval as it is. *)
Definition api_scheduler (cfg : RecoveryRuntimeConfig) : SchedulerConfig :=
  mkSchedulerConfig (RecoveryRuntimeConfig_Interval cfg)
    (RecoveryRuntimeConfig_StaleFor cfg) (RecoveryRuntimeConfig_Limit cfg) (RecoveryRuntimeConfig_TenantID cfg)
    (RecoveryRuntimeConfig_ConsistencyCheck cfg) (RecoveryRuntimeConfig_ConsistencyRepair cfg)
    (RecoveryRuntimeConfig_EventCompactionEnabled cfg) (RecoveryRuntimeConfig_EventCompactionWindow cfg).

Section start.
Context `{HU : Unicode} `{HJ : JSONText} `{HT : TextLib} `{HSM : SecretsManager} {T : Type} `{HR : Remote T} {E P : Type} `{HS : TracingSDK E P}.
Context (getenv : string -> string) (awsErr : option error).

(** Telemetry, which every process starts first. *)
Definition start_telemetry (service : string) : result string (option P) :=
  fatal "failed to load telemetry config: " on cfg := LoadTelemetryRuntimeConfigFromEnv getenv service in
  fatal "failed to initialize telemetry: " on p := Init (Some cfg) in
  Ok p.1.

Definition taskapi_start : result string (TaskAPI P (AnyClient T)) :=
  let port := if String.eqb (getenv "PORT") "" then "8080" else getenv "PORT" in
  try tracing := start_telemetry "agentforge-taskapi" in
  fatal "failed to initialize runtime dependencies: " on rt := initRuntime getenv awsErr in
  fatal "failed to load recovery config: " on rcfg := LoadRecoveryRuntimeConfigFromEnv getenv in
  let recovery := if RecoveryRuntimeConfig_Enabled rcfg then Some (NewScheduler (api_scheduler rcfg)) else None in
  let started worker := mkTaskAPI (":" +:+ port) (runtime_mode rt) rt (embeddedWorker rt) recovery worker tracing in
  if embeddedWorker rt
  then fatal "failed to initialize LLM client: " on llm := NewLLMClientFromEnv getenv in Ok (started (Some llm))
  else Ok (started None).

Definition worker_start : result string (runtime * RoutedLLMClient (AnyClient T) * option P) :=
  try tracing := start_telemetry "agentforge-worker" in
  fatal "failed to initialize runtime dependencies: " on rt := worker_initRuntime getenv awsErr in
  fatal "failed to initialize LLM client: " on llm := NewLLMClientFromEnv getenv in
  Ok (rt, llm, tracing).

Definition recovery_start : result string (recovery_runtime * Scheduler * option P) :=
  try tracing := start_telemetry "agentforge-recovery" in
  fatal "failed to initialize runtime dependencies: " on rt := recovery_initRuntime getenv awsErr in
  fatal "failed to load recovery config: " on cfg := LoadRecoveryRuntimeConfigFromEnv getenv in
  Ok (rt, NewScheduler (recovery_scheduler cfg), tracing).
End start.

(** The two WebSocket programs handle one event from the standard input; [event] is what the decoder makes of it.  They
    never end with an error of the handler, which has none. *)
Inductive ws_output : Type :=
| WSUsage (lines : list string)
| WSResponse (resp : GatewayResponse).

Section lambda_mains.
Context `{HU : Unicode} {E P : Type} `{HS : TracingSDK E P} (getenv : string -> string) (awsErr : option error).
Context {S Q : Type} `{StateStore S} (env : Env).

Definition wsconnect_main (event : option GatewayEvent) : result string (option DynamoStore * ST (World S Q) ws_output) :=
  try _ := start_telemetry getenv "agentforge-ws-connect" in
  fatal "" on store := initStore getenv awsErr in
  Ok (store, match event with
             | None => mret (WSUsage ["WebSocket $connect Lambda handler"; "Usage: echo '{...}' | go run cmd/wsconnect/main.go"])
             | Some e => resp ← wsconnect_handler env e; mret (WSResponse resp)
             end).

Definition wsdisconnect_main (connID : option string) : result string (option DynamoStore * ST (World S Q) ws_output) :=
  try _ := start_telemetry getenv "agentforge-ws-disconnect" in
  fatal "" on store := wsdisconnect_initStore getenv awsErr in
  Ok (store, match connID with
             | None => mret (WSUsage ["WebSocket $disconnect Lambda handler"; "Usage: echo '{...}' | go run cmd/wsdisconnect/main.go"])
             | Some id => resp ← wsdisconnect_handler id; mret (WSResponse resp)
             end).
End lambda_mains.

(** ** The Task API from start to end *)

Inductive main_pc : Type :=
| MainServing          (* in ListenAndServe *)
| MainReturning        (* ListenAndServe returned ErrServerClosed; the deferred calls are next *)
| MainExited (code : Z).

(** The goroutine of the graceful shutdown. *)
Inductive stop_pc : Type :=
| StopWaiting          (* for a signal *)
| StopCancelled        (* cancel was called *)
| StopShutdown         (* in srv.Shutdown *)
| StopWorker           (* in the select on workerDone and the deadline *)
| StopReturned.

Inductive consumer_pc : Type := ConsumerNone | ConsumerRunning | ConsumerReturned.

Record ApiProc : Type := mkApiProc {
  ap_main : main_pc;
  ap_stop : stop_pc;
  ap_requests : nat;             (* requests being answered *)
  ap_consumer : consumer_pc;     (* worker.Start of the embedded worker *)
  ap_handlers : nat;             (* messages it is working on *)
  ap_flushed : bool }.           (* shutdownTelemetry was called *)
#[global] Instance ApiProc_eta : Eta ApiProc := fun p => mkApiProc
  (ap_main p) (ap_stop p) (ap_requests p) (ap_consumer p) (ap_handlers p) (ap_flushed p).

(** The context of the worker and the scheduler is done, and the server takes no more requests. *)
Definition ap_cancelled (p : ApiProc) : bool := match ap_stop p with StopWaiting => false | _ => true end.
Definition ap_closed (p : ApiProc) : bool := match ap_stop p with StopWaiting | StopCancelled => false | _ => true end.
Definition ap_exited (p : ApiProc) : bool := match ap_main p with MainExited _ => true | _ => false end.

Definition api_process (embedded : bool) : ApiProc :=
  mkApiProc MainServing StopWaiting 0 (if embedded then ConsumerRunning else ConsumerNone) 0 false.

(** The steps of the goroutines as long as the process lives. *)
Inductive api_step : ApiProc -> ApiProc -> Prop :=
| api_accept p : ap_exited p = false -> ap_closed p = false -> api_step p (p <| ap_requests ::= S |>)
| api_answer p n : ap_exited p = false -> ap_requests p = S n -> api_step p (p <| ap_requests := n |>)
| api_dispatch p : ap_exited p = false -> ap_consumer p = ConsumerRunning -> api_step p (p <| ap_handlers ::= S |>)
| api_handled p n : ap_exited p = false -> ap_handlers p = S n -> api_step p (p <| ap_handlers := n |>)
| api_consumer p : ap_exited p = false -> ap_consumer p = ConsumerRunning -> ap_cancelled p = true -> ap_handlers p = 0%nat ->
    api_step p (p <| ap_consumer := ConsumerReturned |>)
| api_listen_error p : ap_main p = MainServing -> ap_closed p = false -> api_step p (p <| ap_main := MainExited 1 |>)
| api_signal p : ap_exited p = false -> ap_stop p = StopWaiting -> api_step p (p <| ap_stop := StopCancelled |>)
| api_shutdown p : ap_exited p = false -> ap_stop p = StopCancelled -> api_step p (p <| ap_stop := StopShutdown |>)
| api_idle p : ap_exited p = false -> ap_stop p = StopShutdown -> ap_requests p = 0%nat -> api_step p (p <| ap_stop := StopWorker |>)
| api_deadline p : ap_exited p = false -> ap_stop p = StopShutdown -> api_step p (p <| ap_stop := StopWorker |>)
| api_drained p : ap_exited p = false -> ap_stop p = StopWorker -> ap_consumer p <> ConsumerRunning -> api_step p (p <| ap_stop := StopReturned |>)
| api_drain_deadline p : ap_exited p = false -> ap_stop p = StopWorker -> api_step p (p <| ap_stop := StopReturned |>)
| api_closed p : ap_main p = MainServing -> ap_closed p = true -> api_step p (p <| ap_main := MainReturning |>)
| api_exit p : ap_main p = MainReturning -> api_step p (p <| ap_flushed := true |> <| ap_main := MainExited 0 |>).

Definition api_reach (embedded : bool) : ApiProc -> Prop := rtc api_step (api_process embedded).

(** ** The worker process *)

(** [main] itself runs [worker.Start]. *)
Record WorkerProc : Type := mkWorkerProc {
  wp_exited : bool;
  wp_cancelled : bool;
  wp_handlers : nat;
  wp_flushed : bool }.
#[global] Instance WorkerProc_eta : Eta WorkerProc := fun p => mkWorkerProc (wp_exited p) (wp_cancelled p) (wp_handlers p) (wp_flushed p).

Inductive worker_step : WorkerProc -> WorkerProc -> Prop :=
| worker_dispatch p : wp_exited p = false -> worker_step p (p <| wp_handlers ::= S |>)
| worker_handled p n : wp_exited p = false -> wp_handlers p = S n -> worker_step p (p <| wp_handlers := n |>)
| worker_signal p : wp_exited p = false -> worker_step p (p <| wp_cancelled := true |>)
| worker_return p : wp_exited p = false -> wp_cancelled p = true -> wp_handlers p = 0%nat -> worker_step p (p <| wp_flushed := true |> <| wp_exited := true |>).

Definition worker_reach : WorkerProc -> Prop := rtc worker_step (mkWorkerProc false false 0 false).

(** ** The processes get the same parts *)

Section agreement.
Context `{HU : Unicode} (getenv : string -> string).

(** Task API, worker and recovery, given the same environment, fail with the same error or work on the same tables
    and the same queue; the artifact store and the endpoint of the worker are those of the Task API. *)
Theorem processes_agree awsErr :
  worker_initRuntime getenv awsErr = initRuntime getenv awsErr /\
  recovery_initRuntime getenv awsErr =
    match initRuntime getenv awsErr with
    | Err e => Err e
    | Ok (RuntimeLocal n) => Ok (RecoveryLocal n)
    | Ok (RuntimeAWS store _ q _) => Ok (RecoveryAWS store q)
    end.
Proof.
  split; [done|]. unfold recovery_initRuntime, initRuntime. destruct (String.eqb (RuntimeModeFromEnv getenv) "aws"); [|done]. cbn [negb].
  destruct awsErr; [done|]. destruct (LoadAWSRuntimeConfigFromEnv getenv) as [cfg|e] eqn:Ec; [|done].
  pose proof (aws_loaded getenv cfg Ec) as [Ht _ _ _ _ _]. rewrite !list.Forall_cons in Ht. destruct Ht as (_ & _ & _ & _ & _ & _ & B7 & _).
  destruct (NewDynamoStore _ _); [|done]. unfold NewS3Store, s3_config. cbn [negb S3StoreConfig_Bucket].
  destruct (String.eqb_spec (AWSRuntimeConfig_ArtifactsBucket cfg) "") as [Eb|Hb]; [by rewrite Eb in B7|]. by destruct (NewSQSQueue _ _).
Qed.
End agreement.

(** ** Starts *)

Lemma scheduler_settings cfg : let c := sched_cfg (NewScheduler cfg) in
  sc_Interval c = sc_Interval cfg /\ 0 < sc_StaleFor c /\ 0 < sc_Limit c /\ 0 < sc_EventCompactionWindow c.
Proof.
  cbn zeta. unfold NewScheduler, normalizeSchedulerConfig. cbn [sched_cfg]. destruct (Z.leb_spec (sc_StaleFor cfg) 0); cbn [upd];
    (match goal with |- context [sc_Limit ?c <=? 0] => destruct (Z.leb_spec (sc_Limit c) 0) end);
    (match goal with |- context [sc_EventCompactionWindow ?c <=? 0] => destruct (Z.leb_spec (sc_EventCompactionWindow c) 0) end); cbn in *; split_and!; done || lia.
Qed.

Section starts.
Context `{HU : Unicode} `{HJ : JSONText} `{HT : TextLib} `{HSM : SecretsManager} {T : Type} `{HR : Remote T} {E P : Type} `{HS : TracingSDK E P}.
Context (getenv : string -> string) (awsErr : option error).

(** A Task API that starts has an embedded worker exactly in local mode, on the in-memory parts; in production it has
    none, and every configuration that loads is enough: no model client is needed. Its scheduler has working settings. *)
Theorem taskapi_started api (Hs : taskapi_start (T := T) getenv awsErr = Ok api) :
  (is_Some (api_worker api) <-> RuntimeModeFromEnv getenv <> "aws") /\
  (RuntimeModeFromEnv getenv <> "aws" -> api_runtime api = RuntimeLocal 1000) /\
  (RuntimeModeFromEnv getenv = "aws" -> exists store artifacts q endpoint, api_runtime api = RuntimeAWS store artifacts q endpoint) /\
  (forall s, api_recovery api = Some s -> 0 <= sc_Interval (sched_cfg s) /\ 0 < sc_StaleFor (sched_cfg s) /\ 0 < sc_Limit (sched_cfg s) /\
     0 < sc_EventCompactionWindow (sched_cfg s)).
Proof.
  revert Hs. unfold taskapi_start. cbn zeta. destruct (start_telemetry getenv _) as [tp|m]; [|done].
  destruct (initRuntime getenv awsErr) as [rt|e] eqn:Er; [|done]. destruct (LoadRecoveryRuntimeConfigFromEnv getenv) as [rc|e] eqn:Ec; [|done].
  apply recovery_loaded in Ec. intros Hs.
  assert (Hmode : match rt with RuntimeLocal n => RuntimeModeFromEnv getenv <> "aws" /\ n = 1000 | RuntimeAWS _ _ _ _ => RuntimeModeFromEnv getenv = "aws" end).
  { revert Er. unfold initRuntime. destruct (String.eqb_spec (RuntimeModeFromEnv getenv) "aws") as [Em|Em]; cbn [negb]; [|by intros [= <-]].
    destruct awsErr; [done|]. repeat (match goal with |- match ?x with _ => _ end = _ -> _ => destruct x; [|done] end). by intros [= <-]. }
  assert (Hrec : forall s, (if RecoveryRuntimeConfig_Enabled rc then Some (NewScheduler (api_scheduler rc)) else None) = Some s ->
    0 <= sc_Interval (sched_cfg s) /\ 0 < sc_StaleFor (sched_cfg s) /\ 0 < sc_Limit (sched_cfg s) /\ 0 < sc_EventCompactionWindow (sched_cfg s)).
  { destruct (RecoveryRuntimeConfig_Enabled rc); [|done]. intros s [= <-]. destruct (scheduler_settings (api_scheduler rc)) as (-> & ?). destruct Ec. cbn in *. split; [lia|done]. }
  destruct rt as [n|st ar q ep]; cbn [embeddedWorker] in Hs.
  - destruct Hmode as [Hm ->]. destruct (NewLLMClientFromEnv getenv) as [llm|e]; [|done]. injection Hs as <-. cbn. split_and!; [by split; [|eexists]|done|done|exact Hrec].
  - injection Hs as <-. cbn. split_and!; [by split; [intros []|]|done|by eexists _, _, _, _|exact Hrec].
Qed.

(** The recovery command: whatever its environment, once it starts its loop it runs at least one pass before it ends,
    and exactly one if recovery is disabled or the interval is zero. *)
Theorem recovery_command {S Q} `{StateStore S} `{MessageQueue Q} env others rt s tp cfg (w : World S Q) y
    (Hs : recovery_start (E := E) getenv awsErr = Ok (rt, s, tp)) (Hc : LoadRecoveryRuntimeConfigFromEnv getenv = Ok cfg) (Hy : scheduled env others s w y)
    (Hend : sch_phase y = SchedReturned) :
  sch_reports y <> [] /\
  (RecoveryRuntimeConfig_Enabled cfg = false \/ RecoveryRuntimeConfig_Interval cfg = 0 -> length (sch_reports y) = 1%nat).
Proof.
  assert (Es : s = NewScheduler (recovery_scheduler cfg)).
  { revert Hs. unfold recovery_start. destruct (start_telemetry getenv _); [|done]. destruct (recovery_initRuntime _ _); [|done]. rewrite Hc. by intros [= <- <- <-]. }
  pose proof (scheduler_returns env others s w y Hy) as [Hr _]. destruct (Hr Hend) as (H1 & H2 & _). split; [exact H1|].
  intros Hz. apply H2. subst s. destruct (scheduler_settings (recovery_scheduler cfg)) as (-> & _). cbn. destruct Hz as [->| ->]; [lia|by case_match].
Qed.
End starts.

(** ** Ends *)

(** What holds of a Task API at every moment. *)
Record api_ok (p : ApiProc) : Prop := {
  ak_return : ap_main p = MainReturning -> ap_closed p = true;
  ak_exit : forall code, ap_main p = MainExited code ->
    code = 0 /\ ap_closed p = true /\ ap_flushed p = true \/ code = 1 /\ ap_closed p = false /\ ap_flushed p = false;
  ak_alive : ap_exited p = false -> ap_flushed p = false;
  ak_consumer : ap_consumer p = ConsumerReturned -> ap_cancelled p = true /\ ap_handlers p = 0%nat;
  ak_handlers : ap_consumer p = ConsumerNone -> ap_handlers p = 0%nat }.

Lemma api_step_ok p p' : api_ok p -> api_step p p' -> api_ok p'.
Proof.
  intros [H1 H2 H3 H4 H5] Hst. unfold ap_exited, ap_closed, ap_cancelled in *.
  destruct Hst; destruct p as [m s r c h f]; cbn in *; unfold ap_exited, ap_closed, ap_cancelled in *; cbn in *; split; cbn in *; unfold ap_exited, ap_closed, ap_cancelled in *; cbn in *;
    intros; simplify_eq; repeat case_match; simplify_eq; naive_solver.
Qed.

Lemma api_reach_ok embedded p : api_reach embedded p -> api_ok p.
Proof. apply rtc_ind_r; [by destruct embedded; split|]. intros. by eapply api_step_ok. Qed.

(** How a Task API ends: with status 0 only after a signal that cancelled the context of worker and scheduler and closed the
    server, and after the telemetry was shut down; otherwise with status 1, when it cannot listen, and then the telemetry
    is not shut down. From the signal on it can always come to an end, whatever requests and messages are open. *)
Theorem taskapi_ends embedded p (Hp : api_reach embedded p) :
  (forall code, ap_main p = MainExited code ->
     code = 0 /\ ap_closed p = true /\ ap_flushed p = true \/ code = 1 /\ ap_closed p = false /\ ap_flushed p = false) /\
  (ap_exited p = false -> ap_cancelled p = true -> exists p', rtc api_step p p' /\ ap_main p' = MainExited 0 /\ ap_handlers p' = ap_handlers p).
Proof.
  apply api_reach_ok in Hp as [H1 H2 H3 H4 H5]. split; [exact H2|]. intros He Hc.
  assert (Hclosed : exists q, rtc api_step p q /\ ap_exited q = false /\ ap_closed q = true /\ ap_handlers q = ap_handlers p).
  { destruct (ap_stop p) eqn:Es; [by unfold ap_cancelled in Hc; rewrite Es in Hc| |..].
    2-4: exists p; split_and!; [done|done|by unfold ap_closed; rewrite Es|done].
    exists (p <| ap_stop := StopShutdown |>). split_and!; [|done|done|done]. apply rtc_once. by constructor. }
  destruct Hclosed as (q & Hpq & Hq & Hcl & Hh). destruct (ap_main q) eqn:Em; [| |by unfold ap_exited in Hq; rewrite Em in Hq].
  - exists (q <| ap_main := MainReturning |> <| ap_flushed := true |> <| ap_main := MainExited 0 |>). split_and!; [|done|exact Hh].
    etrans; [exact Hpq|]. eapply rtc_l; [by apply api_closed|]. by apply rtc_once, api_exit.
  - exists (q <| ap_flushed := true |> <| ap_main := MainExited 0 |>). split_and!; [|done|exact Hh]. etrans; [exact Hpq|]. by apply rtc_once, api_exit.
Qed.

(** The worker process ends only when no message is being worked on, and shuts the telemetry down. *)
Theorem worker_drains p (Hp : worker_reach p) : wp_exited p = true -> wp_cancelled p = true /\ wp_handlers p = 0%nat /\ wp_flushed p = true.
Proof.
  revert p Hp. apply (rtc_ind_r (fun p => wp_exited p = true -> wp_cancelled p = true /\ wp_handlers p = 0%nat /\ wp_flushed p = true)); [done|]. intros p p' _ Hst IH He. destruct Hst; destruct p; cbn in *; naive_solver.
Qed.

(** The Task API does not wait for its shutdown goroutine: [ListenAndServe] returns as soon as [Shutdown] is called, [main] returns and the
    process ends while requests are being answered and the embedded worker is handling a message. *)
Theorem taskapi_exits_undrained : exists p, api_reach true p /\ ap_main p = MainExited 0 /\ ap_stop p = StopShutdown /\
  ap_requests p = 1%nat /\ ap_consumer p = ConsumerRunning /\ ap_handlers p = 1%nat.
Proof.
  eexists. split.
  - eapply rtc_l; [by apply api_accept|]. eapply rtc_l; [by apply api_dispatch|]. eapply rtc_l; [by apply api_signal|].
    eapply rtc_l; [by apply api_shutdown|]. eapply rtc_l; [by apply api_closed|]. eapply rtc_l; [by apply api_exit|]. apply rtc_refl.
  - by vm_compute.
Qed.

(** ** Examples *)

Module processes_demo.
Import openai_demo factory_demo.
#[local] Existing Instances engine_demo.text_lib secrets.
#[local] Instance sdk : TracingSDK unit unit := {| stdouttrace_New := Ok tt; NewTracerProvider _ _ _ := tt; Shutdown _ := None |}.

Definition local_env := env [("PORT", "9000"); ("AGENTFORGE_RECOVERY_ENABLED", "true"); ("AGENTFORGE_RECOVERY_INTERVAL", "5m")].

Definition api_of (r : result string (TaskAPI unit (AnyClient script))) : result string (string * string * bool * bool) :=
  match r with Ok a => Ok (api_addr a, api_mode a, bool_decide (is_Some (api_worker a)), bool_decide (is_Some (api_recovery a))) | Err m => Err m end.

Example starts : api_of (taskapi_start local_env None) = Ok (":9000", "local", true, true) /\
  api_of (taskapi_start (env [("AGENTFORGE_LLM_PROVIDER", "openai")]) None) = Err "failed to initialize LLM client: engine: openai client: api key is required" /\
  api_of (taskapi_start (env [("AGENTFORGE_OTEL_ENABLED", "maybe")]) None) <> api_of (taskapi_start local_env None).
Proof. split_and!; [vm_compute; reflexivity..|vm_compute; discriminate]. Qed.

Lemma taskapi_started_witness : exists api, taskapi_start (T := script) (P := unit) local_env None = Ok api /\ is_Some (api_worker api) /\ api_runtime api = RuntimeLocal 1000.
Proof.
  destruct (taskapi_start (T := script) (P := unit) local_env None) as [api|m] eqn:E; [|exfalso; vm_compute in E; discriminate E].
  exists api. split; [done|]. assert (Hm : RuntimeModeFromEnv local_env <> "aws") by (vm_compute; discriminate).
  destruct (taskapi_started local_env None api E) as (H1 & H2 & _). split; [by apply H1|by apply H2].
Defined.

(** A signal while a message is handled. *)
Definition stopping : ApiProc := mkApiProc MainServing StopCancelled 0 ConsumerRunning 1 false.

Lemma stopping_reached : api_reach true stopping.
Proof. eapply rtc_l; [by apply api_dispatch|]. eapply rtc_l; [by apply api_signal|]. apply rtc_refl. Qed.

Lemma taskapi_ends_witness : exists p, rtc api_step stopping p /\ ap_main p = MainExited 0 /\ ap_handlers p = 1%nat.
Proof. destruct (taskapi_ends true stopping stopping_reached) as [_ H]. exact (H eq_refl eq_refl). Defined.
End processes_demo.
